(* ===== verification/_CoqProject ===== *)
-Q . S2P
Prelude.v
Sort.v
Hid.v
ExtraReport.v
Printing.v
Hardware.v
K84cs.v
K80cs.v
Kinesis.v
Kinesis110.v
Ergodox.v
Variants.v
Keystate.v
KeystateReports.v
Debounce.v
KeystateProofs.v
Layers.v
ReportProofs.v
MacroIndex.v
Storage.v
Macro.v
MacroProofs.v
Config.v
ConfigProofs.v
Interpreter.v
InterpreterSpec.v
InterpreterProofs.v
InterpreterProps.v
SpiEeprom.v
SpiProofs.v
TwiBus.v
Twi.v
I2cEeprom.v
I2cProofs.v
Media.v
Descriptors.v
HidHost.v
DescriptorProofs.v
MatrixScan.v
ShiftMatrix.v
K84Board.v
K80Board.v
K80Atmega.v
KinesisBoard.v
Kinesis110Board.v
ErgodoxBoard.v
MatrixProofs.v
BoardProofs.v
Display.v
DisplayProofs.v
Buzzer.v
BuzzerTimers.v
Keyboard.v
KeyboardProofs.v
KeyboardInv.v
KeyboardRuns.v
KeyboardChords.v
KeyboardCommands.v
KeyboardProps.v
DisplayProps.v
UsbMain.v
UsbProofs.v
UsbWire.v
XmegaUsb.v
UsbStream.v
LufaDevice.v
UsbStreamProofs.v
UsbTransfers.v
LufaProofs.v
LufaRequests.v
LufaHid.v
LufaMain.v
LufaMainProofs.v
LufaReports.v
VusbDriver.v
VusbWire.v
VusbWireProofs.v
VusbMain.v
VusbProofs.v
