(* ===== verification/Prelude.v ===== *)
(** * Programmable keyboard firmware: verification library

    A model of the firmware's own C code (the directory src/ of the
    repository), with proofs that it does what it is meant to do.  This file
    is the root of the library: the documentation of the whole below, then the
    notations, tactics and lemmas that all other files share.

    ** The program

    The firmware scans a key matrix, debounces the keys, keeps a table of the
    pressed keys and a layer, and answers the host's polls with keyboard and
    mouse reports.  A state machine around it (Keyboard.c) adds commands (the
    program key with one or two more keys), remapping, recording and playing
    of macros, saved layouts and messages typed out as key presses; user
    programs run on virtual machines.  Settings, layouts, macros and programs
    are kept in eeproms behind one storage interface.  The main loop iterates;
    between two iterations time passes and the host polls or sends requests.

    ** Files

    Foundations.
    - [Prelude]: machine integers of the C types in [Z], counted loops
      ([for_range]), results from some fuel on ([terminates]), lists.
    - [Sort] (sort.c), [Hid] (Descriptors.h, the special key codes of
      keystate.h, usage codes), [ExtraReport] (extrareport.c), [Printing]
      (printing.c).
    - [Buzzer] (buzzer.c) over the class [HfPwm] of what the processors
      provide for a tone, [BuzzerTimers]: its two instances.
    - [Hardware] is the interface a hardware variant provides (hardware.h), a
      class with its laws; [K84cs], [K80cs], [Kinesis], [Kinesis110] and
      [Ergodox] are the tables of hardware/*.c and *.h as instances that
      discharge the laws, [Variants] states them once for all five.
    - [Display] (the display, the lights and the light sensor of
      hardware/k84cs.c, Lcd.cpp) and [DisplayProofs]: the display library is a
      parameter with its documentation as laws ([LcdOk]).

    Keys.
    - [Keystate] (keystate.c: scan, debouncing, table of keys, layers,
      notifications) and [KeystateReports] (its queries, the reports).  The
      record [keystate] holds the static variables of the file.
    - [Debounce], [KeystateProofs], [Layers], [ReportProofs]: their proofs.
    - [MatrixScan] (the scan loop of keystate.c) over the class [MatrixBoard]
      of the functions that select and read a row, with its laws
      [MatrixBoardOk]: a board that keeps them gives the key state the
      switches.  [ShiftMatrix] holds the shift registers and lines of the Katy
      keyboards, [K84Board], [K80Board] and [K80Atmega] the scanning functions
      of hardware/k84cs.c and of hardware/k80cs.c on both processors, access by
      access; [KinesisBoard], [Kinesis110Board] and [ErgodoxBoard] (its left
      half behind an I/O expander, a parameter) those of the other variants.
      [MatrixProofs] and [BoardProofs] discharge the laws.

    Storage.
    - [Storage]: the operations of storage.h as a class, their contract
      [StorageOk] (a medium is an array of cells), and the media the processor
      addresses directly (storage/avr_eeprom.c, sram.h, avr_pgm.h).
    - [SpiEeprom] and [SpiProofs] (storage/spi_eeprom.c,
      lufa/spi_eeprom_endpoint_stream.c), [I2cEeprom] and [I2cProofs]
      (storage/i2c_eeprom.c, lufa/eeext_endpoint_stream.c): the drivers of the
      external eeproms.  The chips are parameters with their documented
      behaviour as laws, and each file has a chip that follows them.
      [Media] makes both drivers instances of [Storage] and discharges its
      contract, so that the macros are proved on the real media.
    - [TwiBus] (twi.h): the two-wire bus as its clients see it; [Twi] (twi.c):
      the bit-banged bus, down to the levels of the two lines.
    - [MacroIndex] (macro_index.c), [Macro] and [MacroProofs] (macro.c),
      [Config] and [ConfigProofs] (config.c): clients of the storage.  The
      macros are proved over any medium with [StorageOk]; the arrays of
      config.c and macro_index.c are lists.

    Programs.
    - [Interpreter] (interpreter.c): the machine whose stack is an array of
      bytes with pointers in it.  [InterpreterSpec]: an abstract machine for
      the byte code of vm.txt, without addresses.  [InterpreterProofs] and
      [InterpreterProps]: the first implements the second.

    The whole.
    - [Keyboard] (Keyboard.c): the record [keyboard] holds the states of all
      components and the static variables of the file.  [keyboard_step] is one
      event (an iteration of [Keyboard_Main], a poll of the host, time, the
      host's LEDs, the state of the bus), [keyboard_run] a run.  Calls of the
      hardware (buzzer, LEDs, LCD, reboot) are recorded in order.
    - [KeyboardProofs] (frames of the calls, the key states up to the hook),
      [KeyboardInv] (invariants), [KeyboardRuns] (runs of many iterations),
      [KeyboardChords] (chords, recorded keys), [KeyboardCommands] (the commands
      that type nothing), [KeyboardProps].
      [DisplayProps]: what the display shows of that state.

    The bus.
    - [UsbMain] and [UsbProofs] (lufa/lufa_main.c): the vendor requests with
      which the client programs read and write the configuration, and the
      reports of the mouse, over the same [keyboard]; a request is one event.
    - [UsbWire] is the specification of the other side of the bus: packets, and
      a host that carries out a control transfer with them; what answers it is
      the class [Wire].
    - [XmegaUsb] (Core/XMEGA/Endpoint_XMEGA.c and .h of lufa/LUFA/Drivers/USB):
      the endpoints of the processor, with the USB module on the other side of
      them.  [UsbStream] (the waits of the library, EndpointStream_XMEGA.c and
      its templates): code that waits, as functions of a schedule of what
      happens outside before each look at a flag.  [LufaDevice]
      (DeviceStandardReq.c, USBTask.c, USBInterrupt_XMEGA.c, HIDClassDevice.c)
      answers the host over the class [LufaEvents] of what it calls in the
      firmware; [LufaMain] (lufa/lufa_main.c) is its instance.
      [UsbStreamProofs] (a logic of triples for code that waits, the host at
      work meanwhile), [UsbTransfers] (the stages of a transfer), [LufaProofs],
      [LufaRequests] and [LufaHid] (streams, standard requests, the HID class)
      lead to [LufaMainProofs] (every control transfer) and [LufaReports] (the
      interrupt endpoint of the keyboard).
    - [VusbMain] and [VusbProofs] (vusb/vusb_main.c): the other USB build,
      whose driver hands over each transfer in packets; its own record [vusb]
      holds a [keyboard] and the progress of the transfer.  The step writes of
      storage.h are a class with a contract ([StepStorageOk]).
    - [VusbDriver] (vusb/usbdrv/usbdrv.c, asmcommon.inc): that driver, over the
      class [UsbFunctions] of what it calls, which [VusbMain] instantiates;
      [VusbWire] and [VusbWireProofs]: its transfers with the host.
    - [Descriptors] (Descriptors.c, Descriptors.h): the bytes that describe the
      device to the host.  [HidHost] is the specification of the other side: a
      host that enumerates the device and parses report descriptors and
      reports as the standards say.  [DescriptorProofs] connects them to the
      reports of the firmware.

    ** How the code is modelled

    Static variables are fields of records; a function that changes them
    takes and returns the record.  C integers are in [Z], with the wrap-around
    of their type written out ([u8], [u16], [u32], [s8], [s16]); the firmware
    is compiled with -fwrapv, -fshort-enums and -fpack-struct.  What a file
    calls elsewhere is either the other component's definition or, for the
    hardware, an event in an output list.  What it reads from elsewhere (the
    matrix, constants in flash, uninitialised variables) is an argument.
    Undefined behaviour gives [None]: a division by zero, an access outside
    the stack of a machine, a request past the end of an array ([oversized]).  Reads past
    the end of an array that the code does make find arbitrary values
    ([outside]).

    Loops are [for_range] with the bound of the source, or fixpoints over the
    data.  Fuel: the heap sort takes the size of its array, and [bsearch] one more than
    the number of entries, which no loop exceeds; the loops over the chunks of a block its
    length, enough as every chunk has a byte (the properties of the eeproms
    include that the calls return).  Polling loops end when the chip finishes
    its write cycle or releases the clock: the documented bound of the SPI chip
    is [max_polls], and any fuel above it gives the result ([returns_within]);
    for the clock the properties state that some fuel is enough ([terminates]).
    The waits of the LUFA library have no bound of their own: a run is given the
    list of what happens outside, it is [Running] when that ends, and the
    properties bound the events it takes to return ([task_bound] for a request,
    300 for a report).  The V-USB driver never waits; a transfer with it is a
    list of rounds, each some polls of the driver and attempts of the host.

    ** What is proved

    - Keys: one update of the key state against the debounced matrix, the
      invariant of the table in every reachable state and the notifications
      that explain the change, whatever happens to the configuration meanwhile;
      debouncing is a hysteresis over the last readings; the count of the held
      keys, and that a layer is explained by a held shift key or the lock, as
      long as no held key becomes a layer key or ceases to be one
      ([press_count_drifts] and [layer_left_behind] show the other case).
    - Reports: the keyboard report, mouse acceleration, extra keys as a
      bounded set, the reports of the mouse lose no motion.
    - The host: by the report descriptors the firmware gives it, a host decodes
      exactly the held keys and the movements of the mouse; enumeration finds
      every length, count and number right.
    - Boards: on every variant a scan through shift registers, demultiplexers,
      ports and the I/O expander reads the switches, scan after scan, whatever
      display and lights do to shared ports; the display and the lights show layer, locks, mode and number
      of the state machine; the buzzer sounds for its time at its pitch, which
      the code takes in Hz (buzzer.h says otherwise).
    - Macros and layouts: the sorted index, the saved layouts and the macro
      heap are finite maps; recording makes exactly one trigger play what was
      recorded, and playing it gives the recorded keys, also through the
      drivers of the external eeproms; loading restores what was saved; a
      reset reaches the factory state.
    - Storage: the eeproms of all three kinds are arrays of cells, write
      cycles, page boundaries and streams included; a missing chip is
      reported.  Bytes cross the two-wire bus unharmed.
    - Interpreter: a step refines an abstract machine with operations of its
      own (the machine of the code, where vm.txt differs), safe programs never
      leave the stack, starting, the calls that wait, the mouse reports.
    - Runs: over any interleaving of iterations, polls, time and requests of
      the host, up to a request longer than its array (which the code does not
      check) or a program that leaves its stack, the settings stay in range and
      the recording hook agrees with the state; typing out a message ends and
      types the message; playback ends; a command that is found held types
      nothing until its keys are released, but for those that set a number and
      layout commands that fail; remapping copies a default; what the host
      writes it reads back.
    - The bus: under every interleaving of the host's packets with the code,
      both builds answer the requests they know with exactly the bytes and the
      effect these stand for, never leave a buffer and never show an error, and
      finish in a bounded number of steps when the host goes on.  The two
      builds answer every vendor request alike and with the same effect, but
      for a write without data, which the V-USB build never answers.  The host
      gets every new report in order: in the V-USB build unless it asks for the
      report while one waits, in the LUFA build as long as it polls once in 98
      frames.

    Where modelling showed an error of the code, a theorem beside the
    definition states what the code does ([spi_memmove_up_wrong],
    [append_overruns_storage], [stack_check_misses_short], [request_past_end]
    and others).

    ** Not modelled, and why

    - In hardware/*.c the setting up of timers, converters and the SPI port,
      and the reboot; the brightness of the lights, which is
      computed in floating point; the light sensor of the K80CS, whose steps
      compare such values with a running timer; the register version of twi.c
      and the start of the processor: I/O without state of its own.
    - The Kinesis variants and the Ergodox do not build at this commit (they
      miss constants the other files use); their own code is modelled, the main
      state machine on them is not.  The V-USB build does not compile either: a
      buffer and a field it uses are not declared; the model has them as a
      field and a parameter.
    - LiquidCrystal/; of lufa/LUFA the other processors, the host mode, the
      other classes and the start-up of the module; the projects, demos and
      bootloaders below lufa/; of vusb/usbdrv the timed assembler code and the
      examples: vendored code the firmware does not use, or pure access to
      registers.  Of the USB module the registers the library touches are
      modelled, with the behaviour the manual of the processor documents.
    - The host of [UsbWire] carries a transfer to its end and repeats what is
      not answered; a host that breaks a transfer off or loses an
      acknowledgement is not one of its behaviours.  The refusal of an
      unknown request is in the model, the properties are about the known ones.
      The streams from and to the medium of the macros read or write the
      medium as a whole before or after the packets.
    - interpreter_harness.c and the test functions of the eeprom drivers:
      debugging aids outside the firmware.
    - compiler, qtclient, ruby-client: host programs in other languages.
    - Interrupts within an iteration of [Keyboard]: the requests come between
      iterations; the millisecond interrupt only increments the time (within
      the LUFA library both happen at any look).  Some long loops of
      config.c, macro.c and macro_index.c call [USB_KeepAlive], which lets the
      library answer a request in the middle of them: the model does not. *)

From stdpp Require Export base list numbers option tactics sorting.
From Stdlib Require Export ZArith Lia.

(** ** Scope and automation *)

Declare Scope c_scope.
Delimit Scope c_scope with c.
Open Scope Z_scope.

Create HintDb firmware.

(** [lia] after the euclidean-division encoding of [mod] and [/]. *)
Ltac dlia := Z.to_euclidean_division_equations; lia.

(** Splits a boolean test of the goal or of a hypothesis. *)
Ltac bsplit :=
  repeat match goal with
  | H : (_ && _)%bool = true |- _ => apply andb_true_iff in H; destruct H
  | H : (_ || _)%bool = false |- _ => apply orb_false_iff in H; destruct H
  | H : negb _ = true |- _ => apply negb_true_iff in H
  | H : negb _ = false |- _ => apply negb_false_iff in H
  | H : (_ =? _) = true |- _ => apply Z.eqb_eq in H
  | H : (_ =? _) = false |- _ => apply Z.eqb_neq in H
  | H : (_ <? _) = true |- _ => apply Z.ltb_lt in H
  | H : (_ <? _) = false |- _ => apply Z.ltb_ge in H
  | H : (_ <=? _) = true |- _ => apply Z.leb_le in H
  | H : (_ <=? _) = false |- _ => apply Z.leb_gt in H
  | H : (_ >? _) = true |- _ => rewrite Z.gtb_ltb in H
  | H : (_ >? _) = false |- _ => rewrite Z.gtb_ltb in H
  | H : (_ >=? _) = true |- _ => rewrite Z.geb_leb in H
  | H : (_ >=? _) = false |- _ => rewrite Z.geb_leb in H
  end.

(** Case analysis on the scrutinee of an [if] in the goal, keeping the equation. *)
Ltac case_if :=
  match goal with
  | |- context [if ?b then _ else _] => destruct b eqn:?
  end; bsplit.

Ltac case_if_in H :=
  match type of H with
  | context [if ?b then _ else _] => destruct b eqn:?
  end; bsplit.

(** ** Machine integers

    Values of C integer types are kept in [Z]; these are the conversions to
    the unsigned types of width 8, 16 and 32 and to the signed types of
    width 8 and 16 (two's complement, as on the AVR targets). *)

Definition u8 (x : Z) : Z := x mod 256.
Definition u16 (x : Z) : Z := x mod 65536.
Definition u32 (x : Z) : Z := x mod 4294967296.
Definition s8 (x : Z) : Z := if u8 x <? 128 then u8 x else u8 x - 256.
Definition s16 (x : Z) : Z := if u16 x <? 32768 then u16 x else u16 x - 65536.

Definition is_u8 (x : Z) : Prop := 0 <= x < 256.
Definition is_u16 (x : Z) : Prop := 0 <= x < 65536.
Definition is_s8 (x : Z) : Prop := -128 <= x < 128.
Definition is_s16 (x : Z) : Prop := -32768 <= x < 32768.

Lemma u8_range x : is_u8 (u8 x).
Proof. unfold is_u8, u8. dlia. Qed.
Lemma u16_range x : is_u16 (u16 x).
Proof. unfold is_u16, u16. dlia. Qed.
Lemma s8_range x : is_s8 (s8 x).
Proof. unfold is_s8, s8, u8. case_if; dlia. Qed.
Lemma s16_range x : is_s16 (s16 x).
Proof. unfold is_s16, s16, u16. case_if; dlia. Qed.

Lemma u8_small x : is_u8 x -> u8 x = x.
Proof. unfold is_u8, u8. intros. apply Z.mod_small. lia. Qed.
Lemma u16_small x : is_u16 x -> u16 x = x.
Proof. unfold is_u16, u16. intros. apply Z.mod_small. lia. Qed.
Lemma s8_small x : is_s8 x -> s8 x = x.
Proof. unfold is_s8, s8, u8. intros. case_if; dlia. Qed.
Lemma s16_small x : is_s16 x -> s16 x = x.
Proof. unfold is_s16, s16, u16. intros. case_if; dlia. Qed.

Lemma s8_u8 x : s8 (u8 x) = s8 x.
Proof. unfold s8, u8. rewrite Z.mod_mod by lia. done. Qed.
Lemma u8_s8 x : u8 (s8 x) = u8 x.
Proof. unfold s8, u8. case_if; dlia. Qed.
Lemma s16_u16 x : s16 (u16 x) = s16 x.
Proof. unfold s16, u16. rewrite Z.mod_mod by lia. done. Qed.
Lemma u16_s16 x : u16 (s16 x) = u16 x.
Proof. unfold s16, u16. case_if; dlia. Qed.

#[export] Hint Resolve u8_range u16_range s8_range s16_range : firmware.
#[export] Hint Rewrite u8_small u16_small s8_small s16_small
  using (unfold is_u8, is_u16, is_s8, is_s16 in *; lia) : firmware.

Lemma mod_eq_diff a b n : n <> 0 -> a mod n = b mod n -> exists q, a - b = n * q.
Proof.
  intros Hn Heq. exists (a / n - b / n).
  pose proof (Z.div_mod a n Hn). pose proof (Z.div_mod b n Hn). lia.
Qed.

(** ** Loops

    [for_range lo n f s] is [for (i = lo; i < lo + n; ++i) s = f(i, s)]: a
    loop whose body never breaks. *)

Section Loops.
Context {S : Type}.

Definition for_range (lo n : nat) (f : nat -> S -> S) (s : S) : S :=
  fold_left (fun s i => f i s) (seq lo n) s.

Lemma for_range_0 lo f s : for_range lo 0 f s = s.
Proof. done. Qed.

Lemma for_range_S lo n f s :
  for_range lo (Datatypes.S n) f s = for_range (Datatypes.S lo) n f (f lo s).
Proof. done. Qed.

Lemma for_range_snoc lo n f s :
  for_range lo (Datatypes.S n) f s = f (lo + n)%nat (for_range lo n f s).
Proof.
  unfold for_range. rewrite seq_S, fold_left_app. done.
Qed.

(** The invariant rule for counted loops. *)
Lemma for_range_ind (P : nat -> S -> Prop) lo n f s :
  P lo s ->
  (forall i s, (lo <= i < lo + n)%nat -> P i s -> P (Datatypes.S i) (f i s)) ->
  P (lo + n)%nat (for_range lo n f s).
Proof.
  intros H0 Hstep. induction n as [|n IH].
  - rewrite Nat.add_0_r. done.
  - rewrite for_range_snoc, Nat.add_succ_r. apply Hstep; [lia|].
    apply IH. intros i s' Hi. apply Hstep. lia.
Qed.

(** A predicate the body preserves holds after the loop. *)
Lemma for_range_inv (P : S -> Prop) lo n f s :
  P s ->
  (forall i s, (lo <= i < lo + n)%nat -> P s -> P (f i s)) ->
  P (for_range lo n f s).
Proof.
  intros H0 Hstep. apply (for_range_ind (fun _ => P)); auto.
Qed.

(** Two loops with pointwise equal bodies. *)
Lemma for_range_ext lo n f g s :
  (forall i s, (lo <= i < lo + n)%nat -> f i s = g i s) ->
  for_range lo n f s = for_range lo n g s.
Proof.
  revert lo s. induction n as [|n IH]; intros lo s Heq; [done|].
  rewrite !for_range_S, Heq by lia. apply IH. intros; apply Heq; lia.
Qed.
End Loops.

(** ** Polling loops: results from some fuel on *)

(** A result that every fuel from [F] on gives. *)
Definition returns_within (F : nat) {A} (f : nat -> option A) (Q : A -> Prop) : Prop :=
  exists a, Q a /\ forall n, (F <= n)%nat -> f n = Some a.

Definition terminates {A} (f : nat -> option A) (Q : A -> Prop) : Prop :=
  exists fuel, returns_within fuel f Q.

Section Polling.
Context {F : nat}.

Lemma within_ret {A} (a : A) (Q : A -> Prop) : Q a -> returns_within F (fun _ => Some a) Q.
Proof. intros HQ. by exists a. Qed.

(** The parts of a computation are given the same fuel. *)
Lemma within_bind {A B} (f : nat -> option A) (g : A -> nat -> option B) (Q : A -> Prop) (R : B -> Prop) :
  returns_within F f Q -> (forall a, Q a -> returns_within F (g a) R) ->
  returns_within F (fun n => a ← f n; g a n) R.
Proof.
  intros (a & Ha & Hf) Hg. destruct (Hg a Ha) as (b & Hb & Hgb).
  exists b. split; [done|]. intros n Hn. rewrite Hf by done. by apply Hgb.
Qed.

Lemma within_mono {A} (f : nat -> option A) (Q R : A -> Prop) :
  returns_within F f Q -> (forall a, Q a -> R a) -> returns_within F f R.
Proof. intros (a & Ha & Hf) HQR. exists a. eauto. Qed.

Lemma within_ext {A} (f g : nat -> option A) (Q : A -> Prop) :
  (forall n, f n = g n) -> returns_within F f Q -> returns_within F g Q.
Proof. intros Hfg (a & Ha & Hf). exists a. split; [done|]. intros n Hn. rewrite <- Hfg. auto. Qed.

Lemma within_more {A} (G : nat) (f : nat -> option A) (Q : A -> Prop) :
  (F <= G)%nat -> returns_within F f Q -> returns_within G f Q.
Proof. intros HG (a & Ha & Hf). exists a. split; [done|]. intros n Hn. apply Hf. lia. Qed.
End Polling.

Lemma terminates_ret {A} (a : A) (Q : A -> Prop) : Q a -> terminates (fun _ => Some a) Q.
Proof. intros HQ. exists 0%nat. by apply within_ret. Qed.

Lemma terminates_bind {A B} (f : nat -> option A) (g : A -> nat -> option B) (Q : A -> Prop) (R : B -> Prop) :
  terminates f Q -> (forall a, Q a -> terminates (g a) R) -> terminates (fun n => a ← f n; g a n) R.
Proof.
  intros (F & a & Ha & Hf) Hg. destruct (Hg a Ha) as (G & b & Hb & Hgb).
  exists (F `max` G)%nat, b. split; [done|]. intros n Hn. rewrite Hf by lia. cbn. apply Hgb. lia.
Qed.

Lemma terminates_mono {A} (f : nat -> option A) (Q R : A -> Prop) :
  terminates f Q -> (forall a, Q a -> R a) -> terminates f R.
Proof. intros [F Hf] HQR. exists F. by eapply within_mono. Qed.

(** ** Lists *)

Lemma lookup_total_insert_eq {A} `{Inhabited A} (l : list A) i x :
  (i < length l)%nat -> <[i:=x]> l !!! i = x.
Proof. intros. apply list_lookup_total_insert_eq. done. Qed.

Lemma lookup_total_lookup {A} `{Inhabited A} (l : list A) i :
  (i < length l)%nat -> l !! i = Some (l !!! i).
Proof. intros. apply list_lookup_lookup_total_lt. done. Qed.

Lemma Forall_insert_in {A} (P : A -> Prop) (l : list A) i x :
  Forall P l -> P x -> Forall P (<[i:=x]> l).
Proof. intros. by apply Forall_insert. Qed.

Lemma Forall_lookup_total {A} `{Inhabited A} (P : A -> Prop) (l : list A) i :
  Forall P l -> (i < length l)%nat -> P (l !!! i).
Proof.
  intros HF Hi. apply (Forall_lookup_1 P l i); [done|]. by apply lookup_total_lookup.
Qed.

Lemma filter_all {A} (P : A -> Prop) `{!forall x, Decision (P x)} l : Forall P l -> filter P l = l.
Proof.
  induction 1 as [|x l Hx Hl IH]; [done|]. by rewrite filter_cons, decide_True, IH.
Qed.

Lemma filter_none {A} (P : A -> Prop) `{!forall x, Decision (P x)} l :
  Forall (fun x => ~ P x) l -> filter P l = [].
Proof.
  induction 1 as [|x l Hx Hl IH]; [done|]. by rewrite filter_cons, decide_False.
Qed.

(** A loop over all indices of an array that updates its own element is a map. *)
Lemma for_range_map_aux {A} `{Inhabited A} (f : A -> A) (pre l : list A) :
  for_range (length pre) (length l) (fun j l => <[j := f (l !!! j)]> l) (pre ++ l)
  = pre ++ map f l.
Proof.
  revert pre. induction l as [|x l IH]; intros pre; [done|].
  cbn [length map]. rewrite for_range_S, list_lookup_total_middle by done.
  rewrite insert_app_r_alt, Nat.sub_diag by lia. cbn [insert list_insert].
  specialize (IH (pre ++ [f x])). rewrite length_app, Nat.add_comm, <- !app_assoc in IH.
  exact IH.
Qed.

Lemma for_range_map {A} `{Inhabited A} (f : A -> A) (l : list A) n :
  length l = n ->
  for_range 0 n (fun j l => <[j := f (l !!! j)]> l) l = map f l.
Proof. intros <-. apply (for_range_map_aux f []). Qed.

(** A loop that reads one array element per iteration is a fold over the array. *)
Lemma for_range_fold_aux {A S} `{Inhabited A} (f : A -> S -> S) (pre l : list A) (s : S) :
  for_range (length pre) (length l) (fun j s => f ((pre ++ l) !!! j) s) s
  = fold_left (fun s x => f x s) l s.
Proof.
  revert pre s. induction l as [|x l IH]; intros pre s; [done|].
  cbn [length fold_left]. rewrite for_range_S, list_lookup_total_middle by done.
  specialize (IH (pre ++ [x]) (f x s)). rewrite length_app, Nat.add_comm, <- !app_assoc in IH.
  exact IH.
Qed.

Lemma for_range_fold {A S} `{Inhabited A} (f : A -> S -> S) (l : list A) (s : S) n :
  length l = n ->
  for_range 0 n (fun j s => f (l !!! j) s) s = fold_left (fun s x => f x s) l s.
Proof. intros <-. apply (for_range_fold_aux f []). Qed.

Lemma forallb_ext {A} (f g : A -> bool) l : (forall x, f x = g x) -> forallb f l = forallb g l.
Proof. intros Hfg. induction l as [|x l IH]; simpl; [done|]. by rewrite Hfg, IH. Qed.

Lemma existsb_ext {A} (f g : A -> bool) l : (forall x, f x = g x) -> existsb f l = existsb g l.
Proof. intros Hfg. induction l as [|x l IH]; simpl; [done|]. by rewrite Hfg, IH. Qed.

Lemma negb_existsb {A} (f : A -> bool) l : negb (existsb f l) = forallb (fun x => negb (f x)) l.
Proof. induction l as [|x l IH]; simpl; [done|]. by rewrite negb_orb, IH. Qed.

Lemma forallb_seq (f : nat -> bool) n :
  forallb f (seq 0 n) = true <-> forall i, (i < n)%nat -> f i = true.
Proof.
  rewrite forallb_forall. split; intros Hf i Hi; apply Hf.
  - apply in_seq. lia.
  - apply in_seq in Hi. lia.
Qed.

Lemma existsb_seq (f : nat -> bool) n :
  existsb f (seq 0 n) = true <-> exists i, (i < n)%nat /\ f i = true.
Proof.
  rewrite existsb_exists. split; intros (i & Hi & Hf); exists i; (split; [|done]).
  - apply in_seq in Hi. lia.
  - apply in_seq. lia.
Qed.

Lemma existsb_seq_S (f : nat -> bool) n :
  existsb f (seq 0 (Datatypes.S n)) = existsb f (seq 0 n) || f n.
Proof. rewrite seq_S, existsb_app. simpl. by rewrite orb_false_r. Qed.

Lemma forallb_seq_S (f : nat -> bool) n :
  forallb f (seq 0 (Datatypes.S n)) = forallb f (seq 0 n) && f n.
Proof. rewrite seq_S, forallb_app. simpl. by rewrite andb_true_r. Qed.

(** Sorted lists of integers are determined by their elements. *)
Lemma Sorted_Permutation_eq (l1 l2 : list Z) :
  Sorted Z.le l1 -> Sorted Z.le l2 -> l1 ≡ₚ l2 -> l1 = l2.
Proof. intros. by apply (Sorted_unique Z.le). Qed.
