(* ===== verification/Sort.v ===== *)
(** * sort.c: insertion sort and heap sort of unsigned bytes

    [insertionsort_uint8] and [heapsort_uint8] of src/sort.c on arrays given as
    lists of byte values, with the loops and index arithmetic of the source.
    Both are shown to sort, and so to compute the same result. *)

From S2P Require Import Prelude.

(** ** Insertion sort *)

(** The inner loop of [insertionsort_uint8]: starting at [j = i], elements
    above [val] move up one position; the result holds the final [j]. *)
Fixpoint shift_up (base : list Z) (val : Z) (j : nat) : list Z * nat :=
  match j with
  | O => (base, O)
  | S j' =>
      if base !!! j' >? val
      then shift_up (<[j := base !!! j']> base) val j'
      else (base, j)
  end.

(** One iteration of the outer loop. *)
Definition insert_step (i : nat) (base : list Z) : list Z :=
  let val := base !!! i in
  let '(base', j) := shift_up base val i in
  <[j := val]> base'.

Definition insertionsort_uint8 (base : list Z) (nmemb : nat) : list Z :=
  for_range 1 (nmemb - 1) insert_step base.

(** ** Heap sort *)

(** The source numbers the elements from 1: [base = vbase - 1]. *)
Definition bget (l : list Z) (k : Z) : Z := l !!! Z.to_nat (k - 1).
Definition bset (l : list Z) (k v : Z) : list Z := <[Z.to_nat (k - 1) := v]> l.

(** [SWAP(par, child, tmp)] *)
Definition bswap (l : list Z) (a b : Z) : list Z :=
  bset (bset l a (bget l b)) b (bget l a).

(** The larger of the two children: [child_i], or [child_i + 1]. *)
Definition larger_child (l : list Z) (nmemb child_i : Z) : Z :=
  if (child_i <? nmemb) && (bget l child_i <? bget l (child_i + 1))
  then child_i + 1 else child_i.

(** The loop that builds the heap below [par_i] ([uint16_t] indices). *)
Fixpoint sift_down (fuel : nat) (l : list Z) (nmemb par_i : Z) : list Z :=
  match fuel with
  | O => l
  | S fuel =>
      let child_i := u16 (par_i * 2) in
      if child_i <=? nmemb then
        let child_i := larger_child l nmemb child_i in
        if bget l child_i <=? bget l par_i then l
        else sift_down fuel (bswap l par_i child_i) nmemb child_i
      else l
  end.

(** [for (initval = nmemb / 2 + 1; --initval; )] *)
Fixpoint build_heap (fuel initval : nat) (l : list Z) (nmemb : Z) : list Z :=
  match initval with
  | O => l
  | S i => build_heap fuel i (sift_down fuel l nmemb (Z.of_nat initval)) nmemb
  end.

(** The descent of the extraction phase: the larger child is copied over its
    parent until the hole reaches the bottom, at the returned index. *)
Fixpoint descend (fuel : nat) (l : list Z) (nmemb par_i : Z) : list Z * Z :=
  match fuel with
  | O => (l, par_i)
  | S fuel =>
      let child_i := u16 (par_i * 2) in
      if child_i <=? nmemb then
        let child_i := larger_child l nmemb child_i in
        descend fuel (bset l par_i (bget l child_i)) nmemb child_i
      else (l, par_i)
  end.

(** The ascent: from the bottom, find the place of [k]. *)
Fixpoint ascend (fuel : nat) (l : list Z) (k par_i : Z) : list Z :=
  match fuel with
  | O => l
  | S fuel =>
      let child_i := par_i in
      let par_i := child_i / 2 in
      if (child_i =? 1) || (k <? bget l par_i) then bset l child_i k
      else ascend fuel (bset l child_i (bget l par_i)) k par_i
  end.

(** One iteration of [while (nmemb > 1)], which also decrements [nmemb]. *)
Definition extract_step (fuel : nat) (l : list Z) (nmemb : Z) : list Z :=
  let k := bget l nmemb in
  let l := bset l nmemb (bget l 1) in
  let nmemb := nmemb - 1 in
  let '(l, par_i) := descend fuel l nmemb 1 in
  ascend fuel l k par_i.

Fixpoint extract_all (fuel : nat) (n : nat) (l : list Z) : list Z :=
  match n with
  | O | 1%nat => l
  | S n' => extract_all fuel n' (extract_step fuel l (Z.of_nat n))
  end.

(** Every loop runs at most [nmemb] times: that is the fuel. *)
Definition heapsort_uint8 (vbase : list Z) (nmemb : nat) : list Z :=
  if (nmemb <=? 1)%nat then vbase
  else
    let l := build_heap nmemb (nmemb / 2)%nat vbase (Z.of_nat nmemb) in
    extract_all nmemb nmemb l.

(** ** Insertion sort is correct *)

Lemma shift_up_spec pre x post val :
  exists p1 p2,
    pre = p1 ++ p2 /\ Forall (fun y => val < y) p2 /\
    (p1 = [] \/ exists q y, p1 = q ++ [y] /\ y <= val) /\
    (let '(b, j) := shift_up (pre ++ x :: post) val (length pre) in
     <[j := val]> b) = p1 ++ val :: p2 ++ post.
Proof.
  revert x post. induction pre as [|y pre IH] using rev_ind; intros x post.
  - exists [], []. simpl. auto.
  - rewrite length_app, Nat.add_comm. cbn [length Nat.add shift_up].
    rewrite <- app_assoc. cbn [app].
    rewrite list_lookup_total_middle by done.
    case_if.
    + destruct (IH y (y :: post)) as (p1 & p2 & -> & Hp2 & Hp1 & Heq).
      exists p1, (p2 ++ [y]).
      replace (<[S (length (p1 ++ p2)):=y]> ((p1 ++ p2) ++ y :: x :: post))
        with ((p1 ++ p2) ++ y :: y :: post).
      2:{ rewrite insert_app_r_alt by lia.
          replace (S (length (p1 ++ p2)) - length (p1 ++ p2))%nat with 1%nat by lia. done. }
      rewrite Heq. rewrite <- !app_assoc. cbn [app].
      repeat split; auto. apply Forall_app; split; auto.
    + exists (pre ++ [y]), []. rewrite app_nil_r.
      repeat split; auto.
      * right. exists pre, y. split; [done|lia].
      * rewrite insert_app_r_alt by lia.
        replace (S (length pre) - length pre)%nat with 1%nat by lia.
        cbn. rewrite <- app_assoc. done.
Qed.

Lemma insert_step_spec pre x post :
  Sorted Z.le pre ->
  exists l, insert_step (length pre) (pre ++ x :: post) = l ++ post /\
    l ≡ₚ x :: pre /\ Sorted Z.le l.
Proof.
  intros Hs. unfold insert_step. rewrite list_lookup_total_middle by done.
  destruct (shift_up_spec pre x post x) as (p1 & p2 & -> & Hp2 & Hp1 & Heq).
  rewrite Heq. exists (p1 ++ x :: p2).
  rewrite <- app_assoc. split; [done|]. split; [symmetry; apply Permutation_middle|].
  apply Sorted_StronglySorted in Hs; [|intros ???; lia].
  apply StronglySorted_app in Hs as (Hcross & Hs1 & Hs2).
  apply StronglySorted_Sorted, StronglySorted_app. split_and!; [|done|].
  - assert (Hle : forall y, y ∈ p1 -> y <= x).
    { destruct Hp1 as [->|(q & z & -> & Hz)]; [intros ? ?%elem_of_nil; done|].
      apply StronglySorted_app in Hs1 as (Hq & _ & _).
      intros y [Hy|Hy%list_elem_of_singleton]%elem_of_app.
      - specialize (Hq y z Hy ltac:(by apply list_elem_of_singleton)). lia.
      - lia. }
    intros y z Hy [->|Hz]%elem_of_cons; [by apply Hle|]. by apply Hcross.
  - constructor; [done|]. eapply Forall_impl; [exact Hp2|]. simpl. lia.
Qed.

(** After [n] outer iterations the first [n + 1] elements are sorted. *)
Lemma insertionsort_prefix base n :
  (n < length base)%nat ->
  exists l, for_range 1 n insert_step base = l ++ drop (S n) base /\
    l ≡ₚ take (S n) base /\ Sorted Z.le l.
Proof.
  induction n as [|n IH]; intros Hn.
  - destruct base as [|x base]; [simpl in Hn; lia|].
    exists [x]. cbn. rewrite take_0. auto.
  - destruct IH as (l & Heq & Hp & Hs); [lia|].
    destruct (drop (S n) base) as [|x post] eqn:Hd.
    { apply (f_equal length) in Hd. rewrite length_drop in Hd. simpl in Hd. lia. }
    rewrite for_range_snoc, Heq.
    assert (Hlen : length l = (1 + n)%nat).
    { rewrite Hp, length_take. lia. }
    rewrite <- Hlen.
    destruct (insert_step_spec l x post Hs) as (l' & -> & Hp' & Hs').
    assert (Hx : base !! S n = Some x).
    { rewrite <- (Nat.add_0_r (S n)), <- lookup_drop, Hd. done. }
    assert (Hpost : post = drop (S (S n)) base).
    { rewrite <- Nat.add_1_r, <- drop_drop, Hd. done. }
    exists l'. rewrite Hpost. split; [done|]. split; [|done].
    rewrite Hp', (take_S_r _ _ _ Hx), Hp. rewrite Permutation_app_comm. done.
Qed.

Lemma insertionsort_spec base nmemb :
  (nmemb <= length base)%nat ->
  exists l, insertionsort_uint8 base nmemb = l ++ drop nmemb base /\
    l ≡ₚ take nmemb base /\ Sorted Z.le l.
Proof.
  intros Hn. destruct nmemb as [|n].
  - exists []. rewrite take_0. cbn. auto.
  - unfold insertionsort_uint8. replace (S n - 1)%nat with n by lia.
    apply insertionsort_prefix. lia.
Qed.

(** ** Heap sort is correct *)

Section ArrayFromOne.
Implicit Types (l : list Z) (i k n p : Z).

Lemma length_bset l k v : length (bset l k v) = length l.
Proof. apply length_insert. Qed.

Lemma bget_bset_eq l k v : 1 <= k <= Z.of_nat (length l) -> bget (bset l k v) k = v.
Proof. intros. apply lookup_total_insert_eq. lia. Qed.

Lemma bget_bset_ne l k k' v : 1 <= k -> 1 <= k' -> k <> k' -> bget (bset l k v) k' = bget l k'.
Proof. intros. apply list_lookup_total_insert_ne. lia. Qed.

Lemma bget_bset l k k' v :
  1 <= k <= Z.of_nat (length l) -> 1 <= k' ->
  bget (bset l k v) k' = if k =? k' then v else bget l k'.
Proof.
  intros. case_if; [subst; by apply bget_bset_eq|by apply bget_bset_ne; lia].
Qed.

(** Moving the hole of an array from [p] to [c] permutes its contents. *)
Lemma hole_move l p c k :
  1 <= p <= Z.of_nat (length l) -> 1 <= c <= Z.of_nat (length l) -> p <> c ->
  bset (bset l p (bget l c)) c k ≡ₚ bset l p k.
Proof.
  intros Hp Hc Hne. unfold bset, bget.
  rewrite <- (Permutation_insert_swap (<[Z.to_nat (p - 1):=k]> l)
                (Z.to_nat (p - 1)) (Z.to_nat (c - 1)) k (l !!! Z.to_nat (c - 1))).
  - rewrite list_insert_insert_eq. done.
  - apply list_lookup_insert_eq. lia.
  - rewrite list_lookup_insert_ne by lia. apply lookup_total_lookup. lia.
Qed.

Lemma length_bswap l a b : length (bswap l a b) = length l.
Proof. unfold bswap. by rewrite !length_bset. Qed.

Lemma bswap_Permutation l a b :
  1 <= a <= Z.of_nat (length l) -> 1 <= b <= Z.of_nat (length l) -> a <> b ->
  bswap l a b ≡ₚ l.
Proof.
  intros Ha Hb Hne. unfold bswap. rewrite hole_move by done.
  unfold bset, bget. rewrite list_insert_id by (apply lookup_total_lookup; lia). done.
Qed.

Lemma bget_bswap l a b k :
  1 <= a <= Z.of_nat (length l) -> 1 <= b <= Z.of_nat (length l) -> a <> b -> 1 <= k ->
  bget (bswap l a b) k =
    if b =? k then bget l a else if a =? k then bget l b else bget l k.
Proof.
  intros. unfold bswap. rewrite !bget_bset; rewrite ?length_bset; auto.
Qed.

(** [l] restricted to [1 .. n] is a heap at every parent [q >= lo] other than [p]. *)
Definition heap_but l lo n p : Prop :=
  forall i, 2 <= i <= n -> lo <= i / 2 -> i / 2 <> p -> bget l i <= bget l (i / 2).

Definition heap l lo n : Prop :=
  forall i, 2 <= i <= n -> lo <= i / 2 -> bget l i <= bget l (i / 2).

Definition bounded l n M : Prop := forall i, 1 <= i <= n -> bget l i <= M.

Lemma larger_child_cases l n c :
  larger_child l n c = c \/ larger_child l n c = c + 1.
Proof. unfold larger_child. case_if; auto. Qed.

Lemma larger_child_spec l n p :
  1 <= p -> p * 2 <= n ->
  let c := larger_child l n (p * 2) in
  p < c <= n /\ c / 2 = p /\ forall i, 2 <= i <= n -> i / 2 = p -> bget l i <= bget l c.
Proof.
  intros Hp Hn. unfold larger_child.
  destruct ((p * 2 <? n) && (bget l (p * 2) <? bget l (p * 2 + 1))) eqn:E; cbv zeta.
  - bsplit. split_and!; try dlia. intros i Hi Hip.
    assert (i = p * 2 \/ i = p * 2 + 1) as [->| ->] by dlia; lia.
  - split_and!; try dlia. intros i Hi Hip.
    assert (i = p * 2 \/ i = p * 2 + 1) as [->| ->] by dlia; [lia|].
    apply andb_false_iff in E as [E|E]; bsplit; lia.
Qed.
End ArrayFromOne.

#[export] Hint Rewrite length_bset length_bswap : firmware.

Lemma u16_double p n : 0 <= p <= n -> n <= 32767 -> u16 (p * 2) = p * 2.
Proof. intros. apply u16_small. unfold is_u16. lia. Qed.

Lemma sift_down_spec fuel l n p lo :
  1 <= lo <= p -> p <= n -> n <= Z.of_nat (length l) -> n <= 32767 ->
  n - p < Z.of_nat fuel ->
  heap_but l lo n p ->
  (forall i, 2 <= i <= n -> i / 2 = p -> lo <= p / 2 -> bget l i <= bget l (p / 2)) ->
  heap (sift_down fuel l n p) lo n /\ sift_down fuel l n p ≡ₚ l.
Proof.
  revert l p. induction fuel as [|fuel IH]; intros l p Hlo Hpn Hlen Hmax Hf Hh Hg; [lia|].
  cbn [sift_down]. rewrite (u16_double p n) by lia. case_if.
  2:{ split; [|done]. intros i Hi Hi2. apply Hh; [done|done|]. dlia. }
  destruct (larger_child_spec l n p) as (Hc & Hcp & Hmaxc); [lia..|].
  set (c := larger_child l n (p * 2)) in *. clearbody c.
  case_if.
  - split; [|done]. intros i Hi Hi2.
    destruct (Z.eq_dec (i / 2) p) as [He|Hne]; [|by apply Hh].
    rewrite He. transitivity (bget l c); [by apply Hmaxc|lia].
  - assert (Hsw : forall k, 1 <= k -> bget (bswap l p c) k =
        if c =? k then bget l p else if p =? k then bget l c else bget l k).
    { intros. apply bget_bswap; lia. }
    destruct (IH (bswap l p c) c) as [H1 H2]; rewrite ?length_bswap; try lia.
    + (* heap everywhere but below c *)
      intros i Hi Hi2 Hic.
      destruct (Z.eq_dec i c) as [->|Hne].
      { rewrite Hcp, !Hsw by lia. rewrite Z.eqb_refl.
        destruct (Z.eqb_spec c p); [lia|]. rewrite Z.eqb_refl. lia. }
      destruct (Z.eq_dec i p) as [->|Hne'].
      { rewrite !Hsw by dlia. rewrite Z.eqb_refl.
        rewrite !(proj2 (Z.eqb_neq _ _)) by dlia. apply Hg; lia. }
      destruct (Z.eq_dec (i / 2) p) as [He|Hne''].
      { rewrite He, !Hsw by lia. rewrite Z.eqb_refl.
        rewrite !(proj2 (Z.eqb_neq _ _)) by lia. by apply Hmaxc. }
      rewrite !Hsw by dlia. rewrite !(proj2 (Z.eqb_neq _ _)) by lia. by apply Hh.
    + (* the children of c are below its parent *)
      intros i Hi Hic Hlo2. rewrite Hcp in *. rewrite !Hsw by dlia. rewrite Z.eqb_refl.
      rewrite !(proj2 (Z.eqb_neq _ _)) by dlia. rewrite <- Hic. apply Hh; dlia.
    + split; [done|]. rewrite H2. apply bswap_Permutation; lia.
Qed.

Lemma sift_down_length fuel l n p : length (sift_down fuel l n p) = length l.
Proof.
  revert l p. induction fuel as [|fuel IH]; intros l p; [done|].
  cbn [sift_down]. repeat case_if; auto. rewrite IH. apply length_bswap.
Qed.

Lemma build_heap_spec fuel i l n :
  2 * Z.of_nat i <= n -> n <= Z.of_nat (length l) -> n <= 32767 -> n < Z.of_nat fuel + 1 ->
  heap l (Z.of_nat i + 1) n ->
  heap (build_heap fuel i l n) 1 n /\ build_heap fuel i l n ≡ₚ l.
Proof.
  revert l. induction i as [|i IH]; intros l Hi Hlen Hmax Hf Hh; [done|].
  cbn [build_heap].
  destruct (sift_down_spec fuel l n (Z.of_nat (S i)) (Z.of_nat (S i))) as [H1 H2]; try lia.
  - intros j Hj Hj2 Hne. apply Hh; lia.
  - intros j Hj Hj2 Hlo. exfalso. dlia.
  - destruct (IH (sift_down fuel l n (Z.of_nat (S i)))) as [H3 H4];
      rewrite ?sift_down_length; try lia.
    + intros j Hj Hj2. apply H1; lia.
    + split; [done|]. by rewrite H4.
Qed.

(** The descent keeps the heap, ends at a leaf, and moves the hole there. *)
Lemma descend_spec fuel l n p k l' p' :
  1 <= p <= n -> n <= Z.of_nat (length l) -> n <= 32767 -> n - p < Z.of_nat fuel ->
  heap l 1 n ->
  descend fuel l n p = (l', p') ->
  heap l' 1 n /\ bset l' p' k ≡ₚ bset l p k /\ 1 <= p' <= n /\ n < 2 * p' /\
  length l' = length l /\ (forall i, n < i -> bget l' i = bget l i).
Proof.
  revert l p. induction fuel as [|fuel IH]; intros l p Hp Hlen Hmax Hf Hh; [lia|].
  cbn [descend]. rewrite (u16_double p n) by lia. case_if.
  2:{ intros [= <- <-]. split_and!; auto; lia. }
  destruct (larger_child_spec l n p) as (Hc & Hcp & Hmaxc); [lia..|].
  set (c := larger_child l n (p * 2)) in *. clearbody c. intros Hd.
  assert (Hle : bget l c <= bget l p) by (rewrite <- Hcp; apply Hh; lia).
  assert (Hb : forall j, 1 <= j -> bget (bset l p (bget l c)) j =
            if p =? j then bget l c else bget l j) by (intros; apply bget_bset; lia).
  apply IH in Hd as (H1 & H2 & H3 & H4 & H5 & H6); rewrite ?length_bset in *; try lia.
  - split_and!; auto; try lia.
    + rewrite H2. apply hole_move; lia.
    + intros i Hi. rewrite H6, Hb by lia. case_if; [lia|done].
  - intros i Hi _. rewrite !Hb by dlia.
    destruct (Z.eqb_spec p i) as [He|]; destruct (Z.eqb_spec p (i / 2)) as [He'|].
    + exfalso. dlia.
    + transitivity (bget l p); [lia|]. rewrite He. apply Hh; dlia.
    + apply Hmaxc; lia.
    + apply Hh; dlia.
Qed.

Lemma descend_bounded fuel l n p M :
  1 <= p <= n -> n <= Z.of_nat (length l) -> n <= 32767 ->
  bounded l n M -> bounded (descend fuel l n p).1 n M.
Proof.
  revert l p. induction fuel as [|fuel IH]; intros l p Hp Hlen Hmax Hb; [done|].
  cbn [descend]. rewrite (u16_double p n) by lia. case_if; [|done].
  destruct (larger_child_spec l n p) as (Hc & Hcp & _); [lia..|].
  apply IH; rewrite ?length_bset; try lia.
  intros i Hi. rewrite bget_bset by lia. case_if; apply Hb; lia.
Qed.

(** The ascent restores the heap with [k] in the hole. *)
Lemma ascend_spec fuel l n c k :
  1 <= c <= n -> n <= Z.of_nat (length l) -> c <= Z.of_nat fuel ->
  heap l 1 n -> (forall i, 2 <= i <= n -> i / 2 = c -> bget l i <= k) ->
  heap (ascend fuel l k c) 1 n /\ ascend fuel l k c ≡ₚ bset l c k /\
  (forall i, n < i -> bget (ascend fuel l k c) i = bget l i) /\
  (forall M, bounded l n M -> k <= M -> bounded (ascend fuel l k c) n M).
Proof.
  revert l c. induction fuel as [|fuel IH]; intros l c Hc Hlen Hf Hh Hk; [lia|].
  cbn [ascend].
  assert (Hb : forall v j, 1 <= j -> bget (bset l c v) j =
            if c =? j then v else bget l j) by (intros; apply bget_bset; lia).
  destruct ((c =? 1) || (k <? bget l (c / 2))) eqn:E.
  - split_and!; [|done| |].
    + intros i Hi Hi2. rewrite !Hb by dlia.
      destruct (Z.eqb_spec c i) as [He|]; destruct (Z.eqb_spec c (i / 2)) as [He'|].
      * exfalso. dlia.
      * rewrite <- He. apply orb_true_iff in E as [E|E]; [exfalso|]; bsplit.
        { apply Z.eqb_eq in E. lia. }
        lia.
      * by apply Hk.
      * by apply Hh.
    + intros i Hi. rewrite Hb by lia. case_if; [lia|done].
    + intros M HM HkM i Hi. rewrite Hb by lia. case_if; [done|by apply HM].
  - bsplit. assert (Hpc : bget l c <= bget l (c / 2)) by (apply Hh; dlia).
    destruct (IH (bset l c (bget l (c / 2))) (c / 2)) as (H1 & H2 & H3 & H4);
      rewrite ?length_bset; try dlia.
    + intros i Hi Hi2. rewrite !Hb by dlia.
      destruct (Z.eqb_spec c i) as [He|]; destruct (Z.eqb_spec c (i / 2)) as [He'|];
        subst; try lia; try (by apply Hh).
      transitivity (bget l (i / 2)); [by apply Hh|done].
    + intros i Hi Hi2. rewrite Hb by dlia. case_if; [lia|].
      transitivity (bget l (c / 2)); [|lia]. rewrite <- Hi2. apply Hh; dlia.
    + split_and!; [done| | |].
      * rewrite H2. apply hole_move; dlia.
      * intros i Hi. rewrite H3, Hb by lia. case_if; [lia|done].
      * intros M HM HkM. apply H4; [|done]. intros i Hi. rewrite Hb by lia.
        case_if; apply HM; dlia.
Qed.

Lemma heap_top l n : heap l 1 n -> bounded l n (bget l 1).
Proof.
  intros Hh i Hi.
  assert (Hall : forall m j, j <= Z.of_nat m -> 1 <= j <= n -> bget l j <= bget l 1).
  { induction m as [|m IH]; intros j Hm Hj; [lia|].
    destruct (Z.eq_dec j 1) as [->|]; [done|].
    transitivity (bget l (j / 2)); [apply Hh|apply IH]; dlia. }
  apply (Hall (Z.to_nat i)); lia.
Qed.

(** The state between two extractions: a heap of [n] elements below a sorted tail. *)
Definition heap_and_tail (l : list Z) (n : Z) : Prop :=
  heap l 1 n /\
  (forall i j, 1 <= i <= n -> n < j <= Z.of_nat (length l) -> bget l i <= bget l j) /\
  (forall i, n < i < Z.of_nat (length l) -> bget l i <= bget l (i + 1)).

Lemma extract_step_spec fuel l n :
  2 <= n <= Z.of_nat (length l) -> n <= 32767 -> n <= Z.of_nat fuel ->
  heap_and_tail l n ->
  heap_and_tail (extract_step fuel l n) (n - 1) /\ extract_step fuel l n ≡ₚ l.
Proof.
  intros Hn Hmax Hf (Hh & Hcross & Htail). unfold extract_step.
  pose proof (heap_top l n Hh) as Htop.
  set (l1 := bset l n (bget l 1)).
  assert (Hlen1 : length l1 = length l) by apply length_bset.
  assert (Hb1 : forall j, 1 <= j -> bget l1 j = if n =? j then bget l 1 else bget l j)
    by (intros; apply bget_bset; lia).
  assert (Hh1 : heap l1 1 (n - 1)).
  { intros i Hi Hi2. rewrite !Hb1 by dlia. repeat case_if; try dlia. apply Hh; dlia. }
  assert (HM1 : bounded l1 (n - 1) (bget l 1)).
  { intros i Hi. rewrite Hb1 by lia. case_if; [done|]. apply Htop. lia. }
  pose proof (descend_bounded fuel l1 (n - 1) 1 (bget l 1)) as HM2.
  destruct (descend fuel l1 (n - 1) 1) as [l2 p] eqn:Hd. cbn [fst] in HM2.
  apply (descend_spec fuel l1 (n - 1) 1 (bget l n)) in Hd as (H1 & H2 & H3 & H4 & H5 & H6);
    try lia; try done.
  destruct (ascend_spec fuel l2 (n - 1) p (bget l n)) as (A1 & A2 & A3 & A4);
    try lia; try done; [intros i Hi Hip; exfalso; dlia|].
  set (l3 := ascend fuel l2 (bget l n) p) in *.
  assert (HM3 : bounded l3 (n - 1) (bget l 1)).
  { apply A4; [apply HM2; lia || done|]. apply Htop. lia. }
  assert (Hp : l3 ≡ₚ l).
  { rewrite A2, H2. apply (bswap_Permutation l n 1); lia. }
  assert (Hlen3 : length l3 = length l) by (by rewrite Hp).
  assert (Hout : forall j, n <= j -> bget l3 j = if n =? j then bget l 1 else bget l j).
  { intros j Hj. rewrite A3, H6, Hb1 by lia. done. }
  split; [|done]. split_and!; [done| |].
  - intros i j Hi Hj. rewrite Hlen3 in Hj. rewrite (Hout j) by lia.
    transitivity (bget l 1); [by apply HM3|]. case_if; [done|]. apply Hcross; lia.
  - intros i Hi. rewrite Hlen3 in Hi. rewrite !Hout by lia.
    repeat case_if; try lia; [apply Hcross; lia|apply Htail; lia].
Qed.

Lemma extract_all_spec fuel n l :
  (1 <= n <= length l)%nat -> Z.of_nat n <= 32767 -> Z.of_nat n <= Z.of_nat fuel ->
  heap_and_tail l (Z.of_nat n) ->
  heap_and_tail (extract_all fuel n l) 1 /\ extract_all fuel n l ≡ₚ l.
Proof.
  revert l. induction n as [|n IH]; intros l Hn Hmax Hf Hi; [lia|].
  destruct n as [|n]; [done|]. cbn [extract_all].
  destruct (extract_step_spec fuel l (Z.of_nat (S (S n)))) as [H1 H2]; try lia; [done|].
  replace (Z.of_nat (S (S n)) - 1) with (Z.of_nat (S n)) in H1 by lia.
  cbn [extract_all] in IH.
  destruct (IH (extract_step fuel l (Z.of_nat (S (S n))))) as [H3 H4]; try lia; try done.
  - rewrite H2. lia.
  - split; [done|]. by rewrite H4.
Qed.

Lemma Sorted_from_lookup (l : list Z) :
  (forall i, 1 <= i < Z.of_nat (length l) -> bget l i <= bget l (i + 1)) ->
  Sorted Z.le l.
Proof.
  induction l as [|x l IH]; intros H; [constructor|].
  constructor.
  - apply IH. intros i Hi. specialize (H (i + 1)). cbn [length] in H.
    unfold bget in *. replace (Z.to_nat (i + 1 + 1 - 1)) with (S (Z.to_nat (i + 1 - 1))) in H by lia.
    replace (Z.to_nat (i + 1 - 1)) with (S (Z.to_nat (i - 1))) in H at 1 by lia.
    apply H. lia.
  - destruct l as [|y l]; constructor. apply (H 1). cbn [length]. lia.
Qed.

Lemma heapsort_spec vbase :
  Z.of_nat (length vbase) <= 32767 ->
  Sorted Z.le (heapsort_uint8 vbase (length vbase)) /\
  heapsort_uint8 vbase (length vbase) ≡ₚ vbase.
Proof.
  intros Hmax. unfold heapsort_uint8. destruct (length vbase <=? 1)%nat eqn:E.
  - apply Nat.leb_le in E. split; [|done].
    destruct vbase as [|? [|]]; [constructor|repeat constructor|simpl in E; lia].
  - apply Nat.leb_gt in E. set (n := length vbase) in *.
    destruct (build_heap_spec n (n / 2) vbase (Z.of_nat n)) as [H1 H2]; try lia.
    + rewrite Nat2Z.inj_div. dlia.
    + intros i Hi Hi2. exfalso. rewrite Nat2Z.inj_div in Hi2. dlia.
    + assert (Hl : length (build_heap n (n / 2) vbase (Z.of_nat n)) = n) by (by rewrite H2).
      destruct (extract_all_spec n n (build_heap n (n / 2) vbase (Z.of_nat n)))
        as [[_ [H3 H4]] H5]; try lia.
      { split_and!; [done|intros; lia..]. }
      split; [|by rewrite H5]. apply Sorted_from_lookup. intros i Hi.
      destruct (Z.eq_dec i 1) as [->|]; [apply H3; lia|apply H4; lia].
Qed.

(** ** The properties *)

(** On an array of at most 32767 bytes, [heapsort_uint8] and
    [insertionsort_uint8] both sort their argument, without losing or
    inventing an element, so they compute the same result. *)
Theorem sorts_agree (vbase : list Z) :
  Z.of_nat (length vbase) <= 32767 ->
  Sorted Z.le (heapsort_uint8 vbase (length vbase)) /\
  heapsort_uint8 vbase (length vbase) ≡ₚ vbase /\
  insertionsort_uint8 vbase (length vbase) = heapsort_uint8 vbase (length vbase).
Proof.
  intros Hn. destruct (heapsort_spec vbase Hn) as [Hs Hp]. split_and!; [done..|].
  destruct (insertionsort_spec vbase (length vbase)) as (l & -> & Hl & Hsl); [done|].
  rewrite drop_all, app_nil_r. apply Sorted_Permutation_eq; [done..|].
  by rewrite Hl, Hp, firstn_all.
Qed.

Lemma sorts_agree_witness :
  Z.of_nat (length [121; 241; 155; 4; 100; 2]) <= 32767 /\
  insertionsort_uint8 [121; 241; 155; 4; 100; 2] 6 = [2; 4; 100; 121; 155; 241] /\
  (Sorted Z.le (heapsort_uint8 [121; 241; 155; 4; 100; 2] 6) /\
   heapsort_uint8 [121; 241; 155; 4; 100; 2] 6 ≡ₚ [121; 241; 155; 4; 100; 2] /\
   insertionsort_uint8 [121; 241; 155; 4; 100; 2] 6
     = heapsort_uint8 [121; 241; 155; 4; 100; 2] 6).
Proof.
  split; [cbn; lia|].
  split; [vm_compute; reflexivity|].
  apply (sorts_agree [121; 241; 155; 4; 100; 2]).
  cbn; lia.
Defined.
