(* ===== verification/Hid.v ===== *)
(** * USB HID constants and report structures

    The HID usage codes of LUFA's HIDClassCommon.h that the firmware names, the
    special key codes of src/keystate.h, and the two report structures of
    src/Descriptors.h.  Constants are abbreviations, so that arithmetic sees
    the numbers. *)

From S2P Require Import Prelude.

(** ** Usage codes and modifier masks *)

Abbreviation HID_KEYBOARD_MODIFIER_LEFTSHIFT := 2%Z (only parsing).
Abbreviation HID_KEYBOARD_LED_NUMLOCK := 1%Z (only parsing).
Abbreviation HID_KEYBOARD_LED_CAPSLOCK := 2%Z (only parsing).
Abbreviation HID_KEYBOARD_LED_SCROLLLOCK := 4%Z (only parsing).
Abbreviation HID_KEYBOARD_SC_ERROR_ROLLOVER := 0x01%Z (only parsing).
Abbreviation HID_KEYBOARD_SC_A := 0x04%Z (only parsing).
Abbreviation HID_KEYBOARD_SC_B := 0x05%Z (only parsing).
Abbreviation HID_KEYBOARD_SC_C := 0x06%Z (only parsing).
Abbreviation HID_KEYBOARD_SC_D := 0x07%Z (only parsing).
Abbreviation HID_KEYBOARD_SC_E := 0x08%Z (only parsing).
Abbreviation HID_KEYBOARD_SC_F := 0x09%Z (only parsing).
Abbreviation HID_KEYBOARD_SC_G := 0x0A%Z (only parsing).
Abbreviation HID_KEYBOARD_SC_H := 0x0B%Z (only parsing).
Abbreviation HID_KEYBOARD_SC_I := 0x0C%Z (only parsing).
Abbreviation HID_KEYBOARD_SC_J := 0x0D%Z (only parsing).
Abbreviation HID_KEYBOARD_SC_K := 0x0E%Z (only parsing).
Abbreviation HID_KEYBOARD_SC_L := 0x0F%Z (only parsing).
Abbreviation HID_KEYBOARD_SC_M := 0x10%Z (only parsing).
Abbreviation HID_KEYBOARD_SC_N := 0x11%Z (only parsing).
Abbreviation HID_KEYBOARD_SC_O := 0x12%Z (only parsing).
Abbreviation HID_KEYBOARD_SC_P := 0x13%Z (only parsing).
Abbreviation HID_KEYBOARD_SC_Q := 0x14%Z (only parsing).
Abbreviation HID_KEYBOARD_SC_R := 0x15%Z (only parsing).
Abbreviation HID_KEYBOARD_SC_S := 0x16%Z (only parsing).
Abbreviation HID_KEYBOARD_SC_T := 0x17%Z (only parsing).
Abbreviation HID_KEYBOARD_SC_U := 0x18%Z (only parsing).
Abbreviation HID_KEYBOARD_SC_V := 0x19%Z (only parsing).
Abbreviation HID_KEYBOARD_SC_W := 0x1A%Z (only parsing).
Abbreviation HID_KEYBOARD_SC_X := 0x1B%Z (only parsing).
Abbreviation HID_KEYBOARD_SC_Y := 0x1C%Z (only parsing).
Abbreviation HID_KEYBOARD_SC_Z := 0x1D%Z (only parsing).
Abbreviation HID_KEYBOARD_SC_1_AND_EXCLAMATION := 0x1E%Z (only parsing).
Abbreviation HID_KEYBOARD_SC_2_AND_AT := 0x1F%Z (only parsing).
Abbreviation HID_KEYBOARD_SC_3_AND_HASHMARK := 0x20%Z (only parsing).
Abbreviation HID_KEYBOARD_SC_4_AND_DOLLAR := 0x21%Z (only parsing).
Abbreviation HID_KEYBOARD_SC_5_AND_PERCENTAGE := 0x22%Z (only parsing).
Abbreviation HID_KEYBOARD_SC_6_AND_CARET := 0x23%Z (only parsing).
Abbreviation HID_KEYBOARD_SC_7_AND_AMPERSAND := 0x24%Z (only parsing).
Abbreviation HID_KEYBOARD_SC_8_AND_ASTERISK := 0x25%Z (only parsing).
Abbreviation HID_KEYBOARD_SC_9_AND_OPENING_PARENTHESIS := 0x26%Z (only parsing).
Abbreviation HID_KEYBOARD_SC_0_AND_CLOSING_PARENTHESIS := 0x27%Z (only parsing).
Abbreviation HID_KEYBOARD_SC_ENTER := 0x28%Z (only parsing).
Abbreviation HID_KEYBOARD_SC_ESCAPE := 0x29%Z (only parsing).
Abbreviation HID_KEYBOARD_SC_BACKSPACE := 0x2A%Z (only parsing).
Abbreviation HID_KEYBOARD_SC_TAB := 0x2B%Z (only parsing).
Abbreviation HID_KEYBOARD_SC_SPACE := 0x2C%Z (only parsing).
Abbreviation HID_KEYBOARD_SC_MINUS_AND_UNDERSCORE := 0x2D%Z (only parsing).
Abbreviation HID_KEYBOARD_SC_EQUAL_AND_PLUS := 0x2E%Z (only parsing).
Abbreviation HID_KEYBOARD_SC_OPENING_BRACKET_AND_OPENING_BRACE := 0x2F%Z (only parsing).
Abbreviation HID_KEYBOARD_SC_CLOSING_BRACKET_AND_CLOSING_BRACE := 0x30%Z (only parsing).
Abbreviation HID_KEYBOARD_SC_BACKSLASH_AND_PIPE := 0x31%Z (only parsing).
Abbreviation HID_KEYBOARD_SC_SEMICOLON_AND_COLON := 0x33%Z (only parsing).
Abbreviation HID_KEYBOARD_SC_APOSTROPHE_AND_QUOTE := 0x34%Z (only parsing).
Abbreviation HID_KEYBOARD_SC_GRAVE_ACCENT_AND_TILDE := 0x35%Z (only parsing).
Abbreviation HID_KEYBOARD_SC_COMMA_AND_LESS_THAN_SIGN := 0x36%Z (only parsing).
Abbreviation HID_KEYBOARD_SC_DOT_AND_GREATER_THAN_SIGN := 0x37%Z (only parsing).
Abbreviation HID_KEYBOARD_SC_SLASH_AND_QUESTION_MARK := 0x38%Z (only parsing).
Abbreviation HID_KEYBOARD_SC_CAPS_LOCK := 0x39%Z (only parsing).
Abbreviation HID_KEYBOARD_SC_F1 := 0x3A%Z (only parsing).
Abbreviation HID_KEYBOARD_SC_F2 := 0x3B%Z (only parsing).
Abbreviation HID_KEYBOARD_SC_F3 := 0x3C%Z (only parsing).
Abbreviation HID_KEYBOARD_SC_F4 := 0x3D%Z (only parsing).
Abbreviation HID_KEYBOARD_SC_F5 := 0x3E%Z (only parsing).
Abbreviation HID_KEYBOARD_SC_F6 := 0x3F%Z (only parsing).
Abbreviation HID_KEYBOARD_SC_F7 := 0x40%Z (only parsing).
Abbreviation HID_KEYBOARD_SC_F8 := 0x41%Z (only parsing).
Abbreviation HID_KEYBOARD_SC_F9 := 0x42%Z (only parsing).
Abbreviation HID_KEYBOARD_SC_F10 := 0x43%Z (only parsing).
Abbreviation HID_KEYBOARD_SC_F11 := 0x44%Z (only parsing).
Abbreviation HID_KEYBOARD_SC_F12 := 0x45%Z (only parsing).
Abbreviation HID_KEYBOARD_SC_PRINT_SCREEN := 0x46%Z (only parsing).
Abbreviation HID_KEYBOARD_SC_SCROLL_LOCK := 0x47%Z (only parsing).
Abbreviation HID_KEYBOARD_SC_PAUSE := 0x48%Z (only parsing).
Abbreviation HID_KEYBOARD_SC_INSERT := 0x49%Z (only parsing).
Abbreviation HID_KEYBOARD_SC_HOME := 0x4A%Z (only parsing).
Abbreviation HID_KEYBOARD_SC_PAGE_UP := 0x4B%Z (only parsing).
Abbreviation HID_KEYBOARD_SC_DELETE := 0x4C%Z (only parsing).
Abbreviation HID_KEYBOARD_SC_END := 0x4D%Z (only parsing).
Abbreviation HID_KEYBOARD_SC_PAGE_DOWN := 0x4E%Z (only parsing).
Abbreviation HID_KEYBOARD_SC_RIGHT_ARROW := 0x4F%Z (only parsing).
Abbreviation HID_KEYBOARD_SC_LEFT_ARROW := 0x50%Z (only parsing).
Abbreviation HID_KEYBOARD_SC_DOWN_ARROW := 0x51%Z (only parsing).
Abbreviation HID_KEYBOARD_SC_UP_ARROW := 0x52%Z (only parsing).
Abbreviation HID_KEYBOARD_SC_NUM_LOCK := 0x53%Z (only parsing).
Abbreviation HID_KEYBOARD_SC_KEYPAD_SLASH := 0x54%Z (only parsing).
Abbreviation HID_KEYBOARD_SC_KEYPAD_ASTERISK := 0x55%Z (only parsing).
Abbreviation HID_KEYBOARD_SC_KEYPAD_MINUS := 0x56%Z (only parsing).
Abbreviation HID_KEYBOARD_SC_KEYPAD_PLUS := 0x57%Z (only parsing).
Abbreviation HID_KEYBOARD_SC_KEYPAD_ENTER := 0x58%Z (only parsing).
Abbreviation HID_KEYBOARD_SC_KEYPAD_1_AND_END := 0x59%Z (only parsing).
Abbreviation HID_KEYBOARD_SC_KEYPAD_2_AND_DOWN_ARROW := 0x5A%Z (only parsing).
Abbreviation HID_KEYBOARD_SC_KEYPAD_3_AND_PAGE_DOWN := 0x5B%Z (only parsing).
Abbreviation HID_KEYBOARD_SC_KEYPAD_4_AND_LEFT_ARROW := 0x5C%Z (only parsing).
Abbreviation HID_KEYBOARD_SC_KEYPAD_5 := 0x5D%Z (only parsing).
Abbreviation HID_KEYBOARD_SC_KEYPAD_6_AND_RIGHT_ARROW := 0x5E%Z (only parsing).
Abbreviation HID_KEYBOARD_SC_KEYPAD_7_AND_HOME := 0x5F%Z (only parsing).
Abbreviation HID_KEYBOARD_SC_KEYPAD_8_AND_UP_ARROW := 0x60%Z (only parsing).
Abbreviation HID_KEYBOARD_SC_KEYPAD_9_AND_PAGE_UP := 0x61%Z (only parsing).
Abbreviation HID_KEYBOARD_SC_KEYPAD_0_AND_INSERT := 0x62%Z (only parsing).
Abbreviation HID_KEYBOARD_SC_KEYPAD_DOT_AND_DELETE := 0x63%Z (only parsing).
Abbreviation HID_KEYBOARD_SC_NON_US_BACKSLASH_AND_PIPE := 0x64%Z (only parsing).
Abbreviation HID_KEYBOARD_SC_F13 := 0x68%Z (only parsing).
Abbreviation HID_KEYBOARD_SC_MUTE := 0x7F%Z (only parsing).
Abbreviation HID_KEYBOARD_SC_VOLUME_UP := 0x80%Z (only parsing).
Abbreviation HID_KEYBOARD_SC_VOLUME_DOWN := 0x81%Z (only parsing).
Abbreviation HID_KEYBOARD_SC_LEFT_CONTROL := 0xE0%Z (only parsing).
Abbreviation HID_KEYBOARD_SC_LEFT_SHIFT := 0xE1%Z (only parsing).
Abbreviation HID_KEYBOARD_SC_LEFT_ALT := 0xE2%Z (only parsing).
Abbreviation HID_KEYBOARD_SC_LEFT_GUI := 0xE3%Z (only parsing).
Abbreviation HID_KEYBOARD_SC_RIGHT_CONTROL := 0xE4%Z (only parsing).
Abbreviation HID_KEYBOARD_SC_RIGHT_SHIFT := 0xE5%Z (only parsing).
Abbreviation HID_KEYBOARD_SC_RIGHT_ALT := 0xE6%Z (only parsing).
Abbreviation HID_KEYBOARD_SC_RIGHT_GUI := 0xE7%Z (only parsing).

(** ** Special keys (src/keystate.h) *)

Abbreviation NO_KEY := 0xFF%Z (only parsing).
Abbreviation SPECIAL_HID_KEYS_START := 0xE8%Z (only parsing).
Abbreviation SPECIAL_HID_KEY_MOUSE_BTN1 := 0xE8%Z (only parsing).
Abbreviation SPECIAL_HID_KEY_MOUSE_BTN2 := 0xE9%Z (only parsing).
Abbreviation SPECIAL_HID_KEY_MOUSE_BTN3 := 0xEA%Z (only parsing).
Abbreviation SPECIAL_HID_KEY_MOUSE_BTN4 := 0xEB%Z (only parsing).
Abbreviation SPECIAL_HID_KEY_MOUSE_BTN5 := 0xEC%Z (only parsing).
Abbreviation SPECIAL_HID_KEY_MOUSE_FWD := 0xED%Z (only parsing).
Abbreviation SPECIAL_HID_KEY_MOUSE_BACK := 0xEE%Z (only parsing).
Abbreviation SPECIAL_HID_KEY_MOUSE_LEFT := 0xEF%Z (only parsing).
Abbreviation SPECIAL_HID_KEY_MOUSE_RIGHT := 0xF0%Z (only parsing).
Abbreviation SPECIAL_HID_KEY_WHEEL_FWD := 0xF1%Z (only parsing).
Abbreviation SPECIAL_HID_KEY_WHEEL_BACK := 0xF2%Z (only parsing).
Abbreviation SPECIAL_HID_KEY_WHEEL_LEFT := 0xF3%Z (only parsing).
Abbreviation SPECIAL_HID_KEY_WHEEL_RIGHT := 0xF4%Z (only parsing).
Abbreviation SPECIAL_HID_KEY_LAYER_LOCK := 0xFA%Z (only parsing).
Abbreviation SPECIAL_HID_KEY_KEYPAD_SHIFT := 0xFB%Z (only parsing).
Abbreviation SPECIAL_HID_KEY_FUNCTION_SHIFT := 0xFC%Z (only parsing).
Abbreviation SPECIAL_HID_KEY_MACRO_SHIFT := 0xFD%Z (only parsing).
Abbreviation SPECIAL_HID_KEY_PROGRAM := 0xFE%Z (only parsing).
Abbreviation SPECIAL_HID_KEYS_MOUSE_START := 0xE8%Z (only parsing).
Abbreviation SPECIAL_HID_KEYS_MOUSE_END := 0xF4%Z (only parsing).
Abbreviation KEYBOARDREPORT_KEY_COUNT := 6%nat (only parsing).

Definition SPECIAL_HID_KEY_NOREMAP (k : Z) : bool :=
  (k >=? SPECIAL_HID_KEY_LAYER_LOCK) && negb (k =? NO_KEY).

(** ** Report structures *)

Record KeyboardReport_Data_t := mkKeyboardReport {
  Modifier : Z;
  Reserved : Z;
  KeyCode : list Z
}.

Record MouseReport_Data_t := mkMouseReport {
  Button : Z;
  X : Z;
  Y : Z;
  VWheel : Z;
  HWheel : Z
}.

#[export] Instance KeyboardReport_eq_dec : EqDecision KeyboardReport_Data_t.
Proof. solve_decision. Defined.
#[export] Instance MouseReport_eq_dec : EqDecision MouseReport_Data_t.
Proof. solve_decision. Defined.

(** Reports the HID class driver zeroes before it asks for their contents. *)
Definition empty_keyboard_report : KeyboardReport_Data_t :=
  mkKeyboardReport 0 0 (replicate KEYBOARDREPORT_KEY_COUNT 0).
Definition empty_mouse_report : MouseReport_Data_t := mkMouseReport 0 0 0 0 0.

#[export] Instance KeyboardReport_inhabited : Inhabited KeyboardReport_Data_t :=
  populate empty_keyboard_report.
#[export] Instance MouseReport_inhabited : Inhabited MouseReport_Data_t :=
  populate empty_mouse_report.

(** The mask [1 << (key - HID_KEYBOARD_SC_LEFT_CONTROL)] of a modifier key,
    and its effect on a [uint8_t] modifier field. *)
Definition modifier_mask (key : Z) : Z :=
  Z.shiftl 1 (key - HID_KEYBOARD_SC_LEFT_CONTROL).

Lemma modifier_mask_spec key i :
  HID_KEYBOARD_SC_LEFT_CONTROL <= key -> 0 <= i ->
  Z.testbit (modifier_mask key) i = (i =? key - HID_KEYBOARD_SC_LEFT_CONTROL).
Proof.
  intros Hk Hi. unfold modifier_mask. rewrite Z.shiftl_spec by done.
  destruct (Z.eqb_spec i (key - 0xE0)) as [->|].
  - rewrite Z.sub_diag. done.
  - destruct (Z.lt_ge_cases (i - (key - 0xE0)) 0); [by apply Z.testbit_neg_r|].
    apply Z.bits_above_log2; simpl; lia.
Qed.
