(* ===== verification/ExtraReport.v ===== *)
(** * extrareport.c: the extra keyboard report

    Key presses that do not come from the matrix (virtual machine, macro
    playback) are collected in an [ExtraKeyboardReport], which is appended to
    the keyboard report.  The operations of src/extrareport.c, and the set of
    keys they implement. *)

From S2P Require Import Prelude Hid.

Abbreviation EXTRA_REPORT_KEY_COUNT := 6%nat (only parsing).

(** Keys are kept unsorted and unpacked. *)
Record ExtraKeyboardReport := mkExtra {
  modifiers : Z;
  keys : list Z
}.

#[export] Instance ExtraKeyboardReport_eq_dec : EqDecision ExtraKeyboardReport.
Proof. solve_decision. Defined.

(** ** The operations *)

Definition ExtraKeyboardReport_clear : ExtraKeyboardReport :=
  mkExtra 0 (replicate EXTRA_REPORT_KEY_COUNT NO_KEY).

#[export] Instance ExtraKeyboardReport_inhabited : Inhabited ExtraKeyboardReport :=
  populate ExtraKeyboardReport_clear.

(** [for (i = EXTRA_REPORT_KEY_COUNT - 1; i >= 0; --i)]: [inl i] when the key
    is found at [i], else [inr free] with the lowest free slot or [NO_KEY]. *)
Fixpoint scan_down (ks : list Z) (key : Z) (n : nat) (free : Z) : nat + Z :=
  match n with
  | O => inr free
  | S i =>
      let p := ks !!! i in
      if p =? key then inl i
      else scan_down ks key i (if p =? NO_KEY then Z.of_nat i else free)
  end.

Definition ExtraKeyboardReport_add (r : ExtraKeyboardReport) (key : Z) : ExtraKeyboardReport :=
  if key >=? HID_KEYBOARD_SC_LEFT_CONTROL
  then mkExtra (u8 (Z.lor (modifiers r) (modifier_mask key))) (keys r)
  else
    match scan_down (keys r) key EXTRA_REPORT_KEY_COUNT NO_KEY with
    | inl _ => r
    | inr free =>
        if negb (free =? NO_KEY)
        then mkExtra (modifiers r) (<[Z.to_nat free := key]> (keys r))
        else r
    end.

(** [for (i = 0; i < EXTRA_REPORT_KEY_COUNT; ++i)], returning at the first hit. *)
Fixpoint remove_first (ks : list Z) (key : Z) : list Z :=
  match ks with
  | [] => []
  | k :: ks => if k =? key then NO_KEY :: ks else k :: remove_first ks key
  end.

Definition ExtraKeyboardReport_remove (r : ExtraKeyboardReport) (key : Z) : ExtraKeyboardReport :=
  if key >=? HID_KEYBOARD_SC_LEFT_CONTROL
  then mkExtra (u8 (Z.land (modifiers r) (Z.lnot (modifier_mask key)))) (keys r)
  else mkExtra (modifiers r) (remove_first (keys r) key).

Definition ExtraKeyboardReport_toggle (r : ExtraKeyboardReport) (key : Z) : ExtraKeyboardReport :=
  if key >=? HID_KEYBOARD_SC_LEFT_CONTROL
  then mkExtra (u8 (Z.lxor (modifiers r) (modifier_mask key))) (keys r)
  else
    match scan_down (keys r) key EXTRA_REPORT_KEY_COUNT NO_KEY with
    | inl i => mkExtra (modifiers r) (<[i := NO_KEY]> (keys r))
    | inr free =>
        if negb (free =? NO_KEY)
        then mkExtra (modifiers r) (<[Z.to_nat free := key]> (keys r))
        else r
    end.

(** The number of slots of a report in use: the index of the first zero. *)
Fixpoint report_used (codes : list Z) : nat :=
  match codes with
  | [] => 0
  | c :: codes => if c =? 0 then 0 else S (report_used codes)
  end.

(** The loop over the extra keys: [report_start] slots were in use before it,
    [report_next] is the next free one. *)
Fixpoint append_loop (ks : list Z) (report_start report_next : nat) (codes : list Z) : list Z :=
  match ks with
  | [] => codes
  | keycode :: ks =>
      if negb (report_next <? KEYBOARDREPORT_KEY_COUNT)%nat then codes
      else if keycode =? NO_KEY then append_loop ks report_start report_next codes
      else if existsb (fun c => c =? keycode) (take report_start codes)
      then append_loop ks report_start report_next codes
      else append_loop ks report_start (S report_next) (<[report_next := keycode]> codes)
  end.

Definition ExtraKeyboardReport_append (extra : ExtraKeyboardReport)
    (report : KeyboardReport_Data_t) : KeyboardReport_Data_t :=
  let report_start := report_used (KeyCode report) in
  mkKeyboardReport
    (u8 (Z.lor (Modifier report) (modifiers extra)))
    (Reserved report)
    (append_loop (keys extra) report_start report_start (KeyCode report)).

(** ** The set of keys of an extra report *)

(** An extra report holds ordinary keys at most once, in [NO_KEY]-free slots. *)
Record extra_wf (r : ExtraKeyboardReport) : Prop := {
  wf_modifiers : is_u8 (modifiers r);
  wf_length : length (keys r) = EXTRA_REPORT_KEY_COUNT;
  wf_range : Forall (fun k => k = NO_KEY \/ 0 <= k < HID_KEYBOARD_SC_LEFT_CONTROL) (keys r);
  wf_nodup : forall i j k, keys r !! i = Some k -> keys r !! j = Some k -> k <> NO_KEY -> i = j
}.

(** A key a report can hold: an ordinary key or a modifier. *)
Definition reportable (key : Z) : Prop := 0 <= key < SPECIAL_HID_KEYS_START.

Definition extra_pressed (r : ExtraKeyboardReport) (key : Z) : Prop :=
  if key >=? HID_KEYBOARD_SC_LEFT_CONTROL
  then Z.testbit (modifiers r) (key - HID_KEYBOARD_SC_LEFT_CONTROL) = true
  else key ∈ keys r.

Definition extra_full (r : ExtraKeyboardReport) : Prop := NO_KEY ∉ keys r.

Lemma extra_clear_wf : extra_wf ExtraKeyboardReport_clear.
Proof.
  split; [unfold is_u8; simpl; lia|done| |].
  - simpl. repeat constructor; by left.
  - intros i j k Hi _ Hk. apply lookup_replicate in Hi as [-> _]. done.
Qed.

Lemma scan_down_spec ks key n free :
  (n <= length ks)%nat -> 0 <= key < HID_KEYBOARD_SC_LEFT_CONTROL ->
  match scan_down ks key n free with
  | inl i => (i < n)%nat /\ ks !! i = Some key
  | inr free' =>
      (forall i, (i < n)%nat -> ks !! i <> Some key) /\
      (free' = free /\ (forall i, (i < n)%nat -> ks !! i <> Some NO_KEY) \/
       exists i, (i < n)%nat /\ free' = Z.of_nat i /\ ks !! i = Some NO_KEY)
  end.
Proof.
  revert free. induction n as [|n IH]; intros free Hn Hkey; simpl.
  { split; [intros; lia|]. left. split; [done|intros; lia]. }
  pose proof (lookup_total_lookup ks n ltac:(lia)) as Hl.
  destruct (Z.eqb_spec (ks !!! n) key) as [He|Hne].
  { split; [lia|]. by rewrite Hl, He. }
  specialize (IH (if ks !!! n =? NO_KEY then Z.of_nat n else free) ltac:(lia) Hkey).
  destruct (scan_down _ _ _ _) as [i|free'].
  { destruct IH. split; [lia|done]. }
  destruct IH as [H1 H2]. split.
  { intros i Hi. destruct (decide (i = n)) as [->|]; [|apply H1; lia]. rewrite Hl. congruence. }
  destruct H2 as [[-> H2]|(i & Hi & -> & H2)].
  2:{ right. exists i. split_and!; [lia|done|done]. }
  destruct (Z.eqb_spec (ks !!! n) NO_KEY) as [He|].
  - right. exists n. rewrite Hl, He. split_and!; [lia|done|done].
  - left. split; [done|]. intros i Hi.
    destruct (decide (i = n)) as [->|]; [|apply H2; lia]. rewrite Hl. congruence.
Qed.

Lemma remove_first_spec ks key :
  (key ∉ ks /\ remove_first ks key = ks) \/
  exists i, ks !! i = Some key /\ remove_first ks key = <[i := NO_KEY]> ks.
Proof.
  induction ks as [|k ks IH]; simpl.
  { left. split; [apply not_elem_of_nil|done]. }
  destruct (Z.eqb_spec k key) as [->|Hne].
  { right. by exists 0%nat. }
  destruct IH as [[Hn ->]|(i & Hi & ->)].
  - left. split; [|done]. intros [->|]%elem_of_cons; done.
  - right. by exists (S i).
Qed.

Section ReplaceSlot.
Context (r : ExtraKeyboardReport) (Hwf : extra_wf r).
Context (i : nat) (old new : Z) (Hi : keys r !! i = Some old).

(** Storing [new] in the slot of [old] removes [old] and adds [new]. *)
Lemma replace_slot_elem k :
  k <> NO_KEY -> (k ∈ <[i := new]> (keys r) <-> k = new \/ (k ∈ keys r /\ k <> old)).
Proof.
  intros Hk. pose proof (lookup_lt_Some _ _ _ Hi) as Hlt. split.
  - intros [j Hj]%list_elem_of_lookup.
    destruct (decide (i = j)) as [<-|Hne].
    + rewrite list_lookup_insert_eq in Hj by done. left. congruence.
    + rewrite list_lookup_insert_ne in Hj by done. right.
      split; [by apply list_elem_of_lookup_2 in Hj|]. intros ->.
      apply Hne. by apply (wf_nodup r Hwf i j old).
  - intros [->|[[j Hj]%list_elem_of_lookup Hne]].
    + apply list_elem_of_lookup. exists i. by apply list_lookup_insert_eq.
    + apply list_elem_of_lookup. exists j. rewrite list_lookup_insert_ne; [done|congruence].
Qed.

Lemma replace_slot_wf :
  new = NO_KEY \/ (0 <= new < HID_KEYBOARD_SC_LEFT_CONTROL /\ new ∉ keys r) ->
  extra_wf (mkExtra (modifiers r) (<[i := new]> (keys r))).
Proof.
  intros Hnew. destruct Hwf as [Hm Hl Hr Hd]. split; simpl.
  - done.
  - by rewrite length_insert.
  - apply Forall_insert; [done|]. tauto.
  - intros a b k Ha Hb Hk. apply list_lookup_insert_Some in Ha, Hb.
    destruct Ha as [(? & ? & _)|[Hia Ha]], Hb as [(? & ? & _)|[Hib Hb]]; subst; try done.
    + destruct Hnew as [|[_ Hn]]; [done|]. destruct Hn. by eapply list_elem_of_lookup_2.
    + destruct Hnew as [|[_ Hn]]; [done|]. destruct Hn. by eapply list_elem_of_lookup_2.
    + by apply (Hd a b k).
Qed.
End ReplaceSlot.

(** The bits of the modifier operations. *)
Lemma modifier_bits_wf r m : extra_wf r -> extra_wf (mkExtra (u8 m) (keys r)).
Proof. intros [Hm Hl Hr Hd]. split; simpl; [apply u8_range|done..]. Qed.

Lemma u8_testbit m i : 0 <= i < 8 -> Z.testbit (u8 m) i = Z.testbit m i.
Proof.
  intros Hi. unfold u8. change 256 with (2 ^ 8). apply Z.mod_pow2_bits_low. lia.
Qed.

Ltac modifier_bits :=
  rewrite ?u8_testbit, ?Z.lor_spec, ?Z.land_spec, ?Z.lxor_spec, ?Z.lnot_spec,
    ?modifier_mask_spec by lia.

Lemma extra_add_spec r key :
  extra_wf r -> reportable key ->
  extra_wf (ExtraKeyboardReport_add r key) /\
  (extra_full r -> ~ extra_pressed r key -> key < HID_KEYBOARD_SC_LEFT_CONTROL ->
     ExtraKeyboardReport_add r key = r) /\
  (~ extra_full r \/ extra_pressed r key \/ HID_KEYBOARD_SC_LEFT_CONTROL <= key ->
     forall k, reportable k ->
       (extra_pressed (ExtraKeyboardReport_add r key) k <-> k = key \/ extra_pressed r k)).
Proof.
  intros Hwf Hk. unfold reportable in *. unfold ExtraKeyboardReport_add, extra_pressed.
  destruct (Z.geb_spec key 0xE0) as [Hm|Hm].
  { split_and!; [by apply modifier_bits_wf|lia|]. intros _ k Hr.
    destruct (Z.geb_spec k 0xE0); simpl; [|intuition lia]. modifier_bits.
    rewrite orb_true_iff, Z.eqb_eq. intuition lia. }
  pose proof (scan_down_spec (keys r) key EXTRA_REPORT_KEY_COUNT NO_KEY) as Hs.
  rewrite (wf_length r Hwf) in Hs. specialize (Hs ltac:(done) ltac:(lia)).
  destruct (scan_down _ _ _ _) as [i|free].
  { destruct Hs as [_ Hi%list_elem_of_lookup_2]. split_and!; [done|done|].
    intros _ k Hr. destruct (Z.geb_spec k 0xE0); [intuition lia|].
    intuition congruence. }
  destruct Hs as [Hnot Hs].
  assert (Hnin : key ∉ keys r).
  { intros [j Hj]%list_elem_of_lookup. apply (Hnot j); [|done].
    apply lookup_lt_Some in Hj. by rewrite (wf_length r Hwf) in Hj. }
  destruct Hs as [[-> Hs]|(i & Hi & -> & Hs)].
  - rewrite Z.eqb_refl. simpl. split_and!; [done|done|].
    intros [Hf|[?|?]]; [|done|lia]. destruct Hf. intros [j Hj]%list_elem_of_lookup.
    apply (Hs j); [|done]. apply lookup_lt_Some in Hj. by rewrite (wf_length r Hwf) in Hj.
  - rewrite (proj2 (Z.eqb_neq _ _)) by lia. simpl. rewrite Nat2Z.id. split_and!.
    + apply replace_slot_wf with (old := NO_KEY); [done..|]. right. split; [lia|done].
    + intros Hf. destruct Hf. by eapply list_elem_of_lookup_2.
    + intros _ k Hr. destruct (Z.geb_spec k 0xE0); [intuition lia|].
      rewrite (replace_slot_elem r Hwf i NO_KEY) by (done || lia). intuition lia.
Qed.

Lemma extra_remove_spec r key :
  extra_wf r -> reportable key ->
  extra_wf (ExtraKeyboardReport_remove r key) /\
  forall k, reportable k ->
    (extra_pressed (ExtraKeyboardReport_remove r key) k <-> extra_pressed r k /\ k <> key).
Proof.
  intros Hwf Hk. unfold reportable in *. unfold ExtraKeyboardReport_remove, extra_pressed.
  destruct (Z.geb_spec key 0xE0) as [Hm|Hm].
  { split; [by apply modifier_bits_wf|]. intros k Hr.
    destruct (Z.geb_spec k 0xE0); simpl; [|intuition lia]. modifier_bits.
    rewrite andb_true_iff, negb_true_iff, Z.eqb_neq. intuition lia. }
  destruct (remove_first_spec (keys r) key) as [[Hn Heq]|(i & Hi & Heq)]; rewrite Heq.
  - split; [by destruct r|]. intros k Hr. simpl.
    destruct (Z.geb_spec k 0xE0); [intuition lia|]. intuition congruence.
  - split; [apply replace_slot_wf with (old := key); auto|]. intros k Hr. simpl.
    destruct (Z.geb_spec k 0xE0); [intuition lia|].
    rewrite (replace_slot_elem r Hwf i key) by (done || lia). intuition lia.
Qed.

(** Toggling is a removal or an addition. *)
Lemma extra_toggle_spec r key :
  extra_wf r -> reportable key ->
  extra_wf (ExtraKeyboardReport_toggle r key) /\
  (extra_full r -> ~ extra_pressed r key -> key < HID_KEYBOARD_SC_LEFT_CONTROL ->
     ExtraKeyboardReport_toggle r key = r) /\
  (~ extra_full r \/ extra_pressed r key \/ HID_KEYBOARD_SC_LEFT_CONTROL <= key ->
     forall k, reportable k ->
       (extra_pressed (ExtraKeyboardReport_toggle r key) k <->
        (k <> key /\ extra_pressed r k) \/ (k = key /\ ~ extra_pressed r k))).
Proof.
  intros Hwf Hk. unfold reportable in *. unfold ExtraKeyboardReport_toggle, extra_pressed.
  destruct (Z.geb_spec key 0xE0) as [Hm|Hm].
  { split_and!; [by apply modifier_bits_wf|lia|]. intros _ k Hr.
    destruct (Z.geb_spec k 0xE0); simpl; [|intuition lia]. modifier_bits.
    destruct (Z.eqb_spec (k - 0xE0) (key - 0xE0)), (Z.testbit _ (k - 0xE0)); simpl; intuition lia. }
  pose proof (scan_down_spec (keys r) key EXTRA_REPORT_KEY_COUNT NO_KEY) as Hs.
  rewrite (wf_length r Hwf) in Hs. specialize (Hs ltac:(done) ltac:(lia)).
  destruct (scan_down _ _ _ _) as [i|free].
  { destruct Hs as [_ Hi]. split_and!.
    - apply replace_slot_wf with (old := key); auto.
    - apply list_elem_of_lookup_2 in Hi. done.
    - intros _ k Hr. simpl. destruct (Z.geb_spec k 0xE0); [intuition lia|].
      rewrite (replace_slot_elem r Hwf i key) by (done || lia).
      apply list_elem_of_lookup_2 in Hi. intuition (subst; try lia; done). }
  destruct Hs as [Hnot Hs].
  assert (Hnin : key ∉ keys r).
  { intros [j Hj]%list_elem_of_lookup. apply (Hnot j); [|done].
    apply lookup_lt_Some in Hj. by rewrite (wf_length r Hwf) in Hj. }
  destruct Hs as [[-> Hs]|(i & Hi & -> & Hs)].
  - rewrite Z.eqb_refl. simpl. split_and!; [done|done|].
    intros [Hf|[?|?]]; [|done|lia]. destruct Hf. intros [j Hj]%list_elem_of_lookup.
    apply (Hs j); [|done]. apply lookup_lt_Some in Hj. by rewrite (wf_length r Hwf) in Hj.
  - rewrite (proj2 (Z.eqb_neq _ _)) by lia. simpl. rewrite Nat2Z.id. split_and!.
    + apply replace_slot_wf with (old := NO_KEY); [done..|]. right. split; [lia|done].
    + intros Hf. destruct Hf. by eapply list_elem_of_lookup_2.
    + intros _ k Hr. destruct (Z.geb_spec k 0xE0); [intuition lia|].
      rewrite (replace_slot_elem r Hwf i NO_KEY) by (done || lia).
      destruct (decide (k = key)) as [->|]; intuition lia.
Qed.

(** ** Appending to the keyboard report *)

(** The extra keys not already in the report, in slot order. *)
Definition fresh_keys (present ks : list Z) : list Z :=
  filter (fun k => k <> NO_KEY /\ k ∉ present) ks.

Lemma existsb_elem_of (k : Z) l : existsb (fun c => c =? k) l = true <-> k ∈ l.
Proof.
  rewrite existsb_exists. setoid_rewrite Z.eqb_eq. split.
  - intros (x & Hx & ->). by apply list_elem_of_In.
  - intros H. exists k. split; [by apply list_elem_of_In|done].
Qed.

Lemma append_loop_spec ks start next codes :
  (start <= next <= KEYBOARDREPORT_KEY_COUNT)%nat -> length codes = KEYBOARDREPORT_KEY_COUNT ->
  append_loop ks start next codes =
    let added := take (KEYBOARDREPORT_KEY_COUNT - next) (fresh_keys (take start codes) ks) in
    take next codes ++ added ++ drop (next + length added) codes.
Proof.
  revert next codes. induction ks as [|k ks IH]; intros next codes Hn Hl; cbn [append_loop].
  { unfold fresh_keys. rewrite filter_nil, take_nil. simpl. rewrite Nat.add_0_r, take_drop. done. }
  destruct (Nat.ltb_spec next 6) as [Hlt|Hge]; simpl negb; cbv iota.
  2:{ replace (6 - next)%nat with 0%nat by lia. simpl. by rewrite Nat.add_0_r, take_drop. }
  unfold fresh_keys. rewrite filter_cons. fold (fresh_keys (take start codes) ks).
  destruct (Z.eqb_spec k NO_KEY) as [->|Hk].
  { rewrite decide_False by tauto. apply IH; lia. }
  destruct (existsb _ _) eqn:He.
  { apply existsb_elem_of in He. rewrite decide_False by tauto. apply IH; lia. }
  assert (Hn' : k ∉ take start codes) by (rewrite <- existsb_elem_of; congruence).
  rewrite decide_True by done. rewrite IH by (rewrite ?length_insert; lia).
  rewrite take_insert_ge by lia.
  destruct (6 - next)%nat as [|m] eqn:Hm; [lia|]. replace (6 - S next)%nat with m by lia.
  cbv zeta. cbn [take length].
  rewrite (take_S_r _ _ k) by (apply list_lookup_insert_eq; lia).
  rewrite take_insert_ge by lia. rewrite drop_insert_lt by lia.
  rewrite <- app_assoc. cbn [app]. by rewrite Nat.add_succ_r.
Qed.

Lemma report_used_le codes : (report_used codes <= length codes)%nat.
Proof. induction codes as [|c codes IH]; simpl; [done|]. case_if; lia. Qed.

(** ** Properties *)

(** A well-formed extra report is a bounded set of HID keys. Adding a key adds exactly
    that key when a slot is free (a full report is left alone), removing a key removes
    exactly it, and toggling it flips exactly its membership; all three keep the report
    well formed, and modifiers never need a slot. *)
Theorem extra_report_is_a_set (r : ExtraKeyboardReport) (key : Z) :
  extra_wf r -> reportable key ->
  (extra_wf (ExtraKeyboardReport_add r key) /\
   extra_wf (ExtraKeyboardReport_remove r key) /\
   extra_wf (ExtraKeyboardReport_toggle r key)) /\
  (extra_full r -> ~ extra_pressed r key -> key < HID_KEYBOARD_SC_LEFT_CONTROL ->
     ExtraKeyboardReport_add r key = r /\ ExtraKeyboardReport_toggle r key = r) /\
  forall k, reportable k ->
    (extra_pressed (ExtraKeyboardReport_remove r key) k <-> extra_pressed r k /\ k <> key) /\
    (~ extra_full r \/ extra_pressed r key \/ HID_KEYBOARD_SC_LEFT_CONTROL <= key ->
      (extra_pressed (ExtraKeyboardReport_add r key) k <-> k = key \/ extra_pressed r k) /\
      (extra_pressed (ExtraKeyboardReport_toggle r key) k <->
         (k <> key /\ extra_pressed r k) \/ (k = key /\ ~ extra_pressed r k))).
Proof.
  intros Hwf Hk.
  destruct (extra_add_spec r key Hwf Hk) as (A1 & A2 & A3).
  destruct (extra_remove_spec r key Hwf Hk) as (R1 & R2).
  destruct (extra_toggle_spec r key Hwf Hk) as (T1 & T2 & T3).
  split; [done|]. split; [auto|]. intros k Hr. split; [by apply R2|]. auto.
Qed.

Lemma extra_report_is_a_set_witness :
  keys (ExtraKeyboardReport_toggle (ExtraKeyboardReport_add ExtraKeyboardReport_clear 4) 5)
    = [4; 5; 255; 255; 255; 255] /\
  extra_wf (ExtraKeyboardReport_toggle ExtraKeyboardReport_clear 5).
Proof.
  split; [vm_compute; reflexivity|].
  apply (extra_report_is_a_set ExtraKeyboardReport_clear 5).
  - apply extra_clear_wf.
  - unfold reportable. lia.
Defined.

(** Appending an extra report ors its modifiers into the keyboard report, keeps the key
    codes already there, and adds behind them, in slot order and as far as the six slots go,
    exactly the extra keys that were not yet present. *)
Theorem extra_append_spec (extra : ExtraKeyboardReport) (report : KeyboardReport_Data_t) :
  length (KeyCode report) = KEYBOARDREPORT_KEY_COUNT ->
  let used := report_used (KeyCode report) in
  let present := take used (KeyCode report) in
  let added := take (KEYBOARDREPORT_KEY_COUNT - used) (fresh_keys present (keys extra)) in
  let result := ExtraKeyboardReport_append extra report in
  KeyCode result = present ++ added ++ drop (used + length added) (KeyCode report) /\
  Modifier result = u8 (Z.lor (Modifier report) (modifiers extra)) /\
  Reserved result = Reserved report /\
  length (KeyCode result) = KEYBOARDREPORT_KEY_COUNT.
Proof.
  intros Hl. cbv zeta. pose proof (report_used_le (KeyCode report)) as Hu.
  unfold ExtraKeyboardReport_append. cbn [KeyCode Modifier Reserved].
  rewrite append_loop_spec by lia. split_and!; [done..|].
  cbv zeta. rewrite !length_app, length_drop, !length_take. lia.
Qed.

Lemma extra_append_spec_witness :
  KeyCode (ExtraKeyboardReport_append (mkExtra 2 [4; 255; 5; 6; 255; 255])
             (mkKeyboardReport 1 0 [5; 7; 0; 0; 0; 0])) = [5; 7; 4; 6; 0; 0] /\
  length (KeyCode (ExtraKeyboardReport_append (mkExtra 2 [4; 255; 5; 6; 255; 255])
             (mkKeyboardReport 1 0 [5; 7; 0; 0; 0; 0]))) = KEYBOARDREPORT_KEY_COUNT.
Proof.
  split; [vm_compute; reflexivity|].
  apply (extra_append_spec (mkExtra 2 [4; 255; 5; 6; 255; 255])
           (mkKeyboardReport 1 0 [5; 7; 0; 0; 0; 0])).
  reflexivity.
Defined.
