(* ===== verification/Printing.v ===== *)
(** * printing.c: typing out a message

    A message in SRAM or in program memory is typed by sending, for each of its
    characters, a report with the key and modifier of the character and then
    an empty report.  The functions of src/printing.c; a round trip shows that
    a host with a US layout reads back the message. *)

From S2P Require Import Prelude Hid.

(** [storage_type] of src/storage.h. *)
Inductive storage_type := sram | avr_pgm | avr_eeprom | i2c_eeprom | spi_eeprom | flash.

#[export] Instance storage_type_eq_dec : EqDecision storage_type.
Proof. solve_decision. Defined.

(** ** Characters to keys *)

(** The [switch] of [char_to_keys]: key and modifier of a character that is not
    a letter. *)
Definition punctuation_to_keys (nextchar : Z) : Z * Z :=
  match nextchar with
  | 32 => (HID_KEYBOARD_SC_SPACE, 0) (* space *)
  | 33 => (HID_KEYBOARD_SC_1_AND_EXCLAMATION, HID_KEYBOARD_MODIFIER_LEFTSHIFT) (* ! *)
  | 34 => (HID_KEYBOARD_SC_APOSTROPHE_AND_QUOTE, HID_KEYBOARD_MODIFIER_LEFTSHIFT) (* double quote *)
  | 35 => (HID_KEYBOARD_SC_3_AND_HASHMARK, HID_KEYBOARD_MODIFIER_LEFTSHIFT) (* # *)
  | 36 => (HID_KEYBOARD_SC_4_AND_DOLLAR, HID_KEYBOARD_MODIFIER_LEFTSHIFT) (* $ *)
  | 37 => (HID_KEYBOARD_SC_5_AND_PERCENTAGE, HID_KEYBOARD_MODIFIER_LEFTSHIFT) (* % *)
  | 38 => (HID_KEYBOARD_SC_7_AND_AMPERSAND, HID_KEYBOARD_MODIFIER_LEFTSHIFT) (* & *)
  | 39 => (HID_KEYBOARD_SC_APOSTROPHE_AND_QUOTE, 0) (* quote *)
  | 40 => (HID_KEYBOARD_SC_9_AND_OPENING_PARENTHESIS, HID_KEYBOARD_MODIFIER_LEFTSHIFT) (* open paren *)
  | 41 => (HID_KEYBOARD_SC_0_AND_CLOSING_PARENTHESIS, HID_KEYBOARD_MODIFIER_LEFTSHIFT) (* close paren *)
  | 42 => (HID_KEYBOARD_SC_8_AND_ASTERISK, HID_KEYBOARD_MODIFIER_LEFTSHIFT) (* asterisk *)
  | 43 => (HID_KEYBOARD_SC_EQUAL_AND_PLUS, HID_KEYBOARD_MODIFIER_LEFTSHIFT) (* + *)
  | 44 => (HID_KEYBOARD_SC_COMMA_AND_LESS_THAN_SIGN, 0) (* , *)
  | 45 => (HID_KEYBOARD_SC_MINUS_AND_UNDERSCORE, 0) (* - *)
  | 46 => (HID_KEYBOARD_SC_DOT_AND_GREATER_THAN_SIGN, 0) (* . *)
  | 47 => (HID_KEYBOARD_SC_SLASH_AND_QUESTION_MARK, 0) (* / *)
  | 48 => (HID_KEYBOARD_SC_0_AND_CLOSING_PARENTHESIS, 0) (* 0 *)
  | 49 => (HID_KEYBOARD_SC_1_AND_EXCLAMATION, 0) (* 1 *)
  | 50 => (HID_KEYBOARD_SC_2_AND_AT, 0) (* 2 *)
  | 51 => (HID_KEYBOARD_SC_3_AND_HASHMARK, 0) (* 3 *)
  | 52 => (HID_KEYBOARD_SC_4_AND_DOLLAR, 0) (* 4 *)
  | 53 => (HID_KEYBOARD_SC_5_AND_PERCENTAGE, 0) (* 5 *)
  | 54 => (HID_KEYBOARD_SC_6_AND_CARET, 0) (* 6 *)
  | 55 => (HID_KEYBOARD_SC_7_AND_AMPERSAND, 0) (* 7 *)
  | 56 => (HID_KEYBOARD_SC_8_AND_ASTERISK, 0) (* 8 *)
  | 57 => (HID_KEYBOARD_SC_9_AND_OPENING_PARENTHESIS, 0) (* 9 *)
  | 58 => (HID_KEYBOARD_SC_SEMICOLON_AND_COLON, HID_KEYBOARD_MODIFIER_LEFTSHIFT) (* : *)
  | 59 => (HID_KEYBOARD_SC_SEMICOLON_AND_COLON, 0) (* ; *)
  | 60 => (HID_KEYBOARD_SC_COMMA_AND_LESS_THAN_SIGN, HID_KEYBOARD_MODIFIER_LEFTSHIFT) (* < *)
  | 61 => (HID_KEYBOARD_SC_EQUAL_AND_PLUS, 0) (* = *)
  | 62 => (HID_KEYBOARD_SC_DOT_AND_GREATER_THAN_SIGN, HID_KEYBOARD_MODIFIER_LEFTSHIFT) (* > *)
  | 63 => (HID_KEYBOARD_SC_SLASH_AND_QUESTION_MARK, HID_KEYBOARD_MODIFIER_LEFTSHIFT) (* ? *)
  | 64 => (HID_KEYBOARD_SC_2_AND_AT, HID_KEYBOARD_MODIFIER_LEFTSHIFT) (* @ *)
  | 91 => (HID_KEYBOARD_SC_OPENING_BRACKET_AND_OPENING_BRACE, 0) (* [ *)
  | 92 => (HID_KEYBOARD_SC_BACKSLASH_AND_PIPE, 0) (* backslash *)
  | 93 => (HID_KEYBOARD_SC_CLOSING_BRACKET_AND_CLOSING_BRACE, 0) (* ] *)
  | 94 => (HID_KEYBOARD_SC_6_AND_CARET, HID_KEYBOARD_MODIFIER_LEFTSHIFT) (* ^ *)
  | 95 => (HID_KEYBOARD_SC_MINUS_AND_UNDERSCORE, HID_KEYBOARD_MODIFIER_LEFTSHIFT) (* _ *)
  | 96 => (HID_KEYBOARD_SC_GRAVE_ACCENT_AND_TILDE, HID_KEYBOARD_MODIFIER_LEFTSHIFT) (* ` *)
  | 123 => (HID_KEYBOARD_SC_OPENING_BRACKET_AND_OPENING_BRACE, HID_KEYBOARD_MODIFIER_LEFTSHIFT) (* { *)
  | 124 => (HID_KEYBOARD_SC_BACKSLASH_AND_PIPE, HID_KEYBOARD_MODIFIER_LEFTSHIFT) (* | *)
  | 125 => (HID_KEYBOARD_SC_CLOSING_BRACKET_AND_CLOSING_BRACE, HID_KEYBOARD_MODIFIER_LEFTSHIFT) (* } *)
  | 126 => (HID_KEYBOARD_SC_GRAVE_ACCENT_AND_TILDE, 0) (* ~ *)
  | 10 => (HID_KEYBOARD_SC_ENTER, 0) (* newline *)
  | 9 => (HID_KEYBOARD_SC_TAB, 0) (* tab *)  | _ => (HID_KEYBOARD_SC_SLASH_AND_QUESTION_MARK, HID_KEYBOARD_MODIFIER_LEFTSHIFT)
  end.

(** [nextchar] is the byte value of the [char]. *)
Definition char_to_keys (nextchar : Z) : Z * Z :=
  let l := Z.lor nextchar 0x20 in
  if (97 <=? l) && (122 >=? l) then
    (HID_KEYBOARD_SC_A + (l - 97),
     if Z.land nextchar 0x20 =? 0 then HID_KEYBOARD_MODIFIER_LEFTSHIFT else 0)
  else punctuation_to_keys nextchar.

(** ** The print buffer *)

Record printing := mkPrinting {
  print_buffer_type : storage_type;
  print_buffer : Z
}.

Definition printing_set_buffer (buf : Z) (typ : storage_type) : printing :=
  mkPrinting typ buf.

Section Printing.
(** The contents of the data and of the program memory. *)
Context (sram_read_byte avr_pgm_read_byte : Z -> Z).

Definition print_buffer_get (p : printing) : Z :=
  match print_buffer_type p with
  | sram => sram_read_byte (print_buffer p)
  | avr_pgm => avr_pgm_read_byte (print_buffer p)
  | _ => 0
  end.

Definition printing_buffer_empty (p : printing) : bool := print_buffer_get p =? 0.

(** [prev] is [PrevKeyboardHIDReportBuffer], the report sent last. *)
Definition printing_Fill_KeyboardReport (prev : KeyboardReport_Data_t) (p : printing)
    (ReportData : KeyboardReport_Data_t) : printing * KeyboardReport_Data_t :=
  if negb (Modifier prev =? 0) || negb (KeyCode prev !!! 0%nat =? 0) then (p, ReportData)
  else
    let nextchar := print_buffer_get p in
    let p := mkPrinting (print_buffer_type p) (u16 (print_buffer p + 1)) in
    let '(key, modi) := char_to_keys nextchar in
    (p, mkKeyboardReport modi (Reserved ReportData) (<[0%nat := key]> (KeyCode ReportData))).

(** A poll by the host: the class driver passes a zeroed report, and keeps
    what was sent as the previous one. *)
Definition poll (st : printing * KeyboardReport_Data_t) : printing * KeyboardReport_Data_t :=
  printing_Fill_KeyboardReport st.2 st.1 empty_keyboard_report.

(** The reports sent until the buffer is empty and the last key is released,
    as in the printing state of the keyboard. *)
Fixpoint type_out (fuel : nat) (st : printing * KeyboardReport_Data_t) : list KeyboardReport_Data_t :=
  match fuel with
  | O => []
  | S fuel =>
      if printing_buffer_empty st.1 then []
      else let st := poll st in st.2 :: type_out fuel st
  end.
End Printing.

(** [byte_to_str]: two hexadecimal digits, a space and the terminator. *)
Definition hex_digit (n : Z) : Z := if n >=? 0xA then 65 + n - 0xA else 48 + n.

Definition byte_to_str (byte : Z) : list Z :=
  let buf := [120; 120; 32; 0] in
  let buf := <[1%nat := hex_digit (Z.land byte 0xF)]> buf in
  let byte := Z.shiftr byte 4 in
  <[0%nat := hex_digit (Z.land byte 0xF)]> buf.

(** ** A host with a US keyboard layout *)

(** Key, plain character and shifted character of the US layout. *)
Definition us_symbols : list (Z * Z * Z) :=
  [ (0x1E, 49, 33); (0x1F, 50, 64); (0x20, 51, 35); (0x21, 52, 36); (0x22, 53, 37);
    (0x23, 54, 94); (0x24, 55, 38); (0x25, 56, 42); (0x26, 57, 40); (0x27, 48, 41);
    (0x28, 10, 10); (0x2B, 9, 9); (0x2C, 32, 32); (0x2D, 45, 95); (0x2E, 61, 43);
    (0x2F, 91, 123); (0x30, 93, 125); (0x31, 92, 124); (0x33, 59, 58); (0x34, 39, 34);
    (0x35, 96, 126); (0x36, 44, 60); (0x37, 46, 62); (0x38, 47, 63) ].

Fixpoint us_lookup (t : list (Z * Z * Z)) (key : Z) (shift : bool) : option Z :=
  match t with
  | [] => None
  | (k, plain, shifted) :: t =>
      if k =? key then Some (if shift then shifted else plain) else us_lookup t key shift
  end.

Definition us_char (key modi : Z) : option Z :=
  let shift := negb (Z.land modi 0x22 =? 0) in
  if (4 <=? key) && (key <=? 29) then Some (key - 4 + if shift then 65 else 97)
  else us_lookup us_symbols key shift.

(** What the host reads from a sequence of reports: a character when the first
    key differs from that of the report before. *)
Fixpoint host_read (prev : Z) (reports : list KeyboardReport_Data_t) : list Z :=
  match reports with
  | [] => []
  | r :: reports =>
      let key := KeyCode r !!! 0%nat in
      (if (key =? prev) || (key =? 0) then []
       else match us_char key (Modifier r) with Some c => [c] | None => [] end)
      ++ host_read key reports
  end.

(** The characters [char_to_keys] has its own case for: ASCII from space to tilde, tab and newline. *)
Definition typeable (c : Z) : bool :=
  ((32 <=? c) && (c <=? 126)) || (c =? 9) || (c =? 10).

Definition char_ok (c : Z) : bool :=
  implb (typeable c && negb (c =? 96) && negb (c =? 126))
    (let '(key, modi) := char_to_keys c in
     negb (key =? 0) && match us_char key modi with Some c' => c' =? c | None => false end).

Lemma char_table_ok : forallb char_ok (seqZ 0 128) = true.
Proof. vm_compute. reflexivity. Qed.

(** Every typeable character but the two on the grave-accent key. *)
Definition plain_char (c : Z) : Prop := typeable c = true /\ c <> 96 /\ c <> 126.

Lemma char_to_keys_us c :
  plain_char c ->
  (char_to_keys c).1 <> 0 /\ us_char (char_to_keys c).1 (char_to_keys c).2 = Some c.
Proof.
  intros (Ht & H1 & H2).
  pose proof char_table_ok as Hall. rewrite forallb_forall in Hall.
  assert (Hc : 0 <= c < 128).
  { unfold typeable in Ht. apply orb_true_iff in Ht as [Ht|Ht];
      [apply orb_true_iff in Ht as [Ht|Ht]|]; bsplit; try lia. }
  specialize (Hall c). unfold char_ok in Hall.
  rewrite Ht, !(proj2 (Z.eqb_neq _ _)) in Hall by done. simpl in Hall.
  assert (Hin : In c (seqZ 0 128)) by (apply list_elem_of_In, elem_of_seqZ; lia).
  specialize (Hall Hin). destruct (char_to_keys c) as [key modi]. simpl.
  apply andb_true_iff in Hall as [Hk Hu]. bsplit. split; [done|].
  destruct (us_char key modi); [|done]. bsplit. by subst.
Qed.

Section TypeOut.
Context (sram_read_byte avr_pgm_read_byte : Z -> Z).

Let released : KeyboardReport_Data_t := empty_keyboard_report.

Lemma poll_release p r :
  KeyCode r !!! 0%nat <> 0 ->
  poll sram_read_byte avr_pgm_read_byte (p, r) = (p, released).
Proof.
  intros Hr. unfold poll, printing_Fill_KeyboardReport. cbn [fst snd].
  rewrite (proj2 (Z.eqb_neq (KeyCode r !!! 0%nat) 0)) by done. rewrite orb_true_r. done.
Qed.

(** One poll sends the key of the next character. *)
Lemma poll_press buf c :
  sram_read_byte buf = c -> 0 <= buf < 65535 ->
  poll sram_read_byte avr_pgm_read_byte (printing_set_buffer buf sram, released)
  = (printing_set_buffer (buf + 1) sram,
     mkKeyboardReport (char_to_keys c).2 0 ((char_to_keys c).1 :: replicate 5 0)).
Proof.
  intros Hread Hb. unfold poll, printing_Fill_KeyboardReport, print_buffer_get. simpl.
  rewrite Hread, u16_small by (unfold is_u16; lia). by destruct (char_to_keys c).
Qed.

Lemma buffer_empty_spec buf c :
  sram_read_byte buf = c ->
  printing_buffer_empty sram_read_byte avr_pgm_read_byte (printing_set_buffer buf sram) = (c =? 0).
Proof. intros <-. done. Qed.

Lemma plain_char_nonzero c : plain_char c -> (c =? 0) = false.
Proof. intros [Ht _]. apply Z.eqb_neq. by intros ->. Qed.

Lemma type_out_round_trip msg buf fuel :
  (forall i c, msg !! i = Some c -> sram_read_byte (buf + Z.of_nat i) = c) ->
  sram_read_byte (buf + Z.of_nat (length msg)) = 0 ->
  0 <= buf -> buf + Z.of_nat (length msg) < 65536 -> Forall plain_char msg ->
  (2 * length msg <= fuel)%nat ->
  host_read 0 (type_out sram_read_byte avr_pgm_read_byte fuel
                 (printing_set_buffer buf sram, released)) = msg.
Proof.
  revert buf fuel. induction msg as [|c msg IH]; intros buf fuel Hmem Hend H0 Hlen Hok Hfuel.
  - destruct fuel; [done|]. rewrite Z.add_0_r in Hend.
    cbn [type_out fst]. by rewrite (buffer_empty_spec buf 0).
  - cbn [length] in *. destruct fuel as [|[|fuel]]; [lia|lia|].
    apply Forall_cons in Hok as [Hc Hok]. pose proof (char_to_keys_us c Hc) as [Hk Hu].
    assert (Hread : sram_read_byte buf = c) by (rewrite <- (Z.add_0_r buf); by apply (Hmem 0%nat)).
    assert (Hmem' : forall i c, msg !! i = Some c -> sram_read_byte (buf + 1 + Z.of_nat i) = c).
    { intros i c' Hi. rewrite <- Z.add_assoc. rewrite <- (Hmem (S i) c'); [f_equal; lia|done]. }
    assert (Hend' : sram_read_byte (buf + 1 + Z.of_nat (length msg)) = 0).
    { rewrite <- Hend. f_equal. lia. }
    cbn [type_out fst]. rewrite (buffer_empty_spec buf c), (plain_char_nonzero c) by done.
    rewrite (poll_press buf c) by (done || lia). cbn [fst snd host_read KeyCode Modifier].
    change (((char_to_keys c).1 :: replicate 5 0) !!! 0%nat) with (char_to_keys c).1.
    rewrite Hu, !(proj2 (Z.eqb_neq (char_to_keys c).1 0)) by done. simpl app. f_equal.
    destruct msg as [|c2 msg].
    { rewrite Z.add_0_r in Hend'. by rewrite (buffer_empty_spec (buf + 1) 0). }
    rewrite (buffer_empty_spec (buf + 1) c2), (plain_char_nonzero c2).
    2:{ by apply Forall_cons in Hok as [Hok _]. }
    2:{ rewrite <- (Z.add_0_r (buf + 1)). by apply (Hmem' 0%nat). }
    rewrite poll_release by done. cbn [snd host_read].
    change (KeyCode released !!! 0%nat) with 0. rewrite Z.eqb_refl, orb_true_r. simpl app.
    apply IH; cbn [length] in *; (done || lia).
Qed.
End TypeOut.

(** ** Properties *)

(** A message in memory at address 256, NUL-terminated, for the witness. *)
Definition memory_of (msg : list Z) (a : Z) : Z :=
  match msg !! Z.to_nat (a - 256) with Some c => if a <? 256 then 0 else c | None => 0 end.

(** C40: Typing out a NUL-terminated message of plain characters, polled report by report
    until the buffer is empty, makes a host with a US layout read exactly that message. *)
Theorem printing_round_trip (sram_read_byte avr_pgm_read_byte : Z -> Z) (msg : list Z) (buf : Z) :
  (forall i c, msg !! i = Some c -> sram_read_byte (buf + Z.of_nat i) = c) ->
  sram_read_byte (buf + Z.of_nat (length msg)) = 0 ->
  0 <= buf -> buf + Z.of_nat (length msg) < 65536 -> Forall plain_char msg ->
  host_read 0 (type_out sram_read_byte avr_pgm_read_byte (2 * length msg)
                 (printing_set_buffer buf sram, empty_keyboard_report)) = msg.
Proof. intros. by apply type_out_round_trip. Qed.

Lemma printing_round_trip_witness :
  host_read 0 (type_out (memory_of [79; 75; 33]) (fun _ => 0) 6
                 (printing_set_buffer 256 sram, empty_keyboard_report)) = [79; 75; 33].
Proof.
  apply (printing_round_trip (memory_of [79; 75; 33]) (fun _ => 0) [79; 75; 33] 256).
  - intros [|[|[|i]]] c H; vm_compute in H; try discriminate H;
      injection H as <-; vm_compute; reflexivity.
  - vm_compute. reflexivity.
  - lia.
  - cbn. lia.
  - repeat constructor; vm_compute; (reflexivity || discriminate).
Defined.

(** [char_to_keys] swaps the two characters of the grave-accent key: the grave accent is
    typed with shift and the tilde without it, so a US host reads each as the other. *)
Theorem grave_and_tilde_swapped :
  us_char (char_to_keys 96).1 (char_to_keys 96).2 = Some 126 /\
  us_char (char_to_keys 126).1 (char_to_keys 126).2 = Some 96.
Proof. split; reflexivity. Qed.

(** [printing_Fill_KeyboardReport] does not look for the end of the message: a request made after the
    last character, before the main loop has found the buffer empty, types a question mark and
    moves the buffer past the terminator. *)
Theorem request_past_end (sram_read_byte avr_pgm_read_byte : Z -> Z) (buf : Z) :
  sram_read_byte buf = 0 ->
  poll sram_read_byte avr_pgm_read_byte (printing_set_buffer buf sram, empty_keyboard_report)
  = (printing_set_buffer (u16 (buf + 1)) sram,
     mkKeyboardReport HID_KEYBOARD_MODIFIER_LEFTSHIFT 0 [HID_KEYBOARD_SC_SLASH_AND_QUESTION_MARK; 0; 0; 0; 0; 0]).
Proof. intros H. unfold poll, printing_Fill_KeyboardReport. cbn. by rewrite H. Qed.
