(* ===== verification/Hardware.v ===== *)
(** * The hardware interface

    What a hardware variant (src/hardware/<variant>.h and .c, selected by
    src/hardware.h) provides to the rest of the firmware: the dimensions of the
    key matrix, the map from matrix positions to logical keys, the default
    layout and the storage sizes.  [Hardware] is that interface, [HardwareOk]
    the laws the firmware relies on, which each variant's file discharges. *)

From S2P Require Import Prelude Hid.

Class Hardware := {
  KEYPAD_LAYER_SIZE : Z;
  NUM_LOGICAL_KEYS : Z;
  MATRIX_ROWS : nat;
  MATRIX_COLS : nat;
  matrix_to_logical_map : list (list Z);
  logical_to_hid_map_default : list Z;
  SAVED_MAPPING_COUNT : Z;
  MACRO_INDEX_COUNT : Z;
  MACROS_SIZE : Z;
  PROGRAM_SIZE : Z;
  PROGRAM_COUNT : Z
}.

(** The default macros of a variant: a trigger and the keys to press. *)
Record macro_def_info := mkMacroDef {
  lkey : Z;
  hkeys : list Z
}.

(** The built-in key combinations and the number of saved layouts, which the
    main state machine uses. *)
Class HotKeys := {
  NUM_KEY_MAPPING_INDICES : Z;
  SPECIAL_HKEY_CONFIG_LOAD : Z;
  SPECIAL_HKEY_CONFIG_SAVE : Z;
  SPECIAL_HKEY_CONFIG_DELETE : Z;
  SPECIAL_HKEY_MACROS_ENABLE : Z;
  SPECIAL_HKEY_MACRO_RECORD : Z;
  SPECIAL_HKEY_REMAP : Z;
  SPECIAL_HKEY_REBOOT : Z;
  SPECIAL_HKEY_RESET_CONFIG : Z;
  SPECIAL_HKEY_RESET_FULLY : Z;
  SPECIAL_HKEY_TOGGLE_BUZZER : Z;
  SPECIAL_HKEY_TEST_LEDS : Z;
  SPECIAL_HKEY_DEBOUNCE_UP : Z;
  SPECIAL_HKEY_DEBOUNCE_DW : Z;
  SPECIAL_HKEY_MOUSE_DIV_UP : Z;
  SPECIAL_HKEY_MOUSE_DIV_DW : Z;
  SPECIAL_HKEY_WHEEL_DIV_UP : Z;
  SPECIAL_HKEY_WHEEL_DIV_DW : Z
}.

(** The keys present in the matrix. *)
Definition physical_keys (m : list (list Z)) : list Z :=
  filter (fun k => k <> NO_KEY) (concat m).

(** The number of layers: a logical key is a physical key in a layer. *)
Definition layers {H : Hardware} : nat := Z.to_nat (NUM_LOGICAL_KEYS / KEYPAD_LAYER_SIZE).

Class HardwareOk (H : Hardware) : Prop := {
  layer_size_pos : 0 < KEYPAD_LAYER_SIZE;
  layers_2_3 : layers = 2%nat \/ layers = 3%nat;
  logical_keys_layers : NUM_LOGICAL_KEYS = Z.of_nat layers * KEYPAD_LAYER_SIZE;
  logical_keys_u8 : NUM_LOGICAL_KEYS < NO_KEY;
  matrix_rows_ok : length matrix_to_logical_map = MATRIX_ROWS;
  matrix_cols_ok : Forall (fun r => length r = MATRIX_COLS) matrix_to_logical_map;
  matrix_keys_ok : physical_keys matrix_to_logical_map ≡ₚ seqZ 0 KEYPAD_LAYER_SIZE;
  defaults_length : Z.of_nat (length logical_to_hid_map_default) = NUM_LOGICAL_KEYS;
  defaults_u8 : Forall is_u8 logical_to_hid_map_default;
  (* the layer, program and macro keys are the same key in every layer *)
  defaults_noremap : forall (k l : nat),
    Z.of_nat k < KEYPAD_LAYER_SIZE -> (l < layers)%nat ->
    SPECIAL_HID_KEY_NOREMAP (logical_to_hid_map_default !!! k) = true ->
    logical_to_hid_map_default !!! (k + l * Z.to_nat KEYPAD_LAYER_SIZE)%nat
      = logical_to_hid_map_default !!! k
}.

(** ** Consequences of the laws *)

Section Consequences.
Context `{H : Hardware, !HardwareOk H}.

Lemma layer_below_no_key : KEYPAD_LAYER_SIZE < NO_KEY.
Proof.
  pose proof logical_keys_u8. pose proof logical_keys_layers. pose proof layers_2_3.
  pose proof layer_size_pos. assert (2 * KEYPAD_LAYER_SIZE <= NUM_LOGICAL_KEYS) by nia. lia.
Qed.

(** What a matrix position holds. *)
Definition matrix_key (row col : nat) : Z := (matrix_to_logical_map !!! row) !!! col.

Lemma matrix_key_in row col :
  (row < MATRIX_ROWS)%nat -> (col < MATRIX_COLS)%nat ->
  matrix_key row col ∈ concat matrix_to_logical_map.
Proof.
  intros Hr Hc. rewrite <- matrix_rows_ok in Hr. apply list_elem_of_In, in_concat.
  exists (matrix_to_logical_map !!! row). split; apply list_elem_of_In.
  - apply list_elem_of_lookup_2 with row. by apply lookup_total_lookup.
  - apply list_elem_of_lookup_2 with col. apply lookup_total_lookup.
    rewrite (Forall_lookup_total (fun r => length r = MATRIX_COLS) _ _ matrix_cols_ok Hr). done.
Qed.

Lemma matrix_key_range row col :
  (row < MATRIX_ROWS)%nat -> (col < MATRIX_COLS)%nat ->
  matrix_key row col = NO_KEY \/ 0 <= matrix_key row col < KEYPAD_LAYER_SIZE.
Proof.
  intros Hr Hc. destruct (decide (matrix_key row col = NO_KEY)) as [|Hne]; [by left|right].
  cut (matrix_key row col ∈ seqZ 0 KEYPAD_LAYER_SIZE).
  { intros Hs%elem_of_seqZ. lia. }
  rewrite <- matrix_keys_ok.
  apply list_elem_of_filter. split; [done|by apply matrix_key_in].
Qed.

(** Every physical key is at some matrix position. *)
Lemma matrix_key_onto k :
  0 <= k < KEYPAD_LAYER_SIZE ->
  exists row col, (row < MATRIX_ROWS)%nat /\ (col < MATRIX_COLS)%nat /\ matrix_key row col = k.
Proof.
  intros Hk. assert (Hin : k ∈ physical_keys matrix_to_logical_map).
  { rewrite matrix_keys_ok. apply elem_of_seqZ. lia. }
  apply list_elem_of_filter in Hin as [_ Hin].
  apply list_elem_of_In, in_concat in Hin as (r & Hr & Hc).
  apply list_elem_of_In, list_elem_of_lookup in Hr as [row Hr].
  apply list_elem_of_In, list_elem_of_lookup in Hc as [col Hc].
  exists row, col. unfold matrix_key.
  rewrite (list_lookup_total_correct _ _ _ Hr), (list_lookup_total_correct _ _ _ Hc).
  pose proof (Forall_lookup_1 _ _ _ _ matrix_cols_ok Hr) as Hl. simpl in Hl.
  rewrite <- Hl, <- matrix_rows_ok. split_and!; eauto using lookup_lt_Some.
Qed.
End Consequences.

(** Decides the laws on concrete tables. *)
Definition same_in_all_layers (ls : nat) (size : nat) (d : list Z) : bool :=
  forallb (fun k => implb (SPECIAL_HID_KEY_NOREMAP (d !!! k))
             (forallb (fun l => d !!! (k + l * size)%nat =? d !!! k) (seq 0 ls))) (seq 0 size).

Lemma same_in_all_layers_spec ls size d :
  same_in_all_layers ls size d = true ->
  forall k l, (k < size)%nat -> (l < ls)%nat -> SPECIAL_HID_KEY_NOREMAP (d !!! k) = true ->
    d !!! (k + l * size)%nat = d !!! k.
Proof.
  unfold same_in_all_layers. rewrite forallb_forall. intros Hall k l Hk Hl Hs.
  specialize (Hall k). rewrite Hs in Hall. simpl in Hall.
  assert (Hin : In k (seq 0 size)) by (apply in_seq; lia).
  specialize (Hall Hin). rewrite forallb_forall in Hall.
  apply Z.eqb_eq, (Hall l). apply in_seq. lia.
Qed.

Definition is_perm_of_range (l : list Z) (n : Z) : bool :=
  bool_decide (merge_sort Z.le l = seqZ 0 n).

Lemma is_perm_of_range_spec l n : is_perm_of_range l n = true -> l ≡ₚ seqZ 0 n.
Proof.
  unfold is_perm_of_range. rewrite bool_decide_eq_true. intros <-.
  symmetry. apply merge_sort_Permutation.
Qed.
