(* ===== verification/K84cs.v ===== *)
(** * The K84CS hardware variant: its tables

    The logical keys, the key matrix and the default layout of
    src/hardware/k84cs.h and src/hardware/k84cs.c, in the order of the source, and
    the proof that they obey the laws of [Hardware]. *)

From S2P Require Import Prelude Hid Hardware.

(** [enum logical_keys] *)
Inductive logical_keys :=
  | LOGICAL_KEY_PRG
  | LOGICAL_KEY_LaLck
  | LOGICAL_KEY_L_KpSh
  | LOGICAL_KEY_R_KpSh
  | LOGICAL_KEY_L_MACRO
  | LOGICAL_KEY_R_MACRO
  | LOGICAL_KEY_L_PALM
  | LOGICAL_KEY_R_PALM
  | LOGICAL_KEY_A
  | LOGICAL_KEY_B
  | LOGICAL_KEY_C
  | LOGICAL_KEY_D
  | LOGICAL_KEY_E
  | LOGICAL_KEY_F
  | LOGICAL_KEY_G
  | LOGICAL_KEY_H
  | LOGICAL_KEY_I
  | LOGICAL_KEY_J
  | LOGICAL_KEY_K
  | LOGICAL_KEY_L
  | LOGICAL_KEY_M
  | LOGICAL_KEY_N
  | LOGICAL_KEY_O
  | LOGICAL_KEY_P
  | LOGICAL_KEY_Q
  | LOGICAL_KEY_R
  | LOGICAL_KEY_S
  | LOGICAL_KEY_T
  | LOGICAL_KEY_U
  | LOGICAL_KEY_V
  | LOGICAL_KEY_W
  | LOGICAL_KEY_X
  | LOGICAL_KEY_Y
  | LOGICAL_KEY_Z
  | LOGICAL_KEY_1
  | LOGICAL_KEY_2
  | LOGICAL_KEY_3
  | LOGICAL_KEY_4
  | LOGICAL_KEY_5
  | LOGICAL_KEY_6
  | LOGICAL_KEY_7
  | LOGICAL_KEY_8
  | LOGICAL_KEY_9
  | LOGICAL_KEY_0
  | LOGICAL_KEY_SEMICOL
  | LOGICAL_KEY_COMMA
  | LOGICAL_KEY_PERIOD
  | LOGICAL_KEY_SLASH
  | LOGICAL_KEY_EQ
  | LOGICAL_KEY_TAB
  | LOGICAL_KEY_ESC
  | LOGICAL_KEY_DEL
  | LOGICAL_KEY_TILDE
  | LOGICAL_KEY_IntK
  | LOGICAL_KEY_LArr
  | LOGICAL_KEY_RArr
  | LOGICAL_KEY_MUTE
  | LOGICAL_KEY_CAPS
  | LOGICAL_KEY_PRINT
  | LOGICAL_KEY_MINUS
  | LOGICAL_KEY_BSLASH
  | LOGICAL_KEY_QUOT
  | LOGICAL_KEY_ENTER
  | LOGICAL_KEY_ClBrc
  | LOGICAL_KEY_OpBrc
  | LOGICAL_KEY_UpArr
  | LOGICAL_KEY_DnArr
  | LOGICAL_KEY_INSERT
  | LOGICAL_KEY_MENU
  | LOGICAL_KEY_BREAK
  | LOGICAL_KEY_L_CTRL
  | LOGICAL_KEY_L_ALT
  | LOGICAL_KEY_HOME
  | LOGICAL_KEY_END
  | LOGICAL_KEY_L_WIN
  | LOGICAL_KEY_L_SH
  | LOGICAL_KEY_BckSp
  | LOGICAL_KEY_R_CTRL
  | LOGICAL_KEY_R_ALT
  | LOGICAL_KEY_PGUP
  | LOGICAL_KEY_PGDN
  | LOGICAL_KEY_R_WIN
  | LOGICAL_KEY_R_SH
  | LOGICAL_KEY_SPACE.

(** The value of the enumerator. *)
Definition logical_key_code (k : logical_keys) : Z :=
  match k with
  | LOGICAL_KEY_PRG => 0
  | LOGICAL_KEY_LaLck => 1
  | LOGICAL_KEY_L_KpSh => 2
  | LOGICAL_KEY_R_KpSh => 3
  | LOGICAL_KEY_L_MACRO => 4
  | LOGICAL_KEY_R_MACRO => 5
  | LOGICAL_KEY_L_PALM => 6
  | LOGICAL_KEY_R_PALM => 7
  | LOGICAL_KEY_A => 8
  | LOGICAL_KEY_B => 9
  | LOGICAL_KEY_C => 10
  | LOGICAL_KEY_D => 11
  | LOGICAL_KEY_E => 12
  | LOGICAL_KEY_F => 13
  | LOGICAL_KEY_G => 14
  | LOGICAL_KEY_H => 15
  | LOGICAL_KEY_I => 16
  | LOGICAL_KEY_J => 17
  | LOGICAL_KEY_K => 18
  | LOGICAL_KEY_L => 19
  | LOGICAL_KEY_M => 20
  | LOGICAL_KEY_N => 21
  | LOGICAL_KEY_O => 22
  | LOGICAL_KEY_P => 23
  | LOGICAL_KEY_Q => 24
  | LOGICAL_KEY_R => 25
  | LOGICAL_KEY_S => 26
  | LOGICAL_KEY_T => 27
  | LOGICAL_KEY_U => 28
  | LOGICAL_KEY_V => 29
  | LOGICAL_KEY_W => 30
  | LOGICAL_KEY_X => 31
  | LOGICAL_KEY_Y => 32
  | LOGICAL_KEY_Z => 33
  | LOGICAL_KEY_1 => 34
  | LOGICAL_KEY_2 => 35
  | LOGICAL_KEY_3 => 36
  | LOGICAL_KEY_4 => 37
  | LOGICAL_KEY_5 => 38
  | LOGICAL_KEY_6 => 39
  | LOGICAL_KEY_7 => 40
  | LOGICAL_KEY_8 => 41
  | LOGICAL_KEY_9 => 42
  | LOGICAL_KEY_0 => 43
  | LOGICAL_KEY_SEMICOL => 44
  | LOGICAL_KEY_COMMA => 45
  | LOGICAL_KEY_PERIOD => 46
  | LOGICAL_KEY_SLASH => 47
  | LOGICAL_KEY_EQ => 48
  | LOGICAL_KEY_TAB => 49
  | LOGICAL_KEY_ESC => 50
  | LOGICAL_KEY_DEL => 51
  | LOGICAL_KEY_TILDE => 52
  | LOGICAL_KEY_IntK => 53
  | LOGICAL_KEY_LArr => 54
  | LOGICAL_KEY_RArr => 55
  | LOGICAL_KEY_MUTE => 56
  | LOGICAL_KEY_CAPS => 57
  | LOGICAL_KEY_PRINT => 58
  | LOGICAL_KEY_MINUS => 59
  | LOGICAL_KEY_BSLASH => 60
  | LOGICAL_KEY_QUOT => 61
  | LOGICAL_KEY_ENTER => 62
  | LOGICAL_KEY_ClBrc => 63
  | LOGICAL_KEY_OpBrc => 64
  | LOGICAL_KEY_UpArr => 65
  | LOGICAL_KEY_DnArr => 66
  | LOGICAL_KEY_INSERT => 67
  | LOGICAL_KEY_MENU => 68
  | LOGICAL_KEY_BREAK => 69
  | LOGICAL_KEY_L_CTRL => 70
  | LOGICAL_KEY_L_ALT => 71
  | LOGICAL_KEY_HOME => 72
  | LOGICAL_KEY_END => 73
  | LOGICAL_KEY_L_WIN => 74
  | LOGICAL_KEY_L_SH => 75
  | LOGICAL_KEY_BckSp => 76
  | LOGICAL_KEY_R_CTRL => 77
  | LOGICAL_KEY_R_ALT => 78
  | LOGICAL_KEY_PGUP => 79
  | LOGICAL_KEY_PGDN => 80
  | LOGICAL_KEY_R_WIN => 81
  | LOGICAL_KEY_R_SH => 82
  | LOGICAL_KEY_SPACE => 83
  end.

Coercion logical_key_code : logical_keys >-> Z.

Abbreviation KEY_NONE := 0xFF%Z (only parsing).

Definition matrix_map : list (list Z) :=
  [ [LOGICAL_KEY_PRINT : Z; LOGICAL_KEY_CAPS : Z; LOGICAL_KEY_MUTE : Z; LOGICAL_KEY_L_CTRL : Z; LOGICAL_KEY_L_SH : Z; LOGICAL_KEY_L_ALT : Z];
    [LOGICAL_KEY_5 : Z; LOGICAL_KEY_T : Z; LOGICAL_KEY_G : Z; LOGICAL_KEY_B : Z; LOGICAL_KEY_BckSp : Z; LOGICAL_KEY_HOME : Z];
    [LOGICAL_KEY_4 : Z; LOGICAL_KEY_R : Z; LOGICAL_KEY_F : Z; LOGICAL_KEY_V : Z; LOGICAL_KEY_RArr : Z; LOGICAL_KEY_END : Z];
    [LOGICAL_KEY_3 : Z; LOGICAL_KEY_E : Z; LOGICAL_KEY_D : Z; LOGICAL_KEY_C : Z; LOGICAL_KEY_LArr : Z; LOGICAL_KEY_L_WIN : Z];
    [LOGICAL_KEY_2 : Z; LOGICAL_KEY_W : Z; LOGICAL_KEY_S : Z; LOGICAL_KEY_X : Z; LOGICAL_KEY_IntK : Z; LOGICAL_KEY_L_KpSh : Z];
    [LOGICAL_KEY_1 : Z; LOGICAL_KEY_Q : Z; LOGICAL_KEY_A : Z; LOGICAL_KEY_Z : Z; LOGICAL_KEY_TILDE : Z; LOGICAL_KEY_L_MACRO : Z];
    [LOGICAL_KEY_EQ : Z; LOGICAL_KEY_TAB : Z; LOGICAL_KEY_ESC : Z; LOGICAL_KEY_DEL : Z; LOGICAL_KEY_PRG : Z; LOGICAL_KEY_L_PALM : Z];
    [LOGICAL_KEY_R_ALT : Z; LOGICAL_KEY_R_SH : Z; LOGICAL_KEY_R_CTRL : Z; LOGICAL_KEY_INSERT : Z; LOGICAL_KEY_MENU : Z; LOGICAL_KEY_BREAK : Z];
    [LOGICAL_KEY_PGUP : Z; LOGICAL_KEY_SPACE : Z; LOGICAL_KEY_N : Z; LOGICAL_KEY_H : Z; LOGICAL_KEY_Y : Z; LOGICAL_KEY_6 : Z];
    [LOGICAL_KEY_PGDN : Z; LOGICAL_KEY_DnArr : Z; LOGICAL_KEY_M : Z; LOGICAL_KEY_J : Z; LOGICAL_KEY_U : Z; LOGICAL_KEY_7 : Z];
    [LOGICAL_KEY_R_WIN : Z; LOGICAL_KEY_UpArr : Z; LOGICAL_KEY_COMMA : Z; LOGICAL_KEY_K : Z; LOGICAL_KEY_I : Z; LOGICAL_KEY_8 : Z];
    [LOGICAL_KEY_R_KpSh : Z; LOGICAL_KEY_OpBrc : Z; LOGICAL_KEY_PERIOD : Z; LOGICAL_KEY_L : Z; LOGICAL_KEY_O : Z; LOGICAL_KEY_9 : Z];
    [LOGICAL_KEY_R_MACRO : Z; LOGICAL_KEY_ClBrc : Z; LOGICAL_KEY_SLASH : Z; LOGICAL_KEY_SEMICOL : Z; LOGICAL_KEY_P : Z; LOGICAL_KEY_0 : Z];
    [LOGICAL_KEY_R_PALM : Z; LOGICAL_KEY_LaLck : Z; LOGICAL_KEY_ENTER : Z; LOGICAL_KEY_QUOT : Z; LOGICAL_KEY_BSLASH : Z; LOGICAL_KEY_MINUS : Z] ].

(** Default HID codes of the normal layer. *)
Definition default_normal_layer : list Z :=
  [
    SPECIAL_HID_KEY_PROGRAM; SPECIAL_HID_KEY_LAYER_LOCK; SPECIAL_HID_KEY_KEYPAD_SHIFT;
    SPECIAL_HID_KEY_KEYPAD_SHIFT; SPECIAL_HID_KEY_MACRO_SHIFT; SPECIAL_HID_KEY_MACRO_SHIFT;
    SPECIAL_HID_KEY_FUNCTION_SHIFT; SPECIAL_HID_KEY_FUNCTION_SHIFT; HID_KEYBOARD_SC_A;
    HID_KEYBOARD_SC_B; HID_KEYBOARD_SC_C; HID_KEYBOARD_SC_D; HID_KEYBOARD_SC_E;
    HID_KEYBOARD_SC_F; HID_KEYBOARD_SC_G; HID_KEYBOARD_SC_H; HID_KEYBOARD_SC_I;
    HID_KEYBOARD_SC_J; HID_KEYBOARD_SC_K; HID_KEYBOARD_SC_L; HID_KEYBOARD_SC_M;
    HID_KEYBOARD_SC_N; HID_KEYBOARD_SC_O; HID_KEYBOARD_SC_P; HID_KEYBOARD_SC_Q;
    HID_KEYBOARD_SC_R; HID_KEYBOARD_SC_S; HID_KEYBOARD_SC_T; HID_KEYBOARD_SC_U;
    HID_KEYBOARD_SC_V; HID_KEYBOARD_SC_W; HID_KEYBOARD_SC_X; HID_KEYBOARD_SC_Y;
    HID_KEYBOARD_SC_Z; HID_KEYBOARD_SC_1_AND_EXCLAMATION; HID_KEYBOARD_SC_2_AND_AT;
    HID_KEYBOARD_SC_3_AND_HASHMARK; HID_KEYBOARD_SC_4_AND_DOLLAR;
    HID_KEYBOARD_SC_5_AND_PERCENTAGE; HID_KEYBOARD_SC_6_AND_CARET;
    HID_KEYBOARD_SC_7_AND_AMPERSAND; HID_KEYBOARD_SC_8_AND_ASTERISK;
    HID_KEYBOARD_SC_9_AND_OPENING_PARENTHESIS; HID_KEYBOARD_SC_0_AND_CLOSING_PARENTHESIS;
    HID_KEYBOARD_SC_SEMICOLON_AND_COLON; HID_KEYBOARD_SC_COMMA_AND_LESS_THAN_SIGN;
    HID_KEYBOARD_SC_DOT_AND_GREATER_THAN_SIGN; HID_KEYBOARD_SC_SLASH_AND_QUESTION_MARK;
    HID_KEYBOARD_SC_EQUAL_AND_PLUS; HID_KEYBOARD_SC_TAB; HID_KEYBOARD_SC_ESCAPE;
    HID_KEYBOARD_SC_DELETE; HID_KEYBOARD_SC_GRAVE_ACCENT_AND_TILDE;
    HID_KEYBOARD_SC_NON_US_BACKSLASH_AND_PIPE; HID_KEYBOARD_SC_LEFT_ARROW;
    HID_KEYBOARD_SC_RIGHT_ARROW; HID_KEYBOARD_SC_MUTE; HID_KEYBOARD_SC_CAPS_LOCK;
    HID_KEYBOARD_SC_PRINT_SCREEN; HID_KEYBOARD_SC_MINUS_AND_UNDERSCORE;
    HID_KEYBOARD_SC_BACKSLASH_AND_PIPE; HID_KEYBOARD_SC_APOSTROPHE_AND_QUOTE;
    HID_KEYBOARD_SC_ENTER; HID_KEYBOARD_SC_CLOSING_BRACKET_AND_CLOSING_BRACE;
    HID_KEYBOARD_SC_OPENING_BRACKET_AND_OPENING_BRACE; HID_KEYBOARD_SC_UP_ARROW;
    HID_KEYBOARD_SC_DOWN_ARROW; HID_KEYBOARD_SC_INSERT; 0x65; HID_KEYBOARD_SC_PAUSE;
    HID_KEYBOARD_SC_LEFT_CONTROL; HID_KEYBOARD_SC_LEFT_ALT; HID_KEYBOARD_SC_HOME;
    HID_KEYBOARD_SC_END; HID_KEYBOARD_SC_LEFT_GUI; HID_KEYBOARD_SC_LEFT_SHIFT;
    HID_KEYBOARD_SC_BACKSPACE; HID_KEYBOARD_SC_RIGHT_CONTROL; HID_KEYBOARD_SC_RIGHT_ALT;
    HID_KEYBOARD_SC_PAGE_UP; HID_KEYBOARD_SC_PAGE_DOWN; HID_KEYBOARD_SC_RIGHT_GUI;
    HID_KEYBOARD_SC_RIGHT_SHIFT; HID_KEYBOARD_SC_SPACE ].

(** Default HID codes of the keypad layer. *)
Definition default_keypad_layer : list Z :=
  [
    SPECIAL_HID_KEY_PROGRAM; SPECIAL_HID_KEY_LAYER_LOCK; SPECIAL_HID_KEY_KEYPAD_SHIFT;
    SPECIAL_HID_KEY_KEYPAD_SHIFT; SPECIAL_HID_KEY_MACRO_SHIFT; SPECIAL_HID_KEY_MACRO_SHIFT;
    SPECIAL_HID_KEY_FUNCTION_SHIFT; SPECIAL_HID_KEY_FUNCTION_SHIFT;
    SPECIAL_HID_KEY_MOUSE_LEFT; SPECIAL_HID_KEY_MOUSE_BTN3; HID_KEYBOARD_SC_C;
    SPECIAL_HID_KEY_MOUSE_BACK; SPECIAL_HID_KEY_WHEEL_BACK; SPECIAL_HID_KEY_MOUSE_RIGHT;
    SPECIAL_HID_KEY_MOUSE_BTN2; HID_KEYBOARD_SC_KEYPAD_ASTERISK;
    HID_KEYBOARD_SC_KEYPAD_8_AND_UP_ARROW; HID_KEYBOARD_SC_KEYPAD_4_AND_LEFT_ARROW;
    HID_KEYBOARD_SC_KEYPAD_5; HID_KEYBOARD_SC_KEYPAD_6_AND_RIGHT_ARROW;
    HID_KEYBOARD_SC_KEYPAD_1_AND_END; HID_KEYBOARD_SC_KEYPAD_0_AND_INSERT;
    HID_KEYBOARD_SC_KEYPAD_9_AND_PAGE_UP; HID_KEYBOARD_SC_KEYPAD_MINUS;
    SPECIAL_HID_KEY_WHEEL_LEFT; SPECIAL_HID_KEY_WHEEL_RIGHT; SPECIAL_HID_KEY_MOUSE_FWD;
    SPECIAL_HID_KEY_MOUSE_BTN1; HID_KEYBOARD_SC_KEYPAD_7_AND_HOME; HID_KEYBOARD_SC_V;
    SPECIAL_HID_KEY_WHEEL_FWD; HID_KEYBOARD_SC_X; HID_KEYBOARD_SC_KEYPAD_SLASH;
    HID_KEYBOARD_SC_VOLUME_UP; HID_KEYBOARD_SC_F1; HID_KEYBOARD_SC_F2; HID_KEYBOARD_SC_F3;
    HID_KEYBOARD_SC_F4; HID_KEYBOARD_SC_F5; HID_KEYBOARD_SC_F6; HID_KEYBOARD_SC_F7;
    HID_KEYBOARD_SC_F8; HID_KEYBOARD_SC_F9; HID_KEYBOARD_SC_F10;
    HID_KEYBOARD_SC_KEYPAD_PLUS; HID_KEYBOARD_SC_KEYPAD_2_AND_DOWN_ARROW;
    HID_KEYBOARD_SC_KEYPAD_3_AND_PAGE_DOWN; HID_KEYBOARD_SC_KEYPAD_ENTER;
    HID_KEYBOARD_SC_F11; HID_KEYBOARD_SC_TAB; HID_KEYBOARD_SC_ESCAPE;
    HID_KEYBOARD_SC_DELETE; HID_KEYBOARD_SC_VOLUME_DOWN;
    HID_KEYBOARD_SC_NON_US_BACKSLASH_AND_PIPE; HID_KEYBOARD_SC_LEFT_ARROW;
    HID_KEYBOARD_SC_RIGHT_ARROW; SPECIAL_HID_KEY_MOUSE_BTN5; SPECIAL_HID_KEY_MOUSE_BTN4;
    HID_KEYBOARD_SC_SCROLL_LOCK; HID_KEYBOARD_SC_F12; SPECIAL_HID_KEY_MOUSE_BTN1;
    SPECIAL_HID_KEY_MOUSE_BTN2; SPECIAL_HID_KEY_MOUSE_BTN3; HID_KEYBOARD_SC_ENTER;
    HID_KEYBOARD_SC_KEYPAD_DOT_AND_DELETE; HID_KEYBOARD_SC_UP_ARROW;
    HID_KEYBOARD_SC_DOWN_ARROW; HID_KEYBOARD_SC_INSERT; 0x65; HID_KEYBOARD_SC_NUM_LOCK;
    HID_KEYBOARD_SC_LEFT_CONTROL; HID_KEYBOARD_SC_LEFT_ALT; HID_KEYBOARD_SC_HOME;
    HID_KEYBOARD_SC_END; HID_KEYBOARD_SC_LEFT_GUI; HID_KEYBOARD_SC_LEFT_SHIFT;
    HID_KEYBOARD_SC_BACKSPACE; HID_KEYBOARD_SC_RIGHT_CONTROL; HID_KEYBOARD_SC_RIGHT_ALT;
    HID_KEYBOARD_SC_PAGE_UP; HID_KEYBOARD_SC_PAGE_DOWN; HID_KEYBOARD_SC_RIGHT_GUI;
    HID_KEYBOARD_SC_RIGHT_SHIFT; HID_KEYBOARD_SC_SPACE ].

(** Default HID codes of the function layer. *)
Definition default_function_layer : list Z :=
  [
    SPECIAL_HID_KEY_PROGRAM; SPECIAL_HID_KEY_LAYER_LOCK; SPECIAL_HID_KEY_KEYPAD_SHIFT;
    SPECIAL_HID_KEY_KEYPAD_SHIFT; SPECIAL_HID_KEY_MACRO_SHIFT; SPECIAL_HID_KEY_MACRO_SHIFT;
    SPECIAL_HID_KEY_FUNCTION_SHIFT; SPECIAL_HID_KEY_FUNCTION_SHIFT;
    SPECIAL_HID_KEY_MOUSE_LEFT; SPECIAL_HID_KEY_MOUSE_BTN3; HID_KEYBOARD_SC_C;
    SPECIAL_HID_KEY_MOUSE_BACK; SPECIAL_HID_KEY_WHEEL_BACK; SPECIAL_HID_KEY_MOUSE_RIGHT;
    SPECIAL_HID_KEY_MOUSE_BTN2; HID_KEYBOARD_SC_KEYPAD_ASTERISK;
    HID_KEYBOARD_SC_KEYPAD_8_AND_UP_ARROW; HID_KEYBOARD_SC_KEYPAD_4_AND_LEFT_ARROW;
    HID_KEYBOARD_SC_KEYPAD_5; HID_KEYBOARD_SC_KEYPAD_6_AND_RIGHT_ARROW;
    HID_KEYBOARD_SC_KEYPAD_1_AND_END; HID_KEYBOARD_SC_KEYPAD_0_AND_INSERT;
    HID_KEYBOARD_SC_KEYPAD_9_AND_PAGE_UP; HID_KEYBOARD_SC_KEYPAD_MINUS;
    SPECIAL_HID_KEY_WHEEL_LEFT; SPECIAL_HID_KEY_WHEEL_RIGHT; SPECIAL_HID_KEY_MOUSE_FWD;
    SPECIAL_HID_KEY_MOUSE_BTN1; HID_KEYBOARD_SC_KEYPAD_7_AND_HOME; HID_KEYBOARD_SC_V;
    SPECIAL_HID_KEY_WHEEL_FWD; HID_KEYBOARD_SC_X; HID_KEYBOARD_SC_KEYPAD_SLASH;
    HID_KEYBOARD_SC_VOLUME_UP; HID_KEYBOARD_SC_F1; HID_KEYBOARD_SC_F2; HID_KEYBOARD_SC_F3;
    HID_KEYBOARD_SC_F4; HID_KEYBOARD_SC_F5; HID_KEYBOARD_SC_F6; HID_KEYBOARD_SC_F7;
    HID_KEYBOARD_SC_F8; HID_KEYBOARD_SC_F9; HID_KEYBOARD_SC_F10;
    HID_KEYBOARD_SC_KEYPAD_PLUS; HID_KEYBOARD_SC_KEYPAD_2_AND_DOWN_ARROW;
    HID_KEYBOARD_SC_KEYPAD_3_AND_PAGE_DOWN; HID_KEYBOARD_SC_KEYPAD_ENTER;
    HID_KEYBOARD_SC_F11; HID_KEYBOARD_SC_TAB; HID_KEYBOARD_SC_ESCAPE;
    HID_KEYBOARD_SC_DELETE; HID_KEYBOARD_SC_VOLUME_DOWN;
    HID_KEYBOARD_SC_NON_US_BACKSLASH_AND_PIPE; HID_KEYBOARD_SC_LEFT_ARROW;
    HID_KEYBOARD_SC_RIGHT_ARROW; SPECIAL_HID_KEY_MOUSE_BTN5; SPECIAL_HID_KEY_MOUSE_BTN4;
    HID_KEYBOARD_SC_SCROLL_LOCK; HID_KEYBOARD_SC_F12; SPECIAL_HID_KEY_MOUSE_BTN1;
    SPECIAL_HID_KEY_MOUSE_BTN2; SPECIAL_HID_KEY_MOUSE_BTN3; HID_KEYBOARD_SC_ENTER;
    HID_KEYBOARD_SC_KEYPAD_DOT_AND_DELETE; HID_KEYBOARD_SC_UP_ARROW;
    HID_KEYBOARD_SC_DOWN_ARROW; HID_KEYBOARD_SC_INSERT; 0x65; HID_KEYBOARD_SC_NUM_LOCK;
    HID_KEYBOARD_SC_LEFT_CONTROL; HID_KEYBOARD_SC_LEFT_ALT; HID_KEYBOARD_SC_HOME;
    HID_KEYBOARD_SC_END; HID_KEYBOARD_SC_LEFT_GUI; HID_KEYBOARD_SC_LEFT_SHIFT;
    HID_KEYBOARD_SC_BACKSPACE; HID_KEYBOARD_SC_RIGHT_CONTROL; HID_KEYBOARD_SC_RIGHT_ALT;
    HID_KEYBOARD_SC_PAGE_UP; HID_KEYBOARD_SC_PAGE_DOWN; HID_KEYBOARD_SC_RIGHT_GUI;
    HID_KEYBOARD_SC_RIGHT_SHIFT; HID_KEYBOARD_SC_SPACE ].

Definition default_layout : list Z :=
  default_normal_layer ++ default_keypad_layer ++ default_function_layer.

#[export] Instance K84cs_hardware : Hardware := {
  KEYPAD_LAYER_SIZE := 84;
  NUM_LOGICAL_KEYS := 84 * 3;
  MATRIX_ROWS := 14;
  MATRIX_COLS := 6;
  matrix_to_logical_map := matrix_map;
  logical_to_hid_map_default := default_layout;
  SAVED_MAPPING_COUNT := 255;
  MACRO_INDEX_COUNT := 128;
  MACROS_SIZE := 3586;
  PROGRAM_SIZE := 1023;
  PROGRAM_COUNT := 6
}.

#[export] Instance K84cs_hotkeys : HotKeys := {
  NUM_KEY_MAPPING_INDICES := 10;
  SPECIAL_HKEY_CONFIG_LOAD := HID_KEYBOARD_SC_E;
  SPECIAL_HKEY_CONFIG_SAVE := HID_KEYBOARD_SC_S;
  SPECIAL_HKEY_CONFIG_DELETE := HID_KEYBOARD_SC_D;
  SPECIAL_HKEY_MACROS_ENABLE := HID_KEYBOARD_SC_Q;
  SPECIAL_HKEY_MACRO_RECORD := HID_KEYBOARD_SC_W;
  SPECIAL_HKEY_REMAP := HID_KEYBOARD_SC_R;
  SPECIAL_HKEY_REBOOT := HID_KEYBOARD_SC_B;
  SPECIAL_HKEY_RESET_CONFIG := HID_KEYBOARD_SC_C;
  SPECIAL_HKEY_RESET_FULLY := HID_KEYBOARD_SC_F;
  SPECIAL_HKEY_TOGGLE_BUZZER := HID_KEYBOARD_SC_Z;
  SPECIAL_HKEY_TEST_LEDS := HID_KEYBOARD_SC_L;
  SPECIAL_HKEY_DEBOUNCE_UP := HID_KEYBOARD_SC_TAB;
  SPECIAL_HKEY_DEBOUNCE_DW := HID_KEYBOARD_SC_ESCAPE;
  SPECIAL_HKEY_MOUSE_DIV_UP := HID_KEYBOARD_SC_T;
  SPECIAL_HKEY_MOUSE_DIV_DW := HID_KEYBOARD_SC_G;
  SPECIAL_HKEY_WHEEL_DIV_UP := HID_KEYBOARD_SC_CAPS_LOCK;
  SPECIAL_HKEY_WHEEL_DIV_DW := HID_KEYBOARD_SC_MUTE
}.

Abbreviation fnLayer := (2 * 84)%Z (only parsing).

(** The default macros, ended by a [NO_KEY] marker. *)
Definition macro_def_infos : list macro_def_info :=
  [ mkMacroDef (fnLayer + LOGICAL_KEY_EQ) [HID_KEYBOARD_SC_LEFT_GUI; HID_KEYBOARD_SC_F11; HID_KEYBOARD_SC_F11];
    mkMacroDef (fnLayer + LOGICAL_KEY_1) [HID_KEYBOARD_SC_LEFT_GUI; HID_KEYBOARD_SC_F1; HID_KEYBOARD_SC_F1];
    mkMacroDef (fnLayer + LOGICAL_KEY_2) [HID_KEYBOARD_SC_LEFT_GUI; HID_KEYBOARD_SC_F2; HID_KEYBOARD_SC_F2];
    mkMacroDef (fnLayer + LOGICAL_KEY_3) [HID_KEYBOARD_SC_LEFT_GUI; HID_KEYBOARD_SC_F3; HID_KEYBOARD_SC_F3];
    mkMacroDef (fnLayer + LOGICAL_KEY_4) [HID_KEYBOARD_SC_LEFT_GUI; HID_KEYBOARD_SC_F4; HID_KEYBOARD_SC_F4];
    mkMacroDef (fnLayer + LOGICAL_KEY_5) [HID_KEYBOARD_SC_LEFT_GUI; HID_KEYBOARD_SC_F5; HID_KEYBOARD_SC_F5];
    mkMacroDef (fnLayer + LOGICAL_KEY_6) [HID_KEYBOARD_SC_RIGHT_GUI; HID_KEYBOARD_SC_F6; HID_KEYBOARD_SC_F6];
    mkMacroDef (fnLayer + LOGICAL_KEY_7) [HID_KEYBOARD_SC_RIGHT_GUI; HID_KEYBOARD_SC_F7; HID_KEYBOARD_SC_F7];
    mkMacroDef (fnLayer + LOGICAL_KEY_8) [HID_KEYBOARD_SC_RIGHT_GUI; HID_KEYBOARD_SC_F8; HID_KEYBOARD_SC_F8];
    mkMacroDef (fnLayer + LOGICAL_KEY_9) [HID_KEYBOARD_SC_RIGHT_GUI; HID_KEYBOARD_SC_F9; HID_KEYBOARD_SC_F9];
    mkMacroDef (fnLayer + LOGICAL_KEY_0) [HID_KEYBOARD_SC_RIGHT_GUI; HID_KEYBOARD_SC_F10; HID_KEYBOARD_SC_F10];
    mkMacroDef (fnLayer + LOGICAL_KEY_MINUS) [HID_KEYBOARD_SC_RIGHT_GUI; HID_KEYBOARD_SC_F12; HID_KEYBOARD_SC_F12];
    mkMacroDef (fnLayer + LOGICAL_KEY_TAB) [HID_KEYBOARD_SC_LEFT_ALT; HID_KEYBOARD_SC_F11; HID_KEYBOARD_SC_F11];
    mkMacroDef (fnLayer + LOGICAL_KEY_Q) [HID_KEYBOARD_SC_LEFT_ALT; HID_KEYBOARD_SC_F1; HID_KEYBOARD_SC_F1];
    mkMacroDef (fnLayer + LOGICAL_KEY_W) [HID_KEYBOARD_SC_LEFT_ALT; HID_KEYBOARD_SC_F2; HID_KEYBOARD_SC_F2];
    mkMacroDef (fnLayer + LOGICAL_KEY_E) [HID_KEYBOARD_SC_LEFT_ALT; HID_KEYBOARD_SC_F3; HID_KEYBOARD_SC_F3];
    mkMacroDef (fnLayer + LOGICAL_KEY_R) [HID_KEYBOARD_SC_LEFT_ALT; HID_KEYBOARD_SC_F4; HID_KEYBOARD_SC_F4];
    mkMacroDef (fnLayer + LOGICAL_KEY_T) [HID_KEYBOARD_SC_LEFT_ALT; HID_KEYBOARD_SC_F5; HID_KEYBOARD_SC_F5];
    mkMacroDef (fnLayer + LOGICAL_KEY_Y) [HID_KEYBOARD_SC_RIGHT_ALT; HID_KEYBOARD_SC_F6; HID_KEYBOARD_SC_F6];
    mkMacroDef (fnLayer + LOGICAL_KEY_U) [HID_KEYBOARD_SC_RIGHT_ALT; HID_KEYBOARD_SC_F7; HID_KEYBOARD_SC_F7];
    mkMacroDef (fnLayer + LOGICAL_KEY_I) [HID_KEYBOARD_SC_RIGHT_ALT; HID_KEYBOARD_SC_F8; HID_KEYBOARD_SC_F8];
    mkMacroDef (fnLayer + LOGICAL_KEY_O) [HID_KEYBOARD_SC_RIGHT_ALT; HID_KEYBOARD_SC_F9; HID_KEYBOARD_SC_F9];
    mkMacroDef (fnLayer + LOGICAL_KEY_P) [HID_KEYBOARD_SC_RIGHT_ALT; HID_KEYBOARD_SC_F10; HID_KEYBOARD_SC_F10];
    mkMacroDef (fnLayer + LOGICAL_KEY_BSLASH) [HID_KEYBOARD_SC_RIGHT_ALT; HID_KEYBOARD_SC_F12; HID_KEYBOARD_SC_F12];
    mkMacroDef (fnLayer + LOGICAL_KEY_ESC) [HID_KEYBOARD_SC_LEFT_SHIFT; HID_KEYBOARD_SC_F11; HID_KEYBOARD_SC_F11];
    mkMacroDef (fnLayer + LOGICAL_KEY_A) [HID_KEYBOARD_SC_LEFT_SHIFT; HID_KEYBOARD_SC_F1; HID_KEYBOARD_SC_F1];
    mkMacroDef (fnLayer + LOGICAL_KEY_S) [HID_KEYBOARD_SC_LEFT_SHIFT; HID_KEYBOARD_SC_F2; HID_KEYBOARD_SC_F2];
    mkMacroDef (fnLayer + LOGICAL_KEY_D) [HID_KEYBOARD_SC_LEFT_SHIFT; HID_KEYBOARD_SC_F3; HID_KEYBOARD_SC_F3];
    mkMacroDef (fnLayer + LOGICAL_KEY_F) [HID_KEYBOARD_SC_LEFT_SHIFT; HID_KEYBOARD_SC_F4; HID_KEYBOARD_SC_F4];
    mkMacroDef (fnLayer + LOGICAL_KEY_G) [HID_KEYBOARD_SC_LEFT_SHIFT; HID_KEYBOARD_SC_F5; HID_KEYBOARD_SC_F5];
    mkMacroDef (fnLayer + LOGICAL_KEY_H) [HID_KEYBOARD_SC_RIGHT_SHIFT; HID_KEYBOARD_SC_F6; HID_KEYBOARD_SC_F6];
    mkMacroDef (fnLayer + LOGICAL_KEY_J) [HID_KEYBOARD_SC_RIGHT_SHIFT; HID_KEYBOARD_SC_F7; HID_KEYBOARD_SC_F7];
    mkMacroDef (fnLayer + LOGICAL_KEY_K) [HID_KEYBOARD_SC_RIGHT_SHIFT; HID_KEYBOARD_SC_F8; HID_KEYBOARD_SC_F8];
    mkMacroDef (fnLayer + LOGICAL_KEY_L) [HID_KEYBOARD_SC_RIGHT_SHIFT; HID_KEYBOARD_SC_F9; HID_KEYBOARD_SC_F9];
    mkMacroDef (fnLayer + LOGICAL_KEY_SEMICOL) [HID_KEYBOARD_SC_RIGHT_SHIFT; HID_KEYBOARD_SC_F10; HID_KEYBOARD_SC_F10];
    mkMacroDef (fnLayer + LOGICAL_KEY_QUOT) [HID_KEYBOARD_SC_RIGHT_SHIFT; HID_KEYBOARD_SC_F12; HID_KEYBOARD_SC_F12];
    mkMacroDef (fnLayer + LOGICAL_KEY_DEL) [HID_KEYBOARD_SC_LEFT_CONTROL; HID_KEYBOARD_SC_F11; HID_KEYBOARD_SC_F11];
    mkMacroDef (fnLayer + LOGICAL_KEY_Z) [HID_KEYBOARD_SC_LEFT_CONTROL; HID_KEYBOARD_SC_F1; HID_KEYBOARD_SC_F1];
    mkMacroDef (fnLayer + LOGICAL_KEY_X) [HID_KEYBOARD_SC_LEFT_CONTROL; HID_KEYBOARD_SC_F2; HID_KEYBOARD_SC_F2];
    mkMacroDef (fnLayer + LOGICAL_KEY_C) [HID_KEYBOARD_SC_LEFT_CONTROL; HID_KEYBOARD_SC_F3; HID_KEYBOARD_SC_F3];
    mkMacroDef (fnLayer + LOGICAL_KEY_V) [HID_KEYBOARD_SC_LEFT_CONTROL; HID_KEYBOARD_SC_F4; HID_KEYBOARD_SC_F4];
    mkMacroDef (fnLayer + LOGICAL_KEY_B) [HID_KEYBOARD_SC_LEFT_CONTROL; HID_KEYBOARD_SC_F5; HID_KEYBOARD_SC_F5];
    mkMacroDef (fnLayer + LOGICAL_KEY_N) [HID_KEYBOARD_SC_RIGHT_CONTROL; HID_KEYBOARD_SC_F6; HID_KEYBOARD_SC_F6];
    mkMacroDef (fnLayer + LOGICAL_KEY_M) [HID_KEYBOARD_SC_RIGHT_CONTROL; HID_KEYBOARD_SC_F7; HID_KEYBOARD_SC_F7];
    mkMacroDef (fnLayer + LOGICAL_KEY_COMMA) [HID_KEYBOARD_SC_RIGHT_CONTROL; HID_KEYBOARD_SC_F8; HID_KEYBOARD_SC_F8];
    mkMacroDef (fnLayer + LOGICAL_KEY_PERIOD) [HID_KEYBOARD_SC_RIGHT_CONTROL; HID_KEYBOARD_SC_F9; HID_KEYBOARD_SC_F9];
    mkMacroDef (fnLayer + LOGICAL_KEY_SLASH) [HID_KEYBOARD_SC_RIGHT_CONTROL; HID_KEYBOARD_SC_F10; HID_KEYBOARD_SC_F10];
    mkMacroDef (fnLayer + LOGICAL_KEY_ENTER) [HID_KEYBOARD_SC_RIGHT_CONTROL; HID_KEYBOARD_SC_F12; HID_KEYBOARD_SC_F12];
    mkMacroDef NO_KEY [0; 0; 0] ].

#[export] Instance K84cs_hardware_ok : HardwareOk K84cs_hardware.
Proof.
  constructor.
  - reflexivity.
  - vm_compute. auto.
  - reflexivity.
  - reflexivity.
  - reflexivity.
  - repeat constructor.
  - apply is_perm_of_range_spec. vm_compute. reflexivity.
  - vm_compute. reflexivity.
  - apply (bool_decide_unpack _). vm_compute. exact I.
  - intros k l Hk Hl Hs.
    apply (same_in_all_layers_spec 3 84 default_layout); [vm_compute; reflexivity| |done|done].
    change KEYPAD_LAYER_SIZE with 84 in Hk. lia.
Qed.

(** ** The properties *)

(** In the K84CS tables every physical key is at exactly one position of the 14 by 6
    matrix, the default layout has one byte for each key of each of the 3 layers, and the
    layer, macro and program keys have the same meaning in all layers, so that a layer can
    always be left with the key that entered it. *)
Theorem k84cs_tables :
  physical_keys matrix_map ≡ₚ seqZ 0 84 /\
  length matrix_map = 14%nat /\ Forall (fun r => length r = 6%nat) matrix_map /\
  length default_layout = (3 * 84)%nat /\ Forall is_u8 default_layout /\
  (forall k l, (k < 84)%nat -> (l < 3)%nat ->
     SPECIAL_HID_KEY_NOREMAP (default_layout !!! k) = true ->
     default_layout !!! (k + l * 84)%nat = default_layout !!! k).
Proof.
  split_and!.
  - exact matrix_keys_ok.
  - exact matrix_rows_ok.
  - exact matrix_cols_ok.
  - vm_compute. reflexivity.
  - exact defaults_u8.
  - apply same_in_all_layers_spec. vm_compute. reflexivity.
Qed.
