(* ===== verification/Kinesis.v ===== *)
(** * The KINESIS hardware variant: its tables

    The logical keys, the key matrix and the default layout of
    src/hardware/kinesis.h and src/hardware/kinesis.c, in the order of the source, and
    the proof that they obey the laws of [Hardware]. *)

From S2P Require Import Prelude Hid Hardware.

(** [enum logical_keys] *)
Inductive logical_keys :=
  | LOGICAL_KEY_PROGRAM
  | LOGICAL_KEY_KEYPAD
  | LOGICAL_KEY_A
  | LOGICAL_KEY_B
  | LOGICAL_KEY_C
  | LOGICAL_KEY_D
  | LOGICAL_KEY_E
  | LOGICAL_KEY_F
  | LOGICAL_KEY_G
  | LOGICAL_KEY_H
  | LOGICAL_KEY_I
  | LOGICAL_KEY_J
  | LOGICAL_KEY_K
  | LOGICAL_KEY_L
  | LOGICAL_KEY_M
  | LOGICAL_KEY_N
  | LOGICAL_KEY_O
  | LOGICAL_KEY_P
  | LOGICAL_KEY_Q
  | LOGICAL_KEY_R
  | LOGICAL_KEY_S
  | LOGICAL_KEY_T
  | LOGICAL_KEY_U
  | LOGICAL_KEY_V
  | LOGICAL_KEY_W
  | LOGICAL_KEY_X
  | LOGICAL_KEY_Y
  | LOGICAL_KEY_Z
  | LOGICAL_KEY_1
  | LOGICAL_KEY_2
  | LOGICAL_KEY_3
  | LOGICAL_KEY_4
  | LOGICAL_KEY_5
  | LOGICAL_KEY_6
  | LOGICAL_KEY_7
  | LOGICAL_KEY_8
  | LOGICAL_KEY_9
  | LOGICAL_KEY_0
  | LOGICAL_KEY_F1
  | LOGICAL_KEY_F2
  | LOGICAL_KEY_F3
  | LOGICAL_KEY_F4
  | LOGICAL_KEY_F5
  | LOGICAL_KEY_F6
  | LOGICAL_KEY_F7
  | LOGICAL_KEY_F8
  | LOGICAL_KEY_F9
  | LOGICAL_KEY_F10
  | LOGICAL_KEY_F11
  | LOGICAL_KEY_F12
  | LOGICAL_KEY_EQUALS
  | LOGICAL_KEY_TAB
  | LOGICAL_KEY_ESC
  | LOGICAL_KEY_CAPSLOCK
  | LOGICAL_KEY_LSHIFT
  | LOGICAL_KEY_UP
  | LOGICAL_KEY_DOWN
  | LOGICAL_KEY_LEFT
  | LOGICAL_KEY_RIGHT
  | LOGICAL_KEY_LSQUARE
  | LOGICAL_KEY_RSQUARE
  | LOGICAL_KEY_SCROLLLOCK
  | LOGICAL_KEY_PRINTSCREEN
  | LOGICAL_KEY_INTERNATIONAL
  | LOGICAL_KEY_BACKTICK
  | LOGICAL_KEY_HYPHEN
  | LOGICAL_KEY_PAUSE
  | LOGICAL_KEY_END
  | LOGICAL_KEY_HOME
  | LOGICAL_KEY_DELETE
  | LOGICAL_KEY_BACKSPACE
  | LOGICAL_KEY_L_ALT
  | LOGICAL_KEY_L_CTRL
  | LOGICAL_KEY_BACKSLASH
  | LOGICAL_KEY_PGDN
  | LOGICAL_KEY_PGUP
  | LOGICAL_KEY_ENTER
  | LOGICAL_KEY_SPACE
  | LOGICAL_KEY_R_ALT
  | LOGICAL_KEY_R_CTRL
  | LOGICAL_KEY_SEMICOLON
  | LOGICAL_KEY_QUOTE
  | LOGICAL_KEY_COMMA
  | LOGICAL_KEY_PERIOD
  | LOGICAL_KEY_SLASH
  | LOGICAL_KEY_RSHIFT.

(** The value of the enumerator. *)
Definition logical_key_code (k : logical_keys) : Z :=
  match k with
  | LOGICAL_KEY_PROGRAM => 0
  | LOGICAL_KEY_KEYPAD => 1
  | LOGICAL_KEY_A => 2
  | LOGICAL_KEY_B => 3
  | LOGICAL_KEY_C => 4
  | LOGICAL_KEY_D => 5
  | LOGICAL_KEY_E => 6
  | LOGICAL_KEY_F => 7
  | LOGICAL_KEY_G => 8
  | LOGICAL_KEY_H => 9
  | LOGICAL_KEY_I => 10
  | LOGICAL_KEY_J => 11
  | LOGICAL_KEY_K => 12
  | LOGICAL_KEY_L => 13
  | LOGICAL_KEY_M => 14
  | LOGICAL_KEY_N => 15
  | LOGICAL_KEY_O => 16
  | LOGICAL_KEY_P => 17
  | LOGICAL_KEY_Q => 18
  | LOGICAL_KEY_R => 19
  | LOGICAL_KEY_S => 20
  | LOGICAL_KEY_T => 21
  | LOGICAL_KEY_U => 22
  | LOGICAL_KEY_V => 23
  | LOGICAL_KEY_W => 24
  | LOGICAL_KEY_X => 25
  | LOGICAL_KEY_Y => 26
  | LOGICAL_KEY_Z => 27
  | LOGICAL_KEY_1 => 28
  | LOGICAL_KEY_2 => 29
  | LOGICAL_KEY_3 => 30
  | LOGICAL_KEY_4 => 31
  | LOGICAL_KEY_5 => 32
  | LOGICAL_KEY_6 => 33
  | LOGICAL_KEY_7 => 34
  | LOGICAL_KEY_8 => 35
  | LOGICAL_KEY_9 => 36
  | LOGICAL_KEY_0 => 37
  | LOGICAL_KEY_F1 => 38
  | LOGICAL_KEY_F2 => 39
  | LOGICAL_KEY_F3 => 40
  | LOGICAL_KEY_F4 => 41
  | LOGICAL_KEY_F5 => 42
  | LOGICAL_KEY_F6 => 43
  | LOGICAL_KEY_F7 => 44
  | LOGICAL_KEY_F8 => 45
  | LOGICAL_KEY_F9 => 46
  | LOGICAL_KEY_F10 => 47
  | LOGICAL_KEY_F11 => 48
  | LOGICAL_KEY_F12 => 49
  | LOGICAL_KEY_EQUALS => 50
  | LOGICAL_KEY_TAB => 51
  | LOGICAL_KEY_ESC => 52
  | LOGICAL_KEY_CAPSLOCK => 53
  | LOGICAL_KEY_LSHIFT => 54
  | LOGICAL_KEY_UP => 55
  | LOGICAL_KEY_DOWN => 56
  | LOGICAL_KEY_LEFT => 57
  | LOGICAL_KEY_RIGHT => 58
  | LOGICAL_KEY_LSQUARE => 59
  | LOGICAL_KEY_RSQUARE => 60
  | LOGICAL_KEY_SCROLLLOCK => 61
  | LOGICAL_KEY_PRINTSCREEN => 62
  | LOGICAL_KEY_INTERNATIONAL => 63
  | LOGICAL_KEY_BACKTICK => 64
  | LOGICAL_KEY_HYPHEN => 65
  | LOGICAL_KEY_PAUSE => 66
  | LOGICAL_KEY_END => 67
  | LOGICAL_KEY_HOME => 68
  | LOGICAL_KEY_DELETE => 69
  | LOGICAL_KEY_BACKSPACE => 70
  | LOGICAL_KEY_L_ALT => 71
  | LOGICAL_KEY_L_CTRL => 72
  | LOGICAL_KEY_BACKSLASH => 73
  | LOGICAL_KEY_PGDN => 74
  | LOGICAL_KEY_PGUP => 75
  | LOGICAL_KEY_ENTER => 76
  | LOGICAL_KEY_SPACE => 77
  | LOGICAL_KEY_R_ALT => 78
  | LOGICAL_KEY_R_CTRL => 79
  | LOGICAL_KEY_SEMICOLON => 80
  | LOGICAL_KEY_QUOTE => 81
  | LOGICAL_KEY_COMMA => 82
  | LOGICAL_KEY_PERIOD => 83
  | LOGICAL_KEY_SLASH => 84
  | LOGICAL_KEY_RSHIFT => 85
  end.

Coercion logical_key_code : logical_keys >-> Z.

Abbreviation KEY_NONE := 0xFF%Z (only parsing).

Definition matrix_map : list (list Z) :=
  [ [LOGICAL_KEY_KEYPAD : Z; LOGICAL_KEY_PROGRAM : Z; LOGICAL_KEY_F6 : Z; LOGICAL_KEY_F3 : Z; LOGICAL_KEY_ESC : Z; LOGICAL_KEY_F9 : Z; LOGICAL_KEY_F12 : Z; LOGICAL_KEY_PAUSE : Z; KEY_NONE; KEY_NONE];
    [KEY_NONE; KEY_NONE; LOGICAL_KEY_F8 : Z; LOGICAL_KEY_F5 : Z; LOGICAL_KEY_F2 : Z; LOGICAL_KEY_F11 : Z; LOGICAL_KEY_SCROLLLOCK : Z; KEY_NONE; KEY_NONE; KEY_NONE];
    [KEY_NONE; KEY_NONE; LOGICAL_KEY_F7 : Z; LOGICAL_KEY_F4 : Z; LOGICAL_KEY_F1 : Z; LOGICAL_KEY_F10 : Z; LOGICAL_KEY_PRINTSCREEN : Z; KEY_NONE; KEY_NONE; KEY_NONE];
    [KEY_NONE; KEY_NONE; LOGICAL_KEY_5 : Z; LOGICAL_KEY_T : Z; LOGICAL_KEY_G : Z; LOGICAL_KEY_B : Z; LOGICAL_KEY_RIGHT : Z; LOGICAL_KEY_L_ALT : Z; LOGICAL_KEY_L_CTRL : Z; KEY_NONE];
    [KEY_NONE; KEY_NONE; LOGICAL_KEY_4 : Z; LOGICAL_KEY_R : Z; LOGICAL_KEY_F : Z; LOGICAL_KEY_V : Z; KEY_NONE; KEY_NONE; LOGICAL_KEY_DELETE : Z; LOGICAL_KEY_R_ALT : Z];
    [KEY_NONE; KEY_NONE; LOGICAL_KEY_3 : Z; LOGICAL_KEY_E : Z; LOGICAL_KEY_D : Z; LOGICAL_KEY_C : Z; LOGICAL_KEY_LEFT : Z; LOGICAL_KEY_HOME : Z; LOGICAL_KEY_BACKSPACE : Z; KEY_NONE];
    [KEY_NONE; KEY_NONE; LOGICAL_KEY_2 : Z; LOGICAL_KEY_W : Z; LOGICAL_KEY_S : Z; LOGICAL_KEY_X : Z; LOGICAL_KEY_INTERNATIONAL : Z; KEY_NONE; LOGICAL_KEY_R_CTRL : Z; LOGICAL_KEY_PGUP : Z];
    [KEY_NONE; KEY_NONE; LOGICAL_KEY_1 : Z; LOGICAL_KEY_Q : Z; LOGICAL_KEY_A : Z; LOGICAL_KEY_Z : Z; LOGICAL_KEY_BACKTICK : Z; LOGICAL_KEY_END : Z; LOGICAL_KEY_ENTER : Z; KEY_NONE];
    [KEY_NONE; KEY_NONE; LOGICAL_KEY_EQUALS : Z; LOGICAL_KEY_TAB : Z; LOGICAL_KEY_CAPSLOCK : Z; LOGICAL_KEY_LSHIFT : Z; KEY_NONE; KEY_NONE; LOGICAL_KEY_SPACE : Z; LOGICAL_KEY_PGDN : Z];
    [KEY_NONE; KEY_NONE; KEY_NONE; KEY_NONE; KEY_NONE; LOGICAL_KEY_UP : Z; LOGICAL_KEY_6 : Z; LOGICAL_KEY_Y : Z; LOGICAL_KEY_H : Z; LOGICAL_KEY_N : Z];
    [KEY_NONE; KEY_NONE; KEY_NONE; KEY_NONE; KEY_NONE; KEY_NONE; LOGICAL_KEY_7 : Z; LOGICAL_KEY_U : Z; LOGICAL_KEY_J : Z; LOGICAL_KEY_M : Z];
    [KEY_NONE; KEY_NONE; KEY_NONE; KEY_NONE; KEY_NONE; LOGICAL_KEY_DOWN : Z; LOGICAL_KEY_8 : Z; LOGICAL_KEY_I : Z; LOGICAL_KEY_K : Z; LOGICAL_KEY_COMMA : Z];
    [KEY_NONE; KEY_NONE; KEY_NONE; KEY_NONE; KEY_NONE; KEY_NONE; KEY_NONE; KEY_NONE; KEY_NONE; KEY_NONE];
    [KEY_NONE; KEY_NONE; KEY_NONE; KEY_NONE; KEY_NONE; LOGICAL_KEY_LSQUARE : Z; LOGICAL_KEY_9 : Z; LOGICAL_KEY_O : Z; LOGICAL_KEY_L : Z; LOGICAL_KEY_PERIOD : Z];
    [KEY_NONE; KEY_NONE; KEY_NONE; KEY_NONE; KEY_NONE; LOGICAL_KEY_RSQUARE : Z; LOGICAL_KEY_0 : Z; LOGICAL_KEY_P : Z; LOGICAL_KEY_SEMICOLON : Z; LOGICAL_KEY_SLASH : Z];
    [KEY_NONE; KEY_NONE; KEY_NONE; KEY_NONE; KEY_NONE; KEY_NONE; LOGICAL_KEY_HYPHEN : Z; LOGICAL_KEY_BACKSLASH : Z; LOGICAL_KEY_QUOTE : Z; LOGICAL_KEY_RSHIFT : Z] ].

(** Default HID codes of the normal layer. *)
Definition default_normal_layer : list Z :=
  [
    SPECIAL_HID_KEY_PROGRAM; SPECIAL_HID_KEY_LAYER_LOCK; HID_KEYBOARD_SC_A;
    HID_KEYBOARD_SC_B; HID_KEYBOARD_SC_C; HID_KEYBOARD_SC_D; HID_KEYBOARD_SC_E;
    HID_KEYBOARD_SC_F; HID_KEYBOARD_SC_G; HID_KEYBOARD_SC_H; HID_KEYBOARD_SC_I;
    HID_KEYBOARD_SC_J; HID_KEYBOARD_SC_K; HID_KEYBOARD_SC_L; HID_KEYBOARD_SC_M;
    HID_KEYBOARD_SC_N; HID_KEYBOARD_SC_O; HID_KEYBOARD_SC_P; HID_KEYBOARD_SC_Q;
    HID_KEYBOARD_SC_R; HID_KEYBOARD_SC_S; HID_KEYBOARD_SC_T; HID_KEYBOARD_SC_U;
    HID_KEYBOARD_SC_V; HID_KEYBOARD_SC_W; HID_KEYBOARD_SC_X; HID_KEYBOARD_SC_Y;
    HID_KEYBOARD_SC_Z; HID_KEYBOARD_SC_1_AND_EXCLAMATION; HID_KEYBOARD_SC_2_AND_AT;
    HID_KEYBOARD_SC_3_AND_HASHMARK; HID_KEYBOARD_SC_4_AND_DOLLAR;
    HID_KEYBOARD_SC_5_AND_PERCENTAGE; HID_KEYBOARD_SC_6_AND_CARET;
    HID_KEYBOARD_SC_7_AND_AMPERSAND; HID_KEYBOARD_SC_8_AND_ASTERISK;
    HID_KEYBOARD_SC_9_AND_OPENING_PARENTHESIS; HID_KEYBOARD_SC_0_AND_CLOSING_PARENTHESIS;
    HID_KEYBOARD_SC_F1; HID_KEYBOARD_SC_F2; HID_KEYBOARD_SC_F3; HID_KEYBOARD_SC_F4;
    HID_KEYBOARD_SC_F5; HID_KEYBOARD_SC_F6; HID_KEYBOARD_SC_F7; HID_KEYBOARD_SC_F8;
    HID_KEYBOARD_SC_F9; HID_KEYBOARD_SC_F10; HID_KEYBOARD_SC_F11; HID_KEYBOARD_SC_F12;
    HID_KEYBOARD_SC_EQUAL_AND_PLUS; HID_KEYBOARD_SC_TAB; HID_KEYBOARD_SC_ESCAPE;
    HID_KEYBOARD_SC_CAPS_LOCK; HID_KEYBOARD_SC_LEFT_SHIFT; HID_KEYBOARD_SC_UP_ARROW;
    HID_KEYBOARD_SC_DOWN_ARROW; HID_KEYBOARD_SC_LEFT_ARROW; HID_KEYBOARD_SC_RIGHT_ARROW;
    HID_KEYBOARD_SC_OPENING_BRACKET_AND_OPENING_BRACE;
    HID_KEYBOARD_SC_CLOSING_BRACKET_AND_CLOSING_BRACE; HID_KEYBOARD_SC_SCROLL_LOCK;
    HID_KEYBOARD_SC_PRINT_SCREEN; HID_KEYBOARD_SC_NON_US_BACKSLASH_AND_PIPE;
    HID_KEYBOARD_SC_GRAVE_ACCENT_AND_TILDE; HID_KEYBOARD_SC_MINUS_AND_UNDERSCORE;
    HID_KEYBOARD_SC_PAUSE; HID_KEYBOARD_SC_END; HID_KEYBOARD_SC_HOME;
    HID_KEYBOARD_SC_DELETE; HID_KEYBOARD_SC_BACKSPACE; HID_KEYBOARD_SC_LEFT_ALT;
    HID_KEYBOARD_SC_LEFT_CONTROL; HID_KEYBOARD_SC_BACKSLASH_AND_PIPE;
    HID_KEYBOARD_SC_PAGE_DOWN; HID_KEYBOARD_SC_PAGE_UP; HID_KEYBOARD_SC_ENTER;
    HID_KEYBOARD_SC_SPACE; HID_KEYBOARD_SC_RIGHT_ALT; HID_KEYBOARD_SC_RIGHT_CONTROL;
    HID_KEYBOARD_SC_SEMICOLON_AND_COLON; HID_KEYBOARD_SC_APOSTROPHE_AND_QUOTE;
    HID_KEYBOARD_SC_COMMA_AND_LESS_THAN_SIGN; HID_KEYBOARD_SC_DOT_AND_GREATER_THAN_SIGN;
    HID_KEYBOARD_SC_SLASH_AND_QUESTION_MARK; HID_KEYBOARD_SC_RIGHT_SHIFT ].

(** Default HID codes of the keypad layer. *)
Definition default_keypad_layer : list Z :=
  [
    SPECIAL_HID_KEY_PROGRAM; SPECIAL_HID_KEY_LAYER_LOCK; HID_KEYBOARD_SC_A;
    HID_KEYBOARD_SC_B; HID_KEYBOARD_SC_C; SPECIAL_HID_KEY_MOUSE_BACK;
    SPECIAL_HID_KEY_MOUSE_FWD; SPECIAL_HID_KEY_MOUSE_RIGHT; HID_KEYBOARD_SC_G;
    HID_KEYBOARD_SC_H; HID_KEYBOARD_SC_KEYPAD_8_AND_UP_ARROW;
    HID_KEYBOARD_SC_KEYPAD_4_AND_LEFT_ARROW; HID_KEYBOARD_SC_KEYPAD_5;
    HID_KEYBOARD_SC_KEYPAD_6_AND_RIGHT_ARROW; HID_KEYBOARD_SC_KEYPAD_1_AND_END;
    HID_KEYBOARD_SC_N; HID_KEYBOARD_SC_KEYPAD_9_AND_PAGE_UP; HID_KEYBOARD_SC_KEYPAD_MINUS;
    HID_KEYBOARD_SC_Q; HID_KEYBOARD_SC_R; SPECIAL_HID_KEY_MOUSE_LEFT; HID_KEYBOARD_SC_T;
    HID_KEYBOARD_SC_KEYPAD_7_AND_HOME; HID_KEYBOARD_SC_V; HID_KEYBOARD_SC_W;
    HID_KEYBOARD_SC_X; HID_KEYBOARD_SC_Y; HID_KEYBOARD_SC_Z;
    HID_KEYBOARD_SC_1_AND_EXCLAMATION; HID_KEYBOARD_SC_2_AND_AT;
    HID_KEYBOARD_SC_3_AND_HASHMARK; HID_KEYBOARD_SC_4_AND_DOLLAR;
    HID_KEYBOARD_SC_5_AND_PERCENTAGE; HID_KEYBOARD_SC_6_AND_CARET;
    HID_KEYBOARD_SC_NUM_LOCK; HID_KEYBOARD_SC_EQUAL_AND_PLUS; HID_KEYBOARD_SC_KEYPAD_SLASH;
    HID_KEYBOARD_SC_KEYPAD_ASTERISK; HID_KEYBOARD_SC_F1; HID_KEYBOARD_SC_F2;
    HID_KEYBOARD_SC_F3; HID_KEYBOARD_SC_F4; HID_KEYBOARD_SC_F5; HID_KEYBOARD_SC_F6;
    HID_KEYBOARD_SC_F7; HID_KEYBOARD_SC_F8; HID_KEYBOARD_SC_F9; HID_KEYBOARD_SC_F10;
    HID_KEYBOARD_SC_F11; HID_KEYBOARD_SC_F12; HID_KEYBOARD_SC_EQUAL_AND_PLUS;
    HID_KEYBOARD_SC_TAB; HID_KEYBOARD_SC_ESCAPE; NO_KEY; HID_KEYBOARD_SC_LEFT_SHIFT;
    HID_KEYBOARD_SC_UP_ARROW; HID_KEYBOARD_SC_DOWN_ARROW; HID_KEYBOARD_SC_LEFT_ARROW;
    HID_KEYBOARD_SC_RIGHT_ARROW; HID_KEYBOARD_SC_KEYPAD_DOT_AND_DELETE;
    HID_KEYBOARD_SC_KEYPAD_ENTER; HID_KEYBOARD_SC_RIGHT_GUI; HID_KEYBOARD_SC_LEFT_GUI;
    HID_KEYBOARD_SC_INSERT; HID_KEYBOARD_SC_GRAVE_ACCENT_AND_TILDE;
    HID_KEYBOARD_SC_MINUS_AND_UNDERSCORE; 0x65; SPECIAL_HID_KEY_MOUSE_BTN5;
    SPECIAL_HID_KEY_MOUSE_BTN4; SPECIAL_HID_KEY_MOUSE_BTN2; SPECIAL_HID_KEY_MOUSE_BTN1;
    HID_KEYBOARD_SC_LEFT_ALT; SPECIAL_HID_KEY_MOUSE_BTN3;
    HID_KEYBOARD_SC_BACKSLASH_AND_PIPE; HID_KEYBOARD_SC_PAGE_DOWN; HID_KEYBOARD_SC_PAGE_UP;
    HID_KEYBOARD_SC_ENTER; HID_KEYBOARD_SC_KEYPAD_0_AND_INSERT; HID_KEYBOARD_SC_RIGHT_ALT;
    HID_KEYBOARD_SC_RIGHT_CONTROL; HID_KEYBOARD_SC_KEYPAD_PLUS;
    HID_KEYBOARD_SC_APOSTROPHE_AND_QUOTE; HID_KEYBOARD_SC_KEYPAD_2_AND_DOWN_ARROW;
    HID_KEYBOARD_SC_KEYPAD_3_AND_PAGE_DOWN; HID_KEYBOARD_SC_KEYPAD_ENTER;
    HID_KEYBOARD_SC_RIGHT_SHIFT ].

Definition default_layout : list Z :=
  default_normal_layer ++ default_keypad_layer.

#[export] Instance Kinesis_hardware : Hardware := {
  KEYPAD_LAYER_SIZE := 86;
  NUM_LOGICAL_KEYS := 86 * 2;
  MATRIX_ROWS := 16;
  MATRIX_COLS := 10;
  matrix_to_logical_map := matrix_map;
  logical_to_hid_map_default := default_layout;
  SAVED_MAPPING_COUNT := 256;
  MACRO_INDEX_COUNT := 50;
  MACROS_SIZE := 1024;
  PROGRAM_SIZE := 1024;
  PROGRAM_COUNT := 6
}.

#[export] Instance Kinesis_hardware_ok : HardwareOk Kinesis_hardware.
Proof.
  constructor.
  - reflexivity.
  - vm_compute. auto.
  - reflexivity.
  - reflexivity.
  - reflexivity.
  - repeat constructor.
  - apply is_perm_of_range_spec. vm_compute. reflexivity.
  - vm_compute. reflexivity.
  - apply (bool_decide_unpack _). vm_compute. exact I.
  - intros k l Hk Hl Hs.
    apply (same_in_all_layers_spec 2 86 default_layout); [vm_compute; reflexivity| |done|done].
    change KEYPAD_LAYER_SIZE with 86 in Hk. lia.
Qed.

(** ** The properties *)

(** In the KINESIS tables every physical key is at exactly one position of the 16 by 10
    matrix, the default layout has one byte for each key of each of the 2 layers, and the
    layer, macro and program keys have the same meaning in all layers, so that a layer can
    always be left with the key that entered it. *)
Theorem kinesis_tables :
  physical_keys matrix_map ≡ₚ seqZ 0 86 /\
  length matrix_map = 16%nat /\ Forall (fun r => length r = 10%nat) matrix_map /\
  length default_layout = (2 * 86)%nat /\ Forall is_u8 default_layout /\
  (forall k l, (k < 86)%nat -> (l < 2)%nat ->
     SPECIAL_HID_KEY_NOREMAP (default_layout !!! k) = true ->
     default_layout !!! (k + l * 86)%nat = default_layout !!! k).
Proof.
  split_and!.
  - exact matrix_keys_ok.
  - exact matrix_rows_ok.
  - exact matrix_cols_ok.
  - vm_compute. reflexivity.
  - exact defaults_u8.
  - apply same_in_all_layers_spec. vm_compute. reflexivity.
Qed.
