(* ===== verification/Variants.v ===== *)
(** * hardware: the tables of all variants

    What src/hardware/<variant>.h and .c give the firmware is well formed for
    each of the five variants, from the laws their files discharge. *)

From S2P Require Import Prelude Hid Hardware K84cs K80cs Kinesis Kinesis110 Ergodox.
Open Scope Z_scope.

(** A matrix of [rows] by [cols] with [size] keys in it, and a default layout
    of [ls] layers. *)
Record has_tables (H : Hardware) (size : Z) (rows cols ls : nat) : Prop := mkHasTables {
  each_key_once : physical_keys matrix_to_logical_map ≡ₚ seqZ 0 size;
  row_count : length matrix_to_logical_map = rows;
  col_count : Forall (fun r => length r = cols) matrix_to_logical_map;
  layout_length : Z.of_nat (length logical_to_hid_map_default) = Z.of_nat ls * size;
  layout_bytes : Forall is_u8 logical_to_hid_map_default;
  layer_keys_agree : forall k l, Z.of_nat k < size -> (l < ls)%nat ->
    SPECIAL_HID_KEY_NOREMAP (logical_to_hid_map_default !!! k) = true ->
    logical_to_hid_map_default !!! (k + l * Z.to_nat size)%nat = logical_to_hid_map_default !!! k
}.

Lemma ok_has_tables `{H : Hardware, !HardwareOk H} :
  has_tables H KEYPAD_LAYER_SIZE MATRIX_ROWS MATRIX_COLS layers.
Proof.
  constructor.
  - exact matrix_keys_ok.
  - exact matrix_rows_ok.
  - exact matrix_cols_ok.
  - by rewrite defaults_length, logical_keys_layers.
  - exact defaults_u8.
  - exact defaults_noremap.
Qed.

(** On every variant each physical key is at exactly one position of the key matrix, whose
    dimensions are those of the wiring; the default layout has one byte for each key of each
    layer; and the layer, macro and program keys mean the same in all layers, so that a layer
    can always be left with the key that entered it. *)
Theorem variant_tables :
  has_tables K84cs_hardware 84 14 6 3 /\ has_tables K80cs_hardware 80 16 5 2 /\
  has_tables Kinesis_hardware 86 16 10 2 /\ has_tables Kinesis110_hardware 86 13 8 2 /\
  has_tables Ergodox_hardware 76 7 12 2.
Proof.
  split; [exact (ok_has_tables (H:=K84cs_hardware))|]. split; [exact (ok_has_tables (H:=K80cs_hardware))|].
  split; [exact (ok_has_tables (H:=Kinesis_hardware))|]. split; [exact (ok_has_tables (H:=Kinesis110_hardware))|].
  exact (ok_has_tables (H:=Ergodox_hardware)).
Qed.
