(* ===== verification/Keystate.v ===== *)
(** * keystate.c: the key state

    Matrix scan, debouncing, the table of pressed keys, the layer machine, the
    change notifications, and the keyboard and mouse reports, as in
    src/keystate.c.  One [keystate] record holds the file's static variables.
    What the file reads from elsewhere is passed in: the matrix (a scan reads
    [matrix row col]) and the values of the configuration ([config_view]).
    What it calls elsewhere (the change hook, the buzzer) is recorded in order
    in [out]. *)

From S2P Require Import Prelude Hid Hardware.

Abbreviation MAX_DEBOUNCE_LEN := 8%nat (only parsing).
Abbreviation KEYSTATE_COUNT := 14%nat (only parsing).
Abbreviation BITFIELD_WORD_BITS := 8%Z (only parsing).
Abbreviation BUZZER_DEFAULT_TONE := 110%Z (only parsing).
Abbreviation BUZZER_ON_TONE := 150%Z (only parsing).
Abbreviation BUZZER_OFF_TONE := 75%Z (only parsing).

(** ** Data *)

(** [struct _key_state]; the one-bit fields are booleans. *)
Record key_state := mkKey {
  p_key : Z;
  prev_state : bool;
  state : bool;
  hidden : bool
}.

Definition empty_key_state : key_state := mkKey NO_KEY false false false.

#[export] Instance key_state_eq_dec : EqDecision key_state.
Proof. solve_decision. Defined.
#[export] Instance key_state_inhabited : Inhabited key_state := populate empty_key_state.

(** [struct _layer_state_t] *)
Record layer_t := mkLayer {
  base : bool;
  lock : bool;
  id : Z
}.

Inductive keycode_type := PHYSICAL | LOGICAL | HID.

(** The debouncing variables. *)
Record debouncer := mkDebouncer {
  active_debounce_index : Z;
  debounce_bitfields : list (list Z);
  debounced_on_bitfield : list Z;
  debounced_bitfield : list Z
}.

(** The static variables of [keystate_Fill_MouseReport]. *)
Record mouse_static := mkMouse {
  prev_button : Z;
  cnt_move : Z;
  speed_x_move : Z;
  speed_y_move : Z;
  cnt_wheel : Z;
  speed_x_wheel : Z;
  speed_y_wheel : Z
}.

(** Calls out of the module: the change hook, [buzzer_start] and [buzzer_start_f]. *)
Inductive ks_event :=
  | KeyChange (key : Z) (press : bool)
  | BuzzerStart (ms : Z)
  | BuzzerStartF (ms tone : Z).

Record keystate := mkKeystate {
  key_states : list key_state;
  key_press_count : Z;
  key_press_counter : Z;
  prev_layer : layer_t;
  layer : layer_t;
  hook_registered : bool;
  debounce : debouncer;
  mouse : mouse_static;
  out : list ks_event
}.

(** What the module reads from the configuration (src/config.c). *)
Record config_view := mkConfigView {
  config_get_definition : Z -> Z;
  config_get_debounce_len : Z;
  config_key_sound_enabled : bool;
  config_get_mouse_div : Z;
  config_get_wheel_div : Z
}.

Definition set_key_states (l : list key_state) (s : keystate) : keystate :=
  mkKeystate l (key_press_count s) (key_press_counter s) (prev_layer s) (layer s)
    (hook_registered s) (debounce s) (mouse s) (out s).
Definition set_key_press_count (n : Z) (s : keystate) : keystate :=
  mkKeystate (key_states s) n (key_press_counter s) (prev_layer s) (layer s)
    (hook_registered s) (debounce s) (mouse s) (out s).
Definition set_key_press_counter (n : Z) (s : keystate) : keystate :=
  mkKeystate (key_states s) (key_press_count s) n (prev_layer s) (layer s)
    (hook_registered s) (debounce s) (mouse s) (out s).
Definition set_prev_layer (l : layer_t) (s : keystate) : keystate :=
  mkKeystate (key_states s) (key_press_count s) (key_press_counter s) l (layer s)
    (hook_registered s) (debounce s) (mouse s) (out s).
Definition set_layer (l : layer_t) (s : keystate) : keystate :=
  mkKeystate (key_states s) (key_press_count s) (key_press_counter s) (prev_layer s) l
    (hook_registered s) (debounce s) (mouse s) (out s).
Definition set_debounce (d : debouncer) (s : keystate) : keystate :=
  mkKeystate (key_states s) (key_press_count s) (key_press_counter s) (prev_layer s) (layer s)
    (hook_registered s) d (mouse s) (out s).
Definition set_mouse (m : mouse_static) (s : keystate) : keystate :=
  mkKeystate (key_states s) (key_press_count s) (key_press_counter s) (prev_layer s) (layer s)
    (hook_registered s) (debounce s) m (out s).
Definition emit (e : ks_event) (s : keystate) : keystate :=
  mkKeystate (key_states s) (key_press_count s) (key_press_counter s) (prev_layer s) (layer s)
    (hook_registered s) (debounce s) (mouse s) (out s ++ [e]).

(** ** Bit fields *)

Definition set_bit (words : list Z) (n : Z) : list Z :=
  let w := Z.to_nat (n / BITFIELD_WORD_BITS) in
  <[w := Z.lor (words !!! w) (Z.shiftl 1 (n mod BITFIELD_WORD_BITS))]> words.

Definition get_bit (words : list Z) (n : Z) : bool :=
  negb (Z.land (words !!! Z.to_nat (n / BITFIELD_WORD_BITS))
          (Z.shiftl 1 (n mod BITFIELD_WORD_BITS)) =? 0).

Section Keystate.
Context {H : Hardware}.

Definition BITFIELD_WORDS : nat :=
  Z.to_nat ((KEYPAD_LAYER_SIZE + BITFIELD_WORD_BITS - 1) / BITFIELD_WORD_BITS).

(** ** Initialisation and small helpers *)

Definition keystate_init (s : keystate) : keystate :=
  set_key_states
    (for_range 0 KEYSTATE_COUNT (fun i l => <[i := empty_key_state]> l) (key_states s)) s.

Definition get_layer_id (ll : layer_t) : Z := if base ll then 0xff else id ll.

Definition keystate_get_layer_id (s : keystate) : Z := get_layer_id (layer s).
Definition keystate_get_prev_layer_id (s : keystate) : Z := get_layer_id (prev_layer s).

Definition default_beep (s : keystate) : keystate :=
  let periodCnt := 2 in
  emit (BuzzerStart ((periodCnt * 1000 + (BUZZER_DEFAULT_TONE / 2 + 1)) / BUZZER_DEFAULT_TONE)) s.

Section Config.
Context (cfg : config_view).

Definition logical_code (ll : layer_t) (pk : Z) : Z :=
  let layer_id := if base ll then 0 else id ll in
  u8 (pk + layer_id * KEYPAD_LAYER_SIZE).

Definition extract_keycode (ll : layer_t) (kk : key_state) (ktype : keycode_type) : Z :=
  match ktype with
  | PHYSICAL => p_key kk
  | LOGICAL => logical_code ll (p_key kk)
  | HID => config_get_definition cfg (logical_code ll (p_key kk))
  end.

Definition notify_key_pressed (ll : layer_t) (kk : key_state) (s : keystate) : keystate :=
  let s := set_key_press_count (u8 (key_press_count s + 1)) s in
  let s := if hook_registered s then emit (KeyChange (extract_keycode ll kk LOGICAL) true) s else s in
  if config_key_sound_enabled cfg then default_beep s else s.

Definition notify_key_released (ll : layer_t) (kk : key_state) (s : keystate) : keystate :=
  let s := set_key_press_count (u8 (key_press_count s - 1)) s in
  if hook_registered s then emit (KeyChange (extract_keycode ll kk LOGICAL) false) s else s.

Definition notify_about_key_change (layer_change : bool) (key : key_state) (s : keystate) : keystate :=
  if layer_change then
    if prev_state key && state key then
      notify_key_pressed (layer s) key (notify_key_released (prev_layer s) key s)
    else if state key then notify_key_pressed (layer s) key s
    else if prev_state key then notify_key_released (prev_layer s) key s
    else s
  else if state key then notify_key_pressed (layer s) key s
  else notify_key_released (layer s) key s.

Definition is_hid_key_to_notify_about (k : Z) : bool :=
  (k <? SPECIAL_HID_KEY_LAYER_LOCK) || (k >=? SPECIAL_HID_KEY_MACRO_SHIFT).

(** ** The layer machine *)

Definition next_layer (ll : layer_t) (key : Z) (st : bool) : layer_t :=
  if key =? SPECIAL_HID_KEY_LAYER_LOCK then
    if st then
      if lock ll then mkLayer (base ll) false 0
      else if id ll =? 0 then mkLayer (base ll) true 1
      else mkLayer (base ll) true (id ll)
    else ll
  else if key =? SPECIAL_HID_KEY_KEYPAD_SHIFT then
    if st then mkLayer (base ll) (lock ll) 1
    else if negb (lock ll) then mkLayer (base ll) (lock ll) 0 else ll
  else if key =? SPECIAL_HID_KEY_FUNCTION_SHIFT then
    if st then mkLayer (base ll) (lock ll) 2
    else if negb (lock ll) then mkLayer (base ll) (lock ll) 0 else ll
  else if (key =? SPECIAL_HID_KEY_MACRO_SHIFT) || (key =? SPECIAL_HID_KEY_PROGRAM) then
    mkLayer st (lock ll) (id ll)
  else ll.

(** [update_layer], with the buzzer ([USE_BUZZER]). *)
Definition update_layer (key : Z) (st : bool) (s : keystate) : keystate :=
  let s := set_layer (next_layer (layer s) key st) s in
  let cur_layer := keystate_get_layer_id s in
  if cur_layer =? keystate_get_prev_layer_id s then s
  else if SPECIAL_HID_KEY_LAYER_LOCK =? key then
    emit (BuzzerStartF 100 (if negb (cur_layer =? 0) then BUZZER_ON_TONE else BUZZER_OFF_TONE)) s
  else default_beep s.

(** ** Scanning and debouncing *)

(** The two loops over the matrix: raw readings into the active bit field. *)
Definition scan_matrix (matrix : nat -> nat -> bool) (words : list Z) : list Z :=
  for_range 0 MATRIX_ROWS (fun matrix_row words =>
    for_range 0 MATRIX_COLS (fun matrix_col words =>
      let pk := matrix_key matrix_row matrix_col in
      if negb (pk =? NO_KEY) then
        if matrix matrix_row matrix_col then set_bit words pk else words
      else words) words) words.

(** [all_time_active] and [any_time_active] of one word. *)
Definition all_any_active (bitfields : list (list Z)) (debounce_len w : nat) : Z * Z :=
  for_range 0 debounce_len (fun i '(all_time_active, any_time_active) =>
    (Z.land all_time_active (bitfields !!! i !!! w),
     Z.lor any_time_active (bitfields !!! i !!! w))) (255, 0).

Definition debounce_word (bitfields : list (list Z)) (debounce_len : nat) (w : nat)
    (s : list Z * list Z) : list Z * list Z :=
  let '(on, deb) := s in
  let '(all_time_active, any_time_active) := all_any_active bitfields debounce_len w in
  (<[w := Z.land (Z.lnot (deb !!! w)) all_time_active]> on,
   <[w := Z.land (Z.lor (deb !!! w) all_time_active) any_time_active]> deb).

(** The first part of [keystate_update], up to the debounced bit fields. *)
Definition debounce_update (matrix : nat -> nat -> bool) (d : debouncer) : debouncer :=
  let debounce_len := config_get_debounce_len cfg in
  let active := (active_debounce_index d + 1) mod debounce_len in
  let cleared := for_range 0 BITFIELD_WORDS (fun w words => <[w := 0]> words)
                   (debounce_bitfields d !!! Z.to_nat active) in
  let bitfields := <[Z.to_nat active := scan_matrix matrix cleared]> (debounce_bitfields d) in
  let '(on, deb) :=
    for_range 0 BITFIELD_WORDS (debounce_word bitfields (Z.to_nat debounce_len))
      (debounced_on_bitfield d, debounced_bitfield d) in
  mkDebouncer active bitfields on deb.

(** ** The table of pressed keys *)

Definition mark_released (deb : list Z) (l : list key_state) : list key_state :=
  for_range 0 KEYSTATE_COUNT (fun j l =>
    let key := l !!! j in
    if p_key key =? NO_KEY then l
    else if negb (get_bit deb (p_key key))
    then <[j := mkKey (p_key key) (prev_state key) false (hidden key)]> l
    else l) l.

(** [while (free_slot < KEYSTATE_COUNT && ...) ++free_slot] *)
Fixpoint find_free (fuel : nat) (l : list key_state) (free_slot : nat) : nat :=
  match fuel with
  | O => free_slot
  | S fuel =>
      if (free_slot <? KEYSTATE_COUNT)%nat && negb (p_key (l !!! free_slot) =? NO_KEY)
      then find_free fuel l (S free_slot) else free_slot
  end.

(** The variables of the loop that records new keys; [no_free] is set when
    the code has jumped to [no_free_slot_to_record_a_new_key]. *)
Record adding := mkAdding {
  no_free : bool;
  free_slot : nat;
  counter : Z;
  slots : list key_state
}.

Definition add_key (pk : Z) (a : adding) : adding :=
  let counter' := u16 (counter a + 1) in
  let free := find_free KEYSTATE_COUNT (slots a) (free_slot a) in
  if (KEYSTATE_COUNT <=? free)%nat then mkAdding true free counter' (slots a)
  else
    let k := slots a !!! free in
    mkAdding false free counter'
      (<[free := mkKey pk (prev_state k) true (hidden k)]> (slots a)).

Definition add_bit (debounced_on_word : Z) (w b : nat) (a : adding) : adding :=
  if no_free a then a
  else if Z.land debounced_on_word (Z.shiftl 1 (Z.of_nat b)) =? 0 then a
  else add_key (Z.of_nat w * BITFIELD_WORD_BITS + Z.of_nat b) a.

Definition add_word (on : list Z) (w : nat) (a : adding) : adding :=
  let debounced_on_word := on !!! w in
  if 0 =? debounced_on_word then a
  else for_range 0 (Z.to_nat BITFIELD_WORD_BITS) (add_bit debounced_on_word w) a.

Definition add_pressed (on : list Z) (a : adding) : adding :=
  for_range 0 BITFIELD_WORDS (add_word on) a.

(** The layer-change loop. *)
Definition layer_step (j : nat) (s : keystate) : keystate :=
  let key := key_states s !!! j in
  if p_key key =? NO_KEY then s
  else
    let h_key := config_get_definition cfg (p_key key) in
    if SPECIAL_HID_KEY_NOREMAP h_key && negb (eqb (state key) (prev_state key))
    then update_layer h_key (state key) s else s.

(** The notification loop. *)
Definition notify_step (layer_change : bool) (j : nat) (s : keystate) : keystate :=
  let key := key_states s !!! j in
  if p_key key =? NO_KEY then s
  else if negb layer_change && eqb (prev_state key) (state key) then s
  else
    let h_key := config_get_definition cfg (p_key key) in
    let s := if is_hid_key_to_notify_about h_key
             then notify_about_key_change layer_change key s else s in
    let key' := if prev_state key && negb (state key) then empty_key_state
                else mkKey (p_key key) (state key) (state key) (hidden key) in
    set_key_states (<[j := key']> (key_states s)) s.

(** [keystate_update] up to the notification loop: scan, table of keys and layers. *)
Definition scan_keys (matrix : nat -> nat -> bool) (s : keystate) : keystate :=
  let d := debounce_update matrix (debounce s) in
  let l := mark_released (debounced_bitfield d) (key_states s) in
  let a := add_pressed (debounced_on_bitfield d)
             (mkAdding false 0 (key_press_counter s) l) in
  let s := set_key_press_counter (counter a) (set_key_states (slots a) (set_debounce d s)) in
  for_range 0 KEYSTATE_COUNT layer_step s.

Definition layer_changed (s : keystate) : bool :=
  negb (keystate_get_layer_id s =? keystate_get_prev_layer_id s).

(** [keystate_update] *)
Definition keystate_update (matrix : nat -> nat -> bool) (s : keystate) : keystate :=
  let s := scan_keys matrix s in
  let s := for_range 0 KEYSTATE_COUNT (notify_step (layer_changed s)) s in
  set_prev_layer (layer s) s.
End Config.
End Keystate.
