(* ===== verification/KeystateReports.v ===== *)
(** * keystate.c: queries and reports

    The functions of src/keystate.c that read the table of pressed keys: hidden
    keys, the key checks, [keystate_get_keys], and the keyboard and mouse
    reports. *)

From S2P Require Import Prelude Hid Hardware Keystate.

Section Queries.
Context {H : Hardware} (cfg : config_view).

(** ** Hidden keys *)

Fixpoint hide_first (pk : Z) (l : list key_state) : list key_state :=
  match l with
  | [] => []
  | k :: l =>
      if pk =? p_key k then mkKey (p_key k) (prev_state k) (state k) true :: l
      else k :: hide_first pk l
  end.

Definition keystate_hide_key (l_key : Z) (s : keystate) : keystate :=
  set_key_states (hide_first (l_key mod KEYPAD_LAYER_SIZE) (key_states s)) s.

Fixpoint first_hidden (pk : Z) (l : list key_state) : bool :=
  match l with
  | [] => true
  | k :: l => if pk =? p_key k then hidden k else first_hidden pk l
  end.

Definition keystate_is_key_hidden (l_key : Z) (s : keystate) : bool :=
  first_hidden (l_key mod KEYPAD_LAYER_SIZE) (key_states s).

(** ** Key checks *)

Fixpoint check_slots (ll : layer_t) (target_key : Z) (ktype : keycode_type)
    (l : list key_state) : bool :=
  match l with
  | [] => false
  | k :: l =>
      if extract_keycode cfg ll k ktype =? target_key then state k
      else check_slots ll target_key ktype l
  end.

Definition keystate_check_key (target_key : Z) (ktype : keycode_type) (s : keystate) : bool :=
  check_slots (layer s) target_key ktype (key_states s).

(** The variadic arguments are a list, its length the count. *)
Definition keystate_check_keys (targets : list Z) (ktype : keycode_type) (s : keystate) : bool :=
  if Z.of_nat (length targets) >? key_press_count s then false
  else forallb (fun t => keystate_check_key t ktype s) targets.

Definition keystate_check_any_key (targets : list Z) (ktype : keycode_type) (s : keystate) : bool :=
  if key_press_count s =? 0 then false
  else existsb (fun t => keystate_check_key t ktype s) targets.

(** [keystate_get_keys]: the keys written to the buffer; [room] is
    [key_press_count - ki]. *)
Fixpoint get_keys_from (ll : layer_t) (ktype : keycode_type) (l : list key_state) (room : Z) : list Z :=
  match l with
  | [] => []
  | k :: l =>
      if negb (0 <? room) then []
      else if negb (state k) then get_keys_from ll ktype l room
      else if negb (is_hid_key_to_notify_about (extract_keycode cfg ll k HID))
      then get_keys_from ll ktype l room
      else extract_keycode cfg ll k ktype :: get_keys_from ll ktype l (room - 1)
  end.

Definition keystate_get_keys (ktype : keycode_type) (s : keystate) : list Z :=
  get_keys_from (layer s) ktype (key_states s) (key_press_count s).

Fixpoint check_hid_slots (ll : layer_t) (key : Z) (l : list key_state) : Z :=
  match l with
  | [] => 0xFF
  | k :: l =>
      if state k then
        let h_key := extract_keycode cfg ll k HID in
        if (key =? 0) || (key =? h_key) then h_key else check_hid_slots ll key l
      else check_hid_slots ll key l
  end.

Definition keystate_check_hid_key (key : Z) (s : keystate) : Z :=
  check_hid_slots (layer s) key (key_states s).

Definition keystate_register_change_hook (hook : bool) (s : keystate) : keystate :=
  mkKeystate (key_states s) (key_press_count s) (key_press_counter s) (prev_layer s) (layer s)
    hook (debounce s) (mouse s) (out s).

(** ** The keyboard report *)

(** The loop over the slots, with [UsedKeyCodes] and [rollover]. *)
Fixpoint fill_keys (ll : layer_t) (l : list key_state) (used : nat) (rollover : bool)
    (r : KeyboardReport_Data_t) : bool * KeyboardReport_Data_t :=
  match l with
  | [] => (rollover, r)
  | k :: l =>
      if state k && negb (hidden k) then
        if (used =? KEYBOARDREPORT_KEY_COUNT)%nat then (true, r)
        else
          let h_key := extract_keycode cfg ll k HID in
          let rollover := if h_key =? SPECIAL_HID_KEY_PROGRAM then true else rollover in
          if h_key >=? SPECIAL_HID_KEYS_START then fill_keys ll l used rollover r
          else if h_key >=? HID_KEYBOARD_SC_LEFT_CONTROL then
            fill_keys ll l used rollover
              (mkKeyboardReport (u8 (Z.lor (Modifier r) (modifier_mask h_key))) (Reserved r) (KeyCode r))
          else
            fill_keys ll l (S used) rollover
              (mkKeyboardReport (Modifier r) (Reserved r) (<[used := h_key]> (KeyCode r)))
      else fill_keys ll l used rollover r
  end.

Definition keystate_Fill_KeyboardReport (s : keystate) (r : KeyboardReport_Data_t) : KeyboardReport_Data_t :=
  let '(rollover, r) := fill_keys (layer s) (key_states s) 0 false r in
  if rollover then
    mkKeyboardReport (Modifier r) (Reserved r)
      (for_range 0 KEYBOARDREPORT_KEY_COUNT
         (fun i codes => <[i := HID_KEYBOARD_SC_ERROR_ROLLOVER]> codes) (KeyCode r))
  else r.

(** ** The mouse report *)

Definition adjust_speed_and_report (moving : bool) (speed reportVal : Z) : Z * Z :=
  if moving then
    let speed := s8 (speed + reportVal) in (speed, speed)
  else (0, reportVal).

(** [moving_x], [moving_y], [wheeling_x], [wheeling_y]. *)
Record motion := mkMotion {
  moving_x : bool;
  moving_y : bool;
  wheeling_x : bool;
  wheeling_y : bool
}.

Definition press_button (b : Z) (r : MouseReport_Data_t) : MouseReport_Data_t :=
  mkMouseReport (u8 (Z.lor (Button r) b)) (X r) (Y r) (VWheel r) (HWheel r).
Definition move_x (d : Z) (r : MouseReport_Data_t) : MouseReport_Data_t :=
  mkMouseReport (Button r) (s8 (X r + d)) (Y r) (VWheel r) (HWheel r).
Definition move_y (d : Z) (r : MouseReport_Data_t) : MouseReport_Data_t :=
  mkMouseReport (Button r) (X r) (s8 (Y r + d)) (VWheel r) (HWheel r).
Definition wheel_v (d : Z) (r : MouseReport_Data_t) : MouseReport_Data_t :=
  mkMouseReport (Button r) (X r) (Y r) (s8 (VWheel r + d)) (HWheel r).
Definition wheel_h (d : Z) (r : MouseReport_Data_t) : MouseReport_Data_t :=
  mkMouseReport (Button r) (X r) (Y r) (VWheel r) (s8 (HWheel r + d)).

Definition mouse_x (m : motion) := mkMotion true (moving_y m) (wheeling_x m) (wheeling_y m).
Definition mouse_y (m : motion) := mkMotion (moving_x m) true (wheeling_x m) (wheeling_y m).
Definition mouse_wx (m : motion) := mkMotion (moving_x m) (moving_y m) true (wheeling_y m).
Definition mouse_wy (m : motion) := mkMotion (moving_x m) (moving_y m) (wheeling_x m) true.

(** The [switch] over the special mouse keys. *)
Definition mouse_key (h_key : Z) (mr : motion * MouseReport_Data_t) : motion * MouseReport_Data_t :=
  let '(m, r) := mr in
  if h_key =? SPECIAL_HID_KEY_MOUSE_BTN1 then (m, press_button 1 r)
  else if h_key =? SPECIAL_HID_KEY_MOUSE_BTN2 then (m, press_button (Z.shiftl 1 1) r)
  else if h_key =? SPECIAL_HID_KEY_MOUSE_BTN3 then (m, press_button (Z.shiftl 1 2) r)
  else if h_key =? SPECIAL_HID_KEY_MOUSE_BTN4 then (m, press_button (Z.shiftl 1 3) r)
  else if h_key =? SPECIAL_HID_KEY_MOUSE_BTN5 then (m, press_button (Z.shiftl 1 4) r)
  else if h_key =? SPECIAL_HID_KEY_MOUSE_FWD then (mouse_y m, move_y (-1) r)
  else if h_key =? SPECIAL_HID_KEY_MOUSE_BACK then (mouse_y m, move_y 1 r)
  else if h_key =? SPECIAL_HID_KEY_MOUSE_LEFT then (mouse_x m, move_x (-1) r)
  else if h_key =? SPECIAL_HID_KEY_MOUSE_RIGHT then (mouse_x m, move_x 1 r)
  else if h_key =? SPECIAL_HID_KEY_WHEEL_FWD then (mouse_wy m, wheel_v 1 r)
  else if h_key =? SPECIAL_HID_KEY_WHEEL_BACK then (mouse_wy m, wheel_v (-1) r)
  else if h_key =? SPECIAL_HID_KEY_WHEEL_LEFT then (mouse_wx m, wheel_h (-1) r)
  else if h_key =? SPECIAL_HID_KEY_WHEEL_RIGHT then (mouse_wx m, wheel_h 1 r)
  else (m, r).

Definition mouse_slot (ll : layer_t) (mr : motion * MouseReport_Data_t) (k : key_state)
    : motion * MouseReport_Data_t :=
  if state k && negb (hidden k) then
    let h_key := extract_keycode cfg ll k HID in
    if (h_key >=? SPECIAL_HID_KEYS_MOUSE_START) && (h_key <=? SPECIAL_HID_KEYS_MOUSE_END)
    then mouse_key h_key mr else mr
  else mr.

Definition mouse_slots (ll : layer_t) (l : list key_state) (r : MouseReport_Data_t)
    : motion * MouseReport_Data_t :=
  fold_left (mouse_slot ll) l (mkMotion false false false false, r).

Definition keystate_Fill_MouseReport (s : keystate) (r : MouseReport_Data_t)
    : keystate * MouseReport_Data_t :=
  let m := mouse s in
  let cnt_move := (cnt_move m + 1) mod config_get_mouse_div cfg in
  if negb (cnt_move =? 1) then
    (set_mouse (mkMouse (prev_button m) cnt_move (speed_x_move m) (speed_y_move m)
                  (cnt_wheel m) (speed_x_wheel m) (speed_y_wheel m)) s,
     mkMouseReport (prev_button m) (X r) (Y r) (VWheel r) (HWheel r))
  else
    let '(mo, r) := mouse_slots (layer s) (key_states s) r in
    let prev_button := Button r in
    let '(sx, x) := adjust_speed_and_report (moving_x mo) (speed_x_move m) (X r) in
    let '(sy, y) := adjust_speed_and_report (moving_y mo) (speed_y_move m) (Y r) in
    let cnt_wheel := (cnt_wheel m + 1) mod config_get_wheel_div cfg in
    if negb (cnt_wheel =? 1) then
      (set_mouse (mkMouse prev_button cnt_move sx sy cnt_wheel (speed_x_wheel m) (speed_y_wheel m)) s,
       mkMouseReport (Button r) x y 0 0)
    else
      let '(swx, wx) := adjust_speed_and_report (wheeling_x mo) (speed_x_wheel m) (HWheel r) in
      let '(swy, wy) := adjust_speed_and_report (wheeling_y mo) (speed_y_wheel m) (VWheel r) in
      (set_mouse (mkMouse prev_button cnt_move sx sy cnt_wheel swx swy) s,
       mkMouseReport (Button r) x y wy wx).
End Queries.
