(* ===== verification/Debounce.v ===== *)
(** * Debouncing: the bit fields against a per-key history

    The ring of bit fields of src/keystate.c is shown to compute, for every key,
    the debounced state from the key's last [debounce_len] readings. *)

From S2P Require Import Prelude Hid Hardware K84cs Keystate.

(** ** Bits of a bit field *)

Lemma land_shiftl_testbit x n : 0 <= n -> negb (Z.land x (Z.shiftl 1 n) =? 0) = Z.testbit x n.
Proof.
  intros Hn. rewrite Z.shiftl_1_l.
  destruct (Z.testbit x n) eqn:Hb.
  - apply negb_true_iff, Z.eqb_neq. intros H0.
    assert (Hc : Z.testbit (Z.land x (2 ^ n)) n = true).
    { by rewrite Z.land_spec, Hb, Z.pow2_bits_true. }
    by rewrite H0, Z.bits_0 in Hc.
  - apply negb_false_iff, Z.eqb_eq. apply Z.bits_inj_0. intros i.
    rewrite Z.land_spec. destruct (Z.eq_dec i n) as [->|Hne]; [by rewrite Hb|].
    by rewrite Z.pow2_bits_false, andb_false_r by lia.
Qed.

Lemma get_bit_testbit words n :
  0 <= n -> get_bit words n = Z.testbit (words !!! Z.to_nat (n / 8)) (n mod 8).
Proof. intros. unfold get_bit. apply land_shiftl_testbit. dlia. Qed.

Lemma set_bit_length words n : length (set_bit words n) = length words.
Proof. apply length_insert. Qed.

Lemma get_set_bit words n m :
  0 <= n < 8 * Z.of_nat (length words) -> 0 <= m ->
  get_bit (set_bit words n) m = (n =? m) || get_bit words m.
Proof.
  intros Hn Hm. rewrite !get_bit_testbit by done. unfold set_bit.
  destruct (decide (n / 8 = m / 8)) as [He|Hne].
  - rewrite He, lookup_total_insert_eq by dlia.
    rewrite Z.lor_spec, Z.shiftl_1_l, Z.pow2_bits_eqb by dlia.
    destruct (Z.eqb_spec (n mod 8) (m mod 8)) as [Hm8|Hm8], (Z.eqb_spec n m) as [->|Hnm];
      rewrite ?orb_true_r, ?orb_false_r; try done; exfalso; apply Hnm; dlia.
  - rewrite list_lookup_total_insert_ne by dlia.
    destruct (Z.eqb_spec n m) as [->|]; [done|]. done.
Qed.

Section Debounce.
Context {H : Hardware} `{!HardwareOk H} (cfg : config_view).

Lemma words_cover k : 0 <= k < KEYPAD_LAYER_SIZE -> 0 <= k < 8 * Z.of_nat BITFIELD_WORDS.
Proof. unfold BITFIELD_WORDS. intros. dlia. Qed.

Lemma words_bound : 8 * Z.of_nat BITFIELD_WORDS < KEYPAD_LAYER_SIZE + 8.
Proof. pose proof layer_size_pos. unfold BITFIELD_WORDS. dlia. Qed.

(** ** One scan *)

(** The reading of physical key [k] in a scan. *)
Definition reading (matrix : nat -> nat -> bool) (k : Z) : bool :=
  existsb (fun r => existsb (fun c => (matrix_key r c =? k) && matrix r c)
                      (seq 0 MATRIX_COLS)) (seq 0 MATRIX_ROWS).

Lemma scan_row (matrix : nat -> nat -> bool) r words k :
  (r < MATRIX_ROWS)%nat -> length words = BITFIELD_WORDS -> 0 <= k ->
  let words' := for_range 0 MATRIX_COLS (fun matrix_col words =>
      let pk := matrix_key r matrix_col in
      if negb (pk =? NO_KEY) then
        if matrix r matrix_col then set_bit words pk else words
      else words) words in
  length words' = BITFIELD_WORDS /\
  (k < KEYPAD_LAYER_SIZE -> get_bit words' k = get_bit words k ||
    existsb (fun c => (matrix_key r c =? k) && matrix r c) (seq 0 MATRIX_COLS)) /\
  (KEYPAD_LAYER_SIZE <= k -> get_bit words' k = get_bit words k).
Proof.
  intros Hr Hl Hk. cbv zeta.
  apply (for_range_ind (fun (c : nat) (w : list Z) => length w = BITFIELD_WORDS /\
    (k < KEYPAD_LAYER_SIZE -> get_bit w k = get_bit words k ||
      existsb (fun c => (matrix_key r c =? k) && matrix r c) (seq 0 c)) /\
    (KEYPAD_LAYER_SIZE <= k -> get_bit w k = get_bit words k))).
  { split_and!; [done| |done]. intros _. by rewrite orb_false_r. }
  intros c w [_ Hc] (IHl & IH1 & IH2).
  pose proof (matrix_key_range r c Hr Hc) as Hrange.
  destruct (Z.eqb_spec (matrix_key r c) NO_KEY) as [Hn|Hn]; simpl negb; cbv iota;
    (split_and!; [|intros Hlt; rewrite existsb_seq_S, orb_assoc, <- IH1 by done|]).
  - done.
  - destruct (Z.eqb_spec (matrix_key r c) k) as [He|]; [|by rewrite orb_false_r].
    exfalso. assert (NUM_LOGICAL_KEYS < 255) by apply logical_keys_u8.
    pose proof logical_keys_layers. pose proof layers_2_3. nia.
  - done.
  - case_if; [by rewrite set_bit_length|done].
  - case_if.
    + rewrite get_set_bit by (done || (rewrite IHl; apply words_cover; lia)).
      rewrite orb_comm, andb_true_r. done.
    + by rewrite andb_false_r, orb_false_r.
  - intros Hge. case_if; [|by apply IH2].
    rewrite get_set_bit by (done || (rewrite IHl; apply words_cover; lia)).
    rewrite (proj2 (Z.eqb_neq _ _)) by lia. by apply IH2.
Qed.

Lemma scan_matrix_spec matrix words k :
  length words = BITFIELD_WORDS -> 0 <= k ->
  length (scan_matrix matrix words) = BITFIELD_WORDS /\
  (k < KEYPAD_LAYER_SIZE ->
     get_bit (scan_matrix matrix words) k = get_bit words k || reading matrix k) /\
  (KEYPAD_LAYER_SIZE <= k -> get_bit (scan_matrix matrix words) k = get_bit words k).
Proof.
  intros Hl Hk. unfold scan_matrix, reading.
  apply (for_range_ind (fun (r : nat) (w : list Z) => length w = BITFIELD_WORDS /\
    (k < KEYPAD_LAYER_SIZE -> get_bit w k = get_bit words k ||
      existsb (fun r => existsb (fun c => (matrix_key r c =? k) && matrix r c)
                          (seq 0 MATRIX_COLS)) (seq 0 r)) /\
    (KEYPAD_LAYER_SIZE <= k -> get_bit w k = get_bit words k))).
  { split_and!; [done| |done]. intros _. by rewrite orb_false_r. }
  intros r w [_ Hr] (IHl & IH1 & IH2).
  destruct (scan_row matrix r w k Hr IHl Hk) as (R1 & R2 & R3).
  split_and!; [done| |].
  - intros Hlt. by rewrite existsb_seq_S, orb_assoc, <- IH1, <- R2 by done.
  - intros Hge. etransitivity; [exact (R3 Hge)|by apply IH2].
Qed.

Lemma cleared_words words :
  length words = BITFIELD_WORDS ->
  for_range 0 BITFIELD_WORDS (fun w words => <[w := 0]> words) words
    = replicate BITFIELD_WORDS 0.
Proof.
  intros Hl. rewrite (for_range_map (fun _ : Z => 0)) by done.
  rewrite <- Hl. induction words as [|x words IH] in Hl |- *; [done|]. simpl.
  f_equal. clear. induction words; simpl; congruence.
Qed.

Lemma get_bit_zero n k : 0 <= k < 8 * Z.of_nat n -> get_bit (replicate n 0) k = false.
Proof.
  intros Hk. rewrite get_bit_testbit by lia.
  rewrite lookup_total_replicate_2 by dlia. apply Z.bits_0.
Qed.

(** ** One debounced word *)

Lemma all_any_active_bit bitfields n w b :
  0 <= b < 8 ->
  Z.testbit (all_any_active bitfields n w).1 b
    = forallb (fun i => Z.testbit (bitfields !!! i !!! w) b) (seq 0 n) /\
  Z.testbit (all_any_active bitfields n w).2 b
    = existsb (fun i => Z.testbit (bitfields !!! i !!! w) b) (seq 0 n).
Proof.
  intros Hb. unfold all_any_active.
  apply (for_range_ind (fun n (p : Z * Z) =>
    Z.testbit p.1 b = forallb (fun i => Z.testbit (bitfields !!! i !!! w) b) (seq 0 n) /\
    Z.testbit p.2 b = existsb (fun i => Z.testbit (bitfields !!! i !!! w) b) (seq 0 n))).
  { simpl. split; [|by rewrite Z.bits_0]. change 255 with (Z.ones 8). by apply Z.ones_spec_low. }
  intros i [al an] _ [IH1 IH2]. cbn [fst snd] in *.
  by rewrite existsb_seq_S, forallb_seq_S, Z.land_spec, Z.lor_spec, IH1, IH2.
Qed.

Definition next_on (bitfields : list (list Z)) (n : nat) (deb : list Z) (w : nat) : Z :=
  Z.land (Z.lnot (deb !!! w)) (all_any_active bitfields n w).1.
Definition next_deb (bitfields : list (list Z)) (n : nat) (deb : list Z) (w : nat) : Z :=
  Z.land (Z.lor (deb !!! w) (all_any_active bitfields n w).1) (all_any_active bitfields n w).2.

Lemma debounce_words_spec bitfields n on deb :
  length on = BITFIELD_WORDS -> length deb = BITFIELD_WORDS ->
  let '(on', deb') := for_range 0 BITFIELD_WORDS (debounce_word bitfields n) (on, deb) in
  length on' = BITFIELD_WORDS /\ length deb' = BITFIELD_WORDS /\
  forall w, (w < BITFIELD_WORDS)%nat ->
    on' !!! w = next_on bitfields n deb w /\ deb' !!! w = next_deb bitfields n deb w.
Proof.
  intros Hon Hdeb.
  cut (forall j, (j <= BITFIELD_WORDS)%nat ->
    let '(on', deb') := for_range 0 j (debounce_word bitfields n) (on, deb) in
    length on' = BITFIELD_WORDS /\ length deb' = BITFIELD_WORDS /\
    (forall w, (w < j)%nat ->
      on' !!! w = next_on bitfields n deb w /\ deb' !!! w = next_deb bitfields n deb w) /\
    (forall w, (j <= w)%nat -> deb' !!! w = deb !!! w)).
  { intros Hcut. specialize (Hcut BITFIELD_WORDS ltac:(done)).
    destruct (for_range _ _ _ _) as [on' deb']. by destruct Hcut as (? & ? & ? & _). }
  induction j as [|j IH]; intros Hj; [simpl; split_and!; auto; lia|].
  rewrite for_range_snoc. specialize (IH ltac:(lia)).
  destruct (for_range 0 j _ _) as [on' deb']. destruct IH as (H1 & H2 & H3 & H4).
  unfold debounce_word. rewrite Nat.add_0_l, (H4 j) by lia.
  destruct (all_any_active bitfields n j) as [al an] eqn:Ea.
  rewrite !length_insert. split_and!; [done|done| |].
  - intros w Hw. destruct (decide (w = j)) as [->|Hne].
    + rewrite !lookup_total_insert_eq by lia. unfold next_on, next_deb. by rewrite Ea.
    + rewrite !list_lookup_total_insert_ne by lia. apply H3. lia.
  - intros w Hw. rewrite list_lookup_total_insert_ne by lia. apply H4. lia.
Qed.

(** ** The debouncer and its invariant *)

Definition debounce_len : nat := Z.to_nat (config_get_debounce_len cfg).

Record debouncer_wf (d : debouncer) : Prop := {
  wf_active : 0 <= active_debounce_index d < Z.of_nat MAX_DEBOUNCE_LEN;
  wf_ring : length (debounce_bitfields d) = MAX_DEBOUNCE_LEN;
  wf_ring_words : forall i, (i < MAX_DEBOUNCE_LEN)%nat ->
    length (debounce_bitfields d !!! i) = BITFIELD_WORDS;
  wf_on : length (debounced_on_bitfield d) = BITFIELD_WORDS;
  wf_deb : length (debounced_bitfield d) = BITFIELD_WORDS;
  (* the bits beyond the last key are never set *)
  wf_high : forall i k, (i < MAX_DEBOUNCE_LEN)%nat ->
    KEYPAD_LAYER_SIZE <= k < 8 * Z.of_nat BITFIELD_WORDS ->
    get_bit (debounce_bitfields d !!! i) k = false
}.

(** The reading of key [k] in ring position [i]. *)
Definition ring_bit (d : debouncer) (i : nat) (k : Z) : bool :=
  get_bit (debounce_bitfields d !!! i) k.

Context (Hlen : (1 <= debounce_len <= MAX_DEBOUNCE_LEN)%nat).

Lemma debounce_update_wf matrix d : debouncer_wf d -> debouncer_wf (debounce_update cfg matrix d).
Proof.
  intros [H1 H2 H3 H4 H5 H6]. unfold debounce_update.
  set (a := (active_debounce_index d + 1) mod config_get_debounce_len cfg).
  assert (Ha : 0 <= a < Z.of_nat debounce_len) by (unfold a, debounce_len in *; dlia).
  pose proof (debounce_words_spec
    (<[Z.to_nat a := scan_matrix matrix (for_range 0 BITFIELD_WORDS (fun w words => <[w := 0]> words)
        (debounce_bitfields d !!! Z.to_nat a))]> (debounce_bitfields d))
    (Z.to_nat (config_get_debounce_len cfg)) _ _ H4 H5) as Hw.
  destruct (for_range _ _ (debounce_word _ _) _) as [on deb]. destruct Hw as (Hw1 & Hw2 & _).
  pose proof layer_size_pos as Hpos.
  split; cbn; [lia|by rewrite length_insert| |done|done|].
  - intros i Hi. destruct (decide (i = Z.to_nat a)) as [->|Hne].
    + rewrite lookup_total_insert_eq by lia. apply scan_matrix_spec with (k := 0); [|done].
      rewrite cleared_words; [apply length_replicate|]. apply H3. lia.
    + rewrite list_lookup_total_insert_ne by done. by apply H3.
  - intros i k Hi Hk. destruct (decide (i = Z.to_nat a)) as [->|Hne].
    + rewrite lookup_total_insert_eq by lia. rewrite cleared_words by (apply H3; lia).
      destruct (scan_matrix_spec matrix (replicate BITFIELD_WORDS 0) k) as (_ & _ & Hs);
        [apply length_replicate|lia|].
      rewrite Hs by lia. apply get_bit_zero. lia.
    + rewrite list_lookup_total_insert_ne by done. by apply H6.
Qed.

(** The ring after an update: the new reading replaces the oldest one. *)
Lemma ring_bit_update matrix d i k :
  debouncer_wf d -> 0 <= k < KEYPAD_LAYER_SIZE ->
  let d' := debounce_update cfg matrix d in
  ring_bit d' i k =
    if (i =? Z.to_nat (active_debounce_index d'))%nat then reading matrix k else ring_bit d i k.
Proof.
  intros [H1 H2 H3 H4 H5 H6] Hk. unfold ring_bit, debounce_update.
  set (a := (active_debounce_index d + 1) mod config_get_debounce_len cfg).
  assert (Ha : 0 <= a < Z.of_nat debounce_len) by (unfold a, debounce_len in *; dlia).
  destruct (for_range _ _ (debounce_word _ _) _) as [on deb]. cbn.
  destruct (Nat.eqb_spec i (Z.to_nat a)) as [->|Hne].
  - rewrite lookup_total_insert_eq by lia.
    rewrite cleared_words by (apply H3; lia).
    destruct (scan_matrix_spec matrix (replicate BITFIELD_WORDS 0) k) as (_ & Hs & _);
      [apply length_replicate|lia|].
    rewrite Hs, get_bit_zero; [done|by apply words_cover|lia].
  - by rewrite list_lookup_total_insert_ne.
Qed.

(** The debounced bits after an update, from the ring. *)
Lemma debounced_bits_update matrix d k :
  debouncer_wf d -> 0 <= k < 8 * Z.of_nat BITFIELD_WORDS ->
  let d' := debounce_update cfg matrix d in
  let all := forallb (fun i => ring_bit d' i k) (seq 0 debounce_len) in
  let any := existsb (fun i => ring_bit d' i k) (seq 0 debounce_len) in
  get_bit (debounced_on_bitfield d') k = negb (get_bit (debounced_bitfield d) k) && all /\
  get_bit (debounced_bitfield d') k = (get_bit (debounced_bitfield d) k || all) && any.
Proof.
  intros [H1 H2 H3 H4 H5 H6] Hk. unfold ring_bit, debounce_update.
  set (bf := <[_ := scan_matrix _ _]> _).
  pose proof (debounce_words_spec bf (Z.to_nat (config_get_debounce_len cfg)) _ _ H4 H5) as Hw.
  destruct (for_range _ _ (debounce_word _ _) _) as [on deb].
  destruct Hw as (_ & _ & Hw). cbn.
  destruct (Hw (Z.to_nat (k / 8))) as [Ho Hd]; [dlia|].
  rewrite !get_bit_testbit by lia. rewrite Ho, Hd. unfold next_on, next_deb.
  destruct (all_any_active_bit bf (Z.to_nat (config_get_debounce_len cfg))
              (Z.to_nat (k / 8)) (k mod 8)) as [Hall Hany]; [dlia|].
  rewrite !Z.land_spec, Z.lor_spec, Z.lnot_spec, Hall, Hany by dlia.
  fold debounce_len.
  assert (Hext : forall i, Z.testbit (bf !!! i !!! Z.to_nat (k / 8)) (k mod 8) = get_bit (bf !!! i) k).
  { intros i. by rewrite get_bit_testbit by lia. }
  split; f_equal; [| f_equal |]; [apply forallb_ext|apply forallb_ext|apply existsb_ext]; auto.
Qed.

(** A key beyond the last one never debounces up; a key that does is pressed. *)
Lemma on_bit_update matrix d k :
  debouncer_wf d -> 0 <= k < 8 * Z.of_nat BITFIELD_WORDS ->
  get_bit (debounced_on_bitfield (debounce_update cfg matrix d)) k = true ->
  k < KEYPAD_LAYER_SIZE /\ get_bit (debounced_bitfield d) k = false /\
  get_bit (debounced_bitfield (debounce_update cfg matrix d)) k = true.
Proof.
  intros Hd Hk Hon. destruct (debounced_bits_update matrix d k Hd Hk) as [Ho Hb].
  rewrite Ho in Hon. rewrite Hb. apply andb_true_iff in Hon as [Hnb Hall].
  apply negb_true_iff in Hnb. rewrite Hall, Hnb.
  rewrite forallb_seq in Hall. specialize (Hall 0%nat ltac:(lia)).
  split_and!; [|done|].
  - destruct (Z.lt_ge_cases k KEYPAD_LAYER_SIZE); [done|exfalso].
    pose proof (wf_high _ (debounce_update_wf matrix d Hd) 0%nat k ltac:(lia) ltac:(lia)) as Hz.
    unfold ring_bit in Hall. by rewrite Hz in Hall.
  - apply existsb_seq. exists 0%nat. split; [lia|done].
Qed.

(** ** Runs of scans *)

(** The static variables start at zero. *)
Definition debouncer_init : debouncer :=
  mkDebouncer 0 (replicate MAX_DEBOUNCE_LEN (replicate BITFIELD_WORDS 0))
    (replicate BITFIELD_WORDS 0) (replicate BITFIELD_WORDS 0).

Definition debounce_run (scans : list (nat -> nat -> bool)) : debouncer :=
  fold_left (fun d m => debounce_update cfg m d) scans debouncer_init.

(** The last [debounce_len] readings of key [k], newest first; before the
    first scan all keys read as released. *)
Definition last_readings (scans : list (nat -> nat -> bool)) (k : Z) : list bool :=
  take debounce_len (rev (map (fun m => reading m k) scans) ++ replicate debounce_len false).

Lemma debounce_run_snoc scans m :
  debounce_run (scans ++ [m]) = debounce_update cfg m (debounce_run scans).
Proof. unfold debounce_run. by rewrite fold_left_app. Qed.

Lemma last_readings_snoc scans m k :
  last_readings (scans ++ [m]) k = reading m k :: take (debounce_len - 1) (last_readings scans k).
Proof.
  unfold last_readings. rewrite map_app, rev_app_distr. cbn [map rev app].
  destruct debounce_len as [|n] eqn:E; [lia|]. cbn [Nat.sub]. rewrite Nat.sub_0_r.
  rewrite take_take, Nat.min_l by lia. done.
Qed.

Lemma last_readings_length scans k : length (last_readings scans k) = debounce_len.
Proof. unfold last_readings. rewrite length_take, length_app, length_replicate. lia. Qed.

Lemma debouncer_init_wf : debouncer_wf debouncer_init.
Proof.
  split; cbn [debouncer_init active_debounce_index debounce_bitfields debounced_on_bitfield
              debounced_bitfield].
  - lia.
  - apply length_replicate.
  - intros i Hi. by rewrite lookup_total_replicate_2, length_replicate by done.
  - apply length_replicate.
  - apply length_replicate.
  - intros i k Hi Hk. rewrite lookup_total_replicate_2 by done. apply get_bit_zero.
    pose proof layer_size_pos. lia.
Qed.

Lemma debounce_run_wf scans : debouncer_wf (debounce_run scans).
Proof.
  induction scans as [|m scans IH] using rev_ind; [apply debouncer_init_wf|].
  rewrite debounce_run_snoc. by apply debounce_update_wf.
Qed.

(** Ring position of the reading [j] scans ago. *)
Definition ring_pos (d : debouncer) (j : nat) : nat :=
  Z.to_nat ((active_debounce_index d - Z.of_nat j) mod Z.of_nat debounce_len).

Lemma active_update matrix d :
  debouncer_wf d ->
  active_debounce_index (debounce_update cfg matrix d)
    = (active_debounce_index d + 1) mod Z.of_nat debounce_len.
Proof.
  intros Hd. unfold debounce_update. destruct (for_range _ _ (debounce_word _ _) _). cbn.
  unfold debounce_len in *. by rewrite Z2Nat.id by lia.
Qed.

Lemma ring_pos_update matrix d j :
  debouncer_wf d -> (j < debounce_len)%nat ->
  ring_pos (debounce_update cfg matrix d) j =
    match j with
    | O => Z.to_nat (active_debounce_index (debounce_update cfg matrix d))
    | S j => ring_pos d j
    end /\
  (j <> 0%nat -> ring_pos (debounce_update cfg matrix d) j
                 <> Z.to_nat (active_debounce_index (debounce_update cfg matrix d))).
Proof.
  intros Hd Hj. unfold ring_pos. rewrite active_update by done.
  destruct Hd as [Ha _ _ _ _ _]. set (L := debounce_len) in *. clearbody L.
  set (a := active_debounce_index d) in *. clearbody a. destruct j as [|j].
  - split; [|done]. f_equal. rewrite Z.sub_0_r. apply Z.mod_mod. lia.
  - split.
    + f_equal. rewrite Zminus_mod_idemp_l. f_equal. lia.
    + intros _. rewrite Zminus_mod_idemp_l. intros Heq.
      apply Z2Nat.inj in Heq; [|dlia|dlia].
      apply mod_eq_diff in Heq as [q Hq]; [|lia].
      assert (q < 0) by nia. assert (-1 < q) by nia. lia.
Qed.

Lemma ring_is_last_readings scans k j :
  0 <= k < KEYPAD_LAYER_SIZE -> (j < debounce_len)%nat ->
  ring_bit (debounce_run scans) (ring_pos (debounce_run scans) j) k
    = last_readings scans k !!! j.
Proof.
  intros Hk. revert j. induction scans as [|m scans IH] using rev_ind; intros j Hj.
  - assert (Hp : (ring_pos (debounce_run []) j < 8)%nat).
    { unfold ring_pos. pose proof Hlen. dlia. }
    set (p := ring_pos _ j) in *. clearbody p. unfold ring_bit.
    change (debounce_bitfields (debounce_run []))
      with (replicate MAX_DEBOUNCE_LEN (replicate BITFIELD_WORDS 0)).
    rewrite lookup_total_replicate_2 by done.
    rewrite get_bit_zero by (by apply words_cover).
    unfold last_readings. cbn [map rev app]. rewrite take_ge by (rewrite length_replicate; lia).
    by rewrite lookup_total_replicate_2.
  - rewrite debounce_run_snoc, last_readings_snoc.
    pose proof (debounce_run_wf scans) as Hd.
    rewrite ring_bit_update by done.
    destruct (ring_pos_update m _ j Hd Hj) as [Hpos Hne].
    destruct j as [|j].
    + by rewrite Hpos, Nat.eqb_refl.
    + rewrite (proj2 (Nat.eqb_neq _ _)) by (apply Hne; lia).
      rewrite Hpos, IH by lia.
      transitivity (take (debounce_len - 1) (last_readings scans k) !!! j); [|done].
      rewrite lookup_total_take_lt by lia. done.
Qed.

(** All ring entries, as all of the last readings. *)
Lemma ring_exists scans k (P : bool -> bool) :
  0 <= k < KEYPAD_LAYER_SIZE ->
  existsb (fun i => P (ring_bit (debounce_run scans) i k)) (seq 0 debounce_len)
    = existsb P (last_readings scans k).
Proof.
  intros Hk. apply eq_true_iff_eq. split; intros Hex.
  - apply existsb_seq in Hex as (i & Hi & HP).
    set (j := ring_pos (debounce_run scans) i).
    assert (Hj : (j < debounce_len)%nat) by (unfold j, ring_pos; dlia).
    assert (Hij : ring_pos (debounce_run scans) j = i).
    { pose proof (debounce_run_wf scans) as [Ha _ _ _ _ _]. unfold j, ring_pos in *.
      rewrite Z2Nat.id by dlia. rewrite Zminus_mod_idemp_r.
      replace (_ - (_ - _)) with (Z.of_nat i) by lia. rewrite Z.mod_small by lia. lia. }
    apply existsb_exists. exists (last_readings scans k !!! j). split.
    + apply list_elem_of_In, list_elem_of_lookup_2 with j, lookup_total_lookup.
      by rewrite last_readings_length.
    + by rewrite <- ring_is_last_readings, Hij.
  - apply existsb_exists in Hex as (b & Hb & HP).
    apply list_elem_of_In, list_elem_of_lookup in Hb as [j Hj].
    pose proof (lookup_lt_Some _ _ _ Hj) as Hlt. rewrite last_readings_length in Hlt.
    apply existsb_seq. exists (ring_pos (debounce_run scans) j). split.
    + unfold ring_pos. dlia.
    + rewrite ring_is_last_readings by done.
      by rewrite (list_lookup_total_correct _ _ _ Hj).
Qed.

Lemma ring_forall scans k :
  0 <= k < KEYPAD_LAYER_SIZE ->
  forallb (fun i => ring_bit (debounce_run scans) i k) (seq 0 debounce_len)
    = forallb Datatypes.id (last_readings scans k).
Proof.
  intros Hk. pose proof (ring_exists scans k negb Hk) as Hex.
  apply (f_equal negb) in Hex. rewrite !negb_existsb in Hex.
  rewrite (forallb_ext _ (fun i => negb (negb (ring_bit (debounce_run scans) i k)))).
  2:{ intros i. by rewrite negb_involutive. }
  rewrite Hex. apply forallb_ext. intros b. apply negb_involutive.
Qed.

(** What debouncing promises: a key changes state when its last readings agree. *)
Definition debounce_spec (pressed : bool) (readings : list bool) : bool :=
  if forallb Datatypes.id readings then true
  else if forallb negb readings then false
  else pressed.

Lemma debounce_spec_bits pressed readings :
  readings <> [] ->
  (pressed || forallb Datatypes.id readings) && existsb Datatypes.id readings = debounce_spec pressed readings.
Proof.
  intros Hne. unfold debounce_spec.
  assert (He : existsb Datatypes.id readings = negb (forallb negb readings)).
  { rewrite <- (negb_involutive (existsb Datatypes.id readings)), negb_existsb. done. }
  rewrite He. destruct (forallb Datatypes.id readings) eqn:Ha, (forallb negb readings) eqn:Hn;
    rewrite ?orb_true_r, ?orb_false_r, ?andb_true_r, ?andb_false_r; try done.
  destruct readings as [|b readings]; [done|]. simpl in *. by destruct b.
Qed.

(** The bit fields after one more scan: shared by the theorems on key presses. *)
Lemma debounce_run_bits scans m k :
  0 <= k < KEYPAD_LAYER_SIZE ->
  let before := get_bit (debounced_bitfield (debounce_run scans)) k in
  let after := debounce_run (scans ++ [m]) in
  get_bit (debounced_bitfield after) k
    = debounce_spec before (last_readings (scans ++ [m]) k) /\
  get_bit (debounced_on_bitfield after) k
    = negb before && debounce_spec before (last_readings (scans ++ [m]) k).
Proof.
  intros Hk. cbv zeta.
  destruct (debounced_bits_update m (debounce_run scans) k (debounce_run_wf scans)
    (words_cover k Hk)) as [Ho Hd].
  rewrite <- debounce_run_snoc in Ho, Hd. rewrite ring_forall in Ho, Hd by done.
  pose proof (ring_exists (scans ++ [m]) k Datatypes.id Hk) as Hany. unfold Datatypes.id in Hany at 1.
  rewrite Hany in Hd.
  assert (Hne : last_readings (scans ++ [m]) k <> []).
  { intros E. pose proof (last_readings_length (scans ++ [m]) k) as Hl.
    rewrite E in Hl. simpl in Hl. lia. }
  rewrite debounce_spec_bits in Hd by done. split; [done|]. rewrite Ho.
  destruct (get_bit (debounced_bitfield (debounce_run scans)) k); [done|].
  unfold debounce_spec. simpl. destruct (forallb Datatypes.id _); [done|].
  by destruct (forallb negb _).
Qed.
End Debounce.

(** ** The property *)

(** C4: Debouncing. After any sequence of matrix scans, a physical key is in the debounced bit
    field exactly when it should be: it becomes pressed when its last [debounce_len] readings
    are all active, released when they are all inactive, and otherwise keeps its state; the bit
    field of new presses holds the keys whose state went from released to pressed in this
    scan. *)
Theorem debounce_correct {H : Hardware} (Hok : HardwareOk H) (cfg : config_view)
    (scans : list (nat -> nat -> bool)) (m : nat -> nat -> bool) (k : Z) :
  (1 <= debounce_len cfg <= MAX_DEBOUNCE_LEN)%nat ->
  0 <= k < KEYPAD_LAYER_SIZE ->
  let before := get_bit (debounced_bitfield (debounce_run cfg scans)) k in
  let after := debounce_run cfg (scans ++ [m]) in
  let readings := last_readings cfg (scans ++ [m]) k in
  get_bit (debounced_bitfield after) k = debounce_spec before readings /\
  get_bit (debounced_on_bitfield after) k = negb before && debounce_spec before readings.
Proof. intros Hlen Hk. by apply debounce_run_bits. Qed.

(** A press of the key at row 1, column 0 read in three of four scans, with the
    key's readings [true; true; true; false] and a debounce length of 3. *)
Definition sample_config : config_view := mkConfigView (fun k => k) 3 false 2 2.
Definition sample_scan (pressed : bool) (r c : nat) : bool :=
  pressed && (r =? 1)%nat && (c =? 0)%nat.

Lemma debounce_correct_witness :
  get_bit (debounced_bitfield
    (debounce_run sample_config [sample_scan false; sample_scan true; sample_scan true])) LOGICAL_KEY_5 = false /\
  get_bit (debounced_bitfield (debounce_run sample_config
      [sample_scan false; sample_scan true; sample_scan true; sample_scan true])) LOGICAL_KEY_5 = true /\
  (get_bit (debounced_bitfield (debounce_run sample_config
      ([sample_scan false; sample_scan true; sample_scan true] ++ [sample_scan true]))) LOGICAL_KEY_5
     = debounce_spec
         (get_bit (debounced_bitfield (debounce_run sample_config
            [sample_scan false; sample_scan true; sample_scan true])) LOGICAL_KEY_5)
         (last_readings sample_config
            ([sample_scan false; sample_scan true; sample_scan true] ++ [sample_scan true]) LOGICAL_KEY_5)).
Proof.
  split; [vm_compute; reflexivity|]. split; [vm_compute; reflexivity|].
  apply (debounce_correct K84cs_hardware_ok sample_config
           [sample_scan false; sample_scan true; sample_scan true] (sample_scan true) LOGICAL_KEY_5).
  - vm_compute. lia.
  - vm_compute. split; [discriminate|reflexivity].
Defined.
