(* ===== verification/KeystateProofs.v ===== *)
(** * keystate.c: the table of pressed keys

    The passes of [keystate_update] over the table of pressed keys as list
    functions, the invariant of the table, and what an update does to the set
    of held keys, the layer, the key count and the change notifications. *)

From stdpp Require Import gmap.
From S2P Require Import Prelude Hid Hardware K84cs Keystate KeystateReports Debounce.

(** ** The passes as list functions *)

Definition release_slot (deb : list Z) (k : key_state) : key_state :=
  if p_key k =? NO_KEY then k
  else if negb (get_bit deb (p_key k))
  then mkKey (p_key k) (prev_state k) false (hidden k) else k.

(** Records [pk] in the first free slot, if there is one. *)
Fixpoint add_one (pk : Z) (l : list key_state) : list key_state :=
  match l with
  | [] => []
  | k :: l =>
      if p_key k =? NO_KEY then mkKey pk (prev_state k) true (hidden k) :: l
      else k :: add_one pk l
  end.

Definition settle_slot (layer_change : bool) (k : key_state) : key_state :=
  if p_key k =? NO_KEY then k
  else if negb layer_change && eqb (prev_state k) (state k) then k
  else if prev_state k && negb (state k) then empty_key_state
  else mkKey (p_key k) (state k) (state k) (hidden k).

(** The keys of the bit field of new presses, in the order of the scan over it. *)
Definition on_keys (on : list Z) (n : nat) : list Z :=
  filter (fun k => get_bit on k = true) (seqZ 0 (Z.of_nat n)).

Definition occupied (k : key_state) : Prop := p_key k <> NO_KEY.

#[export] Instance occupied_dec k : Decision (occupied k).
Proof. unfold occupied. apply _. Defined.

(** The physical keys in the table. *)
Definition held (l : list key_state) : list Z := p_key <$> filter occupied l.
#[global] Arguments held : simpl never.

Lemma mark_released_map deb l :
  length l = KEYSTATE_COUNT -> mark_released deb l = map (release_slot deb) l.
Proof.
  intros Hl. rewrite <- (for_range_map (release_slot deb) l KEYSTATE_COUNT) by done.
  unfold mark_released.
  set (loop j := for_range 0 j (fun j l => <[j:=release_slot deb (l !!! j)]> l) l).
  assert (Hlen : forall j, length (loop j) = length l).
  { intros j. apply (for_range_inv (fun l' => length l' = length l)); [done|].
    intros. by rewrite length_insert. }
  apply (for_range_ind (fun (j : nat) l1 => l1 = loop j)); [done|].
  intros i s Hi ->. transitivity (<[i := release_slot deb (loop i !!! i)]> (loop i)).
  2:{ unfold loop at 3. by rewrite for_range_snoc. }
  unfold release_slot. case_if; [|case_if; [done|]].
  all: symmetry; apply list_insert_id, lookup_total_lookup; rewrite Hlen; lia.
Qed.

(** ** Recording new keys *)

Lemma add_one_length pk l : length (add_one pk l) = length l.
Proof. induction l as [|k l IH]; simpl; [done|]. case_if; simpl; congruence. Qed.

Lemma find_free_spec fuel l free :
  length l = KEYSTATE_COUNT -> (KEYSTATE_COUNT <= fuel + free)%nat -> (free <= KEYSTATE_COUNT)%nat ->
  (forall i, (i < free)%nat -> occupied (l !!! i)) ->
  let f := find_free fuel l free in
  (free <= f <= KEYSTATE_COUNT)%nat /\ (forall i, (i < f)%nat -> occupied (l !!! i)) /\
  ((f < KEYSTATE_COUNT)%nat -> p_key (l !!! f) = NO_KEY).
Proof.
  intros Hl. revert free. induction fuel as [|fuel IH]; intros free Hf Hfree Hocc; cbn [find_free].
  { split_and!; [lia|lia|done|lia]. }
  destruct (Nat.ltb_spec free 14); simpl.
  2:{ split_and!; [lia|lia|done|lia]. }
  destruct (Z.eqb_spec (p_key (l !!! free)) NO_KEY) as [He|Hne]; simpl.
  { split_and!; [lia|lia|done|done]. }
  destruct (IH (S free)) as (H1 & H2 & H3); [lia|lia| |].
  { intros i Hi. destruct (decide (i = free)) as [->|]; [done|]. apply Hocc. lia. }
  split_and!; [lia|lia|done|done].
Qed.

(** [add_one] fills the first free slot. *)
Lemma add_one_insert pk l f :
  (f < length l)%nat -> (forall i, (i < f)%nat -> occupied (l !!! i)) ->
  p_key (l !!! f) = NO_KEY ->
  add_one pk l = <[f := mkKey pk (prev_state (l !!! f)) true (hidden (l !!! f))]> l.
Proof.
  revert f. induction l as [|k l IH]; intros f Hf Hocc He; simpl in *; [lia|].
  destruct f as [|f]; simpl in *.
  - change ((k :: l) !!! 0%nat) with k in *. by rewrite He, Z.eqb_refl.
  - pose proof (Hocc 0%nat ltac:(lia)) as H0. change ((k :: l) !!! 0%nat) with k in H0.
    rewrite (proj2 (Z.eqb_neq _ _)) by done. f_equal. apply IH; [lia| |done].
    intros i Hi. apply (Hocc (S i)). lia.
Qed.

Lemma add_one_full pk l : (forall i, (i < length l)%nat -> occupied (l !!! i)) -> add_one pk l = l.
Proof.
  induction l as [|k l IH]; intros Hocc; simpl; [done|].
  pose proof (Hocc 0%nat ltac:(simpl; lia)) as H0. change ((k :: l) !!! 0%nat) with k in H0.
  rewrite (proj2 (Z.eqb_neq _ _)) by done. f_equal. apply IH.
  intros i Hi. apply (Hocc (S i)). simpl. lia.
Qed.

Section Adding.
Context (l0 : list key_state) (c0 : Z).

(** The loop state after the keys [ks]. *)
Record adding_inv (ks : list Z) (a : adding) : Prop := {
  ai_slots : slots a = fold_left (fun l pk => add_one pk l) ks l0;
  ai_length : length (slots a) = KEYSTATE_COUNT;
  ai_free : (free_slot a <= KEYSTATE_COUNT)%nat;
  ai_occ : forall i, (i < free_slot a)%nat -> occupied (slots a !!! i);
  ai_full : no_free a = true -> free_slot a = KEYSTATE_COUNT;
  ai_counter : is_u16 (counter a)
}.

Lemma add_key_inv ks a pk :
  pk <> NO_KEY -> adding_inv ks a -> no_free a = false ->
  adding_inv (ks ++ [pk]) (add_key pk a).
Proof.
  intros Hpk [H1 H2 H3 H4 H5 H6] Hnf. unfold add_key.
  destruct (find_free_spec KEYSTATE_COUNT (slots a) (free_slot a)) as (F1 & F2 & F3);
    [done|lia|done|done|].
  set (f := find_free _ _ _) in *. clearbody f.
  destruct (Nat.leb_spec 14 f) as [Hge|Hlt].
  - assert (f = 14%nat) as -> by lia.
    split; cbn; rewrite ?fold_left_app; cbn; auto with firmware.
    rewrite <- H1, add_one_full; [done|]. by rewrite H2.
  - split; cbn; rewrite ?fold_left_app, ?length_insert; cbn; auto with firmware.
    + rewrite <- H1. rewrite (add_one_insert pk (slots a) f); [done|lia|done|by apply F3].
    + lia.
    + intros i Hi. rewrite list_lookup_total_insert_ne by lia. by apply F2.
    + done.
Qed.

(** Once the table is full the remaining keys are dropped. *)
Lemma adding_full_inv ks a pk :
  adding_inv ks a -> no_free a = true -> adding_inv (ks ++ [pk]) a.
Proof.
  intros [H1 H2 H3 H4 H5 H6] Hnf. split; auto. rewrite fold_left_app. cbn.
  rewrite <- H1. symmetry. apply add_one_full. rewrite H2, <- (H5 Hnf). done.
Qed.
End Adding.

Lemma on_keys_S on n :
  on_keys on (S n) = on_keys on n ++ (if get_bit on (Z.of_nat n) then [Z.of_nat n] else []).
Proof.
  unfold on_keys. rewrite seqZ_S, filter_app.
  rewrite Z.add_0_l. f_equal. rewrite filter_cons, filter_nil.
  destruct (get_bit on (Z.of_nat n)); [by rewrite decide_True|by rewrite decide_False].
Qed.

Section Slots.
Context {H : Hardware} `{!HardwareOk H} (cfg : config_view).

Lemma bits_below : 8 * Z.of_nat BITFIELD_WORDS <= NO_KEY.
Proof.
  pose proof words_bound. pose proof logical_keys_u8. pose proof logical_keys_layers.
  pose proof layers_2_3. pose proof layer_size_pos.
  assert (2 * KEYPAD_LAYER_SIZE <= NUM_LOGICAL_KEYS) by nia. lia.
Qed.

(** The loops over words and bits run over [on_keys]. *)
Lemma add_bit_inv l0 on w b a :
  (w < BITFIELD_WORDS)%nat -> (b < 8)%nat ->
  adding_inv l0 (on_keys on (w * 8 + b)) a ->
  adding_inv l0 (on_keys on (S (w * 8 + b))) (add_bit (on !!! w) w b a).
Proof.
  intros Hw Hb Ha. rewrite on_keys_S. pose proof bits_below as Hbelow. unfold add_bit.
  assert (Hbit : get_bit on (Z.of_nat (w * 8 + b)) =
            negb (Z.land (on !!! w) (Z.shiftl 1 (Z.of_nat b)) =? 0)).
  { unfold get_bit. do 3 f_equal; [f_equal; dlia|]. f_equal. dlia. }
  rewrite Hbit. replace (Z.of_nat w * 8 + Z.of_nat b) with (Z.of_nat (w * 8 + b)) by lia.
  destruct (no_free a) eqn:Hnf; destruct (Z.land _ _ =? 0) eqn:Hz; simpl; rewrite ?app_nil_r; auto.
  - by apply adding_full_inv.
  - apply add_key_inv; [lia|done|done].
Qed.

Lemma add_word_inv l0 on w a :
  (w < BITFIELD_WORDS)%nat ->
  adding_inv l0 (on_keys on (w * 8)) a ->
  adding_inv l0 (on_keys on (S w * 8)) (add_word on w a).
Proof.
  intros Hw Ha. replace (S w * 8)%nat with (w * 8 + 8)%nat by lia. unfold add_word.
  destruct (Z.eqb_spec 0 (on !!! w)) as [Hz|].
  - replace (on_keys on (w * 8 + 8)) with (on_keys on (w * 8)); [done|].
    assert (Hb : forall n, (n <= 8)%nat -> on_keys on (w * 8 + n) = on_keys on (w * 8)).
    { induction n as [|n IH]; intros Hn; [by rewrite Nat.add_0_r|].
      rewrite Nat.add_succ_r, on_keys_S, IH by lia.
      rewrite get_bit_testbit by lia.
      replace (Z.to_nat (Z.of_nat (w * 8 + n) / 8)) with w by dlia.
      by rewrite <- Hz, Z.bits_0, app_nil_r. }
    symmetry. by apply Hb.
  - change (Z.to_nat 8) with 8%nat.
    apply (for_range_ind (fun b a => adding_inv l0 (on_keys on (w * 8 + b)) a) 0 8).
    + by rewrite Nat.add_0_r.
    + intros b a' Hb Ha'. rewrite Nat.add_succ_r. apply add_bit_inv; [done|lia|done].
Qed.

Lemma add_pressed_spec on l0 c0 :
  length l0 = KEYSTATE_COUNT -> is_u16 c0 ->
  let a := add_pressed on (mkAdding false 0 c0 l0) in
  slots a = fold_left (fun l pk => add_one pk l) (on_keys on (BITFIELD_WORDS * 8)) l0 /\
  length (slots a) = KEYSTATE_COUNT /\ is_u16 (counter a).
Proof.
  intros Hl Hc. cbv zeta.
  cut (adding_inv l0 (on_keys on (BITFIELD_WORDS * 8)) (add_pressed on (mkAdding false 0 c0 l0))).
  { intros []. auto. }
  apply (for_range_ind (fun w a => adding_inv l0 (on_keys on (w * 8)) a) 0 BITFIELD_WORDS).
  - split; cbn; auto; lia.
  - intros w a Hw Ha. apply add_word_inv; [lia|done].
Qed.

(** ** The layer pass *)

Definition layer_key_changed (k : key_state) : bool :=
  negb (p_key k =? NO_KEY) && SPECIAL_HID_KEY_NOREMAP (config_get_definition cfg (p_key k))
  && negb (eqb (state k) (prev_state k)).

(** The layer after the layer keys of a table changed. *)
Definition layer_after (l : list key_state) (ll : layer_t) : layer_t :=
  fold_left (fun ll k =>
    if layer_key_changed k then next_layer ll (config_get_definition cfg (p_key k)) (state k)
    else ll) l ll.

(** Equality of states up to the layer and the buzzer calls. *)
Definition same_table (s s' : keystate) : Prop :=
  key_states s' = key_states s /\ key_press_count s' = key_press_count s /\
  key_press_counter s' = key_press_counter s /\ prev_layer s' = prev_layer s /\
  hook_registered s' = hook_registered s /\ debounce s' = debounce s /\ mouse s' = mouse s.

Definition is_buzzer (e : ks_event) : Prop := match e with KeyChange _ _ => False | _ => True end.

Lemma update_layer_spec key st s :
  same_table s (update_layer key st s) /\
  layer (update_layer key st s) = next_layer (layer s) key st /\
  exists b, out (update_layer key st s) = out s ++ b /\ Forall is_buzzer b.
Proof.
  unfold update_layer, default_beep. case_if; [|case_if];
    (split; [by split_and!|split; [done|]]).
  - exists []. by rewrite app_nil_r.
  - eexists. split; [done|]. by repeat constructor.
  - eexists. split; [done|]. by repeat constructor.
Qed.

Lemma layer_loop_spec s :
  length (key_states s) = KEYSTATE_COUNT ->
  let s' := for_range 0 KEYSTATE_COUNT (layer_step cfg) s in
  same_table s s' /\ layer s' = layer_after (key_states s) (layer s) /\
  exists b, out s' = out s ++ b /\ Forall is_buzzer b.
Proof.
  intros Hl. cbv zeta. rewrite <- Hl.
  cut (forall n, (n <= length (key_states s))%nat ->
    let s' := for_range 0 n (layer_step cfg) s in
    same_table s s' /\ layer s' = layer_after (take n (key_states s)) (layer s) /\
    exists b, out s' = out s ++ b /\ Forall is_buzzer b).
  { intros Hn. specialize (Hn (length (key_states s)) ltac:(done)).
    by rewrite firstn_all in Hn. }
  induction n as [|n IH]; intros Hn; cbv zeta.
  { split; [by split_and!|]. split; [done|]. exists []. by rewrite app_nil_r. }
  rewrite for_range_snoc. cbn [Nat.add]. destruct (IH ltac:(lia)) as (Ht & Hlay & b & Hb & Hbz).
  set (s' := for_range 0 n _ s) in *. clearbody s'.
  rewrite (take_S_r _ _ _ (lookup_total_lookup (key_states s) n ltac:(lia))).
  unfold layer_after in *. rewrite fold_left_app, <- Hlay. cbn [fold_left].
  unfold layer_step, layer_key_changed. destruct Ht as (Hk & Ht). rewrite Hk.
  destruct (p_key (key_states s !!! n) =? NO_KEY); simpl.
  { by split; [split|eauto]. }
  destruct (SPECIAL_HID_KEY_NOREMAP _ && _); simpl; [|by split; [split|eauto]].
  destruct (update_layer_spec (config_get_definition cfg (p_key (key_states s !!! n)))
              (state (key_states s !!! n)) s') as (Hu & Hul & b' & Hub & Hbz').
  destruct Hu as (U1 & U2 & U3 & U4 & U5 & U6 & U7), Ht as (T2 & T3 & T4 & T5 & T6 & T7).
  split; [split_and!; congruence|]. split; [done|].
  exists (b ++ b'). rewrite Hub, Hb, app_assoc. split; [done|]. by apply Forall_app.
Qed.

(** ** The notification pass *)

Definition notifiable (pk : Z) : bool :=
  is_hid_key_to_notify_about (config_get_definition cfg pk).

Definition press_events (hook : bool) (ll : layer_t) (pk : Z) : list ks_event :=
  (if hook then [KeyChange (logical_code ll pk) true] else [])
  ++ (if config_key_sound_enabled cfg then [BuzzerStart 18] else []).
Definition release_events (hook : bool) (ll : layer_t) (pk : Z) : list ks_event :=
  if hook then [KeyChange (logical_code ll pk) false] else [].

(** What is notified about one slot: releases are in the layer the key was
    reported in, presses in the new layer. *)
Definition slot_events (hook layer_change : bool) (pl ll : layer_t) (k : key_state) : list ks_event :=
  if p_key k =? NO_KEY then []
  else if negb layer_change && eqb (prev_state k) (state k) then []
  else if negb (notifiable (p_key k)) then []
  else if layer_change then
    (if prev_state k then release_events hook pl (p_key k) else [])
    ++ (if state k then press_events hook ll (p_key k) else [])
  else if state k then press_events hook ll (p_key k) else release_events hook ll (p_key k).

Definition slot_delta (k : key_state) : Z :=
  if p_key k =? NO_KEY then 0
  else if notifiable (p_key k) then Z.b2z (state k) - Z.b2z (prev_state k) else 0.

Lemma notify_step_spec layer_change j s :
  let k := key_states s !!! j in
  (j < length (key_states s))%nat ->
  let s' := notify_step cfg layer_change j s in
  key_states s' = <[j := settle_slot layer_change k]> (key_states s) /\
  u8 (key_press_count s') = u8 (key_press_count s + slot_delta k) /\
  (is_u8 (key_press_count s) -> is_u8 (key_press_count s')) /\
  out s' = out s ++ slot_events (hook_registered s) layer_change (prev_layer s) (layer s) k /\
  layer s' = layer s /\ prev_layer s' = prev_layer s /\ key_press_counter s' = key_press_counter s /\
  hook_registered s' = hook_registered s /\ debounce s' = debounce s /\ mouse s' = mouse s.
Proof.
  cbv zeta. intros Hj. unfold notify_step, slot_events, slot_delta, settle_slot, notifiable.
  pose proof (lookup_total_lookup (key_states s) j Hj) as Hl.
  destruct (key_states s !!! j) as [pk ps st hd] eqn:Ek. cbn [p_key prev_state state hidden].
  destruct (pk =? NO_KEY).
  { rewrite app_nil_r, Z.add_0_r, list_insert_id by done. by split_and!. }
  destruct (negb layer_change && eqb ps st) eqn:Esame.
  { rewrite app_nil_r, list_insert_id by done. apply andb_true_iff in Esame as [_ Es].
    apply eqb_prop in Es as ->. split_and!; try done. f_equal. case_if; lia. }
  destruct (is_hid_key_to_notify_about _); cbn [negb]; cycle 1.
  { rewrite app_nil_r, Z.add_0_r. by split_and!. }
  unfold notify_about_key_change, notify_key_pressed, notify_key_released, press_events,
    release_events, default_beep. cbn [p_key prev_state state hidden].
  destruct layer_change, ps, st; try done; cbn [andb negb app];
    destruct (hook_registered s) eqn:Eh, (config_key_sound_enabled cfg);
    repeat (progress (cbn; rewrite ?Eh)); rewrite <- ?app_assoc, ?app_nil_r; cbn;
    split_and!; try done; try (intros; apply u8_range); unfold u8;
    rewrite ?Zminus_mod_idemp_l, ?Zplus_mod_idemp_l, ?Z.mod_mod by lia; try done; f_equal; lia.
Qed.

Definition sum_delta (l : list key_state) : Z := fold_right (fun k n => slot_delta k + n) 0 l.

Lemma sum_delta_app l1 l2 : sum_delta (l1 ++ l2) = sum_delta l1 + sum_delta l2.
Proof. induction l1 as [|k l1 IH]; simpl; [done|]. rewrite IH. lia. Qed.

Lemma notify_loop_spec layer_change s :
  length (key_states s) = KEYSTATE_COUNT -> is_u8 (key_press_count s) ->
  let s' := for_range 0 KEYSTATE_COUNT (notify_step cfg layer_change) s in
  key_states s' = map (settle_slot layer_change) (key_states s) /\
  key_press_count s' = u8 (key_press_count s + sum_delta (key_states s)) /\
  out s' = out s ++ flat_map (slot_events (hook_registered s) layer_change (prev_layer s) (layer s))
                      (key_states s) /\
  layer s' = layer s /\ prev_layer s' = prev_layer s /\ key_press_counter s' = key_press_counter s /\
  hook_registered s' = hook_registered s /\ debounce s' = debounce s /\ mouse s' = mouse s.
Proof.
  intros Hl Hu. cbv zeta. rewrite <- Hl. set (l := key_states s).
  cut (forall n, (n <= length l)%nat ->
    let s' := for_range 0 n (notify_step cfg layer_change) s in
    key_states s' = map (settle_slot layer_change) (take n l) ++ drop n l /\
    key_press_count s' = u8 (key_press_count s + sum_delta (take n l)) /\
    out s' = out s ++ flat_map (slot_events (hook_registered s) layer_change (prev_layer s) (layer s))
                        (take n l) /\
    layer s' = layer s /\ prev_layer s' = prev_layer s /\ key_press_counter s' = key_press_counter s /\
    hook_registered s' = hook_registered s /\ debounce s' = debounce s /\ mouse s' = mouse s).
  { intros Hn. specialize (Hn (length l) ltac:(done)).
    by rewrite firstn_all, drop_all, app_nil_r in Hn. }
  induction n as [|n IH]; intros Hn; cbv zeta.
  { cbn. rewrite Z.add_0_r, app_nil_r, u8_small by done. by split_and!. }
  rewrite for_range_snoc. cbn [Nat.add].
  destruct (IH ltac:(lia)) as (I1 & I2 & I3 & I4 & I5 & I6 & I7 & I8 & I9).
  set (s' := for_range 0 n _ s) in *. clearbody s'.
  assert (Hlen : length (map (settle_slot layer_change) (take n l)) = n).
  { rewrite length_map, length_take. lia. }
  assert (Hdrop : drop n l = l !!! n :: drop (S n) l).
  { apply drop_S, lookup_total_lookup. lia. }
  assert (Hk : key_states s' !!! n = l !!! n).
  { rewrite I1, Hdrop. by rewrite list_lookup_total_middle. }
  pose proof (notify_step_spec layer_change n s') as Hs. cbv zeta in Hs.
  rewrite Hk, I1, length_app, Hlen, Hdrop in Hs. cbn [length] in Hs.
  destruct (Hs ltac:(lia)) as (S1 & S2 & S3 & S4 & S5 & S6 & S7 & S8 & S9 & S10).
  rewrite (take_S_r _ _ _ (lookup_total_lookup l n ltac:(lia))).
  rewrite map_app, sum_delta_app, flat_map_app. cbn [map sum_delta fold_right flat_map].
  rewrite S4, I3, I4, I5, I7, app_nil_r, <- !app_assoc.
  split_and!; try congruence.
  - rewrite S1, insert_app_r_alt, Hlen, Nat.sub_diag by lia. done.
  - rewrite <- (u8_small (key_press_count (notify_step cfg layer_change n s'))).
    2:{ apply S3. rewrite I2. apply u8_range. }
    rewrite S2, I2, Z.add_0_r, Z.add_assoc. unfold u8. by rewrite Zplus_mod_idemp_l.
Qed.

(** Only hardware with a function layer may map a key to the function shift. *)
Definition config_layers_ok : Prop :=
  forall k, 0 <= k < KEYPAD_LAYER_SIZE ->
    config_get_definition cfg k = SPECIAL_HID_KEY_FUNCTION_SHIFT -> layers = 3%nat.

Definition layer_id_ok (ll : layer_t) : Prop := 0 <= id ll < Z.of_nat layers.

Lemma next_layer_ok ll k st :
  config_layers_ok -> 0 <= k < KEYPAD_LAYER_SIZE -> layer_id_ok ll ->
  layer_id_ok (next_layer ll (config_get_definition cfg k) st).
Proof.
  intros Hc Hk Hll. specialize (Hc k Hk). unfold layer_id_ok, next_layer in *.
  pose proof layers_2_3. repeat case_if; cbn; try lia; specialize (Hc ltac:(done)); lia.
Qed.

Lemma layer_after_ok l ll :
  config_layers_ok -> Forall (fun k => p_key k <> NO_KEY -> 0 <= p_key k < KEYPAD_LAYER_SIZE) l ->
  layer_id_ok ll -> layer_id_ok (layer_after l ll).
Proof.
  intros Hc Hl. revert ll. induction Hl as [|k l Hk Hl IH]; intros ll Hll; [done|].
  cbn. apply IH. unfold layer_key_changed.
  destruct (Z.eqb_spec (p_key k) NO_KEY) as [He|Hne]; cbn [negb andb]; [done|].
  case_if; [|done]. apply next_layer_ok; auto.
Qed.


(** ** The invariant between updates *)

(** A slot is empty, or holds a pressed and notified key. *)
Definition slot_ok (deb : list Z) (k : key_state) : Prop :=
  k = empty_key_state \/
  (0 <= p_key k < KEYPAD_LAYER_SIZE /\ state k = true /\ prev_state k = true /\
   get_bit deb (p_key k) = true).

Definition notifiable_count (l : list Z) : Z := Z.of_nat (length (filter (fun k => notifiable k = true) l)).

(** What does not depend on the configuration. *)
Record table_inv (s : keystate) : Prop := {
  ki_length : length (key_states s) = KEYSTATE_COUNT;
  ki_slots : Forall (slot_ok (debounced_bitfield (debounce s))) (key_states s);
  ki_nodup : NoDup (held (key_states s));
  ki_layer : prev_layer s = layer s;
  ki_u8 : is_u8 (key_press_count s);
  ki_debounce : debouncer_wf (debounce s);
  ki_counter : is_u16 (key_press_counter s)
}.

(** The count of the pressed keys. *)
Definition count_ok (s : keystate) : Prop := key_press_count s = notifiable_count (held (key_states s)).

Record keystate_inv (s : keystate) : Prop := {
  ki_table : table_inv s;
  ki_count : count_ok s;
  ki_layer_id : config_layers_ok -> layer_id_ok (layer s)
}.

(** ** The set of held keys *)

Lemma held_cons k l : held (k :: l) = (if decide (occupied k) then [p_key k] else []) ++ held l.
Proof. unfold held. rewrite filter_cons. by case_decide. Qed.

Lemma held_app l1 l2 : held (l1 ++ l2) = held l1 ++ held l2.
Proof. unfold held. by rewrite filter_app, fmap_app. Qed.

Lemma elem_of_held p l : p ∈ held l <-> exists k, k ∈ l /\ p_key k = p /\ p <> NO_KEY.
Proof.
  unfold held. rewrite list_elem_of_fmap. split.
  - intros (k & -> & Hk). apply list_elem_of_filter in Hk as [Ho Hk]. by exists k.
  - intros (k & Hk & <- & Ho). exists k. split; [done|]. by apply list_elem_of_filter.
Qed.

Lemma held_length_le l : (length (held l) <= length l)%nat.
Proof. unfold held. rewrite length_fmap. apply length_filter. Qed.

Lemma add_one_held pk l :
  pk <> NO_KEY ->
  held (add_one pk l) ≡ₚ (if (length (held l) <? length l)%nat then [pk] else []) ++ held l.
Proof.
  intros Hpk. induction l as [|k l IH]; [done|]. cbn [add_one]. rewrite held_cons.
  destruct (Z.eqb_spec (p_key k) NO_KEY) as [He|Hne].
  - rewrite held_cons. unfold occupied. cbn [p_key].
    rewrite decide_True, (decide_False (P := p_key k <> NO_KEY)) by auto.
    cbn [app length]. pose proof (held_length_le l).
    by rewrite (proj2 (Nat.ltb_lt _ _)) by lia.
  - rewrite held_cons. unfold occupied. rewrite !decide_True by done. cbn [app length].
    rewrite IH. change (S (length (held l)) <? S (length l))%nat with (length (held l) <? length l)%nat.
    destruct (_ <? _)%nat; [apply Permutation_swap|done].
Qed.

Lemma add_all_length ks l : length (fold_left (fun l pk => add_one pk l) ks l) = length l.
Proof. revert l. induction ks as [|k ks IH]; intros l; simpl; [done|]. by rewrite IH, add_one_length. Qed.

(** As many of the new keys as there are free slots are recorded, in order. *)
Lemma add_all_held ks l :
  Forall (fun k => k <> NO_KEY) ks ->
  held (fold_left (fun l pk => add_one pk l) ks l)
    ≡ₚ take (length l - length (held l)) ks ++ held l.
Proof.
  revert l. induction ks as [|pk ks IH]; intros l Hks; simpl; [by rewrite take_nil|].
  apply Forall_cons in Hks as [Hpk Hks]. rewrite IH by done.
  pose proof (add_one_held pk l Hpk) as Hh. rewrite add_one_length, (Permutation_length Hh), Hh.
  destruct (Nat.ltb_spec (length (held l)) (length l)); simpl.
  - replace (length l - S (length (held l)))%nat with (length l - length (held l) - 1)%nat by lia.
    destruct (length l - length (held l))%nat as [|n] eqn:E; [lia|]. simpl.
    rewrite Nat.sub_0_r. symmetry. apply Permutation_middle.
  - pose proof (held_length_le l).
    by replace (length l - length (held l))%nat with 0%nat by lia.
Qed.

Lemma add_one_Forall (P : key_state -> Prop) pk l :
  Forall P l -> (forall k, k ∈ l -> p_key k = NO_KEY -> P (mkKey pk (prev_state k) true (hidden k))) ->
  Forall P (add_one pk l).
Proof.
  induction l as [|k l IH]; intros HF Hnew; simpl; [done|].
  apply Forall_cons in HF as [Hk HF]. destruct (Z.eqb_spec (p_key k) NO_KEY).
  - constructor; [|done]. apply Hnew; [by left|done].
  - constructor; [done|]. apply IH; [done|]. intros. apply Hnew; [by right|done].
Qed.

Lemma add_all_Forall (P : key_state -> Prop) ks l :
  Forall (fun k => p_key k = NO_KEY -> k = empty_key_state) l ->
  Forall (fun k => k <> NO_KEY) ks ->
  Forall P l -> (forall pk, pk ∈ ks -> P (mkKey pk false true false)) ->
  Forall P (fold_left (fun l pk => add_one pk l) ks l).
Proof.
  revert l. induction ks as [|pk ks IH]; intros l He Hks HP Hnew; simpl; [done|].
  apply Forall_cons in Hks as [Hpk Hks]. rewrite Forall_forall in He.
  apply IH; [|done| |].
  - apply add_one_Forall; [by apply Forall_forall|]. intros k _ _ Hk. by cbn in Hk.
  - apply add_one_Forall; [done|]. intros k Hk Hno. rewrite (He k Hk Hno). apply Hnew. by left.
  - intros. apply Hnew. by right.
Qed.

(** ** The table between the scan and the notifications *)

Context (Hlen : (1 <= debounce_len cfg <= MAX_DEBOUNCE_LEN)%nat).

Section Update.
Context (matrix : nat -> nat -> bool) (s : keystate) (Hinv : table_inv s).

Let d' := debounce_update cfg matrix (debounce s).
Let deb := debounced_bitfield (debounce s).
Let deb' := debounced_bitfield d'.
Let new_keys := on_keys (debounced_on_bitfield d') (BITFIELD_WORDS * 8).

(** The table once released keys are marked and new keys recorded. *)
Definition mid_table : list key_state :=
  fold_left (fun l pk => add_one pk l) new_keys (map (release_slot deb') (key_states s)).

(** The layer and the layer change an update decides on. *)
Definition new_layer : layer_t := layer_after mid_table (layer s).
Definition changes_layer : bool := negb (get_layer_id new_layer =? get_layer_id (layer s)).

Definition mid_ok (k : key_state) : Prop :=
  k = empty_key_state \/
  (0 <= p_key k < KEYPAD_LAYER_SIZE /\
   prev_state k = get_bit deb (p_key k) /\ state k = get_bit deb' (p_key k) /\
   prev_state k || state k = true).

Lemma elem_of_new_keys k :
  k ∈ new_keys <-> 0 <= k < KEYPAD_LAYER_SIZE /\ get_bit (debounced_on_bitfield d') k = true.
Proof.
  unfold new_keys, on_keys. rewrite list_elem_of_filter, elem_of_seqZ.
  assert (Hc : KEYPAD_LAYER_SIZE <= 8 * Z.of_nat BITFIELD_WORDS) by (unfold BITFIELD_WORDS; dlia).
  split; [|intros []; split; [done|lia]]. intros [Hb Hk]. split; [|done].
  destruct (on_bit_update cfg Hlen matrix (debounce s) k (ki_debounce _ Hinv)) as [? _];
    [lia|done|lia].
Qed.

Lemma new_key_bits k :
  k ∈ new_keys ->
  get_bit (debounced_bitfield (debounce s)) k = false /\ get_bit deb' k = true.
Proof.
  intros [Hk Hb]%elem_of_new_keys.
  destruct (on_bit_update cfg Hlen matrix (debounce s) k (ki_debounce _ Hinv)) as (_ & H1 & H2);
    [by apply words_cover|done|done].
Qed.

Lemma new_keys_not_NO_KEY : Forall (fun k => k <> NO_KEY) new_keys.
Proof.
  apply Forall_forall. intros k [Hk _]%elem_of_new_keys. pose proof layer_below_no_key. lia.
Qed.

Lemma release_slot_ok k :
  slot_ok (debounced_bitfield (debounce s)) k ->
  p_key (release_slot deb' k) = p_key k /\ mid_ok (release_slot deb' k) /\
  (p_key (release_slot deb' k) = NO_KEY -> release_slot deb' k = empty_key_state) /\
  prev_state (release_slot deb' k) = prev_state k.
Proof.
  intros [->|(Hp & Hs & Hpr & Hb)]; [by repeat split; try left|].
  pose proof layer_below_no_key. unfold release_slot.
  rewrite (proj2 (Z.eqb_neq (p_key k) NO_KEY)) by lia.
  destruct (get_bit deb' (p_key k)) eqn:Hbit; cbn [negb];
    (split_and!; [done| |cbn; lia|done]); right; cbn;
    rewrite Hbit, Hpr; (split; [exact Hp|by split_and!]).
Qed.

Lemma released_held : held (map (release_slot deb') (key_states s)) = held (key_states s).
Proof.
  pose proof (ki_slots _ Hinv) as Hs. induction Hs as [|k l Hk Hs IH]; [done|].
  cbn [map]. rewrite !held_cons, IH. destruct (release_slot_ok k Hk) as (Heq & _).
  destruct (decide (occupied _)), (decide (occupied k)); unfold occupied in *;
    rewrite ?Heq in *; tauto.
Qed.

Lemma mid_length : length mid_table = KEYSTATE_COUNT.
Proof. unfold mid_table. rewrite add_all_length, length_map. apply (ki_length _ Hinv). Qed.

Lemma mid_all_ok : Forall mid_ok mid_table.
Proof.
  pose proof (ki_slots _ Hinv) as Hs. unfold mid_table. apply add_all_Forall.
  - apply Forall_map. eapply Forall_impl; [exact Hs|]. intros k Hk. by apply release_slot_ok.
  - apply new_keys_not_NO_KEY.
  - apply Forall_map. eapply Forall_impl; [exact Hs|]. intros k Hk. by apply release_slot_ok.
  - intros pk Hpk. pose proof (new_key_bits pk Hpk) as [Hb Hb'].
    apply elem_of_new_keys in Hpk as [Hr _]. right. cbn. split; [exact Hr|by split_and!].
Qed.

(** The table holds the keys held before and, as far as there is room, the new ones. *)
Lemma mid_held :
  held mid_table
    ≡ₚ take (KEYSTATE_COUNT - length (held (key_states s))) new_keys ++ held (key_states s).
Proof.
  unfold mid_table. rewrite add_all_held by apply new_keys_not_NO_KEY.
  by rewrite length_map, released_held, (ki_length _ Hinv).
Qed.

Lemma held_bit k : k ∈ held (key_states s) -> get_bit (debounced_bitfield (debounce s)) k = true.
Proof.
  intros (sl & Hsl & <- & Hne)%elem_of_held. pose proof (ki_slots _ Hinv) as Hs.
  rewrite Forall_forall in Hs. destruct (Hs sl Hsl) as [->|(_ & _ & _ & Hb)]; done.
Qed.

Lemma mid_nodup : NoDup (held mid_table).
Proof.
  rewrite mid_held. apply NoDup_app. split_and!.
  - apply (sublist_NoDup _ new_keys); [|apply sublist_take]. unfold new_keys, on_keys. apply NoDup_filter, NoDup_seqZ.
  - intros k (i & Hk%list_elem_of_lookup_2 & _)%elem_of_take Hh. apply held_bit in Hh.
    apply new_key_bits in Hk as [Hk _]. congruence.
  - apply (ki_nodup _ Hinv).
Qed.

(** What [keystate_update] computes, field by field. *)
Lemma keystate_update_fields :
  let s' := keystate_update cfg matrix s in
  key_states s' = map (settle_slot changes_layer) mid_table /\
  key_press_count s' = u8 (key_press_count s + sum_delta mid_table) /\
  layer s' = new_layer /\ prev_layer s' = new_layer /\
  hook_registered s' = hook_registered s /\ debounce s' = d' /\ mouse s' = mouse s /\
  is_u16 (key_press_counter s') /\
  exists b, Forall is_buzzer b /\
    out s' = out s ++ b ++
      flat_map (slot_events (hook_registered s) changes_layer (layer s) new_layer) mid_table.
Proof.
  unfold keystate_update, scan_keys, layer_changed. cbv zeta. fold d'. fold deb'.
  rewrite mark_released_map by apply (ki_length _ Hinv).
  destruct (add_pressed_spec (debounced_on_bitfield d') (map (release_slot deb') (key_states s))
    (key_press_counter s)) as (Ha1 & Ha2 & Ha3).
  { rewrite length_map. apply (ki_length _ Hinv). }
  { apply (ki_counter _ Hinv). }
  set (a := add_pressed _ _) in *. clearbody a.
  assert (Hmid : slots a = mid_table) by exact Ha1.
  set (s1 := set_key_press_counter (counter a) (set_key_states (slots a) (set_debounce d' s))).
  destruct (layer_loop_spec s1) as ((L1 & L2 & L3 & L4 & L5 & L6 & L7) & L8 & b & L9 & L10);
    [done|].
  set (s2 := for_range 0 KEYSTATE_COUNT (layer_step cfg) s1) in *. clearbody s2.
  cbn in L1, L2, L3, L4, L5, L6, L7, L8, L9. rewrite Hmid in *.
  assert (Hch : negb (keystate_get_layer_id s2 =? keystate_get_prev_layer_id s2) = changes_layer).
  { unfold keystate_get_layer_id, keystate_get_prev_layer_id, changes_layer, new_layer.
    by rewrite L8, L4, (ki_layer _ Hinv). }
  rewrite Hch.
  assert (Hu : is_u8 (key_press_count s2)).
  { rewrite L2. apply (ki_u8 _ Hinv). }
  destruct (notify_loop_spec changes_layer s2) as (N1 & N2 & N3 & N4 & N5 & N6 & N7 & N8 & N9);
    [congruence|done|].
  set (s3 := for_range 0 KEYSTATE_COUNT (notify_step cfg changes_layer) s2) in *. clearbody s3.
  cbn [set_prev_layer key_states key_press_count layer prev_layer hook_registered debounce mouse
       key_press_counter out].
  rewrite L1, L2, L4, L5, L8, L9 in *. rewrite (ki_layer _ Hinv) in N3.
  do 6 (split; [congruence || exact N4|]). split; [congruence|]. split.
  - by rewrite N6, L3.
  - exists b. split; [done|]. by rewrite N3, <- app_assoc.
Qed.

Lemma settle_mid k :
  mid_ok k ->
  settle_slot changes_layer k =
    if decide (p_key k <> NO_KEY /\ get_bit deb' (p_key k) = true)
    then mkKey (p_key k) true true (hidden k) else empty_key_state.
Proof.
  pose proof layer_below_no_key.
  intros [->|(Hp & Hk)]; [by rewrite decide_False by (intros []; done)|].
  unfold settle_slot. rewrite (proj2 (Z.eqb_neq (p_key k) NO_KEY)) by lia.
  destruct k as [pk ps st hd]. cbn [p_key prev_state state hidden] in *.
  destruct Hk as (-> & -> & Hor). destruct (get_bit deb' pk).
  - rewrite decide_True by (split; [lia|done]). by destruct changes_layer, (get_bit deb pk).
  - rewrite decide_False by (intros []; done). rewrite orb_false_r in Hor. rewrite Hor.
    by destruct changes_layer.
Qed.

Lemma settle_mid_ok k : mid_ok k -> slot_ok deb' (settle_slot changes_layer k).
Proof.
  intros Hk. rewrite settle_mid by done. pose proof layer_below_no_key.
  case_decide as Hd; [|by left]. right. destruct Hd as [Hne Hb].
  destruct Hk as [->|(Hp & _)]; [done|]. cbn. by split.
Qed.

(** The keys held after the update: those of the table that are down. *)
Lemma settled_held :
  held (map (settle_slot changes_layer) mid_table)
    = filter (fun k => get_bit deb' k = true) (held mid_table).
Proof.
  pose proof mid_all_ok as Hok. induction Hok as [|k l Hk Hok IH]; [done|].
  cbn [map]. rewrite !held_cons, IH, filter_app, settle_mid by done. f_equal.
  destruct (decide (occupied k)) as [Ho|Ho]; unfold occupied in Ho.
  - rewrite filter_cons, filter_nil. repeat case_decide; unfold occupied in *; cbn in *; tauto.
  - rewrite filter_nil. repeat case_decide; unfold occupied in *; cbn in *; tauto.
Qed.

(** ** The count of pressed keys *)

Lemma notifiable_count_app l1 l2 :
  notifiable_count (l1 ++ l2) = notifiable_count l1 + notifiable_count l2.
Proof. unfold notifiable_count. rewrite filter_app, length_app. lia. Qed.

Lemma notifiable_count_singleton p : notifiable_count [p] = Z.b2z (notifiable p).
Proof.
  unfold notifiable_count. rewrite filter_cons, filter_nil.
  by destruct (notifiable p); [rewrite decide_True|rewrite decide_False].
Qed.

Lemma sum_delta_mid l :
  Forall mid_ok l ->
  sum_delta l = notifiable_count (filter (fun k => get_bit deb' k = true) (held l))
                - notifiable_count (filter (fun k => get_bit deb k = true) (held l)).
Proof.
  induction 1 as [|k l Hk Hl IH]; [done|]. cbn [sum_delta fold_right]. fold (sum_delta l).
  rewrite held_cons, !filter_app, !notifiable_count_app, IH.
  unfold slot_delta. destruct Hk as [->|(Hp & Hpr & Hst & Hor)].
  { rewrite decide_False by (unfold occupied; cbn; tauto).
    rewrite !filter_nil. change (notifiable_count []) with 0. cbn [empty_key_state p_key].
    rewrite Z.eqb_refl. lia. }
  pose proof layer_below_no_key. rewrite (proj2 (Z.eqb_neq (p_key k) NO_KEY)) by lia.
  rewrite decide_True by (unfold occupied; lia). rewrite !filter_cons, !filter_nil, Hst, Hpr.
  change (notifiable_count []) with 0.
  destruct (get_bit deb (p_key k)), (get_bit deb' (p_key k)); cbn [Z.b2z];
    repeat ((rewrite decide_True by done) || (rewrite decide_False by done));
    rewrite ?notifiable_count_singleton; change (notifiable_count []) with 0;
    destruct (notifiable (p_key k)); cbn [Z.b2z]; lia.
Qed.

Lemma held_before_bits : filter (fun k => get_bit deb k = true) (held mid_table) ≡ₚ held (key_states s).
Proof.
  rewrite mid_held, filter_app.
  assert (Hn : filter (fun k => get_bit deb k = true)
            (take (KEYSTATE_COUNT - length (held (key_states s))) new_keys) = []).
  { apply filter_none, Forall_forall.
    intros k (i & Hk%list_elem_of_lookup_2 & _)%elem_of_take.
    apply new_key_bits in Hk as [Hk _]. unfold deb. congruence. }
  rewrite Hn. cbn [app]. rewrite filter_all; [done|].
  apply Forall_forall. intros k Hk. by apply held_bit.
Qed.

Lemma notifiable_count_Permutation l1 l2 : l1 ≡ₚ l2 -> notifiable_count l1 = notifiable_count l2.
Proof. unfold notifiable_count. by intros ->. Qed.

Lemma keystate_update_table : table_inv (keystate_update cfg matrix s).
Proof.
  destruct keystate_update_fields as (F1 & F2 & F3 & F4 & F5 & F6 & F7 & F8 & _).
  split.
  - by rewrite F1, length_map, mid_length.
  - rewrite F1, F6. apply Forall_map. eapply Forall_impl; [apply mid_all_ok|].
    intros k. apply settle_mid_ok.
  - rewrite F1, settled_held. apply NoDup_filter, mid_nodup.
  - congruence.
  - rewrite F2. apply u8_range.
  - rewrite F6. apply debounce_update_wf; [done|]. apply (ki_debounce _ Hinv).
  - done.
Qed.

Lemma keystate_update_count : count_ok s -> count_ok (keystate_update cfg matrix s).
Proof.
  destruct keystate_update_fields as (F1 & F2 & _). unfold count_ok. intros Hc.
  rewrite F1, settled_held, F2, sum_delta_mid by apply mid_all_ok.
  rewrite (notifiable_count_Permutation _ _ held_before_bits), Hc.
  rewrite u8_small; [lia|]. unfold is_u8, notifiable_count.
  pose proof (length_filter (fun k => notifiable k = true)
    (filter (fun k => get_bit deb' k = true) (held mid_table))).
  pose proof (length_filter (fun k => get_bit deb' k = true) (held mid_table)).
  pose proof (held_length_le mid_table). rewrite mid_length in *. lia.
Qed.

Lemma keystate_update_layer : config_layers_ok -> layer_id_ok (layer s) -> layer_id_ok (layer (keystate_update cfg matrix s)).
Proof.
  destruct keystate_update_fields as (F1 & F2 & F3 & _). intros Hc Hl. rewrite F3. apply layer_after_ok; [done| |done].
  eapply Forall_impl; [apply mid_all_ok|].
  intros k [->|(Hp & _)] Hne; [by cbn in Hne|done].
Qed.

(** The held keys after the update. *)
Lemma keystate_update_held :
  held (key_states (keystate_update cfg matrix s))
    ≡ₚ take (KEYSTATE_COUNT - length (held (key_states s))) new_keys
       ++ filter (fun k => get_bit deb' k = true) (held (key_states s)).
Proof.
  destruct keystate_update_fields as (F1 & _). rewrite F1, settled_held, mid_held, filter_app.
  rewrite filter_all; [done|]. apply Forall_forall.
  intros k (i & Hk%list_elem_of_lookup_2 & _)%elem_of_take. by apply new_key_bits in Hk as [_ Hk].
Qed.
End Update.

(** ** The change notifications *)









Section Replay.
Context (pl ll : layer_t) (Hpl : layer_id_ok pl) (Hll : layer_id_ok ll).

Let change : bool := negb (get_layer_id ll =? get_layer_id pl).








End Replay.

(** ** Reachable states *)

(** The static variables start at zero, then [keystate_init] runs. *)
Definition keystate_start : keystate :=
  keystate_init
    (mkKeystate (replicate KEYSTATE_COUNT (mkKey 0 false false false)) 0 0
       (mkLayer false false 0) (mkLayer false false 0) false debouncer_init
       (mkMouse 0 0 0 0 0 0 0) []).

Lemma keystate_start_table : table_inv keystate_start.
Proof.
  assert (Hslots : key_states keystate_start = replicate KEYSTATE_COUNT empty_key_state) by done.
  split; rewrite ?Hslots; try done.
  - apply Forall_replicate. by left.
  - constructor.
  - by eapply debouncer_init_wf.
Qed.

Lemma keystate_start_layer : layer_id_ok (layer keystate_start).
Proof. clear Hlen. unfold layer_id_ok. cbn. pose proof layers_2_3. lia. Qed.

Lemma hide_first_held pk l :
  held (hide_first pk l) = held l /\ length (hide_first pk l) = length l.
Proof.
  clear Hlen. induction l as [|k l [IH1 IH2]]; [done|]. cbn [hide_first]. case_if.
  - rewrite !held_cons. split; [|done]. f_equal.
  - rewrite !held_cons. cbn [length]. by rewrite IH1, IH2.
Qed.

Lemma hide_first_slots deb pk l :
  pk <> NO_KEY -> Forall (slot_ok deb) l -> Forall (slot_ok deb) (hide_first pk l).
Proof.
  clear Hlen. intros Hpk. induction 1 as [|k l Hk Hl IH]; [constructor|]. cbn [hide_first]. case_if.
  - constructor; [|done]. destruct Hk as [->|Hk]; [done|]. by right.
  - by constructor.
Qed.

Lemma keystate_hide_key_table k s : table_inv s -> table_inv (keystate_hide_key k s).
Proof.
  clear Hlen.   intros [H1 H2 H3 H4 H5 H6 H7]. unfold keystate_hide_key.
  pose proof (hide_first_held (k mod KEYPAD_LAYER_SIZE) (key_states s)) as [Hh Hl].
  pose proof layer_size_pos. pose proof layer_below_no_key.
  split; cbn; rewrite ?Hh, ?Hl; try assumption.
  apply hide_first_slots; [|done]. pose proof (Z.mod_pos_bound k KEYPAD_LAYER_SIZE). lia.
Qed.

(** The mouse report is about other fields. *)
Lemma keystate_mouse_fields r s :
  let s' := (keystate_Fill_MouseReport cfg s r).1 in
  key_states s' = key_states s /\ key_press_count s' = key_press_count s /\ key_press_counter s' = key_press_counter s /\
  prev_layer s' = prev_layer s /\ layer s' = layer s /\ debounce s' = debounce s.
Proof.
  unfold keystate_Fill_MouseReport.
  repeat first [case_if | destruct (mouse_slots _ _ _ _) | destruct (adjust_speed_and_report _ _ _)
               | case_match]; done.
Qed.

End Slots.

(** ** Reachable states

    The configuration a key state is updated with may change between two updates:
    a key is remapped, a layout loaded, the host writes the key map.  [valid] is what
    all configurations keep, [change] what a change keeps. *)
Section Reachable.
Context {H : Hardware}.

Section By.
Context (valid : config_view -> Prop) (change : config_view -> config_view -> keystate -> Prop).

Inductive reachable : config_view -> keystate -> Prop :=
  | reach_start cfg : valid cfg -> reachable cfg keystate_start
  | reach_config cfg cfg' s : reachable cfg s -> valid cfg' -> change cfg cfg' s -> reachable cfg' s
  | reach_update cfg matrix s : reachable cfg s -> reachable cfg (keystate_update cfg matrix s)
  | reach_hide cfg k s : reachable cfg s -> reachable cfg (keystate_hide_key k s)
  | reach_hook cfg b s : reachable cfg s -> reachable cfg (keystate_register_change_hook b s)
  | reach_mouse cfg r s : reachable cfg s -> reachable cfg (keystate_Fill_MouseReport cfg s r).1.

Lemma reachable_valid cfg s : reachable cfg s -> valid cfg.
Proof. by induction 1. Qed.
End By.

Definition debounce_ok (cfg : config_view) : Prop := (1 <= debounce_len cfg <= MAX_DEBOUNCE_LEN)%nat.
Definition layers_too (cfg : config_view) : Prop := debounce_ok cfg /\ config_layers_ok cfg.

(** The layer key that a physical key is, if it is one. *)
Definition key_role (cfg : config_view) (p : Z) : option Z :=
  let h_key := config_get_definition cfg p in if SPECIAL_HID_KEY_NOREMAP h_key then Some h_key else None.

(** Any change; a change that leaves alone which of the held keys are layer keys. *)
Definition any_change (cfg cfg' : config_view) (s : keystate) : Prop := True.
Definition roles_kept (cfg cfg' : config_view) (s : keystate) : Prop :=
  forall p, p ∈ held (key_states s) -> key_role cfg' p = key_role cfg p.

Lemma notifiable_role cfg cfg' p : key_role cfg' p = key_role cfg p -> notifiable cfg' p = notifiable cfg p.
Proof.
  unfold key_role, notifiable, is_hid_key_to_notify_about, SPECIAL_HID_KEY_NOREMAP.
  set (h := config_get_definition cfg p). set (h' := config_get_definition cfg' p). clearbody h h'.
  do 2 case_if; intros E; simplify_eq; try done; lia.
Qed.

Context `{!HardwareOk H} (valid : config_view -> Prop) (Hvalid : forall cfg, valid cfg -> debounce_ok cfg).

Lemma reachable_table change cfg s : reachable valid change cfg s -> table_inv s.
Proof.
  induction 1 as [cfg Hc|cfg cfg' s Hr IH|cfg m s Hr IH|cfg k s Hr IH|cfg b s Hr IH|cfg r s Hr IH].
  - by apply (keystate_start_table cfg), Hvalid.
  - done.
  - apply keystate_update_table; [|done]. by eapply Hvalid, reachable_valid.
  - by apply keystate_hide_key_table.
  - by destruct IH; split.
  - destruct (keystate_mouse_fields cfg r s) as (E1 & E2 & E3 & E4 & E5 & E6).
    destruct IH; split; rewrite ?E1, ?E2, ?E3, ?E4, ?E5, ?E6; done.
Qed.

Lemma notifiable_length cfg cfg' l :
  (forall p, p ∈ l -> notifiable cfg' p = notifiable cfg p) ->
  Z.of_nat (length (filter (fun k => notifiable cfg k = true) l)) = Z.of_nat (length (filter (fun k => notifiable cfg' k = true) l)).
Proof.
  intros Hl. f_equal. induction l as [|p l IH]; [done|]. rewrite !filter_cons, (Hl p) by (by left).
  assert (IH' := IH (fun q Hq => Hl q (list_elem_of_further _ _ _ Hq))). case_decide; cbn; congruence.
Qed.

Lemma reachable_count cfg s : reachable valid roles_kept cfg s -> count_ok cfg s.
Proof.
  induction 1 as [cfg Hc|cfg cfg' s Hr IH Hv Hch|cfg m s Hr IH|cfg k s Hr IH|cfg b s Hr IH|cfg r s Hr IH].
  - done.
  - unfold count_ok, notifiable_count in *. rewrite IH. apply notifiable_length. intros p Hp. by apply notifiable_role, Hch.
  - apply keystate_update_count; [|by eapply reachable_table|done]. by eapply Hvalid, reachable_valid.
  - unfold count_ok in *. cbn. by rewrite (proj1 (hide_first_held _ _)).
  - done.
  - unfold count_ok in *. destruct (keystate_mouse_fields cfg r s) as (E1 & E2 & _). by rewrite E1, E2.
Qed.

Lemma reachable_layer change cfg s :
  (forall cfg, valid cfg -> config_layers_ok cfg) -> reachable valid change cfg s -> layer_id_ok (layer s).
Proof.
  intros Hl. induction 1 as [cfg Hc|cfg cfg' s Hr IH Hv Hch|cfg m s Hr IH|cfg k s Hr IH|cfg b s Hr IH|cfg r s Hr IH]; try done.
  - apply keystate_start_layer.
  - apply keystate_update_layer; [|by eapply reachable_table| |done]; [eapply Hvalid|eapply Hl]; by eapply reachable_valid.
  - destruct (keystate_mouse_fields cfg r s) as (_ & _ & _ & _ & E & _). by rewrite E.
Qed.
End Reachable.

(** ** The properties *)

(** C2: The table of pressed keys, in every state the firmware can reach by matrix scans, by hiding
    keys, by registering hooks and by filling mouse reports, while the configuration changes between
    these in any way: no physical key is in two slots, and a slot is empty or holds a key that is
    debounced as pressed. As long as no change of the configuration makes a held key a layer key, or a
    layer key another one, [key_press_count] is the number of held keys that are notified
    about. (Without that it is not: [press_count_drifts].) *)
Theorem keystate_reachable_ok {H : Hardware} (Hok : HardwareOk H) (cfg : config_view) (s : keystate) :
  (reachable debounce_ok any_change cfg s ->
   length (key_states s) = KEYSTATE_COUNT /\
   NoDup (held (key_states s)) /\
   Forall (slot_ok (debounced_bitfield (debounce s))) (key_states s) /\
   prev_layer s = layer s) /\
  (reachable debounce_ok roles_kept cfg s ->
   key_press_count s = notifiable_count cfg (held (key_states s))).
Proof.
  split.
  - intros Hr. destruct (reachable_table debounce_ok (fun _ Hc => Hc) any_change cfg s Hr). auto.
  - exact (reachable_count debounce_ok (fun _ Hc => Hc) cfg s).
Qed.

(** A board where physical key [k] is read as pressed when [pressed k]. *)
Definition press_matrix {H : Hardware} (pressed : Z -> bool) (r c : nat) : bool :=
  pressed (matrix_key r c).

Definition k84_config : config_view :=
  mkConfigView (fun k => default_layout !!! Z.to_nat k) 1 false 2 2.

Definition k84_scan (ks : list Z) : nat -> nat -> bool :=
  press_matrix (fun k => bool_decide (k ∈ ks)).

Definition k84_run (scans : list (list Z)) : keystate :=
  fold_left (fun s ks => keystate_update k84_config (k84_scan ks) s) scans keystate_start.

Lemma k84_valid : layers_too k84_config.
Proof. split; [vm_compute; lia|]. intros k Hk _. reflexivity. Qed.

(** Scans under one configuration. *)
Lemma reachable_scans valid change cfg s scans : reachable valid change cfg s ->
  reachable valid change cfg (fold_left (fun s ks => keystate_update cfg (k84_scan ks) s) scans s).
Proof. revert s. induction scans as [|ks scans IH]; intros s Hs; [done|]. cbn. apply IH. by constructor. Qed.

Lemma k84_reachable (valid : config_view -> Prop) change scans : valid k84_config -> reachable valid change k84_config (k84_run scans).
Proof. intros Hv. apply reachable_scans. by constructor. Qed.

(** The layout with one key changed. *)
Definition k84_remapped (p h_key : Z) : config_view :=
  mkConfigView (fun k => if k =? p then h_key else default_layout !!! Z.to_nat k) 1 false 2 2.

(** A is remapped to B while it is held. *)
Lemma keystate_reachable_ok_witness :
  let s := keystate_update (k84_remapped 8 HID_KEYBOARD_SC_B) (k84_scan [8; 9]) (k84_run [[logical_key_code LOGICAL_KEY_A]]) in
  held (key_states s) = [8; 9] /\
  key_press_count s = notifiable_count (k84_remapped 8 HID_KEYBOARD_SC_B) (held (key_states s)).
Proof.
  cbv zeta. split; [vm_compute; reflexivity|].
  apply (keystate_reachable_ok K84cs_hardware_ok).
  apply reach_update, (reach_config _ _ k84_config); [apply k84_reachable, k84_valid|vm_compute; lia|].
  intros p Hp. assert (p = 8) as -> by (change (p ∈ [8]) in Hp; set_solver). vm_compute. reflexivity.
Defined.

(** A held key that becomes a layer key is not counted down when it is released: no key is down, and the count
    that every command waits for to be zero is one. *)
Example press_count_drifts :
  let s := keystate_update (k84_remapped 8 SPECIAL_HID_KEY_KEYPAD_SHIFT) (k84_scan []) (k84_run [[8]]) in
  reachable debounce_ok any_change (k84_remapped 8 SPECIAL_HID_KEY_KEYPAD_SHIFT) s /\
  held (key_states s) = [] /\ key_press_count s = 1.
Proof.
  cbv zeta. split; [|split; vm_compute; reflexivity].
  apply reach_update, (reach_config _ _ k84_config); [apply k84_reachable, k84_valid|vm_compute; lia|done].
Qed.

(** C1: One update of a well-formed table: the keys held afterwards are the held keys that are
    still debounced as pressed, and the newly debounced keys, in the order of their codes, as
    far as the 14 slots reach (slots of keys released in the same update are not yet free). *)
Theorem keystate_update_tracks_keys {H : Hardware} (Hok : HardwareOk H) (cfg : config_view)
    (matrix : nat -> nat -> bool) (s : keystate) :
  (1 <= debounce_len cfg <= MAX_DEBOUNCE_LEN)%nat ->
  keystate_inv cfg s ->
  let d' := debounce_update cfg matrix (debounce s) in
  let new_keys := filter (fun k => get_bit (debounced_on_bitfield d') k = true)
                    (seqZ 0 (Z.of_nat (BITFIELD_WORDS * 8))) in
  debounce (keystate_update cfg matrix s) = d' /\
  held (key_states (keystate_update cfg matrix s))
    ≡ₚ take (KEYSTATE_COUNT - length (held (key_states s))) new_keys
       ++ filter (fun k => get_bit (debounced_bitfield d') k = true) (held (key_states s)) /\
  keystate_inv cfg (keystate_update cfg matrix s).
Proof.
  intros Hlen [Ht Hc Hl]. cbv zeta. split_and!.
  - by destruct (keystate_update_fields cfg matrix s Ht) as (_ & _ & _ & _ & _ & F & _).
  - by apply keystate_update_held.
  - split; [by apply keystate_update_table|by apply keystate_update_count|]. intros Hc'. apply keystate_update_layer; auto.
Qed.

Lemma keystate_update_tracks_keys_witness :
  held (key_states (keystate_update k84_config (k84_scan [9; 20]) (k84_run [[8; 9]]))) = [9; 20] /\
  keystate_inv k84_config (keystate_update k84_config (k84_scan [9; 20]) (k84_run [[8; 9]])).
Proof.
  split; [vm_compute; reflexivity|].
  apply (keystate_update_tracks_keys K84cs_hardware_ok k84_config (k84_scan [9; 20]) (k84_run [[8; 9]])).
  - vm_compute. lia.
  - assert (Hv := fun cfg (Hc : layers_too cfg) => proj1 Hc). pose proof (k84_reachable layers_too roles_kept [[8; 9]] k84_valid) as Hr.
    split; [by eapply reachable_table|by eapply reachable_count|]. intros _. by eapply reachable_layer; [exact Hv|intros cfg []|].
Defined.


