(* ===== verification/Layers.v ===== *)
(** * keystate.c: the layer machine cannot get stuck

    A layer other than the normal one is active only while it is locked or while
    a key that shifts to it is held; the base layer is forced only while a
    macro or program key is held. *)

From S2P Require Import Prelude Hid Hardware K84cs Keystate KeystateReports Debounce KeystateProofs.

Section Layers.
Context {H : Hardware} `{!HardwareOk H} (cfg : config_view).
Context (Hlen : (1 <= debounce_len cfg <= MAX_DEBOUNCE_LEN)%nat).

(** The layer a key shifts to. *)
Definition shift_layer (h_key : Z) : option Z :=
  if h_key =? SPECIAL_HID_KEY_KEYPAD_SHIFT then Some 1
  else if h_key =? SPECIAL_HID_KEY_FUNCTION_SHIFT then Some 2 else None.

Definition forces_base (h_key : Z) : bool :=
  (h_key =? SPECIAL_HID_KEY_MACRO_SHIFT) || (h_key =? SPECIAL_HID_KEY_PROGRAM).

Definition def (k : key_state) : Z := config_get_definition cfg (p_key k).

(** [sup k] says that slot [k] may support the active layer. *)
Record layer_supported (sup : key_state -> Prop) (ll : layer_t) : Prop := {
  sup_shift : lock ll = false -> id ll <> 0 ->
    exists k, sup k /\ shift_layer (def k) = Some (id ll);
  sup_base : base ll = true -> exists k, sup k /\ forces_base (def k) = true
}.

Lemma shift_layer_noremap h i : shift_layer h = Some i -> SPECIAL_HID_KEY_NOREMAP h = true.
Proof.
  unfold shift_layer, SPECIAL_HID_KEY_NOREMAP. repeat case_if; try done; by subst.
Qed.

Lemma forces_base_noremap h : forces_base h = true -> SPECIAL_HID_KEY_NOREMAP h = true.
Proof.
  unfold forces_base, SPECIAL_HID_KEY_NOREMAP. intros Hor%orb_true_iff.
  destruct Hor as [Hh|Hh]; apply Z.eqb_eq in Hh; by subst.
Qed.

(** One changed key: what supported the layer before the key's change, the key
    excepted, and the key itself when it was pressed. *)
Lemma next_layer_supported (sup sup' : key_state -> Prop) k ll :
  (forall k', sup k' -> sup' k' \/ (k' = k /\ state k = false)) ->
  (state k = true -> sup' k) ->
  layer_supported sup ll ->
  layer_supported sup' (next_layer ll (def k) (state k)).
Proof.
  intros Hsup Hk [Hs Hb].
  assert (Hkeep_s : (state k = false -> shift_layer (def k) = None) ->
    lock ll = false -> id ll <> 0 -> exists k, sup' k /\ shift_layer (def k) = Some (id ll)).
  { intros Hnone Hl Hi. destruct (Hs Hl Hi) as (k' & Hk' & Hsl).
    destruct (Hsup k' Hk') as [|[-> Hst]]; [by exists k'|]. by rewrite Hnone in Hsl. }
  assert (Hkeep_b : (state k = false -> forces_base (def k) = false) ->
    base ll = true -> exists k, sup' k /\ forces_base (def k) = true).
  { intros Hnone Hl. destruct (Hb Hl) as (k' & Hk' & Hfb).
    destruct (Hsup k' Hk') as [|[-> Hst]]; [by exists k'|]. by rewrite Hnone in Hfb. }
  unfold next_layer.
  destruct (Z.eqb_spec (def k) SPECIAL_HID_KEY_LAYER_LOCK) as [He|].
  { assert (Hno : shift_layer (def k) = None /\ forces_base (def k) = false) by (by rewrite He).
    destruct Hno as [Hno1 Hno2]. repeat case_if; split; cbn; auto; congruence. }
  destruct (Z.eqb_spec (def k) SPECIAL_HID_KEY_KEYPAD_SHIFT) as [He|].
  { assert (Hno : shift_layer (def k) = Some 1 /\ forces_base (def k) = false) by (by rewrite He).
    destruct Hno as [Hno1 Hno2]. repeat case_if; split; cbn; auto; try congruence.
    intros _ _. exists k. auto. }
  destruct (Z.eqb_spec (def k) SPECIAL_HID_KEY_FUNCTION_SHIFT) as [He|].
  { assert (Hno : shift_layer (def k) = Some 2 /\ forces_base (def k) = false) by (by rewrite He).
    destruct Hno as [Hno1 Hno2]. repeat case_if; split; cbn; auto; try congruence.
    intros _ _. exists k. auto. }
  assert (Hno1 : shift_layer (def k) = None).
  { unfold shift_layer. by rewrite !(proj2 (Z.eqb_neq _ _)) by done. }
  destruct ((def k =? SPECIAL_HID_KEY_MACRO_SHIFT) || (def k =? SPECIAL_HID_KEY_PROGRAM)) eqn:He;
    split; cbn; auto.
  intros Hst. exists k. auto.
Qed.

(** The layer pass over a table: keys not yet visited may still support the layer. *)
Lemma layer_after_supported l (done_ : list key_state) ll :
  Forall (fun k => p_key k <> NO_KEY /\ state k = false -> prev_state k = true) l ->
  layer_supported (fun k => (k ∈ done_ /\ p_key k <> NO_KEY /\ state k = true) \/
                            (k ∈ l /\ p_key k <> NO_KEY /\ (state k = true \/ prev_state k = true))) ll ->
  layer_supported (fun k => k ∈ done_ ++ l /\ p_key k <> NO_KEY /\ state k = true)
    (layer_after cfg l ll).
Proof.
  revert done_ ll. induction l as [|k l IH]; intros done_ ll Hl Hsup.
  { rewrite app_nil_r. destruct Hsup as [Hs Hb]. split.
    - intros H1 H2. destruct (Hs H1 H2) as (k & [Hk|[Hk _]] & ?);
        [by exists k|by apply elem_of_nil in Hk].
    - intros H1. destruct (Hb H1) as (k & [Hk|[Hk _]] & ?);
        [by exists k|by apply elem_of_nil in Hk]. }
  apply Forall_cons in Hl as [Hlk Hl]. cbn [layer_after fold_left].
  replace (done_ ++ k :: l) with ((done_ ++ [k]) ++ l) by (by rewrite <- app_assoc).
  apply IH; [done|].
  set (sup := fun k' => _ \/ _) in Hsup.
  set (sup' := fun k0 => (k0 ∈ done_ ++ [k] /\ _) \/ _).
  assert (Hmove : forall k', sup k' -> sup' k' \/ (k' = k /\ state k = false)).
  { intros k' [(Hd & Hne & Hst)|(Hin & Hne & Hor)].
    - left. left. split_and!; [|done|done]. apply elem_of_app. by left.
    - apply elem_of_cons in Hin as [->|Hin]; [|left; right; auto].
      destruct (state k) eqn:Hst; [|by right]. left. left.
      split_and!; [|done|done]. apply elem_of_app. right. by left. }
  unfold layer_key_changed. fold (def k).
  destruct (Z.eqb_spec (p_key k) NO_KEY) as [He|Hne]; cbn [negb andb].
  { destruct Hsup as [Hs Hb]. split.
    - intros H1 H2. destruct (Hs H1 H2) as (k' & Hk' & Hx). exists k'. split; [|done].
      destruct (Hmove k' Hk') as [|[-> _]]; [done|]. by destruct Hk' as [(_ & ? & _)|(_ & ? & _)].
    - intros H1. destruct (Hb H1) as (k' & Hk' & Hx). exists k'. split; [|done].
      destruct (Hmove k' Hk') as [|[-> _]]; [done|]. by destruct Hk' as [(_ & ? & _)|(_ & ? & _)]. }
  destruct (SPECIAL_HID_KEY_NOREMAP (def k) && negb (eqb (state k) (prev_state k))) eqn:Hch.
  - apply (next_layer_supported sup); [done| |done].
    intros Hst. left. split_and!; [|done|done]. apply elem_of_app. right. by left.
  - (* not a layer key, or unchanged *)
    assert (Hfix : forall k', sup k' -> SPECIAL_HID_KEY_NOREMAP (def k') = true -> sup' k').
    { intros k' Hk' Hnr. destruct (Hmove k' Hk') as [|[-> Hst]]; [done|].
      rewrite Hnr, Hst in Hch. cbn in Hch. rewrite Hlk in Hch by done. done. }
    destruct Hsup as [Hs Hb]. split.
    + intros H1 H2. destruct (Hs H1 H2) as (k' & Hk' & Hx). exists k'. split; [|done].
      apply Hfix; [done|]. by eapply shift_layer_noremap.
    + intros H1. destruct (Hb H1) as (k' & Hk' & Hx). exists k'. split; [|done].
      apply Hfix; [done|]. by apply forces_base_noremap.
Qed.

(** The layer of a state is supported by its held keys. *)
Definition layer_ok (s : keystate) : Prop :=
  layer_supported (fun k => k ∈ key_states s /\ p_key k <> NO_KEY) (layer s).

Lemma layer_supported_impl (sup sup' : key_state -> Prop) ll :
  (forall k, sup k -> exists k', sup' k' /\ p_key k' = p_key k) ->
  layer_supported sup ll -> layer_supported sup' ll.
Proof.
  intros Himp [Hs Hb]. split.
  - intros H1 H2. destruct (Hs H1 H2) as (k & Hk & Hx). destruct (Himp k Hk) as (k' & Hk' & Hp).
    exists k'. unfold def in *. by rewrite Hp.
  - intros H1. destruct (Hb H1) as (k & Hk & Hx). destruct (Himp k Hk) as (k' & Hk' & Hp).
    exists k'. unfold def in *. by rewrite Hp.
Qed.

Lemma held_supports (l l' : list key_state) k :
  (forall p, p ∈ held l -> p ∈ held l') -> k ∈ l -> p_key k <> NO_KEY ->
  exists k', (k' ∈ l' /\ p_key k' <> NO_KEY) /\ p_key k' = p_key k.
Proof.
  intros Hsub Hk Hne. assert (Hh : p_key k ∈ held l) by (apply elem_of_held; eauto).
  apply Hsub, elem_of_held in Hh as (k' & Hk' & Hp & Hne'). exists k'. by rewrite Hp.
Qed.

Lemma update_layer_ok matrix s :
  table_inv s -> layer_ok s -> layer_ok (keystate_update cfg matrix s).
Proof.
  intros Hinv Hs. destruct (keystate_update_fields cfg matrix s Hinv) as (F1 & _ & F3 & _).
  pose proof (mid_all_ok cfg Hlen matrix s Hinv) as Hmid. rewrite Forall_forall in Hmid.
  unfold layer_ok. rewrite F1, F3.
  apply layer_supported_impl with
    (sup := fun k => k ∈ [] ++ mid_table cfg matrix s /\ p_key k <> NO_KEY /\ state k = true).
  { cbn [app]. intros k (Hk & Hne & Hst). exists (settle_slot (changes_layer cfg matrix s) k).
    rewrite (settle_mid cfg Hlen matrix s k) by (by apply Hmid).
    destruct (Hmid k Hk) as [->|(_ & _ & Hb & _)]; [done|].
    rewrite decide_True by (split; congruence). split; [|done]. split; [|done].
    apply list_elem_of_fmap. exists k. split; [|done].
    rewrite (settle_mid cfg Hlen matrix s k) by (by apply Hmid).
    by rewrite decide_True by (split; congruence). }
  apply layer_after_supported.
  { apply Forall_forall. intros k Hk [Hne Hst].
    destruct (Hmid k Hk) as [->|(_ & _ & _ & Hor)]; [done|]. by rewrite Hst, orb_false_r in Hor. }
  apply layer_supported_impl with (sup := fun k => k ∈ key_states s /\ p_key k <> NO_KEY); [|done].
  intros k [Hk Hne].
  destruct (held_supports (key_states s) (mid_table cfg matrix s) k) as (k' & [Hk' Hne'] & Hp);
    [|done|done|].
  { intros p Hp. rewrite (mid_held cfg Hlen matrix s Hinv). apply elem_of_app. by right. }
  exists k'. split; [|done]. right. split_and!; [done|done|].
  destruct (Hmid k' Hk') as [->|(_ & _ & _ & Hor)]; [done|].
  apply orb_true_iff in Hor. tauto.
Qed.

End Layers.

(** The roles of keys decide what they support. *)
Lemma role_shift cfg cfg' p : key_role cfg' p = key_role cfg p ->
  shift_layer (config_get_definition cfg' p) = shift_layer (config_get_definition cfg p) /\
  forces_base (config_get_definition cfg' p) = forces_base (config_get_definition cfg p).
Proof.
  unfold key_role. set (h := config_get_definition cfg p). set (h' := config_get_definition cfg' p). clearbody h h'.
  destruct (SPECIAL_HID_KEY_NOREMAP h) eqn:E, (SPECIAL_HID_KEY_NOREMAP h') eqn:E'; intros Heq; simplify_eq; [done|].
  assert (Hno : forall x, SPECIAL_HID_KEY_NOREMAP x = false -> shift_layer x = None /\ forces_base x = false).
  { intros x Hx. split; [destruct (shift_layer x) eqn:Hs; [|done]|destruct (forces_base x) eqn:Hs; [|done]].
    - apply shift_layer_noremap in Hs. congruence.
    - apply forces_base_noremap in Hs. congruence. }
  destruct (Hno h E) as [-> ->], (Hno h' E') as [-> ->]. done.
Qed.

Lemma reachable_layer_ok {H : Hardware} `{!HardwareOk H} cfg s : reachable debounce_ok roles_kept cfg s -> layer_ok cfg s.
Proof.
  induction 1 as [cfg Hc|cfg cfg' s Hr IH Hv Hch|cfg matrix s Hr IH|cfg k s Hr IH|cfg b s Hr IH|cfg r s Hr IH].
  - split; cbn; done.
  - assert (Hkept : forall k, k ∈ key_states s -> p_key k <> NO_KEY -> key_role cfg' (p_key k) = key_role cfg (p_key k)).
    { intros k Hk Hne. apply Hch, elem_of_held. by exists k. }
    destruct IH as [Hs Hb]. split.
    + intros H1 H2. destruct (Hs H1 H2) as (k & [Hk Hne] & Hx). exists k. split; [done|].
      rewrite <- Hx. by apply role_shift, Hkept.
    + intros H1. destruct (Hb H1) as (k & [Hk Hne] & Hx). exists k. split; [done|].
      rewrite <- Hx. by apply role_shift, Hkept.
  - apply update_layer_ok; [exact (reachable_valid _ _ _ _ Hr)|exact (reachable_table debounce_ok (fun _ Hc => Hc) _ _ _ Hr)|done].
  - unfold layer_ok. cbn. eapply layer_supported_impl; [|exact IH]. intros k' [Hk' Hne].
    apply (held_supports (key_states s)); [|done..].
    intros p Hp. by rewrite (proj1 (hide_first_held _ _)).
  - done.
  - destruct (keystate_mouse_fields cfg r s) as (E1 & _ & _ & _ & E5 & _). unfold layer_ok. by rewrite E1, E5.
Qed.

(** ** The property *)

(** C29: The layer machine does not get stuck. In every state reached without a change of the
    configuration that makes a held key a layer key, or a layer key another one, a layer other than the
    normal one is locked or some held key shifts to exactly that layer, and the base layer is
    forced only while a macro or program key is held; so with no key held and no lock the
    normal layer is active. (A layer key that is redefined while it is held
    does leave its layer behind: [layer_left_behind].) *)
Theorem layer_not_stuck {H : Hardware} (Hok : HardwareOk H) (cfg : config_view) (s : keystate) :
  reachable debounce_ok roles_kept cfg s ->
  (lock (layer s) = false -> id (layer s) <> 0 ->
     exists p, p ∈ held (key_states s) /\
       shift_layer (config_get_definition cfg p) = Some (id (layer s))) /\
  (base (layer s) = true ->
     exists p, p ∈ held (key_states s) /\ forces_base (config_get_definition cfg p) = true).
Proof.
  intros Hr. destruct (reachable_layer_ok cfg s Hr) as [Hs Hb]. split.
  - intros H1 H2. destruct (Hs H1 H2) as (k & [Hk Hne] & Hx). exists (p_key k).
    split; [|done]. apply elem_of_held. by exists k.
  - intros H1. destruct (Hb H1) as (k & [Hk Hne] & Hx). exists (p_key k).
    split; [|done]. apply elem_of_held. by exists k.
Qed.

Lemma layer_not_stuck_witness :
  layer (k84_run [[2]; [2; 8]]) = mkLayer false false 1 /\
  layer (k84_run [[2]; [2; 8]; [8]]) = mkLayer false false 0 /\
  exists p, p ∈ held (key_states (k84_run [[2]; [2; 8]])) /\
       shift_layer (config_get_definition k84_config p) = Some 1.
Proof.
  split; [vm_compute; reflexivity|]. split; [vm_compute; reflexivity|].
  apply (layer_not_stuck K84cs_hardware_ok k84_config (k84_run [[2]; [2; 8]])).
  - apply k84_reachable. vm_compute. lia.
  - vm_compute. reflexivity.
  - vm_compute. discriminate.
Defined.

(** The keypad shift is remapped to A while it is held, by a layout that is loaded or by the host: the keypad
    layer stays when no key is down. *)
Example layer_left_behind :
  let s := keystate_update (k84_remapped 2 HID_KEYBOARD_SC_A) (k84_scan []) (k84_run [[2]]) in
  reachable debounce_ok any_change (k84_remapped 2 HID_KEYBOARD_SC_A) s /\
  held (key_states s) = [] /\ layer s = mkLayer false false 1.
Proof.
  cbv zeta. split; [|split; vm_compute; reflexivity].
  apply reach_update, (reach_config _ _ k84_config); [apply k84_reachable; vm_compute; lia|vm_compute; lia|done].
Qed.
