(* ===== verification/ReportProofs.v ===== *)
(** * keystate.c: key checks and reports

    What the key checks, the keyboard report and the mouse report of
    src/keystate.c say about the held keys. *)

From S2P Require Import Prelude Hid Hardware K84cs Keystate KeystateReports Debounce KeystateProofs.

(** ** The keyboard report *)

Section KeyboardReport.
Context {H : Hardware} (cfg : config_view).

Definition active (k : key_state) : bool := state k && negb (hidden k).

(** HID codes of the keys that are down and not hidden, in slot order. *)
Definition active_codes (ll : layer_t) (l : list key_state) : list Z :=
  (fun k => extract_keycode cfg ll k HID) <$> filter (fun k => active k = true) l.

Lemma active_codes_cons ll k l :
  active_codes ll (k :: l) =
    if active k then extract_keycode cfg ll k HID :: active_codes ll l else active_codes ll l.
Proof.
  unfold active_codes. rewrite filter_cons. destruct (active k) eqn:Ha.
  - by rewrite decide_True.
  - by rewrite decide_False by congruence.
Qed.

Definition ordinary (h : Z) : Prop := h < HID_KEYBOARD_SC_LEFT_CONTROL.

#[global] Instance ordinary_dec h : Decision (ordinary h).
Proof. unfold ordinary. apply _. Defined.

(** A further key after six ordinary ones. *)
Definition overflow (hs : list Z) : Prop :=
  exists pre h post, hs = pre ++ h :: post /\
    length (filter ordinary pre) = KEYBOARDREPORT_KEY_COUNT.

Fixpoint overflow_from (used : nat) (hs : list Z) : bool :=
  match hs with
  | [] => false
  | h :: hs =>
      if (used =? KEYBOARDREPORT_KEY_COUNT)%nat then true
      else overflow_from (if bool_decide (ordinary h) then S used else used) hs
  end.

Lemma overflow_from_spec used hs :
  (used <= KEYBOARDREPORT_KEY_COUNT)%nat ->
  overflow_from used hs = true <->
  exists pre h post, hs = pre ++ h :: post /\
    (used + length (filter ordinary pre))%nat = KEYBOARDREPORT_KEY_COUNT.
Proof.
  revert used. induction hs as [|h hs IH]; intros used Hu; cbn [overflow_from].
  { split; [done|]. by intros ([] & h & post & Hx & _). }
  destruct (Nat.eqb_spec used 6) as [->|Hne].
  { split; [|done]. intros _. exists [], h, hs. rewrite filter_nil. done. }
  rewrite IH by (case_if; lia). split.
  - intros (pre & x & post & -> & Hl). exists (h :: pre), x, post. split; [done|].
    rewrite filter_cons. case_bool_decide; [rewrite decide_True by done|rewrite decide_False by done];
      cbn [length]; lia.
  - intros ([|h' pre] & x & post & Heq & Hl).
    + rewrite filter_nil in Hl. cbn in Hl. lia.
    + injection Heq as <- ->. exists pre, x, post. split; [done|]. rewrite filter_cons in Hl.
      case_bool_decide; [rewrite decide_True in Hl by done|rewrite decide_False in Hl by done];
        cbn [length] in Hl; lia.
Qed.

Definition modifier_bit (r : KeyboardReport_Data_t) (i : Z) : bool := Z.testbit (Modifier r) i.

(** The loop over the slots, started with the ordinary keys [ks] in the report. *)
Lemma fill_keys_spec ll l ks rollover r :
  (length ks <= KEYBOARDREPORT_KEY_COUNT)%nat ->
  KeyCode r = ks ++ replicate (KEYBOARDREPORT_KEY_COUNT - length ks) 0 ->
  let hs := active_codes ll l in
  let '(ro, r') := fill_keys cfg ll l (length ks) rollover r in
  length (KeyCode r') = KEYBOARDREPORT_KEY_COUNT /\
  if overflow_from (length ks) hs then ro = true
  else
    ro = rollover || existsb (fun h => h =? SPECIAL_HID_KEY_PROGRAM) hs /\
    (length (ks ++ filter ordinary hs) <= KEYBOARDREPORT_KEY_COUNT)%nat /\
    KeyCode r' = (ks ++ filter ordinary hs) ++
      replicate (KEYBOARDREPORT_KEY_COUNT - length (ks ++ filter ordinary hs)) 0 /\
    forall i, 0 <= i < 8 -> modifier_bit r' i =
      modifier_bit r i || existsb (fun h => h =? HID_KEYBOARD_SC_LEFT_CONTROL + i) hs.
Proof.
  revert ks rollover r. induction l as [|k l IH]; intros ks rollover r Hks Hr; cbn [fill_keys].
  { unfold active_codes. rewrite filter_nil. cbn [fmap list_fmap overflow_from existsb].
    rewrite filter_nil, app_nil_r, orb_false_r. split.
    { rewrite Hr, length_app, length_replicate. lia. }
    split_and!; try done. intros i _. by rewrite orb_false_r. }
  cbv zeta in IH |- *. rewrite active_codes_cons. unfold active.
  destruct (state k && negb (hidden k)); [|by apply IH].
  set (h := extract_keycode cfg ll k HID). cbn [overflow_from existsb].
  destruct (Nat.eqb_spec (length ks) 6) as [He|Hne].
  { split; [|done]. rewrite Hr, length_app, length_replicate. lia. }
  rewrite filter_cons.
  destruct (Z.geb_spec h SPECIAL_HID_KEYS_START) as [Hs|Hs].
  { rewrite bool_decide_eq_false_2, decide_False by (unfold ordinary; lia).
    specialize (IH ks (if h =? SPECIAL_HID_KEY_PROGRAM then true else rollover) r Hks Hr).
    destruct (fill_keys _ _ _ _ _ _) as [ro r']. destruct IH as [IHl IH]. split; [done|].
    destruct (overflow_from _ _); [done|]. destruct IH as (-> & IH2 & IH3 & IH4). split_and!; try done.
    - destruct (h =? _), rollover; cbn; by rewrite ?orb_true_r.
    - intros i Hi. rewrite IH4 by done. by rewrite (proj2 (Z.eqb_neq h _)) by lia. }
  assert (Hnp : (h =? SPECIAL_HID_KEY_PROGRAM) = false) by (apply Z.eqb_neq; lia).
  rewrite Hnp. destruct (Z.geb_spec h HID_KEYBOARD_SC_LEFT_CONTROL) as [Hm|Hm].
  { rewrite bool_decide_eq_false_2, decide_False by (unfold ordinary; lia).
    specialize (IH ks rollover
      (mkKeyboardReport (u8 (Z.lor (Modifier r) (modifier_mask h))) (Reserved r) (KeyCode r)) Hks Hr).
    destruct (fill_keys _ _ _ _ _ _) as [ro r']. destruct IH as [IHl IH]. split; [done|].
    destruct (overflow_from _ _); [done|]. destruct IH as (-> & IH2 & IH3 & IH4). split_and!; try done.
    intros i Hi. rewrite IH4 by done. unfold modifier_bit. cbn [Modifier].
    unfold u8. change 256 with (2 ^ 8). rewrite Z.mod_pow2_bits_low by lia.
    rewrite Z.lor_spec, modifier_mask_spec by lia.
    rewrite <- orb_assoc. f_equal. f_equal.
    destruct (Z.eqb_spec i (h - 0xE0)), (Z.eqb_spec h (0xE0 + i)); try done; lia. }
  rewrite bool_decide_eq_true_2, decide_True by done.
  specialize (IH (ks ++ [h]) rollover
    (mkKeyboardReport (Modifier r) (Reserved r) (<[length ks := h]> (KeyCode r)))).
  rewrite length_app in IH. cbn [length] in IH. rewrite Nat.add_1_r in IH.
  assert (Hcodes : <[length ks := h]> (KeyCode r) = (ks ++ [h]) ++ replicate (6 - S (length ks)) 0).
  { rewrite Hr, insert_app_r_alt, Nat.sub_diag by lia.
    destruct (6 - length ks)%nat as [|n] eqn:E; [lia|].
    replace (6 - S (length ks))%nat with n by lia. by rewrite <- app_assoc. }
  specialize (IH ltac:(lia) Hcodes). destruct (fill_keys _ _ _ _ _ _) as [ro r'].
  destruct IH as [IHl IH]. split; [done|].
  destruct (overflow_from _ _); [done|]. destruct IH as (-> & IH2 & IH3 & IH4).
  set (rest := filter ordinary (active_codes ll l)) in *.
  assert (Happ : (ks ++ [h]) ++ rest = ks ++ h :: rest) by (by rewrite <- app_assoc).
  rewrite Happ in IH2, IH3. split_and!; try done.
  intros i Hi. rewrite IH4 by done. unfold modifier_bit. cbn [Modifier].
  by rewrite (proj2 (Z.eqb_neq h _)) by lia.
Qed.
End KeyboardReport.

Lemma for_range_fill (l : list Z) v n :
  length l = n -> for_range 0 n (fun i codes => <[i := v]> codes) l = replicate n v.
Proof.
  intros Hl. rewrite (for_range_map (fun _ => v)) by done. rewrite <- Hl. clear.
  induction l as [|x l IH]; simpl; congruence.
Qed.

(** The keyboard report of the held, not hidden keys. When at most six of them are ordinary
    keys (and none follows a sixth) and the program key is not among them, the report has
    exactly their codes, in slot order and padded with zeros, and exactly the modifier bits of
    the modifiers held; with the program key, or with any further key after six ordinary ones,
    even a modifier, all six codes are the rollover error. *)
Theorem keyboard_report_correct {H : Hardware} (cfg : config_view) (s : keystate) :
  let hs := active_codes cfg (layer s) (key_states s) in
  let r := keystate_Fill_KeyboardReport cfg s empty_keyboard_report in
  ((SPECIAL_HID_KEY_PROGRAM ∈ hs \/ overflow hs) ->
     KeyCode r = replicate KEYBOARDREPORT_KEY_COUNT HID_KEYBOARD_SC_ERROR_ROLLOVER) /\
  (SPECIAL_HID_KEY_PROGRAM ∉ hs -> ~ overflow hs ->
     KeyCode r = filter ordinary hs ++
       replicate (KEYBOARDREPORT_KEY_COUNT - length (filter ordinary hs)) 0) /\
  (~ overflow hs -> forall i, 0 <= i < 8 ->
     (modifier_bit r i = true <-> HID_KEYBOARD_SC_LEFT_CONTROL + i ∈ hs)) /\
  length (KeyCode r) = KEYBOARDREPORT_KEY_COUNT.
Proof.
  cbv zeta. set (hs := active_codes cfg (layer s) (key_states s)).
  pose proof (fill_keys_spec cfg (layer s) (key_states s) [] false empty_keyboard_report) as Hf.
  specialize (Hf ltac:(simpl; lia) eq_refl). cbv zeta in Hf. fold hs in Hf.
  unfold keystate_Fill_KeyboardReport. cbn [length] in Hf.
  destruct (fill_keys _ _ _ _ _ _) as [ro r]. destruct Hf as [Hl Hf].
  assert (Hov : overflow_from 0 hs = true <-> overflow hs).
  { rewrite overflow_from_spec by lia. done. }
  assert (Hprog : existsb (fun h => h =? SPECIAL_HID_KEY_PROGRAM) hs = true
                  <-> SPECIAL_HID_KEY_PROGRAM ∈ hs).
  { rewrite existsb_exists. setoid_rewrite Z.eqb_eq. split.
    - intros (x & Hx & ->). by apply list_elem_of_In.
    - intros Hx. exists 254. split; [by apply list_elem_of_In|done]. }
  destruct (overflow_from 0 hs) eqn:Eo.
  - subst ro. cbn [KeyCode]. rewrite for_range_fill by done.
    pose proof (proj1 Hov eq_refl). split_and!; try done; tauto.
  - destruct Hf as (-> & Hle & Hk & Hm). cbn [orb app] in *.
    assert (Hno : ~ overflow hs) by (rewrite <- Hov; done).
    assert (Hmod : forall i, 0 <= i < 8 ->
        (modifier_bit r i = true <-> HID_KEYBOARD_SC_LEFT_CONTROL + i ∈ hs)).
    { intros i Hi. rewrite Hm by done. unfold modifier_bit at 1. cbn [empty_keyboard_report Modifier].
      rewrite Z.bits_0, orb_false_l, existsb_exists. setoid_rewrite Z.eqb_eq. split.
      - intros (x & Hx & ->). by apply list_elem_of_In.
      - intros Hx. eexists. split; [by apply list_elem_of_In|done]. }
    destruct (existsb _ hs).
    + pose proof (proj1 Hprog eq_refl). cbn [KeyCode]. rewrite for_range_fill by done.
      split_and!; try done; tauto.
    + assert (Hnp : SPECIAL_HID_KEY_PROGRAM ∉ hs) by (rewrite <- Hprog; done).
      split_and!; try done; tauto.
Qed.

(** ** Key checks *)

Section Checks.
Context {H : Hardware} `{!HardwareOk H} (cfg : config_view).

Lemma check_slots_true ll t kt l :
  check_slots cfg ll t kt l = true ->
  exists k, k ∈ l /\ state k = true /\ extract_keycode cfg ll k kt = t.
Proof.
  induction l as [|k l IH]; [done|]. cbn [check_slots]. case_if.
  - intros Hs. exists k. split_and!; [by left|done|done].
  - intros Hc. destruct (IH Hc) as (k' & Hk' & ?). exists k'. split; [by right|done].
Qed.

Lemma check_slots_complete ll t kt l :
  (forall k, k ∈ l -> extract_keycode cfg ll k kt = t -> state k = true) ->
  (exists k, k ∈ l /\ extract_keycode cfg ll k kt = t) ->
  check_slots cfg ll t kt l = true.
Proof.
  induction l as [|k l IH]; intros Hall (k' & Hk' & Ht); [by apply elem_of_nil in Hk'|].
  cbn [check_slots]. case_if.
  - apply Hall; [by left|done].
  - apply IH; [intros; apply Hall; [by right|done]|]. exists k'. split; [|done].
    apply elem_of_cons in Hk' as [->|]; done.
Qed.

Lemma slot_down s k :
  table_inv s -> k ∈ key_states s -> state k = true <-> p_key k ∈ held (key_states s).
Proof.
  intros Hinv Hk. pose proof (ki_slots _ Hinv) as Hs. rewrite Forall_forall in Hs.
  pose proof (layer_below_no_key (H:=H)). destruct (Hs k Hk) as [->|(Hp & Hst & _)].
  - split; [done|]. intros (k' & _ & _ & Hne)%elem_of_held. done.
  - split; [|done]. intros _. apply elem_of_held. exists k. split_and!; [done|done|lia].
Qed.
End Checks.

(** On every reachable state, [keystate_check_key] on a physical code says whether that key
    is held. On logical and HID codes it never says yes without a held key of that code in the
    current layer, and says yes whenever there is one, provided the code that the empty slots
    ([NO_KEY]) produce in that layer is a different one. *)
Theorem check_key_correct {H : Hardware} (Hok : HardwareOk H) (cfg : config_view) (s : keystate)
    (t : Z) (kt : keycode_type) :
  reachable debounce_ok any_change cfg s ->
  let code p := extract_keycode cfg (layer s) (mkKey p true true false) kt in
  (keystate_check_key cfg t kt s = true -> exists p, p ∈ held (key_states s) /\ code p = t) /\
  (code NO_KEY <> t -> (exists p, p ∈ held (key_states s) /\ code p = t) ->
     keystate_check_key cfg t kt s = true).
Proof.
  intros Hr. cbv zeta. pose proof (reachable_table debounce_ok (fun _ Hc => Hc) any_change cfg s Hr) as Hinv.
  unfold keystate_check_key. split.
  - intros (k & Hk & Hst & Ht)%check_slots_true. exists (p_key k).
    split; [by apply (slot_down s k Hinv Hk)|]. by destruct kt.
  - intros Hne (p & Hp & Ht). apply check_slots_complete.
    + intros k Hk He. pose proof (ki_slots _ Hinv) as Hs. rewrite Forall_forall in Hs.
      destruct (Hs k Hk) as [->|(_ & ? & _)]; [|done]. destruct Hne. by destruct kt.
    + apply elem_of_held in Hp as (k & Hk & <- & Hn). exists k. split; [done|]. by destruct kt.
Qed.

Lemma check_key_correct_witness :
  keystate_check_key k84_config HID_KEYBOARD_SC_A HID (k84_run [[8]]) = true /\
  ((keystate_check_key k84_config 8 PHYSICAL (k84_run [[8]]) = true ->
      exists p, p ∈ held (key_states (k84_run [[8]])) /\ p = 8)).
Proof.
  split; [vm_compute; reflexivity|].
  apply (check_key_correct K84cs_hardware_ok k84_config (k84_run [[8]]) 8 PHYSICAL).
  apply k84_reachable. vm_compute. lia.
Defined.

(** The proviso matters: on the K84CS the empty slots alias the last physical key in the
    locked keypad layer, so a check for the space key fails although it is held (the layer-lock
    key pressed, then space, then layer-lock released, leaves an empty slot first). *)
Theorem check_key_empty_slot_alias :
  let s := k84_run [[logical_key_code LOGICAL_KEY_LaLck];
                    [logical_key_code LOGICAL_KEY_LaLck; logical_key_code LOGICAL_KEY_SPACE];
                    [logical_key_code LOGICAL_KEY_SPACE]] in
  layer s = mkLayer false true 1 /\
  logical_key_code LOGICAL_KEY_SPACE ∈ held (key_states s) /\
  config_get_definition k84_config (logical_code (layer s) LOGICAL_KEY_SPACE) = HID_KEYBOARD_SC_SPACE /\
  keystate_check_key k84_config HID_KEYBOARD_SC_SPACE HID s = false.
Proof.
  cbv zeta. split_and!; [vm_compute; reflexivity| |vm_compute; reflexivity|vm_compute; reflexivity].
  apply list_elem_of_In. vm_compute. auto.
Qed.

(** ** The mouse report *)

Section Mouse.
Context {H : Hardware} (cfg : config_view).

(** [n] mouse reports with unchanged keys; the reports in order. *)
Fixpoint mouse_run (n : nat) (s : keystate) : keystate * list MouseReport_Data_t :=
  match n with
  | O => (s, [])
  | S n =>
      let '(s, rs) := mouse_run n s in
      let '(s, r) := keystate_Fill_MouseReport cfg s empty_mouse_report in
      (s, rs ++ [r])
  end.

Lemma s8_add_s8 a b : s8 (s8 a + b) = s8 (a + b).
Proof.
  rewrite <- (s8_u8 (s8 a + b)), <- (s8_u8 (a + b)). f_equal.
  unfold u8. rewrite <- (Zplus_mod_idemp_l (s8 a)), <- (Zplus_mod_idemp_l a).
  fold (u8 (s8 a)) (u8 a). by rewrite u8_s8.
Qed.

Lemma s8_idemp a : s8 (s8 a) = s8 a.
Proof. pose proof (s8_add_s8 a 0) as Hs. by rewrite !Z.add_0_r in Hs. Qed.

(** What a report with the slots of [s] moves by, before acceleration. *)
Definition mouse_step (s : keystate) : motion * MouseReport_Data_t :=
  mouse_slots cfg (layer s) (key_states s) empty_mouse_report.

(** The state after [n] reports: the counter, and the speeds as multiples of the step. *)
Lemma mouse_run_state d n s :
  config_get_mouse_div cfg = d -> 2 <= d ->
  cnt_move (mouse s) = 0 -> speed_x_move (mouse s) = 0 -> speed_y_move (mouse s) = 0 ->
  let s' := (mouse_run n s).1 in
  let moves := (Z.of_nat n + d - 1) / d in
  key_states s' = key_states s /\ layer s' = layer s /\
  cnt_move (mouse s') = Z.of_nat n mod d /\
  (moving_x (mouse_step s).1 = true -> speed_x_move (mouse s') = s8 (moves * X (mouse_step s).2)) /\
  (moving_y (mouse_step s).1 = true -> speed_y_move (mouse s') = s8 (moves * Y (mouse_step s).2)).
Proof.
  intros Hd Hd2 H0 Hx0 Hy0. cbv zeta. induction n as [|n IH].
  - cbn [mouse_run fst]. rewrite H0, Hx0, Hy0.
    replace ((Z.of_nat 0 + d - 1) / d) with 0 by (symmetry; apply Z.div_small; lia).
    rewrite Z.mod_0_l by lia. by split_and!.
  - cbn [mouse_run]. destruct (mouse_run n s) as [s1 rs]. cbn [fst] in *.
    destruct IH as (I1 & I2 & I3 & I4 & I5). unfold keystate_Fill_MouseReport.
    rewrite Hd, I1, I2, I3. fold (mouse_step s).
    pose proof (Z.mod_pos_bound (Z.of_nat n) d ltac:(lia)) as Hb.
    assert (Hsucc : (Z.of_nat n mod d + 1) mod d = Z.of_nat (S n) mod d).
    { rewrite Zplus_mod_idemp_l. f_equal. lia. }
    pose proof (Z.div_mod (Z.of_nat n) d ltac:(lia)) as Hdm.
    destruct (Z.eqb_spec ((Z.of_nat n mod d + 1) mod d) 1) as [He|Hne]; cbn [negb].
    + assert (Hz : Z.of_nat n mod d = 0).
      { destruct (Z.eq_dec (Z.of_nat n mod d) (d - 1)) as [E|E].
        - rewrite E, Z.sub_add, Z.mod_same in He by lia. lia.
        - rewrite Z.mod_small in He by lia. lia. }
      assert (Hm1 : (Z.of_nat (S n) + d - 1) / d = Z.of_nat n / d + 1).
      { symmetry. apply Z.div_unique with (r := 0); lia. }
      assert (Hm0 : (Z.of_nat n + d - 1) / d = Z.of_nat n / d).
      { symmetry. apply Z.div_unique with (r := d - 1); lia. }
      destruct (mouse_step s) as [mo rr] eqn:Em. cbn [fst snd] in *.
      unfold adjust_speed_and_report. rewrite Hm1. rewrite Hm0 in I4, I5.
      assert (Hres : forall z, Z.of_nat n / d * z + z = (Z.of_nat n / d + 1) * z) by (intros; lia).
      destruct mo as [mx my wx wy]. cbn [moving_x moving_y] in *.
      repeat case_if; subst; cbn; rewrite ?I1, ?I2, ?Hsucc; split_and!; try done;
        intros _; rewrite ?(I4 eq_refl), ?(I5 eq_refl), s8_add_s8, Hres; done.
    + assert (Hm : (Z.of_nat (S n) + d - 1) / d = (Z.of_nat n + d - 1) / d).
      { assert (Z.of_nat n mod d <> 0).
        { intros E. rewrite E, Z.mod_small in Hne by lia. lia. }
        transitivity (Z.of_nat n / d + 1).
        - symmetry. apply Z.div_unique with (r := Z.of_nat n mod d); lia.
        - apply Z.div_unique with (r := Z.of_nat n mod d - 1); lia. }
      cbn. rewrite Hm. by split_and!.
Qed.
End Mouse.

(** C31: Mouse acceleration. With the held keys unchanged and [mouse_div = d >= 2], the
    [n+1]-st report moves only if [n] is a multiple of [d], and then, in each axis a held key
    moves, by [n/d + 1] times the step of the held keys, wrapped to a signed byte: the pointer
    speeds up by one step per moving report, and after 127 unit steps the wrap reverses it. *)
Theorem mouse_acceleration {H : Hardware} (cfg : config_view) (s : keystate) (n : nat) :
  2 <= config_get_mouse_div cfg ->
  cnt_move (mouse s) = 0 -> speed_x_move (mouse s) = 0 -> speed_y_move (mouse s) = 0 ->
  let d := config_get_mouse_div cfg in
  let r := (keystate_Fill_MouseReport cfg (mouse_run cfg n s).1 empty_mouse_report).2 in
  (Z.of_nat n mod d <> 0 -> X r = 0 /\ Y r = 0) /\
  (Z.of_nat n mod d = 0 ->
     (moving_x (mouse_step cfg s).1 = true -> X r = s8 ((Z.of_nat n / d + 1) * X (mouse_step cfg s).2)) /\
     (moving_y (mouse_step cfg s).1 = true -> Y r = s8 ((Z.of_nat n / d + 1) * Y (mouse_step cfg s).2))).
Proof.
  intros Hd2 H0 Hx0 Hy0. cbv zeta. set (d := config_get_mouse_div cfg) in *.
  destruct (mouse_run_state cfg d n s) as (I1 & I2 & I3 & I4 & I5); try done.
  set (s1 := (mouse_run cfg n s).1) in *. clearbody s1.
  unfold keystate_Fill_MouseReport. fold d. rewrite I1, I2, I3. fold (mouse_step cfg s).
  pose proof (Z.mod_pos_bound (Z.of_nat n) d ltac:(lia)) as Hb.
  pose proof (Z.div_mod (Z.of_nat n) d ltac:(lia)) as Hdm. split; intros Hn.
  - rewrite (proj2 (Z.eqb_neq _ 1)); [done|].
    destruct (Z.eq_dec (Z.of_nat n mod d) (d - 1)) as [E|E].
    + rewrite E, Z.sub_add, Z.mod_same by lia. lia.
    + rewrite Z.mod_small by lia. lia.
  - rewrite Hn, Z.mod_small, Z.eqb_refl by lia. cbn [negb].
    assert (Hm0 : (Z.of_nat n + d - 1) / d = Z.of_nat n / d).
    { symmetry. apply Z.div_unique with (r := d - 1); lia. }
    destruct (mouse_step cfg s) as [mo rr]. cbn [fst snd] in *.
    unfold adjust_speed_and_report. rewrite Hm0 in I4, I5.
    assert (Hres : forall z, Z.of_nat n / d * z + z = (Z.of_nat n / d + 1) * z) by (intros; lia).
    destruct mo as [mx my wx wy]. cbn [moving_x moving_y] in *.
    repeat case_if; subst; cbn; split; try done;
      intros _; rewrite ?(I4 eq_refl), ?(I5 eq_refl), s8_add_s8, Hres; done.
Qed.

(** The mouse-right and mouse-forward keys of the keypad layer (F and S), held. *)
Definition diagonal_run : keystate :=
  k84_run [[2]; [2; logical_key_code LOGICAL_KEY_F; logical_key_code LOGICAL_KEY_S]].

Lemma mouse_acceleration_witness :
  X (keystate_Fill_MouseReport k84_config (mouse_run k84_config 252 diagonal_run).1 empty_mouse_report).2 = 127 /\
  X (keystate_Fill_MouseReport k84_config (mouse_run k84_config 254 diagonal_run).1 empty_mouse_report).2 = -128 /\
  X (keystate_Fill_MouseReport k84_config (mouse_run k84_config 254 diagonal_run).1 empty_mouse_report).2
    = s8 ((Z.of_nat 254 / 2 + 1) * X (mouse_step k84_config diagonal_run).2).
Proof.
  split; [vm_compute; reflexivity|]. split; [vm_compute; reflexivity|].
  assert (Hd : 2 <= config_get_mouse_div k84_config) by (vm_compute; discriminate).
  assert (Hc : cnt_move (mouse diagonal_run) = 0) by (vm_compute; reflexivity).
  assert (Hx : speed_x_move (mouse diagonal_run) = 0) by (vm_compute; reflexivity).
  assert (Hy : speed_y_move (mouse diagonal_run) = 0) by (vm_compute; reflexivity).
  assert (Hm : moving_x (mouse_step k84_config diagonal_run).1 = true) by (vm_compute; reflexivity).
  assert (Hn : Z.of_nat 254 mod config_get_mouse_div k84_config = 0) by (vm_compute; reflexivity).
  exact (proj1 (proj2 (mouse_acceleration k84_config diagonal_run 254 Hd Hc Hx Hy) Hn) Hm).
Defined.

(** With [mouse_div = 1], a value the user can set, the pointer never moves and the button
    state is frozen: every mouse report repeats the last buttons and has no motion, whatever
    keys are held. *)
Theorem mouse_div_one_freezes {H : Hardware} (cfg : config_view) (s : keystate) (r : MouseReport_Data_t) :
  config_get_mouse_div cfg = 1 ->
  let '(s', r') := keystate_Fill_MouseReport cfg s r in
  r' = mkMouseReport (prev_button (mouse s)) (X r) (Y r) (VWheel r) (HWheel r) /\
  prev_button (mouse s') = prev_button (mouse s) /\ key_states s' = key_states s.
Proof.
  intros Hd. unfold keystate_Fill_MouseReport. rewrite Hd, Z.mod_1_r. by split_and!.
Qed.

Definition div_one_config : config_view := mkConfigView (fun k => default_layout !!! Z.to_nat k) 1 false 1 1.

Lemma mouse_div_one_freezes_witness :
  (mouse_run div_one_config 40 diagonal_run).2 = replicate 40 empty_mouse_report /\
  let '(s', r') := keystate_Fill_MouseReport div_one_config diagonal_run empty_mouse_report in
  r' = mkMouseReport 0 0 0 0 0 /\ prev_button (mouse s') = prev_button (mouse diagonal_run) /\
  key_states s' = key_states diagonal_run.
Proof.
  split; [vm_compute; reflexivity|].
  apply (mouse_div_one_freezes div_one_config diagonal_run empty_mouse_report). reflexivity.
Defined.
