(* ===== verification/MacroIndex.v ===== *)
(** * macro_index.c: the macro trigger index

    The sorted table in the internal eeprom from key combinations to macro
    offsets or program numbers (src/macro_index.c).  The table is the list
    [macro_index] of [MACRO_INDEX_COUNT] entries; a pointer to an entry is its
    index in the list.  The C library's [bsearch] is modelled by the binary
    search of avr-libc.  [storage_wait_for_last_write_end] and [USB_KeepAlive]
    do not change the state modelled here. *)

From stdpp Require Import gmap.
From S2P Require Import Prelude Hid Hardware Sort K84cs.

Abbreviation MACRO_MAX_KEYS := 4%nat (only parsing).
Abbreviation MACRO_DATA_HEADER_LEN := 2%Z (only parsing).

(** [struct _macro_idx_entry]; a [macro_idx_key] is its [keys] array. *)
Record macro_idx_entry := mkIdxEntry {
  keys : list Z;
  val : Z
}.

#[export] Instance macro_idx_entry_eq_dec : EqDecision macro_idx_entry.
Proof. solve_decision. Defined.

(** Filled with [NO_KEY] and 0, as [macro_idx_reset_defaults] and
    [macro_idx_remove] fill unused entries. *)
Definition empty_entry : macro_idx_entry := mkIdxEntry (replicate MACRO_MAX_KEYS NO_KEY) 0.

#[export] Instance macro_idx_entry_inhabited : Inhabited macro_idx_entry := populate empty_entry.

Inductive macro_idx_entry_type := MACRO | PROGRAM.

#[export] Instance macro_idx_entry_type_eq_dec : EqDecision macro_idx_entry_type.
Proof. solve_decision. Defined.

Record macro_idx_entry_data := mkIdxData {
  type : macro_idx_entry_type;
  data : Z
}.

(** ** The operations *)

(** [get_next_macro_def_info_index]: the index of the default macro with the
    least trigger above [low_bound], or 0xff. *)
Fixpoint next_def_from (defs : list macro_def_info) (low_bound i rv rv_lkey : Z) : Z :=
  match defs with
  | [] => rv
  | d :: defs =>
      let cur_lkey := lkey d in
      if cur_lkey =? NO_KEY then rv
      else if (cur_lkey >? low_bound) && (cur_lkey <? rv_lkey)
      then next_def_from defs low_bound (u8 (i + 1)) i cur_lkey
      else next_def_from defs low_bound (u8 (i + 1)) rv rv_lkey
  end.

Definition get_next_macro_def_info_index (defs : list macro_def_info) (low_bound : Z) : Z :=
  if low_bound =? NO_KEY then 0xff else next_def_from defs low_bound 0 0xff NO_KEY.

Definition MACRO_DEF_HKEYS : Z := 3.
Definition macro_def_default : macro_def_info := mkMacroDef NO_KEY [0; 0; 0].

#[export] Instance macro_def_info_inhabited : Inhabited macro_def_info := populate macro_def_default.

(** [macro_idx_format_key] *)
Definition macro_idx_format_key (key : list Z) (key_count : nat) : bool * list Z :=
  let key := insertionsort_uint8 key key_count in
  let key := for_range key_count (MACRO_MAX_KEYS - key_count) (fun i key => <[i := NO_KEY]> key) key in
  (negb (key !!! 0%nat =? NO_KEY), key).

(** [macro_idx_cmp], from byte [j] on. *)
Fixpoint cmp_from (n j : nat) (k v : list Z) : Z :=
  match n with
  | O => 0
  | S n =>
      let d := k !!! j - v !!! j in
      if negb (d =? 0) then d else cmp_from n (S j) k v
  end.

Definition macro_idx_cmp (k : list Z) (v : macro_idx_entry) : Z :=
  cmp_from MACRO_MAX_KEYS 0 k (keys v).

(** The C library's [bsearch] over [lim] entries from [base] on. *)
Fixpoint bsearch (fuel : nat) (cmp : macro_idx_entry -> Z) (index : list macro_idx_entry)
    (base lim : nat) : option nat :=
  match fuel with
  | O => None
  | S fuel =>
      if (lim =? 0)%nat then None
      else
        let p := (base + lim / 2)%nat in
        let c := cmp (index !!! p) in
        if c =? 0 then Some p
        else if c >? 0 then bsearch fuel cmp index (S p) ((lim - 1) / 2)
        else bsearch fuel cmp index base (lim / 2)
  end.

Definition macro_idx_get_data (mh : nat) (macro_index : list macro_idx_entry) : macro_idx_entry_data :=
  let v := val (macro_index !!! mh) in
  mkIdxData (if negb (Z.land v 0x8000 =? 0) then PROGRAM else MACRO) (Z.land v 0x7fff).

Definition macro_idx_set_data (mh : nat) (d : macro_idx_entry_data)
    (macro_index : list macro_idx_entry) : list macro_idx_entry :=
  let store := match type d with PROGRAM => Z.lor (data d) 0x8000 | MACRO => data d end in
  <[mh := mkIdxEntry (keys (macro_index !!! mh)) store]> macro_index.

Section MacroIndex.
Context {H : Hardware}.

Definition INDEX_COUNT : nat := Z.to_nat MACRO_INDEX_COUNT.

(** One iteration of the loop of [macro_idx_reset_defaults]; the state holds [lkey]. *)
Definition reset_entry (defs : list macro_def_info) (i : nat)
    (s : Z * list macro_idx_entry) : Z * list macro_idx_entry :=
  let '(low, macro_index) := s in
  let idx := get_next_macro_def_info_index defs low in
  if idx =? 0xff then (NO_KEY, <[i := empty_entry]> macro_index)
  else
    let low := lkey (defs !!! Z.to_nat idx) in
    let tmp := mkIdxEntry (<[0%nat := low]> (replicate MACRO_MAX_KEYS NO_KEY))
                 (idx * (MACRO_DATA_HEADER_LEN + MACRO_DEF_HKEYS)) in
    (low, <[i := tmp]> macro_index).

Definition macro_idx_reset_defaults (defs : list macro_def_info)
    (macro_index : list macro_idx_entry) : list macro_idx_entry :=
  (for_range 0 INDEX_COUNT (reset_entry defs) (0, macro_index)).2.

Definition macro_idx_lookup (key : list Z) (macro_index : list macro_idx_entry) : option nat :=
  bsearch (S INDEX_COUNT) (macro_idx_cmp key) macro_index 0 INDEX_COUNT.

(** The loop of [macro_idx_remove] from entry [i] on. *)
Fixpoint remove_from (fuel i : nat) (macro_index : list macro_idx_entry) : list macro_idx_entry :=
  match fuel with
  | O => macro_index
  | S fuel =>
      if (i <? INDEX_COUNT)%nat then
        let tmp := if (i =? INDEX_COUNT - 1)%nat then empty_entry else macro_index !!! S i in
        let macro_index := <[i := tmp]> macro_index in
        if keys tmp !!! 0%nat =? NO_KEY then macro_index else remove_from fuel (S i) macro_index
      else macro_index
  end.

Definition macro_idx_remove (mi : nat) (macro_index : list macro_idx_entry) : list macro_idx_entry :=
  remove_from INDEX_COUNT mi macro_index.

(** The loop of [macro_idx_create] from slot [i] down: the slot of the hole. *)
Fixpoint make_hole (i : nat) (key : list Z) (macro_index : list macro_idx_entry)
    : nat * list macro_idx_entry :=
  match i with
  | O => (O, macro_index)
  | S p =>
      let prev := macro_index !!! p in
      if macro_idx_cmp key prev >=? 0 then (i, macro_index)
      else if keys prev !!! 0%nat =? NO_KEY then make_hole p key macro_index
      else make_hole p key (<[i := prev]> macro_index)
  end.

Definition macro_idx_create (key : list Z) (macro_index : list macro_idx_entry)
    : option nat * list macro_idx_entry :=
  if negb (keys (macro_index !!! (INDEX_COUNT - 1)%nat) !!! 0%nat =? NO_KEY) then (None, macro_index)
  else
    let '(r, macro_index) := make_hole (INDEX_COUNT - 1) key macro_index in
    (Some r, <[r := mkIdxEntry key (val (macro_index !!! r))]> macro_index).

(** [macro_idx_iterate] with an iterator that may change the entry it visits
    (and a state [S] of its own). *)
Fixpoint iterate_from {S} (fuel i : nat) (itr : nat -> S * list macro_idx_entry -> S * list macro_idx_entry)
    (s : S * list macro_idx_entry) : S * list macro_idx_entry :=
  match fuel with
  | O => s
  | Datatypes.S fuel =>
      if keys (s.2 !!! i) !!! 0%nat =? NO_KEY then s
      else iterate_from fuel (Datatypes.S i) itr (itr i s)
  end.

Definition macro_idx_iterate {S} (itr : nat -> S * list macro_idx_entry -> S * list macro_idx_entry)
    (s : S * list macro_idx_entry) : S * list macro_idx_entry :=
  iterate_from INDEX_COUNT 0 itr s.
End MacroIndex.

(** ** Keys as numbers

    The comparison is the lexicographic order on four bytes, that is, the
    order of the numbers they spell. *)

Definition key_num (k : list Z) : Z :=
  ((k !!! 0%nat * 256 + k !!! 1%nat) * 256 + k !!! 2%nat) * 256 + k !!! 3%nat.

Definition key_ok (k : list Z) : Prop := length k = MACRO_MAX_KEYS /\ Forall is_u8 k.

(** A key that can be looked up: [macro_idx_format_key] has accepted it. *)
Definition valid_key (k : list Z) : Prop := key_ok k /\ k !!! 0%nat <> NO_KEY.

Definition entry_num (e : macro_idx_entry) : Z := key_num (keys e).

Ltac key_bytes k :=
  let H1 := fresh in let H2 := fresh in
  match goal with K : key_ok k |- _ =>
    destruct K as [H1 H2];
    destruct k as [|? [|? [|? [|? [|? ?]]]]]; try discriminate H1; clear H1;
    repeat match goal with F : Forall is_u8 (_ :: _) |- _ => apply Forall_cons in F as [? F] end
  end.

Lemma key_num_range k : key_ok k -> 0 <= key_num k < 2 ^ 32.
Proof. intros K. key_bytes k. unfold key_num, is_u8 in *. cbn in *. lia. Qed.

Lemma key_num_inj k v : key_ok k -> key_ok v -> key_num k = key_num v -> k = v.
Proof.
  intros K V. key_bytes k. key_bytes v. unfold key_num, is_u8 in *. cbn in *. intros E.
  assert (z = z3 /\ z0 = z4 /\ z1 = z5 /\ z2 = z6) by (split_and!; lia).
  by destruct_and!; subst.
Qed.

(** The comparison function has the sign of the difference of the numbers. *)
Lemma macro_idx_cmp_sign k e :
  key_ok k -> key_ok (keys e) ->
  (macro_idx_cmp k e = 0 <-> key_num k = entry_num e) /\
  (0 < macro_idx_cmp k e <-> entry_num e < key_num k).
Proof.
  destruct e as [v w]. unfold macro_idx_cmp, entry_num. cbn [keys]. intros K V.
  key_bytes k. key_bytes v. unfold key_num, is_u8 in *. cbn in *.
  repeat case_if; lia.
Qed.

Lemma empty_key_ok : key_ok (keys empty_entry).
Proof. split; [done|]. repeat constructor; unfold is_u8; lia. Qed.

(** Valid keys come before the key of the empty entries. *)
Lemma valid_key_lt k : valid_key k -> key_num k < entry_num empty_entry.
Proof.
  intros [K Hv]. key_bytes k. unfold entry_num, key_num, is_u8 in *. cbn in *. lia.
Qed.

(** ** The table as a finite map *)

Definition entry_ok (e : macro_idx_entry) : Prop := valid_key (keys e).

Definition contents (u : list macro_idx_entry) : gmap (list Z) Z :=
  list_to_map (map (fun e => (keys e, val e)) u).

(** The used entries of a well-formed table: a strictly sorted prefix. *)
Definition before (x y : macro_idx_entry) : Prop := entry_num x < entry_num y.

Definition sorted_entries (u : list macro_idx_entry) : Prop :=
  Forall entry_ok u /\ StronglySorted before u.

Lemma sorted_entries_app lo hi :
  sorted_entries (lo ++ hi) <->
  sorted_entries lo /\ sorted_entries hi /\ (forall x y, x ∈ lo -> y ∈ hi -> before x y).
Proof. unfold sorted_entries. rewrite Forall_app, StronglySorted_app. tauto. Qed.

Lemma sorted_entries_singleton x : sorted_entries [x] <-> entry_ok x.
Proof.
  unfold sorted_entries. rewrite Forall_singleton. split; [by intros [? _]|].
  intros; split; [done|]. repeat constructor.
Qed.

Lemma sorted_entries_cons x u :
  sorted_entries (x :: u) <-> entry_ok x /\ sorted_entries u /\ (forall y, y ∈ u -> before x y).
Proof.
  rewrite (sorted_entries_app [x] u), sorted_entries_singleton.
  split; intros (? & ? & Hb); split_and!; try done.
  - intros y Hy. by apply Hb; [apply list_elem_of_singleton|].
  - intros ? y ->%list_elem_of_singleton Hy. by apply Hb.
Qed.

(** No two entries have the same key. *)
Lemma sorted_entries_keys u : sorted_entries u -> NoDup (map keys u).
Proof.
  induction u as [|x u IH]; [constructor|]. intros (Hx & Hu & Hb)%sorted_entries_cons.
  cbn [map]. constructor; [|by apply IH].
  intros (y & Hk & Hy)%list_elem_of_fmap. specialize (Hb y Hy).
  unfold before, entry_num in Hb. rewrite Hk in Hb. lia.
Qed.

Lemma contents_lookup u k v :
  sorted_entries u -> contents u !! k = Some v <-> mkIdxEntry k v ∈ u.
Proof.
  intros Hs%sorted_entries_keys. unfold contents.
  rewrite <- elem_of_list_to_map by (by rewrite <- list_fmap_compose).
  rewrite list_elem_of_fmap. split.
  - intros ([k' v'] & [= -> ->] & Hin). done.
  - intros Hin. by exists (mkIdxEntry k v).
Qed.

(** The table [macro_index] with the used entries [u]. *)
Section Table.
Context `{H : Hardware, !HardwareOk H}.

Definition table (u : list macro_idx_entry) : list macro_idx_entry :=
  u ++ replicate (INDEX_COUNT - length u) empty_entry.

Definition index_repr (u macro_index : list macro_idx_entry) : Prop :=
  macro_index = table u /\ sorted_entries u /\ (length u <= INDEX_COUNT)%nat.

Lemma table_length u : (length u <= INDEX_COUNT)%nat -> length (table u) = INDEX_COUNT.
Proof. intros. unfold table. rewrite length_app, length_replicate. lia. Qed.

Lemma table_lookup_used u i : (i < length u)%nat -> table u !!! i = u !!! i.
Proof. intros. unfold table. by rewrite lookup_total_app_l. Qed.

Lemma table_lookup_free u i :
  (length u <= i)%nat -> (i < INDEX_COUNT)%nat -> table u !!! i = empty_entry.
Proof.
  intros. unfold table. rewrite lookup_total_app_r by done.
  by apply lookup_total_replicate_2; lia.
Qed.

Lemma used_ok u i : sorted_entries u -> (i < length u)%nat -> entry_ok (u !!! i).
Proof. intros [Hf _] Hi. by apply Forall_lookup_total. Qed.

(** *** Lookup *)

Lemma table_keys_ok u i :
  index_repr u (table u) -> (i < INDEX_COUNT)%nat -> key_ok (keys (table u !!! i)).
Proof.
  intros (_ & Hs & Hl) Hi. destruct (Nat.lt_ge_cases i (length u)).
  - rewrite table_lookup_used by done. by apply used_ok.
  - rewrite table_lookup_free by done. apply empty_key_ok.
Qed.

Lemma sorted_lookup u p q :
  sorted_entries u -> (p < q < length u)%nat -> before (u !!! p) (u !!! q).
Proof.
  intros [_ Hs] Hpq. revert p q Hpq. induction Hs as [|x u Hu IH Hx]; intros p q Hpq; [simpl in *; lia|].
  destruct q as [|q]; [lia|]. cbn in *. destruct p as [|p].
  - rewrite Forall_forall in Hx. apply Hx. apply list_elem_of_lookup_total_2. lia.
  - apply IH. lia.
Qed.

Lemma table_mono u p q :
  index_repr u (table u) -> (p <= q)%nat -> (q < INDEX_COUNT)%nat ->
  entry_num (table u !!! p) <= entry_num (table u !!! q).
Proof.
  intros (_ & Hs & Hl) Hpq Hq. destruct (Nat.eq_dec p q) as [->|]; [done|].
  destruct (Nat.lt_ge_cases q (length u)).
  - rewrite !table_lookup_used by lia. apply Z.lt_le_incl, sorted_lookup; [done|lia].
  - rewrite (table_lookup_free u q) by done. destruct (Nat.lt_ge_cases p (length u)).
    + rewrite table_lookup_used by done. apply Z.lt_le_incl, valid_key_lt. by apply used_ok.
    + rewrite table_lookup_free by lia. done.
Qed.

Lemma bsearch_spec u k fuel base lim :
  index_repr u (table u) -> key_ok k ->
  (lim < fuel)%nat -> (base + lim <= INDEX_COUNT)%nat ->
  (forall p, (p < base)%nat -> entry_num (table u !!! p) < key_num k) ->
  (forall p, (base + lim <= p < INDEX_COUNT)%nat -> key_num k < entry_num (table u !!! p)) ->
  match bsearch fuel (macro_idx_cmp k) (table u) base lim with
  | Some p => (p < INDEX_COUNT)%nat /\ entry_num (table u !!! p) = key_num k
  | None => forall p, (p < INDEX_COUNT)%nat -> entry_num (table u !!! p) <> key_num k
  end.
Proof.
  intros Hr Hk. revert base lim. induction fuel as [|fuel IH]; intros base lim Hf Hc Hlo Hhi; [lia|].
  cbn [bsearch]. destruct (Nat.eqb_spec lim 0) as [->|Hlim].
  { intros p Hp. destruct (Nat.lt_ge_cases p base); [specialize (Hlo p)|specialize (Hhi p)]; lia. }
  assert (Hmid : (base + lim / 2 < INDEX_COUNT)%nat).
  { pose proof (Nat.div_lt lim 2). lia. }
  pose proof (Nat.div_lt lim 2 ltac:(lia) ltac:(lia)) as Hd.
  pose proof (Nat.div_mod_eq lim 2) as Hdm. pose proof (Nat.mod_upper_bound lim 2 ltac:(lia)) as Hmb.
  pose proof (Nat.div_mod_eq (lim - 1) 2) as Hdm1.
  pose proof (Nat.mod_upper_bound (lim - 1) 2 ltac:(lia)) as Hmb1.
  set (mid := (base + lim / 2)%nat) in *.
  destruct (macro_idx_cmp_sign k (table u !!! mid) Hk (table_keys_ok u mid Hr Hmid)) as [H0 H1].
  case_if; [|case_if].
  - split; [done|]. symmetry. by apply H0.
  - apply IH; [lia|lia| |].
    + intros p Hp. apply Z.le_lt_trans with (entry_num (table u !!! mid)).
      * apply table_mono; [done|lia|done].
      * apply H1. lia.
    + intros p Hp. apply Hhi. lia.
  - apply IH; [lia|lia|done|]. intros p Hp.
    apply Z.lt_le_trans with (entry_num (table u !!! mid)).
    + assert (key_num k <> entry_num (table u !!! mid)) by (by intros E; apply H0 in E).
      assert (~ entry_num (table u !!! mid) < key_num k) by (intros E; apply H1 in E; lia). lia.
    + apply table_mono; [done|lia|lia].
Qed.

Lemma lookup_spec u macro_index k :
  index_repr u macro_index -> valid_key k ->
  match macro_idx_lookup k macro_index with
  | Some p => (p < length u)%nat /\ keys (macro_index !!! p) = k /\
              contents u !! k = Some (val (macro_index !!! p))
  | None => contents u !! k = None
  end.
Proof.
  intros Hr Hk. pose proof Hr as (-> & Hs & Hl). unfold macro_idx_lookup.
  pose proof (bsearch_spec u k (S INDEX_COUNT) 0 INDEX_COUNT Hr (proj1 Hk)) as Hb.
  destruct (bsearch _ _ _ _ _) as [p|].
  - destruct Hb as [Hp He]; try lia. pose proof (valid_key_lt k Hk) as Hlt.
    destruct (Nat.lt_ge_cases p (length u)) as [Hu|Hu].
    2: { rewrite table_lookup_free in He by done. lia. }
    assert (Hkeys : keys (table u !!! p) = k).
    { apply key_num_inj; [by apply table_keys_ok|apply Hk|done]. }
    split_and!; try done. rewrite table_lookup_used in * by done.
    apply contents_lookup; [done|]. rewrite <- Hkeys.
    destruct (u !!! p) as [k' v'] eqn:Ep. cbn. rewrite <- Ep.
    by apply list_elem_of_lookup_total_2.
  - apply eq_None_not_Some. intros [v Hv]. apply contents_lookup in Hv; [|done].
    apply list_elem_of_lookup_total in Hv as (p & Hp & Hv).
    specialize (Hb ltac:(lia) ltac:(lia) ltac:(lia) ltac:(lia) p ltac:(lia)).
    rewrite table_lookup_used, Hv in Hb by done. done.
Qed.

(** *** Insertion *)

Lemma make_hole_spec lo hi x rest k :
  sorted_entries (lo ++ hi) -> key_ok k ->
  Forall (fun e => keys e <> k) lo -> (forall y, y ∈ hi -> key_num k < entry_num y) ->
  exists lo' hi' x',
    lo ++ hi = lo' ++ hi' /\
    make_hole (length lo) k (lo ++ x :: hi ++ rest) = (length lo', lo' ++ x' :: hi' ++ rest) /\
    (forall y, y ∈ lo' -> entry_num y < key_num k) /\ (forall y, y ∈ hi' -> key_num k < entry_num y).
Proof.
  intros Hs Hk. revert hi x Hs. induction lo as [|e lo IH] using rev_ind; intros hi x Hs Hne Hhi.
  { exists [], hi, x. split_and!; try done. by intros y Hy%not_elem_of_nil. }
  rewrite length_app, Nat.add_comm. cbn [length Nat.add make_hole].
  assert (He : (((lo ++ [e]) ++ x :: hi ++ rest) !!! length lo) = e).
  { rewrite <- app_assoc. by apply list_lookup_total_middle. }
  rewrite He. apply Forall_app in Hne as [Hne [Hek _]%Forall_cons].
  rewrite <- app_assoc in Hs. pose proof Hs as (Hlo & (Heo & Hhs & Hb)%sorted_entries_cons & Hle)%sorted_entries_app.
  destruct (macro_idx_cmp_sign k e Hk (proj1 Heo)) as [H0 H1].
  assert (Hneq : key_num k <> entry_num e).
  { intros E. apply Hek. symmetry. apply key_num_inj; [done|apply Heo|done]. }
  case_if.
  - exists (lo ++ [e]), hi, x. rewrite length_app, Nat.add_comm. split_and!; try done.
    assert (entry_num e < key_num k).
    { apply H1. assert (macro_idx_cmp k e <> 0) by (intros E; by apply H0 in E). lia. }
    intros y [Hy| ->%list_elem_of_singleton]%elem_of_app; [|done].
    specialize (Hle y e Hy (list_elem_of_here _ _)). unfold before in Hle. lia.
  - destruct Heo as [Hko Hnk]. case_if; [done|].
    assert (Hins : <[S (length lo) := e]> ((lo ++ [e]) ++ x :: hi ++ rest) = lo ++ e :: (e :: hi) ++ rest).
    { rewrite insert_app_r_alt by (rewrite length_app; simpl; lia). rewrite length_app. cbn [length].
      replace (S (length lo) - (length lo + 1))%nat with 0%nat by lia. cbn [insert list_insert].
      by rewrite <- app_assoc. }
    rewrite Hins, <- app_assoc. cbn [app].
    destruct (IH (e :: hi) e) as (lo' & hi' & x' & E1 & E2 & E3 & E4); try done.
    { intros y [-> |Hy]%elem_of_cons.
      - assert (~ entry_num e < key_num k) by (intros E; apply H1 in E; lia). lia.
      - by apply Hhi. }
    exists lo', hi', x'. by split_and!.
Qed.

(** Stepping down over the empty cells changes nothing. *)
Lemma make_hole_free u k i :
  (length u <= i)%nat -> (i < INDEX_COUNT)%nat -> sorted_entries u -> valid_key k ->
  make_hole i k (table u) = make_hole (length u) k (table u).
Proof.
  intros Hi Hc Hs Hk. induction i as [|i IH].
  - by replace (length u) with 0%nat by lia.
  - destruct (Nat.eq_dec (length u) (S i)) as [->|]; [done|].
    cbn [make_hole]. rewrite table_lookup_free by lia.
    destruct (macro_idx_cmp_sign k empty_entry (proj1 Hk) empty_key_ok) as [H0 H1].
    pose proof (valid_key_lt k Hk). case_if.
    + assert (macro_idx_cmp k empty_entry <> 0) by (intros E; apply H0 in E; lia).
      assert (0 < macro_idx_cmp k empty_entry) as E by lia. apply H1 in E. lia.
    + apply IH; lia.
Qed.

Lemma contents_insert lo hi k v :
  sorted_entries (lo ++ hi) -> sorted_entries (lo ++ mkIdxEntry k v :: hi) ->
  contents (lo ++ mkIdxEntry k v :: hi) = <[k := v]> (contents (lo ++ hi)).
Proof.
  intros Hs Hs'. apply sorted_entries_keys in Hs, Hs'. unfold contents. rewrite !map_app in *. cbn [map] in *.
  rewrite <- list_to_map_cons. apply list_to_map_proper; [|symmetry; apply Permutation_middle].
  by rewrite !fmap_app, fmap_cons, <- !list_fmap_compose.
Qed.

Lemma create_spec u macro_index k :
  index_repr u macro_index -> valid_key k -> contents u !! k = None -> (0 < INDEX_COUNT)%nat ->
  let '(r, macro_index') := macro_idx_create k macro_index in
  match r with
  | None => length u = INDEX_COUNT /\ macro_index' = macro_index
  | Some r => exists u' v, index_repr u' macro_index' /\ length u' = S (length u) /\
                (r < length u')%nat /\ keys (macro_index' !!! r) = k /\
                val (macro_index' !!! r) = v /\ contents u' = <[k := v]> (contents u)
  end.
Proof.
  intros Hr Hk Hn Hc0. pose proof Hr as (-> & Hs & Hl). unfold macro_idx_create.
  destruct (Nat.eq_dec (length u) INDEX_COUNT) as [Hfull|Hfull].
  { rewrite table_lookup_used by lia. destruct (used_ok u (INDEX_COUNT - 1) Hs) as [_ Hnk]; [lia|].
    case_if; done. }
  rewrite table_lookup_free by lia. change (keys empty_entry !!! 0%nat =? NO_KEY) with true. cbn [negb].
  rewrite make_hole_free by (done || lia).
  assert (Ht : table u = u ++ empty_entry :: [] ++ replicate (INDEX_COUNT - S (length u)) empty_entry).
  { unfold table. by replace (INDEX_COUNT - length u)%nat with (S (INDEX_COUNT - S (length u))) by lia. }
  destruct (make_hole_spec u [] empty_entry (replicate (INDEX_COUNT - S (length u)) empty_entry) k)
    as (lo & hi & x & E1 & E2 & E3 & E4).
  - by rewrite app_nil_r.
  - apply Hk.
  - apply Forall_forall. intros [k' v'] He Hk'. cbn in Hk'. subst k'.
    rewrite (proj2 (contents_lookup u k v' Hs) He) in Hn. done.
  - by intros y Hy%not_elem_of_nil.
  - rewrite Ht, E2. rewrite app_nil_r in E1. subst u.
    rewrite list_lookup_total_middle by done. rewrite insert_app_r_alt by lia.
    rewrite Nat.sub_diag. cbn [insert list_insert].
    set (e := mkIdxEntry k (val x)).
    assert (Hs' : sorted_entries (lo ++ e :: hi)).
    { apply sorted_entries_app in Hs as (Hlo & Hhi & Hlh). apply sorted_entries_app. split_and!; [done| |].
      - apply sorted_entries_cons. split_and!; [done..|]. intros y Hy. by apply E4.
      - intros y z Hy [-> |Hz]%elem_of_cons; [by apply E3|by apply Hlh]. }
    rewrite length_app in *. exists (lo ++ e :: hi), (val x). rewrite length_app. cbn [length].
    split_and!; try lia.
    + split_and!; [|done|rewrite length_app; cbn [length]; lia]. unfold table. rewrite <- app_assoc. cbn [app]. do 4 f_equal.
      rewrite length_app. cbn [length]. lia.
    + by rewrite list_lookup_total_middle.
    + by rewrite list_lookup_total_middle.
    + by apply contents_insert.
Qed.

(** *** Removal *)

Lemma remove_from_spec lo hi x n fuel :
  Forall entry_ok hi -> (length lo + S (length hi + n) = INDEX_COUNT)%nat -> (length hi < fuel)%nat ->
  remove_from fuel (length lo) (lo ++ x :: hi ++ replicate n empty_entry)
  = lo ++ hi ++ replicate (S n) empty_entry.
Proof.
  intros Hhi. revert lo x fuel. induction Hhi as [|y hi Hy Hhi IH]; intros lo x fuel Hc Hf;
    (destruct fuel as [|fuel]; [simpl in Hf; lia|]); cbn [remove_from length] in *.
  - rewrite (proj2 (Nat.ltb_lt _ _)) by lia.
    assert (Htmp : (if (length lo =? INDEX_COUNT - 1)%nat then empty_entry
                    else (lo ++ x :: [] ++ replicate n empty_entry) !!! S (length lo)) = empty_entry).
    { destruct (Nat.eqb_spec (length lo) (INDEX_COUNT - 1)); [done|]. destruct n as [|n]; [lia|].
      cbn [app replicate]. rewrite (cons_middle x), app_assoc.
      rewrite list_lookup_total_middle; [done|]. rewrite length_app. simpl. lia. }
    rewrite Htmp. change (keys empty_entry !!! 0%nat =? NO_KEY) with true. cbv iota.
    rewrite insert_app_r_alt, Nat.sub_diag by lia. done.
  - rewrite (proj2 (Nat.ltb_lt _ _)) by lia. rewrite (proj2 (Nat.eqb_neq _ _)) by lia.
    assert (Htmp : (lo ++ x :: (y :: hi) ++ replicate n empty_entry) !!! S (length lo) = y).
    { rewrite (cons_middle x), app_assoc. apply list_lookup_total_middle. rewrite length_app. simpl. lia. }
    rewrite Htmp. destruct Hy as [_ Hy]. rewrite (proj2 (Z.eqb_neq _ _) Hy).
    rewrite insert_app_r_alt, Nat.sub_diag by lia. cbn [insert list_insert app].
    specialize (IH (lo ++ [y]) y fuel). rewrite length_app, <- !app_assoc in IH. cbn [length] in IH.
    rewrite Nat.add_1_r in IH. apply IH; lia.
Qed.

Lemma remove_spec u macro_index i :
  index_repr u macro_index -> (i < length u)%nat ->
  exists u', index_repr u' (macro_idx_remove i macro_index) /\ S (length u') = length u /\
             contents u' = delete (keys (macro_index !!! i)) (contents u).
Proof.
  intros (-> & Hs & Hl) Hi. destruct (lookup_lt_is_Some_2 u i Hi) as [x Hx].
  pose proof (take_drop_middle u i x Hx) as Hu. set (lo := take i u) in *. set (hi := drop (S i) u) in *.
  assert (Hlo : length lo = i) by (apply length_take_le; lia).
  rewrite table_lookup_used, (list_lookup_total_correct _ _ _ Hx) by done.
  clearbody lo hi. subst u i. clear Hx. rewrite length_app in *. cbn [length] in *.
  pose proof Hs as (Slo & (Hx & Shi & Hxh)%sorted_entries_cons & Hlh)%sorted_entries_app.
  assert (Hs' : sorted_entries (lo ++ hi)).
  { apply sorted_entries_app. split_and!; [done..|]. intros y z Hy Hz. apply Hlh; [done|by right]. }
  exists (lo ++ hi). rewrite length_app. split_and!; [|lia|].
  - split_and!; [|done|rewrite length_app; lia]. unfold macro_idx_remove, table. rewrite <- !app_assoc. cbn [app].
    rewrite remove_from_spec; [|apply Shi|rewrite length_app; simpl; lia|lia].
    rewrite !length_app. cbn [length]. do 3 f_equal. lia.
  - destruct x as [k v]. cbn [keys]. rewrite contents_insert by done. rewrite delete_insert_eq.
    symmetry. apply delete_id. apply eq_None_not_Some. intros [w Hw].
    apply contents_lookup in Hw; [|done]. apply sorted_entries_keys in Hs. rewrite map_app in Hs. cbn in Hs.
    apply NoDup_app in Hs as (_ & Hd & Hk). apply elem_of_app in Hw as [Hw|Hw].
    + apply (Hd k); [|left]. by apply (list_elem_of_fmap_2 keys) in Hw.
    + apply NoDup_cons in Hk as [Hk _]. apply Hk. by apply (list_elem_of_fmap_2 keys) in Hw.
Qed.

(** *** Update of a value *)

Lemma set_data_spec u macro_index i d :
  index_repr u macro_index -> (i < length u)%nat ->
  exists u' w, index_repr u' (macro_idx_set_data i d macro_index) /\ length u' = length u /\
             val (macro_idx_set_data i d macro_index !!! i) = w /\
             contents u' = <[keys (macro_index !!! i) := w]> (contents u).
Proof.
  intros (-> & Hs & Hl) Hi. unfold macro_idx_set_data. rewrite table_lookup_used by done.
  set (w := match type d with MACRO => _ | PROGRAM => _ end).
  destruct (lookup_lt_is_Some_2 u i Hi) as [x Hx].
  pose proof (take_drop_middle u i x Hx) as Hu.
  rewrite (list_lookup_total_correct _ _ _ Hx).
  assert (Hlo : length (take i u) = i) by (apply length_take_le; lia).
  set (lo := take i u) in *. set (hi := drop (S i) u) in *. clearbody lo hi. subst u i. clear Hx.
  destruct x as [k v]. cbn [keys]. unfold table. rewrite insert_app_l by done.
  rewrite (insert_app_r_alt lo), Nat.sub_diag by lia. cbn [insert list_insert].
  pose proof Hs as (Slo & (Hx & Shi & Hxh)%sorted_entries_cons & Hlh)%sorted_entries_app.
  assert (Hs0 : sorted_entries (lo ++ hi)).
  { apply sorted_entries_app. split_and!; [done..|]. intros y z Hy Hz. apply Hlh; [done|by right]. }
  assert (Hs' : sorted_entries (lo ++ mkIdxEntry k w :: hi)).
  { apply sorted_entries_app. split_and!; [done| |].
    - by apply sorted_entries_cons.
    - intros y z Hy [-> |Hz]%elem_of_cons; [|by apply Hlh; [|right]].
      apply (Hlh y (mkIdxEntry k v) Hy (list_elem_of_here _ _)). }
  exists (lo ++ mkIdxEntry k w :: hi), w. split_and!.
  - split_and!; [|done|rewrite length_app in *; done]. unfold table. by rewrite !length_app.
  - by rewrite !length_app.
  - rewrite lookup_total_app_l by (rewrite length_app in *; simpl in *; lia).
    by rewrite list_lookup_total_middle.
  - rewrite !contents_insert by done. by rewrite insert_insert_eq.
Qed.

(** *** Iteration *)

(** An iterator that replaces the value of the entry it visits maps over the used entries. *)
Lemma iterate_spec {S} u macro_index (s : S) f itr :
  index_repr u macro_index ->
  (forall e, keys (f e) = keys e) ->
  (forall i s idx, itr i (s, idx) = (s, <[i := f (idx !!! i)]> idx)) ->
  macro_idx_iterate itr (s, macro_index) = (s, table (map f u)) /\ index_repr (map f u) (table (map f u)).
Proof.
  intros (-> & Hs & Hl) Hf Hitr. split.
  - unfold macro_idx_iterate, table. rewrite length_map.
    cut (forall (pre l : list macro_idx_entry) fuel n, Forall entry_ok l -> (length l + n = fuel)%nat ->
      iterate_from fuel (length pre) itr (s, pre ++ l ++ replicate n empty_entry)
      = (s, pre ++ map f l ++ replicate n empty_entry)).
    { intros Hcut. apply (Hcut []); [apply Hs|lia]. }
    intros pre l fuel n Hok. revert pre fuel. induction Hok as [|e l He Hok IH]; intros pre fuel <-; cbn [length Nat.add].
    + destruct n; [done|]. cbn [iterate_from snd app map replicate].
      by rewrite list_lookup_total_middle.
    + cbn [iterate_from snd app map]. rewrite list_lookup_total_middle by done.
      destruct He as [_ He]. rewrite (proj2 (Z.eqb_neq _ _) He), Hitr.
      rewrite list_lookup_total_middle, insert_app_r_alt, Nat.sub_diag by lia.
      cbn [insert list_insert]. specialize (IH (pre ++ [f e]) _ eq_refl).
      rewrite length_app, <- !app_assoc in IH. cbn [length] in IH. rewrite Nat.add_1_r in IH.
      exact IH.
  - split_and!; [done| |by rewrite length_map].
    induction u as [|e u IH]; [split; constructor|].
    apply sorted_entries_cons in Hs as (He & Hu & Hb). cbn [map]. apply sorted_entries_cons.
    split_and!; [by unfold entry_ok; rewrite Hf|apply IH; [done|simpl in Hl; lia]|].
    intros y (z & -> & Hz)%list_elem_of_fmap. unfold before, entry_num. rewrite !Hf. by apply Hb.
Qed.

(** *** The default macros *)

Definition single_key (k : Z) : list Z := [k; NO_KEY; NO_KEY; NO_KEY].

Lemma single_key_valid k : 0 < k < NO_KEY -> valid_key (single_key k).
Proof. intros Hk. split; [split; [done|]|simpl; lia]. repeat constructor; lia. Qed.

(** What the scan of the default macros [pre] has found. *)
Definition best_def (pre : list macro_def_info) (low rv rv_lkey : Z) : Prop :=
  (rv = 0xff /\ rv_lkey = NO_KEY /\ (forall d, d ∈ pre -> lkey d <= low)) \/
  (0 <= rv < 0xff /\ low < rv_lkey /\ (exists d, pre !! Z.to_nat rv = Some d /\ lkey d = rv_lkey) /\
   (forall d, d ∈ pre -> low < lkey d -> rv_lkey <= lkey d)).

Lemma next_def_spec pre suf low rv rv_lkey m rest :
  Z.of_nat (length (pre ++ suf)) < 0xff -> Forall (fun d => 0 < lkey d < NO_KEY) (pre ++ suf) ->
  lkey m = NO_KEY -> best_def pre low rv rv_lkey ->
  exists rv_lkey', best_def (pre ++ suf) low
    (next_def_from (suf ++ m :: rest) low (Z.of_nat (length pre)) rv rv_lkey) rv_lkey'.
Proof.
  intros Hl Hd Hm. revert pre rv rv_lkey Hl Hd.
  induction suf as [|d suf IH]; intros pre rv rv_lkey Hl Hd Hb.
  - exists rv_lkey. cbn. by rewrite Hm, app_nil_r.
  - pose proof Hd as [_ [Hd0 _]%Forall_cons]%Forall_app. rewrite length_app in Hl. cbn [length] in Hl.
    cbn [app next_def_from]. rewrite (proj2 (Z.eqb_neq (lkey d) _)) by lia.
    rewrite u8_small by (unfold is_u8; lia).
    replace (Z.of_nat (length pre) + 1) with (Z.of_nat (length (pre ++ [d]))) by (rewrite length_app; simpl; lia).
    rewrite (cons_middle d), app_assoc in *. case_if.
    + apply IH; [rewrite !length_app; simpl; lia|done|]. right. split_and!; [lia|lia|lia| |].
      * exists d. rewrite Nat2Z.id. by rewrite list_lookup_middle.
      * intros e [He| ->%list_elem_of_singleton]%elem_of_app Hlow; [|done].
        destruct Hb as [(-> & -> & Hno)|(_ & _ & _ & Hmin)]; [specialize (Hno e He); lia|].
        specialize (Hmin e He Hlow). lia.
    + apply IH; [rewrite !length_app; simpl; lia|done|].
      assert (Hnb : ~ (low < lkey d /\ lkey d < rv_lkey)).
      { intros [Ha Hc]. apply andb_false_iff in Heqb as [E|E]; bsplit; lia. }
      destruct Hb as [(-> & -> & Hno)|(Hrv & Hlow & (e & He & Hk) & Hmin)]; [left|right].
      * split_and!; [done..|]. intros e [He| ->%list_elem_of_singleton]%elem_of_app; [by apply Hno|lia].
      * split; [done|]. split; [done|]. split.
        -- exists e. split; [|done]. by apply lookup_app_l_Some.
        -- intros e' [He'| ->%list_elem_of_singleton]%elem_of_app Hl'; [by apply Hmin|lia].
Qed.

Section Defaults.
Context (live rest : list macro_def_info) (m : macro_def_info).
Context (Hm : lkey m = NO_KEY) (Hlen : Z.of_nat (length live) < 0xff).
Context (Hlive : Forall (fun d => 0 < lkey d < NO_KEY) live) (Hnd : NoDup (map lkey live)).

Lemma get_next_spec low :
  low < NO_KEY -> exists k, best_def live low (get_next_macro_def_info_index (live ++ m :: rest) low) k.
Proof.
  intros Hlow. unfold get_next_macro_def_info_index. rewrite (proj2 (Z.eqb_neq low _)) by lia.
  apply (next_def_spec [] live low 0xff NO_KEY); [done|done|done|].
  left. split_and!; [done..|]. by intros d Hd%not_elem_of_nil.
Qed.

(** The entries written so far: the defaults with a trigger up to [low]. *)
Definition defaults_up_to (low : Z) (u : list macro_idx_entry) : Prop :=
  sorted_entries u /\
  (forall e, e ∈ u <-> exists j d, live !! j = Some d /\ lkey d <= low /\
                                 e = mkIdxEntry (single_key (lkey d)) (Z.of_nat j * 5)).

Lemma defaults_nil : defaults_up_to 0 [].
Proof.
  split; [split; constructor|]. intros e. rewrite elem_of_nil. split; [done|].
  intros (j & d & Hj & Hd & _). rewrite Forall_forall in Hlive.
  specialize (Hlive d (list_elem_of_lookup_2 _ _ _ Hj)). lia.
Qed.

Lemma defaults_snoc low u rv k :
  defaults_up_to low u -> best_def live low rv k -> rv <> 0xff ->
  lkey ((live ++ m :: rest) !!! Z.to_nat rv) = k /\ low < k < NO_KEY /\
  defaults_up_to k (u ++ [mkIdxEntry (single_key k) (rv * 5)]).
Proof.
  intros [Hs Hu] [(? & _)|(Hrv & Hlow & (d & Hd & Hk) & Hmin)] Hne; [done|].
  rewrite (list_lookup_total_correct (live ++ m :: rest) _ d) by (by apply lookup_app_l_Some).
  assert (Hr : 0 < k < NO_KEY).
  { rewrite <- Hk. rewrite Forall_forall in Hlive. by apply Hlive, list_elem_of_lookup_2 with (Z.to_nat rv). }
  split_and!; [done|done|lia|]. split.
  - apply sorted_entries_app. split_and!; [done| |].
    + apply sorted_entries_singleton. by apply single_key_valid.
    + intros x y Hx ->%list_elem_of_singleton. apply Hu in Hx as (j & d' & Hj & Hl & ->).
      unfold before, entry_num, key_num. cbn. lia.
  - intros e. rewrite elem_of_app, list_elem_of_singleton, Hu. split.
    + intros [(j & d' & Hj & Hl & ->)| ->]; [exists j, d'|exists (Z.to_nat rv), d]; split_and!; try done; [lia|lia|].
      rewrite Hk. f_equal. lia.
    + intros (j & d' & Hj & Hl & ->). destruct (Z_le_gt_dec (lkey d') low) as [Hd'|Hd'].
      { left. by exists j, d'. }
      right. assert (E : lkey d' = k).
      { specialize (Hmin d' (list_elem_of_lookup_2 _ _ _ Hj)). lia. }
      assert (j = Z.to_nat rv) as ->.
      { apply (NoDup_lookup (map lkey live) _ _ k); [done| |];
          rewrite list_lookup_fmap; [by rewrite Hj; simpl; f_equal|by rewrite Hd; simpl; f_equal]. }
      rewrite E. f_equal. lia.
Qed.

Lemma defaults_up_to_length low u : defaults_up_to low u -> (length u <= length live)%nat.
Proof.
  intros [Hs Hu]. apply sorted_entries_keys in Hs.
  rewrite <- (length_map keys), <- (length_map (fun d => single_key (lkey d)) live).
  apply NoDup_incl_length; [by apply NoDup_ListNoDup|].
  intros k (e & -> & He)%list_elem_of_In%list_elem_of_fmap. apply list_elem_of_In.
  apply Hu in He as (j & d & Hj & _ & ->). cbn [keys].
  apply (list_elem_of_fmap_2 (fun d => single_key (lkey d))). by apply list_elem_of_lookup_2 with j.
Qed.

Lemma reset_defaults_spec idx0 :
  length idx0 = INDEX_COUNT -> (length live < INDEX_COUNT)%nat ->
  exists u, index_repr u (macro_idx_reset_defaults (live ++ m :: rest) idx0) /\ defaults_up_to NO_KEY u.
Proof.
  intros Hl0 Hcap. unfold macro_idx_reset_defaults.
  pose (Inv := fun (i : nat) (s : Z * list macro_idx_entry) =>
    exists u, s.2 = u ++ replicate (i - length u) empty_entry ++ drop i idx0 /\ (length u <= i)%nat /\
              0 <= s.1 <= NO_KEY /\ (s.1 <> NO_KEY -> length u = i) /\ defaults_up_to s.1 u).
  assert (Hinv : Inv (0 + INDEX_COUNT)%nat
                   (for_range 0 INDEX_COUNT (reset_entry (live ++ m :: rest)) (0, idx0))).
  { apply for_range_ind.
    - exists []. split_and!; simpl; [done|lia|lia|lia|done|apply defaults_nil].
    - intros i [low idx] Hi (u & Eu & Hui & Hlow & Hfull & Hdef). cbn [fst snd] in *.
      unfold reset_entry.
      destruct (lookup_lt_is_Some_2 idx0 i ltac:(lia)) as [x Hx].
      rewrite (drop_S _ _ _ Hx) in Eu. subst idx. rewrite app_assoc.
      assert (Hi' : length (u ++ replicate (i - length u) empty_entry) = i)
        by (rewrite length_app, length_replicate; lia).
      assert (Hempty : defaults_up_to NO_KEY u -> Inv (S i)
        (NO_KEY, <[i:=empty_entry]> ((u ++ replicate (i - length u) empty_entry) ++ x :: drop (S i) idx0))).
      { intros Hd. exists u. cbn [fst snd]. split_and!; [|lia|lia|lia|done|apply Hd..].
        rewrite insert_app_r_alt by lia. rewrite Hi', Nat.sub_diag. cbn [insert list_insert].
        replace (S i - length u)%nat with (i - length u + 1)%nat by lia.
        rewrite replicate_add, <- !app_assoc. done. }
      destruct (Z.eq_dec low NO_KEY) as [->|Hne].
      { change (get_next_macro_def_info_index (live ++ m :: rest) NO_KEY) with 0xff. by apply Hempty. }
      destruct (get_next_spec low ltac:(lia)) as [k Hbest].
      set (rv := get_next_macro_def_info_index _ _) in *. case_if.
      + apply Hempty. destruct Hbest as [(_ & _ & Hno)|(? & _)]; [|lia].
        destruct Hdef as [Hs Hu]. split; [done|]. intros e. rewrite Hu.
        split; intros (j & d & Hj & Hd & ->); exists j, d; split_and!; try done; [lia|].
        apply Hno. by apply list_elem_of_lookup_2 with j.
      + destruct (defaults_snoc low u rv k Hdef Hbest Heqb) as (-> & Hk & Hdef').
        exists (u ++ [mkIdxEntry (single_key k) (rv * 5)]). cbn [fst snd]. rewrite length_app. cbn [length].
        rewrite (Hfull Hne), Nat.sub_diag, app_nil_r.
        split_and!; [|lia|lia|lia|lia|apply Hdef'..].
        rewrite (insert_app_r_alt u) by (rewrite (Hfull Hne); lia).
        rewrite (Hfull Hne), Nat.sub_diag. cbn [insert list_insert replicate].
        replace (S i - (i + 1))%nat with 0%nat by lia. cbn [replicate app]. by rewrite <- app_assoc. }
  destruct Hinv as (u & E & Hu & Hlow & Hfull & Hdef). cbn [Nat.add] in *.
  pose proof (defaults_up_to_length _ _ Hdef) as Hul.
  assert (Elow : (for_range 0 INDEX_COUNT (reset_entry (live ++ m :: rest)) (0, idx0)).1 = NO_KEY).
  { destruct (Z.eq_dec (for_range 0 INDEX_COUNT (reset_entry (live ++ m :: rest)) (0, idx0)).1 NO_KEY) as [|Hn];
      [done|]. specialize (Hfull Hn). lia. }
  rewrite Elow in Hdef. exists u. split; [|done]. split_and!; [|apply Hdef|done].
  rewrite E, drop_ge, app_nil_r by lia. done.
Qed.
End Defaults.
End Table.

(** ** The tag bit of a value *)

Lemma tag_bit d :
  0 <= d < 0x8000 ->
  Z.land d 0x8000 = 0 /\ Z.land d 0x7fff = d /\
  Z.land (Z.lor d 0x8000) 0x8000 = 0x8000 /\ Z.land (Z.lor d 0x8000) 0x7fff = d.
Proof.
  intros Hd. assert (H1 : Z.land d 0x7fff = d).
  { change 0x7fff with (Z.ones 15). rewrite Z.land_ones by lia. apply Z.mod_small. lia. }
  split_and!; [|done| |].
  - by rewrite <- H1, <- Z.land_assoc, Z.land_0_r.
  - apply Z.bits_inj'. intros n _. rewrite Z.land_spec, Z.lor_spec.
    by destruct (Z.testbit d n), (Z.testbit 0x8000 n).
  - by rewrite Z.land_lor_distr_l, H1, Z.lor_0_r.
Qed.

Lemma get_set_data i d idx :
  (i < length idx)%nat -> 0 <= data d < 0x8000 ->
  macro_idx_get_data i (macro_idx_set_data i d idx) = d.
Proof.
  intros Hi Hd. unfold macro_idx_get_data, macro_idx_set_data.
  rewrite list_lookup_total_insert_eq by done. cbn [val].
  destruct d as [[] d]; cbn [type data] in *; destruct (tag_bit d Hd) as (E1 & E2 & E3 & E4).
  - by rewrite E1, E2.
  - by rewrite E3, E4.
Qed.

(** ** Formatting a key combination *)

Lemma fill_no_key_spec pre l n :
  length l = n ->
  for_range (length pre) n (fun i key => <[i := NO_KEY]> key) (pre ++ l) = pre ++ replicate n NO_KEY.
Proof.
  intros <-. revert pre. induction l as [|x l IH]; intros pre; [done|].
  cbn [length replicate]. rewrite for_range_S, insert_app_r_alt, Nat.sub_diag by lia.
  cbn [insert list_insert]. specialize (IH (pre ++ [NO_KEY])).
  rewrite length_app, <- !app_assoc in IH. cbn [length] in IH. rewrite Nat.add_1_r in IH. exact IH.
Qed.

Lemma format_key_spec key n :
  length key = MACRO_MAX_KEYS -> (n <= MACRO_MAX_KEYS)%nat ->
  exists l, macro_idx_format_key key n
            = (negb ((l ++ replicate (MACRO_MAX_KEYS - n) NO_KEY) !!! 0%nat =? NO_KEY),
               l ++ replicate (MACRO_MAX_KEYS - n) NO_KEY) /\
            l ≡ₚ take n key /\ Sorted Z.le l.
Proof.
  intros Hk Hn. unfold macro_idx_format_key.
  destruct (insertionsort_spec key n) as (l & -> & Hp & Hs); [lia|]. exists l.
  assert (Hl : length l = n) by (rewrite Hp, length_take; lia).
  pose proof (fill_no_key_spec l (drop n key) (MACRO_MAX_KEYS - n)) as Hfill.
  rewrite Hl, length_drop, Hk in Hfill. by rewrite Hfill.
Qed.

(** The keys the caller puts into the array: logical key codes. *)
Definition combination (key : list Z) (n : nat) : Prop :=
  length key = MACRO_MAX_KEYS /\ (n <= MACRO_MAX_KEYS)%nat /\ Forall (fun k => 0 <= k < NO_KEY) (take n key).

Lemma format_key_valid key n :
  combination key n ->
  let '(valid, k) := macro_idx_format_key key n in
  valid = negb (n =? 0)%nat /\ (valid = true -> valid_key k) /\
  filter (fun x => x <> NO_KEY) k ≡ₚ take n key.
Proof.
  intros (Hk & Hn & Hf). destruct (format_key_spec key n Hk Hn) as (l & -> & Hp & _).
  assert (Hl : length l = n) by (rewrite Hp, length_take; lia).
  assert (Hf' : Forall (fun k => 0 <= k < NO_KEY) l) by (by rewrite Hp).
  assert (Hv : negb ((l ++ replicate (MACRO_MAX_KEYS - n) NO_KEY) !!! 0%nat =? NO_KEY) = negb (n =? 0)%nat).
  { destruct l as [|x l]; subst n; [done|]. cbn. apply Forall_cons in Hf' as [? _].
    rewrite (proj2 (Z.eqb_neq _ _)); [done|lia]. }
  split_and!; [done| |].
  - intros Ht. split; [split|].
    + rewrite length_app, length_replicate. lia.
    + apply Forall_app. split.
      * eapply Forall_impl; [exact Hf'|]. unfold is_u8. simpl. lia.
      * apply Forall_replicate. unfold is_u8. lia.
    + rewrite Hv in Ht. intros E. rewrite E in Hv. cbn in Hv. by rewrite Ht in Hv.
  - rewrite filter_app, (filter_none _ (replicate _ _)), app_nil_r.
    + rewrite filter_all; [done|]. eapply Forall_impl; [exact Hf'|]. simpl. lia.
    + apply Forall_replicate. by intros ?.
Qed.

(** ** The properties *)

(** C28: The macro index is a finite map. On a table whose used entries are a sorted prefix, the
    binary search returns the entry of a trigger exactly if the map has it; creating an absent
    trigger fails only on a full table and otherwise adds it and returns its entry; removing an
    entry deletes its trigger and nothing else; and the data set for an entry is the data read
    back and what the map then holds. Every operation leaves such a table. *)
Theorem macro_index_is_a_map `{H : Hardware, !HardwareOk H} u macro_index k :
  (0 < INDEX_COUNT)%nat -> index_repr u macro_index -> valid_key k ->
  match macro_idx_lookup k macro_index with
  | Some p => (p < length u)%nat /\ keys (macro_index !!! p) = k /\
              contents u !! k = Some (val (macro_index !!! p))
  | None =>
      contents u !! k = None /\
      let '(r, macro_index') := macro_idx_create k macro_index in
      match r with
      | None => length u = INDEX_COUNT /\ macro_index' = macro_index
      | Some r => exists u' v, index_repr u' macro_index' /\ length u' = S (length u) /\
                    (r < length u')%nat /\ keys (macro_index' !!! r) = k /\
                    val (macro_index' !!! r) = v /\ contents u' = <[k := v]> (contents u)
      end
  end /\
  (forall i, (i < length u)%nat ->
     (exists u', index_repr u' (macro_idx_remove i macro_index) /\ S (length u') = length u /\
        contents u' = delete (keys (macro_index !!! i)) (contents u)) /\
     (forall d, 0 <= data d < 0x8000 ->
        macro_idx_get_data i (macro_idx_set_data i d macro_index) = d /\
        exists u' w, index_repr u' (macro_idx_set_data i d macro_index) /\ length u' = length u /\
          val (macro_idx_set_data i d macro_index !!! i) = w /\
          contents u' = <[keys (macro_index !!! i) := w]> (contents u))).
Proof.
  intros Hc Hr Hk. split.
  - pose proof (lookup_spec u macro_index k Hr Hk) as Hlk.
    destruct (macro_idx_lookup k macro_index); [done|]. split; [done|].
    by apply create_spec.
  - intros i Hi. split; [by apply remove_spec|]. intros d Hd.
    split; [|by apply set_data_spec]. destruct Hr as (-> & _ & Hl).
    apply get_set_data; [rewrite table_length; lia|done].
Qed.

(** A table with two macros, on the K84CS. *)
Definition two_macros : list macro_idx_entry :=
  [mkIdxEntry [5; 7; NO_KEY; NO_KEY] 0; mkIdxEntry (single_key 9) 5].

Lemma two_macros_repr : index_repr two_macros (table two_macros).
Proof.
  split_and!; [done| |vm_compute; lia]. unfold two_macros.
  assert (H1 : valid_key [5; 7; NO_KEY; NO_KEY]).
  { split; [split; [done|]|by vm_compute]. repeat constructor; lia. }
  assert (H2 : valid_key (single_key 9)) by (apply single_key_valid; lia).
  apply sorted_entries_cons. split_and!; [done|by apply sorted_entries_singleton|].
  intros y ->%list_elem_of_singleton. by vm_compute.
Qed.

Lemma macro_index_is_a_map_witness :
  macro_idx_lookup (single_key 9) (table two_macros) = Some 1%nat /\
  macro_idx_lookup (single_key 3) (table two_macros) = None /\
  ((0 < length two_macros)%nat ->
   exists u', index_repr u' (macro_idx_remove 0 (table two_macros)) /\ S (length u') = 2%nat /\
     contents u' = delete [5; 7; NO_KEY; NO_KEY] (contents two_macros)).
Proof.
  split; [vm_compute; reflexivity|]. split; [vm_compute; reflexivity|]. intros Hl.
  assert (Hc : (0 < INDEX_COUNT)%nat) by (vm_compute; lia).
  assert (Hk : valid_key (single_key 3)) by (apply single_key_valid; lia).
  exact (proj1 (proj2 (macro_index_is_a_map two_macros (table two_macros) (single_key 3)
                         Hc two_macros_repr Hk) 0%nat Hl)).
Defined.

(** Formatting makes a combination canonical. A combination of at most four logical keys is
    accepted exactly if it has a key, and two combinations have the same formatted key exactly
    if they are permutations of each other: the order in which keys go down does not matter to
    the index, and different combinations never collide. *)
Theorem format_key_canonical (key1 key2 : list Z) (n1 n2 : nat) :
  combination key1 n1 -> combination key2 n2 ->
  (macro_idx_format_key key1 n1).1 = negb (n1 =? 0)%nat /\
  ((macro_idx_format_key key1 n1).1 = true -> valid_key (macro_idx_format_key key1 n1).2) /\
  ((macro_idx_format_key key1 n1).2 = (macro_idx_format_key key2 n2).2 <->
   take n1 key1 ≡ₚ take n2 key2).
Proof.
  intros H1 H2. pose proof (format_key_valid key1 n1 H1) as F1.
  pose proof (format_key_valid key2 n2 H2) as F2.
  destruct H1 as (Hk1 & Hn1 & _), H2 as (Hk2 & Hn2 & _).
  destruct (format_key_spec key1 n1 Hk1 Hn1) as (l1 & E1 & P1 & S1).
  destruct (format_key_spec key2 n2 Hk2 Hn2) as (l2 & E2 & P2 & S2).
  destruct (macro_idx_format_key key1 n1) as [v1 k1], (macro_idx_format_key key2 n2) as [v2 k2].
  destruct F1 as (-> & Hv & F1), F2 as (-> & _ & F2). cbn [fst snd] in *. split_and!; [done..|].
  split; intros E.
  - by rewrite <- F1, <- F2, E.
  - assert (l1 = l2) as -> by (apply Sorted_Permutation_eq; [done..|by rewrite P1, P2]).
    assert (n1 = n2) as En.
    { apply Permutation_length in E. rewrite !length_take in E. lia. }
    apply (f_equal snd) in E1, E2. cbn [snd] in *. by rewrite E1, E2, En.
Qed.

Lemma format_key_canonical_witness :
  (macro_idx_format_key [40; 12; 7; 7] 2).2 = [12; 40; NO_KEY; NO_KEY] /\
  ((macro_idx_format_key [40; 12; 7; 7] 2).1 = negb (2 =? 0)%nat /\
   ((macro_idx_format_key [40; 12; 7; 7] 2).1 = true -> valid_key (macro_idx_format_key [40; 12; 7; 7] 2).2) /\
   ((macro_idx_format_key [40; 12; 7; 7] 2).2 = (macro_idx_format_key [12; 40; 1; 1] 2).2 <->
    take 2 [40; 12; 7; 7] ≡ₚ take 2 [12; 40; 1; 1])).
Proof.
  split; [vm_compute; reflexivity|].
  apply (format_key_canonical [40; 12; 7; 7] [12; 40; 1; 1] 2 2); (split; [reflexivity|split; [lia|]]);
    apply (bool_decide_unpack _); vm_compute; exact I.
Defined.

(** Resetting the macro index makes it the table of the default macros: whatever it held,
    its entries are then exactly the single-key triggers of the default macros, in order, each
    with the offset at which [macros_reset_defaults] stores that macro. *)
Theorem index_defaults `{H : Hardware, !HardwareOk H} (live rest : list macro_def_info) (m : macro_def_info)
    (idx0 : list macro_idx_entry) :
  lkey m = NO_KEY -> Z.of_nat (length live) < 0xff ->
  Forall (fun d => 0 < lkey d < NO_KEY) live -> NoDup (map lkey live) ->
  length idx0 = INDEX_COUNT -> (length live < INDEX_COUNT)%nat ->
  exists u, index_repr u (macro_idx_reset_defaults (live ++ m :: rest) idx0) /\
    (forall k v, contents u !! k = Some v <->
       exists j d, live !! j = Some d /\ k = single_key (lkey d) /\ v = Z.of_nat j * 5).
Proof.
  intros Hm Hl Hf Hnd Hi Hc.
  destruct (reset_defaults_spec live rest m Hm Hl Hf Hnd idx0 Hi Hc) as (u & Hr & Hs & Hu).
  exists u. split; [done|]. intros k v. rewrite contents_lookup by done. rewrite Hu. split.
  - intros (j & d & Hj & _ & [= -> ->]). by exists j, d.
  - intros (j & d & Hj & -> & ->). exists j, d. split_and!; try done.
    rewrite Forall_forall in Hf. specialize (Hf d (list_elem_of_lookup_2 _ _ _ Hj)). lia.
Qed.

Lemma index_defaults_witness :
  let live := take 48 K84cs.macro_def_infos in
  exists u, index_repr u (macro_idx_reset_defaults (live ++ mkMacroDef NO_KEY [0; 0; 0] :: [])
                            (replicate INDEX_COUNT (mkIdxEntry [1; 2; 3; 4] 77))) /\
    (forall k v, contents u !! k = Some v <->
       exists j d, live !! j = Some d /\ k = single_key (lkey d) /\ v = Z.of_nat j * 5).
Proof.
  apply index_defaults.
  - reflexivity.
  - vm_compute. reflexivity.
  - apply (bool_decide_unpack _). vm_compute. exact I.
  - apply (bool_decide_unpack _). vm_compute. exact I.
  - reflexivity.
  - apply Nat.ltb_lt. vm_compute. reflexivity.
Defined.
