(* ===== verification/Storage.v ===== *)
(** * storage: the storage interface and its memory-mapped implementations

    src/storage.h selects, for each kind of data, a storage medium with a
    common set of operations.  [Storage] is that set and [StorageOk] the
    contract its clients rely on: a medium is an array of byte cells.  This
    file holds the contract and the media the processor reaches directly:
    src/storage/sram.h, src/storage/avr_eeprom.h and .c and
    src/storage/avr_pgm.h, over memories [mem].  The functions of avr-libc and
    of the C library they call ([eeprom_read_byte], [memcpy], ...) are those
    of the language's library: one byte cell after the other. *)

From S2P Require Import Prelude.

Abbreviation STORAGE_SUCCESS := 0%Z (only parsing).

(** ** The interface *)

Class Storage (M : Type) := {
  (* [None]: fewer bytes than asked for were read *)
  storage_read : Z -> nat -> M -> option (list Z) * M;
  (* the number of bytes written, or a negative number *)
  storage_write : Z -> list Z -> M -> Z * M;
  (* the error code *)
  storage_write_short : Z -> Z -> M -> Z * M;
  storage_memmove : Z -> Z -> nat -> M -> Z * M;
  storage_wait_for_last_write_end : M -> M;
  (* the streams of src/lufa: a block sent to the host, a block that comes from it *)
  Endpoint_Write_Control_Stream : Z -> nat -> M -> list Z * M;
  Endpoint_Read_Control_Stream : Z -> list Z -> M -> M;
  (* what the contract is about: the cells of a medium, the blocks within it, whether it works,
     and whether no write cycle is going on in it *)
  cell : M -> Z -> Z;
  in_medium : Z -> Z -> Prop;
  medium_ok : M -> Prop;
  medium_ready : M -> Prop
}.

(** A 16-bit word is stored low byte first. *)
Definition le16 (v : Z) : list Z := [u8 v; u8 (v / 256)].
Definition of_le16 (bs : list Z) : Z := bs !!! 0%nat + 256 * bs !!! 1%nat.

(** What the cells hold after [bs] has been put at [dst]. *)
Definition blit (dst : Z) (bs : list Z) (m : Z -> Z) (x : Z) : Z :=
  if (dst <=? x) && (x <? dst + Z.of_nat (length bs)) then bs !!! Z.to_nat (x - dst) else m x.

(** [len] bytes from [addr] on. *)
Definition bytes_at (addr : Z) (len : nat) (m : Z -> Z) : list Z := map m (seqZ addr (Z.of_nat len)).

(** A medium that works: reads return the cells, writes and moves set them.
    Reading needs a medium that is ready, the driver of a write sees to that
    itself; whoever reads after a write has to wait for its end.  Blocks are
    only moved to lower addresses. *)
Class StorageOk (M : Type) (S : Storage M) : Prop := {
  ready_is_ok m : medium_ready m -> medium_ok m;
  in_medium_sub a n a' n' : in_medium a n -> a <= a' -> 0 <= n' -> a' + n' <= a + n -> in_medium a' n';
  storage_read_ok a n m : medium_ready m -> (0 < n)%nat -> in_medium a (Z.of_nat n) ->
    (storage_read a n m).1 = Some (bytes_at a n (cell m)) /\ medium_ready (storage_read a n m).2 /\
    forall x, cell (storage_read a n m).2 x = cell m x;
  storage_write_ok a bs m : medium_ok m -> in_medium a (Z.of_nat (length bs)) -> Z.of_nat (length bs) < 32768 ->
    (storage_write a bs m).1 = Z.of_nat (length bs) /\ medium_ok (storage_write a bs m).2 /\
    forall x, cell (storage_write a bs m).2 x = blit a bs (cell m) x;
  storage_write_short_ok a v m : medium_ok m -> in_medium a 2 ->
    medium_ok (storage_write_short a v m).2 /\
    forall x, cell (storage_write_short a v m).2 x = blit a (le16 v) (cell m) x;
  storage_memmove_ok d s n m : medium_ok m -> d <= s -> in_medium d (Z.of_nat n) -> in_medium s (Z.of_nat n) ->
    (storage_memmove d s n m).1 = STORAGE_SUCCESS /\ medium_ok (storage_memmove d s n m).2 /\
    forall x, cell (storage_memmove d s n m).2 x = blit d (bytes_at s n (cell m)) (cell m) x;
  storage_wait_ok m : medium_ok m ->
    medium_ready (storage_wait_for_last_write_end m) /\
    forall x, cell (storage_wait_for_last_write_end m) x = cell m x;
  write_stream_ok a n m : medium_ready m -> in_medium a (Z.of_nat n) ->
    (Endpoint_Write_Control_Stream a n m).1 = bytes_at a n (cell m) /\
    medium_ready (Endpoint_Write_Control_Stream a n m).2 /\
    forall x, cell (Endpoint_Write_Control_Stream a n m).2 x = cell m x;
  read_stream_ok a bs m : medium_ok m -> bs <> [] -> in_medium a (Z.of_nat (length bs)) ->
    medium_ok (Endpoint_Read_Control_Stream a bs m) /\
    forall x, cell (Endpoint_Read_Control_Stream a bs m) x = blit a bs (cell m) x
}.

(** What a read gives.  A client that only reads (the interpreter) need not
    follow the state of a medium that is ready: see [reads_agree]. *)
Definition storage_peek {M} `{Storage M} (a : Z) (n : nat) (m : M) : option (list Z) := (storage_read a n m).1.

(** ** Memories *)

Definition mem : Type := Z -> Z.

Definition upd (a v : Z) (m : mem) : mem := fun x => if x =? a then v else m x.

(** Copying a block cell by cell: avr-libc's [eeprom_update_block]. *)
Fixpoint copy_bytes (dst : Z) (bs : list Z) (m : mem) : mem :=
  match bs with
  | [] => m
  | b :: bs => copy_bytes (dst + 1) bs (upd dst b m)
  end.

(** ** sram *)

Definition sram_write (dst : Z) (data : list Z) (m : mem) : Z * mem :=
  (Z.of_nat (length data), copy_bytes dst data m).
Definition sram_write_byte (dst b : Z) (m : mem) : Z * mem := (0, upd dst b m).
Definition sram_write_short (dst v : Z) (m : mem) : Z * mem := (0, copy_bytes dst (le16 v) m).
Definition sram_write_step (dst : Z) (data : list Z) (last : bool) (m : mem) : Z * mem :=
  (u8 (Z.of_nat (length data)), copy_bytes dst data m).
Definition sram_read (addr : Z) (len : nat) (m : mem) : option (list Z) := Some (bytes_at addr len m).
Definition sram_read_byte (addr : Z) (m : mem) : Z := m addr.
(** The return type is [uint8_t], although the word has 16 bits. *)
Definition sram_read_short (addr : Z) (m : mem) : Z := u8 (of_le16 (bytes_at addr 2 m)).
Definition sram_memmove (dst src : Z) (count : nat) (m : mem) : Z * mem :=
  (0, copy_bytes dst (bytes_at src count m) m).
Definition sram_memset (dst c : Z) (len : nat) (m : mem) : Z * mem :=
  (0, copy_bytes dst (replicate len (u8 c)) m).

(** ** avr_eeprom *)

Definition avr_eeprom_write (dst : Z) (data : list Z) (m : mem) : Z * mem :=
  (s16 (Z.of_nat (length data)), copy_bytes dst data m).
Definition avr_eeprom_write_byte (dst b : Z) (m : mem) : Z * mem := (0, upd dst b m).
Definition avr_eeprom_write_short (dst v : Z) (m : mem) : Z * mem := (0, copy_bytes dst (le16 v) m).
Definition avr_eeprom_write_step (dst : Z) (data : list Z) (last : bool) (m : mem) : Z * mem :=
  (0, copy_bytes dst data m).
Definition avr_eeprom_read (addr : Z) (len : nat) (m : mem) : option (list Z) := Some (bytes_at addr len m).
Definition avr_eeprom_read_byte (addr : Z) (m : mem) : Z := m addr.
Definition avr_eeprom_read_short (addr : Z) (m : mem) : Z := of_le16 (bytes_at addr 2 m).

(** The loop of [avr_eeprom_memmove]: cursors and direction. *)
Fixpoint memmove_loop (count : nat) (direction dst_bytes src_bytes : Z) (m : mem) : mem :=
  match count with
  | O => m
  | S count =>
      let m := (avr_eeprom_write_byte dst_bytes (avr_eeprom_read_byte src_bytes m) m).2 in
      memmove_loop count direction (dst_bytes + direction) (src_bytes + direction) m
  end.

Definition avr_eeprom_memmove (dst src : Z) (count : nat) (m : mem) : Z * mem :=
  if src <? dst
  then (0, memmove_loop count (-1) (dst + (Z.of_nat count - 1)) (src + (Z.of_nat count - 1)) m)
  else (0, memmove_loop count 1 dst src m).

Definition avr_eeprom_memset (dst c : Z) (len : nat) (m : mem) : Z * mem :=
  (0, for_range 0 len (fun i m => upd (dst + Z.of_nat i) c m) m).

(** ** avr_pgm: constants in flash *)

Definition avr_pgm_read (addr : Z) (len : nat) (m : mem) : list Z :=
  for_range 0 len (fun i dst => dst ++ [m (addr + Z.of_nat i)]) [].
Definition avr_pgm_read_byte (addr : Z) (m : mem) : Z := m addr.
Definition avr_pgm_read_short (addr : Z) (m : mem) : Z := of_le16 (bytes_at addr 2 m).

(** ** The cells after each operation *)

Lemma bytes_at_length a n m : length (bytes_at a n m) = n.
Proof. unfold bytes_at. rewrite length_map, length_seqZ. lia. Qed.

Lemma bytes_at_lookup a n m i : (i < n)%nat -> bytes_at a n m !!! i = m (a + Z.of_nat i).
Proof.
  intros Hi. apply list_lookup_total_correct. unfold bytes_at.
  rewrite list_lookup_fmap, lookup_seqZ_lt by lia. done.
Qed.

Lemma bytes_at_S a n m : bytes_at a (S n) m = m a :: bytes_at (a + 1) n m.
Proof. unfold bytes_at. rewrite seqZ_cons by lia. cbn [map]. do 3 f_equal; lia. Qed.

Lemma bytes_at_ext a n m m' :
  (forall x, a <= x < a + Z.of_nat n -> m x = m' x) -> bytes_at a n m = bytes_at a n m'.
Proof.
  intros Hx. apply map_ext_in. intros x Hin. apply list_elem_of_In, elem_of_seqZ in Hin. apply Hx. lia.
Qed.

Lemma bytes_at_app a n1 n2 m :
  bytes_at a (n1 + n2) m = bytes_at a n1 m ++ bytes_at (a + Z.of_nat n1) n2 m.
Proof. unfold bytes_at. by rewrite Nat2Z.inj_add, seqZ_app, map_app by lia. Qed.

(** The parts of a block that is known. *)
Lemma bytes_at_slice a m pre bs post :
  bytes_at a (length (pre ++ bs ++ post)) m = pre ++ bs ++ post ->
  bytes_at (a + Z.of_nat (length pre)) (length bs) m = bs.
Proof.
  rewrite !length_app, !bytes_at_app. intros E.
  apply app_inj_1 in E as [_ E]; [|apply bytes_at_length].
  apply app_inj_1 in E as [E _]; [done|apply bytes_at_length].
Qed.

Lemma blit_out d bs m x : ~ (d <= x < d + Z.of_nat (length bs)) -> blit d bs m x = m x.
Proof. intros Hx. unfold blit. by case_if; [lia|]. Qed.

Lemma blit_in d bs m x :
  d <= x < d + Z.of_nat (length bs) -> blit d bs m x = bs !!! Z.to_nat (x - d).
Proof. intros Hx. unfold blit. case_if; [done|]. apply andb_false_iff in Heqb as [E|E]; bsplit; lia. Qed.

(** Reading back a block that has been put. *)
Lemma bytes_at_blit d bs m : bytes_at d (length bs) (blit d bs m) = bs.
Proof.
  apply list_eq_same_length with (length bs); [done|apply bytes_at_length|].
  intros i x y Hi Hx Hy. apply list_lookup_total_correct in Hx, Hy.
  rewrite bytes_at_lookup, blit_in in Hx by lia.
  replace (Z.to_nat (d + Z.of_nat i - d)) with i in Hx by lia. congruence.
Qed.

Lemma blit_ext d bs m m' x : m x = m' x -> blit d bs m x = blit d bs m' x.
Proof. intros Hm. unfold blit. by case_if. Qed.

(** Two blocks next to each other are one block. *)
Lemma blit_app d bs bs' m x :
  blit (d + Z.of_nat (length bs)) bs' (blit d bs m) x = blit d (bs ++ bs') m x.
Proof.
  destruct (decide (d + Z.of_nat (length bs) <= x < d + Z.of_nat (length bs) + Z.of_nat (length bs')))
    as [Hx|Hx].
  - rewrite !blit_in by (rewrite ?length_app; lia).
    rewrite lookup_total_app_r by lia. f_equal. lia.
  - rewrite blit_out by done. destruct (decide (d <= x < d + Z.of_nat (length bs))).
    + rewrite !blit_in by (rewrite ?length_app; lia). by rewrite lookup_total_app_l by lia.
    + by rewrite !blit_out by (rewrite ?length_app; lia).
Qed.

Lemma blit_nil d m x : blit d [] m x = m x.
Proof. apply blit_out. cbn. lia. Qed.

Lemma take_drop_blit n dst (buf : list Z) c x :
  0 <= n <= Z.of_nat (length buf) ->
  blit (dst + n) (drop (Z.to_nat n) buf) (blit dst (take (Z.to_nat n) buf) c) x = blit dst buf c x.
Proof.
  intros Hn. rewrite <- (take_drop (Z.to_nat n) buf) at 3. rewrite <- blit_app, length_take.
  do 2 f_equal. lia.
Qed.

Lemma bytes_at_blit_below d bs s n m :
  d + Z.of_nat (length bs) <= s -> bytes_at s n (blit d bs m) = bytes_at s n m.
Proof. intros Hd. apply bytes_at_ext. intros x Hx. apply blit_out. lia. Qed.

Lemma le16_of v : is_u16 v -> of_le16 (le16 v) = v.
Proof. intros Hv. unfold of_le16, le16, u8, is_u16 in *. cbn. dlia. Qed.

Lemma copy_bytes_cell bs d m x : copy_bytes d bs m x = blit d bs m x.
Proof.
  revert d m. induction bs as [|b bs IH]; intros d m; cbn [copy_bytes].
  - by rewrite blit_out by (simpl; lia).
  - rewrite IH. destruct (decide (d + 1 <= x < d + 1 + Z.of_nat (length bs))) as [Hx|Hx].
    + rewrite !blit_in by (simpl; lia).
      replace (Z.to_nat (x - d)) with (S (Z.to_nat (x - (d + 1)))) by lia. done.
    + rewrite blit_out by done. unfold upd. destruct (Z.eqb_spec x d) as [->|].
      * rewrite blit_in by (simpl; lia). by rewrite Z.sub_diag.
      * rewrite blit_out by (simpl; lia). done.
Qed.

(** Both directions of the copy loop move the block, provided the loop does not
    overwrite a cell it has yet to read. *)
Lemma memmove_loop_up n d s m x :
  d <= s -> memmove_loop n 1 d s m x = blit d (bytes_at s n m) m x.
Proof.
  revert d s m. induction n as [|n IH]; intros d s m Hds; cbn [memmove_loop].
  - by rewrite blit_out by (simpl; lia).
  - rewrite IH by lia. cbn [avr_eeprom_write_byte snd]. unfold avr_eeprom_read_byte.
    rewrite bytes_at_S, <- (copy_bytes_cell (_ :: _)). cbn [copy_bytes]. rewrite copy_bytes_cell.
    rewrite (bytes_at_ext (s + 1) n (upd d (m s) m) m); [done|].
    intros y Hy. unfold upd. by rewrite (proj2 (Z.eqb_neq _ _)) by lia.
Qed.

Lemma memmove_loop_down n d s m x :
  s < d ->
  memmove_loop n (-1) (d + (Z.of_nat n - 1)) (s + (Z.of_nat n - 1)) m x = blit d (bytes_at s n m) m x.
Proof.
  revert m. induction n as [|n IH]; intros m Hds; cbn [memmove_loop].
  - by rewrite blit_out by (simpl; lia).
  - cbn [avr_eeprom_write_byte snd]. unfold avr_eeprom_read_byte.
    replace (d + (Z.of_nat (S n) - 1) + -1) with (d + (Z.of_nat n - 1)) by lia.
    replace (s + (Z.of_nat (S n) - 1) + -1) with (s + (Z.of_nat n - 1)) by lia.
    rewrite IH by done.
    rewrite (bytes_at_ext s n _ m) by
      (intros y Hy; unfold upd; rewrite (proj2 (Z.eqb_neq _ _)) by lia; done).
    destruct (decide (d <= x < d + Z.of_nat n)) as [Hx|Hx].
    + rewrite !blit_in by (rewrite bytes_at_length; lia). rewrite !bytes_at_lookup by lia. done.
    + rewrite blit_out by (rewrite bytes_at_length; lia). unfold upd.
      destruct (Z.eqb_spec x (d + (Z.of_nat (S n) - 1))) as [->|].
      * rewrite blit_in by (rewrite bytes_at_length; lia). rewrite bytes_at_lookup by lia. f_equal. lia.
      * rewrite blit_out by (rewrite bytes_at_length; lia). done.
Qed.

Lemma avr_eeprom_memmove_spec d s n m :
  (avr_eeprom_memmove d s n m).1 = STORAGE_SUCCESS /\
  forall x, (avr_eeprom_memmove d s n m).2 x = blit d (bytes_at s n m) m x.
Proof.
  unfold avr_eeprom_memmove. case_if; (split; [done|]); intros x; cbn [snd].
  - by apply memmove_loop_down.
  - by apply memmove_loop_up.
Qed.

Lemma avr_eeprom_memset_spec d c n m x :
  (avr_eeprom_memset d c n m).2 x = blit d (replicate n c) m x.
Proof.
  unfold avr_eeprom_memset. cbn [snd].
  cut (for_range 0 n (fun i m => upd (d + Z.of_nat i) c m) m x = blit d (replicate n c) m x); [done|].
  induction n as [|n IH].
  - by rewrite blit_out by (simpl; lia).
  - rewrite for_range_snoc. cbn [Nat.add]. unfold upd at 1.
    destruct (Z.eqb_spec x (d + Z.of_nat n)) as [->|Hx].
    + rewrite blit_in by (rewrite length_replicate; lia). symmetry. apply lookup_total_replicate_2. lia.
    + rewrite IH. destruct (decide (d <= x < d + Z.of_nat n)).
      * rewrite !blit_in by (rewrite length_replicate; lia). by rewrite !lookup_total_replicate_2 by lia.
      * by rewrite !blit_out by (rewrite length_replicate; lia).
Qed.

(** ** The media implement the interface *)

(** The internal eeprom: the processor waits for a write to end before the
    next access, so it is always ready. *)
#[export] Instance avr_eeprom_storage : Storage mem := {|
  storage_read := fun a n m => (avr_eeprom_read a n m, m);
  storage_write := avr_eeprom_write;
  storage_write_short := avr_eeprom_write_short;
  storage_memmove := avr_eeprom_memmove;
  storage_wait_for_last_write_end := fun m => m;
  Endpoint_Write_Control_Stream := fun a n m => (bytes_at a n m, m);
  Endpoint_Read_Control_Stream := copy_bytes;
  cell := fun m => m;
  in_medium := fun _ _ => True;
  medium_ok := fun _ => True;
  medium_ready := fun _ => True
|}.

#[export] Instance avr_eeprom_ok : StorageOk mem avr_eeprom_storage.
Proof.
  split; cbn [storage_read storage_write storage_write_short storage_memmove storage_wait_for_last_write_end
    Endpoint_Write_Control_Stream Endpoint_Read_Control_Stream cell in_medium medium_ok medium_ready
    avr_eeprom_storage fst snd]; intros; try done.
  - split; [apply s16_small; unfold is_s16; lia|]. split; [done|]. intros x. apply copy_bytes_cell.
  - split; [done|]. intros x. apply copy_bytes_cell.
  - destruct (avr_eeprom_memmove_spec d s n m) as [E Hc]. done.
  - split; [done|]. intros x. apply copy_bytes_cell.
Qed.

(** Reads one after the other give what each would give alone. *)
Fixpoint read_all {M} `{Storage M} (rs : list (Z * nat)) (m : M) : list (option (list Z)) * M :=
  match rs with
  | [] => ([], m)
  | (a, n) :: rs =>
      let '(x, m) := storage_read a n m in
      let '(xs, m) := read_all rs m in (x :: xs, m)
  end.

Lemma reads_agree {M} `{StorageOk M} (rs : list (Z * nat)) (m : M) :
  medium_ready m -> Forall (fun r => (0 < r.2)%nat /\ in_medium r.1 (Z.of_nat r.2)) rs ->
  (read_all rs m).1 = map (fun r => storage_peek r.1 r.2 m) rs /\ medium_ready (read_all rs m).2.
Proof.
  intros Hm Hrs. cut ((read_all rs m).1 = map (fun r => Some (bytes_at r.1 r.2 (cell m))) rs /\
                      medium_ready (read_all rs m).2).
  { intros [E Hr]. split; [|done]. rewrite E. apply map_ext_in. intros [a n] Hin%list_elem_of_In.
    rewrite Forall_forall in Hrs. destruct (Hrs _ Hin) as [Hn Hi]. symmetry. by apply storage_read_ok. }
  revert m Hm. induction Hrs as [|[a n] rs [Hn Hi] _ IH]; intros m Hm; [done|]. cbn [read_all].
  destruct (storage_read_ok a n m Hm Hn Hi) as (E1 & Hm1 & Ec).
  destruct (storage_read a n m) as [x m1]. cbn [fst snd] in *. destruct (IH m1 Hm1) as [E2 Hm2].
  destruct (read_all rs m1) as [xs m2]. cbn [fst snd map] in *. split; [|done]. rewrite E1, E2. f_equal.
  apply map_ext. intros r. f_equal. by apply bytes_at_ext.
Qed.

Lemma avr_pgm_read_spec a n m : avr_pgm_read a n m = bytes_at a n m.
Proof.
  unfold avr_pgm_read. induction n as [|n IH]; [done|].
  rewrite for_range_snoc, IH. cbn [Nat.add]. unfold bytes_at.
  replace (Z.of_nat (S n)) with (Z.of_nat n + 1) by lia.
  rewrite seqZ_app, map_app by lia. done.
Qed.

Lemma read_written d bs m : bytes_at d (length bs) (copy_bytes d bs m) = bs.
Proof.
  transitivity (bytes_at d (length bs) (blit d bs m)); [|apply bytes_at_blit].
  apply bytes_at_ext. intros x _. apply copy_bytes_cell.
Qed.

(** ** The properties *)

(** The internal eeprom behaves like memory. Its byte-by-byte [memmove], which picks its
    direction from the addresses, has the effect of the C library's on overlapping and disjoint
    ranges alike, as has [memset]; a word reads back as written; flash reads give the cells. *)
Theorem eeprom_behaves_like_memory (d s c v : Z) (n : nat) (m : mem) :
  is_u8 c -> is_u16 v ->
  (forall x, (avr_eeprom_memmove d s n m).2 x = (sram_memmove d s n m).2 x) /\
  (forall x, (avr_eeprom_memset d c n m).2 x = (sram_memset d c n m).2 x) /\
  avr_eeprom_read_short d (avr_eeprom_write_short d v m).2 = v /\
  avr_eeprom_read d n m = Some (avr_pgm_read d n m).
Proof.
  intros Hc Hv. split_and!.
  - intros x. cbn [sram_memmove snd]. rewrite copy_bytes_cell. apply avr_eeprom_memmove_spec.
  - intros x. cbn [sram_memset snd]. rewrite copy_bytes_cell, u8_small by done.
    apply avr_eeprom_memset_spec.
  - unfold avr_eeprom_read_short. cbn [avr_eeprom_write_short snd].
    rewrite (read_written d (le16 v) m : bytes_at d 2 _ = _). by apply le16_of.
  - unfold avr_eeprom_read. by rewrite avr_pgm_read_spec.
Qed.

Lemma eeprom_behaves_like_memory_witness :
  (avr_eeprom_memmove 3 1 4 (fun x => x * 10)).2 6 = 40 /\
  (avr_eeprom_memmove 1 3 4 (fun x => x * 10)).2 1 = 30 /\
  ((forall x, (avr_eeprom_memmove 3 1 4 (fun x => x * 10)).2 x = (sram_memmove 3 1 4 (fun x => x * 10)).2 x) /\
   (forall x, (avr_eeprom_memset 3 7 4 (fun x => x * 10)).2 x = (sram_memset 3 7 4 (fun x => x * 10)).2 x) /\
   avr_eeprom_read_short 3 (avr_eeprom_write_short 3 513 (fun x => x * 10)).2 = 513 /\
   avr_eeprom_read 3 4 (fun x => x * 10) = Some (avr_pgm_read 3 4 (fun x => x * 10))).
Proof.
  split; [vm_compute; reflexivity|]. split; [vm_compute; reflexivity|].
  apply (eeprom_behaves_like_memory 3 1 7 513 4 (fun x => x * 10)); vm_compute; split; congruence.
Defined.

(** [sram_read_short] does not read back a word: it returns only the low byte of what
    [sram_write_short] has stored, because its declared result is a [uint8_t]. *)
Theorem sram_short_truncated (a v : Z) (m : mem) :
  is_u16 v -> sram_read_short a (sram_write_short a v m).2 = v mod 256.
Proof.
  intros Hv. unfold sram_read_short. cbn [sram_write_short snd].
  rewrite (read_written a (le16 v) m : bytes_at a 2 _ = _). by rewrite le16_of.
Qed.

Lemma sram_short_truncated_witness :
  sram_read_short 9 (sram_write_short 9 513 (fun _ => 0)).2 = 513 mod 256.
Proof. apply (sram_short_truncated 9 513 (fun _ => 0)). vm_compute. split; congruence. Defined.
