(* ===== verification/Macro.v ===== *)
(** * macro.c: recording, storing and playing macros

    The macro heap in [MACROS_STORAGE] and the recording and playback state of
    src/macro.c, over any storage medium ([Storage]).  The heap starts at
    address [macros_storage] with the 16-bit end offset, followed by the macros
    packed one after the other, each a 16-bit length and that many key events.
    Pointers into the storage are addresses, 0 is the null pointer.  The index
    ([MacroIndex]) maps triggers to offsets in the heap. *)

From S2P Require Import Prelude Hid Hardware ExtraReport MacroIndex Storage.

Abbreviation BUZZER_SUCCESS_TONE := 90%Z (only parsing).
Abbreviation BUZZER_FAILURE_TONE := 220%Z (only parsing).

(** [struct _macro_recording_state]; [index_entry] is an index into the table. *)
Record recording_state_t := mkRecording {
  macro : Z;
  rec_cursor : Z;
  index_entry : option nat
}.

(** [memset(&recording_state, 0x0, ...)] *)
Definition no_recording : recording_state_t := mkRecording 0 0 None.

(** [struct _macro_playback_state] *)
Record playback_state_t := mkPlayback {
  remaining : Z;
  play_cursor : Z;
  play_report : ExtraKeyboardReport
}.

Section Macro.
Context {H : Hardware} {M : Type} {St : Storage M}.
(** The address of [macros_storage] in the medium. *)
Context (macros_storage : Z).

(** The state of the file, the index it works on, and the calls of [buzzer_start_f]. *)
Record macro_state := mkMacro {
  storage : M;
  macro_index : list macro_idx_entry;
  recording_state : recording_state_t;
  playback_state : playback_state_t;
  buzzes : list (Z * Z)
}.

Definition set_storage (m : M) (s : macro_state) : macro_state :=
  mkMacro m (macro_index s) (recording_state s) (playback_state s) (buzzes s).
Definition set_index (i : list macro_idx_entry) (s : macro_state) : macro_state :=
  mkMacro (storage s) i (recording_state s) (playback_state s) (buzzes s).
Definition set_recording (r : recording_state_t) (s : macro_state) : macro_state :=
  mkMacro (storage s) (macro_index s) r (playback_state s) (buzzes s).
Definition set_playback (p : playback_state_t) (s : macro_state) : macro_state :=
  mkMacro (storage s) (macro_index s) (recording_state s) p (buzzes s).
Definition buzzer_start_f (ms tone : Z) (s : macro_state) : macro_state :=
  mkMacro (storage s) (macro_index s) (recording_state s) (playback_state s) (buzzes s ++ [(ms, tone)]).

Definition macros_end_offset : Z := macros_storage.
Definition macros : Z := macros_storage + 2.

(** [macro_storage_read_var] for 16-bit variables; [None] is [goto err]. *)
Definition read_var16 (ptr : Z) (s : macro_state) : option Z * macro_state :=
  let '(r, m) := storage_read ptr 2 (storage s) in
  (match r with Some bs => Some (of_le16 bs) | None => None end, set_storage m s).

(** [storage_wait_for_last_write_end(MACROS_STORAGE)] *)
Definition wait (s : macro_state) : macro_state :=
  set_storage (storage_wait_for_last_write_end (storage s)) s.

(** [macro_storage_write_var]; [false] is [goto err]. *)
Definition write_var (ptr : Z) (bs : list Z) (s : macro_state) : bool * macro_state :=
  let '(r, m) := storage_write ptr bs (storage s) in
  (r =? Z.of_nat (length bs), set_storage m s).

(** [macros_reset_defaults]: one iteration of the loop; the state holds whether
    the loop has been left, by its test or by a failed write, and [i]. *)
Definition reset_macro (defs : list macro_def_info) (s : bool * Z * macro_state) : bool * Z * macro_state :=
  let '(stop, i, s) := s in
  if stop then (stop, i, s)
  else
    let d := defs !!! Z.to_nat i in
    if lkey d =? NO_KEY then (true, i, s)
    else
      let tmp := le16 MACRO_DEF_HKEYS ++ hkeys d in
      let sizeof_tmp := MACRO_DATA_HEADER_LEN + MACRO_DEF_HKEYS in
      let s := wait s in
      let '(r, m) := storage_write (macros + i * sizeof_tmp) tmp (storage s) in
      if r =? sizeof_tmp then (false, u16 (i + 1), set_storage m s) else (true, i, set_storage m s).

(** The loop stops at the end marker, so within [length defs] iterations. *)
Definition macros_reset_defaults (defs : list macro_def_info) (s : macro_state) : macro_state :=
  let '(_, i, s) := for_range 0 (length defs) (fun _ => reset_macro defs) (false, 0, s) in
  let i := u16 (i * (MACRO_DATA_HEADER_LEN + MACRO_DEF_HKEYS)) in
  let s := wait s in
  set_storage (storage_write_short macros_end_offset i (storage s)).2 s.

Definition macros_get_macro_pointer (offset : Z) : Z := macros + offset.

(** [macro_shift_down_iterator] *)
Definition macro_shift_down_iterator (range_offset range_len : Z) (entry : nat)
    (index : list macro_idx_entry) : list macro_idx_entry :=
  let d := macro_idx_get_data entry index in
  match type d with
  | PROGRAM => index
  | MACRO =>
      if data d >? range_offset
      then macro_idx_set_data entry (mkIdxData MACRO (u16 (data d - range_len))) index
      else index
  end.

Definition shift_down (range_offset range_len : Z) (s : macro_state) : macro_state :=
  let '(_, index) := macro_idx_iterate
    (fun entry '(_, index) => (tt, macro_shift_down_iterator range_offset range_len entry index))
    (tt, macro_index s) in
  set_index index s.

Definition delete_macro_data (idx_entry : nat) (s : macro_state) : bool * macro_state :=
  let idx_data := macro_idx_get_data idx_entry (macro_index s) in
  match type idx_data with
  | PROGRAM => (true, s)
  | MACRO =>
      let entry_offset := data idx_data in
      let entry := macros + entry_offset in
      match read_var16 macros_end_offset s with
      | (None, s) => (false, s)
      | (Some end_offset, s) =>
          match read_var16 entry s with
          | (None, s) => (false, s)
          | (Some entry_len, s) =>
              let entry_len := u16 (entry_len + MACRO_DATA_HEADER_LEN) in
              let rest_offset := u16 (entry_offset + entry_len) in
              let rest_len := u16 (end_offset - rest_offset) in
              let '(ok, s) :=
                if negb (rest_len =? 0) then
                  let '(err, m) := storage_memmove (macros + entry_offset) (macros + rest_offset)
                                     (Z.to_nat rest_len) (storage s) in
                  let s := set_storage m s in
                  if negb (err =? STORAGE_SUCCESS) then (false, s)
                  else (true, shift_down entry_offset entry_len s)
                else (true, s) in
              if negb ok then (false, s)
              else write_var macros_end_offset (le16 (u16 (end_offset - entry_len))) (wait s)
          end
      end
  end.

(** The error exit of [macros_start_macro]. *)
Definition start_failed (s : macro_state) : bool * macro_state :=
  (false, set_recording no_recording (buzzer_start_f 200 BUZZER_FAILURE_TONE s)).

Definition macros_start_macro (key : list Z) (s : macro_state) : bool * macro_state :=
  let '(found, s) :=
    match macro_idx_lookup key (macro_index s) with
    | Some entry =>
        let '(ok, s) := delete_macro_data entry s in
        if ok then (Some entry, wait s) else (None, s)
    | None =>
        let '(r, index) := macro_idx_create key (macro_index s) in
        (r, set_index index s)
    end in
  match found with
  | None => start_failed s
  | Some entry =>
      match read_var16 macros_end_offset s with
      | (None, s) => start_failed s
      | (Some off, s) =>
          let s := set_index (macro_idx_set_data entry (mkIdxData MACRO off) (macro_index s)) s in
          let p := macros_get_macro_pointer off in
          (true, set_recording (mkRecording p (p + MACRO_DATA_HEADER_LEN) (Some entry)) s)
      end
  end.

(** Removing a null entry is out of the table: nothing the model describes. *)
Definition remove_entry (e : option nat) (s : macro_state) : macro_state :=
  match e with
  | Some i => set_index (macro_idx_remove i (macro_index s)) s
  | None => s
  end.

Definition macros_commit_macro (s : macro_state) : macro_state :=
  let err s := buzzer_start_f 200 BUZZER_FAILURE_TONE s in
  let r := recording_state s in
  if macro r =? 0 then err s
  else
    let macro_len := u16 (rec_cursor r - (macro r + MACRO_DATA_HEADER_LEN)) in
    if macro_len =? 0 then set_recording no_recording (remove_entry (index_entry r) s)
    else
      let '(ok, s) := write_var (macro r) (le16 macro_len) s in
      if negb ok then err s
      else
        match read_var16 macros_end_offset (wait s) with
        | (None, s) => err s
        | (Some end_offset, s) =>
            let end_offset := u16 (end_offset + (macro_len + MACRO_DATA_HEADER_LEN)) in
            let '(ok, s) := write_var macros_end_offset (le16 end_offset) s in
            if negb ok then err s
            else set_recording no_recording (buzzer_start_f 200 BUZZER_SUCCESS_TONE s)
        end.

Definition macros_abort_macro (s : macro_state) : macro_state :=
  set_recording no_recording (remove_entry (index_entry (recording_state s)) s).

Definition macros_append (event : Z) (s : macro_state) : bool * macro_state :=
  let r := recording_state s in
  let s := set_recording (mkRecording (macro r) (rec_cursor r + 1) (index_entry r)) s in
  write_var (rec_cursor r) [event] s.

Definition macros_start_playback (macro_offset : Z) (s : macro_state) : bool * macro_state :=
  let macro := macros_get_macro_pointer macro_offset in
  let p := playback_state s in
  let p := mkPlayback (remaining p) (macro + MACRO_DATA_HEADER_LEN)
             ExtraKeyboardReport_clear in
  let s := set_playback p s in
  match read_var16 macro s with
  | (None, s) => (false, s)
  | (Some n, s) => (true, set_playback (mkPlayback n (play_cursor p) (play_report p)) s)
  end.

Definition macros_fill_next_report (report : KeyboardReport_Data_t) (s : macro_state)
    : bool * KeyboardReport_Data_t * macro_state :=
  let p := playback_state s in
  if negb (remaining p =? 0) then
    let p' := mkPlayback (remaining p - 1) (play_cursor p + 1) (play_report p) in
    let s := set_playback p' s in
    let '(r, m) := storage_read (play_cursor p) 1 (storage s) in
    let s := set_storage m s in
    match r with
    | None => (false, report, buzzer_start_f 200 BUZZER_FAILURE_TONE s)
    | Some bs =>
        let event := bs !!! 0%nat in
        let er := ExtraKeyboardReport_toggle (play_report p') event in
        let s := set_playback (mkPlayback (remaining p') (play_cursor p') er) s in
        (negb (remaining p' =? 0), ExtraKeyboardReport_append er report, s)
    end
  else (false, report, s).
End Macro.
