(* ===== verification/MacroProofs.v ===== *)
(** * Correctness of the macro heap

    The heap as a list of macros, the triggers as a map from keys to macros and
    programs, and the theorems that recording, deleting and aborting change
    that map at the recorded trigger only, and that playback presses the keys
    that were recorded. *)

From stdpp Require Import gmap.
From S2P Require Import Prelude Hid Hardware ExtraReport MacroIndex Storage Macro K84cs.

(** ** The heap as a list of macros *)

Definition chunk (ev : list Z) : list Z := le16 (Z.of_nat (length ev)) ++ ev.
Definition flat (ms : list (list Z)) : list Z := concat (map chunk ms).
Definition flat_len (ms : list (list Z)) : Z := Z.of_nat (length (flat ms)).
Definition chunk_len (ev : list Z) : Z := Z.of_nat (length ev) + 2.

(** The macro at offset [v]. *)
Fixpoint macro_at (ms : list (list Z)) (v : Z) : option (list Z) :=
  match ms with
  | [] => None
  | e :: ms => if v =? 0 then Some e else macro_at ms (v - chunk_len e)
  end.

Lemma chunk_length ev : Z.of_nat (length (chunk ev)) = chunk_len ev.
Proof. unfold chunk, chunk_len. rewrite length_app. cbn [length le16]. lia. Qed.

Lemma flat_len_nil : flat_len [] = 0.
Proof. done. Qed.

Lemma flat_app a b : flat (a ++ b) = flat a ++ flat b.
Proof. unfold flat. by rewrite map_app, concat_app. Qed.

Lemma flat_len_app a b : flat_len (a ++ b) = flat_len a + flat_len b.
Proof. unfold flat_len. rewrite flat_app, length_app. lia. Qed.

Lemma flat_len_cons e b : flat_len (e :: b) = chunk_len e + flat_len b.
Proof. unfold flat_len, flat. cbn [map concat]. rewrite length_app, <- chunk_length. lia. Qed.

Lemma flat_len_nonneg a : 0 <= flat_len a.
Proof. unfold flat_len. lia. Qed.

Lemma chunk_len_pos e : 2 <= chunk_len e.
Proof. unfold chunk_len. lia. Qed.

Ltac flat_lia :=
  repeat match goal with
  | |- context [flat_len (_ ++ _)] => rewrite flat_len_app
  | |- context [flat_len (_ :: _)] => rewrite flat_len_cons
  | |- context [flat_len []] => rewrite flat_len_nil
  | H : context [flat_len (_ ++ _)] |- _ => rewrite flat_len_app in H
  | H : context [flat_len (_ :: _)] |- _ => rewrite flat_len_cons in H
  | H : context [flat_len []] |- _ => rewrite flat_len_nil in H
  end;
  repeat match goal with
  | |- context [flat_len ?a] =>
      lazymatch goal with H : 0 <= flat_len a |- _ => fail | _ => pose proof (flat_len_nonneg a) end
  | H : context [flat_len ?a] |- _ =>
      lazymatch goal with H : 0 <= flat_len a |- _ => fail | _ => pose proof (flat_len_nonneg a) end
  | |- context [chunk_len ?a] =>
      lazymatch goal with H : 2 <= chunk_len a |- _ => fail | _ => pose proof (chunk_len_pos a) end
  | H : context [chunk_len ?a] |- _ =>
      lazymatch goal with H : 2 <= chunk_len a |- _ => fail | _ => pose proof (chunk_len_pos a) end
  end; lia.

Lemma macro_at_split ms v e :
  macro_at ms v = Some e <-> exists a b, ms = a ++ e :: b /\ v = flat_len a.
Proof.
  revert v. induction ms as [|x ms IH]; intros v; cbn [macro_at].
  - split; [done|]. by intros ([] & b & ? & _).
  - case_if.
    + subst v. split.
      * intros [= ->]. by exists [], ms.
      * intros ([|y a] & b & [= <- ->] & E); [done|]. flat_lia.
    + rewrite IH. split.
      * intros (a & b & -> & E). exists (x :: a), b. split; [done|]. flat_lia.
      * intros ([|y a] & b & [= <- ->] & E); [done|]. exists a, b. split; [done|]. flat_lia.
Qed.

Lemma macro_at_bound ms v : is_Some (macro_at ms v) -> 0 <= v <= flat_len ms - 2.
Proof. intros [e (a & b & -> & ->)%macro_at_split]. flat_lia. Qed.

Lemma macro_at_end ms : macro_at ms (flat_len ms) = None.
Proof. apply eq_None_not_Some. intros Hs%macro_at_bound. lia. Qed.

Lemma macro_at_snoc ms e v :
  macro_at (ms ++ [e]) v = if v =? flat_len ms then Some e else macro_at ms v.
Proof.
  revert v. induction ms as [|x ms IH]; intros v; cbn [app macro_at].
  - rewrite flat_len_nil. by case_if.
  - rewrite flat_len_cons. destruct (Z.eqb_spec v 0) as [->|Hv].
    + rewrite (proj2 (Z.eqb_neq 0 _)); [done|flat_lia].
    + rewrite IH. destruct (Z.eqb_spec (v - chunk_len x) (flat_len ms)), (Z.eqb_spec v (chunk_len x + flat_len ms));
        (done || lia).
Qed.

(** The offset a macro moves to when the macro [e] at [o] is deleted. *)
Definition shifted (o : Z) (e : list Z) (v : Z) : Z := if v >? o then v - chunk_len e else v.

Lemma macro_at_delete a e b v :
  is_Some (macro_at (a ++ e :: b) v) -> v <> flat_len a ->
  macro_at (a ++ b) (shifted (flat_len a) e v) = macro_at (a ++ e :: b) v /\
  (flat_len a < v -> flat_len a + chunk_len e <= v).
Proof.
  intros [x Hx] Hv. rewrite Hx. apply macro_at_split in Hx as (a' & b' & E & ->).
  unfold shifted. rewrite (macro_at_split (a ++ b)).
  apply app_eq_inv in E as [(k & -> & Ek)|(k & -> & Ek)]; destruct k as [|y k]; simplify_list_eq.
  - split; [|flat_lia].
    destruct (Z.gtb_spec (flat_len a') (flat_len (a' ++ y :: k))); [flat_lia|].
    by exists a', (k ++ b).
  - split; [|flat_lia].
    destruct (Z.gtb_spec (flat_len (a ++ y :: k)) (flat_len a)); [|flat_lia].
    exists (a ++ k), b'. rewrite <- app_assoc. split; [done|flat_lia].
Qed.

(** ** Triggers *)

(** The heap offset an index entry holds, if it is a macro's. *)
Definition offset_of (e : macro_idx_entry) : option Z :=
  if Z.land (val e) 0x8000 =? 0 then Some (Z.land (val e) 0x7fff) else None.

(** What an entry triggers: the events of a macro, or a program. *)
Definition meaning (ms : list (list Z)) (e : macro_idx_entry) : option (list Z + Z) :=
  match offset_of e with
  | Some v => inl <$> macro_at ms v
  | None => Some (inr (Z.land (val e) 0x7fff))
  end.

Definition trigger (ms : list (list Z)) (u : list macro_idx_entry) (k : list Z) : option (list Z + Z) :=
  match contents u !! k with
  | Some v => meaning ms (mkIdxEntry k v)
  | None => None
  end.

(** The macro entries other than that of [rk] are offsets of macros, each its own. *)
Definition index_ok (rk : list Z) (ms : list (list Z)) (u : list macro_idx_entry) : Prop :=
  (forall e v, e ∈ u -> keys e <> rk -> offset_of e = Some v -> is_Some (macro_at ms v)) /\
  (forall e1 e2 v, e1 ∈ u -> e2 ∈ u -> keys e1 <> rk -> keys e2 <> rk ->
     offset_of e1 = Some v -> offset_of e2 = Some v -> keys e1 = keys e2).

(** No entry is excepted: keys have four bytes. *)
Definition no_key : list Z := [].

Lemma get_data_offset i idx :
  macro_idx_get_data i idx =
  match offset_of (idx !!! i) with
  | Some v => mkIdxData MACRO v
  | None => mkIdxData PROGRAM (Z.land (val (idx !!! i)) 0x7fff)
  end.
Proof. unfold macro_idx_get_data, offset_of. by destruct (Z.land (val (idx !!! i)) 0x8000 =? 0). Qed.

Lemma offset_of_macro k v : 0 <= v < 0x8000 -> offset_of (mkIdxEntry k v) = Some v.
Proof. intros Hv. unfold offset_of. cbn [val]. by destruct (tag_bit v Hv) as (-> & -> & _). Qed.

Lemma offset_of_range e v : offset_of e = Some v -> 0 <= v < 0x8000.
Proof.
  unfold offset_of. case_if; [|done]. intros [= <-].
  change 0x7fff with (Z.ones 15). rewrite Z.land_ones by lia. apply Z.mod_pos_bound. lia.
Qed.

(** The entry after macros above [off] have moved down by [len]. *)
Definition shift_entry (off len : Z) (e : macro_idx_entry) : macro_idx_entry :=
  match offset_of e with
  | Some v => if v >? off then mkIdxEntry (keys e) (u16 (v - len)) else e
  | None => e
  end.

Lemma shift_entry_keys off len e : keys (shift_entry off len e) = keys e.
Proof. unfold shift_entry. destruct (offset_of e); [by case_if|done]. Qed.

Lemma shift_iterator_spec off len i idx :
  macro_shift_down_iterator off len i idx = <[i := shift_entry off len (idx !!! i)]> idx.
Proof.
  unfold macro_shift_down_iterator, shift_entry. rewrite get_data_offset.
  assert (Hid : <[i := idx !!! i]> idx = idx).
  { destruct (Nat.lt_ge_cases i (length idx)) as [Hi|Hi].
    - apply list_insert_id. by apply lookup_total_lookup.
    - by apply list_insert_ge. }
  destruct (offset_of (idx !!! i)); cbn [type data]; [|done]. by case_if.
Qed.

Lemma shift_entry_offset a e b x v :
  flat_len (a ++ e :: b) < 0x8000 -> offset_of x = Some v ->
  is_Some (macro_at (a ++ e :: b) v) -> v <> flat_len a ->
  offset_of (shift_entry (flat_len a) (chunk_len e) x) = Some (shifted (flat_len a) e v).
Proof.
  intros Hmax Ho Hs Hv. unfold shift_entry, shifted. rewrite Ho.
  destruct (macro_at_delete a e b v Hs Hv) as [_ Hge]. apply macro_at_bound in Hs.
  case_if; [|done]. pose proof (flat_len_nonneg a). specialize (Hge ltac:(lia)).
  pose proof (chunk_len_pos e).
  rewrite u16_small by (unfold is_u16; lia). apply offset_of_macro. lia.
Qed.

Lemma shift_entry_meaning a e b x :
  flat_len (a ++ e :: b) < 0x8000 ->
  (forall v, offset_of x = Some v -> is_Some (macro_at (a ++ e :: b) v) /\ v <> flat_len a) ->
  meaning (a ++ b) (shift_entry (flat_len a) (chunk_len e) x) = meaning (a ++ e :: b) x.
Proof.
  intros Hmax Hx. unfold meaning at 1. destruct (offset_of x) as [v|] eqn:Ho.
  - destruct (Hx v eq_refl) as [Hs Hv].
    rewrite (shift_entry_offset a e b x v) by done. unfold meaning. rewrite Ho.
    by destruct (macro_at_delete a e b v Hs Hv) as [-> _].
  - unfold shift_entry. rewrite Ho. unfold meaning. by rewrite Ho.
Qed.

Lemma trigger_elem ms u x :
  sorted_entries u -> x ∈ u -> trigger ms u (keys x) = meaning ms x.
Proof.
  intros Hs Hx. unfold trigger. destruct x as [k v]. cbn [keys].
  by rewrite (proj2 (contents_lookup u k v Hs) Hx).
Qed.

Lemma trigger_none ms u k : sorted_entries u -> (forall x, x ∈ u -> keys x <> k) -> trigger ms u k = None.
Proof.
  intros Hs Hx. unfold trigger. destruct (contents u !! k) as [v|] eqn:E; [|done].
  apply contents_lookup in E; [|done]. by apply Hx in E.
Qed.

Lemma key_decide (u : list macro_idx_entry) k :
  (exists x, x ∈ u /\ keys x = k) \/ (forall x, x ∈ u -> keys x <> k).
Proof.
  destruct (decide (k ∈ map keys u)) as [(x & -> & Hx)%list_elem_of_fmap|Hn]; [left; by exists x|right].
  intros x Hx <-. apply Hn. by apply list_elem_of_fmap_2.
Qed.

(** Deleting the macro of the entry with key [rk] from the heap changes no other trigger. *)
Lemma shift_entries_ok rk a e b u :
  flat_len (a ++ e :: b) < 0x8000 -> sorted_entries u -> sorted_entries (map (shift_entry (flat_len a) (chunk_len e)) u) ->
  index_ok no_key (a ++ e :: b) u ->
  (exists x, x ∈ u /\ keys x = rk /\ offset_of x = Some (flat_len a)) ->
  index_ok rk (a ++ b) (map (shift_entry (flat_len a) (chunk_len e)) u) /\
  (forall k, k <> rk -> trigger (a ++ b) (map (shift_entry (flat_len a) (chunk_len e)) u) k
                        = trigger (a ++ e :: b) u k).
Proof.
  intros Hmax Hs Hs' [Hok Hinj] (r & Hr & Hrk & Hro).
  assert (Hnk : forall x, x ∈ u -> keys x <> no_key).
  { intros x Hx E. destruct Hs as [Hs _]. rewrite Forall_forall in Hs. destruct (Hs x Hx) as [[Hl _] _].
    by rewrite E in Hl. }
  assert (Hother : forall x v, x ∈ u -> keys x <> rk -> offset_of x = Some v ->
             is_Some (macro_at (a ++ e :: b) v) /\ v <> flat_len a).
  { intros x v Hx Hk Ho. split; [eapply Hok; eauto|]. intros ->. apply Hk. rewrite <- Hrk.
    eapply Hinj; eauto. }
  split; [split|].
  - intros y v (x & -> & Hx)%list_elem_of_fmap Hk Ho. rewrite shift_entry_keys in Hk.
    destruct (offset_of x) as [w|] eqn:Hw.
    + destruct (Hother x w Hx Hk Hw) as [Hsm Hv].
      rewrite (shift_entry_offset a e b x w) in Ho by done. injection Ho as <-.
      destruct (macro_at_delete a e b w Hsm Hv) as [-> _]. done.
    + unfold shift_entry in Ho. rewrite Hw in Ho. congruence.
  - intros y1 y2 v (x1 & -> & Hx1)%list_elem_of_fmap (x2 & -> & Hx2)%list_elem_of_fmap.
    rewrite !shift_entry_keys. intros Hk1 Hk2 Ho1 Ho2.
    destruct (offset_of x1) as [w1|] eqn:Hw1.
    2: { unfold shift_entry in Ho1. rewrite Hw1 in Ho1. congruence. }
    destruct (offset_of x2) as [w2|] eqn:Hw2.
    2: { unfold shift_entry in Ho2. rewrite Hw2 in Ho2. congruence. }
    destruct (Hother x1 w1 Hx1 Hk1 Hw1) as [Hs1 Hv1]. destruct (Hother x2 w2 Hx2 Hk2 Hw2) as [Hs2 Hv2].
    rewrite (shift_entry_offset a e b x1 w1) in Ho1 by done.
    rewrite (shift_entry_offset a e b x2 w2) in Ho2 by done.
    assert (w1 = w2) as ->; [|eapply Hinj; eauto].
    destruct (macro_at_delete a e b w1 Hs1 Hv1) as [_ G1]. destruct (macro_at_delete a e b w2 Hs2 Hv2) as [_ G2].
    unfold shifted in *. injection Ho1 as <-. injection Ho2 as Ho2.
    destruct (Z.gtb_spec w1 (flat_len a)), (Z.gtb_spec w2 (flat_len a)); lia.
  - intros k Hk. destruct (key_decide u k) as [(x & Hx & <-)|Hn].
    + rewrite (trigger_elem _ u x) by done. rewrite <- (shift_entry_keys (flat_len a) (chunk_len e) x).
      rewrite trigger_elem; [|done|by apply list_elem_of_fmap_2].
      apply shift_entry_meaning; [done|]. intros v Hv. by apply (Hother x).
    + rewrite !trigger_none; try done. intros y (x & -> & Hx)%list_elem_of_fmap.
      rewrite shift_entry_keys. by apply Hn.
Qed.

(** ** Transfer between index tables *)

Lemma sorted_entries_same_keys u u' :
  map keys u = map keys u' -> sorted_entries u -> sorted_entries u'.
Proof.
  revert u'. induction u as [|x u IH]; intros [|x' u']; try done. cbn [map]. intros [= Hk Hu] Hs.
  apply sorted_entries_cons in Hs as (Hx & Hs & Hb). apply sorted_entries_cons.
  split_and!; [by unfold entry_ok; rewrite <- Hk|by apply IH|].
  intros y Hy. assert (keys y ∈ map keys u) as (z & Hz & Hzu)%list_elem_of_fmap.
  { rewrite Hu. by apply list_elem_of_fmap_2. }
  specialize (Hb z Hzu). unfold before, entry_num in *. by rewrite <- Hk, Hz.
Qed.

Lemma keys_not_no_key u x : sorted_entries u -> x ∈ u -> keys x <> no_key.
Proof.
  intros [Hs _] Hx E. rewrite Forall_forall in Hs. destruct (Hs x Hx) as [[Hl _] _]. by rewrite E in Hl.
Qed.

Lemma index_ok_weaken rk ms u u' :
  index_ok no_key ms u -> sorted_entries u -> (forall y, y ∈ u' -> keys y <> rk -> y ∈ u) ->
  index_ok rk ms u'.
Proof.
  intros [H1 H2] Hs Hsub. split.
  - intros e v He Hk. pose proof (Hsub e He Hk). apply H1; [done|]. by apply (keys_not_no_key u).
  - intros e1 e2 v He1 He2 Hk1 Hk2. pose proof (Hsub e1 He1 Hk1). pose proof (Hsub e2 He2 Hk2).
    apply H2; [done..| |]; by apply (keys_not_no_key u).
Qed.

Lemma index_ok_subset rk ms u u' :
  index_ok rk ms u -> (forall y, y ∈ u' -> keys y <> rk -> y ∈ u) -> index_ok rk ms u'.
Proof.
  intros [H1 H2] Hsub. split.
  - intros e v He Hk. apply H1; [by apply Hsub|done].
  - intros e1 e2 v He1 He2 Hk1 Hk2. apply H2; [by apply Hsub|by apply Hsub|done..].
Qed.

Lemma trigger_ext ms u u' k :
  sorted_entries u -> sorted_entries u' -> (forall y, keys y = k -> y ∈ u <-> y ∈ u') ->
  trigger ms u k = trigger ms u' k.
Proof.
  intros Hs Hs' Hy. unfold trigger.
  assert (contents u !! k = contents u' !! k) as ->; [|done].
  apply option_eq. intros v. rewrite !contents_lookup by done. by apply Hy.
Qed.

(** Tables whose contents differ at [k] only have the same other entries. *)
Lemma contents_elem u u' k v y :
  sorted_entries u -> sorted_entries u' -> contents u' = <[k := v]> (contents u) -> keys y <> k ->
  y ∈ u <-> y ∈ u'.
Proof.
  intros Hs Hs' Hc Hk. destruct y as [k' v']. cbn [keys] in Hk.
  rewrite <- (contents_lookup u), <- (contents_lookup u'), Hc by done. by rewrite lookup_insert_ne.
Qed.

Lemma contents_elem_delete u u' k y :
  sorted_entries u -> sorted_entries u' -> contents u' = delete k (contents u) ->
  y ∈ u' <-> y ∈ u /\ keys y <> k.
Proof.
  intros Hs Hs' Hc. destruct y as [k' v'].
  rewrite <- (contents_lookup u), <- (contents_lookup u'), Hc by done. cbn [keys].
  rewrite lookup_delete_Some. split; intros [? ?]; (split; [done|]); congruence.
Qed.

Lemma same_key_entry u x i :
  sorted_entries u -> x ∈ u -> (i < length u)%nat -> keys x = keys (u !!! i) -> x = u !!! i.
Proof.
  intros Hs Hx Hi Hk.
  assert (Hv : forall y, y ∈ u -> contents u !! keys y = Some (val y)).
  { intros [k v] Hy. by apply contents_lookup. }
  pose proof (Hv x Hx) as E1. pose proof (Hv (u !!! i) ltac:(by apply list_elem_of_lookup_total_2)) as E2.
  rewrite Hk in E1. destruct x as [k v], (u !!! i) as [k' v']. cbn in *. congruence.
Qed.

Section Update.
Context `{H : Hardware, !HardwareOk H}.

(** Setting the data of an entry to a macro offset. *)
Lemma set_macro_data u i v :
  index_repr u (table u) -> (i < length u)%nat ->
  let u' := <[i := mkIdxEntry (keys (u !!! i)) v]> u in
  macro_idx_set_data i (mkIdxData MACRO v) (table u) = table u' /\ index_repr u' (table u') /\
  length u' = length u /\ u' !!! i = mkIdxEntry (keys (u !!! i)) v /\
  (forall y, keys y <> keys (u !!! i) -> y ∈ u <-> y ∈ u').
Proof.
  intros (_ & Hs & Hl) Hi u'. assert (Hl' : length u' = length u) by apply length_insert.
  assert (Hx : u' !!! i = mkIdxEntry (keys (u !!! i)) v) by (by apply list_lookup_total_insert_eq).
  assert (Hk : map keys u = map keys u').
  { unfold u'. rewrite (list_fmap_insert keys). symmetry. apply list_insert_id.
    rewrite list_lookup_fmap. by rewrite lookup_total_lookup. }
  assert (Hs' : sorted_entries u') by (by apply (sorted_entries_same_keys u)).
  split; [|split; [split_and!; [done|apply Hs'..|lia]|split; [done|split; [done|]]]].
  - unfold macro_idx_set_data, table. cbn [type data]. rewrite lookup_total_app_l, Hl' by done.
    unfold u'. by rewrite insert_app_l.
  - intros y Hy. split; intros Hin.
    + apply list_elem_of_lookup in Hin as [j Hj]. apply list_elem_of_lookup. exists j. unfold u'.
      rewrite list_lookup_insert_ne; [done|]. intros <-. apply Hy.
      by rewrite (list_lookup_total_correct _ _ _ Hj).
    + apply list_elem_of_lookup in Hin as [j Hj]. apply list_elem_of_lookup. exists j.
      unfold u' in Hj. rewrite list_lookup_insert_ne in Hj; [done|]. intros <-.
      rewrite list_lookup_insert_eq in Hj by done. injection Hj as <-. by apply Hy.
Qed.
End Update.

(** ** The operations *)

Section Operations.
Context `{H : Hardware, !HardwareOk H} {M : Type} {St : Storage M} {Ok : StorageOk M St}.
Context (macros_storage : Z) (Hbase : 0 <= macros_storage).

Notation macros := (macros macros_storage).

(** The cells hold the macros [ms] and their end offset. *)
Definition heap_repr (ms : list (list Z)) (c : Z -> Z) : Prop :=
  bytes_at macros_storage 2 c = le16 (flat_len ms) /\
  bytes_at macros (length (flat ms)) c = flat ms /\ flat_len ms < 0x8000.

(** The medium works and the heap with the macros [ms] is in it. *)
Definition heap_on (ms : list (list Z)) (m : M) : Prop :=
  heap_repr ms (cell m) /\ in_medium macros_storage (2 + flat_len ms) /\ medium_ok m.

(** [m'] is [m] after operations that have not changed the cells. *)
Definition same_cells (m m' : M) : Prop := forall x, cell m' x = cell m x.

Lemma heap_repr_ext ms c c' : (forall x, c' x = c x) -> heap_repr ms c -> heap_repr ms c'.
Proof.
  intros Hc (H1 & H2 & H3).
  split_and!; [rewrite <- H1; by apply bytes_at_ext|rewrite <- H2 at 2; by apply bytes_at_ext|done].
Qed.

Lemma heap_on_same ms m m' : same_cells m m' -> medium_ok m' -> heap_on ms m -> heap_on ms m'.
Proof. intros Hc Ho (H1 & H2 & _). split; [by eapply heap_repr_ext|done]. Qed.

Lemma read_var16_ok ptr v (s : macro_state (M:=M)) :
  medium_ready (storage s) -> in_medium ptr 2 ->
  bytes_at ptr 2 (cell (storage s)) = le16 v -> is_u16 v ->
  exists m, read_var16 ptr s = (Some v, set_storage m s) /\ medium_ready m /\ same_cells (storage s) m.
Proof.
  intros Hm Hi Hb Hv. unfold read_var16.
  destruct (storage_read_ok ptr 2 (storage s) Hm ltac:(lia) Hi) as (E & H1 & H2).
  destruct (storage_read _ _ _) as [x m]. cbn [fst snd] in *. subst x. exists m. by rewrite Hb, le16_of.
Qed.

Lemma write_var_ok ptr bs (s : macro_state (M:=M)) :
  medium_ok (storage s) -> in_medium ptr (Z.of_nat (length bs)) -> Z.of_nat (length bs) < 32768 ->
  exists m, write_var ptr bs s = (true, set_storage m s) /\ medium_ok m /\
            forall x, cell m x = blit ptr bs (cell (storage s)) x.
Proof.
  intros Ho Hi Hl. unfold write_var. destruct (storage_write_ok ptr bs (storage s) Ho Hi Hl) as (Hr & Hm).
  destruct (storage_write ptr bs (storage s)) as [r m]. cbn [fst snd] in *. exists m.
  by rewrite Hr, Z.eqb_refl.
Qed.

Lemma wait_ok (s : macro_state (M:=M)) :
  medium_ok (storage s) ->
  exists m, wait s = set_storage m s /\ medium_ready m /\ same_cells (storage s) m.
Proof. intros Ho. destruct (storage_wait_ok (storage s) Ho) as [H1 H2]. by eexists. Qed.

(** The end offset is outside the macros. *)
Lemma write_end_offset ms c c' n :
  (forall x, c' x = blit macros_storage (le16 n) c x) ->
  bytes_at macros_storage 2 c' = le16 n /\ bytes_at macros (length (flat ms)) c' = bytes_at macros (length (flat ms)) c.
Proof.
  intros Hc. split.
  - rewrite <- (bytes_at_blit macros_storage (le16 n) c). by apply bytes_at_ext.
  - apply bytes_at_ext. intros x Hx. rewrite Hc. apply blit_out. unfold Macro.macros in Hx. cbn [le16 length]. lia.
Qed.

Lemma heap_end ms s :
  heap_on ms (storage s) -> medium_ready (storage s) ->
  exists m, read_var16 macros_storage s = (Some (flat_len ms), set_storage m s) /\ medium_ready m /\
    same_cells (storage s) m.
Proof.
  intros ((He & _ & Hl) & Hi & _) Hr. pose proof (flat_len_nonneg ms).
  apply read_var16_ok; [done| |done|unfold is_u16; lia]. by eapply in_medium_sub; [exact Hi|lia..].
Qed.

Lemma heap_chunk a e b c :
  heap_repr (a ++ e :: b) c ->
  bytes_at (macros + flat_len a) (length (chunk e)) c = chunk e /\
  bytes_at macros (length (flat a)) c = flat a /\
  bytes_at (macros + flat_len a + chunk_len e) (length (flat b)) c = flat b.
Proof.
  intros (_ & Hf & _).
  assert (E : flat (a ++ e :: b) = flat a ++ chunk e ++ flat b) by (by rewrite flat_app). rewrite E in Hf.
  split_and!.
  - by apply (bytes_at_slice macros c (flat a) (chunk e) (flat b)).
  - pose proof (bytes_at_slice macros c [] (flat a) (chunk e ++ flat b) Hf) as Hs.
    by rewrite Z.add_0_r in Hs.
  - pose proof (bytes_at_slice macros c (flat a ++ chunk e) (flat b) []) as Hs.
    rewrite app_nil_r, <- app_assoc in Hs. specialize (Hs Hf).
    rewrite length_app, Nat2Z.inj_add, chunk_length in Hs. unfold flat_len.
    by rewrite <- Z.add_assoc.
Qed.

Lemma heap_entry_len a e b (s : macro_state (M:=M)) :
  heap_on (a ++ e :: b) (storage s) -> medium_ready (storage s) ->
  exists m, read_var16 (macros + flat_len a) s = (Some (Z.of_nat (length e)), set_storage m s) /\
    medium_ready m /\ same_cells (storage s) m.
Proof.
  intros (Hh & Hi & _) Hr. pose proof (heap_chunk a e b _ Hh) as (Hc & _). destruct Hh as (_ & _ & Hl).
  rewrite flat_len_app, flat_len_cons in Hl, Hi. pose proof (flat_len_nonneg a). pose proof (flat_len_nonneg b).
  unfold chunk_len in Hl, Hi. apply read_var16_ok; [done| | |unfold is_u16; lia].
  - eapply in_medium_sub; [exact Hi|unfold Macro.macros; lia..].
  - unfold chunk in Hc. rewrite length_app, bytes_at_app in Hc.
    apply app_inj_1 in Hc as [Hc _]; [done|by rewrite bytes_at_length].
Qed.

(** Moving the rest of the heap down over the chunk of [e] and updating the end. *)
Lemma heap_delete a e b c c' c'' :
  heap_repr (a ++ e :: b) c ->
  (forall x, c' x = blit (macros + flat_len a) (bytes_at (macros + flat_len a + chunk_len e) (length (flat b)) c) c x) ->
  (forall x, c'' x = blit macros_storage (le16 (flat_len (a ++ b))) c' x) ->
  heap_repr (a ++ b) c''.
Proof.
  intros Hh Hc' Hc''. pose proof (heap_chunk a e b c Hh) as (_ & Ha & Hb). destruct Hh as (_ & _ & Hl).
  rewrite Hb in Hc'. destruct (write_end_offset (a ++ b) c' c'' _ Hc'') as [E1 E2].
  split_and!; [done| |flat_lia]. rewrite E2, flat_app, length_app, bytes_at_app. f_equal.
  - rewrite <- Ha at 2. apply bytes_at_ext. intros x Hx. rewrite Hc'. apply blit_out. unfold flat_len. lia.
  - transitivity (bytes_at (macros + flat_len a) (length (flat b)) (blit (macros + flat_len a) (flat b) c));
      [|apply bytes_at_blit]. apply bytes_at_ext. intros x _. apply Hc'.
Qed.

Lemma shift_down_spec u off len (s : macro_state (M:=M)) :
  index_repr u (Macro.macro_index s) ->
  shift_down off len s = set_index (table (map (shift_entry off len) u)) s /\
  index_repr (map (shift_entry off len) u) (table (map (shift_entry off len) u)).
Proof.
  intros Hr. unfold shift_down.
  destruct (iterate_spec u (Macro.macro_index s) tt (shift_entry off len)
    (fun entry '(_, index) => (tt, macro_shift_down_iterator off len entry index)) Hr) as [-> ?]; [| |done].
  - apply shift_entry_keys.
  - intros i [] idx. by rewrite shift_iterator_spec.
Qed.

Lemma shift_entries_id a e u :
  (forall x v, x ∈ u -> offset_of x = Some v -> is_Some (macro_at (a ++ [e]) v)) ->
  map (shift_entry (flat_len a) (chunk_len e)) u = u.
Proof.
  intros Hok. rewrite <- (map_id u) at 2. apply map_ext_in. intros x Hx%list_elem_of_In.
  unfold shift_entry. destruct (offset_of x) as [v|] eqn:Ho; [|done].
  specialize (Hok x v Hx Ho). case_if; [|done]. exfalso.
  destruct (Z.eq_dec v (flat_len a)) as [->|Hv]; [lia|].
  destruct (macro_at_delete a e [] v Hok Hv) as [_ Hge]. apply macro_at_bound in Hok. flat_lia.
Qed.

Lemma shift_down_storage off len m (s : macro_state (M:=M)) :
  shift_down off len (set_storage m s) = set_storage m (shift_down off len s).
Proof. unfold shift_down. cbn [Macro.macro_index set_storage]. by destruct (macro_idx_iterate _ _). Qed.

(** The part of a deletion that is about the heap. *)
Lemma move_rest_spec a e b (s : macro_state (M:=M)) :
  heap_on (a ++ e :: b) (storage s) ->
  exists m,
    (if negb (flat_len b =? 0) then
       let '(err, m) := storage_memmove (macros + flat_len a) (macros + (flat_len a + chunk_len e))
                          (Z.to_nat (flat_len b)) (storage s) in
       if negb (err =? STORAGE_SUCCESS) then (false, set_storage m s)
       else (true, shift_down (flat_len a) (chunk_len e) (set_storage m s))
     else (true, s))
    = (true, set_storage m (if flat_len b =? 0 then s else shift_down (flat_len a) (chunk_len e) s)) /\
    medium_ok m /\
    forall x, cell m x
      = blit (macros + flat_len a) (bytes_at (macros + flat_len a + chunk_len e) (length (flat b)) (cell (storage s)))
          (cell (storage s)) x.
Proof.
  intros (_ & Hi & Ho). pose proof (chunk_len_pos e). pose proof (flat_len_nonneg a). pose proof (flat_len_nonneg b).
  rewrite flat_len_app, flat_len_cons in Hi. destruct (Z.eqb_spec (flat_len b) 0) as [Hb0|Hb0]; cbn [negb].
  - exists (storage s). split; [by destruct s|]. split; [done|]. intros x. symmetry. apply blit_out.
    rewrite bytes_at_length. unfold flat_len in Hb0. lia.
  - destruct (storage_memmove_ok (macros + flat_len a) (macros + (flat_len a + chunk_len e))
                (Z.to_nat (flat_len b)) (storage s) Ho) as (Hret & Ho' & Hmv);
      [lia|eapply in_medium_sub; [exact Hi|unfold Macro.macros; lia..]..|].
    rewrite Z.add_assoc in *. destruct (storage_memmove _ _ _ _) as [err m1]. cbn [fst snd] in *. subst err.
    exists m1. rewrite Z.eqb_refl, shift_down_storage. split; [done|]. split; [done|].
    intros x. rewrite Hmv. do 2 f_equal. unfold flat_len. lia.
Qed.

Lemma delete_heap_spec a e b i (s : macro_state (M:=M)) :
  heap_on (a ++ e :: b) (storage s) -> medium_ready (storage s) ->
  macro_idx_get_data i (Macro.macro_index s) = mkIdxData MACRO (flat_len a) ->
  exists m, delete_macro_data macros_storage i s
    = (true, set_storage m (if flat_len b =? 0 then s else shift_down (flat_len a) (chunk_len e) s)) /\
    heap_on (a ++ b) m.
Proof.
  intros Hh Hr Hd. unfold delete_macro_data, macros_end_offset. rewrite Hd. cbn [type data].
  destruct (heap_end _ _ Hh Hr) as (m1 & -> & Hr1 & E1).
  assert (Hh1 : heap_on (a ++ e :: b) (storage (set_storage m1 s)))
    by (eapply heap_on_same; [exact E1|by apply ready_is_ok|done]).
  destruct (heap_entry_len a e b _ Hh1 Hr1) as (m2 & -> & Hr2 & E2).
  pose proof (heap_on_same _ _ _ E2 (ready_is_ok _ Hr2) Hh1) as Hh2.
  assert (Hmax : flat_len (a ++ e :: b) < 0x8000) by apply Hh2. destruct Hh as (Hc & Hi & _).
  assert (Hbnd : chunk_len e = Z.of_nat (length e) + 2) by done.
  pose proof (flat_len_nonneg a). pose proof (flat_len_nonneg b). pose proof (chunk_len_pos e).
  rewrite flat_len_app, flat_len_cons in *.
  rewrite (u16_small (Z.of_nat (length e) + 2)), <- Hbnd by (unfold is_u16; lia).
  rewrite (u16_small (flat_len a + chunk_len e)) by (unfold is_u16; lia).
  replace (flat_len a + (chunk_len e + flat_len b) - (flat_len a + chunk_len e)) with (flat_len b) by lia.
  rewrite (u16_small (flat_len b)) by (unfold is_u16; lia).
  replace (flat_len a + (chunk_len e + flat_len b) - chunk_len e) with (flat_len (a ++ b)) by flat_lia.
  rewrite (u16_small (flat_len (a ++ b))) by (unfold is_u16; flat_lia).
  destruct (move_rest_spec a e b (set_storage m2 (set_storage m1 s)) Hh2) as (m3 & -> & Ho3 & E3). cbn [negb].
  destruct (wait_ok (set_storage m3 (if flat_len b =? 0 then s else shift_down (flat_len a) (chunk_len e) s)) Ho3)
    as (m4 & E & Hr4 & E4).
  destruct (write_var_ok macros_storage (le16 (flat_len (a ++ b)))
    (set_storage m4 (if flat_len b =? 0 then s else shift_down (flat_len a) (chunk_len e) s)))
    as (m5 & Hw & Ho5 & E5); [by apply ready_is_ok|by eapply in_medium_sub; [exact Hi|cbn [le16 length]; lia..]|cbn; lia|].
  exists m5. split.
  - transitivity (write_var macros_storage (le16 (flat_len (a ++ b)))
      (wait (set_storage m3 (if flat_len b =? 0 then s else shift_down (flat_len a) (chunk_len e) s))));
      [|rewrite E; exact Hw]. destruct (flat_len b =? 0); [done|]. by rewrite !shift_down_storage.
  - split; [|split; [eapply in_medium_sub; [exact Hi|flat_lia..]|done]].
    apply (heap_delete a e b (cell (storage s)) (cell m4)); [done| |done].
    intros x. rewrite E4. cbn [storage set_storage]. rewrite E3. cbn [storage set_storage].
    assert (Hs : forall y, cell m2 y = cell (storage s) y) by (intros y; rewrite E2; apply E1).
    rewrite (bytes_at_ext _ _ (cell m2) (cell (storage s))) by (intros; apply Hs). by apply blit_ext.
Qed.

Lemma delete_macro_data_spec ms u i o (s : macro_state (M:=M)) :
  index_repr u (Macro.macro_index s) -> heap_on ms (storage s) -> medium_ready (storage s) ->
  index_ok no_key ms u -> (i < length u)%nat -> offset_of (u !!! i) = Some o ->
  exists ms' u' m, delete_macro_data macros_storage i s = (true, set_index (table u') (set_storage m s)) /\
    index_repr u' (table u') /\ heap_on ms' m /\ index_ok (keys (u !!! i)) ms' u' /\
    length u' = length u /\ keys (u' !!! i) = keys (u !!! i) /\ flat_len ms' <= flat_len ms /\
    (forall k, k <> keys (u !!! i) -> trigger ms' u' k = trigger ms u k).
Proof.
  intros Hr Hh Hrd Hok Hi Ho. pose proof Hr as (Hidx & Hs & Hl).
  assert (Hin : u !!! i ∈ u) by (apply list_elem_of_lookup_total_2; lia).
  assert (He : is_Some (macro_at ms o)).
  { destruct Hok as [Hok _]. apply (Hok (u !!! i)); [done| |done].
    intros E. destruct Hs as [Hs _]. rewrite Forall_forall in Hs. destruct (Hs _ Hin) as [[Hlk _] _].
    by rewrite E in Hlk. }
  destruct He as [e (a & b & -> & ->)%macro_at_split].
  set (u' := map (shift_entry (flat_len a) (chunk_len e)) u).
  destruct (shift_down_spec u (flat_len a) (chunk_len e) s Hr) as [Esh Hr'].
  assert (Hmax : flat_len (a ++ e :: b) < 0x8000) by apply Hh.
  destruct (shift_entries_ok (keys (u !!! i)) a e b u Hmax Hs (proj1 (proj2 Hr')) Hok) as [Hok' Htr].
  { by exists (u !!! i). }
  assert (Hk' : keys (u' !!! i) = keys (u !!! i)).
  { unfold u'. rewrite (list_lookup_total_fmap (shift_entry (flat_len a) (chunk_len e))) by lia.
    apply shift_entry_keys. }
  destruct (delete_heap_spec a e b i s Hh Hrd) as (m & -> & Hh').
  { by rewrite get_data_offset, Hidx, table_lookup_used, Ho by done. }
  exists (a ++ b), u', m. pose proof (chunk_len_pos e).
  split; [|split; [exact Hr'|split; [done|split; [exact Hok'|split; [apply length_map|split; [done|split; [flat_lia|done]]]]]]].
  f_equal. destruct (Z.eqb_spec (flat_len b) 0) as [Hb0|Hb0]; [|by rewrite Esh].
  assert (b = []) as ->.
  { destruct b as [|x b]; [done|]. exfalso. rewrite flat_len_cons in Hb0. pose proof (chunk_len_pos x). flat_lia. }
  assert (Hu : u' = u); [|rewrite Hu, <- Hidx; by destruct s].
  unfold u'. apply shift_entries_id. intros x v Hx Hv. destruct Hok as [Hok _]. apply (Hok x v Hx); [|done].
  intros E. destruct Hs as [Hs _]. rewrite Forall_forall in Hs. destruct (Hs _ Hx) as [[Hlk _] _].
  by rewrite E in Hlk.
Qed.

(** *** Between recordings, and while recording *)

Definition macro_inv (ms : list (list Z)) (u : list macro_idx_entry) (s : macro_state (M:=M)) : Prop :=
  index_repr u (Macro.macro_index s) /\ heap_on ms (storage s) /\ index_ok no_key ms u.

(** The events [ev] have been recorded for the trigger [key], behind the heap. *)
Definition recording_inv (ms : list (list Z)) (u : list macro_idx_entry) (key ev : list Z)
    (s : macro_state (M:=M)) : Prop :=
  index_repr u (Macro.macro_index s) /\ heap_on ms (storage s) /\ index_ok key ms u /\
  (exists i, recording_state s = mkRecording (macros + flat_len ms)
               (macros + flat_len ms + 2 + Z.of_nat (length ev)) (Some i) /\
             (i < length u)%nat /\ keys (u !!! i) = key /\ offset_of (u !!! i) = Some (flat_len ms)) /\
  bytes_at (macros + flat_len ms + 2) (length ev) (cell (storage s)) = ev.

(** There is room behind the heap for a macro of [n] events. *)
Definition room_for (ms : list (list Z)) (n : nat) : Prop :=
  in_medium macros_storage (4 + flat_len ms + Z.of_nat n).

Lemma room_for_less ms ms' n n' :
  room_for ms n -> flat_len ms' <= flat_len ms -> (n' <= n)%nat -> room_for ms' n'.
Proof. intros Hr Hl Hn. eapply in_medium_sub; [exact Hr|pose proof (flat_len_nonneg ms'); lia..]. Qed.

(** The entry is in place: its offset is set and recording starts. *)
Lemma start_tail ms u i s :
  index_repr u (Macro.macro_index s) -> heap_on ms (storage s) -> index_ok (keys (u !!! i)) ms u ->
  (i < length u)%nat ->
  exists u', length u' = length u /\
    recording_inv ms u' (keys (u !!! i)) []
      (set_recording (mkRecording (macros + flat_len ms) (macros + flat_len ms + 2) (Some i))
         (set_index (macro_idx_set_data i (mkIdxData MACRO (flat_len ms)) (Macro.macro_index s)) s)) /\
    (forall k, k <> keys (u !!! i) -> trigger ms u' k = trigger ms u k).
Proof.
  intros Hr Hh Hok Hi. pose proof Hr as (Hidx & Hs & Hl). rewrite Hidx in *.
  destruct (set_macro_data u i (flat_len ms) Hr Hi) as (E & Hr' & Hl' & Hx & Hel).
  set (u' := <[i := mkIdxEntry (keys (u !!! i)) (flat_len ms)]> u) in *.
  exists u'. split; [done|]. split.
  - split; [by rewrite E|]. split; [done|]. split.
    + apply (index_ok_subset _ _ u); [done|]. intros y Hy Hk. by apply Hel.
    + split; [|done]. exists i. cbn [recording_state set_recording length].
      rewrite Z.add_0_r, Hx, Hl'. split_and!; try done.
      apply offset_of_macro. pose proof (flat_len_nonneg ms). destruct Hh as ((_ & _ & ?) & _). lia.
  - intros k Hk. symmetry. apply trigger_ext; [done|apply Hr'|].
    intros y <-. by apply Hel.
Qed.

(** The end of [macros_start_macro], once the trigger has an entry: reading the
    end of the heap, and [start_tail]. *)
Lemma start_entry ms u i (s : macro_state (M:=M)) :
  index_repr u (Macro.macro_index s) -> heap_on ms (storage s) -> medium_ready (storage s) ->
  index_ok (keys (u !!! i)) ms u -> (i < length u)%nat ->
  exists u' m, read_var16 macros_storage s = (Some (flat_len ms), set_storage m s) /\
    recording_inv ms u' (keys (u !!! i)) []
      (set_recording (mkRecording (macros + flat_len ms) (macros + flat_len ms + 2) (Some i))
         (set_index (macro_idx_set_data i (mkIdxData MACRO (flat_len ms)) (Macro.macro_index s)) (set_storage m s))) /\
    (forall k, k <> keys (u !!! i) -> trigger ms u' k = trigger ms u k).
Proof.
  intros Hr Hh Hrd Hok Hi. destruct (heap_end ms s Hh Hrd) as (m & E & Hrd' & Es).
  destruct (start_tail ms u i (set_storage m s)) as (u' & _ & Hrec & Htr); [done| |done..|].
  - eapply heap_on_same; [exact Es|by apply ready_is_ok|done].
  - by exists u', m.
Qed.

(** [macros_start_macro] fails exactly for a new trigger on a full index. *)
Lemma start_spec ms u key s :
  (0 < INDEX_COUNT)%nat -> macro_inv ms u s -> medium_ready (storage s) -> valid_key key ->
  let '(ok, s') := macros_start_macro macros_storage key s in
  if ok then
    exists ms' u', recording_inv ms' u' key [] s' /\ flat_len ms' <= flat_len ms /\
      (forall k, k <> key -> trigger ms' u' k = trigger ms u k)
  else length u = INDEX_COUNT /\ trigger ms u key = None /\ macro_inv ms u s' /\
       recording_state s' = no_recording /\ buzzes s' = buzzes s ++ [(200, BUZZER_FAILURE_TONE)].
Proof.
  intros Hc0 (Hr & Hh & Hok) Hrd Hkey. pose proof Hr as (Hidx & Hs & Hl).
  unfold macros_start_macro, macros_end_offset.
  pose proof (lookup_spec u _ key Hr Hkey) as Hlk.
  destruct (macro_idx_lookup key (Macro.macro_index s)) as [i|].
  - destruct Hlk as (Hi & Hk & Hcont). rewrite Hidx, table_lookup_used in Hk by done. subst key.
    assert (Hdel : exists ms' u' m, delete_macro_data macros_storage i s = (true, set_index (table u') (set_storage m s)) /\
      index_repr u' (table u') /\ heap_on ms' m /\ index_ok (keys (u !!! i)) ms' u' /\ length u' = length u /\
      keys (u' !!! i) = keys (u !!! i) /\ flat_len ms' <= flat_len ms /\
      (forall k, k <> keys (u !!! i) -> trigger ms' u' k = trigger ms u k)).
    { destruct (offset_of (u !!! i)) as [o|] eqn:Ho; [by apply (delete_macro_data_spec ms u i o)|].
      exists ms, u, (storage s). unfold delete_macro_data.
      rewrite get_data_offset, Hidx, table_lookup_used, Ho, <- Hidx by done. cbn [type].
      split; [by destruct s|]. rewrite Hidx in *. split_and!; try done. by apply (index_ok_weaken _ _ u). }
    destruct Hdel as (ms' & u' & m & -> & Hr' & Hh' & Hok' & Hl' & Hk' & Hle & Htr). rewrite <- Hl', <- Hk' in *.
    destruct (wait_ok (set_index (table u') (set_storage m s)) (proj2 (proj2 Hh'))) as (m2 & -> & Hrd2 & E2).
    destruct (start_entry ms' u' i (set_storage m2 (set_index (table u') (set_storage m s))))
      as (u2 & m3 & -> & Hrec & Htr2); [done| |done..|].
    { eapply heap_on_same; [exact E2|by apply ready_is_ok|done]. }
    exists ms', u2. split; [exact Hrec|split; [done|]]. intros k Hk. by rewrite Htr2, Htr.
  - destruct (macro_idx_create key (Macro.macro_index s)) as [r idx'] eqn:Ec.
    pose proof (create_spec u _ key Hr Hkey Hlk Hc0) as Hcr. rewrite Ec in Hcr. destruct r as [i|].
    + destruct Hcr as (u1 & v & Hr1 & Hl1 & Hi1 & Hk1 & _ & Hc1).
      pose proof Hr1 as (Hidx1 & Hs1 & Hl1'). rewrite Hidx1, table_lookup_used in Hk1 by done.
      assert (Hel : forall y, keys y <> key -> y ∈ u <-> y ∈ u1).
      { intros y Hy. by apply (contents_elem u u1 key v). }
      destruct (start_entry ms u1 i (set_index idx' s)) as (u2 & m & -> & Hrec & Htr2); [done..| |done|].
      { rewrite Hk1. apply (index_ok_weaken _ _ u); [done..|]. intros y Hy Hk. by apply Hel. }
      rewrite Hk1 in *. exists ms, u2. split; [exact Hrec|split; [done|]]. intros k Hk. rewrite Htr2 by done.
      symmetry. apply trigger_ext; [done..|]. intros y <-. by apply Hel.
    + destruct Hcr as [Hfull ->]. unfold start_failed. cbn [storage Macro.macro_index].
      split; [done|]. split; [by unfold trigger; rewrite Hlk|]. by split_and!.
Qed.

Lemma append_spec ms u key ev e s :
  recording_inv ms u key ev s -> room_for ms (S (length ev)) ->
  (macros_append e s).1 = true /\ recording_inv ms u key (ev ++ [e]) (macros_append e s).2.
Proof.
  intros (Hr & (Hh & Hin & Hmed) & Hok & (i & Hrec & Hi & Hk & Ho) & Hev) Hroom.
  unfold macros_append. rewrite Hrec. cbn [macro rec_cursor index_entry].
  pose proof (flat_len_nonneg ms) as Hfl.
  set (p := macros + flat_len ms + 2 + Z.of_nat (length ev)).
  destruct (write_var_ok p [e] (set_recording (mkRecording (macros + flat_len ms) (p + 1) (Some i)) s))
    as (m & -> & Hmed' & Hm);
    [done|eapply in_medium_sub; [exact Hroom|unfold p, Macro.macros; cbn [length]; lia..]|simpl; lia|].
  split; [done|]. cbn [snd storage set_recording] in Hm.
  assert (Hlow : forall a n, a + Z.of_nat n <= p -> bytes_at a n (cell m) = bytes_at a n (cell (storage s))).
  { intros a n Ha. apply bytes_at_ext. intros x Hx. rewrite Hm. apply blit_out. lia. }
  destruct Hh as (He & Hf & Hmax).
  split; [done|]. split; [|split; [done|split]].
  - cbn [storage set_storage snd]. split; [|done].
    split; [|split; [|done]]; rewrite Hlow by (unfold p, flat_len, Macro.macros; lia); done.
  - exists i. cbn. rewrite length_app. cbn [length]. split_and!; try done. f_equal. unfold p, Macro.macros. lia.
  - cbn [storage set_storage snd]. rewrite length_app, bytes_at_app. rewrite Hlow, Hev by (unfold p, Macro.macros; lia). f_equal.
    fold p. transitivity (bytes_at p 1 (blit p [e] (cell (storage s)))); [|apply (bytes_at_blit p [e])].
    apply bytes_at_ext. intros x _. apply Hm.
Qed.

(** Recording a sequence of events; the result says whether all were accepted. *)
Fixpoint append_all (ev : list Z) (s : macro_state (M:=M)) : bool * macro_state :=
  match ev with
  | [] => (true, s)
  | e :: ev =>
      let '(ok, s) := macros_append e s in
      let '(oks, s) := append_all ev s in
      (ok && oks, s)
  end.

Lemma append_all_spec ms u key ev0 ev s :
  recording_inv ms u key ev0 s -> room_for ms (length (ev0 ++ ev)) ->
  (append_all ev s).1 = true /\ recording_inv ms u key (ev0 ++ ev) (append_all ev s).2.
Proof.
  revert ev0 s. induction ev as [|e ev IH]; intros ev0 s Hr Hroom; cbn [append_all].
  - by rewrite app_nil_r.
  - rewrite length_app in Hroom. cbn [length] in Hroom.
    destruct (append_spec ms u key ev0 e s Hr) as [H1 H2]; [by eapply room_for_less; [exact Hroom|lia..]|].
    destruct (macros_append e s) as [ok s1]. cbn [fst snd] in *. subst ok.
    destruct (IH (ev0 ++ [e]) s1 H2) as [H3 H4];
      [eapply room_for_less; [exact Hroom|lia|rewrite !length_app; cbn; lia]|]. destruct (append_all ev s1) as [oks s2].
    cbn [fst snd andb] in *. by rewrite <- app_assoc in H4.
Qed.

(** Removing the entry of the recorded trigger ends the recording without a macro. *)
Lemma remove_recorded ms u key ev s :
  recording_inv ms u key ev s ->
  exists u', macro_inv ms u' (set_recording no_recording (remove_entry (index_entry (recording_state s)) s)) /\
    trigger ms u' key = None /\ (forall k, k <> key -> trigger ms u' k = trigger ms u k).
Proof.
  intros (Hr & Hh & Hok & (i & Hrec & Hi & Hk & Ho) & Hev). rewrite Hrec. cbn [index_entry remove_entry].
  destruct (remove_spec u _ i Hr Hi) as (u' & Hr' & Hl' & Hc').
  pose proof Hr as (Hidx & Hs & Hl). rewrite Hidx, table_lookup_used, Hk in Hc' by done.
  assert (Hel : forall y, y ∈ u' <-> y ∈ u /\ keys y <> key).
  { intros y. apply (contents_elem_delete u u' key y); [done|apply Hr'|done]. }
  exists u'. split; [split; [done|split; [done|]]|split].
  - destruct Hok as [H1 H2]. split.
    + intros e v He _. apply Hel in He as [He Hk']. by apply H1.
    + intros e1 e2 v He1 He2 _ _. apply Hel in He1 as [He1 Hk1], He2 as [He2 Hk2]. by apply H2.
  - apply trigger_none; [apply Hr'|]. intros x Hx. by apply Hel in Hx as [_ ?].
  - intros k Hne. apply trigger_ext; [apply Hr'|done|]. intros y <-. rewrite Hel. tauto.
Qed.

(** The heap after a commit: the header and the new end have been written. *)
Lemma heap_commit ms ev c c' c'' :
  heap_repr ms c -> bytes_at (macros + flat_len ms + 2) (length ev) c = ev ->
  flat_len (ms ++ [ev]) < 0x8000 ->
  (forall x, c' x = blit (macros + flat_len ms) (le16 (Z.of_nat (length ev))) c x) ->
  (forall x, c'' x = blit macros_storage (le16 (flat_len (ms ++ [ev]))) c' x) ->
  heap_repr (ms ++ [ev]) c''.
Proof.
  intros (_ & Hf & _) Hev Hmax Hc' Hc''.
  destruct (write_end_offset (ms ++ [ev]) c' c'' _ Hc'') as [E1 E2].
  split_and!; [done| |done]. rewrite E2, flat_app, length_app, bytes_at_app. f_equal.
  - rewrite <- Hf at 2. apply bytes_at_ext. intros x Hx. rewrite Hc'. apply blit_out. unfold flat_len. cbn [le16 length]. lia.
  - unfold flat at 2 3. cbn [map concat]. rewrite app_nil_r. unfold chunk. rewrite length_app, bytes_at_app.
    fold (flat_len ms). f_equal.
    + transitivity (bytes_at (macros + flat_len ms) 2 (blit (macros + flat_len ms) (le16 (Z.of_nat (length ev))) c));
        [|apply (bytes_at_blit _ (le16 _))]. apply bytes_at_ext. intros x _. apply Hc'.
    + cbn [le16 length]. change (Z.of_nat 2) with 2. rewrite <- Hev at 2. apply bytes_at_ext.
      intros x Hx. rewrite Hc'. apply blit_out. cbn [le16 length]. lia.
Qed.

Lemma index_commit ms u key ev i :
  sorted_entries u -> index_ok key ms u -> (i < length u)%nat -> keys (u !!! i) = key ->
  offset_of (u !!! i) = Some (flat_len ms) ->
  index_ok no_key (ms ++ [ev]) u /\ trigger (ms ++ [ev]) u key = Some (inl ev) /\
  (forall k, k <> key -> trigger (ms ++ [ev]) u k = trigger ms u k).
Proof.
  intros Hs [H1 H2] Hi Hk Ho. assert (Hin : u !!! i ∈ u) by (apply list_elem_of_lookup_total_2; lia).
  assert (Hcase : forall e, e ∈ u -> e = u !!! i \/ keys e <> key).
  { intros e He. destruct (decide (keys e = key)) as [E|]; [left|by right].
    apply (same_key_entry u); [done..|by rewrite E]. }
  assert (Hold : forall e v, e ∈ u -> keys e <> key -> offset_of e = Some v -> v <> flat_len ms).
  { intros e v He Hne Hv ->. pose proof (macro_at_bound _ _ (H1 e _ He Hne Hv)). lia. }
  split; [split|split].
  - intros e v He _ Hv. rewrite macro_at_snoc. case_if; [done|].
    destruct (Hcase e He) as [-> |Hne]; [congruence|]. by apply (H1 e).
  - intros e1 e2 v He1 He2 _ _ Hv1 Hv2.
    destruct (Hcase e1 He1) as [-> |Hne1], (Hcase e2 He2) as [-> |Hne2]; [done| | |by apply (H2 e1 e2 v)].
    + exfalso. apply (Hold e2 v); [done..|congruence].
    + exfalso. apply (Hold e1 v); [done..|congruence].
  - rewrite <- Hk. rewrite trigger_elem by done. unfold meaning. rewrite Ho, macro_at_snoc.
    by rewrite Z.eqb_refl.
  - intros k Hne. destruct (key_decide u k) as [(x & Hx & <-)|Hn].
    + rewrite !trigger_elem by done. unfold meaning. destruct (offset_of x) as [v|] eqn:Hv; [|done].
      rewrite macro_at_snoc. case_if; [|done]. exfalso. by apply (Hold x v).
    + by rewrite !trigger_none.
Qed.

Lemma commit_spec ms u key ev s :
  recording_inv ms u key ev s -> ev <> [] -> flat_len (ms ++ [ev]) < 0x8000 -> room_for ms (length ev) ->
  let s' := macros_commit_macro macros_storage s in
  macro_inv (ms ++ [ev]) u s' /\ recording_state s' = no_recording /\
  trigger (ms ++ [ev]) u key = Some (inl ev) /\
  (forall k, k <> key -> trigger (ms ++ [ev]) u k = trigger ms u k).
Proof.
  intros (Hr & (Hh & Hin & Hmed) & Hok & (i & Hrec & Hi & Hk & Ho) & Hev) Hne Hmax Hroom.
  pose proof Hr as (_ & Hs & _).
  cbv zeta. destruct (index_commit ms u key ev i) as (Hok' & Hkey & Hrest); [done..|].
  assert (Hlen : flat_len (ms ++ [ev]) = flat_len ms + (Z.of_nat (length ev) + 2)).
  { rewrite flat_len_app, flat_len_cons, flat_len_nil. unfold chunk_len. lia. }
  pose proof (flat_len_nonneg ms) as Hfl. unfold macros_commit_macro. rewrite Hrec.
  cbn [macro rec_cursor index_entry].
  rewrite (proj2 (Z.eqb_neq _ 0)) by (unfold Macro.macros; lia).
  replace (macros + flat_len ms + 2 + Z.of_nat (length ev) - (macros + flat_len ms + 2))
    with (Z.of_nat (length ev)) by lia.
  rewrite (u16_small (Z.of_nat (length ev))) by (unfold is_u16; lia).
  rewrite (proj2 (Z.eqb_neq _ 0)) by (destruct ev; [done|simpl; lia]).
  destruct (write_var_ok (macros + flat_len ms) (le16 (Z.of_nat (length ev))) s) as (m1 & -> & Ho1 & Hm1);
    [done|eapply in_medium_sub; [exact Hroom|unfold Macro.macros; cbn [le16 length]; lia..]|simpl; lia|].
  cbn [negb].
  assert (Hh1 : heap_repr ms (cell m1)).
  { destruct Hh as (He & Hf & Hmx). split; [|split; [|done]].
    - rewrite <- He. apply bytes_at_ext. intros x Hx. rewrite Hm1. apply blit_out. unfold Macro.macros. lia.
    - rewrite <- Hf at 2. apply bytes_at_ext. intros x Hx. rewrite Hm1. apply blit_out. unfold flat_len. lia. }
  destruct (wait_ok (set_storage m1 s) Ho1) as (m2 & -> & Hrd2 & E2). unfold macros_end_offset.
  destruct (heap_end ms (set_storage m2 (set_storage m1 s))) as (m3 & -> & Hrd3 & E3); [|done|].
  { split; [by eapply heap_repr_ext; [exact E2|]|]. split; [done|by apply ready_is_ok]. }
  rewrite <- Hlen, (u16_small (flat_len (ms ++ [ev]))) by (unfold is_u16; lia).
  destruct (write_var_ok macros_storage (le16 (flat_len (ms ++ [ev])))
    (set_storage m3 (set_storage m2 (set_storage m1 s)))) as (m4 & -> & Ho4 & Hm4);
    [by apply ready_is_ok|eapply in_medium_sub; [exact Hin|cbn [le16 length]; lia..]|simpl; lia|].
  cbn [negb]. split; [split; [done|split; [|done]]|done].
  split; [|split; [eapply in_medium_sub; [exact Hroom|rewrite ?Hlen; lia..]|done]].
  apply (heap_commit ms ev (cell (storage s)) (cell m3)); [done..| |done].
  intros x. rewrite E3. cbn [storage set_storage]. rewrite E2. apply Hm1.
Qed.

Lemma commit_empty ms u key s :
  recording_inv ms u key [] s ->
  macros_commit_macro macros_storage s
  = set_recording no_recording (remove_entry (index_entry (recording_state s)) s).
Proof.
  intros (_ & ((_ & _ & Hmax) & _) & _ & (i & Hrec & _) & _). unfold macros_commit_macro. rewrite Hrec.
  cbn [macro rec_cursor index_entry length]. pose proof (flat_len_nonneg ms).
  rewrite (proj2 (Z.eqb_neq _ 0)) by (unfold Macro.macros; lia).
  replace (macros + flat_len ms + 2 + Z.of_nat 0 - (macros + flat_len ms + 2)) with 0 by lia. done.
Qed.

(** *** Playback *)

(** Reports until the playback says that it has finished. *)
Fixpoint play_reports (fuel : nat) (report : KeyboardReport_Data_t) (s : macro_state (M:=M))
    : list KeyboardReport_Data_t :=
  match fuel with
  | O => []
  | S fuel =>
      let '(more, r, s) := macros_fill_next_report report s in
      if more then r :: play_reports fuel report s else [r]
  end.

(** The extra report after the events [ev]: each event presses or releases its key. *)
Definition pressed_by (er : ExtraKeyboardReport) (ev : list Z) : ExtraKeyboardReport :=
  fold_left ExtraKeyboardReport_toggle ev er.

Lemma fill_next_spec report e n p er m idx rs bz :
  medium_ready m -> in_medium p 1 -> bytes_at p 1 (cell m) = [e] -> 0 < n ->
  exists m', macros_fill_next_report report (mkMacro m idx rs (mkPlayback n p er) bz)
    = (negb (n - 1 =? 0), ExtraKeyboardReport_append (ExtraKeyboardReport_toggle er e) report,
       mkMacro m' idx rs (mkPlayback (n - 1) (p + 1) (ExtraKeyboardReport_toggle er e)) bz) /\
    medium_ready m' /\ same_cells m m'.
Proof.
  intros Hm Hi Hp Hn. unfold macros_fill_next_report. cbn [playback_state remaining play_cursor play_report].
  rewrite (proj2 (Z.eqb_neq n 0)) by lia. cbn [negb set_playback storage].
  destruct (storage_read_ok p 1 m Hm ltac:(lia) Hi) as (E & H1 & H2).
  destruct (storage_read p 1 m) as [r m']. cbn [fst snd] in *. subst r. rewrite Hp. by exists m'.
Qed.

Lemma play_reports_spec report e ev m idx rs er p bz :
  medium_ready m -> in_medium p (Z.of_nat (length (e :: ev))) ->
  bytes_at p (length (e :: ev)) (cell m) = e :: ev ->
  play_reports (length (e :: ev)) report (mkMacro m idx rs (mkPlayback (Z.of_nat (length (e :: ev))) p er) bz)
  = map (fun n => ExtraKeyboardReport_append (pressed_by er (take (S n) (e :: ev))) report)
        (seq 0 (length (e :: ev))).
Proof.
  revert e er p m. induction ev as [|e' ev IH]; intros e er p m Hm Hi Hb.
  - cbn [length play_reports]. change (Z.of_nat 1) with 1.
    destruct (fill_next_spec report e 1 p er m idx rs bz Hm Hi Hb) as (m' & -> & _); [lia|done].
  - change (length (e :: e' :: ev)) with (S (length (e' :: ev))) in *. set (l := length (e' :: ev)) in *.
    rewrite bytes_at_S in Hb. injection Hb as He Hb.
    destruct (fill_next_spec report e (Z.of_nat (S l)) p er m idx rs bz Hm) as (m' & Hf & Hm' & Es);
      [by eapply in_medium_sub; [exact Hi|lia..]|by rewrite bytes_at_S, He|lia|].
    cbn [play_reports]. rewrite Hf. replace (Z.of_nat (S l) - 1) with (Z.of_nat l) by lia.
    rewrite (proj2 (Z.eqb_neq (Z.of_nat l) 0)) by (unfold l; simpl; lia). cbn [negb].
    specialize (IH e' (ExtraKeyboardReport_toggle er e) (p + 1) m'). fold l in IH.
    rewrite IH; [|done|by eapply in_medium_sub; [exact Hi|lia..]|].
    { cbn [seq map]. rewrite <- seq_shift, map_map. done. }
    rewrite <- Hb. by apply bytes_at_ext.
Qed.

Lemma start_playback_spec a e b (s : macro_state (M:=M)) :
  heap_on (a ++ e :: b) (storage s) -> medium_ready (storage s) ->
  exists m, macros_start_playback macros_storage (flat_len a) s
  = (true, mkMacro m (Macro.macro_index s) (recording_state s)
             (mkPlayback (Z.of_nat (length e)) (macros + flat_len a + 2) ExtraKeyboardReport_clear) (buzzes s)) /\
  medium_ready m /\ in_medium (macros + flat_len a + 2) (Z.of_nat (length e)) /\
  bytes_at (macros + flat_len a + 2) (length e) (cell m) = e.
Proof.
  intros Hh Hrd. unfold macros_start_playback, macros_get_macro_pointer.
  match goal with |- context [read_var16 _ ?s'] => assert (Hh' : heap_on (a ++ e :: b) (storage s')) by done end.
  destruct (heap_entry_len a e b _ Hh' Hrd) as (m & -> & Hm & Es). exists m. split; [done|]. split; [done|].
  destruct Hh as (Hh & Hi & _). split.
  - rewrite flat_len_app, flat_len_cons in Hi. unfold chunk_len in Hi.
    pose proof (flat_len_nonneg a). pose proof (flat_len_nonneg b).
    eapply in_medium_sub; [exact Hi|unfold Macro.macros; lia..].
  - pose proof (heap_chunk a e b _ Hh) as (Hc & _). unfold chunk in Hc. rewrite length_app, bytes_at_app in Hc.
    apply app_inj_1 in Hc as [_ Hc]; [|by apply bytes_at_length].
    rewrite <- Hc at 2. by apply bytes_at_ext.
Qed.

(** Looking a trigger up and playing its macro. *)
Lemma playback_spec ms u (s : macro_state (M:=M)) (key ev : list Z) (report : KeyboardReport_Data_t) :
  macro_inv ms u s -> medium_ready (storage s) -> valid_key key -> trigger ms u key = Some (inl ev) -> ev <> [] ->
  exists i, macro_idx_lookup key (Macro.macro_index s) = Some i /\
    type (macro_idx_get_data i (Macro.macro_index s)) = MACRO /\
    let '(ok, s') := macros_start_playback macros_storage (data (macro_idx_get_data i (Macro.macro_index s))) s in
    ok = true /\ remaining (playback_state s') = Z.of_nat (length ev) /\
    play_reports (length ev) report s'
    = map (fun n => ExtraKeyboardReport_append (pressed_by ExtraKeyboardReport_clear (take (S n) ev)) report)
          (seq 0 (length ev)).
Proof.
  intros (Hr & Hh & Hok) Hrd Hkey Htr Hne. pose proof Hr as (Hidx & Hs & Hl).
  pose proof (lookup_spec u _ key Hr Hkey) as Hlk. unfold trigger in Htr.
  destruct (macro_idx_lookup key (Macro.macro_index s)) as [i|].
  2: { by rewrite Hlk in Htr. }
  destruct Hlk as (Hi & Hk & Hcont). rewrite Hcont in Htr. exists i. split; [done|].
  rewrite get_data_offset. unfold meaning in Htr.
  change (offset_of (mkIdxEntry key (val (Macro.macro_index s !!! i))))
    with (offset_of (Macro.macro_index s !!! i)) in Htr.
  destruct (offset_of (Macro.macro_index s !!! i)) as [v|]; [|done]. cbn [type data].
  destruct (macro_at ms v) as [e|] eqn:Hat; [|done]. injection Htr as ->.
  apply macro_at_split in Hat as (a & b & -> & ->). split; [done|].
  destruct (start_playback_spec a ev b s Hh Hrd) as (m & -> & Hm & Hin & Hb). split; [done|].
  split; [done|]. destruct ev as [|e ev]; [done|]. by apply play_reports_spec.
Qed.

(** A new medium state with the same cells. *)
Lemma macro_inv_medium ms u m (s : macro_state (M:=M)) :
  same_cells (storage s) m -> medium_ok m -> macro_inv ms u s -> macro_inv ms u (set_storage m s).
Proof. intros Es Ho (Hr & Hh & Hok). split; [done|]. split; [by eapply heap_on_same|done]. Qed.
End Operations.

(** ** The default macros *)

Section Defaults.
Context `{H : Hardware, !HardwareOk H} {M : Type} {St : Storage M} {Ok : StorageOk M St}.
Context (macros_storage : Z).
Context (live rest : list macro_def_info) (m : macro_def_info).
Context (Hm : lkey m = NO_KEY) (Hlen : Z.of_nat (length live) < 0xff).
Context (Hlive : Forall (fun d => 0 < lkey d < NO_KEY /\ length (hkeys d) = 3%nat) live).
Context (Hroom : in_medium macros_storage (2 + 5 * Z.of_nat (length live))).

Notation macros := (macros macros_storage).

Lemma chunk_hkeys d : d ∈ live -> chunk (hkeys d) = le16 MACRO_DEF_HKEYS ++ hkeys d.
Proof.
  intros Hd. rewrite Forall_forall in Hlive. destruct (Hlive d Hd) as [_ Hl].
  unfold chunk. by rewrite Hl.
Qed.

Lemma defaults_flat_len l : (forall d, d ∈ l -> d ∈ live) -> flat_len (map hkeys l) = 5 * Z.of_nat (length l).
Proof.
  induction l as [|d l IH]; intros Hl; [done|]. cbn [map]. rewrite flat_len_cons, IH.
  - rewrite Forall_forall in Hlive. destruct (Hlive d (Hl d (list_elem_of_here _ _))) as [_ Hk].
    unfold chunk_len. rewrite Hk. simpl length. lia.
  - intros d' Hd'. apply Hl. by right.
Qed.

Lemma defaults_macro_at j d : live !! j = Some d -> macro_at (map hkeys live) (Z.of_nat j * 5) = Some (hkeys d).
Proof.
  intros Hj. apply macro_at_split. exists (map hkeys (take j live)), (map hkeys (drop (S j) live)).
  pose proof (lookup_lt_Some _ _ _ Hj). split.
  - rewrite <- (take_drop_middle live j d Hj) at 1. by rewrite map_app.
  - rewrite defaults_flat_len; [rewrite length_take; lia|].
    intros d' Hd'. rewrite <- (take_drop j live). apply elem_of_app. by left.
Qed.

Lemma reset_loop (s : macro_state (M:=M)) n :
  (n <= length live)%nat -> medium_ok (storage s) ->
  exists mm, for_range 0 n (fun _ => reset_macro macros_storage (live ++ m :: rest)) (false, 0, s)
             = (false, Z.of_nat n, set_storage mm s) /\ medium_ok mm /\
    bytes_at macros (length (flat (map hkeys (take n live)))) (cell mm) = flat (map hkeys (take n live)).
Proof.
  intros Hn Hs. induction n as [|n IH].
  - exists (storage s). split; [by destruct s|done].
  - destruct IH as (mm0 & IH & Ho0 & Hb0); [lia|]. rewrite for_range_snoc, IH.
    destruct (lookup_lt_is_Some_2 live n Hn) as [d Hd]. pose proof (list_elem_of_lookup_2 _ _ _ Hd) as Hin.
    unfold reset_macro. rewrite Nat2Z.id, (list_lookup_total_correct _ _ d) by (by apply lookup_app_l_Some).
    pose proof Hlive as Hl'. rewrite Forall_forall in Hl'. destruct (Hl' d Hin) as [Hk H3].
    rewrite (proj2 (Z.eqb_neq _ _)) by lia. rewrite <- chunk_hkeys by done.
    change (MACRO_DATA_HEADER_LEN + MACRO_DEF_HKEYS) with 5.
    assert (Hcl : length (chunk (hkeys d)) = 5%nat) by (pose proof (chunk_length (hkeys d)); unfold chunk_len in *; lia).
    destruct (wait_ok (set_storage mm0 s) Ho0) as (mm & -> & Hrd & Es).
    assert (Hb : bytes_at macros (length (flat (map hkeys (take n live)))) (cell mm) = flat (map hkeys (take n live)))
      by (rewrite <- Hb0 at 2; by apply bytes_at_ext).
    destruct (storage_write_ok (macros + Z.of_nat n * 5) (chunk (hkeys d))
                (storage (set_storage mm (set_storage mm0 s)))) as (Hr & Ho & Hc);
      [by apply ready_is_ok|eapply in_medium_sub; [exact Hroom|unfold Macro.macros; lia..]|lia|].
    destruct (storage_write _ _ _) as [r m']. cbn [fst snd] in *. subst r. rewrite Hcl. cbn [Z.of_nat].
    exists m'. rewrite (proj2 (Z.eqb_eq _ _)) by done. rewrite u16_small by (unfold is_u16; lia). split.
    { destruct s. cbn. do 2 f_equal. lia. }
    split; [done|]. rewrite (take_S_r live n d Hd), map_app, flat_app, length_app, bytes_at_app. cbn [map].
    assert (Hfl : Z.of_nat (length (flat (map hkeys (take n live)))) = Z.of_nat n * 5).
    { fold (flat_len (map hkeys (take n live))). rewrite defaults_flat_len; [rewrite length_take; lia|].
      intros d' Hd'. rewrite <- (take_drop n live). apply elem_of_app. by left. }
    f_equal.
    + rewrite <- Hb at 2. apply bytes_at_ext. intros x Hx. rewrite Hc. apply blit_out. lia.
    + unfold flat. cbn [map concat]. rewrite app_nil_r.
      transitivity (bytes_at (macros + Z.of_nat n * 5) (length (chunk (hkeys d)))
                     (blit (macros + Z.of_nat n * 5) (chunk (hkeys d)) (cell mm)));
        [|apply bytes_at_blit].
      unfold flat in Hfl. rewrite Hfl. apply bytes_at_ext. intros x _. apply Hc.
Qed.

Lemma macros_reset_spec (s : macro_state (M:=M)) :
  medium_ok (storage s) ->
  exists mm, macros_reset_defaults macros_storage (live ++ m :: rest) s = set_storage mm s /\
             heap_on macros_storage (map hkeys live) mm.
Proof.
  intros Hs. unfold macros_reset_defaults.
  destruct (reset_loop s (length live) ltac:(lia) Hs) as (mm & Hloop & Ho & Hb).
  assert (E : for_range 0 (length (live ++ m :: rest)) (fun _ => reset_macro macros_storage (live ++ m :: rest)) (false, 0, s)
              = (true, Z.of_nat (length live), set_storage mm s)).
  { rewrite length_app. cbn [length]. unfold for_range in *. rewrite seq_app, fold_left_app, Hloop.
    cbn [seq fold_left]. unfold reset_macro at 2. rewrite Nat2Z.id, list_lookup_total_middle, Hm by done.
    change (NO_KEY =? NO_KEY) with true. cbv iota.
    generalize (seq (S (0 + length live)) (length rest)). intros l. by induction l. }
  rewrite E. rewrite take_ge in Hb by lia.
  assert (Hfl : flat_len (map hkeys live) = Z.of_nat (length live) * 5) by (rewrite defaults_flat_len by done; lia).
  rewrite (u16_small (Z.of_nat (length live) * (MACRO_DATA_HEADER_LEN + MACRO_DEF_HKEYS)))
    by (unfold is_u16, MACRO_DEF_HKEYS; lia).
  unfold macros_end_offset. destruct (wait_ok (set_storage mm s) Ho) as (m2 & -> & Hrd & Es).
  cbn [storage set_storage] in *. change (MACRO_DATA_HEADER_LEN + MACRO_DEF_HKEYS) with 5. rewrite <- Hfl.
  destruct (storage_write_short_ok macros_storage (flat_len (map hkeys live)) m2) as (Ho3 & Hc);
    [by apply ready_is_ok|by eapply in_medium_sub; [exact Hroom|lia..]|].
  eexists. split; [by destruct s|].
  destruct (write_end_offset macros_storage (map hkeys live) _ _ _ Hc) as [E1 E2].
  split; [|split; [by rewrite Hfl, Z.mul_comm|done]]. split_and!; [done| |lia].
  rewrite E2. rewrite <- Hb at 2. by apply bytes_at_ext.
Qed.

Context (Hnd : NoDup (map lkey live)).

Lemma defaults_inv (s : macro_state (M:=M)) :
  medium_ok (storage s) ->
  length (Macro.macro_index s) = INDEX_COUNT -> (length live < INDEX_COUNT)%nat ->
  let s' := macros_reset_defaults macros_storage (live ++ m :: rest)
              (set_index (macro_idx_reset_defaults (live ++ m :: rest) (Macro.macro_index s)) s) in
  exists u, macro_inv macros_storage (map hkeys live) u s' /\
    (forall d, d ∈ live -> trigger (map hkeys live) u (single_key (lkey d)) = Some (inl (hkeys d))) /\
    (forall k, (forall d, d ∈ live -> k <> single_key (lkey d)) -> trigger (map hkeys live) u k = None).
Proof.
  intros Hmed Hl Hc s'.
  assert (Hlk : Forall (fun d => 0 < lkey d < NO_KEY) live).
  { eapply Forall_impl; [exact Hlive|]. by intros d [? _]. }
  destruct (reset_defaults_spec live rest m Hm Hlen Hlk Hnd (Macro.macro_index s) Hl Hc) as (u & Hr & Hs & Hu).
  unfold s'. destruct (macros_reset_spec (set_index (macro_idx_reset_defaults (live ++ m :: rest) (Macro.macro_index s)) s))
    as (mm & -> & Hh); [done|].
  assert (Hoff : forall j d, live !! j = Some d ->
            offset_of (mkIdxEntry (single_key (lkey d)) (Z.of_nat j * 5)) = Some (Z.of_nat j * 5)).
  { intros j d Hj. apply lookup_lt_Some in Hj. apply offset_of_macro. lia. }
  exists u. split; [split; [done|split; [done|split]]|split].
  - intros e v He _ Hv. apply Hu in He as (j & d & Hj & _ & ->). rewrite (Hoff j d Hj) in Hv.
    injection Hv as <-. by rewrite (defaults_macro_at j d).
  - intros e1 e2 v He1 He2 _ _ Hv1 Hv2.
    apply Hu in He1 as (j1 & d1 & Hj1 & _ & ->), He2 as (j2 & d2 & Hj2 & _ & ->).
    rewrite (Hoff _ _ Hj1) in Hv1. rewrite (Hoff _ _ Hj2) in Hv2. assert (j1 = j2) as -> by (simplify_eq; lia).
    congruence.
  - intros d Hd. apply list_elem_of_lookup in Hd as [j Hj].
    assert (He : mkIdxEntry (single_key (lkey d)) (Z.of_nat j * 5) ∈ u).
    { apply Hu. exists j, d. split_and!; try done.
      rewrite Forall_forall in Hlk. specialize (Hlk d (list_elem_of_lookup_2 _ _ _ Hj)). lia. }
    change (single_key (lkey d)) with (keys (mkIdxEntry (single_key (lkey d)) (Z.of_nat j * 5))).
    rewrite trigger_elem by done. unfold meaning. by rewrite (Hoff j d Hj), (defaults_macro_at j d).
  - intros k Hk. apply trigger_none; [done|]. intros x Hx <-. apply Hu in Hx as (j & d & Hj & _ & ->).
    apply (Hk d); [by apply list_elem_of_lookup_2 with j|done].
Qed.
End Defaults.

(** Deleting makes no sound. *)
Lemma delete_buzzes {H : Hardware} {M} {St : Storage M} (macros_storage : Z) i (s : macro_state (M:=M)) :
  buzzes (delete_macro_data macros_storage i s).2 = buzzes s.
Proof.
  assert (Hrd : forall p s0, buzzes (read_var16 (M:=M) p s0).2 = buzzes s0).
  { intros p s0. unfold read_var16. by destruct (storage_read _ _ _). }
  assert (Hwr : forall p bs s0, buzzes (write_var (M:=M) p bs s0).2 = buzzes s0).
  { intros p bs s0. unfold write_var. by destruct (storage_write _ _ _). }
  unfold delete_macro_data. destruct (type _); [|done].
  pose proof (Hrd (macros_end_offset macros_storage) s) as E1.
  destruct (read_var16 _ s) as [[e|] s1]; [|done]. cbn [snd] in E1. rewrite <- E1.
  match goal with |- context [read_var16 ?p s1] => pose proof (Hrd p s1) as E2; destruct (read_var16 p s1) as [[n|] s2] end;
    [|done]. cbn [snd] in E2. rewrite <- E2. cbv zeta. case_if; cbn [negb]; [|by rewrite Hwr].
  destruct (storage_memmove _ _ _ _) as [err m']. case_if; [done|].
  unfold shift_down. destruct (macro_idx_iterate _ _) as [? idx]. cbn [negb]. by rewrite Hwr.
Qed.

(** ** The properties *)

(** C26: Recording a macro changes what its trigger does, and nothing else. In a consistent state
    (packed heap, sorted index, every macro entry pointing at its own macro), on a medium that has
    finished its last write and has room for the macro, starting fails only
    for a new trigger on a full index and then changes nothing but the error beep. Otherwise the
    events are all accepted; committing them leaves a consistent state in which the trigger plays
    exactly them (or, if there are none, is gone), aborting leaves one in which it is gone; and
    every other trigger, macro or program, means what it did, although its macro may have moved. *)
Theorem recording_sets_trigger `{H : Hardware, !HardwareOk H} {M} {St : Storage M} {Ok : StorageOk M St}
    (macros_storage : Z) ms u (s : macro_state (M:=M)) (key ev : list Z) :
  0 <= macros_storage -> (0 < INDEX_COUNT)%nat ->
  macro_inv macros_storage ms u s -> medium_ready (storage s) -> valid_key key ->
  flat_len ms + chunk_len ev < 0x8000 -> room_for macros_storage ms (length ev) ->
  let '(ok, s1) := macros_start_macro macros_storage key s in
  if ok then
    let '(oks, s2) := append_all ev s1 in
    oks = true /\
    (exists ms' u', macro_inv macros_storage ms' u' (macros_commit_macro macros_storage s2) /\
       forall k, trigger ms' u' k = if decide (k = key) then match ev with [] => None | _ => Some (inl ev) end
                                    else trigger ms u k) /\
    (exists ms' u', macro_inv macros_storage ms' u' (macros_abort_macro s2) /\
       forall k, trigger ms' u' k = if decide (k = key) then None else trigger ms u k)
  else length u = INDEX_COUNT /\ trigger ms u key = None /\ macro_inv macros_storage ms u s1 /\
       recording_state s1 = no_recording /\ buzzes s1 = buzzes s ++ [(200, BUZZER_FAILURE_TONE)].
Proof.
  intros Hbase Hc Hinv Hrd Hkey Hmax Hroom.
  pose proof (start_spec macros_storage ms u key s Hc Hinv Hrd Hkey) as Hst.
  destruct (macros_start_macro macros_storage key s) as [[] s1]; [|done].
  destruct Hst as (ms1 & u1 & Hrec & Hle & Htr).
  pose proof (room_for_less macros_storage ms ms1 _ _ Hroom Hle (le_n _)) as Hroom1.
  destruct (append_all_spec macros_storage ms1 u1 key [] ev s1 Hrec Hroom1) as [Hoks Hrec2].
  destruct (append_all ev s1) as [oks s2]. cbn [fst snd app] in *. split; [done|].
  destruct (remove_recorded macros_storage ms1 u1 key ev s2 Hrec2) as (u2 & Hinv2 & Hkey2 & Htr2).
  assert (Hgone : forall k, trigger ms1 u2 k = if decide (k = key) then None else trigger ms u k).
  { intros k. destruct (decide (k = key)) as [->|Hk]; [done|]. by rewrite Htr2, Htr. }
  split; [|by exists ms1, u2]. destruct (decide (ev = [])) as [->|Hne].
  - exists ms1, u2. rewrite (commit_empty macros_storage Hbase ms1 u1 key s2) by done. done.
  - assert (Hm : flat_len (ms1 ++ [ev]) < 0x8000) by flat_lia.
    destruct (commit_spec macros_storage Hbase ms1 u1 key ev s2 Hrec2 Hne Hm Hroom1) as (Hinv3 & _ & Hk3 & Htr3).
    exists (ms1 ++ [ev]), u1. split; [done|]. intros k.
    destruct (decide (k = key)) as [->|Hk]; [by rewrite Hk3; destruct ev|by rewrite Htr3, Htr].
Qed.

(** The K84CS after its macros have been reset, in an internal eeprom at address 0. *)
Definition k84_live : list macro_def_info := take 48 K84cs.macro_def_infos.

Definition k84_macro_start : macro_state (M:=mem) :=
  mkMacro (fun _ => 0xff) (replicate INDEX_COUNT empty_entry) no_recording
    (mkPlayback 0 0 ExtraKeyboardReport_clear) [].

Definition k84_macros : macro_state (M:=mem) :=
  macros_reset_defaults 0 (k84_live ++ mkMacroDef NO_KEY [0; 0; 0] :: [])
    (set_index (macro_idx_reset_defaults (k84_live ++ mkMacroDef NO_KEY [0; 0; 0] :: [])
                  (Macro.macro_index k84_macro_start)) k84_macro_start).

Lemma k84_live_ok : Forall (fun d => 0 < lkey d < NO_KEY /\ length (hkeys d) = 3%nat) k84_live.
Proof. apply (bool_decide_unpack _). vm_compute. exact I. Qed.

Lemma k84_live_nodup : NoDup (map lkey k84_live).
Proof. apply (bool_decide_unpack _). vm_compute. exact I. Qed.

Lemma k84_macros_inv :
  exists u, macro_inv 0 (map hkeys k84_live) u k84_macros /\
    (forall d, d ∈ k84_live -> trigger (map hkeys k84_live) u (single_key (lkey d)) = Some (inl (hkeys d))) /\
    (forall k, (forall d, d ∈ k84_live -> k <> single_key (lkey d)) -> trigger (map hkeys k84_live) u k = None).
Proof.
  apply (defaults_inv 0 k84_live [] (mkMacroDef NO_KEY [0; 0; 0])).
  - reflexivity.
  - vm_compute. reflexivity.
  - apply k84_live_ok.
  - exact I.
  - apply k84_live_nodup.
  - exact I.
  - vm_compute. reflexivity.
  - apply Nat.ltb_lt. vm_compute. reflexivity.
Qed.

Lemma recording_sets_trigger_witness :
  exists u, macro_inv 0 (map hkeys k84_live) u k84_macros /\
  let '(ok, s1) := macros_start_macro 0 (single_key 169) k84_macros in
  if ok then
    let '(oks, s2) := append_all [4; 4; 5; 5] s1 in
    oks = true /\
    (exists ms' u', macro_inv 0 ms' u' (macros_commit_macro 0 s2) /\
       forall k, trigger ms' u' k = if decide (k = single_key 169) then Some (inl [4; 4; 5; 5])
                                    else trigger (map hkeys k84_live) u k) /\
    (exists ms' u', macro_inv 0 ms' u' (macros_abort_macro s2) /\
       forall k, trigger ms' u' k = if decide (k = single_key 169) then None
                                    else trigger (map hkeys k84_live) u k)
  else length u = INDEX_COUNT /\ trigger (map hkeys k84_live) u (single_key 169) = None /\
       macro_inv 0 (map hkeys k84_live) u s1 /\
       recording_state s1 = no_recording /\ buzzes s1 = buzzes k84_macros ++ [(200, BUZZER_FAILURE_TONE)].
Proof.
  destruct k84_macros_inv as (u & Hinv & _). exists u. split; [exact Hinv|].
  assert (Hc : (0 < INDEX_COUNT)%nat) by (apply Nat.ltb_lt; vm_compute; reflexivity).
  assert (Hk : valid_key (single_key 169)) by (apply single_key_valid; lia).
  assert (Hl : flat_len (map hkeys k84_live) + chunk_len [4; 4; 5; 5] < 0x8000) by (vm_compute; reflexivity).
  exact (recording_sets_trigger 0 (map hkeys k84_live) u k84_macros (single_key 169) [4; 4; 5; 5]
           (Z.le_refl 0) Hc Hinv I Hk Hl I).
Defined.

(** A trigger plays its macro. In a consistent state in which [key] triggers the events
    [ev], looking the key up gives a macro entry, playback can start at its offset, and the
    playback reports are, one event each and as many as there are events, the caller's report with
    the keys pressed so far: every event presses its key, or releases it if it was down. *)
Theorem playback_plays_macro `{H : Hardware, !HardwareOk H} {M} {St : Storage M} {Ok : StorageOk M St}
    (macros_storage : Z) ms u (s : macro_state (M:=M)) (key ev : list Z) (report : KeyboardReport_Data_t) :
  macro_inv macros_storage ms u s -> medium_ready (storage s) -> valid_key key ->
  trigger ms u key = Some (inl ev) -> ev <> [] ->
  exists i, macro_idx_lookup key (Macro.macro_index s) = Some i /\
    type (macro_idx_get_data i (Macro.macro_index s)) = MACRO /\
    let '(ok, s') := macros_start_playback macros_storage (data (macro_idx_get_data i (Macro.macro_index s))) s in
    ok = true /\ remaining (playback_state s') = Z.of_nat (length ev) /\
    play_reports (length ev) report s'
    = map (fun n => ExtraKeyboardReport_append (pressed_by ExtraKeyboardReport_clear (take (S n) ev)) report)
          (seq 0 (length ev)).
Proof. apply playback_spec. Qed.

Lemma playback_plays_macro_witness :
  exists i, macro_idx_lookup (single_key (fnLayer + LOGICAL_KEY_1)) (Macro.macro_index k84_macros) = Some i /\
    type (macro_idx_get_data i (Macro.macro_index k84_macros)) = MACRO /\
    let '(ok, s') := macros_start_playback 0 (data (macro_idx_get_data i (Macro.macro_index k84_macros))) k84_macros in
    ok = true /\ remaining (playback_state s') = 3 /\
    play_reports 3 empty_keyboard_report s'
    = [mkKeyboardReport 8 0 [0; 0; 0; 0; 0; 0]; mkKeyboardReport 8 0 [HID_KEYBOARD_SC_F1; 0; 0; 0; 0; 0];
       mkKeyboardReport 8 0 [0; 0; 0; 0; 0; 0]].
Proof.
  destruct k84_macros_inv as (u & Hinv & Htr & _).
  assert (Hk : valid_key (single_key (fnLayer + LOGICAL_KEY_1))) by (apply single_key_valid; vm_compute; split; reflexivity).
  assert (Hd : mkMacroDef (fnLayer + LOGICAL_KEY_1) [HID_KEYBOARD_SC_LEFT_GUI; HID_KEYBOARD_SC_F1; HID_KEYBOARD_SC_F1] ∈ k84_live).
  { apply (list_elem_of_lookup_2 _ 1). reflexivity. }
  specialize (Htr _ Hd). cbn [lkey hkeys] in Htr.
  exact (playback_plays_macro 0 (map hkeys k84_live) u k84_macros (single_key (fnLayer + LOGICAL_KEY_1))
           [HID_KEYBOARD_SC_LEFT_GUI; HID_KEYBOARD_SC_F1; HID_KEYBOARD_SC_F1] empty_keyboard_report
           Hinv I Hk Htr ltac:(done)).
Defined.

(** After a full reset of the macros the state is consistent, and the triggers are exactly
    those of the default macros, each playing its keys, whatever the storage held before and even
    while it is still busy with a write. *)
Theorem macros_reset_to_defaults `{H : Hardware, !HardwareOk H} {M} {St : Storage M} {Ok : StorageOk M St}
    (macros_storage : Z) (live rest : list macro_def_info) (m : macro_def_info) (s : macro_state (M:=M)) :
  lkey m = NO_KEY -> Z.of_nat (length live) < 0xff ->
  Forall (fun d => 0 < lkey d < NO_KEY /\ length (hkeys d) = 3%nat) live ->
  in_medium macros_storage (2 + 5 * Z.of_nat (length live)) -> NoDup (map lkey live) -> medium_ok (storage s) ->
  length (Macro.macro_index s) = INDEX_COUNT -> (length live < INDEX_COUNT)%nat ->
  let s' := macros_reset_defaults macros_storage (live ++ m :: rest)
              (set_index (macro_idx_reset_defaults (live ++ m :: rest) (Macro.macro_index s)) s) in
  exists u, macro_inv macros_storage (map hkeys live) u s' /\
    (forall d, d ∈ live -> trigger (map hkeys live) u (single_key (lkey d)) = Some (inl (hkeys d))) /\
    (forall k, (forall d, d ∈ live -> k <> single_key (lkey d)) -> trigger (map hkeys live) u k = None).
Proof. intros. by apply defaults_inv. Qed.

Lemma macros_reset_to_defaults_witness :
  let s' := macros_reset_defaults 0 (k84_live ++ mkMacroDef NO_KEY [0; 0; 0] :: [])
              (set_index (macro_idx_reset_defaults (k84_live ++ mkMacroDef NO_KEY [0; 0; 0] :: [])
                            (Macro.macro_index k84_macro_start)) k84_macro_start) in
  exists u, macro_inv 0 (map hkeys k84_live) u s' /\
    (forall d, d ∈ k84_live -> trigger (map hkeys k84_live) u (single_key (lkey d)) = Some (inl (hkeys d))) /\
    (forall k, (forall d, d ∈ k84_live -> k <> single_key (lkey d)) -> trigger (map hkeys k84_live) u k = None).
Proof.
  apply (macros_reset_to_defaults 0 k84_live [] (mkMacroDef NO_KEY [0; 0; 0]) k84_macro_start).
  - reflexivity.
  - vm_compute. reflexivity.
  - apply k84_live_ok.
  - exact I.
  - apply k84_live_nodup.
  - exact I.
  - vm_compute. reflexivity.
  - apply Nat.ltb_lt. vm_compute. reflexivity.
Defined.

(** [macros_append] does not check that the macro still fits, although src/macro.h says that it
    returns false if no space is left: every event is accepted, and the events that do not fit
    overwrite the cells behind [macros_storage]. *)
Theorem append_overruns_storage `{H : Hardware, !HardwareOk H} {M} {St : Storage M} {Ok : StorageOk M St}
    (macros_storage : Z) ms u (s : macro_state (M:=M)) (key ev : list Z) :
  recording_inv macros_storage ms u key [] s -> room_for macros_storage ms (length ev) ->
  let start := macros macros_storage + flat_len ms + 2 in
  let '(oks, s2) := append_all ev s in
  oks = true /\
  forall x, start <= x < start + Z.of_nat (length ev) -> macros_storage + MACROS_SIZE <= x ->
    cell (storage s2) x = ev !!! Z.to_nat (x - start).
Proof.
  intros Hrec Hroom. destruct (append_all_spec macros_storage ms u key [] ev s Hrec Hroom) as [Hoks Hrec2].
  destruct (append_all ev s) as [oks s2]. cbn [fst snd app] in *. split; [done|]. intros x Hx _.
  destruct Hrec2 as (_ & _ & _ & _ & Hb). rewrite <- Hb at 1. rewrite bytes_at_lookup by lia.
  f_equal. lia.
Qed.

Lemma append_overruns_storage_witness :
  exists u ms s1, recording_inv 0 ms u (single_key 169) [] s1 /\
  let start := macros 0 + flat_len ms + 2 in
  let '(oks, s2) := append_all (replicate 4000 4) s1 in
  oks = true /\
  forall x, start <= x < start + Z.of_nat (length (replicate 4000 4)) -> 0 + MACROS_SIZE <= x ->
    cell (storage s2) x = replicate 4000 4 !!! Z.to_nat (x - start).
Proof.
  destruct k84_macros_inv as (u & Hinv & _).
  assert (Hc : (0 < INDEX_COUNT)%nat) by (apply Nat.ltb_lt; vm_compute; reflexivity).
  assert (Hk : valid_key (single_key 169)) by (apply single_key_valid; lia).
  pose proof (start_spec 0 (map hkeys k84_live) u (single_key 169) k84_macros Hc Hinv I Hk) as Hst.
  assert (Hok : (macros_start_macro 0 (single_key 169) k84_macros).1 = true) by (vm_compute; reflexivity).
  destruct (macros_start_macro 0 (single_key 169) k84_macros) as [ok s1]. cbn [fst] in Hok. rewrite Hok in Hst.
  destruct Hst as (ms & u' & Hrec & _). exists u', ms, s1. split; [exact Hrec|].
  exact (append_overruns_storage 0 ms u' s1 (single_key 169) (replicate 4000 4) Hrec I).
Defined.

(** Storage errors while a recording starts are reported, on any medium, working or not: if
    starting fails, nothing is being recorded and the failure tone has been started; if it
    succeeds, the recording state points into the macro heap, at the end of the recorded macros
    that the medium has given. *)
Theorem start_reports_failure {H : Hardware} {M} {St : Storage M} (macros_storage : Z)
    (s : macro_state (M:=M)) (key : list Z) :
  let '(ok, s') := macros_start_macro macros_storage key s in
  if ok then
    exists off i s0, (read_var16 macros_storage s0).1 = Some off /\
      storage s' = storage (read_var16 macros_storage s0).2 /\
      recording_state s' = mkRecording (macros macros_storage + off) (macros macros_storage + off + 2) (Some i) /\
      buzzes s' = buzzes s
  else recording_state s' = no_recording /\ buzzes s' = buzzes s ++ [(200, BUZZER_FAILURE_TONE)].
Proof.
  assert (Hrd : forall p s0, buzzes (read_var16 (M:=M) p s0).2 = buzzes s0).
  { intros p s0. unfold read_var16. by destruct (storage_read _ _ _). }
  assert (Hend : forall i s0, buzzes s0 = buzzes s ->
    let '(ok, s') := match read_var16 macros_storage s0 with
      | (None, s) => start_failed s
      | (Some off, s) =>
          let s := set_index (macro_idx_set_data i (mkIdxData MACRO off) (Macro.macro_index s)) s in
          let p := macros_get_macro_pointer macros_storage off in
          (true, set_recording (mkRecording p (p + MACRO_DATA_HEADER_LEN) (Some i)) s)
      end in
    if ok then exists off i s0, (read_var16 macros_storage s0).1 = Some off /\
      storage s' = storage (read_var16 macros_storage s0).2 /\
      recording_state s' = mkRecording (macros macros_storage + off) (macros macros_storage + off + 2) (Some i) /\
      buzzes s' = buzzes s
    else recording_state s' = no_recording /\ buzzes s' = buzzes s ++ [(200, BUZZER_FAILURE_TONE)]).
  { intros i s0 Hb. specialize (Hrd macros_storage s0). destruct (read_var16 macros_storage s0) as [[off|] s1] eqn:E.
    - exists off, i, s0. rewrite E. cbn in *. by rewrite Hrd.
    - cbn in *. by rewrite Hrd, Hb. }
  unfold macros_start_macro, macros_end_offset.
  destruct (macro_idx_lookup key (Macro.macro_index s)) as [i|].
  - pose proof (delete_buzzes macros_storage i s) as Hdel.
    destruct (delete_macro_data macros_storage i s) as [[] s1]; [by apply Hend|]. cbn in *. by rewrite Hdel.
  - destruct (macro_idx_create key (Macro.macro_index s)) as [[i|] idx]; [by apply Hend|done].
Qed.
