(* ===== verification/Config.v ===== *)
(** * config.c: the persistent configuration and the saved layouts

    The key map and the settings in [MAPPING_STORAGE], the packed store of saved
    layouts in [SAVED_MAPPING_STORAGE] and the program area of src/config.c,
    one list per array of the source.  These media do not fail on the variants
    (src/storage/avr_eeprom.c, src/storage/spi_eeprom.c: reads and writes of
    bytes and words have no error results the file looks at).  A read outside
    an array of the source finds whatever the linker has placed there: the
    parameter [outside].  [USB_KeepAlive], delays and the waits for the last
    write have no effect on this state. *)

From Stdlib Require Import String.
From S2P Require Import Prelude Hid Hardware ExtraReport MacroIndex Storage Macro Keystate.
Open Scope Z_scope.

Abbreviation EEPROM_SENTINEL := 44%Z (only parsing).

(** ** Data *)

(** [configuration_flags]: bit fields, the first in the lowest bit. *)
Record configuration_flags := mkFlags {
  key_sound_enabled : bool;
  macros_enabled : bool;
  programs_enabled : bool;
  packing : Z
}.

Definition flags_of_byte (b : Z) : configuration_flags :=
  mkFlags (Z.testbit b 0) (Z.testbit b 1) (Z.testbit b 2) (Z.shiftr b 3).

Definition byte_of_flags (f : configuration_flags) : Z :=
  Z.b2z (key_sound_enabled f) + 2 * Z.b2z (macros_enabled f) + 4 * Z.b2z (programs_enabled f) + 8 * packing f.

(** [key_mapping_idx]: the first and last element of a saved layout. *)
Record key_mapping_idx := mkMapIdx {
  start : Z;
  end_ : Z
}.

(** [key_mapping] *)
Record key_mapping := mkMapping {
  l_key : Z;
  h_key : Z
}.

#[export] Instance key_mapping_idx_eq_dec : EqDecision key_mapping_idx.
Proof. solve_decision. Defined.
#[export] Instance key_mapping_eq_dec : EqDecision key_mapping.
Proof. solve_decision. Defined.
#[export] Instance key_mapping_idx_inhabited : Inhabited key_mapping_idx := populate (mkMapIdx NO_KEY NO_KEY).
#[export] Instance key_mapping_inhabited : Inhabited key_mapping := populate (mkMapping 0 0).

(** Calls out of the file: [buzzer_start_f] and [printing_set_buffer]. *)
Inductive config_event :=
  | ConfigBuzzer (ms tone : Z)
  | ConfigMessage (msg : string).

Record config_state := mkConfig {
  eeprom_sentinel_byte : Z;
  eeprom_flags : Z;
  debounce_len : Z;
  mouse_div : Z;
  wheel_div : Z;
  logical_to_hid_map : list Z;
  saved_key_mapping_indices : list key_mapping_idx;
  saved_key_mappings : list key_mapping;
  programs : list Z;
  config_out : list config_event
}.

Definition set_sentinel (b : Z) (s : config_state) : config_state :=
  mkConfig b (eeprom_flags s) (debounce_len s) (mouse_div s) (wheel_div s) (logical_to_hid_map s)
    (saved_key_mapping_indices s) (saved_key_mappings s) (programs s) (config_out s).
Definition set_settings (f d mo wh : Z) (s : config_state) : config_state :=
  mkConfig (eeprom_sentinel_byte s) f d mo wh (logical_to_hid_map s)
    (saved_key_mapping_indices s) (saved_key_mappings s) (programs s) (config_out s).
Definition set_map (m : list Z) (s : config_state) : config_state :=
  mkConfig (eeprom_sentinel_byte s) (eeprom_flags s) (debounce_len s) (mouse_div s) (wheel_div s) m
    (saved_key_mapping_indices s) (saved_key_mappings s) (programs s) (config_out s).
Definition set_saved (i : list key_mapping_idx) (m : list key_mapping) (s : config_state) : config_state :=
  mkConfig (eeprom_sentinel_byte s) (eeprom_flags s) (debounce_len s) (mouse_div s) (wheel_div s)
    (logical_to_hid_map s) i m (programs s) (config_out s).
Definition set_programs (p : list Z) (s : config_state) : config_state :=
  mkConfig (eeprom_sentinel_byte s) (eeprom_flags s) (debounce_len s) (mouse_div s) (wheel_div s)
    (logical_to_hid_map s) (saved_key_mapping_indices s) (saved_key_mappings s) p (config_out s).
Definition config_emit (e : config_event) (s : config_state) : config_state :=
  mkConfig (eeprom_sentinel_byte s) (eeprom_flags s) (debounce_len s) (mouse_div s) (wheel_div s)
    (logical_to_hid_map s) (saved_key_mapping_indices s) (saved_key_mappings s) (programs s)
    (config_out s ++ [e]).

Definition MSG_NO_LAYOUT : string := "No layout".

(** Element moves within an array: [storage_memmove] in units of elements. *)
Definition move_elems {A} `{Inhabited A} (dst src n : nat) (l : list A) : list A :=
  map (fun j => if (dst <=? j)%nat && (j <? dst + n)%nat then l !!! (j - dst + src)%nat else l !!! j)
      (seq 0 (length l)).

(** ** Settings *)

Definition config_get_flags (s : config_state) : configuration_flags := flags_of_byte (eeprom_flags s).
Definition config_save_flags (f : configuration_flags) (s : config_state) : config_state :=
  set_settings (u8 (byte_of_flags f)) (debounce_len s) (mouse_div s) (wheel_div s) s.
Definition config_get_debounce_len (s : config_state) : Z := debounce_len s.
Definition config_save_debounce_len (x : Z) (s : config_state) : config_state :=
  set_settings (eeprom_flags s) x (mouse_div s) (wheel_div s) s.
Definition config_get_mouse_div (s : config_state) : Z := mouse_div s.
Definition config_save_mouse_div (x : Z) (s : config_state) : config_state :=
  set_settings (eeprom_flags s) (debounce_len s) x (wheel_div s) s.
Definition config_get_wheel_div (s : config_state) : Z := wheel_div s.
Definition config_save_wheel_div (x : Z) (s : config_state) : config_state :=
  set_settings (eeprom_flags s) (debounce_len s) (mouse_div s) x s.

Section Config.
Context {H : Hardware} {K : HotKeys}.
(** The bytes behind the arrays of the source, in the eeprom and in flash. *)
Context (outside : Z -> Z) (outside_default : Z -> Z).

Definition NUM_KEYS : nat := Z.to_nat NUM_LOGICAL_KEYS.
Definition NUM_INDICES : nat := Z.to_nat NUM_KEY_MAPPING_INDICES.

(** ** The key map *)

Definition config_get_definition (l_key : Z) (s : config_state) : Z :=
  match logical_to_hid_map s !! Z.to_nat l_key with
  | Some h => h
  | None => outside l_key
  end.

Definition config_get_default_definition (l_key : Z) : Z :=
  match logical_to_hid_map_default !! Z.to_nat l_key with
  | Some h => h
  | None => outside_default l_key
  end.

(** A write outside the map changes none of the arrays of this file that the
    model knows the position of. *)
Definition config_save_definition (l_key h_key : Z) (s : config_state) : config_state :=
  set_map (<[Z.to_nat l_key := h_key]> (logical_to_hid_map s)) s.

(** One iteration of [config_reset_defaults]: a block of at most 32 keys from [i] on. *)
Definition reset_block (i : nat) (map : list Z) : list Z :=
  let bs := Nat.min (NUM_KEYS - i) 32 in
  let default_keys := take bs (drop i logical_to_hid_map_default) in
  take i map ++ default_keys ++ drop (i + bs) map.

(** [for (i = 0; i < NUM_LOGICAL_KEYS; i += 32)] *)
Definition config_reset_defaults (s : config_state) : config_state :=
  let s := config_emit (ConfigBuzzer 1000 100) s in
  let s := set_map (for_range 0 ((NUM_KEYS + 31) / 32) (fun b => reset_block (b * 32)) (logical_to_hid_map s)) s in
  config_emit (ConfigBuzzer 200 80) s.

(** ** Saved layouts *)

(** One iteration of the index loop of [config_delete_layout]. *)
Definition delete_step (end0 length : Z) (i : nat) (s : Z * list key_mapping_idx) : Z * list key_mapping_idx :=
  let '(max_end, indices) := s in
  let idx := indices !!! i in
  if negb (start idx =? NO_KEY) && (start idx >? end0) then
    let max_end := if end_ idx >? max_end then end_ idx else max_end in
    (max_end, <[i := mkMapIdx (u8 (start idx - length)) (u8 (end_ idx - length))]> indices)
  else (max_end, indices).

Definition config_delete_layout (num : Z) (s : config_state) : bool * config_state :=
  if num >=? NUM_KEY_MAPPING_INDICES then (false, config_emit (ConfigMessage MSG_NO_LAYOUT) s)
  else
    let idx := saved_key_mapping_indices s !!! Z.to_nat num in
    let start0 := start idx in
    if start0 =? NO_KEY then (false, config_emit (ConfigMessage MSG_NO_LAYOUT) s)
    else
      let end0 := end_ idx in
      let length := u8 (end0 - start0 + 1) in
      let indices := <[Z.to_nat num := mkMapIdx 0xff 0xff]> (saved_key_mapping_indices s) in
      let '(max_end, indices) := for_range 0 NUM_INDICES (delete_step end0 length) (end0, indices) in
      let mappings :=
        if end0 <? max_end
        then move_elems (Z.to_nat (end0 + 1 - length)) (Z.to_nat (end0 + 1)) (Z.to_nat (max_end - end0))
               (saved_key_mappings s)
        else saved_key_mappings s in
      (true, set_saved indices mappings s).

(** The loop that finds the last used element; [old_end] is an [int16_t]. *)
Definition last_step (indices : list key_mapping_idx) (i : nat) (old_end : Z) : Z :=
  let idx := indices !!! i in
  if start idx =? NO_KEY then old_end
  else if end_ idx >? old_end then end_ idx else old_end.

(** The loop over the keys of [config_save_layout]: [full] is set when the
    code has returned for lack of space. *)
Record saving := mkSaving {
  full : bool;
  cursor : Z;
  mappings : list key_mapping
}.

Definition save_step (map : list Z) (l : nat) (a : saving) : saving :=
  if full a then a
  else
    let h := map !!! l in
    let d := logical_to_hid_map_default !!! l in
    if negb (h =? d) then
      if cursor a >=? SAVED_MAPPING_COUNT - 1 then mkSaving true (cursor a) (mappings a)
      else mkSaving false (u8 (cursor a + 1))
             (<[Z.to_nat (cursor a) := mkMapping (Z.of_nat l) h]> (mappings a))
    else a.

Definition config_save_layout (num : Z) (s : config_state) : bool * config_state :=
  if num >=? NUM_KEY_MAPPING_INDICES then (false, config_emit (ConfigMessage MSG_NO_LAYOUT) s)
  else
    let s := (config_delete_layout num s).2 in
    let old_end := for_range 0 NUM_INDICES (last_step (saved_key_mapping_indices s)) (-1) in
    let start0 := u8 (old_end + 1) in
    let a := for_range 0 NUM_KEYS (save_step (logical_to_hid_map s))
               (mkSaving false start0 (saved_key_mappings s)) in
    let s := set_saved (saved_key_mapping_indices s) (mappings a) s in
    if full a then (false, config_emit (ConfigMessage "Fail: no space") s)
    else if negb (start0 =? cursor a) then
      (true, set_saved (<[Z.to_nat num := mkMapIdx start0 (u8 (cursor a - 1))]> (saved_key_mapping_indices s))
               (saved_key_mappings s) s)
    else (false, config_emit (ConfigMessage "No change") s).

(** The loop over the keys of [config_load_layout]: the next saved pair [m] and
    the offset of the one after it. *)
Definition load_step (saved : list key_mapping) (end0 : Z) (lkey : nat)
    (s : key_mapping * Z * list Z) : key_mapping * Z * list Z :=
  let '(m, offset, map) := s in
  if negb (Z.of_nat lkey =? l_key m) then
    (m, offset, <[lkey := logical_to_hid_map_default !!! lkey]> map)
  else
    let map := <[lkey := h_key m]> map in
    if offset <=? end0 then (saved !!! Z.to_nat offset, u8 (offset + 1), map) else (m, offset, map).

Definition config_load_layout (num : Z) (s : config_state) : bool * config_state :=
  if num >=? NUM_KEY_MAPPING_INDICES then (false, config_emit (ConfigMessage MSG_NO_LAYOUT) s)
  else
    let idx := saved_key_mapping_indices s !!! Z.to_nat num in
    let start0 := start idx in
    if start0 =? NO_KEY then (false, config_emit (ConfigMessage MSG_NO_LAYOUT) s)
    else
      let end0 := end_ idx in
      let m := saved_key_mappings s !!! Z.to_nat start0 in
      let '(_, _, map) := for_range 0 NUM_KEYS (load_step (saved_key_mappings s) end0)
                            (m, u8 (start0 + 1), logical_to_hid_map s) in
      (true, set_map map s).

(** ** Programs *)

Abbreviation SIZEOF_PROGRAM_IDX := 4%Z (only parsing).

(** The offset in the program area of program [idx]; [None] is the null pointer. *)
Definition config_get_program (idx : Z) (s : config_state) : option Z :=
  let program_offset := of_le16 [programs s !!! Z.to_nat (idx * SIZEOF_PROGRAM_IDX);
                                 programs s !!! Z.to_nat (idx * SIZEOF_PROGRAM_IDX + 1)] in
  if program_offset =? 0xffff then None
  else Some (PROGRAM_COUNT * SIZEOF_PROGRAM_IDX + program_offset).

Definition config_reset_program_defaults (s : config_state) : config_state :=
  let sz := Z.to_nat (u8 (PROGRAM_COUNT * SIZEOF_PROGRAM_IDX)) in
  set_programs (replicate sz NO_KEY ++ drop sz (programs s)) s.

(** ** Reset and start *)

Section Reset.
Context {M : Type} {St : Storage M} (macros_storage : Z) (macro_def_infos : list macro_def_info).

(** [config_reset_fully] works on the configuration and on the macros. *)
Definition config_reset_fully (s : config_state * macro_state (M:=M)) : config_state * macro_state (M:=M) :=
  let '(c, ms) := s in
  let c := config_emit (ConfigBuzzer 2000 120) c in
  let c := set_settings 0 3 25 4 c in
  let c := set_saved (replicate NUM_INDICES (mkMapIdx NO_KEY NO_KEY)) (saved_key_mappings c) c in
  let c := config_reset_program_defaults c in
  let ms := set_index (macro_idx_reset_defaults macro_def_infos (Macro.macro_index ms)) ms in
  let ms := macros_reset_defaults macros_storage macro_def_infos ms in
  let c := config_reset_defaults c in
  let c := set_sentinel EEPROM_SENTINEL c in
  (config_emit (ConfigBuzzer 200 60) c, ms).

Definition config_init (s : config_state * macro_state (M:=M)) : config_state * macro_state (M:=M) :=
  let sentinel := eeprom_sentinel_byte s.1 in
  if negb (sentinel =? EEPROM_SENTINEL) then config_reset_fully s else s.
End Reset.

(** What keystate.c reads of the configuration. *)
Definition view_of (s : config_state) : config_view :=
  mkConfigView (fun k => config_get_definition k s) (config_get_debounce_len s)
    (key_sound_enabled (config_get_flags s)) (config_get_mouse_div s) (config_get_wheel_div s).
End Config.
