(* ===== verification/ConfigProofs.v ===== *)
(** * Correctness of the saved layouts and of the configuration reset

    The store of saved layouts as a directory: the saved layouts in the order in
    which they lie packed in the buffer.  The operations of src/config.c on the
    index and the buffer are shown to insert, delete and look up in the finite
    map the directory stands for, and loading to restore what was saved. *)

From stdpp Require Import gmap.
From S2P Require Import Prelude Hid Hardware ExtraReport MacroIndex Storage Macro MacroProofs Keystate Config.
From S2P Require Import K80cs K84cs.

(** The sizes the code relies on: indices into the buffer are bytes, and 0xff marks a free slot. *)
Class SavedLayoutsOk (H : Hardware) (K : HotKeys) : Prop := {
  saved_count_ok : 1 <= SAVED_MAPPING_COUNT <= 256;
  num_indices_ok : 0 <= NUM_KEY_MAPPING_INDICES < 256;
  programs_ok : 0 <= PROGRAM_COUNT * 4 <= PROGRAM_SIZE /\ PROGRAM_COUNT * 4 < 256
}.

#[export] Instance K84cs_layouts_ok : SavedLayoutsOk K84cs_hardware K84cs_hotkeys.
Proof. split; vm_compute; repeat split; congruence. Qed.
#[export] Instance K80cs_layouts_ok : SavedLayoutsOk K80cs_hardware K80cs_hotkeys.
Proof. split; vm_compute; repeat split; congruence. Qed.

(** ** Directories *)

Definition directory : Type := list (nat * list key_mapping).

Definition flat_dir (d : directory) : list key_mapping := concat (map snd d).
Definition dir_len (d : directory) : Z := Z.of_nat (length (flat_dir d)).

(** The index entry of slot [n] when the directory starts at element [off]. *)
Fixpoint position (n : nat) (d : directory) (off : Z) : option key_mapping_idx :=
  match d with
  | [] => None
  | (m, l) :: d =>
      if decide (m = n) then Some (mkMapIdx off (off + Z.of_nat (length l) - 1))
      else position n d (off + Z.of_nat (length l))
  end.

Lemma flat_dir_app a b : flat_dir (a ++ b) = flat_dir a ++ flat_dir b.
Proof. unfold flat_dir. by rewrite map_app, concat_app. Qed.

Lemma dir_len_app a b : dir_len (a ++ b) = dir_len a + dir_len b.
Proof. unfold dir_len. rewrite flat_dir_app, length_app. lia. Qed.

Lemma dir_len_cons n l d : dir_len ((n, l) :: d) = Z.of_nat (length l) + dir_len d.
Proof. unfold dir_len, flat_dir. cbn [map concat snd]. rewrite length_app. lia. Qed.

Lemma dir_len_nil : dir_len [] = 0.
Proof. done. Qed.

Lemma dir_len_nonneg d : 0 <= dir_len d.
Proof. unfold dir_len. lia. Qed.

Ltac dir_lia :=
  repeat match goal with
  | |- context [dir_len (_ ++ _)] => rewrite dir_len_app
  | |- context [dir_len (_ :: _)] => rewrite dir_len_cons
  | |- context [dir_len []] => rewrite dir_len_nil
  | H : context [dir_len (_ ++ _)] |- _ => rewrite dir_len_app in H
  | H : context [dir_len (_ :: _)] |- _ => rewrite dir_len_cons in H
  | H : context [dir_len []] |- _ => rewrite dir_len_nil in H
  end;
  repeat match goal with
  | |- context [dir_len ?a] =>
      lazymatch goal with H : 0 <= dir_len a |- _ => fail | _ => pose proof (dir_len_nonneg a) end
  | H : context [dir_len ?a] |- _ =>
      lazymatch goal with H : 0 <= dir_len a |- _ => fail | _ => pose proof (dir_len_nonneg a) end
  end; lia.

Lemma position_none n d off : position n d off = None <-> n ∉ map fst d.
Proof.
  revert off. induction d as [|[m l] d IH]; intros off; cbn [position map fst].
  - split; [by intros _ ?%elem_of_nil|done].
  - rewrite elem_of_cons. destruct (decide (m = n)) as [->|Hne].
    + split; [done|]. intros Hn. exfalso. apply Hn. by left.
    + rewrite IH. split; [intros Hn [?|?]; [congruence|done]|]. intros Hn Hin. apply Hn. by right.
Qed.

Lemma position_app_l n a b off :
  n ∈ map fst a -> position n (a ++ b) off = position n a off.
Proof.
  revert off. induction a as [|[m l] a IH]; intros off Hin; cbn [position app map fst] in *.
  - by apply elem_of_nil in Hin.
  - destruct (decide (m = n)) as [->|Hne]; [done|]. apply IH.
    apply elem_of_cons in Hin as [?|?]; [congruence|done].
Qed.

Lemma position_app_r n a b off :
  n ∉ map fst a -> position n (a ++ b) off = position n b (off + dir_len a).
Proof.
  revert off. induction a as [|[m l] a IH]; intros off Hn; cbn [position app map fst] in *.
  - unfold dir_len. cbn. f_equal. lia.
  - destruct (decide (m = n)) as [->|Hne]; [exfalso; apply Hn; by left|].
    rewrite IH, dir_len_cons; [f_equal; lia|]. intros ?. apply Hn. by right.
Qed.

Lemma position_some n a l b off :
  n ∉ map fst a ->
  position n (a ++ (n, l) :: b) off
  = Some (mkMapIdx (off + dir_len a) (off + dir_len a + Z.of_nat (length l) - 1)).
Proof. intros Hn. rewrite position_app_r by done. cbn [position]. by rewrite decide_True. Qed.

Lemma position_split n d off idx :
  position n d off = Some idx ->
  exists a l b, d = a ++ (n, l) :: b /\ n ∉ map fst a /\
    idx = mkMapIdx (off + dir_len a) (off + dir_len a + Z.of_nat (length l) - 1).
Proof.
  revert off. induction d as [|[m l] d IH]; intros off; cbn [position]; [done|].
  destruct (decide (m = n)) as [->|Hne].
  - intros [= <-]. exists [], l, d. split_and!; [done|by apply not_elem_of_nil|].
    unfold dir_len. cbn. f_equal; lia.
  - intros (a & l' & b & -> & Hn & ->)%IH. exists ((m, l) :: a), l', b. split_and!; [done| |].
    + cbn [map fst]. apply not_elem_of_cons. by split.
    + rewrite dir_len_cons. f_equal; lia.
Qed.

(** The directory as a map. *)
Definition layouts (d : directory) : gmap nat (list key_mapping) := list_to_map d.

(** ** Layouts as differences from the default *)

Section Differences.
Context {H : Hardware}.

(** The keys below [n] that [map] changes, as [config_save_layout] records them. *)
Definition diffs (map : list Z) (n : nat) : list key_mapping :=
  concat (List.map (fun k => if map !!! k =? logical_to_hid_map_default !!! k then []
                             else [mkMapping (Z.of_nat k) (map !!! k)]) (seq 0 n)).

(** What a layout makes of a key. *)
Definition override (l : list key_mapping) (k : nat) : Z :=
  match filter (fun m => l_key m = Z.of_nat k) l with
  | m :: _ => h_key m
  | [] => logical_to_hid_map_default !!! k
  end.

Definition key_before (m1 m2 : key_mapping) : Prop := l_key m1 < l_key m2.

(** Saved layouts list their keys in increasing order. *)
Definition layout_ok (l : list key_mapping) : Prop :=
  StronglySorted key_before l /\ Forall (fun m => 0 <= l_key m < NUM_LOGICAL_KEYS) l.

Lemma diffs_S map n :
  diffs map (S n) = diffs map n ++ (if map !!! n =? logical_to_hid_map_default !!! n then []
                                    else [mkMapping (Z.of_nat n) (map !!! n)]).
Proof.
  unfold diffs. rewrite seq_S, map_app, concat_app. cbn [List.map concat Nat.add]. by rewrite app_nil_r.
Qed.

Lemma diffs_keys map n m : m ∈ diffs map n -> 0 <= l_key m < Z.of_nat n.
Proof.
  induction n as [|n IH]; [by intros ?%not_elem_of_nil|].
  rewrite diffs_S. intros [Hm|Hm]%elem_of_app; [specialize (IH Hm); lia|].
  case_if_in Hm; [by apply not_elem_of_nil in Hm|]. apply list_elem_of_singleton in Hm as ->. cbn. lia.
Qed.

Lemma diffs_ok map n : Z.of_nat n <= NUM_LOGICAL_KEYS -> layout_ok (diffs map n).
Proof.
  intros Hn. split.
  - clear Hn. induction n as [|n IH]; [constructor|]. rewrite diffs_S. apply StronglySorted_app. split_and!; [|done|].
    + intros m1 m2 H1 H2. apply diffs_keys in H1. case_if_in H2; [by apply not_elem_of_nil in H2|].
      apply list_elem_of_singleton in H2 as ->. unfold key_before. cbn. lia.
    + case_if; repeat constructor.
  - apply Forall_forall. intros m Hm%diffs_keys. lia.
Qed.

Lemma override_app_out l1 l2 k :
  (forall m, m ∈ l2 -> l_key m <> Z.of_nat k) -> override (l1 ++ l2) k = override l1 k.
Proof.
  intros Hl. unfold override. rewrite filter_app, (filter_none _ l2), app_nil_r; [done|]. by apply Forall_forall.
Qed.

Lemma override_none l k :
  (forall m, m ∈ l -> l_key m <> Z.of_nat k) -> override l k = logical_to_hid_map_default !!! k.
Proof. intros Hl. unfold override. rewrite filter_none; [done|]. by apply Forall_forall. Qed.

Lemma override_some l1 m l2 :
  (forall x, x ∈ l1 -> l_key x <> l_key m) -> 0 <= l_key m ->
  override (l1 ++ m :: l2) (Z.to_nat (l_key m)) = h_key m.
Proof.
  intros Hl Hk. unfold override. rewrite filter_app, (filter_none _ l1).
  - cbn [app]. rewrite filter_cons, decide_True; [done|]. lia.
  - apply Forall_forall. intros x Hx. specialize (Hl x Hx). lia.
Qed.

(** Saving and overriding gives the map back. *)
Lemma override_diffs map n k : (k < n)%nat -> override (diffs map n) k = map !!! k.
Proof.
  induction n as [|n IH]; intros Hk; [lia|]. rewrite diffs_S.
  destruct (Nat.eq_dec k n) as [->|Hne].
  - assert (Hout : forall m, m ∈ diffs map n -> l_key m <> Z.of_nat n).
    { intros m Hm%diffs_keys. lia. }
    case_if.
    + rewrite app_nil_r, override_none by done. done.
    + pose proof (override_some (diffs map n) (mkMapping (Z.of_nat n) (map !!! n)) []) as Hs.
      cbn [l_key h_key] in Hs. rewrite Nat2Z.id in Hs. apply Hs; [done|lia].
  - rewrite override_app_out; [apply IH; lia|]. intros m Hm. case_if_in Hm; [by apply not_elem_of_nil in Hm|].
    apply list_elem_of_singleton in Hm as ->. cbn. lia.
Qed.
End Differences.

(** ** The representation *)

Section Layouts.
Context {H : Hardware} {K : HotKeys} {Lok : SavedLayoutsOk H K}.

(** [d] describes the index and the buffer of [s]. *)
Record layouts_repr (d : directory) (s : config_state) : Prop := {
  repr_nodup : NoDup (map fst d);
  repr_slots : Forall (fun p => (p.1 < NUM_INDICES)%nat /\ p.2 <> []) d;
  repr_layouts : Forall (fun p => layout_ok p.2) d;
  repr_size : dir_len d <= SAVED_MAPPING_COUNT - 1;
  repr_indices : length (saved_key_mapping_indices s) = NUM_INDICES;
  repr_mappings : Z.of_nat (length (saved_key_mappings s)) = SAVED_MAPPING_COUNT;
  repr_index : forall n, (n < NUM_INDICES)%nat ->
    match position n d 0 with
    | Some idx => saved_key_mapping_indices s !!! n = idx
    | None => start (saved_key_mapping_indices s !!! n) = NO_KEY
    end;
  repr_data : take (length (flat_dir d)) (saved_key_mappings s) = flat_dir d
}.

Lemma position_bounds d s n idx :
  layouts_repr d s -> position n d 0 = Some idx ->
  0 <= start idx <= end_ idx /\ end_ idx <= dir_len d - 1 /\ end_ idx <= 254 /\ start idx <> NO_KEY.
Proof.
  intros R Hp. pose proof (repr_slots _ _ R) as Hs. pose proof (repr_size _ _ R) as Hsz.
  pose proof saved_count_ok. apply position_split in Hp as (a & l & b & -> & _ & ->).
  apply Forall_app in Hs as [_ [[_ Hl] _]%Forall_cons]. cbn [snd] in Hl.
  rewrite dir_len_app, dir_len_cons in *. pose proof (dir_len_nonneg a). pose proof (dir_len_nonneg b).
  assert (0 < Z.of_nat (length l)) by (destruct l; [done|simpl; lia]). cbn [start end_]. lia.
Qed.

Lemma repr_find d s num :
  layouts_repr d s -> 0 <= num < NUM_KEY_MAPPING_INDICES ->
  (exists a l b, d = a ++ (Z.to_nat num, l) :: b /\
     Z.to_nat num ∉ map fst a /\ Z.to_nat num ∉ map fst b /\ l <> [] /\
     saved_key_mapping_indices s !!! Z.to_nat num
     = mkMapIdx (dir_len a) (dir_len a + Z.of_nat (length l) - 1) /\ layouts d !! Z.to_nat num = Some l) \/
  (Z.to_nat num ∉ map fst d /\ start (saved_key_mapping_indices s !!! Z.to_nat num) = NO_KEY /\
   layouts d !! Z.to_nat num = None).
Proof.
  intros R Hn. pose proof (repr_index _ _ R (Z.to_nat num) ltac:(unfold NUM_INDICES; lia)) as Hi.
  pose proof (repr_nodup _ _ R) as Hnd.
  destruct (position (Z.to_nat num) d 0) as [idx|] eqn:Ep.
  - left. apply position_split in Ep as (a & l & b & -> & Ha & ->).
    pose proof (repr_slots _ _ R) as Hs. apply Forall_app in Hs as [_ [[_ Hl] _]%Forall_cons].
    exists a, l, b. rewrite map_app in Hnd. cbn [map fst] in Hnd.
    apply NoDup_app in Hnd as (_ & _ & [Hb _]%NoDup_cons). split_and!; try done.
    unfold layouts. rewrite list_to_map_app, list_to_map_cons.
    rewrite lookup_union_r, lookup_insert_eq; [done|]. by apply not_elem_of_list_to_map_1.
  - right. apply position_none in Ep. split_and!; [done|done|]. by apply not_elem_of_list_to_map_1.
Qed.

(** *** Deletion *)

Definition shift_idx (end0 len : Z) (idx : key_mapping_idx) : key_mapping_idx :=
  if negb (start idx =? NO_KEY) && (start idx >? end0)
  then mkMapIdx (u8 (start idx - len)) (u8 (end_ idx - len)) else idx.

Definition above (end0 : Z) (idx : key_mapping_idx) : Prop := start idx <> NO_KEY /\ end0 < start idx.

(** The loop over the index: every entry above the deleted range moves down, and
    [max_end] is the largest end of these. *)
Lemma delete_loop end0 len indices :
  let '(max_end, indices') := for_range 0 (length indices) (delete_step end0 len) (end0, indices) in
  indices' = map (shift_idx end0 len) indices /\
  (max_end = end0 \/ exists idx, idx ∈ indices /\ above end0 idx /\ max_end = end_ idx) /\
  (forall idx, idx ∈ indices -> above end0 idx -> end_ idx <= max_end) /\ end0 <= max_end.
Proof.
  cut (forall n, (n <= length indices)%nat ->
    let '(max_end, indices') := for_range 0 n (delete_step end0 len) (end0, indices) in
    indices' = map (shift_idx end0 len) (take n indices) ++ drop n indices /\
    (max_end = end0 \/ exists idx, idx ∈ take n indices /\ above end0 idx /\ max_end = end_ idx) /\
    (forall idx, idx ∈ take n indices -> above end0 idx -> end_ idx <= max_end) /\ end0 <= max_end).
  { intros Hcut. specialize (Hcut (length indices) (le_n _)).
    destruct (for_range 0 (length indices) (delete_step end0 len) (end0, indices)) as [mx is'].
    by rewrite firstn_all, drop_all, app_nil_r in Hcut. }
  induction n as [|n IH]; intros Hn.
  - cbn. rewrite drop_0, take_0. split_and!; [done|by left|by intros idx Hi%not_elem_of_nil|lia].
  - rewrite for_range_snoc. cbn [Nat.add]. specialize (IH ltac:(lia)).
    destruct (for_range 0 n (delete_step end0 len) (end0, indices)) as [mx is'].
    destruct IH as (-> & Hmx & Hall & Hge). destruct (lookup_lt_is_Some_2 indices n Hn) as [x Hx].
    unfold delete_step. rewrite (drop_S _ _ _ Hx).
    assert (Hl : length (map (shift_idx end0 len) (take n indices)) = n) by (rewrite length_map, length_take; lia).
    rewrite list_lookup_total_middle by done. rewrite (take_S_r _ _ _ Hx), map_app, <- app_assoc. cbn [map app].
    assert (Hin : forall idx, idx ∈ take n indices ++ [x] -> idx ∈ take n indices \/ idx = x).
    { intros idx [?| ->%list_elem_of_singleton]%elem_of_app; [by left|by right]. }
    assert (Hex : forall idx, idx ∈ take n indices -> idx ∈ take n indices ++ [x]).
    { intros idx ?. apply elem_of_app. by left. }
    assert (Hsh : shift_idx end0 len x = if negb (start x =? NO_KEY) && (start x >? end0)
              then mkMapIdx (u8 (start x - len)) (u8 (end_ x - len)) else x) by done.
    rewrite Hsh. clear Hsh. destruct (negb (start x =? NO_KEY) && (start x >? end0)) eqn:Heqb; bsplit.
    + rewrite insert_app_r_alt, Hl, Nat.sub_diag by lia. cbn [insert list_insert].
      assert (Hab : above end0 x) by (unfold above; lia).
      split; [done|]. case_if; split_and!; try lia.
      * right. exists x. split_and!; [apply elem_of_app; right; by apply list_elem_of_singleton|done..].
      * intros idx [Hi| ->]%Hin Ha; [specialize (Hall idx Hi Ha); lia|lia].
      * destruct Hmx as [?|(idx & ? & ? & ?)]; [by left|right; exists idx; auto].
      * intros idx [Hi| ->]%Hin Ha; [by apply Hall|lia].
    + assert (Hab : ~ above end0 x).
      { intros [Ha Hb]. apply andb_false_iff in Heqb as [E|E]; bsplit; [done|lia]. }
      split; [done|]. split_and!; [|intros idx [Hi| ->]%Hin Ha; [by apply Hall|done]|lia].
      destruct Hmx as [?|(idx & ? & ? & ?)]; [by left|right; exists idx; auto].
Qed.

Lemma move_elems_take {A} `{Inhabited A} (pre x rest post : list A) :
  take (length pre + length rest)
    (move_elems (length pre) (length pre + length x) (length rest) (pre ++ x ++ rest ++ post)) = pre ++ rest.
Proof.
  apply list_eq_same_length with (length pre + length rest)%nat.
  - by rewrite length_app.
  - rewrite length_take. unfold move_elems. rewrite length_map, length_seq, !length_app. lia.
  - intros i a b Hi Ha Hb. rewrite lookup_take_lt in Ha by done. unfold move_elems in Ha.
    rewrite list_lookup_fmap, lookup_seq_lt in Ha by (rewrite !length_app; lia).
    apply (inj Some) in Ha. subst a. rewrite Nat.add_0_l.
    destruct (Nat.lt_ge_cases i (length pre)) as [Hp|Hp].
    + rewrite (proj2 (Nat.leb_gt _ _)) by done. cbn [andb].
      rewrite lookup_app_l in Hb by done. rewrite lookup_total_app_l by done. by apply list_lookup_total_correct.
    + rewrite (proj2 (Nat.leb_le _ _)), (proj2 (Nat.ltb_lt _ _)) by lia. cbn [andb].
      rewrite lookup_app_r in Hb by done. apply list_lookup_total_correct.
      rewrite lookup_app_r by lia. rewrite lookup_app_r by lia. rewrite lookup_app_l by lia.
      rewrite <- Hb. f_equal. lia.
Qed.

Lemma position_shift n d off len :
  position n d (off + len)
  = match position n d off with
    | Some idx => Some (mkMapIdx (start idx + len) (end_ idx + len))
    | None => None
    end.
Proof.
  revert off. induction d as [|[m l] d IH]; intros off; cbn [position]; [done|].
  destruct (decide (m = n)); [f_equal; cbn; f_equal; lia|]. rewrite <- IH. f_equal. lia.
Qed.

Lemma position_lower n d off idx :
  Forall (fun p => (p.1 < NUM_INDICES)%nat /\ p.2 <> []) d -> position n d off = Some idx ->
  off <= start idx <= end_ idx /\ end_ idx < off + dir_len d.
Proof.
  intros Hs (a & l & b & -> & _ & ->)%position_split.
  apply Forall_app in Hs as [_ [[_ Hl] _]%Forall_cons]. cbn [snd] in Hl.
  rewrite dir_len_app, dir_len_cons. pose proof (dir_len_nonneg a). pose proof (dir_len_nonneg b).
  assert (0 < Z.of_nat (length l)) by (destruct l; [done|simpl; lia]). cbn [start end_]. lia.
Qed.

(** The entries of an index with slot [num] cleared. *)
Lemma cleared_entry d s num idx :
  layouts_repr d s -> (num < NUM_INDICES)%nat ->
  idx ∈ <[num := mkMapIdx 0xff 0xff]> (saved_key_mapping_indices s) -> start idx <> NO_KEY ->
  exists n, n <> num /\ (n < NUM_INDICES)%nat /\ position n d 0 = Some idx.
Proof.
  intros R Hnum Hin Hst. apply list_elem_of_lookup in Hin as [n Hn].
  pose proof (lookup_lt_Some _ _ _ Hn) as Hlt. rewrite length_insert, (repr_indices _ _ R) in Hlt.
  destruct (decide (n = num)) as [->|Hne].
  { rewrite list_lookup_insert_eq in Hn by (by rewrite (repr_indices _ _ R)). by injection Hn as <-. }
  rewrite list_lookup_insert_ne in Hn by done. exists n. split_and!; [done..|].
  pose proof (repr_index _ _ R n Hlt) as Hi. rewrite (list_lookup_total_correct _ _ _ Hn) in Hi.
  destruct (position n d 0); [by rewrite Hi|done].
Qed.

(** [max_end] is the last used element. *)
Lemma delete_max_end a num l b s max_end indices' :
  layouts_repr (a ++ (num, l) :: b) s -> (num < NUM_INDICES)%nat -> num ∉ map fst a -> num ∉ map fst b ->
  let end0 := dir_len a + Z.of_nat (length l) - 1 in
  let cleared := <[num := mkMapIdx 0xff 0xff]> (saved_key_mapping_indices s) in
  for_range 0 NUM_INDICES (delete_step end0 (Z.of_nat (length l))) (end0, cleared) = (max_end, indices') ->
  indices' = map (shift_idx end0 (Z.of_nat (length l))) cleared /\ max_end - end0 = dir_len b.
Proof.
  intros R Hnum Ha Hb end0 cleared Hloop.
  pose proof (delete_loop end0 (Z.of_nat (length l)) cleared) as Hdl.
  assert (Hlen : length cleared = NUM_INDICES) by (unfold cleared; by rewrite length_insert, (repr_indices _ _ R)).
  rewrite Hlen, Hloop in Hdl. destruct Hdl as (-> & Hmx & Hall & Hge). split; [done|].
  assert (Hdl : dir_len (a ++ (num, l) :: b) = end0 + 1 + dir_len b) by (rewrite dir_len_app, dir_len_cons; lia).
  apply Z.le_antisymm.
  - destruct Hmx as [-> |(idx & Hin & [Hst _] & ->)]; [pose proof (dir_len_nonneg b); lia|].
    destruct (cleared_entry _ s num idx R Hnum Hin Hst) as (n & _ & _ & Hp).
    pose proof (position_bounds _ _ _ _ R Hp). lia.
  - destruct b as [|[n l'] b' _] using rev_ind; [unfold dir_len; cbn; lia|].
    pose proof (repr_nodup _ _ R) as Hnd. rewrite (app_assoc a ((num, l) :: b') [(n, l')] : _ ++ _ :: _ ++ _ = _) in *.
    rewrite map_app in Hnd. apply NoDup_app in Hnd as (_ & Hd & _).
    assert (Hn : n ∉ map fst (a ++ (num, l) :: b')).
    { intros Hin. apply (Hd n Hin). by left. }
    assert (Hp := position_some n (a ++ (num, l) :: b') l' [] 0 Hn).
    pose proof (position_bounds _ _ _ _ R Hp) as Hbd. cbn [start end_] in Hbd.
    pose proof (repr_slots _ _ R) as Hs. apply Forall_app in Hs as [_ [[Hn' _] _]%Forall_cons]. cbn [fst] in Hn'.
    pose proof (repr_index _ _ R n Hn') as Hi. rewrite Hp in Hi.
    assert (Hne : num <> n).
    { intros ->. apply Hn. rewrite map_app. cbn [map fst]. apply elem_of_app. right. by left. }
    assert (Hin : saved_key_mapping_indices s !!! n ∈ cleared).
    { apply list_elem_of_lookup. exists n. unfold cleared. rewrite list_lookup_insert_ne by done.
      apply lookup_total_lookup. by rewrite (repr_indices _ _ R). }
    assert (Hab : above end0 (saved_key_mapping_indices s !!! n)).
    { rewrite Hi. split; cbn [start]; [lia|]. rewrite dir_len_app, dir_len_cons. pose proof (dir_len_nonneg b'). unfold end0. lia. }
    specialize (Hall _ Hin Hab). rewrite Hi in Hall. cbn [end_] in Hall.
    clear -Hall. subst end0. dir_lia.
Qed.

Lemma repr_split a num l b s :
  layouts_repr (a ++ (num, l) :: b) s ->
  (num < NUM_INDICES)%nat /\ l <> [] /\ num ∉ map fst a /\ num ∉ map fst b /\
  exists post, saved_key_mappings s = flat_dir a ++ l ++ flat_dir b ++ post.
Proof.
  intros R. pose proof (repr_slots _ _ R) as Hs. apply Forall_app in Hs as [_ [[Hn Hl] _]%Forall_cons].
  pose proof (repr_nodup _ _ R) as Hnd. rewrite map_app in Hnd. cbn [map fst] in Hnd.
  apply NoDup_app in Hnd as (_ & Hd & [Hb _]%NoDup_cons). split_and!; try done.
  - intros Ha. apply (Hd num Ha). by left.
  - pose proof (repr_data _ _ R) as Hdt.
    exists (drop (length (flat_dir (a ++ (num, l) :: b))) (saved_key_mappings s)).
    rewrite <- (take_drop (length (flat_dir (a ++ (num, l) :: b))) (saved_key_mappings s)) at 1.
    rewrite Hdt, flat_dir_app. unfold flat_dir. cbn [map concat snd]. by rewrite <- !app_assoc.
Qed.

(** The index after a deletion. *)
Lemma delete_index a num l b s n :
  layouts_repr (a ++ (num, l) :: b) s -> (n < NUM_INDICES)%nat ->
  let end0 := dir_len a + Z.of_nat (length l) - 1 in
  let cleared := <[num := mkMapIdx 0xff 0xff]> (saved_key_mapping_indices s) in
  match position n (a ++ b) 0 with
  | Some idx => shift_idx end0 (Z.of_nat (length l)) (cleared !!! n) = idx
  | None => start (shift_idx end0 (Z.of_nat (length l)) (cleared !!! n)) = NO_KEY
  end.
Proof.
  intros R Hn end0 cleared. destruct (repr_split _ _ _ _ _ R) as (Hnum & Hl & Ha & Hb & _).
  pose proof (repr_index _ _ R n Hn) as Hi. pose proof (repr_slots _ _ R) as Hs.
  apply Forall_app in Hs as [Hsa [_ Hsb]%Forall_cons].
  assert (Hid : forall idx, start idx = NO_KEY -> shift_idx end0 (Z.of_nat (length l)) idx = idx).
  { intros idx E. unfold shift_idx. by rewrite E. }
  destruct (decide (n = num)) as [->|Hne].
  { assert (position num (a ++ b) 0 = None) as ->.
    { apply position_none. rewrite map_app. intros [?|?]%elem_of_app; done. }
    unfold cleared. rewrite list_lookup_total_insert_eq by (by rewrite (repr_indices _ _ R)). by rewrite Hid. }
  unfold cleared. rewrite list_lookup_total_insert_ne by done.
  destruct (decide (n ∈ map fst a)) as [Hin|Hout].
  - rewrite position_app_l in * by done. destruct (position n a 0) as [idx|] eqn:Ep.
    + rewrite Hi. unfold shift_idx. destruct (position_lower n a 0 idx Hsa Ep) as [? ?].
      destruct (Z.gtb_spec (start idx) end0); [unfold end0 in *; lia|]. by rewrite andb_false_r.
    + by rewrite Hid.
  - rewrite position_app_r in * by done. cbn [position] in Hi. rewrite decide_False in Hi by done.
    rewrite position_shift in Hi. rewrite Z.add_0_l in *.
    destruct (position n b (dir_len a)) as [idx|] eqn:Ep; [|by rewrite Hid].
    destruct (position_lower n b _ idx Hsb Ep) as [Hlo Hhi]. pose proof (repr_size _ _ R) as Hsz.
    pose proof saved_count_ok as Hcnt. rewrite dir_len_app, dir_len_cons in Hsz. pose proof (dir_len_nonneg a).
    rewrite Hi. unfold shift_idx. cbn [start end_].
    rewrite (proj2 (Z.eqb_neq _ _)) by lia.
    destruct (Z.gtb_spec (start idx + Z.of_nat (length l)) end0); [|unfold end0 in *; lia]. cbn [negb andb].
    rewrite !u8_small by (unfold is_u8; lia). destruct idx as [st en]. cbn [start end_]. f_equal; lia.
Qed.

Lemma delete_spec a num l b s :
  layouts_repr (a ++ (Z.to_nat num, l) :: b) s -> 0 <= num < NUM_KEY_MAPPING_INDICES ->
  exists indices' mappings', config_delete_layout num s = (true, set_saved indices' mappings' s) /\
    layouts_repr (a ++ b) (set_saved indices' mappings' s).
Proof.
  intros R Hnum. destruct (repr_split _ _ _ _ _ R) as (Hn & Hl & Ha & Hb & post & Hm).
  pose proof (repr_index _ _ R _ Hn) as Hidx. rewrite position_some, Z.add_0_l in Hidx by done.
  pose proof (repr_size _ _ R) as Hsz. pose proof saved_count_ok as Hcnt.
  assert (Hll : 0 < Z.of_nat (length l)) by (destruct l; [done|simpl; lia]).
  unfold config_delete_layout. rewrite Z.geb_leb, (proj2 (Z.leb_gt _ _)) by lia.
  rewrite Hidx. cbn [start end_]. rewrite (proj2 (Z.eqb_neq (dir_len a) NO_KEY)) by dir_lia.
  set (end0 := dir_len a + Z.of_nat (length l) - 1).
  replace (u8 (end0 - dir_len a + 1)) with (Z.of_nat (length l))
    by (rewrite u8_small; unfold is_u8, end0; dir_lia).
  destruct (for_range 0 NUM_INDICES _ _) as [max_end indices'] eqn:Hloop.
  destruct (delete_max_end a (Z.to_nat num) l b s max_end indices' R Hn Ha Hb Hloop) as [-> Hmax].
  fold end0 in Hmax.
  match goal with |- exists i m, (true, set_saved ?i0 ?m0 s) = _ /\ _ => exists i0, m0 end. split; [done|].
  split.
  - pose proof (repr_nodup _ _ R) as Hnd. rewrite map_app in *. cbn [map fst] in Hnd.
    apply NoDup_app in Hnd as (Hna & Hd & [_ Hnb]%NoDup_cons). apply NoDup_app. split_and!; [done| |done].
    intros x Hx Hxb. apply (Hd x Hx). by right.
  - pose proof (repr_slots _ _ R) as Hs. apply Forall_app in Hs as [? [_ ?]%Forall_cons]. by apply Forall_app.
  - pose proof (repr_layouts _ _ R) as Hs. apply Forall_app in Hs as [? [_ ?]%Forall_cons]. by apply Forall_app.
  - dir_lia.
  - cbn [set_saved saved_key_mapping_indices]. rewrite length_map, length_insert. apply (repr_indices _ _ R).
  - cbn [set_saved saved_key_mappings]. rewrite <- (repr_mappings _ _ R). f_equal. case_if; [|done].
    unfold move_elems. by rewrite length_map, length_seq.
  - cbn [set_saved saved_key_mapping_indices]. intros n' Hn'.
    rewrite (list_lookup_total_fmap (shift_idx end0 (Z.of_nat (length l)))).
    2: { rewrite length_insert, (repr_indices _ _ R). done. }
    by apply delete_index.
  - cbn [set_saved saved_key_mappings]. rewrite flat_dir_app, length_app, Hm. case_if.
    + replace (Z.to_nat (end0 + 1 - Z.of_nat (length l))) with (length (flat_dir a)) by (unfold end0, dir_len; lia).
      replace (Z.to_nat (end0 + 1)) with (length (flat_dir a) + length l)%nat by (unfold end0, dir_len; lia).
      replace (Z.to_nat (max_end - end0)) with (length (flat_dir b)) by (rewrite Hmax; unfold dir_len; lia).
      apply move_elems_take.
    + assert (Hb0 : flat_dir b = []).
      { apply length_zero_iff_nil. unfold dir_len in Hmax. lia. }
      rewrite Hb0. cbn [length]. rewrite Nat.add_0_r, app_nil_r. by rewrite take_app_length.
Qed.

(** *** Saving *)

Lemma last_loop indices n :
  (n <= length indices)%nat ->
  let r := for_range 0 n (last_step indices) (-1) in
  (r = -1 \/ exists idx, idx ∈ take n indices /\ start idx <> NO_KEY /\ r = end_ idx) /\ -1 <= r /\
  (forall idx, idx ∈ take n indices -> start idx <> NO_KEY -> end_ idx <= r).
Proof.
  induction n as [|n IH]; intros Hn; cbv zeta.
  - split_and!; [by left|done|by intros idx ?%not_elem_of_nil].
  - rewrite for_range_snoc. cbn [Nat.add]. specialize (IH ltac:(lia)). cbv zeta in IH.
    set (r := for_range 0 n (last_step indices) (-1)) in *. destruct IH as (Hr & Hlow & Hall).
    destruct (lookup_lt_is_Some_2 indices n Hn) as [x Hx]. rewrite (take_S_r _ _ _ Hx).
    unfold last_step. rewrite (list_lookup_total_correct _ _ _ Hx).
    assert (Hex : forall idx, idx ∈ take n indices -> idx ∈ take n indices ++ [x]).
    { intros idx ?. apply elem_of_app. by left. }
    case_if; [|case_if].
    + split_and!; [|done|intros idx [Hi| ->%list_elem_of_singleton]%elem_of_app Hs; [by apply Hall|done]].
      destruct Hr as [?|(idx & ? & ? & ?)]; [by left|right; exists idx; auto].
    + split_and!; [|lia|intros idx [Hi| ->%list_elem_of_singleton]%elem_of_app Hs; [specialize (Hall _ Hi Hs); lia|lia]].
      right. exists x. split_and!; [|done..]. apply elem_of_app. right. by apply list_elem_of_singleton.
    + split_and!; [|done|intros idx [Hi| ->%list_elem_of_singleton]%elem_of_app Hs; [by apply Hall|lia]].
      destruct Hr as [?|(idx & ? & ? & ?)]; [by left|right; exists idx; auto].
Qed.

(** The used elements end at [dir_len d - 1]. *)
Lemma last_used d s :
  layouts_repr d s -> for_range 0 NUM_INDICES (last_step (saved_key_mapping_indices s)) (-1) = dir_len d - 1.
Proof.
  intros R. destruct (last_loop (saved_key_mapping_indices s) NUM_INDICES) as (Hr & Hlow & Hall).
  { by rewrite (repr_indices _ _ R). }
  set (r := for_range 0 NUM_INDICES _ _) in *. rewrite take_ge in Hr, Hall by (rewrite (repr_indices _ _ R); lia).
  assert (Hent : forall idx, idx ∈ saved_key_mapping_indices s -> start idx <> NO_KEY ->
            exists n, position n d 0 = Some idx).
  { intros idx [n Hn]%list_elem_of_lookup Hs. pose proof (lookup_lt_Some _ _ _ Hn) as Hlt.
    rewrite (repr_indices _ _ R) in Hlt. pose proof (repr_index _ _ R n Hlt) as Hi.
    rewrite (list_lookup_total_correct _ _ _ Hn) in Hi. exists n.
    destruct (position n d 0); [by rewrite Hi|done]. }
  apply Z.le_antisymm.
  - destruct Hr as [-> |(idx & Hin & Hs & ->)]; [pose proof (dir_len_nonneg d); lia|].
    destruct (Hent idx Hin Hs) as [n Hp]. apply (position_bounds _ _ _ _ R) in Hp. lia.
  - destruct d as [|[n l] d' _] using rev_ind; [done|].
    pose proof (repr_nodup _ _ R) as Hnd. rewrite map_app in Hnd. apply NoDup_app in Hnd as (_ & Hd & _).
    assert (Hn : n ∉ map fst d') by (intros Hin; apply (Hd n Hin); by left).
    pose proof (position_some n d' l [] 0 Hn) as Hp.
    pose proof (repr_slots _ _ R) as Hs. apply Forall_app in Hs as [_ [[Hn' _] _]%Forall_cons]. cbn [fst] in Hn'.
    pose proof (repr_index _ _ R n Hn') as Hi. rewrite Hp in Hi.
    pose proof (position_bounds _ _ _ _ R Hp) as Hbd.
    assert (Hle : end_ (saved_key_mapping_indices s !!! n) <= r).
    { apply Hall; [apply list_elem_of_lookup_total_2; by rewrite (repr_indices _ _ R)|rewrite Hi; apply Hbd]. }
    rewrite Hi in Hle. cbn [end_] in Hle. dir_lia.
Qed.

Lemma take_insert_snoc {A} (l : list A) n x :
  (n < length l)%nat -> take (S n) (<[n := x]> l) = take n l ++ [x].
Proof.
  intros Hn. rewrite (take_S_r _ n x) by (by apply list_lookup_insert_eq). by rewrite take_insert_ge by lia.
Qed.

(** The loop over the keys writes the differences behind the used elements. *)
Lemma save_loop map0 start0 maps n :
  Z.of_nat (length maps) = SAVED_MAPPING_COUNT -> 0 <= start0 <= SAVED_MAPPING_COUNT - 1 ->
  let a := for_range 0 n (save_step map0) (mkSaving false start0 maps) in
  Z.of_nat (length (mappings a)) = SAVED_MAPPING_COUNT /\
  take (Z.to_nat start0) (mappings a) = take (Z.to_nat start0) maps /\
  (if full a then SAVED_MAPPING_COUNT - 1 < start0 + Z.of_nat (length (diffs map0 n))
   else cursor a = start0 + Z.of_nat (length (diffs map0 n)) /\ cursor a <= SAVED_MAPPING_COUNT - 1 /\
        take (Z.to_nat (cursor a)) (mappings a) = take (Z.to_nat start0) maps ++ diffs map0 n).
Proof.
  intros Hl Hs. pose proof saved_count_ok as Hc. cbv zeta. induction n as [|n IH].
  - cbn. rewrite app_nil_r. split_and!; try done; lia.
  - rewrite for_range_snoc. cbn [Nat.add]. set (a := for_range 0 n _ _) in *.
    destruct IH as (Hla & Hta & Hcur). unfold save_step. rewrite diffs_S, length_app.
    destruct a as [f c m]. cbn [full cursor mappings] in *. destruct f; cbn [full cursor mappings].
    { split_and!; [done|done|lia]. }
    destruct Hcur as (-> & Hle & Htk). set (c := start0 + Z.of_nat (length (diffs map0 n))) in *.
    destruct (map0 !!! n =? logical_to_hid_map_default !!! n) eqn:Hdiff; cbn [negb].
    + cbn [full cursor mappings length]. rewrite Nat.add_0_r, app_nil_r. by split_and!.
    + case_if; cbn [full cursor mappings length].
      * split_and!; [done|done|lia].
      * rewrite length_insert. split; [done|]. split; [by rewrite take_insert_ge by lia|].
        rewrite u8_small by (unfold is_u8; lia). split; [lia|]. split; [lia|].
        replace (Z.to_nat (c + 1)) with (S (Z.to_nat c)) by lia.
        rewrite take_insert_snoc by lia. by rewrite Htk, app_assoc.
Qed.

Lemma NUM_KEYS_Z : 0 <= NUM_LOGICAL_KEYS -> Z.of_nat NUM_KEYS = NUM_LOGICAL_KEYS.
Proof. unfold NUM_KEYS. lia. Qed.

(** A store that changes only behind the used elements still represents the directory. *)
Lemma repr_same_prefix d s m :
  layouts_repr d s -> Z.of_nat (length m) = SAVED_MAPPING_COUNT ->
  take (length (flat_dir d)) m = take (length (flat_dir d)) (saved_key_mappings s) ->
  layouts_repr d (set_saved (saved_key_mapping_indices s) m s).
Proof.
  intros [R1 R2 R3 R4 R5 R6 R7 R8] Hl Ht. split; cbn [set_saved saved_key_mapping_indices saved_key_mappings]; try done.
  by rewrite Ht.
Qed.

(** Adding a layout for a slot the directory does not have. *)
Lemma repr_add d s num l m :
  layouts_repr d s -> (num < NUM_INDICES)%nat -> num ∉ map fst d -> l <> [] -> layout_ok l ->
  Z.of_nat (length m) = SAVED_MAPPING_COUNT -> dir_len d + Z.of_nat (length l) <= SAVED_MAPPING_COUNT - 1 ->
  take (length (flat_dir d) + length l) m = flat_dir d ++ l ->
  layouts_repr (d ++ [(num, l)])
    (set_saved (<[num := mkMapIdx (dir_len d) (dir_len d + Z.of_nat (length l) - 1)]> (saved_key_mapping_indices s)) m s).
Proof.
  intros [R1 R2 R3 R4 R5 R6 R7 R8] Hn Hd Hl Hok Hlm Hsz Ht.
  split; cbn [set_saved saved_key_mapping_indices saved_key_mappings].
  - rewrite map_app. apply NoDup_app. split_and!; [done| |apply NoDup_singleton].
    intros x Hx ->%list_elem_of_singleton. done.
  - apply Forall_app. split; [done|]. by apply Forall_singleton.
  - apply Forall_app. split; [done|]. by apply Forall_singleton.
  - dir_lia.
  - by rewrite length_insert.
  - done.
  - intros n Hn'. destruct (decide (n = num)) as [->|Hne].
    + rewrite position_some by done. rewrite list_lookup_total_insert_eq by (by rewrite R5). by rewrite Z.add_0_l.
    + rewrite list_lookup_total_insert_ne by done. specialize (R7 n Hn').
      destruct (decide (n ∈ map fst d)) as [Hin|Hout].
      * by rewrite position_app_l.
      * assert (Hno : position n d 0 = None) by (by apply position_none). rewrite Hno in R7.
        rewrite position_app_r by done. cbn [position]. by rewrite decide_False.
  - assert (E : flat_dir [(num, l)] = l) by (unfold flat_dir; cbn; apply app_nil_r).
    by rewrite flat_dir_app, length_app, E.
Qed.

Lemma save_spec d s num :
  0 <= NUM_LOGICAL_KEYS ->
  layouts_repr d s -> 0 <= num < NUM_KEY_MAPPING_INDICES -> Z.to_nat num ∉ map fst d ->
  let l := diffs (logical_to_hid_map s) NUM_KEYS in
  exists out, let '(ok, s') := config_save_layout num s in
    logical_to_hid_map s' = logical_to_hid_map s /\ config_out s' = config_out s ++ out /\
    if decide (l = []) then ok = false /\ layouts_repr d s'
    else if decide (dir_len d + Z.of_nat (length l) <= SAVED_MAPPING_COUNT - 1)
    then ok = true /\ layouts_repr (d ++ [(Z.to_nat num, l)]) s'
    else ok = false /\ layouts_repr d s'.
Proof.
  intros HN R Hnum Hd l. assert (Hn : (Z.to_nat num < NUM_INDICES)%nat) by (unfold NUM_INDICES; lia).
  unfold config_save_layout. rewrite Z.geb_leb, (proj2 (Z.leb_gt _ _)) by lia.
  assert (Hdel : config_delete_layout num s = (false, config_emit (ConfigMessage MSG_NO_LAYOUT) s)).
  { unfold config_delete_layout. rewrite Z.geb_leb, (proj2 (Z.leb_gt _ _)) by lia.
    pose proof (repr_index _ _ R _ Hn) as Hi. rewrite (proj2 (position_none _ _ _) Hd) in Hi. by rewrite Hi. }
  rewrite Hdel. cbn [snd]. cbn [config_emit saved_key_mapping_indices saved_key_mappings logical_to_hid_map].
  rewrite (last_used d s R). pose proof (repr_size _ _ R) as Hsz. pose proof saved_count_ok as Hc.
  pose proof (dir_len_nonneg d) as Hdn.
  replace (dir_len d - 1 + 1) with (dir_len d) by lia. rewrite (u8_small (dir_len d)) by (unfold is_u8; lia).
  pose proof (save_loop (logical_to_hid_map s) (dir_len d) (saved_key_mappings s) NUM_KEYS
                (repr_mappings _ _ R) ltac:(lia)) as Hloop. cbv zeta in Hloop. fold l in Hloop.
  set (a := for_range 0 NUM_KEYS _ _) in *. destruct Hloop as (Hla & Hta & Hcur).
  assert (Hfl : Z.to_nat (dir_len d) = length (flat_dir d)) by (unfold dir_len; lia).
  rewrite Hfl in *. set (s1 := config_emit (ConfigMessage MSG_NO_LAYOUT) s).
  assert (R1 : layouts_repr d s1) by (destruct R; by split).
  assert (R' : layouts_repr d (set_saved (saved_key_mapping_indices s1) (mappings a) s1))
    by (by apply repr_same_prefix).
  assert (Remit : forall e, layouts_repr d (config_emit e (set_saved (saved_key_mapping_indices s1) (mappings a) s1)))
    by (intros e; destruct R'; by split).
  change (mkConfig _ _ _ _ _ _ _ _ _ _) with s1.
  destruct (full a) eqn:Hfull.
  - eexists. cbv beta iota. split; [done|]. split; [cbn; rewrite <- app_assoc; reflexivity|].
    destruct (decide (l = [])) as [E|]; [rewrite E in Hcur; simpl in Hcur; lia|].
    rewrite decide_False by lia. split; [done|apply Remit].
  - destruct Hcur as (Hcu & Hle & Htk). rewrite Hcu in Htk.
    destruct (decide (l = [])) as [E|Hne].
    + rewrite E in Hcu. cbn [length] in Hcu. rewrite Z.add_0_r in Hcu. rewrite Hcu, Z.eqb_refl. cbn [negb].
      eexists. split; [done|]. split; [cbn; rewrite <- app_assoc; reflexivity|]. split; [done|apply Remit].
    + rewrite (proj2 (Z.eqb_neq _ _)) by (destruct l; [done|simpl in *; lia]). cbn [negb].
      eexists. split; [done|]. split; [reflexivity|]. rewrite decide_True by lia. split; [done|].
      rewrite Hcu, u8_small by (unfold is_u8; destruct l; [done|simpl in *; lia]).
      pose proof (repr_add d s1 (Z.to_nat num) l (mappings a) R1 Hn Hd Hne) as Hadd. apply Hadd; try done.
      * apply diffs_ok. rewrite NUM_KEYS_Z; lia.
      * lia.
      * rewrite <- Hfl, <- Nat2Z.id with (n := length l), <- Z2Nat.inj_add, Htk by lia.
        rewrite (repr_data _ _ R). done.
Qed.

(** *** Loading *)

(** Where the loading loop is in the layout [l] before key [n]: at the pair [m],
    with the earlier pairs done, or past the last pair. *)
Definition load_at (l : list key_mapping) (start0 : Z) (n : nat) (m : key_mapping) (offset : Z) : Prop :=
  (exists done rest, l = done ++ m :: rest /\ (forall x, x ∈ done -> l_key x < Z.of_nat n) /\
     (forall x, x ∈ m :: rest -> Z.of_nat n <= l_key x) /\ offset = start0 + Z.of_nat (length done) + 1) \/
  ((forall x, x ∈ l -> l_key x < Z.of_nat n) /\ l_key m < Z.of_nat n).

Lemma key_after dn m rest x :
  StronglySorted key_before (dn ++ m :: rest) -> x ∈ rest -> l_key m < l_key x.
Proof.
  intros (_ & _ & Hs)%StronglySorted_app Hx. apply StronglySorted_inv in Hs as [_ Hs].
  rewrite Forall_forall in Hs. by apply Hs.
Qed.

(** A key the next pair is not for keeps the default. *)
Lemma load_miss l start0 n m offset :
  StronglySorted key_before l -> load_at l start0 n m offset -> Z.of_nat n <> l_key m ->
  load_at l start0 (S n) m offset /\ override l n = logical_to_hid_map_default !!! n.
Proof.
  intros Hs [(dn & rest & -> & Hd & Hr & Hoff)|[Hall Hm]] Hne.
  - pose proof (Hr m (list_elem_of_here _ _)) as Hge.
    assert (Hr' : forall x, x ∈ m :: rest -> Z.of_nat (S n) <= l_key x).
    { intros x [->|Hx]%elem_of_cons; [lia|]. apply (key_after dn m rest) in Hx; [lia|done]. }
    split.
    + left. exists dn, rest. split_and!; [done|intros x Hx; apply Hd in Hx; lia|done|done].
    + apply override_none. intros x [Hx|Hx]%elem_of_app; [apply Hd in Hx|apply Hr' in Hx]; lia.
  - split; [right; split; [intros x Hx; apply Hall in Hx; lia|lia]|].
    apply override_none. intros x Hx. apply Hall in Hx. lia.
Qed.

(** The key of the next pair gets its value, and the following pair is read. *)
Lemma load_hit (saved l : list key_mapping) start0 n m offset :
  layout_ok l -> 0 <= start0 -> start0 + Z.of_nat (length l) <= 255 ->
  (forall j x, l !! j = Some x -> saved !!! Z.to_nat (start0 + Z.of_nat j) = x) ->
  load_at l start0 n m offset -> Z.of_nat n = l_key m ->
  override l n = h_key m /\
  if offset <=? start0 + Z.of_nat (length l) - 1
  then load_at l start0 (S n) (saved !!! Z.to_nat offset) (u8 (offset + 1)) else load_at l start0 (S n) m offset.
Proof.
  intros [Hs _] H0 Hmax Hsaved [(dn & rest & -> & Hd & Hr & Hoff)|[_ Hm]] He; [|lia].
  assert (Hlen : Z.of_nat (length (dn ++ m :: rest)) = Z.of_nat (length dn) + 1 + Z.of_nat (length rest))
    by (rewrite length_app; cbn [length]; lia).
  split.
  { replace n with (Z.to_nat (l_key m)) by lia. apply override_some; [|lia]. intros x Hx. apply Hd in Hx. lia. }
  destruct rest as [|m' rest]; cbn [length] in Hlen; case_if; try lia.
  - right. split; [|lia]. intros x [Hx| ->%list_elem_of_singleton]%elem_of_app; [apply Hd in Hx|]; lia.
  - assert (Hm' : saved !!! Z.to_nat offset = m').
    { rewrite Hoff. replace (start0 + Z.of_nat (length dn) + 1) with (start0 + Z.of_nat (length (dn ++ [m])))
        by (rewrite length_app; cbn [length]; lia).
      apply Hsaved. replace (dn ++ m :: m' :: rest) with ((dn ++ [m]) ++ m' :: rest) by (by rewrite <- app_assoc).
      by rewrite (list_lookup_middle (dn ++ [m])). }
    rewrite Hm'. left. exists (dn ++ [m]), rest. rewrite <- app_assoc, length_app. split_and!; [done| | |].
    + intros x [Hx| ->%list_elem_of_singleton]%elem_of_app; [apply Hd in Hx|]; lia.
    + intros x Hx. apply (key_after dn m (m' :: rest)) in Hx; [lia|done].
    + cbn [length] in *. rewrite u8_small by (unfold is_u8; lia). lia.
Qed.

Lemma set_prefix (map : list Z) n v (f : nat -> Z) :
  (n < length map)%nat -> v = f n -> (forall k, (k < n)%nat -> map !!! k = f k) ->
  forall k, (k < S n)%nat -> <[n := v]> map !!! k = f k.
Proof.
  intros Hn -> Hk k Hkn. destruct (decide (k = n)) as [->|Hne].
  - by rewrite list_lookup_total_insert_eq.
  - rewrite list_lookup_total_insert_ne by done. apply Hk. lia.
Qed.

Lemma load_loop (saved l : list key_mapping) start0 map0 n :
  layout_ok l -> l <> [] -> 0 <= start0 -> start0 + Z.of_nat (length l) <= 255 ->
  (forall j x, l !! j = Some x -> saved !!! Z.to_nat (start0 + Z.of_nat j) = x) ->
  (n <= length map0)%nat ->
  let '(m, offset, map) := for_range 0 n (load_step saved (start0 + Z.of_nat (length l) - 1))
                             (saved !!! Z.to_nat start0, u8 (start0 + 1), map0) in
  load_at l start0 n m offset /\ length map = length map0 /\
  (forall k, (k < n)%nat -> map !!! k = override l k).
Proof.
  intros Hok Hne H0 Hmax Hsaved. induction n as [|n IH]; intros Hn.
  - cbn. split_and!; [|done|intros; lia]. left. destruct l as [|x l]; [done|].
    pose proof (Hsaved 0%nat x eq_refl) as Hx. cbn [Z.of_nat] in Hx. rewrite Z.add_0_r in Hx. rewrite Hx.
    exists [], l. split_and!; [done|by intros y ?%not_elem_of_nil| |].
    + intros y Hy. destruct Hok as [_ Hkeys]. rewrite Forall_forall in Hkeys. apply Hkeys in Hy. simpl. lia.
    + simpl length in *. rewrite u8_small by (unfold is_u8; lia). simpl. lia.
  - rewrite for_range_snoc. cbn [Nat.add]. specialize (IH ltac:(lia)).
    destruct (for_range 0 n _ _) as [[m offset] map]. destruct IH as (Hat & Hlm & Hk).
    unfold load_step. destruct (Z.eqb_spec (Z.of_nat n) (l_key m)) as [He|He]; cbn [negb].
    + destruct (load_hit saved l start0 n m offset Hok H0 Hmax Hsaved Hat He) as [Hov Hnext].
      assert (Hset : forall k, (k < S n)%nat -> <[n := h_key m]> map !!! k = override l k)
        by (apply set_prefix; [lia|done|done]).
      case_if; (split; [done|split; [by rewrite length_insert|done]]).
    + destruct (load_miss l start0 n m offset (proj1 Hok) Hat He) as [Hnext Hov].
      split; [done|split; [by rewrite length_insert|]]. apply set_prefix; [lia|done|done].
Qed.

Lemma load_spec a num l b s :
  layouts_repr (a ++ (Z.to_nat num, l) :: b) s -> 0 <= num < NUM_KEY_MAPPING_INDICES ->
  length (logical_to_hid_map s) = NUM_KEYS ->
  exists map', config_load_layout num s = (true, set_map map' s) /\ length map' = NUM_KEYS /\
    (forall k, (k < NUM_KEYS)%nat -> map' !!! k = override l k).
Proof.
  intros R Hnum Hmap. destruct (repr_split _ _ _ _ _ R) as (Hn & Hl & Ha & Hb & post & Hm).
  pose proof (repr_index _ _ R _ Hn) as Hidx. rewrite position_some, Z.add_0_l in Hidx by done.
  pose proof (repr_size _ _ R) as Hsz. pose proof saved_count_ok as Hcnt.
  pose proof (repr_layouts _ _ R) as Hlo. apply Forall_app in Hlo as [_ [Hok _]%Forall_cons]. cbn [snd] in Hok.
  assert (Hll : 0 < Z.of_nat (length l)) by (destruct l; [done|simpl; lia]).
  unfold config_load_layout. rewrite Z.geb_leb, (proj2 (Z.leb_gt _ _)) by lia.
  rewrite Hidx. cbn [start end_]. rewrite (proj2 (Z.eqb_neq (dir_len a) NO_KEY)) by dir_lia.
  assert (Hsaved : forall j x, l !! j = Some x -> saved_key_mappings s !!! Z.to_nat (dir_len a + Z.of_nat j) = x).
  { intros j x Hj. apply list_lookup_total_correct. rewrite Hm.
    replace (Z.to_nat (dir_len a + Z.of_nat j)) with (length (flat_dir a) + j)%nat by (unfold dir_len; lia).
    rewrite lookup_app_r by lia. replace (length (flat_dir a) + j - length (flat_dir a))%nat with j by lia.
    by apply lookup_app_l_Some. }
  pose proof (load_loop (saved_key_mappings s) l (dir_len a) (logical_to_hid_map s) NUM_KEYS Hok Hl
                (dir_len_nonneg a) ltac:(dir_lia) Hsaved ltac:(lia)) as Hloop.
  destruct (for_range 0 NUM_KEYS _ _) as [[m offset] map']. destruct Hloop as (_ & Hlm & Hk).
  exists map'. split; [done|]. split; [by rewrite Hlm|done].
Qed.

(** *** The store as a finite map *)

Lemma layouts_none d s n : layouts_repr d s -> (NUM_INDICES <= n)%nat -> layouts d !! n = None.
Proof.
  intros R Hn. apply not_elem_of_list_to_map_1. intros ([m l] & -> & Hin)%list_elem_of_fmap.
  pose proof (repr_slots _ _ R) as Hs. rewrite Forall_forall in Hs. specialize (Hs _ Hin). cbn in *. lia.
Qed.

Lemma layouts_remove a n l b :
  NoDup (map fst (a ++ (n, l) :: b)) -> layouts (a ++ b) = delete n (layouts (a ++ (n, l) :: b)).
Proof.
  intros Hnd. rewrite map_app in Hnd. cbn [map fst] in Hnd. apply NoDup_app in Hnd as (_ & Hd & [Hb _]%NoDup_cons).
  unfold layouts. rewrite !list_to_map_app, list_to_map_cons, delete_union, delete_insert_eq.
  assert (Ha : n ∉ map fst a) by (intros Hin; apply (Hd n Hin); by left).
  rewrite !delete_id by (by apply not_elem_of_list_to_map_1). done.
Qed.

Lemma layouts_snoc d n l : n ∉ map fst d -> layouts (d ++ [(n, l)]) = <[n := l]> (layouts d).
Proof.
  intros Hn. unfold layouts. rewrite list_to_map_app, list_to_map_cons, list_to_map_nil.
  rewrite <- insert_union_r by (by apply not_elem_of_list_to_map_1). by rewrite (right_id_L ∅ (∪)).
Qed.

(** How many elements slot [n] uses. *)
Definition used_by (d : directory) (n : nat) : Z :=
  match layouts d !! n with
  | Some l => Z.of_nat (length l)
  | None => 0
  end.

Lemma delete_map d s num :
  layouts_repr d s -> 0 <= num ->
  let '(ok, s') := config_delete_layout num s in
  logical_to_hid_map s' = logical_to_hid_map s /\
  (ok = true <-> is_Some (layouts d !! Z.to_nat num)) /\
  exists d', layouts_repr d' s' /\ layouts d' = delete (Z.to_nat num) (layouts d) /\
    dir_len d' = dir_len d - used_by d (Z.to_nat num) /\ Z.to_nat num ∉ map fst d' /\
    (num < NUM_KEY_MAPPING_INDICES -> layouts d !! Z.to_nat num = None -> d' = d).
Proof.
  intros R Hnum. unfold used_by.
  destruct (Z.lt_ge_cases num NUM_KEY_MAPPING_INDICES) as [Hlt|Hge].
  - destruct (repr_find d s num R ltac:(lia)) as [(a & l & b & -> & Ha & Hb & Hl & Hidx & Hlk)|(Hno & Hst & Hlk)].
    + destruct (delete_spec a num l b s R ltac:(lia)) as (i & m & -> & R'). rewrite Hlk.
      split; [done|]. split; [by split|]. exists (a ++ b). split; [done|].
      split; [apply layouts_remove; apply (repr_nodup _ _ R)|]. split; [dir_lia|]. split; [|done].
      rewrite map_app. intros [?|?]%elem_of_app; done.
    + unfold config_delete_layout. rewrite Z.geb_leb, (proj2 (Z.leb_gt _ _)), Hst, Z.eqb_refl by lia.
      rewrite Hlk. split; [done|]. split; [split; [done|by intros []]|]. exists d.
      split; [destruct R; by split|]. split; [by rewrite delete_id|]. split; [lia|]. by split.
  - assert (Hlk : layouts d !! Z.to_nat num = None) by (eapply layouts_none; [done|unfold NUM_INDICES; lia]).
    unfold config_delete_layout. rewrite Z.geb_leb, (proj2 (Z.leb_le _ _)), Hlk by lia.
    split; [done|]. split; [split; [done|by intros []]|]. exists d.
    split; [destruct R; by split|]. split; [by rewrite delete_id|]. split; [lia|]. split; [|done].
    intros ([n l] & E & Hin)%list_elem_of_fmap. pose proof (repr_slots _ _ R) as Hs. rewrite Forall_forall in Hs.
    specialize (Hs _ Hin). unfold NUM_INDICES in *. cbn in *. lia.
Qed.

(** Saving first deletes. *)
Lemma save_after_delete num s d' :
  0 <= num < NUM_KEY_MAPPING_INDICES -> layouts_repr d' (config_delete_layout num s).2 -> Z.to_nat num ∉ map fst d' ->
  let '(ok, s') := config_save_layout num s in
  let '(ok2, s2) := config_save_layout num (config_delete_layout num s).2 in
  ok = ok2 /\ saved_key_mapping_indices s' = saved_key_mapping_indices s2 /\
  saved_key_mappings s' = saved_key_mappings s2 /\ logical_to_hid_map s' = logical_to_hid_map s2.
Proof.
  intros Hnum R' Hno. unfold config_save_layout. rewrite Z.geb_leb, (proj2 (Z.leb_gt _ _)) by lia.
  set (s1 := (config_delete_layout num s).2) in *.
  assert (Hdel : config_delete_layout num s1 = (false, config_emit (ConfigMessage MSG_NO_LAYOUT) s1)).
  { unfold config_delete_layout. rewrite Z.geb_leb, (proj2 (Z.leb_gt _ _)) by lia.
    pose proof (repr_index _ _ R' (Z.to_nat num) ltac:(unfold NUM_INDICES; lia)) as Hi.
    rewrite (proj2 (position_none _ _ _) Hno) in Hi. by rewrite Hi. }
  rewrite Hdel. cbn [snd config_emit saved_key_mapping_indices saved_key_mappings logical_to_hid_map].
  destruct (full _); [by split_and!|]. destruct (negb _); by split_and!.
Qed.

Lemma repr_ext d s1 s2 :
  layouts_repr d s1 -> saved_key_mapping_indices s2 = saved_key_mapping_indices s1 ->
  saved_key_mappings s2 = saved_key_mappings s1 -> layouts_repr d s2.
Proof. intros [] E1 E2. split; rewrite ?E1, ?E2; done. Qed.

Lemma save_map d s num :
  0 <= NUM_LOGICAL_KEYS -> layouts_repr d s -> 0 <= num ->
  let l := diffs (logical_to_hid_map s) NUM_KEYS in
  let '(ok, s') := config_save_layout num s in
  logical_to_hid_map s' = logical_to_hid_map s /\
  (ok = true <-> num < NUM_KEY_MAPPING_INDICES /\ l <> [] /\
     dir_len d - used_by d (Z.to_nat num) + Z.of_nat (length l) <= SAVED_MAPPING_COUNT - 1) /\
  exists d', layouts_repr d' s' /\
    layouts d' = if ok then <[Z.to_nat num := l]> (layouts d) else delete (Z.to_nat num) (layouts d).
Proof.
  intros HN R Hnum l. destruct (Z.lt_ge_cases num NUM_KEY_MAPPING_INDICES) as [Hlt|Hge].
  - pose proof (delete_map d s num R Hnum) as Hd.
    destruct (config_delete_layout num s) as [okd s1] eqn:Ed.
    destruct Hd as (Hmap & _ & d1 & R1 & Hl1 & Hlen1 & Hno & _).
    pose proof (save_after_delete num s d1 ltac:(lia)) as Hsv. rewrite Ed in Hsv. specialize (Hsv R1 Hno).
    destruct (save_spec d1 s1 num HN R1 ltac:(lia) Hno) as [out Hsp]. rewrite Hmap in Hsp. fold l in Hsp.
    cbn [snd] in Hsv. destruct (config_save_layout num s1) as [ok2 s2].
    destruct (config_save_layout num s) as [ok s']. destruct Hsv as (-> & E1 & E2 & E3).
    destruct Hsp as (Hm2 & _ & Hres). split; [by rewrite E3|]. rewrite <- Hlen1.
    destruct (decide (l = [])) as [Hnil|Hne]; [|destruct (decide (dir_len d1 + _ <= _)) as [Hfit|Hfit]];
      destruct Hres as [-> R2].
    + split; [split; [done|by intros (_ & ? & _)]|]. exists d1. split; [by apply (repr_ext d1 s2)|done].
    + split; [split; [done|done]|]. exists (d1 ++ [(Z.to_nat num, l)]). split; [by apply (repr_ext _ s2)|].
      rewrite layouts_snoc by done. by rewrite Hl1, insert_delete_eq.
    + split; [split; [done|intros (_ & _ & ?); lia]|]. exists d1. split; [by apply (repr_ext d1 s2)|done].
  - unfold config_save_layout. rewrite Z.geb_leb, (proj2 (Z.leb_le _ _)) by lia.
    split; [done|]. split; [split; [done|intros [? _]; lia]|]. exists d. split; [destruct R; by split|].
    rewrite delete_id; [done|]. eapply layouts_none; [done|unfold NUM_INDICES; lia].
Qed.

Lemma load_map d s num :
  layouts_repr d s -> 0 <= num -> length (logical_to_hid_map s) = NUM_KEYS ->
  let '(ok, s') := config_load_layout num s in
  layouts_repr d s' /\ length (logical_to_hid_map s') = NUM_KEYS /\
  match layouts d !! Z.to_nat num with
  | Some l => ok = true /\ (forall k, (k < NUM_KEYS)%nat -> logical_to_hid_map s' !!! k = override l k)
  | None => ok = false /\ logical_to_hid_map s' = logical_to_hid_map s
  end.
Proof.
  intros R Hnum Hmap. destruct (Z.lt_ge_cases num NUM_KEY_MAPPING_INDICES) as [Hlt|Hge].
  - destruct (repr_find d s num R ltac:(lia)) as [(a & l & b & -> & Ha & Hb & Hl & Hidx & Hlk)|(Hno & Hst & Hlk)]; rewrite Hlk.
    + destruct (load_spec a num l b s R ltac:(lia) Hmap) as (map' & -> & Hlm & Hk).
      split; [by apply (repr_ext _ s)|done].
    + unfold config_load_layout. rewrite Z.geb_leb, (proj2 (Z.leb_gt _ _)), Hst, Z.eqb_refl by lia.
      split; [by apply (repr_ext _ s)|done].
  - rewrite (layouts_none d s) by (done || unfold NUM_INDICES; lia).
    unfold config_load_layout. rewrite Z.geb_leb, (proj2 (Z.leb_le _ _)) by lia.
    split; [by apply (repr_ext _ s)|done].
Qed.
End Layouts.

(** ** Resetting *)

Section Reset.
Context {H : Hardware} {K : HotKeys} {Hok : HardwareOk H} {Lok : SavedLayoutsOk H K}.
Context (outside : Z -> Z).

Lemma NUM_LOGICAL_KEYS_nonneg : 0 <= NUM_LOGICAL_KEYS.
Proof. pose proof (logical_keys_layers (H:=H)). pose proof (layer_size_pos (H:=H)). nia. Qed.

Lemma defaults_NUM_KEYS : length logical_to_hid_map_default = NUM_KEYS.
Proof. unfold NUM_KEYS. pose proof (defaults_length (H:=H)). lia. Qed.

Lemma reset_blocks map0 b :
  length map0 = NUM_KEYS -> (b <= (NUM_KEYS + 31) / 32)%nat ->
  let n := Nat.min (b * 32) NUM_KEYS in
  for_range 0 b (fun b => reset_block (b * 32)) map0 = take n logical_to_hid_map_default ++ drop n map0.
Proof.
  intros Hl. induction b as [|b IH]; intros Hb; cbv zeta.
  - done.
  - rewrite for_range_snoc. cbn [Nat.add]. rewrite IH by lia.
    pose proof (Nat.div_mod_eq (NUM_KEYS + 31) 32) as Hdm.
    pose proof (Nat.mod_upper_bound (NUM_KEYS + 31) 32 ltac:(lia)) as Hmb.
    set (i := (b * 32)%nat). assert (Hi : (i < NUM_KEYS)%nat) by (unfold i; lia).
    rewrite (Nat.min_l i) by lia. unfold reset_block.
    set (bs := Nat.min (NUM_KEYS - i) 32).
    replace (Nat.min (S b * 32) NUM_KEYS) with (i + bs)%nat by (unfold bs, i; lia).
    assert (Hti : length (take i logical_to_hid_map_default) = i) by (rewrite length_take, defaults_NUM_KEYS; lia).
    rewrite take_app_length', drop_app_ge by lia. rewrite Hti, drop_drop.
    replace (i + (i + bs - i))%nat with (i + bs)%nat by lia.
    by rewrite app_assoc, take_take_drop.
Qed.

Lemma reset_defaults_map s :
  length (logical_to_hid_map s) = NUM_KEYS ->
  config_reset_defaults s
  = config_emit (ConfigBuzzer 200 80) (set_map logical_to_hid_map_default (config_emit (ConfigBuzzer 1000 100) s)).
Proof.
  intros Hl. unfold config_reset_defaults. cbn [config_emit logical_to_hid_map].
  rewrite (reset_blocks _ _ Hl (le_n _)).
  pose proof (Nat.div_mod_eq (NUM_KEYS + 31) 32) as Hdm.
  pose proof (Nat.mod_upper_bound (NUM_KEYS + 31) 32 ltac:(lia)) as Hmb.
  rewrite Nat.min_r by lia. rewrite <- defaults_NUM_KEYS at 1. rewrite firstn_all, drop_ge, app_nil_r by lia. done.
Qed.

(** The arrays have the sizes of the source. *)
Record config_shape (c : config_state) : Prop := {
  shape_map : length (logical_to_hid_map c) = NUM_KEYS;
  shape_indices : length (saved_key_mapping_indices c) = NUM_INDICES;
  shape_mappings : Z.of_nat (length (saved_key_mappings c)) = SAVED_MAPPING_COUNT;
  shape_programs : Z.of_nat (length (programs c)) = PROGRAM_SIZE
}.

(** A factory-fresh configuration. *)
Record factory (c : config_state) : Prop := {
  factory_sentinel : eeprom_sentinel_byte c = EEPROM_SENTINEL;
  factory_flags : config_get_flags c = mkFlags false false false 0;
  factory_debounce : debounce_len c = 3;
  factory_mouse : mouse_div c = 25 /\ wheel_div c = 4;
  factory_map : logical_to_hid_map c = logical_to_hid_map_default;
  factory_layouts : layouts_repr [] c;
  factory_programs : forall idx, 0 <= idx < PROGRAM_COUNT -> config_get_program idx c = None
}.

Lemma no_layouts c : config_shape c -> saved_key_mapping_indices c = replicate NUM_INDICES (mkMapIdx NO_KEY NO_KEY) ->
  layouts_repr [] c.
Proof.
  intros [] E. pose proof saved_count_ok. split; try done; [constructor|unfold dir_len; cbn; lia|].
  intros n Hn. cbn [position]. by rewrite E, lookup_total_replicate_2.
Qed.

Lemma programs_reset c idx :
  Z.of_nat (length (programs c)) = PROGRAM_SIZE -> 0 <= idx < PROGRAM_COUNT ->
  config_get_program idx (config_reset_program_defaults c) = None.
Proof.
  intros Hl Hidx. pose proof programs_ok as [Hp Hp2].
  unfold config_get_program, config_reset_program_defaults. cbn [set_programs programs].
  rewrite u8_small by (unfold is_u8; lia).
  rewrite !lookup_total_app_l, !lookup_total_replicate_2 by (rewrite ?length_replicate; lia). done.
Qed.

Context {M : Type} {St : Storage M} {Sok : StorageOk M St} (macros_storage : Z).

Lemma reset_fully_factory defs c ms :
  config_shape c ->
  let '(c', ms') := config_reset_fully macros_storage defs (c, ms) in
  factory c' /\ config_shape c' /\
  ms' = macros_reset_defaults macros_storage defs
          (set_index (macro_idx_reset_defaults defs (Macro.macro_index ms)) ms).
Proof.
  intros Hs. pose proof Hs as [H1 H2 H3 H4]. unfold config_reset_fully. rewrite reset_defaults_map by done.
  assert (Hsh : forall c', logical_to_hid_map c' = logical_to_hid_map_default ->
            saved_key_mapping_indices c' = replicate NUM_INDICES (mkMapIdx NO_KEY NO_KEY) ->
            saved_key_mappings c' = saved_key_mappings c ->
            programs c' = programs (config_reset_program_defaults c) -> config_shape c').
  { intros c' E1 E2 E3 E4. split; rewrite ?E1, ?E2, ?E3, ?E4; [apply defaults_NUM_KEYS|apply length_replicate|done|].
    pose proof programs_ok as [Hp Hp2]. unfold config_reset_program_defaults. cbn [set_programs programs].
    rewrite length_app, length_replicate, length_drop, u8_small by (unfold is_u8; lia). lia. }
  match goal with |- factory ?c' /\ _ => assert (Hc : config_shape c') by (by apply Hsh) end.
  split; [|done]. split; try done.
  - by apply no_layouts.
  - intros idx Hidx. rewrite <- (programs_reset c idx H4 Hidx). done.
Qed.
End Reset.

(** ** What happens between saving and loading *)

Section Trace.
Context {H : Hardware} {K : HotKeys} {Hok : HardwareOk H} {Lok : SavedLayoutsOk H K}.

(** The operations of the file other than saving to or deleting slot [num]. *)
Inductive config_step (num : Z) : config_state -> config_state -> Prop :=
  | StepDefine k h s : config_step num s (config_save_definition k h s)
  | StepSettings f d mo wh s : config_step num s (set_settings f d mo wh s)
  | StepDefaults s : config_step num s (config_reset_defaults s)
  | StepPrograms p s : config_step num s (set_programs p s)
  | StepDelete n s : 0 <= n -> n <> num -> config_step num s (config_delete_layout n s).2
  | StepSave n s : 0 <= n -> n <> num -> config_step num s (config_save_layout n s).2
  | StepLoad n s : 0 <= n -> config_step num s (config_load_layout n s).2.

Definition holds_layout (num : Z) (l : list key_mapping) (s : config_state) : Prop :=
  length (logical_to_hid_map s) = NUM_KEYS /\ exists d, layouts_repr d s /\ layouts d !! Z.to_nat num = Some l.

Lemma step_holds_layout num l s s' :
  0 <= num -> config_step num s s' -> holds_layout num l s -> holds_layout num l s'.
Proof.
  intros Hnum Hst (Hl & d & R & Hd). destruct Hst.
  - split; [cbn; by rewrite length_insert|]. exists d. split; [by apply (repr_ext _ s)|done].
  - split; [done|]. exists d. split; [by apply (repr_ext _ s)|done].
  - rewrite reset_defaults_map by done. split; [apply defaults_NUM_KEYS|].
    exists d. split; [by apply (repr_ext _ s)|done].
  - split; [done|]. exists d. split; [by apply (repr_ext _ s)|done].
  - pose proof (delete_map d s n R H0) as Hm. destruct (config_delete_layout n s) as [ok s']. cbn [snd].
    destruct Hm as (Em & _ & d' & R' & E & _). split; [by rewrite Em|]. exists d'. split; [done|].
    rewrite E, lookup_delete_ne by lia. done.
  - pose proof (save_map d s n NUM_LOGICAL_KEYS_nonneg R H0) as Hm. destruct (config_save_layout n s) as [ok s']. cbn [snd].
    destruct Hm as (Em & _ & d' & R' & E). split; [by rewrite Em|]. exists d'. split; [done|].
    rewrite E. destruct ok; [rewrite lookup_insert_ne by lia|rewrite lookup_delete_ne by lia]; done.
  - pose proof (load_map d s n R H0 Hl) as Hm. destruct (config_load_layout n s) as [ok s']. cbn [snd].
    destruct Hm as (R' & Hl' & _). split; [done|]. by exists d.
Qed.

Lemma steps_hold_layout num l s s' :
  0 <= num -> rtc (config_step num) s s' -> holds_layout num l s -> holds_layout num l s'.
Proof. intros Hnum Hr. induction Hr; [done|]. intros Hh. by apply IHHr, (step_holds_layout num l x). Qed.
End Trace.

(** ** The properties *)

(** C25: The store of saved layouts is a finite map from slot numbers to layouts, up to its
    capacity. Deleting fails exactly for empty slots and otherwise removes the slot, moving the
    others together; saving removes the old layout first and then stores the differences of the key
    map from the default layout, and fails exactly if the slot number is too large, there are no
    differences or they do not fit into the rest of the buffer (the old layout is lost then);
    loading a stored layout sets every key to its stored or default value, and changes nothing
    for an empty slot. No operation disturbs another slot. *)
Theorem saved_layouts_are_a_map {H : Hardware} {K : HotKeys} {Hok : HardwareOk H} {Lok : SavedLayoutsOk H K}
    (d : directory) (s : config_state) (num : Z) :
  layouts_repr d s -> length (logical_to_hid_map s) = NUM_KEYS -> 0 <= num ->
  (let '(ok, s') := config_delete_layout num s in
   logical_to_hid_map s' = logical_to_hid_map s /\ (ok = true <-> is_Some (layouts d !! Z.to_nat num)) /\
   exists d', layouts_repr d' s' /\ layouts d' = delete (Z.to_nat num) (layouts d)) /\
  (let l := diffs (logical_to_hid_map s) NUM_KEYS in
   let '(ok, s') := config_save_layout num s in
   logical_to_hid_map s' = logical_to_hid_map s /\
   (ok = true <-> num < NUM_KEY_MAPPING_INDICES /\ l <> [] /\
      dir_len d - used_by d (Z.to_nat num) + Z.of_nat (length l) <= SAVED_MAPPING_COUNT - 1) /\
   exists d', layouts_repr d' s' /\
     layouts d' = if ok then <[Z.to_nat num := l]> (layouts d) else delete (Z.to_nat num) (layouts d)) /\
  (let '(ok, s') := config_load_layout num s in
   layouts_repr d s' /\ length (logical_to_hid_map s') = NUM_KEYS /\
   match layouts d !! Z.to_nat num with
   | Some l => ok = true /\ (forall k, (k < NUM_KEYS)%nat -> logical_to_hid_map s' !!! k = override l k)
   | None => ok = false /\ logical_to_hid_map s' = logical_to_hid_map s
   end).
Proof.
  intros R Hl Hnum. split; [|split].
  - pose proof (delete_map d s num R Hnum) as Hd. destruct (config_delete_layout num s).
    destruct Hd as (? & ? & d' & ? & ? & _). split; [done|]. split; [done|]. by exists d'.
  - apply save_map; [apply NUM_LOGICAL_KEYS_nonneg|done..].
  - by apply load_map.
Qed.

(** A configuration of the K84CS, with the default layout and no saved layouts. *)
Definition k84_config_state : config_state :=
  mkConfig EEPROM_SENTINEL 0 3 25 4 logical_to_hid_map_default
    (replicate NUM_INDICES (mkMapIdx NO_KEY NO_KEY)) (replicate 255 (mkMapping 0 0)) (replicate 1023 0xff) [].

Lemma k84_config_repr : layouts_repr [] k84_config_state.
Proof. apply no_layouts; [split; vm_compute; reflexivity|reflexivity]. Qed.

Lemma saved_layouts_are_a_map_witness :
  (config_save_layout 3 (config_save_definition 7 99 (config_save_definition 20 1 k84_config_state))).1 = true /\
  let s := config_save_definition 7 99 (config_save_definition 20 1 k84_config_state) in
  let l := diffs (logical_to_hid_map s) NUM_KEYS in
  let '(ok, s') := config_save_layout 3 s in
  logical_to_hid_map s' = logical_to_hid_map s /\
  (ok = true <-> 3 < NUM_KEY_MAPPING_INDICES /\ l <> [] /\
     dir_len [] - used_by [] (Z.to_nat 3) + Z.of_nat (length l) <= SAVED_MAPPING_COUNT - 1) /\
  exists d', layouts_repr d' s' /\
    layouts d' = if ok then <[Z.to_nat 3 := l]> (layouts []) else delete (Z.to_nat 3) (layouts []).
Proof.
  split; [vm_compute; reflexivity|].
  assert (R : layouts_repr [] (config_save_definition 7 99 (config_save_definition 20 1 k84_config_state)))
    by (apply (repr_ext [] k84_config_state); [exact k84_config_repr|reflexivity|reflexivity]).
  exact (proj1 (proj2 (saved_layouts_are_a_map []
    (config_save_definition 7 99 (config_save_definition 20 1 k84_config_state)) 3 R
    ltac:(vm_compute; reflexivity) ltac:(lia)))).
Defined.

(** C24: Loading restores what was saved. If saving to a slot succeeds, then after any sequence of
    other operations (redefining keys, changing settings, resetting to the defaults, loading, and
    saving and deleting other slots, successfully or not) loading the slot succeeds and the key
    map is again, key for key, what it was when it was saved. *)
Theorem layout_round_trip {H : Hardware} {K : HotKeys} {Hok : HardwareOk H} {Lok : SavedLayoutsOk H K}
    (d : directory) (s s2 : config_state) (num : Z) :
  layouts_repr d s -> length (logical_to_hid_map s) = NUM_KEYS -> 0 <= num ->
  let '(ok, s1) := config_save_layout num s in
  ok = true -> rtc (config_step num) s1 s2 ->
  let '(ok3, s3) := config_load_layout num s2 in
  ok3 = true /\ logical_to_hid_map s3 = logical_to_hid_map s.
Proof.
  intros R Hl Hnum. pose proof (save_map d s num NUM_LOGICAL_KEYS_nonneg R Hnum) as Hs.
  destruct (config_save_layout num s) as [ok s1]. destruct Hs as (Hm & _ & d1 & R1 & E). intros -> Hsteps.
  assert (Hh : holds_layout num (diffs (logical_to_hid_map s) NUM_KEYS) s1).
  { split; [by rewrite Hm|]. exists d1. split; [done|]. by rewrite E, lookup_insert_eq. }
  apply (steps_hold_layout num _ s1 s2 Hnum Hsteps) in Hh as (Hl2 & d2 & R2 & E2).
  pose proof (load_map d2 s2 num R2 Hnum Hl2) as Hload. destruct (config_load_layout num s2) as [ok3 s3].
  destruct Hload as (_ & Hl3 & Hload). rewrite E2 in Hload. destruct Hload as [-> Hk]. split; [done|].
  apply (list_eq_same_length _ _ NUM_KEYS); [done|by rewrite Hl3|].
  intros i x y Hi Hx Hy. apply list_lookup_total_correct in Hx, Hy.
  rewrite Hk, override_diffs in Hx by done. congruence.
Qed.

Lemma layout_round_trip_witness :
  let s := config_save_definition 7 99 k84_config_state in
  let s1 := (config_save_layout 3 s).2 in
  let s2 := config_reset_defaults (config_save_layout 5 (config_save_definition 9 1 s1)).2 in
  (config_save_layout 3 s).1 = true /\ logical_to_hid_map s2 !!! 7%nat <> 99 /\
  let '(ok3, s3) := config_load_layout 3 s2 in
  ok3 = true /\ logical_to_hid_map s3 = logical_to_hid_map s.
Proof.
  intros s s1 s2. assert (Hsave : (config_save_layout 3 s).1 = true) by (vm_compute; reflexivity).
  split; [exact Hsave|]. split; [vm_compute; discriminate|].
  assert (R : layouts_repr [] s) by exact (repr_ext [] k84_config_state s k84_config_repr eq_refl eq_refl).
  assert (Hsteps : rtc (config_step 3) s1 s2).
  { eapply rtc_l; [exact (StepDefine 3 9 1 s1)|]. eapply rtc_l.
    - apply (StepSave 3 5); [lia|discriminate].
    - apply rtc_once. apply StepDefaults. }
  pose proof (layout_round_trip [] s s2 3 R ltac:(vm_compute; reflexivity) ltac:(lia)) as Ht.
  unfold s1 in Hsteps. destruct (config_save_layout 3 s) as [ok s1']. cbn [fst snd] in *.
  exact (Ht Hsave Hsteps).
Defined.

(** C35: A full reset reaches a factory state, from any configuration, and starting up does so
    exactly if the sentinel is missing. The factory state has cleared flags, the default timing
    settings, the default layout, no saved layout and no program, and the sentinel, so that
    starting up again changes nothing; the macros are reset to the defaults at the same time. *)
Theorem reset_reaches_factory {H : Hardware} {K : HotKeys} {Hok : HardwareOk H} {Lok : SavedLayoutsOk H K}
    {M} {St : Storage M} {Sok : StorageOk M St} (macros_storage : Z) (defs : list macro_def_info)
    (c : config_state) (ms : macro_state (M:=M)) :
  config_shape c ->
  let '(c', ms') := config_init macros_storage defs (c, ms) in
  (eeprom_sentinel_byte c = EEPROM_SENTINEL -> c' = c /\ ms' = ms) /\
  (eeprom_sentinel_byte c <> EEPROM_SENTINEL ->
     factory c' /\ config_shape c' /\
     ms' = macros_reset_defaults macros_storage defs
             (set_index (macro_idx_reset_defaults defs (Macro.macro_index ms)) ms)) /\
  config_init macros_storage defs (c', ms') = (c', ms').
Proof.
  intros Hs. unfold config_init. cbn [fst]. destruct (Z.eqb_spec (eeprom_sentinel_byte c) EEPROM_SENTINEL) as [E|E]; cbn [negb].
  - rewrite E, Z.eqb_refl. by split_and!.
  - pose proof (reset_fully_factory macros_storage defs c ms Hs) as Hf.
    destruct (config_reset_fully macros_storage defs (c, ms)) as [c' ms']. destruct Hf as (Hfac & Hsh & Hms).
    rewrite (factory_sentinel _ Hfac), Z.eqb_refl. by split_and!.
Qed.

Lemma reset_reaches_factory_witness :
  let c := mkConfig 255 255 255 255 255 (replicate NUM_KEYS 255) (replicate NUM_INDICES (mkMapIdx 1 2))
             (replicate 255 (mkMapping 9 9)) (replicate 1023 7) [] in
  let '(c', ms') := config_init 0 K84cs.macro_def_infos (c, k84_macro_start) in
  (eeprom_sentinel_byte c = EEPROM_SENTINEL -> c' = c /\ ms' = k84_macro_start) /\
  (eeprom_sentinel_byte c <> EEPROM_SENTINEL ->
     factory c' /\ config_shape c' /\
     ms' = macros_reset_defaults 0 K84cs.macro_def_infos
             (set_index (macro_idx_reset_defaults K84cs.macro_def_infos (Macro.macro_index k84_macro_start)) k84_macro_start)) /\
  config_init 0 K84cs.macro_def_infos (c', ms') = (c', ms').
Proof.
  apply (reset_reaches_factory 0 K84cs.macro_def_infos). split; vm_compute; reflexivity.
Defined.
