(* ===== verification/Interpreter.v ===== *)
(** * interpreter.c: the virtual machines that run user programs

    The byte code, the machine state and the interpreter of
    src/interpreter.c and src/interpreter.h.  A machine's stack is the array
    of the source, byte for byte: globals, then frames with their saved
    pointers, locals and operands.  Pointers into it are addresses in RAM
    ([stack_addr] is the address of the array), pointers to the program are
    addresses in [PROGRAM_STORAGE]; both have 16 bits.  An access outside the
    array and a division by zero are undefined in the source: the model has no
    result then.  Arithmetic wraps, as the firmware is compiled with -fwrapv.
    What the interpreter asks of the rest of the firmware (the keys, the time)
    is [vm_env]; the time does not change during a step.  Debug output is left
    out. *)

From S2P Require Import Prelude Hid ExtraReport Storage.

Abbreviation STACK_SIZE := 96%Z (only parsing).
Abbreviation SIZEOF_METHOD := 4%Z (only parsing).
Abbreviation SIZEOF_PROGRAM := 6%Z (only parsing).
(** [offsetof(program, methods)] *)
Abbreviation METHODS := 2%Z (only parsing).
Abbreviation SIZEOF_STACK_FRAME := 7%Z (only parsing).
(** [offsetof(stack_frame, locals)] *)
Abbreviation LOCALS := 6%Z (only parsing).
Abbreviation BUZZER_DEFAULT_TONE := 110%Z (only parsing).

(** ** Byte code *)

Inductive bytecode :=
  | BSTORE | BSTORE_0 | BSTORE_1 | BSTORE_2 | BSTORE_3
  | SSTORE | SSTORE_0 | SSTORE_1 | SSTORE_2 | SSTORE_3
  | BLOAD | BLOAD_0 | BLOAD_1 | BLOAD_2 | BLOAD_3
  | SLOAD | SLOAD_0 | SLOAD_1 | SLOAD_2 | SLOAD_3
  | GBSTORE | GBLOAD | GSSTORE | GSLOAD
  | BCONST | BCONST_0 | BCONST_1 | BCONST_2 | BCONST_3
  | SCONST | SCONST_0 | SCONST_1 | SCONST_2 | SCONST_3
  | DUP | DUP2 | POP | POP2 | SWAP
  | BADD | BSUBTRACT | BMULTIPLY | BDIVIDE | BMOD | BAND | BOR | BXOR | BNOT | BCMP | BLSHIFT | BRSHIFT
  | SADD | SSUBTRACT | SMULTIPLY | SDIVIDE | SMOD | SAND | SOR | SXOR | SNOT | SCMP | SLSHIFT | SRSHIFT
  | B2S | S2B
  | IFEQ | IFNE | IFLT | IFGT | IFGE | IFLE | GOTO | NOP | CALL | BRET | SRET | RET | VMEXIT
  | PRESSKEY | RELEASEKEY | CHECKKEY | CHECKPHYSKEY | WAITKEY | WAITPHYSKEY
  | DELAY | GETUPTIMEMS | GETUPTIME | BUZZ | BUZZAT | MOVEMOUSE | PRESSMOUSEBUTTONS | RELEASEMOUSEBUTTONS.

#[export] Instance bytecode_eq_dec : EqDecision bytecode.
Proof. solve_decision. Defined.

(** The values of the enumeration: runs of consecutive codes. *)
Definition bytecodes_from : list (Z * list bytecode) := [
  (0, [BSTORE; BSTORE_0; BSTORE_1; BSTORE_2; BSTORE_3]);
  (5, [SSTORE; SSTORE_0; SSTORE_1; SSTORE_2; SSTORE_3]);
  (10, [BLOAD; BLOAD_0; BLOAD_1; BLOAD_2; BLOAD_3]);
  (15, [SLOAD; SLOAD_0; SLOAD_1; SLOAD_2; SLOAD_3]);
  (20, [GBSTORE; GBLOAD; GSSTORE; GSLOAD]);
  (24, [BCONST; BCONST_0; BCONST_1; BCONST_2; BCONST_3]);
  (29, [SCONST; SCONST_0; SCONST_1; SCONST_2; SCONST_3]);
  (34, [DUP; DUP2; POP; POP2; SWAP]);
  (48, [BADD; BSUBTRACT; BMULTIPLY; BDIVIDE; BMOD; BAND; BOR; BXOR; BNOT; BCMP; BLSHIFT; BRSHIFT]);
  (60, [SADD; SSUBTRACT; SMULTIPLY; SDIVIDE; SMOD; SAND; SOR; SXOR; SNOT; SCMP; SLSHIFT; SRSHIFT]);
  (72, [B2S; S2B]);
  (74, [IFEQ; IFNE; IFLT; IFGT; IFGE; IFLE; GOTO; NOP; CALL; BRET; SRET; RET; VMEXIT]);
  (87, [PRESSKEY; RELEASEKEY; CHECKKEY; CHECKPHYSKEY; WAITKEY; WAITPHYSKEY]);
  (95, [DELAY; GETUPTIMEMS; GETUPTIME; BUZZ; BUZZAT; MOVEMOUSE; PRESSMOUSEBUTTONS; RELEASEMOUSEBUTTONS])].

(** The instruction with code [b]; the switch ignores the other values. *)
Definition bytecode_of (b : Z) : option bytecode :=
  foldr (fun '(lo, run) rest =>
    if (lo <=? b) && (b <? lo + Z.of_nat (length run)) then run !! Z.to_nat (b - lo) else rest)
    None bytecodes_from.

(** ** Machine state *)

Inductive vm_state :=
  | VMSTOPPED | VMCRASHED | VMNOPROGRAM
  | VMRUNNING | VMWAITREPORT | VMWAITMOUSEREPORT | VMDELAY | VMWAITKEY | VMWAITPHYSKEY.

#[export] Instance vm_state_eq_dec : EqDecision vm_state.
Proof. solve_decision. Defined.

(** [state >= VMRUNNING] *)
Definition running (s : vm_state) : bool :=
  match s with VMSTOPPED | VMCRASHED | VMNOPROGRAM => false | _ => true end.

(** [struct _method] *)
Record method := mkMethod {
  nargs : Z;
  nlocals : Z;
  code_offset : Z
}.

(** [struct _vmstate]; [stack] holds the bytes of the array, unsigned. *)
Record vmstate := mkVM {
  state : vm_state;
  delay_end_ms : Z;
  wait_key : Z;
  trigger_lkey : Z;
  keyboardreport : ExtraKeyboardReport;
  mousereport : MouseReport_Data_t;
  program : Z;
  code : Z;
  ip : Z;
  stack_top : Z;
  current_frame : Z;
  stack : list Z
}.

(** A zeroed machine. *)
Definition zero_vm : vmstate :=
  mkVM VMSTOPPED 0 0 0 (mkExtra 0 (replicate EXTRA_REPORT_KEY_COUNT 0)) empty_mouse_report 0 0 0 0 0
    (replicate (Z.to_nat STACK_SIZE) 0).

#[export] Instance vmstate_inhabited : Inhabited vmstate := populate zero_vm.

Definition set_state (x : vm_state) (v : vmstate) : vmstate :=
  mkVM x (delay_end_ms v) (wait_key v) (trigger_lkey v) (keyboardreport v) (mousereport v) (program v)
    (code v) (ip v) (stack_top v) (current_frame v) (stack v).
Definition set_delay_end (x : Z) (v : vmstate) : vmstate :=
  mkVM (state v) x (wait_key v) (trigger_lkey v) (keyboardreport v) (mousereport v) (program v)
    (code v) (ip v) (stack_top v) (current_frame v) (stack v).
Definition set_wait_key (x : Z) (v : vmstate) : vmstate :=
  mkVM (state v) (delay_end_ms v) x (trigger_lkey v) (keyboardreport v) (mousereport v) (program v)
    (code v) (ip v) (stack_top v) (current_frame v) (stack v).
Definition set_keyboardreport (x : ExtraKeyboardReport) (v : vmstate) : vmstate :=
  mkVM (state v) (delay_end_ms v) (wait_key v) (trigger_lkey v) x (mousereport v) (program v)
    (code v) (ip v) (stack_top v) (current_frame v) (stack v).
Definition set_mousereport (x : MouseReport_Data_t) (v : vmstate) : vmstate :=
  mkVM (state v) (delay_end_ms v) (wait_key v) (trigger_lkey v) (keyboardreport v) x (program v)
    (code v) (ip v) (stack_top v) (current_frame v) (stack v).
Definition set_trigger_lkey (x : Z) (v : vmstate) : vmstate :=
  mkVM (state v) (delay_end_ms v) (wait_key v) x (keyboardreport v) (mousereport v) (program v)
    (code v) (ip v) (stack_top v) (current_frame v) (stack v).
Definition set_program (x : Z) (v : vmstate) : vmstate :=
  mkVM (state v) (delay_end_ms v) (wait_key v) (trigger_lkey v) (keyboardreport v) (mousereport v)
    x (code v) (ip v) (stack_top v) (current_frame v) (stack v).
Definition set_code (x : Z) (v : vmstate) : vmstate :=
  mkVM (state v) (delay_end_ms v) (wait_key v) (trigger_lkey v) (keyboardreport v) (mousereport v)
    (program v) x (ip v) (stack_top v) (current_frame v) (stack v).
Definition set_ip (x : Z) (v : vmstate) : vmstate :=
  mkVM (state v) (delay_end_ms v) (wait_key v) (trigger_lkey v) (keyboardreport v) (mousereport v)
    (program v) (code v) x (stack_top v) (current_frame v) (stack v).
Definition set_stack_top (x : Z) (v : vmstate) : vmstate :=
  mkVM (state v) (delay_end_ms v) (wait_key v) (trigger_lkey v) (keyboardreport v) (mousereport v)
    (program v) (code v) (ip v) x (current_frame v) (stack v).
Definition set_current_frame (x : Z) (v : vmstate) : vmstate :=
  mkVM (state v) (delay_end_ms v) (wait_key v) (trigger_lkey v) (keyboardreport v) (mousereport v)
    (program v) (code v) (ip v) (stack_top v) x (stack v).
Definition set_stack (x : list Z) (v : vmstate) : vmstate :=
  mkVM (state v) (delay_end_ms v) (wait_key v) (trigger_lkey v) (keyboardreport v) (mousereport v)
    (program v) (code v) (ip v) (stack_top v) (current_frame v) x.

(** ** The interpreter's monad

    A piece of the interpreter acts on the machine and makes calls of
    [buzzer_start_f]; it ends normally, returns from [vm_step], or does
    something the source leaves undefined. *)

Definition act_state : Type := vmstate * list (Z * Z).

Inductive outcome (A : Type) :=
  | Next (a : A) (s : act_state)
  | Returned (s : act_state)
  | Undefined.
Arguments Next {A}.
Arguments Returned {A}.
Arguments Undefined {A}.

Definition act (A : Type) : Type := act_state -> outcome A.

Definition ret {A} (a : A) : act A := fun s => Next a s.
Definition bind {A B} (m : act A) (f : A -> act B) : act B := fun s =>
  match m s with
  | Next a s => f a s
  | Returned s => Returned s
  | Undefined => Undefined
  end.
Definition return_ {A} : act A := fun s => Returned s.
Definition undefined {A} : act A := fun _ => Undefined.
Definition get {A} (f : vmstate -> A) : act A := fun s => Next (f s.1) s.
Definition modify (f : vmstate -> vmstate) : act unit := fun s => Next tt (f s.1, s.2).

Declare Scope act_scope.
Notation "x <- m ;; k" := (bind m (fun x => k)) (at level 100, m at next level, right associativity) : act_scope.
Notation "m ;;; k" := (bind m (fun _ => k)) (at level 100, right associativity) : act_scope.
Open Scope act_scope.

Definition buzzer_start_f (ms tone : Z) : act unit := fun s => Next tt (s.1, s.2 ++ [(ms, tone)]).

(** What the interpreter asks of keystate.c and of the clock. *)
Record vm_env := mkEnv {
  (* [keystate_check_key(key, LOGICAL)] *)
  check_key : Z -> bool;
  check_hid_key : Z -> Z;
  uptimems : Z
}.

Section Interpreter.
Context {M : Type} {St : Storage M}.
(** The contents of [PROGRAM_STORAGE], and the (non-zero) value of
    [storage_errno] after a failed read. *)
Context (eeprom : M) (storage_errno : Z).

(** ** Starting *)

Definition vm_init_vm (p : Z) (vm : vmstate) : Z * vmstate :=
  let vm := set_keyboardreport ExtraKeyboardReport_clear zero_vm in
  let vm := set_program p vm in
  match storage_peek (u16 (p + 1)) 1 eeprom with
  | None => (storage_errno, vm)
  | Some bs =>
      let nmethods := bs !!! 0%nat in
      (0, set_code (u16 (p + SIZEOF_PROGRAM + SIZEOF_METHOD * (nmethods - 1))) vm)
  end.

Section Machine.
(** The address of the machine's stack. *)
Context (stack_addr : Z).

(** *** Memory *)

Definition load_byte (a : Z) : act Z := fun s =>
  let i := a - stack_addr in
  if (0 <=? i) && (i <? STACK_SIZE) then Next (s8 (stack s.1 !!! Z.to_nat i)) s else Undefined.

Definition store_byte (a v : Z) : act unit := fun s =>
  let i := a - stack_addr in
  if (0 <=? i) && (i <? STACK_SIZE)
  then Next tt (set_stack (<[Z.to_nat i := u8 v]> (stack s.1)) s.1, s.2) else Undefined.

Definition load_short (a : Z) : act Z :=
  lo <- load_byte a;; hi <- load_byte (a + 1);; ret (s16 (of_le16 [u8 lo; u8 hi])).
Definition store_short (a v : Z) : act unit :=
  store_byte a (le16 v !!! 0%nat);;; store_byte (a + 1) (le16 v !!! 1%nat).

(** Pointers are unsigned. *)
Definition load_ptr (a : Z) : act Z := v <- load_short a;; ret (u16 v).
Definition store_ptr (a v : Z) : act unit := store_short a v.

(** *** Stack manipulation macros *)

Definition TOP_BYTE : act Z := t <- get stack_top;; load_byte t.
Definition POP_BYTE : act Z :=
  b <- TOP_BYTE;; modify (fun v => set_stack_top (stack_top v - 1) v);;; ret b.
Definition PUSH_BYTE (val : Z) : act unit :=
  modify (fun v => set_stack_top (stack_top v + 1) v);;; t <- get stack_top;; store_byte t val.
Definition TOP_SHORT : act Z := t <- get stack_top;; load_short (t - 1).
Definition POP_SHORT : act Z :=
  s <- TOP_SHORT;; modify (fun v => set_stack_top (stack_top v - 2) v);;; ret s.
Definition PUSH_SHORT (val : Z) : act unit :=
  modify (fun v => set_stack_top (stack_top v + 2) v);;; t <- get stack_top;; store_short (t - 1) val.

(** *** Reading the program *)

(** [READ_EEPROM_TO]: a failed read crashes the machine. *)
Definition READ_EEPROM (n : nat) (a : Z) : act (list Z) := fun s =>
  match storage_peek a n eeprom with
  | Some bs => Next bs s
  | None => Returned (set_state VMCRASHED s.1, s.2)
  end.

(** The pointer is advanced before the read. *)
Definition NEXTINSTR : act Z :=
  a <- get ip;; modify (fun v => set_ip (u16 (ip v + 1)) v);;;
  bs <- READ_EEPROM 1 a;; ret (bs !!! 0%nat).
(** An operand is a signed byte. *)
Definition NEXTBYTE : act Z := b <- NEXTINSTR;; ret (s8 b).
Definition NEXTSHORT : act Z :=
  a <- get ip;; bs <- READ_EEPROM 2 a;;
  modify (fun v => set_ip (u16 (ip v + 2)) v);;; ret (s16 (of_le16 bs)).

(** *** Instructions *)

Definition local (i : Z) : act Z := f <- get current_frame;; ret (f + LOCALS + i).

Definition bstore (i : Z) : act unit := a <- local i;; b <- POP_BYTE;; store_byte a b.
Definition sstore (i : Z) : act unit := v <- POP_SHORT;; a <- local i;; store_short a v.
Definition bload (i : Z) : act unit := a <- local i;; b <- load_byte a;; PUSH_BYTE b.
Definition sload (i : Z) : act unit := a <- local i;; v <- load_short a;; PUSH_SHORT v.
Definition gbstore (i : Z) : act unit := b <- POP_BYTE;; store_byte (stack_addr + i) b.
Definition gsstore (i : Z) : act unit := v <- POP_SHORT;; store_short (stack_addr + i) v.
Definition gbload (i : Z) : act unit := b <- load_byte (stack_addr + i);; PUSH_BYTE b.
Definition gsload (i : Z) : act unit := v <- load_short (stack_addr + i);; PUSH_SHORT v.

Definition swap : act unit :=
  t <- get stack_top;; top <- load_byte t;; below <- load_byte (t - 1);;
  store_byte t below;;; store_byte (t - 1) top.

(** The operand on top is [b], the one below it [a]; [None] is undefined. *)
Definition byte_op (f : Z -> Z -> option Z) : act unit :=
  b <- POP_BYTE;; a <- POP_BYTE;;
  match f a b with Some r => PUSH_BYTE r | None => undefined end.
Definition short_op (f : Z -> Z -> option Z) : act unit :=
  b <- POP_SHORT;; a <- POP_SHORT;;
  match f a b with Some r => PUSH_SHORT r | None => undefined end.

(** Division truncates; shifts by a negative count or by the width of an [int]
    or more are undefined. *)
Definition total (f : Z -> Z -> Z) (a b : Z) : option Z := Some (f a b).
Definition divide (a b : Z) : option Z := if b =? 0 then None else Some (Z.quot a b).
Definition modulo (a b : Z) : option Z := if b =? 0 then None else Some (Z.rem a b).
Definition lshift (v s : Z) : option Z := if (0 <=? s) && (s <? 16) then Some (Z.shiftl v s) else None.
Definition rshift (v s : Z) : option Z := if (0 <=? s) && (s <? 16) then Some (Z.shiftr v s) else None.
Definition compare (a b : Z) : Z := if a >? b then 1 else if a =? b then 0 else -1.

(** The shift count of the short shifts is a byte. *)
Definition short_shift (f : Z -> Z -> option Z) : act unit :=
  s <- POP_BYTE;; v <- POP_SHORT;;
  match f v s with Some r => PUSH_SHORT r | None => undefined end.

Definition vm_if_check (instr : bytecode) (val : Z) : bool :=
  match instr with
  | IFEQ => val =? 0
  | IFNE => negb (val =? 0)
  | IFLT => val <? 0
  | IFGT => val >? 0
  | IFGE => val >=? 0
  | IFLE => val <=? 0
  | _ => false
  end.

Definition goto : act unit :=
  offset <- NEXTSHORT;; modify (fun v => set_ip (u16 (ip v + (offset - 3))) v).

Definition if_goto (instr : bytecode) : act unit :=
  val <- POP_BYTE;;
  if negb (vm_if_check instr val) then modify (fun v => set_ip (u16 (ip v + 2)) v) else goto.

Definition method_of (bs : list Z) : method :=
  mkMethod (bs !!! 0%nat) (bs !!! 1%nat) (of_le16 [bs !!! 2%nat; bs !!! 3%nat]).

(** Pops [n] bytes; the first one popped is the last of the result. *)
Fixpoint pop_args (n : nat) (args : list Z) : act (list Z) :=
  match n with
  | O => ret args
  | S n => arg <- POP_BYTE;; pop_args n (arg :: args)
  end.

(** [memcpy] into the stack. *)
Fixpoint store_bytes (a : Z) (bs : list Z) : act unit :=
  match bs with
  | [] => ret tt
  | b :: bs => store_byte a b;;; store_bytes (a + 1) bs
  end.

(** Creates the new stack frame and updates the machine. *)
Definition enter_method (m : method) (args : list Z) : act unit :=
  modify (fun v => set_stack_top (stack_top v + 1) v);;;
  new_frame <- get stack_top;;
  i <- get ip;; store_ptr new_frame i;;;
  store_ptr (new_frame + 2) (new_frame - 1);;;
  f <- get current_frame;; store_ptr (new_frame + 4) f;;;
  store_bytes (new_frame + LOCALS) args;;;
  modify (set_current_frame new_frame);;;
  modify (fun v => set_stack_top (stack_top v + (SIZEOF_STACK_FRAME + nlocals m - 1)) v);;;
  modify (fun v => set_ip (u16 (code v + code_offset m)) v).

Definition vm_call : act unit :=
  methodid <- NEXTBYTE;;
  p <- get program;;
  bs <- READ_EEPROM 4 (u16 (p + METHODS + SIZEOF_METHOD * methodid));;
  let m := method_of bs in
  args <- pop_args (Z.to_nat (nargs m)) [];;
  enter_method m args.

Definition vm_do_return : act unit :=
  f <- get current_frame;;
  return_stack <- load_ptr (f + 2);; modify (set_stack_top return_stack);;;
  return_addr <- load_ptr f;; modify (set_ip return_addr);;;
  previous_frame <- load_ptr (f + 4);; modify (set_current_frame previous_frame).

(** [BRET], [SRET] and [RET] stop the machine in the frame of the main method. *)
Definition or_stop (k : act unit) : act unit :=
  f <- get current_frame;; return_addr <- load_ptr f;;
  if return_addr =? 0 then modify (set_state VMSTOPPED);;; return_ else k.

Definition bret : act unit := or_stop (rv <- POP_BYTE;; vm_do_return;;; PUSH_BYTE rv).
Definition sret : act unit := or_stop (rv <- POP_SHORT;; vm_do_return;;; PUSH_SHORT rv).

(** *** System calls *)

Section Env.
Context (env : vm_env).

Definition press_key : act unit :=
  k <- POP_BYTE;; let key := u8 k in
  if key >=? SPECIAL_HID_KEYS_START then ret tt
  else
    modify (fun v => set_keyboardreport (ExtraKeyboardReport_add (keyboardreport v) key) v);;;
    modify (set_state VMWAITREPORT).

Definition release_key : act unit :=
  k <- POP_BYTE;; let key := u8 k in
  modify (fun v => set_keyboardreport (ExtraKeyboardReport_remove (keyboardreport v) key) v);;;
  modify (set_state VMWAITREPORT).

Definition set_button (b : Z) (r : MouseReport_Data_t) : MouseReport_Data_t :=
  mkMouseReport b (X r) (Y r) (VWheel r) (HWheel r).
Definition set_motion (x y : Z) (r : MouseReport_Data_t) : MouseReport_Data_t :=
  mkMouseReport (Button r) x y (VWheel r) (HWheel r).

Definition mouse_buttons (press : bool) : act unit :=
  b <- POP_BYTE;; let mask := Z.land (u8 b) 0x1f in
  modify (fun v =>
    let r := mousereport v in
    let b := if press then Z.lor (Button r) mask else Z.land (Button r) (Z.lnot mask) in
    set_mousereport (set_button (u8 b) r) v);;;
  modify (set_state VMWAITMOUSEREPORT).

Definition move_mouse : act unit :=
  y <- POP_BYTE;; x <- POP_BYTE;;
  modify (fun v => set_mousereport (set_motion x y (mousereport v)) v);;;
  modify (set_state VMWAITMOUSEREPORT).

Definition check_key_call : act unit :=
  k <- POP_BYTE;; PUSH_BYTE (Z.b2z (negb (check_hid_key env (u8 k) =? NO_KEY))).

Definition check_phys_key : act unit :=
  k <- POP_BYTE;; t <- get trigger_lkey;;
  let lkey := if u8 k =? 0 then t else u8 k in
  PUSH_BYTE (Z.b2z (check_key env lkey)).

Definition wait (st : vm_state) : act unit :=
  modify (set_state st);;;
  delay <- POP_SHORT;; k <- POP_BYTE;; modify (set_wait_key (u8 k));;;
  modify (set_delay_end (if delay <=? 0 then 0 else u32 (uptimems env + delay))).

Definition delay_call : act unit :=
  d <- POP_SHORT;; let delay := if d <? 0 then 0 else d in
  modify (set_delay_end (u32 (uptimems env + delay)));;;
  modify (set_state VMDELAY).

Definition buzz (freq : Z) : act unit :=
  delay <- POP_SHORT;; if delay >? 0 then buzzer_start_f delay (u8 freq) else ret tt.

Definition uptime_ms : act unit := PUSH_SHORT (Z.land (uptimems env) 0x7fff).
Definition uptime_s : act unit := PUSH_SHORT (Z.land (uptimems env / 1000) 0x7fff).

(** *** The instruction switch *)

Definition vm_exec (instr : bytecode) : act unit :=
  match instr with
  | BSTORE => i <- NEXTBYTE;; bstore i
  | BSTORE_0 => bstore 0 | BSTORE_1 => bstore 1 | BSTORE_2 => bstore 2 | BSTORE_3 => bstore 3
  | SSTORE => i <- NEXTBYTE;; sstore i
  | SSTORE_0 => sstore 0 | SSTORE_1 => sstore 1 | SSTORE_2 => sstore 2 | SSTORE_3 => sstore 3
  | BLOAD => i <- NEXTBYTE;; bload i
  | BLOAD_0 => bload 0 | BLOAD_1 => bload 1 | BLOAD_2 => bload 2 | BLOAD_3 => bload 3
  | SLOAD => i <- NEXTBYTE;; sload i
  | SLOAD_0 => sload 0 | SLOAD_1 => sload 1 | SLOAD_2 => sload 2 | SLOAD_3 => sload 3
  | GBSTORE => i <- NEXTBYTE;; gbstore i
  | GSSTORE => i <- NEXTBYTE;; gsstore i
  | GBLOAD => i <- NEXTBYTE;; gbload i
  | GSLOAD => i <- NEXTBYTE;; gsload i
  | BCONST => c <- NEXTBYTE;; PUSH_BYTE c
  | BCONST_0 => PUSH_BYTE 0 | BCONST_1 => PUSH_BYTE 1 | BCONST_2 => PUSH_BYTE 2 | BCONST_3 => PUSH_BYTE 3
  | SCONST => s <- NEXTSHORT;; PUSH_SHORT s
  | SCONST_0 => PUSH_SHORT 0 | SCONST_1 => PUSH_SHORT 1 | SCONST_2 => PUSH_SHORT 2 | SCONST_3 => PUSH_SHORT 3
  | DUP => top <- TOP_BYTE;; PUSH_BYTE top
  | DUP2 => top <- TOP_SHORT;; PUSH_SHORT top
  | POP2 => _ <- POP_BYTE;; _ <- POP_BYTE;; ret tt
  | POP => _ <- POP_BYTE;; ret tt
  | SWAP => swap
  | BADD => byte_op (total Z.add)
  | BSUBTRACT => byte_op (total Z.sub)
  | BMULTIPLY => byte_op (total Z.mul)
  | BDIVIDE => byte_op divide
  | BMOD => byte_op modulo
  | BAND => byte_op (total Z.land)
  | BOR => byte_op (total Z.lor)
  | BXOR => byte_op (total Z.lxor)
  | BNOT => x <- POP_BYTE;; PUSH_BYTE (Z.lnot x)
  | BCMP => byte_op (total compare)
  | BLSHIFT => byte_op lshift
  | BRSHIFT => byte_op rshift
  | SADD => short_op (total Z.add)
  | SSUBTRACT => short_op (total Z.sub)
  | SMULTIPLY => short_op (total Z.mul)
  | SDIVIDE => short_op divide
  | SMOD => short_op modulo
  | SAND => short_op (total Z.land)
  | SOR => short_op (total Z.lor)
  | SXOR => short_op (total Z.lxor)
  | SNOT => x <- POP_SHORT;; PUSH_SHORT (Z.lnot x)
  | SCMP => b <- POP_SHORT;; a <- POP_SHORT;; PUSH_BYTE (compare a b)
  | SLSHIFT => short_shift lshift
  | SRSHIFT => short_shift rshift
  | B2S => b <- POP_BYTE;; PUSH_SHORT b
  | S2B => s <- POP_SHORT;; PUSH_BYTE (s8 s)
  | IFEQ | IFNE | IFLT | IFGT | IFGE | IFLE => if_goto instr
  | GOTO => goto
  | NOP => ret tt
  | CALL => vm_call
  | BRET => bret
  | SRET => sret
  | RET => or_stop vm_do_return
  | VMEXIT => modify (set_state VMSTOPPED);;; return_
  | PRESSKEY => press_key
  | RELEASEKEY => release_key
  | PRESSMOUSEBUTTONS => mouse_buttons true
  | RELEASEMOUSEBUTTONS => mouse_buttons false
  | MOVEMOUSE => move_mouse
  | CHECKKEY => check_key_call
  | CHECKPHYSKEY => check_phys_key
  | WAITKEY => wait VMWAITKEY
  | WAITPHYSKEY => wait VMWAITPHYSKEY
  | DELAY => delay_call
  | BUZZAT => freq <- POP_BYTE;; buzz freq
  | BUZZ => buzz BUZZER_DEFAULT_TONE
  | GETUPTIMEMS => uptime_ms
  | GETUPTIME => uptime_s
  end.

(** The time of a wait has come: [delay_end_ms && uptimems() > delay_end_ms]. *)
Definition timed_out (v : vmstate) : bool :=
  negb (delay_end_ms v =? 0) && (uptimems env >? delay_end_ms v).

Definition wait_over (result : Z) : act unit :=
  PUSH_BYTE result;;; modify (set_delay_end 0);;; modify (set_state VMRUNNING).

(** The switch over the waiting states. *)
Definition vm_waiting : act unit :=
  st <- get state;;
  match st with
  | VMWAITREPORT | VMWAITMOUSEREPORT => return_
  | VMWAITPHYSKEY =>
      modify (fun v => if wait_key v =? 0 then set_wait_key (trigger_lkey v) v else v);;;
      k <- get wait_key;; late <- get timed_out;;
      let pressed := check_key env k in
      (if pressed || late then wait_over (Z.b2z pressed) else ret tt);;; return_
  | VMWAITKEY =>
      k <- get wait_key;; late <- get timed_out;;
      let r := check_hid_key env k in
      (if negb (r =? NO_KEY) || late
       then wait_over (if negb (r =? NO_KEY) then r else 0) else ret tt);;; return_
  | VMDELAY =>
      e <- get delay_end_ms;;
      if uptimems env >? e
      then modify (set_delay_end 0);;; modify (set_state VMRUNNING)
      else return_
  | _ => ret tt
  end.

Definition vm_step_act : act unit :=
  st <- get state;; top <- get stack_top;;
  if negb (running st) then return_
  else if top >? stack_addr + (STACK_SIZE - 2) then modify (set_state VMCRASHED);;; return_
  else
    vm_waiting;;;
    b <- NEXTINSTR;;
    match bytecode_of b with Some instr => vm_exec instr | None => ret tt end.

(** [vm_step]: the machine afterwards and the calls of the buzzer; [None] is undefined. *)
Definition vm_step (vm : vmstate) : option (vmstate * list (Z * Z)) :=
  match vm_step_act (vm, []) with
  | Next _ s | Returned s => Some s
  | Undefined => None
  end.
End Env.

(** [vm_start_vm]; the members of the new frame are written to the array. *)
Definition vm_start_vm (lkey : Z) (vm : vmstate) : outcome Z :=
  if negb (running (state vm)) && negb (bool_decide (state vm = VMNOPROGRAM)) then
    let vm := set_trigger_lkey lkey (set_state VMRUNNING vm) in
    match storage_peek (program vm) 6 eeprom with
    | None => Next storage_errno (vm, [])
    | Some bs =>
        let nglobals := bs !!! 0%nat in
        let main := method_of (drop 2 bs) in
        let frame := stack_addr + nglobals in
        (modify (set_ip (u16 (code vm + code_offset main)));;;
         modify (set_current_frame frame);;;
         store_ptr frame 0;;;
         store_ptr (frame + 4) 0;;;
         modify (set_stack_top (frame + SIZEOF_STACK_FRAME + (nlocals main - 1)));;;
         ret 0) (vm, [])
    end
  else Next 1 (vm, []).
End Machine.

(** ** All machines *)

(** The addresses of the machines' stacks. *)
Context (stack_addr : nat -> Z).

(** [vm_init], with the program of each machine ([config_get_program]). *)
Definition vm_init (count : nat) (config_get_program : nat -> option Z) (vms : list vmstate) : list vmstate :=
  for_range 0 count (fun i vms =>
    match config_get_program i with
    | Some p =>
        let '(r, vm) := vm_init_vm p (vms !!! i) in
        <[i := if negb (u8 r =? 0) then set_state VMNOPROGRAM vm else vm]> vms
    | None => <[i := set_state VMNOPROGRAM (vms !!! i)]> vms
    end) vms.

(** [vm_start]: the result and the machines; [None] is undefined. *)
Definition vm_start (idx : nat) (lkey : Z) (vms : list vmstate) : option (Z * list vmstate) :=
  match vm_start_vm (stack_addr idx) lkey (vms !!! idx) with
  | Next r (vm, _) => Some (u8 r, <[idx := vm]> vms)
  | _ => None
  end.

Definition step_one (env : vm_env) (i : nat) (s : option (list vmstate * list (Z * Z)))
    : option (list vmstate * list (Z * Z)) :=
  match s with
  | None => None
  | Some (vms, buzzes) =>
      let vm := vms !!! i in
      if running (state vm) then
        match vm_step (stack_addr i) env vm with
        | Some (vm, bz) => Some (<[i := vm]> vms, buzzes ++ bz)
        | None => None
        end
      else Some (vms, buzzes)
  end.

Definition vm_step_all (env : vm_env) (vms : list vmstate) : option (list vmstate * list (Z * Z)) :=
  for_range 0 (length vms) (step_one env) (Some (vms, [])).
End Interpreter.

(** ** Reports *)

Definition append_keyboard (s : list vmstate * KeyboardReport_Data_t) (vm : vmstate)
    : list vmstate * KeyboardReport_Data_t :=
  let '(done, report) := s in
  if negb (running (state vm)) then (done ++ [vm], report)
  else
    let vm := if bool_decide (state vm = VMWAITREPORT) then set_state VMRUNNING vm else vm in
    (done ++ [vm], ExtraKeyboardReport_append (keyboardreport vm) report).

Definition vm_append_KeyboardReport (vms : list vmstate) (report : KeyboardReport_Data_t)
    : list vmstate * KeyboardReport_Data_t :=
  fold_left append_keyboard vms ([], report).

Definition addT (x y : Z) : Z :=
  let s := x + y in
  if s >? 127 then 127 else if s <? -128 then -128 else s8 s.

Definition append_mouse (s : list vmstate * MouseReport_Data_t) (vm : vmstate)
    : list vmstate * MouseReport_Data_t :=
  let '(done, report) := s in
  if negb (running (state vm)) then (done ++ [vm], report)
  else
    let vm := if bool_decide (state vm = VMWAITMOUSEREPORT) then set_state VMRUNNING vm else vm in
    let m := mousereport vm in
    let report := mkMouseReport (u8 (Z.lor (Button report) (Button m)))
                    (addT (X report) (X m)) (addT (Y report) (Y m)) (VWheel report) (HWheel report) in
    (done ++ [set_mousereport (set_motion 0 0 m) vm], report).

Definition vm_append_MouseReport (vms : list vmstate) (report : MouseReport_Data_t)
    : list vmstate * MouseReport_Data_t :=
  fold_left append_mouse vms ([], report).
