(* ===== verification/InterpreterSpec.v ===== *)
(** * What the byte code means: an abstract machine

    The meaning of the instructions of src/vm.txt that compute and transfer
    control, without addresses: the globals, the frame of the running method
    and the frames of its callers are lists of bytes that do not touch each
    other.  The operations are those of the integers and the codes are those of
    the table in vm.txt; nothing of the interpreter is used but the names of
    the instructions and the layout of a program in the storage.
    [InterpreterProofs] shows that the interpreter implements it.

    In three points vm.txt says something else than interpreter.c does, and the
    machine here is that of the code:
    - vm.txt:55-60 lets IFEQ .. IFLE jump if the comparison does not hold; the
      code jumps if it holds ([jumps], [ifeq_jumps_on_zero]);
    - vm.txt:29-36 and 40-47 pop [a] before [b] and compute [a op b]; the code
      pops the right operand first ([right_operand_on_top]);
    - vm.txt:51-52 pop the count of a short shift as a short; the code pops a
      byte ([short_shift_by_byte]). *)

From S2P Require Import Prelude Hid ExtraReport Storage Interpreter.

(** A frame: where its caller goes on (0 in the main method), its locals, and
    its operands, the top first.  All bytes are unsigned. *)
Record frame := mkFrame {
  return_to : Z;
  locals : list Z;
  operands : list Z
}.

Record amachine := mkA {
  a_ip : Z;
  globals : list Z;
  this : frame;
  callers : list frame
}.

(** ** Operands *)

Definition pop8 (l : list Z) : option (Z * list Z) :=
  match l with b :: l => Some (s8 b, l) | _ => None end.
Definition pop16 (l : list Z) : option (Z * list Z) :=
  match l with hi :: lo :: l => Some (s16 (lo + 256 * hi), l) | _ => None end.
Definition push8 (x : Z) (l : list Z) : list Z := u8 x :: l.
Definition push16 (x : Z) (l : list Z) : list Z := u8 (x / 256) :: u8 x :: l.

(** 8- and 16-bit cells of a block of bytes. *)
Definition get8 (i : Z) (l : list Z) : option Z :=
  if 0 <=? i then s8 <$> l !! Z.to_nat i else None.
Definition set8 (i x : Z) (l : list Z) : option (list Z) :=
  if (0 <=? i) && (i <? Z.of_nat (length l)) then Some (<[Z.to_nat i := u8 x]> l) else None.
Definition get16 (i : Z) (l : list Z) : option Z :=
  lo ← get8 i l; hi ← get8 (i + 1) l; Some (s16 (u8 lo + 256 * u8 hi)).
Definition set16 (i x : Z) (l : list Z) : option (list Z) :=
  l ← set8 i x l; set8 (i + 1) (x / 256) l.

(** ** Instructions that compute *)

(** The data an instruction works on. *)
Record data := mkData {
  d_globals : list Z;
  d_locals : list Z;
  d_operands : list Z
}.

Definition on_operands (f : list Z -> option (list Z)) (d : data) : option data :=
  l ← f (d_operands d); Some (mkData (d_globals d) (d_locals d) l).

Definition unary8 (f : Z -> Z) : data -> option data :=
  on_operands (fun l => '(x, l) ← pop8 l; Some (push8 (f x) l)).
Definition unary16 (f : Z -> Z) : data -> option data :=
  on_operands (fun l => '(x, l) ← pop16 l; Some (push16 (f x) l)).
Definition binary8 (f : Z -> Z -> option Z) : data -> option data :=
  on_operands (fun l => '(b, l) ← pop8 l; '(a, l) ← pop8 l; r ← f a b; Some (push8 r l)).
Definition binary16 (f : Z -> Z -> option Z) : data -> option data :=
  on_operands (fun l => '(b, l) ← pop16 l; '(a, l) ← pop16 l; r ← f a b; Some (push16 r l)).
Definition shift16 (f : Z -> Z -> option Z) : data -> option data :=
  on_operands (fun l => '(s, l) ← pop8 l; '(v, l) ← pop16 l; r ← f v s; Some (push16 r l)).

Definition store8 (i : Z) (d : data) : option data :=
  '(x, l) ← pop8 (d_operands d); m ← set8 i x (d_locals d); Some (mkData (d_globals d) m l).
Definition store16 (i : Z) (d : data) : option data :=
  '(x, l) ← pop16 (d_operands d); m ← set16 i x (d_locals d); Some (mkData (d_globals d) m l).
Definition load8 (i : Z) (d : data) : option data :=
  x ← get8 i (d_locals d); on_operands (fun l => Some (push8 x l)) d.
Definition load16 (i : Z) (d : data) : option data :=
  x ← get16 i (d_locals d); on_operands (fun l => Some (push16 x l)) d.
Definition gstore8 (i : Z) (d : data) : option data :=
  '(x, l) ← pop8 (d_operands d); m ← set8 i x (d_globals d); Some (mkData m (d_locals d) l).
Definition gstore16 (i : Z) (d : data) : option data :=
  '(x, l) ← pop16 (d_operands d); m ← set16 i x (d_globals d); Some (mkData m (d_locals d) l).
Definition gload8 (i : Z) (d : data) : option data :=
  x ← get8 i (d_globals d); on_operands (fun l => Some (push8 x l)) d.
Definition gload16 (i : Z) (d : data) : option data :=
  x ← get16 i (d_globals d); on_operands (fun l => Some (push16 x l)) d.
Definition const8 (x : Z) : data -> option data := on_operands (fun l => Some (push8 x l)).
Definition const16 (x : Z) : data -> option data := on_operands (fun l => Some (push16 x l)).

(** The operations on signed integers; the results are cut to a byte or a short when they are pushed.  Dividing by
    zero and shifting by a count outside of an int have no meaning. *)
Definition always (f : Z -> Z -> Z) (a b : Z) : option Z := Some (f a b).
Definition quotient (a b : Z) : Z := Z.sgn a * Z.sgn b * (Z.abs a / Z.abs b).
Definition division (a b : Z) : option Z := if bool_decide (b = 0) then None else Some (quotient a b).
Definition remainder (a b : Z) : option Z := if bool_decide (b = 0) then None else Some (a - b * quotient a b).
Definition shift_left (v s : Z) : option Z := if bool_decide (0 <= s < 16) then Some (v * 2 ^ s) else None.
Definition shift_right (v s : Z) : option Z := if bool_decide (0 <= s < 16) then Some (v / 2 ^ s) else None.
Definition complement (x : Z) : Z := -1 - x.
Definition three_way (a b : Z) : Z := Z.sgn (a - b).

(** How many operand bytes follow an instruction. *)
Definition operand_size (i : bytecode) : nat :=
  match i with
  | BSTORE | SSTORE | BLOAD | SLOAD | GBSTORE | GSSTORE | GBLOAD | GSLOAD | BCONST => 1
  | SCONST => 2
  | _ => 0
  end.

(** The effect of an instruction with operand [n]; [None]: not an instruction
    that computes, or the bytes it needs are not there. *)
Definition effect (i : bytecode) (n : Z) : data -> option data :=
  match i with
  | BSTORE => store8 n
  | BSTORE_0 => store8 0 | BSTORE_1 => store8 1 | BSTORE_2 => store8 2 | BSTORE_3 => store8 3
  | SSTORE => store16 n
  | SSTORE_0 => store16 0 | SSTORE_1 => store16 1 | SSTORE_2 => store16 2 | SSTORE_3 => store16 3
  | BLOAD => load8 n
  | BLOAD_0 => load8 0 | BLOAD_1 => load8 1 | BLOAD_2 => load8 2 | BLOAD_3 => load8 3
  | SLOAD => load16 n
  | SLOAD_0 => load16 0 | SLOAD_1 => load16 1 | SLOAD_2 => load16 2 | SLOAD_3 => load16 3
  | GBSTORE => gstore8 n | GSSTORE => gstore16 n | GBLOAD => gload8 n | GSLOAD => gload16 n
  | BCONST => const8 n
  | BCONST_0 => const8 0 | BCONST_1 => const8 1 | BCONST_2 => const8 2 | BCONST_3 => const8 3
  | SCONST => const16 n
  | SCONST_0 => const16 0 | SCONST_1 => const16 1 | SCONST_2 => const16 2 | SCONST_3 => const16 3
  | DUP => on_operands (fun l => '(x, _) ← pop8 l; Some (push8 x l))
  | DUP2 => on_operands (fun l => '(x, _) ← pop16 l; Some (push16 x l))
  | POP => on_operands (fun l => '(_, l) ← pop8 l; Some l)
  | POP2 => on_operands (fun l => '(_, l) ← pop8 l; '(_, l) ← pop8 l; Some l)
  | SWAP => on_operands (fun l => '(x, l) ← pop8 l; '(y, l) ← pop8 l; Some (push8 y (push8 x l)))
  | BADD => binary8 (always Z.add) | BSUBTRACT => binary8 (always Z.sub)
  | BMULTIPLY => binary8 (always Z.mul) | BDIVIDE => binary8 division | BMOD => binary8 remainder
  | BAND => binary8 (always Z.land) | BOR => binary8 (always Z.lor) | BXOR => binary8 (always Z.lxor)
  | BNOT => unary8 complement | BCMP => binary8 (always three_way)
  | BLSHIFT => binary8 shift_left | BRSHIFT => binary8 shift_right
  | SADD => binary16 (always Z.add) | SSUBTRACT => binary16 (always Z.sub)
  | SMULTIPLY => binary16 (always Z.mul) | SDIVIDE => binary16 division | SMOD => binary16 remainder
  | SAND => binary16 (always Z.land) | SOR => binary16 (always Z.lor) | SXOR => binary16 (always Z.lxor)
  | SNOT => unary16 complement
  | SCMP => on_operands (fun l =>
      '(b, l) ← pop16 l; '(a, l) ← pop16 l; Some (push8 (three_way a b) l))
  | SLSHIFT => shift16 shift_left | SRSHIFT => shift16 shift_right
  | B2S => on_operands (fun l => '(x, l) ← pop8 l; Some (push16 x l))
  | S2B => on_operands (fun l => '(x, l) ← pop16 l; Some (push8 x l))
  | NOP => Some
  | _ => fun _ => None
  end.

(** ** Steps *)

(** The codes of the instructions. *)
Definition opcode (i : bytecode) : Z :=
  match i with
  | BSTORE => 0 | BSTORE_0 => 1 | BSTORE_1 => 2 | BSTORE_2 => 3 | BSTORE_3 => 4 | SSTORE => 5
  | SSTORE_0 => 6 | SSTORE_1 => 7 | SSTORE_2 => 8 | SSTORE_3 => 9 | BLOAD => 10 | BLOAD_0 => 11
  | BLOAD_1 => 12 | BLOAD_2 => 13 | BLOAD_3 => 14 | SLOAD => 15 | SLOAD_0 => 16 | SLOAD_1 => 17
  | SLOAD_2 => 18 | SLOAD_3 => 19 | GBSTORE => 20 | GBLOAD => 21 | GSSTORE => 22 | GSLOAD => 23
  | BCONST => 24 | BCONST_0 => 25 | BCONST_1 => 26 | BCONST_2 => 27 | BCONST_3 => 28 | SCONST => 29
  | SCONST_0 => 30 | SCONST_1 => 31 | SCONST_2 => 32 | SCONST_3 => 33 | DUP => 34 | DUP2 => 35
  | POP => 36 | POP2 => 37 | SWAP => 38 | BADD => 48 | BSUBTRACT => 49 | BMULTIPLY => 50
  | BDIVIDE => 51 | BMOD => 52 | BAND => 53 | BOR => 54 | BXOR => 55 | BNOT => 56 | BCMP => 57
  | BLSHIFT => 58 | BRSHIFT => 59 | SADD => 60 | SSUBTRACT => 61 | SMULTIPLY => 62 | SDIVIDE => 63
  | SMOD => 64 | SAND => 65 | SOR => 66 | SXOR => 67 | SNOT => 68 | SCMP => 69 | SLSHIFT => 70
  | SRSHIFT => 71 | B2S => 72 | S2B => 73 | IFEQ => 74 | IFNE => 75 | IFLT => 76 | IFGT => 77
  | IFGE => 78 | IFLE => 79 | GOTO => 80 | NOP => 81 | CALL => 82 | BRET => 83 | SRET => 84
  | RET => 85 | VMEXIT => 86 | PRESSKEY => 87 | RELEASEKEY => 88 | CHECKKEY => 89
  | CHECKPHYSKEY => 90 | WAITKEY => 91 | WAITPHYSKEY => 92 | DELAY => 95 | GETUPTIMEMS => 96
  | GETUPTIME => 97 | BUZZ => 98 | BUZZAT => 99 | MOVEMOUSE => 100 | PRESSMOUSEBUTTONS => 101
  | RELEASEMOUSEBUTTONS => 102
  end.

(** When a conditional jump goes to its target. *)
Inductive jumps : bytecode -> Z -> Prop :=
  | jump_eq : jumps IFEQ 0
  | jump_ne x : x <> 0 -> jumps IFNE x
  | jump_lt x : x < 0 -> jumps IFLT x
  | jump_gt x : x > 0 -> jumps IFGT x
  | jump_ge x : x >= 0 -> jumps IFGE x
  | jump_le x : x <= 0 -> jumps IFLE x.

Definition is_if (i : bytecode) : bool :=
  match i with IFEQ | IFNE | IFLT | IFGT | IFGE | IFLE => true | _ => false end.

Definition with_operands (l : list Z) (f : frame) : frame := mkFrame (return_to f) (locals f) l.

Section Steps.
Context {M : Type} {St : Storage M} (eeprom : M) (program code : Z).

(** Instruction [i] is at address [a]; [n] is the signed operand of its size behind it. *)
Definition instr_at (a : Z) (i : bytecode) : Prop :=
  exists bs, storage_peek a 1 eeprom = Some bs /\ bs !!! 0%nat = opcode i.
Definition byte_at (a n : Z) : Prop :=
  exists bs, storage_peek a 1 eeprom = Some bs /\ n = s8 (bs !!! 0%nat).
Definition short_at (a n : Z) : Prop :=
  exists bs, storage_peek a 2 eeprom = Some bs /\ n = s16 (of_le16 bs).
Definition operand_at (size : nat) (a n : Z) : Prop :=
  match size with 0%nat => True | 1%nat => byte_at a n | _ => short_at a n end.
Definition method_at (id : Z) (m : method) : Prop :=
  exists bs, storage_peek (u16 (program + METHODS + SIZEOF_METHOD * id)) 4 eeprom = Some bs /\
    m = mkMethod (bs !!! 0%nat) (bs !!! 1%nat) (bs !!! 2%nat + 256 * bs !!! 3%nat).

Definition next (ip : Z) : Z := u16 (ip + 1).

Inductive astep : amachine -> amachine -> Prop :=
  | step_effect ip g r l o cs i n g' l' o' :
      instr_at ip i -> operand_at (operand_size i) (next ip) n ->
      effect i n (mkData g l o) = Some (mkData g' l' o') ->
      astep (mkA ip g (mkFrame r l o) cs)
            (mkA (u16 (next ip + Z.of_nat (operand_size i))) g' (mkFrame r l' o') cs)
  | step_goto ip g f cs n :
      instr_at ip GOTO -> short_at (next ip) n ->
      astep (mkA ip g f cs) (mkA (u16 (u16 (next ip + 2) + (n - 3))) g f cs)
  | step_jump ip g r l o o' cs i x n :
      instr_at ip i -> short_at (next ip) n -> pop8 o = Some (x, o') -> jumps i x ->
      astep (mkA ip g (mkFrame r l o) cs) (mkA (u16 (u16 (next ip + 2) + (n - 3))) g (mkFrame r l o') cs)
  | step_no_jump ip g r l o o' cs i x n :
      instr_at ip i -> is_if i = true -> short_at (next ip) n -> pop8 o = Some (x, o') -> ~ jumps i x ->
      astep (mkA ip g (mkFrame r l o) cs) (mkA (u16 (next ip + 2)) g (mkFrame r l o') cs)
  (* the arguments are the first locals of the new frame; the other locals hold anything *)
  | step_call ip g r l args o cs n m rest :
      instr_at ip CALL -> byte_at (next ip) n -> method_at n m ->
      Z.of_nat (length args) = nargs m -> Z.of_nat (length (args ++ rest)) = nlocals m ->
      Forall is_u8 rest -> next (next ip) <> 0 ->
      astep (mkA ip g (mkFrame r l (rev args ++ o)) cs)
            (mkA (u16 (code + code_offset m)) g
               (mkFrame (next (next ip)) (args ++ rest) []) (mkFrame r l o :: cs))
  | step_ret ip g r l o c cs :
      instr_at ip RET -> r <> 0 ->
      astep (mkA ip g (mkFrame r l o) (c :: cs)) (mkA r g c cs)
  | step_bret ip g r l o o' x c cs :
      instr_at ip BRET -> r <> 0 -> pop8 o = Some (x, o') ->
      astep (mkA ip g (mkFrame r l o) (c :: cs)) (mkA r g (with_operands (push8 x (operands c)) c) cs)
  | step_sret ip g r l o o' x c cs :
      instr_at ip SRET -> r <> 0 -> pop16 o = Some (x, o') ->
      astep (mkA ip g (mkFrame r l o) (c :: cs)) (mkA r g (with_operands (push16 x (operands c)) c) cs).
End Steps.

(** Where vm.txt differs. *)
Example ifeq_jumps_on_zero : jumps IFEQ 0 /\ ~ jumps IFEQ 1.
Proof. split; [constructor|]. inversion 1. Qed.
Example right_operand_on_top : effect BSUBTRACT 0 (mkData [] [] [1; 3]) = Some (mkData [] [] [2]).
Proof. reflexivity. Qed.
Example short_shift_by_byte : effect SLSHIFT 0 (mkData [] [] [4; 0; 1; 7]) = Some (mkData [] [] [0; 16; 7]).
Proof. reflexivity. Qed.

(** ** Sizes

    The bytes of the interpreter's stack a machine takes: a frame has three
    saved pointers, and one byte between its locals and its operands is not used. *)

Definition frame_size (f : frame) : Z :=
  SIZEOF_STACK_FRAME + Z.of_nat (length (locals f)) + Z.of_nat (length (operands f)).
Definition asize (a : amachine) : Z :=
  Z.of_nat (length (globals a)) + foldr Z.add 0 (map frame_size (this a :: callers a)).
