(* ===== verification/InterpreterProofs.v ===== *)
(** * interpreter.c: the interpreter implements the abstract machine

    Each instruction of a running machine whose stack holds the frames of an
    abstract machine ([InterpreterSpec]) makes a step of it, as long as the
    frames fit into the array. *)

From stdpp Require Import relations.
From S2P Require Import Prelude Hid ExtraReport Storage Interpreter InterpreterSpec.

Section Layout.
Context {M : Type} {St : Storage M} (eeprom : M) (storage_errno : Z).
Context (stack_addr : Z).

(** ** The data in the stack

    [At A pc d s]: the stack of [s] holds the globals of [d], then [A] (the
    frames of the callers and the pointers of this frame), the locals, an
    unused byte and the operands of [d]; the machine is at address [pc]. *)
Record At (A : list Z) (pc : Z) (d : data) (s : act_state) : Prop := mkAt {
  at_stack : exists pad free,
    stack s.1 = d_globals d ++ A ++ d_locals d ++ pad :: rev (d_operands d) ++ free;
  at_length : Z.of_nat (length (stack s.1)) = STACK_SIZE;
  at_bytes : Forall is_u8 (stack s.1);
  at_top : stack_top s.1 = stack_addr + Z.of_nat (length (d_globals d ++ A ++ d_locals d) + length (d_operands d));
  at_frame : current_frame s.1 + LOCALS = stack_addr + Z.of_nat (length (d_globals d ++ A));
  at_ip : ip s.1 = pc
}.

(** All of the state but the stack, the pointers into it and the instruction pointer. *)
Definition rest (s : act_state) : vmstate * list (Z * Z) :=
  (set_stack [] (set_current_frame 0 (set_stack_top 0 (set_ip 0 s.1))), s.2).

Definition triple {X} (A : list Z) (pc : Z) (d : data) (m : act X) (x : X) (pc' : Z) (d' : data) : Prop :=
  forall s, At A pc d s -> exists s', m s = Next x s' /\ At A pc' d' s' /\ rest s' = rest s.

Lemma triple_ret {X} A pc d (x : X) : triple A pc d (ret x) x pc d.
Proof. intros s Hs. by exists s. Qed.

Lemma triple_bind {X Y} A pc d (m : act X) (f : X -> act Y) x y pc' d' pc'' d'' :
  triple A pc d m x pc' d' -> triple A pc' d' (f x) y pc'' d'' -> triple A pc d (bind m f) y pc'' d''.
Proof.
  intros Hm Hf s Hs. destruct (Hm s Hs) as (s1 & E1 & Hs1 & R1).
  destruct (Hf s1 Hs1) as (s2 & E2 & Hs2 & R2). exists s2. unfold bind. rewrite E1. split; [done|].
  split; [done|congruence].
Qed.

Lemma load_split P b F a s :
  stack s.1 = P ++ b :: F -> Z.of_nat (length (stack s.1)) = STACK_SIZE ->
  a = stack_addr + Z.of_nat (length P) -> load_byte stack_addr a s = Next (s8 b) s.
Proof.
  intros E Hl ->. unfold load_byte. replace (stack_addr + Z.of_nat (length P) - stack_addr)
    with (Z.of_nat (length P)) by lia.
  rewrite E, length_app in Hl. cbn [length] in Hl. rewrite E, Nat2Z.id, list_lookup_total_middle by done.
  case_if; [done|]. apply andb_false_iff in Heqb0 as [?|?]; bsplit; lia.
Qed.

Lemma store_split P b F a x s :
  stack s.1 = P ++ b :: F -> Z.of_nat (length (stack s.1)) = STACK_SIZE ->
  a = stack_addr + Z.of_nat (length P) ->
  store_byte stack_addr a x s = Next tt (set_stack (P ++ u8 x :: F) s.1, s.2).
Proof.
  intros E Hl ->. unfold store_byte. replace (stack_addr + Z.of_nat (length P) - stack_addr)
    with (Z.of_nat (length P)) by lia.
  rewrite E, length_app in Hl. cbn [length] in Hl. rewrite E, Nat2Z.id, insert_app_r_alt, Nat.sub_diag by lia.
  case_if; [done|]. apply andb_false_iff in Heqb0 as [?|?]; bsplit; lia.
Qed.

(** The bytes in use, and the byte on top. *)
Lemma at_bound A pc d s :
  At A pc d s ->
  Z.of_nat (length (d_globals d ++ A ++ d_locals d) + length (d_operands d)) < STACK_SIZE.
Proof.
  intros [(pad & F & E) Hl _ _ _ _]. rewrite <- Hl, E. rewrite !length_app. cbn [length].
  rewrite length_app, length_rev. lia.
Qed.

(** Arithmetic on the lengths of lists. *)
Ltac lens := repeat (rewrite ?length_app, ?length_rev in *; cbn [length] in * ); lia.

(** Normalises appended lists. *)
Ltac flat := cbn [rev app]; repeat (rewrite <- app_assoc; cbn [app]); try done.

Lemma at_operand A pc g l b o s :
  At A pc (mkData g l (b :: o)) s -> exists P F,
    stack s.1 = P ++ b :: F /\ stack_top s.1 = stack_addr + Z.of_nat (length P) /\ is_u8 b /\
    exists pad, P = g ++ A ++ l ++ pad :: rev o.
Proof.
  intros [(pad & F & E) _ Hb Ht _ _]. cbn [d_globals d_locals d_operands] in *.
  exists (g ++ A ++ l ++ pad :: rev o), F. split_and!; [| | |by exists pad].
  - rewrite E. flat.
  - rewrite Ht. cbn [length]. rewrite !length_app. cbn [length]. rewrite length_rev. lia.
  - rewrite E in Hb. by decompose_Forall.
Qed.

(** ** Operands *)

Lemma triple_modify A pc d f pc' d' :
  (forall s, At A pc d s -> At A pc' d' (f s.1, s.2) /\ rest (f s.1, s.2) = rest s) ->
  triple A pc d (modify f) tt pc' d'.
Proof. intros Hf s Hs. exists (f s.1, s.2). split; [done|]. by apply Hf. Qed.

Lemma triple_get {X} A pc d (f : vmstate -> X) x :
  (forall s, At A pc d s -> f s.1 = x) -> triple A pc d (get f) x pc d.
Proof. intros Hf s Hs. exists s. unfold get. by rewrite (Hf s Hs). Qed.

Lemma top_byte_ok A pc g l b o :
  triple A pc (mkData g l (b :: o)) (TOP_BYTE stack_addr) (s8 b) pc (mkData g l (b :: o)).
Proof.
  intros s Hs. exists s. split; [|done].
  destruct (at_operand _ _ _ _ _ _ _ Hs) as (P & F & E & Ht & _).
  unfold TOP_BYTE, bind, get. by apply load_split with P F; [|apply Hs|].
Qed.

Lemma drop_ok A pc g l b o :
  triple A pc (mkData g l (b :: o)) (modify (fun v => set_stack_top (stack_top v - 1) v)) tt pc (mkData g l o).
Proof.
  apply triple_modify. intros s [(pad & F & E) Hl Hb Ht Hf Hi]. split; [|done].
  cbn [d_globals d_locals d_operands] in *. constructor; cbn; try done.
  - exists pad, (b :: F). rewrite E. flat.
  - rewrite Ht. cbn [length]. lia.
Qed.

Lemma pop_byte_ok A pc g l b o :
  triple A pc (mkData g l (b :: o)) (POP_BYTE stack_addr) (s8 b) pc (mkData g l o).
Proof.
  eapply triple_bind; [apply top_byte_ok|]. eapply triple_bind; [apply drop_ok|apply triple_ret].
Qed.

Definition size (A : list Z) (d : data) : Z :=
  Z.of_nat (length (d_globals d ++ A ++ d_locals d) + length (d_operands d)) + 1.

Lemma push_byte_ok A pc g l o x :
  size A (mkData g l o) < STACK_SIZE ->
  triple A pc (mkData g l o) (PUSH_BYTE stack_addr x) tt pc (mkData g l (push8 x o)).
Proof.
  intros Hsz s Hs. destruct Hs as [(pad & F & E) Hl Hb Ht Hf Hi]. unfold size in Hsz.
  cbn [d_globals d_locals d_operands] in *.
  assert (exists y F', F = y :: F') as (y & F' & ->).
  { destruct F as [|y F']; [|by exists y, F']. rewrite E in Hl.
    clear -Hl Hsz. lens. }
  set (P := g ++ A ++ l ++ pad :: rev o). assert (EP : stack s.1 = P ++ y :: F') by (rewrite E; subst P; flat).
  assert (HP : stack_top s.1 + 1 = stack_addr + Z.of_nat (length P)).
  { rewrite Ht. subst P. rewrite !length_app. cbn [length]. rewrite length_rev. lia. }
  exists (set_stack (P ++ u8 x :: F') (set_stack_top (stack_top s.1 + 1) s.1), s.2).
  split; [|split; [|done]].
  - unfold PUSH_BYTE, bind, modify, get. cbn [fst snd].
    by rewrite (store_split P y F').
  - constructor; cbn; try done.
    + exists pad, F'. subst P. flat.
    + rewrite EP in Hl. clear -Hl. lens.
    + rewrite EP in Hb. apply Forall_app in Hb as [Hb1 Hb2]. apply Forall_cons in Hb2 as [_ Hb2].
      apply Forall_app_2; [done|]. constructor; [apply u8_range|done].
    + rewrite Ht. unfold push8. cbn [length]. lia.
Qed.

(** Two bytes at once. *)
Lemma u8_of_s8 x : is_u8 x -> u8 (s8 x) = x.
Proof. intros Hx. by rewrite u8_s8, u8_small. Qed.

Lemma u8_u8 x : u8 (u8 x) = u8 x.
Proof. apply u8_small, u8_range. Qed.

Lemma at_operand2 A pc g l hi lo o s :
  At A pc (mkData g l (hi :: lo :: o)) s -> exists P F,
    stack s.1 = P ++ lo :: hi :: F /\ stack_top s.1 = stack_addr + Z.of_nat (length P) + 1 /\
    is_u8 lo /\ is_u8 hi /\ exists pad, P = g ++ A ++ l ++ pad :: rev o.
Proof.
  intros Hs. destruct (at_operand _ _ _ _ _ _ _ Hs) as (P & F & E & Ht & Hhi & pad & EP).
  exists (g ++ A ++ l ++ pad :: rev o), F. subst P. split_and!.
  - rewrite E. flat.
  - rewrite Ht. lens.
  - pose proof (at_bytes _ _ _ _ Hs) as Hb. rewrite E in Hb. apply Forall_app in Hb as [Hb _].
    cbn [rev] in Hb. do 3 (apply Forall_app in Hb as [_ Hb]). apply Forall_cons in Hb as [_ Hb].
    apply Forall_app in Hb as [_ Hb]. by apply Forall_cons in Hb as [? _].
  - done.
  - by exists pad.
Qed.

Lemma load_short_split P lo hi F a s :
  stack s.1 = P ++ lo :: hi :: F -> Z.of_nat (length (stack s.1)) = STACK_SIZE -> is_u8 lo -> is_u8 hi ->
  a = stack_addr + Z.of_nat (length P) -> load_short stack_addr a s = Next (s16 (lo + 256 * hi)) s.
Proof.
  intros E Hl Hlo Hhi ->. unfold load_short, bind, ret.
  rewrite (load_split P lo (hi :: F)) by done.
  rewrite (load_split (P ++ [lo]) hi F); [by rewrite !u8_of_s8|by rewrite <- app_assoc|done|].
  rewrite length_app. cbn [length]. lia.
Qed.

Lemma store_short_split P lo hi F a x s :
  stack s.1 = P ++ lo :: hi :: F -> Z.of_nat (length (stack s.1)) = STACK_SIZE ->
  a = stack_addr + Z.of_nat (length P) ->
  store_short stack_addr a x s = Next tt (set_stack (P ++ u8 x :: u8 (x / 256) :: F) s.1, s.2).
Proof.
  intros E Hl ->. unfold store_short, bind. rewrite (store_split P lo (hi :: F)) by done.
  rewrite (store_split (P ++ [u8 x]) hi F).
  - cbn. by rewrite !u8_u8, <- app_assoc.
  - cbn. by rewrite !u8_u8, <- app_assoc.
  - cbn. rewrite E in Hl. clear -Hl. lens.
  - rewrite length_app. cbn [length]. lia.
Qed.

Lemma top_short_ok A pc g l hi lo o :
  triple A pc (mkData g l (hi :: lo :: o)) (TOP_SHORT stack_addr) (s16 (lo + 256 * hi)) pc
    (mkData g l (hi :: lo :: o)).
Proof.
  intros s Hs. exists s. split; [|done].
  destruct (at_operand2 _ _ _ _ _ _ _ _ Hs) as (P & F & E & Ht & Hlo & Hhi & _).
  unfold TOP_SHORT, bind, get. apply load_short_split with P F; [done|apply Hs|done|done|lia].
Qed.

Lemma drop2_ok A pc g l hi lo o :
  triple A pc (mkData g l (hi :: lo :: o)) (modify (fun v => set_stack_top (stack_top v - 2) v)) tt pc
    (mkData g l o).
Proof.
  apply triple_modify. intros s [(pad & F & E) Hl Hb Ht Hf Hi]. split; [|done].
  cbn [d_globals d_locals d_operands] in *. constructor; cbn; try done.
  - exists pad, (lo :: hi :: F). rewrite E. flat.
  - rewrite Ht. cbn [length]. lia.
Qed.

Lemma pop_short_ok A pc g l hi lo o :
  triple A pc (mkData g l (hi :: lo :: o)) (POP_SHORT stack_addr) (s16 (lo + 256 * hi)) pc (mkData g l o).
Proof.
  eapply triple_bind; [apply top_short_ok|]. eapply triple_bind; [apply drop2_ok|apply triple_ret].
Qed.

Lemma push_short_ok A pc g l o x :
  size A (mkData g l o) + 1 < STACK_SIZE ->
  triple A pc (mkData g l o) (PUSH_SHORT stack_addr x) tt pc (mkData g l (push16 x o)).
Proof.
  intros Hsz s Hs. destruct Hs as [(pad & F & E) Hl Hb Ht Hf Hi]. unfold size in Hsz.
  cbn [d_globals d_locals d_operands] in *.
  assert (exists y z F', F = y :: z :: F') as (y & z & F' & ->).
  { destruct F as [|y [|z F']]; [| |by exists y, z, F']; rewrite E in Hl; clear -Hl Hsz; lens. }
  set (P := g ++ A ++ l ++ pad :: rev o).
  assert (EP : stack s.1 = P ++ y :: z :: F') by (rewrite E; subst P; flat).
  assert (HP : stack_top s.1 + 1 = stack_addr + Z.of_nat (length P)).
  { rewrite Ht. subst P. rewrite !length_app. cbn [length]. rewrite length_rev. lia. }
  exists (set_stack (P ++ u8 x :: u8 (x / 256) :: F') (set_stack_top (stack_top s.1 + 2) s.1), s.2).
  split; [|split; [|done]].
  - unfold PUSH_SHORT, bind, modify, get. cbn [fst snd].
    rewrite (store_short_split P y z F'); [done..|]. cbn. lia.
  - constructor; cbn; try done.
    + exists pad, F'. subst P. unfold push16. flat.
    + rewrite EP in Hl. clear -Hl. lens.
    + rewrite EP in Hb. apply Forall_app in Hb as [Hb1 Hb2].
      apply Forall_cons in Hb2 as [_ Hb2]. apply Forall_cons in Hb2 as [_ Hb2].
      apply Forall_app_2; [done|]. repeat (constructor; [apply u8_range|]). done.
    + rewrite Ht. unfold push16. cbn [length]. lia.
Qed.

(** ** Globals and locals *)

Lemma load_at i b a s :
  stack s.1 !! i = Some b -> Z.of_nat (length (stack s.1)) = STACK_SIZE -> a = stack_addr + Z.of_nat i ->
  load_byte stack_addr a s = Next (s8 b) s.
Proof.
  intros E Hl ->. apply load_split with (take i (stack s.1)) (drop (S i) (stack s.1)); [|done|].
  - symmetry. by apply take_drop_middle.
  - apply lookup_lt_Some in E. rewrite length_take. lia.
Qed.

Lemma store_at i a x s :
  Z.of_nat i < STACK_SIZE -> a = stack_addr + Z.of_nat i ->
  store_byte stack_addr a x s = Next tt (set_stack (<[i := u8 x]> (stack s.1)) s.1, s.2).
Proof.
  intros Hi ->. unfold store_byte. replace (stack_addr + Z.of_nat i - stack_addr) with (Z.of_nat i) by lia.
  rewrite Nat2Z.id. case_if; [done|]. apply andb_false_iff in Heqb as [?|?]; bsplit; lia.
Qed.

Lemma get8_lookup i l x : get8 i l = Some x -> exists n b, i = Z.of_nat n /\ l !! n = Some b /\ x = s8 b.
Proof.
  unfold get8. case_if; [|done]. intros (b & Hb & ->)%fmap_Some. exists (Z.to_nat i), b.
  split; [lia|done].
Qed.

Lemma set8_insert i x l l' :
  set8 i x l = Some l' -> exists n, i = Z.of_nat n /\ (n < length l)%nat /\ l' = <[n := u8 x]> l.
Proof.
  unfold set8. case_if; [|done]. intros [= <-]. exists (Z.to_nat i). split; [lia|]. split; [lia|done].
Qed.

(** The index in the stack of byte [n] of the locals. *)
Lemma locals_at A pc g l o s n b :
  At A pc (mkData g l o) s -> l !! n = Some b -> stack s.1 !! (length (g ++ A) + n)%nat = Some b.
Proof.
  intros [(pad & F & E) _ _ _ _ _] Hn. cbn [d_globals d_locals d_operands] in E.
  rewrite E, app_assoc, lookup_app_r, Nat.add_comm, Nat.add_sub by lia.
  by apply lookup_app_l_Some.
Qed.

Lemma globals_at A pc g l o s n b :
  At A pc (mkData g l o) s -> g !! n = Some b -> stack s.1 !! n = Some b.
Proof.
  intros [(pad & F & E) _ _ _ _ _] Hn. cbn [d_globals d_locals d_operands] in E.
  rewrite E. by apply lookup_app_l_Some.
Qed.

Lemma gget_ok A pc g l o i x :
  get8 i g = Some x -> triple A pc (mkData g l o) (load_byte stack_addr (stack_addr + i)) x pc (mkData g l o).
Proof.
  intros (n & b & -> & Hn & ->)%get8_lookup s Hs. exists s. split; [|done].
  apply load_at with n; [by eapply globals_at|apply Hs|done].
Qed.

Lemma lget_ok A pc g l o i x :
  get8 i l = Some x ->
  triple A pc (mkData g l o) (load_byte stack_addr (stack_addr + Z.of_nat (length (g ++ A)) + i)) x pc
    (mkData g l o).
Proof.
  intros (n & b & -> & Hn & ->)%get8_lookup s Hs. exists s. split; [|done].
  apply load_at with (length (g ++ A) + n)%nat; [by eapply locals_at|apply Hs|lia].
Qed.

Lemma at_update A pc g l o g' l' s st :
  At A pc (mkData g l o) s -> length g' = length g -> length l' = length l ->
  (forall r, st (g ++ A ++ l ++ r) = g' ++ A ++ l' ++ r) ->
  length (st (stack s.1)) = length (stack s.1) -> Forall is_u8 (st (stack s.1)) ->
  At A pc (mkData g' l' o) (set_stack (st (stack s.1)) s.1, s.2).
Proof.
  intros [(pad & F & E) Hl Hb Ht Hf Hi] Hg Hl' Hst Hlen Hu. cbn [d_globals d_locals d_operands] in *.
  constructor; cbn; try done; rewrite ?length_app, ?Hg, ?Hl' in *; try done.
  - exists pad, F. by rewrite E.
  - by rewrite Hlen.
Qed.

Lemma gset_ok A pc g l o i x g' :
  set8 i x g = Some g' ->
  triple A pc (mkData g l o) (store_byte stack_addr (stack_addr + i) x) tt pc (mkData g' l o).
Proof.
  intros (n & -> & Hn & ->)%set8_insert s Hs.
  pose proof (at_bound _ _ _ _ Hs) as Hbd. cbn [d_globals d_locals d_operands] in Hbd.
  rewrite !length_app in Hbd. eexists. split; [by apply (store_at n); [lia|]|]. split; [|done].
  apply (at_update _ _ g l) with (st := insert n (u8 x)); [done|by rewrite length_insert|done| | |].
  - intros r. by rewrite insert_app_l.
  - by rewrite length_insert.
  - apply Forall_insert; [apply Hs|apply u8_range].
Qed.

Lemma lset_ok A pc g l o i x l' :
  set8 i x l = Some l' ->
  triple A pc (mkData g l o) (store_byte stack_addr (stack_addr + Z.of_nat (length (g ++ A)) + i) x) tt pc
    (mkData g l' o).
Proof.
  intros (n & -> & Hn & ->)%set8_insert s Hs.
  pose proof (at_bound _ _ _ _ Hs) as Hbd. cbn [d_globals d_locals d_operands] in Hbd.
  rewrite !length_app in Hbd. eexists. rewrite length_app. split.
  { apply (store_at (length g + length A + n)); lia. }
  split; [|done].
  apply (at_update _ _ g l) with (st := insert (length g + length A + n)%nat (u8 x));
    [done|done|by rewrite length_insert| | |].
  - intros r. rewrite !app_assoc, <- (app_assoc (g ++ A)), insert_app_r_alt by (rewrite length_app; lia).
    rewrite length_app. replace (length g + length A + n - (length g + length A))%nat with n by lia.
    by rewrite insert_app_l, !app_assoc.
  - by rewrite length_insert.
  - apply Forall_insert; [apply Hs|apply u8_range].
Qed.

Lemma load_short_ok A pc d a lo hi :
  triple A pc d (load_byte stack_addr a) lo pc d -> triple A pc d (load_byte stack_addr (a + 1)) hi pc d ->
  triple A pc d (load_short stack_addr a) (s16 (u8 lo + 256 * u8 hi)) pc d.
Proof.
  intros Hlo Hhi. eapply triple_bind; [exact Hlo|]. eapply triple_bind; [exact Hhi|]. apply triple_ret.
Qed.

Lemma get16_get8 i l x :
  get16 i l = Some x -> exists lo hi, get8 i l = Some lo /\ get8 (i + 1) l = Some hi /\ x = s16 (u8 lo + 256 * u8 hi).
Proof.
  unfold get16. intros (lo & E1 & (hi & E2 & [= <-])%bind_Some)%bind_Some. by exists lo, hi.
Qed.

Lemma set16_set8 i x l l' :
  set16 i x l = Some l' -> exists l1, set8 i (le16 x !!! 0%nat) l = Some l1 /\
    set8 (i + 1) (le16 x !!! 1%nat) l1 = Some l'.
Proof.
  unfold set16, set8, le16. cbn. rewrite !u8_u8. intros (l1 & E1 & E2)%bind_Some. by exists l1.
Qed.

Lemma gget16_ok A pc g l o i x :
  get16 i g = Some x -> triple A pc (mkData g l o) (load_short stack_addr (stack_addr + i)) x pc (mkData g l o).
Proof.
  intros (lo & hi & E1 & E2 & ->)%get16_get8. apply load_short_ok; [by apply gget_ok|].
  rewrite <- Z.add_assoc. by apply gget_ok.
Qed.

Lemma lget16_ok A pc g l o i x :
  get16 i l = Some x ->
  triple A pc (mkData g l o) (load_short stack_addr (stack_addr + Z.of_nat (length (g ++ A)) + i)) x pc
    (mkData g l o).
Proof.
  intros (lo & hi & E1 & E2 & ->)%get16_get8. apply load_short_ok; [by apply lget_ok|].
  rewrite <- Z.add_assoc. by apply lget_ok.
Qed.

Lemma gset16_ok A pc g l o i x g' :
  set16 i x g = Some g' ->
  triple A pc (mkData g l o) (store_short stack_addr (stack_addr + i) x) tt pc (mkData g' l o).
Proof.
  intros (g1 & E1 & E2)%set16_set8. eapply triple_bind; [by apply gset_ok|].
  rewrite <- Z.add_assoc. by apply gset_ok.
Qed.

Lemma lset16_ok A pc g l o i x l' :
  set16 i x l = Some l' ->
  triple A pc (mkData g l o) (store_short stack_addr (stack_addr + Z.of_nat (length (g ++ A)) + i) x) tt pc
    (mkData g l' o).
Proof.
  intros (l1 & E1 & E2)%set16_set8. eapply triple_bind; [by apply lset_ok|].
  rewrite <- Z.add_assoc. by apply lset_ok.
Qed.

Lemma local_ok A pc d i :
  triple A pc d (local i) (stack_addr + Z.of_nat (length (d_globals d ++ A)) + i) pc d.
Proof.
  intros s Hs. exists s. unfold local, bind, get, ret. by rewrite (at_frame _ _ _ _ Hs).
Qed.

(** ** Instructions that compute *)

(** [m] has the effect [e] on the data, if the result fits. *)
Definition computes (m : act unit) (e : data -> option data) : Prop :=
  forall A pc d d', e d = Some d' -> size A d' <= STACK_SIZE -> triple A pc d m tt pc d'.

Ltac case_data d := destruct d as [g l o]; cbn [d_globals d_locals d_operands] in *.

Lemma pop8_inv l x r : pop8 l = Some (x, r) -> exists b, l = b :: r /\ x = s8 b.
Proof. destruct l as [|b l]; [done|]. intros [= <- <-]. by exists b. Qed.
Lemma pop16_inv l x r : pop16 l = Some (x, r) -> exists hi lo, l = hi :: lo :: r /\ x = s16 (lo + 256 * hi).
Proof. destruct l as [|hi [|lo l]]; [done..|]. intros [= <- <-]. by exists hi, lo. Qed.

(** Takes the effect apart: pops of the operands and results of operations. *)
Ltac inv_effect :=
  repeat match goal with
  | H : (_ ≫= _) = Some _ |- _ => apply bind_Some in H as (? & ? & ?)
  | x : (Z * list Z)%type |- _ => destruct x
  | H : pop8 _ = Some _ |- _ => apply pop8_inv in H as (? & ? & ?)
  | H : pop16 _ = Some _ |- _ => apply pop16_inv in H as (? & ? & ? & ?)
  | H : Some _ = Some _ |- _ => injection H as ?
  end; subst.

(** Runs the next action with the lemma for it. *)
Ltac run lem := eapply triple_bind; [apply lem; try eassumption|].

Lemma bstore_ok i : computes (bstore stack_addr i) (store8 i).
Proof.
  intros A pc d d' E Hsz. case_data d. unfold store8 in E. cbn in E. inv_effect.
  run local_ok. run pop_byte_ok. by apply lset_ok.
Qed.
Lemma sstore_ok i : computes (sstore stack_addr i) (store16 i).
Proof.
  intros A pc d d' E Hsz. case_data d. unfold store16 in E. cbn in E. inv_effect.
  run pop_short_ok. run local_ok. by apply lset16_ok.
Qed.
Lemma gbstore_ok i : computes (gbstore stack_addr i) (gstore8 i).
Proof.
  intros A pc d d' E Hsz. case_data d. unfold gstore8 in E. cbn in E. inv_effect.
  run pop_byte_ok. by apply gset_ok.
Qed.
Lemma gsstore_ok i : computes (gsstore stack_addr i) (gstore16 i).
Proof.
  intros A pc d d' E Hsz. case_data d. unfold gstore16 in E. cbn in E. inv_effect.
  run pop_short_ok. by apply gset16_ok.
Qed.

Lemma size_cons A g l b o : size A (mkData g l (b :: o)) = size A (mkData g l o) + 1.
Proof. unfold size. cbn [d_globals d_locals d_operands length]. lia. Qed.

(** The bound on the result of an instruction gives room for its pushes. *)
Ltac room := unfold push8, push16 in *; rewrite ?size_cons in *; lia.
Ltac push := match goal with
  | |- triple _ _ _ (PUSH_BYTE _ _) _ _ _ => apply push_byte_ok; room
  | |- triple _ _ _ (PUSH_SHORT _ _) _ _ _ => apply push_short_ok; room
  end.

Lemma bload_ok i : computes (bload stack_addr i) (load8 i).
Proof.
  intros A pc d d' E Hsz. case_data d. unfold load8, on_operands in E. cbn in E. inv_effect.
  run local_ok. run lget_ok. push.
Qed.
Lemma sload_ok i : computes (sload stack_addr i) (load16 i).
Proof.
  intros A pc d d' E Hsz. case_data d. unfold load16, on_operands in E. cbn in E. inv_effect.
  run local_ok. run lget16_ok. push.
Qed.
Lemma gbload_ok i : computes (gbload stack_addr i) (gload8 i).
Proof.
  intros A pc d d' E Hsz. case_data d. unfold gload8, on_operands in E. cbn in E. inv_effect.
  run gget_ok. push.
Qed.
Lemma gsload_ok i : computes (gsload stack_addr i) (gload16 i).
Proof.
  intros A pc d d' E Hsz. case_data d. unfold gload16, on_operands in E. cbn in E. inv_effect.
  run gget16_ok. push.
Qed.

Lemma push_byte_computes x : computes (PUSH_BYTE stack_addr x) (const8 x).
Proof. intros A pc d d' E Hsz. case_data d. unfold const8, on_operands in E. cbn in E. inv_effect. push. Qed.
Lemma push_short_computes x : computes (PUSH_SHORT stack_addr x) (const16 x).
Proof. intros A pc d d' E Hsz. case_data d. unfold const16, on_operands in E. cbn in E. inv_effect. push. Qed.

Lemma match_some {A} A' pc d (r : option A) x (k : A -> act unit) pc' d' :
  r = Some x -> triple A' pc d (k x) tt pc' d' ->
  triple A' pc d (match r with Some r => k r | None => undefined end) tt pc' d'.
Proof. by intros ->. Qed.

(** The operations of the code compute those of the abstract machine. *)
Definition same_op (f g : Z -> Z -> option Z) : Prop := forall a b, f a b = g a b.

Lemma always_same f : same_op (total f) (always f).
Proof. done. Qed.
Lemma quot_quotient a b : b <> 0 -> Z.quot a b = quotient a b.
Proof. intros. by rewrite Z.quot_div. Qed.
Lemma divide_same : same_op divide division.
Proof.
  intros a b. unfold divide, division. case_bool_decide; destruct (Z.eqb_spec b 0); try done.
  by rewrite quot_quotient.
Qed.
Lemma modulo_same : same_op modulo remainder.
Proof.
  intros a b. unfold modulo, remainder. case_bool_decide; destruct (Z.eqb_spec b 0); try done.
  rewrite <- quot_quotient by done. f_equal. pose proof (Z.quot_rem' a b). lia.
Qed.
Lemma in_int_spec s : (0 <=? s) && (s <? 16) = bool_decide (0 <= s < 16).
Proof. case_bool_decide; bsplit; lia. Qed.
Lemma lshift_same : same_op lshift shift_left.
Proof.
  intros v s. unfold lshift, shift_left. rewrite in_int_spec. case_bool_decide; [|done]. by rewrite Z.shiftl_mul_pow2 by lia.
Qed.
Lemma rshift_same : same_op rshift shift_right.
Proof.
  intros v s. unfold rshift, shift_right. rewrite in_int_spec. case_bool_decide; [|done]. by rewrite Z.shiftr_div_pow2 by lia.
Qed.
Lemma three_way_compare a b : three_way a b = compare a b.
Proof. unfold three_way, compare. repeat case_if; lia. Qed.
Lemma compare_same : same_op (total compare) (always three_way).
Proof. intros a b. unfold total, always. by rewrite three_way_compare. Qed.
Lemma complement_is_not x : complement x = Z.lnot x.
Proof. unfold complement, Z.lnot. lia. Qed.

Ltac same :=
  first [apply always_same | apply divide_same | apply modulo_same | apply lshift_same | apply rshift_same
        | apply compare_same].

Lemma byte_op_ok f f' : same_op f f' -> computes (byte_op stack_addr f) (binary8 f').
Proof.
  intros Hfg A pc d d' E Hsz. case_data d. unfold binary8, on_operands in E. cbn in E. inv_effect.
  run pop_byte_ok. run pop_byte_ok. eapply match_some; [rewrite Hfg; eassumption|]. push.
Qed.
Lemma short_op_ok f f' : same_op f f' -> computes (short_op stack_addr f) (binary16 f').
Proof.
  intros Hfg A pc d d' E Hsz. case_data d. unfold binary16, on_operands in E. cbn in E. inv_effect.
  run pop_short_ok. run pop_short_ok. eapply match_some; [rewrite Hfg; eassumption|]. push.
Qed.
Lemma short_shift_ok f f' : same_op f f' -> computes (short_shift stack_addr f) (shift16 f').
Proof.
  intros Hfg A pc d d' E Hsz. case_data d. unfold shift16, on_operands in E. cbn in E. inv_effect.
  run pop_byte_ok. run pop_short_ok. eapply match_some; [rewrite Hfg; eassumption|]. push.
Qed.

Lemma swap_ok : computes (swap stack_addr) (effect SWAP 0).
Proof.
  intros A pc d d' E Hsz. case_data d. unfold effect, on_operands in E. cbn in E. inv_effect.
  rename x0 into y, x1 into x, l1 into o.
  intros s Hs. destruct (at_operand2 _ _ _ _ _ _ _ _ Hs) as (P & F & Es & Ht & Hy & Hx & pad & EP).
  destruct Hs as [_ Hl Hb Ht' Hf Hi]. unfold push8. rewrite !u8_of_s8 by done.
  exists (set_stack (P ++ x :: y :: F) s.1, s.2).
  split; [|split; [|done]].
  - unfold swap, bind, get. rewrite (load_split (P ++ [y]) x F); [|rewrite Es; flat|done|rewrite length_app; cbn; lia].
    rewrite (load_split P y (x :: F)); [|done..|lia].
    rewrite (store_split (P ++ [y]) x F); [|rewrite Es; flat|done|rewrite length_app; cbn; lia].
    rewrite (store_split P y (y :: F)); [by rewrite !u8_of_s8| | |lia].
    + cbn. rewrite u8_of_s8 by done. flat.
    + cbn. rewrite Es in Hl. clear -Hl. lens.
  - cbn [d_globals d_locals d_operands] in *. constructor; cbn; try done.
    + exists pad, F. subst P. flat.
    + rewrite Es in Hl. clear -Hl. lens.
    + rewrite Es in Hb. apply Forall_app in Hb as [Hb1 Hb2].
      apply Forall_cons in Hb2 as [? Hb2]. apply Forall_cons in Hb2 as [? Hb2].
      apply Forall_app_2; [done|]. constructor; [done|]. by constructor.
Qed.

(** ** Operands of instructions *)

Lemma next_instr_ok A pc d bs :
  storage_peek pc 1 eeprom = Some bs -> triple A pc d (NEXTINSTR eeprom) (bs !!! 0%nat) (next pc) d.
Proof.
  intros E s Hs. exists (set_ip (u16 (ip s.1 + 1)) s.1, s.2).
  unfold NEXTINSTR, READ_EEPROM, bind, get, modify, ret. rewrite (at_ip _ _ _ _ Hs), E.
  split; [done|]. split; [|done]. by destruct Hs.
Qed.

Lemma next_byte_ok A pc d n : byte_at eeprom pc n -> triple A pc d (NEXTBYTE eeprom) n (next pc) d.
Proof. intros (bs & E & ->). eapply triple_bind; [by apply next_instr_ok|apply triple_ret]. Qed.

Lemma next_short_ok A pc d n : short_at eeprom pc n -> triple A pc d (NEXTSHORT eeprom) n (u16 (pc + 2)) d.
Proof.
  intros (bs & E & ->) s Hs. exists (set_ip (u16 (ip s.1 + 2)) s.1, s.2).
  unfold NEXTSHORT, READ_EEPROM, bind, get, modify, ret. rewrite (at_ip _ _ _ _ Hs), E.
  cbn. rewrite (at_ip _ _ _ _ Hs). split; [done|]. split; [|done]. by destruct Hs.
Qed.

Lemma computes_at m e A pc d d' :
  computes m e -> e d = Some d' -> size A d' <= STACK_SIZE -> triple A pc d m tt pc d'.
Proof. auto. Qed.

(** The operations on operands alone. *)
Ltac on_top :=
  intros A pc d d' E Hsz; case_data d; cbn in E; unfold unary8, unary16, on_operands in E; cbn in E; inv_effect;
  repeat first [run pop_byte_ok | run pop_short_ok | run top_byte_ok | run top_short_ok];
  first [push | apply triple_ret].

Lemma not8_ok : computes (x <- POP_BYTE stack_addr;; PUSH_BYTE stack_addr (Z.lnot x)) (unary8 complement).
Proof.
  intros A pc d d' E Hsz; case_data d; unfold unary8, on_operands in E; cbn [d_operands] in E; inv_effect.
  run pop_byte_ok. rewrite complement_is_not in *. push.
Qed.
Lemma not16_ok : computes (x <- POP_SHORT stack_addr;; PUSH_SHORT stack_addr (Z.lnot x)) (unary16 complement).
Proof.
  intros A pc d d' E Hsz; case_data d; unfold unary16, on_operands in E; cbn [d_operands] in E; inv_effect.
  run pop_short_ok. rewrite complement_is_not in *. push.
Qed.
Lemma dup_ok : computes (x <- TOP_BYTE stack_addr;; PUSH_BYTE stack_addr x) (effect DUP 0).
Proof. on_top. Qed.
Lemma dup2_ok : computes (x <- TOP_SHORT stack_addr;; PUSH_SHORT stack_addr x) (effect DUP2 0).
Proof. on_top. Qed.
Lemma pop_ok : computes (_ <- POP_BYTE stack_addr;; ret tt) (effect POP 0).
Proof. on_top. Qed.
Lemma pop2_ok : computes (_ <- POP_BYTE stack_addr;; _ <- POP_BYTE stack_addr;; ret tt) (effect POP2 0).
Proof. on_top. Qed.
Lemma scmp_ok :
  computes (b <- POP_SHORT stack_addr;; a <- POP_SHORT stack_addr;; PUSH_BYTE stack_addr (compare a b))
    (effect SCMP 0).
Proof.
  intros A pc d d' E Hsz; case_data d; cbn [effect] in E; unfold on_operands in E; cbn [d_operands] in E; inv_effect.
  run pop_short_ok. run pop_short_ok. rewrite three_way_compare in *. push.
Qed.
Lemma b2s_ok : computes (b <- POP_BYTE stack_addr;; PUSH_SHORT stack_addr b) (effect B2S 0).
Proof. on_top. Qed.
Lemma s2b_ok : computes (s <- POP_SHORT stack_addr;; PUSH_BYTE stack_addr (s8 s)) (effect S2B 0).
Proof.
  assert (Hp : forall x, push8 x = push8 (s8 x)) by (intros x; unfold push8; by rewrite u8_s8).
  intros A pc d d' E Hsz; case_data d; cbn [effect] in E; unfold on_operands in E; cbn [d_operands] in E.
  inv_effect. cbn in *. run pop_short_ok. rewrite Hp in *. push.
Qed.

(** Every instruction that computes. *)
Lemma effect_ok env i n A pc d d' :
  operand_at eeprom (operand_size i) pc n -> effect i n d = Some d' -> size A d' <= STACK_SIZE ->
  0 <= pc < 65536 ->
  triple A pc d (vm_exec eeprom stack_addr env i) tt (u16 (pc + Z.of_nat (operand_size i))) d'.
Proof.
  intros Hop He Hsz Hpc. assert (Hpc0 : u16 (pc + Z.of_nat 0) = pc)
    by (cbn; rewrite Z.add_0_r; by apply u16_small).
  destruct i; try discriminate He; cbn [operand_size] in Hop |- *; cbn [vm_exec];
    first
    [ run next_byte_ok; eapply computes_at; [|exact He|done];
      first [apply bstore_ok | apply sstore_ok | apply bload_ok | apply sload_ok | apply gbstore_ok
            | apply gsstore_ok | apply gbload_ok | apply gsload_ok | apply push_byte_computes]
    | run next_short_ok; eapply computes_at; [apply push_short_computes|exact He|done]
    | rewrite Hpc0; eapply computes_at; [|exact He|done];
      first [apply bstore_ok | apply sstore_ok | apply bload_ok | apply sload_ok | apply push_byte_computes
             | apply push_short_computes | apply byte_op_ok; same | apply short_op_ok; same | apply short_shift_ok; same
             | apply swap_ok | apply not8_ok | apply not16_ok | apply dup_ok | apply dup2_ok | apply pop_ok
             | apply pop2_ok | apply scmp_ok | apply b2s_ok | apply s2b_ok]
    | cbn in He; injection He as <-; rewrite Hpc0; apply triple_ret].
Qed.

(** ** Jumps *)

Lemma set_ip_ok A pc d f :
  triple A pc d (modify (fun v => set_ip (f (ip v)) v)) tt (f pc) d.
Proof.
  apply triple_modify. intros s []. split; [|done]. constructor; cbn; try done. by subst.
Qed.

Lemma goto_ok A pc d n :
  short_at eeprom pc n -> triple A pc d (goto eeprom) tt (u16 (u16 (pc + 2) + (n - 3))) d.
Proof. intros Hn. run next_short_ok. apply (set_ip_ok _ _ _ (fun i => u16 (i + (n - 3)))). Qed.

Lemma if_goto_ok A pc g l b o i n :
  short_at eeprom pc n ->
  triple A pc (mkData g l (b :: o)) (if_goto eeprom stack_addr i) tt
    (if vm_if_check i (s8 b) then u16 (u16 (pc + 2) + (n - 3)) else u16 (pc + 2)) (mkData g l o).
Proof.
  intros Hn. run pop_byte_ok. cbv beta. destruct (vm_if_check i (s8 b)); cbn [negb].
  - by apply goto_ok.
  - apply (set_ip_ok _ _ _ (fun i => u16 (i + 2))).
Qed.

Lemma read_ok A pc d n a bs :
  storage_peek a n eeprom = Some bs -> triple A pc d (READ_EEPROM eeprom n a) bs pc d.
Proof. intros E s Hs. exists s. unfold READ_EEPROM. by rewrite E. Qed.

Lemma pop_args_ok A pc g l args o acc :
  triple A pc (mkData g l (rev args ++ o)) (pop_args stack_addr (length args) acc) (map s8 args ++ acc) pc
    (mkData g l o).
Proof.
  revert acc. induction args as [|x args IH] using rev_ind; intros acc; [apply triple_ret|].
  rewrite rev_app_distr, length_app, Nat.add_comm. cbn [rev app length Nat.add pop_args].
  run pop_byte_ok. rewrite map_app, <- app_assoc. apply IH.
Qed.

(** ** Frames

    [pointers gl f cs A]: [A] is what [gl] bytes of globals and the locals of
    [f] enclose: the frames of the callers [cs] and the pointers of [f]'s
    frame.  The saved stack pointer of the main method is never used. *)
Inductive pointers (gl : nat) (f : frame) : list frame -> list Z -> Prop :=
  | pointers_main rs :
      return_to f = 0 -> length rs = 2%nat -> pointers gl f [] ([0; 0] ++ rs ++ [0; 0])
  | pointers_called c cs A pad :
      pointers gl c cs A -> is_u16 (return_to f) -> return_to f <> 0 ->
      let B := A ++ locals c ++ pad :: rev (operands c) in
      pointers gl f (c :: cs)
        (B ++ le16 (return_to f) ++ le16 (stack_addr + Z.of_nat (gl + length B) - 1)
           ++ le16 (stack_addr + Z.of_nat (gl + length A) - LOCALS)).

Lemma pointers_ext gl f f' cs A : return_to f = return_to f' -> pointers gl f cs A -> pointers gl f' cs A.
Proof.
  intros E Hp. destruct Hp; rewrite E in *; [by apply pointers_main|by apply pointers_called].
Qed.

Lemma pointers_length gl f cs A :
  pointers gl f cs A -> Z.of_nat (length A) = LOCALS + foldr Z.add 0 (map frame_size cs).
Proof.
  induction 1 as [f rs _ Hrs|f c cs A pad _ IH _ _ B].
  - cbn. rewrite length_app, Hrs. done.
  - subst B. cbn [map foldr]. unfold frame_size at 1, le16. lens.
Qed.

Lemma sizes_nonneg cs : 0 <= foldr Z.add 0 (map frame_size cs).
Proof. induction cs as [|c cs IH]; cbn; [done|]. unfold frame_size at 1. lia. Qed.

(** The first of the pointers is where to go on. *)
Lemma pointers_return gl f cs A :
  pointers gl f cs A -> is_u16 (return_to f) ->
  exists A0 lo hi r4, A = A0 ++ lo :: hi :: r4 /\ length r4 = 4%nat /\ is_u8 lo /\ is_u8 hi /\
    return_to f = lo + 256 * hi.
Proof.
  intros Hp Hr. destruct Hp as [rs E Hrs|c cs A pad Hp _ _ B].
  - exists [], 0, 0, (rs ++ [0; 0]). rewrite length_app, Hrs, E. unfold is_u8. split_and!; done || lia.
  - eexists B, _, _, _. split; [reflexivity|]. split; [done|].
    split; [apply u8_range|]. split; [apply u8_range|]. unfold is_u16, u8 in *. dlia.
Qed.

(** ** Calls *)

Lemma store_bytes_ok bs : forall P X F a s,
  stack s.1 = P ++ X ++ F -> length X = length bs -> Z.of_nat (length (stack s.1)) = STACK_SIZE ->
  a = stack_addr + Z.of_nat (length P) ->
  store_bytes stack_addr a bs s = Next tt (set_stack (P ++ map u8 bs ++ F) s.1, s.2).
Proof.
  induction bs as [|b bs IH]; intros P X F a s E HX Hl Ha; destruct X as [|x X]; try discriminate HX.
  - cbn [store_bytes map app] in *. unfold ret. rewrite <- E. destruct s as [[] ?]. done.
  - cbn [store_bytes map]. unfold bind. rewrite (store_split P x (X ++ F)) by done.
    rewrite (IH (P ++ [u8 b]) X F); [cbn; flat|cbn; flat|by injection HX|..].
    + cbn. rewrite E in Hl. clear -Hl. lens.
    + rewrite length_app. cbn [length]. lia.
Qed.

Lemma enter_ok m args Q X F (s : act_state) :
  stack s.1 = Q ++ X ++ F -> length X = (6 + length args)%nat ->
  Z.of_nat (length (stack s.1)) = STACK_SIZE -> stack_top s.1 + 1 = stack_addr + Z.of_nat (length Q) ->
  let nf := stack_top s.1 + 1 in
  enter_method stack_addr m args s =
    Next tt
      (set_ip (u16 (code s.1 + code_offset m))
        (set_stack_top (nf + (SIZEOF_STACK_FRAME + nlocals m - 1))
          (set_current_frame nf
            (set_stack (Q ++ le16 (ip s.1) ++ le16 (nf - 1) ++ le16 (current_frame s.1) ++ map u8 args ++ F) s.1))),
       s.2).
Proof.
  intros E HX Hl Ht nf. do 6 (destruct X as [|? X]; [discriminate HX|]).
  unfold enter_method, store_ptr. cbn [app] in E. unfold bind, modify, get. cbn [fst snd]. fold nf.
  cbn [ip set_stack_top].
  rewrite (store_short_split Q z z0 (z1 :: z2 :: z3 :: z4 :: X ++ F)); [|cbn; done..]. cbn [fst snd].
  rewrite (store_short_split (Q ++ le16 (ip s.1)) z1 z2 (z3 :: z4 :: X ++ F)); cbn [fst snd].
  - cbn [current_frame set_stack set_stack_top].
    rewrite (store_short_split (Q ++ le16 (ip s.1) ++ le16 (nf - 1)) z3 z4 (X ++ F)); cbn [fst snd].
    + rewrite (store_bytes_ok args (Q ++ le16 (ip s.1) ++ le16 (nf - 1) ++ le16 (current_frame s.1)) X F).
      * cbn [fst snd]. unfold le16. cbn. rewrite <- !app_assoc. cbn. done.
      * cbn. unfold le16. flat.
      * cbn in HX. lia.
      * cbn. rewrite E in Hl. clear -Hl. unfold le16. lens.
      * subst nf. unfold le16. rewrite !length_app. cbn [length stack_top set_stack_top]. lia.
    + cbn. unfold le16. flat.
    + cbn. rewrite E in Hl. clear -Hl. unfold le16. lens.
    + subst nf. unfold le16. rewrite !length_app. cbn [length stack_top set_stack_top]. lia.
  - cbn. unfold le16. flat.
  - cbn. rewrite E in Hl. clear -Hl. lens.
  - subst nf. unfold le16. rewrite !length_app. cbn [length stack_top set_stack_top]. lia.
Qed.

Lemma map_u8_s8 l : Forall is_u8 l -> map u8 (map s8 l) = l.
Proof. induction 1 as [|x l Hx _ IH]; [done|]. cbn [map]. by rewrite u8_of_s8, IH. Qed.

Lemma at_operands_u8 A pc d s : At A pc d s -> Forall is_u8 (d_operands d).
Proof.
  intros Hs. destruct (at_stack _ _ _ _ Hs) as (pad & F & E). pose proof (at_bytes _ _ _ _ Hs) as Hb.
  rewrite E in Hb. do 3 (apply Forall_app in Hb as [_ Hb]). apply Forall_cons in Hb as [_ Hb].
  apply Forall_app in Hb as [Hb _]. rewrite <- (rev_involutive (d_operands d)). by apply Forall_rev.
Qed.

Lemma le16_u8 v : Forall is_u8 (le16 v).
Proof. constructor; [apply u8_range|]. constructor; [apply u8_range|done]. Qed.

(** A new frame behind the operands: its first locals are the arguments, the
    other bytes are what was there. *)
Lemma enter_frame A pc g r l o cs m args s :
  At A pc (mkData g l o) s -> pointers (length g) (mkFrame r l o) cs A -> is_u16 (ip s.1) -> ip s.1 <> 0 ->
  Forall is_u8 args -> Z.of_nat (length args) <= nlocals m ->
  size A (mkData g l o) + SIZEOF_STACK_FRAME + nlocals m <= STACK_SIZE ->
  exists s' others A', enter_method stack_addr m (map s8 args) s = Next tt s' /\
    Z.of_nat (length (args ++ others)) = nlocals m /\ Forall is_u8 others /\
    pointers (length g) (mkFrame pc (args ++ others) []) (mkFrame r l o :: cs) A' /\
    At A' (u16 (code s.1 + code_offset m)) (mkData g (args ++ others) []) s' /\ rest s' = rest s.
Proof.
  intros [(pad & F & E) Hl Hb Ht Hf Hi] Hp Hip Hip0 Hargs Hn Hsz. cbn [d_globals d_locals d_operands] in *.
  set (B := A ++ l ++ pad :: rev o).
  assert (EB : stack s.1 = (g ++ B) ++ F) by (rewrite E; subst B; flat).
  assert (Hsz' : Z.of_nat (length (g ++ B)) + SIZEOF_STACK_FRAME + nlocals m <= STACK_SIZE).
  { subst B. unfold size in Hsz. cbn [d_globals d_locals d_operands] in Hsz. clear -Hsz. lens. }
  assert (HF : Z.of_nat (length (g ++ B)) + Z.of_nat (length F) = STACK_SIZE).
  { rewrite EB in Hl. clear -Hl. lens. }
  set (k := Z.to_nat (nlocals m - Z.of_nat (length args))).
  assert (exists X others y F2, F = X ++ others ++ y :: F2 /\ length X = (6 + length args)%nat /\ length others = k)
    as (X & others & y & F2 & EF & HX & Hk).
  { set (F1 := drop (6 + length args) F). set (F3 := drop k F1).
    assert (HF3 : (0 < length F3)%nat) by (subst F3 F1 k; rewrite !length_drop; lia).
    destruct F3 as [|y F2] eqn:E3; [cbn in HF3; lia|].
    exists (take (6 + length args) F), (take k F1), y, F2. split_and!.
    - rewrite <- E3. subst F3 F1. by rewrite !take_drop.
    - rewrite length_take. lia.
    - subst F1. rewrite length_take, length_drop. lia. }
  assert (HB : length B = (length A + length l + 1 + length o)%nat).
  { subst B. rewrite !length_app. cbn [length]. rewrite length_rev. lia. }
  assert (Htop : stack_top s.1 + 1 = stack_addr + Z.of_nat (length (g ++ B))).
  { rewrite Ht, !length_app, HB. lia. }
  pose proof (enter_ok m (map s8 args) (g ++ B) X (others ++ y :: F2) s) as Hen.
  cbv zeta in Hen. rewrite map_u8_s8, length_map, Z.add_simpl_r, EB, EF in Hen by done.
  specialize (Hen ltac:(done) HX). rewrite <- EF, <- EB in Hen. specialize (Hen Hl Htop).
  rewrite Htop in Hen.
  set (A' := B ++ le16 (ip s.1) ++ le16 (stack_top s.1) ++ le16 (current_frame s.1)) in *.
  assert (HA' : length A' = (length B + 6)%nat) by (subst A'; unfold le16; rewrite !length_app; cbn; lia).
  eexists _, others, A'. split; [exact Hen|]. split; [|split; [|split; [|split; [|done]]]].
  - rewrite length_app, Hk. lia.
  - rewrite EB, EF in Hb. apply Forall_app in Hb as [_ Hb]. apply Forall_app in Hb as [_ Hb].
    by apply Forall_app in Hb as [Hb _].
  - subst A'. replace (stack_top s.1) with (stack_addr + Z.of_nat (length g + length B) - 1)
      by (rewrite length_app in Htop; lia).
    replace (current_frame s.1) with (stack_addr + Z.of_nat (length g + length A) - LOCALS)
      by (rewrite length_app in Hf; lia).
    rewrite Hi in *. by apply (pointers_called (length g) (mkFrame pc (args ++ others) []) (mkFrame r l o)).
  - constructor; cbn [d_globals d_locals d_operands fst stack stack_top current_frame ip set_ip
      set_stack_top set_current_frame set_stack]; try done.
    + exists y, F2. subst A'. rewrite <- !app_assoc. done.
    + rewrite EB, EF in Hl. clear -Hl HX. unfold le16. lens.
    + rewrite EB, EF in Hb. apply Forall_app in Hb as [Hb1 Hb]. apply Forall_app in Hb as [_ Hb].
      by repeat (apply Forall_app_2; [done || apply le16_u8|]).
    + cbn [length]. rewrite !length_app, HA', Hk. lia.
    + rewrite !length_app, HA'. lia.
Qed.

(** ** Returns *)

Lemma of_le16_le16 v : is_u16 v -> u8 v + 256 * u8 (v / 256) = v.
Proof. unfold is_u16, u8. intros. dlia. Qed.

Lemma load_ptr_split P lo hi F a s :
  stack s.1 = P ++ lo :: hi :: F -> Z.of_nat (length (stack s.1)) = STACK_SIZE -> is_u8 lo -> is_u8 hi ->
  a = stack_addr + Z.of_nat (length P) -> load_ptr stack_addr a s = Next (lo + 256 * hi) s.
Proof.
  intros E Hl Hlo Hhi Ha. unfold load_ptr, bind. rewrite (load_short_split P lo hi F) by done.
  unfold ret. rewrite u16_s16, u16_small; [done|]. unfold is_u8, is_u16 in *. lia.
Qed.

Lemma load_le16 P v F a s :
  stack s.1 = P ++ le16 v ++ F -> Z.of_nat (length (stack s.1)) = STACK_SIZE -> is_u16 v ->
  a = stack_addr + Z.of_nat (length P) -> load_ptr stack_addr a s = Next v s.
Proof.
  intros E Hl Hv Ha. rewrite (load_ptr_split P (u8 v) (u8 (v / 256)) F), of_le16_le16; try done; apply u8_range.
Qed.

Context (stack_addr_ok : 0 < stack_addr /\ stack_addr + STACK_SIZE <= 65536).

Lemma return_ok A pc g l o f c cs s :
  At A pc (mkData g l o) s -> pointers (length g) f (c :: cs) A ->
  exists s' A', vm_do_return stack_addr s = Next tt s' /\ pointers (length g) c cs A' /\
    At A' (return_to f) (mkData g (locals c) (operands c)) s' /\ rest s' = rest s.
Proof.
  intros Hs Hp. inversion Hp as [|? ? A' pad Hp' Hr Hr0 B]; subst. fold B in Hs, Hp.
  pose proof (at_bound _ _ _ _ Hs) as Hbd.
  destruct Hs as [(pad1 & F & E) Hl Hb Ht Hf Hi]. cbn [d_globals d_locals d_operands] in *.
  assert (HB : length B = (length A' + length (locals c) + 1 + length (operands c))%nat).
  { subst B. rewrite !length_app. cbn [length]. rewrite length_rev. lia. }
  set (rs := stack_addr + Z.of_nat (length g + length B) - 1) in *.
  set (prev := stack_addr + Z.of_nat (length g + length A') - LOCALS) in *.
  set (F1 := l ++ pad1 :: rev o ++ F) in *.
  assert (E1 : stack s.1 = (g ++ B) ++ le16 (return_to f) ++ le16 rs ++ le16 prev ++ F1) by (rewrite E; flat).
  rewrite length_app in Hf. unfold le16 in Hf. rewrite !length_app in Hf, Hbd. cbn [length] in Hf, Hbd.
  pose proof (pointers_length _ _ _ _ Hp') as HA.
  assert (Hf' : current_frame s.1 = stack_addr + Z.of_nat (length (g ++ B))) by (rewrite length_app; lia).
  exists (set_current_frame prev (set_ip (return_to f) (set_stack_top rs s.1)), s.2), A'.
  split; [|split; [done|split; [|done]]].
  - unfold vm_do_return, bind, get, modify.
    rewrite (load_le16 ((g ++ B) ++ le16 (return_to f)) rs (le16 prev ++ F1)); cbn [fst snd];
      [|rewrite E1; flat|done|unfold is_u16; lia|rewrite length_app; cbn [length le16]; lia].
    rewrite (load_le16 (g ++ B) (return_to f) (le16 rs ++ le16 prev ++ F1)); [|done..]. cbn [fst snd].
    rewrite (load_le16 ((g ++ B) ++ le16 (return_to f) ++ le16 rs) prev F1); [done|cbn; rewrite E1; flat|done|..].
    + pose proof (sizes_nonneg cs). unfold is_u16. lia.
    + rewrite !length_app. cbn [length le16]. cbn. lia.
  - constructor; cbn [d_globals d_locals d_operands fst stack stack_top current_frame ip set_ip
      set_stack_top set_current_frame set_stack]; try done.
    + exists pad, (le16 (return_to f) ++ le16 rs ++ le16 prev ++ F1). rewrite E1. subst B. flat.
    + rewrite !length_app. lia.
    + rewrite length_app. lia.
Qed.

Lemma or_stop_ok A pc g l o f c cs k s :
  At A pc (mkData g l o) s -> pointers (length g) f (c :: cs) A -> or_stop stack_addr k s = k s.
Proof.
  intros Hs Hp. inversion Hp as [|? ? A' pad Hp' Hr Hr0 B]; subst. fold B in Hs.
  destruct Hs as [(pad1 & F & E) Hl Hb Ht Hf Hi]. cbn [d_globals d_locals d_operands] in *.
  unfold or_stop, bind, get.
  match type of Hf with context [B ++ le16 (return_to f) ++ ?r] =>
    rewrite (load_le16 (g ++ B) (return_to f) (r ++ l ++ pad1 :: rev o ++ F)) end;
    [|rewrite E; flat|done|done|rewrite !length_app in *; unfold le16 in Hf; cbn [length] in Hf; lia].
  case_if; [lia|done].
Qed.

(** ** The refinement *)

Record represents (a : amachine) (v : vmstate) : Prop := mkRepresents {
  r_state : state v = VMRUNNING;
  r_frames : exists A, pointers (length (globals a)) (this a) (callers a) A /\
    At A (a_ip a) (mkData (globals a) (locals (this a)) (operands (this a))) (v, [])
}.

Lemma asize_size g f cs A pc :
  pointers (length g) f cs A -> asize (mkA pc g f cs) = size A (mkData g (locals f) (operands f)).
Proof.
  intros Hp%pointers_length. unfold asize, size. cbn [globals this callers map foldr d_globals d_locals d_operands].
  unfold frame_size at 1. rewrite !length_app. lia.
Qed.

(** A running machine whose frames fit fetches and executes. *)
(** The code of an instruction is decoded to it. *)
Lemma bytecode_of_opcode i : bytecode_of (opcode i) = Some i.
Proof. by destruct i. Qed.

Lemma instr_at_decoded a i :
  instr_at eeprom a i -> exists bs, storage_peek a 1 eeprom = Some bs /\ bytecode_of (bs !!! 0%nat) = Some i.
Proof. intros (bs & E & Hi). exists bs. by rewrite Hi, bytecode_of_opcode. Qed.

Lemma method_at_record program id m :
  method_at eeprom program id m ->
  exists bs, storage_peek (u16 (program + METHODS + SIZEOF_METHOD * id)) 4 eeprom = Some bs /\ m = method_of bs.
Proof. done. Qed.

(** The condition of a jump. *)
Lemma jumps_check i x : is_if i = true -> vm_if_check i x = true <-> jumps i x.
Proof.
  intros Hi. split.
  - destruct i; try discriminate Hi; cbn; intros E; bsplit; subst; constructor; lia.
  - intros []; cbn; lia.
Qed.
Lemma jumps_is_if i x : jumps i x -> is_if i = true.
Proof. by intros []. Qed.

Lemma step_fetches env v A pc d bs :
  state v = VMRUNNING -> At A pc d (v, []) -> size A d < STACK_SIZE -> storage_peek pc 1 eeprom = Some bs ->
  exists s, At A (next pc) d s /\ rest s = rest (v, []) /\
    vm_step eeprom stack_addr env v =
      match match bytecode_of (bs !!! 0%nat) with Some i => vm_exec eeprom stack_addr env i s | None => Next tt s end with
      | Next _ s | Returned s => Some s
      | Undefined => None
      end.
Proof.
  intros Hv Hs Hsz Hbs. destruct (next_instr_ok _ _ _ _ Hbs _ Hs) as (s & E & Hs' & Hr).
  exists s. split; [done|]. split; [done|]. unfold vm_step, vm_step_act, vm_waiting.
  unfold bind at 1 2, get at 1 2. cbn [fst]. rewrite Hv. cbn [running negb].
  pose proof (at_top _ _ _ _ Hs) as Ht. cbn [fst] in Ht. unfold size in Hsz.
  case_if; [lia|]. unfold bind at 1, bind at 1, get at 1. cbn [fst]. rewrite Hv. unfold ret at 1.
  unfold bind at 1. rewrite E. by destruct (bytecode_of (bs !!! 0%nat)).
Qed.

Lemma jump_exec env i : is_if i = true -> vm_exec eeprom stack_addr env i = if_goto eeprom stack_addr i.
Proof. by destruct i. Qed.

Lemma jump_ok env A pc g l b o i n :
  short_at eeprom pc n -> jumps i (s8 b) ->
  triple A pc (mkData g l (b :: o)) (vm_exec eeprom stack_addr env i) tt (u16 (u16 (pc + 2) + (n - 3))) (mkData g l o).
Proof.
  intros Hn Hj. pose proof (jumps_is_if _ _ Hj) as Hi. rewrite (jump_exec _ _ Hi).
  pose proof (if_goto_ok A pc g l b o i n Hn) as H. by rewrite (proj2 (jumps_check _ _ Hi) Hj) in H.
Qed.

Lemma no_jump_ok env A pc g l b o i n :
  short_at eeprom pc n -> is_if i = true -> ~ jumps i (s8 b) ->
  triple A pc (mkData g l (b :: o)) (vm_exec eeprom stack_addr env i) tt (u16 (pc + 2)) (mkData g l o).
Proof.
  intros Hn Hi Hj. rewrite (jump_exec _ _ Hi).
  pose proof (if_goto_ok A pc g l b o i n Hn) as H.
  destruct (vm_if_check i (s8 b)) eqn:E; [|done]. by apply (jumps_check _ _ Hi) in E.
Qed.

(** What a step of the abstract machine from [a] to [a'] leaves to show. *)
Definition steps_to (env : vm_env) (v : vmstate) (a' : amachine) : Prop :=
  exists v', vm_step eeprom stack_addr env v = Some (v', []) /\ represents a' v' /\ rest (v', []) = rest (v, []).

Lemma steps_to_intro env v s s' i (bs : list Z) A' ip' g' f' cs' :
  state v = VMRUNNING -> rest s = rest (v, []) -> bytecode_of (bs !!! 0%nat) = Some i ->
  vm_step eeprom stack_addr env v =
      match match bytecode_of (bs !!! 0%nat) with Some i => vm_exec eeprom stack_addr env i s | None => Next tt s end with
      | Next _ s | Returned s => Some s
      | Undefined => None
      end ->
  vm_exec eeprom stack_addr env i s = Next tt s' -> rest s' = rest s ->
  pointers (length g') f' cs' A' -> At A' ip' (mkData g' (locals f') (operands f')) s' ->
  steps_to env v (mkA ip' g' f' cs').
Proof.
  intros Hv Hr Hi Hstep He Hr' Hp Hs. rewrite Hi, He in Hstep. destruct s' as [v' bz'].
  rewrite Hr in Hr'. assert (bz' = []) as -> by (injection Hr'; done).
  exists v'. split; [done|]. split; [|done]. constructor; [|by exists A'].
  assert (E : state v' = state v) by (by injection Hr'). by rewrite E.
Qed.

(** A step within the frame. *)
Lemma frame_step env v A pc g r l o cs i pc' g' l' o' :
  represents (mkA pc g (mkFrame r l o) cs) v -> asize (mkA pc g (mkFrame r l o) cs) < STACK_SIZE ->
  pointers (length g) (mkFrame r l o) cs A -> At A pc (mkData g l o) (v, []) -> instr_at eeprom pc i ->
  length g' = length g ->
  triple A (next pc) (mkData g l o) (vm_exec eeprom stack_addr env i) tt pc' (mkData g' l' o') ->
  steps_to env v (mkA pc' g' (mkFrame r l' o') cs).
Proof.
  intros Hrep Hsz Hp Hs (bs & Hbs & Hi)%instr_at_decoded Hg Ht. destruct Hrep as [Hv _].
  rewrite (asize_size _ _ _ A) in Hsz by done.
  destruct (step_fetches env v A pc _ bs Hv Hs Hsz Hbs) as (s & Hs1 & Hr & Hstep).
  destruct (Ht s Hs1) as (s' & He & Hs' & Hr').
  eapply steps_to_intro with (A' := A); try eassumption. rewrite Hg. by apply (pointers_ext _ (mkFrame r l o)).
Qed.

Lemma set8_length i x l l' : set8 i x l = Some l' -> length l' = length l.
Proof. intros (n & _ & _ & ->)%set8_insert. apply length_insert. Qed.
Lemma set16_length i x l l' : set16 i x l = Some l' -> length l' = length l.
Proof. intros (l1 & E1%set8_length & E2%set8_length)%set16_set8. congruence. Qed.

(** No instruction changes the sizes of the globals and of the locals. *)
Lemma effect_lengths i n g l o g' l' o' :
  effect i n (mkData g l o) = Some (mkData g' l' o') -> length g' = length g /\ length l' = length l.
Proof.
  assert (Hop : forall f d, on_operands f (mkData g l o) = Some d -> d_globals d = g /\ d_locals d = l).
  { unfold on_operands. intros f d (x & _ & [= <-])%bind_Some. done. }
  assert (Hg : forall d, d_globals d = g /\ d_locals d = l -> d = mkData g' l' o' -> length g' = length g /\ length l' = length l).
  { intros d [<- <-] ->. done. }
  intros E. destruct i; try discriminate E; cbn [effect] in E;
    first
    [ injection E as <- <- <-; done
    | eapply Hg; [eapply Hop; exact E|done]
    | unfold load8, load16, gload8, gload16 in E; cbn [d_globals d_locals] in E; apply bind_Some in E as (? & _ & E);
      eapply Hg; [eapply Hop; exact E|done]
    | unfold store8, store16, gstore8, gstore16 in E; cbn in E; inv_effect;
      solve [split; eauto using set8_length, set16_length] ].
Qed.

(** A call pushes a frame. *)
Lemma call_step env v A pc g r l o cs args others n m :
  represents (mkA pc g (mkFrame r l (rev args ++ o)) cs) v ->
  asize (mkA pc g (mkFrame r l (rev args ++ o)) cs) < STACK_SIZE ->
  asize (mkA 0 g (mkFrame 0 (args ++ others) []) (mkFrame r l o :: cs)) <= STACK_SIZE ->
  pointers (length g) (mkFrame r l (rev args ++ o)) cs A -> At A pc (mkData g l (rev args ++ o)) (v, []) ->
  instr_at eeprom pc CALL -> byte_at eeprom (next pc) n -> method_at eeprom (program v) n m ->
  Z.of_nat (length args) = nargs m -> Z.of_nat (length (args ++ others)) = nlocals m -> next (next pc) <> 0 ->
  exists others', Z.of_nat (length (args ++ others')) = nlocals m /\ Forall is_u8 others' /\
    steps_to env v (mkA (u16 (code v + code_offset m)) g (mkFrame (next (next pc)) (args ++ others') [])
                      (mkFrame r l o :: cs)).
Proof.
  intros Hrep Hsz Hsz' Hp Hs (bs & Hbs & Hi)%instr_at_decoded Hn (mbs & Hm & ->)%method_at_record Hargs Hloc Hnz. destruct Hrep as [Hv _].
  rewrite (asize_size _ _ _ A) in Hsz by done. cbn [locals operands] in Hsz.
  destruct (step_fetches env v A pc _ bs Hv Hs Hsz Hbs) as (s & Hs1 & Hr & Hstep).
  destruct (next_byte_ok _ _ _ _ Hn s Hs1) as (s1 & E1 & Hs2 & R1).
  assert (Hprog : program s1.1 = program v).
  { transitivity (program s.1); [by injection R1|by injection Hr]. }
  assert (Hcode : code s1.1 = code v).
  { transitivity (code s.1); [by injection R1|by injection Hr]. }
  destruct (read_ok A (next (next pc)) _ 4 _ mbs Hm s1 Hs2) as (s2 & E2 & Hs3 & R2).
  destruct (pop_args_ok _ _ _ _ args o [] s2 Hs3) as (s3 & E3 & Hs4 & R3). rewrite app_nil_r in E3.
  assert (Hs2u : Forall is_u8 args).
  { pose proof (at_operands_u8 _ _ _ _ Hs) as Hu. cbn [d_operands] in Hu. apply Forall_app in Hu as [Hu _].
    rewrite <- (rev_involutive args). by apply Forall_rev. }
  assert (Hip : ip s3.1 = next (next pc)) by apply Hs4.
  assert (Hfit : size A (mkData g l o) + SIZEOF_STACK_FRAME + nlocals (method_of mbs) <= STACK_SIZE).
  { revert Hsz'. unfold asize, size. cbn [globals this callers map foldr d_globals d_locals d_operands].
    pose proof (pointers_length _ _ _ _ Hp). unfold frame_size. cbn [locals operands]. rewrite <- Hloc. clear -H.
    rewrite !length_app. cbn [length]. fold frame_size. lia. }
  assert (Hp3 : pointers (length g) (mkFrame r l o) cs A) by (by apply (pointers_ext _ (mkFrame r l (rev args ++ o)))).
  destruct (enter_frame _ _ _ _ _ _ _ (method_of mbs) args s3 Hs4 Hp3) as (s4 & others' & A' & E4 & Hl4 & Hu4 & Hp4 & Hs5 & R4);
    [rewrite Hip; apply u16_range|by rewrite Hip|done|rewrite <- Hloc, length_app; lia|done|].
  exists others'. split; [done|]. split; [done|].
  assert (Hcode3 : code s3.1 = code v).
  { rewrite <- Hcode. transitivity (code s2.1); [by injection R3|by injection R2]. }
  rewrite Hcode3 in Hs5.
  eapply steps_to_intro with (i := CALL) (s := s) (s' := s4) (A' := A'); try eassumption; [|congruence].
  cbn [vm_exec]. unfold vm_call. unfold bind at 1. rewrite E1. unfold bind at 1, get at 1.
  rewrite Hprog. unfold bind at 1. rewrite E2. unfold bind at 1. rewrite <- Hargs, Nat2Z.id, E3. exact E4.
Qed.

(** A return pops a frame; [before] takes the result and [after] leaves it to the caller. *)
Lemma return_step {X} env v A pc g r l o o' c cs i (before : act X) (after : X -> act unit) x oc :
  represents (mkA pc g (mkFrame r l o) (c :: cs)) v -> asize (mkA pc g (mkFrame r l o) (c :: cs)) < STACK_SIZE ->
  pointers (length g) (mkFrame r l o) (c :: cs) A -> At A pc (mkData g l o) (v, []) -> instr_at eeprom pc i ->
  (forall s, vm_exec eeprom stack_addr env i s =
     or_stop stack_addr (x <- before;; vm_do_return stack_addr;;; after x) s) ->
  triple A (next pc) (mkData g l o) before x (next pc) (mkData g l o') ->
  (forall A', pointers (length g) c cs A' ->
     triple A' r (mkData g (locals c) (operands c)) (after x) tt r (mkData g (locals c) oc)) ->
  steps_to env v (mkA r g (with_operands oc c) cs).
Proof.
  intros Hrep Hsz Hp Hs (bs & Hbs & Hi)%instr_at_decoded Hex Hbefore Hafter. destruct Hrep as [Hv _].
  rewrite (asize_size _ _ _ A) in Hsz by done.
  destruct (step_fetches env v A pc _ bs Hv Hs Hsz Hbs) as (s & Hs1 & Hr & Hstep).
  destruct (Hbefore s Hs1) as (s1 & E1 & Hs2 & R1).
  destruct (return_ok _ _ _ _ _ _ _ _ _ Hs2 Hp) as (s2 & A' & E2 & Hp' & Hs3 & R2). cbn [return_to] in Hs3.
  destruct (Hafter A' Hp' s2 Hs3) as (s3 & E3 & Hs4 & R3).
  eapply steps_to_intro with (i := i) (s := s) (s' := s3) (A' := A'); try eassumption.
  - rewrite Hex. erewrite or_stop_ok by eassumption. unfold bind. by rewrite E1, E2, E3.
  - congruence.
  - by apply (pointers_ext _ c).
Qed.

Lemma caller_fits g c cs A' pc oc :
  asize (mkA pc g (with_operands oc c) cs) <= STACK_SIZE -> pointers (length g) c cs A' ->
  size A' (mkData g (locals c) oc) <= STACK_SIZE.
Proof.
  intros Hsz Hp. rewrite (asize_size _ _ _ A') in Hsz; [done|]. by apply (pointers_ext _ c).
Qed.

Lemma ret_is_return env s :
  vm_exec eeprom stack_addr env RET s =
  or_stop stack_addr (x <- ret tt;; vm_do_return stack_addr;;; ret x) s.
Proof.
  cbn [vm_exec]. unfold or_stop, bind, get, ret. destruct (load_ptr stack_addr (current_frame s.1) s); [|done..].
  case_if; [done|]. by destruct (vm_do_return stack_addr s0) as [[] ?| |].
Qed.

(** The step of the abstract machine that the interpreter takes instead of the given one. *)
Lemma step_represented env a v a0 :
  represents a v -> astep eeprom (program v) (code v) a a0 -> asize a < STACK_SIZE -> asize a0 <= STACK_SIZE ->
  exists a', astep eeprom (program v) (code v) a a' /\ steps_to env v a'.
Proof.
  intros Hrep Hst Hsz Hsz0. pose proof Hrep as [_ (A & Hp & Hs)].
  destruct Hst as [pc g r l o cs i n g' l' o' Hi Hn He|pc g [r l o] cs n Hi Hn|pc g r l o o' cs i x n Hi Hn Hx Hj
    |pc g r l o o' cs i x n Hi Hif Hn Hx Hj    |pc g r l args o cs n m others Hi Hn Hm Hna Hnl Hu Hnz|pc g r l o c cs Hi Hr|pc g r l o o' x c cs Hi Hr Hx
    |pc g r l o o' x c cs Hi Hr Hx]; cbn [a_ip globals this callers locals operands] in *.
  - destruct (effect_lengths _ _ _ _ _ _ _ _ He) as [Hg Hl].
    eexists. split; [by eapply step_effect|]. eapply frame_step; try eassumption.
    apply effect_ok with n; [done..| |apply u16_range].
    rewrite (asize_size _ _ _ A) in Hsz0; [done|]. rewrite Hg. by apply (pointers_ext _ (mkFrame r l o)).
  - eexists. split; [by eapply step_goto|]. eapply frame_step; try eassumption; [done|]. by apply goto_ok.
  - eexists. split; [by eapply step_jump|]. apply pop8_inv in Hx as (b & -> & ->).
    eapply frame_step; try eassumption; [done|]. by apply jump_ok.
  - eexists. split; [by eapply step_no_jump|]. apply pop8_inv in Hx as (b & -> & ->).
    eapply frame_step; try eassumption; [done|]. by apply no_jump_ok with n.
  - destruct (call_step env v A pc g r l o cs args others n m) as (others' & Hl' & Hu' & Hst); try assumption.
    eexists. split; [|exact Hst]. by eapply step_call.
  - eexists. split; [by eapply step_ret|]. destruct c as [rc lc oc].
    change (mkFrame rc lc oc) with (with_operands oc (mkFrame rc lc oc)).
    eapply return_step; try eassumption; [apply ret_is_return|apply triple_ret|]. intros. apply triple_ret.
  - eexists. split; [by eapply step_bret|]. apply pop8_inv in Hx as (b & -> & ->).
    eapply return_step; try eassumption; [done|apply pop_byte_ok|]. intros A' Hp'. cbn beta.
    apply caller_fits with (A' := A') in Hsz0; [|done]. push.
  - eexists. split; [by eapply step_sret|]. apply pop16_inv in Hx as (hi & lo & -> & ->).
    eapply return_step; try eassumption; [done|apply pop_short_ok|]. intros A' Hp'. cbn beta.
    apply caller_fits with (A' := A') in Hsz0; [|done]. push.
Qed.

(** *** Stopping *)

(** The machine is about to stop: a return from the main method or an exit. *)
Inductive stops : amachine -> Prop :=
  | stops_exit a : instr_at eeprom (a_ip a) VMEXIT -> stops a
  | stops_return a i :
      instr_at eeprom (a_ip a) i -> i = RET \/ i = BRET \/ i = SRET -> callers a = [] -> stops a.

Lemma main_stops A pc g l o f k s :
  At A pc (mkData g l o) s -> pointers (length g) f [] A ->
  or_stop stack_addr k s = Returned (set_state VMSTOPPED s.1, s.2).
Proof.
  intros Hs Hp. inversion Hp as [rs Hr Hrs|]; subst.
  destruct Hs as [(pad1 & F & E) Hl Hb Ht Hf Hi]. cbn [d_globals d_locals d_operands] in *.
  unfold or_stop, bind, get.
  rewrite (load_ptr_split g 0 0 (rs ++ [0; 0] ++ l ++ pad1 :: rev o ++ F)); [done|rewrite E; flat|done|done|done|].
  rewrite !length_app in Hf. cbn [length app] in Hf. rewrite ?length_app, Hrs in Hf. cbn [length] in Hf. lia.
Qed.

Lemma stop_represented env a v :
  represents a v -> stops a -> asize a < STACK_SIZE ->
  exists v', vm_step eeprom stack_addr env v = Some (v', []) /\ state v' = VMSTOPPED.
Proof.
  intros Hrep Hstop Hsz. pose proof Hrep as [Hv (A & Hp & Hs)]. destruct a as [pc g f cs].
  rewrite (asize_size _ _ _ A) in Hsz by done. cbn [a_ip globals this callers] in *.
  assert (exists i, instr_at eeprom pc i /\ forall s, At A (next pc) (mkData g (locals f) (operands f)) s ->
    vm_exec eeprom stack_addr env i s = Returned (set_state VMSTOPPED s.1, s.2)) as (i & (bs & Hbs & Hi)%instr_at_decoded & Hex).
  { inversion Hstop as [? Hi|? i Hi Hret Hmain]; subst; cbn [a_ip callers] in *.
    - by exists VMEXIT.
    - subst cs. exists i. split; [done|]. intros s Hs'.
      destruct Hret as [->|[->| ->]]; cbn [vm_exec]; by eapply main_stops. }
  destruct (step_fetches env v A pc _ bs Hv Hs Hsz Hbs) as (s & Hs1 & Hr & Hstep).
  rewrite Hi, (Hex s Hs1) in Hstep. exists (set_state VMSTOPPED s.1).
  assert (s.2 = []) as E by (by injection Hr). rewrite E in Hstep. done.
Qed.

(** *** Runs *)

Fixpoint vm_run (env : nat -> vm_env) (n : nat) (v : vmstate) : option vmstate :=
  match n with
  | O => Some v
  | S n =>
      if running (state v) then
        match vm_step eeprom stack_addr (env n) v with
        | Some (v, _) => vm_run env n v
        | None => None
        end
      else Some v
  end.

(** Every machine reachable from [a] fits into the stack and can go on or stops. *)
Definition safe (p c : Z) (a : amachine) : Prop := forall a', rtc (astep eeprom p c) a a' ->
  asize a' < STACK_SIZE /\ (stops a' \/ exists a'', astep eeprom p c a' a'').

Lemma run_represented env n : forall a v,
  represents a v -> safe (program v) (code v) a ->
  exists v', vm_run env n v = Some v' /\
    (state v' = VMSTOPPED \/ exists a', rtc (astep eeprom (program v) (code v)) a a' /\ represents a' v').
Proof.
  induction n as [|n IH]; intros a v Hrep Hsafe.
  - exists v. split; [done|]. right. by exists a.
  - cbn [vm_run]. rewrite (r_state _ _ Hrep). cbn [running].
    destruct (Hsafe a) as [Hsz [Hstop|[a0 Hst]]]; [done| |].
    + destruct (stop_represented (env n) a v Hrep Hstop Hsz) as (v' & -> & Hv').
      exists v'. split; [|by left]. destruct n; cbn [vm_run]; [done|]. by rewrite Hv'.
    + destruct (Hsafe a0) as [Hsz0 _]; [by apply rtc_once|].
      destruct (step_represented (env n) a v a0 Hrep Hst Hsz) as (a' & Hst' & v' & -> & Hrep' & Hr); [lia|].
      assert (Ep : program v' = program v) by (by injection Hr).
      assert (Ec : code v' = code v) by (by injection Hr).
      destruct (IH a' v' Hrep') as (v2 & Hrun & Hres).
      * rewrite Ep, Ec. intros a2 H2. apply Hsafe. by eapply rtc_l.
      * exists v2. split; [done|]. destruct Hres as [?|(a2 & H2 & Hrep2)]; [by left|right].
        rewrite Ep, Ec in H2. exists a2. split; [by eapply rtc_l|done].
Qed.

(** *** Starting *)

Lemma split_at (n : nat) (l : list Z) : (n <= length l)%nat -> exists a b, l = a ++ b /\ length a = n.
Proof.
  intros Hn. exists (take n l), (drop n l). split; [by rewrite take_drop|]. rewrite length_take. lia.
Qed.

Lemma start_represented lkey v bs :
  state v = VMSTOPPED \/ state v = VMCRASHED -> storage_peek (program v) 6 eeprom = Some bs ->
  Z.of_nat (length (stack v)) = STACK_SIZE -> Forall is_u8 (stack v) ->
  let main := method_of (drop 2 bs) in
  0 <= bs !!! 0%nat -> 0 <= nlocals main ->
  bs !!! 0%nat + SIZEOF_STACK_FRAME + nlocals main <= STACK_SIZE ->
  exists v' others, vm_start_vm eeprom storage_errno stack_addr lkey v = Next 0 (v', []) /\
    Z.of_nat (length others) = nlocals main /\ trigger_lkey v' = lkey /\
    represents (mkA (u16 (code v + code_offset main)) (take (Z.to_nat (bs !!! 0%nat)) (stack v))
                  (mkFrame 0 others []) []) v'.
Proof.
  intros Hst Hbs Hl Hu main Hng Hnl Hfit.
  destruct (split_at (Z.to_nat (bs !!! 0%nat)) (stack v)) as (g & R & E & Hg); [lia|].
  destruct (split_at 6 R) as (hd & R2 & E2 & Hhd); [rewrite E, length_app in Hl; lia|].
  destruct (split_at (Z.to_nat (nlocals main)) R2) as (others & R3 & E3 & Ho);
    [rewrite E, E2, !length_app in Hl; lia|].
  destruct R3 as [|y F]; [rewrite E, E2, E3, !length_app in Hl; cbn in Hl; lia|]. subst R R2.
  do 6 (destruct hd as [|? hd]; [discriminate Hhd|]). destruct hd; [|discriminate Hhd].
  exists (set_stack_top (stack_addr + bs !!! 0%nat + SIZEOF_STACK_FRAME + (nlocals main - 1))
    (set_stack (g ++ [0; 0] ++ [z1; z2] ++ [0; 0] ++ others ++ y :: F)
      (set_current_frame (stack_addr + bs !!! 0%nat) (set_ip (u16 (code v + code_offset main))
        (set_trigger_lkey lkey (set_state VMRUNNING v)))))), others.
  split; [|split; [lia|split; [done|]]].
  - unfold vm_start_vm. replace (negb _ && _) with true by (by destruct Hst as [->| ->]).
    cbn [program set_trigger_lkey set_state]. rewrite Hbs. fold main.
    unfold bind, modify, store_ptr. cbn [fst snd].
    rewrite (store_short_split g z z0 (z1 :: z2 :: z3 :: z4 :: others ++ y :: F));
      [|cbn; by rewrite E|cbn; done|lia]. cbn [fst snd].
    rewrite (store_short_split (g ++ [0; 0; z1; z2]) z3 z4 (others ++ y :: F));
      [|cbn; flat| |rewrite length_app; cbn [length]; lia].
    + unfold ret. cbn. by rewrite <- app_assoc.
    + cbn. rewrite E in Hl. clear -Hl. cbn in Hl. lens.
  - rewrite E, <- Hg, take_app_length. constructor; [done|]. cbn [globals this callers a_ip locals operands].
    exists ([0; 0] ++ [z1; z2] ++ [0; 0]). split; [by apply pointers_main|].
    constructor; cbn [d_globals d_locals d_operands fst stack stack_top current_frame ip set_stack_top set_stack
      set_current_frame set_ip set_trigger_lkey set_state]; try done.
    + exists y, F. flat.
    + rewrite E in Hl. clear -Hl. lens.
    + rewrite E in Hu. apply Forall_app in Hu as [Hu1 Hu2]. cbn [app] in *.
      assert (H0 : is_u8 0) by done.
      repeat match goal with F : Forall is_u8 (_ :: _) |- _ => apply Forall_cons in F as [? F] end.
      apply Forall_app_2; [done|]. by repeat (apply Forall_cons; split; [assumption|]).
    + rewrite !length_app. cbn [length]. lia.
    + cbn. rewrite length_app. cbn [length]. lia.
Qed.
End Layout.
