(* ===== verification/InterpreterProps.v ===== *)
(** * interpreter.c: the properties of the interpreter

    The refinement of the abstract machine, safe programs, starting, the stack
    check, and the calls that wait and report.  The witnesses run a program in
    an eeprom. *)

From stdpp Require Import relations.
From S2P Require Import Prelude Hid ExtraReport Storage Interpreter InterpreterSpec InterpreterProofs.

Section Props.
Context {M : Type} {St : Storage M}.

(** C12: The interpreter implements the byte code. If a running machine holds the frames of an
    abstract machine, and the abstract machine can make a step (compute, jump, call or return) and
    fits into the stack before and after it, then [vm_step] makes a step of the abstract machine:
    it is defined, its stack holds the frames of the machine after the step, and nothing else of
    the machine changes. The abstract machine has operations and conditions of its own. Where
    src/vm.txt and interpreter.c disagree it is that of the code: IFxx jumps if the comparison
    holds (vm.txt:55-60: if it does not), the right operand is on top (vm.txt:29-47: the left
    one), and short shifts pop a byte as the count (vm.txt:51: a short). *)
Theorem vm_step_refines (eeprom : M) stack_addr env a v a0 :
  0 < stack_addr /\ stack_addr + STACK_SIZE <= 65536 ->
  represents stack_addr a v -> astep eeprom (program v) (code v) a a0 ->
  asize a < STACK_SIZE -> asize a0 <= STACK_SIZE ->
  exists v' a', vm_step eeprom stack_addr env v = Some (v', []) /\
    astep eeprom (program v) (code v) a a' /\ represents stack_addr a' v' /\
    rest (v', []) = rest (v, []).
Proof.
  intros Ha Hrep Hst Hsz Hsz0.
  destruct (step_represented eeprom stack_addr Ha env a v a0 Hrep Hst Hsz Hsz0) as (a' & Hst' & v' & E & Hrep' & Hr).
  by exists v', a'.
Qed.

(** C13: Safe programs run safely. If every abstract machine reachable from the one a running
    machine holds leaves a byte of the stack free and can make a step or stops, then any number of
    calls of [vm_step], whatever the keys and the time, is defined and leads to a stopped machine
    or to one that holds a reachable abstract machine. *)
Theorem safe_programs_run (eeprom : M) stack_addr env n a v :
  0 < stack_addr /\ stack_addr + STACK_SIZE <= 65536 ->
  represents stack_addr a v -> safe eeprom (program v) (code v) a ->
  exists v', vm_run eeprom stack_addr env n v = Some v' /\
    (state v' = VMSTOPPED \/
     exists a', rtc (astep eeprom (program v) (code v)) a a' /\ represents stack_addr a' v').
Proof. intros Ha. by apply run_represented. Qed.

(** Starting. [vm_start_vm] refuses a machine that has no program or is running. On another one
    whose header can be read and whose main frame fits, it makes the machine hold the frame of the
    main method, at its first instruction, with the globals the stack held before. If the header
    cannot be read, the error is returned, but the machine is left running. *)
Theorem start_begins_main (eeprom : M) storage_errno stack_addr lkey v :
  0 < stack_addr /\ stack_addr + STACK_SIZE <= 65536 ->
  Z.of_nat (length (stack v)) = STACK_SIZE -> Forall is_u8 (stack v) ->
  (running (state v) = true \/ state v = VMNOPROGRAM ->
   vm_start_vm eeprom storage_errno stack_addr lkey v = Next 1 (v, [])) /\
  (state v = VMSTOPPED \/ state v = VMCRASHED ->
   match storage_peek (program v) 6 eeprom with
   | None => exists v', vm_start_vm eeprom storage_errno stack_addr lkey v = Next storage_errno (v', []) /\
               state v' = VMRUNNING /\ ip v' = ip v
   | Some bs =>
       let main := method_of (drop 2 bs) in
       0 <= bs !!! 0%nat -> 0 <= nlocals main ->
       bs !!! 0%nat + SIZEOF_STACK_FRAME + nlocals main <= STACK_SIZE ->
       exists v' others, vm_start_vm eeprom storage_errno stack_addr lkey v = Next 0 (v', []) /\
         Z.of_nat (length others) = nlocals main /\ trigger_lkey v' = lkey /\
         represents stack_addr
           (mkA (u16 (code v + code_offset main)) (take (Z.to_nat (bs !!! 0%nat)) (stack v))
              (mkFrame 0 others []) []) v'
   end).
Proof.
  intros Ha Hl Hu. split.
  - intros Hr. unfold vm_start_vm. destruct Hr as [->| ->]; done.
  - intros Hst. destruct (storage_peek (program v) 6 eeprom) as [bs|] eqn:E.
    + intros main Hg Hn Hfit. by apply start_represented.
    + unfold vm_start_vm. cbn [program set_trigger_lkey set_state]. rewrite E.
      exists (set_trigger_lkey lkey (set_state VMRUNNING v)). by destruct Hst as [->| ->].
Qed.

(** The stack check is one byte short. A machine whose frames fill the stack is stopped as
    crashed, but if just one byte is free the check passes, and an instruction that pushes a
    16-bit constant writes behind the array. *)
Theorem stack_check_misses_short (eeprom : M) stack_addr env a v i bs :
  represents stack_addr a v -> storage_peek (a_ip a) 1 eeprom = Some bs ->
  bytecode_of (bs !!! 0%nat) = Some i -> i = SCONST_0 \/ i = SCONST_1 \/ i = SCONST_2 \/ i = SCONST_3 ->
  (asize a = STACK_SIZE ->
   vm_step eeprom stack_addr env v = Some (set_state VMCRASHED v, [])) /\
  (asize a = STACK_SIZE - 1 -> vm_step eeprom stack_addr env v = None).
Proof.
  intros [Hv (A & Hp & Hs)] Hbs Hi Hc. destruct a as [pc g f cs]. cbn [a_ip globals this callers] in *.
  rewrite (asize_size stack_addr _ _ _ A) by done.
  split; intros Hsz.
  - unfold vm_step, vm_step_act, bind, get. cbn [fst]. rewrite Hv. cbn [running negb].
    pose proof (at_top _ _ _ _ _ Hs) as Ht. cbn [fst] in Ht. unfold size in Hsz. case_if; [done|lia].
  - destruct (step_fetches eeprom stack_addr env v A pc _ bs Hv Hs) as (s & Hs1 & _ & ->); [lia|done|].
    rewrite Hi. pose proof (at_top _ _ _ _ _ Hs1) as Ht. unfold size in Hsz.
    assert (Hov : forall x, PUSH_SHORT stack_addr x s = Undefined).
    { intros x. unfold PUSH_SHORT, bind, modify, get. cbn [fst snd]. unfold store_short, bind.
      unfold store_byte at 1. cbn [fst stack_top set_stack_top]. case_if; [|done].
      unfold store_byte at 1. case_if; [lia|done]. }
    destruct Hc as [->|[->|[->| ->]]]; cbn [vm_exec]; by rewrite Hov.
Qed.

(** *** Waiting *)

(** The machine [a] after an instruction without operands that leaves [o]. *)
Definition after (a : amachine) (o : list Z) : amachine :=
  mkA (next (a_ip a)) (globals a) (with_operands o (this a)) (callers a).

(** A running machine executes the instruction it is at. *)
Lemma step_executes (eeprom : M) stack_addr env a v i :
  represents stack_addr a v -> asize a < STACK_SIZE -> instr_at eeprom (a_ip a) i ->
  exists A s, pointers stack_addr (length (globals a)) (this a) (callers a) A /\
    At stack_addr A (next (a_ip a)) (mkData (globals a) (locals (this a)) (operands (this a))) s /\
    rest s = rest (v, []) /\
    vm_step eeprom stack_addr env v =
      match vm_exec eeprom stack_addr env i s with
      | Next _ s | Returned s => Some s
      | Undefined => None
      end.
Proof.
  intros [Hv (A & Hp & Hs)] Hsz (bs & Hbs & Hi)%instr_at_decoded. destruct a as [pc g f cs].
  rewrite (asize_size stack_addr _ _ _ A) in Hsz by done. cbn [a_ip globals this callers] in *.
  destruct (step_fetches eeprom stack_addr env v A pc _ bs Hv Hs Hsz Hbs) as (s & Hs1 & Hr & Hstep).
  exists A, s. rewrite Hi in Hstep. done.
Qed.

Lemma represents_after stack_addr a A o s :
  pointers stack_addr (length (globals a)) (this a) (callers a) A ->
  At stack_addr A (next (a_ip a)) (mkData (globals a) (locals (this a)) o) s -> state s.1 = VMRUNNING ->
  represents stack_addr (after a o) s.1.
Proof.
  intros Hp Hs Hv. constructor; [done|]. exists A. cbn. split; [by apply (pointers_ext _ _ (this a))|].
  by destruct Hs.
Qed.

(** Changes of the state of a machine that leave the stack alone. *)
Lemma at_device stack_addr A pc d s v :
  At stack_addr A pc d s -> stack v = stack s.1 -> stack_top v = stack_top s.1 ->
  current_frame v = current_frame s.1 -> ip v = ip s.1 -> At stack_addr A pc d (v, []).
Proof. intros [] E1 E2 E3 E4. constructor; cbn [fst]; rewrite ?E1, ?E2, ?E3, ?E4; done. Qed.

(** A machine that waits and whose stack has room does what [vm_waiting] says. *)
Lemma waiting_step (eeprom : M) stack_addr env A pc d s w bz :
  At stack_addr A pc d s -> size A d < STACK_SIZE -> stack_top w = stack_top s.1 -> running (state w) = true ->
  vm_waiting stack_addr env (w, []) = Returned bz -> vm_step eeprom stack_addr env w = Some bz.
Proof.
  intros Hs Hsz Et Hr Hw. unfold vm_step, vm_step_act, bind, get. cbn [fst]. rewrite Hr. cbn [negb].
  pose proof (at_top _ _ _ _ _ Hs) as Ht. unfold size in Hsz. rewrite Et. case_if; [lia|]. by rewrite Hw.
Qed.

(** Pressing and releasing keys. At a PRESSKEY or RELEASEKEY with a key on top of the operands,
    [vm_step] adds the key to or removes it from the machine's extra report and waits: further
    calls of [vm_step] do nothing. The next keyboard report gets the keys of the extra report, and
    the machine goes on behind the instruction, with the operand gone. *)
Theorem key_call_waits_for_report (eeprom : M) stack_addr env env' a v (press : bool) b o r :
  represents stack_addr a v -> asize a < STACK_SIZE -> operands (this a) = b :: o ->
  b < SPECIAL_HID_KEYS_START -> instr_at eeprom (a_ip a) (if press then PRESSKEY else RELEASEKEY) ->
  let keys := (if press then ExtraKeyboardReport_add else ExtraKeyboardReport_remove) (keyboardreport v) b in
  exists v', vm_step eeprom stack_addr env v = Some (v', []) /\ keyboardreport v' = keys /\
    vm_step eeprom stack_addr env' v' = Some (v', []) /\
    vm_append_KeyboardReport [v'] r = ([set_state VMRUNNING v'], ExtraKeyboardReport_append keys r) /\
    represents stack_addr (after a o) (set_state VMRUNNING v').
Proof.
  intros Hrep Hsz Ho Hb Hi keys.
  destruct (step_executes _ _ env _ _ _ Hrep Hsz Hi) as (A & s & Hp & Hs & Hr & ->). rewrite Ho in Hs.
  destruct (at_operand _ _ _ _ _ _ _ _ Hs) as (_ & _ & _ & _ & Hu & _).
  destruct (pop_byte_ok stack_addr _ _ _ _ _ _ s Hs) as (s1 & E1 & Hs1 & R1).
  pose proof (at_bound _ _ _ _ _ Hs) as Hbd. cbn [d_globals d_locals d_operands length] in Hbd.
  assert (Hk : keyboardreport s1.1 = keyboardreport v).
  { transitivity (keyboardreport s.1); [by injection R1|by injection Hr]. }
  assert (Hz : s1.2 = []). { transitivity s.2; [by injection R1|by injection Hr]. }
  exists (set_state VMWAITREPORT (set_keyboardreport keys s1.1)).
  split; [|split; [done|split; [|split; [done|]]]].
  - destruct press; cbn [vm_exec]; unfold press_key, release_key, bind; rewrite E1; rewrite u8_of_s8 by done;
      cbn [fst snd modify]; [case_if; [lia|]|]; unfold modify; cbn; by rewrite Hk, Hz.
  - eapply waiting_step; [exact Hs1| |done..]. unfold size. cbn [d_globals d_locals d_operands]. lia.
  - apply (represents_after _ _ A o (_, [])); [done| |done]. by eapply at_device; [exact Hs1|..].
Qed.

(** A waiting machine whose wait is over executes like the running machine. *)
Lemma delay_over (eeprom : M) stack_addr env v :
  state v = VMDELAY -> uptimems env > delay_end_ms v -> stack_top v <= stack_addr + (STACK_SIZE - 2) ->
  vm_step eeprom stack_addr env v = vm_step eeprom stack_addr env (set_state VMRUNNING (set_delay_end 0 v)).
Proof.
  intros Hv Ht Htop. unfold vm_step, vm_step_act, vm_waiting, bind, get. cbn [fst]. rewrite Hv.
  cbn [state stack_top set_state set_delay_end running negb].
  destruct (stack_top v >? _) eqn:E1; bsplit; [lia|].
  cbn [fst]. rewrite Hv. cbn [fst]. destruct (uptimems env >? delay_end_ms v) eqn:E; [done|bsplit; lia].
Qed.

(** Delays. At a DELAY with the operand [d], [vm_step] takes the operand and waits: as long as
    at most [max 0 d] milliseconds have passed, [vm_step] does nothing; after that it does what it
    does on the running machine behind the instruction. *)
Theorem delay_waits (eeprom : M) stack_addr env env' a v hi lo o :
  represents stack_addr a v -> asize a < STACK_SIZE -> operands (this a) = hi :: lo :: o ->
  instr_at eeprom (a_ip a) DELAY -> let d := s16 (lo + 256 * hi) in
  0 <= uptimems env -> uptimems env + Z.max 0 d < 4294967296 ->
  exists v', vm_step eeprom stack_addr env v = Some (v', []) /\
    let w := set_state VMRUNNING (set_delay_end 0 v') in
    represents stack_addr (after a o) w /\
    vm_step eeprom stack_addr env' v' =
      if uptimems env' <=? uptimems env + Z.max 0 d then Some (v', []) else vm_step eeprom stack_addr env' w.
Proof.
  intros Hrep Hsz Ho Hi d Ht Hd.
  destruct (step_executes _ _ env _ _ _ Hrep Hsz Hi) as (A & s & Hp & Hs & Hr & ->). rewrite Ho in Hs.
  destruct (pop_short_ok stack_addr _ _ _ _ _ _ _ s Hs) as (s1 & E1 & Hs1 & R1). fold d in E1.
  pose proof (at_bound _ _ _ _ _ Hs) as Hbd. cbn [d_globals d_locals d_operands length] in Hbd.
  assert (Hz : s1.2 = []). { transitivity s.2; [by injection R1|by injection Hr]. }
  exists (set_state VMDELAY (set_delay_end (uptimems env + Z.max 0 d) s1.1)).
  split; [|split].
  - cbn [vm_exec]. unfold delay_call, bind. rewrite E1. unfold modify. cbn. rewrite Hz.
    replace (if d <? 0 then 0 else d) with (Z.max 0 d) by (case_if; lia).
    unfold u32. rewrite Z.mod_small by lia. done.
  - apply (represents_after _ _ A o (_, [])); [done| |done]. by eapply at_device; [exact Hs1|..].
  - destruct (uptimems env' <=? _) eqn:E; bsplit.
    + eapply waiting_step; [exact Hs1| |done..|].
      * unfold size. cbn [d_globals d_locals d_operands]. lia.
      * unfold vm_waiting, bind, get. cbn. case_if; [lia|done].
    + pose proof (at_top _ _ _ _ _ Hs1) as Htop. cbn [d_globals d_locals d_operands] in Htop.
      rewrite delay_over; [done|done|cbn; lia|]. cbn [stack_top set_state set_delay_end]. lia.
Qed.

(** The WAITKEY instruction itself. *)
Lemma wait_key_call (eeprom : M) stack_addr env A pc g l hi lo k o s :
  At stack_addr A pc (mkData g l (hi :: lo :: k :: o)) s -> s.2 = [] -> let d := s16 (lo + 256 * hi) in
  0 <= uptimems env -> uptimems env + Z.max 0 d < 4294967296 ->
  exists v', vm_exec eeprom stack_addr env WAITKEY s = Next tt (v', []) /\
    At stack_addr A pc (mkData g l o) (v', []) /\ state v' = VMWAITKEY /\ wait_key v' = k /\
    delay_end_ms v' = if d <=? 0 then 0 else uptimems env + d.
Proof.
  intros Hs Hz d Ht Hd. set (s0 := (set_state VMWAITKEY s.1, s.2)).
  assert (Hs0 : At stack_addr A pc (mkData g l (hi :: lo :: k :: o)) s0) by (by destruct Hs).
  destruct (pop_short_ok stack_addr _ _ _ _ _ _ _ s0 Hs0) as (s1 & E1 & Hs1 & R1). fold d in E1.
  destruct (at_operand _ _ _ _ _ _ _ _ Hs1) as (_ & _ & _ & _ & Hk & _).
  destruct (pop_byte_ok stack_addr _ _ _ _ _ _ s1 Hs1) as (s2 & E2 & Hs2 & R2).
  assert (Hz2 : s2.2 = []). { transitivity s1.2; [by injection R2|]. transitivity s0.2; [by injection R1|done]. }
  assert (Hst : state s2.1 = VMWAITKEY). { transitivity (state s1.1); [by injection R2|by injection R1]. }
  exists (set_delay_end (if d <=? 0 then 0 else uptimems env + d) (set_wait_key k s2.1)).
  split; [|split; [by eapply at_device; [exact Hs2|..]|done]].
  cbn [vm_exec]. unfold wait, bind at 1, modify at 1. fold s0. unfold bind. rewrite E1, E2.
  unfold modify. cbn. rewrite Hz2, u8_of_s8 by done. do 4 f_equal.
  case_if; [done|]. unfold u32. by rewrite Z.mod_small by lia.
Qed.

(** A step of a machine that waits for a key. *)
Lemma wait_key_step (eeprom : M) stack_addr env A pc d v bz :
  At stack_addr A pc d (v, []) -> size A d < STACK_SIZE -> state v = VMWAITKEY ->
  let r := check_hid_key env (wait_key v) in
  (if negb (r =? NO_KEY) || timed_out env v
   then wait_over stack_addr (if negb (r =? NO_KEY) then r else 0) else ret tt) (v, []) = Next tt bz ->
  vm_step eeprom stack_addr env v = Some bz.
Proof.
  intros Hs Hsz Hv r Hbz. eapply waiting_step; [exact Hs|exact Hsz|done|by rewrite Hv|].
  unfold vm_waiting, bind at 1, get at 1. cbn [fst]. rewrite Hv. unfold bind at 1 2, get at 1 2. cbn [fst].
  fold r. unfold bind. by rewrite Hbz.
Qed.

(** Waiting for keys. At a WAITKEY with the time [d] and the key [k], [vm_step] takes the
    operands and waits. In that state [vm_step] asks for the key: without one it does nothing
    until, if [d] is positive, more than [d] milliseconds have passed; with a key, or then, it
    pushes the key that is held or 0, and the machine goes on. *)
Theorem wait_key_waits (eeprom : M) stack_addr env env' a v hi lo k o :
  represents stack_addr a v -> asize a < STACK_SIZE -> operands (this a) = hi :: lo :: k :: o ->
  instr_at eeprom (a_ip a) WAITKEY -> let d := s16 (lo + 256 * hi) in
  0 <= uptimems env -> uptimems env + Z.max 0 d < 4294967296 ->
  exists v', vm_step eeprom stack_addr env v = Some (v', []) /\ wait_key v' = k /\
    let r := check_hid_key env' k in
    if (r =? NO_KEY) && ((d <=? 0) || (uptimems env' <=? uptimems env + d))
    then vm_step eeprom stack_addr env' v' = Some (v', [])
    else exists w, vm_step eeprom stack_addr env' v' = Some (w, []) /\
           represents stack_addr (after a (push8 (if r =? NO_KEY then 0 else r) o)) w.
Proof.
  intros Hrep Hsz Ho Hi d Ht Hd.
  destruct (step_executes _ _ env _ _ _ Hrep Hsz Hi) as (A & s & Hp & Hs & Hr & ->). rewrite Ho in Hs.
  assert (Hz : s.2 = []) by (by injection Hr).
  destruct (wait_key_call eeprom stack_addr env _ _ _ _ _ _ _ _ s Hs Hz Ht Hd) as (v' & -> & Hs3 & Hst & Hk & He).
  fold d in He. pose proof (at_bound _ _ _ _ _ Hs) as Hbd. cbn [d_globals d_locals d_operands length] in Hbd.
  assert (Hsz' : size A (mkData (globals a) (locals (this a)) o) < STACK_SIZE)
    by (unfold size; cbn [d_globals d_locals d_operands]; lia).
  exists v'. split; [done|]. split; [done|]. intros r.
  assert (Hto : timed_out env' v' = negb ((d <=? 0) || (uptimems env' <=? uptimems env + d))).
  { unfold timed_out. rewrite He. destruct (d <=? 0) eqn:Ed; bsplit; [done|].
    destruct (uptimems env + d =? 0) eqn:E0; bsplit; [lia|]. cbn. rewrite Z.gtb_ltb. apply Z.ltb_antisym. }
  pose proof (fun bz => wait_key_step eeprom stack_addr env' _ _ _ _ bz Hs3 Hsz' Hst) as Hw.
  cbv zeta in Hw. rewrite Hk, Hto in Hw. fold r in Hw. destruct ((r =? NO_KEY) && _) eqn:E.
  - apply Hw. apply andb_true_iff in E as [-> ->]. done.
  - destruct (push_byte_ok stack_addr _ _ _ _ _ (if negb (r =? NO_KEY) then r else 0) Hsz' _ Hs3) as (s4 & E4 & Hs4 & R4).
    exists (set_state VMRUNNING (set_delay_end 0 s4.1)). split.
    + apply Hw. replace (negb (r =? NO_KEY) || _) with true
        by (apply andb_false_iff in E as [->| ->]; [done|by rewrite orb_true_r]).
      unfold wait_over, bind. rewrite E4. unfold modify. cbn.
      assert (s4.2 = []) as -> by (by injection R4). done.
    + replace (if r =? NO_KEY then 0 else r) with (if negb (r =? NO_KEY) then r else 0)
        by (by destruct (r =? NO_KEY)).
      apply (represents_after _ _ A _ (_, [])); [done| |done]. by eapply at_device; [exact Hs4|..].
Qed.
End Props.

(** ** Mouse reports *)

Definition clamp (x : Z) : Z := Z.max (-128) (Z.min 127 x).

Lemma addT_clamp x y : addT x y = clamp (x + y).
Proof.
  unfold addT, clamp. destruct (x + y >? 127) eqn:E1; bsplit; [lia|].
  destruct (x + y <? -128) eqn:E2; bsplit; [lia|]. rewrite s8_small; unfold is_s8; lia.
Qed.

(** What a machine is after its part of a mouse report. *)
Definition delivered (vm : vmstate) : vmstate :=
  if running (state vm) then
    set_mousereport (set_motion 0 0 (mousereport vm))
      (if bool_decide (state vm = VMWAITMOUSEREPORT) then set_state VMRUNNING vm else vm)
  else vm.

Definition moved (f : MouseReport_Data_t -> Z) (x : Z) (vm : vmstate) : Z :=
  if running (state vm) then clamp (x + f (mousereport vm)) else x.

Lemma append_mouse_fold vms : forall done r,
  fold_left append_mouse vms (done, r) =
  (done ++ map delivered vms,
   mkMouseReport
     (fold_left (fun b vm => if running (state vm) then u8 (Z.lor b (Button (mousereport vm))) else b) vms (Button r))
     (fold_left (moved X) vms (X r)) (fold_left (moved Y) vms (Y r)) (VWheel r) (HWheel r)).
Proof.
  induction vms as [|vm vms IH]; intros done r.
  - cbn. rewrite app_nil_r. by destruct r.
  - cbn [fold_left map]. unfold append_mouse at 2, moved at 2 4, delivered. destruct (running (state vm)); cbn [negb].
    + rewrite IH, <- app_assoc, !addT_clamp.
      by replace (mousereport (if bool_decide _ then _ else vm)) with (mousereport vm) by (by case_bool_decide).
    + by rewrite IH, <- app_assoc.
Qed.

Lemma delivered_idem vm : delivered (delivered vm) = delivered vm.
Proof. by destruct vm as [[]]. Qed.

Lemma no_motion_left f vms x :
  f = X \/ f = Y -> is_s8 x -> fold_left (moved f) (map delivered vms) x = x.
Proof.
  intros Hf Hx. induction vms as [|vm vms IH]; [done|]. cbn [map fold_left].
  assert (E : running (state (delivered vm)) = true -> f (mousereport (delivered vm)) = 0).
  { by destruct vm as [[]], Hf as [->| ->]. }
  unfold moved at 2. destruct (running (state (delivered vm))); [|done]. rewrite E by done.
  unfold clamp, is_s8 in *. by replace (Z.max (-128) (Z.min 127 (x + 0))) with x by lia.
Qed.

(** C36: Mouse reports of the machines. A mouse report gets the buttons of all running machines and
    the sum of their motions, each addition limited to the range of a signed byte instead of
    wrapping; the wheels are left alone. Every running machine's motion is taken into exactly this
    report: it is cleared, a machine that waited for the report goes on, and a second report gets
    the same buttons and no motion. *)
Theorem mouse_reports_saturate vms r r2 :
  let '(vms', r') := vm_append_MouseReport vms r in
  X r' = fold_left (moved X) vms (X r) /\ Y r' = fold_left (moved Y) vms (Y r) /\
  VWheel r' = VWheel r /\ HWheel r' = HWheel r /\
  (forall b, 0 <= b < 8 ->
     Z.testbit (Button r') b =
       Z.testbit (Button r) b || existsb (fun vm => running (state vm) && Z.testbit (Button (mousereport vm)) b) vms) /\
  vms' = map delivered vms /\
  let '(vms2, r2') := vm_append_MouseReport vms' r2 in
  vms2 = vms' /\ (is_s8 (X r2) -> is_s8 (Y r2) -> X r2' = X r2 /\ Y r2' = Y r2).
Proof.
  unfold vm_append_MouseReport. rewrite append_mouse_fold. cbn [X Y VWheel HWheel Button app].
  rewrite append_mouse_fold. cbn [X Y app].
  split; [done|]. split; [done|]. split; [done|]. split; [done|]. split; [|split; [done|split]].
  - intros b Hb. generalize (Button r). induction vms as [|vm vms IH]; intros x; cbn [fold_left existsb].
    + by rewrite orb_false_r.
    + rewrite IH. destruct (running (state vm)); cbn [andb]; [|done]. rewrite orb_assoc. f_equal.
      unfold u8. change 256 with (2 ^ 8). by rewrite Z.mod_pow2_bits_low, Z.lor_spec by lia.
  - rewrite map_map. apply map_ext, delivered_idem.
  - intros Hx Hy. split; apply no_motion_left; auto.
Qed.

Lemma mouse_reports_saturate_witness :
  let vm x := set_mousereport (mkMouseReport 1 x 0 0 0) (set_state VMWAITMOUSEREPORT zero_vm) in
  X (vm_append_MouseReport [vm 100; vm 50] (mkMouseReport 4 0 0 0 0)).2 = 127.
Proof.
  intros vm. pose proof (mouse_reports_saturate [vm 100; vm 50] (mkMouseReport 4 0 0 0 0) empty_mouse_report) as H.
  destruct (vm_append_MouseReport [vm 100; vm 50] (mkMouseReport 4 0 0 0 0)) as [vms r]. exact (proj1 H).
Defined.

(** ** A program in an eeprom

    The main method has one local and adds 5 and 7 with a call of the second
    method, stores the sum and returns.  There is one global. *)

Definition sum_program : list Z :=
  [1; 2; 0; 1; 0; 0; 2; 2; 8; 0;
   24; 5; 24; 7; 82; 1; 1; 85;
   11; 12; 48; 83].

(** Programs are at address 16, with their code behind the two method headers. *)
Definition eeprom_with (bytes : list Z) : mem := fun a =>
  if (16 <=? a) && (a <? 16 + Z.of_nat (length bytes)) then bytes !!! Z.to_nat (a - 16) else 0xff.

Definition env0 : vm_env := mkEnv (fun _ => false) (fun _ => NO_KEY) 1000.

(** A machine with the stack [1000, 1096) at address [pc]; [f] is the address of its frame. *)
Definition machine_at (pc f top : Z) (bytes : list Z) : vmstate :=
  mkVM VMRUNNING 0 0 9 ExtraKeyboardReport_clear empty_mouse_report 16 26 pc top f
    (bytes ++ replicate (96 - length bytes) 0).

(** One global 42, the main frame with the local 3 and the operands [o]. *)
Definition main_frame (o : list Z) : list Z := [42] ++ ([0; 0] ++ [9; 9] ++ [0; 0]) ++ [3; 0] ++ rev o.
Definition main_at (pc : Z) (o : list Z) : vmstate :=
  machine_at pc 1001 (1008 + Z.of_nat (length o)) (main_frame o).

Lemma main_represents pc o :
  Forall is_u8 o -> (length o < 88)%nat ->
  represents 1000 (mkA pc [42] (mkFrame 0 [3] o) []) (main_at pc o).
Proof.
  intros Ho Hl. constructor; [done|]. exists ([0; 0] ++ [9; 9] ++ [0; 0]).
  split; [by apply pointers_main|]. cbn [globals this callers a_ip locals operands]. constructor; cbn [fst]; try done.
  - exists 0, (replicate (96 - length (main_frame o)) 0). done.
  - cbn. rewrite !length_app, length_rev, length_replicate. lia.
  - cbn. repeat (apply Forall_cons; split; [done|]). apply Forall_app; split; [by apply Forall_rev|].
    by apply Forall_replicate.
  - cbn. lia.
Qed.

Lemma vm_step_refines_witness :
  let v := main_at 30 [7; 5] in
  exists v' a', vm_step (eeprom_with sum_program) 1000 env0 v = Some (v', []) /\
    astep (eeprom_with sum_program) 16 26 (mkA 30 [42] (mkFrame 0 [3] [7; 5]) []) a' /\
    represents 1000 a' v' /\ rest (v', []) = rest (v, []).
Proof.
  intros v.
  assert (Hrep : represents 1000 (mkA 30 [42] (mkFrame 0 [3] [7; 5]) []) v)
    by (apply main_represents; [repeat (constructor; [done|]); done|cbn; lia]).
  assert (Hst : astep (eeprom_with sum_program) 16 26 (mkA 30 [42] (mkFrame 0 [3] [7; 5]) [])
                  (mkA (u16 (26 + 8)) [42] (mkFrame 32 [5; 7] []) [mkFrame 0 [3] []])).
  { apply (step_call (eeprom_with sum_program) 16 26 30 [42] 0 [3] [5; 7] [] [] 1 (mkMethod 2 2 8) []); try done.
    - by exists [82].
    - by exists [1].
    - by exists [2; 2; 8; 0]. }
  exact (vm_step_refines (eeprom_with sum_program) 1000 env0 _ v _ ltac:(lia) Hrep Hst ltac:(done) ltac:(done)).
Defined.

(** A program that counts in a local for ever: five instructions, the last jumps back. *)
Definition count_program : list Z := [0; 1; 0; 1; 0; 0; 11; 26; 48; 1; 80; 252; 255].

Definition counting (a : amachine) : Prop := exists x o,
  a = mkA (a_ip a) [] (mkFrame 0 [x] o) [] /\
  (a_ip a, length o) ∈ [(22, 0%nat); (23, 1%nat); (24, 2%nat); (25, 1%nat); (26, 0%nat)].

Ltac read_instr H :=
  let bs := fresh in let E := fresh in
  apply instr_at_decoded in H as (bs & E & H); vm_compute in E; injection E as <-; vm_compute in H;
  try discriminate H; try (injection H as <-).

(** Finds the address among those of the loop. *)
Ltac find_pc := repeat first [apply list_elem_of_here | apply list_elem_of_further].

Lemma counting_step a a' : counting a -> astep (eeprom_with count_program) 16 22 a a' -> counting a'.
Proof.
  intros (x & o & Ea & Hin) Hst.
  destruct a as [pc g [r l o'] cs]. cbn [a_ip] in *. injection Ea as -> -> -> -> ->.
  rewrite !elem_of_cons, elem_of_nil in Hin.
  destruct Hin as [Hin|[Hin|[Hin|[Hin|[Hin|[]]]]]]; injection Hin as -> Ho;
    inversion Hst as [? ? ? ? ? ? i n ? ? ? Hi Hop He|? ? ? ? n Hi Hn|? ? ? ? ? ? ? i ? n Hi Hn ? Hj
      |? ? ? ? ? ? ? i ? n Hi Hif Hn ? Hj
      |? ? ? ? ? ? ? ? ? ? Hi|? ? ? ? ? ? ? Hi|? ? ? ? ? ? ? ? ? Hi|? ? ? ? ? ? ? ? ? Hi]; subst;
    read_instr Hi; try discriminate Hif; try (by inversion Hj); try discriminate.
  - destruct o; [|done]. injection He as <- <- <-. eexists _, _. split; [done|]. find_pc.
  - destruct o as [|? [|]]; try done. injection He as <- <- <-. eexists _, _. split; [done|]. find_pc.
  - destruct o as [|? [|? [|]]]; try done. injection He as <- <- <-. eexists _, _. split; [done|]. find_pc.
  - destruct o as [|? [|]]; try done. injection He as <- <- <-. eexists _, _. split; [done|]. find_pc.
  - destruct o; [|done]. destruct Hn as (bs & Hbs & ->). vm_compute in Hbs. injection Hbs as <-.
    eexists _, _. split; [done|]. find_pc.
Qed.

Lemma counting_goes_on a :
  counting a -> asize a < STACK_SIZE /\ exists a', astep (eeprom_with count_program) 16 22 a a'.
Proof.
  intros (x & o & Ea & Hin). destruct a as [pc g [r l o'] cs]. cbn [a_ip] in *. injection Ea as -> -> -> -> ->.
  rewrite !elem_of_cons, elem_of_nil in Hin.
  destruct Hin as [Hin|[Hin|[Hin|[Hin|[Hin|[]]]]]]; injection Hin as -> Ho;
    destruct o as [|? [|? [|]]]; try discriminate Ho; (split; [vm_compute; reflexivity|]); eexists.
  - apply (step_effect _ _ _ _ _ _ _ _ _ BLOAD_0 0); [by exists [11]|done|reflexivity].
  - apply (step_effect _ _ _ _ _ _ _ _ _ BCONST_1 0); [by exists [26]|done|reflexivity].
  - apply (step_effect _ _ _ _ _ _ _ _ _ BADD 0); [by exists [48]|done|reflexivity].
  - apply (step_effect _ _ _ _ _ _ _ _ _ BSTORE_0 0); [by exists [1]|done|reflexivity].
  - apply (step_goto _ _ _ _ _ _ _ (-4)); [by exists [80]|by exists [252; 255]].
Qed.

Lemma counting_is_safe a : counting a -> safe (eeprom_with count_program) 16 22 a.
Proof.
  intros Ha a' Hr. induction Hr as [a|a b c Hab Hbc IH].
  - destruct (counting_goes_on a Ha) as [? ?]. auto.
  - by apply IH, (counting_step a).
Qed.

Definition counter_at (pc : Z) : vmstate :=
  mkVM VMRUNNING 0 0 9 ExtraKeyboardReport_clear empty_mouse_report 16 22 pc 1007 1000 (replicate 96 0).

Lemma safe_programs_run_witness :
  let v := counter_at 22 in let a := mkA 22 [] (mkFrame 0 [0] []) [] in
  exists v', vm_run (eeprom_with count_program) 1000 (fun _ => env0) 100 v = Some v' /\
    (state v' = VMSTOPPED \/
     exists a', rtc (astep (eeprom_with count_program) 16 22) a a' /\ represents 1000 a' v').
Proof.
  intros v a.
  assert (Hrep : represents 1000 a v).
  { constructor; [reflexivity|]. exists ([0; 0] ++ [0; 0] ++ [0; 0]). split; [by apply pointers_main|].
    constructor; try reflexivity; [|apply Forall_replicate; done].
    by exists 0, (replicate 88 0). }
  apply (safe_programs_run (eeprom_with count_program) 1000 (fun _ => env0) 100 a v);
    [lia|exact Hrep|].
  apply counting_is_safe. exists 0, []. split; [done|]. apply list_elem_of_here.
Defined.

Lemma start_begins_main_witness :
  let v := set_code 26 (set_program 16 zero_vm) in
  exists v' others, vm_start_vm (eeprom_with sum_program) 1 1000 9 v = Next 0 (v', []) /\
    Z.of_nat (length others) = 1 /\ trigger_lkey v' = 9 /\
    represents 1000 (mkA 26 [0] (mkFrame 0 others []) []) v'.
Proof.
  intros v. pose proof (start_begins_main (eeprom_with sum_program) 1 1000 9 v ltac:(lia) eq_refl
    ltac:(by apply Forall_replicate)) as [_ H].
  exact (H (or_introl eq_refl) ltac:(done) ltac:(done) ltac:(done)).
Defined.

(** A program whose first instruction pushes a 16-bit constant. *)
Definition push_program : list Z := [1; 1; 0; 1; 0; 0; 30].

Lemma stack_check_misses_short_witness :
  let o := replicate 86 7 in
  vm_step (eeprom_with push_program) 1000 env0 (main_at 22 o) = None.
Proof.
  intros o.
  assert (Hrep : represents 1000 (mkA 22 [42] (mkFrame 0 [3] o) []) (main_at 22 o))
    by (apply main_represents; [by apply Forall_replicate|cbn; lia]).
  exact (proj2 (stack_check_misses_short (eeprom_with push_program) 1000 env0 _ _ SCONST_0 [30] Hrep
    eq_refl eq_refl (or_introl eq_refl)) eq_refl).
Defined.

(** A program whose first instructions wait. *)
Definition waiting_program : list Z := [1; 1; 0; 1; 0; 0; 87; 95; 91].

Lemma key_call_waits_for_report_witness :
  exists v', vm_step (eeprom_with waiting_program) 1000 env0 (main_at 22 [4]) = Some (v', []) /\
    keyboardreport v' = mkExtra 0 [4; 255; 255; 255; 255; 255] /\
    vm_append_KeyboardReport [v'] empty_keyboard_report
      = ([set_state VMRUNNING v'], mkKeyboardReport 0 0 [4; 0; 0; 0; 0; 0]).
Proof.
  assert (Hrep : represents 1000 (mkA 22 [42] (mkFrame 0 [3] [4]) []) (main_at 22 [4]))
    by (apply main_represents; [by repeat (constructor; [done|])|cbn; lia]).
  destruct (key_call_waits_for_report (eeprom_with waiting_program) 1000 env0 env0 _ _ true 4 [] empty_keyboard_report
    Hrep ltac:(done) eq_refl ltac:(done) ltac:(by exists [87])) as (v' & H1 & H2 & _ & H3 & _).
  exists v'. split; [exact H1|]. split; [exact H2|exact H3].
Defined.

Lemma delay_waits_witness :
  exists v', vm_step (eeprom_with waiting_program) 1000 env0 (main_at 23 [1; 44]) = Some (v', []) /\
    vm_step (eeprom_with waiting_program) 1000 (mkEnv (fun _ => false) (fun _ => NO_KEY) 1300) v' = Some (v', []).
Proof.
  assert (Hrep : represents 1000 (mkA 23 [42] (mkFrame 0 [3] [1; 44]) []) (main_at 23 [1; 44]))
    by (apply main_represents; [by repeat (constructor; [done|])|cbn; lia]).
  destruct (delay_waits (eeprom_with waiting_program) 1000 env0 (mkEnv (fun _ => false) (fun _ => NO_KEY) 1300) _ _ 1 44 []
    Hrep ltac:(done) eq_refl ltac:(by exists [95]) ltac:(done) ltac:(done)) as (v' & H1 & _ & H2).
  exists v'. split; [exact H1|exact H2].
Defined.

Lemma wait_key_waits_witness :
  let env := mkEnv (fun _ => false) (fun k => k) 1000 in
  exists v' w, vm_step (eeprom_with waiting_program) 1000 env0 (main_at 24 [0; 0; 4]) = Some (v', []) /\
    vm_step (eeprom_with waiting_program) 1000 env v' = Some (w, []) /\
    represents 1000 (mkA 25 [42] (mkFrame 0 [3] [4]) []) w.
Proof.
  intros env.
  assert (Hrep : represents 1000 (mkA 24 [42] (mkFrame 0 [3] [0; 0; 4]) []) (main_at 24 [0; 0; 4]))
    by (apply main_represents; [by repeat (constructor; [done|])|cbn; lia]).
  destruct (wait_key_waits (eeprom_with waiting_program) 1000 env0 env _ _ 0 0 4 []
    Hrep ltac:(done) eq_refl ltac:(by exists [91]) ltac:(done) ltac:(done)) as (v' & H1 & _ & w & H2 & H3).
  exists v', w. split; [exact H1|]. split; [exact H2|exact H3].
Defined.
