(* ===== verification/SpiEeprom.v ===== *)
(** * storage/spi_eeprom.c: the external eeprom on the SPI bus

    The driver of src/storage/spi_eeprom.c, and the stream writes of
    src/lufa/spi_eeprom_endpoint_stream.c, over a chip that is a parameter:
    [SpiBus] holds the three accesses to the port, [SpiChip] what the chip's
    documentation says of them (commands, page writes that wrap at the end of
    the page and need the write latch, write cycles during which only the
    status can be read).  The driver polls the status without a limit, hence
    the fuel, one more than the polls during a write cycle, which the chip
    bounds ([max_polls]). *)

From S2P Require Import Prelude Storage.

(** ** The bus and the chip *)

(** [enum SPI_COMMAND] and the status bits *)
Abbreviation WRSR := 1 (only parsing).
Abbreviation WRITE := 2 (only parsing).
Abbreviation READ := 3 (only parsing).
Abbreviation RDSR := 5 (only parsing).
Abbreviation WREN := 6 (only parsing).
Abbreviation SPI_STATUS_WRITE_IN_PROGRESS_MASK := 1 (only parsing).
Abbreviation SPI_STATUS_WRITE_DISABLED_MASK := 12 (only parsing).
Abbreviation SPI_EEPROM_OK := 0 (only parsing).

(** The port: the slave select line and the exchange of a byte. *)
Class SpiBus (B : Type) := {
  (* 32 on AVR8, 64 on XMEGA *)
  SPI_MEM_PAGE_SIZE : Z;
  spi_slave_on : B -> B;
  spi_slave_off : B -> B;
  spi_transfer : Z -> B -> Z * B
}.

Definition send {B} `{SpiBus B} (x : Z) (b : B) : B := (spi_transfer x b).2.

(** What the chip expects next. *)
Inductive spi_phase :=
  | Deselected
  | Command
  | Enabling
  | Status
  | Address (write : bool)
  | AddressLow (write : bool) (high : Z)
  | Reading (a : Z)
  | Writing (a : Z) (latched : list Z).

(** [cycle]: how often the status still tells that a write is in progress. *)
Record spi_view := mkSpi {
  phase : spi_phase;
  cells : Z -> Z;
  latch : bool;
  cycle : nat
}.

Definition with_phase (p : spi_phase) (v : spi_view) : spi_view :=
  mkSpi p (cells v) (latch v) (cycle v).

(** A page write: the internal address counter wraps at page boundaries. *)
Fixpoint program_page (page a : Z) (bs : list Z) (m : Z -> Z) : Z -> Z :=
  match bs with
  | [] => m
  | b :: bs =>
      program_page page (if (a + 1) mod page =? 0 then a + 1 - page else a + 1) bs (upd a b m)
  end.

(** The documented behaviour of the chip, as far as the driver relies on it. *)
Class SpiChip (B : Type) `{SpiBus B} := {
  spi_size : Z;
  (* a write cycle ends within 6 ms, and a poll takes more than 1 us *)
  max_polls : nat;
  view : B -> spi_view;
  spi_page_ok : SPI_MEM_PAGE_SIZE = 32 \/ SPI_MEM_PAGE_SIZE = 64;
  spi_size_ok : 0 < spi_size <= 65536;
  select_ok b : phase (view b) = Deselected -> view (spi_slave_on b) = with_phase Command (view b);
  wren_ok b : phase (view b) = Command -> cycle (view b) = 0%nat ->
    view (send WREN b) = with_phase Enabling (view b);
  rdsr_ok b : phase (view b) = Command -> view (send RDSR b) = with_phase Status (view b);
  status_ok b x : phase (view b) = Status ->
    Z.land (spi_transfer x b).1 1 = (if decide (cycle (view b) = 0%nat) then 0 else 1) /\
    view (send x b) = mkSpi Status (cells (view b)) (latch (view b)) (pred (cycle (view b)));
  write_ok b : phase (view b) = Command -> cycle (view b) = 0%nat ->
    view (send WRITE b) = with_phase (Address true) (view b);
  read_ok b : phase (view b) = Command -> cycle (view b) = 0%nat ->
    view (send READ b) = with_phase (Address false) (view b);
  address_high_ok b w x : phase (view b) = Address w ->
    view (send x b) = with_phase (AddressLow w x) (view b);
  address_low_ok b (w : bool) h x : phase (view b) = AddressLow w h ->
    view (send x b) =
      with_phase (if w then Writing (256 * h + x) [] else Reading (256 * h + x)) (view b);
  data_in_ok b a bs x : phase (view b) = Writing a bs ->
    view (send x b) = with_phase (Writing a (bs ++ [x])) (view b);
  (* the address rolls over at the end of the chip *)
  data_out_ok b a x : phase (view b) = Reading a -> 0 <= a < spi_size ->
    (spi_transfer x b).1 = cells (view b) a /\
    view (send x b) = with_phase (Reading ((a + 1) mod spi_size)) (view b);
  enabled_ok b : phase (view b) = Enabling ->
    view (spi_slave_off b) = mkSpi Deselected (cells (view b)) true (cycle (view b));
  deselect_ok b : (phase (view b) = Status \/ exists a, phase (view b) = Reading a) ->
    view (spi_slave_off b) = with_phase Deselected (view b);
  (* deselecting starts the write cycle, which clears the latch *)
  program_ok b a bs : phase (view b) = Writing a bs -> bs <> [] ->
    0 <= a < spi_size -> Z.of_nat (length bs) <= SPI_MEM_PAGE_SIZE ->
    latch (view b) = true ->
    exists n, (n <= max_polls)%nat /\ view (spi_slave_off b) =
      mkSpi Deselected (program_page SPI_MEM_PAGE_SIZE a bs (cells (view b))) false n
}.

(** ** The driver *)

Section Driver.
Context {B : Type} {Bus : SpiBus B} (storage_errno : Z).

Definition spi_enable_write (b : B) : B := spi_slave_off (send WREN (spi_slave_on b)).

(** Sends [buf]; the number of bytes as an [int8_t]. *)
Definition spi_eeprom_continue_write (buf : list Z) (b : B) : Z * B :=
  (s8 (Z.of_nat (length buf)), fold_left (fun b x => send x b) buf b).

Definition spi_eeprom_read_status (b : B) : Z * B :=
  let b := send RDSR (spi_slave_on b) in
  let '(rv, b) := spi_transfer 255 b in
  (rv, spi_slave_off b).

Definition spi_eeprom_write_status (new_status : Z) (b : B) : B :=
  spi_slave_off (send new_status (send WRSR (spi_slave_on b))).

Definition spi_eeprom_enable_write_everywhere (b : B) : B :=
  let '(rv, b) := spi_eeprom_read_status b in
  if negb (Z.land rv SPI_STATUS_WRITE_DISABLED_MASK =? 0) then spi_eeprom_write_status 0 b else b.

Fixpoint spi_eeprom_wait_for_last_write_end (b : B) (fuel : nat) : option B :=
  match fuel with
  | O => None
  | S fuel =>
      let '(rv, b) := spi_eeprom_read_status b in
      if Z.land rv SPI_STATUS_WRITE_IN_PROGRESS_MASK =? 0 then Some b
      else spi_eeprom_wait_for_last_write_end b fuel
  end.

Definition send_address (addr : Z) (b : B) : B := send (Z.land (u16 addr) 255) (send (u16 addr / 256) b).

Definition spi_eeprom_start_write (addr : Z) (b : B) : Z * B :=
  let b := spi_enable_write b in
  let b := send WRITE (spi_slave_on b) in
  (SPI_EEPROM_OK, send_address addr b).

Definition spi_eeprom_checked_start_write (addr : Z) (b : B) (fuel : nat) : option B :=
  b ← spi_eeprom_wait_for_last_write_end b fuel;
  Some (spi_eeprom_start_write addr b).2.

(** [addr & (SPI_MEM_PAGE_SIZE-1)] *)
Definition page_offset (addr : Z) : Z := Z.land addr (SPI_MEM_PAGE_SIZE - 1).

Definition spi_eeprom_write_step (addr : Z) (data : list Z) (last : bool) (b : B) (fuel : nat)
    : option (Z * B) :=
  let len := Z.of_nat (length data) in
  '(result, b) ← (if page_offset addr =? 0 then
                    b ← spi_eeprom_wait_for_last_write_end b fuel;
                    Some (spi_eeprom_start_write addr b)
                  else Some (SPI_EEPROM_OK, b));
  if negb (result =? SPI_EEPROM_OK) then Some (result, b) else
  let '(n, b) := spi_eeprom_continue_write data b in
  if negb (len =? n) then Some (storage_errno, b) else
  let b := if last || (page_offset (addr + len) =? 0) then spi_slave_off b else b in
  Some (SPI_EEPROM_OK, b).

(** The bytes read, which are always [len] many. *)
Fixpoint receive (len : nat) (b : B) : list Z * B :=
  match len with
  | O => ([], b)
  | S len =>
      let '(x, b) := spi_transfer 255 b in
      let '(buf, b) := receive len b in (x :: buf, b)
  end.

Definition spi_eeprom_read (addr : Z) (len : nat) (b : B) : list Z * B :=
  let b := send_address addr (send READ (spi_slave_on b)) in
  let '(buf, b) := receive len b in
  (buf, spi_slave_off b).

Definition spi_eeprom_read_byte (addr : Z) (b : B) : Z * B :=
  let '(buf, b) := spi_eeprom_read addr 1 b in (buf !!! 0%nat, b).

Definition spi_eeprom_read_short (addr : Z) (b : B) : Z * B :=
  let '(buf, b) := spi_eeprom_read addr 2 b in (of_le16 buf, b).

Definition spi_eeprom_write_page (addr : Z) (buf : list Z) (b : B) : Z * B :=
  let '(result, b) := spi_eeprom_start_write addr b in
  let '(result, b) := if negb (result =? SPI_EEPROM_OK) then (0, b)
                      else spi_eeprom_continue_write buf b in
  (result, spi_slave_off b).

(** The length of the next chunk: up to the end of the page. *)
Definition chunk (dst count : Z) : Z :=
  let dst_page_remaining := u8 (SPI_MEM_PAGE_SIZE - page_offset dst) in
  if count <? dst_page_remaining then u8 count else dst_page_remaining.

(** The loop of [spi_eeprom_write]; [k] bounds the number of chunks. *)
Fixpoint write_loop (k : nat) (written dst : Z) (buf : list Z) (b : B) (fuel : nat) : option (Z * B) :=
  let count := Z.of_nat (length buf) in
  if count =? 0 then Some (written, b) else
  match k with
  | O => None
  | S k =>
      let n := chunk dst count in
      b ← spi_eeprom_wait_for_last_write_end b fuel;
      let '(w, b) := spi_eeprom_write_page dst (take (Z.to_nat n) buf) b in
      let written := s16 (written + w) in
      if negb (w =? n) then Some (if written =? 0 then written else -1, b)
      else write_loop k written (dst + n) (drop (Z.to_nat n) buf) b fuel
  end.

Definition spi_eeprom_write (dst : Z) (buf : list Z) (b : B) (fuel : nat) : option (Z * B) :=
  write_loop (length buf) 0 dst buf b fuel.

(** The chunks are all taken from the start of a page filled with [c]. *)
Fixpoint memset_loop (k : nat) (dst : Z) (page : list Z) (len : Z) (b : B) (fuel : nat) : option B :=
  if len =? 0 then Some b else
  match k with
  | O => None
  | S k =>
      let n := chunk dst len in
      b ← spi_eeprom_wait_for_last_write_end b fuel;
      let b := (spi_eeprom_write_page dst (take (Z.to_nat n) page) b).2 in
      memset_loop k (dst + n) page (len - n) b fuel
  end.

Definition spi_eeprom_memset (dst c : Z) (len : nat) (b : B) (fuel : nat) : option (Z * B) :=
  let page := replicate (Z.to_nat SPI_MEM_PAGE_SIZE) (u8 c) in
  b ← memset_loop len dst page (Z.of_nat len) b fuel;
  Some (SPI_EEPROM_OK, b).

Definition spi_eeprom_write_byte (dst x : Z) (b : B) (fuel : nat) : option (Z * B) :=
  b ← spi_eeprom_wait_for_last_write_end b fuel;
  Some (SPI_EEPROM_OK, (spi_eeprom_write_page dst [x] b).2).

Definition spi_eeprom_write_short (dst s : Z) (b : B) (fuel : nat) : option (Z * B) :=
  if page_offset dst =? SPI_MEM_PAGE_SIZE - 1 then
    '(_, b) ← spi_eeprom_write dst (le16 s) b fuel;
    Some (SPI_EEPROM_OK, b)
  else
    b ← spi_eeprom_wait_for_last_write_end b fuel;
    Some (SPI_EEPROM_OK, (spi_eeprom_write_page dst (le16 s) b).2).

(** The length of the next chunk of a move: for [direction < 0] the source
    takes the bytes of the page from its start to [dst], inclusive. *)
Definition move_chunk (direction dst count : Z) : Z :=
  let dst_page_remaining :=
    u8 (if direction >? 0 then SPI_MEM_PAGE_SIZE - page_offset dst else page_offset dst + 1) in
  if count <? dst_page_remaining then u8 count else dst_page_remaining.

Fixpoint move_loop (k : nat) (direction dst src count : Z) (b : B) (fuel : nat) : option (Z * B) :=
  if count =? 0 then Some (SPI_EEPROM_OK, b) else
  match k with
  | O => None
  | S k =>
      let n := move_chunk direction dst count in
      let '(src, dst) := if direction <? 0 then (src - n, dst - n) else (src, dst) in
      b ← spi_eeprom_wait_for_last_write_end b fuel;
      let '(buf, b) := spi_eeprom_read src (Z.to_nat n) b in
      if negb (Z.of_nat (length buf) =? n) then Some (storage_errno, b) else
      let '(w, b) := spi_eeprom_write_page dst buf b in
      if negb (w =? n) then Some (storage_errno, b) else
      let '(src, dst) := if direction >? 0 then (src + n, dst + n) else (src, dst) in
      move_loop k direction dst src (count - n) b fuel
  end.

Definition spi_eeprom_memmove (dst src : Z) (count : nat) (b : B) (fuel : nat) : option (Z * B) :=
  let direction := if src <? dst then -1 else 1 in
  move_loop count direction dst src (Z.of_nat count) b fuel.

(** *** src/lufa/spi_eeprom_endpoint_stream.c *)

Definition spi_eeprom_start_write_if_unaligned (addr : Z) (b : B) (fuel : nat) : option B :=
  if negb (page_offset addr =? 0) then spi_eeprom_checked_start_write addr b fuel else Some b.

(** Receiving a stream: each byte is written as it arrives. *)
Fixpoint stream_loop (addr : Z) (bytes : list Z) (b : B) (fuel : nat) : option B :=
  match bytes with
  | [] => Some b
  | x :: bytes =>
      '(_, b) ← spi_eeprom_write_step addr [x] (match bytes with [] => true | _ => false end) b fuel;
      stream_loop (addr + 1) bytes b fuel
  end.

(** Sending a stream: each byte is read on its own, without waiting. *)
Fixpoint Endpoint_Write_Control_SpiMemStream (addr : Z) (len : nat) (b : B) : list Z * B :=
  match len with
  | O => ([], b)
  | S len =>
      let '(x, b) := spi_eeprom_read_byte addr b in
      let '(bytes, b) := Endpoint_Write_Control_SpiMemStream (addr + 1) len b in
      (x :: bytes, b)
  end.

Definition Endpoint_Read_Control_SpiMemStream (addr : Z) (bytes : list Z) (b : B) (fuel : nat)
    : option B :=
  b ← spi_eeprom_start_write_if_unaligned addr b fuel;
  stream_loop addr bytes b fuel.
End Driver.
