(* ===== verification/SpiProofs.v ===== *)
(** * storage/spi_eeprom.c: the driver makes the chip an array of cells

    Over any chip with its documented behaviour ([SpiChip]), the operations of
    [SpiEeprom] read and write the cells, whatever the size of the block and
    its place in the pages. *)

From S2P Require Import Prelude Storage SpiEeprom.

(** ** One page *)

(** A block that stays in its page does not wrap. *)
Lemma program_page_copy P a bs m :
  0 < P -> a mod P + Z.of_nat (length bs) <= P -> program_page P a bs m = copy_bytes a bs m.
Proof.
  intros HP. revert a m. induction bs as [|b bs IH]; intros a m Hl; [done|].
  cbn [program_page copy_bytes]. cbn [length] in Hl.
  destruct bs as [|b' bs]; [by destruct (_ =? 0)|]. cbn [length] in *.
  assert (Hm : (a + 1) mod P = a mod P + 1).
  { rewrite <- (Z.mod_small (a mod P + 1) P) by (pose proof (Z.mod_pos_bound a P HP); lia).
    by rewrite Z.add_mod_idemp_l by lia. }
  rewrite Hm. replace (a mod P + 1 =? 0) with false
    by (symmetry; apply Z.eqb_neq; pose proof (Z.mod_pos_bound a P HP); lia).
  apply IH. rewrite Hm. lia.
Qed.

Section Proofs.
Context {B : Type} {Bus : SpiBus B} {Chip : SpiChip B} (storage_errno : Z).

Lemma page_offset_mod addr : page_offset addr = addr mod SPI_MEM_PAGE_SIZE.
Proof.
  unfold page_offset. destruct spi_page_ok as [-> | ->].
  - apply (Z.land_ones addr 5). lia.
  - apply (Z.land_ones addr 6). lia.
Qed.

Lemma page_offset_bound addr : 0 <= page_offset addr < SPI_MEM_PAGE_SIZE.
Proof. rewrite page_offset_mod. apply Z.mod_pos_bound. destruct spi_page_ok as [-> | ->]; lia. Qed.

Lemma page_size_bound : 32 <= SPI_MEM_PAGE_SIZE <= 64.
Proof. destruct spi_page_ok as [-> | ->]; lia. Qed.

(** The chip is not selected and holds [c]; it may be busy with a write. *)
Definition idle (c : Z -> Z) (b : B) : Prop :=
  phase (view b) = Deselected /\ (forall x, cells (view b) x = c x) /\ (cycle (view b) <= max_polls)%nat.

(** More polls than a write cycle lasts are enough. *)
Definition polled {A} : (nat -> option A) -> (A -> Prop) -> Prop := returns_within (S max_polls).

Definition ready (c : Z -> Z) (b : B) : Prop := idle c b /\ cycle (view b) = 0%nat.

Lemma idle_ext c c' b : (forall x, c x = c' x) -> idle c b -> idle c' b.
Proof. intros Hc (Hp & Hx & Hn). split; [done|]. split; [|done]. intros x. by rewrite Hx. Qed.

Lemma read_status_spec c b rv b' :
  idle c b -> spi_eeprom_read_status b = (rv, b') ->
  Z.land rv 1 = (if decide (cycle (view b) = 0%nat) then 0 else 1) /\
  idle c b' /\ cycle (view b') = pred (cycle (view b)).
Proof.
  intros (Hp & Hc & Hn) E. unfold spi_eeprom_read_status in E.
  pose proof (select_ok b Hp) as V1. pose proof (rdsr_ok (spi_slave_on b)) as V2.
  rewrite V1 in V2. specialize (V2 eq_refl).
  destruct (status_ok (send RDSR (spi_slave_on b)) 255) as [R V3]; [by rewrite V2|].
  unfold send in V3 at 1. rewrite V2 in R, V3.
  destruct (spi_transfer 255 (send RDSR (spi_slave_on b))) as [rv0 b0]. simplify_eq.
  cbn [fst snd] in *. split; [exact R|].
  pose proof (deselect_ok b0) as V4. rewrite V3 in V4. specialize (V4 (or_introl eq_refl)).
  unfold idle. rewrite V4. cbn. split_and!; [done..|lia|done].
Qed.

(** Polling ends, and the chip is ready then. *)
Lemma wait_within c b :
  idle c b -> returns_within (S (cycle (view b))) (spi_eeprom_wait_for_last_write_end b) (ready c).
Proof.
  intros Hi. remember (cycle (view b)) as n eqn:Hn.
  revert b Hi Hn. induction n as [|n IH]; intros b Hi Hn;
    destruct (spi_eeprom_read_status b) as [rv b'] eqn:E;
    destruct (read_status_spec c b rv b' Hi E) as (Hrv & Hi' & Hc); rewrite <- Hn in *.
  - exists b'. split; [by split|]. intros [|k] Hk; [lia|].
    cbn [spi_eeprom_wait_for_last_write_end]. by rewrite E, Hrv.
  - destruct (IH b' Hi' (eq_sym Hc)) as (b2 & Hb2 & HF). exists b2. split; [done|].
    intros [|k] Hk; [lia|]. cbn [spi_eeprom_wait_for_last_write_end]. rewrite E, Hrv. cbn.
    apply HF. lia.
Qed.

Lemma wait_spec c b : idle c b -> polled (spi_eeprom_wait_for_last_write_end b) (ready c).
Proof. intros Hi. eapply within_more, wait_within; [|done]. destruct Hi as (_ & _ & ?). lia. Qed.

Lemma address_bytes a : is_u16 a -> 256 * (u16 a / 256) + Z.land (u16 a) 255 = a.
Proof.
  intros Ha. rewrite u16_small by done. change 255 with (Z.ones 8). rewrite Z.land_ones by lia.
  change (2 ^ 8) with 256. pose proof (Z.div_mod a 256). lia.
Qed.

(** After a command, its address. *)
Lemma send_address_spec w a b :
  phase (view b) = Address w -> is_u16 a ->
  view (send_address a b) = with_phase (if w then Writing a [] else Reading a) (view b).
Proof.
  intros Hp Ha. unfold send_address.
  pose proof (address_high_ok b w (u16 a / 256) Hp) as V1.
  rewrite (address_low_ok _ w (u16 a / 256)) by (by rewrite V1).
  rewrite V1, address_bytes by done. done.
Qed.

Lemma spi_start_write_spec c a b :
  ready c b -> is_u16 a ->
  (spi_eeprom_start_write a b).1 = SPI_EEPROM_OK /\
  view (spi_eeprom_start_write a b).2 = mkSpi (Writing a []) (cells (view b)) true 0.
Proof.
  intros [(Hp & Hc & _) Hcy] Ha. split; [done|]. cbn [snd spi_eeprom_start_write]. unfold spi_enable_write.
  pose proof (select_ok b Hp) as V1.
  pose proof (wren_ok (spi_slave_on b)) as V2. rewrite V1 in V2. specialize (V2 eq_refl Hcy).
  pose proof (enabled_ok (send WREN (spi_slave_on b))) as V3. rewrite V2 in V3. specialize (V3 eq_refl).
  set (b3 := spi_slave_off _) in *. pose proof (select_ok b3) as V4. rewrite V3 in V4.
  specialize (V4 eq_refl).
  pose proof (write_ok (spi_slave_on b3)) as V5. rewrite V4 in V5. specialize (V5 eq_refl Hcy).
  rewrite (send_address_spec true) by (done || by rewrite V5). rewrite V5. cbn. by rewrite Hcy.
Qed.

Lemma continue_write_spec buf b a bs :
  phase (view b) = Writing a bs ->
  view (spi_eeprom_continue_write buf b).2 = with_phase (Writing a (bs ++ buf)) (view b).
Proof.
  cbn [spi_eeprom_continue_write snd]. revert b bs.
  induction buf as [|x buf IH]; intros b bs Hp; cbn [fold_left].
  - rewrite app_nil_r, <- Hp. by destruct (view b).
  - pose proof (data_in_ok b a bs x Hp) as V. rewrite (IH _ (bs ++ [x])) by (by rewrite V).
    rewrite V, <- app_assoc. done.
Qed.

(** Deselecting the chip stores what has been sent, if it stays in a page. *)
Lemma spi_commit_spec b c a bs :
  phase (view b) = Writing a bs -> latch (view b) = true -> (forall x, cells (view b) x = c x) ->
  bs <> [] -> 0 <= a < spi_size -> page_offset a + Z.of_nat (length bs) <= SPI_MEM_PAGE_SIZE ->
  idle (blit a bs c) (spi_slave_off b).
Proof.
  intros Hp Hl Hc Hne Ha Hpg. pose proof page_size_bound. pose proof (page_offset_bound a).
  destruct (program_ok b a bs Hp Hne Ha ltac:(lia) Hl) as (n & Hn & V).
  unfold idle. rewrite V. cbn [phase cells cycle]. split; [done|]. split; [|done]. intros x.
  rewrite page_offset_mod in Hpg. rewrite program_page_copy by lia.
  rewrite copy_bytes_cell. by apply blit_ext.
Qed.

Lemma spi_write_page_spec c a buf b :
  ready c b -> buf <> [] -> 0 <= a < spi_size ->
  page_offset a + Z.of_nat (length buf) <= SPI_MEM_PAGE_SIZE ->
  (spi_eeprom_write_page a buf b).1 = Z.of_nat (length buf) /\
  idle (blit a buf c) (spi_eeprom_write_page a buf b).2.
Proof.
  intros Hr Hne Ha Hl. pose proof spi_size_ok. pose proof page_size_bound. pose proof (page_offset_bound a).
  destruct (spi_start_write_spec c a b Hr ltac:(unfold is_u16; lia)) as [R V].
  unfold spi_eeprom_write_page. destruct (spi_eeprom_start_write a b) as [r b1]. cbn [fst snd] in *.
  subst r. cbn [negb Z.eqb].
  pose proof (continue_write_spec buf b1 a []) as V2. rewrite V in V2. specialize (V2 eq_refl).
  destruct (spi_eeprom_continue_write buf b1) as [r b2] eqn:E. cbn [snd fst] in *.
  assert (Hrr : r = s8 (Z.of_nat (length buf))) by (unfold spi_eeprom_continue_write in E; by simplify_eq).
  split; [rewrite Hrr; apply s8_small; unfold is_s8; lia|].
  apply spi_commit_spec; rewrite ?V2; [done..|by destruct Hr as [(_ & Hc & _) _]|done|done|done].
Qed.

(** ** Reading *)

Lemma receive_spec len b a :
  phase (view b) = Reading a -> 0 <= a -> a + Z.of_nat len <= spi_size ->
  (receive len b).1 = bytes_at a len (cells (view b)) /\
  exists a', view (receive len b).2 = with_phase (Reading a') (view b).
Proof.
  revert b a. induction len as [|len IH]; intros b a Hp Ha Hs; cbn [receive].
  - split; [done|]. exists a. cbn. rewrite <- Hp. by destruct (view b).
  - destruct (data_out_ok b a 255 Hp ltac:(lia)) as [R V]. unfold send in V.
    destruct (spi_transfer 255 b) as [x b1]. cbn [fst snd] in *.
    destruct len as [|len].
    + cbn [receive]. split; [by rewrite bytes_at_S, R|]. eexists. cbn. exact V.
    + rewrite Z.mod_small in V by lia.
      destruct (IH b1 (a + 1)) as [IH1 [a' IH2]]; [by rewrite V|lia|lia|].
      destruct (receive (S len) b1) as [buf b2]. cbn [fst snd] in *.
      rewrite bytes_at_S, IH1, R, V. split; [done|]. exists a'. rewrite IH2, V. done.
Qed.

Lemma spi_read_spec c a len b :
  ready c b -> 0 <= a < spi_size -> a + Z.of_nat len <= spi_size ->
  (spi_eeprom_read a len b).1 = bytes_at a len c /\ ready c (spi_eeprom_read a len b).2.
Proof.
  intros [(Hp & Hc & Hn) Hcy] Ha Hs. pose proof spi_size_ok. unfold spi_eeprom_read.
  pose proof (select_ok b Hp) as V1.
  pose proof (read_ok (spi_slave_on b)) as V2. rewrite V1 in V2. specialize (V2 eq_refl Hcy).
  pose proof (send_address_spec false a (send READ (spi_slave_on b))) as V3.
  rewrite V2 in V3. specialize (V3 eq_refl ltac:(unfold is_u16; lia)).
  set (b3 := send_address _ _) in *.
  destruct (receive_spec len b3 a) as [R [a' V4]]; [by rewrite V3|lia|lia|].
  destruct (receive len b3) as [buf b4]. cbn [fst snd] in *.
  pose proof (deselect_ok b4) as V5. rewrite V4 in V5. specialize (V5 (or_intror (ex_intro _ a' eq_refl))).
  split.
  - rewrite R, V3. apply bytes_at_ext. intros x _. apply Hc.
  - unfold ready, idle. rewrite V5, V3. cbn. by split_and!.
Qed.

(** ** Writing a block *)

Lemma chunk_spec dst count :
  0 < count ->
  0 < chunk dst count <= count /\ page_offset dst + chunk dst count <= SPI_MEM_PAGE_SIZE.
Proof.
  intros Hc. pose proof (page_offset_bound dst). pose proof page_size_bound. unfold chunk.
  rewrite (u8_small (_ - _)) by (unfold is_u8; lia). case_if; [|lia].
  rewrite u8_small by (unfold is_u8; lia). lia.
Qed.

Lemma write_loop_spec k c written dst buf b :
  idle c b -> (length buf <= k)%nat -> 0 <= dst -> dst + Z.of_nat (length buf) <= spi_size ->
  0 <= written -> written + Z.of_nat (length buf) < 32768 ->
  polled (write_loop k written dst buf b)
    (fun r => r.1 = written + Z.of_nat (length buf) /\ idle (blit dst buf c) r.2).
Proof.
  revert c written dst buf b. induction k as [|k IH]; intros c written dst buf b Hi Hk Hd He Hw Hw2.
  - destruct buf; cbn [length] in *; [|lia]. apply within_ret. cbn [fst snd]. split; [lia|].
    eapply idle_ext; [|exact Hi]. intros x. by rewrite blit_nil.
  - cbn [write_loop]. case_if.
    { destruct buf; cbn [length] in *; [|lia]. apply within_ret. cbn [fst snd]. split; [lia|].
      eapply idle_ext; [|exact Hi]. intros x. by rewrite blit_nil. }
    set (n := chunk dst (Z.of_nat (length buf))).
    destruct (chunk_spec dst (Z.of_nat (length buf)) ltac:(lia)) as [Hn Hpg]. fold n in Hn, Hpg.
    eapply within_bind; [by apply wait_spec|]. intros b1 Hr.
    assert (Ht : Z.of_nat (length (take (Z.to_nat n) buf)) = n) by (rewrite length_take; lia).
    destruct (spi_write_page_spec c dst (take (Z.to_nat n) buf) b1 Hr) as [R Hi2]; [|lia|lia|].
    { intros E. rewrite E in Ht. cbn in Ht. lia. }
    destruct (spi_eeprom_write_page _ _ b1) as [w b2]. cbn [fst snd] in *.
    rewrite R, Ht, s16_small by (unfold is_s16; lia). rewrite Z.eqb_refl. cbn [negb].
    eapply within_mono; [apply (IH _ _ _ _ _ Hi2)|]; rewrite ?length_drop; [lia..|].
    intros [r b3] [Hr3 Hi3]. cbn [fst snd] in *. split; [lia|].
    eapply idle_ext; [|exact Hi3]. intros x. apply take_drop_blit. lia.
Qed.

Lemma write_spec c dst buf b :
  idle c b -> 0 <= dst -> dst + Z.of_nat (length buf) <= spi_size -> Z.of_nat (length buf) < 32768 ->
  polled (spi_eeprom_write dst buf b)
    (fun r => r.1 = Z.of_nat (length buf) /\ idle (blit dst buf c) r.2).
Proof. intros. by apply (write_loop_spec _ c 0). Qed.

(** [memset] writes the chunks of the constant block. *)
Lemma take_replicate_page n (c : Z) :
  0 <= n <= SPI_MEM_PAGE_SIZE ->
  take (Z.to_nat n) (replicate (Z.to_nat SPI_MEM_PAGE_SIZE) c) = replicate (Z.to_nat n) c.
Proof. intros Hn. rewrite take_replicate. f_equal. lia. Qed.

Lemma memset_loop_spec k c x dst len b :
  idle c b -> (len <= k)%nat -> 0 <= dst -> dst + Z.of_nat len <= spi_size ->
  polled (memset_loop k dst (replicate (Z.to_nat SPI_MEM_PAGE_SIZE) x) (Z.of_nat len) b)
    (idle (blit dst (replicate len x) c)).
Proof.
  revert c dst len b. induction k as [|k IH]; intros c dst len b Hi Hk Hd He.
  - replace len with 0%nat by lia. apply within_ret.
    eapply idle_ext; [|exact Hi]. intros y. by rewrite blit_nil.
  - cbn [memset_loop]. case_if.
    { replace len with 0%nat by lia. apply within_ret.
      eapply idle_ext; [|exact Hi]. intros y. by rewrite blit_nil. }
    set (n := chunk dst (Z.of_nat len)). pose proof (page_offset_bound dst).
    destruct (chunk_spec dst (Z.of_nat len) ltac:(lia)) as [Hn Hpg]. fold n in Hn, Hpg.
    eapply within_bind; [by apply wait_spec|]. intros b1 Hr.
    rewrite take_replicate_page by lia.
    destruct (spi_write_page_spec c dst (replicate (Z.to_nat n) x) b1 Hr) as [_ Hi2];
      rewrite ?length_replicate; [|lia|lia|].
    { intros E. apply (f_equal length) in E. rewrite length_replicate in E. cbn in E. lia. }
    replace (Z.of_nat len - n) with (Z.of_nat (len - Z.to_nat n)) by lia.
    eapply within_mono; [apply (IH _ _ _ _ Hi2); lia|].
    intros b3. apply idle_ext. intros y.
    rewrite <- (take_drop_blit n dst (replicate len x)) by (rewrite length_replicate; lia).
    by rewrite take_replicate, drop_replicate, Nat.min_l by lia.
Qed.

Lemma memset_spec c x dst len b :
  idle c b -> 0 <= dst -> dst + Z.of_nat len <= spi_size ->
  polled (spi_eeprom_memset dst x len b)
    (fun r => r.1 = SPI_EEPROM_OK /\ idle (blit dst (replicate len (u8 x)) c) r.2).
Proof.
  intros Hi Hd He. eapply within_bind; [by apply memset_loop_spec|].
  intros b' Hb'. by apply within_ret.
Qed.

Lemma spi_write_byte_spec c x dst b :
  idle c b -> 0 <= dst < spi_size ->
  polled (spi_eeprom_write_byte dst x b)
    (fun r => r.1 = SPI_EEPROM_OK /\ idle (blit dst [x] c) r.2).
Proof.
  intros Hi Hd. pose proof (page_offset_bound dst).
  eapply within_bind; [by apply wait_spec|]. intros b1 Hr.
  destruct (spi_write_page_spec c dst [x] b1 Hr) as [_ Hi2]; [done|lia|cbn; lia|]. by apply within_ret.
Qed.

Lemma write_short_spec c s dst b :
  idle c b -> 0 <= dst -> dst + 2 <= spi_size ->
  polled (spi_eeprom_write_short dst s b)
    (fun r => r.1 = SPI_EEPROM_OK /\ idle (blit dst (le16 s) c) r.2).
Proof.
  intros Hi Hd He. pose proof (page_offset_bound dst). unfold spi_eeprom_write_short. case_if.
  - eapply within_bind; [apply (write_spec c dst (le16 s) b Hi); cbn; lia|].
    intros [r b1] [_ Hi1]. by apply within_ret.
  - eapply within_bind; [by apply wait_spec|]. intros b1 Hr.
    destruct (spi_write_page_spec c dst (le16 s) b1 Hr) as [_ Hi2]; [done|lia|cbn; lia|].
    by apply within_ret.
Qed.

(** ** Moving a block *)

(** One chunk of a move, between the waiting and the cursors. *)
Lemma spi_move_step_spec c src dst n b :
  ready c b -> 0 < n -> 0 <= src -> src + n <= spi_size -> 0 <= dst -> dst < spi_size ->
  page_offset dst + n <= SPI_MEM_PAGE_SIZE ->
  exists b', (let '(buf, b) := spi_eeprom_read src (Z.to_nat n) b in
     (Z.of_nat (length buf) =? n, buf, b)) = (true, bytes_at src (Z.to_nat n) c, b') /\
    (spi_eeprom_write_page dst (bytes_at src (Z.to_nat n) c) b').1 = n /\
    idle (blit dst (bytes_at src (Z.to_nat n) c) c)
      (spi_eeprom_write_page dst (bytes_at src (Z.to_nat n) c) b').2.
Proof.
  intros Hr Hn Hs Hse Hd Hde Hpg.
  destruct (spi_read_spec c src (Z.to_nat n) b Hr) as [R Hr2]; [lia|lia|].
  destruct (spi_eeprom_read src _ b) as [buf b']. cbn [fst snd] in *. subst buf.
  exists b'. rewrite bytes_at_length, Z2Nat.id, Z.eqb_refl by lia. split; [done|].
  destruct (spi_write_page_spec c dst (bytes_at src (Z.to_nat n) c) b' Hr2) as [W Hi];
    rewrite ?bytes_at_length; [|lia|lia|].
  { intros E. apply (f_equal length) in E. rewrite bytes_at_length in E. cbn in E. lia. }
  rewrite bytes_at_length in W. split; [lia|done].
Qed.

Lemma spi_move_up_spec k c dst src count b :
  idle c b -> (count <= k)%nat -> 0 <= dst <= src -> src + Z.of_nat count <= spi_size ->
  polled (move_loop storage_errno k 1 dst src (Z.of_nat count) b)
    (fun r => r.1 = SPI_EEPROM_OK /\ idle (blit dst (bytes_at src count c) c) r.2).
Proof.
  revert c dst src count b. induction k as [|k IH]; intros c dst src count b Hi Hk Hd He.
  - replace count with 0%nat by lia. apply within_ret. split; [done|].
    eapply idle_ext; [|exact Hi]. intros y. by rewrite blit_nil.
  - cbn [move_loop]. case_if.
    { replace count with 0%nat by lia. apply within_ret. split; [done|].
      eapply idle_ext; [|exact Hi]. intros y. by rewrite blit_nil. }
    change (move_chunk 1 dst) with (chunk dst).
    set (n := chunk dst (Z.of_nat count)).
    destruct (chunk_spec dst (Z.of_nat count) ltac:(lia)) as [Hn Hpg]. fold n in Hn, Hpg.
    cbn [Z.ltb Z.gtb Z.compare].
    eapply within_bind; [by apply wait_spec|]. intros b1 Hr.
    destruct (spi_move_step_spec c src dst n b1 Hr) as (b2 & R & W & Hi2); [lia..|].
    destruct (spi_eeprom_read src _ b1) as [buf b2']. injection R as R1 -> ->. rewrite R1.
    destruct (spi_eeprom_write_page dst _ b2) as [w b3]. cbn [fst snd] in *. subst w.
    rewrite Z.eqb_refl. cbn [negb].
    replace (Z.of_nat count - n) with (Z.of_nat (count - Z.to_nat n)) by lia.
    eapply within_mono; [apply (IH _ _ _ _ _ Hi2); lia|].
    intros [r b4] [Hr4 Hi4]. cbn [fst snd] in *. split; [done|].
    eapply idle_ext; [|exact Hi4]. intros y.
    rewrite bytes_at_blit_below by (rewrite bytes_at_length; lia).
    replace count with (Z.to_nat n + (count - Z.to_nat n))%nat at 2 by lia.
    rewrite bytes_at_app, <- blit_app, bytes_at_length, Z2Nat.id by lia. done.
Qed.

Lemma move_up c dst src count b :
  idle c b -> 0 <= dst <= src -> src + Z.of_nat count <= spi_size ->
  polled (spi_eeprom_memmove storage_errno dst src count b)
    (fun r => r.1 = SPI_EEPROM_OK /\ idle (blit dst (bytes_at src count c) c) r.2).
Proof.
  intros Hi Hd He. unfold spi_eeprom_memmove. rewrite (proj2 (Z.ltb_ge src dst)) by lia.
  by apply spi_move_up_spec.
Qed.

(** A short move to a higher address: one chunk, of the wrong block. *)
Lemma move_down_short c dst src count b :
  idle c b -> (0 < count)%nat -> Z.of_nat count <= page_offset dst ->
  Z.of_nat count <= src < dst -> dst < spi_size ->
  polled (spi_eeprom_memmove storage_errno dst src count b)
    (fun r => r.1 = SPI_EEPROM_OK /\
              idle (blit (dst - Z.of_nat count) (bytes_at (src - Z.of_nat count) count c) c) r.2).
Proof.
  intros Hi H0 Hpg Hs Hd. unfold spi_eeprom_memmove. rewrite (proj2 (Z.ltb_lt src dst)) by lia.
  assert (exists k, count = S k) as [k Hk] by (exists (pred count); lia).
  replace (move_loop storage_errno count) with (move_loop storage_errno (S k)) by (by rewrite Hk).
  cbn [move_loop].
  case_if; [lia|]. pose proof (page_offset_bound dst). pose proof page_size_bound.
  assert (Hn : move_chunk (-1) dst (Z.of_nat count) = Z.of_nat count).
  { unfold move_chunk. cbn [Z.gtb Z.compare]. rewrite (u8_small (_ + 1)) by (unfold is_u8; lia).
    case_if; [|lia]. apply u8_small. unfold is_u8. lia. }
  rewrite Hn. cbn [Z.ltb Z.gtb Z.compare]. rewrite Z.sub_diag.
  eapply within_bind; [by apply wait_spec|]. intros b1 Hr.
  destruct (spi_move_step_spec c (src - Z.of_nat count) (dst - Z.of_nat count) (Z.of_nat count) b1 Hr)
    as (b2 & R & W & Hi2); [lia..| |].
  { rewrite page_offset_mod in *. assert ((dst - Z.of_nat count) mod SPI_MEM_PAGE_SIZE =
      dst mod SPI_MEM_PAGE_SIZE - Z.of_nat count); [|lia].
    symmetry. apply (Z.mod_unique _ _ (dst / SPI_MEM_PAGE_SIZE)); [lia|].
    pose proof (Z.div_mod dst SPI_MEM_PAGE_SIZE). lia. }
  destruct (spi_eeprom_read _ _ b1) as [buf b2']. injection R as R1 -> ->. rewrite R1.
  destruct (spi_eeprom_write_page _ _ b2) as [w b3]. cbn [fst snd] in *. subst w.
  rewrite Z.eqb_refl. cbn [negb].
  rewrite Nat2Z.id in Hi2. destruct k; cbn [move_loop Z.eqb]; by apply within_ret.
Qed.

(** ** Streams *)

(** Between two bytes of a stream the chip waits at a page start, or it is
    selected and has latched the bytes of the page so far. *)
Definition streaming (addr a : Z) (bs : list Z) (c : Z -> Z) (b : B) : Prop :=
  (page_offset addr = 0 /\ a = addr /\ bs = [] /\ idle c b) \/
  (page_offset addr <> 0 /\ addr = a + Z.of_nat (length bs) /\
   page_offset addr = page_offset a + Z.of_nat (length bs) /\ phase (view b) = Writing a bs /\
   latch (view b) = true /\ forall x, cells (view b) x = c x).

Lemma page_offset_succ addr :
  page_offset (addr + 1) = (if page_offset addr =? SPI_MEM_PAGE_SIZE - 1 then 0 else page_offset addr + 1).
Proof.
  pose proof page_size_bound. pose proof (page_offset_bound addr) as Hb. rewrite !page_offset_mod in *.
  rewrite <- Z.add_mod_idemp_l by lia. case_if.
  - rewrite Heqb, Z.sub_add. apply Z.mod_same. lia.
  - apply Z.mod_small. lia.
Qed.

(** Sending a byte, and deselecting the chip after the last one of a page. *)
Lemma spi_stream_send_spec addr a bs c x last b :
  addr = a + Z.of_nat (length bs) -> page_offset addr = page_offset a + Z.of_nat (length bs) ->
  phase (view b) = Writing a bs -> latch (view b) = true -> (forall x, cells (view b) x = c x) ->
  0 <= a -> addr < spi_size ->
  let b' := (spi_eeprom_continue_write [x] b).2 in
  let b'' := if last || (page_offset (addr + 1) =? 0) then spi_slave_off b' else b' in
  if last : bool then idle (blit a (bs ++ [x]) c) b''
  else exists a' bs' c', streaming (addr + 1) a' bs' c' b'' /\ 0 <= a' /\
    forall l y, blit a' (bs' ++ l) c' y = blit a (bs ++ x :: l) c y.
Proof.
  intros Haddr Hoff Hp Hl Hc Ha Hs b' b''. pose proof (page_offset_bound addr). pose proof page_size_bound.
  assert (V : view b' = with_phase (Writing a (bs ++ [x])) (view b)) by (by apply continue_write_spec).
  assert (Hcommit : idle (blit a (bs ++ [x]) c) (spi_slave_off b')).
  { apply spi_commit_spec; rewrite ?V; try done; [by destruct bs|lia|rewrite length_app; cbn [length]; lia]. }
  destruct last; [done|]. subst b''. cbn [orb]. case_if.
  - exists (addr + 1), [], (blit a (bs ++ [x]) c). split; [by left|]. split; [lia|]. intros l y.
    cbn [app]. change (x :: l) with ([x] ++ l). rewrite (app_assoc bs).
    rewrite <- (blit_app a (bs ++ [x]) l). rewrite length_app. cbn [length].
    by replace (a + Z.of_nat (length bs + 1)) with (addr + 1) by lia.
  - exists a, (bs ++ [x]), c. split; [|split; [done|]].
    + right. rewrite V, length_app. cbn [length phase latch cells with_phase].
      rewrite page_offset_succ in *. destruct (page_offset addr =? _); [done|].
      split_and!; [done|lia|lia|done..].
    + intros l y. by rewrite <- app_assoc.
Qed.

Lemma spi_write_step_spec addr a bs c x last b :
  streaming addr a bs c b -> 0 <= a -> 0 <= addr < spi_size ->
  polled (spi_eeprom_write_step storage_errno addr [x] last b)
    (fun r => r.1 = SPI_EEPROM_OK /\
      if last : bool then idle (blit a (bs ++ [x]) c) r.2
      else exists a' bs' c', streaming (addr + 1) a' bs' c' r.2 /\ 0 <= a' /\
        forall l y, blit a' (bs' ++ l) c' y = blit a (bs ++ x :: l) c y).
Proof.
  intros Hst Ha Hs. pose proof spi_size_ok. unfold spi_eeprom_write_step.
  destruct Hst as [(H0 & -> & -> & Hi) | (H0 & Haddr & Hoff & Hp & Hl & Hc)].
  - rewrite H0. cbn [Z.eqb].
    apply (within_ext (fun n => b1 ← spi_eeprom_wait_for_last_write_end b n;
      let '(n, b2) := spi_eeprom_continue_write [x] (spi_eeprom_start_write addr b1).2 in
      Some (SPI_EEPROM_OK, if last || (page_offset (addr + 1) =? 0) then spi_slave_off b2 else b2))).
    { intros n. by destruct (spi_eeprom_wait_for_last_write_end b n). }
    eapply within_bind; [by apply wait_spec|]. intros b1 Hr.
    destruct (spi_start_write_spec c addr b1 Hr) as [_ V]; [unfold is_u16; lia|].
    apply within_ret. split; [done|].
    apply (spi_stream_send_spec addr addr [] c x last); rewrite ?V; cbn [length phase latch cells];
      [lia..|done|done|by destruct Hr as [(_ & ? & _)]|done|lia].
  - rewrite (proj2 (Z.eqb_neq _ _) H0). apply within_ret. split; [done|].
    exact (spi_stream_send_spec addr a bs c x last b Haddr Hoff Hp Hl Hc Ha (proj2 Hs)).
Qed.

Lemma spi_stream_loop_spec bytes addr a bs c b :
  streaming addr a bs c b -> 0 <= a -> 0 <= addr -> addr + Z.of_nat (length bytes) <= spi_size ->
  bytes <> [] ->
  polled (stream_loop storage_errno addr bytes b) (idle (blit a (bs ++ bytes) c)).
Proof.
  revert addr a bs c b. induction bytes as [|x bytes IH]; intros addr a bs c b Hst Ha Hd He Hne; [done|].
  cbn [stream_loop length] in *.
  eapply within_bind; [apply spi_write_step_spec; [exact Hst|done|lia]|].
  intros [r b1] [_ Hb1]. cbn [snd] in Hb1.
  destruct bytes as [|x' bytes]; [by apply within_ret|].
  destruct Hb1 as (a' & bs' & c' & Hst' & Ha' & Hx).
  eapply within_mono; [apply IH; [exact Hst'|done|lia|cbn [length] in *; lia|done]|].
  intros b2. apply idle_ext. intros y. apply Hx.
Qed.

Lemma spi_send_stream_spec c addr len b :
  ready c b -> 0 <= addr -> addr + Z.of_nat len <= spi_size ->
  (Endpoint_Write_Control_SpiMemStream addr len b).1 = bytes_at addr len c /\
  ready c (Endpoint_Write_Control_SpiMemStream addr len b).2.
Proof.
  revert addr b. induction len as [|len IH]; intros addr b Hr Ha Hs; [done|].
  cbn [Endpoint_Write_Control_SpiMemStream]. unfold spi_eeprom_read_byte.
  destruct (spi_read_spec c addr 1 b Hr) as [E Hr1]; [lia|lia|].
  destruct (spi_eeprom_read addr 1 b) as [buf b1]. cbn [fst snd] in *. subst buf.
  destruct (IH (addr + 1) b1 Hr1) as [E2 Hr2]; [lia|lia|].
  destruct (Endpoint_Write_Control_SpiMemStream _ _ b1) as [bytes b2]. cbn [fst snd] in *.
  rewrite E2, bytes_at_lookup, Z.add_0_r, (bytes_at_S addr len) by lia. by split.
Qed.

Lemma spi_stream_spec c addr bytes b :
  idle c b -> bytes <> [] -> 0 <= addr -> addr + Z.of_nat (length bytes) <= spi_size ->
  polled (Endpoint_Read_Control_SpiMemStream storage_errno addr bytes b) (idle (blit addr bytes c)).
Proof.
  intros Hi Hne Ha He. pose proof spi_size_ok.
  unfold Endpoint_Read_Control_SpiMemStream, spi_eeprom_start_write_if_unaligned.
  assert (Hl : 0 < Z.of_nat (length bytes)) by (destruct bytes; cbn [length]; [done|lia]).
  destruct (page_offset addr =? 0) eqn:Hz; bsplit; cbn [negb].
  - apply (within_ext (fun n => stream_loop storage_errno addr bytes b n)); [done|].
    apply (spi_stream_loop_spec _ addr addr []); [by left|done..].
  - eapply within_bind; [eapply within_bind; [by apply wait_spec|]|].
    + intros b1 Hr. apply within_ret.
      instantiate (1 := streaming addr addr [] c). right.
      destruct (spi_start_write_spec c addr b1 Hr) as [_ V]; [unfold is_u16; lia|].
      cbn [length]. rewrite V. cbn [phase latch cells].
      split_and!; [done|lia|lia|done|done|by destruct Hr as [(_ & ? & _)]].
    + intros b1 Hst. by apply (spi_stream_loop_spec _ addr addr []).
Qed.
End Proofs.

(** ** A chip for the witnesses

    It follows the documentation step by step: 8 KB in pages of 32 bytes; a
    write cycle keeps it busy for three reads of the status. *)

Definition sim_transfer (x : Z) (v : spi_view) : Z * spi_view :=
  match phase v with
  | Command =>
      (255, if x =? 5 then with_phase Status v
            else if negb (Nat.eqb (cycle v) 0) then v
            else if x =? 6 then with_phase Enabling v
            else if x =? 2 then with_phase (Address true) v
            else if x =? 3 then with_phase (Address false) v else v)
  | Status => ((if Nat.eqb (cycle v) 0 then 0 else 1), mkSpi Status (cells v) (latch v) (pred (cycle v)))
  | Address w => (255, with_phase (AddressLow w x) v)
  | AddressLow w h =>
      (255, with_phase (if w then Writing (256 * h + x) [] else Reading (256 * h + x)) v)
  | Reading a => (cells v a, with_phase (Reading ((a + 1) mod 8192)) v)
  | Writing a bs => (255, with_phase (Writing a (bs ++ [x])) v)
  | _ => (255, v)
  end.

Definition sim_off (v : spi_view) : spi_view :=
  match phase v with
  | Enabling => mkSpi Deselected (cells v) true (cycle v)
  | Writing a bs =>
      if latch v then mkSpi Deselected (program_page 32 a bs (cells v)) false 3
      else with_phase Deselected v
  | _ => with_phase Deselected v
  end.

#[export] Instance sim_bus : SpiBus spi_view := {|
  SPI_MEM_PAGE_SIZE := 32;
  spi_slave_on := with_phase Command;
  spi_slave_off := sim_off;
  spi_transfer := sim_transfer
|}.

#[export] Program Instance sim_chip : SpiChip spi_view := {| spi_size := 8192; max_polls := 3; view := fun v => v |}.
Solve Obligations with
  (cbn; unfold send; cbn; unfold sim_transfer, sim_off; intros;
   repeat match goal with
   | H : phase _ = _ |- _ => rewrite ?H; clear H
   | H : cycle _ = 0%nat |- _ => rewrite ?H; clear H
   end; (done || lia || auto)).
Next Obligation.
  cbn. unfold send. cbn. unfold sim_transfer. intros b x ->. cbn. by destruct (cycle b).
Qed.
Next Obligation. cbn. unfold sim_off. intros b [->|[a ->]]; done. Qed.
Next Obligation. cbn. unfold sim_off. intros b a bs -> _ _ _ ->. exists 3%nat. split; [lia|done]. Qed.

Definition blank_chip : spi_view := mkSpi Deselected (fun x => x mod 7) false 2.

Lemma blank_idle : idle (fun x => x mod 7) blank_chip.
Proof. split; [done|]. split; [done|]. cbn. lia. Qed.

(** ** The properties *)

(** C21: The driver makes the external eeprom memory. On a chip that behaves as documented, busy or
    not, whatever block is written, set or moved to lower addresses, across any number of pages: the
    call returns as soon as no poll of the status can find the chip busy any more, reports success
    (a write the number of bytes), and afterwards the cells hold the
    block and are otherwise unchanged; a word is stored low byte first even across the end of a
    page; a stream from the host is stored byte by byte as it arrives, wherever in a page it starts
    or ends; a read after waiting returns the cells. *)
Theorem spi_behaves_like_memory {B : Type} {Bus : SpiBus B} {Chip : SpiChip B} (err : Z)
    (c : Z -> Z) (b : B) (dst src x : Z) (buf : list Z) (n : nat) :
  idle c b -> buf <> [] -> 0 <= dst -> dst + Z.of_nat (length buf) <= spi_size ->
  Z.of_nat (length buf) < 32768 ->
  dst + Z.of_nat n <= spi_size -> dst <= src -> src + Z.of_nat n <= spi_size -> dst + 2 <= spi_size ->
  polled (spi_eeprom_write dst buf b)
    (fun r => r.1 = Z.of_nat (length buf) /\ idle (blit dst buf c) r.2) /\
  polled (spi_eeprom_memset dst x n b)
    (fun r => r.1 = SPI_EEPROM_OK /\ idle (blit dst (replicate n (u8 x)) c) r.2) /\
  polled (spi_eeprom_memmove err dst src n b)
    (fun r => r.1 = SPI_EEPROM_OK /\ idle (blit dst (bytes_at src n c) c) r.2) /\
  polled (spi_eeprom_write_byte dst x b)
    (fun r => r.1 = SPI_EEPROM_OK /\ idle (blit dst [x] c) r.2) /\
  polled (spi_eeprom_write_short dst x b)
    (fun r => r.1 = SPI_EEPROM_OK /\ idle (blit dst (le16 x) c) r.2) /\
  polled (fun fuel => b ← spi_eeprom_wait_for_last_write_end b fuel; Some (spi_eeprom_read dst n b))
    (fun r => r.1 = bytes_at dst n c /\ idle c r.2) /\
  polled (Endpoint_Read_Control_SpiMemStream err dst buf b) (idle (blit dst buf c)).
Proof.
  intros Hi Hne Hd Hw Hl Hn Hs Hsn H2. split_and!.
  - by apply write_spec.
  - by apply memset_spec.
  - apply move_up; [done|lia|lia].
  - apply spi_write_byte_spec; [done|lia].
  - by apply write_short_spec.
  - eapply within_bind; [by apply wait_spec|]. intros b1 Hr. apply within_ret.
    destruct (spi_read_spec c dst n b1 Hr) as [R [Hi' _]]; [lia|lia|]. done.
  - by apply spi_stream_spec.
Qed.

Lemma spi_behaves_like_memory_witness :
  (fun r => (r.1, bytes_at 29 8 (cells r.2))) <$> spi_eeprom_write 30 [70;71;72;73;74] blank_chip 4
    = Some (5, [1;70;71;72;73;74;0;1]) /\
  (fun b => bytes_at 29 8 (cells b)) <$> Endpoint_Read_Control_SpiMemStream 0 30 [70;71;72;73;74] blank_chip 4
    = Some [1;70;71;72;73;74;0;1] /\
  polled (spi_eeprom_write 30 [70;71;72;73;74] blank_chip)
    (fun r => r.1 = 5 /\ idle (blit 30 [70;71;72;73;74] (fun x => x mod 7)) r.2) /\
  polled (spi_eeprom_memmove 0 30 60 40 blank_chip)
    (fun r => r.1 = 0 /\ idle (blit 30 (bytes_at 60 40 (fun x => x mod 7)) (fun x => x mod 7)) r.2).
Proof.
  split; [vm_compute; reflexivity|]. split; [vm_compute; reflexivity|].
  assert (Hi : idle (fun x => x mod 7) blank_chip) by exact blank_idle.
  destruct (spi_behaves_like_memory 0 _ _ 30 60 9 [70;71;72;73;74] 40 Hi) as (H1 & _ & H2 & _);
    [discriminate|vm_compute; congruence..|]. exact (conj H1 H2).
Defined.

(** Moving a block to a higher address moves the wrong block. When the block is not longer than
    the part of the page before [dst], the move reports success, the cells of [dst] are unchanged,
    and the bytes before [src] have overwritten the bytes before [dst]: the cursors are not set
    behind the blocks before going down. *)
Theorem spi_memmove_up_wrong {B : Type} {Bus : SpiBus B} {Chip : SpiChip B} (err : Z)
    (c : Z -> Z) (b : B) (dst src : Z) (n : nat) :
  idle c b -> (0 < n)%nat -> Z.of_nat n <= page_offset dst -> Z.of_nat n <= src < dst -> dst < spi_size ->
  polled (spi_eeprom_memmove err dst src n b)
    (fun r => r.1 = SPI_EEPROM_OK /\
       bytes_at dst n (cells (view r.2)) = bytes_at dst n c /\
       bytes_at (dst - Z.of_nat n) n (cells (view r.2)) = bytes_at (src - Z.of_nat n) n c).
Proof.
  intros Hi H0 Hpg Hs Hd. eapply within_mono; [by apply (move_down_short err c)|].
  intros [r b'] (-> & _ & Hx & _). cbn [fst snd] in *. split_and!; [done| |].
  - apply bytes_at_ext. intros x Hxr. rewrite Hx. apply blit_out. rewrite bytes_at_length. lia.
  - rewrite (bytes_at_ext _ _ _ _ (fun x _ => Hx x)).
    pose proof (bytes_at_blit (dst - Z.of_nat n) (bytes_at (src - Z.of_nat n) n c) c) as E.
    by rewrite bytes_at_length in E.
Qed.

Lemma spi_memmove_up_wrong_witness :
  polled (spi_eeprom_memmove 0 20 15 4 blank_chip)
    (fun r => r.1 = SPI_EEPROM_OK /\
       bytes_at 20 4 (cells (view r.2)) = bytes_at 20 4 (fun x => x mod 7) /\
       bytes_at (20 - Z.of_nat 4) 4 (cells (view r.2)) = bytes_at (15 - Z.of_nat 4) 4 (fun x => x mod 7)).
Proof.
  apply (spi_memmove_up_wrong 0 (fun x => x mod 7) blank_chip 20 15 4);
    [exact blank_idle|lia|vm_compute; congruence|vm_compute; split; congruence|reflexivity].
Defined.
