(* ===== verification/TwiBus.v ===== *)
(** * twi.h: the interface of the two-wire bus

    What the clients of the bus (the external eeprom, the I/O expander of the
    Ergodox) call.  A start or a stop always succeeds; a byte written is
    acknowledged or not, a byte read is acknowledged as asked. *)

From S2P Require Import Prelude.

(** [twi_ack] *)
Abbreviation ACK := 0 (only parsing).
Abbreviation NACK := 1 (only parsing).

Class TwiBus (B : Type) := {
  twi_start : B -> B;
  twi_stop : B -> B;
  twi_write_byte : Z -> B -> Z * B;
  twi_read_byte : Z -> B -> Z * B
}.
