(* ===== verification/Twi.v ===== *)
(** * twi.c: the two-wire bus, bit by bit

    The bit-banged bus of src/twi.c, for the boards whose eeprom is not on the
    pins of the processor's own interface.  Each line is pulled low or left to
    the pull-up; the state is what the data direction register does to the two
    lines, and [wire] the levels the lines were driven to, in order.  The
    device on the bus is a parameter: when it pulls the data line low, and for
    how many polls it holds the clock.  Delays are left out. *)

From S2P Require Import Prelude.

Abbreviation ACK := 0 (only parsing).
Abbreviation NACK := 1 (only parsing).

(** What the device does, given the levels so far. *)
Class TwiDevice := {
  pulls_sda : list (bool * bool) -> bool;
  holds_scl : list (bool * bool) -> nat
}.

(** [EEPROM_DDR]: [true] for a line that is pulled low. *)
Record twi_state := mkTwi {
  sda_out : bool;
  scl_out : bool;
  (* the levels (sda, scl) the firmware leaves the lines at *)
  wire : list (bool * bool)
}.

(** A write to [EEPROM_DDR]. *)
Definition drive (sda scl : bool) (s : twi_state) : twi_state :=
  mkTwi sda scl (wire s ++ [(negb sda, negb scl)]).

Definition twi_sda_high (s : twi_state) : twi_state := drive false (scl_out s) s.
Definition twi_sda_low (s : twi_state) : twi_state := drive true (scl_out s) s.
Definition twi_scl_high (s : twi_state) : twi_state := drive (sda_out s) false s.
Definition twi_scl_low (s : twi_state) : twi_state := drive (sda_out s) true s.

Definition twi_init (s : twi_state) : twi_state := drive false false s.

Definition twi_start (s : twi_state) : twi_state := twi_scl_low (twi_sda_low (drive false false s)).

Definition twi_stop (s : twi_state) : twi_state := twi_sda_high (twi_scl_high (twi_sda_low s)).

Section Bus.
Context {Dev : TwiDevice}.

(** Polls the clock line until the device releases it. *)
Fixpoint twi_clock_stretch (held fuel : nat) : option unit :=
  match fuel with
  | O => None
  | S fuel => match held with O => Some tt | S held => twi_clock_stretch held fuel end
  end.

Definition twi_write_bit (b : bool) (s : twi_state) (fuel : nat) : option twi_state :=
  let s := if b then twi_sda_high s else twi_sda_low s in
  let s := twi_scl_high s in
  _ ← twi_clock_stretch (holds_scl (wire s)) fuel;
  Some (twi_scl_low s).

(** The data line is high if neither side pulls it low. *)
Definition sda_pin (s : twi_state) : bool := negb (sda_out s) && negb (pulls_sda (wire s)).

Definition twi_read_bit (s : twi_state) (fuel : nat) : option (Z * twi_state) :=
  let s := twi_sda_high s in
  let s := twi_scl_high s in
  _ ← twi_clock_stretch (holds_scl (wire s)) fuel;
  let c := if sda_pin s then 1 else 0 in
  Some (c, twi_scl_low s).

(** [n] iterations of the loop of [twi_write_byte]. *)
Fixpoint write_bits (n : nat) (b : Z) (s : twi_state) (fuel : nat) : option twi_state :=
  match n with
  | O => Some s
  | S n =>
      s ← twi_write_bit (negb (Z.land b 128 =? 0)) s fuel;
      write_bits n (u8 (Z.shiftl b 1)) s fuel
  end.

Definition twi_write_byte (b : Z) (s : twi_state) (fuel : nat) : option (Z * twi_state) :=
  s ← write_bits 8 b s fuel;
  twi_read_bit s fuel.

Fixpoint read_bits (n : nat) (r : Z) (s : twi_state) (fuel : nat) : option (Z * twi_state) :=
  match n with
  | O => Some (r, s)
  | S n =>
      '(c, s) ← twi_read_bit s fuel;
      read_bits n (u8 (Z.lor (Z.shiftl r 1) c)) s fuel
  end.

Definition twi_read_byte (ack : Z) (s : twi_state) (fuel : nat) : option (Z * twi_state) :=
  '(r, s) ← read_bits 8 0 s fuel;
  s ← twi_write_bit (negb (ack =? 0)) s fuel;
  Some (r, s).

(** ** What a device sees

    The bus protocol: data is sampled when the clock rises; a change of the
    data line while the clock is high starts or ends a transfer. *)

Inductive twi_event := Start | Stop | Bit (b : bool).

Definition edge (before after : bool * bool) : list twi_event :=
  match before, after with
  | (sda, false), (sda', true) => [Bit sda']
  | (true, true), (false, true) => [Start]
  | (false, true), (true, true) => [Stop]
  | _, _ => []
  end.

Fixpoint seen (before : bool * bool) (levels : list (bool * bool)) : list twi_event :=
  match levels with
  | [] => []
  | l :: levels => edge before l ++ seen l levels
  end.

Lemma seen_app l ls ls' : seen l (ls ++ ls') = seen l ls ++ seen (default l (last ls)) ls'.
Proof.
  revert l. induction ls as [|l' ls IH]; intros l; [done|].
  cbn [seen app]. rewrite IH, <- app_assoc, last_cons. by destruct (last ls).
Qed.

(** The levels the lines are at. *)
Definition level (s : twi_state) : bool * bool := (negb (sda_out s), negb (scl_out s)).

(** [s'] has been reached from [s], and the device has seen [es]. *)
Definition shows (s : twi_state) (es : list twi_event) (s' : twi_state) : Prop :=
  exists levels, wire s' = wire s ++ levels /\ seen (level s) levels = es /\
    level s' = default (level s) (last levels).

Lemma shows_nil s : shows s [] s.
Proof. exists []. by rewrite app_nil_r. Qed.

Lemma shows_app s s' s'' es es' : shows s es s' -> shows s' es' s'' -> shows s (es ++ es') s''.
Proof.
  intros (l & Hw & Hs & Hl) (l' & Hw' & Hs' & Hl'). exists (l ++ l').
  rewrite Hw', Hw, <- app_assoc, seen_app, Hs, <- Hl, Hs'. split_and!; [done..|].
  rewrite Hl', last_app, Hl. by destruct (last l').
Qed.

Lemma stretch_ends held : terminates (twi_clock_stretch held) (fun _ => True).
Proof.
  exists (S held), tt. split; [done|]. intros n Hn. revert n Hn.
  induction held as [|held IH]; intros [|n] Hn; cbn; try lia; [done|]. apply IH. lia.
Qed.

(** One clock pulse with the data line at [b], from a low clock. *)
Lemma write_bit_spec b s :
  scl_out s = true ->
  terminates (twi_write_bit b s)
    (fun s' => scl_out s' = true /\ sda_out s' = negb b /\ shows s [Bit b] s').
Proof.
  intros Hs. unfold twi_write_bit. eapply terminates_bind; [apply stretch_ends|].
  intros _ _. apply terminates_ret.
  split; [done|]. split; [by destruct b|].
  exists [(b, false); (b, true); (b, false)]. unfold level.
  destruct s as [sda scl w], b; cbn in *; subst scl; rewrite <- !app_assoc; split_and!; try done;
    by destruct sda.
Qed.

(** One clock pulse with the data line left to the device. *)
Definition pulse : list (bool * bool) := [(true, false); (true, true); (true, false)].

Lemma read_bit_spec s :
  scl_out s = true ->
  terminates (twi_read_bit s)
    (fun r => scl_out r.2 = true /\ shows s [Bit true] r.2 /\ wire r.2 = wire s ++ pulse /\
       r.1 = (if pulls_sda (wire s ++ [(true, false); (true, true)]) then 0 else 1)).
Proof.
  intros Hs. unfold twi_read_bit. eapply terminates_bind; [apply stretch_ends|].
  intros _ _. apply terminates_ret. cbn [snd fst].
  split; [done|]. unfold sda_pin.
  destruct s as [sda scl w]; cbn in *; subst scl; rewrite <- !app_assoc; cbn [app]. split_and!.
  - exists pulse. cbn. rewrite <- !app_assoc. split_and!; try done; by destruct sda.
  - done.
  - by destruct (pulls_sda _).
Qed.

(** The bits in the order in which they are sent. *)
Definition msb_first (n : nat) (b : Z) : list bool :=
  map (fun i => Z.testbit b (7 - Z.of_nat i)) (seq 0 n).

Lemma testbit_7 b : negb (Z.land b 128 =? 0) = Z.testbit b 7.
Proof.
  change 128 with (2 ^ 7). destruct (Z.testbit b 7) eqn:Hb.
  - apply negb_true_iff, Z.eqb_neq. intros E. apply (f_equal (fun x => Z.testbit x 7)) in E.
    rewrite Z.land_spec, Z.pow2_bits_true, Hb, Z.bits_0 in E by lia. done.
  - apply negb_false_iff, Z.eqb_eq. apply Z.bits_inj'. intros i Hi.
    rewrite Z.land_spec, Z.bits_0. destruct (decide (i = 7)) as [->|Hne].
    + by rewrite Hb.
    + by rewrite Z.pow2_bits_false, andb_false_r by lia.
Qed.

Lemma shifted_testbit b i : 0 <= i < 7 -> Z.testbit (u8 (Z.shiftl b 1)) (i + 1) = Z.testbit b i.
Proof.
  intros Hi. unfold u8. change 256 with (2 ^ 8). rewrite Z.mod_pow2_bits_low by lia.
  rewrite Z.shiftl_spec by lia. f_equal. lia.
Qed.

Lemma msb_first_S n b :
  (n < 8)%nat -> msb_first (S n) b = Z.testbit b 7 :: msb_first n (u8 (Z.shiftl b 1)).
Proof.
  intros Hn. unfold msb_first. cbn [seq map]. f_equal.
  rewrite <- seq_shift, map_map. apply map_ext_in. intros i Hi. apply in_seq in Hi.
  rewrite <- (shifted_testbit b) by lia. f_equal. lia.
Qed.

Lemma write_bits_spec n b s :
  (n <= 8)%nat -> scl_out s = true ->
  terminates (write_bits n b s)
    (fun s' => scl_out s' = true /\ shows s (map Bit (msb_first n b)) s').
Proof.
  revert b s. induction n as [|n IH]; intros b s Hn Hs; cbn [write_bits].
  - apply terminates_ret. split; [done|]. apply shows_nil.
  - rewrite testbit_7. eapply terminates_bind; [by apply write_bit_spec|].
    intros s1 (Hs1 & _ & Hw1). eapply terminates_mono; [apply IH; [lia|done]|].
    intros s2 [Hs2 Hw2]. split; [done|]. rewrite msb_first_S by lia. cbn [map].
    by apply (shows_app s s1 s2 [_]).
Qed.

(** The levels at which the device acknowledges. *)
Definition acked (w : list (bool * bool)) : Z := if pulls_sda w then ACK else NACK.

Lemma twi_write_byte_spec b s :
  scl_out s = true ->
  terminates (twi_write_byte b s)
    (fun r => scl_out r.2 = true /\ shows s (map Bit (msb_first 8 b) ++ [Bit true]) r.2 /\
       exists w, wire r.2 = w ++ pulse /\ r.1 = acked (w ++ [(true, false); (true, true)])).
Proof.
  intros Hs. eapply terminates_bind; [by apply write_bits_spec|].
  intros s1 [Hs1 Hw1]. eapply terminates_mono; [by apply read_bit_spec|].
  intros [ack s2] (Hs2 & Hsh & Hw & Hr). cbn [fst snd] in *.
  split; [done|]. split; [by eapply shows_app|]. by exists (wire s1).
Qed.

(** ** Reading a byte *)

Lemma lor_bit r (c : bool) : 0 <= r -> Z.lor (Z.shiftl r 1) (Z.b2z c) = 2 * r + Z.b2z c.
Proof.
  intros Hr. rewrite Z.shiftl_mul_pow2 by lia. change (2 ^ 1) with 2. rewrite Z.mul_comm.
  destruct c; [|by rewrite Z.lor_0_r, Z.add_0_r]. by destruct r as [|p|p]; [|destruct p|lia].
Qed.

Lemma next_bit x n :
  0 <= n -> x / 2 ^ n = 2 * (x / 2 ^ (n + 1)) + Z.b2z (Z.testbit x n).
Proof.
  intros Hn. rewrite Z.testbit_spec' by done. rewrite Z.pow_add_r by lia.
  rewrite <- Z.div_div by lia. apply Z.div_mod. done.
Qed.

(** The device puts the bits of [x] on the data line, one for each of the next [n] pulses. *)
Definition presents (n : nat) (x : Z) (w : list (bool * bool)) : Prop :=
  forall i, (i < n)%nat ->
    pulls_sda (w ++ concat (replicate i pulse) ++ [(true, false); (true, true)]) =
      negb (Z.testbit x (Z.of_nat (n - 1 - i))).

Lemma presents_S n x w : presents (S n) x w -> presents n x (w ++ pulse).
Proof.
  intros Hp i Hi. specialize (Hp (S i) ltac:(lia)). cbn [replicate concat] in Hp.
  rewrite <- app_assoc. rewrite <- !app_assoc in Hp. rewrite Hp. do 2 f_equal. lia.
Qed.

Lemma read_bits_spec n x s :
  is_u8 x -> scl_out s = true -> presents n x (wire s) ->
  terminates (read_bits n (x / 2 ^ Z.of_nat n) s)
    (fun r => r.1 = x /\ scl_out r.2 = true /\ shows s (replicate n (Bit true)) r.2).
Proof.
  intros Hx. revert s. induction n as [|n IH]; intros s Hs Hp; cbn [read_bits].
  - apply terminates_ret. cbn. rewrite Z.div_1_r. split_and!; [done..|]. apply shows_nil.
  - eapply terminates_bind; [by apply read_bit_spec|].
    intros [c s1] (Hs1 & Hsh & Hw & Hc). cbn [fst snd] in *.
    assert (Hcb : c = Z.b2z (Z.testbit x (Z.of_nat n))).
    { rewrite Hc. pose proof (Hp 0%nat ltac:(lia)) as H0. cbn [replicate concat app] in H0. rewrite H0.
      replace (S n - 1 - 0)%nat with n by lia.
      generalize (Z.testbit x (Z.of_nat n)). by intros []. }
    pose proof (next_bit x (Z.of_nat n) ltac:(lia)) as Hnb.
    replace (Z.of_nat n + 1) with (Z.of_nat (S n)) in Hnb by lia.
    assert (H0 : 0 <= x / 2 ^ Z.of_nat (S n)) by (apply Z.div_pos; [apply Hx|lia]).
    assert (H1 : 0 <= x / 2 ^ Z.of_nat n <= x).
    { split; [apply Z.div_pos; [apply Hx|lia]|]. apply Z.div_le_upper_bound; [lia|].
      pose proof (Z.pow_pos_nonneg 2 (Z.of_nat n)). unfold is_u8 in Hx. nia. }
    rewrite Hcb, lor_bit, <- Hnb, u8_small by (unfold is_u8 in *; lia).
    eapply terminates_mono; [apply IH; [done|rewrite Hw; by apply presents_S]|].
    intros [r s2] (Hr & Hs2 & Hsh2). split_and!; [done..|]. by apply (shows_app s s1 s2 [_]).
Qed.

Lemma read_byte_spec x (nack : bool) s :
  is_u8 x -> scl_out s = true -> presents 8 x (wire s) ->
  terminates (twi_read_byte (Z.b2z nack) s)
    (fun r => r.1 = x /\ scl_out r.2 = true /\ shows s (replicate 8 (Bit true) ++ [Bit nack]) r.2).
Proof.
  intros Hx Hs Hp. eapply terminates_bind.
  { pose proof (read_bits_spec 8 x s Hx Hs Hp) as Hr.
    rewrite Z.div_small in Hr by (unfold is_u8 in Hx; cbn; lia). exact Hr. }
  intros [r s1] (Hr & Hs1 & Hsh). cbn [fst snd] in *.
  eapply terminates_bind; [by apply write_bit_spec|].
  intros s2 (Hs2 & _ & Hsh2). apply terminates_ret. cbn [fst snd].
  split_and!; [done..|]. assert (negb (Z.b2z nack =? 0) = nack) as E by (by destruct nack).
  rewrite E in Hsh2. by eapply shows_app.
Qed.

(** ** Start and stop *)

Lemma twi_start_spec s :
  sda_out s = false -> shows s ((if scl_out s then [Bit true] else []) ++ [Start]) (twi_start s) /\
  scl_out (twi_start s) = true.
Proof.
  intros Hs. split; [|done]. exists [(true, true); (false, true); (false, false)].
  unfold twi_start, level, drive, twi_scl_low, twi_sda_low.
  destruct s as [sda scl w]; cbn in *; subst sda. rewrite <- !app_assoc. by destruct scl.
Qed.

Lemma stop_spec s :
  scl_out s = true -> shows s [Bit false; Stop] (twi_stop s) /\ level (twi_stop s) = (true, true).
Proof.
  intros Hs. split; [|done]. exists [(false, false); (false, true); (true, true)].
  unfold twi_stop, level, twi_sda_high, twi_scl_high, twi_sda_low, drive.
  destruct s as [sda scl w]; cbn in *; subst scl. rewrite <- !app_assoc. by destruct sda.
Qed.
End Bus.

(** A device that acknowledges the first byte, for the witness: it pulls the data line low at the
    ninth pulse of the clock after the start. *)
Definition acknowledging : TwiDevice := {|
  pulls_sda := fun w => Nat.eqb (length w) 29;
  holds_scl := fun w => 2%nat
|}.

(** ** The properties *)

(** C38: A byte crosses the bus. From a low clock, whatever the device does with the clock, writing
    a byte ends, and a device that follows the bus protocol sees its eight bits, the highest first,
    then one more clock for the acknowledgement, no start or stop in between; the result tells
    whether the device pulled the data line low at that clock. Reading a byte returns the byte the
    device presents, highest bit first, and answers with the given acknowledgement. *)
Theorem twi_byte_on_the_wire {Dev : TwiDevice} (b x : Z) (nack : bool) (s : twi_state) :
  is_u8 x -> scl_out s = true -> presents 8 x (wire s) ->
  terminates (twi_write_byte b s)
    (fun r => scl_out r.2 = true /\ shows s (map Bit (msb_first 8 b) ++ [Bit true]) r.2 /\
       exists w, wire r.2 = w ++ pulse /\ r.1 = acked (w ++ [(true, false); (true, true)])) /\
  terminates (twi_read_byte (Z.b2z nack) s)
    (fun r => r.1 = x /\ scl_out r.2 = true /\ shows s (replicate 8 (Bit true) ++ [Bit nack]) r.2) /\
  shows s [Bit false; Stop] (twi_stop s).
Proof.
  intros Hx Hs Hp. split; [by apply twi_write_byte_spec|]. split; [by apply read_byte_spec|].
  by apply stop_spec.
Qed.

Lemma twi_byte_on_the_wire_witness :
  let Dev := acknowledging in
  let s := twi_start (mkTwi false false []) in
  (fun r => (r.1, seen (true, true) (wire (twi_stop r.2)))) <$> twi_write_byte 160 s 5 =
    Some (ACK, [Start; Bit true; Bit false; Bit true; Bit false; Bit false; Bit false; Bit false; Bit false;
                Bit true; Bit false; Stop]) /\
  terminates (twi_read_byte 1 s)
    (fun r => r.1 = 255 /\ scl_out r.2 = true /\ shows s (replicate 8 (Bit true) ++ [Bit true]) r.2).
Proof.
  split; [vm_compute; reflexivity|].
  eapply (twi_byte_on_the_wire (Dev := acknowledging) 160 255 true); [vm_compute; split; congruence|done|].
  intros i Hi. do 8 (destruct i as [|i]; [reflexivity|]). lia.
Defined.
