(* ===== verification/I2cEeprom.v ===== *)
(** * storage/i2c_eeprom.c: the external eeprom on the two-wire bus

    The driver of src/storage/i2c_eeprom.c, and the stream writes of
    src/lufa/eeext_endpoint_stream.c, over a bus ([TwiBus], the interface of
    src/twi.h) with the eeproms on it, which are a parameter: [I2cChip] holds
    what their documentation says.  A chip answers to its select byte unless a
    write cycle is going on; it then takes the low byte of the address and
    stores the bytes that follow into one page when the transfer stops; after a
    new start it can be read from its address counter.  Each of the driver's
    attempts to select a chip takes a millisecond, a write cycle at most ten of
    them. *)

From S2P Require Import Prelude TwiBus Storage.

(** [enum i2c_eeprom_err] *)
Abbreviation SUCCESS := 0 (only parsing).
Abbreviation WSELECT_ERROR := 1 (only parsing).
Abbreviation RSELECT_ERROR := 2 (only parsing).
Abbreviation ADDRESS_ERROR := 3 (only parsing).
Abbreviation DATA_ERROR := 4 (only parsing).
Abbreviation EEEXT_PAGE_SIZE := 16 (only parsing).

(** ** The driver *)

Section Driver.
Context {B : Type} {Bus : TwiBus B}.

(** The bus and the global variable [storage_errno]. *)
Record i2c_state := mkI2c { bus : B; storage_errno : Z }.

Definition on_bus (f : B -> B) (s : i2c_state) : i2c_state := mkI2c (f (bus s)) (storage_errno s).
Definition set_errno (e : Z) (s : i2c_state) : i2c_state := mkI2c (bus s) e.

(** The select bytes: the upper six bits of the 14-bit address. *)
Definition write_select (addr : Z) : Z := Z.lxor 160 (Z.land (Z.shiftr addr 7) 126).
Definition read_select (addr : Z) : Z := Z.lxor 161 (Z.land (Z.shiftr addr 7) 126).

(** Up to [tries] attempts to select the chip. *)
Fixpoint select_loop (tries : nat) (address_byte : Z) (b : B) : bool * B :=
  match tries with
  | O => (false, b)
  | S tries =>
      let b := twi_start b in
      let '(a, b) := twi_write_byte address_byte b in
      if a =? ACK then (true, b) else select_loop tries address_byte b
  end.

Definition i2c_eeprom_start_write (addr : Z) (b : B) : Z * B :=
  let '(ack, b) := select_loop 11 (write_select addr) b in
  if negb ack then (WSELECT_ERROR, twi_stop b) else
  let '(a, b) := twi_write_byte (Z.land addr 255) b in
  if negb (a =? ACK) then (ADDRESS_ERROR, twi_stop b) else (SUCCESS, b).

(** The number of bytes sent before one was refused. *)
Fixpoint continue_loop (i : Z) (buf : list Z) (s : i2c_state) : Z * i2c_state :=
  match buf with
  | [] => (i, s)
  | x :: buf =>
      let '(a, b) := twi_write_byte x (bus s) in
      let s := mkI2c b (storage_errno s) in
      if negb (a =? ACK) then (i, on_bus twi_stop (set_errno DATA_ERROR s))
      else continue_loop (i + 1) buf s
  end.

Definition i2c_eeprom_continue_write (buf : list Z) (s : i2c_state) : Z * i2c_state :=
  let '(i, s) := continue_loop 0 buf s in (u8 i, s).

Definition i2c_eeprom_write_page (addr : Z) (buf : list Z) (s : i2c_state) : Z * i2c_state :=
  let len := Z.of_nat (length buf) in
  let '(r, b) := i2c_eeprom_start_write addr (bus s) in
  let s := mkI2c b SUCCESS in
  if negb (r =? SUCCESS) then (0, set_errno r s) else
  let '(wr, s) := i2c_eeprom_continue_write buf s in
  let wr := s8 wr in
  let s := if wr =? len then on_bus twi_stop s else s in
  (u8 wr, s).

Definition page_off (addr : Z) : Z := Z.land addr (EEEXT_PAGE_SIZE - 1).

Definition page_chunk (dst count : Z) : Z :=
  let dst_page_remaining := u8 (EEEXT_PAGE_SIZE - page_off dst) in
  if count <? dst_page_remaining then u8 count else dst_page_remaining.

(** The loop of [i2c_eeprom_write]: [k] bounds the number of chunks; the
    bytes left are all written then (see [write_ends] in [I2cProofs]). *)
Fixpoint i2c_write_loop (k : nat) (written dst : Z) (data : list Z) (s : i2c_state)
    : option (Z * i2c_state) :=
  let count := Z.of_nat (length data) in
  if count =? 0 then Some (written, s) else
  match k with
  | O => None
  | S k =>
      let n := page_chunk dst count in
      let '(w, s) := i2c_eeprom_write_page dst (take (Z.to_nat n) data) s in
      let written := s16 (written + w) in
      if negb (w =? n) then Some (if written =? 0 then written else -1, s)
      else i2c_write_loop k written (dst + n) (drop (Z.to_nat n) data) s
  end.

Definition i2c_eeprom_write (dst : Z) (data : list Z) (s : i2c_state) : option (Z * i2c_state) :=
  i2c_write_loop (length data) 0 dst data s.

Definition i2c_eeprom_write_byte (dst x : Z) (s : i2c_state) : Z * i2c_state :=
  let '(r, s) := i2c_eeprom_write_page dst [x] s in
  if r =? 1 then (SUCCESS, s) else (storage_errno s, s).

(** The result of a write of two bytes is compared with 1: the error code is returned either way. *)
Definition i2c_eeprom_write_short (dst x : Z) (s : i2c_state) : option (Z * i2c_state) :=
  '(r, s) ← i2c_eeprom_write dst (le16 x) s;
  Some (if r =? 1 then SUCCESS else storage_errno s, s).

Definition i2c_eeprom_write_step (dst : Z) (data : list Z) (last : bool) (s : i2c_state) : Z * i2c_state :=
  let len := Z.of_nat (length data) in
  let '(r, s) := if page_off dst =? 0 then
                   let '(r, b) := i2c_eeprom_start_write dst (bus s) in (r, mkI2c b (storage_errno s))
                 else (SUCCESS, s) in
  if negb (r =? SUCCESS) then (r, s) else
  let '(n, s) := i2c_eeprom_continue_write data s in
  if negb (len =? n) then (storage_errno s, s) else
  let s := if last || (page_off (dst + len) =? 0) then on_bus twi_stop s else s in
  (SUCCESS, s).

(** [len] bytes, the last one not acknowledged. *)
Fixpoint read_bytes (len : nat) (b : B) : list Z * B :=
  match len with
  | O => ([], b)
  | S len =>
      let '(x, b) := twi_read_byte (match len with O => NACK | _ => ACK end) b in
      let '(buf, b) := read_bytes len b in (x :: buf, b)
  end.

(** The bytes read; the result of the source is their number, or -1 for none. *)
Definition i2c_eeprom_read (addr : Z) (len : nat) (s : i2c_state) : list Z * i2c_state :=
  let '(r, b) := i2c_eeprom_start_write addr (bus s) in
  if negb (r =? SUCCESS) then ([], mkI2c (twi_stop b) r) else
  let b := twi_start b in
  let '(a, b) := twi_write_byte (read_select addr) b in
  if negb (a =? ACK) then ([], mkI2c (twi_stop b) RSELECT_ERROR) else
  let '(buf, b) := read_bytes len b in
  (buf, mkI2c (twi_stop b) SUCCESS).

(** [size_t]: the number of bytes read, or (size_t)-1. *)
Definition read_result (buf : list Z) : Z :=
  if Z.of_nat (length buf) =? 0 then 65535 else Z.of_nat (length buf).

(** A byte that is not read keeps its undefined value: 0 here. *)
Definition i2c_eeprom_read_byte (addr : Z) (s : i2c_state) : Z * i2c_state :=
  let '(buf, s) := i2c_eeprom_read addr 1 s in (buf !!! 0%nat, s).

Definition i2c_eeprom_read_short (addr : Z) (s : i2c_state) : Z * i2c_state :=
  let '(buf, s) := i2c_eeprom_read addr 2 s in (of_le16 buf, s).

Definition move_remaining (direction dst : Z) : Z :=
  let dst_cursor_page_offset := page_off dst in
  if direction >? 0 then u8 (EEEXT_PAGE_SIZE - dst_cursor_page_offset)
  else if dst_cursor_page_offset =? 0 then EEEXT_PAGE_SIZE else dst_cursor_page_offset.

Fixpoint i2c_move_loop (k : nat) (direction dst src count : Z) (s : i2c_state) : option (Z * i2c_state) :=
  if count =? 0 then Some (SUCCESS, s) else
  match k with
  | O => None
  | S k =>
      let remaining := move_remaining direction dst in
      let n := if count <? remaining then count else remaining in
      let '(src, dst) := if direction <? 0 then (src - n, dst - n) else (src, dst) in
      let '(buf, s) := i2c_eeprom_read src (Z.to_nat n) s in
      if negb (read_result buf =? n) then Some (storage_errno s, s) else
      let '(w, s) := i2c_eeprom_write_page dst buf s in
      if negb (w =? n) then Some (storage_errno s, s) else
      let '(src, dst) := if direction >? 0 then (src + n, dst + n) else (src, dst) in
      i2c_move_loop k direction dst src (count - n) s
  end.

Definition i2c_eeprom_memmove (dst src : Z) (count : nat) (s : i2c_state) : option (Z * i2c_state) :=
  if src <? dst
  then i2c_move_loop count (-1) (dst + Z.of_nat count) (src + Z.of_nat count) (Z.of_nat count) s
  else i2c_move_loop count 1 dst src (Z.of_nat count) s.

Fixpoint i2c_memset_loop (k : nat) (dst : Z) (page : list Z) (len : Z) (s : i2c_state)
    : option (Z * i2c_state) :=
  if negb (len >? 0) then Some (SUCCESS, s) else
  match k with
  | O => None
  | S k =>
      let step := page_chunk dst len in
      let '(r, s) := i2c_eeprom_write_page dst (take (Z.to_nat step) page) s in
      if negb (r =? step) then Some (storage_errno s, s)
      else i2c_memset_loop k (dst + step) page (len - step) s
  end.

Definition i2c_eeprom_memset (dst c : Z) (len : nat) (s : i2c_state) : option (Z * i2c_state) :=
  i2c_memset_loop len dst (replicate 16 (u8 c)) (Z.of_nat len) s.

(** *** src/lufa/eeext_endpoint_stream.c *)

Definition i2c_eeprom_start_write_if_unaligned (addr : Z) (s : i2c_state) : i2c_state :=
  if negb (page_off addr =? 0) then on_bus (fun b => (i2c_eeprom_start_write addr b).2) s else s.

Fixpoint i2c_stream_loop (addr : Z) (bytes : list Z) (s : i2c_state) : i2c_state :=
  match bytes with
  | [] => s
  | x :: bytes =>
      let s := (i2c_eeprom_write_step addr [x] (match bytes with [] => true | _ => false end) s).2 in
      i2c_stream_loop (addr + 1) bytes s
  end.

Fixpoint Endpoint_Write_Control_SEStream (addr : Z) (len : nat) (s : i2c_state) : list Z * i2c_state :=
  match len with
  | O => ([], s)
  | S len =>
      let '(x, s) := i2c_eeprom_read_byte addr s in
      let '(bytes, s) := Endpoint_Write_Control_SEStream (addr + 1) len s in
      (x :: bytes, s)
  end.

Definition Endpoint_Read_Control_SEStream (addr : Z) (bytes : list Z) (s : i2c_state) : i2c_state :=
  i2c_stream_loop addr bytes (i2c_eeprom_start_write_if_unaligned addr s).
End Driver.
Arguments i2c_state : clear implicits.

(** ** The chips *)

Inductive i2c_phase :=
  | Stopped
  | Started
  | Restarted
  | WordAddress (high : Z)
  | Receiving (a : Z) (latched : list Z)
  | Sending.

(** [busy]: how many more attempts to select a chip fail. *)
Record i2c_view := mkI2cView {
  i2c_phase_of : i2c_phase;
  i2c_cells : Z -> Z;
  (* the address counter *)
  counter : Z;
  busy : nat
}.

Definition in_phase (p : i2c_phase) (v : i2c_view) : i2c_view :=
  mkI2cView p (i2c_cells v) (counter v) (busy v).

(** A page write wraps within its page. *)
Fixpoint program16 (a : Z) (bs : list Z) (m : Z -> Z) : Z -> Z :=
  match bs with
  | [] => m
  | b :: bs => program16 (if (a + 1) mod 16 =? 0 then a + 1 - 16 else a + 1) bs (upd a b m)
  end.

(** The chips on the bus make one array of [i2c_size] cells. *)
Class I2cChip (B : Type) `{TwiBus B} := {
  i2c_size : Z;
  i2c : B -> i2c_view;
  i2c_size_ok : 0 <= i2c_size <= 16384;
  start_ok b : i2c_phase_of (i2c b) = Stopped \/ i2c_phase_of (i2c b) = Started ->
    i2c (twi_start b) = in_phase Started (i2c b);
  (* a new start before any data: a chip stays selected, its counter set *)
  restart_ok b a : i2c_phase_of (i2c b) = Receiving a [] ->
    i2c (twi_start b) = in_phase Restarted (i2c b);
  (* the chip at [addr] is selected for writing, unless it is busy *)
  select_write_ok b addr : i2c_phase_of (i2c b) = Started -> 0 <= addr < i2c_size ->
    let '(a, b') := twi_write_byte (Z.lxor 160 (2 * (addr / 256))) b in
    (a = ACK /\ i2c b' = in_phase (WordAddress (addr / 256)) (i2c b)) \/
    (a <> ACK /\ busy (i2c b) <> 0%nat /\
     i2c b' = mkI2cView Started (i2c_cells (i2c b)) (counter (i2c b)) (pred (busy (i2c b))));
  (* nobody answers for an address without a chip *)
  absent_ok b addr : i2c_phase_of (i2c b) = Started -> i2c_size <= 256 * (addr / 256) -> addr < 16384 ->
    let '(a, b') := twi_write_byte (Z.lxor 160 (2 * (addr / 256))) b in
    a <> ACK /\ i2c b' = mkI2cView Started (i2c_cells (i2c b)) (counter (i2c b)) (pred (busy (i2c b)));
  word_ok b h x : i2c_phase_of (i2c b) = WordAddress h -> is_u8 x ->
    (twi_write_byte x b).1 = ACK /\
    i2c (twi_write_byte x b).2 =
      mkI2cView (Receiving (256 * h + x) []) (i2c_cells (i2c b)) (256 * h + x) (busy (i2c b));
  data_ok b a bs x : i2c_phase_of (i2c b) = Receiving a bs ->
    (twi_write_byte x b).1 = ACK /\ i2c (twi_write_byte x b).2 = in_phase (Receiving a (bs ++ [x])) (i2c b);
  select_read_ok b : i2c_phase_of (i2c b) = Restarted -> 0 <= counter (i2c b) < i2c_size ->
    (twi_write_byte (Z.lxor 161 (2 * (counter (i2c b) / 256))) b).1 = ACK /\
    i2c (twi_write_byte (Z.lxor 161 (2 * (counter (i2c b) / 256))) b).2 = in_phase Sending (i2c b);
  (* the counter rolls over at the end of the array *)
  send_ok b ack : i2c_phase_of (i2c b) = Sending -> 0 <= counter (i2c b) < i2c_size ->
    (twi_read_byte ack b).1 = i2c_cells (i2c b) (counter (i2c b)) /\
    i2c (twi_read_byte ack b).2 =
      mkI2cView (if ack =? ACK then Sending else Started) (i2c_cells (i2c b))
        ((counter (i2c b) + 1) mod i2c_size) (busy (i2c b));
  (* a stop ends the transfer and starts a write cycle if there is something to store *)
  stop_store_ok b a bs : i2c_phase_of (i2c b) = Receiving a bs -> bs <> [] ->
    0 <= a < i2c_size -> Z.of_nat (length bs) <= 16 ->
    exists k n, (n <= 10)%nat /\
      i2c (twi_stop b) = mkI2cView Stopped (program16 a bs (i2c_cells (i2c b))) k n;
  stop_ok b : i2c_phase_of (i2c b) = Started \/ i2c_phase_of (i2c b) = Stopped ->
    i2c (twi_stop b) = in_phase Stopped (i2c b)
}.
