(* ===== verification/I2cProofs.v ===== *)
(** * storage/i2c_eeprom.c: the driver makes the chips an array of cells

    Over any bus with eeproms that behave as documented ([I2cChip]), the
    operations of [I2cEeprom] read and write the cells, in the presence of
    write cycles, across pages and chips; without a chip at the address they
    report the failure and change nothing. *)

From S2P Require Import Prelude TwiBus Storage I2cEeprom.

(** ** Addresses and pages *)

Lemma select_bits addr : 0 <= addr < 16384 -> Z.land (Z.shiftr addr 7) 126 = 2 * (addr / 256).
Proof.
  intros Ha. rewrite Z.shiftr_div_pow2 by lia. change (2 ^ 7) with 128.
  assert (Hq : addr / 256 = addr / 128 / 2) by (rewrite Z.div_div by lia; done).
  rewrite Hq. set (q := addr / 128). assert (0 <= q < 128) by (subst q; dlia).
  assert (Hall : forallb (fun q => Z.land q 126 =? 2 * (q / 2)) (seqZ 0 128) = true) by reflexivity.
  rewrite forallb_forall in Hall. apply Z.eqb_eq, Hall, list_elem_of_In, elem_of_seqZ. lia.
Qed.

Lemma page_off_mod addr : page_off addr = addr mod 16.
Proof. apply (Z.land_ones addr 4). lia. Qed.

Lemma page_off_bound addr : 0 <= page_off addr < 16.
Proof. rewrite page_off_mod. dlia. Qed.

Lemma low_byte addr : Z.land addr 255 = addr mod 256.
Proof. apply (Z.land_ones addr 8). lia. Qed.

Lemma program16_copy a bs m : a mod 16 + Z.of_nat (length bs) <= 16 -> program16 a bs m = copy_bytes a bs m.
Proof.
  revert a m. induction bs as [|b bs IH]; intros a m Hl; [done|].
  cbn [program16 copy_bytes]. cbn [length] in Hl.
  destruct bs as [|b' bs]; [by destruct (_ =? 0)|]. cbn [length] in *.
  rewrite (proj2 (Z.eqb_neq _ _)) by dlia. apply IH. cbn [length]. dlia.
Qed.

Lemma page_chunk_spec dst count :
  0 < count -> 0 < page_chunk dst count <= count /\ page_off dst + page_chunk dst count <= 16.
Proof.
  intros Hc. pose proof (page_off_bound dst). unfold page_chunk.
  rewrite (u8_small (_ - _)) by (unfold is_u8; lia). case_if; [|lia].
  rewrite u8_small by (unfold is_u8; lia). lia.
Qed.

Lemma blit_before d bs bs' m x :
  blit d bs (blit (d + Z.of_nat (length bs)) bs' m) x = blit d (bs ++ bs') m x.
Proof.
  destruct (decide (d <= x < d + Z.of_nat (length bs))) as [Hx|Hx].
  - rewrite !blit_in by (rewrite ?length_app; lia). by rewrite lookup_total_app_l by lia.
  - rewrite (blit_out d bs) by done. rewrite <- blit_app. 
    destruct (decide (d + Z.of_nat (length bs) <= x < d + Z.of_nat (length bs) + Z.of_nat (length bs'))).
    + by rewrite !blit_in by lia.
    + by rewrite !blit_out by lia.
Qed.

Section Proofs.
Context {B : Type} {Bus : TwiBus B} {Chip : I2cChip B}.

(** No transfer, the cells [c]; at most one write cycle is going on. *)
Definition at_rest (c : Z -> Z) (b : B) : Prop :=
  i2c_phase_of (i2c b) = Stopped /\ (forall x, i2c_cells (i2c b) x = c x) /\ (busy (i2c b) <= 10)%nat.

Lemma at_rest_ext c c' b : (forall x, c x = c' x) -> at_rest c b -> at_rest c' b.
Proof. intros Hc (? & Hx & ?). split_and!; [done| |done]. intros x. by rewrite Hx. Qed.

(** ** Selecting a chip *)

(** Enough attempts outlast the write cycle. *)
Lemma select_loop_spec tries addr b :
  (busy (i2c b) < tries)%nat -> i2c_phase_of (i2c b) = Stopped \/ i2c_phase_of (i2c b) = Started ->
  0 <= addr < i2c_size ->
  exists b' k, select_loop tries (write_select addr) b = (true, b') /\
    i2c b' = mkI2cView (WordAddress (addr / 256)) (i2c_cells (i2c b)) (counter (i2c b)) k /\
    (k <= busy (i2c b))%nat.
Proof.
  pose proof i2c_size_ok. revert b. induction tries as [|tries IH]; intros b Hb Hp Ha; [lia|].
  cbn [select_loop]. pose proof (start_ok b Hp) as V.
  pose proof (select_write_ok (twi_start b) addr) as V2. rewrite V in V2. specialize (V2 eq_refl Ha).
  unfold write_select. rewrite select_bits by lia.
  destruct (twi_write_byte _ (twi_start b)) as [a b1].
  destruct V2 as [[-> V2] | (Hn & Hz & V2)].
  - exists b1, (busy (i2c b)). split; [done|]. split; [by rewrite V2|lia].
  - rewrite (proj2 (Z.eqb_neq _ _) Hn). cbn [busy in_phase] in *.
    destruct (IH b1) as (b' & k & E & V3 & Hk); [rewrite V2; cbn; lia|right; by rewrite V2|done|].
    exists b', k. unfold write_select in E. rewrite select_bits in E by lia.
    rewrite E, V3, V2. cbn. rewrite V2 in Hk. cbn in Hk. split_and!; [done..|lia].
Qed.

(** An attempt to select the chip at [addr], and eleven of them before the bus is released. *)
Definition selection (addr : Z) (b : B) : B := (twi_write_byte (write_select addr) (twi_start b)).2.
Definition eleven_attempts (addr : Z) (b : B) : B := twi_stop (Nat.iter 11 (selection addr) b).

(** Nobody there. *)
Lemma select_loop_absent tries addr b :
  i2c_phase_of (i2c b) = Stopped \/ i2c_phase_of (i2c b) = Started ->
  i2c_size <= 256 * (addr / 256) -> 0 <= addr < 16384 -> (0 < tries)%nat ->
  let b' := Nat.iter tries (selection addr) b in
  select_loop tries (write_select addr) b = (false, b') /\
  exists k, i2c b' = mkI2cView Started (i2c_cells (i2c b)) (counter (i2c b)) k /\ (k <= busy (i2c b))%nat.
Proof.
  cbv zeta. revert b. induction tries as [|tries IH]; intros b Hp Hs Ha Ht; [lia|].
  rewrite Nat.iter_succ_r. cbn [select_loop].
  change (selection addr b) with (twi_write_byte (write_select addr) (twi_start b)).2. pose proof (start_ok b Hp) as V.
  pose proof (absent_ok (twi_start b) addr) as V2. rewrite V in V2.
  specialize (V2 eq_refl Hs ltac:(lia)). rewrite <- (select_bits addr) in V2 by lia. fold (write_select addr) in V2.
  destruct (twi_write_byte _ (twi_start b)) as [a b1]. destruct V2 as [Hn V2]. cbn [snd].
  rewrite (proj2 (Z.eqb_neq _ _) Hn). destruct tries as [|tries].
  - split; [done|]. exists (pred (busy (i2c b))). change (Nat.iter 0 (selection addr) b1) with b1. split; [by rewrite V2|lia].
  - destruct (IH b1) as (E & k & V3 & Hk); [right; by rewrite V2|done..|lia|].
    split; [exact E|]. exists k. rewrite V3, V2. cbn. rewrite V2 in Hk. cbn in Hk. split; [done|lia].
Qed.

Lemma i2c_start_write_spec c addr b :
  at_rest c b -> 0 <= addr < i2c_size ->
  exists b' k, i2c_eeprom_start_write addr b = (SUCCESS, b') /\
    i2c b' = mkI2cView (Receiving addr []) (i2c_cells (i2c b)) addr k /\ (k <= 10)%nat.
Proof.
  intros (Hp & Hc & Hb) Ha. unfold i2c_eeprom_start_write.
  destruct (select_loop_spec 11 addr b) as (b1 & k & E & V & Hk); [lia|by left|done|].
  rewrite E. cbn [negb]. rewrite low_byte.
  destruct (word_ok b1 (addr / 256) (addr mod 256)) as [A V2];
    [by rewrite V|unfold is_u8; dlia|].
  destruct (twi_write_byte (addr mod 256) b1) as [a b2]. cbn [fst snd] in *. subst a. cbn [Z.eqb negb].
  exists b2, k. rewrite V2, V. cbn. replace (256 * (addr / 256) + addr mod 256) with addr
    by (pose proof (Z.div_mod addr 256); lia). split_and!; [done..|lia].
Qed.

Lemma start_write_absent c addr b :
  at_rest c b -> i2c_size <= 256 * (addr / 256) -> 0 <= addr < 16384 ->
  i2c_eeprom_start_write addr b = (WSELECT_ERROR, eleven_attempts addr b) /\ at_rest c (eleven_attempts addr b).
Proof.
  intros (Hp & Hc & Hb) Hs Ha. unfold i2c_eeprom_start_write, eleven_attempts.
  destruct (select_loop_absent 11 addr b) as (E & k & V & Hk); [by left|done|done|lia|].
  rewrite E. cbn [negb]. split; [done|].
  unfold at_rest. rewrite stop_ok by (left; by rewrite V). rewrite V. cbn. split_and!; [done|done|lia].
Qed.

(** ** Writing one page *)

Lemma continue_loop_spec i buf a bs (s : i2c_state B) :
  i2c_phase_of (i2c (bus s)) = Receiving a bs ->
  exists b', continue_loop i buf s = (i + Z.of_nat (length buf), mkI2c b' (storage_errno s)) /\
    i2c b' = in_phase (Receiving a (bs ++ buf)) (i2c (bus s)).
Proof.
  revert i bs s. induction buf as [|x buf IH]; intros i bs s Hp; cbn [continue_loop].
  - exists (bus s). rewrite Z.add_0_r, app_nil_r, <- Hp. split; [by destruct s|by destruct (i2c (bus s))].
  - destruct (data_ok (bus s) a bs x Hp) as [A V]. destruct (twi_write_byte x (bus s)) as [r b1].
    cbn [fst snd] in *. subst r. cbn [Z.eqb negb].
    destruct (IH (i + 1) (bs ++ [x]) (mkI2c b1 (storage_errno s))) as (b' & E & V2);
      [cbn [bus]; by rewrite V|].
    cbn [bus storage_errno] in *. exists b'. rewrite E, V2, V, <- app_assoc. cbn [length bus storage_errno]. split; [f_equal; lia|done].
Qed.

Lemma commit16_spec b c a bs :
  i2c_phase_of (i2c b) = Receiving a bs -> (forall x, i2c_cells (i2c b) x = c x) ->
  bs <> [] -> 0 <= a < i2c_size -> page_off a + Z.of_nat (length bs) <= 16 ->
  at_rest (blit a bs c) (twi_stop b).
Proof.
  intros Hp Hc Hne Ha Hpg. pose proof (page_off_bound a).
  destruct (stop_store_ok b a bs Hp Hne Ha ltac:(lia)) as (k & n & Hn & V).
  unfold at_rest. rewrite V. cbn. split_and!; [done| |done]. intros x.
  rewrite page_off_mod in Hpg. rewrite program16_copy, copy_bytes_cell by lia. by apply blit_ext.
Qed.

Lemma i2c_write_page_spec c a buf (s : i2c_state B) :
  at_rest c (bus s) -> buf <> [] -> 0 <= a < i2c_size -> page_off a + Z.of_nat (length buf) <= 16 ->
  exists b', i2c_eeprom_write_page a buf s = (Z.of_nat (length buf), mkI2c b' SUCCESS) /\
    at_rest (blit a buf c) b'.
Proof.
  intros Hr Hne Ha Hpg. pose proof (page_off_bound a).
  destruct (i2c_start_write_spec c a (bus s) Hr Ha) as (b1 & k & E & V & Hk).
  unfold i2c_eeprom_write_page. rewrite E. cbn [Z.eqb negb].
  destruct (continue_loop_spec 0 buf a [] (mkI2c b1 SUCCESS)) as (b2 & E2 & V2);
    [cbn [bus]; by rewrite V|].
  unfold i2c_eeprom_continue_write. rewrite E2, Z.add_0_l. cbn [bus storage_errno] in *.
  rewrite (u8_small (Z.of_nat _)), s8_small by (unfold is_s8, is_u8; lia).
  rewrite Z.eqb_refl, u8_small by (unfold is_u8; lia).
  eexists. split; [reflexivity|]. rewrite V in V2.
  apply commit16_spec; cbn [bus]; rewrite ?V2; cbn [i2c_phase_of i2c_cells in_phase app];
    [done| |done..]. by destruct Hr as (_ & Hc & _).
Qed.

Lemma write_page_absent c a buf (s : i2c_state B) :
  at_rest c (bus s) -> i2c_size <= 256 * (a / 256) -> 0 <= a < 16384 ->
  i2c_eeprom_write_page a buf s = (0, mkI2c (eleven_attempts a (bus s)) WSELECT_ERROR) /\
  at_rest c (eleven_attempts a (bus s)).
Proof.
  intros Hr Hs Ha. destruct (start_write_absent c a (bus s) Hr Hs Ha) as (E & Hb').
  split; [|done]. unfold i2c_eeprom_write_page. by rewrite E.
Qed.

(** ** Reading *)

Lemma read_bytes_spec len b :
  i2c_phase_of (i2c b) = Sending -> (0 < len)%nat ->
  0 <= counter (i2c b) -> counter (i2c b) + Z.of_nat len <= i2c_size ->
  (read_bytes len b).1 = bytes_at (counter (i2c b)) len (i2c_cells (i2c b)) /\
  exists k, i2c (read_bytes len b).2 = mkI2cView Started (i2c_cells (i2c b)) k (busy (i2c b)).
Proof.
  revert b. induction len as [|len IH]; intros b Hp Hl Hc Hs; [lia|]. cbn [read_bytes].
  destruct (send_ok b (match len with O => NACK | _ => ACK end) Hp ltac:(lia)) as [R V].
  destruct (twi_read_byte _ b) as [x b1]. cbn [fst snd] in *. destruct len as [|len].
  - cbn [read_bytes]. rewrite bytes_at_S, R. split; [done|]. eexists. exact V.
  - rewrite Z.mod_small in V by lia. cbn [Z.eqb] in V.
    destruct (IH b1) as [IH1 [k IH2]]; rewrite ?V; cbn [counter i2c_phase_of]; [done|lia..|].
    destruct (read_bytes (S len) b1) as [buf b2]. cbn [fst snd] in *. rewrite V in IH1, IH2.
    cbn [counter i2c_cells busy] in *. rewrite bytes_at_S, R, IH1. split; [done|]. by exists k.
Qed.

Lemma i2c_read_spec c a len (s : i2c_state B) :
  at_rest c (bus s) -> (0 < len)%nat -> 0 <= a -> a + Z.of_nat len <= i2c_size ->
  exists b', i2c_eeprom_read a len s = (bytes_at a len c, mkI2c b' SUCCESS) /\ at_rest c b'.
Proof.
  intros Hr Hl Ha Hs. pose proof i2c_size_ok.
  destruct (i2c_start_write_spec c a (bus s) Hr ltac:(lia)) as (b1 & k & E & V & Hk).
  unfold i2c_eeprom_read. rewrite E. cbn [Z.eqb negb].
  pose proof (restart_ok b1 a) as V2. rewrite V in V2. specialize (V2 eq_refl).
  set (b2 := twi_start b1) in *.
  pose proof (select_read_ok b2) as V3. rewrite V2 in V3. cbn [counter in_phase i2c_phase_of] in V3.
  specialize (V3 eq_refl ltac:(lia)). unfold read_select. rewrite select_bits by lia.
  destruct (twi_write_byte _ b2) as [r b3]. cbn [fst snd] in *. destruct V3 as [-> V3]. cbn [Z.eqb negb].
  destruct (read_bytes_spec len b3) as [R [k2 V4]]; rewrite ?V3; cbn [counter in_phase i2c_phase_of];
    [done|lia..|].
  destruct (read_bytes len b3) as [buf b4]. cbn [fst snd] in *. rewrite V3 in R, V4.
  cbn [counter i2c_cells busy in_phase] in *. destruct Hr as (_ & Hc & _).
  eexists. split; [rewrite R; f_equal; apply bytes_at_ext; intros x _; apply Hc|].
  unfold at_rest. rewrite stop_ok by (left; by rewrite V4). rewrite V4. cbn. done.
Qed.

Lemma read_absent c a len (s : i2c_state B) :
  at_rest c (bus s) -> i2c_size <= 256 * (a / 256) -> 0 <= a < 16384 ->
  i2c_eeprom_read a len s = ([], mkI2c (twi_stop (eleven_attempts a (bus s))) WSELECT_ERROR) /\
  at_rest c (twi_stop (eleven_attempts a (bus s))).
Proof.
  intros Hr Hs Ha. destruct (start_write_absent c a (bus s) Hr Hs Ha) as (E & Hp & Hc & Hb).
  split; [unfold i2c_eeprom_read; by rewrite E|]. unfold at_rest. by rewrite stop_ok by (by right).
Qed.

Lemma at_rest_stop c b : at_rest c b -> at_rest c (twi_stop b).
Proof. intros (Hp & Hc & Hb). unfold at_rest. by rewrite stop_ok by (by right). Qed.

(** ** Blocks *)

Lemma i2c_write_loop_spec k c written dst data (s : i2c_state B) :
  at_rest c (bus s) -> (length data <= k)%nat -> 0 <= dst -> dst + Z.of_nat (length data) <= i2c_size ->
  0 <= written -> written + Z.of_nat (length data) < 32768 ->
  exists s', i2c_write_loop k written dst data s = Some (written + Z.of_nat (length data), s') /\
    at_rest (blit dst data c) (bus s') /\ (data <> [] -> storage_errno s' = SUCCESS).
Proof.
  revert c written dst data s. induction k as [|k IH]; intros c written dst data s Hr Hk Hd He Hw Hw2.
  - destruct data; cbn [length] in *; [|lia]. exists s. rewrite Z.add_0_r. split_and!; [done| |done].
    eapply at_rest_ext; [|exact Hr]. intros x. by rewrite blit_nil.
  - cbn [i2c_write_loop]. case_if.
    { destruct data; cbn [length] in *; [|lia]. exists s. rewrite Z.add_0_r. split_and!; [done| |done].
      eapply at_rest_ext; [|exact Hr]. intros x. by rewrite blit_nil. }
    set (n := page_chunk dst (Z.of_nat (length data))).
    destruct (page_chunk_spec dst (Z.of_nat (length data)) ltac:(lia)) as [Hn Hpg]. fold n in Hn, Hpg.
    assert (Ht : Z.of_nat (length (take (Z.to_nat n) data)) = n) by (rewrite length_take; lia).
    destruct (i2c_write_page_spec c dst (take (Z.to_nat n) data) s Hr) as (b1 & E & Hr1); [|lia|lia|].
    { intros E. rewrite E in Ht. cbn in Ht. lia. }
    rewrite E, Ht, Z.eqb_refl, s16_small by (unfold is_s16; lia). cbn [negb].
    destruct (IH _ (written + n) (dst + n) (drop (Z.to_nat n) data) (mkI2c b1 SUCCESS) Hr1)
      as (s' & E2 & Hr2 & He2); rewrite ?length_drop; [lia..|].
    exists s'. rewrite E2, length_drop. split_and!.
    + do 2 f_equal. lia.
    + eapply at_rest_ext; [|exact Hr2]. intros x. apply take_drop_blit. lia.
    + intros _. destruct (drop (Z.to_nat n) data) eqn:Ed; [|by apply He2].
      assert (s' = mkI2c b1 SUCCESS) as ->; [|done].
      destruct k; cbn [i2c_write_loop length] in E2;
        change (Z.of_nat 0 =? 0) with true in E2; congruence.
Qed.

Lemma i2c_write_spec c dst data (s : i2c_state B) :
  at_rest c (bus s) -> 0 <= dst -> dst + Z.of_nat (length data) <= i2c_size ->
  exists s', i2c_eeprom_write dst data s = Some (Z.of_nat (length data), s') /\
    at_rest (blit dst data c) (bus s') /\ (data <> [] -> storage_errno s' = SUCCESS).
Proof. intros. pose proof i2c_size_ok. apply (i2c_write_loop_spec _ c 0); [done|lia..]. Qed.

Lemma i2c_write_byte_spec c dst x (s : i2c_state B) :
  at_rest c (bus s) -> 0 <= dst < i2c_size ->
  exists s', i2c_eeprom_write_byte dst x s = (SUCCESS, s') /\ at_rest (blit dst [x] c) (bus s').
Proof.
  intros Hr Hd. pose proof (page_off_bound dst).
  destruct (i2c_write_page_spec c dst [x] s Hr) as (b1 & E & Hr1); [done|lia|cbn [length]; lia|].
  unfold i2c_eeprom_write_byte. rewrite E. by eexists.
Qed.

Lemma i2c_write_short_spec c dst x (s : i2c_state B) :
  at_rest c (bus s) -> 0 <= dst -> dst + 2 <= i2c_size ->
  exists s', i2c_eeprom_write_short dst x s = Some (SUCCESS, s') /\ at_rest (blit dst (le16 x) c) (bus s').
Proof.
  intros Hr Hd He. destruct (i2c_write_spec c dst (le16 x) s Hr) as (s' & E & Hr' & Hs'); [done|cbn; lia|].
  exists s'. split; [|done]. unfold i2c_eeprom_write_short. rewrite E. cbn. by rewrite Hs'.
Qed.

Lemma i2c_memset_spec k c x dst len (s : i2c_state B) :
  at_rest c (bus s) -> (len <= k)%nat -> 0 <= dst -> dst + Z.of_nat len <= i2c_size ->
  exists s', i2c_memset_loop k dst (replicate 16 x) (Z.of_nat len) s = Some (SUCCESS, s') /\
    at_rest (blit dst (replicate len x) c) (bus s').
Proof.
  revert c dst len s. induction k as [|k IH]; intros c dst len s Hr Hk Hd He; cbn [i2c_memset_loop];
    rewrite Z.gtb_ltb; (case_if; [|]); bsplit.
  1,3: replace len with 0%nat by lia; exists s; split; [done|];
    (eapply at_rest_ext; [|exact Hr]); intros y; by rewrite blit_nil.
  - lia.
  - set (n := page_chunk dst (Z.of_nat len)). pose proof (page_off_bound dst).
    destruct (page_chunk_spec dst (Z.of_nat len) ltac:(lia)) as [Hn Hpg]. fold n in Hn, Hpg.
    rewrite take_replicate, Nat.min_l by lia.
    destruct (i2c_write_page_spec c dst (replicate (Z.to_nat n) x) s Hr) as (b1 & E & Hr1);
      rewrite ?length_replicate; [|lia|lia|].
    { intros E. apply (f_equal length) in E. rewrite length_replicate in E. cbn in E. lia. }
    rewrite E, length_replicate, Z2Nat.id, Z.eqb_refl by lia. cbn [negb].
    destruct (IH _ (dst + n) (len - Z.to_nat n)%nat (mkI2c b1 SUCCESS) Hr1) as (s' & E2 & Hr2); [lia..|].
    exists s'. split; [rewrite <- E2; f_equal; lia|].
    eapply at_rest_ext; [|exact Hr2]. intros y.
    rewrite <- (take_drop_blit n dst (replicate len x)) by (rewrite length_replicate; lia).
    by rewrite take_replicate, drop_replicate, Nat.min_l by lia.
Qed.

(** ** Moving a block *)

Lemma i2c_move_step_spec c src dst n (s : i2c_state B) :
  at_rest c (bus s) -> 0 < n -> 0 <= src -> src + n <= i2c_size -> 0 <= dst < i2c_size ->
  page_off dst + n <= 16 ->
  exists s1 s2, i2c_eeprom_read src (Z.to_nat n) s = (bytes_at src (Z.to_nat n) c, s1) /\
    read_result (bytes_at src (Z.to_nat n) c) = n /\
    i2c_eeprom_write_page dst (bytes_at src (Z.to_nat n) c) s1 = (n, s2) /\
    at_rest (blit dst (bytes_at src (Z.to_nat n) c) c) (bus s2).
Proof.
  intros Hr Hn Hs Hse Hd Hpg.
  destruct (i2c_read_spec c src (Z.to_nat n) s Hr) as (b1 & E1 & Hr1); [lia..|].
  destruct (i2c_write_page_spec c dst (bytes_at src (Z.to_nat n) c) (mkI2c b1 SUCCESS) Hr1) as (b2 & E2 & Hr2);
    rewrite ?bytes_at_length; [|lia|lia|].
  { intros E. apply (f_equal length) in E. rewrite bytes_at_length in E. cbn in E. lia. }
  rewrite bytes_at_length, Z2Nat.id in E2 by lia.
  eexists _, _. split; [exact E1|]. split; [|by split; [exact E2|]].
  unfold read_result. rewrite bytes_at_length. case_if; lia.
Qed.

Lemma i2c_move_up_spec k c dst src count (s : i2c_state B) :
  at_rest c (bus s) -> (count <= k)%nat -> 0 <= dst <= src -> src + Z.of_nat count <= i2c_size ->
  exists s', i2c_move_loop k 1 dst src (Z.of_nat count) s = Some (SUCCESS, s') /\
    at_rest (blit dst (bytes_at src count c) c) (bus s').
Proof.
  revert c dst src count s. induction k as [|k IH]; intros c dst src count s Hr Hk Hd He;
    cbn [i2c_move_loop]; case_if.
  1,3: replace count with 0%nat by lia; exists s; split; [done|];
    (eapply at_rest_ext; [|exact Hr]); intros y; by rewrite blit_nil.
  { lia. }
  change (move_remaining 1 dst) with (u8 (16 - page_off dst)).
  pose proof (page_off_bound dst). rewrite u8_small by (unfold is_u8; lia).
  set (n := if Z.of_nat count <? 16 - page_off dst then Z.of_nat count else 16 - page_off dst).
  assert (Hn : 0 < n <= Z.of_nat count /\ page_off dst + n <= 16) by (subst n; case_if; lia).
  cbn [Z.ltb Z.gtb Z.compare].
  destruct (i2c_move_step_spec c src dst n s) as (s1 & s2 & E1 & R & E2 & Hr2); [done|lia..|].
  rewrite E1, R, Z.eqb_refl. cbn [negb]. rewrite E2, Z.eqb_refl. cbn [negb].
  destruct (IH _ (dst + n) (src + n) (count - Z.to_nat n)%nat s2 Hr2) as (s' & E3 & Hr3); [lia..|].
  exists s'. split; [rewrite <- E3; f_equal; lia|].
  eapply at_rest_ext; [|exact Hr3]. intros y.
  rewrite bytes_at_blit_below by (rewrite bytes_at_length; lia).
  replace count with (Z.to_nat n + (count - Z.to_nat n))%nat at 2 by lia.
  rewrite bytes_at_app, <- blit_app, bytes_at_length, Z2Nat.id by lia. done.
Qed.

(** The page up to the cursor, or the page before it. *)
Lemma move_remaining_down dst n :
  0 < n <= move_remaining (-1) dst -> move_remaining (-1) dst <= 16 /\ page_off (dst - n) + n <= 16.
Proof.
  unfold move_remaining. cbn [Z.gtb Z.compare]. pose proof (page_off_bound dst) as Hb.
  rewrite !page_off_mod in *. intros Hn. case_if; split; try lia; dlia.
Qed.

Lemma move_down_spec k c dst src count (s : i2c_state B) :
  at_rest c (bus s) -> (count <= k)%nat -> Z.of_nat count <= src < dst -> dst <= i2c_size ->
  exists s', i2c_move_loop k (-1) dst src (Z.of_nat count) s = Some (SUCCESS, s') /\
    at_rest (blit (dst - Z.of_nat count) (bytes_at (src - Z.of_nat count) count c) c) (bus s').
Proof.
  revert c dst src count s. induction k as [|k IH]; intros c dst src count s Hr Hk Hd He;
    cbn [i2c_move_loop]; case_if.
  1,3: replace count with 0%nat by lia; exists s; split; [done|];
    (eapply at_rest_ext; [|exact Hr]); intros y; by rewrite blit_nil.
  { lia. }
  set (rem := move_remaining (-1) dst).
  assert (Hrem : 0 < rem).
  { subst rem. unfold move_remaining. cbn [Z.gtb Z.compare]. pose proof (page_off_bound dst). case_if; lia. }
  set (n := if Z.of_nat count <? rem then Z.of_nat count else rem).
  assert (Hn : 0 < n <= Z.of_nat count /\ n <= rem) by (subst n; case_if; lia).
  destruct (move_remaining_down dst n) as [_ Hpg]; [subst rem; lia|].
  cbn [Z.ltb Z.gtb Z.compare].
  destruct (i2c_move_step_spec c (src - n) (dst - n) n s) as (s1 & s2 & E1 & R & E2 & Hr2); [done|lia..|].
  rewrite E1, R, Z.eqb_refl. cbn [negb]. rewrite E2, Z.eqb_refl. cbn [negb].
  destruct (IH _ (dst - n) (src - n) (count - Z.to_nat n)%nat s2 Hr2) as (s' & E3 & Hr3); [lia..|].
  exists s'. split; [rewrite <- E3; f_equal; lia|].
  eapply at_rest_ext; [|exact Hr3]. intros y.
  set (m := (count - Z.to_nat n)%nat).
  replace (dst - n - Z.of_nat m) with (dst - Z.of_nat count) by lia.
  replace (src - n - Z.of_nat m) with (src - Z.of_nat count) by lia.
  rewrite (bytes_at_ext _ m (blit _ _ _) c) by (intros z Hz; apply blit_out; lia).
  replace count with (m + Z.to_nat n)%nat at 5 by lia.
  rewrite bytes_at_app, <- blit_before, bytes_at_length.
  replace (dst - Z.of_nat count + Z.of_nat m) with (dst - n) by lia.
  by replace (src - Z.of_nat count + Z.of_nat m) with (src - n) by lia.
Qed.

Lemma i2c_memmove_spec c dst src count (s : i2c_state B) :
  at_rest c (bus s) -> 0 <= dst -> 0 <= src ->
  dst + Z.of_nat count <= i2c_size -> src + Z.of_nat count <= i2c_size ->
  exists s', i2c_eeprom_memmove dst src count s = Some (SUCCESS, s') /\
    at_rest (blit dst (bytes_at src count c) c) (bus s').
Proof.
  intros Hr Hd Hs Hde Hse. unfold i2c_eeprom_memmove. case_if.
  - destruct (move_down_spec count c (dst + Z.of_nat count) (src + Z.of_nat count) count s Hr)
      as (s' & E & Hr'); [lia..|].
    exists s'. split; [done|]. eapply at_rest_ext; [|exact Hr']. intros x.
    by rewrite !Z.add_simpl_r.
  - apply i2c_move_up_spec; [done|lia..].
Qed.

(** ** Streams *)

(** Between two bytes of a stream: at rest at a page start, or in the transfer of a page. *)
Definition streaming (addr a : Z) (bs : list Z) (c : Z -> Z) (b : B) : Prop :=
  (page_off addr = 0 /\ a = addr /\ bs = [] /\ at_rest c b) \/
  (page_off addr <> 0 /\ addr = a + Z.of_nat (length bs) /\
   page_off addr = page_off a + Z.of_nat (length bs) /\
   i2c_phase_of (i2c b) = Receiving a bs /\ forall x, i2c_cells (i2c b) x = c x).

Lemma page_off_add addr n : 0 <= n -> page_off addr + n <= 16 ->
  page_off (addr + n) = (if page_off addr + n =? 16 then 0 else page_off addr + n).
Proof. rewrite !page_off_mod. intros Hn Hp. case_if; dlia. Qed.

(** Sending a chunk within a page, and ending the transfer at the end of the page or the stream. *)
Lemma i2c_stream_send_spec addr a bs c xs (last : bool) (s : i2c_state B) :
  addr = a + Z.of_nat (length bs) -> page_off addr = page_off a + Z.of_nat (length bs) ->
  i2c_phase_of (i2c (bus s)) = Receiving a bs -> (forall x, i2c_cells (i2c (bus s)) x = c x) ->
  0 <= a -> addr < i2c_size -> xs <> [] -> page_off addr + Z.of_nat (length xs) <= 16 ->
  exists s1, i2c_eeprom_continue_write xs s = (Z.of_nat (length xs), s1) /\
    let s2 := if last || (page_off (addr + Z.of_nat (length xs)) =? 0) then on_bus twi_stop s1 else s1 in
    if last then at_rest (blit a (bs ++ xs) c) (bus s2)
    else exists a' bs' c', streaming (addr + Z.of_nat (length xs)) a' bs' c' (bus s2) /\ 0 <= a' /\
      forall l y, blit a' (bs' ++ l) c' y = blit a (bs ++ xs ++ l) c y.
Proof.
  intros Haddr Hoff Hp Hc Ha Hs Hne Hpg. pose proof (page_off_bound addr).
  assert (Hlen : 0 < Z.of_nat (length xs)) by (destruct xs; cbn [length]; [done|lia]).
  unfold i2c_eeprom_continue_write.
  destruct (continue_loop_spec 0 xs a bs s Hp) as (b1 & E & V). rewrite E.
  exists (mkI2c b1 (storage_errno s)). split; [rewrite Z.add_0_l, u8_small; [done|unfold is_u8; lia]|].
  assert (Hcommit : at_rest (blit a (bs ++ xs) c) (twi_stop b1)).
  { apply commit16_spec; rewrite ?V; try done; [by destruct bs, xs|lia|rewrite length_app; lia]. }
  cbn [on_bus bus]. destruct last; [done|]. cbn [orb].
  rewrite page_off_add by lia. destruct (Z.eqb_spec (page_off addr + Z.of_nat (length xs)) 16) as [H16|H16];
    [change (0 =? 0) with true; cbv iota|rewrite (proj2 (Z.eqb_neq _ 0)) by lia].
  - exists (addr + Z.of_nat (length xs)), [], (blit a (bs ++ xs) c). split; [left|].
    + split_and!; [rewrite page_off_add by lia; by case_if|done..].
    + split; [lia|]. intros l y. cbn [app]. rewrite (app_assoc bs), <- (blit_app a (bs ++ xs) l), length_app.
      by replace (a + Z.of_nat (length bs + length xs)) with (addr + Z.of_nat (length xs)) by lia.
  - exists a, (bs ++ xs), c. split; [|split; [done|]].
    + right. cbn [bus]. rewrite V, page_off_add by lia. case_if; [lia|].
      rewrite length_app. cbn [i2c_phase_of i2c_cells in_phase]. split_and!; [lia|lia|lia|done|done].
    + intros l y. by rewrite <- app_assoc.
Qed.

Lemma i2c_write_step_spec addr a bs c xs (last : bool) (s : i2c_state B) :
  streaming addr a bs c (bus s) -> 0 <= a -> 0 <= addr < i2c_size ->
  xs <> [] -> page_off addr + Z.of_nat (length xs) <= 16 ->
  exists s', i2c_eeprom_write_step addr xs last s = (SUCCESS, s') /\
    if last then at_rest (blit a (bs ++ xs) c) (bus s')
    else exists a' bs' c', streaming (addr + Z.of_nat (length xs)) a' bs' c' (bus s') /\ 0 <= a' /\
      forall l y, blit a' (bs' ++ l) c' y = blit a (bs ++ xs ++ l) c y.
Proof.
  intros Hst Ha Hs Hne Hpg. unfold i2c_eeprom_write_step.
  destruct Hst as [(H0 & -> & -> & Hr) | (H0 & Haddr & Hoff & Hp & Hc)].
  - rewrite H0 in *. cbn [Z.eqb]. destruct (i2c_start_write_spec c addr (bus s) Hr Hs) as (b1 & k & E & V & _).
    rewrite E. cbn [Z.eqb negb].
    destruct (i2c_stream_send_spec addr addr [] c xs last (mkI2c b1 (storage_errno s))) as (s1 & E1 & Hs1);
      cbn [bus length]; rewrite ?V; cbn [i2c_phase_of i2c_cells]; [lia..|done|by apply Hr|lia|lia|done|lia|].
    rewrite E1, Z.eqb_refl. cbn [negb]. eexists. split; [reflexivity|exact Hs1].
  - rewrite (proj2 (Z.eqb_neq _ _) H0). cbn [Z.eqb negb].
    destruct (i2c_stream_send_spec addr a bs c xs last s Haddr Hoff Hp Hc Ha (proj2 Hs) Hne Hpg) as (s1 & E1 & Hs1).
    rewrite E1, Z.eqb_refl. cbn [negb]. eexists. split; [reflexivity|exact Hs1].
Qed.

Lemma i2c_stream_loop_spec bytes addr a bs c (s : i2c_state B) :
  streaming addr a bs c (bus s) -> 0 <= a -> 0 <= addr -> addr + Z.of_nat (length bytes) <= i2c_size ->
  bytes <> [] -> at_rest (blit a (bs ++ bytes) c) (bus (i2c_stream_loop addr bytes s)).
Proof.
  revert addr a bs c s. induction bytes as [|x bytes IH]; intros addr a bs c s Hst Ha Hd He Hne; [done|].
  cbn [i2c_stream_loop length] in *.
  pose proof (page_off_bound addr).
  destruct (i2c_write_step_spec addr a bs c [x] (match bytes with [] => true | _ => false end) s)
    as (s1 & E & Hs1); [done|done|lia|done|cbn; lia|]. rewrite E. cbn [snd].
  destruct bytes as [|x' bytes]; [done|]. destruct Hs1 as (a' & bs' & c' & Hst' & Ha' & Hx).
  eapply at_rest_ext; [intros y; apply Hx|]. apply IH; [done..|lia|cbn [length] in *; lia|done].
Qed.

Lemma i2c_send_stream_spec c addr len (s : i2c_state B) :
  at_rest c (bus s) -> 0 <= addr -> addr + Z.of_nat len <= i2c_size ->
  (Endpoint_Write_Control_SEStream addr len s).1 = bytes_at addr len c /\
  at_rest c (bus (Endpoint_Write_Control_SEStream addr len s).2).
Proof.
  revert addr s. induction len as [|len IH]; intros addr s Hr Ha Hs; [done|].
  cbn [Endpoint_Write_Control_SEStream]. unfold i2c_eeprom_read_byte.
  destruct (i2c_read_spec c addr 1 s Hr) as (b1 & E & Hr1); [lia..|]. rewrite E.
  destruct (IH (addr + 1) (mkI2c b1 SUCCESS) Hr1) as [E2 Hr2]; [lia|lia|].
  destruct (Endpoint_Write_Control_SEStream _ _ (mkI2c b1 SUCCESS)) as [bytes s2]. cbn [fst snd] in *.
  rewrite E2, bytes_at_lookup, Z.add_0_r, (bytes_at_S addr len) by lia. by split.
Qed.

Lemma i2c_stream_spec c addr bytes (s : i2c_state B) :
  at_rest c (bus s) -> bytes <> [] -> 0 <= addr -> addr + Z.of_nat (length bytes) <= i2c_size ->
  at_rest (blit addr bytes c) (bus (Endpoint_Read_Control_SEStream addr bytes s)).
Proof.
  intros Hr Hne Ha He. unfold Endpoint_Read_Control_SEStream, i2c_eeprom_start_write_if_unaligned.
  assert (Hl : 0 < Z.of_nat (length bytes)) by (destruct bytes; cbn [length]; [done|lia]).
  destruct (page_off addr =? 0) eqn:Hz; bsplit; cbn [negb].
  - apply (i2c_stream_loop_spec _ addr addr []); [by left|done..].
  - destruct (i2c_start_write_spec c addr (bus s) Hr ltac:(lia)) as (b1 & k & E & V & _).
    apply (i2c_stream_loop_spec _ addr addr []); [|done..]. right. cbn [on_bus bus]. rewrite E. cbn [snd length].
    rewrite V. cbn [i2c_phase_of i2c_cells]. split_and!; [done|lia|lia|done|by apply Hr].
Qed.

(** ** No chip *)

(** A call ends after eleven attempts at [addr], with the error code in [storage_errno], and has changed no cell. *)
Definition gave_up (c : Z -> Z) (addr : Z) (s s' : i2c_state B) : Prop :=
  storage_errno s' = WSELECT_ERROR /\ at_rest c (bus s') /\
  (bus s' = eleven_attempts addr (bus s) \/ bus s' = twi_stop (eleven_attempts addr (bus s))).

Lemma write_absent_spec c dst data (s : i2c_state B) :
  at_rest c (bus s) -> i2c_size <= 256 * (dst / 256) -> 0 <= dst < 16384 -> data <> [] ->
  exists s', i2c_eeprom_write dst data s = Some (0, s') /\ gave_up c dst s s'.
Proof.
  intros Hr Hs Hd Hne. pose proof (page_off_bound dst). destruct data as [|x data]; [done|].
  destruct (page_chunk_spec dst (Z.of_nat (length (x :: data)))) as [Hc _]; [cbn [length]; lia|].
  unfold i2c_eeprom_write. cbn [i2c_write_loop length] in *. case_if; [lia|]. rewrite Nat2Z.inj_succ in *.
  edestruct write_page_absent as (E & Hb); [exact Hr|exact Hs|exact Hd|].
  rewrite E. case_if; bsplit; [|lia]. eexists. split; [reflexivity|]. by split_and!; [..|left].
Qed.

Lemma memset_absent_spec c dst x n (s : i2c_state B) :
  at_rest c (bus s) -> i2c_size <= 256 * (dst / 256) -> 0 <= dst < 16384 -> (0 < n)%nat ->
  exists s', i2c_eeprom_memset dst x n s = Some (WSELECT_ERROR, s') /\ gave_up c dst s s'.
Proof.
  intros Hr Hs Hd Hn. pose proof (page_off_bound dst). destruct (page_chunk_spec dst (Z.of_nat n) ltac:(lia)) as [Hc _].
  unfold i2c_eeprom_memset. destruct n as [|n]; [lia|]. cbn [i2c_memset_loop].
  rewrite Z.gtb_ltb, (proj2 (Z.ltb_lt 0 _)) by lia. cbn [negb].
  edestruct write_page_absent as (E & Hb); [exact Hr|exact Hs|exact Hd|].
  rewrite E. case_if; bsplit; [|lia]. eexists. split; [reflexivity|]. by split_and!; [..|left].
Qed.

Lemma read_absent_spec c a n (s : i2c_state B) :
  at_rest c (bus s) -> i2c_size <= 256 * (a / 256) -> 0 <= a < 16384 ->
  exists s', i2c_eeprom_read a n s = ([], s') /\ gave_up c a s s'.
Proof.
  intros Hr Hs Hd. destruct (read_absent c a n s Hr Hs Hd) as (E & Hb).
  eexists. split; [exact E|]. by split_and!; [..|right].
Qed.

(** A move in either direction fails at its first read. *)
Lemma move_loop_absent k c direction dst src count (s : i2c_state B) :
  direction = 1 \/ direction = -1 ->
  let n := Z.min count (move_remaining direction dst) in
  let a := if direction <? 0 then src - n else src in
  at_rest c (bus s) -> 0 < count -> i2c_size <= 256 * (a / 256) -> 0 <= a < 16384 ->
  exists s', i2c_move_loop (S k) direction dst src count s = Some (WSELECT_ERROR, s') /\ gave_up c a s s'.
Proof.
  intros Hdir n a Hr Hn Hs Ha. cbn [i2c_move_loop]. case_if; bsplit; [lia|].
  assert (Hrem : 0 < move_remaining direction dst <= 16).
  { unfold move_remaining. pose proof (page_off_bound dst). destruct Hdir as [-> | ->]; cbn [Z.gtb Z.compare].
    - rewrite u8_small by (unfold is_u8; lia). lia.
    - destruct (page_off dst =? 0) eqn:E0; bsplit; lia. }
  assert (En : (if count <? move_remaining direction dst then count else move_remaining direction dst) = n)
    by (unfold n; destruct (Z.ltb_spec count (move_remaining direction dst)); lia).
  rewrite En. destruct (read_absent_spec c a (Z.to_nat n) s Hr Hs Ha) as (s' & E & Hg). exists s'. split; [|exact Hg].
  assert (Hn1 : (read_result [] =? n) = false) by (apply Z.eqb_neq; change (read_result []) with 65535; unfold n; lia).
  unfold a in E. destruct (direction <? 0); rewrite E, Hn1; cbn [negb]; by rewrite (proj1 Hg).
Qed.

Lemma memmove_absent_spec c dst src n (s : i2c_state B) :
  at_rest c (bus s) -> 0 <= src -> src + Z.of_nat n <= 16384 -> i2c_size <= 256 * (src / 256) -> (0 < n)%nat ->
  exists a s', src <= a < src + Z.of_nat n /\
    i2c_eeprom_memmove dst src n s = Some (WSELECT_ERROR, s') /\ gave_up c a s s'.
Proof.
  intros Hr H0 Hs4 Hs Hn. unfold i2c_eeprom_memmove. destruct n as [|n]; [lia|].
  set (count := Z.of_nat (S n)) in *. assert (Hc : 0 < count) by lia. case_if.
  - pose proof (page_off_bound (dst + count)) as Hp.
    assert (Hrem : 0 < move_remaining (-1) (dst + count)) by (unfold move_remaining; cbn [Z.gtb Z.compare]; destruct (_ =? 0) eqn:E0; bsplit; lia).
    set (a := src + count - Z.min count (move_remaining (-1) (dst + count))).
    assert (Hmono : src / 256 <= a / 256) by (apply Z.div_le_mono; lia).
    destruct (move_loop_absent n c (-1) (dst + count) (src + count) count s) as (s' & E & Hg);
      [by right|done|done|fold a; cbn [Z.ltb Z.compare]; lia|fold a; cbn [Z.ltb Z.compare]; lia|].
    exists a, s'. split; [lia|]. by split.
  - destruct (move_loop_absent n c 1 dst src count s) as (s' & E & Hg); [by left|done|done|done|cbn; lia|].
    exists src, s'. split; [lia|]. by split.
Qed.
End Proofs.

(** ** A chip for the witnesses

    One eeprom of 2 KB; a write cycle makes it refuse two selections. *)

Definition sim_write (x : Z) (v : i2c_view) : Z * i2c_view :=
  match i2c_phase_of v with
  | Started =>
      if Nat.eqb (busy v) 0 then
        if Z.land x 1 =? 0 then
          if Z.lxor 160 x <? 16 then (ACK, in_phase (WordAddress (Z.lxor 160 x / 2)) v) else (NACK, v)
        else (NACK, v)
      else (NACK, mkI2cView Started (i2c_cells v) (counter v) (pred (busy v)))
  | Restarted => (ACK, in_phase Sending v)
  | WordAddress h => (ACK, mkI2cView (Receiving (256 * h + x) []) (i2c_cells v) (256 * h + x) (busy v))
  | Receiving a bs => (ACK, in_phase (Receiving a (bs ++ [x])) v)
  | _ => (NACK, v)
  end.

Definition sim_read (ack : Z) (v : i2c_view) : Z * i2c_view :=
  (i2c_cells v (counter v),
   mkI2cView (if ack =? ACK then Sending else Started) (i2c_cells v) ((counter v + 1) mod 2048) (busy v)).

Definition sim_stop (v : i2c_view) : i2c_view :=
  match i2c_phase_of v with
  | Receiving a (x :: bs) => mkI2cView Stopped (program16 a (x :: bs) (i2c_cells v)) (counter v) 2
  | _ => in_phase Stopped v
  end.

#[export] Instance sim_twi : TwiBus i2c_view := {|
  twi_start := fun v => in_phase (match i2c_phase_of v with Receiving _ [] => Restarted | _ => Started end) v;
  twi_stop := sim_stop;
  twi_write_byte := sim_write;
  twi_read_byte := sim_read
|}.

Lemma select_present h : 0 <= h < 8 -> Z.land (Z.lxor 160 (2 * h)) 1 = 0 /\ Z.lxor 160 (Z.lxor 160 (2 * h)) = 2 * h.
Proof.
  intros Hh. rewrite <- Z.lxor_assoc, Z.lxor_nilpotent, Z.lxor_0_l. split; [|done].
  assert (Hall : forallb (fun h => Z.land (Z.lxor 160 (2 * h)) 1 =? 0) (seqZ 0 8) = true) by reflexivity.
  rewrite forallb_forall in Hall. apply Z.eqb_eq, Hall, list_elem_of_In, elem_of_seqZ. lia.
Qed.

#[export] Program Instance sim_i2c : I2cChip i2c_view := {| i2c_size := 2048; i2c := fun v => v |}.
Next Obligation. lia. Qed.
Next Obligation. cbn. intros b [->| ->]; done. Qed.
Next Obligation. cbn. by intros b a ->. Qed.
Next Obligation.
  intros b addr Hp Ha. cbn [twi_write_byte sim_twi]. unfold sim_write. rewrite Hp.
  destruct (select_present (addr / 256)) as [E1 E2]; [dlia|].
  destruct (Nat.eqb_spec (busy b) 0) as [Hb|Hb]; [|by right].
  rewrite E1, E2, (proj2 (Z.ltb_lt _ _)) by dlia. cbn [Z.eqb]. left. split; [done|].
  by rewrite Z.mul_comm, Z.div_mul by lia.
Qed.
Next Obligation.
  intros b addr Hp Ha Hs. cbn [twi_write_byte sim_twi]. unfold sim_write. rewrite Hp.
  destruct (Nat.eqb_spec (busy b) 0) as [Hb|Hb]; [|done].
  rewrite <- Z.lxor_assoc, Z.lxor_nilpotent, Z.lxor_0_l, (proj2 (Z.ltb_ge _ _)) by dlia.
  destruct b as [p cs k n]; cbn in *; subst. by destruct (_ =? 0).
Qed.
Next Obligation. cbn. unfold sim_write. by intros b h x ->. Qed.
Next Obligation. cbn. unfold sim_write. by intros b a bs x ->. Qed.
Next Obligation. intros b Hp Hc. cbn [twi_write_byte sim_twi]. unfold sim_write. by rewrite Hp. Qed.
Next Obligation. cbn. by intros b ack Hp Hc. Qed.
Next Obligation.
  cbn. unfold sim_stop. intros b a bs -> Hne _ _. destruct bs as [|x bs]; [done|].
  exists (counter b), 2%nat. split; [lia|done].
Qed.
Next Obligation. cbn. unfold sim_stop. by intros b [-> | ->]. Qed.

Definition blank_i2c : i2c_state i2c_view := mkI2c (mkI2cView Stopped (fun x => x mod 7) 0 5) 0.

Lemma blank_at_rest : at_rest (fun x => x mod 7) (bus blank_i2c).
Proof. split; [done|]. split; [done|]. cbn. lia. Qed.

(** ** The properties *)

(** C22: The driver makes the eeproms on the two-wire bus memory. With chips that behave as
    documented, even while a write cycle is going on, whatever block in the chips is written, set
    or moved, overlapping or not, across any number of pages and chips, or comes from the host as a
    stream: the call returns, reports success (a write the number of bytes), and afterwards the
    cells hold the block and are otherwise unchanged; a read returns the cells. *)
Theorem i2c_behaves_like_memory {B : Type} {Bus : TwiBus B} {Chip : I2cChip B}
    (c : Z -> Z) (s : i2c_state B) (dst src x : Z) (buf : list Z) (n : nat) :
  at_rest c (bus s) -> buf <> [] -> (0 < n)%nat -> 0 <= dst -> 0 <= src -> dst + 2 <= i2c_size ->
  dst + Z.of_nat (length buf) <= i2c_size ->
  dst + Z.of_nat n <= i2c_size -> src + Z.of_nat n <= i2c_size ->
  (exists s', i2c_eeprom_write dst buf s = Some (Z.of_nat (length buf), s') /\
     at_rest (blit dst buf c) (bus s')) /\
  (exists s', i2c_eeprom_memset dst x n s = Some (SUCCESS, s') /\
     at_rest (blit dst (replicate n (u8 x)) c) (bus s')) /\
  (exists s', i2c_eeprom_memmove dst src n s = Some (SUCCESS, s') /\
     at_rest (blit dst (bytes_at src n c) c) (bus s')) /\
  (exists s', i2c_eeprom_write_byte dst x s = (SUCCESS, s') /\ at_rest (blit dst [x] c) (bus s')) /\
  (exists s', i2c_eeprom_write_short dst x s = Some (SUCCESS, s') /\
     at_rest (blit dst (le16 x) c) (bus s')) /\
  (exists s', i2c_eeprom_read src n s = (bytes_at src n c, s') /\ at_rest c (bus s')) /\
  at_rest (blit dst buf c) (bus (Endpoint_Read_Control_SEStream dst buf s)).
Proof.
  intros Hr Hne Hn Hd Hs H2 Hb Hdn Hsn. split_and!.
  - destruct (i2c_write_spec c dst buf s Hr Hd Hb) as (s' & E & Hr' & _). by exists s'.
  - by apply i2c_memset_spec.
  - by apply i2c_memmove_spec.
  - apply i2c_write_byte_spec; [done|lia].
  - by apply i2c_write_short_spec.
  - destruct (i2c_read_spec c src n s Hr Hn Hs Hsn) as (b' & E & Hr'). by eexists.
  - by apply i2c_stream_spec.
Qed.

Lemma i2c_behaves_like_memory_witness :
  (fun r => (r.1, bytes_at 13 8 (i2c_cells (bus r.2)))) <$> i2c_eeprom_write 14 [70;71;72;73;74] blank_i2c
    = Some (5, [6;70;71;72;73;74;5;6]) /\
  (exists s', i2c_eeprom_memmove 14 9 30 blank_i2c = Some (0, s') /\
     at_rest (blit 14 (bytes_at 9 30 (fun x => x mod 7)) (fun x => x mod 7)) (bus s')).
Proof.
  split; [vm_compute; reflexivity|].
  assert (0 < 30)%nat as Hn by lia.
  destruct (i2c_behaves_like_memory _ _ 14 9 3 [70;71;72;73;74] 30 blank_at_rest) as (_ & _ & H & _);
    [discriminate|exact Hn|vm_compute; congruence..|]. exact H.
Defined.

(** C37: Without a chip at the address, nothing happens and the caller learns of it. Each call of the driver
    ends after exactly eleven attempts to select the chip ([eleven_attempts]: a start and the select
    byte, eleven times, then a stop), with the code for a selection that failed in [storage_errno] and
    no cell changed. Setting, and moving in either direction, return that code, reading returns no
    byte. Writing returns 0: the comment at i2c_eeprom.h:66 promises -1 when no byte has
    been written, but i2c_eeprom.c:169 tests the other way around. *)
Theorem i2c_reports_absent_chip {B : Type} {Bus : TwiBus B} {Chip : I2cChip B}
    (c : Z -> Z) (s : i2c_state B) (dst src x : Z) (buf : list Z) (n : nat) :
  at_rest c (bus s) -> buf <> [] -> (0 < n)%nat -> 0 <= dst < 16384 -> 0 <= src -> src + Z.of_nat n <= 16384 ->
  i2c_size <= 256 * (dst / 256) -> i2c_size <= 256 * (src / 256) ->
  (exists s', i2c_eeprom_write dst buf s = Some (0, s') /\ gave_up c dst s s') /\
  (exists s', i2c_eeprom_memset dst x n s = Some (WSELECT_ERROR, s') /\ gave_up c dst s s') /\
  (exists a s', src <= a < src + Z.of_nat n /\
     i2c_eeprom_memmove dst src n s = Some (WSELECT_ERROR, s') /\ gave_up c a s s') /\
  (exists s', i2c_eeprom_read dst n s = ([], s') /\ gave_up c dst s s').
Proof.
  intros Hr Hb Hn Hd H0 Hs4 Hsd Hss. split; [by apply write_absent_spec|]. split; [by apply memset_absent_spec|].
  split; [by apply memmove_absent_spec|by apply read_absent_spec].
Qed.

Lemma i2c_reports_absent_chip_witness :
  (exists s', i2c_eeprom_write 4096 [1;2;3] blank_i2c = Some (0, s') /\ gave_up (fun x => x mod 7) 4096 blank_i2c s') /\
  (exists a s', 4090 <= a < 4120 /\ i2c_eeprom_memmove 4096 4090 30 blank_i2c = Some (WSELECT_ERROR, s') /\
     gave_up (fun x => x mod 7) a blank_i2c s').
Proof.
  assert (0 < 30)%nat as Hn by lia.
  destruct (i2c_reports_absent_chip _ _ 4096 4090 3 [1;2;3] 30 blank_at_rest) as (H1 & _ & H2 & _);
    [discriminate|exact Hn|vm_compute; split; congruence|vm_compute; congruence..|]. split; [exact H1|exact H2].
Defined.
