(* ===== verification/Media.v ===== *)
(** * The eeproms as storage media

    src/storage.h maps the operations of each storage type to the functions of
    its driver.  Here the two external eeproms are made instances of [Storage],
    and the contract [StorageOk] that macro.c and the USB requests are proved
    against is discharged from the proofs of the drivers: the macros of the
    K84CS and the K80CS are on the SPI bus, those of the Kinesis variants and
    of the Ergodox on the two-wire bus.  The macros proved for any medium are
    then proved for these. *)

From S2P Require Import Prelude Hid Hardware K84cs ExtraReport MacroIndex Storage SpiEeprom SpiProofs.
From S2P Require Import TwiBus I2cEeprom I2cProofs Macro MacroProofs.

(** ** spi_eeprom *)

Section Spi.
Context {B : Type} {Bus : SpiBus B} {Chip : SpiChip B} (storage_errno : Z) (fuel : nat).

(** A medium is the bus, or nothing any more if a driver's polling did not
    end; [stuck] stands for the result that a call then does not return. *)
Definition calling {A} (stuck : A) (f : B -> option (A * B)) (m : option B) : A * option B :=
  match m ≫= f with
  | Some (a, b) => (a, Some b)
  | None => (stuck, None)
  end.

Definition spi_medium (P : B -> Prop) (m : option B) : Prop :=
  match m with Some b => P b | None => False end.

Definition spi_storage : Storage (option B) := {|
  storage_read := fun a n => calling None (fun b => let '(bs, b) := spi_eeprom_read a n b in Some (Some bs, b));
  storage_write := fun a bs => calling (-1) (fun b => spi_eeprom_write a bs b fuel);
  storage_write_short := fun a v => calling (-1) (fun b => spi_eeprom_write_short a v b fuel);
  storage_memmove := fun d s n => calling (-1) (fun b => spi_eeprom_memmove storage_errno d s n b fuel);
  storage_wait_for_last_write_end := fun m => b ← m; spi_eeprom_wait_for_last_write_end b fuel;
  Endpoint_Write_Control_Stream := fun a n => calling [] (fun b => Some (Endpoint_Write_Control_SpiMemStream a n b));
  Endpoint_Read_Control_Stream := fun a bs m => b ← m; Endpoint_Read_Control_SpiMemStream storage_errno a bs b fuel;
  cell := fun m x => match m with Some b => cells (view b) x | None => 0 end;
  in_medium := fun a n => 0 <= a /\ a + n <= spi_size;
  medium_ok := spi_medium (fun b => idle (cells (view b)) b);
  medium_ready := spi_medium (fun b => ready (cells (view b)) b)
|}.

Lemma idle_own c b : idle c b -> idle (cells (view b)) b /\ forall x, cells (view b) x = c x.
Proof. intros (Hp & Hc & Hn). by split. Qed.

Context (Hfuel : (max_polls < fuel)%nat).

Lemma polled_value {A} (f : nat -> option A) Q : polled f Q -> exists a, f fuel = Some a /\ Q a.
Proof. intros (a & Ha & Hf). exists a. split; [|done]. apply Hf. lia. Qed.

(** A call of the driver that returns in time. *)
Lemma calling_spec {A} (stuck : A) (f : B -> nat -> option (A * B)) (r : A) c b :
  polled (f b) (fun x => x.1 = r /\ idle c x.2) ->
  (calling stuck (fun b => f b fuel) (Some b)).1 = r /\
  spi_medium (fun b => idle (cells (view b)) b) (calling stuck (fun b => f b fuel) (Some b)).2 /\
  forall x, @cell _ spi_storage (calling stuck (fun b => f b fuel) (Some b)).2 x = c x.
Proof.
  intros ([a b'] & E & Hr & Hi)%polled_value. unfold calling. cbn [mbind option_bind]. rewrite E. cbn [fst snd] in *.
  destruct (idle_own _ _ Hi). done.
Qed.

Lemma spi_storage_ok : StorageOk (option B) spi_storage.
Proof.
  pose proof spi_size_ok. split; cbn [storage_read storage_write storage_write_short storage_memmove
    storage_wait_for_last_write_end Endpoint_Write_Control_Stream Endpoint_Read_Control_Stream in_medium
    medium_ok medium_ready spi_storage].
  - intros [b|]; [|done]. by intros [? _].
  - lia.
  - intros a n [b|] Hr Hn [Ha Hs]; [|done]. destruct (spi_read_spec _ a n b Hr) as [E Hr']; [lia|lia|].
    unfold calling. cbn [mbind option_bind]. destruct (spi_eeprom_read a n b) as [bs b']. cbn [fst snd] in *.
    subst bs. destruct (idle_own _ _ (proj1 Hr')) as [Hi Hc]. split; [done|]. split; [|exact Hc].
    split; [done|apply Hr'].
  - intros a bs [b|] Hi [Ha Hs] Hl; [|done]. apply (calling_spec (-1) (fun b => spi_eeprom_write a bs b)).
    by apply write_spec.
  - intros a v [b|] Hi [Ha Hs]; [|done].
    destruct (calling_spec (-1) (fun b => spi_eeprom_write_short a v b) SPI_EEPROM_OK (blit a (le16 v) (cells (view b))) b)
      as (_ & H1 & H2); [by apply write_short_spec|]. done.
  - intros d s n [b|] Hi Hds [Hd Hdn] [Hs Hsn]; [|done].
    apply (calling_spec (-1) (fun b => spi_eeprom_memmove storage_errno d s n b)). by apply move_up.
  - intros [b|] Hi; [|done]. cbn [mbind option_bind].
    destruct (polled_value _ _ (wait_spec _ b Hi)) as (b' & -> & Hr). destruct (idle_own _ _ (proj1 Hr)) as [H1 H2].
    split; [split; [done|apply Hr]|exact H2].
  - intros a n [b|] Hr [Ha Hs]; [|done]. destruct (spi_send_stream_spec _ a n b Hr) as [E Hr']; [lia|lia|].
    unfold calling. cbn [mbind option_bind]. destruct (Endpoint_Write_Control_SpiMemStream a n b) as [bs b'].
    cbn [fst snd] in *. destruct (idle_own _ _ (proj1 Hr')) as [Hi Hc]. split; [done|]. split; [|exact Hc].
    split; [done|apply Hr'].
  - intros a bs [b|] Hi Hne [Ha Hs]; [|done]. cbn [mbind option_bind].
    destruct (polled_value _ _ (spi_stream_spec storage_errno _ a bs b Hi Hne ltac:(lia) ltac:(lia))) as (b' & -> & Hi').
    destruct (idle_own _ _ Hi') as [H1 H2]. by split.
Qed.
End Spi.

(** ** i2c_eeprom *)

Section I2c.
Context {B : Type} {Bus : TwiBus B} {Chip : I2cChip B}.

(** The driver waits for a write cycle in every access, so a medium at rest is
    ready.  The loops over the pages always end ([default] is not reached). *)
Definition i2c_storage : Storage (i2c_state B) := {|
  storage_read := fun a n s =>
    let '(bs, s) := i2c_eeprom_read a n s in (if read_result bs =? Z.of_nat n then Some bs else None, s);
  storage_write := fun a bs s => default (-1, s) (i2c_eeprom_write a bs s);
  storage_write_short := fun a v s => default (-1, s) (i2c_eeprom_write_short a v s);
  storage_memmove := fun d src n s => default (-1, s) (i2c_eeprom_memmove d src n s);
  storage_wait_for_last_write_end := fun s => s;
  Endpoint_Write_Control_Stream := Endpoint_Write_Control_SEStream;
  Endpoint_Read_Control_Stream := Endpoint_Read_Control_SEStream;
  cell := fun s => i2c_cells (i2c (bus s));
  in_medium := fun a n => 0 <= a /\ a + n <= i2c_size;
  medium_ok := fun s => at_rest (i2c_cells (i2c (bus s))) (bus s);
  medium_ready := fun s => at_rest (i2c_cells (i2c (bus s))) (bus s)
|}.

Lemma at_rest_own c b : at_rest c b -> at_rest (i2c_cells (i2c b)) b /\ forall x, i2c_cells (i2c b) x = c x.
Proof. intros (Hp & Hc & Hn). by split. Qed.

Lemma i2c_storage_ok : StorageOk (i2c_state B) i2c_storage.
Proof.
  pose proof i2c_size_ok. split; cbn [storage_read storage_write storage_write_short storage_memmove
    storage_wait_for_last_write_end Endpoint_Write_Control_Stream Endpoint_Read_Control_Stream in_medium
    medium_ok medium_ready cell i2c_storage].
  - done.
  - lia.
  - intros a n s Hr Hn [Ha Hs]. destruct (i2c_read_spec _ a n s Hr Hn Ha Hs) as (b' & -> & Hr').
    destruct (at_rest_own _ _ Hr') as [H1 H2]. cbn [fst snd bus]. split; [|done].
    unfold read_result. rewrite bytes_at_length. rewrite (proj2 (Z.eqb_neq (Z.of_nat n) 0)) by lia.
    by rewrite Z.eqb_refl.
  - intros a bs s Hr [Ha Hs] _. destruct (i2c_write_spec _ a bs s Hr Ha Hs) as (s' & -> & Hr' & _).
    cbn [default fst snd]. destruct (at_rest_own _ _ Hr'). done.
  - intros a v s Hr [Ha Hs]. destruct (i2c_write_short_spec _ a v s Hr Ha Hs) as (s' & -> & Hr').
    by apply at_rest_own.
  - intros d src n s Hr _ [Hd Hdn] [Hs Hsn].
    destruct (i2c_memmove_spec _ d src n s Hr Hd Hs Hdn Hsn) as (s' & -> & Hr').
    cbn [default fst snd]. destruct (at_rest_own _ _ Hr'). done.
  - done.
  - intros a n s Hr [Ha Hs]. destruct (i2c_send_stream_spec _ a n s Hr Ha Hs) as [E Hr'].
    destruct (at_rest_own _ _ Hr'). done.
  - intros a bs s Hr Hne [Ha Hs]. by apply at_rest_own, i2c_stream_spec.
Qed.
End I2c.

(** ** A whole recording *)

Lemma record_spec `{H : Hardware, !HardwareOk H} {M} {St : Storage M} {Ok : StorageOk M St}
    (macros_storage : Z) ms u (s s1 : macro_state (M:=M)) (key ev : list Z) :
  0 <= macros_storage -> (0 < INDEX_COUNT)%nat ->
  macro_inv macros_storage ms u s -> medium_ready (storage s) -> valid_key key -> ev <> [] ->
  flat_len ms + chunk_len ev < 0x8000 -> room_for macros_storage ms (length ev) ->
  macros_start_macro macros_storage key s = (true, s1) ->
  exists ms2 u2, macro_inv macros_storage ms2 u2 (macros_commit_macro macros_storage (append_all ev s1).2) /\
    trigger ms2 u2 key = Some (inl ev).
Proof.
  intros Hbase Hc Hinv Hrd Hkey Hne Hmax Hroom Hstart.
  pose proof (start_spec macros_storage ms u key s Hc Hinv Hrd Hkey) as Hst. rewrite Hstart in Hst.
  destruct Hst as (ms1 & u1 & Hrec & Hle & _).
  pose proof (room_for_less macros_storage ms ms1 _ _ Hroom Hle (le_n _)) as Hroom1.
  destruct (append_all_spec macros_storage ms1 u1 key [] ev s1 Hrec Hroom1) as [_ Hrec2].
  assert (Hm1 : flat_len (ms1 ++ [ev]) < 0x8000) by flat_lia.
  destruct (commit_spec macros_storage Hbase ms1 u1 key ev (append_all ev s1).2 Hrec2 Hne Hm1 Hroom1)
    as (Hinv2 & _ & Htr & _). by exists (ms1 ++ [ev]), u1.
Qed.

Lemma medium_of_inv {M} {St : Storage M} macros_storage ms u (s : macro_state (M:=M)) :
  macro_inv macros_storage ms u s -> medium_ok (storage s).
Proof. intros (_ & (_ & _ & Ho) & _). exact Ho. Qed.

(** ** Chips for the witnesses *)

(** The K84CS with its macros on the chip of [SpiProofs], after a full reset
    and the last write cycle. *)
Definition k84_spi : Storage (option spi_view) := spi_storage 0 4.

#[local] Instance k84_spi_ok : StorageOk (option spi_view) k84_spi.
Proof. apply spi_storage_ok. cbn. lia. Qed.

Definition k84_defs : list macro_def_info := k84_live ++ mkMacroDef NO_KEY [0; 0; 0] :: [].

Definition blank_macros {M} (m : M) : macro_state (M:=M) :=
  mkMacro m (macro_idx_reset_defaults k84_defs (replicate INDEX_COUNT empty_entry)) no_recording
    (mkPlayback 0 0 ExtraKeyboardReport_clear) [].

Definition k84_spi_macros : macro_state (M:=option spi_view) :=
  @wait _ k84_spi (@macros_reset_defaults _ k84_spi 0 k84_defs (blank_macros (Some blank_chip))).

Lemma k84_spi_inv :
  (exists u, @macro_inv _ _ k84_spi 0 (map hkeys k84_live) u k84_spi_macros) /\
  @medium_ready _ k84_spi (storage k84_spi_macros).
Proof.
  destruct (defaults_inv (St:=k84_spi) 0 k84_live [] (mkMacroDef NO_KEY [0; 0; 0])) with
    (s := mkMacro (Some blank_chip) (replicate INDEX_COUNT empty_entry) no_recording
            (mkPlayback 0 0 ExtraKeyboardReport_clear) []) as (u & Hinv & _).
  - reflexivity.
  - vm_compute. reflexivity.
  - apply k84_live_ok.
  - vm_compute. split; discriminate.
  - apply k84_live_nodup.
  - exact (proj1 (idle_own _ _ blank_idle)).
  - vm_compute. reflexivity.
  - apply Nat.ltb_lt. vm_compute. reflexivity.
  - unfold k84_spi_macros, blank_macros.
    destruct (wait_ok (St:=k84_spi) _ (proj2 (proj2 (proj1 (proj2 Hinv))))) as (m & E & Hr & Es).
    fold k84_defs in E.
    match type of E with wait ?x = _ =>
      match goal with |- context [@wait _ _ ?y] => change y with x end end.
    rewrite E. split; [|exact Hr]. exists u. apply macro_inv_medium; [exact Es|by apply ready_is_ok|exact Hinv].
Qed.

(** ** The properties *)

(** C23: Both external eeproms keep the storage contract that the macros and the host's requests rely
    on. For any chips that behave as documented, and polling bounded by the length of a write
    cycle, reads of a ready medium return the cells, writes and moves down set them, whatever
    their place and size, streams to and from the host included, and waiting makes a busy medium
    ready: no call fails, hangs or touches other cells. *)
Theorem eeproms_keep_contract {B1 : Type} {Bus1 : SpiBus B1} {Chip1 : SpiChip B1}
    {B2 : Type} {Bus2 : TwiBus B2} {Chip2 : I2cChip B2} (storage_errno : Z) (fuel : nat) :
  (max_polls < fuel)%nat ->
  StorageOk (option B1) (spi_storage storage_errno fuel) /\ StorageOk (i2c_state B2) i2c_storage.
Proof. intros Hf. split; [by apply spi_storage_ok|apply i2c_storage_ok]. Qed.

Lemma eeproms_keep_contract_witness :
  StorageOk (option spi_view) (spi_storage 0 4) /\ StorageOk (i2c_state i2c_view) i2c_storage.
Proof.
  assert (Hf : (@max_polls _ _ sim_chip < 4)%nat) by (cbn; lia).
  exact (eeproms_keep_contract 0 4 Hf).
Defined.

(** C27: What is recorded is played. On any medium that keeps the contract, in a consistent state and
    with room for the macro: if recording for a trigger has started, then once its events have
    been appended and committed, and the medium has finished writing, looking the trigger up
    finds a macro whose playback gives exactly one report per event, each with the keys that the
    events so far have pressed and not released. *)
Theorem recorded_macro_plays `{H : Hardware, !HardwareOk H} {M} {St : Storage M} {Ok : StorageOk M St}
    (macros_storage : Z) ms u (s s1 : macro_state (M:=M)) (key ev : list Z) (m : M)
    (report : KeyboardReport_Data_t) :
  0 <= macros_storage -> (0 < INDEX_COUNT)%nat ->
  macro_inv macros_storage ms u s -> medium_ready (storage s) -> valid_key key -> ev <> [] ->
  flat_len ms + chunk_len ev < 0x8000 -> room_for macros_storage ms (length ev) ->
  macros_start_macro macros_storage key s = (true, s1) ->
  let s2 := macros_commit_macro macros_storage (append_all ev s1).2 in
  medium_ready m -> same_cells (storage s2) m ->
  exists i, macro_idx_lookup key (macro_index s2) = Some i /\
    type (macro_idx_get_data i (macro_index s2)) = MACRO /\
    let '(ok, s3) := macros_start_playback macros_storage (data (macro_idx_get_data i (macro_index s2)))
                       (set_storage m s2) in
    ok = true /\
    play_reports (length ev) report s3
    = map (fun n => ExtraKeyboardReport_append (pressed_by ExtraKeyboardReport_clear (take (S n) ev)) report)
          (seq 0 (length ev)).
Proof.
  intros Hbase Hc Hinv Hrd Hkey Hne Hmax Hroom Hstart s2 Hm Es.
  destruct (record_spec macros_storage ms u s s1 key ev) as (ms2 & u2 & Hinv2 & Htr); [done..|]. fold s2 in Hinv2.
  pose proof (macro_inv_medium macros_storage _ _ m s2 Es (ready_is_ok _ Hm) Hinv2) as Hinv3.
  destruct (playback_spec macros_storage ms2 u2 (set_storage m s2) key ev report Hinv3 Hm Hkey Htr Hne)
    as (i & H1 & H2 & H3).
  exists i. split; [exact H1|]. split; [exact H2|]. cbn [macro_index set_storage] in H3.
  destruct (macros_start_playback _ _ _) as [ok s3]. destruct H3 as (-> & _ & ->). done.
Qed.

Lemma recorded_macro_plays_witness :
  let St := k84_spi in
  match macros_start_macro 0 (single_key 169) k84_spi_macros with
  | (true, s1) =>
      let s2 := macros_commit_macro 0 (append_all [4; 5; 4; 5] s1).2 in
      exists i, macro_idx_lookup (single_key 169) (macro_index s2) = Some i /\
        type (macro_idx_get_data i (macro_index s2)) = MACRO /\
        let '(ok, s3) := macros_start_playback 0 (data (macro_idx_get_data i (macro_index s2))) (wait s2) in
        ok = true /\
        play_reports 4 empty_keyboard_report s3
        = [mkKeyboardReport 0 0 [4; 0; 0; 0; 0; 0]; mkKeyboardReport 0 0 [4; 5; 0; 0; 0; 0];
           mkKeyboardReport 0 0 [5; 0; 0; 0; 0; 0]; mkKeyboardReport 0 0 [0; 0; 0; 0; 0; 0]]
  | (false, _) => False
  end.
Proof.
  intros St. destruct k84_spi_inv as [[u Hinv] Hrd].
  assert (Hc : (0 < INDEX_COUNT)%nat) by (apply Nat.ltb_lt; vm_compute; reflexivity).
  assert (Hk : valid_key (single_key 169)) by (apply single_key_valid; lia).
  assert (Hl : flat_len (map hkeys k84_live) + chunk_len [4; 5; 4; 5] < 0x8000) by (vm_compute; reflexivity).
  assert (Hroom : @room_for _ St 0 (map hkeys k84_live) 4) by (vm_compute; split; discriminate).
  assert (Hst : (macros_start_macro 0 (single_key 169) k84_spi_macros).1 = true) by (vm_compute; reflexivity).
  destruct (macros_start_macro 0 (single_key 169) k84_spi_macros) as [ok s1] eqn:E. cbn [fst] in Hst. subst ok.
  destruct (record_spec (St:=St) 0 _ u _ s1 (single_key 169) [4; 5; 4; 5] (Z.le_refl 0) Hc Hinv Hrd Hk
    ltac:(discriminate) Hl Hroom E) as (ms2 & u2 & Hinv2 & _).
  destruct (storage_wait_ok _ (medium_of_inv _ _ _ _ Hinv2)) as [Hm Es].
  exact (recorded_macro_plays 0 (map hkeys k84_live) u k84_spi_macros s1 (single_key 169) [4; 5; 4; 5] _
    empty_keyboard_report (Z.le_refl 0) Hc Hinv Hrd Hk ltac:(discriminate) Hl Hroom E Hm Es).
Defined.
