(* ===== verification/Descriptors.v ===== *)
(** * Descriptors.c: what the firmware tells the host about itself

    The USB descriptors of src/Descriptors.c as the bytes the compiler lays
    out, multi-byte fields low byte first, the structures of
    src/Descriptors.h field by field, and the function that hands them out:
    [CALLBACK_USB_GetDescriptor] of the LUFA build and
    [usbFunctionDescriptor] of the V-USB build.  The macros and the packed
    structures of the USB library (LUFA's StdDescriptors.h, HIDClassCommon.h
    and HIDReportData.h) are written out; their names are kept.  Each variant
    has its identifiers ([UsbIds], from src/hardware/<variant>.h). *)

From Stdlib Require Import String Ascii.
From S2P Require Import Prelude Hid Storage.
Open Scope Z_scope.

(** ** Identifiers *)

Class UsbIds := {
  USB_VENDOR_ID : Z;
  USB_PRODUCT_ID : Z;
  USB_MANUFACTURER_STRING : string;
  USB_PRODUCT_STRING : string;
  USB_SERIAL_NUMBER_STRING : string
}.

Definition K84cs_ids : UsbIds := {|
  USB_VENDOR_ID := 0x1d50; USB_PRODUCT_ID := 0x6028;
  USB_MANUFACTURER_STRING := "andreae.gen.nz";
  USB_PRODUCT_STRING := "K84CS USB Keyboard";
  USB_SERIAL_NUMBER_STRING := "andreae.gen.nz:k84cs" |}.
(** The product of the K80CS depends on the processor. *)
Definition K80cs_ids (xmega : bool) : UsbIds := {|
  USB_VENDOR_ID := 0x1d50; USB_PRODUCT_ID := 0x6028;
  USB_MANUFACTURER_STRING := "andreae.gen.nz";
  USB_PRODUCT_STRING := if xmega then "K80CS USB Keyboard" else "K80CS USB Keyboard (ATMega)";
  USB_SERIAL_NUMBER_STRING := "andreae.gen.nz:k80cs" |}.
Definition Kinesis_ids : UsbIds := {|
  USB_VENDOR_ID := 0x16c0; USB_PRODUCT_ID := 0x27db;
  USB_MANUFACTURER_STRING := "andreae.gen.nz";
  USB_PRODUCT_STRING := "Programmable USB Keyboard";
  USB_SERIAL_NUMBER_STRING := "andreae.gen.nz:kinesis" |}.
Definition Kinesis110_ids : UsbIds := {|
  USB_VENDOR_ID := 0x16c0; USB_PRODUCT_ID := 0x27db;
  USB_MANUFACTURER_STRING := "andreae.gen.nz";
  USB_PRODUCT_STRING := "Programmable USB Keyboard";
  USB_SERIAL_NUMBER_STRING := "andreae.gen.nz:kinesis110" |}.
Definition Ergodox_ids : UsbIds := {|
  USB_VENDOR_ID := 0x1d50; USB_PRODUCT_ID := 0x6028;
  USB_MANUFACTURER_STRING := "andreae.gen.nz";
  USB_PRODUCT_STRING := "Ergodox - Programmable USB Keyboard";
  USB_SERIAL_NUMBER_STRING := "andreae.gen.nz:ergodox" |}.

(** ** The report descriptors *)

(** [_HID_RI_ENTRY(Type, Tag, DataBits, Data)]: the prefix, then the data. *)
Definition HID_RI_ENTRY (type tag bits data : Z) : list Z :=
  if bits =? 0 then [Z.lor type tag]
  else if bits =? 8 then [Z.lor (Z.lor type tag) 1; Z.land data 0xff]
  else [Z.lor (Z.lor type tag) 2; Z.land data 0xff; Z.land (Z.shiftr data 8) 0xff].

Definition HID_RI_INPUT := HID_RI_ENTRY 0x00 0x80.
Definition HID_RI_OUTPUT := HID_RI_ENTRY 0x00 0x90.
Definition HID_RI_COLLECTION := HID_RI_ENTRY 0x00 0xA0.
Definition HID_RI_END_COLLECTION := HID_RI_ENTRY 0x00 0xC0 0 0.
Definition HID_RI_USAGE_PAGE := HID_RI_ENTRY 0x04 0x00.
Definition HID_RI_LOGICAL_MINIMUM := HID_RI_ENTRY 0x04 0x10.
Definition HID_RI_LOGICAL_MAXIMUM := HID_RI_ENTRY 0x04 0x20.
Definition HID_RI_REPORT_SIZE := HID_RI_ENTRY 0x04 0x70.
Definition HID_RI_REPORT_COUNT := HID_RI_ENTRY 0x04 0x90.
Definition HID_RI_USAGE := HID_RI_ENTRY 0x08 0x00.
Definition HID_RI_USAGE_MINIMUM := HID_RI_ENTRY 0x08 0x10.
Definition HID_RI_USAGE_MAXIMUM := HID_RI_ENTRY 0x08 0x20.

(** The flags of the items; [DATA], [ARRAY], [ABSOLUTE] and [NON_VOLATILE] are 0. *)
Abbreviation HID_IOF_CONSTANT := 1 (only parsing).
Abbreviation HID_IOF_VARIABLE := 2 (only parsing).
Abbreviation HID_IOF_RELATIVE := 4 (only parsing).

Definition MouseReport : list Z := concat [
  HID_RI_USAGE_PAGE 8 0x01; (* Generic Desktop *)
  HID_RI_USAGE 8 0x02; (* Mouse *)
  HID_RI_COLLECTION 8 0x01; (* Application *)
  HID_RI_USAGE 8 0x01; (* Pointer *)
  HID_RI_COLLECTION 8 0x00; (* Physical *)
  HID_RI_USAGE_PAGE 8 0x09; (* Button *)
  HID_RI_USAGE_MINIMUM 8 0x01;
  HID_RI_USAGE_MAXIMUM 8 0x05;
  HID_RI_LOGICAL_MINIMUM 8 0x00;
  HID_RI_LOGICAL_MAXIMUM 8 0x01;
  HID_RI_REPORT_COUNT 8 0x05;
  HID_RI_REPORT_SIZE 8 0x01;
  HID_RI_INPUT 8 HID_IOF_VARIABLE;
  HID_RI_REPORT_COUNT 8 0x01;
  HID_RI_REPORT_SIZE 8 0x03;
  HID_RI_INPUT 8 HID_IOF_CONSTANT;
  HID_RI_USAGE_PAGE 8 0x01; (* Generic Desktop *)
  HID_RI_USAGE 8 0x30; (* X *)
  HID_RI_USAGE 8 0x31; (* Y *)
  HID_RI_USAGE 8 0x38; (* wheel *)
  HID_RI_LOGICAL_MINIMUM 8 (-127);
  HID_RI_LOGICAL_MAXIMUM 8 127;
  HID_RI_REPORT_COUNT 8 0x03;
  HID_RI_REPORT_SIZE 8 0x08;
  HID_RI_INPUT 8 (Z.lor HID_IOF_VARIABLE HID_IOF_RELATIVE);
  HID_RI_USAGE_PAGE 8 0x0c; (* Consumer Devices *)
  HID_RI_USAGE 16 0x238; (* AC Pan *)
  HID_RI_LOGICAL_MINIMUM 8 (-127);
  HID_RI_LOGICAL_MAXIMUM 8 127;
  HID_RI_REPORT_COUNT 8 0x01;
  HID_RI_REPORT_SIZE 8 0x08;
  HID_RI_INPUT 8 (Z.lor HID_IOF_VARIABLE HID_IOF_RELATIVE);
  HID_RI_END_COLLECTION;
  HID_RI_END_COLLECTION ].

Definition KeyboardReport : list Z := concat [
  HID_RI_USAGE_PAGE 8 0x01; (* Generic Desktop *)
  HID_RI_USAGE 8 0x06; (* Keyboard *)
  HID_RI_COLLECTION 8 0x01; (* Application *)
  HID_RI_USAGE_PAGE 8 0x07; (* Key Codes *)
  HID_RI_USAGE_MINIMUM 8 0xE0; (* Keyboard Left Control *)
  HID_RI_USAGE_MAXIMUM 8 0xE7; (* Keyboard Right GUI *)
  HID_RI_LOGICAL_MINIMUM 8 0x00;
  HID_RI_LOGICAL_MAXIMUM 8 0x01;
  HID_RI_REPORT_SIZE 8 0x01;
  HID_RI_REPORT_COUNT 8 0x08;
  HID_RI_INPUT 8 HID_IOF_VARIABLE;
  HID_RI_REPORT_COUNT 8 0x01;
  HID_RI_REPORT_SIZE 8 0x08;
  HID_RI_INPUT 8 HID_IOF_CONSTANT;
  HID_RI_USAGE_PAGE 8 0x08; (* LEDs *)
  HID_RI_USAGE_MINIMUM 8 0x01; (* Num Lock *)
  HID_RI_USAGE_MAXIMUM 8 0x05; (* Kana *)
  HID_RI_REPORT_COUNT 8 0x05;
  HID_RI_REPORT_SIZE 8 0x01;
  HID_RI_OUTPUT 8 HID_IOF_VARIABLE;
  HID_RI_REPORT_COUNT 8 0x01;
  HID_RI_REPORT_SIZE 8 0x03;
  HID_RI_OUTPUT 8 HID_IOF_CONSTANT;
  HID_RI_LOGICAL_MINIMUM 8 0x00;
  HID_RI_LOGICAL_MAXIMUM 16 0xE7;
  HID_RI_USAGE_PAGE 8 0x07; (* Keyboard *)
  HID_RI_USAGE_MINIMUM 8 0x00; (* Reserved *)
  HID_RI_USAGE_MAXIMUM 8 0xE7; (* Keyboard Application *)
  HID_RI_REPORT_COUNT 8 (Z.of_nat KEYBOARDREPORT_KEY_COUNT);
  HID_RI_REPORT_SIZE 8 0x08;
  HID_RI_INPUT 8 0;
  HID_RI_END_COLLECTION ].

(** The report structures in memory: packed, a byte per field or element. *)
Definition keyboard_report_bytes (r : KeyboardReport_Data_t) : list Z := Modifier r :: Reserved r :: KeyCode r.
Definition mouse_report_bytes (r : MouseReport_Data_t) : list Z :=
  [Button r; u8 (X r); u8 (Y r); u8 (VWheel r); u8 (HWheel r)].

(** ** The other descriptors *)

Abbreviation DTYPE_Device := 0x01 (only parsing).
Abbreviation DTYPE_Configuration := 0x02 (only parsing).
Abbreviation DTYPE_String := 0x03 (only parsing).
Abbreviation DTYPE_Interface := 0x04 (only parsing).
Abbreviation DTYPE_Endpoint := 0x05 (only parsing).
Abbreviation HID_DTYPE_HID := 0x21 (only parsing).
Abbreviation HID_DTYPE_Report := 0x22 (only parsing).
Abbreviation NO_DESCRIPTOR := 0 (only parsing).
Abbreviation KEYBOARD_IN_EPNUM := 1 (only parsing).
Abbreviation MOUSE_IN_EPNUM := 3 (only parsing).
Abbreviation HID_EPSIZE := 8 (only parsing).
Abbreviation ENDPOINT_DIR_IN := 0x80 (only parsing).
Abbreviation EP_TYPE_INTERRUPT := 0x03 (only parsing).

(** The sizes of the packed structures. *)
Abbreviation sizeof_Header := 2 (only parsing).
Abbreviation sizeof_Device := 18 (only parsing).
Abbreviation sizeof_Configuration_Header := 9 (only parsing).
Abbreviation sizeof_Interface := 9 (only parsing).
Abbreviation sizeof_HID := 9 (only parsing).
Abbreviation sizeof_Endpoint := 7 (only parsing).
(** [sizeof(USB_Descriptor_Configuration_t)] *)
Definition sizeof_Configuration : Z :=
  sizeof_Configuration_Header + sizeof_Interface
  + (sizeof_Interface + sizeof_HID + sizeof_Endpoint) + (sizeof_Interface + sizeof_HID + sizeof_Endpoint).

Definition VERSION_BCD (major minor revision : Z) : Z :=
  Z.lor (Z.lor (Z.shiftl (Z.land major 0xff) 8) (Z.shiftl (Z.land minor 0x0f) 4)) (Z.land revision 0x0f).
Definition USB_CONFIG_POWER_MA (mA : Z) : Z := Z.shiftr mA 1.

Definition USB_Descriptor_Interface (number endpoints class subclass protocol : Z) : list Z :=
  [sizeof_Interface; DTYPE_Interface; number; 0; endpoints; class; subclass; protocol; NO_DESCRIPTOR].

Definition USB_HID_Descriptor_HID (report : list Z) : list Z :=
  [sizeof_HID; HID_DTYPE_HID] ++ le16 (VERSION_BCD 1 1 1) ++ [0; 1; HID_DTYPE_Report]
  ++ le16 (Z.of_nat (length report)).

Definition USB_Descriptor_Endpoint (address : Z) : list Z :=
  [sizeof_Endpoint; DTYPE_Endpoint; Z.lor ENDPOINT_DIR_IN address; EP_TYPE_INTERRUPT] ++ le16 HID_EPSIZE ++ [2].

Definition Config : list Z :=
  [sizeof_Configuration_Header; DTYPE_Configuration] ++ le16 sizeof_Configuration
  ++ [3; 1; NO_DESCRIPTOR; Z.lor 0x80 0x20; USB_CONFIG_POWER_MA 30].
Definition CFG_Interface : list Z := USB_Descriptor_Interface 0 0 0xff 0 0.
Definition HID1_KeyboardInterface : list Z := USB_Descriptor_Interface 1 1 3 1 1.
Definition HID1_KeyboardHID : list Z := USB_HID_Descriptor_HID KeyboardReport.
Definition HID1_ReportINEndpoint : list Z := USB_Descriptor_Endpoint KEYBOARD_IN_EPNUM.
Definition HID2_MouseInterface : list Z := USB_Descriptor_Interface 2 1 3 1 2.
Definition HID2_MouseHID : list Z := USB_HID_Descriptor_HID MouseReport.
Definition HID2_ReportINEndpoint : list Z := USB_Descriptor_Endpoint MOUSE_IN_EPNUM.

Definition ConfigurationDescriptor : list Z :=
  Config ++ CFG_Interface
  ++ HID1_KeyboardInterface ++ HID1_KeyboardHID ++ HID1_ReportINEndpoint
  ++ HID2_MouseInterface ++ HID2_MouseHID ++ HID2_ReportINEndpoint.

(** The characters of a wide string literal, without the terminator that
    follows them in memory. *)
Fixpoint wide (s : string) : list Z :=
  match s with
  | EmptyString => []
  | String c s => le16 (Z.of_nat (nat_of_ascii c)) ++ wide s
  end.

(** [USB_STRING_LEN_OF(x)]: [sizeof(x)] counts the terminator. *)
Definition USB_STRING_LEN_OF (s : string) : Z :=
  sizeof_Header + 2 * (Z.of_nat (String.length s) + 1) - 2.

Definition USB_Descriptor_String (s : string) : list Z :=
  [u8 (USB_STRING_LEN_OF s); DTYPE_String] ++ wide s ++ [0; 0].

(** [LANGUAGE_ID_ENG] *)
Definition LanguageString : list Z := [sizeof_Header + Z.shiftl 1 1; DTYPE_String] ++ le16 0x0409.

(** ** Handing them out *)

Section Get.
Context {I : UsbIds}.

Definition DeviceDescriptor : list Z :=
  [sizeof_Device; DTYPE_Device] ++ le16 (VERSION_BCD 1 1 0) ++ [0; 0; 0; 8]
  ++ le16 USB_VENDOR_ID ++ le16 USB_PRODUCT_ID ++ le16 (VERSION_BCD 1 1 0) ++ [1; 2; 3; 1].
Definition ManufacturerString : list Z := USB_Descriptor_String USB_MANUFACTURER_STRING.
Definition ProductString : list Z := USB_Descriptor_String USB_PRODUCT_STRING.
Definition SerialNumberString : list Z := USB_Descriptor_String USB_SERIAL_NUMBER_STRING.

(** The memory at [Address] ([None]: the null pointer) and [Size]; a string
    gives the size in its header. *)
Definition get_descriptor (wValue wIndex : Z) : option (list Z) * Z :=
  let DescriptorType := u8 (Z.shiftr wValue 8) in
  let DescriptorNumber := Z.land wValue 0xff in
  let object o := (Some o, Z.of_nat (length o)) in
  let text s := (Some s, s !!! 0%nat) in
  if DescriptorType =? DTYPE_Device then (Some DeviceDescriptor, sizeof_Device)
  else if DescriptorType =? DTYPE_Configuration then (Some ConfigurationDescriptor, sizeof_Configuration)
  else if DescriptorType =? DTYPE_String then
    if DescriptorNumber =? 0 then text LanguageString
    else if DescriptorNumber =? 1 then text ManufacturerString
    else if DescriptorNumber =? 2 then text ProductString
    else if DescriptorNumber =? 3 then text SerialNumberString
    else (None, NO_DESCRIPTOR)
  else if DescriptorType =? HID_DTYPE_HID then
    if wIndex =? 1 then (Some HID1_KeyboardHID, sizeof_HID)
    else if wIndex =? 2 then (Some HID2_MouseHID, sizeof_HID)
    else (None, NO_DESCRIPTOR)
  else if DescriptorType =? HID_DTYPE_Report then
    if wIndex =? 1 then object KeyboardReport
    else if wIndex =? 2 then object MouseReport
    else (None, NO_DESCRIPTOR)
  else (None, NO_DESCRIPTOR).

(** LUFA: [wIndex] is a byte. *)
Definition CALLBACK_USB_GetDescriptor (wValue wIndex : Z) : option (list Z) * Z :=
  get_descriptor wValue (u8 wIndex).

(** V-USB: the fields of the request, and [usbMsgPtr]. *)
Definition usbFunctionDescriptor (wValue wIndex : Z) : option (list Z) * Z := get_descriptor wValue wIndex.

(** What the host gets: [Size] bytes from [Address] on; nothing is a refusal. *)
Definition descriptor_sent (r : option (list Z) * Z) : option (list Z) :=
  match r with
  | (Some mem, size) => if size =? 0 then None else Some (take (Z.to_nat size) mem)
  | (None, _) => None
  end.
End Get.

(** ** The endpoints of the class driver (src/lufa/lufa_main.c) *)

(** [USB_ClassInfo_HID_Device_t], as far as it is set. *)
Record HID_Interface := mkHIDInterface {
  InterfaceNumber : Z;
  ReportINEndpoint_Address : Z;
  ReportINEndpoint_Size : Z;
  PrevReportINBufferSize : Z
}.

Definition Keyboard_HID_Interface : HID_Interface := mkHIDInterface 1 (Z.lor ENDPOINT_DIR_IN 1) HID_EPSIZE 8.
Definition Mouse_HID_Interface : HID_Interface := mkHIDInterface 2 (Z.lor ENDPOINT_DIR_IN 3) HID_EPSIZE 5.
