(* ===== verification/HidHost.v ===== *)
(** * The host's side of USB HID

    What the HID specification (Device Class Definition 1.11) says a host does
    with a report descriptor and with a report: the items are parsed with their
    global and local state into the fields of the reports, and the bits of a
    report are read field by field.  This is the specification the descriptors
    of [Descriptors] are judged by; it models no code of the firmware. *)

From S2P Require Import Prelude.

(** ** Items *)

(** The prefix without its size bits, and the data. *)
Record hid_item := mkItem { kind : Z; item_data : list Z }.

Definition item_size (prefix : Z) : nat :=
  let s := Z.land prefix 3 in if s =? 3 then 4 else Z.to_nat s.

Fixpoint parse_items (fuel : nat) (bs : list Z) : option (list hid_item) :=
  match bs, fuel with
  | [], _ => Some []
  | _, O => None
  | p :: bs, S fuel =>
      let n := item_size p in
      if (length bs <? n)%nat then None
      else
        items ← parse_items fuel (drop n bs);
        Some (mkItem (p - Z.land p 3) (take n bs) :: items)
  end.

Definition unsigned (bs : list Z) : Z := foldr (fun b v => b + 256 * v) 0 bs.
Definition signed (bs : list Z) : Z :=
  let v := unsigned bs in
  let range := 2 ^ (8 * Z.of_nat (length bs)) in
  if 2 * v >=? range then v - range else v.

(** ** Fields *)

Record hid_field := mkField {
  output : bool;
  flags : Z;
  page : Z;
  usages : list Z;
  logical_min : Z;
  logical_max : Z;
  size : nat;
  count : nat
}.

Record parser := mkParser {
  cur : hid_field;
  (* the pending start of a usage range, and the open collections *)
  usage_min : Z;
  depth : nat;
  fields : list hid_field
}.

Definition parser_start : parser := mkParser (mkField false 0 0 [] 0 0 0 0) 0 0 [].

(** Main items end the life of the local state. *)
Definition clear_local (f : hid_field) : hid_field :=
  mkField (output f) (flags f) (page f) [] (logical_min f) (logical_max f) (size f) (count f).

Definition emit (out : bool) (fl : Z) (s : parser) : parser :=
  let f := cur s in
  let f' := mkField out fl (page f) (usages f) (logical_min f) (logical_max f) (size f) (count f) in
  mkParser (clear_local f) 0 (depth s) (fields s ++ [f']).

Definition parse_item (i : hid_item) (s : parser) : option parser :=
  let f := cur s in
  let u := unsigned (item_data i) in
  let v := signed (item_data i) in
  let set f := Some (mkParser f (usage_min s) (depth s) (fields s)) in
  let k := kind i in
  if k =? 0x80 then Some (emit false u s)
  else if k =? 0x90 then Some (emit true u s)
  else if k =? 0xA0 then Some (mkParser (clear_local f) 0 (S (depth s)) (fields s))
  else if k =? 0xC0 then
    match depth s with O => None | S d => Some (mkParser (clear_local f) 0 d (fields s)) end
  else if k =? 0x04 then set (mkField (output f) (flags f) u (usages f) (logical_min f) (logical_max f) (size f) (count f))
  else if k =? 0x14 then set (mkField (output f) (flags f) (page f) (usages f) v (logical_max f) (size f) (count f))
  else if k =? 0x24 then set (mkField (output f) (flags f) (page f) (usages f) (logical_min f) v (size f) (count f))
  else if k =? 0x74 then set (mkField (output f) (flags f) (page f) (usages f) (logical_min f) (logical_max f) (Z.to_nat u) (count f))
  else if k =? 0x94 then set (mkField (output f) (flags f) (page f) (usages f) (logical_min f) (logical_max f) (size f) (Z.to_nat u))
  else if k =? 0x08 then set (mkField (output f) (flags f) (page f) (usages f ++ [u]) (logical_min f) (logical_max f) (size f) (count f))
  else if k =? 0x18 then Some (mkParser f u (depth s) (fields s))
  else if k =? 0x28 then
    set (mkField (output f) (flags f) (page f) (usages f ++ seqZ (usage_min s) (u - usage_min s + 1))
           (logical_min f) (logical_max f) (size f) (count f))
  else None.

Fixpoint parse_all (items : list hid_item) (s : parser) : option parser :=
  match items with
  | [] => Some s
  | i :: items => s ← parse_item i s; parse_all items s
  end.

(** The fields a report descriptor declares; its collections have to be closed. *)
Definition parse_report (descriptor : list Z) : option (list hid_field) :=
  items ← parse_items (length descriptor) descriptor;
  s ← parse_all items parser_start;
  match depth s with O => Some (fields s) | _ => None end.

(** The bits of the fields in one direction. *)
Definition report_bits (out : bool) (fs : list hid_field) : nat :=
  sum_list_with (fun f => size f * count f)%nat (filter (fun f => output f = out) fs).

(** ** Reports *)

(** Bits are numbered from the lowest of the first byte. *)
Definition byte_bits (b : Z) : list bool := map (Z.testbit b) [0; 1; 2; 3; 4; 5; 6; 7].
Definition value_of (bits : list bool) : Z := foldr (fun b v => Z.b2z b + 2 * v) 0 bits.

(** A control's state: of a variable its value, [None] if it is outside the
    declared range, which a host takes for no value; or a control of an array
    that is on. *)
Inductive control :=
  | Var (page usage : Z) (value : option Z)
  | On (page usage : Z).

Definition field_value (f : hid_field) (bits : list bool) : option Z :=
  let v := value_of bits in
  let range := 2 ^ Z.of_nat (length bits) in
  let v := if (logical_min f <? 0) && (2 * v >=? range) then v - range else v in
  if (logical_min f <=? v) && (v <=? logical_max f) then Some v else None.

Fixpoint chunks {A} (n size : nat) (l : list A) : list (list A) :=
  match n with
  | O => []
  | S n => take size l :: chunks n size (drop size l)
  end.

Definition decode_field (f : hid_field) (bits : list bool) : list control :=
  let values := map (field_value f) (chunks (count f) (size f) bits) in
  if Z.testbit (flags f) 0 then []
  else if Z.testbit (flags f) 1 then
    zip_with (fun u v => Var (page f) u v) (usages f) values
  else flat_map (fun v => match v with
                          | Some v => [On (page f) (usages f !!! Z.to_nat (v - logical_min f))]
                          | None => []
                          end) values.

Fixpoint decode_fields (fs : list hid_field) (bits : list bool) : option (list control) :=
  match fs with
  | [] => match bits with [] => Some [] | _ => None end
  | f :: fs =>
      let n := (size f * count f)%nat in
      if (length bits <? n)%nat then None
      else
        cs ← decode_fields fs (drop n bits);
        Some (decode_field f (take n bits) ++ cs)
  end.

(** What the host makes of a report whose length is the declared one. *)
Definition host_reads (descriptor : list Z) (out : bool) (report : list Z) : option (list control) :=
  fs ← parse_report descriptor;
  decode_fields (filter (fun f => output f = out) fs) (flat_map byte_bits report).

(** ** Enumeration

    What a host reads of a device before it uses it (Universal Serial Bus
    Specification 2.0, 9.6): the device descriptor, the configuration with the
    number of interfaces and the total length it promises, each interface with
    the number of endpoints it promises, its report descriptor by the length
    in the HID descriptor, and the strings. *)

Record host_endpoint := mkEndpoint { address : Z; attributes : Z; packet : Z }.

Record host_interface := mkInterface {
  number : Z;
  class_code : Z * Z * Z;
  endpoints : list host_endpoint;
  report_length : option Z
}.

Definition word_at (bs : list Z) (i : nat) : Z := unsigned (take 2 (drop i bs)).

(** A descriptor is as long as its first byte says. *)
Fixpoint split_descriptors (fuel : nat) (bs : list Z) : option (list (list Z)) :=
  match bs, fuel with
  | [], _ => Some []
  | _, O => None
  | n :: _, S fuel =>
      if (n <? 2) || (Z.of_nat (length bs) <? n) then None
      else
        ds ← split_descriptors fuel (drop (Z.to_nat n) bs);
        Some (take (Z.to_nat n) bs :: ds)
  end.

(** The descriptors of an interface, up to the next interface; what remains. *)
Fixpoint interface_parts (ds : list (list Z)) : list host_endpoint * option Z * list (list Z) :=
  match ds with
  | [] => ([], None, [])
  | d :: ds' =>
      let '(es, r, rest) := interface_parts ds' in
      if d !!! 1%nat =? 4 then ([], None, ds)
      else if d !!! 1%nat =? 5 then (mkEndpoint (d !!! 2%nat) (d !!! 3%nat) (word_at d 4) :: es, r, rest)
      else if (d !!! 1%nat =? 0x21) && (d !!! 5%nat =? 1) && (d !!! 6%nat =? 0x22) then (es, Some (word_at d 7), rest)
      else (es, r, rest)
  end.

(** The endpoints of an interface are as many as it says. *)
Fixpoint interfaces (fuel : nat) (ds : list (list Z)) : option (list host_interface) :=
  match ds, fuel with
  | [], _ => Some []
  | _, O => None
  | d :: ds, S fuel =>
      let '(es, r, rest) := interface_parts ds in
      if (d !!! 1%nat =? 4) && (d !!! 4%nat =? Z.of_nat (length es)) then
        ifs ← interfaces fuel rest;
        Some (mkInterface (d !!! 2%nat) (d !!! 5%nat, d !!! 6%nat, d !!! 7%nat) es r :: ifs)
      else None
  end.

Definition read_configuration (bs : list Z) : option (list host_interface) :=
  ds ← split_descriptors (length bs) bs;
  match ds with
  | c :: ds =>
      ifs ← interfaces (length ds) ds;
      if (c !!! 1%nat =? 2) && (word_at c 2 =? Z.of_nat (length bs)) && (c !!! 4%nat =? Z.of_nat (length ifs))
      then Some ifs else None
  | [] => None
  end.

(** The characters of a string descriptor. *)
Fixpoint characters (bs : list Z) : list Z :=
  match bs with
  | lo :: hi :: bs => (lo + 256 * hi) :: characters bs
  | _ => []
  end.

Definition read_string (bs : list Z) : option (list Z) :=
  match bs with
  | n :: 3 :: cs => if n =? Z.of_nat (length bs) then Some (characters cs) else None
  | _ => None
  end.

Record host_device := mkDevice {
  vendor : Z;
  product : Z;
  strings : list (list Z);
  device_interfaces : list (host_interface * option (list hid_field))
}.

Section Enumerate.
(** The device's answer to GET_DESCRIPTOR with [wValue] and [wIndex]. *)
Context (get : Z -> Z -> option (list Z)).

(** The fields of an interface's report, read by the length it promises. *)
Definition enumerate_interface (i : host_interface) : option (host_interface * option (list hid_field)) :=
  match report_length i with
  | None => Some (i, None)
  | Some n =>
      bs ← get 0x2200 (number i);
      fs ← parse_report bs;
      if Z.of_nat (length bs) =? n then Some (i, Some fs) else None
  end.

Definition enumerate : option host_device :=
  d ← get 0x0100 0;
  c ← get 0x0200 0;
  ifs ← read_configuration c;
  ifs ← mapM enumerate_interface ifs;
  strings ← mapM (fun n => bs ← get (0x0300 + n) 0x0409; read_string bs)
              [d !!! 14%nat; d !!! 15%nat; d !!! 16%nat];
  if (d !!! 0%nat =? Z.of_nat (length d)) && (Z.of_nat (length d) =? 18) && (d !!! 1%nat =? 1) && (d !!! 17%nat =? 1)
  then Some (mkDevice (word_at d 8) (word_at d 10) strings ifs) else None.
End Enumerate.

(** ** Lemmas *)

Lemma value_of_byte b : is_u8 b -> value_of (byte_bits b) = b.
Proof.
  intros Hb. unfold is_u8 in Hb.
  assert (Hall : forallb (fun b => value_of (byte_bits b) =? b) (seqZ 0 256) = true) by (vm_compute; reflexivity).
  rewrite forallb_forall in Hall. apply Z.eqb_eq, Hall, list_elem_of_In, elem_of_seqZ. lia.
Qed.

Lemma chunks_bytes bs : chunks (length bs) 8 (flat_map byte_bits bs) = map byte_bits bs.
Proof. induction bs as [|b bs IH]; [done|]. cbn [length chunks flat_map map]. by rewrite <- IH. Qed.

Lemma length_byte_bits bs : length (flat_map byte_bits bs) = (8 * length bs)%nat.
Proof. induction bs as [|b bs IH]; [done|]. cbn [flat_map]. rewrite length_app, IH. cbn. lia. Qed.

(** A byte as an unsigned value up to [m], and as a signed one. *)
Lemma byte_value f b :
  is_u8 b -> logical_min f = 0 ->
  field_value f (byte_bits b) = if b <=? logical_max f then Some b else None.
Proof.
  intros Hb Hm. unfold field_value. rewrite Hm, value_of_byte by done. cbn [Z.ltb Z.compare andb].
  by rewrite (proj2 (Z.leb_le 0 b)) by apply Hb.
Qed.

Lemma signed_byte_value f x :
  is_s8 x -> logical_min f = -127 -> logical_max f = 127 ->
  field_value f (byte_bits (u8 x)) = if x =? -128 then None else Some x.
Proof.
  intros Hx H1 H2. unfold field_value. rewrite H1, H2, value_of_byte by apply u8_range.
  change (2 ^ Z.of_nat (length (byte_bits (u8 x)))) with 256. cbn [Z.ltb Z.compare andb].
  assert (E : (if 2 * u8 x >=? 256 then u8 x - 256 else u8 x) = x).
  { unfold is_s8, u8 in *. destruct (Z.geb_spec (2 * (x mod 256)) 256); dlia. }
  rewrite E. unfold is_s8 in Hx. destruct (Z.eqb_spec x (-128)) as [->|Hne]; [done|].
  by rewrite (proj2 (Z.leb_le (-127) x)), (proj2 (Z.leb_le x 127)) by lia.
Qed.
