(* ===== verification/DescriptorProofs.v ===== *)
(** * Descriptors.c: the host understands the keyboard

    What a host, as [HidHost] describes it, makes of the descriptors and of the
    reports: enumeration succeeds and finds the interfaces, endpoints and
    reports the class driver uses; the keys and modifiers it sees are the held
    ones; and every movement of the mouse arrives, except the one value
    outside the range the descriptor declares. *)

From Stdlib Require Import String Ascii.
From S2P Require Import Prelude Hid Hardware K84cs Storage Keystate KeystateReports KeystateProofs ReportProofs.
From S2P Require Import Descriptors HidHost.
Open Scope Z_scope.

(** ** The declared fields *)

Definition modifier_field : hid_field := mkField false 2 0x07 (seqZ 0xE0 8) 0 1 1 8.
Definition led_field : hid_field := mkField true 2 0x08 (seqZ 1 5) 0 1 1 5.
Definition key_field : hid_field := mkField false 0 0x07 (seqZ 0 232) 0 0xE7 8 6.
Definition button_field : hid_field := mkField false 2 0x09 (seqZ 1 5) 0 1 1 5.
Definition movement_field : hid_field := mkField false 6 0x01 [0x30; 0x31; 0x38] (-127) 127 8 3.
Definition pan_field : hid_field := mkField false 6 0x0c [0x238] (-127) 127 8 1.
Definition padding (out : bool) (page : Z) (size : nat) : hid_field := mkField out 1 page [] 0 1 size 1.

Definition keyboard_fields : list hid_field :=
  [modifier_field; padding false 0x07 8; led_field; padding true 0x08 3; key_field].
Definition mouse_fields : list hid_field := [button_field; padding false 0x09 3; movement_field; pan_field].

Lemma keyboard_report_fields : parse_report KeyboardReport = Some keyboard_fields.
Proof. vm_compute. reflexivity. Qed.

Lemma mouse_report_fields : parse_report MouseReport = Some mouse_fields.
Proof. vm_compute. reflexivity. Qed.

(** ** Decoding *)

Lemma decode_fields_app f fs bits rest :
  length bits = (size f * count f)%nat ->
  decode_fields (f :: fs) (bits ++ rest) = cs ← decode_fields fs rest; Some (decode_field f bits ++ cs).
Proof.
  intros Hl. cbn [decode_fields]. rewrite <- Hl, length_app.
  rewrite (proj2 (Nat.ltb_ge _ _)) by lia. by rewrite drop_app_length, take_app_length.
Qed.

(** A field of padding. *)
Lemma decode_constant f bits : Z.testbit (flags f) 0 = true -> decode_field f bits = [].
Proof. intros Hf. unfold decode_field. by rewrite Hf. Qed.

Lemma bit_value f b : size f = 1%nat -> logical_min f = 0 -> logical_max f = 1 -> field_value f [b] = Some (Z.b2z b).
Proof. intros _ H0 H1. unfold field_value. rewrite H0, H1. by destruct b. Qed.

(** Single bits. *)
Lemma decode_bits f bits :
  Z.land (flags f) 3 = 2 -> size f = 1%nat -> count f = length bits -> logical_min f = 0 -> logical_max f = 1 ->
  decode_field f bits = zip_with (fun u b => Var (page f) u (Some (Z.b2z b))) (usages f) bits.
Proof.
  intros Hf Hs Hc H0 H1. unfold decode_field.
  assert (E0 : Z.testbit (flags f) 0 = false).
  { change 0 with (Z.of_nat 0). pose proof (f_equal (fun x => Z.testbit x 0) Hf) as E. cbv beta in E.
    by rewrite Z.land_spec, andb_true_r in E. }
  assert (E1 : Z.testbit (flags f) 1 = true).
  { pose proof (f_equal (fun x => Z.testbit x 1) Hf) as E. cbv beta in E. by rewrite Z.land_spec, andb_true_r in E. }
  rewrite E0, E1, Hs, Hc.
  assert (E : map (field_value f) (chunks (length bits) 1 bits) = map (fun b => Some (Z.b2z b)) bits).
  { clear Hc. induction bits as [|b bits IH]; [done|]. cbn [length chunks map].
    change (take 1 (b :: bits)) with [b]. change (drop 1 (b :: bits)) with bits. by rewrite bit_value, IH. }
  rewrite E. generalize (usages f) as us. clear. intros us. revert us.
  induction bits as [|b bits IH]; intros [|u us]; cbn [map zip_with]; [done..|]. by rewrite IH.
Qed.

(** The values of a field of bytes. *)
Lemma byte_values f bs :
  size f = 8%nat -> count f = length bs ->
  map (field_value f) (chunks (count f) (size f) (flat_map byte_bits bs)) = map (fun b => field_value f (byte_bits b)) bs.
Proof. intros -> ->. by rewrite chunks_bytes, map_map. Qed.

(** ** The keyboard *)

(** The state of a modifier, and of a key of the array. *)
Definition modifier_control (i : Z) (held : bool) : control := Var 0x07 (0xE0 + i) (Some (Z.b2z held)).
Definition key_control : Z -> control := On 0x07.

Lemma usage_of_code k : 0 <= k <= 0xE7 -> seqZ 0 232 !!! Z.to_nat (k - 0) = k.
Proof. intros Hk. rewrite list_lookup_total_alt, lookup_seqZ_lt by lia. cbn. lia. Qed.

Lemma host_reads_keyboard (r : KeyboardReport_Data_t) :
  is_u8 (Reserved r) -> length (KeyCode r) = KEYBOARDREPORT_KEY_COUNT -> Forall (fun k => 0 <= k <= 0xE7) (KeyCode r) ->
  host_reads KeyboardReport false (keyboard_report_bytes r)
  = Some (map (fun i => modifier_control i (Z.testbit (Modifier r) i)) [0; 1; 2; 3; 4; 5; 6; 7]
          ++ map key_control (KeyCode r)).
Proof.
  intros Hr Hl Hk. unfold host_reads. rewrite keyboard_report_fields. cbn [mbind option_bind].
  change (filter _ keyboard_fields) with [modifier_field; padding false 0x07 8; key_field].
  unfold keyboard_report_bytes. cbn [flat_map].
  rewrite decode_fields_app by done. rewrite decode_fields_app by done.
  rewrite <- (app_nil_r (flat_map byte_bits (KeyCode r))).
  rewrite decode_fields_app by (rewrite length_byte_bits, Hl; done). cbn [decode_fields mbind option_bind].
  rewrite (decode_constant _ (byte_bits (Reserved r))) by done.
  rewrite (decode_bits _ (byte_bits (Modifier r))) by done. cbn [app]. f_equal. f_equal.
  rewrite app_nil_r. unfold decode_field.
  rewrite byte_values by (rewrite ?Hl; done).
  change (Z.testbit (flags (key_field)) 0) with false.
  change (Z.testbit (flags (key_field)) 1) with false. cbv iota.
  clear Hl. induction Hk as [|k ks Hk1 Hks IH]; [done|]. cbn [map flat_map]. rewrite IH.
  rewrite byte_value by (unfold is_u8; done || lia).
  rewrite (proj2 (Z.leb_le k _)) by (cbn; lia). cbn [app].
  change (logical_min _) with 0. change (usages _) with (seqZ 0 232). by rewrite usage_of_code.
Qed.

Lemma fill_keys_reserved {H : Hardware} (cfg : config_view) ll l used rollover r :
  Reserved (fill_keys cfg ll l used rollover r).2 = Reserved r.
Proof.
  revert used rollover r. induction l as [|k l IH]; intros; cbn [fill_keys]; [done|]. cbv zeta.
  repeat case_match; rewrite ?IH; done.
Qed.

Lemma report_reserved {H : Hardware} (cfg : config_view) s :
  Reserved (keystate_Fill_KeyboardReport cfg s empty_keyboard_report) = 0.
Proof.
  pose proof (fill_keys_reserved cfg (layer s) (key_states s) 0 false empty_keyboard_report) as Hr.
  unfold keystate_Fill_KeyboardReport. destruct (fill_keys _ _ _ _ _ _) as [[] r]; exact Hr.
Qed.

(** C10: What the host sees of the held keys. The report the firmware builds of the keys that are
    down and not hidden, decoded by the report descriptor the firmware gave the host: unless
    the program key or a key too many is held, each modifier control is on exactly when its
    key is held, and the controls of the array that are on are exactly the ordinary keys held,
    in slot order, and otherwise the usage 0, which is no key; with the program key or a key
    too many, all six are the rollover error. *)
Theorem host_sees_held_keys {H : Hardware} (cfg : config_view) (s : keystate) :
  let hs := active_codes cfg (layer s) (key_states s) in
  let seen := host_reads KeyboardReport false (keyboard_report_bytes (keystate_Fill_KeyboardReport cfg s empty_keyboard_report)) in
  Forall is_u8 hs ->
  (SPECIAL_HID_KEY_PROGRAM ∉ hs -> ~ overflow hs ->
     seen = Some (map (fun i => modifier_control i (bool_decide (HID_KEYBOARD_SC_LEFT_CONTROL + i ∈ hs))) [0; 1; 2; 3; 4; 5; 6; 7]
                  ++ map key_control (filter ordinary hs
                                      ++ replicate (KEYBOARDREPORT_KEY_COUNT - length (filter ordinary hs)) 0))) /\
  (SPECIAL_HID_KEY_PROGRAM ∈ hs \/ overflow hs ->
     exists held, length held = 8%nat /\
       seen = Some (zip_with modifier_control [0; 1; 2; 3; 4; 5; 6; 7] held
                    ++ replicate KEYBOARDREPORT_KEY_COUNT (key_control HID_KEYBOARD_SC_ERROR_ROLLOVER))).
Proof.
  cbv zeta. intros Hu. destruct (keyboard_report_correct cfg s) as (Hro & Hk & Hm & Hl).
  pose proof (report_reserved cfg s) as Hres.
  set (hs := active_codes cfg (layer s) (key_states s)) in *.
  set (r := keystate_Fill_KeyboardReport cfg s empty_keyboard_report) in *. split.
  - intros Hp Hov. rewrite host_reads_keyboard; [|by rewrite Hres|done|].
    + rewrite (Hk Hp Hov). f_equal. f_equal. apply map_ext_in. intros i Hi. f_equal.
      assert (Hi8 : 0 <= i < 8) by (repeat (destruct Hi as [<-|Hi]; [lia|]); destruct Hi).
      apply eq_true_iff_eq. rewrite bool_decide_eq_true. exact (Hm Hov i Hi8).
    + rewrite (Hk Hp Hov). apply Forall_app. split; [|apply Forall_replicate; lia].
      apply Forall_forall. intros h [Ho Hin]%list_elem_of_filter.
      pose proof (proj1 (Forall_forall _ _) Hu h Hin) as Hh. unfold is_u8, ordinary in *. lia.
  - intros Hx. exists (map (Z.testbit (Modifier r)) [0; 1; 2; 3; 4; 5; 6; 7]). split; [done|].
    rewrite host_reads_keyboard; [|by rewrite Hres|done|rewrite (Hro Hx); apply Forall_replicate; lia].
    by rewrite (Hro Hx).
Qed.

(** The A key and the left shift key of the K84CS. *)
Lemma host_sees_held_keys_witness :
  let s := k84_run [[logical_key_code LOGICAL_KEY_A]; [logical_key_code LOGICAL_KEY_A; logical_key_code LOGICAL_KEY_L_SH]] in
  host_reads KeyboardReport false (keyboard_report_bytes (keystate_Fill_KeyboardReport k84_config s empty_keyboard_report))
  = Some (map (fun i => modifier_control i (i =? 1)) [0; 1; 2; 3; 4; 5; 6; 7]
          ++ map key_control [HID_KEYBOARD_SC_A; 0; 0; 0; 0; 0]).
Proof.
  cbv zeta. set (s := k84_run _).
  assert (E : active_codes k84_config (layer s) (key_states s) = [HID_KEYBOARD_SC_A; HID_KEYBOARD_SC_LEFT_CONTROL + 1])
    by (vm_compute; reflexivity).
  assert (Hu : Forall is_u8 (active_codes k84_config (layer s) (key_states s))) by (rewrite E; repeat constructor; done).
  refine (eq_trans (proj1 (host_sees_held_keys k84_config s Hu) _ _) _); rewrite E.
  - by vm_compute; inversion 1 as [|? ? ? H']; inversion H' as [|? ? ? H'']; inversion H''.
  - intros (pre & h & post & Hpre & Hl).
    assert (Hlen : (length pre <= 1)%nat) by (apply (f_equal length) in Hpre; rewrite length_app in Hpre; cbn in Hpre; lia).
    pose proof (length_filter ordinary pre). lia.
  - vm_compute. reflexivity.
Defined.

(** What the host sends to set the LEDs. *)
Lemma host_sets_leds (report : Z) :
  host_reads KeyboardReport true [report]
  = Some (map (fun i => Var 0x08 (1 + i) (Some (Z.b2z (Z.testbit report i)))) [0; 1; 2; 3; 4]).
Proof.
  unfold host_reads. rewrite keyboard_report_fields. cbn [mbind option_bind].
  change (filter _ keyboard_fields) with [led_field; padding true 0x08 3]. cbn [flat_map app].
  change (byte_bits report) with (map (Z.testbit report) [0; 1; 2; 3; 4] ++ map (Z.testbit report) [5; 6; 7]).
  rewrite app_nil_r, decode_fields_app by done. rewrite <- (app_nil_r (map (Z.testbit report) [5; 6; 7])).
  rewrite decode_fields_app by done. cbn [decode_fields mbind option_bind].
  by rewrite decode_bits, decode_constant.
Qed.

(** ** The mouse *)

(** A movement, as the host takes it: the least value of the byte is none. *)
Definition movement (v : Z) : option Z := if s8 v =? -128 then None else Some (s8 v).

(** C32: What the host makes of a mouse report: the five buttons are the low bits of the button byte,
    and the movements along X and Y, of the wheel and of the pan arrive as the signed bytes
    the firmware put there, except -128: the firmware can send it (its accelerated and summed
    movements wrap or clamp there), but it lies outside the logical range the descriptor
    declares, and a host takes it for no movement. *)
Theorem host_sees_mouse (r : MouseReport_Data_t) :
  host_reads MouseReport false (mouse_report_bytes r)
  = Some (map (fun i => Var 0x09 (1 + i) (Some (Z.b2z (Z.testbit (Button r) i)))) [0; 1; 2; 3; 4]
          ++ [Var 0x01 0x30 (movement (X r)); Var 0x01 0x31 (movement (Y r));
              Var 0x01 0x38 (movement (VWheel r)); Var 0x0c 0x238 (movement (HWheel r))]).
Proof.
  unfold host_reads. rewrite mouse_report_fields. cbn [mbind option_bind].
  change (filter _ mouse_fields) with mouse_fields. unfold mouse_fields.
  assert (Hb : flat_map byte_bits (mouse_report_bytes r)
               = map (Z.testbit (Button r)) [0; 1; 2; 3; 4] ++ map (Z.testbit (Button r)) [5; 6; 7]
                 ++ flat_map byte_bits (map u8 [X r; Y r; VWheel r]) ++ flat_map byte_bits [u8 (HWheel r)] ++ []) by done.
  rewrite Hb. do 4 rewrite decode_fields_app by done. cbn [decode_fields mbind option_bind].
  rewrite (decode_bits button_field), (decode_constant (padding _ _ _)) by done.
  assert (Hv : forall f v, logical_min f = -127 -> logical_max f = 127 -> field_value f (byte_bits (u8 v)) = movement v).
  { intros f v H1 H2. rewrite <- u8_s8. by rewrite (signed_byte_value f) by auto with firmware. }
  unfold decode_field. rewrite !byte_values by done. cbn [map]. rewrite !Hv by done. reflexivity.
Qed.

(** The diagonal of the K84CS after 254 polls: the host sees no movement along X. *)
Example acceleration_leaves_range :
  let r := (keystate_Fill_MouseReport k84_config (mouse_run k84_config 254 diagonal_run).1 empty_mouse_report).2 in
  match host_reads MouseReport false (mouse_report_bytes r) with
  | Some cs => Var 0x01 0x30 None ∈ cs
  | None => False
  end.
Proof. vm_compute. do 5 right. left. Qed.

(** ** Enumeration *)

(** The identifiers and the strings fit their descriptors. *)
Definition ids_ok (I : UsbIds) : Prop :=
  is_u16 USB_VENDOR_ID /\ is_u16 USB_PRODUCT_ID /\
  Forall (fun s => (String.length s <= 126)%nat) [USB_MANUFACTURER_STRING; USB_PRODUCT_STRING; USB_SERIAL_NUMBER_STRING].

Definition codes (s : string) : list Z := map (fun c => Z.of_nat (nat_of_ascii c)) (list_ascii_of_string s).

(** The interface the host has to find for one of the class driver. *)
Definition driver_interface (d : HID_Interface) (protocol : Z) (report : list Z) : host_interface :=
  mkInterface (InterfaceNumber d) (3, 1, protocol) [mkEndpoint (ReportINEndpoint_Address d) 3 (ReportINEndpoint_Size d)]
    (Some (Z.of_nat (length report))).

Lemma length_wide s : length (wide s) = (2 * String.length s)%nat.
Proof. induction s as [|c s IH]; [done|]. cbn [wide String.length]. rewrite length_app, IH. cbn. lia. Qed.

Lemma characters_wide s : characters (wide s) = codes s.
Proof.
  induction s as [|c s IH]; [done|]. cbn [wide le16 app characters]. rewrite IH. unfold codes. cbn [list_ascii_of_string map].
  f_equal. pose proof (nat_ascii_bounded c). unfold u8. dlia.
Qed.

(** The size in the header leaves the terminator out. *)
Lemma read_string_sent s :
  (String.length s <= 126)%nat ->
  descriptor_sent (Some (USB_Descriptor_String s), USB_Descriptor_String s !!! 0%nat)
  = Some ([u8 (USB_STRING_LEN_OF s); 3] ++ wide s) /\
  read_string ([u8 (USB_STRING_LEN_OF s); 3] ++ wide s) = Some (codes s).
Proof.
  intros Hl. unfold USB_STRING_LEN_OF, u8.
  assert (E : (2 + 2 * (Z.of_nat (String.length s) + 1) - 2) mod 256 = Z.of_nat (2 + length (wide s))).
  { rewrite length_wide. rewrite Z.mod_small; lia. }
  split.
  - unfold descriptor_sent, USB_Descriptor_String, USB_STRING_LEN_OF, u8. rewrite E.
    change (([_; _] ++ wide s ++ _) !!! 0%nat) with (Z.of_nat (2 + length (wide s))).
    rewrite (proj2 (Z.eqb_neq _ 0)) by lia. rewrite Nat2Z.id, app_assoc.
    by rewrite take_app_length'.
  - rewrite E. cbn [app read_string]. rewrite length_cons, length_cons, Z.eqb_refl. by rewrite characters_wide.
Qed.

Lemma unsigned_le16 v : is_u16 v -> unsigned (le16 v) = v.
Proof. intros Hv. unfold unsigned, le16, u8, is_u16 in *. cbn. dlia. Qed.

(** What the host makes of a device that answers these requests with the descriptors. *)
Lemma enumerate_answers (I : UsbIds) (get : Z -> Z -> option (list Z)) s1 s2 s3 ifs :
  ids_ok I ->
  get 0x0100 0 = Some DeviceDescriptor -> get 0x0200 0 = Some ConfigurationDescriptor ->
  get 0x0301 0x0409 = Some s1 -> get 0x0302 0x0409 = Some s2 -> get 0x0303 0x0409 = Some s3 ->
  mapM (enumerate_interface get)
    [mkInterface 0 (0xff, 0, 0) [] None; driver_interface Keyboard_HID_Interface 1 KeyboardReport;
     driver_interface Mouse_HID_Interface 2 MouseReport] = Some ifs ->
  enumerate get
  = strings ← mapM read_string [s1; s2; s3]; Some (mkDevice USB_VENDOR_ID USB_PRODUCT_ID strings ifs).
Proof.
  intros (Hv & Hp & _) Hd Hc H1 H2 H3 Hi. unfold enumerate. rewrite Hd, Hc. cbn [mbind option_bind].
  assert (E : read_configuration ConfigurationDescriptor
    = Some [mkInterface 0 (0xff, 0, 0) [] None; driver_interface Keyboard_HID_Interface 1 KeyboardReport;
            driver_interface Mouse_HID_Interface 2 MouseReport]) by (vm_compute; reflexivity).
  rewrite E. cbn [mbind option_bind]. rewrite Hi. cbn [mbind option_bind].
  change (DeviceDescriptor !!! 14%nat) with 1. change (DeviceDescriptor !!! 15%nat) with 2.
  change (DeviceDescriptor !!! 16%nat) with 3. cbn [mapM].
  change (0x0300 + 1) with 0x0301. change (0x0300 + 2) with 0x0302. change (0x0300 + 3) with 0x0303.
  rewrite H1, H2, H3. cbn [mbind option_bind].
  change (word_at DeviceDescriptor 8) with (unsigned (le16 USB_VENDOR_ID)).
  change (word_at DeviceDescriptor 10) with (unsigned (le16 USB_PRODUCT_ID)).
  rewrite !unsigned_le16 by done. reflexivity.
Qed.

(** C20: Enumeration. Over either USB stack, a host that reads the device descriptor, the
    configuration, the report descriptors and the strings as the USB and HID specifications
    say finds every length and count it is promised to be right; it sees the variant's
    identifiers and strings, three interfaces numbered from 0, and among them the keyboard
    and the mouse with the interface numbers, endpoints and packet sizes the class driver uses
    and with report descriptors that parse; and the reports they declare have exactly the
    bytes of the report structures and fit a packet. *)
Theorem enumeration_succeeds (I : UsbIds)
    (callback : Z -> Z -> option (list Z) * Z) :
  ids_ok I -> callback ∈ [CALLBACK_USB_GetDescriptor; usbFunctionDescriptor] ->
  enumerate (fun wValue wIndex => descriptor_sent (callback wValue wIndex))
  = Some (mkDevice USB_VENDOR_ID USB_PRODUCT_ID
            (map codes [USB_MANUFACTURER_STRING; USB_PRODUCT_STRING; USB_SERIAL_NUMBER_STRING])
            [(mkInterface 0 (0xff, 0, 0) [] None, None);
             (driver_interface Keyboard_HID_Interface 1 KeyboardReport, parse_report KeyboardReport);
             (driver_interface Mouse_HID_Interface 2 MouseReport, parse_report MouseReport)]) /\
  Forall (fun '(d, report, bytes) =>
      exists fs, parse_report report = Some fs /\ report_bits false fs = (8 * length bytes)%nat /\
        Z.of_nat (length bytes) = PrevReportINBufferSize d /\ PrevReportINBufferSize d <= ReportINEndpoint_Size d)
    [(Keyboard_HID_Interface, KeyboardReport, keyboard_report_bytes empty_keyboard_report);
     (Mouse_HID_Interface, MouseReport, mouse_report_bytes empty_mouse_report)].
Proof.
  intros Hok Hc. pose proof Hok as (_ & _ & Hs). split.
  - apply Forall_cons in Hs as [[S1 R1]%read_string_sent Hs].
    apply Forall_cons in Hs as [[S2 R2]%read_string_sent Hs].
    apply Forall_cons in Hs as [[S3 R3]%read_string_sent _].
    assert (Hc2 : callback = CALLBACK_USB_GetDescriptor \/ callback = usbFunctionDescriptor).
    { rewrite elem_of_cons, list_elem_of_singleton in Hc. exact Hc. }
    assert (Hi : mapM (enumerate_interface (fun wValue wIndex => descriptor_sent (callback wValue wIndex)))
        [mkInterface 0 (0xff, 0, 0) [] None; driver_interface Keyboard_HID_Interface 1 KeyboardReport;
         driver_interface Mouse_HID_Interface 2 MouseReport]
      = Some [(mkInterface 0 (0xff, 0, 0) [] None, None);
              (driver_interface Keyboard_HID_Interface 1 KeyboardReport, parse_report KeyboardReport);
              (driver_interface Mouse_HID_Interface 2 MouseReport, parse_report MouseReport)])
      by (destruct Hc2 as [->| ->]; vm_compute; reflexivity).
    erewrite (enumerate_answers I); [|done|..|exact Hi].
    2-3: by destruct Hc2 as [->| ->].
    2: by destruct Hc2 as [->| ->]; exact S1.
    2: by destruct Hc2 as [->| ->]; exact S2.
    2: by destruct Hc2 as [->| ->]; exact S3.
    cbn [mapM]. rewrite R1, R2, R3. reflexivity.
  - repeat constructor; (eexists; split_and!; [vm_compute; reflexivity|vm_compute; reflexivity|reflexivity|cbn; lia]).
Qed.

Lemma variant_ids_ok : Forall ids_ok [K84cs_ids; K80cs_ids true; K80cs_ids false; Kinesis_ids; Kinesis110_ids; Ergodox_ids].
Proof. repeat constructor; cbn; try lia; try (intros [=]; done). Qed.

Lemma enumeration_succeeds_witness :
  Forall (fun I => exists d,
      enumerate (fun wValue wIndex => descriptor_sent (@CALLBACK_USB_GetDescriptor I wValue wIndex)) = Some d /\
      enumerate (fun wValue wIndex => descriptor_sent (@usbFunctionDescriptor I wValue wIndex)) = Some d /\
      product d = @USB_PRODUCT_ID I)
    [K84cs_ids; K80cs_ids true; K80cs_ids false; Kinesis_ids; Kinesis110_ids; Ergodox_ids].
Proof.
  refine (Forall_impl _ _ _ variant_ids_ok _). intros I HI. eexists. split_and!.
  - exact (proj1 (enumeration_succeeds I (@CALLBACK_USB_GetDescriptor I) HI (list_elem_of_here _ _))).
  - exact (proj1 (enumeration_succeeds I (@usbFunctionDescriptor I) HI (list_elem_of_further _ _ _ (list_elem_of_here _ _)))).
  - reflexivity.
Defined.

(** What is not there is refused, and whatever is sent lies within the memory it is read from,
    the terminator of a string left out. *)
Theorem get_descriptor_bounds (I : UsbIds) (wValue wIndex : Z) :
  ids_ok I ->
  match get_descriptor wValue wIndex with
  | (Some mem, size) => 0 < size <= Z.of_nat (length mem)
  | (None, size) => size = 0
  end.
Proof.
  intros (_ & _ & Hs). assert (Hstr : forall s, (String.length s <= 126)%nat ->
    0 < USB_Descriptor_String s !!! 0%nat <= Z.of_nat (length (USB_Descriptor_String s))).
  { intros s Hl. unfold USB_Descriptor_String. rewrite !length_app, length_wide.
    change (([_; _] ++ wide s ++ _) !!! 0%nat) with (u8 (USB_STRING_LEN_OF s)).
    unfold USB_STRING_LEN_OF. rewrite u8_small by (unfold is_u8; lia). cbn [length]. lia. }
  unfold get_descriptor. cbv zeta.
  repeat case_match; simplify_eq; try done; try (cbn; lia); apply Hstr; by repeat (inversion_clear Hs as [|? ? ? Hs']; rename Hs' into Hs).
Qed.
