(* ===== verification/MatrixScan.v ===== *)
(** * Scanning the key matrix

    The loop of [keystate_update] (src/keystate.c) over the matrix, with the
    two functions that each hardware variant provides for it, and what they
    have to do: [MatrixBoard] and its laws.  [scan_board_spec] is the
    refinement that the key state relies on: a scan over a board that keeps
    the laws is the scan of the switches that [Keystate] is about. *)

From S2P Require Import Prelude Hid Hardware Keystate.

(** ** The interface *)

(** [matrix_select_row] and [matrix_read_column] of src/hardware/<variant>.c,
    on the state of the board: the registers and static variables they use,
    and the circuit outside.  They are given the switches of the matrix. *)
Class MatrixBoard (B : Type) := {
  matrix_select_row : (nat -> nat -> bool) -> nat -> B -> B;
  matrix_read_column : (nat -> nat -> bool) -> nat -> B -> Z * B
}.

Section Scan.
Context {H : Hardware} {B : Type} {Board : MatrixBoard B}.

(** One position: it is read if a key is there. *)
Definition scan_position (sw : nat -> nat -> bool) (matrix_row matrix_col : nat) (s : list Z * B) : list Z * B :=
  let '(words, b) := s in
  let pk := matrix_key matrix_row matrix_col in
  if negb (pk =? NO_KEY) then
    let '(pressed, b) := matrix_read_column sw matrix_col b in
    (if negb (pressed =? 0) then set_bit words pk else words, b)
  else (words, b).

Definition scan_board (sw : nat -> nat -> bool) (s : list Z * B) : list Z * B :=
  for_range 0 MATRIX_ROWS (fun matrix_row '(words, b) =>
    for_range 0 MATRIX_COLS (scan_position sw matrix_row) (words, matrix_select_row sw matrix_row b)) s.
End Scan.

(** A board is ready for the selection of a row, or in a row with the columns
    before some column done.  A column is read, or skipped if it has no key;
    a scan leaves the board ready for the next one, with whatever switches. *)
Class MatrixBoardOk (H : Hardware) (B : Type) (Board : MatrixBoard B) := {
  before_row : nat -> B -> Prop;
  in_row : (nat -> nat -> bool) -> nat -> nat -> B -> Prop;
  select_ok sw row b :
    (row < MATRIX_ROWS)%nat -> before_row row b -> in_row sw row 0 (matrix_select_row sw row b);
  read_ok sw row col b :
    (row < MATRIX_ROWS)%nat -> (col < MATRIX_COLS)%nat -> matrix_key row col <> NO_KEY -> in_row sw row col b ->
    (matrix_read_column sw col b).1 = Z.b2z (sw row col) /\ in_row sw row (S col) (matrix_read_column sw col b).2;
  skip_ok sw row col b :
    (row < MATRIX_ROWS)%nat -> (col < MATRIX_COLS)%nat -> matrix_key row col = NO_KEY ->
    in_row sw row col b -> in_row sw row (S col) b;
  row_done sw row b :
    (row < MATRIX_ROWS)%nat -> in_row sw row MATRIX_COLS b -> before_row (S row) b;
  scan_done b : before_row MATRIX_ROWS b -> before_row 0 b
}.

(** ** Refinement *)

Section Spec.
Context {H : Hardware} {B : Type} {Board : MatrixBoard B} {Ok : MatrixBoardOk H B Board}.

Lemma scan_row_board sw row words b :
  (row < MATRIX_ROWS)%nat -> in_row sw row 0 b ->
  exists b', for_range 0 MATRIX_COLS (scan_position sw row) (words, b)
    = (for_range 0 MATRIX_COLS (fun matrix_col words =>
        let pk := matrix_key row matrix_col in
        if negb (pk =? NO_KEY) then if sw row matrix_col then set_bit words pk else words else words) words, b') /\
    in_row sw row MATRIX_COLS b'.
Proof.
  intros Hr Hb. generalize (le_n MATRIX_COLS). generalize MATRIX_COLS at 1 3 4 5 as n.
  induction n as [|n IH]; intros Hn; [by exists b|].
  destruct IH as (b1 & E & Hb1); [lia|]. rewrite !for_range_snoc, E. cbn [scan_position Nat.add].
  destruct (Z.eqb_spec (matrix_key row n) NO_KEY) as [He|Hne]; cbn [negb].
  - exists b1. split; [done|]. by apply skip_ok.
  - destruct (read_ok sw row n b1 Hr Hn Hne Hb1) as [Hv Hb2].
    destruct (matrix_read_column sw n b1) as [v b2]. cbn [fst snd] in Hv, Hb2. subst v.
    exists b2. split; [by destruct (sw row n)|done].
Qed.

Lemma scan_board_spec sw words b :
  before_row 0 b ->
  exists b', scan_board sw (words, b) = (scan_matrix sw words, b') /\ before_row 0 b'.
Proof.
  intros Hb. unfold scan_board, scan_matrix.
  cut (exists b', for_range 0 MATRIX_ROWS (fun matrix_row '(words, b) =>
      for_range 0 MATRIX_COLS (scan_position sw matrix_row) (words, matrix_select_row sw matrix_row b)) (words, b)
    = (for_range 0 MATRIX_ROWS (fun matrix_row words => for_range 0 MATRIX_COLS (fun matrix_col words =>
        let pk := matrix_key matrix_row matrix_col in
        if negb (pk =? NO_KEY) then if sw matrix_row matrix_col then set_bit words pk else words else words) words)
        words, b') /\ before_row MATRIX_ROWS b').
  { intros (b' & E & Hb'). exists b'. split; [exact E|by apply scan_done]. }
  generalize (le_n MATRIX_ROWS). generalize MATRIX_ROWS at 1 3 4 5 as n.
  induction n as [|n IH]; intros Hn; [by exists b|].
  destruct IH as (b1 & E & Hb1); [lia|]. rewrite !for_range_snoc, E. cbn [Nat.add].
  destruct (scan_row_board sw n (for_range 0 n (fun matrix_row words => for_range 0 MATRIX_COLS (fun matrix_col words =>
        let pk := matrix_key matrix_row matrix_col in
        if negb (pk =? NO_KEY) then if sw matrix_row matrix_col then set_bit words pk else words else words) words)
        words) (matrix_select_row sw n b1) Hn (select_ok sw n b1 Hn Hb1)) as (b2 & E2 & Hb2).
  exists b2. split; [exact E2|]. by apply (row_done sw).
Qed.

(** Scans one after the other, each with the switches of its time; between
    them the rest of the firmware uses the ports. *)
Fixpoint scan_times {L} (between : L -> B -> B) (times : list ((nat -> nat -> bool) * L)) (words : list Z) (b : B)
    : list (list Z) :=
  match times with
  | [] => []
  | (sw, x) :: times =>
      let '(read, b) := scan_board sw (words, b) in read :: scan_times between times words (between x b)
  end.

Lemma scan_times_spec {L} (between : L -> B -> B) times words b :
  (forall x b, before_row 0 b -> before_row 0 (between x b)) -> before_row 0 b ->
  scan_times between times words b = map (fun time => scan_matrix time.1 words) times.
Proof.
  intros Hf. revert b. induction times as [|[sw x] times IH]; intros b Hb; [done|]. cbn [scan_times map fst].
  destruct (scan_board_spec sw words b Hb) as (b' & -> & Hb'). rewrite IH by auto. done.
Qed.
End Spec.
