(* ===== verification/ShiftMatrix.v ===== *)
(** * hardware/k84cs.c and hardware/k80cs.c: the matrix of the Katy keyboards

    The left half is on two shift registers, with lines named in the source: a
    '164 whose outputs drive the columns, and a '165 that takes the rows when
    oLoad is low and shifts them out, the seventh input first.  The right half
    is on pins of the processor: a column is selected by driving its pin low,
    the rows have pull-ups.  The circuit outside the processor ([outside],
    [row_level], [row_low]) is what the comments of the source say of it; the
    rest is the code, each access to a port a step.  A line of the left half is
    written through [set_line]: PORTC.OUTSET and PORTC.OUTCLR on the XMEGA,
    the LEFT_ macros on the ATmega. *)

From S2P Require Import Prelude.

(** ** The circuit *)

Record left_half := mkLeft {
  oLoad : bool;
  CLK0 : bool;
  CLK1 : bool;
  (* the outputs of the '164, and what is in the '165, its output first *)
  columns : list bool;
  register_165 : list bool
}.

Inductive line := Load | Clk0 | Clk1.

Section Circuit.
(** How many inputs of the '165 have no row, and how many columns there are. *)
Context (unused n_columns : nat) (sw : nat -> nat -> bool).

(** A row of the left half is low if a key connects it to a column that is. *)
Definition row_low (cols : list bool) (row : nat) : bool :=
  existsb (fun c => negb (cols !!! c) && sw c row) (seq 0 n_columns).

(** The inputs of the '165, the seventh first; row [i] is on input [unused + i]. *)
Definition inputs_165 (cols : list bool) : list bool :=
  map (fun i => negb (row_low cols (7 - i - unused))) (seq 0 (8 - unused)) ++ replicate unused true.

(** The '164 shifts in oLoad when CLK0 rises; the '165 loads while oLoad is
    low, and shifts when CLK1 rises otherwise. *)
Definition outside (before : left_half) (l : left_half) : left_half :=
  let cols := if negb (CLK0 before) && CLK0 l then take n_columns (oLoad l :: columns l) else columns l in
  let reg := if negb (oLoad l) then inputs_165 cols
             else if negb (CLK1 before) && CLK1 l then drop 1 (register_165 l) ++ [true] else register_165 l in
  mkLeft (oLoad l) (CLK0 l) (CLK1 l) cols reg.

Definition set_line (w : line) (v : bool) (l : left_half) : left_half :=
  outside l
    match w with
    | Load => mkLeft v (CLK0 l) (CLK1 l) (columns l) (register_165 l)
    | Clk0 => mkLeft (oLoad l) v (CLK1 l) (columns l) (register_165 l)
    | Clk1 => mkLeft (oLoad l) (CLK0 l) v (columns l) (register_165 l)
    end.

(** The level of iData. *)
Definition iData (l : left_half) : bool := register_165 l !!! 0%nat.

(** ** The left half *)

(** [matrix_select_row] for a row of the left half. *)
Definition select_left (matrix_row : nat) (l : left_half) : left_half :=
  let l := if (matrix_row =? 0)%nat then set_line Clk0 false (set_line Clk0 true (set_line Load false l)) else l in
  let l := set_line Load false l in
  let l := set_line Load true l in
  let l := set_line Clk0 true l in
  set_line Clk0 false l.

(** The reading of the '165: [n] further bits are shifted in. *)
Fixpoint shift_bits (n : nat) (s : Z * left_half) : Z * left_half :=
  match n with
  | O => s
  | S n =>
      let '(register_165_state, l) := s in
      let l := set_line Clk1 true l in
      let l := set_line Clk1 false l in
      let register_165_state := u8 (Z.shiftl register_165_state 1) in
      shift_bits n (Z.lor register_165_state (if iData l then 1 else 0), l)
  end.

Definition read_165 (n : nat) (l : left_half) : Z * left_half :=
  shift_bits n (if iData l then 1 else 0, l).
End Circuit.

(** The part of [ports_init] for the left half; the registers hold anything before. *)
Definition init_left (n_columns unused : nat) (sw : nat -> nat -> bool) (l : left_half) : left_half :=
  let set := set_line unused n_columns sw in
  let l := set Load true l in
  let l := set Clk1 false (set Clk0 false l) in
  for_range 0 8 (fun _ l => set Clk0 false (set Clk0 true l)) l.

(** ** The right half *)

(** The pins of the right half: which are outputs, and their levels. *)
Record pins := mkPins { DIR : Z; OUT : Z }.

(** The level of row [row] given the driven pins: the pull-up, unless a key
    connects it to a low one.  [first] is the matrix row of pin 0. *)
Definition row_level (sw : nat -> nat -> bool) (first n_columns : nat) (p : pins) (row : nat) : bool :=
  negb (existsb (fun c => Z.testbit (DIR p) (Z.of_nat c) && negb (Z.testbit (OUT p) (Z.of_nat c)) && sw (first + c)%nat row)
          (seq 0 n_columns)).

(** A port's input register, given the levels of its pins. *)
Definition port_in (level : nat -> bool) : Z :=
  foldr (fun i v => Z.lor (if level i then Z.shiftl 1 (Z.of_nat i) else 0) v) 0 (seq 0 8).

Definition clear_DIR (m : Z) (p : pins) : pins := mkPins (Z.land (DIR p) (Z.lnot m)) (OUT p).

(** XMEGA: all pins of port A to input, and only the selected one to output driven low. *)
Definition select_right (pin : Z) (p : pins) : pins :=
  let p := clear_DIR 0xff p in
  let p := mkPins (Z.lor (DIR p) pin) (OUT p) in
  mkPins (DIR p) (Z.land (OUT p) (Z.lnot pin)).

(** ** The XMEGA boards *)

(** Board and static variables. *)
Record katy := mkKaty {
  left : left_half;
  right : pins;
  processing_row : nat;
  register_165_state : Z
}.

(** The pins of the right half carry the data of the display too: between two
    scans it leaves them in any state. *)
Definition display_used (p : pins) (b : katy) : katy :=
  mkKaty (left b) p (processing_row b) (register_165_state b).
