(* ===== verification/K84Board.v ===== *)
(** * hardware/k84cs.c: scanning the matrix of the K84CS

    Seven columns and six rows on each side, over the circuit of [ShiftMatrix]. *)

From S2P Require Import Prelude Hid Hardware K84cs MatrixScan ShiftMatrix.

#[local] Abbreviation MATRIX_ROWS := (@MATRIX_ROWS K84cs_hardware).

(** The part of [ports_init] for the matrix. *)
Definition ports_init (sw : nat -> nat -> bool) (b : katy) : katy :=
  mkKaty (init_left 7 2 sw (left b)) (clear_DIR 0xff (right b)) (processing_row b) (register_165_state b).

Definition matrix_select_row (sw : nat -> nat -> bool) (matrix_row : nat) (b : katy) : katy :=
  if (matrix_row <? MATRIX_ROWS / 2)%nat
  then mkKaty (select_left 2 7 sw matrix_row (left b)) (right b) matrix_row (register_165_state b)
  else
    let pin := Z.shiftl 1 (Z.of_nat (matrix_row - MATRIX_ROWS / 2)) in
    mkKaty (left b) (select_right pin (right b)) matrix_row (register_165_state b).

(** What is on the pins: rows 0 to 4 on PD0 to PD4, row 5 on PB2. *)
Definition PORTD_IN (sw : nat -> nat -> bool) (b : katy) : Z :=
  port_in (fun i => if (i <? 5)%nat then row_level sw 7 7 (right b) i else true).
Definition PORTB_IN (sw : nat -> nat -> bool) (b : katy) : Z :=
  port_in (fun i => if (i =? 2)%nat then row_level sw 7 7 (right b) 5 else true).

Definition matrix_read_column (sw : nat -> nat -> bool) (matrix_column : nat) (b : katy) : Z * katy :=
  if (processing_row b <? MATRIX_ROWS / 2)%nat then
    let b := if (matrix_column =? 0)%nat then
               let '(r, l) := read_165 2 7 sw 5 (left b) in mkKaty l (right b) (processing_row b) r
             else b in
    let value := Z.land (Z.shiftl 1 (Z.of_nat matrix_column)) (register_165_state b) in
    (if value =? 0 then 1 else 0, b)
  else
    let value := if (4 <? matrix_column)%nat then Z.land (Z.shiftr (PORTB_IN sw b) 2) 1
                 else Z.land (Z.shiftr (PORTD_IN sw b) (Z.of_nat matrix_column)) 1 in
    (if value =? 0 then 1 else 0, b).

#[export] Instance board : MatrixBoard katy := {
  MatrixScan.matrix_select_row := matrix_select_row;
  MatrixScan.matrix_read_column := matrix_read_column
}.
