(* ===== verification/K80Board.v ===== *)
(** * hardware/k80cs.c: scanning the matrix of the K80CS on the XMEGA

    As on the K84CS, with eight columns and five rows on each side. *)

From S2P Require Import Prelude Hid Hardware K80cs MatrixScan ShiftMatrix.

#[local] Abbreviation MATRIX_ROWS := (@MATRIX_ROWS K80cs_hardware).

Definition ports_init (sw : nat -> nat -> bool) (b : katy) : katy :=
  mkKaty (init_left 8 3 sw (left b)) (clear_DIR 0xff (right b)) (processing_row b) (register_165_state b).

Definition matrix_select_row (sw : nat -> nat -> bool) (matrix_row : nat) (b : katy) : katy :=
  if (matrix_row <? MATRIX_ROWS / 2)%nat
  then mkKaty (select_left 3 8 sw matrix_row (left b)) (right b) matrix_row (register_165_state b)
  else
    let pin := Z.shiftl 1 (Z.of_nat (matrix_row - MATRIX_ROWS / 2)) in
    mkKaty (left b) (select_right pin (right b)) matrix_row (register_165_state b).

Definition PORTD_IN (sw : nat -> nat -> bool) (b : katy) : Z :=
  port_in (fun i => if (i <? 5)%nat then row_level sw 8 8 (right b) i else true).

Definition matrix_read_column (sw : nat -> nat -> bool) (matrix_column : nat) (b : katy) : Z * katy :=
  let '(value, b) :=
    if (processing_row b <? MATRIX_ROWS / 2)%nat then
      let b := if (matrix_column =? 0)%nat then
                 let '(r, l) := read_165 3 8 sw 4 (left b) in mkKaty l (right b) (processing_row b) r
               else b in
      ((if Z.land (Z.shiftl 1 (Z.of_nat matrix_column)) (register_165_state b) =? 0 then 0 else 1), b)
    else (Z.land (Z.shiftr (PORTD_IN sw b) (Z.of_nat matrix_column)) 1, b) in
  (if value =? 0 then 1 else 0, b).

#[export] Instance board : MatrixBoard katy := {
  MatrixScan.matrix_select_row := matrix_select_row;
  MatrixScan.matrix_read_column := matrix_read_column
}.
