(* ===== verification/K80Atmega.v ===== *)
(** * hardware/k80cs.c: scanning the matrix of the K80CS on the ATmega32U4

    The columns of the right half are PF4 to PF7 and PD0 to PD3, the rows PC6,
    PD7, PE6, PB4 and PB7.  The other pins of these ports (the lines of the left
    half among them) are not part of [port_f] and [port_d]. *)

From S2P Require Import Prelude Hid Hardware K80cs MatrixScan ShiftMatrix.

#[local] Abbreviation MATRIX_ROWS := (@MATRIX_ROWS K80cs_hardware).

Record atmega := mkAtmega {
  left : left_half;
  (* DDRF and PORTF, DDRD and PORTD *)
  port_f : pins;
  port_d : pins;
  processing_row : nat;
  register_165_state : Z
}.

(** The display shares the pins of the columns. *)
Definition display_used (p : pins * pins) (b : atmega) : atmega :=
  mkAtmega (left b) p.1 p.2 (processing_row b) (register_165_state b).

Abbreviation RIGHT_MATRIX_OUT_1_MASK := 0xf0 (only parsing).
Abbreviation RIGHT_MATRIX_OUT_2_MASK := 0x0f (only parsing).
Abbreviation RIGHT_MATRIX_IN_1_MASK := 0x40 (only parsing).
Abbreviation RIGHT_MATRIX_IN_2_MASK := 0x80 (only parsing).
Abbreviation RIGHT_MATRIX_IN_3_MASK := 0x40 (only parsing).

Definition output_low (m : Z) (p : pins) : pins := mkPins (Z.lor (DIR p) m) (Z.land (OUT p) (Z.lnot m)).
Definition clear_OUT (m : Z) (p : pins) : pins := mkPins (DIR p) (Z.land (OUT p) (Z.lnot m)).

Definition ports_init (sw : nat -> nat -> bool) (b : atmega) : atmega :=
  let f := clear_OUT RIGHT_MATRIX_OUT_1_MASK (clear_DIR RIGHT_MATRIX_OUT_1_MASK (port_f b)) in
  let d := clear_OUT RIGHT_MATRIX_OUT_2_MASK (clear_DIR RIGHT_MATRIX_OUT_2_MASK (port_d b)) in
  mkAtmega (init_left 8 3 sw (left b)) f d (processing_row b) (register_165_state b).

Definition matrix_select_row (sw : nat -> nat -> bool) (matrix_row : nat) (b : atmega) : atmega :=
  if (matrix_row <? MATRIX_ROWS / 2)%nat
  then mkAtmega (select_left 3 8 sw matrix_row (left b)) (port_f b) (port_d b) matrix_row (register_165_state b)
  else
    let f := clear_DIR RIGHT_MATRIX_OUT_1_MASK (port_f b) in
    let d := clear_DIR RIGHT_MATRIX_OUT_2_MASK (port_d b) in
    if (matrix_row <? 12)%nat
    then mkAtmega (left b) (output_low (Z.shiftl 1 (Z.of_nat (matrix_row - 4))) f) d matrix_row (register_165_state b)
    else mkAtmega (left b) f (output_low (Z.shiftl 1 (Z.of_nat (matrix_row - 12))) d) matrix_row (register_165_state b).

(** A row of the right half, given the columns on both ports. *)
Definition row_level (sw : nat -> nat -> bool) (b : atmega) (row : nat) : bool :=
  let low p pin c := Z.testbit (DIR p) (Z.of_nat pin) && negb (Z.testbit (OUT p) (Z.of_nat pin)) && sw c row in
  negb (existsb (fun c => low (port_f b) (c - 4)%nat c) (seq 8 4) || existsb (fun c => low (port_d b) (c - 12)%nat c) (seq 12 4)).

Definition PINC (sw : nat -> nat -> bool) (b : atmega) : Z := port_in (fun i => if (i =? 6)%nat then row_level sw b 0 else true).
Definition PIND (sw : nat -> nat -> bool) (b : atmega) : Z := port_in (fun i => if (i =? 7)%nat then row_level sw b 1 else true).
Definition PINE (sw : nat -> nat -> bool) (b : atmega) : Z := port_in (fun i => if (i =? 6)%nat then row_level sw b 2 else true).
Definition PINB (sw : nat -> nat -> bool) (b : atmega) : Z :=
  port_in (fun i => if (i =? 4)%nat then row_level sw b 3 else if (i =? 7)%nat then row_level sw b 4 else true).

Definition matrix_read_column (sw : nat -> nat -> bool) (matrix_column : nat) (b : atmega) : Z * atmega :=
  let '(value, b) :=
    if (processing_row b <? MATRIX_ROWS / 2)%nat then
      let b := if (matrix_column =? 0)%nat then
                 let '(r, l) := read_165 3 8 sw 4 (left b) in mkAtmega l (port_f b) (port_d b) (processing_row b) r
               else b in
      ((if Z.land (Z.shiftl 1 (Z.of_nat matrix_column)) (register_165_state b) =? 0 then 0 else 1), b)
    else
      (match matrix_column with
       | 0%nat => Z.land (PINC sw b) RIGHT_MATRIX_IN_1_MASK
       | 1%nat => Z.land (PIND sw b) RIGHT_MATRIX_IN_2_MASK
       | 2%nat => Z.land (PINE sw b) RIGHT_MATRIX_IN_3_MASK
       | 3%nat => Z.land (PINB sw b) (Z.shiftl 1 4)
       | 4%nat => Z.land (PINB sw b) (Z.shiftl 1 7)
       | _ => 1
       end, b) in
  (if value =? 0 then 1 else 0, b).

#[export] Instance board : MatrixBoard atmega := {
  MatrixScan.matrix_select_row := matrix_select_row;
  MatrixScan.matrix_read_column := matrix_read_column
}.
