(* ===== verification/KinesisBoard.v ===== *)
(** * hardware/kinesis.c: scanning the matrix of the Kinesis keyboards

    The firmware drives the four select lines of two 1-of-8 demultiplexers, on
    PB0 to PB3: a line is low while it is an output (and the port bit is
    cleared), and pulled up otherwise.  The selected output is low and is seen on
    port A, inverted, by the columns whose key is pressed.  The keypad and the program
    key have a pin of their own each, whose place depends on the processor.
    The lights are on the direction register of port D. *)

From S2P Require Import Prelude Hid Hardware Kinesis MatrixScan ShiftMatrix.

(** [__AVR_ATmega16A__] (v1) and [__AVR_ATmega32__] (v2) *)
Inductive layout := v1 | v2.

(** The registers of ports A to D: direction and output. *)
Record kinesis := mkKinesis { port_a : pins; port_b : pins; port_c : pins; port_d : pins }.

Abbreviation MATRIX_SELECT_A := 1 (only parsing).
Abbreviation MATRIX_SELECT_B := 2 (only parsing).
Abbreviation MATRIX_SELECT_C := 4 (only parsing).
Abbreviation MATRIX_SELECT_P138SEL := 8 (only parsing).
Abbreviation MATRIX_MASK := 15 (only parsing).
Abbreviation INPUT_PIN5 := 8 (only parsing).
Abbreviation INPUT_REST := 0xff (only parsing).
Abbreviation EEPROM_LINES := 6 (only parsing).
Abbreviation BUZZER := 0x80 (only parsing).

(** [reg &= ~m] and [reg |= m] for the two registers of a port. *)
Definition set_DIR (m : Z) (p : pins) : pins := mkPins (Z.lor (DIR p) m) (OUT p).
Definition set_OUT (m : Z) (p : pins) : pins := mkPins (DIR p) (Z.lor (OUT p) m).
Definition clear_OUT (m : Z) (p : pins) : pins := mkPins (DIR p) (Z.land (OUT p) (Z.lnot m)).

Definition on_a (f : pins -> pins) (b : kinesis) : kinesis := mkKinesis (f (port_a b)) (port_b b) (port_c b) (port_d b).
Definition on_b (f : pins -> pins) (b : kinesis) : kinesis := mkKinesis (port_a b) (f (port_b b)) (port_c b) (port_d b).
Definition on_c (f : pins -> pins) (b : kinesis) : kinesis := mkKinesis (port_a b) (port_b b) (f (port_c b)) (port_d b).
Definition on_d (f : pins -> pins) (b : kinesis) : kinesis := mkKinesis (port_a b) (port_b b) (port_c b) (f (port_d b)).

(** ** What is on the lines *)

(** A pin that is not driven low is high. *)
Definition high (p : pins) (i : nat) : bool := negb (Z.testbit (DIR p) (Z.of_nat i) && negb (Z.testbit (OUT p) (Z.of_nat i))).

(** The selected output of the demultiplexers. *)
Definition selected_row (p : pins) : nat :=
  Nat.b2n (high p 0) + 2 * Nat.b2n (high p 1) + 4 * Nat.b2n (high p 2) + 8 * Nat.b2n (high p 3).

(** The input registers; the two keys with a pin of their own are at the first
    two positions of the matrix. *)
Definition PINA (sw : nat -> nat -> bool) (b : kinesis) : Z :=
  port_in (fun i => negb (sw (selected_row (port_b b)) (2 + i)%nat)).
Definition PINC (l : layout) (sw : nat -> nat -> bool) : Z :=
  port_in (fun i => match l with
                    | v1 => if (i =? 0)%nat then negb (sw 0%nat 1%nat) else true
                    | v2 => if (i =? 3)%nat then negb (sw 0%nat 0%nat) else if (i =? 2)%nat then negb (sw 0%nat 1%nat) else true
                    end).
Definition PIND (l : layout) (sw : nat -> nat -> bool) : Z :=
  port_in (fun i => match l with v1 => if (i =? 3)%nat then negb (sw 0%nat 0%nat) else true | v2 => true end).

(** ** The code *)

Section Board.
Context (l : layout).

Definition INPUT_PIN5_PIN (sw : nat -> nat -> bool) : Z := match l with v1 => PIND l sw | v2 => PINC l sw end.
Definition INPUT_PIN6_PIN (sw : nat -> nat -> bool) : Z := PINC l sw.
Definition INPUT_PIN6 : Z := match l with v1 => 1 | v2 => 4 end.
Definition ALL_LEDS : Z := match l with v1 => 0xf0 | v2 => 0x78 end.
Definition on_pin5 : (pins -> pins) -> kinesis -> kinesis := match l with v1 => on_d | v2 => on_c end.

(** [twi_init]: the first board drives the bus through port C, the second one
    has an interface for it, whose registers are left out. *)
Definition twi_init : kinesis -> kinesis :=
  match l with
  | v1 => fun b => on_c (clear_DIR EEPROM_LINES) (on_c (clear_OUT EEPROM_LINES) b)
  | v2 => fun b => b
  end.

(** [USE_BUZZER]: only the second board. *)
Definition init_buzzer : kinesis -> kinesis :=
  match l with v1 => fun b => b | v2 => fun b => on_d (set_DIR BUZZER) (on_d (clear_OUT BUZZER) b) end.

Definition ports_init (b : kinesis) : kinesis :=
  let b := on_pin5 (clear_DIR INPUT_PIN5) b in
  let b := on_pin5 (set_OUT INPUT_PIN5) b in
  let b := on_c (clear_DIR INPUT_PIN6) b in
  let b := on_c (set_OUT INPUT_PIN6) b in
  let b := on_a (clear_DIR INPUT_REST) b in
  let b := on_a (set_OUT INPUT_REST) b in
  let b := on_b (clear_OUT MATRIX_MASK) b in
  let b := on_b (set_DIR MATRIX_MASK) b in
  let b := on_d (clear_OUT ALL_LEDS) b in
  let b := on_d (clear_DIR ALL_LEDS) b in
  twi_init (init_buzzer b).

Definition matrix_select_row (sw : nat -> nat -> bool) (matrix_row : nat) (b : kinesis) : kinesis :=
  let row := Z.of_nat matrix_row in
  let unless bit m v := if negb (Z.land row bit =? 0) then Z.land v (Z.lnot m) else v in
  let output_ddr_val := MATRIX_MASK in
  let output_ddr_val := unless 1 MATRIX_SELECT_A output_ddr_val in
  let output_ddr_val := unless 2 MATRIX_SELECT_B output_ddr_val in
  let output_ddr_val := unless 4 MATRIX_SELECT_C output_ddr_val in
  let output_ddr_val := unless 8 MATRIX_SELECT_P138SEL output_ddr_val in
  on_b (fun p => mkPins (Z.lor (Z.land (DIR p) (Z.lnot MATRIX_MASK)) output_ddr_val) (OUT p)) b.

Definition matrix_read_column (sw : nat -> nat -> bool) (matrix_column : nat) (b : kinesis) : Z * kinesis :=
  if (matrix_column =? 0)%nat then (if Z.land (INPUT_PIN5_PIN sw) INPUT_PIN5 =? 0 then 1 else 0, b)
  else if (matrix_column =? 1)%nat then (if Z.land (INPUT_PIN6_PIN sw) INPUT_PIN6 =? 0 then 1 else 0, b)
  else
    let shift := (matrix_column - 2)%nat in
    (if Z.land (PINA sw b) (Z.shiftl 1 (Z.of_nat shift)) =? 0 then 1 else 0, b).

#[export] Instance board : MatrixBoard kinesis := {
  MatrixScan.matrix_select_row := matrix_select_row;
  MatrixScan.matrix_read_column := matrix_read_column
}.

Definition set_all_leds (led_mask : Z) (b : kinesis) : kinesis :=
  let led_mask := Z.land led_mask ALL_LEDS in
  on_d (fun p => mkPins (Z.lor (Z.land (DIR p) (Z.lnot ALL_LEDS)) led_mask) (OUT p)) b.

Definition LED_CAPS : Z := match l with v1 => 0x10 | v2 => 0x08 end.
Definition LED_NUMLOCK : Z := match l with v1 => 0x80 | v2 => 0x40 end.
Definition LED_SCROLLLOCK : Z := match l with v1 => 0x40 | v2 => 0x20 end.
Definition LED_KEYPAD : Z := match l with v1 => 0x20 | v2 => 0x10 end.

(** Without the delays. *)
Definition test_leds (b : kinesis) : kinesis :=
  for_range 0 10 (fun _ b =>
    fold_left (fun b m => set_all_leds m b) [0; LED_CAPS; LED_NUMLOCK; LED_SCROLLLOCK; LED_KEYPAD] b) b.
End Board.
