(* ===== verification/Kinesis110Board.v ===== *)
(** * hardware/kinesis110.c: scanning the matrix of the Kinesis 110

    As on the other Kinesis keyboards ([KinesisBoard]), but the select lines
    are driven in both directions, and every column is on port A. *)

From S2P Require Import Prelude Hid Hardware Kinesis110 MatrixScan ShiftMatrix KinesisBoard.

Abbreviation INPUT_MASK := 0xff (only parsing).
Abbreviation ALL_LEDS := 0x58 (only parsing).

Definition PINA (sw : nat -> nat -> bool) (b : kinesis) : Z := port_in (fun i => negb (sw (selected_row (port_b b)) i)).

(** Without the registers of the interface to the bus. *)
Definition ports_init (b : kinesis) : kinesis :=
  let b := on_a (clear_DIR INPUT_MASK) b in
  let b := on_a (set_OUT INPUT_MASK) b in
  let b := on_b (clear_OUT MATRIX_MASK) b in
  let b := on_b (set_DIR MATRIX_MASK) b in
  let b := on_d (clear_OUT ALL_LEDS) b in
  let b := on_d (clear_DIR ALL_LEDS) b in
  on_d (set_DIR BUZZER) (on_d (clear_OUT BUZZER) b).

Definition matrix_select_row (sw : nat -> nat -> bool) (matrix_row : nat) (b : kinesis) : kinesis :=
  let row := Z.of_nat matrix_row in
  let when bit m v := if negb (Z.land row bit =? 0) then Z.lor v m else v in
  let output_port_val := 0 in
  let output_port_val := when 1 MATRIX_SELECT_A output_port_val in
  let output_port_val := when 2 MATRIX_SELECT_B output_port_val in
  let output_port_val := when 4 MATRIX_SELECT_C output_port_val in
  let output_port_val := when 8 MATRIX_SELECT_P138SEL output_port_val in
  on_b (fun p => mkPins (DIR p) (Z.lor (Z.land (OUT p) (Z.lnot MATRIX_MASK)) output_port_val)) b.

Definition matrix_read_column (sw : nat -> nat -> bool) (matrix_column : nat) (b : kinesis) : Z * kinesis :=
  (if Z.land (PINA sw b) (Z.shiftl 1 (Z.of_nat matrix_column)) =? 0 then 1 else 0, b).

#[export] Instance board : MatrixBoard kinesis := {
  MatrixScan.matrix_select_row := matrix_select_row;
  MatrixScan.matrix_read_column := matrix_read_column
}.

Definition set_all_leds (led_mask : Z) (b : kinesis) : kinesis :=
  let led_mask := Z.land led_mask ALL_LEDS in
  on_d (fun p => mkPins (Z.lor (Z.land (DIR p) (Z.lnot ALL_LEDS)) led_mask) (OUT p)) b.
