(* ===== verification/ErgodoxBoard.v ===== *)
(** * hardware/ergodox.c: scanning the matrix of the Ergodox

    A row is driven low on both halves at once: on the right half by a pin of
    the processor (PB0 to PB3, PD2, PD3, PC6), whose columns are on port F; on
    the left half by an I/O expander (MCP23018) on the two-wire bus, which is a
    parameter: [McpChip] holds what its documentation says of the registers in
    use.  The expander sees the switches, so its bus ([TwiBus]) depends on
    them. *)

From S2P Require Import Prelude Hid Hardware Ergodox TwiBus MatrixScan ShiftMatrix KinesisBoard.

Abbreviation MCP23018_ADDR := 0x40 (only parsing).
Abbreviation MCP23018_WRITE := 0 (only parsing).
Abbreviation MCP23018_READ := 1 (only parsing).
Abbreviation MCP23018_IODIRA := 0x00 (only parsing).
Abbreviation MCP23018_GPPUB := 0x0D (only parsing).
Abbreviation MCP23018_GPIOA := 0x12 (only parsing).
Abbreviation MCP23018_GPIOB := 0x13 (only parsing).
Abbreviation MCP23018_OLATA := 0x14 (only parsing).
Abbreviation RIGHT_MATRIX_IN_MASK := 0xf3 (only parsing).
Abbreviation RIGHT_MATRIX_OUT_1_MASK := 0x0f (only parsing).
Abbreviation RIGHT_MATRIX_OUT_2_MASK := 0x0c (only parsing).
Abbreviation RIGHT_MATRIX_OUT_2_START := 4 (only parsing).
Abbreviation RIGHT_MATRIX_OUT_3_MASK := 0x40 (only parsing).
Abbreviation ALL_LEDS := 0xe0 (only parsing).
Abbreviation LED_CAPS := 0x20 (only parsing).
Abbreviation LED_NUMLOCK := 0x40 (only parsing).
Abbreviation LED_KEYPAD := 0x80 (only parsing).
Abbreviation LED_EXTRA := 0x40 (only parsing).

(** ** The expander *)

Inductive mcp_phase := Stopped | Started | Selected | Writing | Sending.

Record mcp_view := mkMcp {
  mcp_phase_of : mcp_phase;
  (* the register that is accessed next *)
  mcp_pointer : Z;
  IODIRA : Z;
  GPPUB : Z;
  (* what drives the rows: an output is low if its bit is cleared, and open otherwise *)
  OLATA : Z
}.

Definition mcp_in (p : mcp_phase) (v : mcp_view) : mcp_view := mkMcp p (mcp_pointer v) (IODIRA v) (GPPUB v) (OLATA v).
Definition point_at (r : Z) (v : mcp_view) : mcp_view := mkMcp (mcp_phase_of v) r (IODIRA v) (GPPUB v) (OLATA v).

(** A write to [GPIOA] goes to [OLATA]. *)
Definition write_register (r x : Z) (v : mcp_view) : mcp_view :=
  if r =? MCP23018_IODIRA then mkMcp (mcp_phase_of v) (mcp_pointer v) x (GPPUB v) (OLATA v)
  else if r =? MCP23018_GPPUB then mkMcp (mcp_phase_of v) (mcp_pointer v) (IODIRA v) x (OLATA v)
  else if (r =? MCP23018_GPIOA) || (r =? MCP23018_OLATA) then mkMcp (mcp_phase_of v) (mcp_pointer v) (IODIRA v) (GPPUB v) x
  else v.

(** Row [row] of the left half is pulled low. *)
Definition mcp_low (v : mcp_view) (row : nat) : bool :=
  negb (Z.testbit (IODIRA v) (Z.of_nat row)) && negb (Z.testbit (OLATA v) (Z.of_nat row)).

(** The registers that the firmware writes. *)
Definition known_register (r : Z) : bool :=
  (r =? MCP23018_IODIRA) || (r =? MCP23018_GPPUB) || (r =? MCP23018_GPIOA) || (r =? MCP23018_OLATA).

(** After its address the chip takes the number of a register, then data for
    it and the following ones; read, it goes on at the last number.  Port B
    stays as it is after a reset: inputs; an input with its pull-up on is low
    if a key connects it to a row that is. *)
Class McpChip (B : Type) (Bus : (nat -> nat -> bool) -> TwiBus B) := {
  mcp : B -> mcp_view;
  mcp_start_ok sw b : mcp (@twi_start _ (Bus sw) b) = mcp_in Started (mcp b);
  mcp_stop_ok sw b : mcp (@twi_stop _ (Bus sw) b) = mcp_in Stopped (mcp b);
  mcp_select_ok sw b : mcp_phase_of (mcp b) = Started ->
    (@twi_write_byte _ (Bus sw) (Z.lor MCP23018_ADDR MCP23018_WRITE) b).1 = ACK /\
    mcp (@twi_write_byte _ (Bus sw) (Z.lor MCP23018_ADDR MCP23018_WRITE) b).2 = mcp_in Selected (mcp b);
  mcp_pointer_ok sw b r : mcp_phase_of (mcp b) = Selected ->
    mcp (@twi_write_byte _ (Bus sw) r b).2 = mcp_in Writing (point_at r (mcp b));
  mcp_data_ok sw b x : mcp_phase_of (mcp b) = Writing -> known_register (mcp_pointer (mcp b)) = true ->
    mcp (@twi_write_byte _ (Bus sw) x b).2
    = point_at (mcp_pointer (mcp b) + 1) (write_register (mcp_pointer (mcp b)) x (mcp b));
  mcp_select_read_ok sw b : mcp_phase_of (mcp b) = Started ->
    (@twi_write_byte _ (Bus sw) (Z.lor MCP23018_ADDR MCP23018_READ) b).1 = ACK /\
    mcp (@twi_write_byte _ (Bus sw) (Z.lor MCP23018_ADDR MCP23018_READ) b).2 = mcp_in Sending (mcp b);
  mcp_read_ok sw b : mcp_phase_of (mcp b) = Sending -> mcp_pointer (mcp b) = MCP23018_GPIOB ->
    mcp (@twi_read_byte _ (Bus sw) NACK b).2 = mcp_in Stopped (point_at (MCP23018_GPIOB + 1) (mcp b)) /\
    forall i, (i < 6)%nat -> Z.testbit (GPPUB (mcp b)) (Z.of_nat i) = true ->
      Z.testbit (@twi_read_byte _ (Bus sw) NACK b).1 (Z.of_nat i)
      = negb (existsb (fun row => mcp_low (mcp b) row && sw row (6 + i)%nat) (seq 0 7))
}.

(** ** The code *)

Section Board.
Context {B : Type} (Bus : (nat -> nat -> bool) -> TwiBus B).

(** The ports of the right half, the bus, and the static variable. *)
Record ergodox := mkErgodox {
  port_b : pins;
  port_c : pins;
  port_d : pins;
  port_f : pins;
  bus : B;
  cached_mcp_columns : Z
}.

Definition on_bus (f : B -> B) (b : ergodox) : ergodox :=
  mkErgodox (port_b b) (port_c b) (port_d b) (port_f b) (f (bus b)) (cached_mcp_columns b).
Definition set_right (pb pc pd : pins) (b : ergodox) : ergodox :=
  mkErgodox pb pc pd (port_f b) (bus b) (cached_mcp_columns b).

(** A start, the address, a register and its value; [false] if the address is not acknowledged. *)
Definition mcp_write (sw : nat -> nat -> bool) (r x : Z) (t : B) : bool * B :=
  let _ := Bus sw in
  let t := twi_start t in
  let '(a, t) := twi_write_byte (Z.lor MCP23018_ADDR MCP23018_WRITE) t in
  if negb (a =? ACK) then (false, t)
  else
    let '(_, t) := twi_write_byte r t in
    let '(_, t) := twi_write_byte x t in
    (true, t).

Definition init_mcp23018 (sw : nat -> nat -> bool) (t : B) : Z * B :=
  let _ := Bus sw in
  let '(ok, t) := mcp_write sw MCP23018_IODIRA 0x80 t in
  if negb ok then (0, twi_stop t) else
  let t := twi_stop t in
  let '(ok, t) := mcp_write sw MCP23018_GPPUB 0x3f t in
  if negb ok then (0, twi_stop t) else
  let t := twi_stop t in
  let '(ok, t) := mcp_write sw MCP23018_OLATA 0x7f t in
  if negb ok then (0, twi_stop t) else
  (1, twi_stop t).

(** Without the registers of the interface to the bus. *)
Definition ports_init (sw : nat -> nat -> bool) (b : ergodox) : ergodox :=
  let f := set_OUT RIGHT_MATRIX_IN_MASK (clear_DIR RIGHT_MATRIX_IN_MASK (port_f b)) in
  let pb := clear_OUT RIGHT_MATRIX_OUT_1_MASK (clear_DIR RIGHT_MATRIX_OUT_1_MASK (port_b b)) in
  let pd := clear_OUT RIGHT_MATRIX_OUT_2_MASK (clear_DIR RIGHT_MATRIX_OUT_2_MASK (port_d b)) in
  let pc := clear_OUT RIGHT_MATRIX_OUT_3_MASK (clear_DIR RIGHT_MATRIX_OUT_3_MASK (port_c b)) in
  let pb := clear_OUT ALL_LEDS (set_DIR ALL_LEDS pb) in
  let pd := clear_OUT LED_EXTRA (set_DIR LED_EXTRA pd) in
  mkErgodox pb pc pd f (init_mcp23018 sw (bus b)).2 (cached_mcp_columns b).

(** The right half of [matrix_select_row]. *)
Definition select_right (matrix_row : nat) (b : ergodox) : ergodox :=
  let pb := clear_DIR RIGHT_MATRIX_OUT_1_MASK (port_b b) in
  let pd := clear_DIR RIGHT_MATRIX_OUT_2_MASK (port_d b) in
  let pc := clear_DIR RIGHT_MATRIX_OUT_3_MASK (port_c b) in
  if (matrix_row <? 4)%nat then set_right (set_DIR (Z.shiftl 1 (Z.of_nat matrix_row)) pb) pc pd b
  else if (matrix_row <? 6)%nat then
    set_right pb pc (set_DIR (Z.shiftl RIGHT_MATRIX_OUT_2_START (Z.of_nat (matrix_row - 4))) pd) b
  else if (matrix_row =? 6)%nat then set_right pb (set_DIR RIGHT_MATRIX_OUT_3_MASK pc) pd b
  else set_right pb pc pd b.

(** The left half: the row is written, the columns are read; without an
    acknowledgement [cached_mcp_columns] stays. *)
Definition select_left (sw : nat -> nat -> bool) (matrix_row : nat) (b : ergodox) : ergodox :=
  let _ := Bus sw in
  let t := if (matrix_row =? 0)%nat then (init_mcp23018 sw (bus b)).2 else bus b in
  let put t c := mkErgodox (port_b b) (port_c b) (port_d b) (port_f b) t c in
  let '(ok, t) := mcp_write sw MCP23018_GPIOA (Z.land 0xff (Z.lnot (Z.shiftl 1 (Z.of_nat matrix_row)))) t in
  if negb ok then put (twi_stop t) (cached_mcp_columns b) else
  let t := twi_start t in
  let '(a, t) := twi_write_byte (Z.lor MCP23018_ADDR MCP23018_READ) t in
  if negb (a =? ACK) then put (twi_stop t) (cached_mcp_columns b) else
  let '(columns, t) := twi_read_byte NACK t in
  put (twi_stop t) columns.

Definition matrix_select_row (sw : nat -> nat -> bool) (matrix_row : nat) (b : ergodox) : ergodox :=
  select_left sw matrix_row (select_right matrix_row b).

(** The rows of the right half that are driven low, and the column pins. *)
Definition right_low (b : ergodox) (row : nat) : bool :=
  negb (if (row <? 4)%nat then high (port_b b) row
        else if (row <? 6)%nat then high (port_d b) (row - 2)
        else high (port_c b) 6).
Definition RIGHT_MATRIX_IN_PIN (sw : nat -> nat -> bool) (b : ergodox) : Z :=
  port_in (fun i =>
    let column c := negb (existsb (fun row => right_low b row && sw row c) (seq 0 7)) in
    if (i <? 2)%nat then column i else if (i <? 4)%nat then true else column (i - 2)%nat).

Definition matrix_read_column (sw : nat -> nat -> bool) (matrix_column : nat) (b : ergodox) : Z * ergodox :=
  if (matrix_column <? 6)%nat then
    let shift := matrix_column in
    let shift := if (1 <? shift)%nat then (shift + 2)%nat else shift in
    (if Z.land (RIGHT_MATRIX_IN_PIN sw b) (Z.shiftl 1 (Z.of_nat shift)) =? 0 then 1 else 0, b)
  else
    let shift := (matrix_column - 6)%nat in
    (if Z.land (cached_mcp_columns b) (Z.shiftl 1 (Z.of_nat shift)) =? 0 then 1 else 0, b).

#[export] Instance board : MatrixBoard ergodox := {
  MatrixScan.matrix_select_row := matrix_select_row;
  MatrixScan.matrix_read_column := matrix_read_column
}.

(** The other bits of the port get those of its direction register. *)
Definition set_all_leds (led_mask : Z) (b : ergodox) : ergodox :=
  let led_mask := Z.land led_mask ALL_LEDS in
  set_right (mkPins (DIR (port_b b)) (Z.lor (Z.land (DIR (port_b b)) (Z.lnot ALL_LEDS)) led_mask)) (port_c b) (port_d b) b.

(** Without the delays. *)
Definition test_leds (b : ergodox) : ergodox :=
  for_range 0 10 (fun _ b => fold_left (fun b m => set_all_leds m b) [0; LED_CAPS; LED_NUMLOCK; LED_KEYPAD] b) b.
End Board.
#[global] Arguments ergodox B : clear implicits.
