(* ===== verification/MatrixProofs.v ===== *)
(** * The matrices of the Katy keyboards: a scan reads the switches

    The boards of [K84Board], [K80Board] and [K80Atmega] keep the laws of [MatrixBoardOk]: between
    two rows a single zero wanders through the '164, the '165 holds the rows
    of the column it is at, and on the right half exactly the selected column
    is driven. *)

From S2P Require Import Prelude Hid Hardware K84cs K80cs Keystate Debounce K80Atmega K80Board K84Board MatrixScan ShiftMatrix.

(** ** Registers and ports *)

Lemma port_in_spec level i : (i < 8)%nat -> Z.testbit (port_in level) (Z.of_nat i) = level i.
Proof.
  intros Hi. unfold port_in. cbn [seq foldr].
  do 8 (destruct i as [|i]; [clear; destruct (level 0%nat), (level 1%nat), (level 2%nat), (level 3%nat),
    (level 4%nat), (level 5%nat), (level 6%nat), (level 7%nat); reflexivity|]). lia.
Qed.

Lemma shifted_bit x n : 0 <= n -> Z.land (Z.shiftr x n) 1 = Z.b2z (Z.testbit x n).
Proof.
  intros Hn. change 1 with (Z.ones 1). rewrite Z.land_ones by lia. change (2 ^ 1) with 2.
  rewrite <- Z.bit0_mod, Z.shiftr_spec by lia. done.
Qed.

(** The level of a pin, inverted. *)
Lemma pressed_is_low (b : bool) : (if Z.b2z b =? 0 then 1 else 0) = Z.b2z (negb b).
Proof. by destruct b. Qed.

Lemma masked_bit x n : 0 <= n -> (if Z.land x (Z.shiftl 1 n) =? 0 then 1 else 0) = Z.b2z (negb (Z.testbit x n)).
Proof. intros Hn. rewrite <- (land_shiftl_testbit x n) by done. by destruct (Z.land _ _ =? 0). Qed.

(** ** The left half *)

(** All outputs of the '164 high but that of column [r]. *)
Definition zero_at (n r : nat) : list bool := map (fun i => negb (i =? r)%nat) (seq 0 n).

(** The lines between two accesses, with these outputs. *)
Definition resting (cols : list bool) (l : left_half) : Prop :=
  oLoad l = true /\ CLK0 l = false /\ CLK1 l = false /\ columns l = cols.

Lemma zero_at_lookup n r i : (i < n)%nat -> zero_at n r !!! i = negb (i =? r)%nat.
Proof.
  intros Hi. unfold zero_at. rewrite list_lookup_total_alt, list_lookup_fmap, lookup_seq_lt by done. done.
Qed.

Lemma length_zero_at n r : length (zero_at n r) = n.
Proof. unfold zero_at. by rewrite length_map, length_seq. Qed.

(** A one shifted in moves the zero on; a zero starts it. *)
Lemma shift_one n r : take n (true :: zero_at n r) = zero_at n (S r).
Proof.
  assert (E : true :: zero_at n r = zero_at n (S r) ++ [negb (n =? S r)%nat]).
  { unfold zero_at. change [negb (n =? S r)%nat] with (map (fun i => negb (i =? S r)%nat) [0 + n]%nat).
    rewrite <- map_app, <- seq_S. cbn [seq map]. by rewrite <- seq_shift, map_map. }
  rewrite E. apply take_app_length'. by rewrite length_zero_at.
Qed.

Lemma all_ones n r : (n <= r)%nat -> zero_at n r = replicate n true.
Proof.
  intros Hr. apply list_eq_same_length with n; [by rewrite length_replicate|by rewrite length_zero_at|].
  intros i x y Hi. unfold zero_at. rewrite list_lookup_fmap, lookup_seq_lt, lookup_replicate_2 by done.
  cbn. rewrite (proj2 (Nat.eqb_neq _ _)) by lia. cbn. congruence.
Qed.

Lemma shift_zero n : take n (false :: replicate n true) = zero_at n 0.
Proof.
  apply list_eq_same_length with n; [by rewrite length_zero_at|rewrite length_take; cbn; rewrite length_replicate; lia|].
  intros i x y Hi. rewrite lookup_take_lt by done. unfold zero_at. rewrite list_lookup_fmap, lookup_seq_lt by done.
  destruct i as [|i]; [cbn; congruence|]. rewrite lookup_cons_ne_0, lookup_replicate_2 by (cbn; lia). cbn. congruence.
Qed.

Section Left.
Context (unused n : nat) (Hn : (unused < 8)%nat) (sw : nat -> nat -> bool).
Abbreviation rows := (8 - unused)%nat.

Lemma row_low_zero_at r row : (r < n)%nat -> row_low n sw (zero_at n r) row = sw r row.
Proof.
  intros Hr. unfold row_low. apply eq_true_iff_eq. rewrite existsb_seq. split.
  - intros (c & Hc & E). rewrite zero_at_lookup, negb_involutive in E by done.
    apply andb_true_iff in E as [->%Nat.eqb_eq E]. done.
  - intros E. exists r. split; [done|]. by rewrite zero_at_lookup, Nat.eqb_refl, E.
Qed.

(** The '165 holds the rows of column [r], the last row first. *)
Definition holds (r : nat) (l : left_half) : Prop :=
  exists rest, register_165 l = map (fun i => negb (sw r (rows - 1 - i))) (seq 0 rows) ++ rest.

Lemma inputs_hold r : (r < n)%nat ->
  inputs_165 unused n sw (zero_at n r) = map (fun i => negb (sw r (rows - 1 - i))) (seq 0 rows) ++ replicate unused true.
Proof.
  intros Hr. unfold inputs_165. f_equal. apply map_ext_in. intros i Hi%in_seq.
  rewrite row_low_zero_at by done. do 2 f_equal. lia.
Qed.

(** The accesses, with the clocks low before a rise. *)
Lemma load_low load c0 c1 cols reg :
  set_line unused n sw Load false (mkLeft load c0 c1 cols reg) = mkLeft false c0 c1 cols (inputs_165 unused n sw cols).
Proof. by destruct c0. Qed.
Lemma load_high load c0 c1 cols reg :
  set_line unused n sw Load true (mkLeft load c0 c1 cols reg) = mkLeft true c0 c1 cols reg.
Proof. by destruct c0, c1. Qed.
Lemma clk0_high load c1 cols reg :
  set_line unused n sw Clk0 true (mkLeft load false c1 cols reg)
  = mkLeft load true c1 (take n (load :: cols)) (if load then reg else inputs_165 unused n sw (take n (load :: cols))).
Proof. by destruct load, c1. Qed.
Lemma clk0_low load c0 c1 cols reg :
  set_line unused n sw Clk0 false (mkLeft load c0 c1 cols reg)
  = mkLeft load false c1 cols (if load then reg else inputs_165 unused n sw cols).
Proof. by destruct load, c0, c1. Qed.
Lemma clk1_pulse c0 cols reg :
  set_line unused n sw Clk1 false (set_line unused n sw Clk1 true (mkLeft true c0 false cols reg))
  = mkLeft true c0 false cols (drop 1 reg ++ [true]).
Proof. by destruct c0. Qed.
Lemma clk1_low c0 c1 cols reg : set_line unused n sw Clk1 false (mkLeft true c0 c1 cols reg) = mkLeft true c0 false cols reg.
Proof. by destruct c0, c1. Qed.

Lemma select_left_spec r l :
  (r < n)%nat -> resting (zero_at n (if (r =? 0)%nat then n else r)) l ->
  resting (zero_at n (S r)) (select_left unused n sw r l) /\ holds r (select_left unused n sw r l).
Proof.
  intros Hr (H1 & H2 & H3 & H4). destruct l as [load c0 c1 cols reg]. cbn in H1, H2, H3, H4. subst.
  assert (E : exists reg0, (if (r =? 0)%nat
      then set_line unused n sw Clk0 false (set_line unused n sw Clk0 true (set_line unused n sw Load false
             (mkLeft true false false (zero_at n (if (r =? 0)%nat then n else r)) reg)))
      else mkLeft true false false (zero_at n (if (r =? 0)%nat then n else r)) reg)
    = mkLeft (negb (r =? 0)%nat) false false (zero_at n r) reg0).
  { destruct (Nat.eqb_spec r 0) as [->|Hr0]; [|by eexists].
    rewrite load_low, clk0_high, clk0_low, all_ones, shift_zero by done. by eexists. }
  destruct E as (reg0 & E). unfold select_left. cbv zeta. rewrite E.
  rewrite load_low, load_high, clk0_high, clk0_low, shift_one, inputs_hold by done.
  split; [done|]. by eexists.
Qed.

(** What [ports_init] leaves, whatever was there. *)
Lemma shift_in_ones k cols : (k <= n)%nat -> length cols = n ->
  for_range 0 k (fun _ cols => take n (true :: cols)) cols = replicate k true ++ take (n - k) cols.
Proof.
  induction k as [|k IH]; intros Hk Hl; [by rewrite Nat.sub_0_r, take_ge by lia|].
  rewrite for_range_snoc, IH by lia. change (true :: replicate k true ++ take (n - k) cols) with (replicate (S k) true ++ take (n - k) cols).
  rewrite take_app, length_replicate, take_ge by (rewrite length_replicate; lia). by rewrite take_take, Nat.min_l by lia.
Qed.

Lemma shift_in_all k cols : (n <= k)%nat -> length cols = n ->
  for_range 0 k (fun _ cols => take n (true :: cols)) cols = replicate n true.
Proof.
  intros Hk Hl. induction Hk as [|k Hk IH].
  - rewrite shift_in_ones by done. by rewrite Nat.sub_diag, app_nil_r.
  - rewrite for_range_snoc, IH. change (true :: replicate n true) with (replicate (S n) true).
    by rewrite take_replicate, Nat.min_l by lia.
Qed.

Lemma init_left_spec l : (n <= 8)%nat -> length (columns l) = n -> resting (zero_at n n) (init_left n unused sw l).
Proof.
  intros Hn8 Hl. destruct l as [load c0 c1 cols reg]. cbn [columns] in Hl. unfold init_left. cbv zeta.
  rewrite load_high, clk0_low, clk1_low.
  assert (E : forall k, for_range 0 k (fun _ l => set_line unused n sw Clk0 false (set_line unused n sw Clk0 true l))
      (mkLeft true false false cols reg)
    = mkLeft true false false (for_range 0 k (fun _ cols => take n (true :: cols)) cols) reg).
  { induction k as [|k IH]; [done|]. by rewrite !for_range_snoc, IH, clk0_high, clk0_low. }
  rewrite E, shift_in_all, all_ones by done. done.
Qed.

(** Reading the '165. *)
Definition shift_in (v : Z) (b : bool) : Z := Z.lor (u8 (Z.shiftl v 1)) (if b then 1 else 0).

Lemma shift_bits_spec c0 cols bits b v reg :
  exists reg', shift_bits unused n sw (length bits) (v, mkLeft true c0 false cols (b :: bits ++ reg))
    = (fold_left shift_in bits v, mkLeft true c0 false cols reg').
Proof.
  revert b v reg. induction bits as [|b' bits IH]; intros b v reg; [by eexists|].
  cbn [length shift_bits fold_left app]. rewrite clk1_pulse.
  change (drop 1 (b :: b' :: bits ++ reg) ++ [true]) with (b' :: (bits ++ reg) ++ [true]).
  rewrite <- app_assoc. exact (IH b' _ (reg ++ [true])).
Qed.

Lemma read_165_spec cols l r :
  (0 < rows)%nat -> resting cols l -> holds r l ->
  let '(v, l') := read_165 unused n sw (rows - 1) l in
  resting cols l' /\
  v = fold_left shift_in (map (fun i => negb (sw r (rows - 1 - i))) (seq 1 (rows - 1))) (if negb (sw r (rows - 1 - 0)) then 1 else 0).
Proof.
  intros Hrows (H1 & H2 & H3 & H4) (rest & Hreg). destruct l as [load c0 c1 cs reg]. cbn in H1, H2, H3, H4, Hreg. subst.
  set (f i := negb (sw r (rows - 1 - i)%nat)) in *.
  assert (E : map f (seq 0 rows) = f 0%nat :: map f (seq 1 (rows - 1))) by (replace rows with (S (rows - 1)) at 1 by lia; done).
  rewrite E. change (negb (sw r (rows - 1 - 0))) with (f 0%nat).
  destruct (shift_bits_spec false cols (map f (seq 1 (rows - 1))) (f 0%nat) (if f 0%nat then 1 else 0) rest) as (reg' & Hs).
  rewrite length_map, length_seq in Hs. unfold read_165. change (iData _) with (f 0%nat).
  cbn [app]. rewrite Hs. done.
Qed.
End Left.

(** ** The right half *)

(** Only the pin of column [c] is an output, and it is low. *)
Definition selected (c : nat) (p : pins) : Prop :=
  (forall i, (i < 8)%nat -> Z.testbit (DIR p) (Z.of_nat i) = (i =? c)%nat) /\ Z.testbit (OUT p) (Z.of_nat c) = false.

Lemma bit_test n i : Z.testbit (Z.shiftl 1 (Z.of_nat n)) (Z.of_nat i) = (i =? n)%nat.
Proof.
  rewrite Z.shiftl_1_l. destruct (Nat.eqb_spec i n) as [->|Hne]; [apply Z.pow2_bits_true; lia|].
  apply Z.pow2_bits_false. lia.
Qed.

Lemma select_right_spec c p : (c < 8)%nat -> selected c (select_right (Z.shiftl 1 (Z.of_nat c)) p).
Proof.
  intros Hc. split.
  - intros i Hi. cbn [DIR select_right clear_DIR]. rewrite Z.lor_spec, Z.land_spec, Z.lnot_spec, bit_test by lia.
    change 0xff with (Z.ones 8). rewrite Z.ones_spec_low by lia. by rewrite andb_false_r.
  - cbn [OUT select_right]. by rewrite Z.land_spec, Z.lnot_spec, bit_test, Nat.eqb_refl, andb_false_r by lia.
Qed.

Lemma row_level_selected sw first n p c row :
  (n <= 8)%nat -> (c < n)%nat -> selected c p -> row_level sw first n p row = negb (sw (first + c)%nat row).
Proof.
  intros Hn Hc [Hd Ho]. unfold row_level. f_equal. apply eq_true_iff_eq. rewrite existsb_seq. split.
  - intros (i & Hi & E). rewrite Hd in E by lia. apply andb_true_iff in E as [[->%Nat.eqb_eq _]%andb_true_iff E]. done.
  - intros E. exists c. split; [done|]. rewrite Hd, Nat.eqb_refl, Ho, E by lia. done.
Qed.

(** ** The K84CS *)

Section K84cs.
Abbreviation ROWS := (@MATRIX_ROWS K84cs_hardware).
Abbreviation COLS := (@MATRIX_COLS K84cs_hardware).

(** The outputs of the '164 when row [row] is to be selected; on the right half they rest. *)
Definition k84_before (row : nat) (b : katy) : Prop := resting (zero_at 7 (if (row =? 0)%nat then 7 else row)) (left b).

Definition k84_in (sw : nat -> nat -> bool) (row col : nat) (b : katy) : Prop :=
  resting (zero_at 7 (S row)) (left b) /\ processing_row b = row /\
  if (row <? 7)%nat then
    if (col =? 0)%nat then holds 2 sw row (left b)
    else forall i, (i < 6)%nat -> Z.testbit (register_165_state b) (Z.of_nat i) = negb (sw row i)
  else selected (row - 7) (right b).

Lemma k84_register sw row l :
  resting (zero_at 7 (S row)) l -> holds 2 sw row l ->
  let '(v, l') := read_165 2 7 sw 5 l in
  resting (zero_at 7 (S row)) l' /\ forall i, (i < 6)%nat -> Z.testbit v (Z.of_nat i) = negb (sw row i).
Proof.
  intros Hl Hh. pose proof (read_165_spec 2 7 ltac:(lia) sw _ l row ltac:(lia) Hl Hh) as Hs.
  change (8 - 2 - 1)%nat with 5%nat in Hs. destruct (read_165 2 7 sw 5 l) as [v l'].
  destruct Hs as [Hr ->]. split; [exact Hr|]. intros i Hi. cbn [map seq fold_left Nat.sub].
  do 6 (destruct i as [|i]; [clear; destruct (sw row 0%nat), (sw row 1%nat), (sw row 2%nat), (sw row 3%nat),
    (sw row 4%nat), (sw row 5%nat); reflexivity|]). lia.
Qed.

Lemma k84_select sw row b : (row < ROWS)%nat -> k84_before row b -> k84_in sw row 0 (K84Board.matrix_select_row sw row b).
Proof.
  intros Hr Hb. unfold K84Board.matrix_select_row, k84_in. change (ROWS / 2)%nat with 7%nat. change ROWS with 14%nat in Hr.
  destruct (Nat.ltb_spec row 7) as [Hl|Hl]; cbn [left right processing_row].
  - destruct (select_left_spec 2 7 ltac:(lia) sw row (left b) Hl Hb). done.
  - split_and!; [|done|apply select_right_spec; lia].
    unfold k84_before in Hb. destruct row as [|row]; [lia|]. cbn [Nat.eqb] in Hb.
    rewrite all_ones in * by lia. done.
Qed.

Lemma k84_read sw row col b :
  (row < ROWS)%nat -> (col < COLS)%nat -> k84_in sw row col b ->
  (K84Board.matrix_read_column sw col b).1 = Z.b2z (sw row col) /\ k84_in sw row (S col) (K84Board.matrix_read_column sw col b).2.
Proof.
  intros Hr Hc (Hl & Hp & Hb). change ROWS with 14%nat in Hr. change COLS with 6%nat in Hc.
  unfold K84Board.matrix_read_column, k84_in. change (ROWS / 2)%nat with 7%nat. rewrite Hp.
  destruct (Nat.ltb_spec row 7) as [Hl7|Hl7]; cbn [fst snd Nat.eqb].
  - assert (E : exists b', (if (col =? 0)%nat
        then let '(r, l) := read_165 2 7 sw 5 (left b) in mkKaty l (right b) row r else b) = b' /\
        resting (zero_at 7 (S row)) (left b') /\ processing_row b' = row /\
        forall i, (i < 6)%nat -> Z.testbit (register_165_state b') (Z.of_nat i) = negb (sw row i)).
    { destruct col as [|col]; cbn [Nat.eqb] in *; [|by eexists].
      pose proof (k84_register sw row (left b) Hl Hb) as Hreg. destruct (read_165 _ _ _ _ _) as [v l'].
      eexists. split; [reflexivity|]. by destruct Hreg. }
    destruct E as (b' & -> & H1 & H2 & H3). split; [|done].
    rewrite Z.land_comm, masked_bit, H3, negb_involutive by lia. done.
  - split; [|done]. unfold K84Board.PORTB_IN, K84Board.PORTD_IN. destruct (Nat.ltb_spec 4 col) as [H4|H4].
    + replace col with 5%nat by lia. rewrite shifted_bit by lia. change 2 with (Z.of_nat 2).
      rewrite port_in_spec by lia. rewrite pressed_is_low. change (2 =? 2)%nat with true. cbv iota.
      rewrite (row_level_selected _ _ _ _ (row - 7)), negb_involutive by (done || lia). do 2 f_equal. lia.
    + rewrite shifted_bit, port_in_spec, pressed_is_low by lia. rewrite (proj2 (Nat.ltb_lt col 5)) by lia.
      rewrite (row_level_selected _ _ _ _ (row - 7)), negb_involutive by (done || lia). do 2 f_equal. lia.
Qed.

#[export] Program Instance k84_board_ok : MatrixBoardOk K84cs_hardware katy K84Board.board :=
  {| before_row := k84_before; in_row := k84_in |}.
Next Obligation. exact k84_select. Qed.
Next Obligation. intros sw row col b Hr Hc _. by apply k84_read. Qed.
Next Obligation.
  intros sw row col b Hr Hc Hk _. exfalso. change ROWS with 14%nat in Hr. change COLS with 6%nat in Hc. revert Hk.
  do 14 (destruct row as [|row]; [do 6 (destruct col as [|col]; [done|]); lia|]). lia.
Qed.
Next Obligation. intros sw row b Hr (Hl & _ & _). exact Hl. Qed.
Next Obligation. intros b Hb. exact Hb. Qed.
End K84cs.

(** ** The K80CS *)

Section K80cs.
Abbreviation ROWS := (@MATRIX_ROWS K80cs_hardware).
Abbreviation COLS := (@MATRIX_COLS K80cs_hardware).

(** Every position of its matrix has a key. *)
Lemma k80_no_gaps row col : (row < ROWS)%nat -> (col < COLS)%nat -> @matrix_key K80cs_hardware row col <> NO_KEY.
Proof.
  intros Hr Hc Hk. change ROWS with 16%nat in Hr. change COLS with 5%nat in Hc. revert Hk.
  do 16 (destruct row as [|row]; [do 5 (destruct col as [|col]; [done|]); lia|]). lia.
Qed.

(** The state of the left half, on either processor: what the '164 has before
    and in a row, and what the '165 or the variable holds. *)
Definition k80_left (sw : nat -> nat -> bool) (row col : nat) (l : left_half) (v : Z) : Prop :=
  resting (zero_at 8 (S row)) l /\
  if (row <? 8)%nat then
    if (col =? 0)%nat then holds 3 sw row l
    else forall i, (i < 5)%nat -> Z.testbit v (Z.of_nat i) = negb (sw row i)
  else True.

Lemma k80_select_left sw row l v :
  (row < 8)%nat -> resting (zero_at 8 (if (row =? 0)%nat then 8 else row)) l ->
  k80_left sw row 0 (select_left 3 8 sw row l) v.
Proof.
  intros Hr Hl. unfold k80_left. rewrite (proj2 (Nat.ltb_lt row 8)) by done. cbn [Nat.eqb].
  by apply (select_left_spec 3 8 ltac:(lia) sw row l Hr).
Qed.

Lemma k80_skip_left sw row l v :
  (8 <= row)%nat -> resting (zero_at 8 (if (row =? 0)%nat then 8 else row)) l -> k80_left sw row 0 l v.
Proof.
  intros Hr Hl. unfold k80_left. rewrite (proj2 (Nat.ltb_ge row 8)) by done. split; [|done].
  destruct row as [|row]; [lia|]. cbn [Nat.eqb] in Hl. rewrite all_ones in * by lia. done.
Qed.

Lemma k80_read_left sw row col l v :
  (row < 8)%nat -> (col < 5)%nat -> k80_left sw row col l v ->
  let '(v, l) := if (col =? 0)%nat then read_165 3 8 sw 4 l else (v, l) in
  (if Z.land (Z.shiftl 1 (Z.of_nat col)) v =? 0 then 1 else 0) = Z.b2z (sw row col) /\ k80_left sw row (S col) l v.
Proof.
  intros Hr Hc [Hl Hb]. unfold k80_left. rewrite (proj2 (Nat.ltb_lt row 8)) in * by done. cbn [Nat.eqb].
  assert (E : let '(v, l) := if (col =? 0)%nat then read_165 3 8 sw 4 l else (v, l) in
    resting (zero_at 8 (S row)) l /\ forall i, (i < 5)%nat -> Z.testbit v (Z.of_nat i) = negb (sw row i)).
  { destruct col as [|col]; cbn [Nat.eqb] in *; [|done].
    pose proof (read_165_spec 3 8 ltac:(lia) sw _ l row ltac:(lia) Hl Hb) as Hs.
    change (8 - 3 - 1)%nat with 4%nat in Hs. destruct (read_165 3 8 sw 4 l) as [v' l'].
    destruct Hs as [Hs ->]. split; [exact Hs|]. intros i Hi. cbn [map seq fold_left Nat.sub].
    do 5 (destruct i as [|i]; [clear; destruct (sw row 0%nat), (sw row 1%nat), (sw row 2%nat), (sw row 3%nat),
      (sw row 4%nat); reflexivity|]). lia. }
  destruct (if (col =? 0)%nat then _ else _) as [v' l']. destruct E as [E1 E2].
  split; [|by split]. by rewrite Z.land_comm, masked_bit, E2, negb_involutive by lia.
Qed.

(** *** XMEGA *)

Definition xmega_before (row : nat) (b : katy) : Prop := resting (zero_at 8 (if (row =? 0)%nat then 8 else row)) (left b).

Definition xmega_in (sw : nat -> nat -> bool) (row col : nat) (b : katy) : Prop :=
  k80_left sw row col (left b) (register_165_state b) /\ processing_row b = row /\
  ((8 <= row)%nat -> selected (row - 8) (right b)).

Lemma xmega_select sw row b :
  (row < ROWS)%nat -> xmega_before row b -> xmega_in sw row 0 (K80Board.matrix_select_row sw row b).
Proof.
  intros Hr Hb. unfold K80Board.matrix_select_row, xmega_in. change (ROWS / 2)%nat with 8%nat. change ROWS with 16%nat in Hr.
  destruct (Nat.ltb_spec row 8) as [Hl|Hl]; cbn [left right processing_row register_165_state].
  - split_and!; [by apply k80_select_left|done|lia].
  - split_and!; [by apply k80_skip_left|done|]. intros _. apply select_right_spec. lia.
Qed.

Lemma xmega_read sw row col b :
  (row < ROWS)%nat -> (col < COLS)%nat -> xmega_in sw row col b ->
  (K80Board.matrix_read_column sw col b).1 = Z.b2z (sw row col) /\
  xmega_in sw row (S col) (K80Board.matrix_read_column sw col b).2.
Proof.
  intros Hr Hc (Hl & Hp & Hb). change ROWS with 16%nat in Hr. change COLS with 5%nat in Hc.
  unfold K80Board.matrix_read_column, xmega_in. change (ROWS / 2)%nat with 8%nat. rewrite Hp.
  destruct (Nat.ltb_spec row 8) as [Hl8|Hl8].
  - pose proof (k80_read_left sw row col (left b) (register_165_state b) Hl8 Hc Hl) as Hv.
    destruct (col =? 0)%nat.
    + destruct (read_165 _ _ _ _ _) as [v l']. cbn [left right processing_row register_165_state]. destruct Hv as [Hv Hl'].
      destruct (Z.land _ _ =? 0); (split; [exact Hv|]); split_and!; try done; lia.
    + destruct Hv as [Hv Hl']. destruct (Z.land _ _ =? 0); (split; [exact Hv|]); split_and!; try done; lia.
  - cbn [fst snd]. split.
    + unfold K80Board.PORTD_IN. rewrite shifted_bit, port_in_spec, pressed_is_low by lia.
      rewrite (proj2 (Nat.ltb_lt col 5)) by lia.
      rewrite (row_level_selected _ _ _ _ (row - 8)), negb_involutive by (lia || by apply Hb). do 2 f_equal. lia.
    + split_and!; [|done..]. unfold k80_left in *. by rewrite (proj2 (Nat.ltb_ge row 8)) in * by done.
Qed.

#[export] Program Instance xmega_board_ok : MatrixBoardOk K80cs_hardware katy K80Board.board :=
  {| before_row := xmega_before; in_row := xmega_in |}.
Next Obligation. exact xmega_select. Qed.
Next Obligation. intros sw row col b Hr Hc _. by apply xmega_read. Qed.
Next Obligation. intros sw row col b Hr Hc Hk _. destruct (k80_no_gaps row col Hr Hc Hk). Qed.
Next Obligation. intros sw row b Hr ([Hl _] & _ & _). exact Hl. Qed.
Next Obligation. intros b Hb. exact Hb. Qed.

(** *** ATmega *)

Import K80Atmega.

(** The pin of a column of the right half. *)
Definition column_pin (b : atmega) (c : nat) : pins * nat := if (c <? 12)%nat then (port_f b, c - 4)%nat else (port_d b, c - 12)%nat.

Definition column_selected (row : nat) (b : atmega) : Prop :=
  (forall c, (8 <= c < 16)%nat -> Z.testbit (DIR (column_pin b c).1) (Z.of_nat (column_pin b c).2) = (c =? row)%nat) /\
  Z.testbit (OUT (column_pin b row).1) (Z.of_nat (column_pin b row).2) = false.

Lemma cleared_bit m p i : (i < 8)%nat -> Z.testbit m (Z.of_nat i) = true -> Z.testbit (DIR (clear_DIR m p)) (Z.of_nat i) = false.
Proof. intros Hi Hm. cbn [DIR clear_DIR]. by rewrite Z.land_spec, Z.lnot_spec, Hm, andb_false_r by lia. Qed.

Lemma output_low_bits n p i :
  Z.testbit (DIR (output_low (Z.shiftl 1 (Z.of_nat n)) p)) (Z.of_nat i) = Z.testbit (DIR p) (Z.of_nat i) || (i =? n)%nat /\
  Z.testbit (OUT (output_low (Z.shiftl 1 (Z.of_nat n)) p)) (Z.of_nat n) = false.
Proof.
  cbn [DIR OUT output_low]. rewrite Z.lor_spec, Z.land_spec, Z.lnot_spec, !bit_test, Nat.eqb_refl by lia.
  by rewrite andb_false_r.
Qed.

(** The masks of the columns on ports F and D. *)
Lemma high_nibble i : (4 <= i < 8)%nat -> Z.testbit 0xf0 (Z.of_nat i) = true.
Proof. intros Hi. assert (i = 4 \/ i = 5 \/ i = 6 \/ i = 7)%nat as [->|[->|[->| ->]]] by lia; done. Qed.
Lemma low_nibble i : (i < 4)%nat -> Z.testbit 0x0f (Z.of_nat i) = true.
Proof. intros Hi. assert (i = 0 \/ i = 1 \/ i = 2 \/ i = 3)%nat as [->|[->|[->| ->]]] by lia; done. Qed.

Lemma avr8_select_right sw row b : (8 <= row < 16)%nat -> column_selected row (matrix_select_row sw row b).
Proof.
  intros Hr. unfold matrix_select_row. change (ROWS / 2)%nat with 8%nat. rewrite (proj2 (Nat.ltb_ge row 8)) by lia.
  unfold column_selected, column_pin. split.
  - intros c Hc. destruct (Nat.ltb_spec row 12), (Nat.ltb_spec c 12); cbn [port_f port_d fst snd].
    1, 4: rewrite (proj1 (output_low_bits _ _ _)), cleared_bit by (lia || (apply high_nibble; lia) || (apply low_nibble; lia));
      cbn [orb]; apply eq_true_iff_eq; rewrite !Nat.eqb_eq; lia.
    all: rewrite cleared_bit by (lia || (apply high_nibble; lia) || (apply low_nibble; lia));
      symmetry; apply Nat.eqb_neq; lia.
  - destruct (Nat.ltb_spec row 12); cbn [port_f port_d fst snd]; apply (proj2 (output_low_bits _ _ 0)).
Qed.

Lemma avr8_row_level sw row col b :
  (8 <= row < 16)%nat -> column_selected row b -> row_level sw b col = negb (sw row col).
Proof.
  intros Hr [Hd Ho]. unfold row_level. f_equal.
  assert (E : forall c, (8 <= c < 16)%nat ->
    Z.testbit (DIR (column_pin b c).1) (Z.of_nat (column_pin b c).2)
    && negb (Z.testbit (OUT (column_pin b c).1) (Z.of_nat (column_pin b c).2)) && sw c col = (c =? row)%nat && sw row col).
  { intros c Hc. rewrite Hd by done. destruct (Nat.eqb_spec c row) as [->|Hne]; [by rewrite Ho|done]. }
  apply eq_true_iff_eq. rewrite orb_true_iff, !existsb_exists. split.
  - intros [(c & Hc%in_seq & Ec)|(c & Hc%in_seq & Ec)]; specialize (E c ltac:(lia)); unfold column_pin in E.
    + rewrite (proj2 (Nat.ltb_lt c 12)) in E by lia. cbn [fst snd] in E. rewrite Ec in E.
      by apply eq_sym, andb_true_iff in E as [_ E].
    + rewrite (proj2 (Nat.ltb_ge c 12)) in E by lia. cbn [fst snd] in E. rewrite Ec in E.
      by apply eq_sym, andb_true_iff in E as [_ E].
  - intros Es. specialize (E row Hr). rewrite Nat.eqb_refl, Es in E. unfold column_pin in E.
    destruct (Nat.ltb_spec row 12); [left|right]; exists row; (split; [apply in_seq; lia|]);
      cbn [fst snd] in E; by rewrite Es.
Qed.

Definition avr8_before (row : nat) (b : atmega) : Prop := resting (zero_at 8 (if (row =? 0)%nat then 8 else row)) (left b).

Definition avr8_in (sw : nat -> nat -> bool) (row col : nat) (b : atmega) : Prop :=
  k80_left sw row col (left b) (register_165_state b) /\ processing_row b = row /\
  ((8 <= row < 16)%nat -> column_selected row b).

Lemma avr8_select sw row b : (row < ROWS)%nat -> avr8_before row b -> avr8_in sw row 0 (matrix_select_row sw row b).
Proof.
  intros Hr Hb. split_and!; [| |by apply avr8_select_right]; unfold matrix_select_row; change (ROWS / 2)%nat with 8%nat;
    change ROWS with 16%nat in Hr; destruct (Nat.ltb_spec row 8) as [Hl|Hl]; cbn [left register_165_state processing_row].
  - by apply k80_select_left.
  - destruct (row <? 12)%nat; by apply k80_skip_left.
  - done.
  - by destruct (row <? 12)%nat.
Qed.

Lemma avr8_read sw row col b :
  (row < ROWS)%nat -> (col < COLS)%nat -> avr8_in sw row col b ->
  (matrix_read_column sw col b).1 = Z.b2z (sw row col) /\ avr8_in sw row (S col) (matrix_read_column sw col b).2.
Proof.
  intros Hr Hc (Hl & Hp & Hb). change ROWS with 16%nat in Hr. change COLS with 5%nat in Hc.
  unfold matrix_read_column, avr8_in. change (ROWS / 2)%nat with 8%nat. rewrite Hp.
  destruct (Nat.ltb_spec row 8) as [Hl8|Hl8].
  - pose proof (k80_read_left sw row col (left b) (register_165_state b) Hl8 Hc Hl) as Hv.
    destruct (col =? 0)%nat.
    + destruct (read_165 _ _ _ _ _) as [v l']. cbn [left port_f port_d processing_row register_165_state].
      destruct Hv as [Hv Hl']. destruct (Z.land _ _ =? 0); (split; [exact Hv|]); split_and!; try done; lia.
    + destruct Hv as [Hv Hl']. destruct (Z.land _ _ =? 0); (split; [exact Hv|]); split_and!; try done; lia.
  - cbn [fst snd]. split.
    + assert (E : forall c, row_level sw b c = negb (sw row c)) by (intros c; apply avr8_row_level; [lia|apply Hb; lia]).
      assert (Em : forall level i, (i < 8)%nat -> level i = negb (sw row col) ->
        (if Z.land (port_in level) (Z.shiftl 1 (Z.of_nat i)) =? 0 then 1 else 0) = Z.b2z (sw row col)).
      { intros level i Hi Hlv. by rewrite masked_bit, port_in_spec, Hlv, negb_involutive by lia. }
      destruct col as [|[|[|[|[|col]]]]].
      * exact (Em _ 6%nat ltac:(lia) (E 0%nat)).
      * exact (Em _ 7%nat ltac:(lia) (E 1%nat)).
      * exact (Em _ 6%nat ltac:(lia) (E 2%nat)).
      * exact (Em _ 4%nat ltac:(lia) (E 3%nat)).
      * exact (Em _ 7%nat ltac:(lia) (E 4%nat)).
      * lia.
    + split_and!; [|done..]. unfold k80_left in *. by rewrite (proj2 (Nat.ltb_ge row 8)) in * by done.
Qed.

#[export] Program Instance avr8_board_ok : MatrixBoardOk K80cs_hardware atmega K80Atmega.board :=
  {| before_row := avr8_before; in_row := avr8_in |}.
Next Obligation. exact avr8_select. Qed.
Next Obligation. intros sw row col b Hr Hc _. by apply avr8_read. Qed.
Next Obligation. intros sw row col b Hr Hc Hk _. destruct (k80_no_gaps row col Hr Hc Hk). Qed.
Next Obligation. intros sw row b Hr ([Hl _] & _ & _). exact Hl. Qed.
Next Obligation. intros b Hb. exact Hb. Qed.
End K80cs.
