(* ===== verification/BoardProofs.v ===== *)
(** * The matrices of the Kinesis keyboards and of the Ergodox; all boards

    The boards of [KinesisBoard], [Kinesis110Board] and [ErgodoxBoard] keep the
    laws of [MatrixBoardOk]: the select lines carry the number of the row, and
    on the Ergodox the pin and the register of the expander drive just the row.
    Then the property of all boards. *)

From S2P Require Import Prelude Hid Hardware K84cs K80cs Kinesis Kinesis110 Ergodox Keystate TwiBus MatrixScan ShiftMatrix.
From S2P Require Import ErgodoxBoard K84Board K80Board K80Atmega MatrixProofs Kinesis110Board KinesisBoard ShiftMatrix.

(** ** Bits of a port *)

(** Setting the field [m] of a register to [v]. *)
Lemma field_bit d m v i : 0 <= i -> Z.testbit m i = true -> Z.testbit (Z.lor (Z.land d (Z.lnot m)) v) i = Z.testbit v i.
Proof. intros Hi Hm. by rewrite Z.lor_spec, Z.land_spec, Z.lnot_spec, Hm, andb_false_r by done. Qed.

Lemma cleared d m i : 0 <= i -> Z.testbit m i = true -> Z.testbit (Z.land d (Z.lnot m)) i = false.
Proof. intros Hi Hm. by rewrite Z.land_spec, Z.lnot_spec, Hm, andb_false_r by done. Qed.

Lemma below_4 i : (i < 4)%nat -> Z.testbit 15 (Z.of_nat i) = true.
Proof. intros Hi. by apply low_nibble. Qed.

Lemma column_bit level i (b : bool) :
  (i < 8)%nat -> level i = negb b ->
  (if Z.land (port_in level) (Z.shiftl 1 (Z.of_nat i)) =? 0 then 1 else 0) = Z.b2z b.
Proof. intros Hi Hl. by rewrite masked_bit, port_in_spec, Hl, negb_involutive by lia. Qed.

(** ** The demultiplexers *)

Lemma selected_row_of p row :
  (row < 16)%nat -> (forall i, (i < 4)%nat -> high p i = Nat.testbit row i) -> selected_row p = row.
Proof.
  intros Hr Hh. unfold selected_row. rewrite !Hh by lia. clear Hh.
  do 16 (destruct row as [|row]; [done|]). lia.
Qed.

(** ** Kinesis *)

Section KinesisProofs.
Context (l : layout).
Abbreviation ROWS := (@MATRIX_ROWS Kinesis_hardware).
Abbreviation COLS := (@MATRIX_COLS Kinesis_hardware).

(** The select lines are never driven high. *)
Definition sinking (b : kinesis) : Prop := forall i, (i < 4)%nat -> Z.testbit (OUT (port_b b)) (Z.of_nat i) = false.

Definition kinesis_in (sw : nat -> nat -> bool) (row col : nat) (b : kinesis) : Prop :=
  sinking b /\ selected_row (port_b b) = row.

Lemma kinesis_init b : sinking (KinesisBoard.ports_init l b).
Proof.
  intros i Hi. assert (E : OUT (port_b (KinesisBoard.ports_init l b)) = Z.land (OUT (port_b b)) (Z.lnot 15)) by (destruct l; done).
  rewrite E. apply cleared; [lia|by apply below_4].
Qed.

Lemma kinesis_select sw row b :
  (row < ROWS)%nat -> sinking b -> kinesis_in sw row 0 (KinesisBoard.matrix_select_row sw row b).
Proof.
  intros Hr Hb. change ROWS with 16%nat in Hr. split; [exact Hb|]. apply selected_row_of; [done|].
  intros i Hi. unfold high, KinesisBoard.matrix_select_row, on_b. cbn [port_b DIR OUT]. rewrite (Hb i Hi), field_bit by (lia || by apply below_4).
  rewrite andb_true_r. clear Hb.
  do 16 (destruct row as [|row]; [do 4 (destruct i as [|i]; [done|]); lia|]). lia.
Qed.

(** The two keys with a pin of their own are in the first row. *)
Lemma own_pins row col :
  (row < ROWS)%nat -> (col < 2)%nat -> @matrix_key Kinesis_hardware row col <> NO_KEY -> row = 0%nat.
Proof.
  intros Hr Hc Hk. change ROWS with 16%nat in Hr. revert Hk.
  do 16 (destruct row as [|row]; [do 2 (destruct col as [|col]; [done|]); lia|]). lia.
Qed.

Lemma kinesis_read sw row col b :
  (row < ROWS)%nat -> (col < COLS)%nat -> @matrix_key Kinesis_hardware row col <> NO_KEY -> kinesis_in sw row col b ->
  (KinesisBoard.matrix_read_column l sw col b).1 = Z.b2z (sw row col) /\
  kinesis_in sw row (S col) (KinesisBoard.matrix_read_column l sw col b).2.
Proof.
  intros Hr Hc Hk [Hb Hs]. change COLS with 10%nat in Hc. unfold KinesisBoard.matrix_read_column.
  destruct (Nat.eqb_spec col 0) as [->|H0].
  { rewrite (own_pins row 0 Hr ltac:(lia) Hk). split; [|by rewrite <- (own_pins row 0 Hr ltac:(lia) Hk)].
    destruct l; exact (column_bit _ 3 (sw 0%nat 0%nat) ltac:(lia) eq_refl). }
  destruct (Nat.eqb_spec col 1) as [->|H1].
  { rewrite (own_pins row 1 Hr ltac:(lia) Hk). split; [|by rewrite <- (own_pins row 1 Hr ltac:(lia) Hk)].
    destruct l; [exact (column_bit _ 0 (sw 0%nat 1%nat) ltac:(lia) eq_refl)|exact (column_bit _ 2 (sw 0%nat 1%nat) ltac:(lia) eq_refl)]. }
  split; [|done]. cbn [fst]. apply column_bit; [lia|]. rewrite Hs. do 2 f_equal. lia.
Qed.

#[export] Program Instance kinesis_board_ok : MatrixBoardOk Kinesis_hardware kinesis (KinesisBoard.board l) :=
  {| before_row := fun _ => sinking; in_row := kinesis_in |}.
Next Obligation. exact kinesis_select. Qed.
Next Obligation. exact kinesis_read. Qed.
Next Obligation. intros sw row col b _ _ _ Hb. exact Hb. Qed.
Next Obligation. intros sw row b _ [Hb _]. exact Hb. Qed.
Next Obligation. intros b Hb. exact Hb. Qed.
End KinesisProofs.

(** ** Kinesis 110 *)

Section Kinesis110Proofs.
Abbreviation ROWS := (@MATRIX_ROWS Kinesis110_hardware).
Abbreviation COLS := (@MATRIX_COLS Kinesis110_hardware).

(** The select lines are outputs. *)
Definition driving (b : kinesis) : Prop := forall i, (i < 4)%nat -> Z.testbit (DIR (port_b b)) (Z.of_nat i) = true.

Definition kinesis110_in (sw : nat -> nat -> bool) (row col : nat) (b : kinesis) : Prop :=
  driving b /\ selected_row (port_b b) = row.

Lemma kinesis110_init b : driving (Kinesis110Board.ports_init b).
Proof.
  intros i Hi. change (DIR (port_b (Kinesis110Board.ports_init b))) with (Z.lor (DIR (port_b b)) 15).
  by rewrite Z.lor_spec, below_4, orb_true_r by done.
Qed.

Lemma kinesis110_select sw row b :
  (row < ROWS)%nat -> driving b -> kinesis110_in sw row 0 (Kinesis110Board.matrix_select_row sw row b).
Proof.
  intros Hr Hb. change ROWS with 13%nat in Hr. split; [exact Hb|]. apply selected_row_of; [lia|].
  intros i Hi. unfold high, Kinesis110Board.matrix_select_row, on_b. cbn [port_b DIR OUT]. rewrite (Hb i Hi), field_bit by (lia || by apply below_4).
  cbn [andb]. rewrite negb_involutive. clear Hb.
  do 13 (destruct row as [|row]; [do 4 (destruct i as [|i]; [done|]); lia|]). lia.
Qed.

Lemma kinesis110_read sw row col b :
  (row < ROWS)%nat -> (col < COLS)%nat -> kinesis110_in sw row col b ->
  (Kinesis110Board.matrix_read_column sw col b).1 = Z.b2z (sw row col) /\
  kinesis110_in sw row (S col) (Kinesis110Board.matrix_read_column sw col b).2.
Proof.
  intros Hr Hc [Hb Hs]. split; [|done]. change COLS with 8%nat in Hc.
  unfold Kinesis110Board.matrix_read_column. cbn [fst]. apply column_bit; [lia|]. by rewrite Hs.
Qed.

#[export] Program Instance kinesis110_board_ok : MatrixBoardOk Kinesis110_hardware kinesis Kinesis110Board.board :=
  {| before_row := fun _ => driving; in_row := kinesis110_in |}.
Next Obligation. exact kinesis110_select. Qed.
Next Obligation. intros sw row col b Hr Hc _. by apply kinesis110_read. Qed.
Next Obligation. intros sw row col b _ _ _ Hb. exact Hb. Qed.
Next Obligation. intros sw row b _ [Hb _]. exact Hb. Qed.
Next Obligation. intros b Hb. exact Hb. Qed.
End Kinesis110Proofs.

(** ** Ergodox *)

Section ErgodoxProofs.
Context {B : Type} {Bus : (nat -> nat -> bool) -> TwiBus B} {Chip : McpChip B Bus}.
Abbreviation ROWS := (@MATRIX_ROWS Ergodox_hardware).
Abbreviation COLS := (@MATRIX_COLS Ergodox_hardware).
Abbreviation board := (ergodox B).

(** *** The expander *)

Lemma mcp_write_spec sw r x (t : B) :
  known_register r = true ->
  (mcp_write Bus sw r x t).1 = true /\
  mcp (mcp_write Bus sw r x t).2 = point_at (r + 1) (write_register r x (mcp_in Writing (mcp t))).
Proof.
  intros Hr. unfold mcp_write. pose proof (mcp_start_ok sw t) as H1.
  set (t1 := twi_start t) in *. destruct (mcp_select_ok sw t1) as [Ha H2]; [by rewrite H1|].
  destruct (twi_write_byte _ t1) as [a t2]. cbn [fst snd] in Ha, H2. subst a. cbn [negb Z.eqb].
  pose proof (mcp_pointer_ok sw t2 r ltac:(by rewrite H2)) as H3.
  destruct (twi_write_byte r t2) as [a3 t3]. cbn [fst snd] in H3.
  pose proof (mcp_data_ok sw t3 x ltac:(by rewrite H3) ltac:(by rewrite H3)) as H4.
  destruct (twi_write_byte x t3) as [a4 t4]. cbn [fst snd] in *. split; [done|].
  rewrite H4, H3, H2, H1. cbn [mcp_in point_at mcp_pointer]. unfold write_register. by repeat case_if.
Qed.

(** The registers are set: rows are outputs, columns have their pull-ups. *)
Definition mcp_set_up (t : B) : Prop := IODIRA (mcp t) = 0x80 /\ GPPUB (mcp t) = 0x3f.

Lemma init_mcp_spec sw (t : B) : (init_mcp23018 Bus sw t).1 = 1 /\ mcp_set_up (init_mcp23018 Bus sw t).2.
Proof.
  unfold init_mcp23018.
  destruct (mcp_write_spec sw MCP23018_IODIRA 0x80 t eq_refl) as [E1 H1].
  destruct (mcp_write Bus sw MCP23018_IODIRA 0x80 t) as [ok1 t1]. cbn [fst snd] in *. subst ok1. cbn [negb].
  pose proof (mcp_stop_ok sw t1) as S1. set (t1' := twi_stop t1) in *.
  destruct (mcp_write_spec sw MCP23018_GPPUB 0x3f t1' eq_refl) as [E2 H2].
  destruct (mcp_write Bus sw MCP23018_GPPUB 0x3f t1') as [ok2 t2]. cbn [fst snd] in *. subst ok2. cbn [negb].
  pose proof (mcp_stop_ok sw t2) as S2. set (t2' := twi_stop t2) in *.
  destruct (mcp_write_spec sw MCP23018_OLATA 0x7f t2' eq_refl) as [E3 H3].
  destruct (mcp_write Bus sw MCP23018_OLATA 0x7f t2') as [ok3 t3]. cbn [fst snd] in *. subst ok3. cbn [negb fst snd].
  split; [done|]. unfold mcp_set_up. by rewrite (mcp_stop_ok sw t3), H3, S2, H2, S1, H1.
Qed.

(** The row in the output register of the expander. *)
Lemma mcp_row_low row c :
  (row < 7)%nat -> (c < 7)%nat ->
  negb (Z.testbit 0x80 (Z.of_nat c)) && negb (Z.testbit (Z.land 0xff (Z.lnot (Z.shiftl 1 (Z.of_nat row)))) (Z.of_nat c))
  = (c =? row)%nat.
Proof.
  intros Hr Hc. change 0xff with (Z.ones 8). change 0x80 with (Z.shiftl 1 (Z.of_nat 7)).
  rewrite Z.land_spec, Z.lnot_spec, Z.ones_spec_low, !bit_test, (proj2 (Nat.eqb_neq c 7)) by lia. by destruct (c =? row)%nat.
Qed.

(** A key of the left half connects its column to the row alone. *)
Lemma only_row (low : nat -> bool) (sw : nat -> nat -> bool) row col :
  (row < 7)%nat -> (forall c, (c < 7)%nat -> low c = (c =? row)%nat) ->
  existsb (fun c => low c && sw c col) (seq 0 7) = sw row col.
Proof.
  intros Hr Hl. apply eq_true_iff_eq. rewrite existsb_seq. split.
  - intros (c & Hc & E). rewrite Hl in E by done. by apply andb_true_iff in E as [->%Nat.eqb_eq E].
  - intros E. exists row. split; [done|]. by rewrite Hl, Nat.eqb_refl, E.
Qed.

Definition columns_read (sw : nat -> nat -> bool) (row : nat) (v : Z) : Prop :=
  forall i, (i < 6)%nat -> Z.testbit v (Z.of_nat i) = negb (sw row (6 + i)%nat).

Lemma expander_selected sw row (b : board) :
  (row < 7)%nat -> (row = 0%nat \/ mcp_set_up (bus b)) ->
  let b' := ErgodoxBoard.select_left Bus sw row b in
  mcp_set_up (bus b') /\ columns_read sw row (cached_mcp_columns b') /\
  ErgodoxBoard.port_b b' = ErgodoxBoard.port_b b /\ ErgodoxBoard.port_c b' = ErgodoxBoard.port_c b /\
  ErgodoxBoard.port_d b' = ErgodoxBoard.port_d b.
Proof.
  intros Hr Hb. unfold ErgodoxBoard.select_left.
  set (t := if (row =? 0)%nat then _ else _).
  assert (Ht : mcp_set_up t).
  { subst t. destruct (Nat.eqb_spec row 0) as [->|H0]; [apply init_mcp_spec|]. by destruct Hb. }
  clearbody t. set (x := Z.land 0xff _).
  destruct (mcp_write_spec sw MCP23018_GPIOA x t eq_refl) as [E1 H1].
  destruct (mcp_write Bus sw MCP23018_GPIOA x t) as [ok t1]. cbn [fst snd] in *. subst ok. cbn [negb].
  pose proof (mcp_start_ok sw t1) as H2. set (t2 := twi_start t1) in *.
  destruct (mcp_select_read_ok sw t2) as [Ha H3]; [by rewrite H2|].
  destruct (twi_write_byte _ t2) as [a t3]. cbn [fst snd] in Ha, H3. subst a. cbn [negb Z.eqb].
  rewrite H2, H1 in H3. destruct Ht as [Hi Hp].
  destruct (mcp_read_ok sw t3) as [H4 Hv]; [by rewrite H3|by rewrite H3|].
  destruct (twi_read_byte NACK t3) as [v t4]. cbn [fst snd] in H4, Hv. cbn [bus cached_mcp_columns
    ErgodoxBoard.port_b ErgodoxBoard.port_c ErgodoxBoard.port_d].
  split_and!; [|..|done|done|done].
  - unfold mcp_set_up. rewrite (mcp_stop_ok sw t4), H4, H3. by split.
  - intros i Hi6. rewrite Hv; [|done|].
    + f_equal. apply only_row; [done|]. intros c Hc. rewrite H3. unfold mcp_low. cbn. rewrite Hi. by apply mcp_row_low.
    + rewrite H3. cbn. rewrite Hp. do 6 (destruct i as [|i]; [done|]). lia.
Qed.

(** *** The right half *)

(** No row pin is ever driven high. *)
Definition right_open (b : board) : Prop :=
  (forall i, (i < 4)%nat -> Z.testbit (OUT (ErgodoxBoard.port_b b)) (Z.of_nat i) = false) /\
  (forall i, (2 <= i < 4)%nat -> Z.testbit (OUT (ErgodoxBoard.port_d b)) (Z.of_nat i) = false) /\
  Z.testbit (OUT (ErgodoxBoard.port_c b)) 6 = false.

Lemma low_pin p i : Z.testbit (OUT p) (Z.of_nat i) = false -> negb (high p i) = Z.testbit (DIR p) (Z.of_nat i).
Proof. intros Ho. unfold high. by rewrite Ho, negb_involutive, andb_true_r. Qed.

(** A pin of a cleared field, and one that is set again. *)
Lemma field_pin m x p i :
  Z.testbit m (Z.of_nat i) = true -> Z.testbit (DIR (set_DIR x (clear_DIR m p))) (Z.of_nat i) = Z.testbit x (Z.of_nat i).
Proof. intros Hm. cbn [DIR set_DIR clear_DIR]. apply field_bit; [lia|done]. Qed.

Lemma middle_bits i : (2 <= i < 4)%nat -> Z.testbit 0x0c (Z.of_nat i) = true.
Proof. intros Hi. by assert (i = 2 \/ i = 3)%nat as [-> | ->] by lia. Qed.

Lemma select_right_low row (b : board) :
  (row < 7)%nat -> right_open b ->
  right_open (ErgodoxBoard.select_right row b) /\
  forall c, (c < 7)%nat -> right_low (ErgodoxBoard.select_right row b) c = (c =? row)%nat.
Proof.
  intros Hr (Hb & Hd & Hc). split; [by unfold ErgodoxBoard.select_right; repeat case_if|].
  intros c Hc7. unfold right_low, ErgodoxBoard.select_right.
  destruct (Nat.ltb_spec c 4) as [C4|C4]; [|destruct (Nat.ltb_spec c 6) as [C6|C6]].
  - rewrite low_pin by (repeat case_if; by apply Hb).
    destruct (Nat.ltb_spec row 4); [|destruct (Nat.ltb_spec row 6); [|destruct (Nat.eqb_spec row 6); [|lia]]];
      cbn [set_right ErgodoxBoard.port_b].
    1: rewrite field_pin, bit_test by (by apply low_nibble); done.
    all: cbn [DIR clear_DIR]; rewrite cleared by (lia || by apply low_nibble); symmetry; apply Nat.eqb_neq; lia.
  - rewrite low_pin by (repeat case_if; apply Hd; lia).
    destruct (Nat.ltb_spec row 4); [|destruct (Nat.ltb_spec row 6); [|destruct (Nat.eqb_spec row 6); [|lia]]];
      cbn [set_right ErgodoxBoard.port_d].
    2: { rewrite field_pin by (apply middle_bits; lia).
         change 4 with (Z.shiftl 1 2). rewrite Z.shiftl_shiftl by lia.
         replace (2 + Z.of_nat (row - 4)) with (Z.of_nat (row - 2)) by lia. rewrite bit_test.
         apply eq_true_iff_eq. rewrite !Nat.eqb_eq. lia. }
    all: cbn [DIR clear_DIR]; rewrite cleared by (lia || (apply middle_bits; lia)); symmetry; apply Nat.eqb_neq; lia.
  - rewrite (low_pin _ 6) by (repeat case_if; apply Hc).
    destruct (Nat.ltb_spec row 4); [|destruct (Nat.ltb_spec row 6); [|destruct (Nat.eqb_spec row 6); [|lia]]];
      cbn [set_right ErgodoxBoard.port_c].
    3: { rewrite field_pin by done. symmetry. apply Nat.eqb_eq. lia. }
    all: cbn [DIR clear_DIR]; rewrite cleared by (lia || done); symmetry; apply Nat.eqb_neq; lia.
Qed.

(** *** The laws *)

(** After the last row no row pin of port B is driven. *)
Definition ergodox_before (row : nat) (b : board) : Prop :=
  right_open b /\ (row = 0%nat \/ mcp_set_up (bus b)) /\
  ((0 < row < 7)%nat \/ forall i, (i < 4)%nat -> Z.testbit (DIR (ErgodoxBoard.port_b b)) (Z.of_nat i) = false).

Definition ergodox_in (sw : nat -> nat -> bool) (row col : nat) (b : board) : Prop :=
  right_open b /\ mcp_set_up (bus b) /\ columns_read sw row (cached_mcp_columns b) /\
  forall c, (c < 7)%nat -> right_low b c = (c =? row)%nat.

Lemma ergodox_init sw b : ergodox_before 0 (ErgodoxBoard.ports_init Bus sw b).
Proof.
  unfold ErgodoxBoard.ports_init. split_and!; [|by left|right].
  - split_and!; cbn [ErgodoxBoard.port_b ErgodoxBoard.port_c ErgodoxBoard.port_d OUT clear_DIR KinesisBoard.clear_OUT set_DIR].
    + intros i Hi. rewrite Z.land_spec, cleared by (lia || by apply low_nibble). done.
    + intros i Hi. rewrite Z.land_spec, cleared by (lia || by apply middle_bits). done.
    + by apply cleared.
  - intros i Hi. cbn [ErgodoxBoard.port_b DIR clear_DIR KinesisBoard.clear_OUT set_DIR].
    rewrite Z.lor_spec, cleared by (lia || by apply low_nibble). cbn [orb].
    do 4 (destruct i as [|i]; [done|]). lia.
Qed.

Lemma ergodox_select sw row b :
  (row < ROWS)%nat -> ergodox_before row b -> ergodox_in sw row 0 (ErgodoxBoard.matrix_select_row Bus sw row b).
Proof.
  intros Hr (Ho & Hm & _). change ROWS with 7%nat in Hr. unfold ErgodoxBoard.matrix_select_row.
  destruct (select_right_low row b Hr Ho) as [Ho' Hl].
  destruct (expander_selected sw row (ErgodoxBoard.select_right row b) Hr) as (H1 & H2 & H3 & H4 & H5).
  { destruct Hm as [->|Hm]; [by left|right]. unfold ErgodoxBoard.select_right. by repeat case_if. }
  set (b' := ErgodoxBoard.select_left Bus sw row _) in *.
  split_and!; [|done|done|].
  - unfold right_open in *. by rewrite H3, H4, H5.
  - intros c Hc. rewrite <- (Hl c Hc). unfold right_low. by rewrite H3, H4, H5.
Qed.

Lemma ergodox_read sw row col b :
  (row < ROWS)%nat -> (col < COLS)%nat -> ergodox_in sw row col b ->
  (ErgodoxBoard.matrix_read_column sw col b).1 = Z.b2z (sw row col) /\
  ergodox_in sw row (S col) (ErgodoxBoard.matrix_read_column sw col b).2.
Proof.
  intros Hr Hc (Ho & Hm & Hv & Hl). change ROWS with 7%nat in Hr. change COLS with 12%nat in Hc.
  unfold ErgodoxBoard.matrix_read_column. destruct (Nat.ltb_spec col 6) as [H6|H6]; (split; [|done]); cbn [fst].
  - assert (E : forall c, negb (existsb (fun r => right_low b r && sw r c) (seq 0 7)) = negb (sw row c))
      by (intros c; f_equal; by apply only_row).
    do 6 (destruct col as [|col]; [apply column_bit; [cbn; lia|exact (E _)]|]). lia.
  - rewrite masked_bit, Hv by lia. rewrite negb_involutive. do 2 f_equal. lia.
Qed.

#[export] Program Instance ergodox_board_ok : MatrixBoardOk Ergodox_hardware board (ErgodoxBoard.board Bus) :=
  {| before_row := ergodox_before; in_row := ergodox_in |}.
Next Obligation. exact ergodox_select. Qed.
Next Obligation. intros sw row col b Hr Hc _. by apply ergodox_read. Qed.
Next Obligation. intros sw row col b _ _ _ Hb. exact Hb. Qed.
Next Obligation.
  intros sw row b Hr (Ho & Hm & _ & Hl). change ROWS with 7%nat in Hr. split_and!; [done|by right|].
  destruct (decide (row = 6%nat)) as [->|Hne]; [right|left; lia].
  intros i Hi. rewrite <- low_pin by (by apply Ho). specialize (Hl i ltac:(lia)). unfold right_low in Hl.
  rewrite (proj2 (Nat.ltb_lt i 4) Hi) in Hl. rewrite Hl. apply Nat.eqb_neq. lia.
Qed.
Next Obligation. intros b (Ho & Hm & [Hd|Hd]); [change ROWS with 7%nat in Hd; lia|]. split_and!; [done|by left|by right]. Qed.

(** The lights write the direction of port B to its output; between two scans that does no harm. *)
Lemma ergodox_leds m b : ergodox_before 0 b -> ergodox_before 0 (ErgodoxBoard.set_all_leds m b).
Proof.
  intros (Ho & Hm & [Hd|Hd]); [lia|]. split_and!; [|by left|right; exact Hd].
  destruct Ho as (Hb & Hrest). split; [|exact Hrest]. intros i Hi.
  cbn [ErgodoxBoard.set_all_leds set_right ErgodoxBoard.port_b OUT].
  rewrite Z.lor_spec, !Z.land_spec, (Hd i Hi). cbn [andb orb].
  replace (Z.testbit 0xe0 (Z.of_nat i)) with false; [apply andb_false_r|]. do 4 (destruct i as [|i]; [done|]). lia.
Qed.
End ErgodoxProofs.

(** ** An expander that does not answer *)

(** The columns of the last row that was read stay: they are read for every row. *)
Lemma unplugged_columns_stay {B} (Bus : (nat -> nat -> bool) -> TwiBus B) sw row (b : ergodox B) :
  (forall t, (@twi_write_byte _ (Bus sw) (Z.lor MCP23018_ADDR MCP23018_WRITE) t).1 <> ACK) ->
  cached_mcp_columns (ErgodoxBoard.matrix_select_row Bus sw row b) = cached_mcp_columns b.
Proof.
  intros Ha. unfold ErgodoxBoard.matrix_select_row, ErgodoxBoard.select_left, mcp_write.
  set (t := twi_start _). specialize (Ha t). destruct (twi_write_byte _ t) as [a t']. cbn [fst] in Ha.
  rewrite (proj2 (Z.eqb_neq a ACK) Ha). cbn [negb cached_mcp_columns].
  unfold ErgodoxBoard.select_right. by repeat case_if.
Qed.

(** ** The property *)

(** C5: The firmware sees the switches. On the K84CS, on the K80CS with either processor, on both Kinesis
    keyboards (with either board of the first) and on the Ergodox with its expander: once
    [ports_init] has set up the ports, and whatever the registers held before, every scan of the
    matrix (rows selected and columns read in the order of [keystate_update], through the
    shift registers, demultiplexers, ports and the two-wire bus) gives exactly the bit field of the
    switches that are closed at the time, however the switches change between the scans, and
    whatever the display does to the pins it shares with the matrix, or whichever lights are set. *)
Theorem scans_read_switches {B : Type} {Bus : (nat -> nat -> bool) -> TwiBus B} {Chip : McpChip B Bus}
    (sw0 : nat -> nat -> bool) (words : list Z) (l : layout)
    (b84 b80 : katy) (b80a : K80Atmega.atmega) (bk bk110 : kinesis) (be : ergodox B)
    (display_times : list ((nat -> nat -> bool) * pins)) (atmega_times : list ((nat -> nat -> bool) * (pins * pins)))
    (led_times : list ((nat -> nat -> bool) * Z)) :
  length (columns (left b84)) = 7%nat -> length (columns (left b80)) = 8%nat ->
  length (columns (K80Atmega.left b80a)) = 8%nat ->
  scan_times (H := K84cs_hardware) (Board := K84Board.board) display_used display_times words (K84Board.ports_init sw0 b84)
    = map (fun time => scan_matrix (H := K84cs_hardware) time.1 words) display_times /\
  scan_times (H := K80cs_hardware) (Board := K80Board.board) display_used display_times words (K80Board.ports_init sw0 b80)
    = map (fun time => scan_matrix (H := K80cs_hardware) time.1 words) display_times /\
  scan_times (H := K80cs_hardware) (Board := K80Atmega.board) K80Atmega.display_used atmega_times words (K80Atmega.ports_init sw0 b80a)
    = map (fun time => scan_matrix (H := K80cs_hardware) time.1 words) atmega_times /\
  scan_times (H := Kinesis_hardware) (Board := KinesisBoard.board l) (KinesisBoard.set_all_leds l) led_times words
      (KinesisBoard.ports_init l bk)
    = map (fun time => scan_matrix (H := Kinesis_hardware) time.1 words) led_times /\
  scan_times (H := Kinesis110_hardware) (Board := Kinesis110Board.board) Kinesis110Board.set_all_leds led_times words
      (Kinesis110Board.ports_init bk110)
    = map (fun time => scan_matrix (H := Kinesis110_hardware) time.1 words) led_times /\
  scan_times (H := Ergodox_hardware) (Board := ErgodoxBoard.board Bus) ErgodoxBoard.set_all_leds led_times words
      (ErgodoxBoard.ports_init Bus sw0 be)
    = map (fun time => scan_matrix (H := Ergodox_hardware) time.1 words) led_times.
Proof.
  intros H84 H80 H80a. split_and!.
  - apply (scan_times_spec (Ok := k84_board_ok)); [done|]. apply init_left_spec; [lia..|exact H84].
  - apply (scan_times_spec (Ok := xmega_board_ok)); [done|]. apply init_left_spec; [lia..|exact H80].
  - apply (scan_times_spec (Ok := avr8_board_ok)); [done|]. apply init_left_spec; [lia..|exact H80a].
  - apply (scan_times_spec (Ok := kinesis_board_ok l)); [done|]. apply kinesis_init.
  - apply (scan_times_spec (Ok := kinesis110_board_ok)); [done|]. apply kinesis110_init.
  - apply (scan_times_spec (Ok := ergodox_board_ok)); [exact ergodox_leds|]. apply ergodox_init.
Qed.

(** An expander that follows its documentation. *)
#[local] Instance sim_mcp (sw : nat -> nat -> bool) : TwiBus mcp_view := {
  twi_start := mcp_in Started;
  twi_stop := mcp_in Stopped;
  twi_write_byte x v :=
    match mcp_phase_of v with
    | Started => if x =? 0x40 then (ACK, mcp_in Selected v) else if x =? 0x41 then (ACK, mcp_in Sending v) else (NACK, v)
    | Selected => (ACK, mcp_in Writing (point_at x v))
    | Writing => (ACK, point_at (mcp_pointer v + 1) (write_register (mcp_pointer v) x v))
    | _ => (NACK, v)
    end;
  twi_read_byte _ v :=
    (port_in (fun i => negb (existsb (fun row => mcp_low v row && sw row (6 + i)%nat) (seq 0 7))),
     mcp_in Stopped (point_at (mcp_pointer v + 1) v))
}.

#[local] Instance sim_mcp_chip : McpChip mcp_view sim_mcp.
Proof.
  refine {| mcp := fun v => v |}; try done; intros sw b.
  - intros H. cbn. by rewrite H.
  - intros r H. cbn. by rewrite H.
  - intros x H _. cbn. by rewrite H.
  - intros H. cbn. by rewrite H.
  - intros H E. cbn [twi_read_byte sim_mcp fst snd]. rewrite E. split; [done|].
    intros i Hi _. apply port_in_spec. lia.
Defined.

(** Registers that hold anything at the start; scans with no key, with three keys of both
    halves of the K84CS, and with two keys of the Ergodox. *)
Definition cold_left (n : nat) : left_half := mkLeft false false true (replicate n false) [].
Definition cold (n : nat) : katy := mkKaty (cold_left n) (mkPins 0xff 0xff) 3 0x15.
Definition cold_ports : kinesis := mkKinesis (mkPins 1 2) (mkPins 0 0xff) (mkPins 3 4) (mkPins 5 6).
Definition cold_ergodox : ergodox mcp_view :=
  mkErgodox (mkPins 0xff 0xff) (mkPins 1 2) (mkPins 3 4) (mkPins 5 6) (mkMcp Sending 7 0xff 0 0) 0x2a.
Definition three_keys (row col : nat) : bool := existsb (fun k => bool_decide (k = (row, col))) [(2, 3); (2, 5); (9, 5)]%nat.
Definition two_keys (row col : nat) : bool := existsb (fun k => bool_decide (k = (row, col))) [(1, 3); (4, 7)]%nat.

Lemma scans_read_switches_witness :
  (scan_times (H := K84cs_hardware) (Board := K84Board.board) display_used
     [(fun _ _ => false, mkPins 0xff 0x55); (three_keys, mkPins 0 0)] (replicate 11 0) (K84Board.ports_init three_keys (cold 7))
   = [replicate 11 0; scan_matrix (H := K84cs_hardware) three_keys (replicate 11 0)] /\
   scan_matrix (H := K84cs_hardware) three_keys (replicate 11 0) <> replicate 11 0) /\
  (scan_times (H := Ergodox_hardware) (Board := ErgodoxBoard.board sim_mcp) ErgodoxBoard.set_all_leds
     [(two_keys, 0xff); (fun _ _ => false, 0)] (replicate 11 0) (ErgodoxBoard.ports_init sim_mcp two_keys cold_ergodox)
   = [scan_matrix (H := Ergodox_hardware) two_keys (replicate 11 0); replicate 11 0] /\
   scan_matrix (H := Ergodox_hardware) two_keys (replicate 11 0) <> replicate 11 0).
Proof.
  assert (H84 : length (columns (left (cold 7))) = 7%nat) by reflexivity.
  assert (H80 : length (columns (left (cold 8))) = 8%nat) by reflexivity.
  set (b80a := K80Atmega.mkAtmega (cold_left 8) (mkPins 0 0) (mkPins 0 0) 0 0).
  assert (H80a : length (columns (K80Atmega.left b80a)) = 8%nat) by reflexivity.
  pose proof (scans_read_switches (Chip := sim_mcp_chip)) as Scans.
  split; (split; [|vm_compute; discriminate]).
  - refine (eq_trans (proj1 (Scans three_keys (replicate 11 0) v1 (cold 7) (cold 8) b80a cold_ports cold_ports cold_ergodox
      [(fun _ _ => false, mkPins 0xff 0x55); (three_keys, mkPins 0 0)] [] [] H84 H80 H80a)) _).
    vm_compute. reflexivity.
  - destruct (Scans two_keys (replicate 11 0) v1 (cold 7) (cold 8) b80a cold_ports cold_ports cold_ergodox
      [] [] [(two_keys, 0xff); (fun _ _ => false, 0)] H84 H80 H80a) as (_ & _ & _ & _ & _ & He).
    refine (eq_trans He _). vm_compute. reflexivity.
Defined.
