(* ===== verification/Display.v ===== *)
(** * hardware/k84cs.c and hardware/k80cs.c: the display and the light sensor

    The Katy keyboards show their state on a display of two lines of eight
    characters and on four lights: [set_all_leds] of src/hardware/k84cs.c (the
    same text in src/hardware/k80cs.c, where the lights are only on the XMEGA),
    through the functions of src/Lcd.cpp.  The library behind these
    ([LiquidCrystal]) is a parameter; its documentation is in [LcdOk].  Strings
    are lists of characters without the terminator.  A light is off, or on with
    the lux value from which its brightness is computed; the computation, in
    floating point, is left out.  [run_photosensor] averages the readings of an
    analog converter, whose registers are the inputs of a step. *)

From Stdlib Require Import String Ascii.
From S2P Require Import Prelude.
Open Scope Z_scope.

(** A string literal. *)
Definition text (s : string) : list Z := map (fun c => Z.of_nat (nat_of_ascii c)) (list_ascii_of_string s).

(** ** The display *)

Class LiquidCrystal (D : Type) := {
  setCursor : Z -> Z -> D -> D;
  print : list Z -> D -> D
}.

Class LcdOk (D : Type) {L : LiquidCrystal D} := {
  shown : D -> Z -> Z -> Z;
  cursor : D -> Z * Z;
  setCursor_ok col row d :
    0 <= col < 8 -> 0 <= row < 2 ->
    cursor (setCursor col row d) = (row, col) /\ forall r c, shown (setCursor col row d) r c = shown d r c;
  print_ok s d row col :
    cursor d = (row, col) -> 0 <= col -> col + Z.of_nat (length s) <= 8 ->
    cursor (print s d) = (row, col + Z.of_nat (length s)) /\
    forall r c, shown (print s d) r c
      = if (r =? row) && (col <=? c) && (c <? col + Z.of_nat (length s)) then s !!! Z.to_nat (c - col) else shown d r c
}.

Section Lcd.
Context {D : Type} {L : LiquidCrystal D}.

(** src/Lcd.cpp *)
Definition lcd_print (s : list Z) (d : D) : D := print s d.
Definition lcd_set_position (row col : Z) (d : D) : D := setCursor col row d.
Definition lcd_print_position (row col : Z) (s : list Z) (d : D) : D := lcd_print s (setCursor col row d).
End Lcd.

(** ** Numbers *)

(** The buffer is filled from its end; [i] characters are free. *)
Fixpoint uitoa_loop (i : nat) (x : Z) (s : list Z) : list Z :=
  match i with
  | O => s
  | S i =>
      let s := (48 + x mod 10) :: s in
      let x := x / 10 in
      if x >? 0 then uitoa_loop i x s else s
  end.

Definition uitoa (x : Z) : list Z := if x =? 0 then [48] else uitoa_loop 5 x [].

Definition get_lux_str (l : Z) : list Z :=
  if l <? 0 then text "    "
  else if l <=? 9999 then
    let raw_rv := uitoa (u16 l) in
    let raw_rv_len := (4 - length raw_rv)%nat in
    replicate raw_rv_len 32 ++ raw_rv
  else
    let raw_rv := uitoa (u16 (l / 100)) in
    [raw_rv !!! 0%nat; raw_rv !!! 1%nat; 107; raw_rv !!! 2%nat].

(** ** The lights and the lines of text *)

Abbreviation LED_CAPS := 1 (only parsing).
Abbreviation LED_NUM := 2 (only parsing).
Abbreviation LED_SCROLL := 4 (only parsing).
Abbreviation LED_KEYPAD := 8 (only parsing).
Abbreviation LED_FUNCTION := 16 (only parsing).
Abbreviation LEDMASK_USB_NOTREADY := 0xE0 (only parsing).
Abbreviation LEDMASK_USB_ENUMERATING := 0xE1 (only parsing).
Abbreviation LEDMASK_USB_READY := 0xE2 (only parsing).
Abbreviation LEDMASK_USB_ERROR := 0xE3 (only parsing).
Abbreviation LEDMASK_NOP := 0xff (only parsing).
Abbreviation LEDMASK_PROGRAMMING_SRC := 0x20 (only parsing).
Abbreviation LEDMASK_PROGRAMMING_DST := 0x40 (only parsing).
Abbreviation LEDMASK_MACRO_TRIGGER := 0x60 (only parsing).
Abbreviation LEDMASK_MACRO_RECORD := 0x80 (only parsing).
Abbreviation LEDMASK_MACROS_ENABLED := 0xA0 (only parsing).
Abbreviation LEDMASK_PROGRAMS_ENABLED := 0xC0 (only parsing).

(** [adc_rv_array_size] *)
Abbreviation ADC_RV_SIZE := 20%nat (only parsing).

Section Panel.
Context {D : Type} {L : LiquidCrystal D}.

(** The display, the lights, and the static variables. *)
Record panel := mkPanel {
  lcd : D;
  red : option Z;
  yellow : option Z;
  green : option Z;
  blue : option Z;
  sLuxValToShowOnLcd : Z;
  sNumberToShowOnLcd : Z;
  prev_led_mask : Z;
  prev_lux_val : Z;
  prev_num_val : Z
}.

Definition on_lcd (f : D -> D) (p : panel) : panel :=
  mkPanel (f (lcd p)) (red p) (yellow p) (green p) (blue p) (sLuxValToShowOnLcd p) (sNumberToShowOnLcd p)
    (prev_led_mask p) (prev_lux_val p) (prev_num_val p).
Definition set_lights (r y g b : option Z) (p : panel) : panel :=
  mkPanel (lcd p) r y g b (sLuxValToShowOnLcd p) (sNumberToShowOnLcd p) (prev_led_mask p) (prev_lux_val p) (prev_num_val p).
Definition set_lux (x : Z) (p : panel) : panel :=
  mkPanel (lcd p) (red p) (yellow p) (green p) (blue p) x (sNumberToShowOnLcd p) (prev_led_mask p) (prev_lux_val p) (prev_num_val p).
Definition set_number (x : Z) (p : panel) : panel :=
  mkPanel (lcd p) (red p) (yellow p) (green p) (blue p) (sLuxValToShowOnLcd p) x (prev_led_mask p) (prev_lux_val p) (prev_num_val p).
Definition set_prev (mask lux num : Z) (p : panel) : panel :=
  mkPanel (lcd p) (red p) (yellow p) (green p) (blue p) (sLuxValToShowOnLcd p) (sNumberToShowOnLcd p) mask lux num.

Definition bit_set (mask bit : Z) : bool := negb (Z.land mask bit =? 0).

Definition usb_message (led_mask : Z) : list Z :=
  if led_mask =? LEDMASK_USB_NOTREADY then text "Usb Wait"
  else if led_mask =? LEDMASK_USB_ENUMERATING then text "Usb Enum"
  else if led_mask =? LEDMASK_USB_READY then text "Usb OK  "
  else if led_mask =? LEDMASK_USB_ERROR then text "Usb Err "
  else text "BAD Msg!".

Definition layerName (led_mask : Z) : list Z :=
  if bit_set led_mask LED_KEYPAD then text "Keypad  "
  else if bit_set led_mask LED_FUNCTION then text "Function"
  else text "Normal  ".

(** The first four characters of the second line: the locks in [ledMsg], filled up, and the mode. *)
Definition lock_msg (led_mask : Z) : list Z :=
  let letter bit c := if bit_set led_mask bit then [c] else [] in
  letter LED_CAPS 67 ++ letter LED_NUM 78 ++ letter LED_SCROLL 83.
Definition led_msg (led_mask tag_msg : Z) : list Z :=
  let ledMsg := lock_msg led_mask in
  ledMsg ++ replicate (3 - length ledMsg) 32
  ++ [if LEDMASK_PROGRAMS_ENABLED =? tag_msg then 81 else if LEDMASK_MACROS_ENABLED =? tag_msg then 113 else 32].

(** The last four characters. *)
Definition tag_text (tag_msg lux number : Z) : list Z :=
  if (tag_msg =? 0) || (tag_msg =? LEDMASK_MACROS_ENABLED) || (tag_msg =? LEDMASK_PROGRAMS_ENABLED) then
    if negb (number =? 0xffff) then get_lux_str (s16 number) else get_lux_str (s16 lux)
  else if tag_msg =? LEDMASK_PROGRAMMING_SRC then text "Src?"
  else if tag_msg =? LEDMASK_PROGRAMMING_DST then text "Dst?"
  else if tag_msg =? LEDMASK_MACRO_TRIGGER then text "Trg?"
  else if tag_msg =? LEDMASK_MACRO_RECORD then text "Rec?"
  else text "ERR!".

(** The layer, the locks and their lights. *)
Definition show_layer_and_locks (led_changed : bool) (led_mask tag_msg : Z) (p : panel) : panel :=
  let lit bit := if bit_set led_mask bit then Some (sLuxValToShowOnLcd p) else None in
  let p := set_lights (red p) (yellow p) (green p)
             (if bit_set led_mask LED_KEYPAD || bit_set led_mask LED_FUNCTION then Some (sLuxValToShowOnLcd p) else None) p in
  let p := if led_changed then on_lcd (lcd_print_position 0 0 (layerName led_mask)) p else p in
  let p := set_lights (lit LED_CAPS) (lit LED_NUM) (lit LED_SCROLL) (blue p) p in
  if led_changed then on_lcd (lcd_print_position 1 0 (led_msg led_mask tag_msg)) p else p.

Definition set_all_leds (led_mask : Z) (p : panel) : panel :=
  let led_changed := negb (led_mask =? prev_led_mask p) && negb (led_mask =? LEDMASK_NOP) in
  let lux_changed := negb (sLuxValToShowOnLcd p =? u16 (prev_lux_val p)) in
  let num_changed := negb (sNumberToShowOnLcd p =? u16 (prev_num_val p)) in
  if negb led_changed && negb lux_changed && negb num_changed then p
  else
    let led_mask := if led_changed then led_mask else prev_led_mask p in
    let p := set_prev led_mask (if lux_changed then s16 (sLuxValToShowOnLcd p) else prev_lux_val p)
               (if num_changed then s16 (sNumberToShowOnLcd p) else prev_num_val p) p in
    let tag_msg := Z.land led_mask 0xE0 in
    if led_changed && (tag_msg =? 0xE0) then on_lcd (lcd_print_position 0 0 (usb_message led_mask)) p
    else
      let p := if led_changed || lux_changed then show_layer_and_locks led_changed led_mask tag_msg p else p in
      let p := if negb led_changed then on_lcd (lcd_set_position 1 4) p else p in
      on_lcd (lcd_print (tag_text tag_msg (sLuxValToShowOnLcd p) (sNumberToShowOnLcd p))) p.

Definition set_number_to_show_on_lcd (x : Z) (p : panel) : panel := set_all_leds LEDMASK_NOP (set_number x p).
Definition clear_number_to_show_on_lcd (p : panel) : panel := set_number_to_show_on_lcd 0xffff p.

(** Without the delays. *)
Definition test_leds (p : panel) : panel :=
  for_range 0 2 (fun _ p => fold_left (fun p m => set_all_leds m p)
    [0; LEDMASK_USB_NOTREADY; LEDMASK_USB_ENUMERATING; LEDMASK_USB_READY; LEDMASK_USB_ERROR; LED_CAPS; LED_NUM; LED_SCROLL;
     LED_KEYPAD; LEDMASK_PROGRAMMING_SRC; LEDMASK_PROGRAMMING_DST; LEDMASK_MACRO_TRIGGER; LEDMASK_MACRO_RECORD; 0xf0] p) p.

(** ** The light sensor of the K84CS *)

(** The static variables of [run_photosensor], and whether a conversion has been started. *)
Record sensor_state := mkSensor {
  next_step_time_ms : Z;
  adc_rv : list Z;
  adc_started : bool;
  index : Z
}.

Definition sensor_start : sensor_state := mkSensor 500 (replicate ADC_RV_SIZE 0) false 0.

(** [adc_average] of the readings, and the value that is shown. *)
Definition adc_average (l : list Z) : Z := foldl (fun a x => u32 (a + x)) 0 l / Z.of_nat ADC_RV_SIZE.
Definition lux_of (average : Z) : Z := u16 (if average <? 182 then 0 else average - 182).

(** A call of [run_photosensor], which returns false (without KATY_DEBUG); the
    converter's flag for a finished conversion and its result. *)
Definition run_photosensor (cur_time_ms : Z) (finished : bool) (CH0RES : Z) (s : sensor_state) (p : panel)
    : sensor_state * panel :=
  if cur_time_ms <? next_step_time_ms s then (s, p)
  else if negb (adc_started s) then (mkSensor (next_step_time_ms s) (adc_rv s) true (index s), p)
  else if negb finished then (s, p)
  else
    let adc_rv := <[Z.to_nat (index s) := Z.land CH0RES 0x0fff]> (adc_rv s) in
    let i := u8 (index s + 1) in
    if i <? Z.of_nat ADC_RV_SIZE then (mkSensor (u32 (cur_time_ms + 1)) adc_rv false i, p)
    else
      let p := set_all_leds LEDMASK_NOP (set_lux (lux_of (adc_average adc_rv)) p) in
      (mkSensor (u32 (cur_time_ms + 1000)) adc_rv false 0, p).
End Panel.
#[global] Arguments panel D : clear implicits.
