(* ===== verification/DisplayProofs.v ===== *)
(** * hardware/k84cs.c: what the display and the lights show

    Once a change of the mask has been shown, the display and the lights show
    the mask, the number and the light value whatever changes next
    ([display_in_sync]); with the masks of the main state machine that is the
    state of the keyboard.  The light sensor shows the mean of twenty readings. *)

From Stdlib Require Import String Ascii.
From S2P Require Import Prelude Display.
Open Scope Z_scope.

(** ** Numbers *)

Definition is_digit (c : Z) : Prop := 48 <= c <= 57.
Definition decimal (s : list Z) : Z := foldl (fun v c => 10 * v + (c - 48)) 0 s.

Lemma decimal_cons c s : decimal (c :: s) = (c - 48) * 10 ^ Z.of_nat (length s) + decimal s.
Proof.
  unfold decimal. cbn [foldl].
  assert (E : forall l v, foldl (fun v c => 10 * v + (c - 48)) v l = v * 10 ^ Z.of_nat (length l) + foldl (fun v c => 10 * v + (c - 48)) 0 l).
  { induction l as [|x l IH]; intros v; cbn [foldl length]; [lia|]. rewrite IH, (IH (10 * 0 + _)).
    rewrite Nat2Z.inj_succ, Z.pow_succ_r by lia. lia. }
  rewrite E. lia.
Qed.

(** The buffer is long enough for the digits left. *)
Lemma uitoa_loop_spec i x s :
  0 <= x < 10 ^ Z.of_nat i -> (0 < i)%nat -> Forall is_digit s ->
  let r := uitoa_loop i x s in
  Forall is_digit r /\ decimal r = x * 10 ^ Z.of_nat (length s) + decimal s /\
  (length s < length r <= length s + i)%nat /\
  (0 < x -> 10 ^ Z.of_nat (length r - length s - 1) <= x).
Proof.
  revert x s. induction i as [|i IH]; intros x s Hx Hi Hs; [lia|]. cbn [uitoa_loop].
  assert (Hd : is_digit (48 + x mod 10)) by (unfold is_digit; dlia).
  assert (Hds : decimal ((48 + x mod 10) :: s) = (x mod 10) * 10 ^ Z.of_nat (length s) + decimal s)
    by (rewrite decimal_cons; f_equal; lia).
  rewrite Nat2Z.inj_succ, Z.pow_succ_r in Hx by lia.
  destruct (Z.gtb_spec (x / 10) 0) as [Hq|Hq].
  - assert (Hi0 : (0 < i)%nat) by (destruct i; [cbn in Hx; dlia|lia]).
    destruct (IH (x / 10) ((48 + x mod 10) :: s)) as (H1 & H2 & H3 & H4); [dlia|done|by constructor|].
    cbn [length] in H2, H3, H4. rewrite Nat2Z.inj_succ, Z.pow_succ_r in H2 by lia.
    split_and!; [done| |lia|lia|].
    + rewrite H2, Hds. pose proof (Z.div_mod x 10 ltac:(lia)). nia.
    + intros _. specialize (H4 ltac:(lia)).
      replace (length (uitoa_loop i (x / 10) _) - length s - 1)%nat
        with (S (length (uitoa_loop i (x / 10) ((48 + x mod 10) :: s)) - S (length s) - 1)) by lia.
      rewrite Nat2Z.inj_succ, Z.pow_succ_r by lia. dlia.
  - split_and!; [by constructor| |cbn; lia|cbn; lia|].
    + rewrite Hds. assert (x mod 10 = x) by dlia. nia.
    + intros Hx0. cbn [length]. replace (S (length s) - length s - 1)%nat with 0%nat by lia. cbn. lia.
Qed.

Lemma decimal_bound s : Forall is_digit s -> 0 <= decimal s < 10 ^ Z.of_nat (length s).
Proof.
  induction 1 as [|c s Hc _ IH]; [cbn; lia|]. rewrite decimal_cons. cbn [length].
  rewrite Nat2Z.inj_succ, Z.pow_succ_r by lia. unfold is_digit in Hc. nia.
Qed.

(** A number is written with its digits, without leading zeros. *)
Lemma uitoa_spec x :
  is_u16 x ->
  Forall is_digit (uitoa x) /\ decimal (uitoa x) = x /\
  forall n, x < 10 ^ Z.of_nat n -> (0 < n)%nat -> (0 < length (uitoa x) <= n)%nat.
Proof.
  intros Hx. unfold uitoa, is_u16 in *. destruct (Z.eqb_spec x 0) as [->|Hne].
  { split_and!; [by repeat constructor|done|cbn; lia]. }
  destruct (uitoa_loop_spec 5 x []) as (H1 & H2 & H3 & H4); [cbn; lia|lia|done|].
  cbn [length] in *. split_and!; [done|rewrite H2; cbn; lia|]. intros n Hn Hn0. split; [lia|].
  specialize (H4 ltac:(lia)). apply Nat.lt_pred_le, Nat.nle_gt. intros Hgt. revert Hn. apply Z.le_ngt.
  etransitivity; [|exact H4]. apply Z.pow_le_mono_r; lia.
Qed.

Lemma uitoa_length x n : is_u16 x -> 10 ^ Z.of_nat n <= x < 10 ^ Z.of_nat (S n) -> length (uitoa x) = S n.
Proof.
  intros Hx [Hlo Hhi]. destruct (uitoa_spec x Hx) as (H1 & H2 & H3).
  pose proof (H3 (S n) Hhi ltac:(lia)). pose proof (decimal_bound _ H1) as Hb. rewrite H2 in Hb.
  cut (n < length (uitoa x))%nat; [lia|]. apply Nat.nle_gt. intros Hle.
  pose proof (Z.pow_le_mono_r 10 (Z.of_nat (length (uitoa x))) (Z.of_nat n) ltac:(lia) ltac:(lia)). lia.
Qed.

(** Four characters always: blank, a number, or its thousands and hundreds. *)
Lemma get_lux_str_spec l :
  is_s16 l ->
  length (get_lux_str l) = 4%nat /\
  (l < 0 -> get_lux_str l = replicate 4 32) /\
  (0 <= l <= 9999 -> exists d, get_lux_str l = replicate (4 - length d) 32 ++ d /\ Forall is_digit d /\ decimal d = l) /\
  (9999 < l -> exists a b c, get_lux_str l = [a; b; 107; c] /\ Forall is_digit [a; b; c] /\ decimal [a; b; c] = l / 100).
Proof.
  intros Hl. unfold is_s16 in Hl. unfold get_lux_str. destruct (Z.ltb_spec l 0) as [Hn|Hn].
  { split_and!; [done|done|lia|lia]. }
  destruct (Z.leb_spec l 9999) as [Hs|Hs].
  - rewrite u16_small by (unfold is_u16; lia).
    destruct (uitoa_spec l ltac:(unfold is_u16; lia)) as (H1 & H2 & H3).
    specialize (H3 4%nat ltac:(cbn; lia) ltac:(lia)).
    split_and!; [rewrite length_app, length_replicate; lia|lia| |lia]. intros _. by eexists.
  - assert (Hq : 100 <= l / 100 < 1000) by dlia. rewrite u16_small by (unfold is_u16; lia).
    destruct (uitoa_spec (l / 100) ltac:(unfold is_u16; lia)) as (H1 & H2 & _).
    pose proof (uitoa_length (l / 100) 2 ltac:(unfold is_u16; lia) ltac:(cbn; lia)) as Hlen.
    destruct (uitoa (l / 100)) as [|a [|b [|c [|]]]]; try done.
    split_and!; [done|lia|lia|]. intros _. by exists a, b, c.
Qed.

(** ** The display *)

Section Panel.
Context {D : Type} {L : LiquidCrystal D} {Ok : LcdOk D}.

(** The characters of a line from [col] on. *)
Definition line_shows (d : D) (row col : Z) (s : list Z) : Prop :=
  forall i, (i < length s)%nat -> shown d row (col + Z.of_nat i) = s !!! i.

Lemma line_app d row col s1 s2 :
  line_shows d row col (s1 ++ s2) <-> line_shows d row col s1 /\ line_shows d row (col + Z.of_nat (length s1)) s2.
Proof.
  unfold line_shows. split.
  - intros Hs. split; intros i Hi.
    + rewrite Hs, lookup_total_app_l by (rewrite ?length_app; lia). done.
    + specialize (Hs (length s1 + i)%nat). rewrite length_app, lookup_total_app_r in Hs by lia.
      replace (length s1 + i - length s1)%nat with i in Hs by lia. rewrite <- Hs by lia. f_equal. lia.
  - intros [H1 H2] i Hi. rewrite length_app in Hi. destruct (decide (i < length s1)%nat) as [Hl|Hl].
    + rewrite lookup_total_app_l by done. by apply H1.
    + rewrite lookup_total_app_r, <- H2 by lia. f_equal. lia.
Qed.

(** Printing, from the cursor. *)
Lemma print_line row col s d :
  cursor d = (row, col) -> 0 <= col -> col + Z.of_nat (length s) <= 8 ->
  line_shows (lcd_print s d) row col s /\ cursor (lcd_print s d) = (row, col + Z.of_nat (length s)) /\
  (forall r c t, r <> row \/ c + Z.of_nat (length t) <= col -> line_shows d r c t -> line_shows (lcd_print s d) r c t).
Proof.
  intros Hc H0 H8. unfold lcd_print. destruct (print_ok s d row col Hc H0 H8) as [Hcur Hsh]. split_and!; [|done|].
  - intros i Hi. rewrite Hsh, Z.eqb_refl. rewrite (proj2 (Z.leb_le _ _)), (proj2 (Z.ltb_lt _ _)) by lia.
    cbn [andb]. f_equal. lia.
  - intros r c t Hr Ht i Hi. rewrite Hsh. destruct ((r =? row) && _ && _) eqn:E; [|by apply Ht].
    apply andb_true_iff in E as [[->%Z.eqb_eq E1%Z.leb_le]%andb_true_iff _]. lia.
Qed.

Lemma move_cursor row col d :
  0 <= row < 2 -> 0 <= col < 8 ->
  cursor (lcd_set_position row col d) = (row, col) /\
  forall r c t, line_shows (lcd_set_position row col d) r c t <-> line_shows d r c t.
Proof.
  intros Hr Hc. destruct (setCursor_ok col row d Hc Hr) as [H1 H2]. split; [done|].
  intros r c t. unfold line_shows, lcd_set_position. by setoid_rewrite H2.
Qed.

(** ** What the panel has to show *)

Definition tag (mask : Z) : Z := Z.land mask 0xE0.
Definition light (on : bool) (lux : Z) : option Z := if on then Some lux else None.

Definition shows (mask lux number : Z) (p : panel D) : Prop :=
  line_shows (lcd p) 0 0 (layerName mask) /\
  line_shows (lcd p) 1 0 (led_msg mask (tag mask)) /\
  line_shows (lcd p) 1 4 (tag_text (tag mask) lux number) /\
  red p = light (bit_set mask LED_CAPS) lux /\
  yellow p = light (bit_set mask LED_NUM) lux /\
  green p = light (bit_set mask LED_SCROLL) lux /\
  blue p = light (bit_set mask LED_KEYPAD || bit_set mask LED_FUNCTION) lux.

(** A mask that is not one of the messages of the USB connection. *)
Definition status_mask (mask : Z) : Prop := tag mask <> 0xE0.

(** The last shown mask, light value and number are on the panel. *)
Definition shows_last (p : panel D) : Prop :=
  status_mask (prev_led_mask p) /\ is_u16 (sLuxValToShowOnLcd p) /\ is_u16 (sNumberToShowOnLcd p) /\
  shows (prev_led_mask p) (u16 (prev_lux_val p)) (u16 (prev_num_val p)) p.

(** And they are the present ones. *)
Definition in_sync (mask : Z) (p : panel D) : Prop :=
  shows_last p /\ prev_led_mask p = mask /\
  sLuxValToShowOnLcd p = u16 (prev_lux_val p) /\ sNumberToShowOnLcd p = u16 (prev_num_val p).

Lemma led_msg_length mask t : length (led_msg mask t) = 4%nat.
Proof.
  unfold led_msg, lock_msg. destruct (bit_set mask 1), (bit_set mask 2), (bit_set mask 4); reflexivity.
Qed.

Lemma layerName_length mask : length (layerName mask) = 8%nat.
Proof. unfold layerName. by destruct (bit_set mask 8), (bit_set mask 16). Qed.

Lemma tag_text_length t lux number : length (tag_text t lux number) = 4%nat.
Proof.
  unfold tag_text. repeat case_if; try done; apply get_lux_str_spec; apply s16_range.
Qed.

Lemma u16_of_s16 x : is_u16 x -> u16 (s16 x) = x.
Proof. intros Hx. by rewrite u16_s16, u16_small. Qed.

(** The last four characters, with the cursor before them. *)
Lemma print_tag s d :
  length s = 4%nat -> cursor d = (1, 4) ->
  line_shows (lcd_print s d) 1 4 s /\
  (forall t, line_shows d 0 0 t -> line_shows (lcd_print s d) 0 0 t) /\
  (forall t, length t = 4%nat -> line_shows d 1 0 t -> line_shows (lcd_print s d) 1 0 t).
Proof.
  intros Hs Hc. destruct (print_line 1 4 s d Hc) as (H1 & _ & H2); [lia|rewrite Hs; lia|].
  split_and!; [done|intros t; apply H2; lia|intros t Ht; apply H2; rewrite Ht; lia].
Qed.

(** Layer and locks printed. *)
Lemma print_layer_and_locks mask d :
  let d' := lcd_print_position 1 0 (led_msg mask (tag mask)) (lcd_print_position 0 0 (layerName mask) d) in
  line_shows d' 0 0 (layerName mask) /\ line_shows d' 1 0 (led_msg mask (tag mask)) /\ cursor d' = (1, 4).
Proof.
  cbv zeta. unfold lcd_print_position.
  destruct (setCursor_ok 0 0 d ltac:(lia) ltac:(lia)) as [Hc _].
  destruct (print_line 0 0 (layerName mask) _ Hc) as (H1 & _ & _); [lia|rewrite layerName_length; lia|].
  set (d1 := lcd_print (layerName mask) (setCursor 0 0 d)) in *.
  destruct (move_cursor 1 0 d1 ltac:(lia) ltac:(lia)) as [Hc2 Hm]. unfold lcd_set_position in Hc2, Hm.
  destruct (print_line 1 0 (led_msg mask (tag mask)) _ Hc2) as (H3 & H4 & H5); [lia|rewrite led_msg_length; lia|].
  split_and!; [apply H5; [lia|by apply Hm]|done|]. by rewrite H4, led_msg_length.
Qed.

(** A change of the mask shows everything, whatever was there. *)
Lemma change_shows mask p :
  status_mask mask -> mask <> prev_led_mask p -> is_u16 (sLuxValToShowOnLcd p) -> is_u16 (sNumberToShowOnLcd p) ->
  in_sync mask (set_all_leds mask p).
Proof.
  intros Hm Hne Hlux Hnum. assert (Hnop : mask <> LEDMASK_NOP) by (intros ->; by apply Hm).
  unfold set_all_leds. rewrite (proj2 (Z.eqb_neq _ _) Hne), (proj2 (Z.eqb_neq _ _) Hnop). cbn [negb andb orb].
  fold (tag mask). rewrite (proj2 (Z.eqb_neq (tag mask) 0xE0) Hm).
  assert (Hprev : forall x y, is_u16 x -> x = u16 (if negb (x =? u16 y) then s16 x else y)).
  { intros x y Hx. destruct (Z.eqb_spec x (u16 y)) as [E|]; cbn [negb]; [done|by rewrite u16_of_s16]. }
  pose proof (Hprev _ (prev_lux_val p) Hlux) as E1. pose proof (Hprev _ (prev_num_val p) Hnum) as E2.
  destruct (print_layer_and_locks mask (lcd p)) as (H1 & H2 & H3).
  destruct (print_tag (tag_text (tag mask) (sLuxValToShowOnLcd p) (sNumberToShowOnLcd p)) _ (tag_text_length _ _ _) H3)
    as (T1 & T2 & T3).
  unfold in_sync, shows_last, shows. cbn [show_layer_and_locks set_lights set_prev on_lcd lcd red yellow green blue
    sLuxValToShowOnLcd sNumberToShowOnLcd prev_led_mask prev_lux_val prev_num_val].
  rewrite <- E1, <- E2. split_and!; try done; [by apply T2|by apply T3, H2; apply led_msg_length].
Qed.

(** Without a change of the mask, the number or the light value are brought up to date. *)
Lemma refresh_shows mask p :
  shows_last p -> mask = prev_led_mask p \/ mask = LEDMASK_NOP ->
  in_sync (prev_led_mask p) (set_all_leds mask p).
Proof.
  intros (Hst & Hlux & Hnum & H1 & H2 & H3 & R & Y & G & B) Hm. unfold set_all_leds.
  assert (E : negb (mask =? prev_led_mask p) && negb (mask =? LEDMASK_NOP) = false).
  { destruct Hm as [->| ->]; rewrite ?Z.eqb_refl; cbn [negb]; by rewrite ?andb_false_r. }
  rewrite E. cbn [negb andb orb]. unfold in_sync, shows_last, shows.
  destruct (Z.eqb_spec (sLuxValToShowOnLcd p) (u16 (prev_lux_val p))) as [El|El];
    destruct (Z.eqb_spec (sNumberToShowOnLcd p) (u16 (prev_num_val p))) as [En|En]; cbn [negb andb orb].
  1: by split_and!.
  all: destruct (move_cursor 1 4 (lcd p) ltac:(lia) ltac:(lia)) as [Hc Hmv].
  all: destruct (print_tag (tag_text (tag (prev_led_mask p)) (sLuxValToShowOnLcd p) (sNumberToShowOnLcd p)) _
         (tag_text_length _ _ _) Hc) as (T1 & T2 & T3).
  all: cbn [show_layer_and_locks set_lights set_prev on_lcd lcd red yellow green blue
    sLuxValToShowOnLcd sNumberToShowOnLcd prev_led_mask prev_lux_val prev_num_val].
  all: rewrite ?u16_of_s16 by done; rewrite <- ?El, <- ?En.
  all: rewrite <- ?El in R, Y, G, B.
  all: split_and!; try done; first [by apply T2, Hmv|apply T3; [apply led_msg_length|by apply Hmv]].
Qed.

Lemma panel_shows mask p :
  shows_last p -> status_mask mask \/ mask = LEDMASK_NOP ->
  in_sync (if mask =? LEDMASK_NOP then prev_led_mask p else mask) (set_all_leds mask p).
Proof.
  intros Hp Hm. destruct (Z.eqb_spec mask LEDMASK_NOP) as [->|Hn]; [apply refresh_shows; auto|].
  destruct Hm as [Hm|Hm]; [|done]. destruct (decide (mask = prev_led_mask p)) as [->|Hne]; [apply refresh_shows; auto|].
  by apply change_shows; [..|apply Hp|apply Hp].
Qed.

Lemma set_all_leds_lux mask p : sLuxValToShowOnLcd (set_all_leds mask p) = sLuxValToShowOnLcd p.
Proof. unfold set_all_leds, show_layer_and_locks. cbv zeta. repeat case_if; done. Qed.

(** A new number or light value is not shown yet. *)
Lemma set_number_last x p : is_u16 x -> shows_last p -> shows_last (set_number x p).
Proof. intros Hx (H1 & H2 & H3 & H4). by split_and!. Qed.
Lemma set_lux_last x p : is_u16 x -> shows_last p -> shows_last (set_lux x p).
Proof. intros Hx (H1 & H2 & H3 & H4). by split_and!. Qed.

(** ** The light sensor *)

Lemma sum_bound l a :
  Forall (fun x => 0 <= x <= 4095) l -> 0 <= a -> a + 4095 * Z.of_nat (length l) < 4294967296 ->
  foldl (fun a x => u32 (a + x)) a l = a + foldr Z.add 0 l /\ 0 <= foldr Z.add 0 l <= 4095 * Z.of_nat (length l).
Proof.
  intros Hl. revert a. induction Hl as [|x l Hx _ IH]; intros a Ha Hb; cbn [foldl foldr length] in *; [lia|].
  rewrite Nat2Z.inj_succ in *.
  assert (E : u32 (a + x) = a + x) by (unfold u32; apply Z.mod_small; lia). rewrite E.
  destruct (IH (a + x)) as [-> ?]; lia.
Qed.

(** The mean of the readings, less the offset of the sensor. *)
Lemma average_exact l :
  length l = ADC_RV_SIZE -> Forall (fun x => 0 <= x <= 4095) l ->
  lux_of (adc_average l) = Z.max 0 (foldr Z.add 0 l / 20 - 182) /\ is_u16 (lux_of (adc_average l)).
Proof.
  intros Hl Hr. unfold adc_average, lux_of. destruct (sum_bound l 0 Hr) as [-> Hb]; [lia|rewrite Hl; lia|].
  rewrite Hl in Hb. change (Z.of_nat 20) with 20 in *. rewrite Z.add_0_l. split; [|apply u16_range].
  rewrite u16_small; [|unfold is_u16; case_if; dlia].
  destruct (Z.ltb_spec (foldr Z.add 0 l / 20) 182); lia.
Qed.

Definition sensor_ok (s : sensor_state) : Prop :=
  length (adc_rv s) = ADC_RV_SIZE /\ Forall (fun x => 0 <= x <= 4095) (adc_rv s) /\ 0 <= index s < Z.of_nat ADC_RV_SIZE.

Lemma reading_range r : 0 <= Z.land r 0x0fff <= 4095.
Proof. pose proof (Z.land_ones r 12 ltac:(lia) : Z.land r 0x0fff = _) as E. rewrite E. pose proof (Z.mod_pos_bound r (2 ^ 12) eq_refl). lia. Qed.

Lemma start_ok : sensor_ok sensor_start.
Proof. split_and!; [done| |done|done]. by apply Forall_replicate. Qed.

(** A call of [run_photosensor] keeps the panel up to date. *)
Lemma sense_ok mask t finished r s p :
  sensor_ok s -> in_sync mask p ->
  let '(s', p') := run_photosensor t finished r s p in sensor_ok s' /\ in_sync mask p'.
Proof.
  intros (Hl & Hr & Hi) Hp. unfold run_photosensor. cbv zeta.
  assert (Hl' : length (<[Z.to_nat (index s):=Z.land r 4095]> (adc_rv s)) = ADC_RV_SIZE) by (by rewrite length_insert).
  assert (Hr' : Forall (fun x => 0 <= x <= 4095) (<[Z.to_nat (index s):=Z.land r 4095]> (adc_rv s)))
    by (apply Forall_insert; [done|apply reading_range]).
  case_if; [done|]. case_if; [done|]. case_if; [done|].
  destruct (Z.ltb_spec (u8 (index s + 1)) (Z.of_nat ADC_RV_SIZE)) as [E|E].
  - split; [|done]. split_and!; [exact Hl'|exact Hr'|apply u8_range|exact E].
  - split; [split_and!; [exact Hl'|exact Hr'|done|done]|]. destruct Hp as (Hsl & <- & _).
    apply (refresh_shows LEDMASK_NOP (set_lux _ p)); [|by right].
    apply set_lux_last; [by apply average_exact|exact Hsl].
Qed.

(** ** Runs *)

(** What is called: a mask of the main loop, a number, the light sensor. *)
Inductive panel_call :=
  | Leds (mask : Z)
  | Number (x : Z)
  | NoNumber
  | Sense (t : Z) (finished : bool) (CH0RES : Z).

Definition panel_step (c : panel_call) (sp : sensor_state * panel D) : sensor_state * panel D :=
  let '(s, p) := sp in
  match c with
  | Leds mask => (s, set_all_leds mask p)
  | Number x => (s, set_number_to_show_on_lcd (u16 x) p)
  | NoNumber => (s, clear_number_to_show_on_lcd p)
  | Sense t finished r => run_photosensor t finished r s p
  end.

Definition call_ok (c : panel_call) : Prop := match c with Leds mask => status_mask mask | _ => True end.

Definition next_mask (mask : Z) (c : panel_call) : Z := match c with Leds m => m | _ => mask end.

Lemma panel_run cs mask s p :
  sensor_ok s -> in_sync mask p -> Forall call_ok cs ->
  let '(s', p') := fold_left (fun sp c => panel_step c sp) cs (s, p) in
  sensor_ok s' /\ in_sync (fold_left next_mask cs mask) p'.
Proof.
  intros Hs Hp Hcs. revert mask s p Hs Hp. induction Hcs as [|c cs Hc _ IH]; intros mask s p Hs Hp; [done|].
  assert (E : let '(s', p') := panel_step c (s, p) in sensor_ok s' /\ in_sync (next_mask mask c) p').
  { destruct c as [m|x| |t f r]; cbn [panel_step next_mask].
    - split; [done|]. pose proof (panel_shows m p (proj1 Hp) (or_introl Hc)) as Hs'.
      rewrite (proj2 (Z.eqb_neq m 0xff)) in Hs'; [done|]. intros ->. by apply Hc.
    - split; [done|]. destruct Hp as (Hsl & <- & _).
      apply (refresh_shows LEDMASK_NOP (set_number _ p)); [|by right]. apply set_number_last; [apply u16_range|done].
    - split; [done|]. destruct Hp as (Hsl & <- & _).
      apply (refresh_shows LEDMASK_NOP (set_number _ p)); [|by right]. by apply set_number_last.
    - by apply sense_ok. }
  cbn [fold_left]. destruct (panel_step c (s, p)) as [s1 p1]. destruct E. by apply IH.
Qed.

(** Twenty readings, each started and finished at its time. *)
Definition take_reading (r : Z) (sp : sensor_state * panel D) : sensor_state * panel D :=
  let '(s, p) := sp in
  let t := next_step_time_ms s in
  let '(s, p) := run_photosensor t false 0 s p in
  run_photosensor t true r s p.

Lemma readings_collected rs s p :
  sensor_ok s -> adc_started s = false -> index s = 0 -> (length rs < ADC_RV_SIZE)%nat ->
  exists t, fold_left (fun sp r => take_reading r sp) rs (s, p)
    = (mkSensor t (map (fun r => Z.land r 0x0fff) rs ++ drop (length rs) (adc_rv s)) false (Z.of_nat (length rs)), p).
Proof.
  intros (Hl & Hr & Hi) Ha H0. induction rs as [|r rs IH] using rev_ind; intros Hn.
  { exists (next_step_time_ms s). destruct s. cbn in *. by subst. }
  rewrite length_app in Hn. cbn [length] in Hn. destruct IH as (t & E); [lia|].
  rewrite fold_left_app, E. cbn [fold_left take_reading]. unfold run_photosensor.
  cbn [next_step_time_ms adc_started adc_rv index]. rewrite Z.ltb_irrefl. cbn [negb]. rewrite Z.ltb_irrefl. cbn [negb].
  cbn [next_step_time_ms adc_started adc_rv index].
  assert (Ei : u8 (Z.of_nat (length rs) + 1) = Z.of_nat (length (rs ++ [r]))).
  { rewrite length_app. cbn [length]. rewrite u8_small; unfold is_u8; lia. }
  rewrite Ei, (proj2 (Z.ltb_lt _ _)) by (rewrite length_app; cbn [length]; lia).
  eexists. do 2 f_equal. rewrite Nat2Z.id, map_app, length_app. cbn [map length].
  rewrite insert_app_r_alt by (by rewrite length_map). rewrite length_map, Nat.sub_diag, <- app_assoc. f_equal.
  destruct (drop (length rs) (adc_rv s)) as [|x l] eqn:Ed.
  { apply (f_equal length) in Ed. rewrite length_drop in Ed. cbn in Ed. lia. }
  cbn [insert list_insert app]. f_equal. rewrite <- drop_drop, Ed. done.
Qed.
End Panel.
