(* ===== verification/Buzzer.v ===== *)
(** * buzzer.c: the buzzer

    The countdown of src/buzzer.c over what the two processors provide for the
    tone ([HfPwm]): timer 4 of the ATmega32U4, with 10 bits and a prescaler of
    2^0 to 2^14 behind a 48 MHz clock, and timer C1 of the XMEGA, with 16 bits
    and a prescaler of 64.  The registers the file writes are fields of the
    state; the pin of the buzzer is driven while [COM4D0] is set, or the timer
    has a clock.  The one-time setting of the timer's mode ([initHfPwm]) has no
    further effect here. *)

From S2P Require Import Prelude.

Abbreviation BUZZER_DEFAULT_TONE := 110 (only parsing).

(** The part of the file that depends on the processor. *)
Class HfPwm (T : Type) := {
  hfPwmStart : T -> T;
  hfPwmStop : T -> T;
  (* [None]: a division by zero *)
  hfPwmSetPeriod : Z -> T -> option T;
  (* whether the pin of the buzzer is driven *)
  driven : T -> bool
}.

Class HfPwmOk (T : Type) {P : HfPwm T} := {
  start_drives t : driven (hfPwmStart t) = true;
  stop_ends t : driven (hfPwmStop t) = false
}.

(** ** Starting, and the countdown *)

Section Buzzer.
Context {T : Type} {P : HfPwm T}.

Record buzzer := mkBuzzer { buzzer_ms : Z; timer : T }.

Definition buzzer_start_f (ms freq : Z) (b : buzzer) : option buzzer :=
  t ← hfPwmSetPeriod freq (timer b);
  Some (mkBuzzer ms (hfPwmStart t)).

Definition buzzer_start (ms : Z) (b : buzzer) : option buzzer := buzzer_start_f ms BUZZER_DEFAULT_TONE b.

Definition set_ms (ms : Z) (b : buzzer) : buzzer := mkBuzzer ms (timer b).

Definition buzzer_update (increment : Z) (b : buzzer) : buzzer :=
  if negb (buzzer_ms b =? 0) then
    let b := set_ms (if increment >=? buzzer_ms b then 0 else buzzer_ms b - increment) b in
    if buzzer_ms b =? 0 then mkBuzzer (buzzer_ms b) (hfPwmStop (timer b)) else b
  else b.

Lemma buzzer_update_cases increment b :
  0 <= increment -> 0 < buzzer_ms b ->
  (increment < buzzer_ms b /\ buzzer_update increment b = set_ms (buzzer_ms b - increment) b) \/
  (buzzer_ms b <= increment /\ buzzer_update increment b = mkBuzzer 0 (hfPwmStop (timer b))).
Proof.
  intros Hi Hb. unfold buzzer_update. rewrite (proj2 (Z.eqb_neq (buzzer_ms b) 0)) by lia. cbn [negb].
  rewrite Z.geb_leb. destruct (Z.leb_spec (buzzer_ms b) increment); [by right|left].
  split; [done|]. cbn [buzzer_ms set_ms]. by rewrite (proj2 (Z.eqb_neq _ 0)) by lia.
Qed.

Lemma buzzer_update_off increment b : buzzer_ms b = 0 -> buzzer_update increment b = b.
Proof. intros Hb. unfold buzzer_update. by rewrite Hb. Qed.

Definition total (increments : list Z) : Z := foldr Z.add 0 increments.

Lemma buzzer_stays_off increments b :
  buzzer_ms b = 0 -> fold_left (fun b i => buzzer_update i b) increments b = b.
Proof.
  intros Hb. induction increments as [|i incs IH]; [done|]. cbn. by rewrite buzzer_update_off.
Qed.

Lemma buzzer_countdown `{!HfPwmOk T} increments b :
  Forall (fun i => 0 <= i) increments -> 0 < buzzer_ms b -> driven (timer b) = true ->
  let b' := fold_left (fun b i => buzzer_update i b) increments b in
  driven (timer b') = (total increments <? buzzer_ms b) /\
  buzzer_ms b' = Z.max 0 (buzzer_ms b - total increments).
Proof.
  intros Hall. revert b. induction Hall as [|i incs Hi Hall IH]; intros b Hb Hon; cbn [fold_left total foldr].
  - rewrite (proj2 (Z.ltb_lt 0 _)) by done. split; [done|lia].
  - change (foldr Z.add 0 incs) with (total incs).
    assert (0 <= total incs) by (clear -Hall; induction Hall; cbn; [done|unfold total in *; lia]).
    destruct (buzzer_update_cases i b Hi Hb) as [[Hlt E] | [Hge E]]; rewrite E.
    + destruct (IH (set_ms (buzzer_ms b - i) b)) as [H1 H2]; [cbn; lia|done|].
      cbn [buzzer_ms set_ms] in *. rewrite H1, H2. split; [|lia].
      destruct (Z.ltb_spec (total incs) (buzzer_ms b - i)); symmetry; [apply Z.ltb_lt|apply Z.ltb_ge]; lia.
    + rewrite buzzer_stays_off by done. cbn [timer buzzer_ms]. rewrite stop_ends. split; [|lia].
      symmetry. apply Z.ltb_ge. lia.
Qed.

(** A start for no time is never ended by the updates. *)
Lemma buzzer_start_zero `{!HfPwmOk T} freq increments b b' :
  buzzer_start_f 0 freq b = Some b' ->
  driven (timer (fold_left (fun b i => buzzer_update i b) increments b')) = true.
Proof.
  unfold buzzer_start_f. destruct (hfPwmSetPeriod freq (timer b)) as [t|]; [|done]. cbn. intros [= <-].
  rewrite buzzer_stays_off by done. apply start_drives.
Qed.
End Buzzer.
#[global] Arguments buzzer T : clear implicits.
