(* ===== verification/BuzzerTimers.v ===== *)
(** * buzzer.c: the timers of the buzzer

    What src/buzzer.c does to timer 4 of the ATmega32U4, with 10 bits and a
    prescaler of 2^0 to 2^14 behind a 48 MHz clock, and to timer C1 of the
    XMEGA, with 16 bits and a prescaler of 64; and that the tone is right. *)

From S2P Require Import Prelude Buzzer.

Abbreviation TIMER4_RESOLUTION := 1023 (only parsing).
Abbreviation PLL_FREQ := 48000000 (only parsing).

(** ** Timer 4 of the ATmega32U4 *)

(** The compare registers are wider than the bus: a write of the low byte takes the bits above it from
    [TC4H] at that moment, two of them for the top [OCR4C], and three for [OCR4D], which in the enhanced
    mode ([ENHC4], set by [initHfPwm]) counts in halves. *)
Record timer4 := mkTimer4 {
  hfPwmPeriod : Z;
  (* the prescaler *)
  TCCR4B : Z;
  TC4H : Z;
  OCR4C : Z;
  OCR4D : Z;
  COM4D0 : bool
}.

Definition set_hfPwmPeriod (x : Z) (t : timer4) : timer4 :=
  mkTimer4 x (TCCR4B t) (TC4H t) (OCR4C t) (OCR4D t) (COM4D0 t).
Definition set_TCCR4B (x : Z) (t : timer4) : timer4 :=
  mkTimer4 (hfPwmPeriod t) (u8 x) (TC4H t) (OCR4C t) (OCR4D t) (COM4D0 t).
Definition set_TC4H (x : Z) (t : timer4) : timer4 :=
  mkTimer4 (hfPwmPeriod t) (TCCR4B t) (u8 x) (OCR4C t) (OCR4D t) (COM4D0 t).
Definition write_OCR4C (x : Z) (t : timer4) : timer4 :=
  mkTimer4 (hfPwmPeriod t) (TCCR4B t) (TC4H t) (256 * (TC4H t mod 4) + u8 x) (OCR4D t) (COM4D0 t).
Definition write_OCR4D (x : Z) (t : timer4) : timer4 :=
  mkTimer4 (hfPwmPeriod t) (TCCR4B t) (TC4H t) (OCR4C t) (256 * (TC4H t mod 8) + u8 x) (COM4D0 t).
Definition set_COM4D0 (x : bool) (t : timer4) : timer4 :=
  mkTimer4 (hfPwmPeriod t) (TCCR4B t) (TC4H t) (OCR4C t) (OCR4D t) x.

Definition hfPwmSetDuty_avr8 (duty : Z) (t : timer4) : timer4 :=
  let dutyCycle := Z.shiftr (u32 (hfPwmPeriod t * duty)) 9 in
  let t := set_TC4H (Z.shiftr dutyCycle 8) t in
  write_OCR4D (Z.land dutyCycle 255) t.

(** The loop from [i] on, [n] more iterations: the new period and clock select bits, if one fits. *)
Fixpoint find_prescaler (i : Z) (n : nat) (cycles : Z) : option (Z * Z) :=
  match n with
  | O => None
  | S n =>
      if cycles <? TIMER4_RESOLUTION * 2 ^ i then Some (cycles / 2 ^ i, i + 1)
      else find_prescaler (i + 1) n cycles
  end.

Definition hfPwmSetPeriod_avr8 (freq : Z) (t : timer4) : option timer4 :=
  if freq =? 0 then None else
  let cycles := PLL_FREQ / 2 / freq in
  let '(period, clockSelectBits) := default (hfPwmPeriod t, 0) (find_prescaler 0 15 cycles) in
  let t := set_hfPwmPeriod period t in
  let t := set_TCCR4B clockSelectBits t in
  let t := set_TC4H (Z.shiftr (hfPwmPeriod t) 8) t in
  let t := write_OCR4C (hfPwmPeriod t) t in
  Some (hfPwmSetDuty_avr8 ((TIMER4_RESOLUTION + 1) / 2) t).

#[global] Instance timer4_pwm : HfPwm timer4 := {
  hfPwmStart := set_COM4D0 true;
  hfPwmStop := set_COM4D0 false;
  hfPwmSetPeriod := hfPwmSetPeriod_avr8;
  driven := COM4D0
}.
#[global] Instance timer4_pwm_ok : HfPwmOk timer4.
Proof. by split. Qed.

(** The loop takes the smallest prescaler with which the period fits. *)
Lemma find_prescaler_spec i n cycles :
  0 <= i -> 0 <= cycles < TIMER4_RESOLUTION * 2 ^ (i + Z.of_nat n - 1) -> (0 < n)%nat ->
  exists j, find_prescaler i n cycles = Some (cycles / 2 ^ j, j + 1) /\
    i <= j < i + Z.of_nat n /\ cycles < TIMER4_RESOLUTION * 2 ^ j /\
    (j = i \/ TIMER4_RESOLUTION * 2 ^ (j - 1) <= cycles).
Proof.
  revert i. induction n as [|n IH]; intros i Hi Hc Hn; [lia|]. cbn [find_prescaler]. case_if.
  - exists i. split_and!; [done|lia|lia|lia|by left].
  - destruct n as [|n].
    { replace (i + Z.of_nat 1 - 1) with i in Hc by lia. lia. }
    destruct (IH (i + 1)) as (j & E & Hj & Hf & Hm); [lia| |lia|].
    { replace (i + 1 + Z.of_nat (S n) - 1) with (i + Z.of_nat (S (S n)) - 1) by lia. lia. }
    exists j. split_and!; [done|lia|lia|done|]. right.
    destruct Hm as [->|Hm]; [by rewrite Z.add_simpl_r|done].
Qed.

(** ** Timer C1 of the XMEGA *)

Abbreviation F_CPU := 32000000 (only parsing).

(** [CTRLA]: whether its clock is on. *)
Record tcc1 := mkTcc1 { PER : Z; CCA : Z; CTRLA : bool }.

Definition hfPwmSetDuty_xmega (duty : Z) (t : tcc1) : tcc1 := mkTcc1 (PER t) (u16 duty) (CTRLA t).

Definition hfPwmSetPeriod_xmega (freq : Z) (t : tcc1) : option tcc1 :=
  if freq =? 0 then None else
  let period := F_CPU / 2 / 64 / freq in
  Some (hfPwmSetDuty_xmega (period / 2) (mkTcc1 (u16 period) (CCA t) (CTRLA t))).

#[global] Instance tcc1_pwm : HfPwm tcc1 := {
  hfPwmStart t := mkTcc1 (PER t) (CCA t) true;
  hfPwmStop t := mkTcc1 (PER t) (CCA t) false;
  hfPwmSetPeriod := hfPwmSetPeriod_xmega;
  driven := CTRLA
}.
#[global] Instance tcc1_pwm_ok : HfPwmOk tcc1.
Proof. by split. Qed.

(** The period fits the 16 bits from 4 Hz on. *)
Lemma xmega_period_spec freq t :
  4 <= freq < 256 ->
  exists t', hfPwmSetPeriod_xmega freq t = Some t' /\ 976 <= PER t' < 65536 /\
    PER t' * freq <= 250000 < (PER t' + 1) * freq /\ CCA t' = PER t' / 2.
Proof.
  intros Hf. unfold hfPwmSetPeriod_xmega. rewrite (proj2 (Z.eqb_neq freq 0)) by lia.
  change (F_CPU / 2 / 64) with 250000. set (p := 250000 / freq).
  assert (Hp : 976 <= p <= 62500) by (subst p; split; [apply Z.div_le_lower_bound; lia|apply Z.div_le_upper_bound; lia]).
  eexists. split; [reflexivity|]. cbn [PER CCA hfPwmSetDuty_xmega]. rewrite !u16_small by (unfold is_u16; dlia).
  pose proof (Z.div_mod 250000 freq ltac:(lia)). pose proof (Z.mod_pos_bound 250000 freq ltac:(lia)).
  fold p in H. split_and!; lia.
Qed.
(** ** The property *)

Lemma start_timer {T} {P : HfPwm T} ms freq b t :
  hfPwmSetPeriod freq (timer b) = Some t -> buzzer_start_f ms freq b = Some (mkBuzzer ms (hfPwmStart t)).
Proof. intros E. unfold buzzer_start_f. by rewrite E. Qed.

(** What the two writes put into a wide register. *)
Lemma latched x n : 0 <= x < 1024 -> 4 <= n -> n <= 256 -> 256 * (u8 (Z.shiftr x 8) mod n) + u8 x = x.
Proof.
  intros Hx Hn Hn2. rewrite Z.shiftr_div_pow2 by lia. change (2 ^ 8) with 256.
  rewrite (u8_small (x / 256)) by (unfold is_u8; dlia). rewrite Z.mod_small by dlia. unfold u8. dlia.
Qed.

(** The period on the ATmega. *)
Lemma avr8_period_spec freq t :
  2 <= freq < 256 ->
  exists t' j, hfPwmSetPeriod_avr8 freq t = Some t' /\
    TCCR4B t' = j + 1 /\ 0 <= j <= 14 /\ 511 <= OCR4C t' < 1023 /\
    OCR4C t' * 2 ^ j <= 24000000 / freq < (OCR4C t' + 1) * 2 ^ j /\
    OCR4D t' = OCR4C t' /\ COM4D0 t' = COM4D0 t.
Proof.
  intros Hf. unfold hfPwmSetPeriod_avr8. rewrite (proj2 (Z.eqb_neq freq 0)) by lia.
  change (PLL_FREQ / 2) with 24000000. set (cycles := 24000000 / freq).
  assert (Hc : 1023 <= cycles < 1023 * 2 ^ 14) by (subst cycles; change (2 ^ 14) with 16384; split;
    [apply Z.div_le_lower_bound; lia|apply Z.div_lt_upper_bound; lia]).
  destruct (find_prescaler_spec 0 15 cycles) as (j & E & Hj & Hfit & Hmin);
    [lia|change (0 + Z.of_nat 15 - 1) with 14; lia|lia|].
  rewrite E. cbn [default].
  assert (Hpos : 0 < 2 ^ j) by (apply Z.pow_pos_nonneg; lia).
  assert (Hp : cycles / 2 ^ j < 1023) by (apply Z.div_lt_upper_bound; lia).
  assert (Hp2 : 511 <= cycles / 2 ^ j).
  { apply Z.div_le_lower_bound; [done|]. destruct Hmin as [->|Hmin]; [lia|].
    assert (j <> 0) by (intros ->; change (2 ^ 0) with 1 in *; lia).
    replace (2 ^ j) with (2 * 2 ^ (j - 1)) by (rewrite <- Z.pow_succ_r by lia; f_equal; lia). lia. }
  pose proof (Z.div_mod cycles (2 ^ j) ltac:(lia)) as Hdm. pose proof (Z.mod_pos_bound cycles (2 ^ j) Hpos).
  eexists _, j. split; [reflexivity|]. unfold hfPwmSetDuty_avr8.
  cbn [set_hfPwmPeriod set_TCCR4B set_TC4H write_OCR4C write_OCR4D TCCR4B hfPwmPeriod TC4H OCR4C OCR4D COM4D0].
  set (p := cycles / 2 ^ j) in *.
  assert (Hduty : Z.shiftr (u32 (p * ((TIMER4_RESOLUTION + 1) / 2))) 9 = p).
  { unfold u32. change ((1023 + 1) / 2) with 512. rewrite Z.mod_small by lia. rewrite Z.shiftr_div_pow2 by lia.
    change (2 ^ 9) with 512. by rewrite Z.div_mul by lia. }
  rewrite Hduty, !(latched p) by lia. change 255 with (Z.ones 8). rewrite Z.land_ones by lia.
  change (p mod 2 ^ 8) with (u8 p). rewrite (u8_small (u8 p)) by apply u8_range. rewrite (latched p) by lia.
  rewrite (u8_small (j + 1)) by (unfold is_u8; lia). split_and!; (done || lia).
Qed.

(** C39: The buzzer sounds for the given time at the given frequency, a byte, in Hz, from 4 on. On the
    ATmega the timer gets the smallest prescaler with which the period has 10 bits; the top it
    counts to, as latched with its upper bits, and the prescaler give the frequency with an error of
    less than one count of at least 511, and the compare value, in half counts, half of the period.
    On the XMEGA the period is less than one count of at least 976 off, at half duty. On both the pin
    is driven until the updates have counted the milliseconds, and not any longer. (The comment of
    buzzer.h:51 gives a tone x the frequency 1/(x * 4e-6) Hz, 2273 Hz for the default tone; the code
    takes x for the frequency.) *)
Theorem buzzer_sounds (ms freq : Z) (increments : list Z) (b : buzzer timer4) (bx : buzzer tcc1) :
  4 <= freq < 256 -> 0 < ms < 65536 -> Forall is_u8 increments ->
  (exists t j, buzzer_start_f ms freq b = Some (mkBuzzer ms (hfPwmStart t)) /\
    TCCR4B t = j + 1 /\ 0 <= j <= 14 /\ 511 <= OCR4C t < 1023 /\
    OCR4C t * 2 ^ j <= 24000000 / freq < (OCR4C t + 1) * 2 ^ j /\ OCR4D t = OCR4C t /\
    driven (timer (fold_left (fun b i => buzzer_update i b) increments (mkBuzzer ms (hfPwmStart t)))) = (total increments <? ms)) /\
  (exists t, buzzer_start_f ms freq bx = Some (mkBuzzer ms (hfPwmStart t)) /\
    976 <= PER t < 65536 /\ PER t * freq <= 250000 < (PER t + 1) * freq /\
    CCA t = PER t / 2 /\
    driven (timer (fold_left (fun b i => buzzer_update i b) increments (mkBuzzer ms (hfPwmStart t)))) = (total increments <? ms)).
Proof.
  intros Hf Hms Hall.
  assert (Hpos : Forall (fun i => 0 <= i) increments) by (eapply Forall_impl; [exact Hall|]; unfold is_u8; lia).
  split.
  - destruct (avr8_period_spec freq (timer b)) as (t & j & E & Hs); [lia|]. exists t, j.
    split; [by apply start_timer|]. destruct Hs as (? & ? & ? & ? & ? & ?). split_and!; try done; try lia.
    apply (buzzer_countdown increments (mkBuzzer ms (hfPwmStart t))); [done|cbn; lia|apply start_drives].
  - destruct (xmega_period_spec freq (timer bx) Hf) as (t & E & Hs). exists t.
    split; [by apply start_timer|]. destruct Hs as (? & ? & ?). split_and!; try done; try lia.
    apply (buzzer_countdown increments (mkBuzzer ms (hfPwmStart t))); [done|cbn; lia|apply start_drives].
Qed.

Lemma buzzer_sounds_witness :
  exists t, buzzer_start_f 100 110 (mkBuzzer 0 (mkTcc1 0 0 false)) = Some (mkBuzzer 100 (hfPwmStart t)) /\
    PER t = 2272 /\
    driven (timer (fold_left (fun b i => buzzer_update i b) [40;40;20;5] (mkBuzzer 100 (hfPwmStart t)))) = false.
Proof.
  assert (Hall : Forall is_u8 [40;40;20;5]) by (repeat (apply Forall_cons; split; [vm_compute; split; congruence|]); by apply Forall_nil).
  destruct (buzzer_sounds 100 110 [40;40;20;5] (mkBuzzer 0 (mkTimer4 0 0 0 0 0 false)) (mkBuzzer 0 (mkTcc1 0 0 false))
    ltac:(lia) ltac:(lia) Hall) as [_ (t & E & _ & Hp & _ & Hd)].
  exists t. split; [exact E|]. split; [lia|exact Hd].
Defined.
