(* ===== verification/Keyboard.v ===== *)
(** * Keyboard.c: the main state machine

    The state machine of src/Keyboard.c over the components: the key state, the
    configuration, the macros, the interpreter, the message printing.  One
    [keyboard] record holds the file's static variables, the locals of
    [Keyboard_Main] that live across iterations, and the states of the
    components.  The parts of the program meet here: the configuration gives
    the key state its key map, the change hook of the key state records
    macros, messages of the configuration go to the print buffer, the
    interpreter asks for keys and time.  The calls to the hardware (buzzer,
    LEDs, LCD, reboot) are recorded in order in [kb_out].  Time and the reports
    asked for by the host come between the iterations of the main loop, as the
    inputs [kbd_input] lists.  [None] is undefined behaviour of the
    interpreter. *)

From Stdlib Require Import String.
From S2P Require Import Prelude Sort Hid ExtraReport Printing Hardware Keystate KeystateReports MacroIndex.
From S2P Require Import Storage Macro Config Interpreter.
Open Scope Z_scope.

(** ** State *)

Inductive kstate :=
  | STATE_NORMAL
  | STATE_WAITING
  | STATE_PRINTING
  | STATE_PROGRAMMING_SRC
  | STATE_PROGRAMMING_DST
  | STATE_MACRO_RECORD_TRIGGER
  | STATE_MACRO_RECORD
  | STATE_MERGING_MACRO_PLAY
  | STATE_MACRO_PLAY.

#[export] Instance kstate_eq_dec : EqDecision kstate.
Proof. solve_decision. Defined.

(** The calls to the hardware. *)
Inductive kbd_event :=
  | Buzz (ms tone : Z)
  | BuzzDefault (ms : Z)
  | ShowNumber (n : Z)
  | ClearNumber
  | SetLeds (mask : Z)
  | Reboot.

(** The variables of the state machine itself; [trigger_key] and [last_count]
    are those of [handle_state_macro_record_trigger]. *)
Record ui_state := mkUI {
  current_state : kstate;
  next_state : kstate;
  wait_key_press_count : Z;
  in_prg_chord_with_lcd_info : bool;
  new_debounce_len : Z;
  new_mouse_div : Z;
  new_wheel_div : Z;
  program_src_hkey : Z;
  trigger_key : list Z;
  last_count : Z;
  recording_macro : bool;
  prev_key_press_counter : Z;
  lcd_number_expire_time : Z;
  update_keys : bool
}.

(** The initial values. [lcd_number_expire_time] is [~0u], which is 16 bits wide here, 65535 ms (the source means never). *)
Definition ui_start : ui_state :=
  mkUI STATE_NORMAL STATE_NORMAL 0 false 0 0 0 0 (replicate MACRO_MAX_KEYS 0) 0 false 0 0xffff false.

Definition ui_current_state (x : kstate) (u : ui_state) : ui_state :=
  mkUI x (next_state u) (wait_key_press_count u) (in_prg_chord_with_lcd_info u) (new_debounce_len u)
  (new_mouse_div u) (new_wheel_div u) (program_src_hkey u) (trigger_key u) (last_count u)
  (recording_macro u) (prev_key_press_counter u) (lcd_number_expire_time u) (update_keys u).
Definition ui_next_state (x : kstate) (u : ui_state) : ui_state :=
  mkUI (current_state u) x (wait_key_press_count u) (in_prg_chord_with_lcd_info u) (new_debounce_len u)
  (new_mouse_div u) (new_wheel_div u) (program_src_hkey u) (trigger_key u) (last_count u)
  (recording_macro u) (prev_key_press_counter u) (lcd_number_expire_time u) (update_keys u).
Definition ui_wait_key_press_count (x : Z) (u : ui_state) : ui_state :=
  mkUI (current_state u) (next_state u) x (in_prg_chord_with_lcd_info u) (new_debounce_len u)
  (new_mouse_div u) (new_wheel_div u) (program_src_hkey u) (trigger_key u) (last_count u)
  (recording_macro u) (prev_key_press_counter u) (lcd_number_expire_time u) (update_keys u).
Definition ui_in_prg_chord_with_lcd_info (x : bool) (u : ui_state) : ui_state :=
  mkUI (current_state u) (next_state u) (wait_key_press_count u) x (new_debounce_len u)
  (new_mouse_div u) (new_wheel_div u) (program_src_hkey u) (trigger_key u) (last_count u)
  (recording_macro u) (prev_key_press_counter u) (lcd_number_expire_time u) (update_keys u).
Definition ui_new_debounce_len (x : Z) (u : ui_state) : ui_state :=
  mkUI (current_state u) (next_state u) (wait_key_press_count u) (in_prg_chord_with_lcd_info u) x
  (new_mouse_div u) (new_wheel_div u) (program_src_hkey u) (trigger_key u) (last_count u)
  (recording_macro u) (prev_key_press_counter u) (lcd_number_expire_time u) (update_keys u).
Definition ui_new_mouse_div (x : Z) (u : ui_state) : ui_state :=
  mkUI (current_state u) (next_state u) (wait_key_press_count u) (in_prg_chord_with_lcd_info u)
  (new_debounce_len u) x (new_wheel_div u) (program_src_hkey u) (trigger_key u) (last_count u)
  (recording_macro u) (prev_key_press_counter u) (lcd_number_expire_time u) (update_keys u).
Definition ui_new_wheel_div (x : Z) (u : ui_state) : ui_state :=
  mkUI (current_state u) (next_state u) (wait_key_press_count u) (in_prg_chord_with_lcd_info u)
  (new_debounce_len u) (new_mouse_div u) x (program_src_hkey u) (trigger_key u) (last_count u)
  (recording_macro u) (prev_key_press_counter u) (lcd_number_expire_time u) (update_keys u).
Definition ui_program_src_hkey (x : Z) (u : ui_state) : ui_state :=
  mkUI (current_state u) (next_state u) (wait_key_press_count u) (in_prg_chord_with_lcd_info u)
  (new_debounce_len u) (new_mouse_div u) (new_wheel_div u) x (trigger_key u) (last_count u)
  (recording_macro u) (prev_key_press_counter u) (lcd_number_expire_time u) (update_keys u).
Definition ui_trigger_key (x : list Z) (u : ui_state) : ui_state :=
  mkUI (current_state u) (next_state u) (wait_key_press_count u) (in_prg_chord_with_lcd_info u)
  (new_debounce_len u) (new_mouse_div u) (new_wheel_div u) (program_src_hkey u) x (last_count u)
  (recording_macro u) (prev_key_press_counter u) (lcd_number_expire_time u) (update_keys u).
Definition ui_last_count (x : Z) (u : ui_state) : ui_state :=
  mkUI (current_state u) (next_state u) (wait_key_press_count u) (in_prg_chord_with_lcd_info u)
  (new_debounce_len u) (new_mouse_div u) (new_wheel_div u) (program_src_hkey u) (trigger_key u) x
  (recording_macro u) (prev_key_press_counter u) (lcd_number_expire_time u) (update_keys u).
Definition ui_recording_macro (x : bool) (u : ui_state) : ui_state :=
  mkUI (current_state u) (next_state u) (wait_key_press_count u) (in_prg_chord_with_lcd_info u)
  (new_debounce_len u) (new_mouse_div u) (new_wheel_div u) (program_src_hkey u) (trigger_key u)
  (last_count u) x (prev_key_press_counter u) (lcd_number_expire_time u) (update_keys u).
Definition ui_prev_key_press_counter (x : Z) (u : ui_state) : ui_state :=
  mkUI (current_state u) (next_state u) (wait_key_press_count u) (in_prg_chord_with_lcd_info u)
  (new_debounce_len u) (new_mouse_div u) (new_wheel_div u) (program_src_hkey u) (trigger_key u)
  (last_count u) (recording_macro u) x (lcd_number_expire_time u) (update_keys u).
Definition ui_lcd_number_expire_time (x : Z) (u : ui_state) : ui_state :=
  mkUI (current_state u) (next_state u) (wait_key_press_count u) (in_prg_chord_with_lcd_info u)
  (new_debounce_len u) (new_mouse_div u) (new_wheel_div u) (program_src_hkey u) (trigger_key u)
  (last_count u) (recording_macro u) (prev_key_press_counter u) x (update_keys u).
Definition ui_update_keys (x : bool) (u : ui_state) : ui_state :=
  mkUI (current_state u) (next_state u) (wait_key_press_count u) (in_prg_chord_with_lcd_info u)
  (new_debounce_len u) (new_mouse_div u) (new_wheel_div u) (program_src_hkey u) (trigger_key u)
  (last_count u) (recording_macro u) (prev_key_press_counter u) (lcd_number_expire_time u) x.

(** The LED masks of a variant, [LEDMASK_SCROLLLOCK] where it is defined, and
    whether the LEDs show the host's report in every state
    ([HARDWARE_VARIANT >= K80CS]). *)
Class Leds := {
  LEDMASK_KEYPAD : Z;
  LEDMASK_FUNCTION : Z;
  LEDMASK_CAPS : Z;
  LEDMASK_NUMLOCK : Z;
  LEDMASK_SCROLLLOCK : option Z;
  LEDMASK_PROGRAMMING_SRC : Z;
  LEDMASK_PROGRAMMING_DST : Z;
  LEDMASK_MACRO_TRIGGER : Z;
  LEDMASK_MACRO_RECORD : Z;
  LEDMASK_MACROS_ENABLED : Z;
  LEDMASK_PROGRAMS_ENABLED : Z;
  LEDMASK_USB_NOTREADY : Z;
  LEDMASK_USB_ENUMERATING : Z;
  LEDMASK_USB_READY : Z;
  LEDMASK_USB_ERROR : Z;
  leds_always_show_report : bool
}.

Section Keyboard.
Context {H : Hardware} {K : HotKeys} {L : Leds} {M : Type} {St : Storage M}.
(** What lies behind the arrays of config.c, where the macros are, the default macros. *)
Context (outside outside_default : Z -> Z) (macros_storage : Z) (macro_def_infos : list macro_def_info).
(** Where the programs are in the eeprom, the addresses of the stacks of the
    machines, the error code of a failed read. *)
Context (program_addr : Z) (vms_addr : nat -> Z) (storage_errno : Z).
(** The addresses of constant messages, and the memories messages are in. *)
Context (CONST_MSG : string -> Z) (CONSTANT_STORAGE : storage_type) (sram_read_byte avr_pgm_read_byte : Z -> Z).

Record keyboard := mkKeyboard {
  kb_keys : keystate;
  kb_config : config_state;
  kb_macros : macro_state (M:=M);
  kb_vms : list vmstate;
  kb_print : printing;
  prev_report : KeyboardReport_Data_t;
  kb_ui : ui_state;
  _uptimems : Z;
  USB_LEDReport : Z;
  kb_out : list kbd_event
}.

Definition set_keys (x : keystate) (k : keyboard) : keyboard :=
  mkKeyboard x (kb_config k) (kb_macros k) (kb_vms k) (kb_print k) (prev_report k) (kb_ui k)
  (_uptimems k) (USB_LEDReport k) (kb_out k).
Definition set_config (x : config_state) (k : keyboard) : keyboard :=
  mkKeyboard (kb_keys k) x (kb_macros k) (kb_vms k) (kb_print k) (prev_report k) (kb_ui k) (_uptimems k)
  (USB_LEDReport k) (kb_out k).
Definition set_macros (x : macro_state (M:=M)) (k : keyboard) : keyboard :=
  mkKeyboard (kb_keys k) (kb_config k) x (kb_vms k) (kb_print k) (prev_report k) (kb_ui k) (_uptimems k)
  (USB_LEDReport k) (kb_out k).
Definition set_vms (x : list vmstate) (k : keyboard) : keyboard :=
  mkKeyboard (kb_keys k) (kb_config k) (kb_macros k) x (kb_print k) (prev_report k) (kb_ui k)
  (_uptimems k) (USB_LEDReport k) (kb_out k).
Definition set_print (x : printing) (k : keyboard) : keyboard :=
  mkKeyboard (kb_keys k) (kb_config k) (kb_macros k) (kb_vms k) x (prev_report k) (kb_ui k)
  (_uptimems k) (USB_LEDReport k) (kb_out k).
Definition set_prev_report (x : KeyboardReport_Data_t) (k : keyboard) : keyboard :=
  mkKeyboard (kb_keys k) (kb_config k) (kb_macros k) (kb_vms k) (kb_print k) x (kb_ui k) (_uptimems k)
  (USB_LEDReport k) (kb_out k).
Definition set_ui (x : ui_state) (k : keyboard) : keyboard :=
  mkKeyboard (kb_keys k) (kb_config k) (kb_macros k) (kb_vms k) (kb_print k) (prev_report k) x
  (_uptimems k) (USB_LEDReport k) (kb_out k).
Definition set_uptimems (x : Z) (k : keyboard) : keyboard :=
  mkKeyboard (kb_keys k) (kb_config k) (kb_macros k) (kb_vms k) (kb_print k) (prev_report k) (kb_ui k) x
  (USB_LEDReport k) (kb_out k).
Definition set_led_report (x : Z) (k : keyboard) : keyboard :=
  mkKeyboard (kb_keys k) (kb_config k) (kb_macros k) (kb_vms k) (kb_print k) (prev_report k) (kb_ui k)
  (_uptimems k) x (kb_out k).
Definition set_out (x : list kbd_event) (k : keyboard) : keyboard :=
  mkKeyboard (kb_keys k) (kb_config k) (kb_macros k) (kb_vms k) (kb_print k) (prev_report k) (kb_ui k)
  (_uptimems k) (USB_LEDReport k) x.

Definition emit (e : kbd_event) (k : keyboard) : keyboard := set_out (kb_out k ++ [e]) k.
Definition on_ui (f : ui_state -> ui_state) (k : keyboard) : keyboard := set_ui (f (kb_ui k)) k.

(** [current_state = cur; next_state = next] *)
Definition goto_state (cur next : kstate) (k : keyboard) : keyboard :=
  on_ui (fun u => ui_next_state next (ui_current_state cur u)) k.

Definition press_count (k : keyboard) : Z := key_press_count (kb_keys k).
Definition view (k : keyboard) : config_view := view_of outside (kb_config k).
Definition definition (l_key : Z) (k : keyboard) : Z := Config.config_get_definition outside l_key (kb_config k).

(** ** Calls of the components, with their calls of the hardware *)

Definition config_call (e : config_event) (k : keyboard) : keyboard :=
  match e with
  | ConfigBuzzer ms tone => emit (Buzz ms tone) k
  | ConfigMessage msg => set_print (printing_set_buffer (CONST_MSG msg) CONSTANT_STORAGE) k
  end.

Definition no_config_out (c : config_state) : config_state :=
  mkConfig (eeprom_sentinel_byte c) (eeprom_flags c) (debounce_len c) (mouse_div c) (wheel_div c)
    (logical_to_hid_map c) (saved_key_mapping_indices c) (saved_key_mappings c) (programs c) [].
Definition no_buzzes (m : macro_state (M:=M)) : macro_state :=
  mkMacro (storage m) (macro_index m) (recording_state m) (playback_state m) [].

Definition run_config {A} (f : config_state -> A * config_state) (k : keyboard) : A * keyboard :=
  let '(a, c) := f (kb_config k) in
  (a, fold_left (fun k e => config_call e k) (config_out c) (set_config (no_config_out c) k)).
Definition run_config_ (f : config_state -> config_state) (k : keyboard) : keyboard :=
  (run_config (fun c => (tt, f c)) k).2.

Definition run_macros {A} (f : macro_state -> A * macro_state) (k : keyboard) : A * keyboard :=
  let '(a, m) := f (kb_macros k) in
  (a, set_out (kb_out k ++ map (fun b => Buzz b.1 b.2) (buzzes m)) (set_macros (no_buzzes m) k)).
Definition run_macros_ (f : macro_state -> macro_state) (k : keyboard) : keyboard :=
  (run_macros (fun m => (tt, f m)) k).2.

(** The full reset works on the configuration and on the macros. *)
Definition run_reset (k : keyboard) : keyboard :=
  let '(c, m) := config_reset_fully macros_storage macro_def_infos (kb_config k, kb_macros k) in
  let k := set_macros (no_buzzes m) (set_config (no_config_out c) k) in
  fold_left (fun k e => config_call e k) (config_out c) k.

(** ** Recording: the change hook *)

(** [macro_record_hook]; [s] is the key state at the call. *)
Definition macro_record_hook (s : keystate) (key : Z) (press : bool) (k : keyboard) : keyboard :=
  if keystate_check_key (view k) SPECIAL_HID_KEY_PROGRAM HID s then k
  else
    let h_key := definition key k in
    if h_key >=? SPECIAL_HID_KEYS_START then k
    else
      let '(success, k) := run_macros (macros_append h_key) k in
      if negb success then
        let k := on_ui (ui_recording_macro false) k in
        let k := set_keys (keystate_register_change_hook false (kb_keys k)) k in
        let k := emit (Buzz 200 BUZZER_FAILURE_TONE) k in
        let k := run_macros_ macros_abort_macro k in
        goto_state STATE_WAITING STATE_NORMAL k
      else k.

Definition no_out (s : keystate) : keystate :=
  mkKeystate (key_states s) (key_press_count s) (key_press_counter s) (prev_layer s) (layer s)
    (hook_registered s) (debounce s) (mouse s) [].

(** A call out of the key state; the hook may have been unregistered meanwhile. *)
Definition keys_call (s : keystate) (k : keyboard) (e : ks_event) : keyboard :=
  match e with
  | KeyChange key press =>
      if hook_registered (kb_keys k) then macro_record_hook s key press k else k
  | BuzzerStart ms => emit (BuzzDefault ms) k
  | BuzzerStartF ms tone => emit (Buzz ms tone) k
  end.

(** Runs a part of keystate.c and its calls; those of the hook see the state [s], and what they
    change stays. *)
Definition run_keys (f : keystate -> keystate) (k : keyboard) : keyboard :=
  let s := kb_keys k in
  let s' := f s in
  fold_left (keys_call s) (out s') (set_keys (no_out s') k).

(** [keystate_update] with the hook's calls where they happen, in the notification loop. *)
Definition keyboard_update (matrix : nat -> nat -> bool) (k : keyboard) : keyboard :=
  let v := view k in
  let k := run_keys (scan_keys v matrix) k in
  let changed := layer_changed (kb_keys k) in
  let k := for_range 0 KEYSTATE_COUNT (fun j => run_keys (notify_step v changed j)) k in
  set_keys (set_prev_layer (layer (kb_keys k)) (kb_keys k)) k.

(** ** handle_state_normal *)

(** Keys written to the start of a buffer. *)
Definition put_keys (ks buf : list Z) : list Z := ks ++ drop (length ks) buf.

Fixpoint first_main_key (ks : list Z) (k : keyboard) : option Z :=
  match ks with
  | [] => None
  | l :: ks =>
      if NO_KEY =? l then None
      else if definition l k <? HID_KEYBOARD_SC_LEFT_CONTROL then Some l else first_main_key ks k
  end.

Definition select_main_trigger_key (macro_key : list Z) (k : keyboard) : Z :=
  match first_main_key (take MACRO_MAX_KEYS macro_key) k with
  | Some l => l
  | None => macro_key !!! 0%nat
  end.

(** The command for setting a number, here for the debounce length, the mouse and the wheel
    divisors: [get] and [set] are the new value, [current] the saved one. *)
Definition setup_number (get : ui_state -> Z) (set : Z -> ui_state -> ui_state) (current : Z) (up : bool)
    (lowest highest : Z) (k : keyboard) : keyboard :=
  let u := kb_ui k in
  if in_prg_chord_with_lcd_info u && (get u =? 0) then k
  else
    let x :=
      if negb (in_prg_chord_with_lcd_info u) then current
      else if up then (if get u <? highest then get u + 1 else get u)
      else (if get u >? lowest then get u - 1 else get u) in
    let k := emit (ShowNumber x) (on_ui (set x) k) in
    let k := on_ui (fun u => ui_wait_key_press_count 2 (ui_in_prg_chord_with_lcd_info true u)) k in
    goto_state STATE_WAITING STATE_NORMAL k.

Definition toggle_macros (k : keyboard) : keyboard :=
  let flags := config_get_flags (kb_config k) in
  let flags :=
    if programs_enabled flags then mkFlags (key_sound_enabled flags) false false (packing flags)
    else if macros_enabled flags then mkFlags (key_sound_enabled flags) (macros_enabled flags) true (packing flags)
    else mkFlags (key_sound_enabled flags) true (programs_enabled flags) (packing flags) in
  let k := run_config_ (config_save_flags flags) k in
  emit (Buzz 100 (if macros_enabled flags then BUZZER_ON_TONE else BUZZER_OFF_TONE)) k.

Definition toggle_sound (k : keyboard) : keyboard :=
  let flags := config_get_flags (kb_config k) in
  let flags := mkFlags (negb (key_sound_enabled flags)) (macros_enabled flags) (programs_enabled flags)
                 (packing flags) in
  let k := run_config_ (config_save_flags flags) k in
  emit (Buzz 100 (if key_sound_enabled flags then BUZZER_ON_TONE else BUZZER_OFF_TONE)) k.

(** The commands of two keys; [None]: not a command. The reboot does not return. *)
Definition command2 (hkey : Z) (k : keyboard) : option keyboard :=
  let u := kb_ui k in
  let c := kb_config k in
  if hkey =? SPECIAL_HKEY_MACRO_RECORD then Some (goto_state STATE_WAITING STATE_MACRO_RECORD_TRIGGER k)
  else if hkey =? SPECIAL_HKEY_REMAP then Some (goto_state STATE_WAITING STATE_PROGRAMMING_SRC k)
  else if hkey =? SPECIAL_HKEY_REBOOT then Some (emit Reboot k)
  else if hkey =? SPECIAL_HKEY_MACROS_ENABLE then
    Some (goto_state STATE_WAITING STATE_NORMAL (toggle_macros k))
  else if hkey =? SPECIAL_HKEY_RESET_CONFIG then
    Some (goto_state STATE_WAITING STATE_NORMAL (run_config_ config_reset_defaults k))
  else if hkey =? SPECIAL_HKEY_TOGGLE_BUZZER then
    Some (goto_state STATE_WAITING STATE_NORMAL (toggle_sound k))
  else if hkey =? SPECIAL_HKEY_DEBOUNCE_UP then
    Some (setup_number new_debounce_len ui_new_debounce_len (config_get_debounce_len c) true 2 (Z.of_nat MAX_DEBOUNCE_LEN) k)
  else if hkey =? SPECIAL_HKEY_DEBOUNCE_DW then
    Some (setup_number new_debounce_len ui_new_debounce_len (config_get_debounce_len c) false 2 (Z.of_nat MAX_DEBOUNCE_LEN) k)
  else if hkey =? SPECIAL_HKEY_MOUSE_DIV_UP then
    Some (setup_number new_mouse_div ui_new_mouse_div (config_get_mouse_div c) true 1 254 k)
  else if hkey =? SPECIAL_HKEY_MOUSE_DIV_DW then
    Some (setup_number new_mouse_div ui_new_mouse_div (config_get_mouse_div c) false 1 254 k)
  else if hkey =? SPECIAL_HKEY_WHEEL_DIV_UP then
    Some (setup_number new_wheel_div ui_new_wheel_div (config_get_wheel_div c) true 1 254 k)
  else if hkey =? SPECIAL_HKEY_WHEEL_DIV_DW then
    Some (setup_number new_wheel_div ui_new_wheel_div (config_get_wheel_div c) false 1 254 k)
  else None.

Definition RESET_CONFIG_POS : nat :=
  if SPECIAL_HKEY_RESET_CONFIG <? SPECIAL_HKEY_RESET_FULLY then 0%nat else 1%nat.

(** The commands of three keys, sorted: [k0], [k1] and the program key. *)
Definition command3 (hid_keys : list Z) (k : keyboard) : option keyboard :=
  if (hid_keys !!! RESET_CONFIG_POS =? SPECIAL_HKEY_RESET_CONFIG)
     && (hid_keys !!! (1 - RESET_CONFIG_POS)%nat =? SPECIAL_HKEY_RESET_FULLY)
  then Some (goto_state STATE_WAITING STATE_NORMAL (run_reset k))
  else
    let k0 := hid_keys !!! 0%nat in
    let k1 := hid_keys !!! 1%nat in
    if (k1 >=? HID_KEYBOARD_SC_1_AND_EXCLAMATION)
       && (k1 <=? HID_KEYBOARD_SC_1_AND_EXCLAMATION + NUM_KEY_MAPPING_INDICES) then
      let index := k1 - HID_KEYBOARD_SC_1_AND_EXCLAMATION in
      let finish '(success, k) :=
        if success : bool
        then goto_state STATE_WAITING STATE_NORMAL (emit (Buzz 200 BUZZER_SUCCESS_TONE) k)
        else goto_state STATE_PRINTING STATE_NORMAL (emit (Buzz 200 BUZZER_FAILURE_TONE) k) in
      if k0 =? SPECIAL_HKEY_CONFIG_SAVE then Some (finish (run_config (config_save_layout index) k))
      else if k0 =? SPECIAL_HKEY_CONFIG_LOAD then Some (finish (run_config (config_load_layout index) k))
      else if k0 =? SPECIAL_HKEY_CONFIG_DELETE then Some (finish (run_config (config_delete_layout index) k))
      else None
    else None.

Definition command (macro_key : list Z) (k : keyboard) : option keyboard :=
  let n := Z.to_nat (press_count k) in
  if (2 <=? n)%nat && (n <=? 3)%nat then
    let hid_keys := insertionsort_uint8 (map (fun l => definition l k) (take n macro_key)) n in
    if hid_keys !!! (n - 1)%nat =? SPECIAL_HID_KEY_PROGRAM then
      if (n =? 2)%nat then command2 (hid_keys !!! 0%nat) k else command3 hid_keys k
    else None
  else None.

(** *** Macro and program triggers *)

(** The programs in the eeprom, as the interpreter reads them. *)
Definition program_medium (c : config_state) : mem := fun a =>
  match programs c !! Z.to_nat (a - program_addr) with Some b => b | None => outside a end.

(** The key and the entry it triggers, and whether it is a combination of several keys. *)
Definition find_trigger (macro_key : list Z) (k : keyboard) : option (list Z * nat * bool) :=
  let n := Z.to_nat (press_count k) in
  let '(valid, macro_key) := macro_idx_format_key macro_key n in
  if negb valid then None
  else
    match macro_idx_lookup macro_key (macro_index (kb_macros k)) with
    | Some h => Some (macro_key, h, (1 <? n)%nat)
    | None =>
        if (1 <? n)%nat then
          let macro_key := <[0%nat := select_main_trigger_key macro_key k]> macro_key in
          let macro_key := for_range 1 (n - 1) (fun j key => <[j := NO_KEY]> key) macro_key in
          match macro_idx_lookup macro_key (macro_index (kb_macros k)) with
          | Some h => Some (macro_key, h, false)
          | None => None
          end
        else None
    end.

Definition trigger_program (macro_key : list Z) (id : Z) (k : keyboard) : option keyboard :=
  if keystate_is_key_hidden (macro_key !!! 0%nat) (kb_keys k) then Some k
  else
    let n := Z.to_nat (press_count k) in
    let s := for_range 0 n (fun j s => keystate_hide_key (macro_key !!! j) s) (kb_keys k) in
    let k := set_keys s k in
    let idx := Z.to_nat (u8 id) in
    if (idx <? length (kb_vms k))%nat then
      match vm_start (program_medium (kb_config k)) storage_errno vms_addr idx
              (select_main_trigger_key macro_key k) (kb_vms k) with
      | Some (_, vms) => Some (set_vms vms k)
      | None => None
      end
    else None.

Definition trigger_macro (macro_key : list Z) (offset : Z) (multi_key_trigger : bool) (k : keyboard) : keyboard :=
  let '(ok, k) := run_macros (macros_start_playback macros_storage offset) k in
  if ok : bool then
    let k := on_ui (ui_wait_key_press_count (press_count k)) k in
    let k := set_keys (keystate_hide_key (select_main_trigger_key macro_key k) (kb_keys k)) k in
    on_ui (ui_current_state (if multi_key_trigger then STATE_MACRO_PLAY else STATE_MERGING_MACRO_PLAY)) k
  else emit (Buzz 200 BUZZER_FAILURE_TONE) k.

Definition run_trigger (macro_key : list Z) (k : keyboard) : option keyboard :=
  let flags := config_get_flags (kb_config k) in
  if negb (macros_enabled flags || programs_enabled flags) then Some k
  else
    match find_trigger macro_key k with
    | None => Some k
    | Some (macro_key, h, multi_key_trigger) =>
        let md := macro_idx_get_data h (macro_index (kb_macros k)) in
        match type md with
        | PROGRAM =>
            if (PROGRAM_SIZE >? 0) && programs_enabled flags then trigger_program macro_key (data md) k else Some k
        | MACRO =>
            if (MACROS_SIZE >? 0) && macros_enabled flags
            then Some (trigger_macro macro_key (data md) multi_key_trigger k) else Some k
        end
    end.

(** A chord: a command of the program key, or the trigger of a macro or program. *)
Definition dispatch (macro_key : list Z) (k : keyboard) : option keyboard :=
  match command macro_key k with
  | Some k => Some k
  | None => run_trigger macro_key k
  end.

(** [garbage] is what the uninitialised [macro_key] holds. *)
Definition handle_state_normal (garbage : list Z) (k : keyboard) : option keyboard :=
  if (press_count k =? 0) || (press_count k >? Z.of_nat MACRO_MAX_KEYS) then Some k
  else dispatch (put_keys (keystate_get_keys (view k) LOGICAL (kb_keys k)) garbage) k.

(** ** Remapping *)

Definition handle_state_programming (garbage : list Z) (k : keyboard) : keyboard :=
  if (press_count k =? 0) || (press_count k >? 2) then k
  else if press_count k =? 2 then
    if keystate_check_keys (view k) [SPECIAL_HID_KEY_PROGRAM; SPECIAL_HKEY_REMAP] HID (kb_keys k)
    then goto_state STATE_WAITING STATE_NORMAL k else k
  else
    let lkey := put_keys (keystate_get_keys (view k) LOGICAL (kb_keys k)) garbage !!! 0%nat in
    if SPECIAL_HID_KEY_NOREMAP (definition lkey k) then k
    else if bool_decide (current_state (kb_ui k) = STATE_PROGRAMMING_SRC) then
      let k := on_ui (ui_program_src_hkey (config_get_default_definition outside_default lkey)) k in
      goto_state STATE_WAITING STATE_PROGRAMMING_DST k
    else
      let k := run_config_ (config_save_definition lkey (program_src_hkey (kb_ui k))) k in
      goto_state STATE_WAITING STATE_PROGRAMMING_SRC k.

(** ** Recording macros *)

(** The program key and the key for recording: leaves the recording states. *)
Definition stop_recording (k : keyboard) : bool :=
  keystate_check_keys (view k) [SPECIAL_HID_KEY_PROGRAM; SPECIAL_HKEY_MACRO_RECORD] HID (kb_keys k).

Definition handle_state_macro_record_trigger (k : keyboard) : keyboard :=
  let u := kb_ui k in
  if MACROS_SIZE >? 0 then
    if stop_recording k then goto_state STATE_WAITING STATE_NORMAL k
    else if press_count k >? Z.of_nat MACRO_MAX_KEYS then
      goto_state STATE_WAITING STATE_NORMAL (on_ui (ui_last_count 0) (emit (Buzz 200 BUZZER_FAILURE_TONE) k))
    else if press_count k >=? last_count u then
      let key := put_keys (keystate_get_keys (view k) LOGICAL (kb_keys k)) (trigger_key u) in
      on_ui (fun u => ui_last_count (press_count k) (ui_trigger_key key u)) k
    else
      let '(valid, key) := macro_idx_format_key (trigger_key u) (Z.to_nat (last_count u)) in
      let k := on_ui (fun u => ui_last_count 0 (ui_trigger_key key u)) k in
      if negb valid then k
      else
        let '(ok, k) := run_macros (macros_start_macro macros_storage key) k in
        if ok : bool then goto_state STATE_WAITING STATE_MACRO_RECORD k
        else goto_state STATE_WAITING STATE_NORMAL k
  else goto_state STATE_WAITING STATE_NORMAL k.

Definition handle_state_macro_record (k : keyboard) : keyboard :=
  let k :=
    if negb (recording_macro (kb_ui k)) then
      set_keys (keystate_register_change_hook true (kb_keys k)) (on_ui (ui_recording_macro true) k)
    else k in
  if stop_recording k then
    let k := on_ui (ui_recording_macro false) k in
    let k := set_keys (keystate_register_change_hook false (kb_keys k)) k in
    let k := run_macros_ (macros_commit_macro macros_storage) k in
    goto_state STATE_WAITING STATE_NORMAL k
  else k.

(** ** Reports *)

Definition Fill_KeyboardReport (report : KeyboardReport_Data_t) (k : keyboard) : keyboard * KeyboardReport_Data_t :=
  let filled := keystate_Fill_KeyboardReport (view k) (kb_keys k) report in
  let play report :=
    let '(more, report, m) := macros_fill_next_report report (kb_macros k) in
    let k := (run_macros (fun _ => (tt, m)) k).2 in
    (if negb more then goto_state STATE_WAITING STATE_NORMAL k else k, report) in
  match current_state (kb_ui k) with
  | STATE_NORMAL =>
      let '(vms, report) := vm_append_KeyboardReport (kb_vms k) filled in (set_vms vms k, report)
  | STATE_PRINTING =>
      let '(p, report) := printing_Fill_KeyboardReport sram_read_byte avr_pgm_read_byte (prev_report k)
                            (kb_print k) report in
      (set_print p k, report)
  | STATE_MACRO_RECORD => (k, filled)
  | STATE_MERGING_MACRO_PLAY => play filled
  | STATE_MACRO_PLAY => play report
  | STATE_WAITING => if negb (wait_key_press_count (kb_ui k) =? 0) then (k, filled) else (k, report)
  | _ => (k, report)
  end.

Definition Fill_MouseReport (report : MouseReport_Data_t) (k : keyboard) : keyboard * MouseReport_Data_t :=
  let '(s, filled) := keystate_Fill_MouseReport (view k) (kb_keys k) report in
  match current_state (kb_ui k) with
  | STATE_NORMAL =>
      let '(vms, report) := vm_append_MouseReport (kb_vms k) filled in (set_vms vms (set_keys s k), report)
  | STATE_MACRO_RECORD => (set_keys s k, filled)
  | _ => (k, report)
  end.

(** ** LEDs *)

Definition Process_KeyboardLEDReport (report : Z) (k : keyboard) : keyboard :=
  let k := if negb (report =? USB_LEDReport k) then emit (Buzz 100 BUZZER_DEFAULT_TONE) k else k in
  set_led_report report k.

Definition layer_leds (layer_id : Z) : Z :=
  if layer_id =? 1 then LEDMASK_KEYPAD else if layer_id =? 2 then LEDMASK_FUNCTION else 0.

(** The LEDs that flash on the older variants: [period] is a bit of the time. *)
Definition flash (mask period : Z) (k : keyboard) : Z :=
  if leds_always_show_report || negb (Z.land (_uptimems k) period =? 0) then mask else 0.

(** The LEDs of the state, and whether they leave room for the host's report. *)
Definition state_leds (k : keyboard) : Z * bool :=
  match current_state (kb_ui k) with
  | STATE_PROGRAMMING_SRC => (flash LEDMASK_PROGRAMMING_SRC 128 k, false)
  | STATE_PROGRAMMING_DST => (flash LEDMASK_PROGRAMMING_DST 256 k, false)
  | STATE_MACRO_RECORD_TRIGGER => (flash LEDMASK_MACRO_TRIGGER 128 k, false)
  | STATE_MACRO_RECORD => (flash LEDMASK_MACRO_RECORD 128 k, false)
  | _ =>
      let flags := config_get_flags (kb_config k) in
      (if programs_enabled flags then LEDMASK_PROGRAMS_ENABLED
       else if macros_enabled flags then LEDMASK_MACROS_ENABLED else 0, true)
  end.

Definition report_leds (report : Z) : Z :=
  let led bit mask := if negb (Z.land report bit =? 0) then mask else 0 in
  Z.lor (Z.lor (led HID_KEYBOARD_LED_NUMLOCK LEDMASK_NUMLOCK) (led HID_KEYBOARD_LED_CAPSLOCK LEDMASK_CAPS))
    match LEDMASK_SCROLLLOCK with Some m => led HID_KEYBOARD_LED_SCROLLLOCK m | None => 0 end.

Definition led_mask (k : keyboard) : Z :=
  let '(mask, fillFromUsbReport) := state_leds k in
  let mask := Z.lor (layer_leds (keystate_get_layer_id (kb_keys k))) mask in
  if leds_always_show_report || fillFromUsbReport then Z.lor mask (report_leds (USB_LEDReport k)) else mask.

Definition ledstate_update (k : keyboard) : keyboard := emit (SetLeds (u8 (led_mask k))) k.

Inductive USB_State := NOTREADY | ENUMERATING | READY | ERROR.

Definition Update_USBState (s : USB_State) (k : keyboard) : keyboard :=
  emit (SetLeds match s with
                | NOTREADY => LEDMASK_USB_NOTREADY
                | ENUMERATING => LEDMASK_USB_ENUMERATING
                | READY => LEDMASK_USB_READY
                | ERROR => LEDMASK_USB_ERROR
                end) k.

(** The buzzer's part of [Update_Millis] is in src/buzzer.c. *)
Definition Update_Millis (increment : Z) (k : keyboard) : keyboard :=
  set_uptimems (u32 (_uptimems k + increment)) k.

(** ** The main loop *)

(** What the hardware and the stack give to an iteration: the matrix, the
    buffer of [run_photosensor] if it returns true, and uninitialised variables. *)
Record inputs := mkInputs {
  matrix : nat -> nat -> bool;
  photosensor : option printing;
  garbage : list Z
}.

Definition env_of (k : keyboard) : vm_env :=
  mkEnv (fun l_key => keystate_check_key (view k) l_key LOGICAL (kb_keys k))
    (fun h_key => keystate_check_hid_key (view k) h_key (kb_keys k)) (_uptimems k).

(** One update of the keys every two milliseconds. *)
Definition update_slice (i : inputs) (k : keyboard) : keyboard :=
  let slice := negb (Z.land (_uptimems k) 1 =? 0) in
  if negb slice && update_keys (kb_ui k) then
    on_ui (ui_update_keys false) (ledstate_update (keyboard_update (matrix i) k))
  else if negb (update_keys (kb_ui k)) && slice then on_ui (ui_update_keys true) k
  else k.

Definition check_photosensor (i : inputs) (k : keyboard) : keyboard :=
  match photosensor i with
  | Some p => goto_state STATE_PRINTING (current_state (kb_ui k)) (set_print p k)
  | None => k
  end.

(** Stores a number that was being set up, if it has changed. *)
Definition store_number (get : ui_state -> Z) (set : Z -> ui_state -> ui_state) (current : config_state -> Z)
    (save : Z -> config_state -> config_state) (k : keyboard) : keyboard :=
  let x := get (kb_ui k) in
  if negb (x =? 0) then
    let k := if negb (x =? current (kb_config k)) then run_config_ (save x) k else k in
    on_ui (set 0) k
  else k.

Definition lcd_update (k : keyboard) : keyboard :=
  let u := kb_ui k in
  if negb (in_prg_chord_with_lcd_info u) then
    let n := key_press_counter (kb_keys k) in
    if negb (prev_key_press_counter u =? n) then
      on_ui (fun u => ui_prev_key_press_counter n (ui_lcd_number_expire_time (u32 (_uptimems k + 2000)) u))
        (emit (ShowNumber n) k)
    else if _uptimems k >=? lcd_number_expire_time u then
      on_ui (ui_lcd_number_expire_time 0xffff) (emit ClearNumber k)
    else k
  else if press_count k =? 0 then
    let k := on_ui (ui_in_prg_chord_with_lcd_info false) k in
    let k := store_number new_debounce_len ui_new_debounce_len config_get_debounce_len config_save_debounce_len k in
    let k := store_number new_mouse_div ui_new_mouse_div config_get_mouse_div config_save_mouse_div k in
    let k := store_number new_wheel_div ui_new_wheel_div config_get_wheel_div config_save_wheel_div k in
    emit ClearNumber k
  else k.

Definition handle_state_waiting (k : keyboard) : keyboard :=
  let n := press_count k in
  let w := wait_key_press_count (kb_ui k) in
  if (n =? 0) || (negb (n =? w) && negb (w =? 0)) then
    goto_state (next_state (kb_ui k)) STATE_NORMAL (on_ui (ui_wait_key_press_count 0) k)
  else k.

Definition handle_state_printing (k : keyboard) : keyboard :=
  if printing_buffer_empty sram_read_byte avr_pgm_read_byte (kb_print k)
  then on_ui (ui_current_state STATE_WAITING) k else k.

(** The switch over the state. *)
Definition handle_state (i : inputs) (k : keyboard) : option keyboard :=
  match current_state (kb_ui k) with
  | STATE_NORMAL => handle_state_normal (garbage i) k
  | STATE_WAITING => Some (handle_state_waiting k)
  | STATE_PRINTING => Some (handle_state_printing k)
  | STATE_PROGRAMMING_SRC | STATE_PROGRAMMING_DST => Some (handle_state_programming (garbage i) k)
  | STATE_MACRO_RECORD_TRIGGER => Some (handle_state_macro_record_trigger k)
  | STATE_MACRO_RECORD => Some (handle_state_macro_record k)
  | STATE_MERGING_MACRO_PLAY | STATE_MACRO_PLAY => Some k
  end.

Definition run_vms (k : keyboard) : option keyboard :=
  if bool_decide (current_state (kb_ui k) = STATE_NORMAL) then
    match vm_step_all (program_medium (kb_config k)) vms_addr (env_of k) (kb_vms k) with
    | Some (vms, buzzes) => Some (set_out (kb_out k ++ map (fun b => Buzz b.1 b.2) buzzes) (set_vms vms k))
    | None => None
    end
  else Some k.

(** One iteration of the loop of [Keyboard_Main]. *)
Definition main_iteration (i : inputs) (k : keyboard) : option keyboard :=
  let k := update_slice i k in
  let k := check_photosensor i k in
  let k := lcd_update k in
  k ← handle_state i k; run_vms k.

(** [Keyboard_Main] before the loop. *)
Definition Keyboard_Main_init (k : keyboard) : keyboard :=
  let k := set_keys (keystate_init (kb_keys k)) k in
  let '(c, m) := config_init macros_storage macro_def_infos (kb_config k, kb_macros k) in
  let k := set_macros (no_buzzes m) (set_config (no_config_out c) k) in
  let k := fold_left (fun k e => config_call e k) (config_out c) k in
  let get_program i :=
    (fun offset => program_addr + offset) <$> config_get_program (Z.of_nat i) (kb_config k) in
  let k := set_vms (vm_init (program_medium (kb_config k)) storage_errno (Z.to_nat PROGRAM_COUNT) get_program
                      (kb_vms k)) k in
  on_ui (fun u => ui_prev_key_press_counter 0 (ui_lcd_number_expire_time 0xffff (ui_update_keys false u))) k.

(** What happens to the keyboard: iterations of the main loop, the passing of
    time, and the requests of the host, which keeps the keyboard report it got. *)
Inductive kbd_input :=
  | Iteration (i : inputs)
  | Millis (increment : Z)
  | KeyboardPoll
  | MousePoll
  | LedReport (report : Z)
  | UsbState (s : USB_State).

Definition keyboard_step (e : kbd_input) (k : keyboard) : option keyboard :=
  match e with
  | Iteration i => main_iteration i k
  | Millis increment => Some (Update_Millis (u8 increment) k)
  | KeyboardPoll => let '(k, r) := Fill_KeyboardReport empty_keyboard_report k in Some (set_prev_report r k)
  | MousePoll => Some (Fill_MouseReport empty_mouse_report k).1
  | LedReport report => Some (Process_KeyboardLEDReport report k)
  | UsbState s => Some (Update_USBState s k)
  end.

Fixpoint keyboard_run (es : list kbd_input) (k : keyboard) : option keyboard :=
  match es with
  | [] => Some k
  | e :: es => k ← keyboard_step e k; keyboard_run es k
  end.
End Keyboard.
