(* ===== verification/KeyboardProofs.v ===== *)
(** * Keyboard.c: lemmas on the state machine

    How the parts of [Keyboard_Main] act on the one state: frames of the calls
    of the components, the key state of [keyboard_update], the settings and
    the modes.  The properties are in [KeyboardProps]. *)

From Stdlib Require Import String.
From stdpp Require Import relations.
From S2P Require Import Prelude Sort Hid ExtraReport Printing Hardware Keystate KeystateReports MacroIndex.
From S2P Require Import Storage Macro Config Interpreter Keyboard.
Open Scope Z_scope.

(** ** Key states up to the hook and the calls *)

(** The hook and the calls recorded do not influence the keys. *)
Definition forget (s : keystate) : keystate :=
  mkKeystate (key_states s) (key_press_count s) (key_press_counter s) (prev_layer s) (layer s) false
    (debounce s) (mouse s) [].

Definition same_keys (s1 s2 : keystate) : Prop := forget s1 = forget s2.

#[export] Instance same_keys_equivalence : Equivalence same_keys.
Proof. split; unfold same_keys; congruence || by intros ?. Qed.

Lemma same_keys_fields s1 s2 :
  same_keys s1 s2 ->
  key_states s1 = key_states s2 /\ key_press_count s1 = key_press_count s2 /\
  key_press_counter s1 = key_press_counter s2 /\ prev_layer s1 = prev_layer s2 /\
  layer s1 = layer s2 /\ debounce s1 = debounce s2 /\ mouse s1 = mouse s2.
Proof. destruct s1, s2. intros [=]. cbn. by subst. Qed.

(** Equal keys: the same fields under every operation that does not read the hook. *)
Ltac same_keys_tac :=
  repeat match goal with
  | H : same_keys ?s1 ?s2 |- _ => destruct s1, s2; cbv in H; injection H as ????; subst; clear H
  end; try reflexivity.

(** The hook is registered and unregistered elsewhere. *)
Section Hook.
Context {H : Hardware} (v : config_view).

Lemma layer_step_hook j s : hook_registered (layer_step v j s) = hook_registered s.
Proof.
  unfold layer_step, update_layer, default_beep. cbv zeta.
  by repeat match goal with |- context [if ?b then _ else _] => destruct b end.
Qed.

Lemma scan_keys_hook matrix s : hook_registered (scan_keys v matrix s) = hook_registered s.
Proof. unfold scan_keys. cbv zeta. apply for_range_inv; [done|]. intros j s' _ E. by rewrite layer_step_hook. Qed.

Lemma notify_step_fields ch j s :
  layer (notify_step v ch j s) = layer s /\ hook_registered (notify_step v ch j s) = hook_registered s.
Proof.
  unfold notify_step, notify_about_key_change, notify_key_pressed, notify_key_released, default_beep. cbv zeta.
  by repeat match goal with |- context [if ?b then _ else _] => destruct b end.
Qed.

End Hook.

Definition keeps_hook (f : keystate -> keystate) : Prop := forall s, hook_registered (f s) = hook_registered s.

Section SameKeys.
Context {H : Hardware} (v : config_view).

#[export] Instance emit_same_keys e : Proper (same_keys ==> same_keys) (Keystate.emit e).
Proof. intros [] [] [=]. by subst. Qed.
#[export] Instance set_key_states_same_keys l : Proper (same_keys ==> same_keys) (set_key_states l).
Proof. intros [] [] [=]. by subst. Qed.
#[export] Instance set_key_press_count_same_keys n : Proper (same_keys ==> same_keys) (set_key_press_count n).
Proof. intros [] [] [=]. by subst. Qed.
#[export] Instance set_layer_same_keys l : Proper (same_keys ==> same_keys) (set_layer l).
Proof. intros [] [] [=]. by subst. Qed.
#[export] Instance set_prev_layer_same_keys l : Proper (same_keys ==> same_keys) (set_prev_layer l).
Proof. intros [] [] [=]. by subst. Qed.

#[export] Instance set_debounce_same_keys d : Proper (same_keys ==> same_keys) (set_debounce d).
Proof. intros [] [] [=]. by subst. Qed.
#[export] Instance set_key_press_counter_same_keys n : Proper (same_keys ==> same_keys) (set_key_press_counter n).
Proof. intros [] [] [=]. by subst. Qed.

Lemma emit_forget e s : same_keys (Keystate.emit e s) s.
Proof. done. Qed.

#[export] Instance notify_key_pressed_same_keys ll kk : Proper (same_keys ==> same_keys) (notify_key_pressed v ll kk).
Proof.
  intros s1 s2 Hs. unfold notify_key_pressed, default_beep.
  pose proof (same_keys_fields _ _ Hs) as (_ & Hc & _). rewrite <- Hc.
  destruct (hook_registered _), (hook_registered _), (config_key_sound_enabled v);
    rewrite ?emit_forget; by f_equiv.
Qed.
#[export] Instance notify_key_released_same_keys ll kk : Proper (same_keys ==> same_keys) (notify_key_released v ll kk).
Proof.
  intros s1 s2 Hs. unfold notify_key_released.
  pose proof (same_keys_fields _ _ Hs) as (_ & Hc & _). rewrite <- Hc.
  destruct (hook_registered _), (hook_registered _); rewrite ?emit_forget; by f_equiv.
Qed.

#[export] Instance notify_step_same_keys ch j : Proper (same_keys ==> same_keys) (notify_step v ch j).
Proof.
  intros s1 s2 Hs. pose proof (same_keys_fields _ _ Hs) as (Hk & _ & _ & Hp & Hl & _).
  unfold notify_step, notify_about_key_change. rewrite <- Hk, <- Hp, <- Hl. clear Hk Hp Hl.
  repeat match goal with |- context [if ?b then _ else _] => destruct b end; try done;
    match goal with |- same_keys (set_key_states (<[_ := _]> (key_states ?a)) _)
                                 (set_key_states (<[_ := _]> (key_states ?b)) _) =>
      let E := fresh in assert (E : same_keys a b) by (by repeat f_equiv);
      destruct (same_keys_fields _ _ E) as (-> & _); by f_equiv end.
Qed.

#[export] Instance layer_step_same_keys j : Proper (same_keys ==> same_keys) (layer_step v j).
Proof.
  intros s1 s2 Hs. pose proof (same_keys_fields _ _ Hs) as (Hk & _ & _ & Hp & Hl & _).
  unfold layer_step, update_layer, keystate_get_layer_id, keystate_get_prev_layer_id, default_beep.
  cbn [layer set_layer prev_layer]. rewrite <- Hk, <- Hp, <- Hl. clear Hk Hp Hl.
  repeat match goal with |- context [if ?b then _ else _] => destruct b end; rewrite ?emit_forget;
    try done; by f_equiv.
Qed.

#[export] Instance for_range_same_keys lo n f :
  (forall i, Proper (same_keys ==> same_keys) (f i)) -> Proper (same_keys ==> same_keys) (for_range lo n f).
Proof.
  intros Hf. revert lo. induction n as [|n IH]; intros lo s1 s2 Hs; [done|].
  rewrite !for_range_S. apply IH. by f_equiv.
Qed.

#[export] Instance scan_keys_same_keys matrix : Proper (same_keys ==> same_keys) (scan_keys v matrix).
Proof.
  intros s1 s2 Hs. unfold scan_keys.
  pose proof (same_keys_fields _ _ Hs) as (Hk & Hc & Hn & Hp & Hl & Hd & Hm).
  rewrite <- Hk, <- Hn, <- Hd. apply for_range_same_keys; [apply _|].
  apply set_key_press_counter_same_keys, set_key_states_same_keys, set_debounce_same_keys, Hs.
Qed.
End SameKeys.

Section Proofs.
Context {H : Hardware} {K : HotKeys} {L : Leds} {M : Type} {St : Storage M}.
Context (outside outside_default : Z -> Z) (macros_storage : Z) (macro_def_infos : list macro_def_info).
Context (program_addr : Z) (vms_addr : nat -> Z) (storage_errno : Z).
Context (CONST_MSG : string -> Z) (CONSTANT_STORAGE : storage_type) (sram_read_byte avr_pgm_read_byte : Z -> Z).

Abbreviation keyboard := (keyboard (M:=M)).
Abbreviation view := (view outside).
Abbreviation config_call := (config_call CONST_MSG CONSTANT_STORAGE).
Abbreviation run_config := (run_config CONST_MSG CONSTANT_STORAGE).
Abbreviation run_config_ := (run_config_ CONST_MSG CONSTANT_STORAGE).
Abbreviation run_reset := (run_reset macros_storage macro_def_infos CONST_MSG CONSTANT_STORAGE).
Abbreviation macro_record_hook := (macro_record_hook outside).
Abbreviation keys_call := (keys_call outside).
Abbreviation run_keys := (run_keys outside).
Abbreviation keyboard_update := (keyboard_update outside).
Abbreviation main_iteration := (main_iteration outside outside_default macros_storage macro_def_infos program_addr vms_addr
  storage_errno CONST_MSG CONSTANT_STORAGE sram_read_byte avr_pgm_read_byte).
Abbreviation keyboard_step := (keyboard_step outside outside_default macros_storage macro_def_infos program_addr vms_addr
  storage_errno CONST_MSG CONSTANT_STORAGE sram_read_byte avr_pgm_read_byte).
Abbreviation keyboard_run := (keyboard_run outside outside_default macros_storage macro_def_infos program_addr vms_addr
  storage_errno CONST_MSG CONSTANT_STORAGE sram_read_byte avr_pgm_read_byte).

(** ** Frames of the calls *)

Lemma config_calls_spec evs (k : keyboard) :
  exists p o, fold_left (fun k e => config_call e k) evs k = set_out o (set_print p k).
Proof.
  revert k. induction evs as [|e evs IH]; intros k; [exists (kb_print k), (kb_out k); by destruct k|].
  cbn [fold_left]. destruct (IH (config_call e k)) as (p & o & ->). destruct e as [ms tone|msg].
  - by exists p, o.
  - by exists p, o.
Qed.

(** A configuration call changes the configuration, and the message and the calls it makes. *)
Lemma run_config_spec {A} (f : config_state -> A * config_state) (k : keyboard) :
  exists p o, run_config f k
              = ((f (kb_config k)).1, set_out o (set_print p (set_config (no_config_out (f (kb_config k)).2) k))).
Proof.
  unfold Keyboard.run_config. destruct (f (kb_config k)) as [a c].
  destruct (config_calls_spec (config_out c) (set_config (no_config_out c) k)) as (p & o & ->). by exists p, o.
Qed.

Lemma run_config__spec f (k : keyboard) :
  exists p o, run_config_ f k = set_out o (set_print p (set_config (no_config_out (f (kb_config k))) k)).
Proof.
  unfold Keyboard.run_config_.
  destruct (run_config_spec (fun c => (tt, f c)) k) as (p & o & E). exists p, o. by rewrite E.
Qed.

Lemma run_reset_spec (k : keyboard) :
  let '(c, m) := config_reset_fully macros_storage macro_def_infos (kb_config k, kb_macros k) in
  exists p o, run_reset k = set_out o (set_print p (set_macros (no_buzzes m) (set_config (no_config_out c) k))).
Proof.
  unfold Keyboard.run_reset. destruct (config_reset_fully _ _ _) as [c m]. apply config_calls_spec.
Qed.

(** What a recording hook may change: the macros, whether it is registered, the mode. *)
Lemma macro_record_hook_frame s key press (k : keyboard) :
  let k' := macro_record_hook s key press k in
  same_keys (kb_keys k') (kb_keys k) /\ kb_config k' = kb_config k /\ kb_vms k' = kb_vms k /\
  kb_print k' = kb_print k /\ prev_report k' = prev_report k /\ _uptimems k' = _uptimems k /\
  USB_LEDReport k' = USB_LEDReport k.
Proof.
  unfold Keyboard.macro_record_hook. destruct (keystate_check_key _ _ _ _); [done|].
  destruct (_ >=? _); [done|]. unfold run_macros_, run_macros.
  destruct (macros_append _ _) as [ok m]. cbn -[macros_abort_macro]. by destruct ok.
Qed.

Lemma keys_call_frame s k e :
  let k' := keys_call s k e in
  same_keys (kb_keys k') (kb_keys k) /\ kb_config k' = kb_config k /\ kb_vms k' = kb_vms k /\
  kb_print k' = kb_print k /\ prev_report k' = prev_report k /\ _uptimems k' = _uptimems k /\
  USB_LEDReport k' = USB_LEDReport k.
Proof.
  destruct e as [key press|ms|ms tone]; [|done..]. cbn.
  destruct (hook_registered _); [apply macro_record_hook_frame|done].
Qed.

Lemma keys_calls_frame s es (k : keyboard) :
  let k' := fold_left (keys_call s) es k in
  same_keys (kb_keys k') (kb_keys k) /\ kb_config k' = kb_config k /\ kb_vms k' = kb_vms k /\
  kb_print k' = kb_print k /\ prev_report k' = prev_report k /\ _uptimems k' = _uptimems k /\
  USB_LEDReport k' = USB_LEDReport k.
Proof.
  revert k. induction es as [|e es IH]; intros k; [done|]. cbn [fold_left].
  destruct (IH (keys_call s k e)) as (E1 & -> & -> & -> & -> & -> & ->).
  destruct (keys_call_frame s k e) as (F1 & -> & -> & -> & -> & -> & ->).
  by rewrite E1.
Qed.

(** A part of the key state runs as it does alone. *)
Lemma run_keys_frame f (k : keyboard) :
  let k' := run_keys f k in
  same_keys (kb_keys k') (f (kb_keys k)) /\ kb_config k' = kb_config k /\ kb_vms k' = kb_vms k /\
  kb_print k' = kb_print k /\ prev_report k' = prev_report k /\ _uptimems k' = _uptimems k /\
  USB_LEDReport k' = USB_LEDReport k.
Proof.
  unfold Keyboard.run_keys.
  exact (keys_calls_frame (kb_keys k) (out (f (kb_keys k))) (set_keys (no_out (f (kb_keys k))) k)).
Qed.

(** ** The keys of an update *)

Lemma notify_loop_keys v ch lo n (k : keyboard) :
  let k' := for_range lo n (fun j => run_keys (notify_step v ch j)) k in
  same_keys (kb_keys k') (for_range lo n (notify_step v ch) (kb_keys k)) /\ kb_config k' = kb_config k /\
  kb_vms k' = kb_vms k /\ kb_print k' = kb_print k /\ prev_report k' = prev_report k /\
  _uptimems k' = _uptimems k /\ USB_LEDReport k' = USB_LEDReport k.
Proof.
  revert lo k. induction n as [|n IH]; intros lo k; [done|]. cbv zeta. rewrite !for_range_S.
  destruct (IH (S lo) (run_keys (notify_step v ch lo) k)) as (E1 & -> & -> & -> & -> & -> & ->).
  destruct (run_keys_frame (notify_step v ch lo) k) as (F1 & -> & -> & -> & -> & -> & ->).
  split; [|done]. rewrite E1. apply for_range_same_keys; [apply _|done].
Qed.

Lemma layer_changed_same_keys : Proper (same_keys ==> eq) layer_changed.
Proof. intros [] [] [=]. by subst. Qed.

Lemma update_end_keys v ch n (k : keyboard) s :
  same_keys (kb_keys k) s ->
  let s1 := kb_keys (for_range 0 n (fun j => run_keys (notify_step v ch j)) k) in
  let s2 := for_range 0 n (notify_step v ch) s in
  same_keys (set_prev_layer (layer s1) s1) (set_prev_layer (layer s2) s2).
Proof.
  intros Hs. cbv zeta. destruct (notify_loop_keys v ch 0 n k) as (E & _).
  set (s1 := kb_keys (for_range _ _ _ _)) in *. set (s2 := for_range 0 n (notify_step v ch) s).
  assert (E2 : same_keys s1 s2).
  { transitivity (for_range 0 n (notify_step v ch) (kb_keys k)); [exact E|].
    apply for_range_same_keys; [apply _|exact Hs]. }
  destruct (same_keys_fields _ _ E2) as (_ & _ & _ & _ & -> & _).
  apply set_prev_layer_same_keys, E2.
Qed.

(** The key state of the keyboard develops as keystate.c alone does. *)
Lemma keyboard_update_keys matrix (k : keyboard) :
  same_keys (kb_keys (keyboard_update matrix k)) (keystate_update (view k) matrix (kb_keys k)).
Proof.
  unfold Keyboard.keyboard_update, keystate_update.
  destruct (run_keys_frame (scan_keys (view k) matrix) k) as (F & _).
  rewrite (layer_changed_same_keys _ _ F). exact (update_end_keys _ _ _ _ _ F).
Qed.

Definition same_rest (k' k : keyboard) : Prop :=
  kb_config k' = kb_config k /\ kb_vms k' = kb_vms k /\ kb_print k' = kb_print k /\
  prev_report k' = prev_report k /\ _uptimems k' = _uptimems k /\ USB_LEDReport k' = USB_LEDReport k.

Lemma update_end_frame v ch n (k : keyboard) :
  let k' := for_range 0 n (fun j => run_keys (notify_step v ch j)) k in
  same_rest (set_keys (set_prev_layer (layer (kb_keys k')) (kb_keys k')) k') k.
Proof. exact (proj2 (notify_loop_keys v ch 0 n k)). Qed.

Lemma keyboard_update_frame matrix (k : keyboard) : same_rest (keyboard_update matrix k) k.
Proof.
  unfold Keyboard.keyboard_update. set (k1 := run_keys (scan_keys (view k) matrix) k).
  pose proof (update_end_frame (view k) (layer_changed (kb_keys k1)) KEYSTATE_COUNT k1) as E.
  destruct (run_keys_frame (scan_keys (view k) matrix) k) as (_ & E1). fold k1 in E1.
  unfold same_rest in *. destruct E1 as (<- & <- & <- & <- & <- & <-). exact E.
Qed.

(** Without a hook the calls are only made. *)
Lemma keys_calls_quiet s es (k : keyboard) :
  hook_registered (kb_keys k) = false -> exists o, fold_left (keys_call s) es k = set_out o k.
Proof.
  revert k. induction es as [|e es IH]; intros k Hk; [exists (kb_out k); by destruct k|].
  cbn [fold_left]. assert (exists o, keys_call s k e = set_out o k) as [o ->].
  { destruct e; cbn; [|by eexists..]. rewrite Hk. exists (kb_out k). by destruct k. }
  destruct (IH (set_out o k)) as [o' ->]; [done|]. by exists o'.
Qed.

Lemma run_keys_quiet f (k : keyboard) :
  keeps_hook f -> hook_registered (kb_keys k) = false ->
  exists s o, run_keys f k = set_out o (set_keys s k) /\ hook_registered s = false.
Proof.
  intros Hf Hk. unfold Keyboard.run_keys. assert (Hs : hook_registered (f (kb_keys k)) = false) by (by rewrite Hf).
  destruct (keys_calls_quiet (kb_keys k) (out (f (kb_keys k))) (set_keys (no_out (f (kb_keys k))) k) Hs) as [o ->].
  by eexists _, o.
Qed.

Lemma keyboard_update_quiet matrix (k : keyboard) :
  hook_registered (kb_keys k) = false ->
  exists s o, keyboard_update matrix k = set_out o (set_keys s k) /\ hook_registered s = false.
Proof.
  intros Hk. unfold Keyboard.keyboard_update.
  destruct (run_keys_quiet (scan_keys (view k) matrix) k (scan_keys_hook _ _) Hk) as (s & o & -> & Hs).
  set (ch := layer_changed _).
  assert (exists s' o', for_range 0 KEYSTATE_COUNT (fun j => run_keys (notify_step (view k) ch j))
    (set_out o (set_keys s k)) = set_out o' (set_keys s' k) /\ hook_registered s' = false) as (s' & o' & -> & Hs').
  { apply (for_range_inv (fun k' => exists s' o', k' = set_out o' (set_keys s' k) /\ hook_registered s' = false)).
    - by exists s, o.
    - intros j _ _ (s1 & o1 & -> & H1).
      destruct (run_keys_quiet (notify_step (view k) ch j) (set_out o1 (set_keys s1 k)) (fun s => proj2 (notify_step_fields _ _ _ s)) H1) as (s2 & o2 & -> & H2).
      by exists s2, o2. }
  by eexists _, o'.
Qed.
End Proofs.

(** ** The keyboard report: its length, the report before, the time *)

Section Lengths.
Context {H : Hardware} (cfg : config_view).

Lemma fill_keys_length ll l used rollover r :
  length (KeyCode (fill_keys cfg ll l used rollover r).2) = length (KeyCode r).
Proof.
  revert used rollover r. induction l as [|k l IH]; intros used rollover r; [done|]. cbn [fill_keys].
  repeat case_match; rewrite ?IH; cbn [KeyCode]; rewrite ?length_insert; done.
Qed.

Lemma keystate_Fill_length s r : length (KeyCode (keystate_Fill_KeyboardReport cfg s r)) = length (KeyCode r).
Proof.
  unfold keystate_Fill_KeyboardReport. pose proof (fill_keys_length (layer s) (key_states s) 0 false r) as Hf.
  destruct (fill_keys _ _ _ _ _ _) as [[|] r']; [|done]. cbn [KeyCode snd] in *. rewrite <- Hf.
  apply (for_range_inv (fun codes => length codes = length (KeyCode r'))); [done|]. intros i codes _ Hc. by rewrite length_insert.
Qed.
End Lengths.

Lemma append_length extra r : length (KeyCode (ExtraKeyboardReport_append extra r)) = length (KeyCode r).
Proof.
  unfold ExtraKeyboardReport_append. cbn [KeyCode]. generalize (report_used (KeyCode r)) at 1 as start.
  generalize (report_used (KeyCode r)) as next. generalize (KeyCode r) as codes.
  induction (ExtraReport.keys extra) as [|k ks IH]; intros codes next start; [done|]. cbn [append_loop].
  repeat case_match; rewrite ?IH, ?length_insert; done.
Qed.

Lemma vm_append_length vms r : length (KeyCode (vm_append_KeyboardReport vms r).2) = length (KeyCode r).
Proof.
  unfold vm_append_KeyboardReport. generalize (@nil vmstate) as before. revert r.
  induction vms as [|vm vms IH]; intros r before; [done|]. cbn [fold_left append_keyboard].
  destruct (negb _); rewrite IH; [done|apply append_length].
Qed.

Section Reports.
Context {H : Hardware} {K : HotKeys} {L : Leds} {M : Type} {St : Storage M}.
Context (outside : Z -> Z) (sram_read_byte avr_pgm_read_byte : Z -> Z).

Abbreviation fill := (Keyboard.Fill_KeyboardReport (M:=M) outside sram_read_byte avr_pgm_read_byte).

Lemma Fill_prev_report r (k : keyboard (M:=M)) :
  prev_report (Fill_KeyboardReport outside sram_read_byte avr_pgm_read_byte r k).1 = prev_report k.
Proof.
  unfold Fill_KeyboardReport. cbv zeta. destruct (current_state (kb_ui k)); try done.
  - by destruct (vm_append_KeyboardReport _ _).
  - by destruct (negb _).
  - by destruct (printing_Fill_KeyboardReport _ _ _ _ _).
  - by destruct (macros_fill_next_report _ _) as [[[] ?] ?].
  - by destruct (macros_fill_next_report _ _) as [[[] ?] ?].
Qed.

Lemma Fill_MouseReport_prev r (k : keyboard (M:=M)) : prev_report (Fill_MouseReport outside r k).1 = prev_report k.
Proof.
  unfold Fill_MouseReport. destruct (keystate_Fill_MouseReport _ _ _) as [s filled].
  destruct (current_state _); try done. by destruct (vm_append_MouseReport _ _).
Qed.

Lemma Fill_length r k : length (KeyCode (fill r k).2) = length (KeyCode r).
Proof.
  unfold Fill_KeyboardReport. cbv zeta. assert (Hplay : forall r, length (KeyCode (macros_fill_next_report r (kb_macros k)).1.2) = length (KeyCode r)).
  { intros r'. unfold macros_fill_next_report. destruct (negb _); [|done]. destruct (storage_read _ _ _) as [[bs|] m]; [|done]. apply append_length. }
  destruct (current_state (kb_ui k)); try done; try apply keystate_Fill_length.
  - pose proof (vm_append_length (kb_vms k) (keystate_Fill_KeyboardReport (view outside k) (kb_keys k) r)) as Hv.
    destruct (vm_append_KeyboardReport _ _). rewrite keystate_Fill_length in Hv. exact Hv.
  - destruct (negb _); [apply keystate_Fill_length|done].
  - unfold printing_Fill_KeyboardReport. destruct (_ || _); [done|]. destruct (char_to_keys _). cbn. by rewrite length_insert.
  - specialize (Hplay (keystate_Fill_KeyboardReport (view outside k) (kb_keys k) r)). rewrite keystate_Fill_length in Hplay.
    destruct (macros_fill_next_report _ _) as [[? ?] ?]. exact Hplay.
  - specialize (Hplay r). destruct (macros_fill_next_report _ _) as [[? ?] ?]. exact Hplay.
Qed.

(** The time is not in the report. *)
Lemma Fill_millis r ms k : (fill r (Update_Millis ms k)).2 = (fill r k).2.
Proof.
  unfold Fill_KeyboardReport, Update_Millis. cbn [kb_ui set_uptimems kb_vms kb_keys kb_macros kb_print prev_report].
  change (view outside (set_uptimems _ k)) with (view outside k). destruct (current_state (kb_ui k)); try done.
  all: repeat case_match; simplify_eq; done.
Qed.
End Reports.
