(* ===== verification/KeyboardInv.v ===== *)
(** * Keyboard.c: what holds in every state

    Two invariants of the main loop.  The settings: the debounce length and the
    divisors, stored or being set up, stay in the range the rest of the
    firmware needs.  The modes: the change hook is registered exactly while a
    macro is being recorded, and the key count for leaving the waiting state
    is only set where it is used. *)

From Stdlib Require Import String.
From stdpp Require Import relations.
From S2P Require Import Prelude Sort Hid ExtraReport Printing Hardware Keystate KeystateReports MacroIndex.
From S2P Require Import Storage Macro Config Interpreter Keyboard KeyboardProofs.
Open Scope Z_scope.

(** ** Settings *)

Record settings_ok (c : config_state) : Prop := mkSettingsOk {
  debounce_ok : 1 <= debounce_len c <= Z.of_nat MAX_DEBOUNCE_LEN;
  mouse_div_ok : 1 <= mouse_div c <= 255;
  wheel_div_ok : 1 <= wheel_div c <= 255
}.

(** The numbers being set up; 0 is none. *)
Record pending_ok (u : ui_state) : Prop := mkPendingOk {
  new_debounce_ok : 0 <= new_debounce_len u <= Z.of_nat MAX_DEBOUNCE_LEN;
  new_mouse_ok : 0 <= new_mouse_div u <= 255;
  new_wheel_ok : 0 <= new_wheel_div u <= 255
}.

Definition settings (c : config_state) : Z * Z * Z := (debounce_len c, mouse_div c, wheel_div c).
Definition pending (u : ui_state) : Z * Z * Z := (new_debounce_len u, new_mouse_div u, new_wheel_div u).

Lemma settings_ok_same c c' : settings c' = settings c -> settings_ok c -> settings_ok c'.
Proof. intros [= H1 H2 H3] []. by constructor; rewrite ?H1, ?H2, ?H3. Qed.
Lemma pending_ok_same u u' : pending u' = pending u -> pending_ok u -> pending_ok u'.
Proof. intros [= H1 H2 H3] []. by constructor; rewrite ?H1, ?H2, ?H3. Qed.

Section Config.
Context {H : Hardware} {K : HotKeys}.

Lemma delete_layout_settings num c : settings (config_delete_layout num c).2 = settings c.
Proof.
  unfold config_delete_layout. destruct (_ >=? _); [done|]. cbv zeta.
  repeat match goal with |- context [if ?b then _ else _] => destruct b; try done end;
  by destruct (for_range _ _ _ _).
Qed.

Lemma save_layout_settings num c : settings (config_save_layout num c).2 = settings c.
Proof.
  unfold config_save_layout. destruct (_ >=? _); [done|]. cbv zeta.
  rewrite <- (delete_layout_settings num c). set (c1 := (config_delete_layout num c).2).
  destruct (full _); [done|]. by destruct (negb _).
Qed.

Lemma load_layout_settings num c : settings (config_load_layout num c).2 = settings c.
Proof.
  unfold config_load_layout. destruct (_ >=? _); [done|]. cbv zeta. destruct (_ =? _); [done|].
  by destruct (for_range _ _ _ _) as [[] ?].
Qed.
End Config.

Section Proofs.
Context {H : Hardware} {K : HotKeys} {L : Leds} {M : Type} {St : Storage M}.
Context (outside outside_default : Z -> Z) (macros_storage : Z) (macro_def_infos : list macro_def_info).
Context (program_addr : Z) (vms_addr : nat -> Z) (storage_errno : Z).
Context (CONST_MSG : string -> Z) (CONSTANT_STORAGE : storage_type) (sram_read_byte avr_pgm_read_byte : Z -> Z).

Abbreviation keyboard := (keyboard (M:=M)).
Abbreviation run_config := (run_config (M:=M) CONST_MSG CONSTANT_STORAGE).
Abbreviation run_config_ := (run_config_ (M:=M) CONST_MSG CONSTANT_STORAGE).
Abbreviation run_reset := (run_reset macros_storage macro_def_infos CONST_MSG CONSTANT_STORAGE).
Abbreviation macro_record_hook := (macro_record_hook outside).
Abbreviation keys_call := (keys_call outside).
Abbreviation run_keys := (run_keys outside).
Abbreviation keyboard_update := (keyboard_update outside).
Abbreviation command := (command outside macros_storage macro_def_infos CONST_MSG CONSTANT_STORAGE).
Abbreviation command2 := (command2 (M:=M) CONST_MSG CONSTANT_STORAGE).
Abbreviation command3 := (command3 macros_storage macro_def_infos CONST_MSG CONSTANT_STORAGE).
Abbreviation run_trigger := (run_trigger outside macros_storage program_addr vms_addr storage_errno).
Abbreviation trigger_program := (trigger_program outside program_addr vms_addr storage_errno).
Abbreviation main_iteration := (main_iteration outside outside_default macros_storage macro_def_infos program_addr vms_addr
  storage_errno CONST_MSG CONSTANT_STORAGE sram_read_byte avr_pgm_read_byte).
Abbreviation keyboard_step := (keyboard_step outside outside_default macros_storage macro_def_infos program_addr vms_addr
  storage_errno CONST_MSG CONSTANT_STORAGE sram_read_byte avr_pgm_read_byte).
Abbreviation keyboard_run := (keyboard_run outside outside_default macros_storage macro_def_infos program_addr vms_addr
  storage_errno CONST_MSG CONSTANT_STORAGE sram_read_byte avr_pgm_read_byte).

(** ** The settings are kept *)

Definition ranges_ok (k : keyboard) : Prop := settings_ok (kb_config k) /\ pending_ok (kb_ui k).

(** Steps that touch neither the settings nor the numbers being set up. *)
Definition same_settings (k k' : keyboard) : Prop :=
  settings (kb_config k') = settings (kb_config k) /\ pending (kb_ui k') = pending (kb_ui k).

#[export] Instance same_settings_preorder : PreOrder same_settings.
Proof. split; [done|]. intros k1 k2 k3 [E1 E2] [F1 F2]. split; congruence. Qed.

Lemma same_settings_ok k k' : same_settings k k' -> ranges_ok k -> ranges_ok k'.
Proof. intros [E1 E2] [H1 H2]. split; eauto using settings_ok_same, pending_ok_same. Qed.

Lemma run_config_settings {A} (f : config_state -> A * config_state) (k : keyboard) :
  settings (f (kb_config k)).2 = settings (kb_config k) -> same_settings k (run_config f k).2.
Proof. intros Hf. destruct (run_config_spec CONST_MSG CONSTANT_STORAGE f k) as (p & o & ->). split; [exact Hf|done]. Qed.

Lemma run_config__settings f (k : keyboard) :
  settings (f (kb_config k)) = settings (kb_config k) -> same_settings k (run_config_ f k).
Proof. apply (run_config_settings (fun c => (tt, f c))). Qed.

Lemma macro_record_hook_settings s key press (k : keyboard) : same_settings k (macro_record_hook s key press k).
Proof.
  unfold Keyboard.macro_record_hook. destruct (keystate_check_key _ _ _ _); [done|].
  destruct (_ >=? _); [done|]. unfold run_macros_, run_macros. destruct (macros_append _ _) as [[] m]; done.
Qed.

Lemma keys_calls_settings s es (k : keyboard) : same_settings k (fold_left (keys_call s) es k).
Proof.
  revert k. induction es as [|e es IH]; intros k; [done|]. cbn [fold_left]. rewrite <- IH.
  destruct e; cbn; [|done..]. destruct (hook_registered _); [apply macro_record_hook_settings|done].
Qed.

Lemma run_keys_settings f (k : keyboard) : same_settings k (run_keys f k).
Proof. exact (keys_calls_settings (kb_keys k) (out (f (kb_keys k))) (set_keys (no_out (f (kb_keys k))) k)). Qed.

Lemma notify_loop_settings v ch n (k : keyboard) :
  same_settings k (for_range 0 n (fun j => run_keys (notify_step v ch j)) k).
Proof.
  apply for_range_inv; [done|]. intros j k' _ Hk. rewrite Hk. apply run_keys_settings.
Qed.

Lemma update_end_settings v ch n (k : keyboard) :
  let k' := for_range 0 n (fun j => run_keys (notify_step v ch j)) k in
  same_settings k (set_keys (set_prev_layer (layer (kb_keys k')) (kb_keys k')) k').
Proof. exact (notify_loop_settings v ch n k). Qed.

Lemma keyboard_update_settings matrix (k : keyboard) : same_settings k (keyboard_update matrix k).
Proof.
  unfold Keyboard.keyboard_update.
  transitivity (run_keys (scan_keys (view outside k) matrix) k); [apply run_keys_settings|].
  apply update_end_settings.
Qed.

Lemma run_macros_settings {A} (f : macro_state -> A * macro_state) (k : keyboard) :
  same_settings k (run_macros f k).2.
Proof. unfold run_macros. by destruct (f _). Qed.

(** ** Setting up and storing numbers *)

Lemma goto_state_ok cur next (k : keyboard) : ranges_ok k -> ranges_ok (goto_state cur next k).
Proof. by intros [? []]. Qed.

(** A lens of the pending numbers. *)
Record number (get : ui_state -> Z) (set : Z -> ui_state -> ui_state) (hi : Z) : Prop := mkNumber {
  number_bound u : pending_ok u -> 0 <= get u <= hi;
  number_set x u : pending_ok u -> 0 <= x <= hi -> pending_ok (set x u)
}.

Lemma debounce_number : number new_debounce_len ui_new_debounce_len (Z.of_nat MAX_DEBOUNCE_LEN).
Proof. split; [by intros u []|]. intros x u [] Hx. by constructor. Qed.
Lemma mouse_number : number new_mouse_div ui_new_mouse_div 255.
Proof. split; [by intros u []|]. intros x u [] Hx. by constructor. Qed.
Lemma wheel_number : number new_wheel_div ui_new_wheel_div 255.
Proof. split; [by intros u []|]. intros x u [] Hx. by constructor. Qed.

Lemma setup_number_ok get set current up lowest highest hi (k : keyboard) :
  number get set hi -> 0 <= lowest -> highest <= hi -> 0 <= current <= hi ->
  ranges_ok k -> ranges_ok (setup_number get set current up lowest highest k).
Proof.
  intros Hn Hlo Hhi Hc [Hs Hp]. unfold setup_number. destruct (_ && _); [done|].
  apply goto_state_ok. split; [done|]. cbn.
  pose proof (number_bound _ _ _ Hn _ Hp) as Hb.
  set (x := if negb _ then _ else _).
  assert (Hx : 0 <= x <= hi).
  { unfold x. destruct (in_prg_chord_with_lcd_info _), up; cbn [negb]; try done.
    - destruct (Z.ltb_spec (get (kb_ui k)) highest); lia.
    - destruct (Z.gtb_spec (get (kb_ui k)) lowest); lia. }
  apply (pending_ok_same (set x (kb_ui k))); [done|by apply Hn].
Qed.

Lemma store_number_ok get set current save hi (k : keyboard) :
  number get set hi ->
  (forall x c, settings_ok c -> 1 <= x <= hi -> settings_ok (save x c)) ->
  ranges_ok k -> ranges_ok (store_number CONST_MSG CONSTANT_STORAGE get set current save k).
Proof.
  intros Hn Hsave Hk. unfold store_number. pose proof (number_bound _ _ _ Hn _ (proj2 Hk)) as Hb.
  destruct (Z.eqb_spec (get (kb_ui k)) 0) as [|Hne]; cbn [negb]; [done|].
  set (k' := if negb _ then _ else _).
  assert (Hk' : ranges_ok k').
  { unfold k'. destruct (negb _); [|done].
    destruct (run_config__spec CONST_MSG CONSTANT_STORAGE (save (get (kb_ui k))) k) as (p & o & ->).
    split; [|apply Hk]. cbn. apply (settings_ok_same (save (get (kb_ui k)) (kb_config k))); [done|].
    apply Hsave; [apply Hk|lia]. }
  split; [apply Hk'|]. cbn. apply Hn; [apply Hk'|]. lia.
Qed.

(** ** The handlers *)

Lemma emit_ok e (k : keyboard) : ranges_ok k -> ranges_ok (emit e k).
Proof. by intros []. Qed.

Lemma run_config_ok {A} (f : config_state -> A * config_state) (k : keyboard) :
  settings (f (kb_config k)).2 = settings (kb_config k) -> ranges_ok k -> ranges_ok (run_config f k).2.
Proof. intros Hf. apply same_settings_ok. by apply run_config_settings. Qed.

Lemma run_config__ok f (k : keyboard) :
  settings (f (kb_config k)) = settings (kb_config k) -> ranges_ok k -> ranges_ok (run_config_ f k).
Proof. apply (run_config_ok (fun c => (tt, f c))). Qed.

Lemma run_reset_ok (k : keyboard) : ranges_ok k -> ranges_ok (run_reset k).
Proof.
  intros [_ Hp].
  pose proof (run_reset_spec macros_storage macro_def_infos CONST_MSG CONSTANT_STORAGE k) as Hr.
  unfold config_reset_fully in Hr. cbv zeta beta in Hr. destruct Hr as (p & o & ->).
  split; [|done]. by constructor.
Qed.

Lemma command2_ok hkey (k k' : keyboard) : ranges_ok k -> command2 hkey k = Some k' -> ranges_ok k'.
Proof.
  intros Hk. pose proof Hk as [[Hd Hm Hw] _]. unfold Keyboard.command2.
  repeat match goal with |- (if ?b then _ else _) = _ -> _ => destruct b end; intros [= <-].
  - by apply goto_state_ok.
  - by apply goto_state_ok.
  - by apply emit_ok.
  - by apply goto_state_ok, emit_ok, run_config__ok.
  - by apply goto_state_ok, run_config__ok.
  - by apply goto_state_ok, emit_ok, run_config__ok.
  - apply (setup_number_ok _ _ _ _ _ _ _ k debounce_number); unfold config_get_debounce_len; (done || lia).
  - apply (setup_number_ok _ _ _ _ _ _ _ k debounce_number); unfold config_get_debounce_len; (done || lia).
  - apply (setup_number_ok _ _ _ _ _ _ _ k mouse_number); unfold config_get_mouse_div; (done || lia).
  - apply (setup_number_ok _ _ _ _ _ _ _ k mouse_number); unfold config_get_mouse_div; (done || lia).
  - apply (setup_number_ok _ _ _ _ _ _ _ k wheel_number); unfold config_get_wheel_div; (done || lia).
  - apply (setup_number_ok _ _ _ _ _ _ _ k wheel_number); unfold config_get_wheel_div; (done || lia).
Qed.

Lemma layout_command_ok (f : config_state -> bool * config_state) (k : keyboard) tone1 tone2 :
  settings (f (kb_config k)).2 = settings (kb_config k) -> ranges_ok k ->
  ranges_ok (let '(success, k) := run_config f k in
    if success : bool then goto_state STATE_WAITING STATE_NORMAL (emit (Buzz 200 tone1) k)
    else goto_state STATE_PRINTING STATE_NORMAL (emit (Buzz 200 tone2) k)).
Proof.
  intros Hf Hk. pose proof (run_config_ok f k Hf Hk) as Hk'.
  destruct (run_config f k) as [[] k']; by apply goto_state_ok, emit_ok.
Qed.

Lemma command3_ok hid_keys (k k' : keyboard) : ranges_ok k -> command3 hid_keys k = Some k' -> ranges_ok k'.
Proof.
  intros Hk. unfold Keyboard.command3.
  repeat match goal with |- (if ?b then _ else _) = _ -> _ => destruct b end; intros [= <-].
  - by apply goto_state_ok, run_reset_ok.
  - apply layout_command_ok; [apply save_layout_settings|done].
  - apply layout_command_ok; [apply load_layout_settings|done].
  - apply layout_command_ok; [apply delete_layout_settings|done].
Qed.

Lemma command_ok macro_key (k k' : keyboard) : ranges_ok k -> command macro_key k = Some k' -> ranges_ok k'.
Proof.
  intros Hk. unfold Keyboard.command. destruct (_ && _); [|done]. destruct (_ =? _); [|done].
  destruct (_ =? _)%nat; eauto using command2_ok, command3_ok.
Qed.

Lemma run_macros_ok {A} (f : macro_state -> A * macro_state) (k : keyboard) :
  ranges_ok k -> ranges_ok (run_macros f k).2.
Proof. apply same_settings_ok, run_macros_settings. Qed.

Lemma run_trigger_ok macro_key (k k' : keyboard) :
  ranges_ok k -> run_trigger macro_key k = Some k' -> ranges_ok k'.
Proof.
  intros Hk. unfold Keyboard.run_trigger. destruct (negb _); [by intros [= <-]|].
  destruct (find_trigger _ _ _) as [[[key h] multi]|]; [|by intros [= <-]].
  destruct (type _).
  - destruct (_ && _); [|by intros [= <-]]. intros [= <-]. unfold trigger_macro.
    destruct (run_macros _ k) as [ok k1] eqn:E.
    assert (Hk1 : ranges_ok k1) by (rewrite <- (f_equal snd E : _ = k1); by apply run_macros_ok).
    destruct ok; [|by apply emit_ok]. destruct Hk1 as [? []]. by split.
  - destruct (_ && _); [|by intros [= <-]]. unfold Keyboard.trigger_program.
    destruct (keystate_is_key_hidden _ _); [by intros [= <-]|]. cbv zeta.
    destruct (_ <? _)%nat; [|done]. destruct (vm_start _ _ _ _ _ _) as [[]|]; [|done]. by intros [= <-].
Qed.

Lemma on_ui_ok f (k : keyboard) :
  (forall u, pending (f u) = pending u) -> ranges_ok k -> ranges_ok (on_ui f k).
Proof. intros Hf [? Hp]. split; [done|]. apply (pending_ok_same (kb_ui k)); [apply Hf|done]. Qed.

Lemma handle_state_normal_ok garbage (k k' : keyboard) :
  ranges_ok k ->
  handle_state_normal outside macros_storage macro_def_infos program_addr vms_addr storage_errno CONST_MSG
    CONSTANT_STORAGE garbage k = Some k' -> ranges_ok k'.
Proof.
  intros Hk. unfold handle_state_normal, dispatch. destruct (_ || _); [by intros [= <-]|]. cbv zeta.
  destruct (Keyboard.command _ _ _ _ _ _ _) eqn:E; [intros [= <-]; by eapply command_ok|].
  by apply run_trigger_ok.
Qed.

Lemma handle_state_programming_ok garbage (k : keyboard) :
  ranges_ok k ->
  ranges_ok (handle_state_programming outside outside_default CONST_MSG CONSTANT_STORAGE garbage k).
Proof.
  intros Hk. unfold handle_state_programming. destruct (_ || _); [done|].
  destruct (_ =? _); [destruct (keystate_check_keys _ _ _ _); [by apply goto_state_ok|done]|].
  cbv zeta. destruct (SPECIAL_HID_KEY_NOREMAP _); [done|].
  destruct (bool_decide _); apply goto_state_ok; [by apply on_ui_ok|by apply run_config__ok].
Qed.

Lemma handle_state_macro_record_trigger_ok (k : keyboard) :
  ranges_ok k -> ranges_ok (handle_state_macro_record_trigger outside macros_storage k).
Proof.
  intros Hk. unfold handle_state_macro_record_trigger.
  destruct (_ >? 0); [|by apply goto_state_ok]. destruct (stop_recording _ _); [by apply goto_state_ok|].
  destruct (_ >? _); [by apply goto_state_ok, on_ui_ok, emit_ok|].
  destruct (_ >=? _); [by apply on_ui_ok|].
  destruct (macro_idx_format_key _ _) as [valid key]. cbv zeta.
  set (k1 := on_ui _ k). assert (Hk1 : ranges_ok k1) by (by apply on_ui_ok).
  destruct (negb valid); [done|].
  pose proof (run_macros_ok (macros_start_macro macros_storage key) k1 Hk1) as Hk2.
  destruct (run_macros _ k1) as [[] k2]; by apply goto_state_ok.
Qed.

Lemma handle_state_macro_record_ok (k : keyboard) :
  ranges_ok k -> ranges_ok (handle_state_macro_record outside macros_storage k).
Proof.
  intros Hk. unfold handle_state_macro_record. cbv zeta. set (k1 := if negb _ then _ else _).
  assert (Hk1 : ranges_ok k1) by (unfold k1; destruct (negb _); [by apply (on_ui_ok (ui_recording_macro true))|done]).
  destruct (stop_recording _ _); [|done].
  apply goto_state_ok, (run_macros_ok (fun m => (tt, macros_commit_macro macros_storage m))).
  by apply (on_ui_ok (ui_recording_macro false)).
Qed.

Lemma lcd_update_ok (k : keyboard) : ranges_ok k -> ranges_ok (lcd_update CONST_MSG CONSTANT_STORAGE k).
Proof.
  intros Hk. unfold lcd_update. cbv zeta. destruct (negb _).
  - destruct (negb _); [by apply on_ui_ok, emit_ok|]. destruct (_ >=? _); [by apply on_ui_ok, emit_ok|done].
  - destruct (_ =? _); [|done]. apply emit_ok.
    apply (store_number_ok _ _ _ _ _ _ wheel_number); [by intros x c [] Hx; constructor|].
    apply (store_number_ok _ _ _ _ _ _ mouse_number); [by intros x c [] Hx; constructor|].
    apply (store_number_ok _ _ _ _ _ _ debounce_number); [by intros x c [] Hx; constructor|].
    by apply on_ui_ok.
Qed.

Lemma update_slice_ok i (k : keyboard) : ranges_ok k -> ranges_ok (update_slice outside i k).
Proof.
  intros Hk. unfold update_slice. cbv zeta. destruct (_ && _).
  - apply on_ui_ok; [done|]. unfold ledstate_update. apply emit_ok.
    eapply same_settings_ok; [apply keyboard_update_settings|done].
  - destruct (_ && _); [by apply on_ui_ok|done].
Qed.

Lemma handle_state_ok i (k k' : keyboard) :
  ranges_ok k ->
  handle_state outside outside_default macros_storage macro_def_infos program_addr vms_addr storage_errno
    CONST_MSG CONSTANT_STORAGE sram_read_byte avr_pgm_read_byte i k = Some k' -> ranges_ok k'.
Proof.
  intros Hk. unfold handle_state. destruct (current_state _).
  - by apply handle_state_normal_ok.
  - intros [= <-]. unfold handle_state_waiting. destruct (_ || _); [|done].
    by apply goto_state_ok, on_ui_ok.
  - intros [= <-]. unfold handle_state_printing. destruct (printing_buffer_empty _ _ _); [by apply on_ui_ok|done].
  - intros [= <-]. by apply handle_state_programming_ok.
  - intros [= <-]. by apply handle_state_programming_ok.
  - intros [= <-]. by apply handle_state_macro_record_trigger_ok.
  - intros [= <-]. by apply handle_state_macro_record_ok.
  - by intros [= <-].
  - by intros [= <-].
Qed.

Lemma main_iteration_ok i (k k' : keyboard) : ranges_ok k -> main_iteration i k = Some k' -> ranges_ok k'.
Proof.
  intros Hk. unfold Keyboard.main_iteration. cbv zeta.
  intros (k1 & E1 & E2)%bind_Some.
  assert (Hk1 : ranges_ok k1).
  { eapply handle_state_ok; [|exact E1]. apply lcd_update_ok.
    unfold check_photosensor. destruct (photosensor i); [apply goto_state_ok|]; by apply (update_slice_ok i k). }
  clear E1 Hk. unfold run_vms in E2. destruct (bool_decide _); [|by injection E2 as <-].
  destruct (vm_step_all _ _ _ _) as [[]|]; [|done]. by injection E2 as <-.
Qed.

Lemma Fill_KeyboardReport_settings r (k : keyboard) :
  same_settings k (Fill_KeyboardReport outside sram_read_byte avr_pgm_read_byte r k).1.
Proof.
  unfold Fill_KeyboardReport. cbv zeta. destruct (current_state _); try done.
  - by destruct (vm_append_KeyboardReport _ _).
  - by destruct (negb _).
  - by destruct (printing_Fill_KeyboardReport _ _ _ _ _).
  - by destruct (macros_fill_next_report _ _) as [[[] ?] ?].
  - by destruct (macros_fill_next_report _ _) as [[[] ?] ?].
Qed.

Lemma Fill_MouseReport_settings r (k : keyboard) : same_settings k (Fill_MouseReport outside r k).1.
Proof.
  unfold Fill_MouseReport. destruct (keystate_Fill_MouseReport _ _ _) as [s filled].
  destruct (current_state _); try done. by destruct (vm_append_MouseReport _ _).
Qed.

Lemma keyboard_step_ok e (k k' : keyboard) : ranges_ok k -> keyboard_step e k = Some k' -> ranges_ok k'.
Proof.
  intros Hk. destruct e; cbn [Keyboard.keyboard_step].
  - by apply main_iteration_ok.
  - by intros [= <-].
  - pose proof (Fill_KeyboardReport_settings empty_keyboard_report k) as Hf.
    destruct (Fill_KeyboardReport _ _ _ _ _) as [k1 r]. intros [= <-].
    eapply same_settings_ok; [|exact Hk]. exact Hf.
  - intros [= <-]. eapply same_settings_ok; [apply Fill_MouseReport_settings|done].
  - intros [= <-]. unfold Process_KeyboardLEDReport. by destruct (negb _).
  - by intros [= <-].
Qed.

(** The invariant rule for runs of the keyboard. *)
Lemma keyboard_run_ind (P : keyboard -> Prop) (allowed : kbd_input -> Prop) es (k k' : keyboard) :
  (forall e k k', allowed e -> P k -> keyboard_step e k = Some k' -> P k') ->
  Forall allowed es -> P k -> keyboard_run es k = Some k' -> P k'.
Proof.
  intros Hstep Hes. revert k. induction Hes as [|e es He Hes IH]; intros k Hk; cbn.
  - by intros [= <-].
  - intros (k1 & E1 & E2)%bind_Some. eauto.
Qed.

(** ** The modes *)

(** What the modes depend on. *)
Definition mode (k : keyboard) : bool * bool * kstate * Z :=
  (hook_registered (kb_keys k), recording_macro (kb_ui k), current_state (kb_ui k), wait_key_press_count (kb_ui k)).

Record mode_ok (k : keyboard) : Prop := mkModeOk {
  hook_recording : hook_registered (kb_keys k) = recording_macro (kb_ui k);
  recording_state : recording_macro (kb_ui k) = true -> current_state (kb_ui k) = STATE_MACRO_RECORD;
  wait_count_state : wait_key_press_count (kb_ui k) <> 0 ->
    current_state (kb_ui k) ∈ [STATE_WAITING; STATE_MERGING_MACRO_PLAY; STATE_MACRO_PLAY]
}.

Lemma mode_ok_same (k k' : keyboard) : mode k' = mode k -> mode_ok k -> mode_ok k'.
Proof. intros [= E1 E2 E3 E4] []. constructor; rewrite ?E1, ?E2, ?E3, ?E4; done. Qed.

(** Not recording: the hook is off. *)
Definition idle (k : keyboard) : Prop :=
  hook_registered (kb_keys k) = false /\ recording_macro (kb_ui k) = false.
(** Nor is a key count set. *)
Definition resting (k : keyboard) : Prop := idle k /\ wait_key_press_count (kb_ui k) = 0.

Lemma resting_ok k : resting k -> mode_ok k.
Proof. intros [[H1 H2] H3]. constructor; rewrite ?H1, ?H2, ?H3; done. Qed.

Lemma idle_waiting_ok k : idle k -> current_state (kb_ui k) = STATE_WAITING -> mode_ok k.
Proof. intros [H1 H2] H3. constructor; rewrite ?H1, ?H2, ?H3; [done..|]. intros _. apply list_elem_of_here. Qed.

Lemma mode_idle k : mode_ok k -> current_state (kb_ui k) <> STATE_MACRO_RECORD -> idle k.
Proof.
  intros [H1 H2 _] Hs. unfold idle. rewrite H1. destruct (recording_macro _); [by rewrite H2 in Hs|done].
Qed.

Lemma mode_resting k :
  mode_ok k -> current_state (kb_ui k) <> STATE_MACRO_RECORD ->
  current_state (kb_ui k) ∉ [STATE_WAITING; STATE_MERGING_MACRO_PLAY; STATE_MACRO_PLAY] -> resting k.
Proof.
  intros Hk Hr Hn. split; [by apply mode_idle|]. destruct Hk as [_ _ H3].
  destruct (Z.eq_dec (wait_key_press_count (kb_ui k)) 0); [done|]. by destruct (Hn (H3 n)).
Qed.

Lemma macro_record_hook_mode s key press (k : keyboard) :
  hook_registered (kb_keys k) = true -> mode_ok k -> mode_ok (macro_record_hook s key press k).
Proof.
  intros Hh Hk. unfold Keyboard.macro_record_hook. destruct (keystate_check_key _ _ _ _); [done|].
  destruct (_ >=? _); [done|]. unfold run_macros_, run_macros. destruct (macros_append _ _) as [[] m].
  - by apply (mode_ok_same k).
  - by apply idle_waiting_ok.
Qed.

Lemma keys_calls_mode s es (k : keyboard) : mode_ok k -> mode_ok (fold_left (keys_call s) es k).
Proof.
  revert k. induction es as [|e es IH]; intros k Hk; [done|]. cbn [fold_left]. apply IH.
  destruct e; cbn; [|by apply (mode_ok_same k)..].
  destruct (hook_registered _) eqn:E; [by apply macro_record_hook_mode|done].
Qed.

Lemma run_keys_mode f (k : keyboard) : keeps_hook f -> mode_ok k -> mode_ok (run_keys f k).
Proof.
  intros Hf Hk. apply keys_calls_mode. apply (mode_ok_same k); [|done]. unfold mode. cbn. by rewrite Hf.
Qed.

Lemma update_end_mode v ch n (k : keyboard) :
  mode_ok k ->
  let k' := for_range 0 n (fun j => run_keys (notify_step v ch j)) k in
  mode_ok (set_keys (set_prev_layer (layer (kb_keys k')) (kb_keys k')) k').
Proof.
  intros Hk. cbv zeta.
  assert (Hk' : mode_ok (for_range 0 n (fun j => run_keys (notify_step v ch j)) k)).
  { apply for_range_inv; [done|]. intros. apply run_keys_mode; [|done]. intros ?. apply notify_step_fields. }
  by eapply mode_ok_same; [|exact Hk'].
Qed.

Lemma keyboard_update_mode matrix (k : keyboard) : mode_ok k -> mode_ok (keyboard_update matrix k).
Proof. intros Hk. unfold Keyboard.keyboard_update. apply update_end_mode, run_keys_mode; [|done]. intros ?. apply scan_keys_hook. Qed.

(** The rest of an iteration changes the hook only where recording starts and ends. *)
Lemma run_config_mode {A} (f : config_state -> A * config_state) (k : keyboard) :
  mode (run_config f k).2 = mode k.
Proof. by destruct (run_config_spec CONST_MSG CONSTANT_STORAGE f k) as (p & o & ->). Qed.

Lemma run_config__mode f (k : keyboard) : mode (run_config_ f k) = mode k.
Proof. apply (run_config_mode (fun c => (tt, f c))). Qed.

Lemma run_macros_mode {A} (f : macro_state -> A * macro_state) (k : keyboard) :
  mode (run_macros f k).2 = mode k.
Proof. unfold run_macros. by destruct (f _). Qed.

Lemma run_reset_mode (k : keyboard) : mode (run_reset k) = mode k.
Proof.
  pose proof (run_reset_spec macros_storage macro_def_infos CONST_MSG CONSTANT_STORAGE k) as Hr.
  destruct (config_reset_fully _ _ _) as [c m]. by destruct Hr as (p & o & ->).
Qed.

Lemma mode_idle_same (k k' : keyboard) : mode k' = mode k -> idle k -> idle k'.
Proof. unfold idle. by intros [= -> -> _ _]. Qed.
Lemma mode_resting_same (k k' : keyboard) : mode k' = mode k -> resting k -> resting k'.
Proof. unfold resting, idle. by intros [= -> -> _ ->]. Qed.

Lemma waiting_ok next (k : keyboard) : idle k -> mode_ok (goto_state STATE_WAITING next k).
Proof. intros Hk. by apply idle_waiting_ok. Qed.

Lemma goto_resting_ok cur next (k : keyboard) : resting k -> mode_ok (goto_state cur next k).
Proof. intros Hk. by apply resting_ok. Qed.

Lemma store_number_mode get set current save (k : keyboard) :
  (forall x u, recording_macro (set x u) = recording_macro u /\ current_state (set x u) = current_state u /\
     wait_key_press_count (set x u) = wait_key_press_count u) ->
  mode (store_number CONST_MSG CONSTANT_STORAGE get set current save k) = mode k.
Proof.
  intros Hset. unfold store_number. destruct (negb (_ =? 0)); [|done]. cbv zeta.
  set (k1 := if negb _ then _ else _).
  assert (E : mode k1 = mode k) by (unfold k1; destruct (negb _); [apply run_config__mode|done]).
  rewrite <- E. unfold mode. cbn. by destruct (Hset 0 (kb_ui k1)) as (-> & -> & ->).
Qed.

Lemma lcd_update_mode (k : keyboard) : mode (lcd_update CONST_MSG CONSTANT_STORAGE k) = mode k.
Proof.
  unfold lcd_update. cbv zeta. destruct (negb _).
  - destruct (negb _); [done|]. by destruct (_ >=? _).
  - destruct (_ =? _); [|done].
    do 3 (etransitivity; [by refine (store_number_mode _ _ _ _ _ _)|]). done.
Qed.

Lemma setup_number_mode_ok get set current up lowest highest (k : keyboard) :
  (forall x u, recording_macro (set x u) = recording_macro u) -> resting k ->
  mode_ok (setup_number get set current up lowest highest k).
Proof.
  intros Hset Hk. unfold setup_number. destruct (_ && _); [by apply resting_ok|]. cbv zeta.
  apply waiting_ok. destruct Hk as [[H1 H2] _]. split; [done|]. cbn. by rewrite Hset.
Qed.

Lemma layout_command_mode_ok (f : config_state -> bool * config_state) (k : keyboard) tone1 tone2 :
  resting k ->
  mode_ok (let '(success, k) := run_config f k in
    if success : bool then goto_state STATE_WAITING STATE_NORMAL (emit (Buzz 200 tone1) k)
    else goto_state STATE_PRINTING STATE_NORMAL (emit (Buzz 200 tone2) k)).
Proof.
  intros Hk. pose proof (mode_resting_same k _ (run_config_mode f k) Hk) as Hk'.
  destruct (run_config f k) as [[] k']; by apply goto_resting_ok.
Qed.

Lemma command_mode_ok macro_key (k k' : keyboard) : resting k -> command macro_key k = Some k' -> mode_ok k'.
Proof.
  intros Hk. unfold Keyboard.command. destruct (_ && _); [|done]. destruct (_ =? _); [|done].
  destruct (_ =? _)%nat.
  - unfold Keyboard.command2.
    repeat match goal with |- (if ?b then _ else _) = _ -> _ => destruct b end; intros [= <-];
      first [by apply setup_number_mode_ok | by apply goto_resting_ok | idtac].
    + by apply resting_ok.
    + unfold toggle_macros. apply goto_resting_ok.
      eapply mode_resting_same; [apply run_config__mode|done].
    + apply goto_resting_ok. eapply mode_resting_same; [apply run_config__mode|done].
    + unfold toggle_sound. apply goto_resting_ok.
      eapply mode_resting_same; [apply run_config__mode|done].
  - unfold Keyboard.command3.
    repeat match goal with |- (if ?b then _ else _) = _ -> _ => destruct b end; intros [= <-];
      try by apply layout_command_mode_ok.
    apply goto_resting_ok. eapply mode_resting_same; [apply run_reset_mode|done].
Qed.

Lemma trigger_macro_mode_ok key offset multi (k : keyboard) :
  resting k -> mode_ok (trigger_macro outside macros_storage key offset multi k).
Proof.
  intros Hk. unfold trigger_macro.
  pose proof (mode_resting_same k _ (run_macros_mode (macros_start_playback macros_storage offset) k) Hk) as Hk'.
  destruct (run_macros _ k) as [[] k1]; [|by apply resting_ok].
  destruct Hk' as [[H1 H2] H3]. cbn in H1, H2, H3. constructor; cbn.
  - by rewrite H1, H2.
  - by rewrite H2.
  - intros _. destruct multi; set_solver.
Qed.

Lemma run_trigger_mode_ok macro_key (k k' : keyboard) :
  resting k -> run_trigger macro_key k = Some k' -> mode_ok k'.
Proof.
  intros Hk. unfold Keyboard.run_trigger. destruct (negb _); [intros [= <-]; by apply resting_ok|].
  destruct (find_trigger _ _ _) as [[[key h] multi]|]; [|intros [= <-]; by apply resting_ok].
  destruct (type _).
  - destruct (_ && _); intros [= <-]; [by apply trigger_macro_mode_ok|by apply resting_ok].
  - destruct (_ && _); [|intros [= <-]; by apply resting_ok]. unfold Keyboard.trigger_program.
    destruct (keystate_is_key_hidden _ _); [intros [= <-]; by apply resting_ok|]. cbv zeta.
    destruct (_ <? _)%nat; [|done]. destruct (vm_start _ _ _ _ _ _) as [[]|]; [|done]. intros [= <-].
    destruct Hk as [[H1 H2] H3]. apply resting_ok. split; [split|]; try done. cbn -[keystate_hide_key].
    apply (for_range_inv (fun s => hook_registered s = false)); done.
Qed.

Lemma handle_state_normal_mode_ok garbage (k k' : keyboard) :
  resting k ->
  handle_state_normal outside macros_storage macro_def_infos program_addr vms_addr storage_errno CONST_MSG
    CONSTANT_STORAGE garbage k = Some k' -> mode_ok k'.
Proof.
  intros Hk. unfold handle_state_normal, dispatch. destruct (_ || _); [intros [= <-]; by apply resting_ok|]. cbv zeta.
  destruct (Keyboard.command _ _ _ _ _ _ _) eqn:E; [intros [= <-]; by eapply command_mode_ok|].
  by apply run_trigger_mode_ok.
Qed.

Lemma handle_state_programming_mode_ok garbage (k : keyboard) :
  resting k ->
  mode_ok (handle_state_programming outside outside_default CONST_MSG CONSTANT_STORAGE garbage k).
Proof.
  intros Hk. unfold handle_state_programming. destruct (_ || _); [by apply resting_ok|].
  destruct (_ =? _);
    [destruct (keystate_check_keys _ _ _ _); [by apply goto_resting_ok|by apply resting_ok]|].
  cbv zeta. destruct (SPECIAL_HID_KEY_NOREMAP _); [by apply resting_ok|].
  destruct (bool_decide _); apply goto_resting_ok; [done|].
  eapply mode_resting_same; [apply run_config__mode|done].
Qed.

Lemma handle_state_macro_record_trigger_mode_ok (k : keyboard) :
  resting k -> mode_ok (handle_state_macro_record_trigger outside macros_storage k).
Proof.
  intros Hk. unfold handle_state_macro_record_trigger.
  destruct (_ >? 0); [|by apply goto_resting_ok]. destruct (stop_recording _ _); [by apply goto_resting_ok|].
  destruct (_ >? _); [by apply goto_resting_ok|]. destruct (_ >=? _); [by apply resting_ok|].
  destruct (macro_idx_format_key _ _) as [valid key]. cbv zeta.
  destruct (negb valid); [by apply resting_ok|]. set (k1 := on_ui _ k).
  pose proof (run_macros_mode (macros_start_macro macros_storage key) k1) as Hk1.
  destruct (run_macros _ k1) as [[] k2]; apply goto_resting_ok; by eapply mode_resting_same; [exact Hk1|].
Qed.

Lemma handle_state_macro_record_mode_ok (k : keyboard) :
  mode_ok k -> current_state (kb_ui k) = STATE_MACRO_RECORD ->
  mode_ok (handle_state_macro_record outside macros_storage k).
Proof.
  intros [H1 H2 H3] Hs. unfold handle_state_macro_record. cbv zeta. set (k1 := if negb _ then _ else _).
  assert (Hk1 : mode k1 = (true, true, STATE_MACRO_RECORD, wait_key_press_count (kb_ui k))).
  { unfold k1, mode. destruct (recording_macro (kb_ui k)) eqn:E; cbn [negb]; cbn; by rewrite ?Hs, ?H1, ?E. }
  destruct (stop_recording _ _).
  - by apply waiting_ok.
  - injection Hk1 as E1 E2 E3 E4. constructor; rewrite ?E1, ?E2, ?E3, ?E4; [done..|]. by rewrite <- Hs.
Qed.

Lemma handle_state_mode_ok i (k k' : keyboard) :
  mode_ok k ->
  handle_state outside outside_default macros_storage macro_def_infos program_addr vms_addr storage_errno
    CONST_MSG CONSTANT_STORAGE sram_read_byte avr_pgm_read_byte i k = Some k' -> mode_ok k'.
Proof.
  intros Hk. pose proof (mode_idle k Hk) as Hi. pose proof (mode_resting k Hk) as Hr.
  unfold handle_state. destruct (current_state _) eqn:E.
  - apply handle_state_normal_mode_ok. apply Hr; [done|set_solver].
  - intros [= <-]. unfold handle_state_waiting. destruct (_ || _); [|done].
    apply goto_resting_ok. destruct Hi as [H1 H2]; done.
  - intros [= <-]. unfold handle_state_printing. destruct (printing_buffer_empty _ _ _); [|done].
    apply idle_waiting_ok; [|done]. destruct Hi as [H1 H2]; done.
  - intros [= <-]. apply handle_state_programming_mode_ok. apply Hr; [done|set_solver].
  - intros [= <-]. apply handle_state_programming_mode_ok. apply Hr; [done|set_solver].
  - intros [= <-]. apply handle_state_macro_record_trigger_mode_ok. apply Hr; [done|set_solver].
  - intros [= <-]. by apply handle_state_macro_record_mode_ok.
  - by intros [= <-].
  - by intros [= <-].
Qed.

(** Inputs without a message of the photo sensor, which only debug builds print. *)
Definition quiet_input (e : kbd_input) : Prop :=
  match e with Iteration i => photosensor i = None | _ => True end.

Lemma ledstate_update_mode (k : keyboard) : mode (on_ui (ui_update_keys false) (ledstate_update k)) = mode k.
Proof. done. Qed.

Lemma update_slice_mode_ok i (k : keyboard) : mode_ok k -> mode_ok (update_slice outside i k).
Proof.
  intros Hk. unfold update_slice. cbv zeta. destruct (_ && _).
  - eapply mode_ok_same; [apply ledstate_update_mode|by apply keyboard_update_mode].
  - destruct (_ && _); [by apply (mode_ok_same k)|done].
Qed.

Lemma main_iteration_mode_ok i (k k' : keyboard) :
  photosensor i = None -> mode_ok k -> main_iteration i k = Some k' -> mode_ok k'.
Proof.
  intros Hp Hk. unfold Keyboard.main_iteration, check_photosensor. rewrite Hp. cbv zeta.
  intros (k1 & E1 & E2)%bind_Some.
  assert (Hk1 : mode_ok k1).
  { eapply handle_state_mode_ok; [|exact E1]. eapply mode_ok_same; [apply lcd_update_mode|].
    by apply update_slice_mode_ok. }
  unfold run_vms in E2. destruct (bool_decide _); [|by injection E2 as <-].
  destruct (vm_step_all _ _ _ _) as [[]|]; [|done]. injection E2 as <-. by apply (mode_ok_same k1).
Qed.

Lemma Fill_KeyboardReport_mode_ok r (k : keyboard) :
  mode_ok k -> mode_ok (Fill_KeyboardReport outside sram_read_byte avr_pgm_read_byte r k).1.
Proof.
  intros Hk. pose proof (mode_idle k Hk) as Hi. unfold Fill_KeyboardReport. cbv zeta.
  destruct (current_state _) eqn:E; try done.
  - destruct (vm_append_KeyboardReport _ _). by apply (mode_ok_same k).
  - by destruct (negb _).
  - destruct (printing_Fill_KeyboardReport _ _ _ _ _). by apply (mode_ok_same k).
  - destruct (macros_fill_next_report _ _) as [[[] ?] ?]; cbn; [by apply (mode_ok_same k)|].
    apply waiting_ok. by apply Hi.
  - destruct (macros_fill_next_report _ _) as [[[] ?] ?]; cbn; [by apply (mode_ok_same k)|].
    apply waiting_ok. by apply Hi.
Qed.

Lemma Fill_MouseReport_mode r (k : keyboard) : mode (Fill_MouseReport outside r k).1 = mode k.
Proof.
  unfold Fill_MouseReport. destruct (keystate_Fill_MouseReport _ _ _) as [s filled] eqn:E.
  assert (Hs : hook_registered s = hook_registered (kb_keys k)).
  { rewrite <- (f_equal fst E : _ = s). unfold keystate_Fill_MouseReport. cbv zeta.
    destruct (negb _); [done|]. destruct (mouse_slots _ _ _ _) as [mo r'].
    destruct (adjust_speed_and_report _ _ _), (adjust_speed_and_report _ _ _).
    destruct (negb _); [done|].
    by destruct (adjust_speed_and_report _ _ _), (adjust_speed_and_report _ _ _). }
  unfold mode. destruct (current_state _) eqn:Ec; try destruct (vm_append_MouseReport _ _);
    cbn; by rewrite ?Hs, Ec.
Qed.

Lemma keyboard_step_mode_ok e (k k' : keyboard) :
  quiet_input e -> mode_ok k -> keyboard_step e k = Some k' -> mode_ok k'.
Proof.
  intros He Hk. destruct e; cbn [Keyboard.keyboard_step].
  - by apply (main_iteration_mode_ok i k k' He).
  - intros [= <-]. by apply (mode_ok_same k).
  - pose proof (Fill_KeyboardReport_mode_ok empty_keyboard_report k Hk) as Hf.
    destruct (Fill_KeyboardReport _ _ _ _ _) as [k1 r]. intros [= <-]. by eapply mode_ok_same; [|exact Hf].
  - intros [= <-]. eapply mode_ok_same; [apply Fill_MouseReport_mode|done].
  - intros [= <-]. unfold Process_KeyboardLEDReport. destruct (negb _); by apply (mode_ok_same k).
  - intros [= <-]. by apply (mode_ok_same k).
Qed.
End Proofs.
