(* ===== verification/KeyboardRuns.v ===== *)
(** * Keyboard.c: runs of the main loop

    What happens over many iterations: typing out a message, playing a macro
    and waiting for the keys to be released, with the host's requests, the
    passing of time and the iterations in any order. *)

From Stdlib Require Import String.
From stdpp Require Import relations.
From S2P Require Import Prelude Sort Hid ExtraReport Printing Hardware Keystate KeystateReports MacroIndex.
From S2P Require Import Storage Macro Config Interpreter Keyboard KeyboardProofs KeyboardInv.
Open Scope Z_scope.

(** Between two requests of the host for a keyboard report the main loop
    iterates, as it does in the firmware, where the requests are answered at
    the end of an iteration; [fresh]: it has iterated since the last request. *)
Fixpoint paced (fresh : bool) (es : list kbd_input) : bool :=
  match es with
  | [] => true
  | Iteration _ :: es => paced true es
  | KeyboardPoll :: es => fresh && paced false es
  | _ :: es => paced fresh es
  end.

Definition is_poll (e : kbd_input) : bool := match e with KeyboardPoll => true | _ => false end.
Definition polls (es : list kbd_input) : nat := length (List.filter is_poll es).

Section Proofs.
Context {H : Hardware} {K : HotKeys} {L : Leds} {M : Type} {St : Storage M}.
Context (outside outside_default : Z -> Z) (macros_storage : Z) (macro_def_infos : list macro_def_info).
Context (program_addr : Z) (vms_addr : nat -> Z) (storage_errno : Z).
Context (CONST_MSG : string -> Z) (CONSTANT_STORAGE : storage_type) (sram_read_byte avr_pgm_read_byte : Z -> Z).

Abbreviation keyboard := (keyboard (M:=M)).
Abbreviation update_slice := (update_slice outside).
Abbreviation lcd_update := (lcd_update CONST_MSG CONSTANT_STORAGE).
Abbreviation Fill_KeyboardReport := (Fill_KeyboardReport outside sram_read_byte avr_pgm_read_byte).
Abbreviation main_iteration := (main_iteration outside outside_default macros_storage macro_def_infos program_addr vms_addr
  storage_errno CONST_MSG CONSTANT_STORAGE sram_read_byte avr_pgm_read_byte).
Abbreviation keyboard_step := (keyboard_step outside outside_default macros_storage macro_def_infos program_addr vms_addr
  storage_errno CONST_MSG CONSTANT_STORAGE sram_read_byte avr_pgm_read_byte).
Abbreviation keyboard_run := (keyboard_run outside outside_default macros_storage macro_def_infos program_addr vms_addr
  storage_errno CONST_MSG CONSTANT_STORAGE sram_read_byte avr_pgm_read_byte).

(** The reports the host gets during a run. *)
Fixpoint keyboard_reports (es : list kbd_input) (k : keyboard) : list KeyboardReport_Data_t :=
  match es with
  | [] => []
  | e :: es =>
      (if is_poll e then [(Fill_KeyboardReport empty_keyboard_report k).2] else [])
      ++ match keyboard_step e k with Some k => keyboard_reports es k | None => [] end
  end.

(** ** What an iteration keeps while nothing is recorded *)

(** The part of the state that typing depends on. *)
Definition typing (k : keyboard) :=
  (kb_print k, prev_report k, kb_macros k, (current_state (kb_ui k), next_state (kb_ui k)),
   wait_key_press_count (kb_ui k), (hook_registered (kb_keys k), recording_macro (kb_ui k)),
   config_out (kb_config k)).

(** No hook, and no message pending in the configuration. *)
Definition calm (k : keyboard) : Prop := idle k /\ config_out (kb_config k) = [].

Lemma calm_same (k k' : keyboard) : typing k' = typing k -> calm k -> calm k'.
Proof. unfold calm, idle. by intros [= _ _ _ _ _ _ -> -> ->]. Qed.

Lemma run_config__silent f (k : keyboard) :
  config_out (f (kb_config k)) = [] ->
  run_config_ CONST_MSG CONSTANT_STORAGE f k = set_config (no_config_out (f (kb_config k))) k.
Proof. intros E. unfold run_config_, run_config. cbn. by rewrite E. Qed.

Lemma store_number_typing get set current save (k : keyboard) :
  (forall x u, (current_state (set x u), next_state (set x u), wait_key_press_count (set x u), recording_macro (set x u))
     = (current_state u, next_state u, wait_key_press_count u, recording_macro u)) ->
  (forall x c, config_out (save x c) = config_out c) ->
  config_out (kb_config k) = [] ->
  typing (store_number CONST_MSG CONSTANT_STORAGE get set current save k) = typing k.
Proof.
  intros Hset Hsave Hk. unfold store_number. destruct (negb (_ =? 0)); [|done]. cbv zeta.
  set (k1 := if negb _ then _ else _).
  assert (E : typing k1 = typing k).
  { unfold k1. destruct (negb _); [|done]. rewrite run_config__silent by (by rewrite Hsave).
    unfold typing. cbn. by rewrite Hk. }
  rewrite <- E. unfold typing. cbn. pose proof (Hset 0 (kb_ui k1)) as [= -> -> -> ->]. done.
Qed.

Lemma lcd_update_typing (k : keyboard) : config_out (kb_config k) = [] -> typing (lcd_update k) = typing k.
Proof.
  intros Hk. unfold Keyboard.lcd_update. cbv zeta. destruct (negb _).
  - destruct (negb _); [done|]. by destruct (_ >=? _).
  - destruct (_ =? _); [|done].
    assert (Hout : forall k1 k2 : keyboard, typing k1 = typing k2 -> config_out (kb_config k2) = [] ->
              config_out (kb_config k1) = []) by (by intros k1 k2 [= _ _ _ _ _ _ _ _ ->]).
    set (k0 := on_ui (ui_in_prg_chord_with_lcd_info false) k).
    pose proof (store_number_typing new_debounce_len ui_new_debounce_len config_get_debounce_len
                  config_save_debounce_len k0 ltac:(done) ltac:(done) Hk) as E1. set (k1 := store_number _ _ _ _ _ _ k0) in *.
    pose proof (store_number_typing new_mouse_div ui_new_mouse_div config_get_mouse_div
                  config_save_mouse_div k1 ltac:(done) ltac:(done) (Hout _ _ E1 Hk)) as E2. set (k2 := store_number _ _ _ _ _ _ k1) in *.
    pose proof (store_number_typing new_wheel_div ui_new_wheel_div config_get_wheel_div
                  config_save_wheel_div k2 ltac:(done) ltac:(done) (Hout _ _ E2 (Hout _ _ E1 Hk))) as E3.
    transitivity (typing k0); [|done]. by rewrite <- E1, <- E2, <- E3.
Qed.

Lemma ledstate_update_typing (k : keyboard) :
  typing (on_ui (ui_update_keys false) (ledstate_update k)) = typing k.
Proof. done. Qed.

Lemma update_slice_typing i (k : keyboard) :
  hook_registered (kb_keys k) = false -> typing (update_slice i k) = typing k.
Proof.
  intros Hk. unfold Keyboard.update_slice. cbv zeta. destruct (_ && _); [|by destruct (_ && _)].
  rewrite ledstate_update_typing.
  destruct (keyboard_update_quiet outside (matrix i) k Hk) as (s & o & -> & Hs).
  unfold typing. cbn. by rewrite Hs, Hk.
Qed.

(** The part of an iteration before the switch over the state. *)
Definition before_switch (i : inputs) (k : keyboard) : keyboard := lcd_update (update_slice i k).

Lemma before_switch_typing i (k : keyboard) : calm k -> typing (before_switch i k) = typing k.
Proof.
  intros [[Hh Hr] Hc]. unfold before_switch. pose proof (update_slice_typing i k Hh) as E.
  rewrite lcd_update_typing; [done|]. injection E as _ _ _ _ _ _ _ _ E. by rewrite E.
Qed.

Lemma main_iteration_split i (k : keyboard) :
  photosensor i = None ->
  main_iteration i k
  = (k ← handle_state outside outside_default macros_storage macro_def_infos program_addr vms_addr storage_errno
       CONST_MSG CONSTANT_STORAGE sram_read_byte avr_pgm_read_byte i (before_switch i k);
     run_vms outside program_addr vms_addr k).
Proof. intros Hp. unfold Keyboard.main_iteration, check_photosensor. by rewrite Hp. Qed.

(** Outside the normal state the interpreter stands still. *)
Lemma run_vms_stopped (k : keyboard) :
  current_state (kb_ui k) <> STATE_NORMAL -> run_vms outside program_addr vms_addr k = Some k.
Proof. intros Hk. unfold run_vms. by rewrite bool_decide_false. Qed.

Definition is_iteration (e : kbd_input) : bool := match e with Iteration _ => true | _ => false end.

(** States in which neither the mouse nor the interpreter is at work. *)
Definition typing_state (st : kstate) : bool :=
  match st with STATE_NORMAL | STATE_MACRO_RECORD => false | _ => true end.

Lemma other_input_typing e (k : keyboard) :
  is_poll e = false -> is_iteration e = false -> typing_state (current_state (kb_ui k)) = true ->
  exists k', keyboard_step e k = Some k' /\ typing k' = typing k.
Proof.
  intros Hp Hi Hs. destruct e; try done; cbn [Keyboard.keyboard_step]; eexists; (split; [reflexivity|]).
  - done.
  - unfold Fill_MouseReport. destruct (keystate_Fill_MouseReport _ _ _). by destruct (current_state _).
  - unfold Process_KeyboardLEDReport. by destruct (negb _).
  - done.
Qed.

(** ** Typing out a message *)

Section Message.
Context (typ : storage_type) (buf : Z) (msg : list Z) (next : kstate).
Let read (a : Z) : Z := print_buffer_get sram_read_byte avr_pgm_read_byte (mkPrinting typ a).
Context (Hmsg : forall j c, msg !! j = Some c -> read (buf + Z.of_nat j) = c /\ c <> 0)
  (Hend : read (buf + Z.of_nat (length msg)) = 0)
  (Hbuf : 0 <= buf) (Hlast : buf + Z.of_nat (length msg) < 65536).

(** The first [j] characters have been sent. *)
Definition printing_at (j : nat) (k : keyboard) : Prop :=
  calm k /\ current_state (kb_ui k) = STATE_PRINTING /\ next_state (kb_ui k) = next /\
  kb_print k = mkPrinting typ (buf + Z.of_nat j) /\ (j <= length msg)%nat.

(** A key of the last report is to be released. *)
Definition release_due (r : KeyboardReport_Data_t) : nat :=
  if (Modifier r =? 0) && (KeyCode r !!! 0%nat =? 0) then 0 else 1.

Lemma printing_at_same j (k k' : keyboard) : typing k' = typing k -> printing_at j k -> printing_at j k'.
Proof.
  intros E (Hc & H1 & H2 & H3 & Hj). split; [by eapply calm_same|]. unfold typing in E.
  injection E as E1 _ _ E4 E5 _ _ _ _. by rewrite E1, E4, E5.
Qed.

Lemma buffer_empty_at j (k : keyboard) :
  printing_at j k ->
  printing_buffer_empty sram_read_byte avr_pgm_read_byte (kb_print k) = (j =? length msg)%nat.
Proof.
  intros (_ & _ & _ & -> & Hj). unfold printing_buffer_empty.
  change (print_buffer_get _ _ _) with (read (buf + Z.of_nat j)).
  destruct (Nat.eqb_spec j (length msg)) as [->|Hne]; [by rewrite Hend|].
  destruct (lookup_lt_is_Some_2 msg j) as [c Hc]; [lia|].
  destruct (Hmsg j c Hc) as [-> ?]. by apply Z.eqb_neq.
Qed.

Lemma printing_iteration i j (k : keyboard) :
  photosensor i = None -> printing_at j k ->
  exists k', main_iteration i k = Some k' /\
    if (j =? length msg)%nat
    then current_state (kb_ui k') = STATE_WAITING /\ next_state (kb_ui k') = next /\ kb_print k' = kb_print k
    else printing_at j k' /\ kb_print k' = kb_print k /\ prev_report k' = prev_report k.
Proof.
  intros Hi Hk. rewrite main_iteration_split by done. set (k0 := before_switch i k).
  assert (E : typing k0 = typing k) by (apply before_switch_typing, Hk).
  pose proof (printing_at_same j k k0 E Hk) as Hk0. pose proof (buffer_empty_at j k0 Hk0) as He.
  destruct Hk0 as (Hc & H1 & H2 & H3 & Hj). injection E as E1 E2 _ _ _ _ _ _ _.
  unfold handle_state. rewrite H1. cbn [mbind option_bind]. unfold handle_state_printing. rewrite He.
  destruct (j =? length msg)%nat.
  - rewrite run_vms_stopped by done. by eexists.
  - rewrite run_vms_stopped by (by rewrite H1). eexists. split; [reflexivity|].
    by rewrite E1, E2.
Qed.

Lemma poll_cases r :
  release_due r = 1%nat -> forall p, poll sram_read_byte avr_pgm_read_byte (p, r) = (p, empty_keyboard_report).
Proof.
  unfold release_due, poll, printing_Fill_KeyboardReport. intros Hr p. cbn [fst snd].
  rewrite <- negb_andb. by destruct (_ && _).
Qed.

Lemma poll_next r j :
  release_due r = 0%nat -> (j < length msg)%nat ->
  exists r', poll sram_read_byte avr_pgm_read_byte (mkPrinting typ (buf + Z.of_nat j), r)
             = (mkPrinting typ (buf + Z.of_nat (S j)), r').
Proof.
  unfold release_due, poll, printing_Fill_KeyboardReport. intros Hr Hj. cbn [fst snd].
  rewrite <- negb_andb. destruct (_ && _); [|done]. cbn [negb print_buffer print_buffer_type].
  rewrite u16_small by (unfold is_u16; lia). destruct (char_to_keys _). eexists. do 2 f_equal. lia.
Qed.

Lemma printing_poll (k : keyboard) :
  current_state (kb_ui k) = STATE_PRINTING ->
  Fill_KeyboardReport empty_keyboard_report k
  = (set_print (poll sram_read_byte avr_pgm_read_byte (kb_print k, prev_report k)).1 k,
     (poll sram_read_byte avr_pgm_read_byte (kb_print k, prev_report k)).2).
Proof.
  intros Hk. unfold Keyboard.Fill_KeyboardReport. rewrite Hk. cbv zeta. unfold poll. cbn [fst snd].
  by destruct (printing_Fill_KeyboardReport _ _ _ _ _).
Qed.

(** After some of the inputs and an iteration the message has been typed out. *)
Definition typed_out (i : inputs) (es : list kbd_input) (k : keyboard) (fuel : nat) : Prop :=
  exists es1 es2 k', es ++ [Iteration i] = es1 ++ es2 /\ keyboard_run es1 k = Some k' /\
    current_state (kb_ui k') = STATE_WAITING /\ next_state (kb_ui k') = next /\
    kb_print k' = mkPrinting typ (buf + Z.of_nat (length msg)) /\
    keyboard_reports es1 k = type_out sram_read_byte avr_pgm_read_byte fuel (kb_print k, prev_report k).

Lemma typed_out_cons i e es (k k1 : keyboard) fuel fuel1 :
  keyboard_step e k = Some k1 ->
  type_out sram_read_byte avr_pgm_read_byte fuel (kb_print k, prev_report k)
  = (if is_poll e then [(Fill_KeyboardReport empty_keyboard_report k).2] else [])
    ++ type_out sram_read_byte avr_pgm_read_byte fuel1 (kb_print k1, prev_report k1) ->
  typed_out i es k1 fuel1 -> typed_out i (e :: es) k fuel.
Proof.
  intros Hstep Htype (es1 & es2 & k' & E & Hrun & H1 & H2 & H3 & H4).
  exists (e :: es1), es2, k'. cbn. rewrite E, Hstep, Htype, H4. by split_and!.
Qed.

(** The iteration that finds the buffer empty. *)
Lemma iteration_typed_out i (k : keyboard) fuel :
  photosensor i = None -> printing_at (length msg) k ->
  exists k', keyboard_run [Iteration i] k = Some k' /\ current_state (kb_ui k') = STATE_WAITING /\
    next_state (kb_ui k') = next /\ kb_print k' = mkPrinting typ (buf + Z.of_nat (length msg)) /\
    keyboard_reports [Iteration i] k = type_out sram_read_byte avr_pgm_read_byte fuel (kb_print k, prev_report k).
Proof.
  intros Hi Hk. destruct (printing_iteration i _ k Hi Hk) as (k' & E & Hk').
  rewrite Nat.eqb_refl in Hk'. destruct Hk' as (H1 & H2 & H3). exists k'.
  pose proof (buffer_empty_at _ k Hk) as He. rewrite Nat.eqb_refl in He.
  destruct Hk as (_ & _ & _ & Hp & _). cbn. rewrite E, H3. split_and!; try done.
  destruct fuel; cbn; by rewrite ?He.
Qed.

(** A request of the host: the next report of [type_out]. *)
Lemma printing_request j (k : keyboard) fuel :
  printing_at j k -> (j < length msg)%nat ->
  exists k1 j1, keyboard_step KeyboardPoll k = Some k1 /\ printing_at j1 k1 /\
    (2 * (length msg - j1) + release_due (prev_report k1) < 2 * (length msg - j) + release_due (prev_report k))%nat /\
    type_out sram_read_byte avr_pgm_read_byte (S fuel) (kb_print k, prev_report k)
    = (Fill_KeyboardReport empty_keyboard_report k).2
      :: type_out sram_read_byte avr_pgm_read_byte fuel (kb_print k1, prev_report k1).
Proof.
  intros Hk Hj. pose proof (buffer_empty_at j k Hk) as He. rewrite (proj2 (Nat.eqb_neq _ _)) in He by lia.
  destruct Hk as (Hc & H1 & H2 & H3 & Hle). cbn [Keyboard.keyboard_step type_out fst].
  rewrite (printing_poll k H1), He. cbn [snd].
  set (st := poll _ _ _). exists (set_prev_report st.2 (set_print st.1 k)).
  destruct (release_due (prev_report k)) as [|[|?]] eqn:Er; [| |by unfold release_due in Er; destruct (_ && _)].
  - exists (S j). assert (Hst : st.1 = mkPrinting typ (buf + Z.of_nat (S j))).
    { unfold st. rewrite H3. by destruct (poll_next (prev_report k) j Er Hj) as (r' & ->). }
    assert (release_due st.2 <= 1)%nat by (unfold release_due; destruct (_ && _); lia).
    split; [done|]. split; [split_and!; (done || lia)|]. cbn [prev_report set_prev_report kb_print set_print].
    split; [lia|]. by destruct st.
  - exists j. assert (Hst : st = (kb_print k, empty_keyboard_report)) by (by apply poll_cases).
    split; [done|]. rewrite Hst. split; [by split_and!|]. cbn [prev_report set_prev_report kb_print set_print snd fst].
    split; [unfold release_due at 1; cbn; lia|done].
Qed.

(** The main loop types the message out, however the requests, the iterations
    and the other inputs are interleaved, and then waits. *)
Lemma printing_run i es : photosensor i = None -> forall fresh j (k : keyboard) fuel,
  printing_at j k -> (fresh = true -> (j < length msg)%nat) ->
  paced fresh es = true -> Forall quiet_input es ->
  (2 * (length msg - j) + release_due (prev_report k) <= polls es)%nat ->
  (2 * (length msg - j) + release_due (prev_report k) <= fuel)%nat ->
  typed_out i es k fuel.
Proof.
  intros Hi. induction es as [|e es IH]; intros fresh j k fuel Hk Hfresh Hpace Hq Hpolls Hfuel.
  - assert (j = length msg) as -> by (destruct Hk as (_ & _ & _ & _ & Hj); cbn in Hpolls; lia).
    destruct (iteration_typed_out i k fuel Hi Hk) as (k' & E). by exists [Iteration i], [], k'.
  - apply Forall_cons in Hq as [Hqe Hq].
    destruct (is_poll e) eqn:Epoll; [|destruct (is_iteration e) eqn:Eit].
    + destruct e; try done. cbn in Hpace. apply andb_true_iff in Hpace as [-> Hpace].
      destruct fuel as [|fuel]; [specialize (Hfresh eq_refl); lia|].
      destruct (printing_request j k fuel Hk (Hfresh eq_refl)) as (k1 & j1 & E & Hk1 & Hm & Ht).
      apply (typed_out_cons i _ es k k1 (S fuel) fuel E Ht).
      apply (IH false j1); (done || cbn in Hpolls; unfold polls in *; lia).
    + destruct e as [i0| | | | |]; try done. cbn in Hpace.
      destruct (Nat.eqb_spec j (length msg)) as [->|Hne].
      * destruct (iteration_typed_out i0 k fuel Hqe Hk) as (k' & E).
        by exists [Iteration i0], (es ++ [Iteration i]), k'.
      * destruct (printing_iteration i0 j k Hqe Hk) as (k1 & E & Hk1).
        rewrite (proj2 (Nat.eqb_neq _ _) Hne) in Hk1. destruct Hk1 as (Hk1 & Ep & Er).
        apply (typed_out_cons i (Iteration i0) es k k1 fuel fuel E); [by cbn; rewrite Ep, Er|].
        apply (IH true j); rewrite ?Er; try done. destruct Hk as (_ & _ & _ & _ & Hj). lia.
    + destruct (other_input_typing e k Epoll Eit) as (k1 & E & Et).
      { by destruct Hk as (_ & -> & _). }
      pose proof (printing_at_same j k k1 Et Hk) as Hk1. injection Et as Ep Er _ _ _ _ _ _ _.
      apply (typed_out_cons i _ es k k1 fuel fuel E); [by rewrite Epoll, Ep, Er|].
      apply (IH fresh j); rewrite ?Er; try done; [by destruct e|].
      unfold polls in *. cbn in Hpolls. by rewrite Epoll in Hpolls.
Qed.
End Message.

(** ** Playing a macro *)

Definition play_state (st : kstate) : bool :=
  match st with STATE_MERGING_MACRO_PLAY | STATE_MACRO_PLAY => true | _ => false end.

(** A macro is being played, with at most [n] events left. *)
Definition playing (n : nat) (k : keyboard) : Prop :=
  calm k /\ play_state (current_state (kb_ui k)) = true /\
  0 <= remaining (playback_state (kb_macros k)) <= Z.of_nat n.

Lemma playing_same n (k k' : keyboard) : typing k' = typing k -> playing n k -> playing n k'.
Proof.
  intros E (Hc & H1 & H2). split; [by eapply calm_same|]. injection E as _ _ E3 E4 _ _ _ _ _.
  by rewrite E3, E4.
Qed.

(** As long as there is more to play, an event has been consumed. *)
Lemma fill_next_remaining r (m : macro_state (M:=M)) :
  let '(more, _, m') := macros_fill_next_report r m in
  more = true -> remaining (playback_state m) <> 0 /\
                 remaining (playback_state m') = remaining (playback_state m) - 1 /\
                 remaining (playback_state m') <> 0.
Proof.
  unfold macros_fill_next_report. cbv zeta. destruct (Z.eqb_spec (remaining (playback_state m)) 0) as [|Hne]; [done|].
  cbn [negb]. destruct (storage_read _ _ _) as [[bs|] m1]; [|done]. cbn. intros Hm. split; [done|]. split; [done|]. by bsplit.
Qed.

Lemma playing_iteration i n (k : keyboard) :
  photosensor i = None -> playing n k ->
  exists k', main_iteration i k = Some k' /\ playing n k'.
Proof.
  intros Hi Hk. rewrite main_iteration_split by done. set (k0 := before_switch i k).
  assert (Hk0 : playing n k0) by (apply (playing_same n k); [apply before_switch_typing, Hk|done]).
  exists k0. split; [|done]. destruct Hk0 as (_ & Hs & _). unfold handle_state.
  destruct (current_state (kb_ui k0)) eqn:E; try done; cbn [mbind option_bind];
    apply run_vms_stopped; by rewrite E.
Qed.

Lemma playing_request n (k : keyboard) :
  playing n k ->
  exists k', keyboard_step KeyboardPoll k = Some k' /\
    ((exists n', n = S n' /\ playing n' k' /\ n' <> 0%nat) \/
     (current_state (kb_ui k') = STATE_WAITING /\ next_state (kb_ui k') = STATE_NORMAL)).
Proof.
  intros ([Hi Hc] & Hs & Hn). cbn [Keyboard.keyboard_step]. unfold Keyboard.Fill_KeyboardReport. cbv zeta.
  destruct (current_state (kb_ui k)) eqn:E; try done;
  match goal with |- context [macros_fill_next_report ?r ?m] =>
    pose proof (fill_next_remaining r m) as Hf; destruct (macros_fill_next_report r m) as [[[] r'] m'] end;
  (eexists; split; [reflexivity|]).
  1,3: destruct (Hf eq_refl) as (F0 & F1 & F2); left; exists (n - 1)%nat; split; [lia|]; split; [|lia];
       split; [by split|]; cbn; rewrite E; split; [done|lia].
  all: by right.
Qed.

(** Whatever else happens, as many requests as there are events end the playing. *)
Lemma playback_run es : forall n (k : keyboard),
  playing n k -> Forall quiet_input es -> (n <= polls es)%nat -> (1 <= polls es)%nat ->
  exists es1 es2 k', es = es1 ++ es2 /\ keyboard_run es1 k = Some k' /\
    current_state (kb_ui k') = STATE_WAITING /\ next_state (kb_ui k') = STATE_NORMAL.
Proof.
  induction es as [|e es IH]; intros n k Hk Hq Hpolls H1; [cbn in H1; lia|].
  apply Forall_cons in Hq as [Hqe Hq].
  assert (Hnext : forall k1 n1, keyboard_step e k = Some k1 -> playing n1 k1 ->
    (n1 <= polls es)%nat -> (1 <= polls es)%nat -> exists es1 es2 k', e :: es = es1 ++ es2 /\
      keyboard_run es1 k = Some k' /\ current_state (kb_ui k') = STATE_WAITING /\ next_state (kb_ui k') = STATE_NORMAL).
  { intros k1 n1 E Hk1 Hp Hp1. destruct (IH n1 k1 Hk1 Hq Hp Hp1) as (es1 & es2 & k' & -> & E' & Hk').
    exists (e :: es1), es2, k'. cbn. by rewrite E. }
  unfold polls in *. cbn in Hpolls, H1.
  destruct (is_poll e) eqn:Epoll; [|destruct (is_iteration e) eqn:Eit].
  - destruct e; try done. cbn in Hpolls. destruct (playing_request n k Hk) as (k1 & E & [(n' & -> & Hk1 & Hn')|Hk1]).
    + apply (Hnext k1 n' E Hk1); lia.
    + exists [KeyboardPoll], es, k1. cbn [Keyboard.keyboard_run]. by rewrite E.
  - destruct e as [i0| | | | |]; try done. destruct (playing_iteration i0 n k Hqe Hk) as (k1 & E & Hk1).
    by apply (Hnext k1 n E Hk1).
  - destruct (other_input_typing e k Epoll Eit) as (k1 & E & Et).
    { destruct Hk as (_ & Hs & _). by destruct (current_state (kb_ui k)). }
    apply (Hnext k1 n E); [by apply (playing_same n k)|done..].
Qed.

(** ** Waiting for the keys to be released *)

(** The state after a command of the program key. *)
Definition silent (k : keyboard) : Prop :=
  calm k /\ current_state (kb_ui k) = STATE_WAITING /\ wait_key_press_count (kb_ui k) = 0.

(** The input finds keys held: the scan of an iteration leaves some in the key state. *)
Definition finds_keys (e : kbd_input) (k : keyboard) : Prop :=
  match e with Iteration i => press_count (before_switch i k) <> 0 | _ => True end.
Fixpoint held_throughout (es : list kbd_input) (k : keyboard) : Prop :=
  match es with
  | [] => True
  | e :: es => finds_keys e k /\ match keyboard_step e k with Some k => held_throughout es k | None => True end
  end.

Lemma silent_same (k k' : keyboard) : typing k' = typing k -> silent k -> silent k'.
Proof.
  intros E (Hc & H1 & H2). split; [by eapply calm_same|]. injection E as _ _ _ E4 _ E5 _ _ _. by rewrite E4, E5.
Qed.

(** The waiting state stays, and reports nothing, while keys are held. *)
Lemma silent_step e (k : keyboard) :
  silent k -> quiet_input e -> finds_keys e k ->
  exists k', keyboard_step e k = Some k' /\ silent k' /\ next_state (kb_ui k') = next_state (kb_ui k) /\
    (is_poll e = true -> (Fill_KeyboardReport empty_keyboard_report k).2 = empty_keyboard_report).
Proof.
  intros Hk Hq Hheld.
  destruct (is_poll e) eqn:Epoll; [|destruct (is_iteration e) eqn:Eit].
  - destruct e; try done. destruct Hk as (Hc & H1 & H2). cbn [Keyboard.keyboard_step].
    unfold Keyboard.Fill_KeyboardReport. rewrite H1, H2. cbn. eexists. split; [reflexivity|]. by split.
  - destruct e as [i| | | | |]; try done. cbn [Keyboard.keyboard_step finds_keys] in *.
    rewrite main_iteration_split by done. set (k0 := before_switch i k) in *.
    assert (E : typing k0 = typing k) by (apply before_switch_typing, Hk).
    pose proof (silent_same k k0 E Hk) as Hk0. unfold handle_state.
    pose proof Hk0 as (_ & H1 & H2). rewrite H1. cbn [mbind option_bind].
    unfold handle_state_waiting. rewrite H2, andb_false_r, orb_false_r.
    destruct (Z.eqb_spec (press_count k0) 0) as [E0|E0]; [done|].
    rewrite run_vms_stopped by (by rewrite H1). exists k0. split; [done|].
    split; [done|]. split; [|done]. by injection E as _ _ _ _ E5 _ _ _ _.
  - destruct (other_input_typing e k Epoll Eit) as (k1 & E & Et); [by destruct Hk as (_ & -> & _)|].
    exists k1. split; [done|]. split; [by apply (silent_same k)|]. split; [|done].
    by injection Et as _ _ _ _ E5 _ _ _ _.
Qed.

Lemma silent_run es (k : keyboard) :
  silent k -> Forall quiet_input es -> held_throughout es k ->
  exists k', keyboard_run es k = Some k' /\ silent k' /\ next_state (kb_ui k') = next_state (kb_ui k) /\
    Forall (fun r => r = empty_keyboard_report) (keyboard_reports es k).
Proof.
  intros Hk Hq. revert k Hk. induction Hq as [|e es He Hq IH]; intros k Hk Hheld; cbn [held_throughout] in *.
  - exists k. split; [done|]. split; [done|]. split; [done|constructor].
  - destruct Hheld as [H1 Hheld]. destruct (silent_step e k Hk He H1) as (k1 & E & Hk1 & Hn & Hr).
    rewrite E in Hheld. destruct (IH k1 Hk1 Hheld) as (k' & Hrun & F1 & F2 & F3). exists k'.
    cbn [Keyboard.keyboard_run keyboard_reports]. rewrite E. cbn [mbind option_bind]. split; [done|]. split; [done|].
    split; [by rewrite F2|]. destruct (is_poll e); [|exact F3]. constructor; [by apply Hr|exact F3].
Qed.

(** The first iteration that finds no key ends the waiting. *)
Lemma silent_ends i (k k' : keyboard) :
  silent k -> photosensor i = None -> press_count (before_switch i k) = 0 -> keyboard_step (Iteration i) k = Some k' ->
  current_state (kb_ui k') = next_state (kb_ui k).
Proof.
  intros Hk Hi Hn Hstep. cbn [Keyboard.keyboard_step] in Hstep. rewrite main_iteration_split in Hstep by done.
  set (k0 := before_switch i k) in *.
  assert (E : typing k0 = typing k) by (apply before_switch_typing, Hk).
  pose proof (silent_same k k0 E Hk) as (_ & H1 & _). injection E as _ _ _ _ E5 _ _ _ _.
  unfold handle_state in Hstep. rewrite H1 in Hstep. cbn [mbind option_bind] in Hstep.
  unfold handle_state_waiting in Hstep. rewrite Hn in Hstep. cbn [Z.eqb orb] in Hstep.
  unfold run_vms in Hstep. destruct (bool_decide _); [|by injection Hstep as <-].
  destruct (vm_step_all _ _ _ _) as [[]|]; [|done]. injection Hstep as <-. exact E5.
Qed.
End Proofs.
