(* ===== verification/KeyboardChords.v ===== *)
(** * Keyboard.c: chords and recorded keys

    Chords do not depend on the order in which the keys are found, and a
    recording macro gets the changes of keystate.c's notifications. *)

From Stdlib Require Import String.
From S2P Require Import Prelude Sort Hid ExtraReport Printing Hardware MacroIndex Storage Macro MacroProofs.
From S2P Require Import Config Interpreter Keyboard Keystate KeystateReports KeyboardProofs.
Open Scope Z_scope.

(** ** The events a recording macro takes *)

Section Events.
Context {H : Hardware} (v : config_view).

Definition recordable_event (e : ks_event) : list Z :=
  match e with
  | KeyChange key _ =>
      let h_key := Keystate.config_get_definition v key in
      if h_key >=? SPECIAL_HID_KEYS_START then [] else [h_key]
  | _ => []
  end.
Definition recordable (es : list ks_event) : list Z := concat (map recordable_event es).

Lemma recordable_app es1 es2 : recordable (es1 ++ es2) = recordable es1 ++ recordable es2.
Proof. unfold recordable. by rewrite map_app, concat_app. Qed.

(** The program key is not down. *)
Definition program_up (s : keystate) : Prop :=
  Forall (fun k => state k = true -> extract_keycode v (layer s) k HID <> SPECIAL_HID_KEY_PROGRAM) (key_states s).

Lemma program_up_check s : program_up s -> keystate_check_key v SPECIAL_HID_KEY_PROGRAM HID s = false.
Proof.
  unfold program_up, keystate_check_key. induction 1 as [|k l Hk _ IH]; [done|]. cbn [check_slots].
  destruct (Z.eqb_spec (extract_keycode v (layer s) k HID) SPECIAL_HID_KEY_PROGRAM) as [E|]; [|done].
  destruct (state k); [by destruct Hk|done].
Qed.

(** The fields of [s], with the calls [o]. *)
Definition with_out (o : list ks_event) (s : keystate) : keystate :=
  mkKeystate (key_states s) (key_press_count s) (key_press_counter s) (prev_layer s) (layer s)
    (hook_registered s) (debounce s) (mouse s) o.

(** A function that only adds calls at the end. *)
Definition adds_calls (f : keystate -> keystate) : Prop :=
  forall s, f s = with_out (out s ++ out (f (no_out s))) (f (no_out s)).

Lemma adds_calls_app f s o : adds_calls f -> f (with_out o s) = with_out (o ++ out (f (no_out s))) (f (no_out s)).
Proof. intros Hf. exact (Hf (with_out o s)). Qed.

Lemma notify_step_adds_calls ch j : adds_calls (notify_step v ch j).
Proof.
  intros s. unfold notify_step, notify_about_key_change, notify_key_pressed, notify_key_released, default_beep.
  destruct s as [ks n c pl ll hook d m o].
  cbn [no_out key_states key_press_count key_press_counter prev_layer layer hook_registered debounce mouse out].
  destruct (p_key _ =? NO_KEY); [by rewrite app_nil_r|]. destruct (_ && _); [by rewrite app_nil_r|].
  destruct (is_hid_key_to_notify_about _); [|cbn [with_out set_key_states out]; by rewrite app_nil_r].
  destruct ch, (prev_state (ks !!! j)), (state (ks !!! j)), hook, (config_key_sound_enabled v);
    unfold with_out, set_key_states;
    cbn [set_key_press_count emit no_out key_states key_press_count key_press_counter
      prev_layer layer hook_registered debounce mouse out andb negb];
    rewrite <- ?app_assoc, ?app_nil_r; reflexivity.
Qed.

(** The scan makes no call of the hook. *)
Lemma layer_step_recordable j s : recordable (out (layer_step v j s)) = recordable (out s).
Proof.
  unfold layer_step, update_layer, default_beep. cbv zeta.
  repeat match goal with |- context [if ?b then _ else _] => destruct b end; try done;
    cbn -[recordable]; by rewrite recordable_app, app_nil_r.
Qed.

Lemma scan_keys_calls matrix s :
  recordable (out (scan_keys v matrix s)) = recordable (out s) /\
  hook_registered (scan_keys v matrix s) = hook_registered s.
Proof.
  unfold scan_keys. cbv zeta. apply for_range_inv; [done|]. intros j s' _ [E1 E2].
  by rewrite layer_step_recordable, (layer_step_hook v).
Qed.

Lemma notify_step_slots ch j s :
  key_states (notify_step v ch j s) = key_states s \/
  exists k', key_states (notify_step v ch j s) = <[j := k']> (key_states s) /\
    (state k' = true -> p_key k' = p_key (key_states s !!! j) /\ state (key_states s !!! j) = true).
Proof.
  unfold notify_step. cbv zeta. destruct (p_key _ =? NO_KEY); [by left|]. destruct (_ && _); [by left|]. right.
  set (s' := if is_hid_key_to_notify_about _ then _ else s).
  assert (E : key_states s' = key_states s).
  { unfold s', notify_about_key_change, notify_key_pressed, notify_key_released, default_beep.
    by repeat match goal with |- context [if ?b then _ else _] => destruct b end. }
  cbn [key_states set_key_states]. rewrite E. eexists. split; [reflexivity|]. by destruct (_ && _).
Qed.

Lemma notify_step_program_up ch j s : program_up s -> program_up (notify_step v ch j s).
Proof.
  unfold program_up. intros Hs. destruct (notify_step_fields v ch j s) as [-> _].
  destruct (notify_step_slots ch j s) as [->|(k' & -> & Hk')]; [done|].
  destruct (decide (j < length (key_states s))%nat) as [Hj|Hj].
  - apply Forall_insert_in; [done|]. intros Ht. destruct (Hk' Ht) as [Hp Ht'].
    pose proof (Forall_lookup_total _ _ j Hs Hj) as Hold. cbn beta in Hold. specialize (Hold Ht').
    unfold extract_keycode in *. by rewrite Hp.
  - by rewrite list_insert_ge by lia.
Qed.
End Events.

(** ** A recording macro gets the recordable events *)

Section Recording.
Context `{H : Hardware, !HardwareOk H} {M : Type} {St : Storage M} {Sok : StorageOk M St}.
Context (outside : Z -> Z) (macros_storage : Z).
Context (ms : list (list Z)) (u : list macro_idx_entry) (trigger_key : list Z).

Abbreviation keyboard := (keyboard (M:=M)).

(** The hook is on, and the macro that is being recorded has the events [ev]. *)
Definition recording (ev : list Z) (k : keyboard) : Prop :=
  hook_registered (kb_keys k) = true /\ buzzes (kb_macros k) = [] /\
  recording_inv macros_storage ms u trigger_key ev (kb_macros k).

Lemma no_buzzes_same (m : macro_state (M:=M)) : buzzes m = [] -> no_buzzes m = m.
Proof. destruct m. cbn. by intros ->. Qed.

Lemma macros_append_buzzes e (m : macro_state (M:=M)) : buzzes (macros_append e m).2 = buzzes m.
Proof.
  unfold macros_append, write_var. cbv zeta. by destruct (storage_write _ _ _).
Qed.

Definition room (l : list Z) : Prop := room_for macros_storage ms (length l).

Lemma room_prefix l l' : room (l ++ l') -> room l.
Proof. intros Hr. eapply room_for_less; [exact Hr|lia|rewrite length_app; lia]. Qed.

Lemma hook_records s key press ev (k : keyboard) :
  program_up (view outside k) s \/ recordable_event (view outside k) (KeyChange key press) = [] ->
  room (ev ++ recordable_event (view outside k) (KeyChange key press)) -> recording ev k ->
  let k' := macro_record_hook outside s key press k in
  recording (ev ++ recordable_event (view outside k) (KeyChange key press)) k' /\
  kb_ui k' = kb_ui k /\ kb_config k' = kb_config k /\ kb_keys k' = kb_keys k.
Proof.
  intros Hp Hroom (Hh & Hb & Hr). unfold macro_record_hook. cbn [recordable_event] in *. change (Keystate.config_get_definition (view outside k) key) with (definition outside key k) in *.
  destruct (_ >=? _); [rewrite app_nil_r; by destruct (keystate_check_key _ _ _ _)|].
  destruct Hp as [Hp|Hp]; [|done]. rewrite program_up_check by done.
  pose proof (append_spec macros_storage ms u trigger_key ev (definition outside key k) _ Hr) as [H1 H2];
    [by unfold room in Hroom; rewrite length_app, Nat.add_1_r in Hroom|].
  pose proof (macros_append_buzzes (definition outside key k) (kb_macros k)) as Hbz.
  unfold run_macros. destruct (macros_append _ _) as [ok m]. cbn [fst snd] in *. subst ok. cbn [negb].
  split; [|done]. split; [done|]. split; [done|]. cbn. by rewrite no_buzzes_same by congruence.
Qed.

Lemma keys_calls_record s es ev (k : keyboard) :
  program_up (view outside k) s \/ recordable (view outside k) es = [] ->
  room (ev ++ recordable (view outside k) es) -> recording ev k ->
  let k' := fold_left (keys_call outside s) es k in
  recording (ev ++ recordable (view outside k) es) k' /\ kb_ui k' = kb_ui k /\ kb_config k' = kb_config k /\
  kb_keys k' = kb_keys k.
Proof.
  revert ev k. induction es as [|e es IH]; intros ev k Hp Hroom Hk; [by rewrite app_nil_r|]. cbn [fold_left].
  change (recordable (view outside k) (e :: es))
    with (recordable_event (view outside k) e ++ recordable (view outside k) es) in *. rewrite app_assoc in *.
  assert (He : let k1 := keys_call outside s k e in
    recording (ev ++ recordable_event (view outside k) e) k1 /\ kb_ui k1 = kb_ui k /\ kb_config k1 = kb_config k /\
    kb_keys k1 = kb_keys k).
  { destruct e as [key press|ms0|ms0 tone]; cbn [keys_call]; [|by rewrite app_nil_r..].
    rewrite (proj1 Hk). apply hook_records; [|by eapply room_prefix|done]. destruct Hp as [Hp|Hp]; [by left|right].
    by apply app_eq_nil in Hp as [Hp _]. }
  cbv zeta in He. set (k1 := keys_call outside s k e) in *.
  destruct He as (H1 & H2 & H3 & H4).
  assert (Hv : view outside k1 = view outside k) by (unfold view; by rewrite H3).
  destruct (IH (ev ++ recordable_event (view outside k) e) k1) as (F1 & F2 & F3 & F4); [|by rewrite Hv|done|].
  { rewrite Hv. destruct Hp as [Hp|Hp]; [by left|right]. by apply app_eq_nil in Hp as [_ Hp]. }
  rewrite Hv in F1. split; [exact F1|]. by rewrite F2, F3, F4.
Qed.

(** One part of the key state, with its calls. *)
Lemma run_keys_records f ev (k : keyboard) :
  program_up (view outside k) (kb_keys k) \/ recordable (view outside k) (out (f (kb_keys k))) = [] ->
  hook_registered (f (kb_keys k)) = true ->
  room (ev ++ recordable (view outside k) (out (f (kb_keys k)))) -> recording ev k ->
  let k' := run_keys outside f k in
  kb_keys k' = no_out (f (kb_keys k)) /\
  recording (ev ++ recordable (view outside k) (out (f (kb_keys k)))) k' /\
  kb_ui k' = kb_ui k /\ kb_config k' = kb_config k.
Proof.
  intros Hp Hf Hroom Hk. unfold run_keys.
  destruct (keys_calls_record (kb_keys k) (out (f (kb_keys k))) ev (set_keys (no_out (f (kb_keys k))) k) Hp Hroom)
    as (E1 & E2 & E3 & E4); [by destruct Hk as (_ & Hb & Hr); split_and!|]. by split.
Qed.

(** After the scan [s0], the notification loop up to slot [n]. *)
Lemma notify_loop_records v ch s0 n ev (k : keyboard) :
  v = view outside k -> kb_keys k = no_out s0 -> program_up v s0 -> recording (ev ++ recordable v (out s0)) k ->
  room (ev ++ recordable v (out (for_range 0 n (notify_step v ch) s0))) ->
  let s' := for_range 0 n (notify_step v ch) s0 in
  let k' := for_range 0 n (fun j => run_keys outside (notify_step v ch j)) k in
  kb_keys k' = no_out s' /\ program_up v s' /\ recording (ev ++ recordable v (out s')) k' /\
  kb_ui k' = kb_ui k /\ kb_config k' = kb_config k.
Proof.
  intros Hv Hs0 Hp Hk. cbv zeta. induction n as [|n IH]; [done|]. intros Hroom.
  rewrite !for_range_snoc in *. cbn [Nat.add] in *.
  pose proof (notify_step_adds_calls v ch n (for_range 0 n (notify_step v ch) s0)) as Hadd.
  rewrite Hadd in Hroom. cbn [out with_out] in Hroom. rewrite recordable_app, app_assoc in Hroom.
  destruct (IH (room_prefix _ _ Hroom)) as (IH1 & IH2 & IH3 & IH4 & IH5).
  set (s1 := for_range 0 n (notify_step v ch) s0) in *.
  set (k1 := for_range 0 n (fun j => run_keys outside (notify_step v ch j)) k) in *.
  assert (Hv1 : view outside k1 = v) by (rewrite Hv; unfold view; by rewrite IH5).
  set (s2 := notify_step v ch n (no_out s1)) in *.
  destruct (run_keys_records (notify_step v ch n) (ev ++ recordable v (out s1)) k1) as (E1 & E2 & E3 & E4).
  { left. by rewrite Hv1, IH1. }
  { rewrite (proj2 (notify_step_fields v ch n _)). apply IH3. }
  { rewrite Hv1, IH1. exact Hroom. }
  { exact IH3. }
  rewrite Hadd, E3, E4. rewrite IH1 in E1, E2. fold s2 in E1, E2. rewrite Hv1 in E2.
  split; [done|]. split; [exact (notify_step_program_up v ch n (no_out s1) IH2)|]. split; [|done].
  cbn [out with_out]. rewrite recordable_app, app_assoc. exact E2.
Qed.

Lemma update_end_records v ch s0 n ev (k : keyboard) :
  v = view outside k -> kb_keys k = no_out s0 -> program_up v s0 -> recording (ev ++ recordable v (out s0)) k ->
  let s' := for_range 0 n (notify_step v ch) s0 in
  room (ev ++ recordable v (out (set_prev_layer (layer s') s'))) ->
  let k' := for_range 0 n (fun j => run_keys outside (notify_step v ch j)) k in
  let k'' := set_keys (set_prev_layer (layer (kb_keys k')) (kb_keys k')) k' in
  recording (ev ++ recordable v (out (set_prev_layer (layer s') s'))) k'' /\
  kb_ui k'' = kb_ui k /\ kb_config k'' = kb_config k.
Proof.
  intros Hv H1 Hp Hk s' Hroom. destruct (notify_loop_records v ch s0 n ev k Hv H1 Hp Hk Hroom) as (_ & _ & F). exact F.
Qed.

Lemma scan_records v matrix ev (k : keyboard) :
  v = view outside k -> out (kb_keys k) = [] -> room ev -> recording ev k ->
  let s0 := scan_keys v matrix (kb_keys k) in
  let k1 := run_keys outside (scan_keys v matrix) k in
  kb_keys k1 = no_out s0 /\ v = view outside k1 /\ recording (ev ++ recordable v (out s0)) k1 /\
  kb_ui k1 = kb_ui k /\ kb_config k1 = kb_config k.
Proof.
  intros Hv Hout Hroom Hk. cbv zeta. destruct (scan_keys_calls v matrix (kb_keys k)) as [Hc Hh].
  rewrite Hout in Hc. change (recordable v []) with (@nil Z) in Hc.
  destruct (run_keys_records (scan_keys v matrix) ev k) as (E1 & E2 & E3 & E4).
  { right. by rewrite <- Hv. }
  { rewrite Hh. apply Hk. }
  { rewrite <- Hv, Hc, app_nil_r. exact Hroom. }
  { exact Hk. }
  rewrite <- Hv in E2. split; [exact E1|]. split; [|done]. unfold view. rewrite E4. exact Hv.
Qed.

Lemma layer_changed_no_out s s' : s' = no_out s -> layer_changed s' = layer_changed s.
Proof. by intros ->. Qed.

(** An update of the keys: the macro gets the recordable changes that keystate.c notifies about. *)
Lemma keyboard_update_records matrix ev (k : keyboard) v :
  v = view outside k -> out (kb_keys k) = [] -> recording ev k -> program_up v (scan_keys v matrix (kb_keys k)) ->
  room (ev ++ recordable v (out (keystate_update v matrix (kb_keys k)))) ->
  let k' := keyboard_update outside matrix k in
  recording (ev ++ recordable v (out (keystate_update v matrix (kb_keys k)))) k' /\
  kb_ui k' = kb_ui k /\ kb_config k' = kb_config k.
Proof.
  intros Hv Hout Hk Hp Hroom. cbv zeta. unfold keyboard_update, keystate_update in *. rewrite <- Hv.
  destruct (scan_records v matrix ev k Hv Hout (room_prefix _ _ Hroom) Hk) as (E1 & Hv1 & E2 & <- & <-).
  rewrite (layer_changed_no_out _ _ E1). exact (update_end_records v _ _ KEYSTATE_COUNT ev _ Hv1 E1 Hp E2 Hroom).
Qed.
End Recording.

(** ** The order of the keys in a chord *)

Section Chords.
Context {H : Hardware} {K : HotKeys} {L : Leds} {M : Type} {St : Storage M}.
Context (outside : Z -> Z) (macros_storage : Z) (macro_def_infos : list macro_def_info).
Context (program_addr : Z) (vms_addr : nat -> Z) (storage_errno : Z).
Context (CONST_MSG : string -> Z) (CONSTANT_STORAGE : storage_type).

Lemma insertionsort_perm l1 l2 n :
  length l1 = n -> l1 ≡ₚ l2 -> insertionsort_uint8 l1 n = insertionsort_uint8 l2 n.
Proof.
  intros Hl Hp. assert (length l2 = n) as Hl2 by (by rewrite <- Hp).
  destruct (insertionsort_spec l1 n) as (s1 & -> & P1 & S1); [lia|].
  destruct (insertionsort_spec l2 n) as (s2 & -> & P2 & S2); [lia|].
  rewrite !drop_ge, !app_nil_r by lia. rewrite !take_ge in P1, P2 by lia.
  apply Sorted_Permutation_eq; [done..|]. by rewrite P1, P2.
Qed.

Lemma format_key_perm key1 key2 n :
  length key1 = MACRO_MAX_KEYS -> length key2 = MACRO_MAX_KEYS -> (n <= MACRO_MAX_KEYS)%nat ->
  take n key1 ≡ₚ take n key2 -> macro_idx_format_key key1 n = macro_idx_format_key key2 n.
Proof.
  intros H1 H2 Hn Hp. destruct (format_key_spec key1 n H1 Hn) as (s1 & -> & P1 & S1).
  destruct (format_key_spec key2 n H2 Hn) as (s2 & -> & P2 & S2).
  assert (s1 = s2) as -> by (apply Sorted_Permutation_eq; [done..|by rewrite P1, P2]). done.
Qed.

Lemma command_perm key1 key2 (k : keyboard (M:=M)) :
  length key1 = MACRO_MAX_KEYS -> length key2 = MACRO_MAX_KEYS ->
  take (Z.to_nat (press_count k)) key1 ≡ₚ take (Z.to_nat (press_count k)) key2 ->
  command outside macros_storage macro_def_infos CONST_MSG CONSTANT_STORAGE key1 k
  = command outside macros_storage macro_def_infos CONST_MSG CONSTANT_STORAGE key2 k.
Proof.
  intros H1 H2 Hp. unfold command. cbv zeta. set (n := Z.to_nat (press_count k)) in *.
  destruct ((2 <=? n)%nat && (n <=? 3)%nat) eqn:En; [|done].
  apply andb_true_iff in En as [_ En%Nat.leb_le].
  by rewrite (insertionsort_perm (map (fun l => definition outside l k) (take n key1))
                (map (fun l => definition outside l k) (take n key2)) n)
    by (rewrite ?length_map, ?length_take, ?H1; (lia || by rewrite Hp)).
Qed.

Lemma run_trigger_perm key1 key2 (k : keyboard (M:=M)) :
  length key1 = MACRO_MAX_KEYS -> length key2 = MACRO_MAX_KEYS -> (Z.to_nat (press_count k) <= MACRO_MAX_KEYS)%nat ->
  take (Z.to_nat (press_count k)) key1 ≡ₚ take (Z.to_nat (press_count k)) key2 ->
  run_trigger outside macros_storage program_addr vms_addr storage_errno key1 k
  = run_trigger outside macros_storage program_addr vms_addr storage_errno key2 k.
Proof.
  intros H1 H2 Hn Hp. unfold run_trigger, find_trigger. by rewrite (format_key_perm key1 key2).
Qed.

Lemma dispatch_perm key1 key2 (k : keyboard (M:=M)) :
  length key1 = MACRO_MAX_KEYS -> length key2 = MACRO_MAX_KEYS -> (Z.to_nat (press_count k) <= MACRO_MAX_KEYS)%nat ->
  take (Z.to_nat (press_count k)) key1 ≡ₚ take (Z.to_nat (press_count k)) key2 ->
  dispatch outside macros_storage macro_def_infos program_addr vms_addr storage_errno CONST_MSG CONSTANT_STORAGE key1 k
  = dispatch outside macros_storage macro_def_infos program_addr vms_addr storage_errno CONST_MSG CONSTANT_STORAGE key2 k.
Proof. intros. unfold dispatch. by rewrite (command_perm key1 key2), (run_trigger_perm key1 key2). Qed.
End Chords.
