(* ===== verification/KeyboardCommands.v ===== *)
(** * Keyboard.c: the commands of the program key

    The chords that are commands and leave nothing to be typed, and what an
    iteration that finds one of them held leads to. *)

From Stdlib Require Import String.
From S2P Require Import Prelude Sort Hid ExtraReport Printing Hardware K80cs K84cs Keystate KeystateReports.
From S2P Require Import MacroIndex Storage Macro Config Interpreter Keyboard KeyboardProofs KeyboardInv KeyboardRuns KeyboardChords.
Open Scope Z_scope.

(** What the hot keys of src/hardware/k80cs.h and k84cs.h keep to: the keys of the commands of two keys
    differ, all are below the program key, and those of the commands of three keys are letters, below the digits. *)
Class HotKeysOk (K : HotKeys) : Prop := {
  commands_differ :
    NoDup [SPECIAL_HKEY_MACRO_RECORD; SPECIAL_HKEY_REMAP; SPECIAL_HKEY_REBOOT; SPECIAL_HKEY_MACROS_ENABLE;
           SPECIAL_HKEY_RESET_CONFIG; SPECIAL_HKEY_TOGGLE_BUZZER];
  commands_low :
    Forall (fun h => h <= SPECIAL_HID_KEY_PROGRAM)
      [SPECIAL_HKEY_MACRO_RECORD; SPECIAL_HKEY_REMAP; SPECIAL_HKEY_MACROS_ENABLE; SPECIAL_HKEY_RESET_CONFIG;
       SPECIAL_HKEY_TOGGLE_BUZZER; SPECIAL_HKEY_RESET_FULLY;
       HID_KEYBOARD_SC_1_AND_EXCLAMATION + NUM_KEY_MAPPING_INDICES];
  letters_low :
    Forall (fun h => h < HID_KEYBOARD_SC_1_AND_EXCLAMATION)
      [SPECIAL_HKEY_CONFIG_SAVE; SPECIAL_HKEY_CONFIG_LOAD; SPECIAL_HKEY_CONFIG_DELETE; SPECIAL_HKEY_RESET_CONFIG;
       SPECIAL_HKEY_RESET_FULLY];
  layout_commands_differ : NoDup [SPECIAL_HKEY_CONFIG_SAVE; SPECIAL_HKEY_CONFIG_LOAD; SPECIAL_HKEY_CONFIG_DELETE]
}.

#[export] Instance K84cs_hotkeys_ok : HotKeysOk K84cs_hotkeys.
Proof. split; apply (bool_decide_unpack _); vm_compute; exact I. Qed.
#[export] Instance K80cs_hotkeys_ok : HotKeysOk K80cs_hotkeys.
Proof. split; apply (bool_decide_unpack _); vm_compute; exact I. Qed.

Section Commands.
Context {H : Hardware} {K : HotKeys} {Kok : HotKeysOk K} {L : Leds} {M : Type} {St : Storage M}.
Context (outside outside_default : Z -> Z) (macros_storage : Z) (macro_def_infos : list macro_def_info).
Context (program_addr : Z) (vms_addr : nat -> Z) (storage_errno : Z).
Context (CONST_MSG : string -> Z) (CONSTANT_STORAGE : storage_type) (sram_read_byte avr_pgm_read_byte : Z -> Z).

Abbreviation keyboard := (keyboard (M:=M)).
Abbreviation command := (command outside macros_storage macro_def_infos CONST_MSG CONSTANT_STORAGE).
Abbreviation dispatch := (dispatch outside macros_storage macro_def_infos program_addr vms_addr storage_errno CONST_MSG
  CONSTANT_STORAGE).
Abbreviation keyboard_step := (keyboard_step outside outside_default macros_storage macro_def_infos program_addr vms_addr
  storage_errno CONST_MSG CONSTANT_STORAGE sram_read_byte avr_pgm_read_byte).

(** The layout commands and what they do. *)
Inductive layout_command : Z -> (Z -> config_state -> bool * config_state) -> Prop :=
  | layout_save : layout_command SPECIAL_HKEY_CONFIG_SAVE config_save_layout
  | layout_load : layout_command SPECIAL_HKEY_CONFIG_LOAD config_load_layout
  | layout_delete : layout_command SPECIAL_HKEY_CONFIG_DELETE config_delete_layout.

(** [quiet_command c hkeys next]: with the configuration [c], the chord of the keys [hkeys] (HID codes) is a command
    that types nothing; [next] is the state that follows when its keys are up. The other commands are the reboot,
    which does not come back, those that set a number, during which the held keys are typed, and a layout command
    that fails, which types a message. *)
Inductive quiet_command (c : config_state) : list Z -> kstate -> Prop :=
  | quiet_record : quiet_command c [SPECIAL_HKEY_MACRO_RECORD; SPECIAL_HID_KEY_PROGRAM] STATE_MACRO_RECORD_TRIGGER
  | quiet_remap : quiet_command c [SPECIAL_HKEY_REMAP; SPECIAL_HID_KEY_PROGRAM] STATE_PROGRAMMING_SRC
  | quiet_macros : quiet_command c [SPECIAL_HKEY_MACROS_ENABLE; SPECIAL_HID_KEY_PROGRAM] STATE_NORMAL
  | quiet_reset : quiet_command c [SPECIAL_HKEY_RESET_CONFIG; SPECIAL_HID_KEY_PROGRAM] STATE_NORMAL
  | quiet_buzzer : quiet_command c [SPECIAL_HKEY_TOGGLE_BUZZER; SPECIAL_HID_KEY_PROGRAM] STATE_NORMAL
  | quiet_reset_fully :
      quiet_command c [SPECIAL_HKEY_RESET_CONFIG; SPECIAL_HKEY_RESET_FULLY; SPECIAL_HID_KEY_PROGRAM] STATE_NORMAL
  | quiet_layout hkey f index :
      layout_command hkey f -> 0 <= index <= NUM_KEY_MAPPING_INDICES -> (f index c).1 = true ->
      quiet_command c [hkey; HID_KEYBOARD_SC_1_AND_EXCLAMATION + index; SPECIAL_HID_KEY_PROGRAM] STATE_NORMAL.

(** ** The sorted keys *)

Lemma insertionsort_is l l' n : length l' = n -> Sorted Z.le l -> l' ≡ₚ l -> insertionsort_uint8 l' n = l.
Proof.
  intros Hl Hs Hp. destruct (insertionsort_spec l' n) as (s & -> & P & S); [lia|].
  rewrite drop_ge, app_nil_r by lia. rewrite take_ge in P by lia.
  apply Sorted_Permutation_eq; [done..|]. by rewrite P.
Qed.

Lemma sorted2 (a b : Z) : a <= b -> Sorted Z.le [a; b].
Proof. intros. by repeat constructor. Qed.
Lemma sorted3 (a b c : Z) : a <= b -> b <= c -> Sorted Z.le [a; b; c].
Proof. intros. by repeat constructor. Qed.

Lemma put_keys_take ks garbage : take (length ks) (put_keys ks garbage) = ks.
Proof. apply take_app_length. Qed.

(** [command] on held keys whose sorted codes are [hkeys]. *)
Lemma command_sorted keys garbage hkeys (k : keyboard) :
  press_count k = Z.of_nat (length keys) -> map (fun l => definition outside l k) keys ≡ₚ hkeys -> Sorted Z.le hkeys ->
  (2 <= length hkeys <= 3)%nat -> hkeys !!! (length hkeys - 1)%nat = SPECIAL_HID_KEY_PROGRAM ->
  command (put_keys keys garbage) k
  = if (length hkeys =? 2)%nat then Keyboard.command2 CONST_MSG CONSTANT_STORAGE (hkeys !!! 0%nat) k
    else Keyboard.command3 macros_storage macro_def_infos CONST_MSG CONSTANT_STORAGE hkeys k.
Proof.
  intros Hn Hp Hs Hl Hlast. pose proof (Permutation_length Hp) as E. rewrite length_map in E.
  unfold Keyboard.command. cbv zeta. rewrite Hn, Nat2Z.id, put_keys_take.
  rewrite (insertionsort_is hkeys) by (rewrite ?length_map; done). rewrite E, Hlast, Z.eqb_refl.
  destruct Hl as [H1 H2]. by rewrite (proj2 (Nat.leb_le _ _) H1), (proj2 (Nat.leb_le _ _) H2).
Qed.

(** ** The effect of a command *)

(** What the commands leave alone before the state changes. *)
Definition untouched (k0 k : keyboard) : Prop :=
  kb_keys k0 = kb_keys k /\ kb_ui k0 = kb_ui k /\ config_out (kb_config k0) = [].

Definition leads_to (next : kstate) (k k' : keyboard) : Prop :=
  silent k' /\ next_state (kb_ui k') = next /\ kb_keys k' = kb_keys k.

Lemma goto_leads_to next (k0 k : keyboard) :
  idle k -> wait_key_press_count (kb_ui k) = 0 -> untouched k0 k -> leads_to next k (goto_state STATE_WAITING next k0).
Proof.
  intros [Hh Hr] Hw (E1 & E2 & E3). unfold leads_to, silent, calm, idle, goto_state. cbn. rewrite E1, E2. done.
Qed.

Lemma run_config_untouched {A} (f : config_state -> A * config_state) (k : keyboard) :
  untouched (run_config CONST_MSG CONSTANT_STORAGE f k).2 k.
Proof. destruct (run_config_spec CONST_MSG CONSTANT_STORAGE f k) as (p & o & ->). done. Qed.

Lemma run_config__untouched f (k : keyboard) : untouched (run_config_ CONST_MSG CONSTANT_STORAGE f k) k.
Proof. apply run_config_untouched. Qed.

Lemma run_config_result {A} (f : config_state -> A * config_state) (k : keyboard) :
  (run_config CONST_MSG CONSTANT_STORAGE f k).1 = (f (kb_config k)).1.
Proof. by destruct (run_config_spec CONST_MSG CONSTANT_STORAGE f k) as (p & o & ->). Qed.

Lemma run_reset_untouched (k : keyboard) :
  untouched (run_reset macros_storage macro_def_infos CONST_MSG CONSTANT_STORAGE k) k.
Proof.
  unfold run_reset. destruct (config_reset_fully _ _ _) as [c m].
  match goal with |- context [fold_left ?f ?evs ?k1] =>
    destruct (config_calls_spec CONST_MSG CONSTANT_STORAGE evs k1) as (p & o & ->) end. done.
Qed.

Lemma emit_untouched e (k0 k : keyboard) : untouched k0 k -> untouched (emit e k0) k.
Proof. done. Qed.

Lemma same_untouched (k : keyboard) : config_out (kb_config k) = [] -> untouched k k.
Proof. done. Qed.

(** Keys of a list without duplicates, told apart. *)
Ltac differ Hd :=
  repeat (apply NoDup_cons in Hd as [? Hd]); rewrite !not_elem_of_cons in *;
  repeat match goal with
  | |- context [?a =? ?a] => rewrite (Z.eqb_refl a)
  | |- context [?a =? ?b] => rewrite (proj2 (Z.eqb_neq a b)) by intuition congruence
  end.

Lemma command2_quiet c hkey next (k : keyboard) :
  quiet_command c [hkey; SPECIAL_HID_KEY_PROGRAM] next -> calm k -> wait_key_press_count (kb_ui k) = 0 ->
  exists k', Keyboard.command2 CONST_MSG CONSTANT_STORAGE hkey k = Some k' /\ leads_to next k k'.
Proof.
  intros Hq [Hi Hc] Hw. unfold Keyboard.command2. cbv zeta.
  inversion Hq; subst; pose proof commands_differ as Hd; differ Hd; (eexists; split; [reflexivity|]); apply goto_leads_to; try done;
    first [by apply same_untouched | apply emit_untouched, run_config__untouched | apply run_config__untouched].
Qed.

Ltac in_list := repeat first [apply list_elem_of_here | apply list_elem_of_further].

Lemma letter_low h :
  h ∈ [SPECIAL_HKEY_CONFIG_SAVE; SPECIAL_HKEY_CONFIG_LOAD; SPECIAL_HKEY_CONFIG_DELETE; SPECIAL_HKEY_RESET_CONFIG;
       SPECIAL_HKEY_RESET_FULLY] -> h < HID_KEYBOARD_SC_1_AND_EXCLAMATION.
Proof. intros Hh. exact (proj1 (Forall_forall _ _) letters_low h Hh). Qed.

Lemma layout_command_low hkey f : layout_command hkey f -> hkey < HID_KEYBOARD_SC_1_AND_EXCLAMATION.
Proof. intros []; apply letter_low; in_list. Qed.

Definition reset_chord : list Z :=
  if SPECIAL_HKEY_RESET_CONFIG <? SPECIAL_HKEY_RESET_FULLY
  then [SPECIAL_HKEY_RESET_CONFIG; SPECIAL_HKEY_RESET_FULLY; SPECIAL_HID_KEY_PROGRAM]
  else [SPECIAL_HKEY_RESET_FULLY; SPECIAL_HKEY_RESET_CONFIG; SPECIAL_HID_KEY_PROGRAM].

(** The full reset. *)
Lemma command3_reset (k : keyboard) :
  calm k -> wait_key_press_count (kb_ui k) = 0 ->
  exists k', Keyboard.command3 macros_storage macro_def_infos CONST_MSG CONSTANT_STORAGE reset_chord k = Some k' /\
    leads_to STATE_NORMAL k k'.
Proof.
  intros [Hi _] Hw. unfold Keyboard.command3, reset_chord, RESET_CONFIG_POS.
  destruct (_ <? _); cbn [lookup_total list_lookup_total Nat.sub]; rewrite !Z.eqb_refl;
    (eexists; split; [reflexivity|]); apply goto_leads_to; try done; apply run_reset_untouched.
Qed.

(** A layout command that succeeds. *)
Lemma command3_layout hkey f index (k : keyboard) :
  layout_command hkey f -> 0 <= index <= NUM_KEY_MAPPING_INDICES -> (f index (kb_config k)).1 = true ->
  calm k -> wait_key_press_count (kb_ui k) = 0 ->
  exists k', Keyboard.command3 macros_storage macro_def_infos CONST_MSG CONSTANT_STORAGE
      [hkey; HID_KEYBOARD_SC_1_AND_EXCLAMATION + index; SPECIAL_HID_KEY_PROGRAM] k = Some k' /\
    leads_to STATE_NORMAL k k'.
Proof.
  intros Hc Hx Hf [Hi _] Hw. unfold Keyboard.command3. pose proof (layout_command_low _ _ Hc) as Hlow.
  assert (Hr : SPECIAL_HKEY_RESET_CONFIG < HID_KEYBOARD_SC_1_AND_EXCLAMATION /\
    SPECIAL_HKEY_RESET_FULLY < HID_KEYBOARD_SC_1_AND_EXCLAMATION) by (split; apply letter_low; in_list).
  set (ks := [_; _; _]). assert (E : (ks !!! RESET_CONFIG_POS =? SPECIAL_HKEY_RESET_CONFIG)
     && (ks !!! (1 - RESET_CONFIG_POS)%nat =? SPECIAL_HKEY_RESET_FULLY) = false).
  { unfold ks, RESET_CONFIG_POS. destruct (_ <? _); cbn; lia. }
  rewrite E. unfold ks. cbv zeta. cbn [lookup_total list_lookup_total].
  rewrite (proj2 (Z.geb_le _ _)), (proj2 (Z.leb_le _ _)) by lia. cbn [andb].
  replace (HID_KEYBOARD_SC_1_AND_EXCLAMATION + index - HID_KEYBOARD_SC_1_AND_EXCLAMATION) with index by lia.
  pose proof (run_config_result (f index) k) as Er. rewrite Hf in Er.
  pose proof (run_config_untouched (f index) k) as Eu.
  pose proof layout_commands_differ as Hd. destruct Hc; differ Hd;
    destruct (run_config _ _ _ k) as [ok k1]; cbn [fst snd] in *; subst ok;
    (eexists; split; [reflexivity|]); apply goto_leads_to; done.
Qed.

Lemma hot_key_low h :
  h ∈ [SPECIAL_HKEY_MACRO_RECORD; SPECIAL_HKEY_REMAP; SPECIAL_HKEY_MACROS_ENABLE; SPECIAL_HKEY_RESET_CONFIG;
       SPECIAL_HKEY_TOGGLE_BUZZER; SPECIAL_HKEY_RESET_FULLY;
       HID_KEYBOARD_SC_1_AND_EXCLAMATION + NUM_KEY_MAPPING_INDICES] -> h <= SPECIAL_HID_KEY_PROGRAM.
Proof. intros Hh. exact (proj1 (Forall_forall _ _) commands_low h Hh). Qed.

(** The keys of a quiet command are dispatched to it, in whatever order they are found. *)
Lemma quiet_dispatch keys garbage hkeys next (k : keyboard) :
  calm k -> wait_key_press_count (kb_ui k) = 0 -> press_count k = Z.of_nat (length keys) ->
  map (fun l => definition outside l k) keys ≡ₚ hkeys -> quiet_command (kb_config k) hkeys next ->
  exists k', dispatch (put_keys keys garbage) k = Some k' /\ leads_to next k k'.
Proof.
  intros Hk Hw Hn Hp Hq. unfold Keyboard.dispatch.
  assert (exists k', command (put_keys keys garbage) k = Some k' /\ leads_to next k k') as (k' & -> & Hl);
    [|by exists k'].
  pose proof (fun h => command2_quiet (kb_config k) h next k) as H2.
  assert (Hpair : forall h, h <= SPECIAL_HID_KEY_PROGRAM ->
    quiet_command (kb_config k) [h; SPECIAL_HID_KEY_PROGRAM] next ->
    map (fun l => definition outside l k) keys ≡ₚ [h; SPECIAL_HID_KEY_PROGRAM] ->
    exists k', command (put_keys keys garbage) k = Some k' /\ leads_to next k k').
  { intros h Hh Hqh Hph. rewrite (command_sorted _ _ [h; SPECIAL_HID_KEY_PROGRAM]); [|done|done| |cbn; lia|done].
    - by apply H2.
    - by apply sorted2. }
  inversion Hq; subst hkeys next;
    try match type of Hp with _ ≡ₚ [?h; _] => apply (Hpair h); [apply hot_key_low; in_list|exact Hq|exact Hp] end.
  - assert (Hp' : map (fun l => definition outside l k) keys ≡ₚ reset_chord)
      by (rewrite Hp; unfold reset_chord; destruct (SPECIAL_HKEY_RESET_CONFIG <? _); [reflexivity|apply Permutation_swap]).
    rewrite (command_sorted _ _ reset_chord); [|done|done| | |];
      try (unfold reset_chord; destruct (_ <? _) eqn:E; cbn; lia).
    + replace (length reset_chord =? 2)%nat with false by (unfold reset_chord; by destruct (_ <? _)).
      by apply command3_reset.
    + unfold reset_chord. destruct (_ <? _) eqn:E; bsplit; apply sorted3; try lia; apply hot_key_low; in_list.
  - rewrite (command_sorted _ _ [hkey; HID_KEYBOARD_SC_1_AND_EXCLAMATION + index; SPECIAL_HID_KEY_PROGRAM]);
      [|done|done| |cbn; lia|done].
    + by eapply command3_layout.
    + pose proof (layout_command_low _ _ H0).
      pose proof (hot_key_low (HID_KEYBOARD_SC_1_AND_EXCLAMATION + NUM_KEY_MAPPING_INDICES) ltac:(in_list)).
      apply sorted3; lia.
Qed.

(** The iteration that finds the chord of a quiet command. *)
Lemma command_iteration i hkeys next (k : keyboard) :
  let kc := before_switch outside CONST_MSG CONSTANT_STORAGE i k in
  let keys := keystate_get_keys (view outside kc) LOGICAL (kb_keys kc) in
  calm k -> current_state (kb_ui k) = STATE_NORMAL -> wait_key_press_count (kb_ui k) = 0 -> photosensor i = None ->
  press_count kc = Z.of_nat (length keys) -> map (fun l => definition outside l kc) keys ≡ₚ hkeys ->
  quiet_command (kb_config kc) hkeys next ->
  exists k', keyboard_step (Iteration i) k = Some k' /\ leads_to next kc k'.
Proof.
  intros kc keys Hk Hs Hw Hi Hn Hp Hq. cbn [Keyboard.keyboard_step]. rewrite main_iteration_split by done. fold kc.
  assert (E : typing kc = typing k) by (apply before_switch_typing, Hk).
  pose proof (calm_same k kc E Hk) as Hkc. injection E as _ _ _ E4 _ E5 _ _ _.
  assert (Hl : (length keys <= 3)%nat /\ length keys <> 0%nat).
  { pose proof (Permutation_length Hp) as El. rewrite length_map in El. destruct Hq; cbn [length] in El; lia. }
  unfold handle_state. rewrite E4, Hs. unfold handle_state_normal. rewrite Hn.
  rewrite (proj2 (Z.eqb_neq _ _)) by lia.
  destruct (Z.of_nat (length keys) >? _) eqn:Eg; bsplit; [lia|].
  cbn [orb]. fold keys.
  destruct (quiet_dispatch keys (garbage i) hkeys next kc Hkc) as (k' & -> & Hl'); [by rewrite E5|done..|].
  cbn [mbind option_bind]. exists k'. split; [|done]. apply run_vms_stopped.
  by destruct Hl' as ((_ & -> & _) & _).
Qed.
End Commands.
