(* ===== verification/KeyboardProps.v ===== *)
(** * Keyboard.c: the properties of the main state machine

    The properties of the state machine as a whole, over the lemmas of the
    other Keyboard files, and a K84CS keyboard for the witnesses. *)

From Stdlib Require Import String.
From S2P Require Import Prelude Sort Hid ExtraReport Printing Hardware K84cs Keystate KeystateReports.
From S2P Require Import Debounce KeystateProofs MacroIndex Storage Macro MacroProofs Config ConfigProofs.
From S2P Require Import Interpreter Keyboard KeyboardProofs KeyboardInv KeyboardRuns KeyboardChords KeyboardCommands.
Open Scope Z_scope.

(** The LEDs of the K84CS (src/hardware/k84cs.h). *)
#[export] Instance K84cs_leds : Leds := {
  LEDMASK_KEYPAD := 8;
  LEDMASK_FUNCTION := 16;
  LEDMASK_CAPS := 1;
  LEDMASK_NUMLOCK := 2;
  LEDMASK_SCROLLLOCK := Some 4;
  LEDMASK_PROGRAMMING_SRC := 0x20;
  LEDMASK_PROGRAMMING_DST := 0x40;
  LEDMASK_MACRO_TRIGGER := 0x60;
  LEDMASK_MACRO_RECORD := 0x80;
  LEDMASK_MACROS_ENABLED := 0xA0;
  LEDMASK_PROGRAMS_ENABLED := 0xC0;
  LEDMASK_USB_NOTREADY := 0xE0;
  LEDMASK_USB_ENUMERATING := 0xE1;
  LEDMASK_USB_READY := 0xE2;
  LEDMASK_USB_ERROR := 0xE3;
  leds_always_show_report := true
}.

(** ** A keyboard for the witnesses *)

Definition k84_outside : Z -> Z := fun _ => 0xff.
Definition k84_message : list Z := [79; 75; 33]. (* "OK!" *)
Definition k84_msg (s : string) : Z := 256.

(** In the state [u], with the keys [s]. *)
Definition k84_board (s : keystate) (u : ui_state) : keyboard (M:=mem) :=
  mkKeyboard s k84_config_state (no_buzzes k84_macros) (replicate (Z.to_nat PROGRAM_COUNT) zero_vm)
    (printing_set_buffer 256 sram) empty_keyboard_report u 0 0 [].

Abbreviation k84_step := (keyboard_step k84_outside k84_outside 0 macro_def_infos 0 (fun _ => 0) 0
  k84_msg sram (memory_of k84_message) (memory_of k84_message)).
Abbreviation k84_run_from := (keyboard_run k84_outside k84_outside 0 macro_def_infos 0 (fun _ => 0) 0
  k84_msg sram (memory_of k84_message) (memory_of k84_message)).

(** An iteration that finds the keys [ks] down. *)
Definition k84_iteration (ks : list Z) : kbd_input :=
  Iteration (mkInputs (k84_scan ks) None (replicate MACRO_MAX_KEYS 0)).

(** ** Start *)

Section Start.
Context {H : Hardware} {K : HotKeys} {L : Leds} {M : Type} {St : Storage M}.
Context (macros_storage : Z) (macro_def_infos : list macro_def_info) (program_addr : Z) (storage_errno : Z).
Context (outside : Z -> Z) (CONST_MSG : string -> Z) (CONSTANT_STORAGE : storage_type).

(** Power-on: the static variables have their initial values; an eeprom that
    has been set up holds settings in their ranges. *)
Definition power_on (k : keyboard (M:=M)) : Prop :=
  kb_ui k = ui_start /\ hook_registered (kb_keys k) = false /\
  (eeprom_sentinel_byte (kb_config k) = EEPROM_SENTINEL -> settings_ok (kb_config k)).

Lemma init_ok (k : keyboard (M:=M)) :
  power_on k ->
  let k' := Keyboard_Main_init outside macros_storage macro_def_infos program_addr storage_errno CONST_MSG
              CONSTANT_STORAGE k in
  ranges_ok k' /\ resting k'.
Proof.
  intros (Hu & Hh & Hs). unfold Keyboard_Main_init, config_init. cbn [fst kb_config kb_macros set_keys].
  assert (Hp : pending_ok (kb_ui k)) by (by rewrite Hu).
  destruct (Z.eqb_spec (eeprom_sentinel_byte (kb_config k)) EEPROM_SENTINEL) as [E|E]; cbn [negb].
  - destruct (config_calls_spec CONST_MSG CONSTANT_STORAGE (config_out (kb_config k))
                (set_macros (no_buzzes (kb_macros k)) (set_config (no_config_out (kb_config k))
                   (set_keys (keystate_init (kb_keys k)) k)))) as (p & o & ->).
    split; [|by repeat split; cbn; rewrite ?Hu].
    split; cbn; [by apply (settings_ok_same (kb_config k)); [done|apply Hs]|].
    by apply (pending_ok_same (kb_ui k)).
  - unfold config_reset_fully.
    match goal with |- context [fold_left ?f ?evs ?k1] =>
      destruct (config_calls_spec CONST_MSG CONSTANT_STORAGE evs k1) as (p & o & ->) end.
    split; [|by repeat split; cbn; rewrite ?Hu].
    split; cbn; [by constructor|]. by apply (pending_ok_same (kb_ui k)).
Qed.
End Start.

(** ** The properties *)

(** C6: Whatever runs of the main loop, host requests and time are interleaved since power-on,
    the debounce length stays between 1 and 8 and the mouse and wheel divisors between 1 and
    255, so no division by zero and no access outside the debounce buffers can come of them.
    Without debug messages of the photo sensor, moreover, the change hook is registered exactly
    while a macro is being recorded, recording happens only in the recording state, and the
    count that ends waiting early is set only while a macro plays or in the waiting state. *)
Theorem main_loop_invariant {H : Hardware} {K : HotKeys} {L : Leds} {M} {St : Storage M}
    outside outside_default macros_storage macro_def_infos program_addr vms_addr storage_errno
    CONST_MSG CONSTANT_STORAGE sram_read_byte avr_pgm_read_byte (k0 k : keyboard (M:=M)) (es : list kbd_input) :
  power_on k0 ->
  keyboard_run outside outside_default macros_storage macro_def_infos program_addr vms_addr storage_errno
    CONST_MSG CONSTANT_STORAGE sram_read_byte avr_pgm_read_byte es
    (Keyboard_Main_init outside macros_storage macro_def_infos program_addr storage_errno CONST_MSG
       CONSTANT_STORAGE k0) = Some k ->
  (1 <= config_get_debounce_len (kb_config k) <= 8 /\ 1 <= config_get_mouse_div (kb_config k) <= 255 /\
   1 <= config_get_wheel_div (kb_config k) <= 255) /\
  (Forall quiet_input es ->
   hook_registered (kb_keys k) = recording_macro (kb_ui k) /\
   (recording_macro (kb_ui k) = true -> current_state (kb_ui k) = STATE_MACRO_RECORD) /\
   (wait_key_press_count (kb_ui k) <> 0 ->
    current_state (kb_ui k) ∈ [STATE_WAITING; STATE_MERGING_MACRO_PLAY; STATE_MACRO_PLAY])).
Proof.
  intros Hon Hrun. destruct (init_ok macros_storage macro_def_infos program_addr storage_errno outside CONST_MSG
    CONSTANT_STORAGE k0 Hon) as [Hr Hm%resting_ok]. split.
  - assert (Hk : ranges_ok k).
    { eapply (keyboard_run_ind _ _ _ _ _ _ _ _ _ _ _ ranges_ok (fun _ => True)); [|by apply Forall_true|exact Hr|exact Hrun].
      intros e k1 k2 _. apply keyboard_step_ok. }
    by destruct Hk as [[] _].
  - intros Hq. assert (Hk : mode_ok k).
    { eapply (keyboard_run_ind _ _ _ _ _ _ _ _ _ _ _ mode_ok quiet_input); [|exact Hq|exact Hm|exact Hrun].
      intros e k1 k2. apply keyboard_step_mode_ok. }
    by destruct Hk.
Qed.

Lemma main_loop_invariant_witness :
  let k0 := k84_board keystate_start ui_start in
  let es := [Millis 1; k84_iteration [8]; Millis 1; k84_iteration [8]; KeyboardPoll; MousePoll] in
  let init := Keyboard_Main_init k84_outside 0 macro_def_infos 0 0 k84_msg sram k0 in
  match k84_run_from es init with
  | Some k => 1 <= config_get_debounce_len (kb_config k) <= 8 /\
              hook_registered (kb_keys k) = recording_macro (kb_ui k)
  | None => False
  end.
Proof.
  cbv zeta. set (es := [_; _; _; _; _; _]). set (k0 := k84_board keystate_start ui_start).
  assert (Hp : power_on k0).
  { split; [reflexivity|]. split; [reflexivity|]. intros _. constructor; vm_compute; split; discriminate. }
  assert (Hsome : bool_decide (is_Some (k84_run_from es
    (Keyboard_Main_init k84_outside 0 macro_def_infos 0 0 k84_msg sram k0))) = true) by (vm_compute; reflexivity).
  destruct (k84_run_from es _) as [k|] eqn:E; [|discriminate Hsome].
  destruct (main_loop_invariant k84_outside k84_outside 0 macro_def_infos 0 (fun _ => 0) 0 k84_msg sram
    (memory_of k84_message) (memory_of k84_message) k0 k es Hp E) as [H1 H2].
  split; [exact (proj1 H1)|]. apply H2. repeat constructor.
Defined.



(** C34: Playing a macro ends. With [n] events left to play, and whatever else happens in between,
    the playing state is left for the waiting state by the [n]-th request of the host at the
    latest (or by the first if nothing is left), also when the storage fails to read an event. *)
Theorem playback_finishes {H : Hardware} {K : HotKeys} {L : Leds} {M} {St : Storage M}
    outside outside_default macros_storage macro_def_infos program_addr vms_addr storage_errno
    CONST_MSG CONSTANT_STORAGE sram_read_byte avr_pgm_read_byte
    (n : nat) (es : list kbd_input) (k : keyboard (M:=M)) :
  calm k -> play_state (current_state (kb_ui k)) = true ->
  0 <= remaining (playback_state (kb_macros k)) <= Z.of_nat n ->
  Forall quiet_input es -> (Nat.max 1 n <= polls es)%nat ->
  exists es1 es2 k', es = es1 ++ es2 /\
    keyboard_run outside outside_default macros_storage macro_def_infos program_addr vms_addr storage_errno
      CONST_MSG CONSTANT_STORAGE sram_read_byte avr_pgm_read_byte es1 k = Some k' /\
    current_state (kb_ui k') = STATE_WAITING /\ next_state (kb_ui k') = STATE_NORMAL.
Proof.
  intros Hc Hs Hn Hq Hpolls. apply (playback_run _ _ _ _ _ _ _ _ _ _ _ es n k); (done || lia).
Qed.

(** The K84CS about to play the macro of its function key 1: GUI, F1 down and up. *)
Definition k84_playing : keyboard (M:=mem) :=
  set_macros (macros_start_playback 0 5 (no_buzzes k84_macros)).2
    (k84_board keystate_start (ui_current_state STATE_MACRO_PLAY ui_start)).

Lemma playback_finishes_witness :
  remaining (playback_state (kb_macros k84_playing)) = 3 /\
  exists es1 es2 k', [KeyboardPoll; k84_iteration [8]; KeyboardPoll; KeyboardPoll; k84_iteration []] = es1 ++ es2 /\
    k84_run_from es1 k84_playing = Some k' /\
    current_state (kb_ui k') = STATE_WAITING /\ next_state (kb_ui k') = STATE_NORMAL.
Proof.
  split; [vm_compute; reflexivity|].
  apply (playback_finishes k84_outside k84_outside 0 macro_def_infos 0 (fun _ => 0) 0 k84_msg sram
    (memory_of k84_message) (memory_of k84_message) 3).
  - split; [split; reflexivity|reflexivity].
  - reflexivity.
  - vm_compute. split; discriminate.
  - repeat constructor.
  - vm_compute. lia.
Defined.

(** C9: Commands type nothing. When an iteration in the normal state finds the keys of a command
    of the program key held, in whatever order, and the command is one for recording, remapping,
    switching macros, programs or sounds, resetting, or a layout command that succeeds, the keyboard
    goes to the waiting state, with the state of the command pending. As long as every further
    iteration finds keys held, and whatever else happens in between, it stays there, and every
    keyboard report the host gets is empty: neither the keys of the command, nor those pressed
    along with it, are typed. The first iteration that finds no key held enters the pending state.
    (The commands that set a number let the held keys through, and a layout command that fails
    types a message: they are not among [quiet_command].) *)
Theorem commands_type_nothing {H : Hardware} {K : HotKeys} {Kok : HotKeysOk K} {L : Leds} {M} {St : Storage M}
    outside outside_default macros_storage macro_def_infos program_addr vms_addr storage_errno
    CONST_MSG CONSTANT_STORAGE sram_read_byte avr_pgm_read_byte
    (i : inputs) (hkeys : list Z) (next : kstate) (k : keyboard (M:=M)) :
  let step := keyboard_step outside outside_default macros_storage macro_def_infos program_addr vms_addr storage_errno
    CONST_MSG CONSTANT_STORAGE sram_read_byte avr_pgm_read_byte in
  let run := keyboard_run outside outside_default macros_storage macro_def_infos program_addr vms_addr storage_errno
    CONST_MSG CONSTANT_STORAGE sram_read_byte avr_pgm_read_byte in
  let reports := keyboard_reports outside outside_default macros_storage macro_def_infos program_addr vms_addr
    storage_errno CONST_MSG CONSTANT_STORAGE sram_read_byte avr_pgm_read_byte in
  let held := held_throughout outside outside_default macros_storage macro_def_infos program_addr vms_addr
    storage_errno CONST_MSG CONSTANT_STORAGE sram_read_byte avr_pgm_read_byte in
  let scanned := before_switch outside CONST_MSG CONSTANT_STORAGE in
  let keys := keystate_get_keys (view outside (scanned i k)) LOGICAL (kb_keys (scanned i k)) in
  calm k -> current_state (kb_ui k) = STATE_NORMAL -> wait_key_press_count (kb_ui k) = 0 -> photosensor i = None ->
  press_count (scanned i k) = Z.of_nat (length keys) ->
  map (fun l => definition outside l (scanned i k)) keys ≡ₚ hkeys ->
  quiet_command (kb_config (scanned i k)) hkeys next ->
  exists k1, step (Iteration i) k = Some k1 /\ kb_keys k1 = kb_keys (scanned i k) /\
    forall es, Forall quiet_input es -> held es k1 ->
    exists k', run es k1 = Some k' /\
      current_state (kb_ui k') = STATE_WAITING /\ next_state (kb_ui k') = next /\
      Forall (fun r => r = empty_keyboard_report) (reports es k1) /\
      forall j k2, photosensor j = None -> press_count (scanned j k') = 0 ->
        step (Iteration j) k' = Some k2 -> current_state (kb_ui k2) = next.
Proof.
  intros step run reports held scanned keys Hk Hs Hw Hi Hn Hp Hq.
  destruct (command_iteration outside outside_default macros_storage macro_def_infos program_addr vms_addr storage_errno
    CONST_MSG CONSTANT_STORAGE sram_read_byte avr_pgm_read_byte i hkeys next k Hk Hs Hw Hi Hn Hp Hq)
    as (k1 & E & Hk1 & Hnext & Hkeys).
  exists k1. split; [exact E|]. split; [exact Hkeys|]. intros es Hes Hheld.
  destruct (silent_run _ _ _ _ _ _ _ _ _ _ _ es k1 Hk1 Hes Hheld) as (k' & Hrun & Hk' & Hn' & Hr).
  exists k'. split; [exact Hrun|]. rewrite Hnext in Hn'. split; [apply Hk'|]. split; [exact Hn'|]. split; [exact Hr|].
  intros j k2 Hj H0 Hstep. rewrite <- Hn'.
  exact (silent_ends _ _ _ _ _ _ _ _ _ _ _ j k' k2 Hk' Hj H0 Hstep).
Qed.

(** The program key and the key for remapping, on the K84CS, where each stands in the matrix. *)
Definition k84_remap_chord : list Z :=
  filter (fun l => logical_to_hid_map_default !!! Z.to_nat l ∈ [SPECIAL_HID_KEY_PROGRAM; SPECIAL_HKEY_REMAP])
    (seqZ 0 KEYPAD_LAYER_SIZE).

(** Both have been down for a scan less than the debounce length. *)
Definition k84_before_command : keyboard (M:=mem) :=
  k84_board (KeystateProofs.k84_run [k84_remap_chord; k84_remap_chord]) ui_start.
Definition k84_chord_found : inputs := mkInputs (k84_scan k84_remap_chord) None (replicate MACRO_MAX_KEYS 0).

Lemma commands_type_nothing_witness :
  let es := [k84_iteration (9 :: k84_remap_chord); KeyboardPoll; Millis 1; k84_iteration (9 :: k84_remap_chord);
             KeyboardPoll] in
  exists k1, k84_step (Iteration k84_chord_found) k84_before_command = Some k1 /\
    exists k', k84_run_from es k1 = Some k' /\
      current_state (kb_ui k') = STATE_WAITING /\ next_state (kb_ui k') = STATE_PROGRAMMING_SRC /\
      Forall (fun r => r = empty_keyboard_report)
        (keyboard_reports k84_outside k84_outside 0 macro_def_infos 0 (fun _ => 0) 0 k84_msg sram
           (memory_of k84_message) (memory_of k84_message) es k1).
Proof.
  cbv zeta. set (es := [_; _; _; _; _]).
  destruct (commands_type_nothing k84_outside k84_outside 0 macro_def_infos 0 (fun _ => 0) 0 k84_msg sram
    (memory_of k84_message) (memory_of k84_message) k84_chord_found
    [SPECIAL_HKEY_REMAP; SPECIAL_HID_KEY_PROGRAM] STATE_PROGRAMMING_SRC k84_before_command) as (k1 & E & _ & Hk).
  - split; [split|]; vm_compute; reflexivity.
  - reflexivity.
  - reflexivity.
  - reflexivity.
  - vm_compute. reflexivity.
  - match goal with |- ?a ≡ₚ _ => let b := eval vm_compute in a in
      assert (Ea : a = b) by (vm_compute; reflexivity); rewrite Ea end.
    first [reflexivity | apply Permutation_swap].
  - apply quiet_remap.
  - exists k1. split; [exact E|].
    assert (Hheld : match k84_step (Iteration k84_chord_found) k84_before_command with
      | Some k1 => held_throughout k84_outside k84_outside 0 macro_def_infos 0 (fun _ => 0) 0 k84_msg sram
          (memory_of k84_message) (memory_of k84_message) es k1
      | None => False end) by (vm_compute; repeat split; discriminate).
    assert (Ek : k84_step (Iteration k84_chord_found) k84_before_command = Some k1) by exact E. rewrite Ek in Hheld.
    destruct (Hk es ltac:(repeat constructor) Hheld) as (k' & H1 & H2 & H3 & H4 & _).
    exists k'. repeat split; assumption.
Defined.

(** C8: A recording macro gets exactly the keys. With the change hook on and a macro [key] being
    recorded whose events so far are [ev], an update of the keys during which the program key is
    up, and after which the macro still fits into the medium, appends, in order, the codes of the changes keystate.c notifies about, all but those of
    special keys, and changes neither the mode nor the configuration. *)
Theorem recording_follows_keys `{H : Hardware, !HardwareOk H} {M} {St : Storage M} {Sok : StorageOk M St}
    (outside : Z -> Z) (macros_storage : Z) ms u key (ev : list Z) (matrix : nat -> nat -> bool) (k : keyboard (M:=M)) :
  hook_registered (kb_keys k) = true -> out (kb_keys k) = [] -> buzzes (kb_macros k) = [] ->
  recording_inv macros_storage ms u key ev (kb_macros k) ->
  program_up (view outside k) (scan_keys (view outside k) matrix (kb_keys k)) ->
  room_for macros_storage ms
    (length (ev ++ recordable (view outside k) (out (keystate_update (view outside k) matrix (kb_keys k))))) ->
  let k' := keyboard_update outside matrix k in
  let changes := out (keystate_update (view outside k) matrix (kb_keys k)) in
  recording_inv macros_storage ms u key (ev ++ recordable (view outside k) changes) (kb_macros k') /\
  hook_registered (kb_keys k') = true /\ kb_ui k' = kb_ui k /\ kb_config k' = kb_config k.
Proof.
  intros Hh Hout Hb Hr Hp Hroom. destruct (keyboard_update_records outside macros_storage ms u key matrix ev k
    (view outside k) eq_refl Hout (conj Hh (conj Hb Hr)) Hp Hroom) as ((H1 & _ & H2) & H3). done.
Qed.

(** The K84CS, with the shortest debounce length, that has begun to record the trigger 169. *)
Definition k84_recording_macros : macro_state (M:=mem) :=
  (macros_start_macro 0 (single_key 169) (no_buzzes k84_macros)).2.
Definition k84_recording : keyboard (M:=mem) :=
  set_config (config_save_debounce_len 1 k84_config_state)
    (set_macros k84_recording_macros
       (k84_board (keystate_register_change_hook true keystate_start)
          (ui_recording_macro true (ui_current_state STATE_MACRO_RECORD ui_start)))).

Lemma no_buzzes_inv base ms u (m : macro_state (M:=mem)) : macro_inv base ms u m -> macro_inv base ms u (no_buzzes m).
Proof. intros Hm. exact Hm. Qed.

Lemma k84_recording_inv : exists ms u, recording_inv 0 ms u (single_key 169) [] k84_recording_macros.
Proof.
  destruct k84_macros_inv as (u & Hinv & _).
  assert (Hc : (0 < INDEX_COUNT)%nat) by (apply Nat.ltb_lt; vm_compute; reflexivity).
  assert (Hk : valid_key (single_key 169)) by (apply single_key_valid; lia).
  pose proof (start_spec 0 (map hkeys k84_live) u (single_key 169) (no_buzzes k84_macros) Hc
    (no_buzzes_inv _ _ _ _ Hinv) I Hk) as Hst.
  assert (Hok : (macros_start_macro 0 (single_key 169) (no_buzzes k84_macros)).1 = true) by (vm_compute; reflexivity).
  unfold k84_recording_macros. destruct (macros_start_macro _ _ _) as [ok s1]. cbn [fst] in Hok. rewrite Hok in Hst.
  destruct Hst as (ms & u' & Hrec & _). by exists ms, u'.
Qed.

Lemma k84_recording_up :
  program_up (view k84_outside k84_recording)
    (scan_keys (view k84_outside k84_recording) (k84_scan [8; 9]) (kb_keys k84_recording)).
Proof. apply (bool_decide_unpack _). vm_compute. exact I. Qed.

Lemma k84_recording_changes :
  recordable (view k84_outside k84_recording)
    (out (keystate_update (view k84_outside k84_recording) (k84_scan [8; 9]) (kb_keys k84_recording))) = [4; 5].
Proof. vm_compute. reflexivity. Qed.

Lemma recording_follows_keys_witness :
  exists ms u, recording_inv 0 ms u (single_key 169) [] (kb_macros k84_recording) /\
    recording_inv 0 ms u (single_key 169) [4; 5]
      (kb_macros (keyboard_update k84_outside (k84_scan [8; 9]) k84_recording)).
Proof.
  destruct k84_recording_inv as (ms & u & Hrec). exists ms, u. split; [exact Hrec|].
  assert (Hb : buzzes (kb_macros k84_recording) = []) by (vm_compute; reflexivity).
  pose proof (recording_follows_keys k84_outside 0 ms u (single_key 169) [] (k84_scan [8; 9]) k84_recording
    eq_refl eq_refl Hb Hrec k84_recording_up I) as Hall.
  cbv zeta in Hall. rewrite k84_recording_changes in Hall. exact (proj1 Hall).
Defined.

(** The order in which the keys of a chord are found does not matter. For any two orders of
    the same one to four keys, and whatever the rest of the buffers holds, the command, the macro
    or the program that is started, with every effect on the keyboard, is the same. *)
Theorem chord_order_irrelevant {H : Hardware} {K : HotKeys} {M} {St : Storage M}
    outside macros_storage macro_def_infos program_addr vms_addr storage_errno CONST_MSG CONSTANT_STORAGE
    (keys1 keys2 garbage1 garbage2 : list Z) (k : keyboard (M:=M)) :
  length garbage1 = MACRO_MAX_KEYS -> length garbage2 = MACRO_MAX_KEYS ->
  press_count k = Z.of_nat (length keys1) -> (length keys1 <= MACRO_MAX_KEYS)%nat -> keys1 ≡ₚ keys2 ->
  dispatch outside macros_storage macro_def_infos program_addr vms_addr storage_errno CONST_MSG CONSTANT_STORAGE
    (put_keys keys1 garbage1) k
  = dispatch outside macros_storage macro_def_infos program_addr vms_addr storage_errno CONST_MSG CONSTANT_STORAGE
      (put_keys keys2 garbage2) k.
Proof.
  intros H1 H2 Hn Hle Hp. pose proof (Permutation_length Hp) as Hl.
  apply dispatch_perm; unfold put_keys; rewrite ?Hn, ?Nat2Z.id; try done.
  - rewrite length_app, length_drop, H1. lia.
  - rewrite length_app, length_drop, H2. lia.
  - by rewrite take_app_length, Hl, take_app_length.
Qed.

(** Program and the key for recording, on the K84CS. *)
Definition k84_record_chord : list Z :=
  filter (fun l => logical_to_hid_map_default !!! Z.to_nat l ∈ [SPECIAL_HID_KEY_PROGRAM; SPECIAL_HKEY_MACRO_RECORD])
    (seqZ 0 KEYPAD_LAYER_SIZE).

Lemma chord_order_irrelevant_witness :
  let k := k84_board (set_key_press_count 2 keystate_start) ui_start in
  length k84_record_chord = 2%nat /\
  dispatch k84_outside 0 macro_def_infos 0 (fun _ => 0) 0 k84_msg sram (put_keys k84_record_chord [1; 2; 3; 4]) k
  = dispatch k84_outside 0 macro_def_infos 0 (fun _ => 0) 0 k84_msg sram
      (put_keys (reverse k84_record_chord) [5; 6; 7; 8]) k.
Proof.
  cbv zeta. assert (Hl : length k84_record_chord = 2%nat) by (vm_compute; reflexivity). split; [exact Hl|].
  apply (chord_order_irrelevant k84_outside 0 macro_def_infos 0 (fun _ => 0) 0 k84_msg sram).
  - reflexivity.
  - reflexivity.
  - rewrite Hl. reflexivity.
  - rewrite Hl. lia.
  - symmetry. apply reverse_Permutation.
Defined.

(** A single key in one of the remapping states. *)
Lemma programming_single {H : Hardware} {K : HotKeys} {M} {St : Storage M}
    outside outside_default CONST_MSG CONSTANT_STORAGE garbage (k : keyboard (M:=M)) l :
  press_count k = 1 -> keystate_get_keys (view outside k) LOGICAL (kb_keys k) = [l] ->
  handle_state_programming outside outside_default CONST_MSG CONSTANT_STORAGE garbage k
  = if SPECIAL_HID_KEY_NOREMAP (definition outside l k) then k
    else if bool_decide (current_state (kb_ui k) = STATE_PROGRAMMING_SRC) then
      goto_state STATE_WAITING STATE_PROGRAMMING_DST
        (on_ui (ui_program_src_hkey (config_get_default_definition outside_default l)) k)
    else
      goto_state STATE_WAITING STATE_PROGRAMMING_SRC
        (run_config_ CONST_MSG CONSTANT_STORAGE (config_save_definition l (program_src_hkey (kb_ui k))) k).
Proof. intros Hn Hl. unfold handle_state_programming. by rewrite Hn, Hl. Qed.

(** C33: Remapping copies a default. In the remapping states a single key first chooses the source
    and, after it has been released, a single key chooses the destination: the destination then
    has the default definition of the source, every other key keeps its definition, and the next
    source is waited for. Keys of the layers, macros and programs can be neither: pressing
    them changes nothing. *)
Theorem remap_copies_default {H : Hardware} {K : HotKeys} {M} {St : Storage M}
    outside outside_default CONST_MSG CONSTANT_STORAGE
    (garbage1 garbage2 : list Z) (k0 : keyboard (M:=M)) (s1 s2 : keystate) (l1 l2 : Z) :
  let programming garbage := handle_state_programming outside outside_default CONST_MSG CONSTANT_STORAGE garbage in
  current_state (kb_ui k0) = STATE_PROGRAMMING_SRC -> press_count k0 = 1 ->
  keystate_get_keys (view outside k0) LOGICAL (kb_keys k0) = [l1] ->
  if SPECIAL_HID_KEY_NOREMAP (definition outside l1 k0) then programming garbage1 k0 = k0
  else
    let k1 := programming garbage1 k0 in
    key_press_count s1 = 0 ->
    let k2 := handle_state_waiting (set_keys s1 k1) in
    key_press_count s2 = 1 -> keystate_get_keys (view outside k2) LOGICAL s2 = [l2] ->
    0 <= l2 -> (Z.to_nat l2 < length (logical_to_hid_map (kb_config k0)))%nat ->
    let k3 := programming garbage2 (set_keys s2 k2) in
    if SPECIAL_HID_KEY_NOREMAP (definition outside l2 k0) then k3 = set_keys s2 k2
    else
      definition outside l2 k3 = config_get_default_definition outside_default l1 /\
      (forall l, 0 <= l -> l <> l2 -> definition outside l k3 = definition outside l k0) /\
      current_state (kb_ui k3) = STATE_WAITING /\ next_state (kb_ui k3) = STATE_PROGRAMMING_SRC.
Proof.
  intros programming Hs Hn Hl1. unfold programming at 1 2. rewrite (programming_single _ _ _ _ _ _ l1 Hn Hl1).
  destruct (SPECIAL_HID_KEY_NOREMAP (definition outside l1 k0)); [done|]. rewrite bool_decide_true by done.
  cbv zeta. set (k1 := goto_state _ _ _). intros Hs1.
  assert (Hk2 : handle_state_waiting (set_keys s1 k1)
    = goto_state STATE_PROGRAMMING_DST STATE_NORMAL (on_ui (ui_wait_key_press_count 0) (set_keys s1 k1))).
  { unfold handle_state_waiting, press_count. cbn [kb_keys set_keys]. by rewrite Hs1. }
  rewrite Hk2. set (k2 := goto_state STATE_PROGRAMMING_DST _ _). intros Hs2 Hl2 H0 Hlen. unfold programming.
  rewrite (programming_single _ _ _ _ garbage2 (set_keys s2 k2) l2 Hs2 Hl2).
  match goal with |- context [definition outside l2 (set_keys ?s ?k)] =>
    change (definition outside l2 (set_keys s k)) with (definition outside l2 k0) end.
  destruct (SPECIAL_HID_KEY_NOREMAP (definition outside l2 k0)); [done|].
  rewrite bool_decide_false by done.
  match goal with |- context [run_config_ _ _ ?f ?k] =>
    destruct (run_config__spec CONST_MSG CONSTANT_STORAGE f k) as (p & o & ->) end.
  split; [|split; [|done]].
  - unfold definition, Config.config_get_definition. cbn. by rewrite list_lookup_insert_eq.
  - intros l Hl Hne. unfold definition, Config.config_get_definition. cbn.
    rewrite list_lookup_insert_ne by lia. done.
Qed.

(** The key A is down, then nothing, then B. *)
Lemma remap_copies_default_witness :
  let programming := handle_state_programming k84_outside k84_outside k84_msg sram (replicate MACRO_MAX_KEYS 0) in
  let k0 := k84_board (KeystateProofs.k84_run [[8]]) (ui_current_state STATE_PROGRAMMING_SRC ui_start) in
  let k2 := handle_state_waiting (set_keys keystate_start (programming k0)) in
  let k3 := programming (set_keys (KeystateProofs.k84_run [[9]]) k2) in
  definition k84_outside 9 k0 = HID_KEYBOARD_SC_A + 1 /\ definition k84_outside 9 k3 = HID_KEYBOARD_SC_A.
Proof.
  cbv zeta. set (k0 := k84_board _ _). split; [vm_compute; reflexivity|].
  assert (Hl1 : keystate_get_keys (view k84_outside k0) LOGICAL (kb_keys k0) = [8]) by (vm_compute; reflexivity).
  assert (Hn1 : press_count k0 = 1) by (vm_compute; reflexivity).
  pose proof (remap_copies_default k84_outside k84_outside k84_msg sram (replicate MACRO_MAX_KEYS 0) (replicate MACRO_MAX_KEYS 0) k0 keystate_start
    (KeystateProofs.k84_run [[9]]) 8 9 eq_refl Hn1 Hl1) as Hall.
  assert (E1 : SPECIAL_HID_KEY_NOREMAP (definition k84_outside 8 k0) = false) by (vm_compute; reflexivity).
  rewrite E1 in Hall. cbv zeta in Hall.
  assert (E2 : SPECIAL_HID_KEY_NOREMAP (definition k84_outside 9 k0) = false) by (vm_compute; reflexivity).
  rewrite E2 in Hall.
  assert (Hs1 : key_press_count keystate_start = 0) by (vm_compute; reflexivity).
  assert (Hs2 : key_press_count (KeystateProofs.k84_run [[9]]) = 1) by (vm_compute; reflexivity).
  specialize (Hall Hs1 Hs2 ltac:(vm_compute; reflexivity) ltac:(lia) ltac:(apply Nat.ltb_lt; vm_compute; reflexivity)).
  exact (eq_trans (proj1 Hall) eq_refl).
Defined.

(** What the LED mask of the K84CS shows of the mode in its highest three bits. *)
Definition shown_mode (k : keyboard (M:=mem)) : Z :=
  match current_state (kb_ui k) with
  | STATE_PROGRAMMING_SRC => 1
  | STATE_PROGRAMMING_DST => 2
  | STATE_MACRO_RECORD_TRIGGER => 3
  | STATE_MACRO_RECORD => 4
  | _ => let flags := config_get_flags (kb_config k) in
         if programs_enabled flags then 6 else if macros_enabled flags then 5 else 0
  end.

(** The mask the K84CS sends to its LEDs and display after each update of the keys encodes the
    layer, the host's three lock LEDs and the mode without overlap: each can be read back from
    its own bits, and no mask is one of those reserved for the state of the USB connection. *)
Theorem leds_show_status (k : keyboard (M:=mem)) :
  let mask := u8 (led_mask k) in
  Z.testbit mask 3 = (keystate_get_layer_id (kb_keys k) =? 1) /\
  Z.testbit mask 4 = (keystate_get_layer_id (kb_keys k) =? 2) /\
  Z.testbit mask 0 = Z.testbit (USB_LEDReport k) 1 /\
  Z.testbit mask 1 = Z.testbit (USB_LEDReport k) 0 /\
  Z.testbit mask 2 = Z.testbit (USB_LEDReport k) 2 /\
  Z.shiftr mask 5 = shown_mode k /\ mask < LEDMASK_USB_NOTREADY.
Proof.
  cbv zeta. rewrite <- !(land_shiftl_testbit (USB_LEDReport k)) by lia.
  unfold led_mask, state_leds, shown_mode, flash, layer_leds, report_leds. cbn [leds_always_show_report K84cs_leds orb].
  change (Z.shiftl 1 0) with HID_KEYBOARD_LED_NUMLOCK. change (Z.shiftl 1 1) with HID_KEYBOARD_LED_CAPSLOCK.
  change (Z.shiftl 1 2) with HID_KEYBOARD_LED_SCROLLLOCK.
  destruct (Z.eqb_spec (keystate_get_layer_id (kb_keys k)) 1) as [El|Hl].
  - rewrite El. destruct (Z.land _ _ =? 0), (Z.land _ _ =? 0), (Z.land _ _ =? 0), (current_state _),
      (programs_enabled (config_get_flags (kb_config k))), (macros_enabled (config_get_flags (kb_config k))); repeat split; reflexivity.
  - destruct (Z.eqb_spec (keystate_get_layer_id (kb_keys k)) 2) as [El|Hl2];
      destruct (Z.land _ _ =? 0), (Z.land _ _ =? 0), (Z.land _ _ =? 0), (current_state _),
        (programs_enabled (config_get_flags (kb_config k))), (macros_enabled (config_get_flags (kb_config k))); repeat split; reflexivity.
Qed.

(** The keys after the first of a combination that has fallen back to a single key are [NO_KEY];
    hiding it hides a real key of the K84CS. *)
Theorem hide_no_key_aliases (s : keystate) :
  keystate_hide_key (H:=K84cs_hardware) NO_KEY s = keystate_hide_key (H:=K84cs_hardware) 3 s.
Proof. reflexivity. Qed.
