(* ===== verification/DisplayProps.v ===== *)
(** * The display of the K84CS shows the state of the keyboard

    [DisplayProofs] with the masks of the main state machine: what the user
    reads on the display is the layer, the host's lock LEDs and the mode. *)

From Stdlib Require Import String.
From S2P Require Import Prelude Hid Hardware K84cs Keystate KeystateProofs Config Storage Keyboard KeyboardProofs KeyboardInv KeyboardProps.
From S2P Require Import Display DisplayProofs.
Open Scope Z_scope.

(** ** A display for the witnesses *)

Record sim_lcd := mkSim { sim_cells : Z -> Z -> Z; sim_cursor : Z * Z }.

#[export] Instance sim_crystal : LiquidCrystal sim_lcd := {
  setCursor := fun col row d => mkSim (sim_cells d) (row, col);
  print := fun s d =>
    let '(row, col) := sim_cursor d in
    mkSim (fun r c => if (r =? row) && (col <=? c) && (c <? col + Z.of_nat (length s)) then s !!! Z.to_nat (c - col)
                      else sim_cells d r c) (row, col + Z.of_nat (length s))
}.

#[export] Program Instance sim_lcd_ok : LcdOk sim_lcd := {| shown := sim_cells; cursor := sim_cursor |}.
Next Obligation. done. Qed.
Next Obligation. intros s [cells cur] row col Hc _ _. cbn in Hc. by subst. Qed.

(** At the start, before anything is shown. *)
Definition sim_panel : panel sim_lcd := mkPanel (mkSim (fun _ _ => 32) (0, 0)) None None None None 0 0 0 0 0.

(** ** The state of the keyboard, as it is shown *)

Section Texts.
Context {M : Type}.

Definition layer_text (layer_id : Z) : list Z :=
  if layer_id =? 1 then text "Keypad  " else if layer_id =? 2 then text "Function" else text "Normal  ".

Definition lock_text (report : Z) : list Z :=
  (if Z.testbit report 1 then text "C" else []) ++ (if Z.testbit report 0 then text "N" else [])
  ++ (if Z.testbit report 2 then text "S" else []).

Definition mode_letter (k : keyboard (M:=M)) : list Z :=
  match current_state (kb_ui k) with
  | STATE_PROGRAMMING_SRC | STATE_PROGRAMMING_DST | STATE_MACRO_RECORD_TRIGGER | STATE_MACRO_RECORD => text " "
  | _ => let flags := config_get_flags (kb_config k) in
         if programs_enabled flags then text "Q" else if macros_enabled flags then text "q" else text " "
  end.

Definition mode_text (lux number : Z) (k : keyboard (M:=M)) : list Z :=
  match current_state (kb_ui k) with
  | STATE_PROGRAMMING_SRC => text "Src?"
  | STATE_PROGRAMMING_DST => text "Dst?"
  | STATE_MACRO_RECORD_TRIGGER => text "Trg?"
  | STATE_MACRO_RECORD => text "Rec?"
  | _ => get_lux_str (s16 (if number =? 0xffff then lux else number))
  end.
End Texts.

Lemma bit_set_testbit mask n : 0 <= n -> bit_set mask (Z.shiftl 1 n) = Z.testbit mask n.
Proof. intros Hn. by apply Debounce.land_shiftl_testbit. Qed.

Lemma tag_shifted mask : 0 <= mask < 256 -> tag mask = 32 * Z.shiftr mask 5.
Proof.
  intros Hm. assert (Hall : forallb (fun m => Z.land m 0xE0 =? 32 * Z.shiftr m 5) (seqZ 0 256) = true) by (vm_compute; reflexivity).
  rewrite forallb_forall in Hall. apply Z.eqb_eq, Hall, list_elem_of_In, elem_of_seqZ. lia.
Qed.

(** The mask, as it is shown. *)
Lemma mask_texts (k : keyboard (M:=mem)) lux number :
  let mask := u8 (led_mask k) in
  status_mask mask /\
  layerName mask = layer_text (keystate_get_layer_id (kb_keys k)) /\
  led_msg mask (tag mask) = lock_text (USB_LEDReport k) ++ replicate (3 - length (lock_text (USB_LEDReport k))) 32 ++ mode_letter k /\
  tag_text (tag mask) lux number = mode_text lux number k.
Proof.
  cbv zeta. destruct (leds_show_status k) as (B3 & B4 & B0 & B1 & B2 & Hs & Hlt).
  set (mask := u8 (led_mask k)) in *. pose proof (u8_range (led_mask k) : 0 <= mask < 256) as Hr.
  assert (Ht : tag mask = 32 * shown_mode k) by (rewrite tag_shifted, Hs by done; done).
  split_and!.
  - change (mask < 0xE0) in Hlt. unfold status_mask. rewrite tag_shifted by done. rewrite Z.shiftr_div_pow2 by lia. change (2 ^ 5) with 32. dlia.
  - unfold layerName, layer_text. change 8 with (Z.shiftl 1 3). change 16 with (Z.shiftl 1 4).
    rewrite !bit_set_testbit, B3, B4 by lia. done.
  - unfold led_msg, lock_msg, lock_text. change (bit_set mask 1) with (bit_set mask (Z.shiftl 1 0)).
    change (bit_set mask 2) with (bit_set mask (Z.shiftl 1 1)). change (bit_set mask 4) with (bit_set mask (Z.shiftl 1 2)).
    rewrite !bit_set_testbit, B0, B1, B2, Ht by lia. f_equal. f_equal. unfold shown_mode, mode_letter.
    destruct (current_state (kb_ui k)); cbv zeta; try done; by destruct (programs_enabled (config_get_flags (kb_config k))), (macros_enabled (config_get_flags (kb_config k))).
  - rewrite Ht. unfold tag_text, shown_mode, mode_text.
    destruct (current_state (kb_ui k)); cbv zeta; try done;
      destruct (programs_enabled (config_get_flags (kb_config k))), (macros_enabled (config_get_flags (kb_config k)));
        by destruct (number =? 0xffff).
Qed.

(** ** The properties *)

Section Shown.
Context {D : Type} {L : LiquidCrystal D} {Ok : LcdOk D}.

(** C11: What the user sees. Whenever the display of the K84CS showed the last mask it was given, or is
    given a new one, after an update of the LEDs, and whatever numbers and light values follow,
    its first line names the layer, its second line has the host's lock LEDs, the letter of
    the enabled macros or programs, and the question of the mode or else the number that was set
    last (or, without one, the light value), and the lights of the locks and of the layer are on
    exactly when they should be. *)
Theorem display_shows_keyboard (k : keyboard (M:=mem)) (cs : list panel_call) (s : sensor_state) (p : panel D) :
  sensor_ok s -> Forall (fun c => match c with Leds _ => False | _ => True end) cs ->
  shows_last p \/
    (u8 (led_mask k) <> prev_led_mask p /\ is_u16 (sLuxValToShowOnLcd p) /\ is_u16 (sNumberToShowOnLcd p)) ->
  let '(_, p') := fold_left (fun sp c => panel_step c sp) cs (s, set_all_leds (u8 (led_mask k)) p) in
  line_shows (lcd p') 0 0 (layer_text (keystate_get_layer_id (kb_keys k))) /\
  line_shows (lcd p') 1 0 (lock_text (USB_LEDReport k) ++ replicate (3 - length (lock_text (USB_LEDReport k))) 32
                           ++ mode_letter k ++ mode_text (sLuxValToShowOnLcd p') (sNumberToShowOnLcd p') k) /\
  red p' = light (Z.testbit (USB_LEDReport k) 1) (sLuxValToShowOnLcd p') /\
  yellow p' = light (Z.testbit (USB_LEDReport k) 0) (sLuxValToShowOnLcd p') /\
  green p' = light (Z.testbit (USB_LEDReport k) 2) (sLuxValToShowOnLcd p') /\
  blue p' = light ((keystate_get_layer_id (kb_keys k) =? 1) || (keystate_get_layer_id (kb_keys k) =? 2)) (sLuxValToShowOnLcd p').
Proof.
  intros Hs Hcs Hp. set (mask := u8 (led_mask k)) in *.
  destruct (mask_texts k 0 0) as (Hst & _). fold mask in Hst.
  assert (Hsync : in_sync mask (set_all_leds mask p)).
  { destruct Hp as [Hp|(Hne & Hl & Hn)]; [|by apply change_shows].
    pose proof (panel_shows mask p Hp (or_introl Hst)) as Hps. rewrite (proj2 (Z.eqb_neq mask 0xff)) in Hps; [done|].
    intros ->. by apply Hst. }
  pose proof (panel_run cs mask s _ Hs Hsync) as Hrun.
  assert (Hok : Forall call_ok cs) by (eapply Forall_impl; [exact Hcs|]; by intros []).
  specialize (Hrun Hok). destruct (fold_left _ cs _) as [s' p']. destruct Hrun as [_ Hin].
  assert (Hm : fold_left next_mask cs mask = mask).
  { clear -Hcs. induction Hcs as [|c cs Hc _ IH]; [done|]. destruct c; done. }
  rewrite Hm in Hin. destruct Hin as ((_ & _ & _ & H1 & H2 & H3 & R & Y & G & B) & Epm & El & En).
  rewrite <- El in R, Y, G, B. rewrite <- El, <- En in H3. rewrite Epm in H1, H2, H3, R, Y, G, B.
  destruct (mask_texts k (sLuxValToShowOnLcd p') (sNumberToShowOnLcd p')) as (_ & T1 & T2 & T3).
  fold mask in T1, T2, T3. rewrite T1 in H1. rewrite T3 in H3.
  destruct (leds_show_status k) as (B3 & B4 & B0 & B1 & B2 & _). fold mask in B0, B1, B2, B3, B4.
  rewrite <- B0, <- B1, <- B2, <- B3, <- B4.
  rewrite <- !bit_set_testbit by lia. split_and!; try done.
  assert (Hl4 : length (led_msg mask (tag mask)) = 4%nat) by apply led_msg_length.
  rewrite T2 in H2, Hl4. rewrite !app_assoc. apply line_app. rewrite <- !app_assoc. split; [done|].
  by rewrite Hl4.
Qed.
End Shown.

(** After the message of the USB connection, the mode in which keys are remapped. *)
Lemma display_shows_keyboard_witness :
  let k := k84_board keystate_start (ui_current_state STATE_PROGRAMMING_SRC ui_start) in
  let p' := (fold_left (fun sp c => panel_step c sp) [Number 17; Sense 100 true 300]
    (sensor_start, set_all_leds (u8 (led_mask k)) (set_all_leds Display.LEDMASK_USB_READY sim_panel))).2 in
  line_shows (lcd p') 0 0 (text "Normal  ") /\ line_shows (lcd p') 1 0 (text "    Src?").
Proof.
  cbv zeta. set (k := k84_board _ _).
  assert (Hs : sensor_ok sensor_start) by exact start_ok.
  assert (Hcs : Forall (fun c => match c with Leds _ => False | _ => True end) [Number 17; Sense 100 true 300])
    by (repeat constructor).
  assert (Hp : u8 (led_mask k) <> prev_led_mask (set_all_leds Display.LEDMASK_USB_READY sim_panel)) by (vm_compute; discriminate).
  assert (Hl : is_u16 (sLuxValToShowOnLcd (set_all_leds Display.LEDMASK_USB_READY sim_panel))) by (vm_compute; split; congruence).
  assert (Hn : is_u16 (sNumberToShowOnLcd (set_all_leds Display.LEDMASK_USB_READY sim_panel))) by (vm_compute; split; congruence).
  pose proof (display_shows_keyboard k [Number 17; Sense 100 true 300] sensor_start _ Hs Hcs (or_intror (conj Hp (conj Hl Hn)))) as Ht.
  destruct (fold_left _ _ _) as [s' p'] in Ht |- *. destruct Ht as (H1 & H2 & _). split; [exact H1|exact H2].
Defined.

(** While a message of the USB connection is shown, a change of the light value takes its mask for
    a status: it writes ERR! and lights the lamp of the caps lock for ENUMERATING. *)
Example usb_message_disturbed :
  let p := set_all_leds LEDMASK_NOP (set_lux 40 (set_all_leds Display.LEDMASK_USB_ENUMERATING sim_panel)) in
  line_shows (lcd p) 0 0 (text "Usb Enum") /\ line_shows (lcd p) 1 4 (text "ERR!") /\ red p = Some 40.
Proof.
  cbv zeta. split_and!; [| |reflexivity]; intros i Hi.
  - do 8 (destruct i as [|i]; [reflexivity|]). cbn in Hi. lia.
  - do 4 (destruct i as [|i]; [reflexivity|]). cbn in Hi. lia.
Qed.

(** The light sensor. From a sensor at the start of a round, twenty conversions, each started and
    finished at its time, show the mean of their 12-bit results less the offset of the
    sensor, at least 0, on a panel that stays up to date, and end the round. *)
Theorem photosensor_shows_mean {D : Type} {L : LiquidCrystal D} {Ok : LcdOk D} (rs : list Z) (r mask : Z)
    (s : sensor_state) (p : panel D) :
  sensor_ok s -> adc_started s = false -> Display.index s = 0 -> in_sync mask p -> length rs = 19%nat ->
  let '(s', p') := fold_left (fun sp r => take_reading r sp) (rs ++ [r]) (s, p) in
  sensor_ok s' /\ adc_started s' = false /\ Display.index s' = 0 /\ in_sync mask p' /\
  sLuxValToShowOnLcd p' = Z.max 0 (foldr Z.add 0 (map (fun r => Z.land r 0x0fff) (rs ++ [r])) / 20 - 182).
Proof.
  intros Hs Ha H0 Hp Hl. pose proof Hs as (Hlen & Hr & Hi).
  rewrite fold_left_app. destruct (readings_collected rs s p Hs Ha H0 ltac:(lia)) as (t & ->).
  rewrite Hl. cbn [fold_left take_reading]. unfold run_photosensor.
  cbn [next_step_time_ms adc_started adc_rv Display.index]. rewrite Z.ltb_irrefl. cbn [negb].
  rewrite Z.ltb_irrefl. cbn [negb next_step_time_ms adc_started adc_rv Display.index].
  change (u8 (Z.of_nat 19 + 1) <? Z.of_nat 20) with false. cbv iota.
  assert (E : <[Z.to_nat (Z.of_nat 19) := Z.land r 4095]> (map (fun r => Z.land r 4095) rs ++ drop 19 (adc_rv s))
              = map (fun r => Z.land r 4095) (rs ++ [r])).
  { rewrite Nat2Z.id, map_app, insert_app_r_alt by (rewrite length_map; lia). rewrite length_map, Hl. f_equal.
    destruct (drop 19 (adc_rv s)) as [|x [|]] eqn:Ed; apply (f_equal length) in Ed; rewrite length_drop, Hlen in Ed; done. }
  rewrite E.
  assert (Hlen' : length (map (fun r => Z.land r 4095) (rs ++ [r])) = 20%nat) by (rewrite length_map, length_app, Hl; done).
  assert (Hr' : Forall (fun x => 0 <= x <= 4095) (map (fun r => Z.land r 4095) (rs ++ [r]))).
  { apply Forall_map, Forall_forall. intros x _. apply reading_range. }
  destruct (average_exact _ Hlen' Hr') as [Hav Hu16].
  destruct Hp as (Hsl & <- & _).
  pose proof (refresh_shows LEDMASK_NOP (set_lux (lux_of (adc_average (map (fun r => Z.land r 4095) (rs ++ [r])))) p)
    (set_lux_last _ p Hu16 Hsl) (or_intror eq_refl)) as Hsync.
  split_and!; try done. rewrite set_all_leds_lux. exact Hav.
Qed.
