(* ===== verification/UsbMain.v ===== *)
(** * lufa/lufa_main.c: the requests of the host

    The vendor requests with which the client programs read and write the
    configuration (src/usb_vendor_interface.h), the reports for the mouse, and
    the events of the USB library, in src/lufa/lufa_main.c.  The packets
    of the library are left to [LufaMain]: a control request comes with the data of a
    transfer the host has completed, and its answer is the data sent.  The stream functions move
    one byte after the other ([SpiProofs] and [I2cProofs] have the ones for
    the external eeproms).  The handlers do not check the length of a transfer:
    reading or writing past the end of an array has no result ([None]). *)

From Stdlib Require Import String.
From S2P Require Import Prelude Sort Hid ExtraReport Printing Hardware Keystate KeystateReports MacroIndex.
From S2P Require Import Storage Macro Config Interpreter Keyboard.
Open Scope Z_scope.

(** ** Vendor requests *)

(** [enum vendor_request] *)
Abbreviation READ_LAYOUT_ID := 0 (only parsing).
Abbreviation READ_MAPPING_SIZE := 1 (only parsing).
Abbreviation WRITE_MAPPING := 2 (only parsing).
Abbreviation READ_MAPPING := 3 (only parsing).
Abbreviation READ_DEFAULT_MAPPING := 4 (only parsing).
Abbreviation READ_NUM_PROGRAMS := 5 (only parsing).
Abbreviation READ_PROGRAMS_SIZE := 6 (only parsing).
Abbreviation WRITE_PROGRAMS := 7 (only parsing).
Abbreviation READ_PROGRAMS := 8 (only parsing).
Abbreviation RESET_DEFAULTS := 9 (only parsing).
Abbreviation RESET_FULLY := 10 (only parsing).
Abbreviation READ_CONFIG_FLAGS := 11 (only parsing).
Abbreviation WRITE_CONFIG_FLAGS := 12 (only parsing).
Abbreviation READ_MACRO_INDEX_SIZE := 13 (only parsing).
Abbreviation WRITE_MACRO_INDEX := 14 (only parsing).
Abbreviation READ_MACRO_INDEX := 15 (only parsing).
Abbreviation READ_MACRO_STORAGE_SIZE := 16 (only parsing).
Abbreviation WRITE_MACRO_STORAGE := 17 (only parsing).
Abbreviation READ_MACRO_STORAGE := 18 (only parsing).
Abbreviation READ_MACRO_MAX_KEYS := 19 (only parsing).

(** Vendor requests to the device, and their direction. *)
Abbreviation DEVICETOHOST := 192 (only parsing).
Abbreviation HOSTTODEVICE := 64 (only parsing).

Record usb_request := mkRequest {
  bmRequestType : Z;
  bRequest : Z;
  wValue : Z;
  wLength : Z
}.

Inductive usb_reply :=
  | Sent (bytes : list Z)
  | Received
  | Acked
  | Stalled
  | NotForUs.

(** ** Arrays as bytes *)

(** [sizeof(macro_idx_entry)] *)
Abbreviation SIZEOF_ENTRY := 6%nat (only parsing).

Definition entry_bytes (e : macro_idx_entry) : list Z := keys e ++ le16 (val e).
Definition index_bytes (index : list macro_idx_entry) : list Z := concat (map entry_bytes index).

Definition entry_of_bytes (bs : list Z) : macro_idx_entry := mkIdxEntry (take 4 bs) (of_le16 (drop 4 bs)).

Fixpoint index_of_bytes (n : nat) (bs : list Z) : list macro_idx_entry :=
  match n with
  | O => []
  | S n => entry_of_bytes (take SIZEOF_ENTRY bs) :: index_of_bytes n (drop SIZEOF_ENTRY bs)
  end.

(** The first bytes of an array read or written; [None]: behind its end. *)
Definition array_read (n : Z) (l : list Z) : option (list Z) :=
  if n <=? Z.of_nat (length l) then Some (take (Z.to_nat n) l) else None.
Definition array_write (data l : list Z) : option (list Z) :=
  if (length data <=? length l)%nat then Some (data ++ drop (length data) l) else None.

Section UsbMain.
Context {H : Hardware} {K : HotKeys} {L : Leds} {M : Type} {St : Storage M}.
Context (outside outside_default : Z -> Z) (macros_storage : Z) (macro_def_infos : list macro_def_info).
Context (program_addr : Z) (vms_addr : nat -> Z) (storage_errno : Z).
Context (CONST_MSG : string -> Z) (CONSTANT_STORAGE : storage_type) (sram_read_byte avr_pgm_read_byte : Z -> Z).
Context (LAYOUT_ID : Z).

Abbreviation keyboard := (keyboard (M:=M)).

(** ** EVENT_USB_Device_ControlRequest *)

(** [macros_storage], up to its end; reading uses the medium. *)
Definition macro_storage_read (n : Z) (k : keyboard) : option (usb_reply * keyboard) :=
  if n <=? MACROS_SIZE then
    let '(bs, m) := Endpoint_Write_Control_Stream macros_storage (Z.to_nat n) (storage (kb_macros k)) in
    Some (Sent bs, set_macros (set_storage m (kb_macros k)) k)
  else None.

Definition read_request (rq : usb_request) (k : keyboard) : option (usb_reply * keyboard) :=
  let n := wLength rq in
  let r := bRequest rq in
  let send bs := Some (Sent bs, k) in
  let send_array l := bs ← array_read n l; Some (Sent bs, k) in
  if r =? READ_NUM_PROGRAMS then send [u8 PROGRAM_COUNT]
  else if r =? READ_LAYOUT_ID then send [u8 LAYOUT_ID]
  else if r =? READ_MAPPING_SIZE then send [u8 NUM_LOGICAL_KEYS]
  else if r =? READ_CONFIG_FLAGS then send [u8 (byte_of_flags (config_get_flags (kb_config k)))]
  else if r =? READ_MACRO_MAX_KEYS then send [4]
  else if r =? READ_PROGRAMS_SIZE then send (le16 PROGRAM_SIZE)
  else if r =? READ_MACRO_INDEX_SIZE then send (le16 (MACRO_INDEX_COUNT * 6))
  else if r =? READ_MACRO_STORAGE_SIZE then send (le16 MACROS_SIZE)
  else if r =? READ_PROGRAMS then send_array (programs (kb_config k))
  else if r =? READ_MACRO_INDEX then send_array (index_bytes (macro_index (kb_macros k)))
  else if r =? READ_MACRO_STORAGE then macro_storage_read n k
  else if r =? READ_DEFAULT_MAPPING then send_array logical_to_hid_map_default
  else if r =? READ_MAPPING then send_array (logical_to_hid_map (kb_config k))
  else Some (Stalled, k).

Definition write_programs (data : list Z) (k : keyboard) : option keyboard :=
  p ← array_write data (programs (kb_config k));
  Some (set_config (set_programs p (kb_config k)) k).

Definition write_macro_index (data : list Z) (k : keyboard) : option keyboard :=
  bs ← array_write data (index_bytes (macro_index (kb_macros k)));
  Some (set_macros (set_index (index_of_bytes (length (macro_index (kb_macros k))) bs) (kb_macros k)) k).

Definition write_macro_storage (data : list Z) (k : keyboard) : option keyboard :=
  if Z.of_nat (length data) <=? MACROS_SIZE then
    let m := Endpoint_Read_Control_Stream macros_storage data (storage (kb_macros k)) in
    Some (set_macros (set_storage m (kb_macros k)) k)
  else None.

Definition write_mapping (data : list Z) (k : keyboard) : option keyboard :=
  m ← array_write data (logical_to_hid_map (kb_config k));
  Some (set_config (set_map m (kb_config k)) k).

Definition write_request (rq : usb_request) (data : list Z) (k : keyboard) : option (usb_reply * keyboard) :=
  let r := bRequest rq in
  let received k := Some (Received, k) in
  if r =? WRITE_PROGRAMS then k ← write_programs data k; received k
  else if r =? WRITE_MACRO_INDEX then k ← write_macro_index data k; received k
  else if r =? WRITE_MACRO_STORAGE then k ← write_macro_storage data k; received k
  else if r =? WRITE_MAPPING then k ← write_mapping data k; received k
  else if r =? WRITE_CONFIG_FLAGS then
    Some (Acked, run_config_ CONST_MSG CONSTANT_STORAGE
                   (config_save_flags (flags_of_byte (Z.land (wValue rq) 255))) k)
  else if r =? RESET_DEFAULTS then
    Some (Acked, run_config_ CONST_MSG CONSTANT_STORAGE config_reset_defaults k)
  else if r =? RESET_FULLY then
    Some (Acked, run_reset macros_storage macro_def_infos CONST_MSG CONSTANT_STORAGE k)
  else Some (Stalled, k).

Definition EVENT_USB_Device_ControlRequest (rq : usb_request) (data : list Z) (k : keyboard)
    : option (usb_reply * keyboard) :=
  if bmRequestType rq =? DEVICETOHOST then read_request rq k
  else if bmRequestType rq =? HOSTTODEVICE then write_request rq data k
  else Some (NotForUs, k).

(** ** Reports and events *)

(** The mouse's part of [CALLBACK_HID_Device_CreateHIDReport]; the first
    component is [lastMouseButtonStatus], a report is sent if there is one. *)
Definition send_mouse_report (r : MouseReport_Data_t) (last : Z) : Z * option MouseReport_Data_t :=
  if (last =? Button r) && (0 =? X r) && (0 =? Y r) && (0 =? VWheel r) && (0 =? HWheel r)
  then (last, None) else (Button r, Some r).

(** The firmware: the keyboard and the static variable of the callback. *)
Record firmware := mkFirmware {
  fw_keyboard : keyboard;
  lastMouseButtonStatus : Z
}.

(** What the hardware and the host do: also requests, and polls for the mouse's report. *)
Inductive usb_input :=
  | Kbd (e : kbd_input)
  | Control (rq : usb_request) (data : list Z)
  | CreateMouseReport
  | StartOfFrame
  | Connect
  | Disconnect
  | ConfigurationChanged (success : bool).

Definition kbd_step (e : kbd_input) (f : firmware) : option firmware :=
  k ← keyboard_step outside outside_default macros_storage macro_def_infos program_addr vms_addr storage_errno
        CONST_MSG CONSTANT_STORAGE sram_read_byte avr_pgm_read_byte e (fw_keyboard f);
  Some (mkFirmware k (lastMouseButtonStatus f)).

(** The answer to the host, if there is one, and the state after the event. *)
Definition usb_step (e : usb_input) (f : firmware)
    : option (option (usb_reply + MouseReport_Data_t) * firmware) :=
  let quiet f := Some (None, f) in
  match e with
  | Kbd e => f ← kbd_step e f; quiet f
  | Control rq data =>
      '(reply, k) ← EVENT_USB_Device_ControlRequest rq data (fw_keyboard f);
      Some (Some (inl reply), mkFirmware k (lastMouseButtonStatus f))
  | CreateMouseReport =>
      let '(k, r) := Fill_MouseReport outside empty_mouse_report (fw_keyboard f) in
      let '(last, sent) := send_mouse_report r (lastMouseButtonStatus f) in
      Some (inr <$> sent, mkFirmware k last)
  | StartOfFrame => f ← kbd_step (Millis 1) f; quiet f
  | Connect => f ← kbd_step (UsbState ENUMERATING) f; quiet f
  | Disconnect => f ← kbd_step (UsbState NOTREADY) f; quiet f
  | ConfigurationChanged success => f ← kbd_step (UsbState (if success : bool then READY else ERROR)) f; quiet f
  end.

Fixpoint usb_run (es : list usb_input) (f : firmware) : option firmware :=
  match es with
  | [] => Some f
  | e :: es => '(_, f) ← usb_step e f; usb_run es f
  end.
End UsbMain.
