(* ===== verification/UsbProofs.v ===== *)
(** * lufa/lufa_main.c: the properties of the host's requests

    What the host writes it reads back, and nothing else changes; the
    invariants of the main loop hold up to a request that is longer than its
    array or a program that leaves its stack; the reports of the mouse lose no
    change. *)

From Stdlib Require Import String.
From S2P Require Import Prelude Sort Hid ExtraReport Printing Hardware K84cs Keystate KeystateReports.
From S2P Require Import Debounce KeystateProofs MacroProofs ConfigProofs.
From S2P Require Import MacroIndex Storage Macro Config Interpreter Keyboard.
From S2P Require Import KeyboardProofs KeyboardInv KeyboardProps UsbMain.
Open Scope Z_scope.

(** ** Arrays as bytes *)

Lemma le16_of_le16 a b : is_u8 a -> is_u8 b -> le16 (of_le16 [a; b]) = [a; b].
Proof.
  unfold is_u8. intros Ha Hb. unfold le16, of_le16. cbn [lookup_total list_lookup_total].
  f_equal; [unfold u8; dlia|]. f_equal. unfold u8. dlia.
Qed.

(** Six bytes are one entry. *)
Lemma entry_round_trip bs : length bs = SIZEOF_ENTRY -> Forall is_u8 bs -> entry_bytes (entry_of_bytes bs) = bs.
Proof.
  intros Hl Hb. do 6 (destruct bs as [|? bs]; [done|]). destruct bs; [|done].
  unfold entry_bytes, entry_of_bytes. cbn [take drop keys val].
  rewrite !Forall_cons in Hb. rewrite le16_of_le16 by tauto. done.
Qed.

Lemma index_round_trip n bs :
  length bs = (n * SIZEOF_ENTRY)%nat -> Forall is_u8 bs -> index_bytes (index_of_bytes n bs) = bs.
Proof.
  revert bs. induction n as [|n IH]; intros bs Hl Hb; [by destruct bs|].
  cbn [index_of_bytes]. unfold index_bytes. cbn [map concat].
  rewrite entry_round_trip by first [rewrite length_take; lia | by apply Forall_take].
  fold (index_bytes (index_of_bytes n (drop SIZEOF_ENTRY bs))).
  rewrite IH by first [rewrite length_drop; lia | by apply Forall_drop]. apply take_drop.
Qed.

Definition entries_ok (index : list macro_idx_entry) : Prop :=
  Forall (fun e => length (keys e) = 4%nat /\ Forall is_u8 (keys e)) index.

Lemma index_bytes_length index : entries_ok index -> length (index_bytes index) = (length index * SIZEOF_ENTRY)%nat.
Proof.
  unfold index_bytes. induction 1 as [|e index [He _] _ IH]; [done|].
  cbn [map concat]. rewrite length_app, IH. unfold entry_bytes. rewrite length_app, He. cbn. lia.
Qed.

Lemma index_bytes_u8 index : entries_ok index -> Forall is_u8 (index_bytes index).
Proof.
  unfold index_bytes. induction 1 as [|e index [_ He] _ IH]; [done|].
  cbn [map concat]. apply Forall_app. split; [|done]. apply Forall_app. split; [done|].
  unfold le16. repeat (apply Forall_cons; split; [apply u8_range|]). done.
Qed.

Lemma index_of_bytes_length n bs : length (index_of_bytes n bs) = n.
Proof. revert bs. induction n as [|n IH]; intros bs; [done|]. cbn. by rewrite IH. Qed.

(** What has been written is read back; [l'] is the array afterwards. *)
Lemma array_round_trip data l :
  (length data <= length l)%nat ->
  exists l', array_write data l = Some l' /\ length l' = length l /\
    array_read (Z.of_nat (length data)) l' = Some data.
Proof.
  intros Hl. unfold array_write. rewrite (proj2 (Nat.leb_le _ _)) by done. eexists. split; [reflexivity|].
  rewrite length_app, length_drop. split; [lia|]. unfold array_read.
  rewrite length_app, length_drop, (proj2 (Z.leb_le _ _)) by lia. by rewrite Nat2Z.id, take_app_length.
Qed.

(** ** Reading back *)

Section UsbProofs.
Context {H : Hardware} {K : HotKeys} {L : Leds} {M : Type} {St : Storage M}.
Context (macros_storage : Z) (macro_def_infos : list macro_def_info).
Context (CONST_MSG : string -> Z) (CONSTANT_STORAGE : storage_type).
Context (LAYOUT_ID : Z).

Abbreviation keyboard := (keyboard (M:=M)).
Abbreviation read_request := (read_request (M:=M) macros_storage LAYOUT_ID).
Abbreviation write_request := (write_request (M:=M) macros_storage macro_def_infos CONST_MSG CONSTANT_STORAGE).
Abbreviation control := (EVENT_USB_Device_ControlRequest (M:=M) macros_storage macro_def_infos CONST_MSG
  CONSTANT_STORAGE LAYOUT_ID).

(** The areas the host can write, the request that reads each, and their sizes in bytes. *)
Inductive usb_area := Programs | MacroIndexArea | MacroStorage | Mapping.

Definition write_of (a : usb_area) : Z :=
  match a with
  | Programs => WRITE_PROGRAMS | MacroIndexArea => WRITE_MACRO_INDEX
  | MacroStorage => WRITE_MACRO_STORAGE | Mapping => WRITE_MAPPING
  end.
Definition read_of (a : usb_area) : Z :=
  match a with
  | Programs => READ_PROGRAMS | MacroIndexArea => READ_MACRO_INDEX
  | MacroStorage => READ_MACRO_STORAGE | Mapping => READ_MAPPING
  end.
Definition area_size (a : usb_area) (k : keyboard) : Z :=
  match a with
  | Programs => Z.of_nat (length (programs (kb_config k)))
  | MacroIndexArea => Z.of_nat (length (macro_index (kb_macros k))) * 6
  | MacroStorage => MACROS_SIZE
  | Mapping => Z.of_nat (length (logical_to_hid_map (kb_config k)))
  end.

Lemma write_programs_spec data (k : keyboard) :
  Z.of_nat (length data) <= area_size Programs k ->
  exists p, write_programs data k = Some (set_config (set_programs p (kb_config k)) k) /\
    array_read (Z.of_nat (length data)) p = Some data.
Proof.
  intros Hl. destruct (array_round_trip data (programs (kb_config k))) as (p & E & _ & R); [cbn in Hl; lia|].
  exists p. unfold write_programs. by rewrite E.
Qed.

Lemma write_mapping_spec data (k : keyboard) :
  Z.of_nat (length data) <= area_size Mapping k ->
  exists m, write_mapping data k = Some (set_config (set_map m (kb_config k)) k) /\
    array_read (Z.of_nat (length data)) m = Some data.
Proof.
  intros Hl. destruct (array_round_trip data (logical_to_hid_map (kb_config k))) as (p & E & _ & R);
    [cbn in Hl; lia|]. exists p. unfold write_mapping. by rewrite E.
Qed.

Lemma write_macro_index_spec data (k : keyboard) :
  entries_ok (macro_index (kb_macros k)) -> Forall is_u8 data ->
  Z.of_nat (length data) <= area_size MacroIndexArea k ->
  exists i, write_macro_index data k = Some (set_macros (set_index i (kb_macros k)) k) /\
    array_read (Z.of_nat (length data)) (index_bytes i) = Some data.
Proof.
  intros Hi Hd Hl. cbn [area_size] in Hl. pose proof (index_bytes_length _ Hi) as Hlen.
  destruct (array_round_trip data (index_bytes (macro_index (kb_macros k)))) as (bs & E & Hbs & R); [lia|].
  unfold write_macro_index. rewrite E. cbn [mbind option_bind].
  eexists. split; [reflexivity|]. rewrite index_round_trip; [done|lia|].
  unfold array_write in E. destruct (_ <=? _)%nat; [|done]. injection E as <-.
  apply Forall_app. split; [done|]. apply Forall_drop. by apply index_bytes_u8.
Qed.

(** The keyboard when the last write of the macros' medium has ended. *)
Definition settle (k : keyboard) : keyboard := set_macros (Macro.wait (kb_macros k)) k.

Lemma write_macro_storage_spec data (k : keyboard) :
  StorageOk M St -> medium_ok (storage (kb_macros k)) -> in_medium macros_storage MACROS_SIZE -> data <> [] ->
  Z.of_nat (length data) <= area_size MacroStorage k ->
  exists m m', write_macro_storage macros_storage data k = Some (set_macros (set_storage m (kb_macros k)) k) /\
    Endpoint_Write_Control_Stream macros_storage (length data) (storage_wait_for_last_write_end m) = (data, m').
Proof.
  intros Hst Ho Hi Hne Hl. unfold write_macro_storage. rewrite (proj2 (Z.leb_le _ _)) by exact Hl.
  assert (Hin : in_medium macros_storage (Z.of_nat (length data)))
    by (eapply in_medium_sub; [exact Hi|cbn [area_size] in Hl; lia..]).
  destruct (read_stream_ok macros_storage data (storage (kb_macros k)) Ho Hne Hin) as [Ho' Hc].
  set (m := Endpoint_Read_Control_Stream _ _ _) in *.
  destruct (storage_wait_ok m Ho') as [Hr Ew].
  destruct (write_stream_ok macros_storage (length data) _ Hr Hin) as (E & _).
  destruct (Endpoint_Write_Control_Stream _ _ _) as [bs m'] eqn:Ebs. cbn [fst] in E. exists m, m'.
  split; [reflexivity|]. rewrite Ebs, E. f_equal.
  rewrite <- (bytes_at_blit macros_storage data (cell (storage (kb_macros k)))) at 2.
  apply bytes_at_ext. intros x _. by rewrite Ew, Hc.
Qed.

(** ** The invariants *)




(** The answers to the requests that do not depend on what has changed. *)
Ltac same_replies :=
  repeat match goal with |- context [if bRequest ?rq =? ?r then _ else _] => destruct (bRequest rq =? r) end;
  unfold macro_storage_read;
  cbn [kb_config kb_macros storage programs logical_to_hid_map macro_index
       set_config set_macros set_index set_programs set_map set_storage];
  repeat match goal with
    | |- context [array_read ?n ?l] => destruct (array_read n l)
    | |- context [if ?b then _ else _] => destruct b
    | |- context [Endpoint_Write_Control_Stream ?a ?n ?m] => destruct (Endpoint_Write_Control_Stream a n m)
    end; done.

(** Reading back what a write request has stored: the one changed request, and all others. *)
Lemma write_then_read a data v (k : keyboard) :
  entries_ok (macro_index (kb_macros k)) -> StorageOk M St ->
  medium_ok (storage (kb_macros k)) -> in_medium macros_storage MACROS_SIZE -> Forall is_u8 data -> data <> [] ->
  Z.of_nat (length data) <= area_size a k ->
  let n := Z.of_nat (length data) in
  exists k', control (mkRequest HOSTTODEVICE (write_of a) v n) data k = Some (Received, k') /\
    (exists k2, control (mkRequest DEVICETOHOST (read_of a) v n) [] (settle k') = Some (Sent data, k2)) /\
    forall rq, bRequest rq <> read_of a -> fst <$> read_request rq k' = fst <$> read_request rq k.
Proof.
  intros Hi Hst Hmed Hin Hd Hne0 Hl n. unfold EVENT_USB_Device_ControlRequest. cbn [bmRequestType Z.eqb Pos.eqb].
  destruct a; cbn [write_of read_of] in *; unfold UsbMain.write_request, UsbMain.read_request;
    cbn [bRequest wLength Z.eqb Pos.eqb].
  - destruct (write_programs_spec data k Hl) as (p & E & R). rewrite E. cbn [mbind option_bind].
    eexists. split; [reflexivity|]. subst n. cbn [settle kb_config kb_macros programs logical_to_hid_map macro_index
      set_config set_macros set_index set_programs set_map]. rewrite R. split; [by eexists|].
    intros rq Hne. rewrite (proj2 (Z.eqb_neq (bRequest rq) 8) Hne). same_replies.
  - destruct (write_macro_index_spec data k Hi Hd Hl) as (i & E & R). rewrite E. cbn [mbind option_bind].
    eexists. split; [reflexivity|]. subst n. cbn [settle Macro.wait set_storage kb_config kb_macros programs logical_to_hid_map
      macro_index set_config set_macros set_index set_programs set_map]. rewrite R. split; [by eexists|].
    intros rq Hne. rewrite (proj2 (Z.eqb_neq (bRequest rq) 15) Hne). same_replies.
  - destruct (write_macro_storage_spec data k Hst Hmed Hin Hne0 Hl) as (m & m' & E & R). rewrite E.
    cbn [mbind option_bind]. eexists. split; [reflexivity|]. unfold macro_storage_read. subst n.
    rewrite (proj2 (Z.leb_le _ _)) by exact Hl. rewrite Nat2Z.id.
    cbn [settle Macro.wait kb_macros storage set_macros set_storage]. rewrite R. split; [by eexists|].
    intros rq Hne. rewrite (proj2 (Z.eqb_neq (bRequest rq) 18) Hne). same_replies.
  - destruct (write_mapping_spec data k Hl) as (m & E & R). rewrite E. cbn [mbind option_bind].
    eexists. split; [reflexivity|]. subst n. cbn [settle kb_config kb_macros programs logical_to_hid_map macro_index
      set_config set_macros set_index set_programs set_map]. rewrite R. split; [by eexists|].
    intros rq Hne. rewrite (proj2 (Z.eqb_neq (bRequest rq) 3) Hne). same_replies.
Qed.

(** The flags are one byte. *)
Lemma flags_round_trip b : is_u8 b -> u8 (byte_of_flags (flags_of_byte b)) = b.
Proof.
  intros Hb. unfold is_u8 in Hb.
  assert (Hall : forallb (fun b => u8 (byte_of_flags (flags_of_byte b)) =? b) (seqZ 0 256) = true) by reflexivity.
  rewrite forallb_forall in Hall. apply Z.eqb_eq, Hall, list_elem_of_In, elem_of_seqZ. lia.
Qed.

Lemma write_flags v (k : keyboard) :
  exists k', control (mkRequest HOSTTODEVICE WRITE_CONFIG_FLAGS v 0) [] k = Some (Acked, k') /\
    control (mkRequest DEVICETOHOST READ_CONFIG_FLAGS 0 1) [] k' = Some (Sent [v mod 256], k').
Proof.
  assert (Hv : is_u8 (v mod 256)) by (unfold is_u8; dlia).
  assert (Hl : Z.land v 255 = v mod 256) by (apply (Z.land_ones v 8); lia).
  eexists. split; [reflexivity|]. unfold EVENT_USB_Device_ControlRequest, UsbMain.read_request.
  cbn [bmRequestType bRequest Z.eqb Pos.eqb mbind option_bind]. do 4 f_equal.
  cbn [wValue]. rewrite Hl.
  destruct (run_config__spec CONST_MSG CONSTANT_STORAGE (config_save_flags (flags_of_byte (v mod 256))) k)
    as (p & o & ->). cbn [kb_config set_out set_print set_config].
  unfold config_get_flags. cbn [eeprom_flags no_config_out config_save_flags set_settings].
  rewrite (flags_round_trip (v mod 256)) by done. by apply flags_round_trip.
Qed.
End UsbProofs.

(** ** Runs of the firmware *)

Section Runs.
Context {H : Hardware} {K : HotKeys} {L : Leds} {M : Type} {St : Storage M}.
Context (outside outside_default : Z -> Z) (macros_storage : Z) (macro_def_infos : list macro_def_info).
Context (program_addr : Z) (vms_addr : nat -> Z) (storage_errno : Z).
Context (CONST_MSG : string -> Z) (CONSTANT_STORAGE : storage_type) (sram_read_byte avr_pgm_read_byte : Z -> Z).
Context (LAYOUT_ID : Z).

Abbreviation firmware := (firmware (M:=M)).
Abbreviation usb_step := (usb_step (M:=M) outside outside_default macros_storage macro_def_infos program_addr
  vms_addr storage_errno CONST_MSG CONSTANT_STORAGE sram_read_byte avr_pgm_read_byte LAYOUT_ID).
Abbreviation usb_run := (usb_run (M:=M) outside outside_default macros_storage macro_def_infos program_addr
  vms_addr storage_errno CONST_MSG CONSTANT_STORAGE sram_read_byte avr_pgm_read_byte LAYOUT_ID).
Abbreviation kbd_step := (kbd_step (M:=M) outside outside_default macros_storage macro_def_infos program_addr
  vms_addr storage_errno CONST_MSG CONSTANT_STORAGE sram_read_byte avr_pgm_read_byte).





(** What the model gives no result: the code leaves an array. *)



Abbreviation handle_state := (handle_state (M:=M) outside outside_default macros_storage macro_def_infos program_addr
  vms_addr storage_errno CONST_MSG CONSTANT_STORAGE sram_read_byte avr_pgm_read_byte).





Abbreviation control := (EVENT_USB_Device_ControlRequest (M:=M) macros_storage macro_def_infos CONST_MSG
  CONSTANT_STORAGE LAYOUT_ID).







End Runs.

(** ** Mouse reports *)

(** The reports sent for the reports filled in at the polls [rs]. *)
Fixpoint send_all (rs : list MouseReport_Data_t) (last : Z) : Z * list MouseReport_Data_t :=
  match rs with
  | [] => (last, [])
  | r :: rs =>
      let '(last, sent) := send_mouse_report r last in
      let '(last, sents) := send_all rs last in
      (last, match sent with Some r => r :: sents | None => sents end)
  end.

Definition motion (f : MouseReport_Data_t -> Z) (rs : list MouseReport_Data_t) : Z := foldr Z.add 0 (map f rs).

Definition moves (r : MouseReport_Data_t) : Prop := X r <> 0 \/ Y r <> 0 \/ VWheel r <> 0 \/ HWheel r <> 0.

Lemma send_mouse_report_cases r last :
  (send_mouse_report r last = (last, None) /\ Button r = last /\ X r = 0 /\ Y r = 0 /\ VWheel r = 0 /\ HWheel r = 0)
  \/ (send_mouse_report r last = (Button r, Some r) /\ (moves r \/ Button r <> last)).
Proof.
  unfold send_mouse_report, moves.
  destruct ((last =? Button r) && (0 =? X r) && (0 =? Y r) && (0 =? VWheel r) && (0 =? HWheel r)) eqn:E.
  - left. bsplit. split_and!; [done|lia..].
  - right. split; [done|]. rewrite !andb_false_iff, !Z.eqb_neq in E. lia.
Qed.

(** Each report sent tells something: a motion, or other buttons than the one before. *)
Fixpoint news (last : Z) (rs : list MouseReport_Data_t) : Prop :=
  match rs with
  | [] => True
  | r :: rs => (moves r \/ Button r <> last) /\ news (Button r) rs
  end.

Lemma last_shift {A} (l : list A) x d : List.last (x :: l) d = List.last l x.
Proof.
  revert x d. induction l as [|y l IH]; intros x d; [done|].
  transitivity (List.last (y :: l) d); [done|]. by rewrite !IH.
Qed.

Lemma send_all_spec rs last :
  let '(last', sent) := send_all rs last in
  last' = List.last (map Button rs) last /\ last' = List.last (map Button sent) last /\ news last sent /\
  motion X sent = motion X rs /\ motion Y sent = motion Y rs /\
  motion VWheel sent = motion VWheel rs /\ motion HWheel sent = motion HWheel rs.
Proof.
  revert last. induction rs as [|r rs IH]; intros last; [done|]. cbn [send_all].
  destruct (send_mouse_report_cases r last) as [(E & Eb & E1 & E2 & E3 & E4) | (E & Hn)]; rewrite E.
  - specialize (IH last). destruct (send_all rs last) as [last' sent].
    destruct IH as (H1 & H2 & H3 & H4 & H5 & H6 & H7). unfold motion in *. cbn [map foldr].
    rewrite last_shift, Eb. split_and!; [done..|lia|lia|lia|lia].
  - specialize (IH (Button r)). destruct (send_all rs (Button r)) as [last' sent].
    destruct IH as (H1 & H2 & H3 & H4 & H5 & H6 & H7). unfold motion in *. cbn [map foldr news].
    rewrite !last_shift. split_and!; [done..|lia|lia|lia|lia].
Qed.

(** The index of the keyboard of the witnesses. *)
Lemma k84_entries_ok : entries_ok (macro_index (kb_macros (k84_board keystate_start ui_start))).
Proof.
  assert (Hb : forallb (fun e => Nat.eqb (length (keys e)) 4 && forallb (fun x => (0 <=? x) && (x <? 256)) (keys e))
    (macro_index (kb_macros (k84_board keystate_start ui_start))) = true) by (vm_compute; reflexivity).
  apply Forall_forall. intros e He. rewrite forallb_forall in Hb. specialize (Hb e (proj1 (list_elem_of_In _ _) He)).
  apply andb_true_iff in Hb as [Hb1 Hb2]. split; [by apply Nat.eqb_eq|].
  rewrite forallb_forall in Hb2. apply Forall_forall. intros x Hx.
  specialize (Hb2 x (proj1 (list_elem_of_In _ _) Hx)). unfold is_u8. lia.
Qed.

(** ** The properties *)

(** C15: What the host writes, it reads back, and nothing else. For each area (programs, macro index,
    macro storage, key map), writing data that fits succeeds, even while the macros' medium is busy;
    reading as many bytes, once the medium has finished, returns the data, and every other read
    request is answered as before; the flags written are the flags read. Byte for byte this includes the macro index, which the firmware keeps as
    entries. *)
Theorem host_writes_are_read_back {H : Hardware} {K : HotKeys} {M} {St : Storage M} macros_storage
    macro_def_infos CONST_MSG CONSTANT_STORAGE LAYOUT_ID (a : usb_area) (data : list Z) (v : Z)
    (k : keyboard (M:=M)) :
  entries_ok (macro_index (kb_macros k)) -> StorageOk M St ->
  medium_ok (storage (kb_macros k)) -> in_medium macros_storage MACROS_SIZE -> Forall is_u8 data -> data <> [] ->
  Z.of_nat (length data) <= area_size a k ->
  let n := Z.of_nat (length data) in
  let control := EVENT_USB_Device_ControlRequest macros_storage macro_def_infos CONST_MSG CONSTANT_STORAGE
                   LAYOUT_ID in
  (exists k', control (mkRequest HOSTTODEVICE (write_of a) v n) data k = Some (Received, k') /\
    (exists k2, control (mkRequest DEVICETOHOST (read_of a) v n) [] (settle k') = Some (Sent data, k2)) /\
    forall rq, bRequest rq <> read_of a ->
      fst <$> read_request macros_storage LAYOUT_ID rq k' = fst <$> read_request macros_storage LAYOUT_ID rq k) /\
  (exists k', control (mkRequest HOSTTODEVICE WRITE_CONFIG_FLAGS v 0) [] k = Some (Acked, k') /\
    control (mkRequest DEVICETOHOST READ_CONFIG_FLAGS 0 1) [] k' = Some (Sent [v mod 256], k')).
Proof. intros. split; [by apply write_then_read|apply write_flags]. Qed.

Lemma host_writes_are_read_back_witness :
  let k := k84_board keystate_start ui_start in
  exists k' k2, EVENT_USB_Device_ControlRequest 0 macro_def_infos k84_msg sram 4
      (mkRequest HOSTTODEVICE WRITE_MACRO_INDEX 0 6) [1; 2; 255; 255; 0; 16] k = Some (Received, k') /\
    EVENT_USB_Device_ControlRequest 0 macro_def_infos k84_msg sram 4
      (mkRequest DEVICETOHOST READ_MACRO_INDEX 0 6) [] (settle k') = Some (Sent [1; 2; 255; 255; 0; 16], k2).
Proof.
  cbv zeta.
  assert (Hd : Forall is_u8 [1; 2; 255; 255; 0; 16]).
  { repeat (apply Forall_cons; split; [vm_compute; split; congruence|]). apply Forall_nil. exact I. }
  destruct (host_writes_are_read_back 0 macro_def_infos k84_msg sram 4 MacroIndexArea [1; 2; 255; 255; 0; 16] 0
    (k84_board keystate_start ui_start) k84_entries_ok avr_eeprom_ok I I Hd) as [(k' & H1 & (k2 & H2) & _) _];
    [discriminate|vm_compute; congruence|].
  exists k', k2. exact (conj H1 H2).
Defined.


Abbreviation k84_usb_run := (usb_run k84_outside k84_outside 0 macro_def_infos 0 (fun _ => 0) 0
  k84_msg sram (memory_of k84_message) (memory_of k84_message) 4).


(** The mouse's reports reach the host without loss and without noise. Whatever reports are
    filled in at the polls, the ones sent add up to the same motion on each axis, the host's last
    knowledge of the buttons is their current state, and every report sent has a motion or other
    buttons than the one before. *)
Theorem mouse_reports_tell_changes (rs : list MouseReport_Data_t) :
  let '(last, sent) := send_all rs 0 in
  last = List.last (map Button rs) 0 /\ last = List.last (map Button sent) 0 /\ news 0 sent /\
  motion X sent = motion X rs /\ motion Y sent = motion Y rs /\
  motion VWheel sent = motion VWheel rs /\ motion HWheel sent = motion HWheel rs.
Proof. apply send_all_spec. Qed.
