(* ===== verification/UsbWire.v ===== *)
(** * The host's side of the bus

    Packets and control transfers as the USB standard says, for both builds: a
    SETUP transaction, the data packet by packet with alternating tokens, the
    status.  The host tries again when it gets no answer or a NAK.  What
    answers a packet is the class [Wire]: the driver of the V-USB build, or the
    USB module of the processor with the LUFA library behind it. *)

From S2P Require Import Prelude.
Open Scope Z_scope.

(** ** Packets *)

Abbreviation USBPID_SETUP := 0x2d (only parsing).
Abbreviation USBPID_OUT := 0xe1 (only parsing).
Abbreviation USBPID_IN := 0x69 (only parsing).
Abbreviation USBPID_DATA0 := 0xc3 (only parsing).
Abbreviation USBPID_DATA1 := 0x4b (only parsing).
Abbreviation USBPID_ACK := 0xd2 (only parsing).
Abbreviation USBPID_NAK := 0x5a (only parsing).
Abbreviation USBPID_STALL := 0x1e (only parsing).

(** The token of the next packet. *)
Definition toggle (pid : Z) : Z := Z.lxor pid (Z.lxor USBPID_DATA0 USBPID_DATA1).

Lemma toggle_toggle pid : toggle (toggle pid) = pid.
Proof. unfold toggle. by rewrite Z.lxor_assoc, Z.lxor_nilpotent, Z.lxor_0_r. Qed.


(** The packets of the host, and what comes back. *)
Inductive packet :=
  | Token (pid addr endpoint : Z)
  | Data (pid : Z) (bytes : list Z)
  | Shake (pid : Z).
Inductive response := Silence | Handshake (pid : Z) | Sends (pid : Z) (bytes : list Z).


Class Wire (S : Type) := wire : packet -> S -> response * S.

(** The data of a SETUP packet: [usbRequest_t] of usbdrv.h, [USB_Request_Header_t] of StdRequestType.h. *)
Record vusb_request := mkVusb {
  rq_type : Z;
  rq_request : Z;
  rq_value : Z;
  rq_index : Z;
  rq_length : Z
}.

(** The packet of a SETUP token as a request. *)
Definition request_of (data : list Z) : vusb_request :=
  let word i := data !!! i + 256 * data !!! S i in
  mkVusb (data !!! 0%nat) (data !!! 1%nat) (word 2%nat) (word 4%nat) (word 6%nat).

Definition receives (rq : vusb_request) : bool := negb (Z.land (rq_type rq) 0x80 =? 0).

(** What becomes of the data of a host that sends: packets of eight bytes, the last one shorter or full. *)
Fixpoint usb_packets (ps : list (list Z)) : Prop :=
  match ps with
  | [] => False
  | [p] => (1 <= length p <= 8)%nat
  | p :: ps => length p = 8%nat /\ usb_packets ps
  end.

Lemma usb_packets_cons p ps :
  usb_packets (p :: ps) -> (1 <= length p <= 8)%nat /\ (ps = [] \/ length p = 8%nat /\ usb_packets ps).
Proof. destruct ps as [|p' ps]; cbn; [auto|]. intros [E H]. split; [lia|auto]. Qed.

Lemma usb_packets_small ps : usb_packets ps -> Forall (fun p => p <> [] /\ (length p <= 8)%nat) ps.
Proof.
  induction ps as [|p l IH]; [done|]. intros [Hp Hl]%usb_packets_cons.
  apply Forall_cons. split; [split; [intros ->; cbn in Hp; lia|lia]|]. destruct Hl as [->|[_ Hl]]; [done|auto].
Qed.

Lemma usb_packets_nonempty ps : usb_packets ps -> concat ps <> [].
Proof.
  destruct ps as [|p ps]; [done|]. intros [Hp _]%usb_packets_cons E. cbn in E.
  apply (f_equal length) in E. rewrite length_app in E. cbn in E. lia.
Qed.

(** ** The host *)

Inductive host :=
  | HSetup
  | HIn (got : list Z) (pid : Z)
  | HOut (rest : list (list Z)) (pid : Z)
  | HStatusIn
  | HStatusOut (got : list Z)
  | HDone (got : list Z)
  | HFailed.

Section Host.
(** What answers the packets. *)
Context {S : Type} {W : Wire S}.
(** The address of the device, the packet of the request, and the data for the device. *)
Context (addr : Z) (setup : list Z) (ps : list (list Z)).

Definition send_to (token pid : Z) (bytes : list Z) (d : S) : response * S :=
  wire (Data pid bytes) (wire (Token token addr 0) d).2.

Definition ask (d : S) : response * S :=
  let '(r, d) := wire (Token USBPID_IN addr 0) d in
  match r with Sends _ _ => (r, (wire (Shake USBPID_ACK) d).2) | _ => (r, d) end.

Definition after_setup : host :=
  let rq := request_of setup in
  if rq_length rq =? 0 then HStatusIn else if receives rq then HIn [] USBPID_DATA1 else HOut ps USBPID_DATA1.

(** What the host does with an answer. *)
Definition sent (r : response) (again next : host) : host :=
  match r with Handshake pid => if pid =? USBPID_ACK then next else if pid =? USBPID_STALL then HFailed else again | _ => again end.

(** One attempt at the next transaction. *)
Definition attempt (h : host) (d : S) : host * S :=
  match h with
  | HSetup => let '(r, d) := send_to USBPID_SETUP USBPID_DATA0 setup d in (sent r h after_setup, d)
  | HOut rest pid =>
      let '(r, d) := send_to USBPID_OUT pid (hd [] rest) d in
      (sent r h (match tl rest with [] => HStatusIn | _ => HOut (tl rest) (toggle pid) end), d)
  | HIn got pid =>
      let '(r, d) := ask d in
      match r with
      | Sends pid' bytes =>
          if negb (pid' =? pid) then (HFailed, d)
          else
            let got := got ++ bytes in
            if (Z.of_nat (length bytes) <? 8) || (rq_length (request_of setup) <=? Z.of_nat (length got))
            then (HStatusOut got, d) else (HIn got (toggle pid), d)
      | _ => (sent r h h, d)
      end
  | HStatusIn =>
      let '(r, d) := ask d in
      match r with
      | Sends pid bytes => if (pid =? USBPID_DATA1) && (length bytes =? 0)%nat then (HDone [], d) else (HFailed, d)
      | _ => (sent r h h, d)
      end
  | HStatusOut got => let '(r, d) := send_to USBPID_OUT USBPID_DATA1 [] d in (sent r h (HDone got), d)
  | HDone _ | HFailed => (h, d)
  end.

(** Several attempts. *)
Fixpoint attempts (q : nat) (hd : host * S) : host * S :=
  match q with O => hd | Datatypes.S q => attempts q (attempt hd.1 hd.2) end.

(** What the host does while the device is busy: [q] attempts. *)
Definition meanwhile (q : nat) (h : host) (d : S) : host * S := attempts q (h, d).
End Host.
