(* ===== verification/XmegaUsb.v ===== *)
(** * lufa/LUFA/Drivers/USB/Core/XMEGA: endpoints

    The endpoints of the LUFA build on the XMEGA: Endpoint_XMEGA.c and .h and
    Device_XMEGA.h, as src/LUFAConfig.h configures them.  An endpoint is what the
    library keeps of it (a buffer with a position) and its entry in the table
    the USB module works on (status, control, count).  The functions work on
    the selected one; those that look at a flag select a direction first.

    The other side, what the USB module does with a packet of the host by the
    manual of the processor, is [module_packet]. *)

From S2P Require Import Prelude UsbWire.
Open Scope Z_scope.

Abbreviation ENDPOINT_DIR_IN := true (only parsing).
Abbreviation USB_Device_ControlEndpointSize := 8 (only parsing).
Abbreviation MAX_ENDPOINT_INDEX := 3%nat (only parsing).

Inductive device_state := Unattached | Powered | Default | Addressed | Configured | Suspended.
#[export] Instance device_state_eq_dec : EqDecision device_state.
Proof. solve_decision. Defined.

(** [USB_EP_t]: the bits of [STATUS], of [CTRL], and the number of bytes. *)
Record ep_status := mkStatus {
  SETUP : bool;
  TRNCOMPL0 : bool;
  BUSNACK0 : bool;
  OVF : bool;
  TOGGLE : bool
}.
Inductive ep_type := TYPE_DISABLE | TYPE_CONTROL | TYPE_ISOCHRONOUS | TYPE_BULK.

(** With [Endpoint_FIFO_t]; [DATAPTR] is [FIFO_Data]. *)
Record endpoint := mkEndpoint {
  STATUS : ep_status;
  STALL : bool;
  TYPE : ep_type;
  CNT : Z;
  FIFO_Data : list Z;
  FIFO_Length : Z;
  FIFO_Position : Z
}.

Definition set_status (x : ep_status) (e : endpoint) : endpoint :=
  mkEndpoint x (STALL e) (TYPE e) (CNT e) (FIFO_Data e) (FIFO_Length e) (FIFO_Position e).
Definition set_ctrl (stall : bool) (type : ep_type) (e : endpoint) : endpoint :=
  mkEndpoint (STATUS e) stall type (CNT e) (FIFO_Data e) (FIFO_Length e) (FIFO_Position e).
Definition set_cnt (x : Z) (e : endpoint) : endpoint :=
  mkEndpoint (STATUS e) (STALL e) (TYPE e) x (FIFO_Data e) (FIFO_Length e) (FIFO_Position e).
Definition set_length (x : Z) (e : endpoint) : endpoint :=
  mkEndpoint (STATUS e) (STALL e) (TYPE e) (CNT e) (FIFO_Data e) x (FIFO_Position e).
Definition set_fifo (data : list Z) (pos : Z) (e : endpoint) : endpoint :=
  mkEndpoint (STATUS e) (STALL e) (TYPE e) (CNT e) data (FIFO_Length e) pos.

(** An endpoint's address: number, and [ENDPOINT_DIR_IN] or not. *)
Record ep_address := mkAddress { ep_number : nat; ep_in : bool }.
Abbreviation ENDPOINT_CONTROLEP := (mkAddress 0 false) (only parsing).

(** What a transaction that has begun waits for. *)
Inductive transaction := Idle | AwaitData (pid : Z) (number : nat) | AwaitAck (number : nat).

Section Device.
Context {A : Type}.

(** The static variables, the registers of the USB module, and the state of the application. *)
Record device := mkDevice {
  (* [USB_Endpoint_FIFOs] and the table of the module: OUT and IN of each number *)
  endpoints : list (endpoint * endpoint);
  USB_Endpoint_SelectedEndpoint : ep_address;
  bus : transaction;
  ADDR : Z;
  FrameNum : Z;
  USB_DeviceState : device_state;
  USB_Device_ConfigurationNumber : Z;
  USB_Device_RemoteWakeupEnabled : bool;
  USB_Device_CurrentlySelfPowered : bool;
  USB_ControlRequest : vusb_request;
  dev_app : A
}.

Definition set_endpoints (x : list (endpoint * endpoint)) (d : device) : device :=
  mkDevice x (USB_Endpoint_SelectedEndpoint d) (bus d) (ADDR d) (FrameNum d) (USB_DeviceState d)
    (USB_Device_ConfigurationNumber d) (USB_Device_RemoteWakeupEnabled d) (USB_Device_CurrentlySelfPowered d)
    (USB_ControlRequest d) (dev_app d).
Definition set_selected (x : ep_address) (d : device) : device :=
  mkDevice (endpoints d) x (bus d) (ADDR d) (FrameNum d) (USB_DeviceState d)
    (USB_Device_ConfigurationNumber d) (USB_Device_RemoteWakeupEnabled d) (USB_Device_CurrentlySelfPowered d)
    (USB_ControlRequest d) (dev_app d).
Definition set_bus (x : transaction) (d : device) : device :=
  mkDevice (endpoints d) (USB_Endpoint_SelectedEndpoint d) x (ADDR d) (FrameNum d) (USB_DeviceState d)
    (USB_Device_ConfigurationNumber d) (USB_Device_RemoteWakeupEnabled d) (USB_Device_CurrentlySelfPowered d)
    (USB_ControlRequest d) (dev_app d).
Definition set_addr (x : Z) (d : device) : device :=
  mkDevice (endpoints d) (USB_Endpoint_SelectedEndpoint d) (bus d) x (FrameNum d) (USB_DeviceState d)
    (USB_Device_ConfigurationNumber d) (USB_Device_RemoteWakeupEnabled d) (USB_Device_CurrentlySelfPowered d)
    (USB_ControlRequest d) (dev_app d).
Definition set_frame (x : Z) (d : device) : device :=
  mkDevice (endpoints d) (USB_Endpoint_SelectedEndpoint d) (bus d) (ADDR d) x (USB_DeviceState d)
    (USB_Device_ConfigurationNumber d) (USB_Device_RemoteWakeupEnabled d) (USB_Device_CurrentlySelfPowered d)
    (USB_ControlRequest d) (dev_app d).
Definition set_state (x : device_state) (conf : Z) (d : device) : device :=
  mkDevice (endpoints d) (USB_Endpoint_SelectedEndpoint d) (bus d) (ADDR d) (FrameNum d) x
    conf (USB_Device_RemoteWakeupEnabled d) (USB_Device_CurrentlySelfPowered d) (USB_ControlRequest d) (dev_app d).
Definition set_wakeup (x : bool) (d : device) : device :=
  mkDevice (endpoints d) (USB_Endpoint_SelectedEndpoint d) (bus d) (ADDR d) (FrameNum d) (USB_DeviceState d)
    (USB_Device_ConfigurationNumber d) x (USB_Device_CurrentlySelfPowered d) (USB_ControlRequest d) (dev_app d).
Definition set_request (x : vusb_request) (d : device) : device :=
  mkDevice (endpoints d) (USB_Endpoint_SelectedEndpoint d) (bus d) (ADDR d) (FrameNum d) (USB_DeviceState d)
    (USB_Device_ConfigurationNumber d) (USB_Device_RemoteWakeupEnabled d) (USB_Device_CurrentlySelfPowered d) x (dev_app d).
Definition set_dev_app (x : A) (d : device) : device :=
  mkDevice (endpoints d) (USB_Endpoint_SelectedEndpoint d) (bus d) (ADDR d) (FrameNum d) (USB_DeviceState d)
    (USB_Device_ConfigurationNumber d) (USB_Device_RemoteWakeupEnabled d) (USB_Device_CurrentlySelfPowered d)
    (USB_ControlRequest d) x.

#[export] Instance endpoint_inhabited : Inhabited endpoint :=
  populate (mkEndpoint (mkStatus false false false false false) false TYPE_DISABLE 0 [] 0 0).

Definition get_endpoint (a : ep_address) (d : device) : endpoint :=
  let '(o, i) := endpoints d !!! ep_number a in if ep_in a then i else o.
Definition put_endpoint (a : ep_address) (e : endpoint) (d : device) : device :=
  let '(o, i) := endpoints d !!! ep_number a in
  set_endpoints (<[ep_number a := if ep_in a then (o, e) else (e, i)]> (endpoints d)) d.

(** [USB_Endpoint_SelectedHandle] and [USB_Endpoint_SelectedFIFO]. *)
Definition selected (d : device) : endpoint := get_endpoint (USB_Endpoint_SelectedEndpoint d) d.
Definition change (f : endpoint -> endpoint) (d : device) : device :=
  put_endpoint (USB_Endpoint_SelectedEndpoint d) (f (selected d)) d.

(** ** Endpoint_XMEGA.c *)

Definition Endpoint_SelectEndpoint (a : ep_address) (d : device) : device := set_selected a d.
(** [USB_Endpoint_SelectedEndpoint | ENDPOINT_DIR_IN], or without it. *)
Definition select_direction (dir : bool) (d : device) : device :=
  Endpoint_SelectEndpoint (mkAddress (ep_number (USB_Endpoint_SelectedEndpoint d)) dir) d.

Definition Endpoint_IsINReady (d : device) : bool * device :=
  let d := select_direction ENDPOINT_DIR_IN d in (BUSNACK0 (STATUS (selected d)), d).

Definition Endpoint_IsOUTReceived (d : device) : bool * device :=
  let d := select_direction false d in
  if TRNCOMPL0 (STATUS (selected d)) then (true, change (fun e => set_length (CNT e) e) d) else (false, d).

Definition Endpoint_IsSETUPReceived (d : device) : bool * device :=
  let d := select_direction false d in
  if SETUP (STATUS (selected d)) then (true, change (fun e => set_length (CNT e) e) d) else (false, d).

Definition Endpoint_ClearSETUP (d : device) : device :=
  let d := select_direction false d in
  let d := change (fun e => set_fifo (FIFO_Data e) 0 (set_status (mkStatus false false false false true) e)) d in
  let d := select_direction ENDPOINT_DIR_IN d in
  change (fun e => set_fifo (FIFO_Data e) 0
    (set_status (mkStatus (SETUP (STATUS e)) (TRNCOMPL0 (STATUS e)) (BUSNACK0 (STATUS e)) (OVF (STATUS e)) true) e)) d.

(** [STATUS &= ~(USB_EP_TRNCOMPL0_bm | USB_EP_BUSNACK0_bm | USB_EP_OVF_bm)] *)
Definition clear_flags (s : ep_status) : ep_status := mkStatus (SETUP s) false false false (TOGGLE s).

Definition Endpoint_ClearIN (d : device) : device :=
  change (fun e => set_fifo (FIFO_Data e) 0 (set_status (clear_flags (STATUS e)) (set_cnt (FIFO_Position e) e))) d.
Definition Endpoint_ClearOUT (d : device) : device :=
  change (fun e => set_fifo (FIFO_Data e) 0 (set_status (clear_flags (STATUS e)) e)) d.

Definition Endpoint_StallTransaction (d : device) : device :=
  let stall := change (fun e => set_ctrl true (TYPE e) e) in
  let d := stall d in
  match TYPE (selected d) with
  | TYPE_CONTROL => stall (select_direction (negb (ep_in (USB_Endpoint_SelectedEndpoint d))) d)
  | _ => d
  end.

(** [None]: outside the buffer. *)
Definition Endpoint_Read_8 (d : device) : option (Z * device) :=
  let e := selected d in
  b ← FIFO_Data e !! Z.to_nat (FIFO_Position e);
  Some (b, change (fun e => set_fifo (FIFO_Data e) (u8 (FIFO_Position e + 1)) e) d).

Definition Endpoint_Write_8 (b : Z) (d : device) : option device :=
  let e := selected d in
  let pos := Z.to_nat (FIFO_Position e) in
  if (pos <? length (FIFO_Data e))%nat
  then Some (change (fun e => set_fifo (<[pos := b]> (FIFO_Data e)) (u8 (FIFO_Position e + 1)) e) d) else None.

Definition Endpoint_ConfigureEndpoint_PRV (a : ep_address) (type : ep_type) (size : Z) (d : device) : device :=
  let d := Endpoint_SelectEndpoint a d in
  change (fun e => mkEndpoint (mkStatus false false (ep_in a) false false) false type 0 (FIFO_Data e)
                     (if ep_in a then size else 0) 0) d.

Definition Endpoint_ClearEndpoints (d : device) : device :=
  set_endpoints (map (fun '(o, i) => (set_ctrl false TYPE_DISABLE o, set_ctrl false TYPE_DISABLE i)) (endpoints d)) d.

(** ** Endpoint_XMEGA.h *)

Definition Endpoint_ConfigureEndpoint (a : ep_address) (type : ep_type) (size : Z) (d : device) : bool * device :=
  if (MAX_ENDPOINT_INDEX <? ep_number a)%nat then (false, d)
  else if size >? 64 then (false, d)
  else match type with
       | TYPE_CONTROL =>
           let d := Endpoint_ConfigureEndpoint_PRV (mkAddress (ep_number a) (negb (ep_in a))) TYPE_CONTROL size d in
           (true, Endpoint_ConfigureEndpoint_PRV a TYPE_CONTROL size d)
       | TYPE_ISOCHRONOUS => (true, Endpoint_ConfigureEndpoint_PRV a TYPE_ISOCHRONOUS size d)
       | _ => (true, Endpoint_ConfigureEndpoint_PRV a TYPE_BULK size d)
       end.

Definition Endpoint_BytesInEndpoint (d : device) : Z :=
  let e := selected d in
  if ep_in (USB_Endpoint_SelectedEndpoint d) then FIFO_Position e else u16 (FIFO_Length e - FIFO_Position e).

Definition Endpoint_GetCurrentEndpoint (d : device) : ep_address := USB_Endpoint_SelectedEndpoint d.

Definition Endpoint_ResetEndpoint (a : ep_address) (d : device) : device :=
  put_endpoint a (set_fifo (FIFO_Data (get_endpoint a d)) 0 (get_endpoint a d)) d.

Definition Endpoint_IsEnabled (d : device) : bool := true.
Definition Endpoint_IsReadWriteAllowed (d : device) : bool := FIFO_Position (selected d) <? FIFO_Length (selected d).
Definition Endpoint_ClearStall (d : device) : device := change (fun e => set_ctrl false (TYPE e) e) d.
Definition Endpoint_IsStalled (d : device) : bool := STALL (selected d).
Definition Endpoint_ResetDataToggle (d : device) : device :=
  change (fun e => set_status (mkStatus (SETUP (STATUS e)) (TRNCOMPL0 (STATUS e)) (BUSNACK0 (STATUS e)) (OVF (STATUS e)) false) e) d.
Definition Endpoint_GetEndpointDirection (d : device) : bool := ep_in (USB_Endpoint_SelectedEndpoint d).

(** ** Device_XMEGA.h *)

Definition USB_Device_GetFrameNumber (d : device) : Z := FrameNum d.
Definition USB_Device_SetDeviceAddress (a : Z) (d : device) : device := d.
Definition USB_Device_EnableDeviceAddress (a : Z) (d : device) : device := set_addr a d.
Definition USB_Device_IsAddressSet (d : device) : bool := negb (ADDR d =? 0).

(** ** The USB module

    By the manual: a SETUP transaction is always accepted, abandons what the endpoint
    was doing and ends its stall; other transactions are refused while [BUSNACK0]
    is set, which happens when one is complete. *)

Definition setup_status : ep_status := mkStatus true false true false true.
Definition complete_status (s : ep_status) : ep_status := mkStatus (SETUP s) true true (OVF s) (negb (TOGGLE s)).

Definition receive_into (bytes : list Z) (e : endpoint) : endpoint :=
  set_fifo (bytes ++ drop (length bytes) (FIFO_Data e)) (FIFO_Position e) (set_cnt (Z.of_nat (length bytes)) e).

Definition data_pid (s : ep_status) : Z := if TOGGLE s then USBPID_DATA1 else USBPID_DATA0.

Definition module_token (pid : Z) (n : nat) (d : device) : response * device :=
  if pid =? USBPID_IN then
    let e := get_endpoint (mkAddress n true) d in
    match TYPE e with
    | TYPE_DISABLE => (Silence, set_bus Idle d)
    | _ =>
        if STALL e then (Handshake USBPID_STALL, set_bus Idle d)
        else if BUSNACK0 (STATUS e) then (Handshake USBPID_NAK, set_bus Idle d)
        else (Sends (data_pid (STATUS e)) (take (Z.to_nat (CNT e)) (FIFO_Data e)), set_bus (AwaitAck n) d)
    end
  else (Silence, set_bus (AwaitData pid n) d).

Definition module_data (pid : Z) (bytes : list Z) (d : device) : response * device :=
  let idle := set_bus Idle d in
  match bus d with
  | AwaitData token n =>
      let o := get_endpoint (mkAddress n false) d in
      let i := get_endpoint (mkAddress n true) d in
      if token =? USBPID_SETUP then
        match TYPE o with
        | TYPE_CONTROL =>
            let o := set_ctrl false (TYPE o) (set_status setup_status (receive_into bytes o)) in
            let i := set_ctrl false (TYPE i) (set_status setup_status i) in
            (Handshake USBPID_ACK, put_endpoint (mkAddress n true) i (put_endpoint (mkAddress n false) o idle))
        | _ => (Silence, idle)
        end
      else
        match TYPE o with
        | TYPE_DISABLE => (Silence, idle)
        | _ =>
            if STALL o then (Handshake USBPID_STALL, idle)
            else if BUSNACK0 (STATUS o) then (Handshake USBPID_NAK, idle)
            else if negb (pid =? data_pid (STATUS o)) then (Handshake USBPID_ACK, idle)
            else (Handshake USBPID_ACK,
                  put_endpoint (mkAddress n false) (set_status (complete_status (STATUS o)) (receive_into bytes o)) idle)
        end
  | _ => (Silence, idle)
  end.

Definition module_packet (p : packet) (d : device) : response * device :=
  match p with
  | Token pid addr n => if addr =? ADDR d then module_token pid (Z.to_nat n) d else (Silence, set_bus Idle d)
  | Data pid bytes => module_data pid bytes d
  | Shake pid =>
      match bus d with
      | AwaitAck n =>
          let e := get_endpoint (mkAddress n true) d in
          (Silence, set_bus Idle (if pid =? USBPID_ACK
                                  then put_endpoint (mkAddress n true) (set_status (complete_status (STATUS e)) e) d else d))
      | _ => (Silence, set_bus Idle d)
      end
  end.

#[export] Instance module_wire : Wire device := module_packet.
End Device.
