(* ===== verification/UsbStream.v ===== *)
(** * lufa/LUFA/Drivers/USB/Core: code that waits for the host, and streams

    The functions of the LUFA library that wait in a loop for the USB module:
    Endpoint_ClearStatusStage and Endpoint_WaitUntilReady of Endpoint_XMEGA.c,
    and the streams of EndpointStream_XMEGA.c, whose templates the firmware
    also uses for its external eeproms (lufa/eeext_endpoint_stream.c and
    lufa/spi_eeprom_endpoint_stream.c).

    What goes on meanwhile outside of the code, on the bus and in interrupts,
    is the function [env] on the state [W] of the outside and the device; it is
    given the next of a list of events before each look at a flag.  Code
    is a [proc]: it has returned, with the events that are left, or the events
    have run out ([Running]), or it has left the bounds of a buffer. *)

From S2P Require Import Prelude UsbWire XmegaUsb.
Open Scope Z_scope.

Declare Scope proc_scope.
Delimit Scope proc_scope with proc.

Section Stream.
Context {A W E : Type} (env : E -> W -> device (A:=A) -> W * device (A:=A)).

Abbreviation device := (device (A:=A)).

Inductive outcome (X : Type) :=
  | Returned (x : X) (es : list E) (w : W) (d : device)
  | Running (w : W) (d : device)
  | Undefined.
#[global] Arguments Returned {X}.
#[global] Arguments Running {X}.
#[global] Arguments Undefined {X}.

Definition proc (X : Type) : Type := list E -> W -> device -> outcome X.

Definition ret {X} (x : X) : proc X := fun es w d => Returned x es w d.
Definition bind {X Y} (m : proc X) (f : X -> proc Y) : proc Y := fun es w d =>
  match m es w d with
  | Returned x es w d => f x es w d
  | Running w d => Running w d
  | Undefined => Undefined
  end.

(** Statements, values, statements with bounds, and looks at what may change at any time. *)
Definition act (f : device -> device) : proc unit := fun es w d => Returned tt es w (f d).
Definition get {X} (f : device -> X) : proc X := fun es w d => Returned (f d) es w d.
Definition bounded {X} (f : device -> option (X * device)) : proc X := fun es w d =>
  match f d with Some (x, d) => Returned x es w d | None => Undefined end.
Definition look {X} (f : device -> X * device) : proc X := fun es w d =>
  match es with
  | [] => Running w d
  | e :: es => let '(w, d) := env e w d in let '(x, d) := f d in Returned x es w d
  end.

(** A loop each of whose rounds looks: there are at most as many as events. *)
Fixpoint repeat_ {X Y} (fuel : nat) (body : X -> proc (X + Y)) (x : X) : proc Y := fun es w d =>
  match fuel with
  | O => Running w d
  | S fuel => bind (body x) (fun r => match r with inl x => repeat_ fuel body x | inr y => ret y end) es w d
  end.
Definition loop {X Y} (body : X -> proc (X + Y)) (x : X) : proc Y := fun es => repeat_ (S (length es)) body x es.
End Stream.

Notation "x <- m ;; k" := (bind m (fun x => k)) (at level 100, m at next level, right associativity) : proc_scope.
Notation "m ;;; k" := (bind m (fun _ => k)) (at level 100, right associativity) : proc_scope.
Open Scope proc_scope.

(** [enum Endpoint_Stream_RW_ErrorCodes_t] and its relatives. *)
Inductive stream_error := NoError | EndpointStalled | HostAborted | DeviceDisconnected | BusSuspended | Timeout | IncompleteTransfer.

Section Functions.
Context {A W E : Type} (env : E -> W -> device (A:=A) -> W * device (A:=A)).

Abbreviation device := (device (A:=A)).
Abbreviation proc := (proc (A:=A) (W:=W) (E:=E)).
Abbreviation look := (look env).

(** ** Waiting *)

(** Until a flag is set, or the cable is pulled. *)
Definition attached_round (flag : device -> bool * device) (_ : unit) : proc (unit + bool) :=
  ready <- look flag;;
  if ready : bool then ret (inr true)
  else
    state <- look (fun d => (USB_DeviceState d, d));;
    ret (if bool_decide (state = Unattached) then inr false else inl tt).
Definition until_attached (flag : device -> bool * device) : proc bool := loop (attached_round flag) tt.

(** [while (!(Endpoint_IsINReady()));] *)
Definition wait_round (flag : device -> bool * device) (_ : unit) : proc (unit + unit) :=
  ready <- look flag;; ret (if ready : bool then inr tt else inl tt).
Definition wait_for (flag : device -> bool * device) : proc unit := loop (wait_round flag) tt.

Definition Endpoint_ClearStatusStage : proc unit :=
  rq <- get USB_ControlRequest;;
  if receives rq
  then attached <- until_attached Endpoint_IsOUTReceived;;
       if attached : bool then act Endpoint_ClearOUT else ret tt
  else attached <- until_attached Endpoint_IsINReady;;
       if attached : bool then act Endpoint_ClearIN else ret tt.

Abbreviation USB_STREAM_TIMEOUT_MS := 100 (only parsing).

Definition ready_round (x : Z * Z) : proc (Z * Z + stream_error) :=
  let '(frame, rem) := x in
  dir <- get Endpoint_GetEndpointDirection;;
  ready <- look (if dir : bool then Endpoint_IsINReady else Endpoint_IsOUTReceived);;
  if ready : bool then ret (inr NoError)
  else
    state <- look (fun d => (USB_DeviceState d, d));;
    stalled <- get Endpoint_IsStalled;;
    current <- look (fun d => (USB_Device_GetFrameNumber d, d));;
    ret (match state with
         | Unattached => inr DeviceDisconnected
         | Suspended => inr BusSuspended
         | _ =>
             if stalled : bool then inr EndpointStalled
             else if current =? frame then inl (frame, rem)
             else if rem =? 0 then inr Timeout else inl (current, u8 (rem - 1))
         end).
Definition Endpoint_WaitUntilReady : proc stream_error :=
  frame <- get USB_Device_GetFrameNumber;; loop ready_round (frame, USB_STREAM_TIMEOUT_MS).

(** ** Template_Endpoint_Control_W.c

    [stream] is what is in the buffer from [DataStream] on; its bytes are read as they
    are needed, reading behind its end is undefined. *)

Definition byte_to_endpoint (stream : list Z) (d : device) : option (list Z * device) :=
  match stream with [] => None | b :: stream => d ← Endpoint_Write_8 b d; Some (stream, d) end.

(** The inner loop, while there is room. *)
Fixpoint fill_packet (room : nat) (stream : list Z) (len : Z) (d : device) : option (list Z * Z * device) :=
  match room with
  | O => Some (stream, len, d)
  | S room =>
      if len =? 0 then Some (stream, len, d)
      else '(stream, d) ← byte_to_endpoint stream d; fill_packet room stream (len - 1) d
  end.

(** The state of the bus as an error. *)
Definition bus_error (s : device_state) : option stream_error :=
  match s with Unattached => Some DeviceDisconnected | Suspended => Some BusSuspended | _ => None end.

(** One packet, when the endpoint is ready; and [LastPacketFull]. *)
Definition next_packet (stream : list Z) (len : Z) : proc (list Z * Z * bool) :=
  bytes <- get Endpoint_BytesInEndpoint;;
  let room := Z.to_nat (USB_Device_ControlEndpointSize - bytes) in
  r <- bounded (fill_packet room stream len);;
  act Endpoint_ClearIN;;;
  ret (r, bytes + (len - r.2) =? USB_Device_ControlEndpointSize).

Definition write_round (x : list Z * Z * bool) : proc (list Z * Z * bool + option stream_error) :=
  let '(stream, len, full) := x in
  if negb (negb (len =? 0) || full) then ret (inr None)
  else
    state <- look (fun d => (USB_DeviceState d, d));;
    match bus_error state with
    | Some e => ret (inr (Some e))
    | None =>
        setup <- look Endpoint_IsSETUPReceived;;
        if setup : bool then ret (inr (Some HostAborted))
        else
          out <- look Endpoint_IsOUTReceived;;
          if out : bool then ret (inr None)
          else
            ready <- look Endpoint_IsINReady;;
            if ready : bool then next <- next_packet stream len;; ret (inl next)
            else ret (inl x)
    end.

(** The wait for the status of the host. *)
Definition status_out_round (_ : unit) : proc (unit + stream_error) :=
  out <- look Endpoint_IsOUTReceived;;
  if out : bool then ret (inr NoError)
  else
    state <- look (fun d => (USB_DeviceState d, d));;
    match bus_error state with
    | Some e => ret (inr e)
    | None => setup <- look Endpoint_IsSETUPReceived;; ret (if setup : bool then inr HostAborted else inl tt)
    end.

(** As in AVR8/Template, which the streams of the firmware use on both processors. *)
Definition Control_W_AVR8 (stream : list Z) (len : Z) : proc stream_error :=
  rq <- get USB_ControlRequest;;
  (if len >? rq_length rq then ret tt else if len =? 0 then act Endpoint_ClearIN else ret tt);;;
  let len := if len >? rq_length rq then rq_length rq else len in
  stopped <- loop write_round (stream, len, false);;
  match stopped with Some e => ret e | None => loop status_out_round tt end.

(** As in XMEGA/Template: [Endpoint_Write_Control_Stream_LE] and its variants. *)
Definition Endpoint_Write_Control_Stream_LE (stream : list Z) (len : Z) : proc stream_error :=
  act (select_direction ENDPOINT_DIR_IN);;; Control_W_AVR8 stream len.

(** ** Template_Endpoint_Control_R.c: the bytes received so far are returned *)

(** The inner loop: the bytes in the endpoint, as many as there are. *)
Fixpoint empty_packet (n : nat) (len : Z) (d : device) : option (list Z * Z * device) :=
  match n with
  | O => Some ([], len, d)
  | S n =>
      if len =? 0 then Some ([], len, d)
      else '(b, d) ← Endpoint_Read_8 d; '(bs, len, d) ← empty_packet n (len - 1) d; Some (b :: bs, len, d)
  end.

Definition read_round (x : list Z * Z) : proc (list Z * Z + list Z * option stream_error) :=
  let '(got, len) := x in
  if len =? 0 then ret (inr (got, None))
  else
    state <- look (fun d => (USB_DeviceState d, d));;
    match bus_error state with
    | Some e => ret (inr (got, Some e))
    | None =>
        setup <- look Endpoint_IsSETUPReceived;;
        if setup : bool then ret (inr (got, Some HostAborted))
        else
          out <- look Endpoint_IsOUTReceived;;
          if out : bool then
            n <- get Endpoint_BytesInEndpoint;;
            r <- bounded (empty_packet (Z.to_nat n) len);;
            act Endpoint_ClearOUT;;;
            ret (inl (got ++ r.1, r.2))
          else ret (inl x)
    end.

Definition status_in_round (_ : unit) : proc (unit + stream_error) :=
  ready <- look Endpoint_IsINReady;;
  if ready : bool then ret (inr NoError)
  else
    state <- look (fun d => (USB_DeviceState d, d));;
    ret (match bus_error state with Some e => inr e | None => inl tt end).

Definition Control_R_AVR8 (len : Z) : proc (list Z * stream_error) :=
  (if len =? 0 then act Endpoint_ClearOUT else ret tt);;;
  r <- loop read_round ([], len);;
  match r.2 with
  | Some e => ret (r.1, e)
  | None => e <- loop status_in_round tt;; ret (r.1, e)
  end.

Definition Endpoint_Read_Control_Stream_LE (len : Z) : proc (list Z * stream_error) :=
  act (select_direction false);;; Control_R_AVR8 len.
End Functions.
