(* ===== verification/LufaDevice.v ===== *)
(** * lufa/LUFA/Drivers/USB: standard requests and the HID class driver

    The parts of the LUFA library that answer the host for the firmware:
    Core/DeviceStandardReq.c, Core/USBTask.c, the bus interrupt of
    Core/XMEGA/USBInterrupt_XMEGA.c, the stream to an interrupt endpoint
    (Core/XMEGA/Template/Template_Endpoint_RW.c), and
    Class/Device/HIDClassDevice.c.  What they call in the firmware is
    the class [LufaEvents] and, for each HID interface, the record [hid_interface]. *)

From S2P Require Import Prelude UsbWire XmegaUsb UsbStream.
Open Scope Z_scope.
Open Scope proc_scope.

Abbreviation USE_INTERNAL_SERIAL := 0xdc (only parsing).
Abbreviation FIXED_NUM_CONFIGURATIONS := 1 (only parsing).
Abbreviation CONTROL_REQTYPE_RECIPIENT := 0x1f (only parsing).
Abbreviation FEATURE_SEL_EndpointHalt := 0 (only parsing).
Abbreviation FEATURE_SEL_DeviceRemoteWakeup := 1 (only parsing).
Abbreviation HID_EPSIZE := 8 (only parsing).

(** [State] of [USB_ClassInfo_HID_Device_t] *)
Record hid_state := mkHidState {
  UsingReportProtocol : bool;
  PrevFrameNum : Z;
  IdleCount : Z;
  IdleMSRemaining : Z
}.

(** [Config], where the state is kept, the previous report ([None]: no buffer for it),
    and the two callbacks: whether to send in any case, the report's ID, the buffer
    and how many of its bytes are the report; [None]: reading an empty report. *)
Record hid_interface (A : Type) := mkHidInterface {
  InterfaceNumber : Z;
  ReportINEndpoint : nat;
  PrevReportINBufferSize : nat;
  PrevReportINBuffer : option ((A -> list Z) * (list Z -> A -> A));
  State : A -> hid_state;
  set_State : hid_state -> A -> A;
  CreateHIDReport : Z -> Z -> list Z -> A -> bool * Z * list Z * nat * A;
  ProcessHIDReport : Z -> Z -> list Z -> A -> option A
}.
Arguments InterfaceNumber {A}.
Arguments ReportINEndpoint {A}.
Arguments PrevReportINBufferSize {A}.
Arguments PrevReportINBuffer {A}.
Arguments State {A}.
Arguments set_State {A}.
Arguments CreateHIDReport {A}.
Arguments ProcessHIDReport {A}.

Section LufaDevice.
Context {A W E : Type} (env : E -> W -> device (A:=A) -> W * device (A:=A)).

Abbreviation device := (device (A:=A)).
Abbreviation proc := (proc (A:=A) (W:=W) (E:=E)).
Abbreviation look := (look env).

(** What the library calls; [internal_serial] are the digits in the calibration row of the processor. *)
Class LufaEvents := {
  EVENT_USB_Device_ControlRequest : proc unit;
  EVENT_USB_Device_ConfigurationChanged : device -> device;
  EVENT_USB_Device_StartOfFrame : device -> device;
  EVENT_USB_Device_Connect : device -> device;
  EVENT_USB_Device_Disconnect : device -> device;
  CALLBACK_USB_GetDescriptor : Z -> Z -> option (list Z);
  internal_serial : list Z
}.
Context {L : LufaEvents}.

Definition write_byte (b : Z) : proc unit := bounded (fun d => d ← Endpoint_Write_8 b d; Some (tt, d)).
Definition write_16_LE (x : Z) : proc unit := write_byte (u8 x);;; write_byte (u8 (x / 256)).
Definition state : proc device_state := look (fun d => (USB_DeviceState d, d)).

(** ** DeviceStandardReq.c *)

Definition USB_Device_SetAddress (rq : vusb_request) : proc unit :=
  let addr := Z.land (rq_value rq) 0x7f in
  act (USB_Device_SetDeviceAddress addr);;;
  act Endpoint_ClearSETUP;;;
  Endpoint_ClearStatusStage env;;;
  wait_for env Endpoint_IsINReady;;;
  act (fun d => set_state (if negb (addr =? 0) then Addressed else Default) (USB_Device_ConfigurationNumber d)
                  (USB_Device_EnableDeviceAddress addr d)).

Definition USB_Device_SetConfiguration (rq : vusb_request) : proc unit :=
  let conf := u8 (rq_value rq) in
  if conf >? FIXED_NUM_CONFIGURATIONS then ret tt
  else
    act Endpoint_ClearSETUP;;;
    act (fun d => set_state (USB_DeviceState d) conf d);;;
    Endpoint_ClearStatusStage env;;;
    act (fun d =>
      let conf := USB_Device_ConfigurationNumber d in
      set_state (if negb (conf =? 0) then Configured else if USB_Device_IsAddressSet d then Configured else Powered) conf d);;;
    act EVENT_USB_Device_ConfigurationChanged.

Definition USB_Device_GetConfiguration : proc unit :=
  act Endpoint_ClearSETUP;;;
  conf <- get USB_Device_ConfigurationNumber;;
  write_byte conf;;;
  act Endpoint_ClearIN;;;
  Endpoint_ClearStatusStage env.

Definition USB_Device_GetInternalSerialDescriptor : proc unit :=
  let bytes := [u8 (2 + 2 * Z.of_nat (length internal_serial)); 3] ++ concat (map (fun c => [c; 0]) internal_serial) in
  act Endpoint_ClearSETUP;;;
  _ <- Endpoint_Write_Control_Stream_LE env bytes (Z.of_nat (length bytes));;
  act Endpoint_ClearOUT.

Definition USB_Device_GetDescriptor (rq : vusb_request) : proc unit :=
  if rq_value rq =? 3 * 256 + USE_INTERNAL_SERIAL then USB_Device_GetInternalSerialDescriptor
  else
    match CALLBACK_USB_GetDescriptor (rq_value rq) (rq_index rq) with
    | None => ret tt
    | Some bytes =>
        act Endpoint_ClearSETUP;;;
        _ <- Endpoint_Write_Control_Stream_LE env bytes (Z.of_nat (length bytes));;
        act Endpoint_ClearOUT
    end.

(** An endpoint whose number the host has chosen; the tables end with number 3. *)
Definition select_number (n : Z) : proc unit := bounded (fun d =>
  if n <=? Z.of_nat MAX_ENDPOINT_INDEX then Some (tt, Endpoint_SelectEndpoint (mkAddress (Z.to_nat n) false) d) else None).

Definition USB_Device_GetStatus (rq : vusb_request) : proc unit :=
  let reply status :=
    act Endpoint_ClearSETUP;;;
    write_16_LE status;;;
    act Endpoint_ClearIN;;;
    Endpoint_ClearStatusStage env in
  if rq_type rq =? 0x80 then
    status <- get (fun d => Z.b2z (USB_Device_CurrentlySelfPowered d) + 2 * Z.b2z (USB_Device_RemoteWakeupEnabled d));;
    reply status
  else if rq_type rq =? 0x82 then
    select_number (Z.land (rq_index rq) 0xf);;;
    status <- get (fun d => Z.b2z (Endpoint_IsStalled d));;
    act (Endpoint_SelectEndpoint ENDPOINT_CONTROLEP);;;
    reply status
  else ret tt.

Definition USB_Device_ClearSetFeature (rq : vusb_request) : proc unit :=
  let is_set := rq_request rq =? 3 in
  let finish :=
    act (Endpoint_SelectEndpoint ENDPOINT_CONTROLEP);;;
    act Endpoint_ClearSETUP;;;
    Endpoint_ClearStatusStage env in
  let recipient := Z.land (rq_type rq) CONTROL_REQTYPE_RECIPIENT in
  if recipient =? 0 then
    if u8 (rq_value rq) =? FEATURE_SEL_DeviceRemoteWakeup then act (set_wakeup is_set);;; finish else ret tt
  else if recipient =? 2 then
    let n := Z.land (rq_index rq) 0xf in
    if u8 (rq_value rq) =? FEATURE_SEL_EndpointHalt then
      if n =? 0 then ret tt
      else
        select_number n;;;
        enabled <- get Endpoint_IsEnabled;;
        (if enabled : bool then
           if is_set then act Endpoint_StallTransaction
           else act Endpoint_ClearStall;;; act (Endpoint_ResetEndpoint (mkAddress (Z.to_nat n) false));;;
                act Endpoint_ResetDataToggle
         else ret tt);;;
        finish
    else finish
  else ret tt.

Definition standard_request (rq : vusb_request) : proc unit :=
  let r := rq_request rq in
  let t := rq_type rq in
  if r =? 0 then if (t =? 0x80) || (t =? 0x82) then USB_Device_GetStatus rq else ret tt
  else if (r =? 1) || (r =? 3) then if (t =? 0) || (t =? 2) then USB_Device_ClearSetFeature rq else ret tt
  else if r =? 5 then if t =? 0 then USB_Device_SetAddress rq else ret tt
  else if r =? 6 then if (t =? 0x80) || (t =? 0x81) then USB_Device_GetDescriptor rq else ret tt
  else if r =? 8 then if t =? 0x80 then USB_Device_GetConfiguration else ret tt
  else if r =? 9 then if t =? 0 then USB_Device_SetConfiguration rq else ret tt
  else ret tt.

Fixpoint read_header (n : nat) (d : device) : option (list Z * device) :=
  match n with
  | O => Some ([], d)
  | S n => '(b, d) ← Endpoint_Read_8 d; '(bs, d) ← read_header n d; Some (b :: bs, d)
  end.

Definition USB_Device_ProcessControlRequest : proc unit :=
  header <- bounded (read_header 8);;
  let rq := request_of header in
  act (set_request rq);;;
  EVENT_USB_Device_ControlRequest;;;
  pending <- look Endpoint_IsSETUPReceived;;
  (if pending : bool then standard_request rq else ret tt);;;
  pending <- look Endpoint_IsSETUPReceived;;
  if pending : bool then act Endpoint_ClearSETUP;;; act Endpoint_StallTransaction else ret tt.

(** ** USBTask.c *)

Definition USB_USBTask : proc unit :=
  s <- state;;
  if bool_decide (s = Unattached) then ret tt
  else
    prev <- get Endpoint_GetCurrentEndpoint;;
    act (Endpoint_SelectEndpoint ENDPOINT_CONTROLEP);;;
    pending <- look Endpoint_IsSETUPReceived;;
    (if pending : bool then USB_Device_ProcessControlRequest else ret tt);;;
    act (Endpoint_SelectEndpoint prev).

(** ** USBInterrupt_XMEGA.c

    The flags of the interrupt that are set; [sofi]: and enabled. *)

Definition USB_BUSEVENT (sofi suspend resume reset : bool) (d : device) : device :=
  let d := if sofi then EVENT_USB_Device_StartOfFrame d else d in
  let d := if suspend
           then EVENT_USB_Device_Disconnect (set_state Unattached (USB_Device_ConfigurationNumber d) d) else d in
  let d := if resume then
             let conf := USB_Device_ConfigurationNumber d in
             let s := if negb (conf =? 0) then Configured else if USB_Device_IsAddressSet d then Addressed else Powered in
             EVENT_USB_Device_Connect (set_state s conf d)
           else d in
  if reset then
    let d := USB_Device_EnableDeviceAddress 0 (set_state Default 0 d) in
    (Endpoint_ConfigureEndpoint ENDPOINT_CONTROLEP TYPE_CONTROL USB_Device_ControlEndpointSize (Endpoint_ClearEndpoints d)).2
  else d.

(** ** Template_Endpoint_RW.c, with the byte that is transferred and [BytesProcessed] null *)

Definition Endpoint_Write_Stream_LE (stream : list Z) (len : Z) : proc stream_error :=
  e <- Endpoint_WaitUntilReady env;;
  match e with
  | NoError =>
      fun es => repeat_ (S (length es + Z.to_nat len)) (fun '(stream, len) =>
        if len =? 0 then ret (inr NoError)
        else
          allowed <- get Endpoint_IsReadWriteAllowed;;
          if allowed : bool then stream <- bounded (byte_to_endpoint stream);; ret (inl (stream, len - 1))
          else
            act Endpoint_ClearIN;;;
            USB_USBTask;;;
            e <- Endpoint_WaitUntilReady env;;
            ret (match e with NoError => inl (stream, len) | _ => inr e end)) (stream, len) es
  | _ => ret e
  end.

(** ** HIDClassDevice.c *)

Section Hid.
Context (hid : hid_interface A).

Definition hid_update (f : hid_state -> hid_state) (d : device) : device :=
  set_dev_app (set_State hid (f (State hid (dev_app d))) (dev_app d)) d.

(** A report from the firmware, in a buffer of zeros. *)
Definition create_report (id type : Z) : proc (bool * Z * list Z * nat) := fun es w d =>
  let '(report, a) := CreateHIDReport hid id type (repeat 0 (PrevReportINBufferSize hid)) (dev_app d) in
  Returned report es w (set_dev_app a d).

Definition remember_report (data : list Z) (d : device) : device :=
  match PrevReportINBuffer hid with
  | Some (_, put) => set_dev_app (put data (dev_app d)) d
  | None => d
  end.

Definition HID_Device_ProcessControlRequest : proc unit :=
  pending <- look Endpoint_IsSETUPReceived;;
  rq <- get USB_ControlRequest;;
  if negb pending then ret tt
  else if negb (rq_index rq =? InterfaceNumber hid) then ret tt
  else
    let r := rq_request rq in
    let id := u8 (rq_value rq) in
    let type := u8 (rq_value rq / 256 - 1) in
    let to_host := rq_type rq =? 0xa1 in
    let to_device := rq_type rq =? 0x21 in
    let reply_byte f :=
      act Endpoint_ClearSETUP;;;
      wait_for env Endpoint_IsINReady;;;
      b <- get (fun d => f (State hid (dev_app d)));;
      write_byte b;;;
      act Endpoint_ClearIN;;;
      Endpoint_ClearStatusStage env in
    let set_value f :=
      act Endpoint_ClearSETUP;;;
      Endpoint_ClearStatusStage env;;;
      act (hid_update f) in
    if r =? 1 then
      if to_host then
        report <- create_report id type;;
        let '(_, id, data, size) := report in
        act (remember_report data);;;
        act (Endpoint_SelectEndpoint ENDPOINT_CONTROLEP);;;
        act Endpoint_ClearSETUP;;;
        (if negb (id =? 0) then write_byte id else ret tt);;;
        _ <- Endpoint_Write_Control_Stream_LE env data (Z.of_nat size);;
        act Endpoint_ClearOUT
      else ret tt
    else if r =? 9 then
      if to_device then
        act Endpoint_ClearSETUP;;;
        received <- Endpoint_Read_Control_Stream_LE env (rq_length rq);;
        act Endpoint_ClearIN;;;
        bounded (fun d =>
          a ← ProcessHIDReport hid id type (drop (if id =? 0 then 0%nat else 1%nat) received.1) (dev_app d);
          Some (tt, set_dev_app a d))
      else ret tt
    else if r =? 3 then if to_host then reply_byte (fun s => Z.b2z (UsingReportProtocol s)) else ret tt
    else if r =? 11 then
      if to_device
      then set_value (fun s => mkHidState (negb (id =? 0)) (PrevFrameNum s) (IdleCount s) (IdleMSRemaining s)) else ret tt
    else if r =? 10 then
      if to_device
      then set_value (fun s => mkHidState (UsingReportProtocol s) (PrevFrameNum s)
                                 (Z.shiftr (Z.land (rq_value rq) 0xff00) 6) (IdleMSRemaining s))
      else ret tt
    else if r =? 2 then if to_host then reply_byte (fun s => u8 (Z.shiftr (IdleCount s) 2)) else ret tt
    else ret tt.

Definition HID_Device_ConfigureEndpoints (d : device) : bool * device :=
  let d := hid_update (fun _ => mkHidState true 0 500 0) d in
  Endpoint_ConfigureEndpoint (mkAddress (ReportINEndpoint hid) ENDPOINT_DIR_IN) TYPE_BULK HID_EPSIZE d.

Definition HID_Device_MillisecondElapsed : device -> device :=
  hid_update (fun s => mkHidState (UsingReportProtocol s) (PrevFrameNum s) (IdleCount s)
                         (if negb (IdleMSRemaining s =? 0) then IdleMSRemaining s - 1 else IdleMSRemaining s)).

(** Whether a report is due: it exists, and is forced, has changed, or the idle period is over. *)
Definition report_due (force : bool) (data : list Z) (size : nat) (d : device) : bool :=
  let s := State hid (dev_app d) in
  let changed := match PrevReportINBuffer hid with
                 | Some (prev, _) => negb (bool_decide (take size data = take size (prev (dev_app d))))
                 | None => false
                 end in
  let idle_elapsed := negb (IdleCount s =? 0) && (IdleMSRemaining s =? 0) in
  negb (size =? 0)%nat && (force || changed || idle_elapsed).

Definition HID_Device_USBTask : proc unit :=
  let endpoint := mkAddress (ReportINEndpoint hid) ENDPOINT_DIR_IN in
  s <- state;;
  if negb (bool_decide (s = Configured)) then ret tt
  else
    frame <- look (fun d => (USB_Device_GetFrameNumber d, d));;
    prev <- get (fun d => PrevFrameNum (State hid (dev_app d)));;
    if prev =? frame then ret tt
    else
      act (Endpoint_SelectEndpoint endpoint);;;
      allowed <- get Endpoint_IsReadWriteAllowed;;
      if negb allowed then ret tt
      else
        report <- create_report 0 0;;
        let '(force, id, data, size) := report in
        due <- get (report_due force data size);;
        act (remember_report data);;;
        (if due : bool then
           act (hid_update (fun s => mkHidState (UsingReportProtocol s) (PrevFrameNum s) (IdleCount s) (IdleCount s)));;;
           act (Endpoint_SelectEndpoint endpoint);;;
           (if negb (id =? 0) then write_byte id else ret tt);;;
           _ <- Endpoint_Write_Stream_LE data (Z.of_nat size);;
           act Endpoint_ClearIN
         else ret tt);;;
        frame <- look (fun d => (USB_Device_GetFrameNumber d, d));;
        act (hid_update (fun s => mkHidState (UsingReportProtocol s) frame (IdleCount s) (IdleMSRemaining s))).
End Hid.
End LufaDevice.
Arguments LufaEvents A W E : clear implicits.
