(* ===== verification/UsbStreamProofs.v ===== *)
(** * lufa/LUFA/Drivers/USB/Core: streams and the host

    First a small logic for code that waits: a triple [spec n P m Q] says that
    [m], started where [P] holds, is defined, keeps the invariant of the outside
    as long as it runs, and returns where [Q] holds, after at most [n] events if
    they are all fair.  Then the host of [UsbWire] as the outside: whatever the
    timing, the streams bring the data across, packet by packet. *)

From S2P Require Import Prelude UsbWire XmegaUsb UsbStream.
Open Scope Z_scope.

(** ** The logic *)

Section Logic.
Context {A W E : Type} (env : E -> W -> device (A:=A) -> W * device (A:=A)).
(** Whether all events are fair, and what holds all the time. *)
Context (fair : E -> Prop) (always : Prop) (I : W -> Prop).

Abbreviation device := (device (A:=A)).
Abbreviation proc := (proc (A:=A) (W:=W) (E:=E)).

Definition admissible (es : list E) : Prop := always -> Forall fair es.

Definition spec {X} (n : nat) (P : W -> device -> Prop) (m : proc X) (Q : X -> W -> device -> Prop) : Prop :=
  forall es w d, admissible es -> P w d ->
  match m es w d with
  | Returned x es' w' d' =>
      Q x w' d' /\ admissible es' /\ (length es' <= length es)%nat /\ (always -> (length es <= n + length es')%nat)
  | Running w' _ => I w' /\ (always -> (length es < n)%nat)
  | Undefined => False
  end.

Lemma spec_weaken {X} n n' (P P' : W -> device -> Prop) (m : proc X) (Q Q' : X -> W -> device -> Prop) :
  spec n P m Q -> (n <= n')%nat -> (forall w d, P' w d -> P w d) -> (forall x w d, Q x w d -> Q' x w d) -> spec n' P' m Q'.
Proof.
  intros Hm Hn HP HQ es w d Hes Hp. specialize (Hm es w d Hes (HP _ _ Hp)).
  destruct (m es w d) as [x es' w' d'|w' d'|]; [|split; [tauto|intros Ha; destruct Hm as [_ Hm]; specialize (Hm Ha); lia]|done].
  destruct Hm as (H1 & H2 & H3 & H4). split_and!; [auto|done|done|]. intros Ha. specialize (H4 Ha). lia.
Qed.

Lemma spec_ret {X} n (x : X) P Q : (forall w d, P w d -> Q x w d) -> spec n P (ret x) Q.
Proof. intros H es w d Hes Hp. cbn. split_and!; auto with lia. Qed.

Lemma spec_act n f P Q : (forall w d, P w d -> Q tt w (f d)) -> spec n P (act f) Q.
Proof. intros H es w d Hes Hp. cbn. split_and!; auto with lia. Qed.

Lemma spec_get {X} n (f : device -> X) P Q : (forall w d, P w d -> Q (f d) w d) -> spec n P (get f) Q.
Proof. intros H es w d Hes Hp. cbn. split_and!; auto with lia. Qed.

(** Code that does not look. *)
Lemma spec_det {X} (m : proc X) P Q :
  (forall es w d, P w d -> exists x d', m es w d = Returned x es w d' /\ Q x w d') -> spec 0 P m Q.
Proof. intros H es w d Hes Hp. destruct (H es w d Hp) as (x & d' & -> & Hq). split_and!; auto. Qed.

Lemma spec_bind {X Y} n n' P (m : proc X) R (f : X -> proc Y) Q :
  spec n P m R -> (forall x, spec n' (R x) (f x) Q) -> spec (n + n') P (bind m f) Q.
Proof.
  intros Hm Hf es w d Hes Hp. unfold bind. specialize (Hm es w d Hes Hp).
  destruct (m es w d) as [x es' w' d'|w' d'|]; [|split; [tauto|intros Ha; destruct Hm as [_ Hm]; specialize (Hm Ha); lia]|done].
  destruct Hm as (Hr & Hes' & Hl & Hn). specialize (Hf x es' w' d' Hes' Hr).
  destruct (f x es' w' d') as [y es2 w2 d2|w2 d2|]; [| |done].
  - destruct Hf as (H1 & H2 & H3 & H4). split_and!; [done|done|lia|]. intros Ha. specialize (Hn Ha). specialize (H4 Ha). lia.
  - destruct Hf as [H1 H2]. split; [done|]. intros Ha. specialize (Hn Ha). specialize (H2 Ha). lia.
Qed.

Lemma spec_ex {X T} n (P : T -> W -> device -> Prop) (m : proc X) Q :
  (forall t, spec n (P t) m Q) -> spec n (fun w d => exists t, P t w d) m Q.
Proof. intros H es w d Hes [t Hp]. exact (H t es w d Hes Hp). Qed.

Lemma spec_pure {X} (φ : Prop) n P (m : proc X) Q :
  (φ -> spec n P m Q) -> spec n (fun w d => φ /\ P w d) m Q.
Proof. intros H es w d Hes [Hφ Hp]. exact (H Hφ es w d Hes Hp). Qed.

(** A look, after an event that keeps [R]. *)
Lemma spec_look {X} (f : device -> X * device) P R Q :
  (forall w d, P w d -> I w) ->
  (forall e w d, P w d -> (always -> fair e) -> let '(w', d') := env e w d in R w' d') ->
  (forall w d, R w d -> let '(x, d') := f d in Q x w d') ->
  spec 1 P (look env f) Q.
Proof.
  intros HI Henv Hf es w d Hes Hp. unfold look. destruct es as [|e es]; [split; [by eapply HI|cbn; lia]|].
  specialize (Henv e w d Hp (fun Ha => Forall_inv (Hes Ha))). destruct (env e w d) as [w' d'].
  specialize (Hf w' d' Henv). destruct (f d') as [x d2]. cbn.
  split_and!; [done| |lia|lia]. intros Ha. by apply (Forall_inv_tail (Hes Ha)).
Qed.

(** A round that goes on has looked. *)
Definition looks {X Y} (body : X -> proc (X + Y)) : Prop :=
  forall x es w d, match body x es w d with Returned (inl _) es' _ _ => (length es' < length es)%nat | _ => True end.

Lemma spec_loop {X Y} (body : X -> proc (X + Y)) c (Inv : nat -> X -> W -> device -> Prop) Q :
  looks body ->
  (forall k x, spec c (Inv k x) (body x)
     (fun r w d => match r with inl x => exists k', Inv k' x w d /\ (always -> (k' < k)%nat) | inr y => Q y w d end)) ->
  forall k x, spec (c * S k) (Inv k x) (loop body x) Q.
Proof.
  intros Hlooks Hbody k x es w d Hes. unfold loop.
  assert (Hgen : forall fuel k x es w d, admissible es -> (length es < fuel)%nat -> Inv k x w d ->
    match repeat_ fuel body x es w d with
    | Returned y es' w' d' =>
        Q y w' d' /\ admissible es' /\ (length es' <= length es)%nat /\ (always -> (length es <= c * S k + length es')%nat)
    | Running w' _ => I w' /\ (always -> (length es < c * S k)%nat)
    | Undefined => False
    end).
  { clear k x es w d Hes. induction fuel as [|fuel IH]; intros k x es w d Hes Hf Hi; [lia|]. cbn [repeat_]. unfold bind.
    pose proof (Hbody k x es w d Hes Hi) as Hb. pose proof (Hlooks x es w d) as Hl.
    destruct (body x es w d) as [[x'|y] es' w' d'|w' d'|]; [| | |done].
    - destruct Hb as ((k' & Hi' & Hk) & Hes' & _ & Hn). specialize (IH k' x' es' w' d' Hes' ltac:(lia) Hi').
      destruct (repeat_ fuel body x' es' w' d') as [y es2 w2 d2|w2 d2|]; [| |done].
      + destruct IH as (H1 & H2 & H3 & H4). split_and!; [done|done|lia|]. intros Ha.
        specialize (Hn Ha). specialize (H4 Ha). specialize (Hk Ha). nia.
      + destruct IH as [H1 H2]. split; [done|]. intros Ha. specialize (Hn Ha). specialize (H2 Ha). specialize (Hk Ha). nia.
    - destruct Hb as (H1 & H2 & H3 & H4). cbn. split_and!; [done|done|done|]. intros Ha. specialize (H4 Ha). nia.
    - destruct Hb as [H1 H2]. split; [done|]. intros Ha. specialize (H2 Ha). nia. }
  apply Hgen; [done|lia].
Qed.
End Logic.

(** ** The control endpoint and the host *)

Section Control.
Context {A : Type}.
Abbreviation device := (device (A:=A)).

(** A device as its selection, the control endpoint (OUT and IN), the transaction, and the rest. *)
Definition dev (s : ep_address) (o i : endpoint) (b : transaction) (d : device) : device :=
  mkDevice ((o, i) :: tail (endpoints d)) s b (ADDR d) (FrameNum d) (USB_DeviceState d) (USB_Device_ConfigurationNumber d)
    (USB_Device_RemoteWakeupEnabled d) (USB_Device_CurrentlySelfPowered d) (USB_ControlRequest d) (dev_app d).

Lemma dev_self (d : device) o i rest :
  endpoints d = (o, i) :: rest -> d = dev (USB_Endpoint_SelectedEndpoint d) o i (bus d) d.
Proof. destruct d. cbn. by intros ->. Qed.

Abbreviation control dir := (mkAddress 0 dir).

(** What the accessors see and do. *)
Lemma get_dev dir s o i b d : get_endpoint (control dir) (dev s o i b d) = if dir then i else o.
Proof. by destruct dir. Qed.
Lemma put_dev dir e s o i b d :
  put_endpoint (control dir) e (dev s o i b d) = dev s (if dir then o else e) (if dir then e else i) b d.
Proof. by destruct dir. Qed.
Lemma selected_dev dir o i b d : selected (dev (control dir) o i b d) = if dir then i else o.
Proof. by destruct dir. Qed.
Lemma change_dev dir f o i b d :
  XmegaUsb.change f (dev (control dir) o i b d) = dev (control dir) (if dir then o else f o) (if dir then f i else i) b d.
Proof. by destruct dir. Qed.
Lemma set_bus_dev x s o i b d : set_bus x (dev s o i b d) = dev s o i x d.
Proof. done. Qed.
Lemma select_direction_dev dir dir' o i b d :
  select_direction dir' (dev (control dir) o i b d) = dev (control dir') o i b d.
Proof. done. Qed.
Hint Rewrite get_dev put_dev selected_dev change_dev set_bus_dev select_direction_dev : dev.

(** An endpoint of the control type that is not stalled, with its buffer. *)
Definition sound (e : endpoint) : Prop := TYPE e = TYPE_CONTROL /\ STALL e = false /\ length (FIFO_Data e) = 64%nat.

Definition received_in (bytes : list Z) (o : endpoint) : endpoint :=
  set_status (complete_status (STATUS o)) (receive_into bytes o).
Definition sent_in (i : endpoint) : endpoint := set_status (complete_status (STATUS i)) i.
Definition setup_out (bytes : list Z) (o : endpoint) : endpoint :=
  set_ctrl false (TYPE o) (set_status setup_status (receive_into bytes o)).
Definition setup_in (i : endpoint) : endpoint := set_ctrl false (TYPE i) (set_status setup_status i).

Lemma receive_length bytes (e : endpoint) :
  length (FIFO_Data e) = 64%nat -> (length bytes <= 64)%nat -> length (FIFO_Data (receive_into bytes e)) = 64%nat.
Proof. intros He Hb. cbn. rewrite length_app, length_drop. lia. Qed.

Section Packets.
Context (addr : Z) (d0 : device) (Haddr : ADDR d0 = addr).

(** Both packets of a transaction, on the endpoints. *)
Ltac on_wire :=
  unfold ask, send_to, wire, module_wire, module_packet; cbn [ADDR dev]; rewrite Haddr, Z.eqb_refl;
  change (Z.to_nat 0) with 0%nat; unfold module_token; cbn [Z.eqb Pos.eqb negb fst snd]; autorewrite with dev;
  unfold module_data; cbn [bus dev]; cbn [Z.eqb Pos.eqb negb]; autorewrite with dev.

Lemma ask_nak s o i b :
  sound i -> BUSNACK0 (STATUS i) = true -> ask addr (dev s o i b d0) = (Handshake USBPID_NAK, dev s o i Idle d0).
Proof.
  intros (Ht & Hs & _) Hb. on_wire. by rewrite Ht, Hs, Hb.
Qed.

Lemma ask_sends s o i b :
  sound i -> BUSNACK0 (STATUS i) = false ->
  ask addr (dev s o i b d0)
  = (Sends (data_pid (STATUS i)) (take (Z.to_nat (CNT i)) (FIFO_Data i)), dev s o (sent_in i) Idle d0).
Proof.
  intros (Ht & Hs & _) Hb. on_wire. by rewrite Ht, Hs, Hb.
Qed.

Lemma send_nak s o i b pid bytes :
  sound o -> BUSNACK0 (STATUS o) = true ->
  send_to addr USBPID_OUT pid bytes (dev s o i b d0) = (Handshake USBPID_NAK, dev s o i Idle d0).
Proof.
  intros (Ht & Hs & _) Hb. on_wire. by rewrite Ht, Hs, Hb.
Qed.

Lemma send_ack s o i b pid bytes :
  sound o -> BUSNACK0 (STATUS o) = false -> pid = data_pid (STATUS o) ->
  send_to addr USBPID_OUT pid bytes (dev s o i b d0)
  = (Handshake USBPID_ACK, dev s (received_in bytes o) i Idle d0).
Proof.
  intros (Ht & Hs & _) Hb ->. on_wire. by rewrite Ht, Hs, Hb, Z.eqb_refl.
Qed.

Lemma send_setup s o i b bytes :
  TYPE o = TYPE_CONTROL ->
  send_to addr USBPID_SETUP USBPID_DATA0 bytes (dev s o i b d0)
  = (Handshake USBPID_ACK, dev s (setup_out bytes o) (setup_in i) Idle d0).
Proof.
  intros Ht. on_wire. unfold setup_out, setup_in. by rewrite Ht.
Qed.
End Packets.

(** *** The functions of the library on it *)

Lemma IsINReady_dev dir o i b d :
  Endpoint_IsINReady (dev (control dir) o i b d) = (BUSNACK0 (STATUS i), dev (control true) o i b d).
Proof. done. Qed.

Lemma IsOUTReceived_dev dir o i b d :
  Endpoint_IsOUTReceived (dev (control dir) o i b d)
  = (TRNCOMPL0 (STATUS o), dev (control false) (if TRNCOMPL0 (STATUS o) then set_length (CNT o) o else o) i b d).
Proof. unfold Endpoint_IsOUTReceived. autorewrite with dev. by destruct (TRNCOMPL0 (STATUS o)). Qed.

Lemma IsSETUPReceived_dev dir o i b d :
  Endpoint_IsSETUPReceived (dev (control dir) o i b d)
  = (SETUP (STATUS o), dev (control false) (if SETUP (STATUS o) then set_length (CNT o) o else o) i b d).
Proof. unfold Endpoint_IsSETUPReceived. autorewrite with dev. by destruct (SETUP (STATUS o)). Qed.
(** The bytes of a packet go to the buffer. *)
Lemma fill_packet_dev room stream len o i b d :
  let n := Z.to_nat (Z.min (Z.of_nat room) len) in
  let pos := Z.to_nat (FIFO_Position i) in
  sound i -> 0 <= len <= Z.of_nat (length stream) -> 0 <= FIFO_Position i -> (pos + room <= 64)%nat ->
  fill_packet room stream len (dev (control true) o i b d)
  = Some (drop n stream, len - Z.of_nat n,
          dev (control true) o
            (set_fifo (take pos (FIFO_Data i) ++ take n stream ++ drop (pos + n) (FIFO_Data i)) (FIFO_Position i + Z.of_nat n) i) b d).
Proof.
  assert (Hnone : forall stream len (i : endpoint) pos,
    (drop 0 stream, len - Z.of_nat 0, dev (control true) o
       (set_fifo (take pos (FIFO_Data i) ++ take 0 stream ++ drop (pos + 0) (FIFO_Data i)) (FIFO_Position i + Z.of_nat 0) i) b d)
    = (stream, len, dev (control true) o i b d)).
  { intros. rewrite drop_0, take_0, Nat.add_0_r, app_nil_l, take_drop, Z.sub_0_r, Z.add_0_r. by destruct i0. }
  revert stream len i. induction room as [|room IH]; intros stream len i n pos Hi Hlen Hpos Hroom.
  - assert (n = 0%nat) as -> by lia. cbn [fill_packet]. f_equal. symmetry. by apply Hnone.
  - cbn [fill_packet]. destruct (Z.eqb_spec len 0) as [->|Hne].
    { assert (n = 0%nat) as -> by lia. f_equal. symmetry. by apply Hnone. }
    destruct stream as [|x stream]; [cbn in Hlen; lia|]. cbn [byte_to_endpoint]. unfold Endpoint_Write_8.
    rewrite selected_dev. destruct Hi as (Ht & Hs & Hl). rewrite (proj2 (Nat.ltb_lt _ _)) by lia.
    cbn [mbind option_bind]. rewrite change_dev.
    set (i1 := set_fifo _ _ i). cbn [length] in Hlen.
    assert (Hp1 : FIFO_Position i1 = FIFO_Position i + 1) by (cbn; rewrite u8_small; unfold is_u8; lia).
    rewrite IH; [|split_and!; [done|done|cbn; by rewrite length_insert]|lia|lia|lia].
    assert (Hn : n = S (Z.to_nat (Z.min (Z.of_nat room) (len - 1)))) by lia. rewrite Hn. cbn [drop take].
    rewrite Hp1. set (m := Z.to_nat (Z.min _ _)). f_equal. f_equal; [f_equal; lia|]. f_equal.
    replace (Z.to_nat (FIFO_Position i + 1)) with (S pos) by lia.
    subst i1. unfold set_fifo. cbn. f_equal; [|lia].
    rewrite (take_S_r _ pos x) by (apply list_lookup_insert_eq; lia).
    rewrite take_insert_ge by lia. rewrite drop_insert_lt by lia. rewrite <- app_assoc. cbn [app]. by rewrite Nat.add_succ_r.
Qed.

(** The bytes of a packet are read. *)
Lemma empty_packet_dev n len o i b d :
  let pos := Z.to_nat (FIFO_Position o) in
  length (FIFO_Data o) = 64%nat -> Z.of_nat n <= len -> 0 <= FIFO_Position o -> (pos + n <= 64)%nat ->
  empty_packet n len (dev (control false) o i b d)
  = Some (take n (drop pos (FIFO_Data o)), len - Z.of_nat n,
          dev (control false) (set_fifo (FIFO_Data o) (FIFO_Position o + Z.of_nat n) o) i b d).
Proof.
  revert len o. induction n as [|n IH]; intros len o pos Ho Hlen Hpos Hn.
  - cbn [empty_packet]. rewrite take_0, Z.sub_0_r, Z.add_0_r. by destruct o.
  - cbn [empty_packet]. rewrite (proj2 (Z.eqb_neq len 0)) by lia. unfold Endpoint_Read_8. rewrite selected_dev.
    destruct (lookup_lt_is_Some_2 (FIFO_Data o) pos) as [x Hx]; [lia|]. fold pos. rewrite Hx. cbn [mbind option_bind].
    rewrite change_dev. set (o1 := set_fifo _ _ o).
    assert (Hp1 : FIFO_Position o1 = FIFO_Position o + 1) by (cbn; rewrite u8_small; unfold is_u8; lia).
    rewrite IH; [|done|lia|lia|lia]. cbn [mbind option_bind]. rewrite Hp1.
    replace (Z.to_nat (FIFO_Position o + 1)) with (S pos) by lia. rewrite (drop_S _ _ _ Hx). cbn [take].
    replace (len - 1 - Z.of_nat n) with (len - Z.of_nat (S n)) by lia.
    replace (FIFO_Position o + 1 + Z.of_nat n) with (FIFO_Position o + Z.of_nat (S n)) by lia. done.
Qed.

Lemma ClearOUT_dev o i b d :
  Endpoint_ClearOUT (dev (control false) o i b d)
  = dev (control false) (set_fifo (FIFO_Data o) 0 (set_status (clear_flags (STATUS o)) o)) i b d.
Proof. unfold Endpoint_ClearOUT. by rewrite change_dev. Qed.

(** A packet, or an empty one, is handed over. *)
Definition arm (bytes : list Z) (i : endpoint) : endpoint :=
  set_fifo (bytes ++ drop (length bytes) (FIFO_Data i)) 0
    (set_status (clear_flags (STATUS i)) (set_cnt (Z.of_nat (length bytes)) i)).

Lemma ClearIN_dev o i b d :
  FIFO_Position i = 0 -> Endpoint_ClearIN (dev (control true) o i b d) = dev (control true) o (arm [] i) b d.
Proof. intros Hp. unfold Endpoint_ClearIN. rewrite change_dev. unfold arm. rewrite Hp. cbn [length app]. by rewrite drop_0. Qed.

Lemma next_packet_dev {W E} stream len o i b d es (w : W) :
  let n := Z.to_nat (Z.min 8 len) in
  sound i -> FIFO_Position i = 0 -> 0 <= len <= Z.of_nat (length stream) ->
  next_packet (E:=E) stream len es w (dev (control true) o i b d)
  = Returned (drop n stream, len - Z.of_nat n, (n =? 8)%nat) es w (dev (control true) o (arm (take n stream) i) b d).
Proof.
  intros n Hi Hp Hl. unfold next_packet, bind, get, bounded, act, ret, Endpoint_BytesInEndpoint.
  rewrite selected_dev. cbn [ep_in USB_Endpoint_SelectedEndpoint dev]. rewrite Hp, Z.sub_0_r.
  rewrite fill_packet_dev by (done || lia). change (Z.of_nat (Z.to_nat 8)) with 8. fold n.
  rewrite Hp. change (Z.to_nat 0) with 0%nat. cbn [Nat.add app]. rewrite take_0. cbn [app snd].
  f_equal; [f_equal; apply eq_true_iff_eq; rewrite Z.eqb_eq, Nat.eqb_eq; lia|].
  unfold Endpoint_ClearIN. rewrite change_dev. unfold arm, set_fifo. cbn. by rewrite length_take, Nat.min_l by lia.
Qed.
End Control.

#[export] Hint Rewrite @get_dev @put_dev @selected_dev @change_dev @set_bus_dev @select_direction_dev : dev.

(** ** The rounds look *)

Ltac solve_looks :=
  unfold looks; intros; unfold bind, look, get, act, bounded, ret;
  repeat case_match; simplify_eq; cbn [length]; try done; lia.

Section Looks.
Context {A W E : Type} (env : E -> W -> device (A:=A) -> W * device (A:=A)).
Abbreviation looks := (looks (A:=A) (W:=W) (E:=E)).

Lemma attached_looks flag : looks (attached_round env flag).
Proof. unfold attached_round. solve_looks. Qed.
Lemma wait_looks flag : looks (wait_round env flag).
Proof. unfold wait_round. solve_looks. Qed.
Lemma status_out_looks : looks (status_out_round env).
Proof. unfold status_out_round. solve_looks. Qed.
Lemma status_in_looks : looks (status_in_round env).
Proof. unfold status_in_round. solve_looks. Qed.
Lemma ready_looks : looks (ready_round env).
Proof. unfold ready_round. solve_looks. Qed.
Lemma write_looks : looks (write_round env).
Proof. unfold write_round, next_packet. solve_looks. Qed.
Lemma read_looks : looks (read_round env).
Proof. unfold read_round. solve_looks. Qed.
End Looks.
