(* ===== verification/UsbTransfers.v ===== *)
(** * lufa/LUFA/Drivers/USB/Core: the streams complete a transfer

    The phases of a control transfer on the control endpoint of the LUFA build,
    and that every stream goes through them to the end, whatever the host does
    meanwhile; if it does something each time, in a bounded number of looks. *)

From S2P Require Import Prelude UsbWire XmegaUsb UsbStream UsbStreamProofs.
Open Scope Z_scope.

Section Transfers.
Context {A : Type} (addr : Z) (setup : list Z) (ps : list (list Z)) (always : Prop).

Abbreviation device := (device (A:=A)).
Abbreviation rq := (request_of setup).
Abbreviation N := (rq_length rq).
Abbreviation control dir := (mkAddress 0 dir).
Abbreviation attempt := (attempt (S:=device) addr setup ps).
Abbreviation env := (meanwhile (S:=device) addr setup ps).
Abbreviation fair := (fun q : nat => (1 <= q)%nat).
Abbreviation fine := (fun h : host => h <> HFailed).
Abbreviation spec := (spec (A:=A) (W:=host) (E:=nat) fair always fine).
Abbreviation looks := (looks (A:=A) (W:=host) (E:=nat)).

(** What holds of the host and the control endpoint, with the rest of the device fixed. *)
Definition phase : Type := nat -> host -> endpoint -> endpoint -> Prop.
Definition at_sel (d0 : device) (s : ep_address) (φ : host -> endpoint -> endpoint -> Prop) (h : host) (d : device) : Prop :=
  exists o i b, d = dev s o i b d0 /\ φ h o i.
(** With the control endpoint selected. *)
Abbreviation at_ d0 dir := (at_sel d0 (control dir)).

(** A phase with a rank: how many attempts the host has left in it; each one lowers it. *)
Class Phase (φ : phase) := {
  phase_fine r h o i : φ r h o i -> h <> HFailed;
  phase_mono r r' h o i : (r <= r')%nat -> φ r h o i -> φ r' h o i;
  phase_attempt d0 s b r h o i :
    ADDR d0 = addr -> φ r h o i ->
    exists h' o' i' b', attempt h (dev s o i b d0) = (h', dev s o' i' b' d0) /\ φ (Nat.pred r) h' o' i'
}.

Section Env.
Context (φ : phase) {P : Phase φ} (d0 : device) (Haddr : ADDR d0 = addr).

Lemma phase_attempts q r s h d :
  at_sel d0 s (φ r) h d ->
  let '(h', d') := attempts addr setup ps q (h, d) in at_sel d0 s (φ (r - q)%nat) h' d'.
Proof.
  revert r h d. induction q as [|q IH]; intros r h d (o & i & b & -> & Hφ).
  - cbn. exists o, i, b. split; [done|]. by rewrite Nat.sub_0_r.
  - destruct (phase_attempt d0 s b r h o i Haddr Hφ) as (h1 & o1 & i1 & b1 & E & H1).
    cbn [attempts fst snd]. rewrite E.
    specialize (IH (Nat.pred r) h1 _ (ex_intro _ o1 (ex_intro _ i1 (ex_intro _ b1 (conj eq_refl H1))))).
    destruct (attempts _ _ _ q _) as [h2 d2]. by replace (r - S q)%nat with (Nat.pred r - q)%nat by lia.
Qed.

(** A look: the phase goes on, the rank falls if the host is fair. *)
Lemma look_phase {X} (f : device -> X * device) s r (Q : X -> host -> device -> Prop) :
  (forall r' h d, (r' <= r)%nat -> (always -> r' = Nat.pred r) -> at_sel d0 s (φ r') h d -> let '(x, d') := f d in Q x h d') ->
  spec 1 (at_sel d0 s (φ r)) (look env f) Q.
Proof.
  intros Hf. eapply (spec_look env) with
    (R := fun h d => exists r', (r' <= r)%nat /\ (always -> r' = Nat.pred r) /\ at_sel d0 s (φ r') h d).
  - intros h d (o & i & b & -> & Hφ). by eapply phase_fine.
  - intros q h d Hd Hq. unfold meanwhile. pose proof (phase_attempts q r s h d Hd) as H1.
    destruct (attempts _ _ _ q (h, d)) as [h' d'].
    destruct (Nat.eq_dec q 0) as [->|Hne].
    + exists r. split; [done|]. rewrite Nat.sub_0_r in H1. split; [|done]. intros Ha. specialize (Hq Ha). lia.
    + exists (Nat.pred r). split; [lia|]. split; [done|]. destruct H1 as (o & i & b & E & Hφ).
      exists o, i, b. split; [done|]. eapply phase_mono; [|done]. lia.
  - intros h d (r' & H1 & H2 & H3). by eapply Hf.
Qed.
End Env.

(** ** Endpoints *)

(** The control endpoint out, free for a packet or with one; in, free, or with a packet for the host. *)
Definition out_free (o : endpoint) : Prop :=
  sound o /\ STATUS o = mkStatus false false false (OVF (STATUS o)) (TOGGLE (STATUS o)) /\ FIFO_Position o = 0.
Definition out_done (o : endpoint) : Prop :=
  sound o /\ SETUP (STATUS o) = false /\ TRNCOMPL0 (STATUS o) = true /\ FIFO_Position o = 0.
Definition in_rest (i : endpoint) : Prop := sound i /\ FIFO_Position i = 0.
Definition in_free (pid : Z) (i : endpoint) : Prop := in_rest i /\ BUSNACK0 (STATUS i) = true /\ data_pid (STATUS i) = pid.
Definition in_armed (pid : Z) (bytes : list Z) (i : endpoint) : Prop :=
  in_rest i /\ BUSNACK0 (STATUS i) = false /\ data_pid (STATUS i) = pid /\ take (Z.to_nat (CNT i)) (FIFO_Data i) = bytes.

Lemma data_pid_complete s : data_pid (complete_status s) = toggle (data_pid s).
Proof. unfold data_pid. cbn. by destruct (TOGGLE s). Qed.

Lemma sent_in_free pid bytes i : in_armed pid bytes i -> in_free (toggle pid) (sent_in i).
Proof.
  intros ((Hs & Hp) & Hb & Ht & _). unfold in_free, in_rest. split_and!; [done|done|done|].
  unfold sent_in. cbn [STATUS set_status]. by rewrite data_pid_complete, Ht.
Qed.

Lemma arm_rest bytes i : in_rest i -> (length bytes <= 64)%nat -> in_rest (arm bytes i).
Proof.
  intros ((H1 & H2 & H3) & _) Hl. split; [|done]. split; [done|]. split; [done|]. cbn. rewrite length_app, length_drop. lia.
Qed.

Lemma arm_armed pid bytes i : in_free pid i -> (length bytes <= 64)%nat -> in_armed pid bytes (arm bytes i).
Proof.
  intros (Hi & _ & Ht) Hl. unfold in_armed. split_and!; [by apply arm_rest|done|done|].
  cbn. rewrite Nat2Z.id, take_app_le by lia. by apply firstn_all.
Qed.

Lemma received_done bytes o : out_free o -> (length bytes <= 64)%nat -> out_done (received_in bytes o).
Proof.
  intros ((H1 & H2 & H3) & Hs & Hp) Hl. unfold out_done, received_in. cbn [STATUS set_status FIFO_Position receive_into set_fifo].
  rewrite Hs. split; [|done]. split; [done|]. split; [done|]. by apply receive_length.
Qed.

(** ** A request that is pending *)

(** The host's next step; it has to wait for the device. *)
Definition waits (h : host) : Prop := (exists got pid, h = HIn got pid) \/ (exists rest pid, h = HOut rest pid) \/ h = HStatusIn.

Definition refusing (e : endpoint) : Prop := sound e /\ BUSNACK0 (STATUS e) = true.

Lemma attempt_refused d0 s o i b h :
  ADDR d0 = addr -> waits h -> refusing o -> refusing i ->
  attempt h (dev s o i b d0) = (h, dev s o i Idle d0).
Proof.
  intros Haddr Hh [Ho Hob] [Hi Hib]. destruct Hh as [(got & pid & ->)|[(rest & pid & ->)| ->]]; cbn [UsbWire.attempt].
  - by rewrite (ask_nak addr d0 Haddr).
  - by rewrite (send_nak addr d0 Haddr).
  - by rewrite (ask_nak addr d0 Haddr).
Qed.

Inductive pending (h : host) (pos : Z) : phase :=
  | pending_intro r o i :
      waits h -> sound o -> STATUS o = setup_status -> FIFO_Position o = pos -> CNT o = 8 -> take 8 (FIFO_Data o) = setup ->
      in_rest i -> BUSNACK0 (STATUS i) = true -> pending h pos r h o i.

#[export] Instance pending_phase h pos : Phase (pending h pos).
Proof.
  split.
  - intros r h' o i [r' o' i' [(got & pid & ->)|[(rest & pid & ->)| ->]] ?]; done.
  - intros r r' h' o i _ []. by constructor.
  - intros d0 dir b r h' o i Haddr [r' o' i' Hh Ho Hs Hp Hc Ht [Hi Hip] Hb].
    rewrite attempt_refused; [|done|done|split; [done|by rewrite Hs]|done].
    exists h, o', i', Idle. split; [done|]. by constructor.
Qed.

(** ** Data for the host *)

Section Reading.
(** What the device sends in all. *)
Context (data : list Z) (Hdata : Z.of_nat (length data) <= N).

(** After [k] bytes: the host waits for more, or has a packet to fetch, or has all
    and sends the status, or is done; [more]: the device has not armed its last packet. *)
Inductive reading : nat -> bool -> phase :=
  | reading_free r k pid o i :
      out_free o -> TOGGLE (STATUS o) = true -> in_free pid i -> Z.of_nat k < N -> (k <= length data)%nat -> (k mod 8 = 0)%nat ->
      reading k true r (HIn (take k data) pid) o i
  | reading_armed r k n more pid o i :
      (2 <= r)%nat -> out_free o -> TOGGLE (STATUS o) = true -> in_armed pid (take n (drop k data)) i ->
      (n <= 8)%nat -> (k + n <= length data)%nat -> (k mod 8 = 0)%nat -> ((n < 8)%nat -> (k + n)%nat = length data) ->
      (n = 8%nat -> Z.of_nat (k + n) < N -> more = true) ->
      reading (k + n) more r (HIn (take k data) pid) o i
  | reading_status r more o i :
      (1 <= r)%nat -> out_free o -> TOGGLE (STATUS o) = true -> in_rest i ->
      reading (length data) more r (HStatusOut data) o i
  | reading_done r more o i : out_done o -> in_rest i -> reading (length data) more r (HDone data) o i.

#[export] Instance reading_phase k more : Phase (reading k more).
Proof.
  split.
  - by intros r h o i [].
  - intros r r' h o i Hr Hφ. revert Hr.
    destruct Hφ as [r0 k0 pid o0 i0|r0 k0 n more0 pid o0 i0|r0 more0 o0 i0|r0 more0 o0 i0]; intros;
      [apply reading_free|eapply reading_armed|apply reading_status|apply reading_done]; first [eassumption|lia].
  - intros d0 dir b r h o i Haddr [r0 k0 pid o0 i0 Ho Htg Hi HkN Hk Hk8
      |r0 k0 n more0 pid o0 i0 Hr Ho Htg Hi Hn Hkn Hk8 Hlast Hmore|r0 more0 o0 i0 Hr Ho Htg Hi|r0 more0 o0 i0 Ho Hi].
    + destruct Hi as ((Hs & Hp) & Hb & Ht). cbn [UsbWire.attempt]. rewrite (ask_nak addr d0 Haddr) by done.
      eexists _, _, _, _. split; [reflexivity|]. by apply reading_free.
    + pose proof (sent_in_free _ _ _ Hi) as Hfree. destruct Hi as ((Hs & Hp) & Hb & Ht & Hbytes).
      cbn [UsbWire.attempt]. rewrite (ask_sends addr d0 Haddr) by done. rewrite Ht, Hbytes, Z.eqb_refl. cbn [negb].
      rewrite take_take_drop, !length_take, length_drop.
      destruct (_ || _) eqn:Eend.
      * assert ((k0 + n)%nat = length data) as Heq.
        { destruct (Nat.eq_dec n 8) as [->|Hne]; [|apply Hlast; lia]. apply orb_true_iff in Eend as [Eend%Z.ltb_lt|Eend%Z.leb_le]; lia. }
        eexists _, _, _, _. split; [reflexivity|]. rewrite Heq, firstn_all. apply reading_status; [lia|done|done|]. by destruct Hfree.
      * apply orb_false_iff in Eend as [E1%Z.ltb_ge E2%Z.leb_gt]. assert (n = 8%nat) as -> by lia.
        eexists _, _, _, _. split; [reflexivity|]. rewrite Hmore by lia.
        apply reading_free; [done|done|done|lia|done|]. by rewrite Nat.Div0.add_mod, Hk8.
    + cbn [UsbWire.attempt]. pose proof Ho as (Hs & HS & Hp).
      rewrite (send_ack addr d0 Haddr); [|done|by rewrite HS|unfold data_pid; by rewrite Htg].
      eexists _, _, _, _. split; [reflexivity|]. apply reading_done; [|done]. by apply received_done; [|cbn; lia].
    + cbn [UsbWire.attempt]. eexists _, _, _, _. split; [reflexivity|]. by apply reading_done.
Qed.

(** *** The stream *)

Context (d0 : device) (Haddr : ADDR d0 = addr) (Hup : bus_error (USB_DeviceState d0) = None).

(** The state of the bus does not change, and no new request comes. *)
Lemma look_state φ `{!Phase φ} dir r :
  spec 1 (at_ d0 dir (φ r)) (look env (fun d => (USB_DeviceState d, d)))
    (fun s h d => s = USB_DeviceState d0 /\ exists r', (r' <= r)%nat /\ (always -> r' = Nat.pred r) /\ at_ d0 dir (φ r') h d).
Proof.
  apply (look_phase φ d0 Haddr). intros r' h d H1 H2 H3. split; [|by exists r'].
  by destruct H3 as (o & i & b & -> & _).
Qed.

Lemma look_no_setup φ `{!Phase φ} dir r :
  (forall r h o i, φ r h o i -> SETUP (STATUS o) = false) ->
  spec 1 (at_ d0 dir (φ r)) (look env Endpoint_IsSETUPReceived)
    (fun x h d => x = false /\ exists r', (r' <= r)%nat /\ (always -> r' = Nat.pred r) /\ at_ d0 false (φ r') h d).
Proof.
  intros Hs. apply (look_phase φ d0 Haddr). intros r' h d H1 H2 (o & i & b & -> & Hφ).
  rewrite IsSETUPReceived_dev, (Hs _ _ _ _ Hφ). split; [done|]. exists r'. split_and!; [done|done|]. by exists o, i, b.
Qed.

Lemma reading_rest k more r h o i : reading k more r h o i -> in_rest i /\ (k <= length data)%nat.
Proof.
  intros [r0 k0 pid o0 i0 _ _ [Hi _] _ Hk _|r0 k0 n more0 pid o0 i0 _ _ _ [Hi _] _ Hk|r0 more0 o0 i0 _ _ _ Hi|r0 more0 o0 i0 _ Hi];
    by split.
Qed.

Lemma reading_no_setup k more r h o i : reading k more r h o i -> SETUP (STATUS o) = false.
Proof. intros []; first [by destruct H as (_ & -> & _)|by destruct H0 as (_ & -> & _)|by destruct H as (_ & ? & _)]. Qed.

(** It is the device's turn. *)
Inductive free (k : nat) : phase :=
  | free_intro r pid o i :
      out_free o -> TOGGLE (STATUS o) = true -> in_free pid i -> Z.of_nat k < N -> (k <= length data)%nat -> (k mod 8 = 0)%nat ->
      free k r (HIn (take k data) pid) o i.

#[export] Instance free_phase k : Phase (free k).
Proof.
  split.
  - by intros r h o i [].
  - intros r r' h o i _ []. by eapply free_intro.
  - intros d1 dir b r h o i Hd1 [r0 pid o0 i0 Ho Htg Hi HkN Hk Hk8].
    destruct Hi as ((Hs & Hp) & Hb & Ht). cbn [UsbWire.attempt]. rewrite (ask_nak addr d1 Hd1) by done.
    eexists _, _, _, _. split; [reflexivity|]. by apply free_intro.
Qed.

(** Has the host sent the status?  If not and it has nothing left to do, it is the device's turn. *)
Lemma look_out_reading dir k more r :
  spec 1 (at_ d0 dir (reading k more r)) (look env Endpoint_IsOUTReceived)
    (fun x h d => exists r', (r' <= r)%nat /\ (always -> r' = Nat.pred r) /\
       (if x : bool then k = length data /\ at_ d0 false (fun h o i => h = HDone data /\ out_done o /\ in_rest i) h d
        else at_ d0 false (reading k more r') h d /\ (r' = 0%nat -> more = true /\ at_ d0 false (free k 0%nat) h d))).
Proof.
  apply (look_phase _ d0 Haddr). intros r' h d H1 H2 (o & i & b & -> & Hφ). rewrite IsOUTReceived_dev.
  exists r'. split; [done|]. split; [done|].
  destruct Hφ as [r0 k0 pid o0 i0 Ho Htg Hi HkN Hk Hk8|r0 k0 n more0 pid o0 i0 Hr Ho Htg Hi Hn Hkn Hk8 Hlast Hmore
    |r0 more0 o0 i0 Hr Ho Htg Hi|r0 more0 o0 i0 Ho Hi].
  - pose proof Ho as (_ & -> & _). cbn [TRNCOMPL0]. split; [by eexists _, _, _; split; [done|apply reading_free]|].
    intros _. split; [done|]. by eexists _, _, _; split; [done|apply free_intro].
  - pose proof Ho as (_ & -> & _). cbn [TRNCOMPL0]. split; [by eexists _, _, _; split; [done|eapply reading_armed]|lia].
  - pose proof Ho as (_ & -> & _). cbn [TRNCOMPL0]. split; [by eexists _, _, _; split; [done|apply reading_status]|lia].
  - pose proof Ho as (Hs & HS & HT & Hp). rewrite HT. split; [done|]. eexists _, _, _. split; [done|]. by split_and!.
Qed.

Lemma look_in_reading k more r :
  spec 1 (fun h d => at_ d0 false (reading k more r) h d /\ (always -> at_ d0 false (free k 0%nat) h d)) (look env Endpoint_IsINReady)
    (fun x h d => (always -> x = true) /\ exists r', (r' <= r)%nat /\
       at_ d0 true (fun h o i => reading k more r' h o i /\ BUSNACK0 (STATUS i) = x) h d).
Proof.
  eapply (spec_look env) with (R := fun h d => exists r', (r' <= r)%nat /\ at_ d0 false (reading k more r') h d /\
                                     (always -> at_ d0 false (free k 0%nat) h d)).
  - intros h d [(o & i & b & -> & Hφ) _]. by eapply (phase_fine (φ := reading k more)).
  - intros q h d [Hd Hfree] _. unfold meanwhile.
    pose proof (phase_attempts (reading k more) d0 Haddr q r _ h d Hd) as H1.
    pose proof (fun Ha => phase_attempts (free k) d0 Haddr q 0 _ h d (Hfree Ha)) as H2.
    destruct (attempts _ _ _ q (h, d)) as [h' d']. exists (r - q)%nat. split_and!; [lia|done|exact H2].
  - intros h d (r' & Hr & (o & i & b & -> & Hφ) & Hfree). rewrite IsINReady_dev. split.
    + intros Ha. destruct (Hfree Ha) as (o1 & i1 & b1 & E & Hφ1). unfold dev in E. injection E as <- <- <-.
      by destruct Hφ1 as [??????(_ & ? & _)].
    + exists r'. split; [done|]. by exists o, i, b.
Qed.

(** [src]: what the code reads the data from. *)
Context (src : list Z) (Hsrc : data = take (length data) src).

Lemma src_chunk k n : (k + n <= length data)%nat -> take n (drop k src) = take n (drop k data).
Proof.
  intros Hk. rewrite Hsrc, !take_drop_commute, take_take. do 2 f_equal. rewrite Hsrc, length_take in Hk. lia.
Qed.

Lemma data_le_src : (length data <= length src)%nat.
Proof. pose proof (f_equal length Hsrc) as E. rewrite length_take in E. lia. Qed.

Abbreviation left_ k := (Z.of_nat (length data - k)).

(** The packets the device has still to arm. *)
Definition packets (k : nat) (more : bool) : nat := if more then S ((length data - k) / 8) else 0.

Lemma packets_armed k n :
  (n = 8 \/ n < 8 /\ k + n = length data)%nat -> (k + n <= length data)%nat ->
  let more := negb (left_ (k + n)%nat =? 0) || (n =? 8)%nat in (packets (k + n) more < packets k true)%nat.
Proof.
  intros [->|[Hn Hk]] Hkn more; unfold more, packets.
  - rewrite orb_true_r. assert ((length data - k) = (length data - (k + 8)) + 1 * 8)%nat as -> by lia.
    rewrite Nat.div_add by lia. lia.
  - rewrite (proj2 (Nat.eqb_neq _ _)) by lia. rewrite (proj2 (Z.eqb_eq _ _)) by lia. cbn. lia.
Qed.

(** A packet is armed: in the device's turn the next eight bytes or the rest,
    afterwards an empty one that nobody fetches. *)
Lemma next_packet_spec k r :
  let n := Nat.min 8 (length data - k) in
  let more := negb (left_ (k + n)%nat =? 0) || (n =? 8)%nat in
  spec 0 (at_ d0 true (fun h o i => reading k true r h o i /\ BUSNACK0 (STATUS i) = true)) (next_packet (drop k src) (left_ k))
    (fun x h d => x = (drop (k + n) src, left_ (k + n)%nat, (n =? 8)%nat) /\ (k + n <= length data)%nat /\
       exists r', (3 * packets (k + n) more + r' < 3 * packets k true + r)%nat /\ (r' <= Nat.max 2 r)%nat /\
         at_ d0 true (reading (k + n) more r') h d).
Proof.
  intros n more. apply spec_det. intros es h d (o & i & b & -> & Hφ & Hb). pose proof data_le_src as Hle.
  destruct (reading_rest _ _ _ _ _ _ Hφ) as [[Hs Hp] Hk].
  rewrite next_packet_dev; [|done|done|rewrite length_drop; lia].
  eexists _, _. split; [reflexivity|].
  assert (Z.to_nat (Z.min 8 (left_ k)) = n) as -> by lia. rewrite drop_drop.
  split; [f_equal; f_equal; lia|]. split; [lia|].
  pose proof (packets_armed k n ltac:(lia) ltac:(lia)) as Hpk. cbv zeta in Hpk. fold more in Hpk. rewrite src_chunk by lia.
  inversion Hφ as [r0 k0 pid o0 i0 Ho Htg Hi HkN _ Hk8|r0 k0 m more0 pid o0 i0 Hr Ho Htg Hi|r0 more0 o0 i0 Hr Ho Htg Hi|r0 more0 o0 i0 Ho Hi]; subst.
  - exists 2%nat. split; [lia|]. split; [lia|]. exists o, (arm (take n (drop k data)) i), b. split; [done|].
    apply reading_armed; try done; [by apply arm_armed; [|rewrite length_take; lia]|lia|lia|lia|].
    intros Hn _. unfold more. rewrite Hn. apply orb_true_r.
  - destruct Hi as (_ & Hi & _). congruence.
  - assert (n = 0%nat) as -> by lia. exists r. split; [lia|]. split; [lia|]. rewrite Nat.add_0_r.
    exists o, (arm [] i), b. split; [done|]. by apply reading_status; [| | |apply arm_rest; cbn; [|lia]].
  - assert (n = 0%nat) as -> by lia. exists r. split; [lia|]. split; [lia|]. rewrite Nat.add_0_r.
    exists o, (arm [] i), b. split; [done|]. by apply reading_done; [|apply arm_rest; cbn; [|lia]].
Qed.

(** The loop: [m] bounds the packets to come and what the host has to do. *)
Definition writing (m : nat) (x : list Z * Z * bool) (h : host) (d : device) : Prop :=
  exists k r dir, x.1 = (drop k src, left_ k) /\ (k <= length data)%nat /\ (r <= 2)%nat /\
    let more := negb (left_ k =? 0) || x.2 in
    (3 * packets k more + r <= m)%nat /\ at_ d0 dir (reading k more r) h d.

(** All packets are armed. *)
Definition written (h : host) (d : device) : Prop :=
  exists k r dir, (r <= 2)%nat /\ at_ d0 dir (reading k false r) h d.

Lemma write_round_spec m x :
  spec 4 (writing m x) (write_round env x)
    (fun res h d => match res with
                    | inl x => exists m', writing m' x h d /\ (always -> (m' < m)%nat)
                    | inr e => e = None /\ written h d
                    end).
Proof.
  destruct x as [[stream len] full]. unfold writing. apply spec_ex. intros k. apply spec_ex. intros r. apply spec_ex. intros dir.
  apply spec_pure. cbn [fst snd]. intros [= -> ->]. apply spec_pure. intros Hk. apply spec_pure. intros Hr. apply spec_pure. intros Hm.
  unfold write_round. destruct (negb (left_ k =? 0) || full) eqn:Emore; cbn [negb].
  2:{ apply spec_ret. intros h d Hd. split; [done|]. by exists k, r, dir. }
  change 4%nat with (1 + (1 + (1 + (1 + 0))))%nat.
  eapply spec_bind; [by apply (look_state (reading k true))|]. intros s. cbn beta. apply spec_pure. intros ->. rewrite Hup.
  apply spec_ex. intros r1. apply spec_pure. intros H1. apply spec_pure. intros H1a.
  eapply spec_bind; [apply (look_no_setup (reading k true)), reading_no_setup|]. intros s. cbn beta. apply spec_pure. intros ->.
  apply spec_ex. intros r2. apply spec_pure. intros H2. apply spec_pure. intros H2a.
  eapply spec_bind; [apply look_out_reading|]. intros out. cbn beta.
  apply spec_ex. intros r3. apply spec_pure. intros H3. apply spec_pure. intros H3a. destruct out.
  { apply spec_ret. intros h d (-> & o & i & b & -> & -> & Ho & Hi). split; [done|].
    exists (length data), 0%nat, false. split; [lia|]. exists o, i, b. split; [done|]. by apply reading_done. }
  eapply spec_bind; [eapply spec_weaken; [apply look_in_reading|done| |exact (fun _ _ _ H => H)]|].
  { intros h d [Hd Hfree]. split; [exact Hd|]. intros Ha. apply Hfree. specialize (H1a Ha). specialize (H2a Ha). specialize (H3a Ha). lia. }
  intros ready. cbn beta. apply spec_pure. intros Hready. apply spec_ex. intros r4. apply spec_pure. intros H4. destruct ready.
  - eapply (spec_bind _ _ _ 0 0); [apply next_packet_spec|]. intros x. apply spec_ret. intros h d (-> & Hkn & r' & Hm' & Hr' & Hd).
    eexists. split; [|intros _; eapply Nat.lt_le_trans; [exact Hm'|lia]].
    eexists _, r', true. cbn [fst snd]. split; [reflexivity|]. split_and!; [lia|lia|lia|exact Hd].
  - apply spec_ret. intros h d (o & i & b & -> & Hφ & _). exists m. split; [|intros Ha; by specialize (Hready Ha)].
    exists k, r4, true. cbn [fst snd]. rewrite Emore. split_and!; [done|lia|lia|lia|]. by exists o, i, b.
Qed.

(** The status: the host does the rest. *)
Definition finishing (m : nat) (_ : unit) (h : host) (d : device) : Prop :=
  exists k r dir, (r <= m)%nat /\ at_ d0 dir (reading k false r) h d.

Definition finished_reading (h : host) (d : device) : Prop :=
  at_ d0 false (fun h o i => h = HDone data /\ out_done o /\ in_rest i) h d.

Lemma status_out_spec m :
  spec 3 (finishing m tt) (status_out_round env tt)
    (fun res h d => match res with
                    | inl x => exists m', finishing m' x h d /\ (always -> (m' < m)%nat)
                    | inr e => e = NoError /\ finished_reading h d
                    end).
Proof.
  unfold finishing. apply spec_ex. intros k. apply spec_ex. intros r. apply spec_ex. intros dir. apply spec_pure. intros Hr.
  unfold status_out_round. change 3%nat with (1 + (1 + (1 + 0)))%nat.
  eapply spec_bind; [apply look_out_reading|]. intros out. cbn beta.
  apply spec_ex. intros r3. apply spec_pure. intros H3. apply spec_pure. intros H3a. destruct out.
  { apply spec_ret. by intros h d (_ & Hd). }
  eapply spec_weaken with (P := fun h d => r3 <> 0%nat /\ at_ d0 false (reading k false r3) h d);
    [|done| |exact (fun _ _ _ H => H)].
  2:{ intros h d [Hd Hfree]. split; [|done]. intros E. by destruct (Hfree E). }
  apply spec_pure. intros Hr3. eapply spec_bind; [by apply (look_state (reading k false))|].
  intros s. cbn beta. apply spec_pure. intros ->. rewrite Hup. apply spec_ex. intros r4. apply spec_pure. intros H4.
  apply spec_pure. intros H4a.
  eapply spec_bind; [apply (look_no_setup (reading k false)), reading_no_setup|]. intros s. cbn beta. apply spec_pure. intros ->.
  apply spec_ex. intros r5. apply spec_pure. intros H5. apply spec_pure. intros H5a.
  apply spec_ret. intros h d Hd. exists r5. split; [by exists k, r5, false|]. intros Ha. specialize (H3a Ha). lia.
Qed.

(** The whole stream, from the device's turn on, with the control endpoint selected for input. *)
Lemma Control_W_spec len :
  USB_ControlRequest d0 = rq -> Z.of_nat (length data) = Z.min len N ->
  spec (4 * S (3 * S (length data / 8) + 2) + 9) (at_ d0 true (free 0 0%nat)) (Control_W_AVR8 env src len)
    (fun e h d => e = NoError /\ finished_reading h d).
Proof.
  intros Hrq Hlen. unfold Control_W_AVR8. set (m := (3 * S (length data / 8) + 2)%nat).
  eapply (spec_bind _ _ _ 0); [apply (spec_get _ _ _ _ _ _ (fun x h d => x = rq /\ at_ d0 true (free 0 0%nat) h d))|].
  { intros h d (o & i & b & -> & Hφ). split; [done|]. by exists o, i, b. }
  intros x. apply spec_pure. intros ->.
  eapply (spec_bind _ _ _ 0) with (R := fun _ h d => writing m (src, Z.of_nat (length data), false) h d).
  { apply (spec_weaken _ _ _ 0 0 (at_ d0 true (free 0 0%nat)) _ _ (fun _ => writing m (src, Z.of_nat (length data), false)));
      [|done|done|done].
    assert (Hgo : forall h d, len <> 0 -> at_ d0 true (free 0 0%nat) h d -> writing m (src, Z.of_nat (length data), false) h d).
    { intros h d Hl (o & i & b & -> & Hφ). exists 0%nat, 0%nat, true. cbn [fst snd]. rewrite drop_0, Nat.sub_0_r.
      inversion Hφ as [r0 pid o0 i0 Ho Htg Hi HN _ Hk8]; subst. rewrite (proj2 (Z.eqb_neq _ 0)) by lia. cbn [negb orb].
      split; [done|]. split_and!; [lia|lia|unfold packets; rewrite Nat.sub_0_r; lia|].
      exists o, i, b. split; [done|]. apply reading_free; first [done|lia]. }
    destruct (len >? N) eqn:E1.
    - apply spec_ret. intros h d (o & i & b & -> & Hφ). apply Hgo; [|by exists o, i, b]. inversion Hφ; lia.
    - destruct (Z.eqb_spec len 0) as [->|Hl]; [|apply spec_ret; intros; by apply Hgo].
      apply spec_act. intros h d (o & i & b & -> & Hφ). assert (length data = 0%nat) as Hd0 by lia.
      inversion Hφ as [r0 pid o0 i0 Ho Htg Hi HN _ Hk8]; subst.
      rewrite ClearIN_dev by (by destruct Hi as ((_ & ?) & _)). exists 0%nat, 2%nat, true. cbn [fst snd]. rewrite Hd0, drop_0.
      change (negb (Z.of_nat (0 - 0) =? 0) || false) with false. split; [done|]. split_and!; [lia|lia|cbn [packets]; unfold m; lia|].
      exists o, (arm [] i), b. split; [done|].
      apply (reading_armed 2 0 0); try done; [|lia|lia]. by apply arm_armed; [|cbn; lia]. }
  intros _.
  assert (Z.of_nat (length data) = if len >? N then N else len) as Hmin.
  { rewrite Hlen. destruct (len >? N) eqn:E1; lia. }
  rewrite <- Hmin.
  eapply (spec_bind _ _ _ (4 * S m) 9); [apply (spec_loop _ _ _ _ 4 writing); [apply write_looks|apply write_round_spec]|].
  intros e. cbn beta. apply spec_pure. intros ->.
  eapply spec_weaken; [apply (spec_loop _ _ _ _ 3 finishing _ (status_out_looks _)) with (k := 2%nat); intros m' []; apply status_out_spec|done|
                       |exact (fun _ _ _ H => H)].
  intros h d (k & r & dir & Hr & Hd). by exists k, r, dir.
Qed.
End Reading.

(** ** Data from the host *)

Section Receiving.

(** A packet has arrived. *)
Definition out_full (p : list Z) (o : endpoint) : Prop :=
  out_done o /\ BUSNACK0 (STATUS o) = true /\ CNT o = Z.of_nat (length p) /\ take (length p) (FIFO_Data o) = p.

Lemma received_full p o : out_free o -> (length p <= 64)%nat -> out_full p (received_in p o).
Proof.
  intros Ho Hl. split; [by apply received_done|]. split; [done|]. split; [done|].
  cbn. rewrite take_app_le by lia. by apply firstn_all.
Qed.

(** The packets the device has still to read: the host sends the first one, or has sent it; then it waits for the status. *)
Inductive coming : list (list Z) -> phase :=
  | coming_free r p rest pid o i :
      (1 <= r)%nat -> (length p <= 8)%nat -> out_free o -> data_pid (STATUS o) = pid -> in_free USBPID_DATA1 i ->
      coming (p :: rest) r (HOut (p :: rest) pid) o i
  | coming_full r p rest pid o i :
      (length p <= 8)%nat -> out_full p o -> data_pid (STATUS o) = pid -> in_free USBPID_DATA1 i ->
      coming (p :: rest) r (match rest with [] => HStatusIn | _ => HOut rest pid end) o i
  | coming_end r o i : out_free o -> in_free USBPID_DATA1 i -> coming [] r HStatusIn o i.

#[export] Instance coming_phase rest : Phase (coming rest).
Proof.
  split.
  - intros r h o i [|? ? [] |]; done.
  - intros r r' h o i Hr Hφ. revert Hr.
    destruct Hφ; intros; [apply coming_free|apply coming_full|apply coming_end]; first [eassumption|lia].
  - intros d0 dir b r h o i Haddr [r0 p rest0 pid o0 i0 Hr Hp Ho Ht Hi|r0 p rest0 pid o0 i0 Hp Ho Ht Hi|r0 o0 i0 Ho Hi].
    + cbn [UsbWire.attempt hd tl]. pose proof Ho as (Hs & HS & _).
      rewrite (send_ack addr d0 Haddr); [|done|by rewrite HS|done].
      eexists _, _, _, _. split; [reflexivity|]. cbn [sent]. change (USBPID_ACK =? USBPID_ACK) with true. cbv iota.
      replace (toggle pid) with (data_pid (STATUS (received_in p o0))) by (unfold received_in; cbn [STATUS set_status]; by rewrite data_pid_complete, Ht).
      apply coming_full; [done|by apply received_full; [|lia]|done|done].
    + destruct Hi as ((Hs & Hpos) & Hb & Htg). pose proof Ho as ((Hos & _) & Hob & _).
      rewrite attempt_refused; [|done|destruct rest0; [by right; right|right; left; eauto]|by split|by split].
      eexists _, _, _, _. split; [reflexivity|]. by apply coming_full.
    + destruct Hi as ((Hs & Hpos) & Hb & Htg). cbn [UsbWire.attempt]. rewrite (ask_nak addr d0 Haddr) by done.
      eexists _, _, _, _. split; [reflexivity|]. by apply coming_end.
Qed.

(** *** The stream *)

Context (d0 : device) (Haddr : ADDR d0 = addr) (Hup : bus_error (USB_DeviceState d0) = None).

Lemma coming_no_setup rest r h o i : coming rest r h o i -> SETUP (STATUS o) = false.
Proof. by intros [? ? ? ? ? ? _ _ (_ & -> & _)|? ? ? ? ? ? _ ((_ & ? & _) & _)|? ? ? (_ & -> & _)]. Qed.

(** Has a packet arrived?  If not, it is the host's turn. *)
Lemma look_out_coming dir p rest r :
  spec 1 (at_ d0 dir (coming (p :: rest) r)) (look env Endpoint_IsOUTReceived)
    (fun x h d => exists r', (r' <= r)%nat /\ (always -> r' = Nat.pred r) /\
       (if x : bool then at_ d0 false (fun h o i => coming (p :: rest) 0%nat h o i /\ out_full p o /\ FIFO_Length o = CNT o) h d
        else r' <> 0%nat /\ at_ d0 false (coming (p :: rest) r') h d)).
Proof.
  apply (look_phase _ d0 Haddr). intros r' h d H1 H2 (o & i & b & -> & Hφ). rewrite IsOUTReceived_dev.
  exists r'. split; [done|]. split; [done|].
  inversion Hφ as [r0 p0 rest0 pid o0 i0 Hr Hp Ho Ht Hi|r0 p0 rest0 pid o0 i0 Hp Ho Ht Hi|]; subst.
  - pose proof Ho as (_ & HS & _). rewrite HS. cbn [TRNCOMPL0]. split; [lia|]. by eexists _, _, _; split; [done|apply coming_free].
  - pose proof Ho as ((Hs & HS & HT & Hpos) & Hb & Hc & Htk). rewrite HT. eexists _, _, _. split; [done|].
    split; [|done]. by apply (coming_full 0 p rest (data_pid (STATUS o))).
Qed.

(** The packets still to come, and what the host has to do. *)
Definition fetching (m : nat) (x : list Z * Z) (h : host) (d : device) : Prop :=
  exists rest r dir, x.1 ++ concat rest = concat ps /\ x.2 = Z.of_nat (length (concat rest)) /\ Forall (fun p => p <> [] /\ (length p <= 8)%nat) rest /\
    (r <= 1)%nat /\ (2 * length rest + r <= m)%nat /\ at_ d0 dir (coming rest r) h d.

Definition fetched (h : host) (d : device) : Prop := exists dir, at_ d0 dir (coming [] 0%nat) h d.

(** A packet is taken out. *)
Lemma take_packet_dev p o i b (len : Z) es h :
  out_full p o -> FIFO_Length o = CNT o -> (length p <= 8)%nat -> Z.of_nat (length p) <= len ->
  exists o', out_free o' /\ data_pid (STATUS o') = data_pid (STATUS o) /\
    (n <- get Endpoint_BytesInEndpoint;; r <- bounded (empty_packet (Z.to_nat n) len);; act Endpoint_ClearOUT;;; ret r)%proc
      es h (dev (control false) o i b d0)
    = Returned (W:=host) (E:=nat) (p, len - Z.of_nat (length p)) es h (dev (control false) o' i b d0).
Proof.
  intros (((H1 & H2 & H3) & HS & HT & Hpos) & Hb & Hc & Htk) Hl Hp Hlen.
  unfold bind, get, bounded, act, ret, Endpoint_BytesInEndpoint. rewrite selected_dev.
  cbn [ep_in USB_Endpoint_SelectedEndpoint dev]. rewrite Hl, Hc, Hpos, Z.sub_0_r, u16_small by (unfold is_u16; lia).
  rewrite Nat2Z.id, empty_packet_dev by (done || rewrite Hpos; cbn; lia).
  rewrite Hpos. change (Z.to_nat 0) with 0%nat. rewrite drop_0, Htk, ClearOUT_dev.
  eexists. split; [|split; [|reflexivity]]; [|done]. split; [done|]. split; [|done]. cbn. unfold clear_flags. cbn. by rewrite HS.
Qed.

Lemma read_round_spec m x :
  spec 3 (fetching m x) (read_round env x)
    (fun res h d => match res with
                    | inl x => exists m', fetching m' x h d /\ (always -> (m' < m)%nat)
                    | inr e => e = (concat ps, None) /\ fetched h d
                    end).
Proof.
  destruct x as [got len]. unfold fetching. apply spec_ex. intros rest. apply spec_ex. intros r. apply spec_ex. intros dir.
  cbn [fst snd]. apply spec_pure. intros Hgot. apply spec_pure. intros ->. apply spec_pure. intros Hne. apply spec_pure. intros Hr.
  apply spec_pure. intros Hm. unfold read_round.
  destruct rest as [|p rest].
  { cbn in Hgot. rewrite app_nil_r in Hgot. subst got. apply spec_ret. intros h d (o & i & b & -> & Hφ). split; [done|].
    exists dir, o, i, b. split; [done|]. inversion Hφ; subst. by apply coming_end. }
  apply Forall_cons in Hne as [[Hp Hp8] Hne]. assert (0 < length p)%nat as Hlp by (destruct p; [done|cbn; lia]).
  assert (length (concat (p :: rest)) = length p + length (concat rest))%nat as Hlen by (cbn [concat]; by rewrite length_app).
  rewrite (proj2 (Z.eqb_neq _ 0)) by lia.
  change 3%nat with (1 + (1 + (1 + 0)))%nat.
  eapply spec_bind; [by apply (look_state d0 Haddr (coming (p :: rest)))|]. intros s. cbn beta. apply spec_pure. intros ->. rewrite Hup.
  apply spec_ex. intros r1. apply spec_pure. intros H1. apply spec_pure. intros H1a.
  eapply spec_bind; [apply (look_no_setup d0 Haddr (coming (p :: rest))), coming_no_setup|]. intros s. cbn beta. apply spec_pure. intros ->.
  apply spec_ex. intros r2. apply spec_pure. intros H2. apply spec_pure. intros H2a.
  eapply spec_bind; [apply look_out_coming|]. intros out. cbn beta.
  apply spec_ex. intros r3. apply spec_pure. intros H3. apply spec_pure. intros H3a. destruct out.
  - apply spec_det. intros es h d (o & i & b & -> & Hφ & Ho & Hl).
    assert (in_free USBPID_DATA1 i /\ h = match rest with [] => HStatusIn | _ => HOut rest (data_pid (STATUS o)) end) as [Hi Hh].
    { inversion Hφ; subst; [lia|done]. }
    destruct (take_packet_dev p o i b (Z.of_nat (length (concat (p :: rest)))) es h Ho Hl Hp8 ltac:(lia)) as (o' & Ho' & Hpid' & E).
    unfold bind in *. destruct (get _ es h _) as [n es1 h1 d1| |] eqn:E1; [|done|done].
    destruct (bounded _ es1 h1 d1) as [res es2 h2 d2| |]; [|done|done]. cbn in E |- *. injection E as -> -> -> Ed. rewrite Ed.
    eexists _, _. split; [reflexivity|]. exists (2 * length rest + 1)%nat. cbn [length] in Hm. split; [|lia].
    exists rest, 1%nat, false. cbn [fst snd]. rewrite <- app_assoc. split; [done|]. split_and!; [rewrite length_app; lia|done|lia|lia|].
    exists o', i, b. split; [done|]. subst h. destruct rest as [|p' rest]; [by apply coming_end|].
    apply Forall_cons in Hne as [[_ Hp'] _]. apply coming_free; [lia|done|done|by rewrite Hpid'|done].
  - apply spec_ret. intros h d [Hr3 Hd]. exists (2 * length (p :: rest) + r3)%nat. split.
    + exists (p :: rest), r3, false. cbn [fst snd]. split_and!; [done|done|by constructor|lia|lia|done].
    + intros Ha. specialize (H1a Ha). specialize (H2a Ha). specialize (H3a Ha). lia.
Qed.

(** The device sees that it may send the status. *)
Lemma status_in_spec :
  spec 2 fetched (status_in_round env tt)
    (fun res h d => res = inr NoError /\ at_ d0 true (coming [] 0%nat) h d).
Proof.
  unfold fetched. apply spec_ex. intros dir. unfold status_in_round. change 2%nat with (1 + 1)%nat.
  eapply spec_bind; [apply (look_phase (coming []) d0 Haddr) with (Q := fun x h d => x = true /\ at_ d0 true (coming [] 0%nat) h d)|].
  - intros r' h d _ _ (o & i & b & -> & Hφ). rewrite IsINReady_dev.
    inversion Hφ as [| |r0 o0 i0 Ho Hi]; subst. pose proof Hi as (_ & Hb & _). rewrite Hb. split; [done|].
    exists o, i, b. split; [done|]. by apply coming_end.
  - intros x. apply spec_pure. intros ->. by apply spec_ret.
Qed.

Lemma Control_R_spec dir :
  usb_packets ps -> Z.of_nat (length (concat ps)) = N ->
  spec (3 * S (2 * length ps + 1) + 2) (at_ d0 dir (coming ps 1%nat)) (Control_R_AVR8 env N)
    (fun r h d => r = (concat ps, NoError) /\ at_ d0 true (coming [] 0%nat) h d).
Proof.
  intros Hps HN. unfold Control_R_AVR8. pose proof (usb_packets_nonempty _ Hps) as Hne.
  rewrite (proj2 (Z.eqb_neq N 0)) by (destruct (concat ps); [done|cbn [length] in HN; lia]).
  eapply (spec_bind _ _ _ 0); [apply (spec_ret _ _ _ 0 tt _ (fun _ h d => fetching (2 * length ps + 1) ([], N) h d))|].
  { intros h d Hd. exists ps, 1%nat, dir. cbn [fst snd app]. split_and!; [done|lia|by apply usb_packets_small|lia|lia|done]. }
  intros u. eapply (spec_bind _ _ _ (3 * S (2 * length ps + 1)) 2);
    [apply (spec_loop _ _ _ _ 3 fetching _ (read_looks _)); intros; apply read_round_spec|].
  intros r. cbn beta. apply spec_pure. intros ->. cbn [fst snd].
  eapply (spec_bind _ _ _ 2 0) with (R := fun e h d => e = NoError /\ at_ d0 true (coming [] 0%nat) h d).
  - eapply spec_weaken; [apply (spec_loop _ _ _ _ 2 (fun _ _ h d => fetched h d) _ (status_in_looks _)) with (k := 0%nat)
                        |done|exact (fun _ _ H => H)|exact (fun _ _ _ H => H)].
    intros m []. eapply spec_weaken; [apply status_in_spec|done|exact (fun _ _ H => H)|].
    by intros res h d [-> Hd].
  - intros e. cbn beta. apply spec_pure. intros ->. by apply spec_ret.
Qed.
End Receiving.
End Transfers.
