(* ===== verification/LufaProofs.v ===== *)
(** * lufa/LUFA/Drivers/USB: requests and their answers on the wire

    What each handler of a control request does to the transfer: answering
    with a stream or with a few bytes, receiving data, acknowledging. *)

From S2P Require Import Prelude UsbWire XmegaUsb UsbStream UsbStreamProofs UsbTransfers LufaDevice.
Open Scope Z_scope.
Open Scope proc_scope.

Section Answers.
Context {A : Type} (addr : Z) (setup : list Z) (ps : list (list Z)) (always : Prop).

Abbreviation device := (device (A:=A)).
Abbreviation rq := (request_of setup).
Abbreviation N := (rq_length rq).
Abbreviation control dir := (mkAddress 0 dir).
Abbreviation attempt := (attempt (S:=device) addr setup ps).
Abbreviation env := (meanwhile (S:=device) addr setup ps).
Abbreviation fair := (fun q : nat => (1 <= q)%nat).
Abbreviation fine := (fun h : host => h <> HFailed).
Abbreviation spec := (spec (A:=A) (W:=host) (E:=nat) fair always fine).
Abbreviation Phase := (Phase (A:=A) addr setup ps).
Abbreviation at_ d0 dir := (at_sel d0 (control dir)).
Abbreviation host_next := (after_setup setup ps).

(** The request is pending, and it is the device's turn; its packet has been read up to a position. *)
Abbreviation accepted d0 dir pos := (at_ d0 dir (pending setup host_next pos 0%nat)).

(** The status is there for the host, or the host has fetched it. *)
Inductive acked : phase :=
  | acked_status r o i : (1 <= r)%nat -> out_free o -> in_armed USBPID_DATA1 [] i -> acked r HStatusIn o i
  | acked_done r pid o i : out_free o -> in_free pid i -> acked r (HDone []) o i.

#[export] Instance acked_phase : Phase acked.
Proof.
  split.
  - by intros r h o i [].
  - intros r r' h o i Hr Hφ. revert Hr. destruct Hφ; intros; [apply acked_status; first [done|lia]|by eapply acked_done].
  - intros d0 s b r h o i Haddr [r0 o0 i0 Hr Ho Hi|r0 pid o0 i0 Ho Hi].
    + pose proof (sent_in_free _ _ _ Hi) as Hfree. destruct Hi as ((Hs & Hp) & Hb & Ht & Hbytes).
      cbn [UsbWire.attempt]. rewrite (ask_sends addr d0 Haddr) by done. rewrite Ht, Hbytes. cbn.
      eexists _, _, _, _. split; [reflexivity|]. by eapply acked_done.
    + cbn [UsbWire.attempt]. eexists _, _, _, _. split; [reflexivity|]. by eapply acked_done.
Qed.

(** The transfer is over, but for the status the host may still have to fetch. *)
Inductive answered (res : list Z) : phase :=
  | answered_done r o i : out_free o -> in_rest i -> answered res r (HDone res) o i
  | answered_acked r h o i : res = [] -> acked r h o i -> answered res r h o i.

#[export] Instance answered_phase res : Phase (answered res).
Proof.
  split.
  - intros r h o i [|r0 h0 o0 i0 _ Ha]; [done|]. by apply (phase_fine addr setup ps r0 h0 o0 i0).
  - intros r r' h o i Hr Hφ. revert Hr. destruct Hφ as [r0 o0 i0 Ho Hi|r0 h0 o0 i0 Hres Ha]; intros Hr; [by apply answered_done|].
    apply answered_acked; [done|]. by apply (phase_mono addr setup ps r0 r' h0 o0 i0).
  - intros d0 s b r h o i Haddr [r0 o0 i0 Ho Hi|r0 h0 o0 i0 Hres Ha].
    + cbn [UsbWire.attempt]. eexists _, _, _, _. split; [reflexivity|]. by apply answered_done.
    + destruct (phase_attempt addr setup ps d0 s b r0 h0 o0 i0 Haddr Ha) as (h' & o' & i' & b' & -> & Ha').
      eexists _, _, _, _. split; [reflexivity|]. by apply answered_acked.
Qed.

Section Requests.
Context (d0 : device) (Haddr : ADDR d0 = addr) (Hup : bus_error (USB_DeviceState d0) = None) (Hrq : USB_ControlRequest d0 = rq).

(** ** The beginning *)

Lemma ClearSETUP_dev dir o i b :
  Endpoint_ClearSETUP (dev (control dir) o i b d0)
  = dev (control true) (set_fifo (FIFO_Data o) 0 (set_status (mkStatus false false false false true) o))
      (set_fifo (FIFO_Data i) 0
        (set_status (mkStatus (SETUP (STATUS i)) (TRNCOMPL0 (STATUS i)) (BUSNACK0 (STATUS i)) (OVF (STATUS i)) true) i)) b d0.
Proof. unfold Endpoint_ClearSETUP. by autorewrite with dev. Qed.

Lemma ClearSETUP_started n dir pos :
  spec n (accepted d0 dir pos) (act Endpoint_ClearSETUP)
    (fun _ => at_ d0 true (fun h o i => h = host_next /\ out_free o /\ TOGGLE (STATUS o) = true /\ in_free USBPID_DATA1 i)).
Proof.
  apply spec_act. intros h d (o & i & b & -> & Hφ). inversion Hφ as [r o0 i0 Hh Ho Hs Hp Hc Ht [Hi Hip] Hb]; subst.
  rewrite ClearSETUP_dev. eexists _, _, _. split; [reflexivity|].
  split; [done|]. split; [done|]. split; [done|]. unfold in_free. cbn. by rewrite Hb.
Qed.

(** A handler that begins so, for each kind of request. *)
Lemma begin_reading {X} n (m : proc X) dir pos Q data :
  receives rq = true -> 0 < N -> spec n (at_ d0 true (free setup data 0 0%nat)) m Q ->
  spec n (accepted d0 dir pos) (act Endpoint_ClearSETUP;;; m) Q.
Proof.
  intros Hr HN Hm. eapply (spec_bind _ _ _ 0 n); [apply ClearSETUP_started|]. intros u.
  eapply spec_weaken; [exact Hm|done| |done]. intros h d (o & i & b & -> & -> & Ho & Ht & Hi).
  exists o, i, b. split; [done|]. unfold after_setup. rewrite Hr, (proj2 (Z.eqb_neq _ _)) by lia.
  apply free_intro; first [done|lia].
Qed.

Lemma begin_receiving {X} n (m : proc X) dir pos Q :
  receives rq = false -> 0 < N -> usb_packets ps -> spec n (at_ d0 true (coming ps 1%nat)) m Q ->
  spec n (accepted d0 dir pos) (act Endpoint_ClearSETUP;;; m) Q.
Proof.
  intros Hr HN Hps Hm. eapply (spec_bind _ _ _ 0 n); [apply ClearSETUP_started|]. intros u.
  eapply spec_weaken; [exact Hm|done| |done]. intros h d (o & i & b & -> & -> & Ho & Ht & Hi).
  exists o, i, b. split; [done|]. unfold after_setup. rewrite Hr, (proj2 (Z.eqb_neq _ _)) by lia.
  pose proof (usb_packets_small _ Hps) as Hs. destruct ps as [|p rest]; [done|].
  apply Forall_cons in Hs as [[_ Hp] _]. apply coming_free; first [done|unfold data_pid; by rewrite Ht].
Qed.

Lemma begin_nothing {X} n (m : proc X) dir pos Q :
  N = 0 -> spec n (at_ d0 true (coming [] 0%nat)) m Q -> spec n (accepted d0 dir pos) (act Endpoint_ClearSETUP;;; m) Q.
Proof.
  intros HN Hm. eapply (spec_bind _ _ _ 0 n); [apply ClearSETUP_started|]. intros u.
  eapply spec_weaken; [exact Hm|done| |done]. intros h d (o & i & b & -> & -> & Ho & Ht & Hi).
  exists o, i, b. split; [done|]. unfold after_setup. rewrite HN. by apply coming_end.
Qed.

(** ** The end *)

(** Data sent as a stream, with either template. *)
Lemma clear_out data n :
  spec n (finished_reading data d0) (act Endpoint_ClearOUT) (fun _ => at_ d0 false (answered data 0%nat)).
Proof.
  apply spec_act. intros h d (o & i & b & -> & -> & (Hs & HS & HT & Hp) & Hi). rewrite ClearOUT_dev.
  eexists _, _, _. split; [reflexivity|]. apply answered_done; [|done].
  split; [done|]. split; [|done]. cbn. unfold clear_flags. cbn. by rewrite HS.
Qed.

Abbreviation stream_bound data := (4 * S (3 * S (length data / 8) + 2) + 9)%nat.

Lemma reply_AVR8 src len data :
  Z.of_nat (length data) <= N -> data = take (length data) src -> Z.of_nat (length data) = Z.min len N ->
  spec (stream_bound data) (at_ d0 true (free setup data 0 0%nat))
    (e <- Control_W_AVR8 env src len;; act Endpoint_ClearOUT) (fun _ => at_ d0 false (answered data 0%nat)).
Proof.
  intros Hd Hsrc Hlen. rewrite <- (Nat.add_0_r (_ + 9)). eapply spec_bind; [by apply Control_W_spec|].
  intros e. apply spec_pure. intros _. apply clear_out.
Qed.

Lemma reply_stream src len data :
  Z.of_nat (length data) <= N -> data = take (length data) src -> Z.of_nat (length data) = Z.min len N ->
  spec (stream_bound data) (at_ d0 true (free setup data 0 0%nat))
    (e <- Endpoint_Write_Control_Stream_LE env src len;; act Endpoint_ClearOUT) (fun _ => at_ d0 false (answered data 0%nat)).
Proof.
  intros Hd Hsrc Hlen. rewrite <- (Nat.add_0_r (_ + 9)). eapply spec_bind.
  - eapply (spec_bind _ _ _ 0); [apply (spec_act _ _ _ _ _ _ (fun _ => at_ d0 true (free setup data 0 0%nat)))|intros u; by apply Control_W_spec].
    intros h d (o & i & b & -> & Hφ). rewrite select_direction_dev. by exists o, i, b.
  - intros e. apply spec_pure. intros _. apply clear_out.
Qed.

(** Data of a few bytes: they are written, then handed over. *)
Definition filled (bs : list Z) (h : host) (o i : endpoint) : Prop :=
  h = HIn [] USBPID_DATA1 /\ 0 < N /\ out_free o /\ TOGGLE (STATUS o) = true /\ sound i /\ BUSNACK0 (STATUS i) = true /\
  data_pid (STATUS i) = USBPID_DATA1 /\ FIFO_Position i = Z.of_nat (length bs) /\ take (length bs) (FIFO_Data i) = bs.

Lemma begin_filling {X} n (m : proc X) dir pos Q :
  receives rq = true -> 0 < N -> spec n (at_ d0 true (filled [])) m Q ->
  spec n (accepted d0 dir pos) (act Endpoint_ClearSETUP;;; m) Q.
Proof.
  intros Hr HN Hm. eapply (spec_bind _ _ _ 0 n); [apply ClearSETUP_started|]. intros u.
  eapply spec_weaken; [exact Hm|done| |done]. intros h d (o & i & b & -> & -> & Ho & Ht & (Hi & Hp) & Hb & Hpid).
  exists o, i, b. split; [done|]. unfold after_setup, filled. rewrite Hr, (proj2 (Z.eqb_neq _ _)) by lia.
  by rewrite take_0.
Qed.

Lemma write_byte_spec bs x :
  (length bs < 8)%nat -> spec 0 (at_ d0 true (filled bs)) (write_byte x) (fun _ => at_ d0 true (filled (bs ++ [x]))).
Proof.
  intros Hl. apply spec_det. intros es h d (o & i & b & -> & -> & HN & Ho & Ht & (H1 & H2 & H3) & Hb & Hpid & Hp & Htk).
  unfold write_byte, bounded, Endpoint_Write_8. rewrite selected_dev, Hp, Nat2Z.id, (proj2 (Nat.ltb_lt _ _)) by lia.
  cbn [mbind option_bind]. rewrite change_dev, u8_small by (unfold is_u8; lia).
  eexists _, _. split; [reflexivity|]. eexists _, _, _. split; [reflexivity|]. unfold filled, sound. cbn.
  rewrite length_app. cbn [length]. split_and!; try done; try (by rewrite length_insert); try lia.
  rewrite Nat.add_1_r, (take_S_r _ _ x) by (apply list_lookup_insert_eq; lia). by rewrite take_insert_ge, Htk by lia.
Qed.

Lemma hand_over bs n :
  (length bs < 8)%nat -> Z.of_nat (length bs) <= N ->
  spec n (at_ d0 true (filled bs)) (act Endpoint_ClearIN) (fun _ h d => exists r dir, (r <= 2)%nat /\ at_ d0 dir (reading setup bs (length bs) false r) h d).
Proof.
  intros Hl HbN. apply spec_act. intros h d (o & i & b & -> & -> & HN & Ho & Ht & (H1 & H2 & H3) & Hb & Hpid & Hp & Htk).
  unfold Endpoint_ClearIN. rewrite change_dev. exists 2%nat, true. split; [done|]. eexists _, _, _. split; [reflexivity|].
  apply (reading_armed setup bs 2 0 (length bs) false); try done; try lia.
  split; [split; [by split_and!|done]|]. split; [done|]. split; [done|]. cbn.
  by rewrite Hp, Nat2Z.id, Htk, drop_0, firstn_all.
Qed.

(** The status of data sent, and the acknowledgement of a request. *)
Lemma status_out bs :
  receives rq = true -> Z.of_nat (length bs) <= N ->
  spec 6 (fun h d => exists r dir, (r <= 2)%nat /\ at_ d0 dir (reading setup bs (length bs) false r) h d)
    (Endpoint_ClearStatusStage env) (fun _ => at_ d0 false (answered bs 0%nat)).
Proof.
  intros Hr HbN. unfold Endpoint_ClearStatusStage. change 6%nat with (0 + (6 + 0))%nat.
  eapply (spec_bind _ _ _ 0 (6 + 0)) with (R := fun x h d => x = rq /\ finishing setup bs d0 2 tt h d).
  { apply spec_get. intros h d (r & dir & Hr2 & o & i & b & -> & Hφ). split; [done|].
    exists (length bs), r, dir. split; [done|]. by exists o, i, b. }
  intros x. apply spec_pure. intros ->. rewrite Hr.
  eapply (spec_bind _ _ _ 6 0) with (R := fun x h d => x = true /\ finished_reading bs d0 h d).
  - unfold until_attached. apply (spec_loop _ _ _ _ 2 (finishing setup bs d0) _ (attached_looks _ _)) with (k := 2%nat).
    intros m []. unfold finishing. apply spec_ex. intros k. apply spec_ex. intros r. apply spec_ex. intros dir.
    apply spec_pure. intros Hrm. unfold attached_round. change 2%nat with (1 + (1 + 0))%nat.
    eapply spec_bind; [by apply look_out_reading|]. intros out. cbn beta.
    apply spec_ex. intros r3. apply spec_pure. intros H3. apply spec_pure. intros H3a. destruct out.
    { apply spec_ret. by intros h d (_ & Hd). }
    eapply spec_weaken with (P := fun h d => r3 <> 0%nat /\ at_ d0 false (reading setup bs k false r3) h d);
      [|done| |exact (fun _ _ _ H => H)].
    2:{ intros h d [Hd Hfree]. split; [|done]. intros E. by destruct (Hfree E). }
    apply spec_pure. intros Hr3. assert (Phase (reading setup bs k false)) by (by apply reading_phase).
    eapply spec_bind; [by apply (look_state addr setup ps always d0 Haddr (reading setup bs k false))|].
    intros s. cbn beta. apply spec_pure. intros ->. apply spec_ex. intros r4. apply spec_pure. intros H4.
    apply spec_pure. intros H4a. rewrite bool_decide_eq_false_2 by (intros E; by rewrite E in Hup).
    apply spec_ret. intros h d Hd. exists r4. split; [by exists k, r4, false|]. intros Ha. specialize (H3a Ha). lia.
  - intros x. apply spec_pure. intros ->. apply clear_out.
Qed.

Lemma acknowledge n :
  spec n (at_ d0 true (coming [] 0%nat)) (act Endpoint_ClearIN) (fun _ => at_ d0 true (acked 1%nat)).
Proof.
  apply spec_act. intros h d (o & i & b & -> & Hφ). inversion Hφ as [| |r0 o0 i0 Ho Hi]; subst.
  rewrite ClearIN_dev by (by destruct Hi as [[_ ?] _]). eexists _, _, _. split; [reflexivity|].
  apply acked_status; [lia|done|]. by apply arm_armed; [|cbn; lia].
Qed.

Lemma status_in dir :
  receives rq = false ->
  spec 2 (at_ d0 dir (coming [] 0%nat)) (Endpoint_ClearStatusStage env) (fun _ => at_ d0 true (acked 1%nat)).
Proof.
  intros Hr. unfold Endpoint_ClearStatusStage. change 2%nat with (0 + (2 + 0))%nat.
  eapply (spec_bind _ _ _ 0 (2 + 0)) with (R := fun x h d => x = rq /\ at_ d0 dir (coming [] 0%nat) h d).
  { apply spec_get. intros h d (o & i & b & -> & Hφ). split; [done|]. by exists o, i, b. }
  intros x. apply spec_pure. intros ->. rewrite Hr.
  eapply (spec_bind _ _ _ 2 0) with (R := fun x h d => x = true /\ at_ d0 true (coming [] 0%nat) h d).
  - unfold until_attached.
    apply (spec_loop _ _ _ _ 2 (fun _ _ => at_ d0 dir (coming [] 0%nat)) _ (attached_looks _ _)) with (k := 0%nat).
    intros m []. unfold attached_round. change 2%nat with (1 + 1)%nat.
    eapply spec_bind; [apply (look_phase addr setup ps always (coming []) d0 Haddr)
                         with (Q := fun x h d => x = true /\ at_ d0 true (coming [] 0%nat) h d)|].
    + intros r' h d _ _ (o & i & b & -> & Hφ). rewrite IsINReady_dev.
      inversion Hφ as [| |r0 o0 i0 Ho Hi]; subst. pose proof Hi as (_ & Hb & _). rewrite Hb. split; [done|].
      exists o, i, b. split; [done|]. by apply coming_end.
    + intros x. apply spec_pure. intros ->. by apply spec_ret.
  - intros x. apply spec_pure. intros ->. apply acknowledge.
Qed.

(** The device may only leave the wait for the host's end of the transfer when that is over. *)
Lemma wait_acked dir :
  spec 2 (at_ d0 dir (acked 1%nat)) (wait_for env Endpoint_IsINReady)
    (fun _ => at_ d0 true (fun h o i => h = HDone [] /\ out_free o /\ in_rest i)).
Proof.
  set (Inv := fun (m : nat) (_ : unit) (h : host) (d : device) => exists r dir, (r <= m)%nat /\ at_ d0 dir (acked r) h d).
  eapply spec_weaken with (n := 2%nat) (P := Inv 1%nat tt); [|done| |exact (fun _ _ _ H => H)].
  2:{ intros h d Hd. by exists 1%nat, dir. }
  unfold wait_for. apply (spec_loop _ _ _ _ 1 Inv _ (wait_looks _ _) ) with (k := 1%nat).
  intros m []. unfold Inv. apply spec_ex. intros r. apply spec_ex. intros dir'. apply spec_pure. intros Hr.
  unfold wait_round. change 1%nat with (1 + 0)%nat.
  eapply spec_bind; [apply (look_phase addr setup ps always acked d0 Haddr)
    with (Q := fun x h d => exists r', (r' <= r)%nat /\ (always -> r' = Nat.pred r) /\
      (if x : bool then at_ d0 true (fun h o i => h = HDone [] /\ out_free o /\ in_rest i) h d
       else r' <> 0%nat /\ at_ d0 true (acked r') h d))|].
  - intros r' h d H1 H2 (o & i & b & -> & Hφ). rewrite IsINReady_dev. exists r'. split; [done|]. split; [done|].
    destruct Hφ as [r0 o0 i0 Hr0 Ho (Hi & Hb & Ht & Hbs)|r0 pid o0 i0 Ho (Hi & Hb & Ht)]; rewrite Hb.
    + split; [lia|]. eexists _, _, _. split; [done|]. by apply acked_status.
    + eexists _, _, _. by split.
  - intros x. apply spec_ex. intros r1. apply spec_pure. intros H1. apply spec_pure. intros H1a. destruct x.
    + by apply spec_ret.
    + apply spec_ret. intros h d [Hr1 Hd]. exists r1. split; [by exists r1, true|]. intros Ha. specialize (H1a Ha). lia.
Qed.

End Requests.

(** ** After the handler *)

(** No endpoint but the control endpoint takes a SETUP packet. *)
Definition quiet (s : ep_address) (d : device) : Prop :=
  match ep_number s with O => True | S n => SETUP (STATUS (tail (endpoints d) !!! n).1) = false end.

Lemma IsSETUPReceived_free s o i b d :
  quiet s d -> out_free o ->
  Endpoint_IsSETUPReceived (dev s o i b d) = (false, dev (mkAddress (ep_number s) false) o i b d).
Proof.
  destruct s as [[|n] dir]; intros Hq Ho.
  - rewrite IsSETUPReceived_dev. by destruct Ho as (_ & -> & _).
  - unfold Endpoint_IsSETUPReceived, select_direction, Endpoint_SelectEndpoint, selected, get_endpoint.
    unfold quiet in Hq. cbn [ep_number] in Hq. cbn [endpoints set_selected dev ep_number ep_in USB_Endpoint_SelectedEndpoint].
    change (((o, i) :: tail (endpoints d)) !!! S n) with (tail (endpoints d) !!! n).
    destruct (tail (endpoints d) !!! n) as [o' i']. cbn in Hq. by rewrite Hq.
Qed.

Lemma attempts_done q got d : attempts addr setup ps q (HDone got, d) = (HDone got, d : device).
Proof. induction q as [|q IH]; [done|]. exact IH. Qed.

(** The transfer is over and the rest of the device is [d1], which may have got another address once the host is done. *)
Definition over (res : list Z) (d1 : device) (r : nat) (h : host) (d : device) : Prop :=
  exists s, quiet s d1 /\ at_sel d1 s (answered res r) h d /\ (ADDR d1 = addr \/ h = HDone res).

Lemma over_fine res d1 r h d : over res d1 r h d -> h <> HFailed.
Proof. intros (s & _ & (o & i & b & _ & Ha) & _). by eapply (phase_fine addr setup ps). Qed.

Lemma answered_kept (d1 : device) s res r r' d : at_sel d1 s (answered res r) (HDone res) d -> at_sel d1 s (answered res r') (HDone res) d.
Proof.
  intros (o & i & b & E & Hφ). exists o, i, b. split; [done|].
  inversion Hφ as [r0 o0 i0 Ho Hi|r0 h0 o0 i0 -> Hφ']; subst; [by apply answered_done|].
  inversion Hφ'; subst. apply answered_acked; [done|]. by eapply acked_done.
Qed.

Lemma look_over {X} (f : device -> X * device) res d1 r (Q : X -> host -> device -> Prop) :
  (forall r' h d, (r' <= r)%nat -> (always -> r' = Nat.pred r) -> over res d1 r' h d -> let '(x, d') := f d in Q x h d') ->
  spec 1 (over res d1 r) (look env f) Q.
Proof.
  intros Hf. eapply (spec_look env) with
    (R := fun h d => exists r', (r' <= r)%nat /\ (always -> r' = Nat.pred r) /\ over res d1 r' h d).
  - intros h d. apply over_fine.
  - intros q h d Hov Hfair. unfold meanwhile.
    assert (Hgo : exists r', (r' <= r)%nat /\ (always -> r' = Nat.pred r) /\ over res d1 r' (attempts addr setup ps q (h, d)).1 (attempts addr setup ps q (h, d)).2).
    { destruct (Nat.eq_dec q 0) as [->|Hne]; [exists r; split; [done|]; split; [|done]; intros Hal; specialize (Hfair Hal); lia|].
      exists (Nat.pred r). split; [lia|]. split; [done|]. destruct Hov as (s & Hq & Hd & [Haddr| ->]).
      - pose proof (phase_attempts addr setup ps (answered res) d1 Haddr q r s h d Hd) as H1.
        destruct (attempts _ _ _ q (h, d)) as [h' d']. destruct H1 as (o & i & b & E & Hφ).
        exists s. split; [done|]. split; [|by left]. exists o, i, b. split; [done|]. eapply (phase_mono addr setup ps); [|exact Hφ]. lia.
      - rewrite attempts_done. exists s. split; [done|]. split; [|by right]. by eapply answered_kept. }
    by destruct (attempts _ _ _ q (h, d)) as [h' d'].
  - intros h d (r' & H1 & H2 & H3). by eapply Hf.
Qed.

Lemma look_setup_over res d1 r :
  spec 1 (over res d1 r) (look env Endpoint_IsSETUPReceived)
    (fun x h d => x = false /\ exists r', (r' <= r)%nat /\ (always -> r' = Nat.pred r) /\ over res d1 r' h d).
Proof.
  apply look_over. intros r' h d H1 H2 (s & Hq & (o & i & b & -> & Hφ) & Ha).
  rewrite IsSETUPReceived_free; [|done|by inversion Hφ as [|? ? ? ? _ []]; subst].
  split; [done|]. exists r'. split; [done|]. split; [done|]. eexists. split; [|split; [by exists o, i, b|done]]. done.
Qed.
End Answers.
