(* ===== verification/LufaRequests.v ===== *)
(** * lufa/LUFA/Drivers/USB: every request from SETUP to its end

    The functions that handle a request, between the packets of the host: the
    standard requests of DeviceStandardReq.c with the answers they
    stand for, and the task that finds a request and gives it to the
    firmware first. *)

From S2P Require Import Prelude UsbWire XmegaUsb UsbStream UsbStreamProofs UsbTransfers LufaDevice LufaProofs.
Open Scope Z_scope.
Open Scope proc_scope.

Section Requests.
Context {A : Type} (addr : Z) (setup : list Z) (ps : list (list Z)) (always : Prop).

Abbreviation device := (device (A:=A)).
Abbreviation rq := (request_of setup).
Abbreviation N := (rq_length rq).
Abbreviation control dir := (mkAddress 0 dir).
Abbreviation env := (meanwhile (S:=device) addr setup ps).
Abbreviation fair := (fun q : nat => (1 <= q)%nat).
Abbreviation fine := (fun h : host => h <> HFailed).
Abbreviation spec := (spec (A:=A) (W:=host) (E:=nat) fair always fine).
Abbreviation Phase := (Phase (A:=A) addr setup ps).
Abbreviation at_ d0 dir := (at_sel d0 (control dir)).
Abbreviation accepted d0 dir pos := (at_ d0 dir (pending setup (after_setup setup ps) pos 0%nat)).
Abbreviation over := (over (A:=A) addr).

(** ** Changes of the rest of the device *)

Class Rest (f : device -> device) := rest s o i b d : f (dev s o i b d) = dev s o i b (f d).
#[export] Instance rest_request x : Rest (set_request x). Proof. by intros. Qed.
#[export] Instance rest_wakeup x : Rest (set_wakeup x). Proof. by intros. Qed.
#[export] Instance rest_addr x : Rest (set_addr x). Proof. by intros. Qed.
#[export] Instance rest_configuration conf : Rest (fun d => set_state (USB_DeviceState d) conf d). Proof. by intros. Qed.
#[export] Instance rest_app f : Rest (fun d => set_dev_app (f (dev_app d)) d). Proof. by intros. Qed.

Lemma change_rest f `{Hf : !Rest f} n d0 s φ : spec n (at_sel d0 s φ) (act f) (fun _ => at_sel (f d0) s φ).
Proof. apply spec_act. intros h d (o & i & b & -> & Hφ). exists o, i, b. by rewrite Hf. Qed.

(** Steps that do not look come before the rest of a handler. *)
Lemma after_act {X} f `{Hf : !Rest f} n d0 s φ (m : proc X) Q :
  spec n (at_sel (f d0) s φ) m Q -> spec n (at_sel d0 s φ) (act f;;; m) Q.
Proof. intros Hm. eapply (spec_bind _ _ _ 0 n); [by apply change_rest|]. by intros. Qed.

Lemma after_get {X Y} (f : device -> Y) y n d0 s φ (m : Y -> proc X) Q :
  (forall o i b, f (dev s o i b d0) = y) -> spec n (at_sel d0 s φ) (m y) Q -> spec n (at_sel d0 s φ) (x <- get f;; m x) Q.
Proof.
  intros Hy Hm. eapply (spec_bind _ _ _ 0 n) with (R := fun x h d => x = y /\ at_sel d0 s φ h d).
  - apply spec_get. intros h d (o & i & b & -> & Hφ). split; [done|]. by exists o, i, b.
  - intros x. apply spec_pure. by intros ->.
Qed.

Lemma over_control res d1 dir r h d : ADDR d1 = addr -> at_ d1 dir (answered res r) h d -> over res d1 r h d.
Proof. intros Ha Hd. exists (control dir). split; [done|]. split; [done|by left]. Qed.

Lemma over_mono res d1 r r' h d : (r <= r')%nat -> over res d1 r h d -> over res d1 r' h d.
Proof.
  intros Hr (s & Hq & (o & i & b & -> & Hφ) & Ha). exists s. split; [done|]. split; [|done].
  exists o, i, b. split; [done|]. by apply (phase_mono (A:=A) addr setup ps r r').
Qed.

Lemma over_acked d1 dir r h d : ADDR d1 = addr -> at_ d1 dir (acked r) h d -> over [] d1 r h d.
Proof.
  intros Ha (o & i & b & -> & Hφ). eapply over_control; [done|]. exists o, i, b. split; [done|]. by apply answered_acked.
Qed.

(** ** The handlers *)

Section Handlers.
Context (d0 : device) (Haddr : ADDR d0 = addr) (Hup : bus_error (USB_DeviceState d0) = None) (Hrq : USB_ControlRequest d0 = rq).

(** Bounds on the looks of a handler, generous ones. *)
Definition bound (bytes : nat) : nat := 12 * bytes + 40.

(** A stream, cut to the length the host has asked for. *)
Lemma answer_stream src len dir pos :
  receives rq = true -> 0 < N -> 0 <= len <= Z.of_nat (length src) ->
  spec (bound (Z.to_nat N)) (accepted d0 dir pos)
    (act Endpoint_ClearSETUP;;;
     _ <- Endpoint_Write_Control_Stream_LE env src len;; act Endpoint_ClearOUT)
    (fun _ => over (take (Z.to_nat (Z.min len N)) src) d0 0).
Proof.
  intros Hr HN Hlen. set (res := take _ src).
  assert (length res = Z.to_nat (Z.min len N)) as Hl by (subst res; rewrite length_take; lia).
  assert (length res / 8 <= Z.to_nat N)%nat as Hdiv by (apply Nat.Div0.div_le_upper_bound; lia).
  eapply spec_weaken.
  - apply (begin_reading setup ps always d0 Hrq _ _ dir pos _ res Hr HN).
    apply (reply_stream addr setup ps always d0 Haddr Hup Hrq); [lia|by rewrite Hl|lia].
  - unfold bound. lia.
  - done.
  - intros u h d Hd. by apply over_control with (dir := false).
Qed.

(** A few bytes, and the wait for the host's status. *)
Lemma answer_filled bs :
  receives rq = true -> (length bs < 8)%nat -> Z.of_nat (length bs) <= N ->
  spec 6 (at_ d0 true (filled setup bs)) (act Endpoint_ClearIN;;; Endpoint_ClearStatusStage env) (fun _ => over bs d0 0).
Proof.
  intros Hr Hl HN. change 6%nat with (0 + 6)%nat. eapply spec_bind; [by apply (hand_over setup always d0)|].
  intros u. eapply spec_weaken; [by apply (status_out addr setup ps always d0 Haddr Hup Hrq)|done|done|].
  intros u' h d Hd. by apply over_control with (dir := false).
Qed.

Lemma after_byte {X} n bs x (m : proc X) Q :
  (length bs < 8)%nat -> spec n (at_ d0 true (filled setup (bs ++ [x]))) m Q ->
  spec n (at_ d0 true (filled setup bs)) (write_byte x;;; m) Q.
Proof. intros Hl Hm. eapply (spec_bind _ _ _ 0 n); [by apply write_byte_spec|]. by intros. Qed.

Lemma write_16_spec v :
  spec 0 (at_ d0 true (filled setup [])) (write_16_LE v) (fun _ => at_ d0 true (filled setup [u8 v; u8 (v / 256)])).
Proof. unfold write_16_LE. apply after_byte; [cbn; lia|]. apply (write_byte_spec setup always d0 [_]). cbn. lia. Qed.

(** Data of the host, and the acknowledgement. *)
Lemma receive_stream {X} n (m : list Z * stream_error -> proc X) dir pos Q :
  receives rq = false -> usb_packets ps -> Z.of_nat (length (concat ps)) = N ->
  spec n (at_ d0 true (coming [] 0%nat)) (m (concat ps, NoError)) Q ->
  spec (6 * length ps + 8 + n) (accepted d0 dir pos)
    (act Endpoint_ClearSETUP;;; received <- Control_R_AVR8 env N;; m received) Q.
Proof.
  intros Hr Hps HN Hm. pose proof (usb_packets_nonempty _ Hps) as Hne.
  apply (begin_receiving setup ps always d0 Hrq); [done|destruct (concat ps); [done|cbn [length] in HN; lia]|done|].
  eapply spec_bind; [eapply spec_weaken; [by apply (Control_R_spec addr setup ps always d0)|lia|done|exact (fun _ _ _ H => H)]|].
  intros r. cbn beta. apply spec_pure. by intros ->.
Qed.

Lemma receive_XMEGA {X} n (m : list Z * stream_error -> proc X) dir pos Q :
  receives rq = false -> usb_packets ps -> Z.of_nat (length (concat ps)) = N ->
  spec n (at_ d0 true (coming [] 0%nat)) (m (concat ps, NoError)) Q ->
  spec (6 * length ps + 8 + n) (accepted d0 dir pos)
    (act Endpoint_ClearSETUP;;; received <- Endpoint_Read_Control_Stream_LE env N;; m received) Q.
Proof.
  intros Hr Hps HN Hm. pose proof (usb_packets_nonempty _ Hps) as Hne.
  apply (begin_receiving setup ps always d0 Hrq); [done|destruct (concat ps); [done|cbn [length] in HN; lia]|done|].
  eapply (spec_bind _ _ _ (6 * length ps + 8) n).
  - eapply (spec_bind _ _ _ 0 (6 * length ps + 8)) with (R := fun _ => at_ d0 false (coming ps 1%nat)).
    + apply spec_act. intros h d (o & i & b & -> & Hφ). by exists o, i, b.
    + intros u. eapply spec_weaken; [by apply (Control_R_spec addr setup ps always d0)| |done|exact (fun _ _ _ H => H)]. lia.
  - intros r. cbn beta. apply spec_pure. by intros ->.
Qed.

Lemma acknowledge_over n : spec n (at_ d0 true (coming [] 0%nat)) (act Endpoint_ClearIN) (fun _ => over [] d0 1).
Proof.
  eapply spec_weaken; [eapply (acknowledge always d0)|done|done|]. intros u h d Hd. by apply over_acked with (dir := true).
Qed.

(** No data: the acknowledgement, at any time. *)
Lemma answer_nothing {X} n (m : proc X) dir pos Q :
  N = 0 -> spec n (at_ d0 true (coming [] 0%nat)) m Q -> spec n (accepted d0 dir pos) (act Endpoint_ClearSETUP;;; m) Q.
Proof. intros HN Hm. by apply (begin_nothing setup ps always d0 Hrq). Qed.
End Handlers.

(** A request with an answer has the length for it, and one with data the data. *)
Definition conforms (res : list Z) : Prop :=
  if receives rq then 0 < N /\ Z.of_nat (length res) <= N
  else N = 0 \/ (usb_packets ps /\ Z.of_nat (length (concat ps)) = N).

(** ** The standard requests *)

Section Standard.
Context {L : LufaEvents A host nat}.

(** No endpoint but the control endpoint has a SETUP packet. *)
Definition interrupt_quiet (d : device) : Prop := forall n, SETUP (STATUS (tail (endpoints d) !!! n).1) = false.

Lemma quiet_any d s : interrupt_quiet d -> quiet s d.
Proof. intros Hd. unfold quiet. destruct (ep_number s) as [|n]; [done|apply Hd]. Qed.

(** The code of the firmware keeps to its own endpoints. *)
Class Configures := {
  configured_endpoint : ep_address;
  configures s o i b d :
    EVENT_USB_Device_ConfigurationChanged (dev s o i b d)
    = dev configured_endpoint o i b (EVENT_USB_Device_ConfigurationChanged d);
  configured_addr d : ADDR (EVENT_USB_Device_ConfigurationChanged d) = ADDR d;
  configured_quiet d : interrupt_quiet d -> interrupt_quiet (EVENT_USB_Device_ConfigurationChanged d)
}.

(** What a standard request to the device stands for: the answer, and what the request changes; the value 0 for
    the configuration leaves a device that has an address in the state [Configured], as the code does (the USB
    standard says Addressed). Requests to an endpoint are left out. *)
Definition serial_descriptor : list Z :=
  [u8 (2 + 2 * Z.of_nat (length internal_serial)); 3] ++ concat (map (fun c => [c; 0]) internal_serial).

Definition descriptor_for (value index : Z) : option (list Z) :=
  if value =? 3 * 256 + USE_INTERNAL_SERIAL then Some serial_descriptor else CALLBACK_USB_GetDescriptor value index.

Definition standard_answer (r : vusb_request) (d : device) : option (list Z * device) :=
  let asks t x := (rq_type r =? t) && (rq_request r =? x) in
  if asks 0x80 6 || asks 0x81 6 then
    bytes ← descriptor_for (rq_value r) (rq_index r); Some (take (Z.to_nat (rq_length r)) bytes, d)
  else if asks 0x80 8 then Some ([USB_Device_ConfigurationNumber d], d)
  else if asks 0x80 0 then
    Some ([Z.b2z (USB_Device_CurrentlySelfPowered d) + 2 * Z.b2z (USB_Device_RemoteWakeupEnabled d); 0], d)
  else if negb (rq_length r =? 0) then None
  else if asks 0 5 then
    let a := Z.land (rq_value r) 0x7f in
    Some ([], set_addr a (set_state (if a =? 0 then Default else Addressed) (USB_Device_ConfigurationNumber d) d))
  else if asks 0 9 then
    let conf := u8 (rq_value r) in
    if conf >? FIXED_NUM_CONFIGURATIONS then None
    else
      let s := if (conf =? 0) && negb (USB_Device_IsAddressSet d) then Powered else Configured in
      Some ([], EVENT_USB_Device_ConfigurationChanged (set_state s conf d))
  else if (asks 0 1 || asks 0 3) && (u8 (rq_value r) =? FEATURE_SEL_DeviceRemoteWakeup)
  then Some ([], set_wakeup (rq_request r =? 3) d)
  else None.

Section Answer.
Context (d0 : device) (Haddr : ADDR d0 = addr) (Hup : bus_error (USB_DeviceState d0) = None) (Hrq : USB_ControlRequest d0 = rq).

Lemma get_descriptor_spec bytes dir pos :
  receives rq = true -> 0 < N -> descriptor_for (rq_value rq) (rq_index rq) = Some bytes ->
  spec (bound (Z.to_nat N)) (accepted d0 dir pos) (USB_Device_GetDescriptor env rq) (fun _ => over (take (Z.to_nat N) bytes) d0 0).
Proof.
  intros Hr HN Hd. unfold USB_Device_GetDescriptor, descriptor_for in *.
  assert (Hgo : spec (bound (Z.to_nat N)) (accepted d0 dir pos)
    (act Endpoint_ClearSETUP;;; _ <- Endpoint_Write_Control_Stream_LE env bytes (Z.of_nat (length bytes));; act Endpoint_ClearOUT)
    (fun _ => over (take (Z.to_nat N) bytes) d0 0)).
  { eapply spec_weaken; [apply (answer_stream d0 Haddr Hup Hrq); [done..|lia]|done|done|].
    intros u h d. replace (take (Z.to_nat (Z.min (Z.of_nat (length bytes)) N)) bytes) with (take (Z.to_nat N) bytes); [done|].
    destruct (decide (N <= Z.of_nat (length bytes))); [by rewrite Z.min_r by lia|].
    rewrite Z.min_l by lia. by rewrite !take_ge by lia. }
  destruct (rq_value rq =? _); [|by rewrite Hd]. by injection Hd as <-.
Qed.

Lemma get_configuration_spec dir pos :
  receives rq = true -> 0 < N ->
  spec 6 (accepted d0 dir pos) (USB_Device_GetConfiguration env) (fun _ => over [USB_Device_ConfigurationNumber d0] d0 0).
Proof.
  intros Hr HN. unfold USB_Device_GetConfiguration. apply (begin_filling setup ps always d0 Hrq); [done|done|].
  apply after_get with (y := USB_Device_ConfigurationNumber d0); [done|]. apply after_byte; [cbn; lia|].
  apply (answer_filled d0 Haddr Hup Hrq); [done|cbn [length app]; lia..].
Qed.

Lemma get_status_spec dir pos :
  receives rq = true -> 2 <= N -> rq_type rq = 0x80 ->
  spec 6 (accepted d0 dir pos) (USB_Device_GetStatus env rq)
    (fun _ => over [Z.b2z (USB_Device_CurrentlySelfPowered d0) + 2 * Z.b2z (USB_Device_RemoteWakeupEnabled d0); 0] d0 0).
Proof.
  intros Hr HN Ht. unfold USB_Device_GetStatus. rewrite Ht. cbn [Z.eqb Pos.eqb].
  set (v := Z.b2z _ + _). apply after_get with (y := v); [done|]. apply (begin_filling setup ps always d0 Hrq); [done|lia|].
  assert (0 <= v < 4) as Hv by (unfold v; destruct (USB_Device_CurrentlySelfPowered d0), (USB_Device_RemoteWakeupEnabled d0); cbn; lia).
  change 6%nat with (0 + 6)%nat. eapply spec_bind; [by apply write_16_spec|]. intros u. cbn beta.
  replace (u8 v) with v by (symmetry; apply u8_small; unfold is_u8; lia).
  rewrite (Z.div_small v 256) by lia. apply (answer_filled d0 Haddr Hup Hrq); [done|cbn [length app]; lia..].
Qed.

Lemma set_address_spec dir pos :
  N = 0 -> receives rq = false ->
  let a := Z.land (rq_value rq) 0x7f in
  spec 4 (accepted d0 dir pos) (USB_Device_SetAddress env rq)
    (fun _ => over [] (set_addr a (set_state (if a =? 0 then Default else Addressed) (USB_Device_ConfigurationNumber d0) d0)) 0).
Proof.
  intros HN Hr a. unfold USB_Device_SetAddress. fold a. apply after_act; [done|]. apply (answer_nothing d0 Hrq); [done|].
  change 4%nat with (2 + (2 + 0))%nat. eapply spec_bind; [by apply (status_in addr setup ps always d0 Haddr)|]. intros u.
  eapply spec_bind; [by apply (wait_acked addr setup ps always d0 Haddr)|]. intros u'. apply spec_act.
  intros h d (o & i & b & -> & -> & Ho & Hi). exists (control true). split; [done|]. split; [|by right].
  exists o, i, b. split; [by destruct (a =? 0)|]. by apply answered_done.
Qed.

Lemma set_configuration_spec `{!Configures} dir pos :
  N = 0 -> receives rq = false -> u8 (rq_value rq) <= 1 -> interrupt_quiet d0 ->
  let conf := u8 (rq_value rq) in
  let s := if (conf =? 0) && negb (USB_Device_IsAddressSet d0) then Powered else Configured in
  spec 2 (accepted d0 dir pos) (USB_Device_SetConfiguration env rq)
    (fun _ => over [] (EVENT_USB_Device_ConfigurationChanged (set_state s conf d0)) 1).
Proof.
  intros HN Hr Hc Hq conf s. unfold USB_Device_SetConfiguration. fold conf. rewrite Z.gtb_ltb, (proj2 (Z.ltb_ge _ _)) by lia.
  apply (answer_nothing d0 Hrq); [done|].
  apply after_act; [apply rest_configuration|]. cbn beta.
  set (d1 := set_state _ _ d0). change 2%nat with (2 + 0)%nat.
  eapply spec_bind; [by apply (status_in addr setup ps always d1)|]. intros u.
  eapply (spec_bind _ _ _ 0 0) with (R := fun _ => at_ (set_state s conf d0) true (acked 1%nat)).
  - apply spec_act. intros h d (o & i & b & -> & Hφ). exists o, i, b. split; [|done].
    unfold s, d1. change (USB_Device_IsAddressSet (dev _ o i b _)) with (USB_Device_IsAddressSet d0). cbn.
    by destruct (conf =? 0), (USB_Device_IsAddressSet d0).
  - intros u'. apply spec_act. intros h d (o & i & b & -> & Hφ). rewrite configures.
    exists configured_endpoint. split; [by apply quiet_any, configured_quiet|]. split; [|left; by rewrite configured_addr].
    exists o, i, b. split; [done|]. by apply answered_acked.
Qed.

Lemma set_feature_spec dir pos :
  N = 0 -> receives rq = false -> rq_type rq = 0 -> u8 (rq_value rq) = FEATURE_SEL_DeviceRemoteWakeup ->
  spec 2 (accepted d0 dir pos) (USB_Device_ClearSetFeature env rq) (fun _ => over [] (set_wakeup (rq_request rq =? 3) d0) 1).
Proof.
  intros HN Hr Ht Hv. unfold USB_Device_ClearSetFeature. rewrite Ht, Hv.
  change (Z.land 0 _ =? 0) with true. change (1 =? 1) with true. cbv iota. apply after_act; [apply _|].
  set (d1 := set_wakeup _ d0).
  eapply (spec_bind _ _ _ 0 2) with (R := fun _ => accepted d1 false pos).
  { apply spec_act. intros h d (o & i & b & -> & Hφ). by exists o, i, b. }
  intros u. apply (answer_nothing d1); [done|done|]. eapply spec_weaken; [by apply (status_in addr setup ps always d1)|done|done|].
  intros u' h d Hd. by apply over_acked with (dir := true).
Qed.

Lemma standard_request_spec `{!Configures} dir pos res d1 :
  standard_answer rq d0 = Some (res, d1) -> conforms res -> interrupt_quiet d0 ->
  spec (bound (Z.to_nat N)) (accepted d0 dir pos) (standard_request env rq) (fun _ => over res d1 1).
Proof.
  intros Hans Hwf Hq. unfold standard_answer, standard_request, conforms in *.
  assert (Hgo : forall n (m : proc unit) res' d' r, (r <= 1)%nat -> (n <= bound (Z.to_nat N))%nat -> Some (res', d') = Some (res, d1) ->
    spec n (accepted d0 dir pos) m (fun _ => over res' d' r) -> spec (bound (Z.to_nat N)) (accepted d0 dir pos) m (fun _ => over res d1 1)).
  { intros n m res' d' r Hr1 Hn E Hm. injection E as -> ->.
    eapply spec_weaken; [exact Hm|done|done|]. intros u h d. by apply over_mono. }
  assert (Hb : (6 <= bound (Z.to_nat N))%nat) by (unfold bound; lia).
  assert (Hdata : rq_type rq = 0x80 \/ rq_type rq = 0x81 -> receives rq = true) by (unfold receives; by intros [->| ->]).
  assert (Hno : rq_type rq = 0 -> receives rq = false) by (unfold receives; by intros ->).
  assert (Hr : rq_request rq ∈ [6; 8; 0; 5; 9; 1; 3]).
  { repeat match type of Hans with context [rq_request rq =? ?x] =>
      destruct (Z.eqb_spec (rq_request rq) x) as [->|]; [by repeat constructor|] end.
    rewrite !andb_false_r in Hans. by destruct (rq_length rq =? 0). }
  repeat (apply elem_of_cons in Hr as [E|Hr]; [rewrite E in *; cbn [Z.eqb Pos.eqb andb orb] in *; rewrite ?andb_true_r, ?andb_false_r in Hans;
    cbn [orb andb] in Hans|]); [..|by apply not_elem_of_nil in Hr].
  - destruct (_ || _) eqn:T in Hans; [|by destruct (rq_length rq =? 0)]. rewrite T.
    rewrite Hdata in Hwf by lia. destruct (descriptor_for _ _) as [bytes|] eqn:Hd; [|done].
    eapply Hgo; [| | |apply get_descriptor_spec]; first [eassumption|apply Hwf|apply Hdata; lia|exact Hans|lia].
  - destruct (_ =? _) eqn:T in Hans; [|by destruct (rq_length rq =? 0)]. rewrite T. apply Z.eqb_eq in T.
    rewrite Hdata in Hwf by lia. eapply Hgo; [| | |apply get_configuration_spec]; first [eassumption|apply Hwf|apply Hdata; lia|exact Hans|lia].
  - destruct (_ =? _) eqn:T in Hans; [|by destruct (rq_length rq =? 0)]. rewrite T. cbn [orb]. apply Z.eqb_eq in T.
    rewrite Hdata in Hwf by lia. assert (2 <= N) by (destruct Hwf as [_ Hwf]; injection Hans as <- <-; cbn [length] in Hwf; lia).
    eapply Hgo; [| | |apply get_status_spec]; first [eassumption|apply Hdata; lia|exact Hans|lia].
  - destruct (rq_length rq =? 0) eqn:HN in Hans; [|done]. apply Z.eqb_eq in HN. cbn [negb] in Hans.
    destruct (_ =? _) eqn:T in Hans; [|done]. rewrite T. apply Z.eqb_eq in T.
    eapply Hgo; [| | |apply set_address_spec]; first [eassumption|apply Hno; lia|exact Hans|lia].
  - destruct (rq_length rq =? 0) eqn:HN in Hans; [|done]. apply Z.eqb_eq in HN. cbn [negb] in Hans.
    destruct (_ =? _) eqn:T in Hans; [|done]. rewrite T. apply Z.eqb_eq in T. destruct (_ >? _) eqn:Hc in Hans; [done|]. rewrite Z.gtb_ltb in Hc. apply Z.ltb_ge in Hc.
    eapply Hgo; [| | |apply set_configuration_spec]; first [eassumption|apply Hno; lia|exact Hans|lia].
  - destruct (rq_length rq =? 0) eqn:HN in Hans; [|done]. apply Z.eqb_eq in HN. cbn [negb] in Hans.
    destruct (_ && _) eqn:T in Hans; [|done]. apply andb_true_iff in T as [T V]. rewrite orb_false_r in T. rewrite T. cbn [orb].
    apply Z.eqb_eq in T, V.
    eapply Hgo; [| | |apply set_feature_spec]; rewrite ?E; first [eassumption|apply Hno; lia|exact Hans|lia].
  - destruct (rq_length rq =? 0) eqn:HN in Hans; [|done]. apply Z.eqb_eq in HN. cbn [negb] in Hans.
    destruct (_ && _) eqn:T in Hans; [|done]. apply andb_true_iff in T as [T V]. rewrite T. cbn [orb].
    apply Z.eqb_eq in T, V.
    eapply Hgo; [| | |apply set_feature_spec]; rewrite ?E; first [eassumption|apply Hno; lia|exact Hans|lia].
Qed.


(** The rest of the device stays fit for requests. *)
Lemma standard_answer_quiet `{!Configures} res d1 :
  standard_answer rq d0 = Some (res, d1) -> interrupt_quiet d0 -> interrupt_quiet d1.
Proof.
  unfold standard_answer. intros Hans Hq.
  destruct (_ || _); [by destruct (descriptor_for _ _); [injection Hans as _ <-|]|].
  repeat case_match; simplify_eq; try done; by apply configured_quiet.
Qed.
End Answer.

(** ** The task *)

(** The packet of the request is read. *)
Lemma read_header_packet n len (d : device) :
  Z.of_nat n <= len -> read_header n d = r ← empty_packet n len d; Some (r.1.1, r.2).
Proof.
  revert len d. induction n as [|n IH]; intros len d Hl; [done|]. cbn [read_header empty_packet].
  rewrite (proj2 (Z.eqb_neq len 0)) by lia. destruct (Endpoint_Read_8 d) as [[b d1]|]; [|done]. cbn [mbind option_bind].
  rewrite (IH (len - 1)) by lia. by destruct (empty_packet n (len - 1) d1) as [[[bs l] d2]|].
Qed.

Lemma read_header_spec d0 :
  length setup = 8%nat ->
  spec 0 (accepted d0 false 0) (bounded (read_header 8)) (fun x h d => x = setup /\ accepted d0 false 8 h d).
Proof.
  intros Hs. apply spec_det. intros es h d (o & i & b & -> & Hφ).
  inversion Hφ as [r o0 i0 Hh Ho Hst Hp Hc Ht Hi Hb]; subst o0 i0. pose proof Ho as (H1 & H2 & H3).
  unfold bounded. rewrite (read_header_packet 8 8), empty_packet_dev by (done || rewrite Hp; cbn; lia).
  cbn [mbind option_bind fst snd]. rewrite Hp. change (Z.to_nat 0) with 0%nat. rewrite drop_0, Ht.
  eexists _, _. split; [reflexivity|]. split; [done|]. eexists _, _, _. split; [reflexivity|]. by constructor.
Qed.

(** The request is still there. *)
Lemma look_pending d0 dir pos :
  ADDR d0 = addr ->
  spec 1 (accepted d0 dir pos) (look env Endpoint_IsSETUPReceived) (fun x h d => x = true /\ accepted d0 false pos h d).
Proof.
  intros Haddr. apply (look_phase addr setup ps always (pending setup (after_setup setup ps) pos) d0 Haddr).
  intros r' h d Hr' _ (o & i & b & -> & Hφ). rewrite IsSETUPReceived_dev.
  inversion Hφ as [r o0 i0 Hh Ho Hst Hp Hc Ht Hi Hb]; subst o0 i0. rewrite Hst. split; [done|].
  eexists _, _, _. split; [reflexivity|]. by constructor.
Qed.

(** A request is over, with the status perhaps still to be fetched if the host is slow. *)
Definition finished (res : list Z) (d1 : device) (h : host) (d : device) : Prop :=
  exists r, (always -> r = 0%nat) /\ over res d1 r h d.

Section Process.
Context (d0 : device) (Haddr : ADDR d0 = addr) (Hup : bus_error (USB_DeviceState d0) = None) (Hlen : length setup = 8%nat).
Abbreviation d1 := (set_request rq d0).

(** The firmware has handled the request, or has left it to the library. *)
Lemma process_spec n (φ : bool) res d2 :
  spec n (accepted d1 false 8) EVENT_USB_Device_ControlRequest
    (fun _ h d => if φ then over res d2 1 h d else exists dir, accepted d1 dir 8 h d) ->
  (φ = false -> spec n (accepted d1 false 8) (standard_request env rq) (fun _ => over res d2 1)) ->
  spec (2 * n + 2) (accepted d0 false 0) (USB_Device_ProcessControlRequest env) (fun _ => finished res d2).
Proof.
  intros Hev Hstd. unfold USB_Device_ProcessControlRequest. change (2 * n + 2)%nat with (0 + (2 * n + 2))%nat.
  eapply spec_bind; [by apply read_header_spec|]. intros x. cbn beta. apply spec_pure. intros ->. apply after_act; [apply _|].
  replace (2 * n + 2)%nat with (n + (1 + (n + 1)))%nat by lia. eapply spec_bind; [exact Hev|]. intros u. cbn beta.
  assert (Hend : forall r, (r <= 1)%nat -> spec 1 (over res d2 r)
    (pending <- look env Endpoint_IsSETUPReceived;; if pending : bool then act Endpoint_ClearSETUP;;; act Endpoint_StallTransaction else ret tt)
    (fun _ => finished res d2)).
  { intros r Hr. change 1%nat with (1 + 0)%nat. eapply spec_bind; [apply (look_setup_over addr setup ps always)|]. intros x. cbn beta.
    apply spec_pure. intros ->. apply spec_ret. intros h d (r' & H1 & H2 & H3). exists r'. split; [|done].
    intros Ha. specialize (H2 Ha). lia. }
  destruct φ.
  - eapply spec_bind; [apply (look_setup_over addr setup ps always)|]. intros x. cbn beta. apply spec_pure. intros ->.
    apply spec_ex. intros r. apply spec_pure. intros Hr. apply spec_pure. intros _.
    eapply (spec_bind _ _ _ n 1) with (R := fun _ => over res d2 r); [by apply spec_ret|]. intros u'. by apply Hend.
  - apply spec_ex. intros dir. eapply spec_bind; [by apply look_pending|]. intros x. cbn beta. apply spec_pure. intros ->.
    eapply spec_bind; [by apply Hstd|]. intros u'. by apply Hend.
Qed.

(** The host is about to send the request, or has sent it. *)
Definition rested (e : endpoint) : Prop := TYPE e = TYPE_CONTROL /\ length (FIFO_Data e) = 64%nat /\ FIFO_Position e = 0.

Inductive fresh : phase :=
  | fresh_setup r o i : (1 <= r)%nat -> rested o -> rested i -> SETUP (STATUS o) = false -> fresh r HSetup o i
  | fresh_sent r h o i : pending setup (after_setup setup ps) 0 0%nat h o i -> fresh r h o i.

#[export] Instance fresh_phase : Phase fresh.
Proof.
  split.
  - intros r h o i [|r0 h0 o0 i0 Hφ]; [done|]. by apply (phase_fine (A:=A) addr setup ps _ _ _ _ Hφ).
  - intros r r' h o i Hr Hφ. revert Hr. destruct Hφ; intros; [apply fresh_setup|apply fresh_sent]; first [done|lia].
  - intros d s b r h o i Ha [r0 o0 i0 Hr (H1 & H2 & H3) (H4 & H5 & H6) _|r0 h0 o0 i0 Hφ].
    + cbn [UsbWire.attempt]. rewrite (send_setup addr d Ha) by done. cbn [sent]. change (USBPID_ACK =? USBPID_ACK) with true. cbv iota.
      eexists _, _, _, _. split; [reflexivity|]. apply fresh_sent.
      assert (Hw : waits (after_setup setup ps)).
      { unfold after_setup. destruct (N =? 0); [by right; right|]. destruct (receives rq); [left; eauto|right; left; eauto]. }
      unfold setup_out, setup_in. constructor; try done.
      * split_and!; [done|done|]. cbn. rewrite length_app, length_drop. lia.
      * cbn. by rewrite Hlen.
      * cbn. rewrite take_app_le, firstn_all2 by lia. done.
    + destruct (phase_attempt addr setup ps d s b _ _ _ _ Ha Hφ) as (h' & o' & i' & b' & E & Hφ').
      exists h', o', i', b'. split; [done|]. by apply fresh_sent.
Qed.

(** A new request is seen, or not yet. *)
Lemma look_fresh s r :
  ep_number s = 0%nat ->
  spec 1 (at_sel d0 s (fresh r)) (look env Endpoint_IsSETUPReceived)
    (fun x h d => exists r', (r' <= r)%nat /\ (always -> r' = Nat.pred r) /\
       (if x : bool then accepted d0 false 0 h d else r' <> 0%nat /\ at_ d0 false (fresh r') h d)).
Proof.
  intros Hs. destruct s as [n dir]. cbn in Hs. subst n. apply (look_phase addr setup ps always fresh d0 Haddr).
  intros r' h d H1 H2 (o & i & b & -> & Hφ). rewrite IsSETUPReceived_dev. exists r'. split; [done|]. split; [done|].
  destruct Hφ as [r0 o0 i0 Hr Ho Hi HS|r0 h0 o0 i0 Hφ].
  - rewrite HS. split; [lia|]. eexists _, _, _. split; [reflexivity|]. by apply fresh_setup.
  - inversion Hφ as [r1 o1 i1 Hh Ho Hst Hp Hc Ht Hi Hb]; subst o1 i1 h0. rewrite Hst. cbn [SETUP setup_status].
    eexists _, _, _. split; [reflexivity|]. by constructor.
Qed.

(** The device with another request yet to come, or with this one over. *)
Definition served (res : list Z) (s : ep_address) (d2 : device) (h : host) (d : device) : Prop :=
  at_sel d2 s (answered res 0%nat) h d /\ h = HDone res.
Definition in_progress (res : list Z) (s : ep_address) (d2 : device) (h : host) (d : device) : Prop :=
  at_sel d0 s (fresh 1%nat) h d \/ (exists r, at_sel d2 s (answered res r) h d /\ (ADDR d2 = addr \/ h = HDone res)).

Lemma answered_done_inv res (d2 : device) s h d : at_sel d2 s (answered res 0%nat) h d -> h = HDone res.
Proof.
  intros (o & i & b & _ & Hφ). inversion Hφ as [|r0 h0 o0 i0 -> Ha]; subst; [done|]. inversion Ha; subst; [lia|done].
Qed.

Lemma task_spec n res s d2 :
  quiet s d2 -> USB_DeviceState d0 <> Unattached ->
  spec n (accepted d0 false 0) (USB_Device_ProcessControlRequest env) (fun _ => finished res d2) ->
  spec (n + 2) (at_sel d0 s (fresh 1%nat)) (USB_USBTask env)
    (fun _ h d => in_progress res s d2 h d /\ (always -> served res s d2 h d)).
Proof.
  intros Hq Hatt Hproc. unfold USB_USBTask. replace (n + 2)%nat with (1 + (1 + n))%nat by lia.
  eapply (spec_bind _ _ _ 1 (1 + n)) with (R := fun x h d => x = USB_DeviceState d0 /\ exists r', (r' <= 1)%nat /\ (always -> r' = 0%nat) /\ at_sel d0 s (fresh r') h d).
  { apply (look_phase addr setup ps always fresh d0 Haddr). intros r' h d H1 H2 H3. split; [by destruct H3 as (o & i & b & -> & _)|]. by exists r'. }
  intros x. apply spec_pure. intros ->. rewrite bool_decide_eq_false_2 by done.
  apply spec_ex. intros r1. apply spec_pure. intros H1. apply spec_pure. intros H1a.
  apply after_get with (y := s); [done|].
  eapply (spec_bind _ _ _ 0 (1 + n)) with (R := fun _ => at_sel d0 ENDPOINT_CONTROLEP (fresh r1)).
  { apply spec_act. intros h d (o & i & b & -> & Hφ). by exists o, i, b. }
  intros u. eapply (spec_bind _ _ _ 1 n); [by apply look_fresh|]. intros x. cbn beta.
  apply spec_ex. intros r2. apply spec_pure. intros H2. apply spec_pure. intros H2a.
  rewrite <- (Nat.add_0_r n). destruct x.
  - eapply spec_bind; [exact Hproc|]. intros u'. apply spec_act. intros h d (r & Hr & s' & _ & (o & i & b & -> & Hφ) & Ha).
    assert (Hend : at_sel d2 s (answered res r) h (Endpoint_SelectEndpoint s (dev s' o i b d2))) by (by exists o, i, b).
    split; [by right; exists r|]. intros Hal. specialize (Hr Hal). subst r. split; [done|]. by eapply answered_done_inv.
  - eapply (spec_bind _ _ _ n 0) with (R := fun _ h d => r2 <> 0%nat /\ at_ d0 false (fresh r2) h d); [by apply spec_ret|].
    intros u'. apply spec_act. intros h d (Hr2 & o & i & b & -> & Hφ). split.
    + left. exists o, i, b. split; [done|]. eapply (phase_mono addr setup ps); [|exact Hφ]. lia.
    + intros Hal. specialize (H1a Hal). specialize (H2a Hal). lia.
Qed.
End Process.
End Standard.
End Requests.
