(* ===== verification/LufaHid.v ===== *)
(** * lufa/LUFA/Drivers/USB/Class/Device/HIDClassDevice.c: the class requests on the wire

    The requests of a HID interface, from the packets of the host to the
    answers the HID specification wants: the report as the firmware fills it in, a
    report of the host, the protocol and the idle rate. *)

From S2P Require Import Prelude UsbWire XmegaUsb UsbStream UsbStreamProofs UsbTransfers LufaDevice LufaProofs LufaRequests.
Open Scope Z_scope.
Open Scope proc_scope.

Section HidAnswer.
Context {A : Type} (hid : hid_interface A).

(** A new idle rate or protocol. *)
Definition with_protocol (r : vusb_request) (s : hid_state) : hid_state :=
  mkHidState (negb (u8 (rq_value r) =? 0)) (PrevFrameNum s) (IdleCount s) (IdleMSRemaining s).
Definition with_idle (r : vusb_request) (s : hid_state) : hid_state :=
  mkHidState (UsingReportProtocol s) (PrevFrameNum s) (Z.shiftr (Z.land (rq_value r) 0xff00) 6) (IdleMSRemaining s).

(** The answer to a request, with the data that comes with it; reports have no ID. *)
Definition hid_answer (r : vusb_request) (data : list Z) (d : device (A:=A)) : option (list Z * device (A:=A)) :=
  let asks t x := (rq_type r =? t) && (rq_request r =? x) in
  let type := u8 (rq_value r / 256 - 1) in
  if negb (rq_index r =? InterfaceNumber hid) then None
  else if asks 0xa1 1 then
    let '(_, id, report, size, a) := CreateHIDReport hid (u8 (rq_value r)) type (repeat 0 (PrevReportINBufferSize hid)) (dev_app d) in
    if (id =? 0) && (size <=? length report)%nat
    then Some (take (Nat.min size (Z.to_nat (rq_length r))) report, remember_report hid report (set_dev_app a d)) else None
  else if asks 0xa1 3 then Some ([Z.b2z (UsingReportProtocol (State hid (dev_app d)))], d)
  else if asks 0xa1 2 then Some ([u8 (Z.shiftr (IdleCount (State hid (dev_app d))) 2)], d)
  else if asks 0x21 9 then
    if rq_length r =? 0 then None
    else
      a ← ProcessHIDReport hid (u8 (rq_value r)) type (drop (if u8 (rq_value r) =? 0 then 0%nat else 1%nat) data) (dev_app d);
      Some ([], set_dev_app a d)
  else if negb (rq_length r =? 0) then None
  else if asks 0x21 11 then Some ([], hid_update hid (with_protocol r) d)
  else if asks 0x21 10 then Some ([], hid_update hid (with_idle r) d)
  else None.
End HidAnswer.

Section Hid.
Context {A : Type} (addr : Z) (setup : list Z) (ps : list (list Z)) (always : Prop) (hid : hid_interface A).

Abbreviation device := (device (A:=A)).
Abbreviation rq := (request_of setup).
Abbreviation N := (rq_length rq).
Abbreviation control dir := (mkAddress 0 dir).
Abbreviation env := (meanwhile (S:=device) addr setup ps).
Abbreviation fair := (fun q : nat => (1 <= q)%nat).
Abbreviation fine := (fun h : host => h <> HFailed).
Abbreviation spec := (spec (A:=A) (W:=host) (E:=nat) fair always fine).
Abbreviation at_ d0 dir := (at_sel d0 (control dir)).
Abbreviation accepted d0 dir pos := (at_ d0 dir (pending setup (after_setup setup ps) pos 0%nat)).
Abbreviation over := (over (A:=A) addr).
Abbreviation conforms := (conforms setup ps).

#[export] Instance rest_hid_update f : Rest (hid_update hid f). Proof. by intros. Qed.
#[export] Instance rest_remember data : Rest (remember_report hid data).
Proof. intros s o i b d. unfold remember_report. by destruct (PrevReportINBuffer hid) as [[? ?]|]. Qed.

Lemma remember_addr data (d : device) : ADDR (remember_report hid data d) = ADDR d.
Proof. unfold remember_report. by destruct (PrevReportINBuffer hid) as [[? ?]|]. Qed.
Lemma remember_state data (d : device) : USB_DeviceState (remember_report hid data d) = USB_DeviceState d.
Proof. unfold remember_report. by destruct (PrevReportINBuffer hid) as [[? ?]|]. Qed.
Lemma remember_request data (d : device) : USB_ControlRequest (remember_report hid data d) = USB_ControlRequest d.
Proof. unfold remember_report. by destruct (PrevReportINBuffer hid) as [[? ?]|]. Qed.

Section Requests.
Context (d0 : device) (Haddr : ADDR d0 = addr) (Hup : bus_error (USB_DeviceState d0) = None) (Hrq : USB_ControlRequest d0 = rq).

(** The endpoint is free for the answer at once. *)
Definition filling (r : nat) : host -> endpoint -> endpoint -> Prop := filled setup [].

#[export] Instance filling_phase : Phase addr setup ps (A:=A) filling.
Proof.
  split.
  - by intros r h o i (-> & _).
  - by intros r r' h o i _ Hφ.
  - intros d s b r h o i Ha (-> & HN & Ho & Ht & Hi & Hb & Hpid & Hp & Htk). cbn [UsbWire.attempt].
    rewrite (ask_nak addr d Ha) by done. eexists _, _, _, _. split; [reflexivity|]. by split_and!.
Qed.

Lemma wait_filling :
  spec 1 (at_ d0 true (filled setup [])) (wait_for env Endpoint_IsINReady) (fun _ => at_ d0 true (filled setup [])).
Proof.
  unfold wait_for. apply (spec_loop _ _ _ _ 1 (fun _ _ => at_ d0 true (filled setup [])) _ (wait_looks _ _)) with (k := 0%nat).
  intros m []. unfold wait_round. change 1%nat with (1 + 0)%nat.
  eapply spec_bind; [apply (look_phase addr setup ps always filling d0 Haddr)
    with (r := 0%nat) (Q := fun x h d => x = true /\ at_ d0 true (filled setup []) h d)|].
  - intros r' h d _ _ (o & i & b & -> & Hφ). rewrite IsINReady_dev.
    pose proof Hφ as (_ & _ & _ & _ & _ & -> & _). split; [done|]. by exists o, i, b.
  - intros x. apply spec_pure. intros ->. by apply spec_ret.
Qed.

Lemma reply_byte_spec (f : hid_state -> Z) dir pos :
  receives rq = true -> 0 < N ->
  spec 7 (accepted d0 dir pos)
    (act Endpoint_ClearSETUP;;; wait_for env Endpoint_IsINReady;;; b <- get (fun d => f (State hid (dev_app d)));; write_byte b;;;
     act Endpoint_ClearIN;;; Endpoint_ClearStatusStage env)
    (fun _ => over [f (State hid (dev_app d0))] d0 0).
Proof.
  intros Hr HN. apply (begin_filling setup ps always d0 Hrq); [done|done|]. change 7%nat with (1 + 6)%nat.
  eapply spec_bind; [apply wait_filling|]. intros u. apply after_get with (y := f (State hid (dev_app d0))); [done|].
  apply after_byte; [cbn; lia|]. apply (answer_filled addr setup ps always d0 Haddr Hup Hrq); [done|cbn [length app]; lia..].
Qed.

Lemma set_value_spec f dir pos :
  receives rq = false -> N = 0 ->
  spec 2 (accepted d0 dir pos) (act Endpoint_ClearSETUP;;; Endpoint_ClearStatusStage env;;; act (hid_update hid f))
    (fun _ => over [] (hid_update hid f d0) 1).
Proof.
  intros Hr HN. apply (answer_nothing setup ps always d0 Hrq); [done|]. change 2%nat with (2 + 0)%nat.
  eapply spec_bind; [by apply (status_in addr setup ps always d0 Haddr)|]. intros u. eapply spec_weaken; [apply change_rest; apply _|done|done|].
  intros u' h d Hd. by apply over_acked with (dir := true).
Qed.

Lemma get_report_spec dir pos force report size a :
  receives rq = true -> 0 < N -> (size <= length report)%nat ->
  CreateHIDReport hid (u8 (rq_value rq)) (u8 (rq_value rq / 256 - 1)) (repeat 0 (PrevReportINBufferSize hid)) (dev_app d0)
    = (force, 0, report, size, a) ->
  let d1 := remember_report hid report (set_dev_app a d0) in
  spec (bound (Z.to_nat N)) (accepted d0 dir pos)
    (r <- create_report hid (u8 (rq_value rq)) (u8 (rq_value rq / 256 - 1));;
     let '(_, id, data, size) := r in
     act (remember_report hid data);;;
     act (Endpoint_SelectEndpoint ENDPOINT_CONTROLEP);;;
     act Endpoint_ClearSETUP;;;
     (if negb (id =? 0) then write_byte id else ret tt);;;
     _ <- Endpoint_Write_Control_Stream_LE env data (Z.of_nat size);;
     act Endpoint_ClearOUT)
    (fun _ => over (take (Nat.min size (Z.to_nat N)) report) d1 0).
Proof.
  intros Hr HN Hsize E d1. set (res := take _ report).
  assert (length res = Nat.min size (Z.to_nat N)) as Hl by (subst res; rewrite length_take; lia).
  assert (length res / 8 <= Z.to_nat N)%nat as Hdiv by (apply Nat.Div0.div_le_upper_bound; lia).
  rewrite <- (Nat.add_0_l (bound _)). eapply spec_bind with (R := fun x h d => x = (force, 0, report, size) /\ accepted (set_dev_app a d0) dir pos h d).
  { apply spec_det. intros es h d (o & i & b & -> & Hφ). unfold create_report. cbn [dev_app dev]. rewrite E.
    eexists _, _. split; [reflexivity|]. split; [done|]. by exists o, i, b. }
  intros x. apply spec_pure. intros ->. apply after_act; [apply _|]. fold d1.
  eapply (spec_bind _ _ _ 0 (bound (Z.to_nat N))) with (R := fun _ => accepted d1 false pos).
  { apply spec_act. intros h d (o & i & b & -> & Hφ). by exists o, i, b. }
  intros u. assert (USB_ControlRequest d1 = rq) as Hrq1 by (unfold d1; by rewrite remember_request).
  assert (ADDR d1 = addr) as Haddr1 by (unfold d1; by rewrite remember_addr).
  assert (bus_error (USB_DeviceState d1) = None) as Hup1 by (unfold d1; by rewrite remember_state).
  apply (begin_reading setup ps always d1 Hrq1 _ _ false pos _ res Hr HN).
  eapply (spec_bind _ _ _ 0 (bound (Z.to_nat N))) with (R := fun _ => at_ d1 true (free setup res 0 0%nat)); [by apply spec_ret|]. intros u'.
  eapply spec_weaken; [apply (reply_stream addr setup ps always d1 Haddr1 Hup1 Hrq1 report (Z.of_nat size) res)|unfold bound; lia|done|].
  - lia.
  - by rewrite Hl.
  - lia.
  - intros u2 h d Hd. by apply over_control with (dir := false).
Qed.

Lemma set_report_spec dir pos a :
  let id := u8 (rq_value rq) in
  receives rq = false -> usb_packets ps -> Z.of_nat (length (concat ps)) = N ->
  ProcessHIDReport hid id (u8 (rq_value rq / 256 - 1)) (drop (if id =? 0 then 0%nat else 1%nat) (concat ps)) (dev_app d0) = Some a ->
  spec (6 * length ps + 8) (accepted d0 dir pos)
    (act Endpoint_ClearSETUP;;;
     received <- Endpoint_Read_Control_Stream_LE env N;;
     act Endpoint_ClearIN;;;
     bounded (fun d =>
       a ← ProcessHIDReport hid id (u8 (rq_value rq / 256 - 1)) (drop (if id =? 0 then 0%nat else 1%nat) received.1) (dev_app d);
       Some (tt, set_dev_app a d)))
    (fun _ => over [] (set_dev_app a d0) 1).
Proof.
  intros id Hr Hps HN E. pose proof (usb_packets_nonempty _ Hps) as Hne. rewrite <- (Nat.add_0_r (6 * _ + 8)).
  apply (receive_XMEGA addr setup ps always d0 Haddr Hup Hrq); [done|done|done|].
  eapply (spec_bind _ _ _ 0 0); [apply (acknowledge always d0)|]. intros u. apply spec_det.
  intros es h d (o & i & b & -> & Hφ). unfold bounded. cbn [dev_app dev fst]. rewrite E. cbn [mbind option_bind].
  eexists _, _. split; [reflexivity|]. eapply over_acked with (dir := true); [done|]. by exists o, i, b.
Qed.

(** The device's part of the transfer, with the packets of the host. *)
Definition hid_bound : nat := bound (Z.to_nat N) + 6 * length ps.

Lemma hid_request_spec pos res d2 :
  hid_answer hid rq (concat ps) d0 = Some (res, d2) -> conforms res ->
  spec (1 + hid_bound) (accepted d0 false pos) (HID_Device_ProcessControlRequest env hid) (fun _ => over res d2 1).
Proof.
  intros Hans Hwf. unfold HID_Device_ProcessControlRequest. eapply spec_bind; [by apply look_pending|]. intros x. cbn beta.
  apply spec_pure. intros ->. apply after_get with (y := rq); [by intros|]. cbn [negb].
  unfold hid_answer in Hans. destruct (negb (rq_index rq =? _)); [done|].
  assert (Hgo : forall n (m : proc unit) res' d' r, (r <= 1)%nat -> (n <= hid_bound)%nat -> Some (res', d') = Some (res, d2) ->
    spec n (accepted d0 false pos) m (fun _ => over res' d' r) -> spec hid_bound (accepted d0 false pos) m (fun _ => over res d2 1)).
  { intros n m res' d' r Hr1 Hn E Hm. injection E as -> ->.
    eapply spec_weaken; [exact Hm|done|done|]. intros u h d. by apply over_mono. }
  assert (Hb : (7 <= hid_bound)%nat) by (unfold hid_bound, bound; lia).
  assert (Hdata : rq_type rq = 0xa1 -> receives rq = true) by (unfold receives; by intros ->).
  assert (Hno : rq_type rq = 0x21 -> receives rq = false) by (unfold receives; by intros ->).
  assert (Hr : rq_request rq ∈ [1; 9; 3; 11; 10; 2]).
  { repeat match type of Hans with context [rq_request rq =? ?x] =>
      destruct (Z.eqb_spec (rq_request rq) x) as [->|]; [by repeat constructor|] end.
    rewrite !andb_false_r in Hans. by destruct (rq_length rq =? 0). }
  unfold conforms, LufaRequests.conforms in Hwf.
  repeat (apply elem_of_cons in Hr as [E|Hr]; [rewrite E in *; cbn [Z.eqb Pos.eqb andb orb] in *; rewrite ?andb_true_r, ?andb_false_r in Hans;
    cbn [orb andb] in Hans|]); [..|by apply not_elem_of_nil in Hr];
    (destruct (rq_type rq =? _) eqn:T in Hans; [rewrite T; apply Z.eqb_eq in T|by destruct (rq_length rq =? 0)]).
  - destruct (CreateHIDReport _ _ _ _ _) as [[[[force id] report] size] a] eqn:Ec in Hans.
    destruct (_ && _) eqn:V in Hans; [|done]. apply andb_true_iff in V as [->%Z.eqb_eq V%Nat.leb_le].
    rewrite Hdata in Hwf by lia.
    eapply Hgo; [| | |by eapply get_report_spec; [apply Hdata; lia|apply Hwf|exact V|exact Ec]]; [lia|unfold hid_bound; lia|exact Hans].
  - rewrite Hno in Hwf by lia. destruct (Z.eqb_spec N 0) as [|HN]; [done|]. destruct Hwf as [|[Hps HN']]; [done|].
    destruct (ProcessHIDReport _ _ _ _ _) as [a|] eqn:Ep in Hans; [|done].
    eapply Hgo; [| | |by apply set_report_spec; [apply Hno; lia|exact Hps|exact HN'|exact Ep]]; [lia|unfold hid_bound, bound; lia|exact Hans].
  - rewrite Hdata in Hwf by lia.
    eapply Hgo; [| | |apply (reply_byte_spec (fun s => Z.b2z (UsingReportProtocol s))); [apply Hdata; lia|apply Hwf]]; [lia|lia|exact Hans].
  - destruct (Z.eqb_spec N 0) as [HN|]; [|done].
    eapply Hgo; [| | |apply (set_value_spec (with_protocol rq)); [apply Hno; lia|exact HN]]; [lia|lia|exact Hans].
  - destruct (Z.eqb_spec N 0) as [HN|]; [|done].
    eapply Hgo; [| | |apply (set_value_spec (with_idle rq)); [apply Hno; lia|exact HN]]; [lia|lia|exact Hans].
  - rewrite Hdata in Hwf by lia.
    eapply Hgo; [| | |apply (reply_byte_spec (fun s => u8 (Z.shiftr (IdleCount s) 2))); [apply Hdata; lia|apply Hwf]]; [lia|lia|exact Hans].
Qed.

(** A request for something else is left where it is. *)
Lemma hid_passes pos :
  rq_type rq <> 0xa1 /\ rq_type rq <> 0x21 \/ rq_index rq <> InterfaceNumber hid ->
  spec 1 (accepted d0 false pos) (HID_Device_ProcessControlRequest env hid) (fun _ => accepted d0 false pos).
Proof.
  intros Hp. unfold HID_Device_ProcessControlRequest. change 1%nat with (1 + 0)%nat.
  eapply spec_bind; [by apply look_pending|]. intros x. cbn beta.
  apply spec_pure. intros ->. apply after_get with (y := rq); [by intros|]. cbn [negb].
  destruct Hp as [[H1%Z.eqb_neq H2%Z.eqb_neq]|Hp%Z.eqb_neq].
  - rewrite H1, H2. repeat case_match; by apply spec_ret.
  - rewrite Hp. by apply spec_ret.
Qed.

(** And so is one that is over. *)
Lemma hid_passes_over res d2 r :
  spec 1 (over res d2 r) (HID_Device_ProcessControlRequest env hid) (fun _ => over res d2 r).
Proof.
  unfold HID_Device_ProcessControlRequest. change 1%nat with (1 + 0)%nat.
  eapply spec_bind; [apply (look_setup_over addr setup ps always)|]. intros x. cbn beta. apply spec_pure. intros ->.
  eapply (spec_bind _ _ _ 0 0) with (R := fun _ => over res d2 r).
  - apply spec_get. intros h d (r' & Hr & _ & Hd). by apply over_mono with r'.
  - intros y. by apply spec_ret.
Qed.
End Requests.
End Hid.
