(* ===== verification/LufaMain.v ===== *)
(** * lufa/lufa_main.c: the firmware behind the LUFA library

    What the library calls in src/lufa/lufa_main.c, on the device of [XmegaUsb]:
    the requests go through the streams of the library packet by packet, and what they
    answer and change is [read_request] and [write_request] of [UsbMain].  The medium of the
    macros is read before its stream begins, and written when the stream has ended:
    nothing else uses it meanwhile. *)

From Stdlib Require Import String.
From S2P Require Import Prelude Descriptors Sort Hid ExtraReport Printing Hardware Keystate KeystateReports MacroIndex.
From S2P Require Import Storage Macro Config Interpreter Keyboard UsbMain UsbWire XmegaUsb UsbStream LufaDevice.
Open Scope Z_scope.
Open Scope proc_scope.

Section LufaMain.
Context {H : Hardware} {K : HotKeys} {L : Leds} {I : UsbIds} {M : Type} {St : Storage M}.
Context (outside : Z -> Z) (macros_storage : Z) (macro_def_infos : list macro_def_info).
Context (CONST_MSG : string -> Z) (CONSTANT_STORAGE : storage_type) (sram_read_byte avr_pgm_read_byte : Z -> Z).
Context (LAYOUT_ID : Z) (serial : list Z).

Abbreviation keyboard := (keyboard (M:=M)).
Abbreviation firmware := (firmware (M:=M)).

(** The firmware, the states of the two HID interfaces, and the static variable of [USB_KeepAlive]. *)
Record lufa := mkLufa {
  lufa_firmware : firmware;
  Keyboard_state : hid_state;
  Mouse_state : hid_state;
  in_task : bool
}.

Abbreviation device := (device (A:=lufa)).

Definition lufa_keyboard (a : lufa) : keyboard := fw_keyboard (lufa_firmware a).
Definition set_firmware (f : firmware) (a : lufa) : lufa := mkLufa f (Keyboard_state a) (Mouse_state a) (in_task a).
Definition set_keyboard (k : keyboard) (a : lufa) : lufa :=
  set_firmware (mkFirmware k (lastMouseButtonStatus (lufa_firmware a))) a.
Definition set_hid (kbd mouse : hid_state) (a : lufa) : lufa := mkLufa (lufa_firmware a) kbd mouse (in_task a).
Definition set_in_task (x : bool) (a : lufa) : lufa := mkLufa (lufa_firmware a) (Keyboard_state a) (Mouse_state a) x.

(** ** The HID interfaces *)

Definition report_of_bytes (bs : list Z) : KeyboardReport_Data_t := mkKeyboardReport (bs !!! 0%nat) (bs !!! 1%nat) (drop 2 bs).

(** [CALLBACK_HID_Device_CreateHIDReport], into a buffer of zeros: for the keyboard and for the mouse. *)
Definition create_keyboard_report (id : Z) (a : lufa) : bool * Z * list Z * nat * lufa :=
  let '(k, report) := Fill_KeyboardReport outside sram_read_byte avr_pgm_read_byte empty_keyboard_report (lufa_keyboard a) in
  (false, id, keyboard_report_bytes report, 8%nat, set_keyboard k a).

Definition create_mouse_report (id : Z) (a : lufa) : bool * Z * list Z * nat * lufa :=
  let f := lufa_firmware a in
  let '(k, report) := Fill_MouseReport outside empty_mouse_report (fw_keyboard f) in
  let '(last, sent) := send_mouse_report report (lastMouseButtonStatus f) in
  let '(force, size) := match sent with Some _ => (true, 5%nat) | None => (false, 0%nat) end in
  (force, id, mouse_report_bytes report, size, set_firmware (mkFirmware k last) a).

(** [CALLBACK_HID_Device_ProcessHIDReport] *)
Definition process_keyboard_report (data : list Z) (a : lufa) : option lufa :=
  b ← data !! 0%nat; Some (set_keyboard (Process_KeyboardLEDReport b (lufa_keyboard a)) a).

(** [USB_ClassInfo_HID_Device_t]; the numbers are those of [Descriptors]. *)
Definition endpoint_number (i : HID_Interface) : nat := Z.to_nat (Z.land (ReportINEndpoint_Address i) 0xf).

Definition Keyboard_interface : hid_interface lufa :=
  mkHidInterface _ (Descriptors.InterfaceNumber Keyboard_HID_Interface) (endpoint_number Keyboard_HID_Interface)
    (Z.to_nat (Descriptors.PrevReportINBufferSize Keyboard_HID_Interface))
    (Some (fun a => keyboard_report_bytes (prev_report (lufa_keyboard a)),
           fun bs a => set_keyboard (set_prev_report (report_of_bytes bs) (lufa_keyboard a)) a))
    Keyboard_state (fun s a => set_hid s (Mouse_state a) a)
    (fun id _ _ a => create_keyboard_report id a)
    (fun _ _ data a => process_keyboard_report data a).

Definition Mouse_interface : hid_interface lufa :=
  mkHidInterface _ (Descriptors.InterfaceNumber Mouse_HID_Interface) (endpoint_number Mouse_HID_Interface)
    (Z.to_nat (Descriptors.PrevReportINBufferSize Mouse_HID_Interface)) None
    Mouse_state (fun s a => set_hid (Keyboard_state a) s a)
    (fun id _ _ a => create_mouse_report id a)
    (fun _ _ _ a => Some a).

(** ** Events *)

Definition update_keyboard (f : keyboard -> keyboard) (d : device) : device :=
  set_dev_app (set_keyboard (f (lufa_keyboard (dev_app d))) (dev_app d)) d.

Definition usb_connect : device -> device := update_keyboard (Update_USBState ENUMERATING).
Definition usb_disconnect : device -> device := update_keyboard (Update_USBState NOTREADY).
Definition usb_start_of_frame (d : device) : device :=
  update_keyboard (Update_Millis 1)
    (HID_Device_MillisecondElapsed Mouse_interface (HID_Device_MillisecondElapsed Keyboard_interface d)).
Definition usb_configuration_changed (d : device) : device :=
  let '(kbd, d) := HID_Device_ConfigureEndpoints Keyboard_interface d in
  let '(mouse, d) := HID_Device_ConfigureEndpoints Mouse_interface d in
  update_keyboard (Update_USBState (if kbd && mouse then READY else ERROR)) d.

Section Env.
Context {W E : Type} (env : E -> W -> device -> W * device).

Abbreviation proc := (proc (A:=lufa) (W:=W) (E:=E)).

Definition vendor_request_of (r : vusb_request) : usb_request := mkRequest (rq_type r) (rq_request r) (rq_value r) (rq_length r).

(** What a vendor request answers and changes. *)
Definition handle_request (r : vusb_request) (data : list Z) : proc usb_reply := bounded (fun d =>
  '(reply, k) ← UsbMain.EVENT_USB_Device_ControlRequest macros_storage macro_def_infos CONST_MSG CONSTANT_STORAGE LAYOUT_ID
                  (vendor_request_of r) data (lufa_keyboard (dev_app d));
  Some (reply, set_dev_app (set_keyboard k (dev_app d)) d)).

Fixpoint write_bytes (bs : list Z) : proc unit :=
  match bs with [] => ret tt | b :: bs => write_byte b;;; write_bytes bs end.

(** The requests with a stream. *)
Definition streams (r : Z) : bool :=
  (r =? READ_PROGRAMS) || (r =? READ_MACRO_INDEX) || (r =? READ_MACRO_STORAGE) || (r =? READ_DEFAULT_MAPPING) || (r =? READ_MAPPING).
Definition receives_stream (r : Z) : bool :=
  (r =? WRITE_PROGRAMS) || (r =? WRITE_MACRO_INDEX) || (r =? WRITE_MACRO_STORAGE) || (r =? WRITE_MAPPING).

(** The macros are in an external eeprom, whose streams come from the other template. *)
Definition write_storage_stream (r : Z) (bs : list Z) : proc stream_error :=
  let len := Z.of_nat (length bs) in
  if r =? READ_MACRO_STORAGE then Control_W_AVR8 env bs len else Endpoint_Write_Control_Stream_LE env bs len.
Definition read_storage_stream (r len : Z) : proc (list Z * stream_error) :=
  if r =? WRITE_MACRO_STORAGE then Control_R_AVR8 env len else Endpoint_Read_Control_Stream_LE env len.

(** [EVENT_USB_Device_ControlRequest] after the HID interfaces. *)
Definition vendor_part (rq : vusb_request) : proc unit :=
  let r := rq_request rq in
  if rq_type rq =? DEVICETOHOST then
    act Endpoint_ClearSETUP;;;
    reply <- handle_request rq [];;
    match reply with
    | Sent bs =>
        if streams r then _ <- write_storage_stream r bs;; act Endpoint_ClearOUT
        else write_bytes bs;;; act Endpoint_ClearIN;;; Endpoint_ClearStatusStage env
    | _ => act Endpoint_StallTransaction
    end
  else if rq_type rq =? HOSTTODEVICE then
    act Endpoint_ClearSETUP;;;
    if receives_stream r then
      received <- read_storage_stream r (rq_length rq);;
      _ <- handle_request rq received.1;;
      act Endpoint_ClearIN
    else
      reply <- handle_request rq [];;
      match reply with Acked => Endpoint_ClearStatusStage env | _ => act Endpoint_StallTransaction end
  else ret tt.

Definition control_request : proc unit :=
  HID_Device_ProcessControlRequest env Keyboard_interface;;;
  HID_Device_ProcessControlRequest env Mouse_interface;;;
  rq <- get USB_ControlRequest;;
  vendor_part rq.

#[export] Instance lufa_events : LufaEvents lufa W E := {
  EVENT_USB_Device_ControlRequest := control_request;
  EVENT_USB_Device_ConfigurationChanged := usb_configuration_changed;
  EVENT_USB_Device_StartOfFrame := usb_start_of_frame;
  EVENT_USB_Device_Connect := usb_connect;
  EVENT_USB_Device_Disconnect := usb_disconnect;
  CALLBACK_USB_GetDescriptor value index :=
    let '(address, size) := Descriptors.CALLBACK_USB_GetDescriptor value index in
    if size =? 0 then None else take (Z.to_nat size) <$> address;
  internal_serial := serial
}.

(** ** The main program *)

Definition USB_KeepAlive (poll : bool) : proc unit :=
  busy <- get (fun d => in_task (dev_app d));;
  if poll && negb busy then
    act (fun d => set_dev_app (set_in_task true (dev_app d)) d);;;
    USB_USBTask env;;;
    act (fun d => set_dev_app (set_in_task false (dev_app d)) d)
  else ret tt.

Definition USB_Perform_Update : proc unit :=
  HID_Device_USBTask env Mouse_interface;;;
  HID_Device_USBTask env Keyboard_interface;;;
  USB_KeepAlive true.
End Env.
End LufaMain.
