(* ===== verification/LufaMainProofs.v ===== *)
(** * The LUFA build on the wire

    Every request the firmware of the LUFA build knows, from the packets of the
    host to the answer: those of the vendor interface with what [UsbMain] says, those
    to the HID interfaces, and the standard requests. *)

From Stdlib Require Import String.
From S2P Require Import Prelude Descriptors Sort Hid ExtraReport Printing Hardware Keystate KeystateReports MacroIndex.
From S2P Require Import Storage Macro Config Interpreter Keyboard UsbMain UsbWire XmegaUsb UsbStream LufaDevice.
From S2P Require Import UsbStreamProofs UsbTransfers LufaProofs LufaRequests LufaHid LufaMain K84cs KeystateProofs KeyboardProps.
Open Scope Z_scope.
Open Scope proc_scope.

(** ** The configuration of the endpoints *)

Section Endpoints.
Context {A : Type}.
Abbreviation device := (device (A:=A)).

Lemma tail_insert {T} n (x : T) l : tail (<[S n := x]> l) = <[n := x]> (tail l).
Proof. by destruct l. Qed.
Lemma tail_lookup `{Inhabited T} n (l : list T) : tail l !!! n = l !!! S n.
Proof. by destruct l. Qed.

(** An endpoint with a number is the same with any control endpoint. *)
Lemma get_other n dir s o i b (d : device) :
  get_endpoint (mkAddress (S n) dir) (dev s o i b d) = get_endpoint (mkAddress (S n) dir) d.
Proof. unfold get_endpoint. cbn [ep_number ep_in endpoints dev]. change (_ !!! S n) with (tail (endpoints d) !!! n) at 1. by rewrite tail_lookup. Qed.

Lemma put_other n dir e s o i b (d : device) :
  put_endpoint (mkAddress (S n) dir) e (dev s o i b d) = dev s o i b (put_endpoint (mkAddress (S n) dir) e d).
Proof.
  unfold put_endpoint. cbn [ep_number ep_in endpoints dev]. change (((o, i) :: _) !!! S n) with (tail (endpoints d) !!! n).
  rewrite tail_lookup. destruct (endpoints d !!! S n) as [o' i']. unfold set_endpoints, dev. cbn. by rewrite tail_insert.
Qed.

(** Configuring an endpoint for reports. *)
Lemma configure_other n type size s o i b (d : device) :
  Endpoint_ConfigureEndpoint_PRV (mkAddress (S n) true) type size (dev s o i b d)
  = dev (mkAddress (S n) true) o i b (Endpoint_ConfigureEndpoint_PRV (mkAddress (S n) true) type size d).
Proof.
  unfold Endpoint_ConfigureEndpoint_PRV, Endpoint_SelectEndpoint, change, selected.
  change (set_selected _ (dev s o i b d)) with (dev (mkAddress (S n) true) o i b (set_selected (mkAddress (S n) true) d)).
  cbn [USB_Endpoint_SelectedEndpoint dev set_selected]. by rewrite put_other, get_other.
Qed.

Lemma configure_keeps n type size (d : device) :
  let d' := Endpoint_ConfigureEndpoint_PRV (mkAddress (S n) true) type size d in
  ADDR d' = ADDR d /\ USB_DeviceState d' = USB_DeviceState d /\ (interrupt_quiet d -> interrupt_quiet d').
Proof.
  unfold Endpoint_ConfigureEndpoint_PRV, Endpoint_SelectEndpoint, change, put_endpoint, get_endpoint, selected.
  cbn [USB_Endpoint_SelectedEndpoint set_selected endpoints ep_number ep_in].
  destruct (endpoints d !!! S n) as [o i] eqn:E. split; [done|]. split; [done|]. intros Hq m. cbn [set_endpoints endpoints].
  rewrite tail_insert. specialize (Hq m). destruct (decide (m = n)) as [->|Hne].
  - destruct (decide (n < length (tail (endpoints d)))%nat) as [Hl|Hl].
    + rewrite list_lookup_total_insert_eq by done. rewrite tail_lookup, E in Hq. exact Hq.
    + by rewrite list_insert_ge by lia.
  - by rewrite list_lookup_total_insert_ne by done.
Qed.
End Endpoints.

(** ** The requests *)

Section Answers.
Context {H : Hardware} {K : HotKeys} {L : Leds} {I : UsbIds} {M : Type} {St : Storage M}.
Context (outside : Z -> Z) (macros_storage : Z) (macro_def_infos : list macro_def_info).
Context (CONST_MSG : string -> Z) (CONSTANT_STORAGE : storage_type) (sram_read_byte avr_pgm_read_byte : Z -> Z).
Context (LAYOUT_ID : Z) (serial : list Z).
Context (addr : Z) (setup : list Z) (ps : list (list Z)) (always : Prop).

Abbreviation lufa := (lufa (M:=M)).
Abbreviation device := (device (A:=lufa)).
Abbreviation rq := (request_of setup).
Abbreviation N := (rq_length rq).
Abbreviation control dir := (mkAddress 0 dir).
Abbreviation env := (meanwhile (S:=device) addr setup ps).
Abbreviation fair := (fun q : nat => (1 <= q)%nat).
Abbreviation fine := (fun h : host => h <> HFailed).
Abbreviation spec := (spec (A:=lufa) (W:=host) (E:=nat) fair always fine).
Abbreviation at_ d0 dir := (at_sel d0 (control dir)).
Abbreviation accepted d0 dir pos := (at_ d0 dir (pending setup (after_setup setup ps) pos 0%nat)).
Abbreviation over := (over (A:=lufa) addr).
Abbreviation conforms := (conforms setup ps).
Abbreviation Keyboard := (Keyboard_interface outside sram_read_byte avr_pgm_read_byte).
Abbreviation Mouse := (Mouse_interface outside).
Abbreviation events := (lufa_events outside macros_storage macro_def_infos CONST_MSG CONSTANT_STORAGE sram_read_byte
  avr_pgm_read_byte LAYOUT_ID serial env).
Abbreviation handle := (handle_request macros_storage macro_def_infos CONST_MSG CONSTANT_STORAGE LAYOUT_ID (W:=host) (E:=nat)).
Abbreviation event_request := (UsbMain.EVENT_USB_Device_ControlRequest macros_storage macro_def_infos CONST_MSG CONSTANT_STORAGE LAYOUT_ID).

#[export] Instance rest_update f : Rest (update_keyboard (M:=M) f).
Proof. by intros. Qed.

Lemma configuration_changed (d : device) :
  usb_configuration_changed outside sram_read_byte avr_pgm_read_byte d
  = update_keyboard (Update_USBState READY)
      (Endpoint_ConfigureEndpoint_PRV (mkAddress 3 true) TYPE_BULK 8 (hid_update Mouse (fun _ => mkHidState true 0 500 0)
        (Endpoint_ConfigureEndpoint_PRV (mkAddress 1 true) TYPE_BULK 8 (hid_update Keyboard (fun _ => mkHidState true 0 500 0) d)))).
Proof. reflexivity. Qed.

#[export] Program Instance lufa_configures : Configures (L := events) := {| configured_endpoint := mkAddress 3 true |}.
Next Obligation.
  intros s o i b d. cbn [EVENT_USB_Device_ConfigurationChanged lufa_events]. rewrite !configuration_changed.
  by rewrite rest_hid_update, configure_other, rest_hid_update, configure_other, rest_update.
Qed.
Next Obligation.
  intros d. cbn [EVENT_USB_Device_ConfigurationChanged lufa_events]. rewrite configuration_changed.
  etransitivity; [apply (configure_keeps 2)|]. etransitivity; [apply (configure_keeps 0)|]. done.
Qed.
Next Obligation.
  intros d Hq. cbn [EVENT_USB_Device_ConfigurationChanged lufa_events]. rewrite configuration_changed.
  refine (proj2 (proj2 (configure_keeps 2 TYPE_BULK 8 (hid_update Mouse _ _))) _).
  exact (proj2 (proj2 (configure_keeps 0 TYPE_BULK 8 (hid_update Keyboard _ d))) Hq).
Qed.

(** What the host may expect: of a vendor request what [UsbMain] says, of the others what the library and
    the class driver say.  [None]: the request is refused, or nothing is said about it. *)
Definition vendor_answer (r : vusb_request) (data : list Z) (d : device) : option (list Z * device) :=
  '(reply, k) ← event_request (vendor_request_of r) (if receives_stream (rq_request r) then data else []) (lufa_keyboard (dev_app d));
  let d := set_dev_app (set_keyboard k (dev_app d)) d in
  match reply with
  | Sent bs => Some (bs, d)
  | Received => if rq_length r =? 0 then None else Some ([], d)
  | Acked => if rq_length r =? 0 then Some ([], d) else None
  | Stalled | NotForUs => None
  end.

Definition lufa_answer (r : vusb_request) (data : list Z) (d : device) : option (list Z * device) :=
  if (rq_type r =? DEVICETOHOST) || (rq_type r =? HOSTTODEVICE) then vendor_answer r data d
  else if (rq_type r =? 0xa1) || (rq_type r =? 0x21) then
    if rq_index r =? InterfaceNumber Keyboard then hid_answer Keyboard r data d else hid_answer Mouse r data d
  else standard_answer (L := events) r d.

Section Vendor.
Context (d0 : device) (Haddr : ADDR d0 = addr) (Hup : bus_error (USB_DeviceState d0) = None) (Hrq : USB_ControlRequest d0 = rq).

Abbreviation with_keyboard k := (set_dev_app (set_keyboard k (dev_app d0)) d0).

Lemma handle_spec n s φ data reply k {X} (m : usb_reply -> proc X) Q :
  event_request (vendor_request_of rq) data (lufa_keyboard (dev_app d0)) = Some (reply, k) ->
  spec n (at_sel (with_keyboard k) s φ) (m reply) Q ->
  spec n (at_sel d0 s φ) (x <- handle rq data;; m x) Q.
Proof.
  intros E Hm. eapply (spec_bind _ _ _ 0 n) with (R := fun x h d => x = reply /\ at_sel (with_keyboard k) s φ h d).
  - apply spec_det. intros es h d (o & i & b & -> & Hφ). unfold handle_request, bounded. cbn [dev_app dev]. rewrite E.
    cbn [mbind option_bind]. eexists _, _. split; [reflexivity|]. split; [done|]. by exists o, i, b.
  - intros x. apply spec_pure. by intros ->.
Qed.

Lemma write_bytes_spec d acc bs :
  (length acc + length bs <= 8)%nat ->
  spec 0 (at_sel d (control true) (filled setup acc)) (write_bytes bs) (fun _ => at_sel d (control true) (filled setup (acc ++ bs))).
Proof.
  revert acc. induction bs as [|b bs IH]; intros acc Hl; cbn [write_bytes].
  - rewrite app_nil_r. by apply spec_ret.
  - cbn [length] in Hl. apply after_byte; [lia|]. replace (acc ++ b :: bs) with ((acc ++ [b]) ++ bs) by (by rewrite <- app_assoc).
    apply IH. rewrite length_app. cbn [length]. lia.
Qed.

(** The replies by the kind of request. *)
Lemma event_sent data bs k :
  rq_type rq = DEVICETOHOST -> event_request (vendor_request_of rq) data (lufa_keyboard (dev_app d0)) = Some (Sent bs, k) ->
  streams (rq_request rq) = false -> (length bs <= 2)%nat.
Proof.
  intros Ht E. unfold UsbMain.EVENT_USB_Device_ControlRequest in E. cbn [bmRequestType vendor_request_of] in E. rewrite Ht in E.
  change (DEVICETOHOST =? DEVICETOHOST) with true in E. cbv iota in E. unfold read_request in E. cbn [bRequest vendor_request_of] in E.
  unfold streams. intros Hs. repeat (apply orb_false_iff in Hs as [Hs ?]).
  repeat match type of E with (if ?c then _ else _) = _ => destruct c; [try (injection E as <- <-; cbn; lia); congruence|] end.
  done.
Qed.

Lemma read_replies data k0 reply k :
  rq_type rq = DEVICETOHOST -> event_request (vendor_request_of rq) data k0 = Some (reply, k) -> (exists bs, reply = Sent bs) \/ reply = Stalled.
Proof.
  intros Ht. unfold UsbMain.EVENT_USB_Device_ControlRequest. cbn [bmRequestType vendor_request_of]. rewrite Ht.
  change (DEVICETOHOST =? DEVICETOHOST) with true. cbv iota. unfold read_request, macro_storage_read. intros E.
  repeat match type of E with (if ?c then _ else _) = _ => destruct c end; try done;
    repeat case_match; try destruct (array_read _ _); cbn in E; simplify_eq; eauto.
Qed.

Lemma write_replies data k0 reply k :
  rq_type rq = HOSTTODEVICE -> event_request (vendor_request_of rq) data k0 = Some (reply, k) ->
  (reply = Received /\ receives_stream (rq_request rq) = true) \/ (reply = Acked /\ receives_stream (rq_request rq) = false) \/ reply = Stalled.
Proof.
  intros Ht. unfold UsbMain.EVENT_USB_Device_ControlRequest. cbn [bmRequestType vendor_request_of]. rewrite Ht.
  change (HOSTTODEVICE =? DEVICETOHOST) with false. change (HOSTTODEVICE =? HOSTTODEVICE) with true. cbv iota.
  unfold write_request, receives_stream. cbn [bRequest vendor_request_of]. intros E.
  repeat match type of E with (if ?c then _ else _) = _ => destruct c end; try done; try (simplify_eq; by eauto);
    match type of E with (?m ≫= _) = _ => destruct m end; cbn in E; simplify_eq; by left.
Qed.

Lemma vendor_read_spec dir pos data res d2 :
  rq_type rq = DEVICETOHOST -> vendor_answer rq data d0 = Some (res, d2) -> conforms res ->
  spec (bound (Z.to_nat N)) (accepted d0 dir pos)
    (act Endpoint_ClearSETUP;;;
     reply <- handle rq [];;
     match reply with
     | Sent bs =>
         if streams (rq_request rq) then _ <- write_storage_stream env (rq_request rq) bs;; act Endpoint_ClearOUT
         else write_bytes bs;;; act Endpoint_ClearIN;;; Endpoint_ClearStatusStage env
     | _ => act Endpoint_StallTransaction
     end)
    (fun _ => over res d2 0).
Proof.
  intros Ht Hans Hwf. unfold vendor_answer in Hans. set (data' := if receives_stream _ then data else []) in Hans.
  assert (receives rq = true) as Hr by (unfold receives; by rewrite Ht).
  assert (forall d, event_request (vendor_request_of rq) data' d = event_request (vendor_request_of rq) [] d) as Hsame.
  { intros d. unfold UsbMain.EVENT_USB_Device_ControlRequest. cbn [bmRequestType vendor_request_of]. by rewrite Ht. }
  rewrite Hsame in Hans.
  destruct (event_request _ [] _) as [[reply k]|] eqn:E; [|done]. cbn [mbind option_bind] in Hans.
  assert (reply = Sent res /\ d2 = with_keyboard k) as [-> ->].
  { destruct (read_replies _ _ _ _ Ht E) as [[bs ->]| ->]; [by injection Hans as <- <-|done]. }
  unfold conforms, LufaRequests.conforms in Hwf. rewrite Hr in Hwf. destruct Hwf as [HN Hlen].
  destruct (streams (rq_request rq)) eqn:Hs.
  - assert (length res / 8 <= Z.to_nat N)%nat as Hdiv by (apply Nat.Div0.div_le_upper_bound; lia).
    eapply spec_weaken with (n := (4 * S (3 * S (length res / 8) + 2) + 9)%nat) (Q := fun _ => at_ (with_keyboard k) false (answered res 0%nat)); [|unfold bound; lia|done|].
    + apply (begin_reading setup ps always d0 Hrq _ _ dir pos _ res Hr HN). eapply handle_spec; [exact E|]. cbv beta iota.
      unfold write_storage_stream. destruct (_ =? READ_MACRO_STORAGE);
        [apply (reply_AVR8 addr setup ps always (with_keyboard k))|apply (reply_stream addr setup ps always (with_keyboard k))];
        first [done|by rewrite firstn_all|lia].
    + intros u h d Hd. by apply over_control with (dir := false).
  - pose proof (event_sent _ _ _ Ht E Hs) as Hl.
    eapply spec_weaken with (n := 6%nat); [|unfold bound; lia|done|exact (fun _ _ _ Hd => Hd)].
    apply (begin_filling setup ps always d0 Hrq); [done|done|]. eapply handle_spec; [exact E|]. cbv beta iota.
    change 6%nat with (0 + 6)%nat. eapply spec_bind; [apply write_bytes_spec; cbn [length]; lia|]. intros u. cbn [app].
    apply (answer_filled addr setup ps always (with_keyboard k)); first [done|lia].
Qed.

Lemma vendor_write_spec dir pos data res d2 :
  rq_type rq = HOSTTODEVICE -> data = concat ps -> vendor_answer rq data d0 = Some (res, d2) -> conforms res ->
  spec (hid_bound setup ps) (accepted d0 dir pos)
    (act Endpoint_ClearSETUP;;;
     if receives_stream (rq_request rq) then
       received <- read_storage_stream env (rq_request rq) (rq_length rq);;
       _ <- handle rq received.1;;
       act Endpoint_ClearIN
     else
       reply <- handle rq [];;
       match reply with Acked => Endpoint_ClearStatusStage env | _ => act Endpoint_StallTransaction end)
    (fun _ => over res d2 1).
Proof.
  intros Ht -> Hans Hwf. unfold vendor_answer in Hans.
  assert (receives rq = false) as Hr by (unfold receives; by rewrite Ht).
  unfold conforms, LufaRequests.conforms in Hwf. rewrite Hr in Hwf.
  destruct (event_request _ _ _) as [[reply k]|] eqn:E; [|done]. cbn [mbind option_bind] in Hans.
  destruct (write_replies _ _ _ _ Ht E) as [[-> Hs]|[[-> Hs]| ->]]; [rewrite Hs in *|rewrite Hs in *|done].
  - destruct (Z.eqb_spec N 0) as [|HN]; [done|]. injection Hans as <- <-. destruct Hwf as [|[Hps Hlen]]; [done|].
    apply (spec_weaken _ _ _ (6 * length ps + 8 + 0) _ (accepted d0 dir pos) _ _ (fun _ => over [] (with_keyboard k) 1));
      [|unfold hid_bound, bound; lia|done|done].
    assert (Hgo : spec 0 (at_ d0 true (coming [] 0%nat)) (_ <- handle rq (concat ps);; act Endpoint_ClearIN) (fun _ => over [] (with_keyboard k) 1)).
    { eapply handle_spec; [exact E|]. by apply (acknowledge_over addr). }
    unfold read_storage_stream. destruct (_ =? WRITE_MACRO_STORAGE);
      [by apply (receive_stream addr setup ps always d0 Haddr Hup Hrq)|by apply (receive_XMEGA addr setup ps always d0 Haddr Hup Hrq)].
  - destruct (Z.eqb_spec N 0) as [HN|]; [|done]. injection Hans as <- <-.
    eapply spec_weaken with (n := 2%nat); [|unfold hid_bound, bound; lia|done|exact (fun _ _ _ Hd => Hd)].
    apply (answer_nothing setup ps always d0 Hrq); [done|]. eapply handle_spec; [exact E|]. cbv beta iota.
    eapply spec_weaken; [by apply (status_in addr setup ps always (with_keyboard k))|done|done|].
    intros u h d Hd. by apply over_acked with (dir := true).
Qed.

(** The event: the two HID interfaces, then the vendor requests. *)
Abbreviation event := (control_request outside macros_storage macro_def_infos CONST_MSG CONSTANT_STORAGE sram_read_byte
  avr_pgm_read_byte LAYOUT_ID env).

Abbreviation vendor := (vendor_part macros_storage macro_def_infos CONST_MSG CONSTANT_STORAGE LAYOUT_ID env).

(** What is not a vendor request is over, or stays. *)
Lemma no_vendor n P (m : vusb_request -> proc unit) :
  (forall h d, P h d -> USB_ControlRequest d = rq) -> m rq = ret tt -> spec n P (r <- get USB_ControlRequest;; m r) (fun _ => P).
Proof.
  intros Hp Hm. eapply (spec_bind _ _ _ 0 n) with (R := fun x h d => x = rq /\ P h d).
  - apply spec_get. intros h d Hd. split; [by eapply Hp|done].
  - intros x. apply spec_pure. intros ->. rewrite Hm. by apply spec_ret.
Qed.

Definition event_bound : nat := hid_bound setup ps + 4.

Lemma vendor_spec res d2 :
  rq_type rq = DEVICETOHOST \/ rq_type rq = HOSTTODEVICE -> vendor_answer rq (concat ps) d0 = Some (res, d2) -> conforms res ->
  spec event_bound (accepted d0 false 8) event (fun _ => over res d2 1).
Proof.
  intros Ht Hans Hwf. unfold control_request. set (n := hid_bound setup ps). replace event_bound with (1 + (1 + (n + 2)))%nat by (unfold event_bound; lia).
  assert (Hp : rq_type rq <> 0xa1 /\ rq_type rq <> 0x21) by lia.
  eapply (spec_bind _ _ _ 1 (1 + (n + 2))); [by apply hid_passes; [..|by left]|]. intros u.
  eapply (spec_bind _ _ _ 1 (n + 2)); [by apply hid_passes; [..|by left]|]. intros u'.
  apply after_get with (y := rq); [by intros|]. unfold vendor_part. destruct Ht as [Ht|Ht]; rewrite Ht; cbn [Z.eqb Pos.eqb].
  - eapply spec_weaken; [by apply (vendor_read_spec false 8 (concat ps) res d2)|unfold n, hid_bound; lia|done|].
    intros u2 h d Hd. apply (over_mono addr setup ps res d2 0 1); [lia|exact Hd].
  - eapply spec_weaken; [by apply (vendor_write_spec false 8 (concat ps) res d2)|lia|done|done].
Qed.

(** Answers change the application only. *)
Lemma hid_answer_rest hid data res (d d2 : device) :
  hid_answer hid rq data d = Some (res, d2) -> exists a, d2 = set_dev_app a d.
Proof.
  unfold hid_answer, hid_update, remember_report. intros Hans.
  repeat match type of Hans with context [match ?c with _ => _ end] => destruct c eqn:?; try discriminate end;
    try (match type of Hans with (?m ≫= _) = _ => destruct m; [|discriminate] end; cbn in Hans);
    simplify_eq; first [by eexists|by exists (dev_app d2); destruct d2].
Qed.

Lemma class_spec res d2 :
  rq_type rq = 0xa1 \/ rq_type rq = 0x21 ->
  (if rq_index rq =? InterfaceNumber Keyboard then hid_answer Keyboard rq (concat ps) d0 else hid_answer Mouse rq (concat ps) d0)
    = Some (res, d2) -> conforms res ->
  spec event_bound (accepted d0 false 8) event (fun _ => over res d2 1).
Proof.
  intros Ht Hans Hwf. unfold control_request. set (n := hid_bound setup ps).
  replace event_bound with (1 + n + (1 + (1 + 1)))%nat by (unfold event_bound; lia).
  assert (exists a, d2 = set_dev_app a d0) as [a Ha] by (destruct (_ =? _); by eapply hid_answer_rest).
  assert (USB_ControlRequest d2 = rq) as Hrq2 by (by rewrite Ha).
  assert (Hend : forall m, spec m (over res d2 1) (r <- get USB_ControlRequest;; vendor r) (fun _ => over res d2 1)).
  { intros m. apply no_vendor; [by intros h d (s & _ & (o & i & b & -> & _) & _)|]. unfold vendor_part. by destruct Ht as [->| ->]. }
  destruct (Z.eqb_spec (rq_index rq) (InterfaceNumber Keyboard)) as [Hi|Hi].
  - eapply (spec_bind _ _ _ (1 + n) (1 + (1 + 1))); [by apply (hid_request_spec addr setup ps always Keyboard d0 Haddr Hup Hrq 8 res d2)|]. intros u.
    eapply (spec_bind _ _ _ 1 (1 + 1)); [apply hid_passes_over|]. intros u'. apply Hend.
  - replace (1 + n + (1 + (1 + 1)))%nat with (1 + (1 + n + 2))%nat by lia.
    eapply (spec_bind _ _ _ 1 (1 + n + 2)); [by apply hid_passes; [..|by right]|]. intros u.
    eapply (spec_bind _ _ _ (1 + n) 2); [by apply (hid_request_spec addr setup ps always Mouse d0 Haddr Hup Hrq 8 res d2)|]. intros u'. apply Hend.
Qed.

(** A request for the library is left to it. *)
Lemma standard_left n :
  rq_type rq <> DEVICETOHOST /\ rq_type rq <> HOSTTODEVICE -> rq_type rq <> 0xa1 /\ rq_type rq <> 0x21 ->
  spec (n + 2) (accepted d0 false 8) event (fun _ => accepted d0 false 8).
Proof.
  intros [H1%Z.eqb_neq H2%Z.eqb_neq] Hp. unfold control_request. replace (n + 2)%nat with (1 + (1 + n))%nat by lia.
  eapply (spec_bind _ _ _ 1 (1 + n)); [by apply hid_passes; [..|by left]|]. intros u.
  eapply (spec_bind _ _ _ 1 n); [by apply hid_passes; [..|by left]|]. intros u'.
  apply no_vendor; [by intros h d (o & i & b & -> & _)|]. unfold vendor_part. by rewrite H1, H2.
Qed.
End Vendor.

(** ** The task *)

Lemma vendor_answer_rest data res (d d2 : device) : vendor_answer rq data d = Some (res, d2) -> exists a, d2 = set_dev_app a d.
Proof.
  unfold vendor_answer. destruct (event_request _ _ _) as [[reply k]|]; [|done]. cbn [mbind option_bind]. intros Hans.
  repeat case_match; simplify_eq; by eexists.
Qed.

(** The looks of a task at most, when the host does something each time. *)
Definition task_bound : nat := 2 * event_bound + 4.

Lemma task_answers (d0 : device) s res d2 :
  length setup = 8%nat -> ADDR d0 = addr -> USB_DeviceState d0 <> Unattached -> USB_DeviceState d0 <> Suspended -> interrupt_quiet d0 ->
  lufa_answer rq (concat ps) (set_request rq d0) = Some (res, d2) -> conforms res ->
  spec task_bound (at_sel d0 s (fresh setup ps 1%nat)) (USB_USBTask env (L := events))
    (fun _ h d => in_progress addr setup ps d0 res s d2 h d /\ (always -> served res s d2 h d)).
Proof.
  intros Hlen Haddr Hst Hsus Hq Hans Hwf. set (d1 := set_request rq d0) in *.
  assert (bus_error (USB_DeviceState d0) = None) as Hup by (by destruct (USB_DeviceState d0)).
  assert (Hup1 : bus_error (USB_DeviceState d1) = None) by exact Hup.
  assert (Hkeep : (exists a, d2 = set_dev_app a d1) -> interrupt_quiet d2) by (intros [a ->]; exact Hq).
  assert (Hgo : forall φ : bool, interrupt_quiet d2 ->
    spec event_bound (accepted d1 false 8) (EVENT_USB_Device_ControlRequest (LufaEvents := events))
      (fun _ h d => if φ then over res d2 1 h d else exists dir, accepted d1 dir 8 h d) ->
    (φ = false -> spec event_bound (accepted d1 false 8) (standard_request env rq (L := events)) (fun _ => over res d2 1)) ->
    spec task_bound (at_sel d0 s (fresh setup ps 1%nat)) (USB_USBTask env (L := events))
      (fun _ h d => in_progress addr setup ps d0 res s d2 h d /\ (always -> served res s d2 h d))).
  { intros φ Hq2 Hev Hstd. replace task_bound with (2 * event_bound + 2 + 2)%nat by (unfold task_bound; lia).
    apply task_spec; first [done|by apply quiet_any|idtac]. by eapply process_spec. }
  unfold lufa_answer in Hans. destruct (_ || _) eqn:Hv in Hans.
  - apply (Hgo true); [apply Hkeep; by eapply vendor_answer_rest| |done].
    apply vendor_spec; [done..|lia|done|done].
  - destruct (_ || _) eqn:Hc in Hans.
    + apply (Hgo true); [apply Hkeep; destruct (rq_index rq =? _) in Hans; by eapply hid_answer_rest| |done].
      apply class_spec; [done..|lia|done|done].
    + apply (Hgo false); [by apply (standard_answer_quiet setup (L := events) d1 Hup1 eq_refl res d2 Hans)| |].
      * eapply spec_weaken; [apply (standard_left d1) with (n := (hid_bound setup ps + 2)%nat); [done..|lia|lia]|unfold event_bound; lia|done|].
        intros u h d Hd. by exists false.
      * intros _. eapply spec_weaken; [exact (standard_request_spec addr setup ps always (L := events) d1 Haddr Hup1 eq_refl false 8 res d2 Hans Hwf Hq)|unfold event_bound, hid_bound; lia|done|done].
Qed.
End Answers.

(** ** The whole *)

(** A device whose control endpoint is configured and has nothing to do. *)
Definition ready {A} (d : device (A:=A)) : Prop :=
  exists o i rest, endpoints d = (o, i) :: rest /\ rested o /\ rested i /\ SETUP (STATUS o) = false.

(** The same device, but for its control endpoint, its selection, and the transaction. *)
Definition same_rest {A} (d d' : device (A:=A)) : Prop := exists s o i b, d' = dev s o i b d.

Lemma ready_fresh {A} setup ps (d : device (A:=A)) :
  ready d -> at_sel d (USB_Endpoint_SelectedEndpoint d) (fresh setup ps 1%nat) HSetup d.
Proof.
  intros (o & i & rest & E & Ho & Hi & HS). exists o, i, (bus d). split; [by eapply dev_self|]. by apply fresh_setup.
Qed.

Lemma answered_ready {A} res r s (d2 d : device (A:=A)) :
  at_sel d2 s (answered res r) (HDone res) d -> ready d /\ same_rest d2 d.
Proof.
  intros (o & i & b & -> & Hφ). split; [|by exists s, o, i, b]. exists o, i, (tail (endpoints d2)). split; [done|].
  assert (out_free o /\ in_rest i) as [[(H1 & H2 & H3) [HS Hp]] [(H4 & H5 & H6) Hip]].
  { inversion Hφ as [|? ? ? ? _ Ha]; subst; [done|]. inversion Ha as [|? ? ? ? Ho [Hi _]]; subst. done. }
  split_and!; try done. by rewrite HS.
Qed.

(** C17: The LUFA build answers every request it knows, whatever the timing. The host sends a request packet by packet, tries again
    where the device is not ready, and does so at any moment the code looks at the USB module. Then the
    task never leaves a buffer, the host never sees an error, and if the transfer ends, the
    host has exactly the answer and the device exactly the state the request
    stands for: vendor requests as in [UsbMain], the requests of a HID interface, and the standard requests,
    a new address taking effect after the transfer; the control endpoint is ready for the next
    request. If the host does something each time, the task returns after a bounded number of
    looks, with the transfer complete. (Left out are requests to an endpoint and vendor writes without
    data. SET_CONFIGURATION with the value 0 is the code's: it leaves the state Configured, where the
    USB standard says Addressed.) *)
Theorem lufa_answers {H : Hardware} {K : HotKeys} {L : Leds} {I : UsbIds} {M : Type} {St : Storage M}
    outside macros_storage macro_def_infos CONST_MSG CONSTANT_STORAGE sram_read_byte avr_pgm_read_byte LAYOUT_ID serial
    addr setup ps (es : list nat) (d d2 : device (A:=lufa (M:=M))) res :
  let rq := request_of setup in
  let env := meanwhile addr setup ps in
  let events := lufa_events outside macros_storage macro_def_infos CONST_MSG CONSTANT_STORAGE sram_read_byte avr_pgm_read_byte
                  LAYOUT_ID serial env in
  length setup = 8%nat -> conforms setup ps res -> ready d -> interrupt_quiet d -> ADDR d = addr ->
  USB_DeviceState d <> Unattached -> USB_DeviceState d <> Suspended ->
  lufa_answer outside macros_storage macro_def_infos CONST_MSG CONSTANT_STORAGE sram_read_byte avr_pgm_read_byte
    LAYOUT_ID serial addr setup ps rq (concat ps) (set_request rq d) = Some (res, d2) ->
  let run := USB_USBTask env (L := events) es HSetup d in
  match run with
  | Undefined => False
  | Running h _ => h <> HFailed
  | Returned _ _ h d' => h <> HFailed /\ (forall got, h = HDone got -> got = res /\ ready d' /\ same_rest d2 d')
  end /\
  (Forall (fun q => 1 <= q)%nat es -> (task_bound setup ps <= length es)%nat ->
   exists es' d', run = Returned tt es' (HDone res) d' /\ ready d' /\ same_rest d2 d').
Proof.
  intros rq env events Hlen Hwf Hd Hq Haddr Hst Hsus Hans run. pose proof (ready_fresh setup ps d Hd) as Hfresh.
  set (s := USB_Endpoint_SelectedEndpoint d) in *.
  assert (Phase addr setup ps (A:=lufa (M:=M)) (fresh setup ps)) by (by apply fresh_phase).
  assert (Hspec := fun always => task_answers outside macros_storage macro_def_infos CONST_MSG CONSTANT_STORAGE sram_read_byte avr_pgm_read_byte
    LAYOUT_ID serial addr setup ps always d s res d2 Hlen Haddr Hst Hsus Hq Hans Hwf es HSetup d). split.
  - specialize (Hspec False (fun F : False => match F with end) Hfresh). fold env events run in Hspec.
    destruct run as [[] es' h d'|h d'|]; [|by destruct Hspec as [? _]|done]. destruct Hspec as [[Hp _] _].
    destruct Hp as [(o & i & b & -> & Hφ)|(r & Hd' & Ha)].
    + split; [by eapply (phase_fine (A:=lufa (M:=M)) addr setup ps)|]. intros got ->. inversion Hφ as [|? ? ? ? Hp]; subst. inversion Hp as [? ? ? Hw]; destruct Hw as [(?&?&?)|[(?&?&?)|?]]; congruence.
    + pose proof Hd' as (o & i & b & E & Hφ). split; [by intros ->; inversion Hφ as [|? ? ? ? _ Hac]; inversion Hac|]. intros got ->.
      assert (got = res) as -> by (inversion Hφ as [|? ? ? ? -> Hac]; [done|by inversion Hac]).
      split; [done|]. by eapply answered_ready.
  - intros Hf Hl. specialize (Hspec True (fun _ => Hf) Hfresh). fold env events run in Hspec.
    destruct run as [[] es' h d'|h d'|]; [|destruct Hspec as [_ Hspec]; specialize (Hspec Logic.I); lia|done].
    destruct Hspec as [[_ Hserved] _]. destruct (Hserved Logic.I) as [Hd' ->]. exists es', d'. split; [done|]. by eapply answered_ready.
Qed.

(** ** A run *)

Definition blank_endpoint : endpoint := mkEndpoint (mkStatus false false false false false) false TYPE_DISABLE 0 (repeat 0 64) 0 0.

(** The device after a bus reset. *)
Definition lufa_start (k : Keyboard.keyboard (M:=mem)) : device (A:=lufa (M:=mem)) :=
  let d := mkDevice (repeat (blank_endpoint, blank_endpoint) 4) ENDPOINT_CONTROLEP Idle 0 0 Powered 0 false false (mkVusb 0 0 0 0 0)
             (mkLufa (mkFirmware k 0) (mkHidState false 0 0 0) (mkHidState false 0 0 0) false) in
  USB_BUSEVENT (W := unit) (E := unit)
    (L := lufa_events (I := K84cs_ids) k84_outside 0 macro_def_infos k84_msg sram (memory_of k84_message) (memory_of k84_message) 4 []
            (fun _ w d => (w, d))) false false false true d.

(** The whole device descriptor, for a host that tries once each time. *)
Lemma lufa_answers_witness :
  let events addr setup ps := lufa_events (I := K84cs_ids) k84_outside 0 macro_def_infos k84_msg sram (memory_of k84_message)
    (memory_of k84_message) 4 [] (meanwhile addr setup ps) in
  let run addr setup ps es d := USB_USBTask (meanwhile addr setup ps) (L := events addr setup ps) es HSetup d in
  let get_device := [0x80; 6; 0; 1; 0; 0; 18; 0] in
  let d := lufa_start (k84_board keystate_start ui_start) in
  exists es d', run 0 get_device [] (repeat 1%nat 600) d = Returned tt es (HDone (DeviceDescriptor (I := K84cs_ids))) d' /\ ready d'.
Proof.
  cbv zeta. set (setup := [0x80; _; _; _; _; _; _; _]). set (d := lufa_start _).
  assert (Hf : Forall (fun q => 1 <= q)%nat (repeat 1%nat 600)) by (apply List.Forall_forall; intros x Hx%repeat_spec; lia).
  assert (Hq : interrupt_quiet d) by (intros [|[|[|n]]]; vm_compute; reflexivity).
  assert (Hr : ready d).
  { eexists _, _, _. split; [vm_compute; reflexivity|]. unfold rested; split_and!; vm_compute; reflexivity. }
  destruct (lufa_answers (I := K84cs_ids) k84_outside 0 macro_def_infos k84_msg sram (memory_of k84_message) (memory_of k84_message) 4 []
    0 setup [] (repeat 1%nat 600) d (set_request (request_of setup) d) (DeviceDescriptor (I := K84cs_ids))) as [_ Hlive];
    [reflexivity|vm_compute; split; congruence|exact Hr|exact Hq|reflexivity|vm_compute; discriminate|vm_compute; discriminate|vm_compute; reflexivity|].
  destruct (Hlive Hf) as (es & d' & E & Hd' & _); [vm_compute; lia|]. exists es, d'. split; [exact E|exact Hd'].
Defined.
