(* ===== verification/LufaReports.v ===== *)
(** * lufa/LUFA/Drivers/USB/Class/Device/HIDClassDevice.c: the reports on the wire

    The interrupt endpoint of a HID interface: a host that polls it, at least
    once in [limit] frames, against [HID_Device_USBTask], whatever the timing.  What the host
    has heard and what still waits in the endpoint are together what the
    firmware has said. *)

From Stdlib Require Import String.
From S2P Require Import Prelude Descriptors Sort Hid ExtraReport Printing Hardware K84cs Keystate KeystateReports.
From S2P Require Import KeystateProofs MacroIndex Storage Macro Config Interpreter Keyboard KeyboardProofs KeyboardProps.
From S2P Require Import UsbMain UsbWire XmegaUsb UsbStream LufaDevice UsbStreamProofs LufaMain LufaMainProofs.
Open Scope Z_scope.
Open Scope proc_scope.

(** ** The host *)

(** What it has heard, the token it expects, and how many frames it may still wait. *)
Record listener := mkListener { heard : list (list Z); expects : Z; patience : nat }.

(** Fewer frames than [USB_STREAM_TIMEOUT_MS], which the stream waits for. *)
Abbreviation limit := 98%nat.

Inductive bus_event := Poll | Frame.

Section Listener.
Context {A : Type} (addr : Z) (n : nat) (start_of_frame : device (A:=A) -> device (A:=A)).
Abbreviation device := (device (A:=A)).

(** A transaction; a packet with another token than the expected one is one the host has. *)
Definition poll_endpoint (w : listener) (d : device) : listener * device :=
  let '(r, d) := wire (Token USBPID_IN addr (Z.of_nat n)) d in
  match r with
  | Sends pid bytes =>
      (if pid =? expects w then mkListener (heard w ++ [bytes]) (toggle pid) limit else mkListener (heard w) (expects w) limit,
       (wire (Shake USBPID_ACK) d).2)
  | _ => (mkListener (heard w) (expects w) limit, d)
  end.

(** A frame begins; the code of the firmware runs in the interrupt. *)
Definition next_number (frame : Z) : Z := (frame + 1) mod 2048.
Definition next_frame (w : listener) (d : device) : listener * device :=
  (mkListener (heard w) (expects w) (Nat.pred (patience w)), start_of_frame (set_frame (next_number (FrameNum d)) d)).

Definition listen (e : bus_event) (w : listener) (d : device) : listener * device :=
  match e with
  | Poll => poll_endpoint w d
  | Frame => let '(w, d) := if (patience w =? 0)%nat then poll_endpoint w d else (w, d) in next_frame w d
  end.

(** ** The endpoint *)

Context (tick : A -> A) (start_app : forall d, start_of_frame d = set_dev_app (tick (dev_app d)) d).

Abbreviation ep := (mkAddress n true).
Definition in_ep (d : device) : endpoint := get_endpoint ep d.

Lemma get_put e (d : device) : (n < length (endpoints d))%nat -> in_ep (put_endpoint ep e d) = e.
Proof.
  intros Hn. unfold in_ep, put_endpoint, get_endpoint. cbn [ep_number ep_in]. destruct (endpoints d !!! n) as [o i].
  cbn [endpoints set_endpoints]. by rewrite list_lookup_total_insert_eq.
Qed.

Lemma put_length e (d : device) : length (endpoints (put_endpoint ep e d)) = length (endpoints d).
Proof. unfold put_endpoint. destruct (_ !!! _). cbn. by rewrite length_insert. Qed.

(** The report in the endpoint, and all that has been said. *)
Definition waiting (d : device) : list (list Z) :=
  if BUSNACK0 (STATUS (in_ep d)) then [] else [take (Z.to_nat (CNT (in_ep d))) (FIFO_Data (in_ep d))].
Definition said (w : listener) (d : device) : list (list Z) := heard w ++ waiting d.

(** The endpoint is configured, and the host is in step with it. *)
Record connected (w : listener) (d : device) : Prop := {
  conn_up : USB_DeviceState d = Configured;
  conn_addr : ADDR d = addr;
  conn_length : (n < length (endpoints d))%nat;
  conn_type : TYPE (in_ep d) = TYPE_BULK;
  conn_stall : STALL (in_ep d) = false;
  conn_fifo : length (FIFO_Data (in_ep d)) = 64%nat;
  conn_size : FIFO_Length (in_ep d) = 8;
  conn_token : data_pid (STATUS (in_ep d)) = expects w;
  conn_patience : (patience w <= limit)%nat
}.

(** Selection, application and position are not the host's. *)
Definition untouched (d d' : device) : Prop :=
  USB_Endpoint_SelectedEndpoint d' = USB_Endpoint_SelectedEndpoint d /\
  FIFO_Position (in_ep d') = FIFO_Position (in_ep d) /\ FIFO_Data (in_ep d') = FIFO_Data (in_ep d).

Lemma poll_spec w d :
  connected w d ->
  let '(w', d') := poll_endpoint w d in
  connected w' d' /\ said w' d' = said w d /\ untouched d d' /\ dev_app d' = dev_app d /\ FrameNum d' = FrameNum d /\
  BUSNACK0 (STATUS (in_ep d')) = true /\ patience w' = limit.
Proof.
  intros [H1 H2 H3 H4 H5 H6 H7 H8 H9]. unfold poll_endpoint, wire, module_wire, module_packet. rewrite H2, Z.eqb_refl, Nat2Z.id.
  unfold module_token. cbn [Z.eqb Pos.eqb]. fold (in_ep d). rewrite H4, H5.
  destruct (BUSNACK0 (STATUS (in_ep d))) eqn:Hb.
  - split; [by split|]. unfold said, waiting. change (in_ep (set_bus Idle d)) with (in_ep d). rewrite Hb. by split_and!.
  - rewrite H8, Z.eqb_refl. cbn [bus set_bus fst snd]. cbn [Z.eqb Pos.eqb].
    change (get_endpoint ep (set_bus (AwaitAck n) d)) with (in_ep d).
    set (e := set_status _ (in_ep d)).
    set (d' := set_bus Idle _).
    assert (Hin : in_ep d' = e) by (apply (get_put e (set_bus (AwaitAck n) d) H3)).
    assert (length (endpoints d') = length (endpoints d)) as Hlen by (apply (put_length e (set_bus (AwaitAck n) d))).
    assert (Hrest : USB_DeviceState d' = USB_DeviceState d /\ ADDR d' = ADDR d /\ dev_app d' = dev_app d /\ FrameNum d' = FrameNum d /\
      USB_Endpoint_SelectedEndpoint d' = USB_Endpoint_SelectedEndpoint d).
    { subst d'. unfold put_endpoint. by destruct (_ !!! _). }
    destruct Hrest as (R1 & R2 & R3 & R4 & R5).
    split; [split|]; rewrite ?Hin, ?Hlen, ?R1, ?R2; try done.
    + rewrite <- H8. subst e. cbn [STATUS set_status]. unfold data_pid. cbn. by destruct (TOGGLE _).
    + unfold said, waiting, untouched. rewrite Hin, Hb, R3, R4, R5. cbn. by rewrite app_nil_r.
Qed.

(** An event: if the endpoint still waits afterwards, no more than one frame has passed. *)
Lemma listen_spec e w d :
  connected w d ->
  let '(w', d') := listen e w d in
  connected w' d' /\ said w' d' = said w d /\ untouched d d' /\
  (dev_app d' = dev_app d /\ FrameNum d' = FrameNum d \/ dev_app d' = tick (dev_app d) /\ FrameNum d' = next_number (FrameNum d)) /\
  (BUSNACK0 (STATUS (in_ep d)) = true -> BUSNACK0 (STATUS (in_ep d')) = true) /\
  (BUSNACK0 (STATUS (in_ep d')) = false -> S (patience w') = patience w).
Proof.
  intros Hc. destruct e; cbn [listen].
  - pose proof (poll_spec w d Hc) as Hp. destruct (poll_endpoint w d) as [w' d'].
    destruct Hp as (H1 & H2 & H3 & H4 & H5 & H6 & H7). rewrite H6. split_and!; first [done|apply H3|by left].
  - assert (Hframe : forall w d, connected w d -> let '(w', d') := next_frame w d in
      connected w' d' /\ said w' d' = said w d /\ untouched d d' /\ (dev_app d' = tick (dev_app d) /\ FrameNum d' = next_number (FrameNum d)) /\
      STATUS (in_ep d') = STATUS (in_ep d) /\ patience w' = Nat.pred (patience w)).
    { intros w1 d1 [H1 H2 H3 H4 H5 H6 H7 H8 H9]. unfold next_frame. rewrite start_app.
      split; [|done]. split; try done. cbn. lia. }
    destruct (Nat.eqb_spec (patience w) 0) as [E|E].
    + pose proof (poll_spec w d Hc) as Hp. destruct (poll_endpoint w d) as [w1 d1].
      destruct Hp as (H1 & H2 & (U1 & U2 & U3) & H4 & H5 & H6 & H7).
      specialize (Hframe w1 d1 H1). destruct (next_frame w1 d1) as [w' d'].
      destruct Hframe as (F1 & F2 & (V1 & V2 & V3) & F4 & F5 & F6). unfold untouched. rewrite F5, H6.
      destruct F4 as [F4 F7]. split_and!; try congruence. right. split; congruence.
    + specialize (Hframe w d Hc). destruct (next_frame w d) as [w' d'].
      destruct Hframe as (F1 & F2 & F3 & F4 & F5 & F6). rewrite F5. split; [done|]. split; [done|]. split; [exact F3|].
      split; [by right|]. split; [done|lia].
Qed.

(** *** Triples with a bound on time *)

Abbreviation proc := (proc (A:=A) (W:=listener) (E:=bus_event)).

Definition timed {X} (k : nat) (P : listener -> device -> Prop) (m : proc X) (Q : X -> listener -> device -> Prop) : Prop :=
  spec (fun _ => True) True (fun _ => True) k P m Q.

Lemma timed_look {X} (f : device -> X * device) (P R : listener -> device -> Prop) (Q : X -> listener -> device -> Prop) :
  (forall e w d, P w d -> let '(w', d') := listen e w d in R w' d') ->
  (forall w d, R w d -> let '(x, d') := f d in Q x w d') -> timed 1 P (look listen f) Q.
Proof. intros He Hf. eapply spec_look; [done| |exact Hf]. intros e w d Hp _. specialize (He e w d Hp). by destruct (listen e w d). Qed.

(** *** The task of the interface *)

Section Task.
Context (hid : hid_interface A) (prev : A -> list Z) (put : list Z -> A -> A).
Context (Hprev : PrevReportINBuffer hid = Some (prev, put)) (Hn : ReportINEndpoint hid = n).
Context (prev_tick : forall a, prev (tick a) = prev a) (prev_state : forall s a, prev (set_State hid s a) = prev a).
Context (prev_put : forall data a, length data = 8%nat -> prev (put data a) = data).
Context (report : A -> list Z) (report_tick : forall a, report (tick a) = report a).
Context (frame_tick : forall a, PrevFrameNum (State hid (tick a)) = PrevFrameNum (State hid a)).
Context (create : forall a, exists force a',
  CreateHIDReport hid 0 0 (repeat 0 (PrevReportINBufferSize hid)) a = (force, 0, report a, 8%nat, a') /\
  length (report a) = 8%nat /\ prev a' = prev a).

(** The selection, the position in the buffer, what has been said, and the last report. *)
Record holds (s : ep_address) (base : list (list Z)) (v : list Z) (w : listener) (d : device) : Prop := {
  holds_connected : connected w d;
  holds_selected : USB_Endpoint_SelectedEndpoint d = s;
  holds_position : FIFO_Position (in_ep d) = 0;
  holds_said : said w d = base;
  holds_prev : prev (dev_app d) = v
}.

Abbreviation free d := (BUSNACK0 (STATUS (in_ep d))).

Lemma holds_listen s base v e w d :
  holds s base v w d ->
  let '(w', d') := listen e w d in
  holds s base v w' d' /\ (free d = true -> free d' = true) /\ (free d' = false -> S (patience w') = patience w).
Proof.
  intros [H1 H2 H3 H4 H5]. pose proof (listen_spec e w d H1) as Hl. destruct (listen e w d) as [w' d'].
  destruct Hl as (L1 & L2 & (L3 & L4 & _) & L5 & L6 & L7). split; [|done]. split; [done|congruence|congruence|congruence|].
  destruct L5 as [[-> _]|[-> _]]; [done|]. by rewrite prev_tick.
Qed.

Lemma timed_see {X} (f : device -> X) s base v :
  timed 1 (holds s base v) (look listen (fun d => (f d, d))) (fun x w d => holds s base v w d /\ x = f d).
Proof.
  apply (timed_look _ _ (holds s base v)); [|done]. intros e w d Hd. pose proof (holds_listen s base v e w d Hd) as Hl.
  destruct (listen e w d). by destruct Hl as [Hl _].
Qed.

(** An endpoint that still waits will be free before the stream gives up. *)
Definition waits (base : list (list Z)) (v : list Z) (k : nat) (rem : Z) (w : listener) (d : device) : Prop :=
  holds ep base v w d /\ (free d = false -> (patience w <= k)%nat /\ Z.of_nat (patience w) + 2 <= rem).

Lemma IsINReady_ep (d : device) : USB_Endpoint_SelectedEndpoint d = ep -> Endpoint_IsINReady d = (free d, d).
Proof.
  intros Hs. unfold Endpoint_IsINReady, select_direction, Endpoint_SelectEndpoint. rewrite Hs. cbn [ep_number].
  assert (set_selected ep d = d) as -> by (destruct d; cbn in *; by subst). unfold selected. by rewrite Hs.
Qed.

(** After a look that finds the endpoint busy: whatever happens next, there is time left. *)
Definition busy base v k rem w d : Prop := ((1 <= k)%nat /\ 3 <= rem <= 100) /\ waits base v (k - 1) (rem - 1) w d.

Lemma busy_listen base v k rem e w d : busy base v k rem w d -> let '(w', d') := listen e w d in busy base v k rem w' d'.
Proof.
  intros [Hk [Hd Hw]]. pose proof (holds_listen ep base v e w d Hd) as Hl. destruct (listen e w d) as [w' d'].
  destruct Hl as (H1 & H2 & H3). split; [done|]. split; [done|]. intros Hf. specialize (H3 Hf).
  assert (free d = false) as Hfd by (destruct (free d); [by rewrite H2 in Hf|done]). specialize (Hw Hfd). lia.
Qed.

Lemma busy_see {X} (f : device -> X) base v k rem :
  timed 1 (busy base v k rem) (look listen (fun d => (f d, d))) (fun x w d => busy base v k rem w d /\ x = f d).
Proof. apply (timed_look _ _ (busy base v k rem)); [|done]. intros e w d. apply busy_listen. Qed.

Lemma ready_round_spec base v k frame rem :
  timed 3 (fun w d => rem <= 100 /\ waits base v k rem w d) (ready_round listen (frame, rem))
    (fun r w d => match r with
                  | inl (_, rem') => exists k', (rem' <= 100 /\ waits base v k' rem' w d) /\ (True -> (k' < k)%nat)
                  | inr e => (holds ep base v w d /\ free d = true) /\ e = NoError
                  end).
Proof.
  unfold ready_round. eapply (spec_bind _ _ _ 0 3) with (R := fun dir w d => dir = true /\ rem <= 100 /\ waits base v k rem w d).
  { apply spec_get. intros w d (Hr & Hd & Hw). split; [|done]. unfold Endpoint_GetEndpointDirection. by rewrite (holds_selected _ _ _ _ _ Hd). }
  intros dir. apply spec_pure. intros ->.
  eapply (spec_bind _ _ _ 1 2) with (R := fun r w d => if r : bool then holds ep base v w d /\ free d = true else busy base v k rem w d).
  { eapply timed_look with (R := fun w d => if free d then holds ep base v w d else busy base v k rem w d).
    - intros e w d (Hr & Hd & Hw). pose proof (holds_listen ep base v e w d Hd) as Hl. destruct (listen e w d) as [w' d'].
      destruct Hl as (H1 & H2 & H3). destruct (free d') eqn:Hf; [done|]. specialize (H3 eq_refl).
      assert (free d = false) as Hfd by (destruct (free d); [by rewrite H2|done]). specialize (Hw Hfd).
      split; [lia|]. split; [done|]. lia.
    - intros w d Hd. rewrite IsINReady_ep; [by destruct (free d)|].
      destruct (free d); [exact (holds_selected _ _ _ _ _ Hd)|]. destruct Hd as [_ [Hd _]]. exact (holds_selected _ _ _ _ _ Hd). }
  intros [|]; [by apply spec_ret|].
  eapply (spec_bind _ _ _ 1 1); [apply busy_see|]. intros st.
  eapply (spec_bind _ _ _ 0 1) with (R := fun stalled w d => busy base v k rem w d /\ st = Configured /\ stalled = false).
  { apply spec_get. intros w d [Hb ->]. split; [done|]. destruct Hb as [_ [[[] Hs] _]]. split; [done|].
    unfold Endpoint_IsStalled, selected. by rewrite Hs. }
  intros stalled. eapply (spec_bind _ _ _ 1 0) with (R := fun _ w d => busy base v k rem w d /\ st = Configured /\ stalled = false).
  { apply (timed_look _ _ (fun w d => busy base v k rem w d /\ st = Configured /\ stalled = false)); [|done].
    intros e w d [Hb Hst]. pose proof (busy_listen base v k rem e w d Hb) as Hl. destruct (listen e w d) as [w' d'].
    split; [exact Hl|exact Hst]. }
  intros current. apply spec_ret. intros w d (Hb & -> & ->). destruct Hb as [Hk [Hd Hw]].
  destruct (current =? frame).
  - exists (k - 1)%nat. split; [|lia]. split; [lia|]. split; [done|]. intros Hf. specialize (Hw Hf). lia.
  - destruct (Z.eqb_spec rem 0) as [E|E]; [lia|]. exists (k - 1)%nat. split; [|lia].
    rewrite u8_small by (unfold is_u8; lia). split; [lia|]. split; [done|]. intros Hf. specialize (Hw Hf). lia.
Qed.

Lemma wait_ready base v :
  timed 297 (holds ep base v) (Endpoint_WaitUntilReady listen) (fun e w d => (holds ep base v w d /\ free d = true) /\ e = NoError).
Proof.
  unfold Endpoint_WaitUntilReady. eapply (spec_bind _ _ _ 0 297) with (R := fun _ => holds ep base v); [by apply spec_get|].
  intros frame. eapply spec_weaken with (n := (3 * 99)%nat).
  - apply (spec_loop _ _ _ _ 3 (fun k x w d => x.2 <= 100 /\ waits base v k x.2 w d) _ (ready_looks _)) with (k := 98%nat).
    intros k [f rem]. cbn [snd]. eapply spec_weaken; [apply (ready_round_spec base v k f rem)|done|intros w d Hx; exact Hx|].
    intros [[f' rem']|e] w d Hx; exact Hx.
  - lia.
  - intros w d Hd. cbn [snd]. split; [lia|]. split; [done|]. intros _. pose proof (conn_patience _ _ (holds_connected _ _ _ _ _ Hd)). lia.
  - done.
Qed.

(** *** The stream *)

Lemma put_put e e' (d : device) : put_endpoint ep e (put_endpoint ep e' d) = put_endpoint ep e d.
Proof.
  unfold put_endpoint. destruct (endpoints d !!! n) as [o i] eqn:E. cbn [set_endpoints endpoints ep_number ep_in].
  destruct (decide (n < length (endpoints d))%nat) as [Hl|Hl].
  - rewrite list_lookup_total_insert_eq by done. unfold set_endpoints. cbn. by rewrite list_insert_insert_eq.
  - rewrite !(list_insert_ge _ n) by lia. rewrite E. unfold set_endpoints. cbn. by rewrite !(list_insert_ge _ n) by lia.
Qed.

Lemma put_rest e (d : device) :
  let d' := put_endpoint ep e d in
  USB_DeviceState d' = USB_DeviceState d /\ ADDR d' = ADDR d /\ dev_app d' = dev_app d /\
  USB_Endpoint_SelectedEndpoint d' = USB_Endpoint_SelectedEndpoint d.
Proof. unfold put_endpoint. by destruct (_ !!! _). Qed.

Lemma put_own (d : device) : put_endpoint ep (in_ep d) d = d.
Proof.
  unfold put_endpoint, in_ep, get_endpoint. cbn [ep_number ep_in]. destruct (endpoints d !!! n) as [o i] eqn:E.
  assert (<[n:=(o, i)]> (endpoints d) = endpoints d) as Hid.
  { apply list_insert_id'. intros Hl. by rewrite list_lookup_lookup_total_lt, E. }
  unfold set_endpoints. rewrite Hid. by destruct d.
Qed.

Lemma change_ep f (d : device) : USB_Endpoint_SelectedEndpoint d = ep -> change f d = put_endpoint ep (f (in_ep d)) d.
Proof. intros Hs. unfold change, selected. by rewrite Hs. Qed.

(** A loop that moves bytes from a stream fills the packet while there is room. *)
Lemma fill_report (body : list Z * Z -> proc (list Z * Z + stream_error)) :
  (forall stream es w d, body (stream, 0) es w d = Returned (inr NoError) es w d) ->
  (forall b stream len es w d d', len <> 0 -> Endpoint_IsReadWriteAllowed d = true -> Endpoint_Write_8 b d = Some d' ->
   body (b :: stream, len) es w d = Returned (inl (stream, len - 1)) es w d') ->
  forall rest got fuel es (w : listener) (d : device),
  USB_Endpoint_SelectedEndpoint d = ep -> (n < length (endpoints d))%nat -> FIFO_Position (in_ep d) = Z.of_nat (length got) ->
  take (length got) (FIFO_Data (in_ep d)) = got -> length (FIFO_Data (in_ep d)) = 64%nat -> FIFO_Length (in_ep d) = 8 ->
  (length got + length rest <= 8)%nat -> (length rest < fuel)%nat ->
  exists data, take (length (got ++ rest)) data = got ++ rest /\ length data = 64%nat /\
  repeat_ fuel body (rest, Z.of_nat (length rest)) es w d
  = Returned NoError es w (put_endpoint ep (set_fifo data (Z.of_nat (length (got ++ rest))) (in_ep d)) d).
Proof.
  intros Hend Hstep. induction rest as [|b rest IH]; intros got [|fuel] es w d Hs Hl Hp Ht Hf Hsize Hroom Hfuel; cbn [length] in *; try lia.
  - exists (FIFO_Data (in_ep d)). rewrite app_nil_r. split; [done|]. split; [done|]. cbn [repeat_]. unfold bind.
    rewrite Hend. cbn. do 2 f_equal. rewrite <- Hp. assert (set_fifo (FIFO_Data (in_ep d)) (FIFO_Position (in_ep d)) (in_ep d) = in_ep d) as ->
      by (by destruct (in_ep d)). by rewrite put_own.
  - set (d1 := put_endpoint ep (set_fifo (<[length got := b]> (FIFO_Data (in_ep d))) (Z.of_nat (S (length got))) (in_ep d)) d).
    assert (Hin : in_ep d1 = set_fifo (<[length got := b]> (FIFO_Data (in_ep d))) (Z.of_nat (S (length got))) (in_ep d)) by (by apply get_put).
    destruct (IH (got ++ [b]) fuel es w d1) as (data & H1 & H2 & H3).
    + unfold d1. by destruct (put_rest (set_fifo (<[length got := b]> (FIFO_Data (in_ep d))) (Z.of_nat (S (length got))) (in_ep d)) d) as (_ & _ & _ & ->).
    + unfold d1. by rewrite put_length.
    + rewrite Hin, length_app. cbn. lia.
    + rewrite Hin, length_app. cbn [FIFO_Data set_fifo length]. rewrite Nat.add_1_r.
      rewrite (take_S_r _ _ b) by (apply list_lookup_insert_eq; lia). by rewrite take_insert_ge, Ht by lia.
    + rewrite Hin. cbn. by rewrite length_insert.
    + by rewrite Hin.
    + rewrite length_app. cbn. lia.
    + lia.
    + exists data. rewrite <- app_assoc in H1, H3. split; [exact H1|]. split; [done|]. cbn [repeat_]. unfold bind.
      rewrite (Hstep b rest (Z.of_nat (S (length rest))) es w d d1); [|lia| |].
      * replace (Z.of_nat (S (length rest)) - 1) with (Z.of_nat (length rest)) by lia. rewrite H3, Hin. unfold d1 at 1. by rewrite put_put.
      * unfold Endpoint_IsReadWriteAllowed, selected. rewrite Hs. fold (in_ep d). lia.
      * unfold Endpoint_Write_8, selected. rewrite Hs. fold (in_ep d). rewrite Hp, Nat2Z.id.
        rewrite (proj2 (Nat.ltb_lt _ _)) by lia. unfold d1. rewrite (change_ep _ d Hs). do 2 f_equal. rewrite u8_small by (unfold is_u8; lia). f_equal. lia.
Qed.

(** The whole report is a packet. *)
Context {L : LufaEvents A listener bus_event}.

Lemma write_report base v data : length data = 8%nat ->
  timed 297 (holds ep base v)
    (_ <- Endpoint_Write_Stream_LE listen data 8;; act Endpoint_ClearIN) (fun _ => holds ep (base ++ [data]) v).
Proof.
  intros Hdata es w d Hes Hd. pose proof (wait_ready base v es w d Hes Hd) as Hw. unfold bind at 1. unfold Endpoint_Write_Stream_LE, bind at 1.
  destruct (Endpoint_WaitUntilReady listen es w d) as [e es' w' d'|w' d'|]; [|exact Hw|done].
  destruct Hw as ([[Hd' Hfree] ->] & Hrest). destruct Hd' as [[C1 C2 C3 C4 C5 C6 C7 C8 C9] H2 H3 H4 H5].
  match goal with |- context [repeat_ _ ?body _ _ _ _] => destruct (fill_report body) with (rest := data) (got := @nil Z)
    (fuel := S (length es' + Z.to_nat 8)) (es := es') (w := w') (d := d') as (bytes & F1 & F2 & F3) end; try done.
  - intros b stream len es1 w1 d1 d2 Hlen Hallowed Hwrite. rewrite (proj2 (Z.eqb_neq _ _) Hlen). unfold bind, get, bounded. rewrite Hallowed.
    cbn [byte_to_endpoint]. by rewrite Hwrite.
  - by rewrite Hdata.
  - rewrite Hdata. lia.
  - rewrite Hdata in F3. cbn [app] in F1, F3. rewrite Hdata in F1, F3. change (Z.of_nat 8) with 8 in F3. rewrite F3.
    split; [|exact Hrest]. cbn.
    set (d1 := put_endpoint ep _ d').
    assert (Hin : in_ep d1 = set_fifo bytes 8 (in_ep d')) by (by apply get_put).
    assert (Hsel : USB_Endpoint_SelectedEndpoint d1 = ep) by (unfold d1; by edestruct put_rest as (_ & _ & _ & ->)).
    unfold Endpoint_ClearIN. rewrite (change_ep _ d1 Hsel), Hin. unfold d1. rewrite put_put. clear d1 F3 Hin Hsel.
    set (e := set_fifo _ 0 _). destruct (put_rest e d') as (R1 & R2 & R3 & R4).
    assert (Hin : in_ep (put_endpoint ep e d') = e) by (by apply get_put).
    split; rewrite ?Hin, ?R3, ?R4; try done.
    + split; rewrite ?Hin, ?R1, ?R2, ?put_length; done.
    + unfold said, waiting. rewrite Hin. unfold e. cbn [STATUS set_fifo set_status clear_flags BUSNACK0 CNT set_cnt FIFO_Position FIFO_Data].
      change (Z.to_nat 8) with 8%nat. rewrite F1. rewrite <- H4. unfold said, waiting. by rewrite Hfree, app_nil_r.
Qed.

Lemma holds_app s base v v' a w d : holds s base v w d -> prev a = v' -> holds s base v' w (set_dev_app a d).
Proof. intros [[] H2 H3 H4 H5] Ha. split; [by split|done..]. Qed.

Lemma holds_update s base v f w d : holds s base v w d -> holds s base v w (hid_update hid f d).
Proof. intros Hd. eapply holds_app; [exact Hd|]. rewrite prev_state. exact (holds_prev _ _ _ _ _ Hd). Qed.

(** The second half of the task: the report is remembered, and written if it is due. *)
Lemma send_spec base v (due : bool) data : length data = 8%nat ->
  timed 298 (holds ep base v)
    (act (remember_report hid data);;;
     (if due then
        act (hid_update hid (fun s => mkHidState (UsingReportProtocol s) (PrevFrameNum s) (IdleCount s) (IdleCount s)));;;
        act (Endpoint_SelectEndpoint ep);;;
        (if negb (0 =? 0) then write_byte 0 else ret tt);;;
        _ <- Endpoint_Write_Stream_LE listen data (Z.of_nat 8);;
        act Endpoint_ClearIN
      else ret tt);;;
     frame <- look listen (fun d => (USB_Device_GetFrameNumber d, d));;
     act (hid_update hid (fun s => mkHidState (UsingReportProtocol s) frame (IdleCount s) (IdleMSRemaining s))))
    (fun _ w d => exists base', holds (USB_Endpoint_SelectedEndpoint d) base' data w d /\ base' = if due then base ++ [data] else base).
Proof.
  intros Hdata. eapply (spec_bind _ _ _ 0 298) with (R := fun _ => holds ep base data).
  { apply spec_act. intros w d Hd. unfold remember_report. rewrite Hprev. eapply holds_app; [exact Hd|]. by apply prev_put. }
  intros _. eapply (spec_bind _ _ _ 297 1) with (R := fun _ => holds ep (if due then base ++ [data] else base) data).
  { destruct due; [|by apply spec_ret]. cbn [negb Z.eqb].
    eapply (spec_bind _ _ _ 0 297) with (R := fun _ => holds ep base data).
    { apply spec_act. intros w d Hd. by apply holds_update. }
    intros _. eapply (spec_bind _ _ _ 0 297) with (R := fun _ => holds ep base data).
    { apply spec_act. intros w d [[] H2 H3 H4 H5]. split; [by split|done..]. }
    intros _. eapply (spec_bind _ _ _ 0 297) with (R := fun _ => holds ep base data); [by apply spec_ret|].
    intros _. by apply write_report. }
  intros _. eapply (spec_bind _ _ _ 1 0); [apply timed_see|].
  intros now. apply spec_act. intros w d [Hd _]. eexists. split; [|reflexivity].
  change (USB_Endpoint_SelectedEndpoint _) with (USB_Endpoint_SelectedEndpoint d). rewrite (holds_selected _ _ _ _ _ Hd).
  apply holds_update. exact Hd.
Qed.

(** At the start of the task: the report that is due, the frame of the last one, and how many frames have begun since. *)
Definition starts (d0 : device) (j : nat) (s : ep_address) base v (w : listener) (d : device) : Prop :=
  holds s base v w d /\ report (dev_app d) = report (dev_app d0) /\
  PrevFrameNum (State hid (dev_app d)) = PrevFrameNum (State hid (dev_app d0)) /\
  exists k, (k <= j)%nat /\ FrameNum d = Nat.iter k next_number (FrameNum d0).

Lemma starts_see {X} (f : device -> X) d0 j s base v :
  timed 1 (starts d0 j s base v) (look listen (fun d => (f d, d))) (fun x w d => starts d0 (S j) s base v w d /\ x = f d).
Proof.
  apply (timed_look _ _ (starts d0 (S j) s base v)); [|done]. intros e w d (Hd & Hr & Hp & k & Hk & Hf).
  pose proof (holds_listen s base v e w d Hd) as Hl. pose proof (listen_spec e w d (holds_connected _ _ _ _ _ Hd)) as Hs.
  destruct (listen e w d) as [w' d']. destruct Hl as [Hl _]. destruct Hs as (_ & _ & _ & [[Ha Hn']|[Ha Hn']] & _).
  - split; [done|]. rewrite Ha, Hn'. split; [done|]. split; [done|]. exists k. split; [lia|done].
  - split; [done|]. rewrite Ha, Hn', report_tick, frame_tick. split; [done|]. split; [done|]. exists (S k). split; [lia|]. cbn. by rewrite Hf.
Qed.

(** What the task leaves: the last report is the one that was due; unless the host had been told the same
    before, it comes last. Or there has been a report in this frame already. *)
Definition told (d0 : device) (base : list (list Z)) (v : list Z) (w : listener) (d : device) : Prop :=
  exists base' v', holds (USB_Endpoint_SelectedEndpoint d) base' v' w d /\
  ((exists k, (k <= 2)%nat /\ PrevFrameNum (State hid (dev_app d0)) = Nat.iter k next_number (FrameNum d0)) /\ base' = base /\ v' = v \/
   v' = report (dev_app d0) /\ (base' = base /\ v' = v \/ base' = base ++ [v'])).

Lemma report_task_spec d0 s base v : length v = 8%nat ->
  timed 300 (starts d0 0 s base v) (HID_Device_USBTask listen hid) (fun _ => told d0 base v).
Proof.
  intros Hv. unfold HID_Device_USBTask. rewrite Hn.
  eapply (spec_bind _ _ _ 1 299); [apply (starts_see USB_DeviceState)|].
  intros st. eapply spec_weaken with (P := fun w d => st = Configured /\ starts d0 1 s base v w d);
    [|reflexivity|intros w d [Hd ->]; split; [apply (holds_connected _ _ _ _ _ (proj1 Hd))|done]|intros x w d Hx; exact Hx].
  apply spec_pure. intros ->. cbn [negb bool_decide].
  eapply (spec_bind _ _ _ 1 298); [apply (starts_see USB_Device_GetFrameNumber)|].
  intros frame. eapply (spec_bind _ _ _ 0 298) with (R := fun last w d => (last = frame -> exists k, (k <= 2)%nat /\
      PrevFrameNum (State hid (dev_app d0)) = Nat.iter k next_number (FrameNum d0)) /\
      holds s base v w d /\ report (dev_app d) = report (dev_app d0)).
  { apply spec_get. intros w d [(Hd & Hr & Hp & k & Hk & Hf) ->]. split; [|done]. intros E. exists k. split; [done|].
    rewrite <- Hp, E. exact Hf. }
  intros last. apply spec_pure. intros Hlast. destruct (Z.eqb_spec last frame) as [E|_].
  { apply spec_ret. intros w d [Hd _]. exists base, v. rewrite (holds_selected _ _ _ _ _ Hd). split; [done|]. left. auto. }
  eapply (spec_bind _ _ _ 0 298) with (R := fun _ w d => holds ep base v w d /\ report (dev_app d) = report (dev_app d0)).
  { apply spec_act. intros w d [[[] H2 H3 H4 H5] Hr]. split; [|done]. split; [by split|done..]. }
  intros _. eapply (spec_bind _ _ _ 0 298) with (R := fun allowed w d => allowed = true /\ holds ep base v w d /\ report (dev_app d) = report (dev_app d0)).
  { apply spec_get. intros w d [Hd Hr]. split; [|done]. destruct Hd as [[] H2 H3 H4 H5]. unfold Endpoint_IsReadWriteAllowed, selected.
    rewrite H2. fold (in_ep d). lia. }
  intros allowed. apply spec_pure. intros ->. cbn [negb].
  eapply (spec_bind _ _ _ 0 298) with (R := fun made w d =>
    let '(force, id, data, size) := made in (id = 0 /\ size = 8%nat /\ data = report (dev_app d0) /\ length data = 8%nat) /\ holds ep base v w d).
  { apply spec_det. intros es w d [Hd Hr]. unfold create_report. destruct (create (dev_app d)) as (force & a & E & Hdata & Ha).
    rewrite E. eexists _, _. split; [reflexivity|]. split; [done|]. eapply holds_app; [exact Hd|]. rewrite Ha. exact (holds_prev _ _ _ _ _ Hd). }
  intros [[[force id] data] size]. apply spec_pure. intros (-> & -> & Hnew & Hdata).
  eapply (spec_bind _ _ _ 0 298) with (R := fun due w d => (due = false -> data = v) /\ holds ep base v w d).
  { apply spec_get. intros w d Hd. split; [|done]. unfold report_due. rewrite Hprev, (holds_prev _ _ _ _ _ Hd), !take_ge by lia.
    destruct (bool_decide_reflect (data = v)); [done|]. cbn. by rewrite orb_true_r. }
  intros due. apply spec_pure. intros Hsame.
  eapply spec_weaken; [apply (send_spec base v due data Hdata)|done|done|]. 
  intros _ w d (base' & Hd & Hb). eexists base', data. split; [exact Hd|]. right. rewrite <- Hnew. split; [done|].
  destruct due; [by right|]. rewrite Hsame by done. by left.
Qed.
End Task.
End Listener.

(** ** The keyboard *)

Section Keyboard.
Context {H : Hardware} {K : HotKeys} {L : Leds} {I : UsbIds} {M : Type} {St : Storage M}.
Context (outside : Z -> Z) (macros_storage : Z) (macro_def_infos : list macro_def_info).
Context (CONST_MSG : string -> Z) (CONSTANT_STORAGE : storage_type) (sram_read_byte avr_pgm_read_byte : Z -> Z).
Context (LAYOUT_ID : Z) (serial : list Z).

Abbreviation lufa := (lufa (M:=M)).
Abbreviation device := (device (A:=lufa)).
Abbreviation fill := (Fill_KeyboardReport (M:=M) outside sram_read_byte avr_pgm_read_byte).
Abbreviation Keyboard := (Keyboard_interface (M:=M) outside sram_read_byte avr_pgm_read_byte).

Lemma report_bytes_inv bs : (2 <= length bs)%nat -> keyboard_report_bytes (report_of_bytes bs) = bs.
Proof. destruct bs as [|b [|c bs]]; cbn [length]; try lia. intros _. unfold keyboard_report_bytes, report_of_bytes. cbn. by rewrite drop_0. Qed.

(** What the start of a frame does to the application. *)
Definition elapsed (s : hid_state) : hid_state :=
  mkHidState (UsingReportProtocol s) (PrevFrameNum s) (IdleCount s)
    (if negb (IdleMSRemaining s =? 0) then IdleMSRemaining s - 1 else IdleMSRemaining s).
Definition app_tick (a : lufa) : lufa :=
  set_keyboard (Update_Millis 1 (lufa_keyboard a)) (set_hid (elapsed (Keyboard_state a)) (elapsed (Mouse_state a)) a).

Lemma start_of_frame_app (d : device) :
  usb_start_of_frame outside sram_read_byte avr_pgm_read_byte d = set_dev_app (app_tick (dev_app d)) d.
Proof. done. Qed.

(** The report that is due, and the one that has been filled in last. *)
Definition due_report (a : lufa) : list Z := keyboard_report_bytes (fill empty_keyboard_report (lufa_keyboard a)).2.
Definition last_report (a : lufa) : list Z := keyboard_report_bytes (prev_report (lufa_keyboard a)).

(** C19: In the LUFA build the host gets every report of the keyboard, whatever the timing: it polls the interrupt endpoint
    at any moments, at least once in 98 frames, and a packet it has had already it ignores. A run of
    [HID_Device_USBTask] stays inside the buffer of the endpoint, ends within 300 looks at the device, and leaves
    endpoint and host in step. If there was a report in this frame already, nothing changes. Else the last report is
    the one the state of the keys gives, and it is new at the end of what the host has heard or
    will hear with its next poll, or it is the one before; none is lost, repeated or overwritten. *)
Theorem lufa_host_has_reports addr es w (d : device) :
  let n := endpoint_number Keyboard_HID_Interface in
  let bus := listen addr n (usb_start_of_frame outside sram_read_byte avr_pgm_read_byte) in
  let events := lufa_events outside macros_storage macro_def_infos CONST_MSG CONSTANT_STORAGE sram_read_byte avr_pgm_read_byte
                  LAYOUT_ID serial bus in
  connected addr n w d -> FIFO_Position (in_ep n d) = 0 -> length (last_report (dev_app d)) = 8%nat ->
  match HID_Device_USBTask bus (L := events) Keyboard es w d with
  | Undefined => False
  | Running _ _ => (length es < 300)%nat
  | Returned _ es' w' d' =>
      connected addr n w' d' /\ FIFO_Position (in_ep n d') = 0 /\ length (last_report (dev_app d')) = 8%nat /\ (length es <= 300 + length es')%nat /\
      ((exists k, (k <= 2)%nat /\ PrevFrameNum (Keyboard_state (dev_app d)) = Nat.iter k next_number (FrameNum d)) /\
       said n w' d' = said n w d /\ last_report (dev_app d') = last_report (dev_app d) \/
       last_report (dev_app d') = due_report (dev_app d) /\
       (said n w' d' = said n w d /\ last_report (dev_app d') = last_report (dev_app d) \/
        said n w' d' = said n w d ++ [last_report (dev_app d')]))
  end.
Proof.
  intros n bus events Hc Hp Hlast.
  assert (Hcreate : forall a, exists force a', CreateHIDReport Keyboard 0 0 (repeat 0 (PrevReportINBufferSize Keyboard)) a
      = (force, 0, due_report a, 8%nat, a') /\ length (due_report a) = 8%nat /\ last_report a' = last_report a).
  { intros a. cbn [CreateHIDReport Keyboard_interface]. unfold create_keyboard_report, due_report.
    pose proof (Fill_length outside sram_read_byte avr_pgm_read_byte empty_keyboard_report (lufa_keyboard a)) as Hl.
    pose proof (Fill_prev_report outside sram_read_byte avr_pgm_read_byte empty_keyboard_report (lufa_keyboard a)) as Hf.
    destruct (fill _ _) as [k r]. eexists _, _. split; [reflexivity|]. cbn [fst snd] in *. unfold last_report.
    split; [cbn [keyboard_report_bytes length]; by rewrite Hl|]. cbn. by rewrite Hf. }
  pose proof (report_task_spec addr n (usb_start_of_frame outside sram_read_byte avr_pgm_read_byte) app_tick start_of_frame_app Keyboard last_report
    (fun bs a => set_keyboard (set_prev_report (report_of_bytes bs) (lufa_keyboard a)) a) eq_refl eq_refl ltac:(done) ltac:(done)
    ltac:(intros; apply report_bytes_inv; lia) due_report ltac:(intros a; unfold due_report; f_equal; apply (Fill_millis outside sram_read_byte avr_pgm_read_byte)) ltac:(done) Hcreate
    (L := events) d (USB_Endpoint_SelectedEndpoint d) (said n w d) (last_report (dev_app d)) Hlast es w d (fun _ => ltac:(by apply Forall_forall))) as Ht.
  cbv beta in Ht. fold bus events in Ht. assert (Hstart : starts addr n Keyboard last_report due_report d 0 (USB_Endpoint_SelectedEndpoint d) (said n w d) (last_report (dev_app d)) w d).
  { split; [by split|]. split; [done|]. split; [done|]. by exists 0%nat. }
  specialize (Ht Hstart). destruct (HID_Device_USBTask _ _ es w d) as [[] es' w' d'|w' d'|]; [|by apply Ht|done].
  destruct Ht as ((base & v & [C1 C2 C3 C4 C5] & Hb) & _ & _ & Hl). subst base v. split; [exact C1|]. split; [exact C3|].
  split; [|split; [by apply Hl|exact Hb]].
  destruct Hb as [(_ & _ & ->)|[-> _]]; [done|]. by destruct (Hcreate (dev_app d)) as (_ & _ & _ & Hd & _).
Qed.
End Keyboard.

(** A key is down, and the host polls at once. *)
Definition reports_start : device (A:=lufa (M:=mem)) :=
  usb_configuration_changed k84_outside (memory_of k84_message) (memory_of k84_message)
    (set_state Configured 1 (lufa_start
      (k84_board (k84_run [[8]; [8]; [8]; [8]; [8]; [8]; [8]; [8]]) ui_start))).

Lemma lufa_host_has_reports_witness :
  let n := endpoint_number Keyboard_HID_Interface in
  let bus := listen 0 n (usb_start_of_frame k84_outside (memory_of k84_message) (memory_of k84_message)) in
  let events := lufa_events (I := K84cs_ids) k84_outside 0 macro_def_infos k84_msg sram (memory_of k84_message)
    (memory_of k84_message) 4 [] bus in
  let host := mkListener [] USBPID_DATA0 98 in
  exists es' w' d',
    HID_Device_USBTask bus (L := events) (Keyboard_interface k84_outside (memory_of k84_message) (memory_of k84_message))
      (repeat Frame 400) host (set_frame 7 reports_start) = Returned tt es' w' d' /\
    said n w' d' = [[0; 0; 4; 0; 0; 0; 0; 0]] /\ connected 0 n w' d'.
Proof.
  cbv zeta. set (host := mkListener _ _ _). set (d := set_frame 7 reports_start).
  assert (Hc : connected 0 (endpoint_number Keyboard_HID_Interface) host d) by (split; vm_compute; reflexivity || lia).
  assert (Hdue : due_report k84_outside (memory_of k84_message) (memory_of k84_message) (dev_app d) = [0; 0; 4; 0; 0; 0; 0; 0])
    by (vm_compute; reflexivity).
  assert (Hlast : last_report (dev_app d) = [0; 0; 0; 0; 0; 0; 0; 0]) by (vm_compute; reflexivity).
  assert (Hsaid : said (endpoint_number Keyboard_HID_Interface) host d = []) by (vm_compute; reflexivity).
  assert (Hframe : PrevFrameNum (Keyboard_state (dev_app d)) = 0) by (vm_compute; reflexivity).
  assert (Hnum : FrameNum d = 7) by (vm_compute; reflexivity).
  assert (Hpos : FIFO_Position (in_ep (endpoint_number Keyboard_HID_Interface) d) = 0) by (vm_compute; reflexivity).
  clearbody d.
  pose proof (lufa_host_has_reports (I := K84cs_ids) k84_outside 0 macro_def_infos k84_msg sram (memory_of k84_message)
    (memory_of k84_message) 4 [] 0 (repeat Frame 400) host d Hc Hpos ltac:(by rewrite Hlast)) as Hr.
  cbv zeta in Hr. set (run := HID_Device_USBTask _ _ _ _ _) in Hr |- *. clearbody run.
  destruct run as [[] es' w' d'|w' d'|]; [| |done];
    [|exfalso; rewrite repeat_length in Hr; clear -Hr; lia].
  exists es', w', d'. split; [reflexivity|].
  destruct Hr as (Hc' & _ & _ & _ & [((k & Hk & Hf) & _)|(Hl & [[_ Hs]|Hs])]).
  - exfalso. rewrite Hframe, Hnum in Hf. destruct k as [|[|[|k]]]; [discriminate..|lia].
  - congruence.
  - split; [|exact Hc']. rewrite Hs, Hl, Hdue, Hsaid. reflexivity.
Defined.
