(* ===== verification/VusbDriver.v ===== *)
(** * vusb/usbdrv: the USB driver of the V-USB build

    The C part of the driver, src/vusb/usbdrv/usbdrv.c, as src/vusb/usbconfig.h
    configures it, and the handling of whole packets by its interrupt routine,
    src/vusb/usbdrv/asmcommon.inc: the two share a receive buffer, a transmit
    buffer and their lengths.  Below that, the bits on the wire with their
    checksums are the assembler's; a buffer is a list without the checksum.

    What the driver calls, the functions of vusb_main.c and Descriptors.c, is
    the class [UsbFunctions].  [usbMsgPtr] is the list of the bytes from that
    address on: what is longer than one packet is constant data. *)

From S2P Require Import Prelude UsbWire.
Open Scope Z_scope.

(** What [usbFunctionSetup] returns: the bytes at [usbMsgPtr], or [USB_NO_MSG]. *)
Inductive setup_reply := Message (bytes : list Z) | NoMsg.

(** What the driver calls; [None]: no result.  [fn_write] returns
    the byte that tells whether the transfer is over, [fn_read] the bytes put into the buffer. *)
Class UsbFunctions (A : Type) := {
  fn_setup : vusb_request -> A -> setup_reply * A;
  fn_write : list Z -> A -> option (Z * A);
  fn_read : Z -> A -> option (list Z * A);
  fn_descriptor : vusb_request -> list Z
}.

Abbreviation USB_NO_MSG := 0xffff (only parsing).
Abbreviation USB_FLG_MSGPTR_IS_ROM := 0x40 (only parsing).
Abbreviation USB_FLG_USE_USER_RW := 0x80 (only parsing).
Abbreviation USBRQ_TYPE_MASK := 0x60 (only parsing).
Abbreviation USBRQ_TYPE_STANDARD := 0 (only parsing).
Abbreviation USBRQ_DIR_MASK := 0x80 (only parsing).
Abbreviation USB_CFG_EP3_NUMBER := 3 (only parsing).

(** [usbTxStatus_t] *)
Record tx_status := mkTx {
  tx_len : Z;
  tx_token : Z;
  tx_data : list Z
}.

Section Driver.
Context {A : Type} {F : UsbFunctions A}.

(** The static variables, and the state of what the driver calls. *)
Record driver := mkDriver {
  usbRxLen : Z;
  usbRxToken : Z;
  usbRxBuf : list Z;
  usbCurrentTok : Z;
  (* [usbTxLen] and [usbTxBuf] *)
  usbTx : tx_status;
  usbMsgPtr : list Z;
  usbMsgLen : Z;
  usbMsgFlags : Z;
  usbDeviceAddr : Z;
  usbNewDeviceAddr : Z;
  usbConfiguration : Z;
  usbTxStatus1 : tx_status;
  usbTxStatus3 : tx_status;
  drv_app : A
}.

Definition set_rx (len token : Z) (buf : list Z) (d : driver) : driver :=
  mkDriver len token buf (usbCurrentTok d) (usbTx d) (usbMsgPtr d) (usbMsgLen d) (usbMsgFlags d) (usbDeviceAddr d)
    (usbNewDeviceAddr d) (usbConfiguration d) (usbTxStatus1 d) (usbTxStatus3 d) (drv_app d).
Definition set_current (x : Z) (d : driver) : driver :=
  mkDriver (usbRxLen d) (usbRxToken d) (usbRxBuf d) x (usbTx d) (usbMsgPtr d) (usbMsgLen d) (usbMsgFlags d)
    (usbDeviceAddr d) (usbNewDeviceAddr d) (usbConfiguration d) (usbTxStatus1 d) (usbTxStatus3 d) (drv_app d).
Definition set_tx (x : tx_status) (d : driver) : driver :=
  mkDriver (usbRxLen d) (usbRxToken d) (usbRxBuf d) (usbCurrentTok d) x (usbMsgPtr d) (usbMsgLen d) (usbMsgFlags d)
    (usbDeviceAddr d) (usbNewDeviceAddr d) (usbConfiguration d) (usbTxStatus1 d) (usbTxStatus3 d) (drv_app d).
Definition set_msg (ptr : list Z) (len flags : Z) (d : driver) : driver :=
  mkDriver (usbRxLen d) (usbRxToken d) (usbRxBuf d) (usbCurrentTok d) (usbTx d) ptr len flags
    (usbDeviceAddr d) (usbNewDeviceAddr d) (usbConfiguration d) (usbTxStatus1 d) (usbTxStatus3 d) (drv_app d).
Definition set_addrs (addr new : Z) (d : driver) : driver :=
  mkDriver (usbRxLen d) (usbRxToken d) (usbRxBuf d) (usbCurrentTok d) (usbTx d) (usbMsgPtr d) (usbMsgLen d) (usbMsgFlags d)
    addr new (usbConfiguration d) (usbTxStatus1 d) (usbTxStatus3 d) (drv_app d).
Definition set_configuration (x : Z) (d : driver) : driver :=
  mkDriver (usbRxLen d) (usbRxToken d) (usbRxBuf d) (usbCurrentTok d) (usbTx d) (usbMsgPtr d) (usbMsgLen d) (usbMsgFlags d)
    (usbDeviceAddr d) (usbNewDeviceAddr d) x (usbTxStatus1 d) (usbTxStatus3 d) (drv_app d).
Definition set_interrupts (x1 x3 : tx_status) (d : driver) : driver :=
  mkDriver (usbRxLen d) (usbRxToken d) (usbRxBuf d) (usbCurrentTok d) (usbTx d) (usbMsgPtr d) (usbMsgLen d) (usbMsgFlags d)
    (usbDeviceAddr d) (usbNewDeviceAddr d) (usbConfiguration d) x1 x3 (drv_app d).
Definition set_app (x : A) (d : driver) : driver :=
  mkDriver (usbRxLen d) (usbRxToken d) (usbRxBuf d) (usbCurrentTok d) (usbTx d) (usbMsgPtr d) (usbMsgLen d) (usbMsgFlags d)
    (usbDeviceAddr d) (usbNewDeviceAddr d) (usbConfiguration d) (usbTxStatus1 d) (usbTxStatus3 d) x.

(** All handshake tokens have bit 4 set. *)
Definition handshake (len : Z) : bool := Z.testbit len 4.

(** ** Interrupt endpoints *)

Definition usbResetDataToggling (d : driver) : driver :=
  set_interrupts (mkTx (tx_len (usbTxStatus1 d)) USBPID_DATA1 (tx_data (usbTxStatus1 d)))
    (mkTx (tx_len (usbTxStatus3 d)) USBPID_DATA1 (tx_data (usbTxStatus3 d))) d.

Definition usbGenericSetInterrupt (data : list Z) (tx : tx_status) : tx_status :=
  mkTx (Z.of_nat (length data) + 4) (if handshake (tx_len tx) then toggle (tx_token tx) else tx_token tx) data.
Definition usbSetInterrupt (data : list Z) (d : driver) : driver :=
  set_interrupts (usbGenericSetInterrupt data (usbTxStatus1 d)) (usbTxStatus3 d) d.
Definition usbSetInterrupt3 (data : list Z) (d : driver) : driver :=
  set_interrupts (usbTxStatus1 d) (usbGenericSetInterrupt data (usbTxStatus3 d)) d.
Definition usbInterruptIsReady (d : driver) : bool := handshake (tx_len (usbTxStatus1 d)).
Definition usbInterruptIsReady3 (d : driver) : bool := handshake (tx_len (usbTxStatus3 d)).

(** ** Requests *)

(** The bytes [usbMsgPtr] points at, and [usbMsgFlags]: all descriptors are
    dynamic properties, unknown ones do not exist. *)
Definition usbDriverDescriptor (rq : vusb_request) (d : driver) : list Z * driver :=
  let type := u8 (rq_value rq / 256) in
  let known := (type =? 1) || (type =? 2) || (type =? 3) || (type =? 0x21) || (type =? 0x22) in
  (if known then fn_descriptor rq else [], set_msg (usbMsgPtr d) (usbMsgLen d) USB_FLG_MSGPTR_IS_ROM d).

Definition usbDriverSetup (rq : vusb_request) (d : driver) : list Z * driver :=
  let value := u8 (rq_value rq) in
  let r := rq_request rq in
  if r =? 0 then ([0; 0], d)
  else if r =? 5 then ([], set_addrs (usbDeviceAddr d) value d)
  else if r =? 6 then usbDriverDescriptor rq d
  else if r =? 8 then ([usbConfiguration d], d)
  else if r =? 9 then ([], set_configuration value d)
  else if r =? 10 then ([0], d)
  else if r =? 11 then ([], usbResetDataToggling d)
  else ([], d).

Definition process_setup (data : list Z) (d : driver) : driver :=
  if negb (Z.of_nat (length data) =? 8) then d
  else
    let rq := request_of data in
    let d := set_tx (mkTx USBPID_NAK USBPID_DATA0 (tx_data (usbTx d))) d in
    let d := set_msg (usbMsgPtr d) (usbMsgLen d) 0 d in
    let '(reply, d) :=
      if negb (Z.land (rq_type rq) USBRQ_TYPE_MASK =? USBRQ_TYPE_STANDARD)
      then let '(reply, a) := fn_setup rq (drv_app d) in (reply, set_app a d)
      else let '(bs, d) := usbDriverSetup rq d in (Message bs, d) in
    match reply with
    | NoMsg =>
        set_msg (usbMsgPtr d) (if negb (Z.land (rq_type rq) USBRQ_DIR_MASK =? 0) then rq_length rq else USB_NO_MSG)
          USB_FLG_USE_USER_RW d
    | Message bs =>
        let replyLen := Z.of_nat (length bs) in
        set_msg bs (if replyLen >? rq_length rq then rq_length rq else replyLen) (usbMsgFlags d) d
    end.

Definition usbProcessRx (data : list Z) (d : driver) : option driver :=
  if usbRxToken d =? USBPID_SETUP then Some (process_setup data d)
  else if negb (Z.land (usbMsgFlags d) USB_FLG_USE_USER_RW =? 0) then
    '(rval, a) ← fn_write data (drv_app d);
    let d := set_app a d in
    Some (if rval =? 0xff then set_tx (mkTx USBPID_STALL (tx_token (usbTx d)) (tx_data (usbTx d))) d
          else if negb (rval =? 0) then set_msg (usbMsgPtr d) 0 (usbMsgFlags d) d
          else d)
  else Some d.

(** ** Sending *)

Definition usbDeviceRead (len : Z) (d : driver) : option (list Z * driver) :=
  if len >? 0 then
    if negb (Z.land (usbMsgFlags d) USB_FLG_USE_USER_RW =? 0) then
      '(bs, a) ← fn_read len (drv_app d); Some (bs, set_app a d)
    else
      let n := Z.to_nat len in
      Some (take n (usbMsgPtr d), set_msg (drop n (usbMsgPtr d)) (usbMsgLen d) (usbMsgFlags d) d)
  else Some ([], d).

Definition usbBuildTxBlock (d : driver) : option driver :=
  let wantLen := if usbMsgLen d >? 8 then 8 else usbMsgLen d in
  let d := set_msg (usbMsgPtr d) (usbMsgLen d - wantLen) (usbMsgFlags d) d in
  let token := toggle (tx_token (usbTx d)) in
  '(bs, d) ← usbDeviceRead wantLen d;
  let len := Z.of_nat (length bs) in
  Some (if len <=? 8 then
          let d := set_tx (mkTx (len + 4) token bs) d in
          if len + 4 <? 12 then set_msg (usbMsgPtr d) USB_NO_MSG (usbMsgFlags d) d else d
        else set_msg (usbMsgPtr d) USB_NO_MSG (usbMsgFlags d) (set_tx (mkTx USBPID_STALL token bs) d)).

(** [reset]: the host holds the lines down. *)
Definition usbPoll (reset : bool) (d : driver) : option driver :=
  d ← (if usbRxLen d - 3 >=? 0 then
         d' ← usbProcessRx (usbRxBuf d) d; Some (set_rx 0 (usbRxToken d') (usbRxBuf d') d')
       else Some d);
  d ← (if handshake (tx_len (usbTx d)) && negb (usbMsgLen d =? USB_NO_MSG) then usbBuildTxBlock d else Some d);
  Some (if reset then set_addrs 0 0 d else d).

Definition usbInit (d : driver) : driver :=
  let d := usbResetDataToggling d in
  set_interrupts (mkTx USBPID_NAK (tx_token (usbTxStatus1 d)) (tx_data (usbTxStatus1 d)))
    (mkTx USBPID_NAK (tx_token (usbTxStatus3 d)) (tx_data (usbTxStatus3 d))) d.

(** ** The interrupt routine *)

(** [handleIn], for the endpoint's buffer: the address that has been set holds from a data packet on. *)
Definition handle_tx (tx : tx_status) (put : tx_status -> driver -> driver) (d : driver) : response * driver :=
  if handshake (tx_len tx) then (Handshake (tx_len tx), d)
  else (Sends (tx_token tx) (tx_data tx),
        set_addrs (u8 (2 * usbNewDeviceAddr d)) (usbNewDeviceAddr d) (put (mkTx USBPID_NAK (tx_token tx) (tx_data tx)) d)).

Definition handleIn (endpoint : Z) (d : driver) : response * driver :=
  if usbRxLen d >=? 1 then (Handshake USBPID_NAK, d)
  else if endpoint =? 0 then handle_tx (usbTx d) set_tx d
  else if endpoint =? USB_CFG_EP3_NUMBER
       then handle_tx (usbTxStatus3 d) (fun tx d => set_interrupts (usbTxStatus1 d) tx d) d
       else handle_tx (usbTxStatus1 d) (fun tx d => set_interrupts tx (usbTxStatus3 d) d) d.

Definition handleData (bytes : list Z) (d : driver) : response * driver :=
  let cnt := Z.of_nat (length bytes) + 3 in
  if usbCurrentTok d =? 0 then (Silence, d)
  else if negb (usbRxLen d =? 0) then (Handshake USBPID_NAK, d)
  else if cnt <? 4 then (Handshake USBPID_ACK, d)
  else (Handshake USBPID_ACK, set_rx cnt (usbCurrentTok d) bytes d).

Definition receive_packet (p : packet) (d : driver) : response * driver :=
  match p with
  | Data _ bytes => handleData bytes d
  | Token pid addr endpoint =>
      if negb (u8 (2 * addr) =? usbDeviceAddr d) then (Silence, set_current 0 d)
      else if pid =? USBPID_IN then handleIn endpoint d
      else if (pid =? USBPID_SETUP) || (pid =? USBPID_OUT) then (Silence, set_current pid d)
      else (Silence, set_current 0 d)
  | Shake _ => (Silence, set_current 0 d)
  end.

#[export] Instance driver_wire : Wire driver := receive_packet.
End Driver.
