(* ===== verification/VusbWireProofs.v ===== *)
(** * vusb/usbdrv: every interleaving completes a control transfer

    At any moment of a transfer it is the device's turn or the host's, and what
    the other one does meanwhile changes nothing: an attempt is refused, a poll
    finds nothing to do.  Each turn moves the transfer on. *)

From S2P Require Import Prelude UsbWire VusbDriver VusbWire.
Open Scope Z_scope.

Section Proofs.
Context {A : Type} {F : UsbFunctions A}.

Abbreviation driver := (driver (A:=A)).

Lemma packet_no_handshake n : 0 <= n <= 8 -> handshake (n + 4) = false.
Proof.
  intros Hn. assert (Hc : n = 0 \/ n = 1 \/ n = 2 \/ n = 3 \/ n = 4 \/ n = 5 \/ n = 6 \/ n = 7 \/ n = 8) by lia.
  by repeat destruct Hc as [->|Hc]; [..|subst n].
Qed.

(** What is left to send, and the application when it has been sent. *)
Inductive source (d : driver) : list Z -> A -> Prop :=
  | source_user lens rest a :
      usbMsgFlags d = USB_FLG_USE_USER_RW -> usb_lengths lens -> asked lens = usbMsgLen d ->
      read_packets lens (drv_app d) = Some (rest, a) -> source d rest a
  | source_message rest a :
      Z.land (usbMsgFlags d) USB_FLG_USE_USER_RW = 0 -> 0 <= usbMsgLen d <= Z.of_nat (length (usbMsgPtr d)) ->
      rest = take (Z.to_nat (usbMsgLen d)) (usbMsgPtr d) -> a = drv_app d -> source d rest a.

Definition loaded (pid : Z) (bs : list Z) (d : driver) : Prop :=
  usbRxLen d = 0 /\ usbTx d = mkTx (Z.of_nat (length bs) + 4) pid bs /\ (length bs <= 8)%nat.
Definition unloaded (pid : Z) (d : driver) : Prop :=
  usbRxLen d = 0 /\ tx_len (usbTx d) = USBPID_NAK /\ toggle (tx_token (usbTx d)) = pid.
(** What is not about the transfer. *)
Definition standing (addr new cfg : Z) (d : driver) : Prop :=
  usbDeviceAddr d = u8 (2 * addr) /\ usbNewDeviceAddr d = new /\ usbConfiguration d = cfg.

Lemma source_step d rest a : source d rest a -> usbMsgLen d > 0 ->
  exists bs d', usbDeviceRead (if usbMsgLen d >? 8 then 8 else usbMsgLen d)
      (set_msg (usbMsgPtr d) (usbMsgLen d - (if usbMsgLen d >? 8 then 8 else usbMsgLen d)) (usbMsgFlags d) d) = Some (bs, d') /\
    (exists ptr x, d' = set_app x (set_msg ptr (usbMsgLen d - (if usbMsgLen d >? 8 then 8 else usbMsgLen d)) (usbMsgFlags d) d)) /\
    (length bs <= 8)%nat /\
    (((length bs < 8)%nat /\ rest = bs /\ drv_app d' = a) \/
     (length bs = 8%nat /\ exists rest', rest = bs ++ rest' /\ usbMsgLen d >= 8 /\ source d' rest' a)).
Proof.
  intros Hs Hm. set (w := if usbMsgLen d >? 8 then 8 else usbMsgLen d).
  assert (Hw : 0 < w <= 8) by (subst w; destruct (Z.gtb_spec (usbMsgLen d) 8); lia).
  unfold usbDeviceRead. rewrite (proj2 (Z.gtb_lt w 0)) by lia. cbn [usbMsgFlags set_msg drv_app].
  destruct Hs as [lens rest a Hf Hl Ha E|rest a Hf Hl -> ->].
  - rewrite Hf. cbn [Z.land negb Z.eqb]. destruct lens as [|n lens]; [cbn in Ha; lia|].
    destruct (usb_lengths_cons n lens Hl) as (Hn & Hl' & Hl8). rewrite asked_cons in Ha.
    pose proof (asked_nonneg lens (usb_lengths_all lens Hl')) as Hnn.
    assert (En : w = n).
    { subst w. destruct Hl8 as [->| ->]; destruct (Z.gtb_spec (usbMsgLen d) 8); cbn in *; lia. }
    clearbody w. subst w. cbn [read_packets] in E. destruct (fn_read n (drv_app d)) as [[bs a1]|] eqn:Er; [|done].
    cbn [mbind option_bind] in *. destruct (Z.gtb_spec (Z.of_nat (length bs)) n) as [|Hb]; [done|]. eexists bs, _. split; [reflexivity|].
    split; [by eexists _, a1|]. split; [lia|].
    destruct (Z.ltb_spec (Z.of_nat (length bs)) n) as [Hlt|Hge].
    { injection E as <- <-. left. split; [lia|done]. }
    destruct (read_packets lens a1) as [[rest' a2]|] eqn:Er2; [|done]. injection E as <- <-.
    destruct (decide (n = 8)) as [->|Hn8].
    + right. split; [lia|]. exists rest'. split_and!; [done|lia|].
      eapply (source_user _ lens); [done|done|cbn; lia|exact Er2].
    + destruct Hl8 as [->| ->]; [done|]. cbn in Er2. injection Er2 as <- <-. left. split; [lia|]. by rewrite app_nil_r.
  - rewrite Hf. cbn [negb Z.eqb]. eexists _, _. split; [reflexivity|]. cbn [usbMsgPtr set_msg usbMsgLen].
    split; [by exists (drop (Z.to_nat w) (usbMsgPtr d)), (drv_app d)|]. rewrite length_take. split; [lia|].
    destruct (Z.gtb_spec (usbMsgLen d) 8) as [Hg|Hg]; subst w.
    + right. split; [lia|]. exists (take (Z.to_nat (usbMsgLen d - 8)) (drop (Z.to_nat 8) (usbMsgPtr d))).
      split_and!; [|lia|].
      * rewrite take_take_drop. f_equal. lia.
      * apply source_message; [done|cbn; rewrite length_drop; lia|done|done].
    + destruct (decide (usbMsgLen d = 8)) as [E8|Hn8].
      * right. split; [lia|]. exists []. rewrite app_nil_r. split_and!; [done|lia|].
        apply source_message; [done|cbn; rewrite length_drop; lia| |done]. cbn. by rewrite Z.sub_diag.
      * left. split_and!; [lia|done|done].
Qed.

(** A packet is put into the buffer. *)
Lemma build_spec addr new cfg pid d rest a :
  unloaded pid d -> standing addr new cfg d -> 0 < usbMsgLen d < USB_NO_MSG -> source d rest a ->
  exists bs d', usbBuildTxBlock d = Some d' /\ loaded pid bs d' /\ standing addr new cfg d' /\
    (((length bs < 8)%nat /\ rest = bs /\ drv_app d' = a /\ usbMsgLen d' = USB_NO_MSG) \/
     (length bs = 8%nat /\ exists rest', rest = bs ++ rest' /\ source d' rest' a /\
        0 <= usbMsgLen d' < USB_NO_MSG /\ usbMsgLen d' = usbMsgLen d - 8)).
Proof.
  intros (H1 & H2 & H3) Hst Hm Hs. destruct (source_step d rest a Hs) as (bs & d1 & E & (ptr & x & ->) & Hb & Hc); [lia|].
  unfold usbBuildTxBlock. rewrite E. cbn [mbind option_bind usbTx set_msg]. rewrite (proj2 (Z.leb_le _ _)) by lia. rewrite H3.
  destruct Hc as [(Hl & -> & Ha)|(Hl & rest' & -> & Hm8 & Hs')].
  - rewrite (proj2 (Z.ltb_lt _ _)) by lia. eexists bs, _. split; [reflexivity|]. split; [by split_and!|]. split; [exact Hst|].
    left. by split_and!.
  - rewrite (proj2 (Z.ltb_ge _ _)) by lia. eexists bs, _. split; [reflexivity|]. split; [by split_and!|]. split; [exact Hst|].
    right. split; [done|]. exists rest'. split; [done|]. cbn. split; [|destruct (Z.gtb_spec (usbMsgLen d) 8); lia].
    destruct Hs' as [lens rest' a' ?|rest' a' ?]; [by eapply source_user|by apply source_message].
Qed.

(** The packet without data that ends a transfer. *)
Lemma build_empty addr new cfg pid d :
  unloaded pid d -> standing addr new cfg d -> usbMsgLen d = 0 ->
  exists d', usbBuildTxBlock d = Some d' /\ loaded pid [] d' /\ standing addr new cfg d' /\
    drv_app d' = drv_app d /\ usbMsgLen d' = USB_NO_MSG.
Proof.
  intros (H1 & H2 & H3) Hst Hm. unfold usbBuildTxBlock. rewrite Hm. cbn [usbTx set_msg]. rewrite H3.
  eexists. split; [reflexivity|]. split; [by split_and!; [| |cbn; lia]|]. by split_and!.
Qed.

(** *** Polls *)

Lemma poll_free d :
  usbRxLen d = 0 ->
  usbPoll false d = if handshake (tx_len (usbTx d)) && negb (usbMsgLen d =? USB_NO_MSG)
                    then usbBuildTxBlock d else Some d.
Proof. intros H. unfold usbPoll. rewrite H. change (0 - 3 >=? 0) with false. cbn [mbind option_bind]. destruct (_ && _); [|done].
  by destruct (usbBuildTxBlock d). Qed.

Lemma poll_loaded pid bs d : loaded pid bs d -> usbPoll false d = Some d.
Proof.
  intros (H1 & H2 & H3). rewrite poll_free, H2 by done. cbn [tx_len]. by rewrite packet_no_handshake by lia.
Qed.

Lemma poll_quiet pid d : unloaded pid d -> usbMsgLen d = USB_NO_MSG -> usbPoll false d = Some d.
Proof. intros (H1 & H2 & H3) Hm. rewrite poll_free, H2, Hm by done. done. Qed.

Lemma poll_unloaded pid d : unloaded pid d -> usbMsgLen d < USB_NO_MSG -> usbPoll false d = usbBuildTxBlock d.
Proof.
  intros (H1 & H2 & H3) Hm. rewrite poll_free, H2 by done. by rewrite (proj2 (Z.eqb_neq _ _)) by lia.
Qed.

(** After a transfer at most a packet without data is left over. *)
Definition rests (d : driver) : Prop := usbRxLen d = 0 /\ (usbMsgLen d = 0 \/ usbMsgLen d = USB_NO_MSG).

Lemma poll_rests addr new cfg d :
  rests d -> standing addr new cfg d ->
  exists d', usbPoll false d = Some d' /\ rests d' /\ standing addr new cfg d' /\ drv_app d' = drv_app d.
Proof.
  intros [H1 H2] Hst. rewrite poll_free by done. destruct (handshake _) eqn:Eh; [|by eexists].
  destruct H2 as [H2|H2]; rewrite H2; [|by eexists; split_and!; [|split; [done|by right]|..]].
  cbn [Z.eqb negb andb]. unfold usbBuildTxBlock. rewrite H2. eexists. split; [reflexivity|].
  split; [split; [done|by right]|]. by split.
Qed.

(** *** Transactions *)

Section Transactions.
Context (addr : Z).

Abbreviation send_to := (send_to (S:=driver) addr).
Abbreviation ask := (ask (S:=driver) addr).

(** A host's packet comes in when the buffer is free, and is refused until it has been processed. *)
Lemma send_free new cfg token pid bytes d :
  (token = USBPID_SETUP \/ token = USBPID_OUT) -> standing addr new cfg d -> usbRxLen d = 0 -> bytes <> [] ->
  send_to token pid bytes d
  = (Handshake USBPID_ACK, set_rx (Z.of_nat (length bytes) + 3) token bytes (set_current token d)).
Proof.
  intros Ht (Ha & _) Hr Hb. unfold UsbWire.send_to, wire, driver_wire, receive_packet. rewrite Ha, Z.eqb_refl. cbn [negb].
  destruct bytes as [|b bytes]; [done|].
  destruct Ht as [-> | ->]; cbn [Z.eqb Pos.eqb orb snd]; unfold handleData; cbn [usbCurrentTok set_current usbRxLen];
    rewrite Hr; cbn [Z.eqb negb]; by rewrite (proj2 (Z.ltb_ge _ _)) by (cbn [length]; lia).
Qed.

Lemma send_status new cfg d :
  standing addr new cfg d -> usbRxLen d = 0 ->
  send_to USBPID_OUT USBPID_DATA1 [] d = (Handshake USBPID_ACK, set_current USBPID_OUT d).
Proof.
  intros (Ha & _) Hr. unfold UsbWire.send_to, wire, driver_wire, receive_packet. rewrite Ha, Z.eqb_refl. cbn [negb Z.eqb Pos.eqb orb snd].
  unfold handleData. cbn [usbCurrentTok set_current usbRxLen]. by rewrite Hr.
Qed.

Lemma send_busy new cfg token pid bytes d :
  (token = USBPID_SETUP \/ token = USBPID_OUT) -> standing addr new cfg d -> 1 <= usbRxLen d ->
  send_to token pid bytes d = (Handshake USBPID_NAK, set_current token d).
Proof.
  intros Ht (Ha & _) Hr. unfold UsbWire.send_to, wire, driver_wire, receive_packet. rewrite Ha, Z.eqb_refl. cbn [negb].
  destruct Ht as [-> | ->]; cbn [Z.eqb Pos.eqb orb snd]; unfold handleData; cbn [usbCurrentTok set_current usbRxLen];
    cbn [Z.eqb negb]; by rewrite (proj2 (Z.eqb_neq _ _)) by lia.
Qed.

Lemma ask_busy new cfg d : standing addr new cfg d -> 1 <= usbRxLen d -> ask d = (Handshake USBPID_NAK, d).
Proof.
  intros (Ha & _) Hr. unfold UsbWire.ask, wire, driver_wire, receive_packet. rewrite Ha, Z.eqb_refl. cbn [negb Z.eqb Pos.eqb].
  unfold handleIn. by rewrite (proj2 (Z.geb_le _ _)) by lia.
Qed.

Lemma ask_unloaded new cfg pid d : standing addr new cfg d -> unloaded pid d -> ask d = (Handshake USBPID_NAK, d).
Proof.
  intros (Ha & _) (Hr & Ht & _). unfold UsbWire.ask, wire, driver_wire, receive_packet. rewrite Ha, Z.eqb_refl. cbn [negb Z.eqb Pos.eqb].
  unfold handleIn. rewrite Hr. cbn [Z.geb Z.compare Z.eqb]. unfold handle_tx. by rewrite Ht.
Qed.

(** What was loaded goes out; the token of the next packet is the other one. *)
Lemma ask_loaded new cfg pid bs d :
  standing addr new cfg d -> loaded pid bs d ->
  exists d', ask d = (Sends pid bs, d') /\ unloaded (toggle pid) d' /\
    usbDeviceAddr d' = u8 (2 * new) /\ usbNewDeviceAddr d' = new /\ usbConfiguration d' = cfg /\
    usbMsgPtr d' = usbMsgPtr d /\ usbMsgLen d' = usbMsgLen d /\ usbMsgFlags d' = usbMsgFlags d /\ drv_app d' = drv_app d.
Proof.
  intros (Ha & Hn & Hc) (Hr & Ht & Hl). unfold UsbWire.ask, wire, driver_wire, receive_packet. rewrite Ha, Z.eqb_refl. cbn [negb Z.eqb Pos.eqb].
  unfold handleIn. rewrite Hr. cbn [Z.geb Z.compare Z.eqb]. unfold handle_tx. rewrite Ht. cbn [tx_len tx_token tx_data].
  rewrite packet_no_handshake by lia. eexists. split; [reflexivity|]. cbn. rewrite Hn. by split_and!.
Qed.
End Transactions.

(** *** A request *)

Definition standard (rq : vusb_request) : bool := Z.land (rq_type rq) USBRQ_TYPE_MASK =? USBRQ_TYPE_STANDARD.

(** The answer of the driver or the application, and the application afterwards. *)
Definition reply_to (rq : vusb_request) (d : driver) : setup_reply * A :=
  if standard rq then (Message (usbDriverSetup rq d).1, drv_app d) else fn_setup rq (drv_app d).
(** The address and the configuration a request sets. *)
Definition new_address (rq : vusb_request) (new : Z) : Z :=
  if standard rq && (rq_request rq =? 5) then u8 (rq_value rq) else new.
Definition new_configuration (rq : vusb_request) (cfg : Z) : Z :=
  if standard rq && (rq_request rq =? 9) then u8 (rq_value rq) else cfg.

Lemma usbDriverSetup_spec rq d :
  let '(bs, d') := usbDriverSetup rq d in
  usbRxLen d' = usbRxLen d /\ usbTx d' = usbTx d /\ drv_app d' = drv_app d /\ usbDeviceAddr d' = usbDeviceAddr d /\
  usbNewDeviceAddr d' = (if rq_request rq =? 5 then u8 (rq_value rq) else usbNewDeviceAddr d) /\
  usbConfiguration d' = (if rq_request rq =? 9 then u8 (rq_value rq) else usbConfiguration d) /\
  (usbMsgFlags d' = usbMsgFlags d \/ usbMsgFlags d' = USB_FLG_MSGPTR_IS_ROM) /\
  forall d2, usbConfiguration d2 = usbConfiguration d -> (usbDriverSetup rq d2).1 = bs.
Proof.
  unfold usbDriverSetup, usbDriverDescriptor. cbv zeta.
  repeat match goal with |- context [if rq_request rq =? ?c then _ else _] =>
    destruct (Z.eqb_spec (rq_request rq) c) as [Er|_]; [rewrite ?Er|] end;
    cbn [Z.eqb Pos.eqb]; do 6 (split; [done|]); (split; [first [by left|by right]|]); intros d2 E; cbn [fst]; by rewrite ?E.
Qed.

Lemma setup_spec addr new cfg setup d :
  standing addr new cfg d -> length setup = 8%nat -> 0 <= rq_length (request_of setup) < USB_NO_MSG ->
  let rq := request_of setup in
  let d1 := process_setup setup d in
  let d' := set_rx 0 (usbRxToken d1) (usbRxBuf d1) d1 in
  unloaded USBPID_DATA1 d' /\ standing addr (new_address rq new) (new_configuration rq cfg) d' /\
  drv_app d' = (reply_to rq d).2 /\
  match (reply_to rq d).1 with
  | NoMsg => usbMsgFlags d' = USB_FLG_USE_USER_RW /\ usbMsgLen d' = (if receives rq then rq_length rq else USB_NO_MSG)
  | Message bs => Z.land (usbMsgFlags d') USB_FLG_USE_USER_RW = 0 /\ usbMsgPtr d' = bs /\
                  usbMsgLen d' = Z.min (Z.of_nat (length bs)) (rq_length rq)
  end.
Proof.
  intros (Ha & Hn & Hc) Hl HN rq d1 d'. subst d' d1. unfold process_setup. rewrite Hl. change (negb (Z.of_nat 8 =? 8)) with false. cbv iota.
  fold rq. unfold reply_to, new_address, new_configuration. fold (standard rq). destruct (standard rq); cbn [negb andb].
  - set (d1 := set_msg _ _ 0 (set_tx _ d)).
    pose proof (usbDriverSetup_spec rq d1) as Hs. destruct (usbDriverSetup rq d1) as [bs d2].
    destruct Hs as (H1 & H2 & H3 & H4 & H5 & H6 & H7 & H8). rewrite (H8 d) by done. cbn [fst snd].
    split; [split_and!; [done|cbn; by rewrite H2..]|].
    split; [split_and!; [cbn; by rewrite H4|cbn; by rewrite H5, <- Hn|cbn; by rewrite H6, <- Hc]|].
    split; [cbn; by rewrite H3|]. cbn. split_and!; [by destruct H7 as [-> | ->]|done|].
    match goal with |- context [?a >? ?b] => destruct (Z.gtb_spec a b) end; lia.
  - cbn [drv_app set_msg set_tx]. destruct (fn_setup rq (drv_app d)) as [[bs|] a]; cbn [fst snd].
    + split; [by split_and!|]. split; [by split_and!|]. split; [done|]. cbn. split_and!; [done|done|].
      match goal with |- context [?a >? ?b] => destruct (Z.gtb_spec a b) end; lia.
    + split; [by split_and!|]. split; [by split_and!|]. split; [done|]. cbn. by split.
Qed.

(** *** The turns of a transfer *)

Section Turns.
Context (addr new0 cfg0 : Z) (setup : list Z) (ps : list (list Z)) (lens : list Z) (d0 : driver) (res : list Z) (afin : A).

Abbreviation rq := (request_of setup).
Abbreviation N := (rq_length rq).
Abbreviation new := (new_address rq new0).
Abbreviation cfg := (new_configuration rq cfg0).
Abbreviation attempt := (attempt (S:=driver) addr setup ps).

(** What the host gives with the request: as much as it has announced, or
    the lengths of what it wants. *)
Definition data_fits : Prop :=
  match (reply_to rq d0).1 with
  | NoMsg => if receives rq then usb_lengths lens /\ asked lens = N else usb_packets ps /\ 0 < N
  | Message _ => receives rq = true \/ N = 0
  end.

Context (Hlen : length setup = 8%nat) (HN : 0 <= N < USB_NO_MSG) (Haddr : u8 (2 * new0) = u8 (2 * addr)).
Context (Hnew : N = 0 \/ new = new0) (Hfit : data_fits) (Hst0 : standing addr new0 cfg0 d0).
Context (Hres : transfer_of rq ps lens (reply_to rq d0) = Some (res, afin)).

(** The device has something to do: it has not processed what came in or has a packet to put out. *)
Inductive device_turn (n : nat) : host -> driver -> Prop :=
  | device_setup d :
      usbRxLen d = 11 -> usbRxToken d = USBPID_SETUP -> usbRxBuf d = setup -> standing addr new0 cfg0 d ->
      drv_app d = drv_app d0 -> (Z.to_nat (N / 8) + length ps + 2 <= n)%nat ->
      device_turn n (after_setup setup ps) d
  | device_in got rest pid d :
      unloaded pid d -> standing addr new cfg d -> 0 <= usbMsgLen d < USB_NO_MSG -> source d rest afin ->
      res = got ++ rest -> Z.of_nat (length got) + usbMsgLen d <= N -> 0 < N -> (Z.to_nat (usbMsgLen d / 8) + 2 <= n)%nat ->
      device_turn n (HIn got pid) d
  | device_out p rest pid d :
      usbRxLen d = Z.of_nat (length p) + 3 -> usbRxToken d = USBPID_OUT -> usbRxBuf d = p ->
      usbMsgFlags d = USB_FLG_USE_USER_RW -> usbMsgLen d = USB_NO_MSG -> usb_packets (p :: rest) ->
      tx_len (usbTx d) = USBPID_NAK -> toggle (tx_token (usbTx d)) = USBPID_DATA1 -> standing addr new cfg d ->
      write_packets (p :: rest) (drv_app d) = Some afin -> res = [] -> 0 < N -> (length rest + 1 <= n)%nat ->
      device_turn n (match rest with [] => HStatusIn | _ => HOut rest pid end) d.

(** The host has something to do. *)
Inductive host_turn (n : nat) : host -> driver -> Prop :=
  | host_in_short got bs pid d :
      loaded pid bs d -> standing addr new cfg d -> (length bs < 8)%nat -> res = got ++ bs -> drv_app d = afin ->
      usbMsgLen d = USB_NO_MSG -> 0 < N -> (2 <= n)%nat -> host_turn n (HIn got pid) d
  | host_in_full got bs rest pid d :
      loaded pid bs d -> standing addr new cfg d -> length bs = 8%nat -> res = got ++ bs ++ rest -> source d rest afin ->
      0 <= usbMsgLen d < USB_NO_MSG -> Z.of_nat (length got) + 8 + usbMsgLen d <= N -> 0 < N ->
      (Z.to_nat (usbMsgLen d / 8) + 3 <= n)%nat -> host_turn n (HIn got pid) d
  | host_out p rest pid d :
      unloaded USBPID_DATA1 d -> usbMsgFlags d = USB_FLG_USE_USER_RW -> usbMsgLen d = USB_NO_MSG -> standing addr new cfg d ->
      usb_packets (p :: rest) -> write_packets (p :: rest) (drv_app d) = Some afin -> res = [] -> 0 < N ->
      (length rest + 2 <= n)%nat -> host_turn n (HOut (p :: rest) pid) d
  | host_status d :
      loaded USBPID_DATA1 [] d -> standing addr new cfg d -> drv_app d = afin -> usbMsgLen d = USB_NO_MSG -> res = [] ->
      (1 <= n)%nat -> host_turn n HStatusIn d.

(** The device has nothing to do for the host. *)
Inductive either_turn (n : nat) : host -> driver -> Prop :=
  | either_setup d :
      rests d -> standing addr new0 cfg0 d -> drv_app d = drv_app d0 -> (Z.to_nat (N / 8) + length ps + 3 <= n)%nat ->
      either_turn n HSetup d
  | either_status d :
      rests d -> standing addr new cfg d -> drv_app d = afin -> new = new0 -> (1 <= n)%nat -> either_turn n (HStatusOut res) d
  | either_done d : rests d -> standing new new cfg d -> drv_app d = afin -> either_turn n (HDone res) d.

Lemma reply_to_ext d : drv_app d = drv_app d0 -> usbConfiguration d = usbConfiguration d0 -> reply_to rq d = reply_to rq d0.
Proof.
  intros Ha Hc. unfold reply_to. rewrite Ha. destruct (standard rq); [|done]. do 2 f_equal.
  pose proof (usbDriverSetup_spec rq d0) as Hs. destruct (usbDriverSetup rq d0) as [bs d2]. by apply Hs.
Qed.

Lemma source_empty d rest a : source d rest a -> usbMsgLen d = 0 -> rest = [] /\ a = drv_app d.
Proof.
  intros [lens' rest' a' _ Hl Ha E|rest' a' _ _ -> ->] Hm; rewrite Hm in *; [|done].
  destruct lens' as [|n lens']; [by injection E as <- <-|].
  destruct (usb_lengths_cons n lens' Hl) as (Hn & Hl' & _). rewrite asked_cons in Ha.
  pose proof (asked_nonneg lens' (usb_lengths_all lens' Hl')). lia.
Qed.

(** A packet of the answer, or the packet without data at its end. *)
Lemma poll_in n got rest pid d :
  unloaded pid d -> standing addr new cfg d -> 0 <= usbMsgLen d < USB_NO_MSG -> source d rest afin ->
  res = got ++ rest -> Z.of_nat (length got) + usbMsgLen d <= N -> 0 < N -> (Z.to_nat (usbMsgLen d / 8) + 2 <= n)%nat ->
  exists d', usbBuildTxBlock d = Some d' /\ host_turn n (HIn got pid) d'.
Proof.
  intros Hu Hst Hm Hs Hr Hg HN0 Hn. destruct (decide (usbMsgLen d = 0)) as [E0|Hne].
  - destruct (source_empty _ _ _ Hs E0) as [-> Ea]. destruct (build_empty _ _ _ _ _ Hu Hst E0) as (d' & E & Hl & Hst' & Ha & Hm').
    exists d'. split; [done|]. apply (host_in_short _ _ []); try done; [cbn; lia|congruence|lia].
  - destruct (build_spec _ _ _ _ _ _ _ Hu Hst ltac:(lia) Hs) as (bs & d' & E & Hl & Hst' & Hc).
    exists d'. split; [done|]. destruct Hc as [(Hb & -> & Ha & Hm')|(Hb & rest' & -> & Hs' & Hm' & Em)].
    + apply (host_in_short _ _ bs); try done. lia.
    + apply (host_in_full _ _ bs rest'); try done; [lia|]. rewrite Em. clear -Hn Em Hm'.
      assert (usbMsgLen d / 8 = (usbMsgLen d - 8) / 8 + 1) by dlia. assert (0 <= (usbMsgLen d - 8) / 8) by dlia. lia.
Qed.

(** A request has been processed. *)
Lemma poll_setup n d :
  standing addr new cfg d -> unloaded USBPID_DATA1 d -> drv_app d = (reply_to rq d0).2 ->
  match (reply_to rq d0).1 with
  | NoMsg => usbMsgFlags d = USB_FLG_USE_USER_RW /\ usbMsgLen d = (if receives rq then N else USB_NO_MSG)
  | Message bs => Z.land (usbMsgFlags d) USB_FLG_USE_USER_RW = 0 /\ usbMsgPtr d = bs /\
                  usbMsgLen d = Z.min (Z.of_nat (length bs)) N
  end ->
  (Z.to_nat (N / 8) + length ps + 2 <= n)%nat ->
  exists d', usbPoll false d = Some d' /\ host_turn n (after_setup setup ps) d'.
Proof.
  intros Hst Hu Ha Hm Hn. unfold data_fits in Hfit. destruct (reply_to rq d0) as [[bs|] a]; cbn [fst snd transfer_of] in *.
  - destruct Hm as (Hf & Hp & Hm). injection Hres as Hr Hfin. change (setup !!! 6%nat + 256 * setup !!! 7%nat) with N in Hr.
    rewrite (poll_unloaded USBPID_DATA1) by (done || lia). unfold after_setup. destruct (Z.eqb_spec N 0) as [E0|HN0].
    + destruct (build_empty _ _ _ _ _ Hu Hst) as (d' & E & Hl & Hst' & Ha' & Hm'); [lia|].
      exists d'. split; [done|]. apply host_status; try done; [congruence| |lia]. rewrite <- Hr, E0. by destruct (receives rq).
    + destruct Hfit as [Hrec| ?]; [|done]. rewrite Hrec in *.
      apply (poll_in n [] res); try done; [lia| |cbn [length]; lia|lia|].
      * apply source_message; [done|rewrite Hp; lia| |congruence]. rewrite Hp, Hm, <- Hr.
        destruct (Z.min_spec (Z.of_nat (length bs)) N) as [[? ->]|[? ->]]; [|done]. by rewrite !take_ge by lia.
      * rewrite Hm. assert (Z.min (Z.of_nat (length bs)) N / 8 <= N / 8) by (apply Z.div_le_mono; lia). lia.
  - destruct Hm as (Hf & Hm). destruct (receives rq) eqn:Hrec.
    + destruct Hfit as [Hl Hask]. rewrite (poll_unloaded USBPID_DATA1) by (done || lia).
      assert (Hs : source d res afin) by (eapply source_user; [done|exact Hl|lia|by rewrite Ha]).
      unfold after_setup. rewrite Hrec. destruct (Z.eqb_spec N 0) as [E0|HN0].
      * destruct (source_empty _ _ _ Hs) as [Hr Ea]; [lia|].
        destruct (build_empty _ _ _ _ _ Hu Hst) as (d' & E & Hld & Hst' & Ha' & Hm'); [lia|].
        exists d'. split; [done|]. apply host_status; try done; [congruence|lia].
      * apply (poll_in n [] res); try done; cbn [length]; try lia. rewrite Hm. lia.
    + destruct Hfit as [Hps HN0]. rewrite (poll_quiet _ _ Hu Hm). exists d. split; [done|].
      unfold after_setup. rewrite (proj2 (Z.eqb_neq _ _)), Hrec by lia. rewrite <- Ha in Hres.
      destruct (write_packets ps (drv_app d)) as [a'|] eqn:Ew; [|done]. injection Hres as Hr Hfin.
      destruct ps as [|p rest]; [by destruct Hps|]. apply host_out; try done; [by rewrite Ew, Hfin|]. cbn [length] in Hn. lia.
Qed.

Lemma device_poll n h d : device_turn n h d -> exists d', usbPoll false d = Some d' /\ host_turn n h d'.
Proof.
  intros [d1 Hr Ht Hb Hst Ha Hn|got rest pid d1 Hu Hst Hm Hs Hr Hg HN0 Hn|p rest pid d1 Hr Ht Hb Hf Hm Hp Hx Htog Hst Hw Hres0 HN0 Hn].
  - destruct (setup_spec addr new0 cfg0 setup d1 Hst Hlen HN) as (H1 & H2 & H3 & H4).
    rewrite (reply_to_ext d1) in * by (try done; destruct Hst as (_ & _ & ->); by destruct Hst0 as (_ & _ & ->)).
    set (d2 := set_rx 0 _ _ (process_setup setup d1)) in *.
    destruct (poll_setup n d2 H2 H1 H3 H4 Hn) as (d' & E & Hd'). exists d'. split; [|done]. rewrite <- E.
    unfold usbPoll. rewrite Hr, Hb. unfold usbProcessRx. rewrite Ht. done.
  - rewrite (poll_unloaded pid) by (done || lia). by eapply poll_in.
  - unfold usbPoll. rewrite Hr, Hb. rewrite (proj2 (Z.geb_le _ _)) by lia. unfold usbProcessRx. rewrite Ht, Hf.
    cbn [Z.eqb Pos.eqb]. change (negb (Z.land 128 128 =? 0)) with true. cbv iota.
    destruct (usb_packets_cons p rest Hp) as [Hp8 Hrest].
    cbn [write_packets] in Hw. destruct (fn_write p (drv_app d1)) as [[r a]|]; [|done]. cbn [mbind option_bind] in *.
    destruct rest as [|p' rest].
    + destruct (Z.eqb_spec r 1) as [->|]; [|done]. injection Hw as Hfin. cbn [Z.eqb Pos.eqb negb mbind option_bind].
      set (d2 := set_rx (A:=A) 0 _ _ _).
      assert (Hu : unloaded USBPID_DATA1 d2) by by split_and!.
      assert (Hst2 : standing addr new cfg d2) by exact Hst.
      destruct (build_empty _ _ _ _ _ Hu Hst2 eq_refl) as (d' & E & Hl & Hst' & Ha' & Hm').
      cbn [tx_len usbTx set_rx set_msg set_app d2 usbMsgLen]. rewrite Hx. change (handshake USBPID_NAK) with true.
      cbn [Z.eqb negb andb]. rewrite E. exists d'. split; [done|]. apply host_status; try done; try lia. by rewrite Ha'.
    + destruct (Z.eqb_spec r 0) as [->|]; [|done]. cbn [Z.eqb Pos.eqb negb mbind option_bind].
      cbn [tx_len usbTx set_rx set_msg set_app usbMsgLen]. rewrite Hx, Hm. cbn [Z.eqb Pos.eqb negb]. rewrite andb_false_r.
      eexists. split; [reflexivity|]. destruct Hrest as [|[Hp' Hrest]]; [done|].
      apply host_out; try done. cbn [length] in *. lia.
Qed.

Lemma host_poll n h d : host_turn n h d -> usbPoll false d = Some d.
Proof. intros []; first [by eapply poll_loaded | by eapply poll_quiet]. Qed.

Lemma either_poll n h d : either_turn n h d -> exists d', usbPoll false d = Some d' /\ either_turn n h d'.
Proof.
  intros [d1 Hr Hst Ha Hn|d1 Hr Hst Ha Hn|d1 Hr Hst Ha]; destruct (poll_rests _ _ _ _ Hr Hst) as (d' & E & Hr' & Hst' & Ha');
    exists d'; (split; [done|]); rewrite Ha in Ha'.
  - by apply either_setup.
  - by apply either_status.
  - by apply either_done.
Qed.

(** With fewer rounds to go, more is possible. *)
Lemma turns_mono n m h d : (n <= m)%nat ->
  (device_turn n h d -> device_turn m h d) /\ (host_turn n h d -> host_turn m h d) /\
  (either_turn n h d -> either_turn m h d).
Proof.
  intros Hnm. split_and!; intros [];
    first [ eapply device_setup; eassumption || lia
          | eapply device_in; eassumption || lia
          | eapply device_out; eassumption || lia
          | eapply host_in_short; eassumption || lia
          | eapply host_in_full; eassumption || lia
          | eapply host_out; eassumption || lia
          | eapply host_status; eassumption || lia
          | eapply either_setup; eassumption || lia
          | eapply either_status; eassumption || lia
          | eapply either_done; eassumption || lia ].
Qed.

(** While a packet waits to be processed an attempt is refused. *)
Lemma busy_attempt new' cfg' h d :
  standing addr new' cfg' d -> 1 <= usbRxLen d -> (exists got pid, h = HIn got pid) \/ (exists rest pid, h = HOut rest pid) \/ h = HStatusIn ->
  exists x, attempt h d = (h, set_current x d).
Proof.
  assert (Hown : set_current (usbCurrentTok d) d = d) by by destruct d.
  intros Hst Hr [(got & pid & ->)|[(rest & pid & ->)| ->]]; cbn [UsbWire.attempt].
  - rewrite (ask_busy _ _ _ _ Hst Hr). exists (usbCurrentTok d). by rewrite Hown.
  - rewrite (send_busy _ _ _ _ _ _ _ ltac:(by right) Hst Hr). by eexists.
  - rewrite (ask_busy _ _ _ _ Hst Hr). exists (usbCurrentTok d). by rewrite Hown.
Qed.

Lemma device_attempt n h d : device_turn n h d -> exists d', attempt h d = (h, d') /\ device_turn n h d'.
Proof.
  intros [d1 Hr Ht Hb Hst Ha Hn|got rest pid d1 Hu Hst Hm Hs Hr Hg HN0 Hn|p rest pid d1 Hr Ht Hb Hf Hm Hp Hx Htog Hst Hw Hres0 HN0 Hn].
  - destruct (busy_attempt _ _ (after_setup setup ps) d1 Hst) as (x & E); [lia| |].
    { unfold after_setup. destruct (N =? 0); [by right; right|]. destruct (receives rq); [left|right; left]; by eexists _, _. }
    rewrite E. eexists. split; [reflexivity|]. by apply device_setup.
  - cbn [UsbWire.attempt]. rewrite (ask_unloaded _ _ _ _ _ Hst Hu). exists d1. split; [done|]. by eapply device_in.
  - destruct (busy_attempt _ _ (match rest with [] => HStatusIn | _ => HOut rest pid end) d1 Hst) as (x & E); [lia| |].
    { destruct rest; [by right; right|right; left; by eexists _, _]. }
    rewrite E. eexists. split; [reflexivity|]. by apply (device_out _ p rest pid).
Qed.

Lemma source_same d d' rest a :
  source d rest a -> usbMsgPtr d' = usbMsgPtr d -> usbMsgLen d' = usbMsgLen d -> usbMsgFlags d' = usbMsgFlags d ->
  drv_app d' = drv_app d -> source d' rest a.
Proof.
  intros [lens' rest' a' Hf Hl Ha E|rest' a' Hf Hl -> ->] H1 H2 H3 H4.
  - eapply source_user; [by rewrite H3|exact Hl|by rewrite H2|by rewrite H4].
  - apply source_message; [by rewrite H3|by rewrite H1, H2|by rewrite H1, H2|done].
Qed.

(** An attempt of the host when it is its turn moves the transfer on. *)
Lemma host_attempt n h d :
  host_turn (S n) h d -> let '(h', d') := attempt h d in device_turn n h' d' \/ either_turn n h' d'.
Proof.
  intros [got bs pid d1 Hl Hst Hb Hr Ha Hm HN0 Hn|got bs rest pid d1 Hl Hst Hb Hr Hs Hm Hg HN0 Hn|p rest pid d1 Hu Hf Hm Hst Hp Hw Hr HN0 Hn
         |d1 Hl Hst Ha Hm Hr Hn]; cbn [UsbWire.attempt].
  - destruct (ask_loaded _ _ _ _ _ _ Hst Hl) as (d' & -> & Hu & H1 & H2 & H3 & H4 & H5 & H6 & H7).
    rewrite Z.eqb_refl. cbn [negb]. rewrite (proj2 (Z.ltb_lt _ _)) by lia. cbn [orb]. rewrite <- Hr.
    destruct Hnew as [?|En]; [lia|]. right. apply either_status; [| |congruence|done|lia].
    + destruct Hu as [Hu _]. split; [done|right; congruence].
    + split_and!; [by rewrite H1, En|done|done].
  - destruct (ask_loaded _ _ _ _ _ _ Hst Hl) as (d' & -> & Hu & H1 & H2 & H3 & H4 & H5 & H6 & H7).
    destruct Hnew as [?|En]; [lia|]. assert (Hst' : standing addr new cfg d') by (split_and!; [by rewrite H1, En|done|done]).
    pose proof (source_same _ d' _ _ Hs H4 H5 H6 H7) as Hs'.
    rewrite Z.eqb_refl. cbn [negb]. rewrite Hb. cbn [Z.of_nat Z.ltb Z.compare Pos.of_succ_nat Pos.succ Pos.compare Pos.compare_cont orb].
    rewrite length_app, Hb. destruct (Z.leb_spec N (Z.of_nat (length got + 8))) as [Hle|Hgt].
    + destruct (source_empty _ _ _ Hs') as [-> Ea]; [lia|]. rewrite app_nil_r in Hr. rewrite <- Hr.
      right. apply either_status; try done; [|lia]. destruct Hu as [Hu _]. split; [done|left; lia].
    + left. apply (device_in _ (got ++ bs) rest); try done; [by rewrite H5|by rewrite <- app_assoc|rewrite length_app; lia|].
      rewrite H5. lia.
  - rewrite (send_free _ _ _ _ _ _ _ ltac:(by right) Hst); [|by destruct Hu|].
    2: { cbn [hd]. destruct (usb_packets_cons p rest Hp) as [Hl _]. by destruct p; [cbn in Hl; lia|]. }
    cbn [sent Z.eqb Pos.eqb hd tl]. destruct Hu as (Hu1 & Hu2 & Hu3). left.
    apply (device_out _ p rest (toggle pid)); try done. lia.
  - destruct (ask_loaded _ _ _ _ _ _ Hst Hl) as (d' & -> & Hu & H1 & H2 & H3 & H4 & H5 & H6 & H7).
    cbn [Z.eqb Pos.eqb length Nat.eqb andb]. rewrite <- Hr. right. apply either_done; [|by split_and!|congruence].
    destruct Hu as [Hu _]. split; [done|right; congruence].
Qed.

Lemma either_attempt n h d :
  either_turn n h d -> let '(h', d') := attempt h d in device_turn (Nat.pred n) h' d' \/ either_turn (Nat.pred n) h' d'.
Proof.
  intros [d1 [Hr1 Hr2] Hst Ha Hn|d1 [Hr1 Hr2] Hst Ha En Hn|d1 Hr Hst Ha]; cbn [UsbWire.attempt].
  - rewrite (send_free _ _ _ _ _ _ _ ltac:(by left) Hst Hr1) by (intros ->; by cbn in Hlen).
    cbn [sent Z.eqb Pos.eqb]. left. apply device_setup; try done; [cbn; lia|lia].
  - rewrite (send_status _ _ _ _ Hst Hr1). cbn [sent Z.eqb Pos.eqb]. right. apply either_done; [by split| |done].
    destruct Hst as (H1 & H2 & H3). split_and!; [cbn; by rewrite H1, En|done|done].
  - right. by apply either_done.
Qed.

(** *** Rounds *)

Definition at_start (n : nat) (h : host) (d : driver) : Prop := device_turn n h d \/ either_turn n h d.
Definition polled (n : nat) (h : host) (d : driver) : Prop := host_turn n h d \/ either_turn n h d.

Lemma at_start_mono n m h d : (n <= m)%nat -> at_start n h d -> at_start m h d.
Proof. intros Hnm. destruct (turns_mono n m h d Hnm) as (H1 & _ & H3). intros [?|?]; [left|right]; auto. Qed.

Lemma polls_spec p n h d : at_start n h d -> exists d', polls p d = Some d' /\ (at_start n h d' \/ host_turn n h d') /\
  ((1 <= p)%nat -> polled n h d').
Proof.
  assert (Hp : forall p0 d, polled n h d -> exists d', polls p0 d = Some d' /\ polled n h d').
  { clear d. induction p0 as [|p0 IH]; intros d Hd; [by exists d|]. cbn [polls].
    destruct Hd as [Hd|Hd]; [rewrite (host_poll _ _ _ Hd); by apply IH; left|].
    destruct (either_poll _ _ _ Hd) as (d1 & E & Hd1). rewrite E. by apply IH; right. }
  intros Hd. destruct p as [|p]; [exists d; split; [done|split; [by left|lia]]|]. cbn [polls].
  assert (Hd1 : exists d1, usbPoll false d = Some d1 /\ polled n h d1).
  { destruct Hd as [Hd|Hd]; [destruct (device_poll _ _ _ Hd) as (d1 & E & H1)|destruct (either_poll _ _ _ Hd) as (d1 & E & H1)];
      exists d1; (split; [done|]); [by left|by right]. }
  destruct Hd1 as (d1 & E & Hd1). rewrite E. cbn [mbind option_bind]. destruct (Hp p d1 Hd1) as (d2 & E2 & Hd2).
  exists d2. split; [done|]. split; [|done]. destruct Hd2; [by right|by left; right].
Qed.

Lemma attempt_at_start n h d : at_start n h d -> let '(h', d') := attempt h d in at_start n h' d'.
Proof.
  intros [Hd|Hd].
  - destruct (device_attempt _ _ _ Hd) as (d' & -> & Hd'). by left.
  - pose proof (either_attempt _ _ _ Hd) as Hd'. destruct (attempt h d) as [h' d'].
    apply (at_start_mono (Nat.pred n)); [lia|exact Hd'].
Qed.

Lemma attempts_at_start q n h d : at_start n h d -> let '(h', d') := attempts addr setup ps q (h, d) in at_start n h' d'.
Proof.
  revert h d. induction q as [|q IH]; intros h d Hd; [done|]. cbn [attempts fst snd].
  pose proof (attempt_at_start _ _ _ Hd) as H1. destruct (attempt h d) as [h1 d1]. by apply IH.
Qed.

Lemma host_turn_pos n h d : host_turn n h d -> exists m, n = S m.
Proof. intros []; (destruct n; [lia|by eexists]). Qed.

Definition at_any (n : nat) (h : host) (d : driver) : Prop := at_start n h d \/ host_turn n h d.

Lemma attempts_any q n h d :
  at_any n h d -> let '(h', d') := attempts addr setup ps q (h, d) in at_any n h' d'.
Proof.
  destruct q as [|q]; [done|]. cbn [attempts fst snd]. intros Hd.
  assert (H1 : let '(h1, d1) := attempt h d in at_start n h1 d1).
  { destruct Hd as [Hd|Hd]; [by apply attempt_at_start|]. destruct (host_turn_pos _ _ _ Hd) as [m ->].
    pose proof (host_attempt _ _ _ Hd) as H1. destruct (attempt h d) as [h1 d1].
    apply (at_start_mono m); [lia|exact H1]. }
  destruct (attempt h d) as [h1 d1]. pose proof (attempts_at_start q n h1 d1 H1) as H2.
  destruct (attempts _ _ _ q (h1, d1)). by left.
Qed.

Lemma attempts_progress q n h d :
  polled n h d -> (1 <= q)%nat -> let '(h', d') := attempts addr setup ps q (h, d) in at_start (Nat.pred n) h' d'.
Proof.
  destruct q as [|q]; [lia|]. cbn [attempts fst snd]. intros Hp _.
  assert (H1 : let '(h1, d1) := attempt h d in at_start (Nat.pred n) h1 d1).
  { destruct Hp as [Hd|Hd]; [|exact (either_attempt _ _ _ Hd)]. destruct (host_turn_pos _ _ _ Hd) as [m ->].
    exact (host_attempt _ _ _ Hd). }
  destruct (attempt h d) as [h1 d1]. exact (attempts_at_start q _ h1 d1 H1).
Qed.

Lemma polls_any p n h d : at_any n h d -> exists d', polls p d = Some d' /\ at_any n h d'.
Proof.
  intros [Hd|Hd].
  - destruct (polls_spec p n h d Hd) as (d' & E & H1 & _). by exists d'.
  - exists d. split; [|by right]. induction p as [|p IH]; [done|]. cbn [polls]. by rewrite (host_poll _ _ _ Hd).
Qed.

Lemma rounds_any n pqs h d :
  at_any n h d -> exists h' d', rounds addr setup ps pqs (h, d) = Some (h', d') /\ at_any n h' d'.
Proof.
  revert h d. induction pqs as [|[p q] pqs IH]; intros h d Hd; [by exists h, d|]. cbn [rounds fst snd].
  destruct (polls_any p n h d Hd) as (d1 & E & Hd1). rewrite E. cbn [mbind option_bind].
  pose proof (attempts_any q n h d1 Hd1) as H2. destruct (attempts _ _ _ q (h, d1)) as [h2 d2]. by apply IH.
Qed.

Lemma rounds_progress n pqs h d :
  at_start n h d -> Forall (fun pq => 1 <= pq.1 /\ 1 <= pq.2)%nat pqs ->
  exists h' d', rounds addr setup ps pqs (h, d) = Some (h', d') /\ at_start (n - length pqs) h' d'.
Proof.
  revert n h d. induction pqs as [|[p q] pqs IH]; intros n h d Hd Hpq; [exists h, d; by rewrite Nat.sub_0_r|].
  apply Forall_cons in Hpq as [[Hp Hq] Hpq]. cbn [fst snd rounds] in *.
  destruct (polls_spec p n h d Hd) as (d1 & E & _ & H1). rewrite E. cbn [mbind option_bind].
  pose proof (attempts_progress q n h d1 (H1 Hp) Hq) as H2. destruct (attempts _ _ _ q (h, d1)) as [h2 d2].
  destruct (IH _ h2 d2 H2 Hpq) as (h' & d' & E' & Hd'). exists h', d'. split; [done|].
  cbn [length]. by replace (n - S (length pqs))%nat with (Nat.pred n - length pqs)%nat by lia.
Qed.

Lemma at_start_0 h d : at_start 0 h d -> h = HDone res /\ rests d /\ standing new new cfg d /\ drv_app d = afin.
Proof. intros [[]|[]]; try lia. done. Qed.

Lemma never_failed n h d : at_any n h d -> h <> HFailed.
Proof.
  intros [[[]|[]]|[]]; try done; try (by destruct rest). unfold after_setup. by repeat case_match.
Qed.

Lemma any_done n got d : at_any n (HDone got) d -> got = res /\ rests d /\ standing new new cfg d /\ drv_app d = afin.
Proof.
  assert (Hd : forall n h, device_turn n h d -> h <> HDone got).
  { intros n' h []; [unfold after_setup; by repeat case_match|done|by destruct rest]. }
  intros [[Ht|Ht]|Ht].
  - by destruct (Hd _ _ Ht).
  - by inversion Ht; subst.
  - by inversion Ht.
Qed.
End Turns.

(** Whatever the timing, a control transfer works: the host never sees an error, and after enough
    rounds of polls and attempts (the number of packets plus three) the transfer is over. *)
Lemma transfer_completes addr new0 cfg0 setup ps lens (d : driver) res afin :
  let rq := request_of setup in
  let new := new_address rq new0 in
  let cfg := new_configuration rq cfg0 in
  length setup = 8%nat -> 0 <= rq_length rq < USB_NO_MSG -> u8 (2 * new0) = u8 (2 * addr) ->
  (rq_length rq = 0 \/ new = new0) -> data_fits setup ps lens d -> rests d -> standing addr new0 cfg0 d ->
  transfer_of rq ps lens (reply_to rq d) = Some (res, afin) ->
  forall pqs, exists h' d', rounds addr setup ps pqs (HSetup, d) = Some (h', d') /\ h' <> HFailed /\
    (forall got, h' = HDone got -> got = res /\ rests d' /\ standing new new cfg d' /\ drv_app d' = afin) /\
    (Forall (fun pq => 1 <= pq.1 /\ 1 <= pq.2)%nat pqs ->
     (Z.to_nat (rq_length rq / 8) + length ps + 3 <= length pqs)%nat -> h' = HDone res).
Proof.
  intros rq new cfg Hlen HN Haddr Hnew Hfit Hrest Hst Hres pqs.
  set (n := (Z.to_nat (rq_length rq / 8) + length ps + 3)%nat).
  assert (H0 : either_turn addr new0 cfg0 setup ps d res afin n HSetup d) by (by apply either_setup).
  destruct (rounds_any addr new0 cfg0 setup ps lens d res afin Hlen HN Haddr Hnew Hfit Hst Hres n pqs HSetup d) as (h' & d' & E & Hd').
  { by left; right. }
  exists h', d'. split; [done|]. split; [by eapply never_failed|]. split.
  - intros got ->. by eapply any_done.
  - intros Hpq Hn.
    destruct (rounds_progress addr new0 cfg0 setup ps lens d res afin Hlen HN Haddr Hnew Hfit Hst Hres n pqs HSetup d) as (h2 & d2 & E2 & Hd2).
    { by right. } { done. }
    replace (n - length pqs)%nat with 0%nat in Hd2 by lia. rewrite E in E2. injection E2 as <- <-.
    by eapply at_start_0.
Qed.

(** *** A transfer without data to the application

    [usbMsgLen] stays [USB_NO_MSG] when no data come that could end the transfer, so that the driver never puts out
    the packet of the status (usbdrv.c:590): the host waits for ever. *)
Section Unanswered.
Context (addr new0 cfg0 : Z) (setup : list Z) (ps : list (list Z)) (a0 : A).

Inductive unanswered : host -> driver -> Prop :=
  | unanswered_start d : rests d -> standing addr new0 cfg0 d -> drv_app d = a0 -> unanswered HSetup d
  | unanswered_taken d :
      usbRxLen d = 11 -> usbRxToken d = USBPID_SETUP -> usbRxBuf d = setup -> standing addr new0 cfg0 d ->
      drv_app d = a0 -> unanswered HStatusIn d
  | unanswered_stuck d :
      unloaded USBPID_DATA1 d -> usbMsgLen d = USB_NO_MSG -> standing addr new0 cfg0 d -> unanswered HStatusIn d.

Context (Hlen : length setup = 8%nat) (HN : rq_length (request_of setup) = 0).
Context (Hsends : receives (request_of setup) = false) (Hown : standard (request_of setup) = false).
Context (Hno : (fn_setup (request_of setup) a0).1 = NoMsg).

Lemma unanswered_poll h d : unanswered h d -> exists d', usbPoll false d = Some d' /\ unanswered h d'.
Proof.
  intros [d1 Hr Hst Ha|d1 H1 H2 H3 Hst Ha|d1 Hu Hm Hst].
  - destruct (poll_rests _ _ _ _ Hr Hst) as (d' & E & Hr' & Hst' & Ha'). exists d'. split; [done|].
    apply unanswered_start; [done..|]. by rewrite Ha'.
  - destruct (setup_spec addr new0 cfg0 setup d1 Hst Hlen) as (Hu & Hst' & _ & Hm); [lia|]. cbv zeta in *.
    set (d2 := set_rx 0 _ _ (process_setup setup d1)) in *.
    unfold reply_to, new_address, new_configuration in *. rewrite Hown, Ha, ?Hno in *.
    cbn [andb] in *. rewrite Hsends in Hm. destruct Hm as [_ Hm]. pose proof (poll_quiet _ _ Hu Hm) as Hq.
    exists d2. split; [|by apply unanswered_stuck]. rewrite <- Hq. unfold usbPoll. rewrite H1, H3. unfold usbProcessRx.
    rewrite H2. done.
  - rewrite (poll_quiet _ _ Hu Hm). exists d1. split; [done|]. by apply unanswered_stuck.
Qed.

Lemma unanswered_attempt h d : unanswered h d -> let '(h', d') := attempt addr setup ps h d in unanswered h' d'.
Proof.
  intros [d1 [Hr Hm] Hst Ha|d1 H1 H2 H3 Hst Ha|d1 Hu Hm Hst]; cbn [UsbWire.attempt].
  - rewrite (send_free addr new0 cfg0 USBPID_SETUP USBPID_DATA0 setup d1); [|by left|done|done|by destruct setup].
    cbn [sent Z.eqb Pos.eqb]. unfold after_setup. rewrite HN. cbn [Z.eqb]. apply unanswered_taken; try done.
    cbn. by rewrite Hlen.
  - rewrite (ask_busy addr new0 cfg0) by (done || lia). by apply unanswered_taken.
  - rewrite (ask_unloaded addr new0 cfg0 USBPID_DATA1) by done. by apply unanswered_stuck.
Qed.

Lemma unanswered_rounds pqs h d :
  unanswered h d -> exists h' d', rounds addr setup ps pqs (h, d) = Some (h', d') /\ unanswered h' d'.
Proof.
  revert h d. induction pqs as [|[p q] pqs IH]; intros h d Hd; [by exists h, d|]. cbn [rounds fst snd].
  assert (exists d1, polls p d = Some d1 /\ unanswered h d1) as (d1 & -> & H1).
  { revert d Hd. induction p as [|p IHp]; intros d Hd; [by exists d|]. cbn [polls].
    destruct (unanswered_poll h d Hd) as (d1 & -> & H1). by apply IHp. }
  cbn [mbind option_bind]. assert (H2 : let '(h2, d2) := attempts addr setup ps q (h, d1) in unanswered h2 d2).
  { clear Hd. revert h d1 H1. induction q as [|q IHq]; intros h d1 H1; [done|]. cbn [attempts fst snd].
    pose proof (unanswered_attempt h d1 H1) as H2. destruct (attempt _ _ _ h d1) as [h2 d2]. by apply IHq. }
  destruct (attempts _ _ _ q (h, d1)) as [h2 d2]. by apply IH.
Qed.
End Unanswered.

(** However often the firmware polls and the host asks, the host never has the status. *)
Lemma empty_transfer_unanswered addr new0 cfg0 setup ps (d : driver) pqs :
  let rq := request_of setup in
  length setup = 8%nat -> rq_length rq = 0 -> receives rq = false -> standard rq = false ->
  (fn_setup rq (drv_app d)).1 = NoMsg -> rests d -> standing addr new0 cfg0 d ->
  exists h' d', rounds addr setup ps pqs (HSetup, d) = Some (h', d') /\ (h' = HSetup \/ h' = HStatusIn).
Proof.
  intros rq Hl HN Hs Hown Hno Hr Hst.
  destruct (unanswered_rounds addr new0 cfg0 setup ps (drv_app d) Hl HN Hs Hown Hno pqs HSetup d) as (h' & d' & E & Hd');
    [by apply unanswered_start|].
  exists h', d'. split; [exact E|]. destruct Hd'; auto.
Qed.

(** The requests of the driver itself. *)
Lemma standard_request addr new0 cfg0 setup (d : driver) :
  let rq := request_of setup in
  let new := new_address rq new0 in
  let cfg := new_configuration rq cfg0 in
  length setup = 8%nat -> 0 <= rq_length rq < USB_NO_MSG -> u8 (2 * new0) = u8 (2 * addr) ->
  standard rq = true -> (rq_length rq = 0 \/ receives rq = true /\ rq_request rq <> 5) -> rests d -> standing addr new0 cfg0 d ->
  let res := if receives rq then take (Z.to_nat (rq_length rq)) (usbDriverSetup rq d).1 else [] in
  forall pqs, exists h' d', rounds addr setup [] pqs (HSetup, d) = Some (h', d') /\ h' <> HFailed /\
    (forall got, h' = HDone got -> got = res /\ rests d' /\ standing new new cfg d' /\ drv_app d' = drv_app d) /\
    (Forall (fun pq => 1 <= pq.1 /\ 1 <= pq.2)%nat pqs -> (Z.to_nat (rq_length rq / 8) + 3 <= length pqs)%nat -> h' = HDone res).
Proof.
  intros rq new cfg Hlen HN Haddr Hs Hd Hrest Hst res pqs.
  assert (Hreply : reply_to rq d = (Message (usbDriverSetup rq d).1, drv_app d)) by (unfold reply_to; by rewrite Hs).
  assert (Hr : rq_length rq = 0 \/ receives rq = true) by tauto.
  assert (Hn : rq_length rq = 0 \/ new = new0).
  { destruct Hd as [?|[_ Hd]]; [by left|right]. unfold new, new_address. by rewrite (proj2 (Z.eqb_neq _ _) Hd), andb_false_r. }
  destruct (transfer_completes addr new0 cfg0 setup [] [] d res (drv_app d) Hlen HN Haddr Hn) with (pqs := pqs)
    as (h' & d' & E & H1 & H2 & H3); [unfold data_fits; fold rq; rewrite Hreply; cbn; tauto|done|done|by fold rq; rewrite Hreply|].
  exists h', d'. split_and!; [done|done|exact H2|]. intros Hpq Hle. apply H3; [done|]. fold rq. cbn [length]. lia.
Qed.
End Proofs.

(** A report given to a ready interrupt endpoint goes to the host once, with the other token than the last. *)
Lemma interrupt_delivers {A} {F : UsbFunctions A} addr new cfg bs (d : driver (A:=A)) :
  usbInterruptIsReady d = true -> (length bs <= 8)%nat -> usbRxLen d = 0 -> standing addr new cfg d ->
  let token := toggle (tx_token (usbTxStatus1 d)) in
  let d1 := usbSetInterrupt bs d in
  usbInterruptIsReady d1 = false /\
  exists d2, receive_packet (Token USBPID_IN addr 1) d1 = (Sends token bs, d2) /\ usbInterruptIsReady d2 = true /\
    tx_token (usbTxStatus1 d2) = token /\ drv_app d2 = drv_app d /\
    (u8 (2 * new) = u8 (2 * addr) -> receive_packet (Token USBPID_IN addr 1) d2 = (Handshake USBPID_NAK, d2)).
Proof.
  intros Hi Hl Hr (Ha & Hn & Hc) token d1. unfold usbInterruptIsReady in *.
  assert (Hlen : handshake (Z.of_nat (length bs) + 4) = false) by (apply packet_no_handshake; lia).
  split; [exact Hlen|]. subst d1. unfold receive_packet, usbSetInterrupt. cbn [usbDeviceAddr set_interrupts]. rewrite Ha, Z.eqb_refl.
  cbn [negb Z.eqb Pos.eqb]. unfold handleIn. cbn [usbRxLen usbTxStatus1 set_interrupts]. rewrite Hr.
  cbn [Z.geb Z.compare Z.eqb Pos.eqb]. unfold handle_tx, usbGenericSetInterrupt. cbn [tx_len tx_token tx_data]. rewrite Hlen, Hi.
  eexists. split; [reflexivity|]. split; [done|]. split; [done|]. split; [done|]. intros Haddr.
  cbn [usbDeviceAddr set_addrs set_interrupts usbNewDeviceAddr usbRxLen]. rewrite Hn, Haddr, Z.eqb_refl. cbn [negb].
  unfold handleIn. cbn [usbRxLen set_addrs set_interrupts]. by rewrite Hr.
Qed.

(** C18: The driver of the V-USB build enumerates, whatever the timing. However the host's attempts and
    the polls of the main loop are interleaved, a standard request never shows the host an error, and is over after
    as many rounds as it has packets plus three, with the right result: a descriptor arrives as Descriptors.c
    has it, cut to the length the host asks for; the configuration that was set is the one that is
    reported; SET_ADDRESS is answered under the old address and takes effect then. Each leaves the driver ready for the next
    request and the application untouched. *)
Theorem driver_enumerates {A} {F : UsbFunctions A} addr cfg setup (d : driver (A:=A)) pqs :
  let rq := request_of setup in
  let done_with got (r : option (host * driver)) (new cfg : Z) :=
    exists d', r = Some (HDone got, d') /\ rests d' /\ standing new new cfg d' /\ drv_app d' = drv_app d in
  let outcome := rounds addr setup [] pqs (HSetup, d) in
  length setup = 8%nat -> 0 <= rq_length rq < USB_NO_MSG -> rests d -> standing addr addr cfg d ->
  (Forall (fun pq => 1 <= pq.1 /\ 1 <= pq.2)%nat pqs -> (Z.to_nat (rq_length rq / 8) + 3 <= length pqs)%nat ->
   (rq_type rq = 0x80 \/ rq_type rq = 0x81 ->
    rq_request rq = 6 -> u8 (rq_value rq / 256) ∈ [1; 2; 3; 0x21; 0x22] ->
    done_with (take (Z.to_nat (rq_length rq)) (fn_descriptor rq)) outcome addr cfg) /\
   (rq_type rq = 0x80 -> rq_request rq = 8 -> done_with (take (Z.to_nat (rq_length rq)) [cfg]) outcome addr cfg) /\
   (rq_type rq = 0 -> rq_length rq = 0 -> rq_request rq = 9 -> done_with [] outcome addr (u8 (rq_value rq))) /\
   (rq_type rq = 0 -> rq_length rq = 0 -> rq_request rq = 5 -> done_with [] outcome (u8 (rq_value rq)) cfg)) /\
  (standard rq = true -> rq_length rq = 0 \/ receives rq = true /\ rq_request rq <> 5 ->
   exists h' d', outcome = Some (h', d') /\ h' <> HFailed).
Proof.
  intros rq done_with outcome Hlen HN Hrest Hst.
  pose proof (standard_request addr addr cfg setup d Hlen HN eq_refl) as Hall. cbv zeta in Hall. fold rq in Hall.
  split.
  - intros Hpq Hle.
    assert (Hgo : standard rq = true -> rq_length rq = 0 \/ receives rq = true /\ rq_request rq <> 5 ->
      done_with (if receives rq then take (Z.to_nat (rq_length rq)) (usbDriverSetup rq d).1 else []) outcome
        (new_address rq addr) (new_configuration rq cfg)).
    { intros Hs Hr. destruct (Hall Hs Hr Hrest Hst pqs) as (h' & d' & E & _ & H2 & H3). specialize (H3 Hpq Hle). subst h'.
      destruct (H2 _ eq_refl) as (_ & H4 & H5 & H6). by exists d'. }
    unfold new_address, new_configuration, standard, receives in Hgo.
    assert (Hin : forall r, rq_type rq = 0x80 \/ rq_type rq = 0x81 -> rq_request rq = r -> r <> 5 -> r <> 9 ->
      done_with (take (Z.to_nat (rq_length rq)) (usbDriverSetup rq d).1) outcome addr cfg).
    { intros r Ht Hr H5 H9. rewrite Hr, (proj2 (Z.eqb_neq r 5) H5), (proj2 (Z.eqb_neq r 9) H9), !andb_false_r in Hgo.
      destruct Ht as [Ht|Ht]; rewrite Ht in Hgo; by apply Hgo; [|right]. }
    assert (Hout : rq_type rq = 0 -> rq_length rq = 0 ->
      done_with [] outcome (if rq_request rq =? 5 then u8 (rq_value rq) else addr) (if rq_request rq =? 9 then u8 (rq_value rq) else cfg)).
    { intros Ht Hn. rewrite Ht in Hgo. by apply Hgo; [|left]. }
    split_and!.
    + intros Ht Hr Hd. specialize (Hin 6 Ht Hr). unfold usbDriverSetup, usbDriverDescriptor in Hin. rewrite Hr in Hin.
      cbn [Z.eqb Pos.eqb fst] in Hin. replace (_ || _) with true in Hin; [by apply Hin|].
      rewrite !elem_of_cons, elem_of_nil in Hd. destruct Hd as [-> |[-> |[-> |[-> |[-> |[]]]]]]; reflexivity.
    + intros Ht Hr. specialize (Hin 8 (or_introl Ht) Hr). unfold usbDriverSetup in Hin. rewrite Hr in Hin.
      destruct Hst as (_ & _ & Hc). rewrite Hc in Hin. by apply Hin.
    + intros Ht Hn Hr. specialize (Hout Ht Hn). by rewrite Hr in Hout.
    + intros Ht Hn Hr. specialize (Hout Ht Hn). by rewrite Hr in Hout.
  - intros Hs Hr. destruct (Hall Hs Hr Hrest Hst pqs) as (h' & d' & E & H1 & _). by exists h', d'.
Qed.
