(* ===== verification/VusbMain.v ===== *)
(** * vusb/vusb_main.c: the other USB build

    The build for processors without a USB interface: src/vusb/vusb_main.c
    over the V-USB library, whose driver is [VusbDriver].  The library calls
    [usbFunctionSetup] for a control request; unless that answers at once, it
    hands the data over in packets, to [usbFunctionWrite] until that says that
    the transfer has ended, or asks [usbFunctionRead] for them until one is
    not full.  The progress of a transfer is in [transfer], a union: the replies of one byte or
    word overlay the first fields of the structure.  Between two iterations of
    the main loop [USB_Perform_Update] sends the reports that have changed.

    The file names [PrevMouseHIDReportBuffer] and a field [Wheel] of the mouse
    report, which no file declares; the first is a field of the state here,
    the second a parameter. *)

From Stdlib Require Import String.
From S2P Require Import Prelude Descriptors Sort Hid ExtraReport Printing Hardware Keystate KeystateReports MacroIndex.
From S2P Require Import Storage Macro Config Interpreter Keyboard UsbMain UsbWire VusbDriver.
Open Scope Z_scope.

(** ** The class requests *)

Abbreviation USBRQ_TYPE_CLASS := 0x20 (only parsing).
Abbreviation USBRQ_HID_GET_REPORT := 1 (only parsing).
Abbreviation USBRQ_HID_GET_IDLE := 2 (only parsing).
Abbreviation USBRQ_HID_GET_PROTOCOL := 3 (only parsing).
Abbreviation USBRQ_HID_SET_REPORT := 9 (only parsing).
Abbreviation USBRQ_HID_SET_IDLE := 10 (only parsing).
Abbreviation USBRQ_HID_SET_PROTOCOL := 11 (only parsing).

(** ** Transfers *)

(** [transfer_action] *)
Abbreviation LED_REPORT := 0 (only parsing).
Abbreviation READ := 1 (only parsing).
Abbreviation WRITE := 2 (only parsing).

(** The arrays a transfer can be about, and a place in one. *)
Inductive vusb_area := Programs | MacroIndexArea | MacroStorage | Mapping | DefaultMapping.
#[export] Instance vusb_area_eq_dec : EqDecision vusb_area.
Proof. solve_decision. Defined.
Record pointer := mkPointer { in_area : vusb_area; offset : Z }.

(** [transfer.state]; types and storages are the numbers of their enumerations. *)
Record transfer_state := mkTransfer {
  t_type : Z;
  t_storage : Z;
  t_addr : pointer;
  t_remaining : Z
}.

(** [enum _storage_type] *)
Definition storage_number (s : storage_type) : Z :=
  match s with sram => 0 | avr_pgm => 1 | avr_eeprom => 2 | i2c_eeprom => 3 | spi_eeprom => 4 | flash => 5 end.

Definition set_type (x : Z) (t : transfer_state) : transfer_state := mkTransfer x (t_storage t) (t_addr t) (t_remaining t).
(** [transfer.byte] and [transfer.word]: the first bytes of the structure. *)
Definition set_byte := set_type.
Definition set_word (x : Z) (t : transfer_state) : transfer_state :=
  mkTransfer (u8 x) (u8 (x / 256)) (t_addr t) (t_remaining t).

(** Bytes put into an array from [off] on; [None]: behind its end. *)
Definition array_put (off : nat) (data l : list Z) : option (list Z) :=
  if (off + length data <=? length l)%nat then Some (take off l ++ data ++ drop (off + length data) l) else None.
Definition array_get (off : nat) (n : Z) (l : list Z) : option (list Z) :=
  if Z.of_nat off + n <=? Z.of_nat (length l) then Some (take (Z.to_nat n) (drop off l)) else None.

(** The step writes of storage.h, for the medium of the macros. *)
Class StepStorage (M : Type) := {
  storage_write_step : Z -> list Z -> bool -> M -> Z * M
}.

Definition min_u16 (a b : Z) : Z := if a <? b then a else b.

Section VusbMain.
Context {H : Hardware} {K : HotKeys} {L : Leds} {M : Type} {St : Storage M} {Step : StepStorage M}.
Context (outside : Z -> Z) (macros_storage : Z) (macro_def_infos : list macro_def_info).
Context (program_addr storage_errno : Z).
Context (CONST_MSG : string -> Z) (sram_read_byte avr_pgm_read_byte : Z -> Z).
Context (LAYOUT_ID : Z) (Wheel : MouseReport_Data_t -> Z).
(** Where the variant keeps its data. *)
Context (CONSTANT_STORAGE PROGRAM_STORAGE MACRO_INDEX_STORAGE MACROS_STORAGE MAPPING_STORAGE : storage_type).

Abbreviation keyboard := (keyboard (M:=M)).

(** The keyboard and the static variables of the file. *)
Record vusb := mkVusbState {
  v_keyboard : keyboard;
  kbd_idleRate : Z;
  mouse_idleRate : Z;
  reportProtocol : Z;
  KeyboardReportData : KeyboardReport_Data_t;
  MouseReportData : MouseReport_Data_t;
  PrevMouseHIDReportBuffer : MouseReport_Data_t;
  transfer : transfer_state;
  (* whether [transfer_callback] is set; it is always [vm_init] *)
  transfer_callback : bool;
  keyboard_idle_ms : Z;
  mouse_idle_ms : Z;
  remainder : Z;
  sending_keyboard : bool;
  sending_mouse : bool
}.

Definition set_keyboard (x : keyboard) (v : vusb) : vusb :=
  mkVusbState x (kbd_idleRate v) (mouse_idleRate v) (reportProtocol v) (KeyboardReportData v) (MouseReportData v)
    (PrevMouseHIDReportBuffer v) (transfer v) (transfer_callback v) (keyboard_idle_ms v) (mouse_idle_ms v)
    (remainder v) (sending_keyboard v) (sending_mouse v).
Definition set_rates (kbd mouse protocol : Z) (v : vusb) : vusb :=
  mkVusbState (v_keyboard v) kbd mouse protocol (KeyboardReportData v) (MouseReportData v)
    (PrevMouseHIDReportBuffer v) (transfer v) (transfer_callback v) (keyboard_idle_ms v) (mouse_idle_ms v)
    (remainder v) (sending_keyboard v) (sending_mouse v).
Definition set_keyboard_data (x : KeyboardReport_Data_t) (v : vusb) : vusb :=
  mkVusbState (v_keyboard v) (kbd_idleRate v) (mouse_idleRate v) (reportProtocol v) x (MouseReportData v)
    (PrevMouseHIDReportBuffer v) (transfer v) (transfer_callback v) (keyboard_idle_ms v) (mouse_idle_ms v)
    (remainder v) (sending_keyboard v) (sending_mouse v).
Definition set_mouse_data (x prev : MouseReport_Data_t) (v : vusb) : vusb :=
  mkVusbState (v_keyboard v) (kbd_idleRate v) (mouse_idleRate v) (reportProtocol v) (KeyboardReportData v) x
    prev (transfer v) (transfer_callback v) (keyboard_idle_ms v) (mouse_idle_ms v)
    (remainder v) (sending_keyboard v) (sending_mouse v).
Definition set_transfer (x : transfer_state) (v : vusb) : vusb :=
  mkVusbState (v_keyboard v) (kbd_idleRate v) (mouse_idleRate v) (reportProtocol v) (KeyboardReportData v)
    (MouseReportData v) (PrevMouseHIDReportBuffer v) x (transfer_callback v) (keyboard_idle_ms v) (mouse_idle_ms v)
    (remainder v) (sending_keyboard v) (sending_mouse v).
Definition set_callback (x : bool) (v : vusb) : vusb :=
  mkVusbState (v_keyboard v) (kbd_idleRate v) (mouse_idleRate v) (reportProtocol v) (KeyboardReportData v)
    (MouseReportData v) (PrevMouseHIDReportBuffer v) (transfer v) x (keyboard_idle_ms v) (mouse_idle_ms v)
    (remainder v) (sending_keyboard v) (sending_mouse v).
Definition set_clocks (kbd mouse rem : Z) (v : vusb) : vusb :=
  mkVusbState (v_keyboard v) (kbd_idleRate v) (mouse_idleRate v) (reportProtocol v) (KeyboardReportData v)
    (MouseReportData v) (PrevMouseHIDReportBuffer v) (transfer v) (transfer_callback v) kbd mouse rem
    (sending_keyboard v) (sending_mouse v).
Definition set_sending (kbd mouse : bool) (v : vusb) : vusb :=
  mkVusbState (v_keyboard v) (kbd_idleRate v) (mouse_idleRate v) (reportProtocol v) (KeyboardReportData v)
    (MouseReportData v) (PrevMouseHIDReportBuffer v) (transfer v) (transfer_callback v) (keyboard_idle_ms v)
    (mouse_idle_ms v) (remainder v) kbd mouse.

Definition on_keyboard (f : keyboard -> keyboard) (v : vusb) : vusb := set_keyboard (f (v_keyboard v)) v.

(** *** usbFunctionSetup *)

(** The beginning of a transfer. *)
Definition begin (type : Z) (s : storage_type) (a : vusb_area) (remaining : Z) (v : vusb) : vusb :=
  set_transfer (mkTransfer type (storage_number s) (mkPointer a 0) remaining) v.

Definition class_request (rq : vusb_request) (v : vusb) : setup_reply * vusb :=
  let r := rq_request rq in
  let high := u8 (rq_value rq / 256) in
  if r =? USBRQ_HID_GET_REPORT then
    if rq_index rq =? 1 then
      let '(k, report) := Fill_KeyboardReport outside sram_read_byte avr_pgm_read_byte (KeyboardReportData v) (v_keyboard v) in
      let k := set_prev_report report k in
      (Message (Modifier report :: Reserved report :: KeyCode report), set_keyboard_data report (set_keyboard k v))
    else
      let '(k, report) := Fill_MouseReport outside (MouseReportData v) (v_keyboard v) in
      (Message [Button report; u8 (X report); u8 (Y report); u8 (VWheel report); u8 (HWheel report)],
       set_mouse_data report (PrevMouseHIDReportBuffer v) (set_keyboard k v))
  else if r =? USBRQ_HID_SET_REPORT then
    if (rq_index rq =? 1) && (rq_length rq =? 1) then (NoMsg, set_transfer (set_type LED_REPORT (transfer v)) v)
    else (Message [], v)
  else if r =? USBRQ_HID_GET_IDLE then
    (Message [if rq_index rq =? 2 then mouse_idleRate v else kbd_idleRate v], v)
  else if r =? USBRQ_HID_SET_IDLE then
    (Message [], if rq_index rq =? 2 then set_rates (kbd_idleRate v) high (reportProtocol v) v
                 else set_rates high (mouse_idleRate v) (reportProtocol v) v)
  else if r =? USBRQ_HID_GET_PROTOCOL then (Message [reportProtocol v], v)
  else if r =? USBRQ_HID_SET_PROTOCOL then (Message [], set_rates (kbd_idleRate v) (mouse_idleRate v) high v)
  else (Message [], v).

Definition vendor_request (rq : vusb_request) (v : vusb) : setup_reply * vusb :=
  let r := rq_request rq in
  let n := rq_length rq in
  let transfer_byte x := (Message [u8 x], set_transfer (set_byte (u8 x) (transfer v)) v) in
  let transfer_word x := (Message (le16 x), set_transfer (set_word x (transfer v)) v) in
  if r =? READ_NUM_PROGRAMS then transfer_byte PROGRAM_COUNT
  else if r =? READ_LAYOUT_ID then transfer_byte LAYOUT_ID
  else if r =? READ_MAPPING_SIZE then transfer_byte NUM_LOGICAL_KEYS
  else if r =? READ_CONFIG_FLAGS then transfer_byte (byte_of_flags (config_get_flags (kb_config (v_keyboard v))))
  else if r =? READ_MACRO_MAX_KEYS then transfer_byte 4
  else if r =? READ_PROGRAMS_SIZE then transfer_word PROGRAM_SIZE
  else if r =? READ_MACRO_INDEX_SIZE then transfer_word (MACRO_INDEX_COUNT * 6)
  else if r =? READ_MACRO_STORAGE_SIZE then transfer_word MACROS_SIZE
  else if r =? WRITE_PROGRAMS then (NoMsg, begin WRITE PROGRAM_STORAGE Programs n (set_callback true v))
  else if r =? READ_PROGRAMS then (NoMsg, begin READ PROGRAM_STORAGE Programs n v)
  else if r =? WRITE_MACRO_INDEX then (NoMsg, begin WRITE MACRO_INDEX_STORAGE MacroIndexArea n v)
  else if r =? READ_MACRO_INDEX then (NoMsg, begin READ MACRO_INDEX_STORAGE MacroIndexArea n v)
  else if r =? WRITE_MACRO_STORAGE then (NoMsg, begin WRITE MACROS_STORAGE MacroStorage n v)
  else if r =? READ_MACRO_STORAGE then (NoMsg, begin READ MACROS_STORAGE MacroStorage n v)
  else if r =? WRITE_CONFIG_FLAGS then
    (Message [], on_keyboard (run_config_ CONST_MSG CONSTANT_STORAGE
                               (config_save_flags (flags_of_byte (Z.land (rq_value rq) 0xff)))) v)
  else if r =? WRITE_MAPPING then (NoMsg, begin WRITE MAPPING_STORAGE Mapping (min_u16 NUM_LOGICAL_KEYS n) v)
  else if r =? READ_DEFAULT_MAPPING then (NoMsg, begin READ CONSTANT_STORAGE DefaultMapping (min_u16 NUM_LOGICAL_KEYS n) v)
  else if r =? READ_MAPPING then (NoMsg, begin READ MAPPING_STORAGE Mapping (min_u16 NUM_LOGICAL_KEYS n) v)
  else if r =? RESET_DEFAULTS then
    (Message [], on_keyboard (run_config_ CONST_MSG CONSTANT_STORAGE config_reset_defaults) v)
  else if r =? RESET_FULLY then
    (Message [], on_keyboard (run_reset macros_storage macro_def_infos CONST_MSG CONSTANT_STORAGE) v)
  else (Message [], v).

Definition usbFunctionSetup (rq : vusb_request) (v : vusb) : setup_reply * vusb :=
  if Z.land (rq_type rq) USBRQ_TYPE_MASK =? USBRQ_TYPE_CLASS then class_request rq v else vendor_request rq v.

(** *** usbFunctionWrite and usbFunctionRead *)

(** A step write at a place, and the error code. *)
Definition write_step (p : pointer) (data : list Z) (last : bool) (k : keyboard) : option (Z * keyboard) :=
  let off := Z.to_nat (offset p) in
  match in_area p with
  | Programs =>
      l ← array_put off data (programs (kb_config k)); Some (0, set_config (set_programs l (kb_config k)) k)
  | MacroIndexArea =>
      bs ← array_put off data (index_bytes (macro_index (kb_macros k)));
      Some (0, set_macros (set_index (index_of_bytes (length (macro_index (kb_macros k))) bs) (kb_macros k)) k)
  | MacroStorage =>
      if offset p + Z.of_nat (length data) <=? MACROS_SIZE then
        let '(r, m) := storage_write_step (macros_storage + offset p) data last (storage (kb_macros k)) in
        Some (r, set_macros (set_storage m (kb_macros k)) k)
      else None
  | Mapping =>
      l ← array_put off data (logical_to_hid_map (kb_config k)); Some (0, set_config (set_map l (kb_config k)) k)
  | DefaultMapping => None
  end.

(** [len] bytes from a place; the inner [None] is the error -1. *)
Definition read_step (p : pointer) (len : Z) (k : keyboard) : option (option (list Z) * keyboard) :=
  let off := Z.to_nat (offset p) in
  let array l := bs ← array_get off len l; Some (Some bs, k) in
  match in_area p with
  | Programs => array (programs (kb_config k))
  | MacroIndexArea => array (index_bytes (macro_index (kb_macros k)))
  | MacroStorage =>
      if offset p + len <=? MACROS_SIZE then
        let '(r, m) := storage_read (macros_storage + offset p) (Z.to_nat len) (storage (kb_macros k)) in
        Some (r, set_macros (set_storage m (kb_macros k)) k)
      else None
  | Mapping => array (logical_to_hid_map (kb_config k))
  | DefaultMapping => array logical_to_hid_map_default
  end.

(** [buzzer_start(200)], and [vm_init] for the callback. *)
Definition complain (v : vusb) : vusb := on_keyboard (emit (BuzzDefault 200)) v.
Definition restart_programs (k : keyboard) : keyboard :=
  let get_program i := (fun offset => program_addr + offset) <$> config_get_program (Z.of_nat i) (kb_config k) in
  set_vms (vm_init (program_medium outside program_addr (kb_config k)) storage_errno (Z.to_nat PROGRAM_COUNT) get_program
             (kb_vms k)) k.

Definition advance (n : Z) (t : transfer_state) : transfer_state :=
  mkTransfer (t_type t) (t_storage t) (mkPointer (in_area (t_addr t)) (offset (t_addr t) + n)) (u16 (t_remaining t - n)).

(** The end of [usbFunctionWrite] without an error. *)
Definition finish (ret : Z) (v : vusb) : Z * vusb :=
  (ret, if (ret =? 1) && transfer_callback v then set_callback false (on_keyboard restart_programs v) else v).

Definition usbFunctionWrite (data : list Z) (v : vusb) : option (Z * vusb) :=
  let t := transfer v in
  let len := Z.of_nat (length data) in
  let write_sz := if len <=? t_remaining t then len else u8 (t_remaining t) in
  if t_type t =? WRITE then
    if (t_storage t =? storage_number avr_eeprom) || (t_storage t =? storage_number i2c_eeprom) then
      '(r, k) ← write_step (t_addr t) (take (Z.to_nat write_sz) data) (t_remaining t =? write_sz) (v_keyboard v);
      let v := set_keyboard k v in
      if negb (r =? 0) then Some (1, complain v)
      else
        let t := advance write_sz t in
        Some (finish (Z.b2z (t_remaining t =? 0)) (set_transfer t v))
    else Some (1, complain v)
  else if t_type t =? LED_REPORT then Some (finish 1 (on_keyboard (Process_KeyboardLEDReport (data !!! 0%nat)) v))
  else Some (finish 1 v).

(** The bytes put into the buffer of [len] bytes. *)
Definition usbFunctionRead (len : Z) (v : vusb) : option (list Z * vusb) :=
  let t := transfer v in
  let read_sz := if len <=? t_remaining t then len else u8 (t_remaining t) in
  if t_type t =? READ then
    if (t_storage t =? storage_number avr_eeprom) || (t_storage t =? storage_number avr_pgm)
       || (t_storage t =? storage_number i2c_eeprom) then
      '(r, k) ← read_step (t_addr t) read_sz (v_keyboard v);
      let v := set_keyboard k v in
      match r with
      | None => Some ([], complain v)
      | Some bs => Some (bs, set_transfer (advance (Z.of_nat (length bs)) t) v)
      end
    else Some ([], complain v)
  else Some ([], v).

(** ** The clock and the reports *)

Definition update_uptimems (TCNT1 : Z) (v : vusb) : vusb :=
  let elapsed_ticks := u16 (TCNT1 + remainder v) in
  let elapsed := elapsed_ticks / 250 in
  let v := if elapsed >? 0 then on_keyboard (Update_Millis (u8 elapsed)) v else v in
  let count ms := if elapsed >=? ms then 0 else u8 (ms - elapsed) in
  set_clocks (count (keyboard_idle_ms v)) (count (mouse_idle_ms v)) (elapsed_ticks mod 250) v.

(** [update_and_compare] for each report, with its buffers. *)
Definition update_and_compare_keyboard (v : vusb) : bool * vusb :=
  let '(k, report) := Fill_KeyboardReport outside sram_read_byte avr_pgm_read_byte empty_keyboard_report (v_keyboard v) in
  let v := set_keyboard_data report (set_keyboard k v) in
  if bool_decide (report = prev_report k) then (false, v)
  else (true, on_keyboard (set_prev_report report) v).

Definition update_and_compare_mouse (v : vusb) : bool * vusb :=
  let '(k, report) := Fill_MouseReport outside empty_mouse_report (v_keyboard v) in
  let v := set_keyboard k v in
  if bool_decide (report = PrevMouseHIDReportBuffer v) then (false, set_mouse_data report (PrevMouseHIDReportBuffer v) v)
  else (true, set_mouse_data report report v).

Definition repeat_idle (rate ms : Z) : bool := negb (rate =? 0) && (ms =? 0).

(** The keyboard's part of [USB_Perform_Update], given whether the library
    takes a report; and the report it has been given. *)
Definition send_keyboard (ready : bool) (v : vusb) : option KeyboardReport_Data_t * vusb :=
  let v := if negb (sending_keyboard v)
           then let '(changed, v) := update_and_compare_keyboard v in set_sending changed (sending_mouse v) v else v in
  let v := if negb (sending_keyboard v) && repeat_idle (kbd_idleRate v) (keyboard_idle_ms v)
           then set_sending true (sending_mouse v) (set_keyboard_data (prev_report (v_keyboard v)) v) else v in
  if sending_keyboard v && ready then
    (Some (KeyboardReportData v),
     set_clocks (u8 (kbd_idleRate v * 4)) (mouse_idle_ms v) (remainder v) (set_sending false (sending_mouse v) v))
  else (None, v).

Definition send_mouse (ready : bool) (v : vusb) : option MouseReport_Data_t * vusb :=
  let v := if negb (sending_mouse v)
           then
             let '(changed, v) := update_and_compare_mouse v in
             let r := MouseReportData v in
             set_sending (sending_keyboard v)
               (changed || negb (X r =? 0) || negb (Y r =? 0) || negb (Wheel r =? 0)) v
           else v in
  let v := if negb (sending_mouse v) && repeat_idle (mouse_idleRate v) (mouse_idle_ms v)
           then set_sending (sending_keyboard v) true
                  (set_mouse_data (PrevMouseHIDReportBuffer v) (PrevMouseHIDReportBuffer v) v) else v in
  if sending_mouse v && ready then
    (Some (MouseReportData v),
     set_clocks (keyboard_idle_ms v) (u8 (mouse_idleRate v * 4)) (remainder v) (set_sending (sending_keyboard v) false v))
  else (None, v).

(** [usbPoll] is what the requests that have come do; while it runs ([in_poll])
    the functions it calls do not call it again.  The watchdog is left out. *)
Definition USB_KeepAlive (TCNT1 : Z) (usbPoll : vusb -> option vusb) (poll in_poll : bool) (v : vusb) : option vusb :=
  let v := update_uptimems TCNT1 v in
  if poll && negb in_poll then usbPoll v else Some v.

(** With the timer at its two readings, and whether each endpoint is ready. *)
Definition USB_Perform_Update (ticks1 ticks2 : Z) (usbPoll : vusb -> option vusb) (kbd_ready mouse_ready : bool) (v : vusb)
    : option (option KeyboardReport_Data_t * option MouseReport_Data_t * vusb) :=
  v ← USB_KeepAlive ticks1 usbPoll true false v;
  let '(keyboard_sent, v) := send_keyboard kbd_ready v in
  let '(mouse_sent, v) := send_mouse mouse_ready v in
  Some (keyboard_sent, mouse_sent, update_uptimems ticks2 v).

(** What the driver calls; the descriptors are those of Descriptors.c. *)
Definition vusb_functions {I : UsbIds} : UsbFunctions vusb := {|
  fn_setup := usbFunctionSetup;
  fn_write := usbFunctionWrite;
  fn_read := usbFunctionRead;
  fn_descriptor rq := default [] (descriptor_sent (usbFunctionDescriptor (rq_value rq) (rq_index rq)))
|}.
End VusbMain.
