(* ===== verification/VusbProofs.v ===== *)
(** * vusb/vusb_main.c: both USB builds do the same

    A transfer that the V-USB library hands over in packets has the effect and
    the answer of the LUFA build's request ([UsbMain]), and one without data is
    never answered; the host hears every keyboard report, but for one that a
    request for the report replaces; the clock loses no time. *)

From Stdlib Require Import String.
From S2P Require Import Prelude Descriptors Sort Hid ExtraReport Printing Hardware K84cs Keystate KeystateReports.
From S2P Require Import KeystateProofs TwiBus MacroIndex Storage I2cEeprom I2cProofs Macro MacroProofs Config Interpreter.
From S2P Require Import Media Keyboard KeyboardProofs KeyboardProps UsbMain UsbProofs UsbWire VusbDriver VusbWire VusbWireProofs VusbMain.
Open Scope Z_scope.

(** The state before the first request. *)
Definition vusb_start {M} (k : keyboard (M:=M)) : vusb (M:=M) :=
  mkVusbState k 0 0 1 empty_keyboard_report empty_mouse_report empty_mouse_report
    (mkTransfer 0 0 (mkPointer Programs 0) 0) false 0 0 0 false false.

(** ** The step writes of a medium *)

(** A block written packet by packet. *)
Fixpoint write_steps {M} {Step : StepStorage M} (a : Z) (ps : list (list Z)) (m : M) : Z * M :=
  match ps with
  | [] => (0, m)
  | p :: ps =>
      let '(r, m) := storage_write_step a p (match ps with [] => true | _ => false end) m in
      if negb (r =? 0) then (r, m) else write_steps (a + Z.of_nat (length p)) ps m
  end.

(** The contract of the step writes: from some addresses on they write a block. *)
Class StepStorageOk (M : Type) {St : Storage M} (Step : StepStorage M) := {
  steps_from : Z -> Prop;
  write_steps_ok a ps m :
    usb_packets ps -> steps_from a -> medium_ok m -> in_medium a (Z.of_nat (length (concat ps))) ->
    (write_steps a ps m).1 = 0 /\ medium_ok (write_steps a ps m).2 /\
    forall x, cell (write_steps a ps m).2 x = blit a (concat ps) (cell m) x
}.

#[export] Instance avr_eeprom_steps : StepStorage mem := { storage_write_step := avr_eeprom_write_step }.

Lemma avr_write_steps a ps (m : mem) :
  (write_steps a ps m).1 = 0 /\ forall x, (write_steps a ps m).2 x = blit a (concat ps) m x.
Proof.
  revert a m. induction ps as [|p ps IH]; intros a m.
  - split; [done|]. intros x. by rewrite blit_out by (cbn; lia).
  - cbn [write_steps storage_write_step avr_eeprom_steps avr_eeprom_write_step Z.eqb negb concat].
    destruct (IH (a + Z.of_nat (length p)) (copy_bytes a p m)) as [E1 E2]. split; [exact E1|]. intros x. rewrite E2.
    rewrite <- blit_app. apply blit_ext. apply copy_bytes_cell.
Qed.

#[export] Instance avr_eeprom_steps_ok : StepStorageOk mem avr_eeprom_steps.
Proof.
  refine {| steps_from := fun _ => True |}. intros a ps m _ _ _ _.
  destruct (avr_write_steps a ps m) as [E1 E2]. by split_and!.
Defined.

Section I2cSteps.
Context {B : Type} {Bus : TwiBus B} {Chip : I2cChip B}.

#[export] Instance i2c_steps : StepStorage (i2c_state B) := { storage_write_step := i2c_eeprom_write_step }.

(** The steps in the middle of a block, whose next address is a multiple of eight. *)
Lemma i2c_write_steps addr a bs c ps (s : i2c_state B) :
  usb_packets ps -> streaming addr a bs c (bus s) -> 0 <= a -> 0 <= addr -> page_off addr mod 8 = 0 ->
  addr + Z.of_nat (length (concat ps)) <= i2c_size ->
  (write_steps addr ps s).1 = 0 /\ at_rest (blit a (bs ++ concat ps) c) (bus (write_steps addr ps s).2).
Proof.
  revert addr a bs c s. induction ps as [|p ps IH]; intros addr a bs c s Hps Hst Ha H0 H8 Hs; [done|].
  destruct (usb_packets_cons p ps Hps) as [Hp Hrest]. pose proof (page_off_bound addr) as Hb.
  change (concat (p :: ps)) with (p ++ concat ps) in *. rewrite length_app in Hs. cbn [write_steps storage_write_step i2c_steps].
  assert (Hpg : page_off addr + Z.of_nat (length p) <= 16) by (rewrite page_off_mod in *; dlia).
  destruct (i2c_write_step_spec addr a bs c p (match ps with [] => true | _ => false end) s) as (s1 & E & Hs1);
    [done|done|lia|intros ->; cbn in Hp; lia|done|].
  rewrite E. cbn [Z.eqb negb]. destruct Hrest as [->|[Hp8 Hps']].
  { cbn [write_steps concat fst snd]. by rewrite app_nil_r. }
  destruct ps as [|p' ps]; [done|]. destruct Hs1 as (a' & bs' & c' & Hst' & Ha' & Hx).
  destruct (IH (addr + Z.of_nat (length p)) a' bs' c' s1) as [E1 E2]; [done|done|done|lia| |lia|].
  { rewrite !page_off_mod in *. rewrite Hp8. dlia. }
  split; [exact E1|]. eapply at_rest_ext; [|exact E2]. intros y. apply Hx.
Qed.

(** The chips have to be given a block from the start of a page on: the
    step function starts a transfer only there. *)
#[export] Instance i2c_steps_ok : StepStorageOk (St := i2c_storage) (i2c_state B) i2c_steps.
Proof.
  refine {| steps_from := fun a => page_off a = 0 : Prop |}. intros a ps s Hps Ha Hm [H0 Hs].
  cbn [cell i2c_storage medium_ok] in *.
  destruct (i2c_write_steps a a [] (i2c_cells (i2c (bus s))) ps s) as [E1 E2]; [done|by left|done|done| |done|].
  { by rewrite Ha. }
  destruct (at_rest_own _ _ E2) as [H1 H2]. done.
Defined.
End I2cSteps.

(** ** Handing over a transfer *)

Section Transfers.
Context {H : Hardware} {K : HotKeys} {L : Leds} {I : UsbIds} {M : Type} {St : Storage M} {Step : StepStorage M}.
Context (outside : Z -> Z) (macros_storage : Z) (macro_def_infos : list macro_def_info).
Context (program_addr storage_errno : Z).
Context (CONST_MSG : string -> Z) (sram_read_byte avr_pgm_read_byte : Z -> Z) (LAYOUT_ID : Z).
Context (CONSTANT_STORAGE PROGRAM_STORAGE MACRO_INDEX_STORAGE MACROS_STORAGE MAPPING_STORAGE : storage_type).

Abbreviation keyboard := (keyboard (M:=M)).
Abbreviation vusb := (vusb (M:=M)).
Abbreviation usbFunctionWrite := (usbFunctionWrite outside macros_storage program_addr storage_errno).
Abbreviation usbFunctionRead := (usbFunctionRead macros_storage).
Abbreviation restart_programs := (restart_programs (M:=M) outside program_addr storage_errno).
Abbreviation setup := (usbFunctionSetup outside macros_storage macro_def_infos CONST_MSG sram_read_byte avr_pgm_read_byte
  LAYOUT_ID CONSTANT_STORAGE PROGRAM_STORAGE MACRO_INDEX_STORAGE MACROS_STORAGE MAPPING_STORAGE).
Abbreviation lufa_write := (UsbMain.write_request (M:=M) macros_storage macro_def_infos CONST_MSG CONSTANT_STORAGE).
Abbreviation lufa_read := (UsbMain.read_request (M:=M) macros_storage LAYOUT_ID).

(** The transfers of the driver, with the functions of vusb_main.c. *)
Abbreviation functions := (vusb_functions (M:=M) outside macros_storage macro_def_infos program_addr storage_errno CONST_MSG
  sram_read_byte avr_pgm_read_byte LAYOUT_ID CONSTANT_STORAGE PROGRAM_STORAGE MACRO_INDEX_STORAGE MACROS_STORAGE MAPPING_STORAGE).
Abbreviation write_all := (write_packets (F:=functions)).
Abbreviation read_all := (read_packets (F:=functions)).

Lemma write_all_cons p ps v :
  write_all (p :: ps) v
  = '(r, v) ← usbFunctionWrite p v;
    match ps with [] => if r =? 1 then Some v else None | _ => if r =? 0 then write_all ps v else None end.
Proof. done. Qed.

Lemma read_all_cons n lens v :
  read_all (n :: lens) v
  = '(bs, v) ← usbFunctionRead n v;
    if Z.of_nat (length bs) >? n then None
    else if Z.of_nat (length bs) <? n then Some (bs, v)
    else '(rest, v) ← read_all lens v; Some (bs ++ rest, v).
Proof. done. Qed.

(** The storages the file knows. *)
Definition known_storage (s : storage_type) : Prop := s = avr_eeprom \/ s = i2c_eeprom.

Definition storage_of (a : vusb_area) : storage_type :=
  match a with
  | Programs => PROGRAM_STORAGE
  | MacroIndexArea => MACRO_INDEX_STORAGE
  | MacroStorage => MACROS_STORAGE
  | Mapping => MAPPING_STORAGE
  | DefaultMapping => CONSTANT_STORAGE
  end.

(** *** The arrays that are lists *)

Definition list_area (a : vusb_area) : Prop := a = Programs \/ a = MacroIndexArea \/ a = Mapping.

Definition area_bytes (a : vusb_area) (k : keyboard) : list Z :=
  match a with
  | Programs => programs (kb_config k)
  | MacroIndexArea => index_bytes (macro_index (kb_macros k))
  | Mapping => logical_to_hid_map (kb_config k)
  | _ => []
  end.
Definition with_area (a : vusb_area) (l : list Z) (k : keyboard) : keyboard :=
  match a with
  | Programs => set_config (set_programs l (kb_config k)) k
  | MacroIndexArea => set_macros (set_index (index_of_bytes (length (macro_index (kb_macros k))) l) (kb_macros k)) k
  | Mapping => set_config (set_map l (kb_config k)) k
  | _ => k
  end.

Lemma write_step_list a off data last (k : keyboard) :
  list_area a -> 0 <= off ->
  write_step macros_storage (mkPointer a off) data last k
  = l ← array_put (Z.to_nat off) data (area_bytes a k); Some (0, with_area a l k).
Proof. by intros [-> | [-> | ->]] _. Qed.

Lemma with_area_twice a l l' (k : keyboard) : with_area a l' (with_area a l k) = with_area a l' k.
Proof. destruct a; try done. cbn. by rewrite index_of_bytes_length. Qed.

Lemma area_bytes_with a l (k : keyboard) :
  list_area a -> (a = MacroIndexArea -> entries_ok (macro_index (kb_macros k)) /\ Forall is_u8 l) ->
  length l = length (area_bytes a k) -> area_bytes a (with_area a l k) = l.
Proof.
  intros [-> | [-> | ->]] Hi Hl; [done| |done]. destruct Hi as [Hi Hu]; [done|].
  cbn [area_bytes with_area] in *. rewrite index_bytes_length in Hl by done. by apply index_round_trip.
Qed.

Lemma array_put_next (done data l0 : list Z) :
  (length done + length data <= length l0)%nat ->
  array_put (length done) data (done ++ drop (length done) l0)
  = Some ((done ++ data) ++ drop (length (done ++ data)) l0).
Proof.
  intros Hl. unfold array_put. rewrite length_app, length_drop, (proj2 (Nat.leb_le _ _)) by lia.
  rewrite take_app_length, drop_app, (drop_ge done), length_app, drop_drop by lia. rewrite <- app_assoc. cbn [app].
  do 4 f_equal. lia.
Qed.

(** The state in the middle of a transfer: [done] has been written to an array that held [l0]. *)
Definition writing (a : vusb_area) (l0 : list Z) (k0 : keyboard) (done : list Z) (rest : Z) (v : vusb) : Prop :=
  t_type (transfer v) = WRITE /\
  (t_storage (transfer v) = storage_number avr_eeprom \/ t_storage (transfer v) = storage_number i2c_eeprom) /\
  t_addr (transfer v) = mkPointer a (Z.of_nat (length done)) /\ t_remaining (transfer v) = rest /\
  area_bytes a (v_keyboard v) = done ++ drop (length done) l0 /\
  forall l, with_area a l (v_keyboard v) = with_area a l k0.

Definition called_back (callback : bool) (k : keyboard) : keyboard := if callback then restart_programs k else k.

Lemma finish_last v : finish outside program_addr storage_errno 1 v
  = (1, set_callback false (on_keyboard (called_back (transfer_callback v)) v)).
Proof. unfold finish, called_back. cbn [Z.eqb Pos.eqb andb]. by destruct v as [? ? ? ? ? ? ? ? [] ? ? ? ? ?]. Qed.

(** A packet of a transfer that is under way, given what the step write does. *)
Lemma write_packet p rest a off r k' (v : vusb) :
  t_type (transfer v) = WRITE ->
  (t_storage (transfer v) = storage_number avr_eeprom \/ t_storage (transfer v) = storage_number i2c_eeprom) ->
  t_addr (transfer v) = mkPointer a off -> t_remaining (transfer v) = Z.of_nat (length p) + rest -> 0 <= rest < 60000 ->
  (length p <= 8)%nat ->
  write_step macros_storage (mkPointer a off) p (rest =? 0) (v_keyboard v) = Some (0, k') -> r = Z.b2z (rest =? 0) ->
  usbFunctionWrite p v
  = Some (finish outside program_addr storage_errno r
      (set_transfer (mkTransfer WRITE (t_storage (transfer v)) (mkPointer a (off + Z.of_nat (length p))) rest)
         (set_keyboard k' v))).
Proof.
  intros Ht Hs Ha Hr Hrest Hp Hw ->. unfold VusbMain.usbFunctionWrite. rewrite Ht, Ha, Hr.
  replace ((t_storage (transfer v) =? storage_number avr_eeprom) || (t_storage (transfer v) =? storage_number i2c_eeprom))
    with true by (destruct Hs as [-> | ->]; done).
  change (WRITE =? WRITE) with true. cbv iota. rewrite (proj2 (Z.leb_le _ _)), Nat2Z.id, take_ge by lia.
  replace (Z.of_nat (length p) + rest =? Z.of_nat (length p)) with (rest =? 0)
    by (apply eq_true_iff_eq; rewrite !Z.eqb_eq; lia).
  rewrite Hw. cbn [mbind option_bind Z.eqb negb]. unfold advance. cbn [transfer set_keyboard].
  rewrite Ht, Ha, Hr. cbn [in_area offset t_remaining].
  replace (u16 (Z.of_nat (length p) + rest - Z.of_nat (length p))) with rest by (rewrite Z.add_simpl_l, u16_small; [done|unfold is_u16; lia]).
  done.
Qed.

Lemma write_all_list a l0 k0 done ps (v : vusb) :
  list_area a -> (a = MacroIndexArea -> entries_ok (macro_index (kb_macros k0)) /\ Forall is_u8 (l0 ++ done ++ concat ps)) ->
  usb_packets ps -> writing a l0 k0 done (Z.of_nat (length (concat ps))) v ->
  (length done + length (concat ps) <= length l0)%nat -> Z.of_nat (length l0) < 60000 ->
  length l0 = length (area_bytes a k0) ->
  exists v', write_all ps v = Some v' /\
    v_keyboard v' = called_back (transfer_callback v) (with_area a ((done ++ concat ps) ++ drop (length (done ++ concat ps)) l0) k0).
Proof.
  intros Ha Hi Hps Hw Hl Hl0 Hlen. revert done v Hi Hps Hw Hl.
  induction ps as [|p ps IH]; intros done v Hi Hps Hw Hl; [by destruct Hps|].
  destruct (usb_packets_cons p ps Hps) as [Hp Hrest]. rewrite write_all_cons. cbn [concat] in *. rewrite length_app in Hl.
  destruct Hw as (H1 & H2 & H3 & H4 & H5 & H6). rewrite length_app, Nat2Z.inj_add in H4.
  set (l1 := (done ++ p) ++ drop (length (done ++ p)) l0).
  assert (Hstep : write_step macros_storage (mkPointer a (Z.of_nat (length done))) p (Z.of_nat (length (concat ps)) =? 0)
      (v_keyboard v) = Some (0, with_area a l1 (v_keyboard v))).
  { rewrite write_step_list, H5, Nat2Z.id, array_put_next by (done || lia). done. }
  rewrite (write_packet _ _ _ _ _ _ _ H1 H2 H3 H4 ltac:(lia) ltac:(lia) Hstep eq_refl).
  destruct Hrest as [->|[Hp8 Hps']].
  - cbn [concat length Z.of_nat Z.eqb Z.b2z]. rewrite finish_last. cbn [mbind option_bind Z.eqb].
    eexists. split; [reflexivity|]. cbn [v_keyboard set_callback on_keyboard set_keyboard set_transfer transfer_callback].
    rewrite H6, app_nil_r. done.
  - pose proof (usb_packets_nonempty ps Hps') as Hne.
    rewrite (proj2 (Z.eqb_neq (Z.of_nat (length (concat ps))) 0)) by (destruct (concat ps); [done|cbn; lia]).
    cbn [Z.b2z]. unfold finish. cbn [Z.eqb andb mbind option_bind]. set (v1 := set_transfer _ _).
    destruct (IH (done ++ p) v1) as (v' & E & Ek).
    + rewrite <- app_assoc. exact Hi.
    + done.
    + assert (Hlen1 : length l1 = length l0) by (subst l1; rewrite !length_app, length_drop; lia).
      split_and!; [done|exact H2| |done| |].
      * cbn. f_equal. rewrite length_app. lia.
      * cbn [v1 v_keyboard set_transfer set_keyboard]. rewrite H6. apply area_bytes_with; [done| |exact (eq_trans Hlen1 Hlen)].
        intros ->. destruct (Hi eq_refl) as [Hi1 Hi2]. split; [done|]. rewrite !Forall_app in Hi2. subst l1.
        rewrite !Forall_app. split_and!; [tauto..|]. apply Forall_drop. tauto.
      * intros l. cbn [v1 v_keyboard set_transfer set_keyboard]. rewrite H6. apply with_area_twice.
    + rewrite length_app. lia.
    + exists v'. split; [destruct ps; [done|exact E]|]. rewrite Ek. rewrite <- !app_assoc. done.
Qed.

Definition with_medium (m : M) (k : keyboard) : keyboard := set_macros (set_storage m (kb_macros k)) k.

Lemma with_own_medium (k : keyboard) : with_medium (storage (kb_macros k)) k = k.
Proof. destruct k as [? ? [] ? ? ? ? ?]. reflexivity. Qed.


Lemma write_all_steps ps off (v : vusb) :
  usb_packets ps -> 0 <= off -> off + Z.of_nat (length (concat ps)) <= MACROS_SIZE -> Z.of_nat (length (concat ps)) < 60000 ->
  t_type (transfer v) = WRITE ->
  (t_storage (transfer v) = storage_number avr_eeprom \/ t_storage (transfer v) = storage_number i2c_eeprom) ->
  t_addr (transfer v) = mkPointer MacroStorage off -> t_remaining (transfer v) = Z.of_nat (length (concat ps)) ->
  (write_steps (macros_storage + off) ps (storage (kb_macros (v_keyboard v)))).1 = 0 ->
  exists v', write_all ps v = Some v' /\
    v_keyboard v' = called_back (transfer_callback v)
      (with_medium (write_steps (macros_storage + off) ps (storage (kb_macros (v_keyboard v)))).2 (v_keyboard v)).
Proof.
  revert off v. induction ps as [|p ps IH]; intros off v Hps Ho Hs Hl H1 H2 H3 H4 Hok; [by destruct Hps|].
  destruct (usb_packets_cons p ps Hps) as [Hp Hrest]. rewrite write_all_cons. cbn [concat write_steps] in *.
  rewrite length_app, Nat2Z.inj_add in *.
  assert (El : (Z.of_nat (length (concat ps)) =? 0) = match ps with [] => true | _ => false end).
  { destruct Hrest as [->|[_ Hps']]; [done|]. apply usb_packets_nonempty in Hps'.
    destruct ps; [done|]. apply Z.eqb_neq. destruct (concat (l :: ps)); [done|cbn; lia]. }
  destruct (storage_write_step (macros_storage + off) p (match ps with [] => true | _ => false end)
    (storage (kb_macros (v_keyboard v)))) as [r m1] eqn:Es.
  destruct (Z.eqb_spec r 0) as [->|Hr]; cbn [negb] in *; [|by cbn in Hok].
  assert (Hstep : write_step macros_storage (mkPointer MacroStorage off) p (Z.of_nat (length (concat ps)) =? 0) (v_keyboard v)
    = Some (0, with_medium m1 (v_keyboard v))).
  { unfold write_step. cbn [in_area offset]. rewrite (proj2 (Z.leb_le _ _)), El, Es by lia. done. }
  rewrite (write_packet _ _ _ _ _ _ _ H1 H2 H3 H4 ltac:(lia) ltac:(lia) Hstep eq_refl).
  destruct Hrest as [->|[Hp8 Hps']].
  - cbn [concat length Z.of_nat Z.eqb Z.b2z write_steps fst snd]. rewrite finish_last. cbn [mbind option_bind Z.eqb].
    eexists. split; [reflexivity|]. done.
  - rewrite El. destruct ps as [|p' ps]; [done|]. cbn [Z.b2z]. unfold finish. cbn [Z.eqb andb mbind option_bind].
    set (v1 := set_transfer _ _).
    destruct (IH (off + Z.of_nat (length p)) v1) as (v' & E & Ek); [done|lia|lia|lia|done|exact H2|done|done| |].
    { cbn [v1 v_keyboard set_transfer set_keyboard with_medium kb_macros set_macros storage set_storage].
      by rewrite Z.add_assoc. }
    exists v'. split; [exact E|]. rewrite Ek. rewrite <- Z.add_assoc. done.
Qed.

(** *** Reading *)

Definition readable (s : Z) : Prop := s = storage_number avr_eeprom \/ s = storage_number avr_pgm \/ s = storage_number i2c_eeprom.

Lemma read_packet n rest a off bs k' (v : vusb) :
  t_type (transfer v) = READ -> readable (t_storage (transfer v)) ->
  t_addr (transfer v) = mkPointer a off -> t_remaining (transfer v) = n + rest -> 0 <= rest < 60000 -> 0 < n <= 8 ->
  read_step macros_storage (mkPointer a off) n (v_keyboard v) = Some (Some bs, k') -> Z.of_nat (length bs) = n ->
  usbFunctionRead n v
  = Some (bs, set_transfer (mkTransfer READ (t_storage (transfer v)) (mkPointer a (off + n)) rest) (set_keyboard k' v)).
Proof.
  intros Ht Hs Ha Hr Hrest Hn Hw Hl. unfold VusbMain.usbFunctionRead. rewrite Ht, Ha, Hr.
  replace (_ || _ || _) with true by (destruct Hs as [-> | [-> | ->]]; done).
  change (READ =? READ) with true. cbv iota. rewrite (proj2 (Z.leb_le _ _)), Hw by lia.
  cbn [mbind option_bind]. unfold advance. cbn [transfer set_keyboard]. rewrite Ht, Ha, Hr, Hl. cbn [in_area offset].
  replace (u16 (n + rest - n)) with rest by (rewrite Z.add_simpl_l, u16_small; [done|unfold is_u16; lia]). done.
Qed.

(** The whole of a transfer, if the packets can be read from any place on: [content] is what is
    there, and [P] a property of the keyboard that reading keeps. *)
Lemma read_all_spec a (content : Z -> nat -> list Z) (P : keyboard -> Prop) (limit : Z) lens off (v : vusb) :
  (forall o n k, P k -> 0 < n <= 8 -> 0 <= o -> o + n <= limit ->
     exists k', read_step macros_storage (mkPointer a o) n k = Some (Some (content o (Z.to_nat n)), k') /\ P k') ->
  (forall o n, 0 <= o -> o + Z.of_nat n <= limit -> length (content o n) = n) ->
  (forall o n m, 0 <= o -> o + Z.of_nat (n + m) <= limit -> content o (n + m)%nat = content o n ++ content (o + Z.of_nat n) m) ->
  Forall (fun n => 0 < n <= 8) lens -> asked lens < 60000 -> 0 <= off -> off + asked lens <= limit ->
  t_type (transfer v) = READ -> readable (t_storage (transfer v)) ->
  t_addr (transfer v) = mkPointer a off -> t_remaining (transfer v) = asked lens -> P (v_keyboard v) ->
  exists v', read_all lens v = Some (content off (Z.to_nat (asked lens)), v') /\ P (v_keyboard v').
Proof.
  intros Hstep Hlen Happ Hall. revert off v. induction Hall as [|n lens Hn Hall IH]; intros off v Hasked Ho Hl H1 H2 H3 H4 HP.
  - exists v. split; [|done]. change (asked []) with 0 in *. change (Z.to_nat 0) with 0%nat.
    by rewrite (nil_length_inv _ (Hlen off 0%nat Ho ltac:(lia))).
  - pose proof (asked_nonneg lens Hall) as Hnn. rewrite asked_cons in *.
    destruct (Hstep off n (v_keyboard v) HP Hn Ho ltac:(lia)) as (k' & E & HP').
    assert (Hb : Z.of_nat (length (content off (Z.to_nat n))) = n) by (rewrite Hlen; lia).
    rewrite read_all_cons. rewrite (read_packet n (asked lens) a off _ k' v H1 H2 H3 H4 ltac:(lia) Hn E Hb).
    cbn [mbind option_bind]. rewrite Hb, Z.gtb_ltb, Z.ltb_irrefl. set (v1 := set_transfer _ _).
    destruct (IH (off + n) v1) as (v' & E2 & HP2); [lia|lia|lia|done|exact H2|done|done|exact HP'|].
    rewrite E2. cbn [mbind option_bind]. exists v'. split; [|done]. do 2 f_equal.
    rewrite Z2Nat.inj_add, Happ, Z2Nat.id by lia. done.
Qed.

Lemma array_get_spec off n (l : list Z) :
  0 <= off -> 0 <= n -> off + n <= Z.of_nat (length l) ->
  array_get (Z.to_nat off) n l = Some (take (Z.to_nat n) (drop (Z.to_nat off) l)).
Proof. intros Ho Hn Hl. unfold array_get. by rewrite (proj2 (Z.leb_le _ _)) by lia. Qed.

Definition constant_bytes (a : vusb_area) (k : keyboard) : list Z :=
  match a with DefaultMapping => logical_to_hid_map_default | _ => area_bytes a k end.

Lemma read_step_list a off n (k : keyboard) :
  list_area a \/ a = DefaultMapping ->
  read_step macros_storage (mkPointer a off) n k
  = bs ← array_get (Z.to_nat off) n (constant_bytes a k); Some (Some bs, k).
Proof. by intros [[-> | [-> | ->]] | ->]. Qed.

Lemma read_all_list a lens (v : vusb) :
  list_area a \/ a = DefaultMapping -> Forall (fun n => 0 < n <= 8) lens -> asked lens < 60000 ->
  asked lens <= Z.of_nat (length (constant_bytes a (v_keyboard v))) ->
  t_type (transfer v) = READ -> readable (t_storage (transfer v)) ->
  t_addr (transfer v) = mkPointer a 0 -> t_remaining (transfer v) = asked lens ->
  exists v', read_all lens v = Some (take (Z.to_nat (asked lens)) (constant_bytes a (v_keyboard v)), v') /\
    v_keyboard v' = v_keyboard v.
Proof.
  intros Ha Hall Hb Hl H1 H2 H3 H4. set (l := constant_bytes a (v_keyboard v)) in *.
  destruct (read_all_spec a (fun o n => take n (drop (Z.to_nat o) l)) (fun k => k = v_keyboard v) (Z.of_nat (length l)) lens 0 v)
    as (v' & E & Ev); try done.
  - intros o n k -> Hn Ho Hol. exists (v_keyboard v). split; [|done].
    rewrite read_step_list, array_get_spec by (done || lia). done.
  - intros o n Ho Hol. rewrite length_take, length_drop. lia.
  - intros o n m Ho Hol. rewrite <- take_take_drop, drop_drop. do 3 f_equal. lia.
  - exists v'. by rewrite E.
Qed.

Lemma read_all_medium `{!StorageOk M St} lens (v : vusb) :
  Forall (fun n => 0 < n <= 8) lens -> asked lens < 60000 -> asked lens <= MACROS_SIZE ->
  in_medium macros_storage MACROS_SIZE -> medium_ready (storage (kb_macros (v_keyboard v))) ->
  t_type (transfer v) = READ -> readable (t_storage (transfer v)) ->
  t_addr (transfer v) = mkPointer MacroStorage 0 -> t_remaining (transfer v) = asked lens ->
  exists v' m, read_all lens v
    = Some (bytes_at macros_storage (Z.to_nat (asked lens)) (cell (storage (kb_macros (v_keyboard v)))), v') /\
    v_keyboard v' = with_medium m (v_keyboard v) /\ forall x, cell m x = cell (storage (kb_macros (v_keyboard v))) x.
Proof.
  intros Hall Hb Hl Hin Hr H1 H2 H3 H4. set (k0 := v_keyboard v) in *. set (c := cell (storage (kb_macros k0))) in *.
  destruct (read_all_spec MacroStorage (fun o n => bytes_at (macros_storage + o) n c)
    (fun k => exists m, k = with_medium m k0 /\ medium_ready m /\ forall x, cell m x = c x) MACROS_SIZE lens 0 v)
    as (v' & E & (m & Ev & _ & Hm)); try done.
  - intros o n k (m & -> & Hk & Hc) Hn Ho Hol. unfold read_step. cbn [in_area offset]. rewrite (proj2 (Z.leb_le _ _)) by lia.
    destruct (storage_read_ok (macros_storage + o) (Z.to_nat n) m Hk ltac:(lia)) as (E1 & E2 & E3).
    { eapply in_medium_sub; [exact Hin|lia..]. }
    cbn [with_medium kb_macros set_macros storage set_storage].
    destruct (storage_read _ _ m) as [r m1]. cbn [fst snd] in *. rewrite E1. eexists. split.
    + do 3 f_equal. apply bytes_at_ext. intros x _. apply Hc.
    + exists m1. split; [done|]. split; [done|]. intros x. by rewrite E3.
  - intros o n Ho Hol. apply bytes_at_length.
  - intros o n m Ho Hol. by rewrite bytes_at_app, Z.add_assoc.
  - exists (storage (kb_macros k0)). by rewrite with_own_medium.
  - exists v', m. by rewrite E, Z.add_0_r.
Qed.

(** *** Whole transfers *)

(** A control transfer with [usbFunctionSetup], and the request in the form of the LUFA build. *)
Definition vusb_control (rq : vusb_request) (ps : list (list Z)) (lens : list Z) (v : vusb) : option (list Z * vusb) :=
  transfer_of (F:=functions) rq ps lens (setup rq v).
Definition lufa_form (rq : vusb_request) : usb_request := mkRequest (rq_type rq) (rq_request rq) (rq_value rq) (rq_length rq).

(** What the host sees of a reply. *)
Definition bytes_of (rq : vusb_request) (reply : usb_reply) : list Z :=
  match reply with Sent bs => take (Z.to_nat (rq_length rq)) bs | _ => [] end.

(** The same keyboards, but for what drives the medium of the macros. *)
Definition same_keyboard (k k' : keyboard) : Prop :=
  exists m, k = with_medium m k' /\ forall x, cell m x = cell (storage (kb_macros k')) x.

Lemma same_keyboard_refl k : same_keyboard k k.
Proof. exists (storage (kb_macros k)). by rewrite with_own_medium. Qed.

Lemma begin_write ty s a n (v : vusb) : known_storage s ->
  let v1 := begin ty s a n v in
  t_type (transfer v1) = ty /\
  (t_storage (transfer v1) = storage_number avr_eeprom \/ t_storage (transfer v1) = storage_number i2c_eeprom) /\
  t_addr (transfer v1) = mkPointer a 0 /\ t_remaining (transfer v1) = n.
Proof. intros [-> | ->]; split_and!; auto. Qed.

(** A list area written from its beginning. *)
Lemma write_list_area a ps (v : vusb) data :
  list_area a -> known_storage (storage_of a) -> usb_packets ps -> data = concat ps ->
  (a = MacroIndexArea -> entries_ok (macro_index (kb_macros (v_keyboard v))) /\ Forall is_u8 data) ->
  (length data <= length (area_bytes a (v_keyboard v)))%nat -> Z.of_nat (length (area_bytes a (v_keyboard v))) < 60000 ->
  exists v', write_all ps (begin WRITE (storage_of a) a (Z.of_nat (length data)) v) = Some v' /\
    v_keyboard v' = called_back (transfer_callback v)
      (with_area a (data ++ drop (length data) (area_bytes a (v_keyboard v))) (v_keyboard v)).
Proof.
  intros Ha Hs Hps -> Hi Hl Hb. destruct (begin_write WRITE _ a (Z.of_nat (length (concat ps))) v Hs) as (H1 & H2 & H3 & H4).
  set (v1 := begin _ _ _ _ v) in *.
  apply (write_all_list a (area_bytes a (v_keyboard v)) (v_keyboard v) [] ps v1); try done.
  - intros E. destruct (Hi E) as [Hi1 Hi2]. split; [done|]. cbn [app]. apply Forall_app. split; [|done].
    subst a. by apply index_bytes_u8.
Qed.
(** What a transfer relies on: the arrays are in storages the file knows and
    can be counted in 16 bits, the medium of the macros is ready. *)
Record transferable (k : keyboard) : Prop := {
  constants_known : CONSTANT_STORAGE = avr_pgm;
  storages_known a : a <> DefaultMapping -> known_storage (storage_of a);
  entries_are_ok : entries_ok (macro_index (kb_macros k));
  programs_small : Z.of_nat (length (programs (kb_config k))) < 60000;
  index_small : Z.of_nat (length (index_bytes (macro_index (kb_macros k)))) < 60000;
  macros_small : MACROS_SIZE < 60000;
  mapping_length : Z.of_nat (length (logical_to_hid_map (kb_config k))) = NUM_LOGICAL_KEYS;
  medium_is_ready : medium_ready (storage (kb_macros k));
  medium_is_there : in_medium macros_storage MACROS_SIZE
}.

Section Control.
Context `{!HardwareOk H, !StorageOk M St, !StepStorageOk M Step}.

(** The keyboard once V-USB's callback has run: it restarts the programs the host has changed. *)
Definition after_write (rq : vusb_request) (k : keyboard) : keyboard :=
  if (rq_type rq =? HOSTTODEVICE) && (rq_request rq =? WRITE_PROGRAMS) then restart_programs k else k.

Lemma array_write_bytes data l l' :
  array_write data l = Some l' -> l' = data ++ drop (length data) l /\ (length data <= length l)%nat.
Proof. unfold array_write. destruct (Nat.leb_spec (length data) (length l)); [|done]. by intros [= <-]. Qed.

Lemma array_read_bytes n l bs : array_read n l = Some bs -> bs = take (Z.to_nat n) l /\ n <= Z.of_nat (length l).
Proof. unfold array_read. destruct (Z.leb_spec n (Z.of_nat (length l))); [|done]. by intros [= <-]. Qed.

(** A transfer into a list area has LUFA's effect. *)
Lemma list_transfer a ps data l n (v : vusb) :
  list_area a -> transferable (v_keyboard v) -> usb_packets ps -> data = concat ps -> Forall is_u8 data ->
  array_write data (area_bytes a (v_keyboard v)) = Some l -> n = Z.of_nat (length data) ->
  exists v', write_all ps (begin WRITE (storage_of a) a n v) = Some v' /\
    v_keyboard v' = called_back (transfer_callback v) (with_area a l (v_keyboard v)).
Proof.
  intros Ha Hk Hps Hd Hu [-> Hl]%array_write_bytes ->. destruct Hk. pose proof logical_keys_u8 as Hn.
  apply write_list_area; try done.
  - apply storages_known0. by destruct Ha as [-> | [-> | ->]].
  - destruct Ha as [-> | [-> | ->]]; cbn [area_bytes]; [done..|lia].
Qed.

Lemma min_mapping n : n <= NUM_LOGICAL_KEYS -> min_u16 NUM_LOGICAL_KEYS n = n.
Proof. intros Hn. unfold min_u16. destruct (Z.ltb_spec NUM_LOGICAL_KEYS n); lia. Qed.

(** A transfer into the medium of the macros: the streams and the steps store the same. *)
Lemma macros_transfer ps data n (v : vusb) :
  transferable (v_keyboard v) -> steps_from macros_storage -> usb_packets ps -> data = concat ps ->
  transfer_callback v = false -> n = Z.of_nat (length data) -> n <= MACROS_SIZE ->
  exists v', write_all ps (begin WRITE MACROS_STORAGE MacroStorage n v) = Some v' /\
    same_keyboard (v_keyboard v')
      (with_medium (Endpoint_Read_Control_Stream macros_storage data (storage (kb_macros (v_keyboard v)))) (v_keyboard v)).
Proof.
  intros Hk Hsf Hps -> Hc -> Hl. destruct Hk.
  destruct (begin_write WRITE MACROS_STORAGE MacroStorage (Z.of_nat (length (concat ps))) v) as (H1 & H2 & H3 & H4);
    [by apply (storages_known0 MacroStorage)|]. set (v1 := begin _ _ _ _ v) in *.
  assert (Hin : in_medium macros_storage (Z.of_nat (length (concat ps)))) by (eapply in_medium_sub; [done|lia..]).
  assert (Hmo : medium_ok (storage (kb_macros (v_keyboard v)))) by by apply ready_is_ok.
  destruct (write_steps_ok macros_storage ps (storage (kb_macros (v_keyboard v))) Hps Hsf Hmo Hin) as (E1 & _ & E2).
  destruct (read_stream_ok macros_storage (concat ps) (storage (kb_macros (v_keyboard v))) Hmo) as [_ E3];
    [by apply usb_packets_nonempty|done|].
  destruct (write_all_steps ps 0 v1) as (v' & E & Ev); try done; try lia; [by rewrite Z.add_0_r|].
  exists v'. split; [exact E|]. rewrite Ev. cbn [v1 begin set_transfer transfer_callback v_keyboard]. rewrite Hc, Z.add_0_r.
  cbn [called_back]. eexists. split; [reflexivity|]. intros x. rewrite E2. symmetry. apply E3.
Qed.

(** *** Each request *)

Abbreviation lufa := (EVENT_USB_Device_ControlRequest (M:=M) macros_storage macro_def_infos CONST_MSG
  CONSTANT_STORAGE LAYOUT_ID).

(** A list area read from its beginning. *)
Lemma list_read a n lens bs (v : vusb) :
  list_area a \/ a = DefaultMapping -> transferable (v_keyboard v) -> Forall (fun n => 0 < n <= 8) lens -> asked lens = n ->
  array_read n (constant_bytes a (v_keyboard v)) = Some bs ->
  exists v', read_all lens (begin READ (storage_of a) a n v) = Some (bs, v') /\ v_keyboard v' = v_keyboard v.
Proof.
  intros Ha Hk Hl <- [-> Hn]%array_read_bytes. destruct Hk. pose proof logical_keys_u8. pose proof defaults_length.
  apply (read_all_list a lens (begin READ (storage_of a) a (asked lens) v)); try done.
  - destruct Ha as [[-> | [-> | ->]] | ->]; cbn [constant_bytes area_bytes] in Hn; lia.
  - cbn. destruct (decide (a = DefaultMapping)) as [->|Hd].
    + right. left. cbn. by rewrite constants_known0.
    + destruct (storages_known0 a Hd) as [-> | ->]; [by left|by right; right].
Qed.

Lemma list_answer a n lens bs (v : vusb) :
  list_area a \/ a = DefaultMapping -> transferable (v_keyboard v) -> Forall (fun n => 0 < n <= 8) lens -> asked lens = n ->
  array_read n (constant_bytes a (v_keyboard v)) = Some bs ->
  exists v', read_all lens (begin READ (storage_of a) a n v) = Some (take (Z.to_nat n) bs, v') /\
    same_keyboard (v_keyboard v') (v_keyboard v).
Proof.
  intros Ha Hk Hl Hn E. destruct (list_read a n lens bs v Ha Hk Hl Hn E) as (v' & E1 & Ev). rewrite E1.
  exists v'. rewrite Ev. split; [|apply same_keyboard_refl].
  destruct (array_read_bytes _ _ _ E) as [-> _]. by rewrite take_take, Nat.min_id.
Qed.

Lemma macros_read n lens bs k' (v : vusb) :
  transferable (v_keyboard v) -> Forall (fun n => 0 < n <= 8) lens -> asked lens = n ->
  macro_storage_read macros_storage n (v_keyboard v) = Some (Sent bs, k') ->
  exists v', read_all lens (begin READ MACROS_STORAGE MacroStorage n v) = Some (take (Z.to_nat n) bs, v') /\
    same_keyboard (v_keyboard v') k'.
Proof.
  intros Hk Hl <- E. destruct Hk. unfold macro_storage_read in E. destruct (Z.leb_spec (asked lens) MACROS_SIZE); [|done].
  pose proof (asked_nonneg lens Hl).
  destruct (write_stream_ok macros_storage (Z.to_nat (asked lens)) _ medium_is_ready0) as (E1 & _ & E2).
  { eapply in_medium_sub; [exact medium_is_there0|lia..]. }
  destruct (Endpoint_Write_Control_Stream _ _ _) as [bs1 m1]. cbn [fst snd] in *. injection E as <- <-.
  destruct (read_all_medium lens (begin READ MACROS_STORAGE MacroStorage (asked lens) v)) as (v' & m & E & Ev & Em); try done.
  - lia.
  - destruct (storages_known0 MacroStorage) as [Es|Es]; [done|left|right; right]; cbn in *; by rewrite Es.
  - exists v'. rewrite E, E1. split; [by rewrite take_ge by (by rewrite bytes_at_length)|]. exists m. rewrite Ev. split; [done|].
    intros x. rewrite Em. symmetry. apply E2.
Qed.

(** One of the builds' chains of requests, decided. *)
Ltac next_request r :=
  match goal with |- context [if r =? ?c then _ else _] => destruct (Z.eqb_spec r c) as [Erq|_]; [rewrite ?Erq|] end.

Lemma reads_alike rq ps lens bs k' (v : vusb) :
  transferable (v_keyboard v) -> Forall (fun n => 0 < n <= 8) lens -> asked lens = rq_length rq ->
  rq_type rq = DEVICETOHOST -> lufa_read (lufa_form rq) (v_keyboard v) = Some (Sent bs, k') ->
  exists v', vusb_control rq ps lens v = Some (bytes_of rq (Sent bs), v') /\ same_keyboard (v_keyboard v') k'.
Proof.
  intros Hk Hl Hn Ht. unfold UsbMain.read_request, vusb_control, usbFunctionSetup, vendor_request, transfer_of, receives, lufa_form.
  rewrite Ht. cbn [bRequest wLength bytes_of]. change (Z.land DEVICETOHOST USBRQ_TYPE_MASK =? USBRQ_TYPE_CLASS) with false.
  change (negb (Z.land DEVICETOHOST USBRQ_DIR_MASK =? 0)) with true. cbv iota zeta.
  repeat (next_request (rq_request rq);
    [cbn [Z.eqb Pos.eqb];
     first [ intros [= <- <-]; eexists; split; [reflexivity|]; apply same_keyboard_refl
           | intros (bs1 & E & [= <- <-])%bind_Some | idtac ] |]).
  all: try done.
  - by apply (list_answer Programs); [left; left|..].
  - by apply (list_answer MacroIndexArea); [left; right; left|..].
  - intros E. by apply macros_read.
  - pose proof (proj2 (array_read_bytes _ _ _ E)) as Hm. rewrite defaults_length in Hm. rewrite min_mapping by done.
    by apply (list_answer DefaultMapping); [right|..].
  - pose proof (proj2 (array_read_bytes _ _ _ E)) as Hm. rewrite (mapping_length _ Hk) in Hm. rewrite min_mapping by done.
    by apply (list_answer Mapping); [left; right; right|..].
Qed.

Lemma list_accepted a ps l (v : vusb) :
  list_area a -> transferable (v_keyboard v) -> transfer_callback v = false -> usb_packets ps -> Forall is_u8 (concat ps) ->
  array_write (concat ps) (area_bytes a (v_keyboard v)) = Some l ->
  exists v', (v ← write_all ps (begin WRITE (storage_of a) a (Z.of_nat (length (concat ps))) v); Some ([] : list Z, v))
      = Some ([], v') /\
    same_keyboard (v_keyboard v') (with_area a l (v_keyboard v)).
Proof.
  intros Ha Hk Hc Hps Hu E. destruct (list_transfer a ps _ l _ v Ha Hk Hps eq_refl Hu E eq_refl) as (v' & E1 & Ev).
  rewrite E1. exists v'. rewrite Ev, Hc. split; [done|apply same_keyboard_refl].
Qed.

Lemma array_write_small data l l' n :
  array_write data l = Some l' -> Z.of_nat (length l) = n -> min_u16 n (Z.of_nat (length data)) = Z.of_nat (length data).
Proof.
  intros [_ Hl]%array_write_bytes <-. unfold min_u16. destruct (Z.ltb_spec (Z.of_nat (length l)) (Z.of_nat (length data))); lia.
Qed.

Lemma writes_alike rq ps lens k' reply (v : vusb) :
  transferable (v_keyboard v) -> steps_from macros_storage -> transfer_callback v = false ->
  Forall is_u8 (concat ps) -> Z.of_nat (length (concat ps)) = rq_length rq -> rq_type rq = HOSTTODEVICE ->
  (reply = Received -> usb_packets ps) -> reply <> Stalled ->
  lufa_write (lufa_form rq) (concat ps) (v_keyboard v) = Some (reply, k') ->
  (reply = Received /\ (setup rq v).1 = NoMsg \/ reply = Acked /\ (setup rq v).1 = Message []) /\
  exists v', vusb_control rq ps lens v = Some (bytes_of rq reply, v') /\
    same_keyboard (v_keyboard v') (after_write rq k').
Proof.
  intros Hk Hsf Hc Hu Hn Ht Hps Hr.
  unfold UsbMain.write_request, vusb_control, usbFunctionSetup, vendor_request, after_write, transfer_of, receives, lufa_form.
  rewrite Ht. cbn [bRequest wValue bytes_of].
  change (Z.land HOSTTODEVICE USBRQ_TYPE_MASK =? USBRQ_TYPE_CLASS) with false.
  change (negb (Z.land HOSTTODEVICE USBRQ_DIR_MASK =? 0)) with false. cbv iota zeta. rewrite <- Hn. cbn [Z.eqb Pos.eqb andb].
  repeat (next_request (rq_request rq);
    [cbn [Z.eqb Pos.eqb fst];
     first [ intros [= <- <-]; split; [by right|]; eexists; split; [reflexivity|]; apply same_keyboard_refl
           | intros (k1 & (l & E & [= <-])%bind_Some & [= <- <-])%bind_Some; split; [by left|]
           | idtac ] |]).
  all: try (intros [= <- <-]; by destruct Hr).
  - destruct (list_transfer Programs ps _ l _ (set_callback true v) ltac:(by left) Hk (Hps eq_refl) eq_refl Hu E eq_refl)
      as (v' & E1 & Ev). cbn [storage_of] in E1. rewrite E1. exists v'. rewrite Ev. split; [done|apply same_keyboard_refl].
  - by apply (list_accepted MacroIndexArea); [right; left|auto..].
  - intros (k1 & E & [= <- <-])%bind_Some. split; [by left|]. unfold write_macro_storage in E.
    destruct (Z.leb_spec (Z.of_nat (length (concat ps))) MACROS_SIZE); [|done]. injection E as <-.
    destruct (macros_transfer ps _ _ v Hk Hsf (Hps eq_refl) eq_refl Hc eq_refl) as (v' & E1 & Ev); [done|].
    rewrite E1. by exists v'.
  - rewrite (array_write_small _ _ _ _ E (mapping_length _ Hk)). by apply (list_accepted Mapping); [right; right|auto..].
Qed.

Lemma lufa_read_reply rq (k k' : keyboard) reply :
  lufa_read rq k = Some (reply, k') -> reply <> Stalled -> exists bs, reply = Sent bs.
Proof.
  unfold UsbMain.read_request. intros E Hr.
  repeat match type of E with context [if ?b then _ else _] => destruct b end;
    first [ injection E as <-; eexists; exact eq_refl
          | apply bind_Some in E as (bs & _ & E); injection E as <-; eexists; exact eq_refl
          | unfold macro_storage_read in E; destruct (_ <=? _); [|done];
            destruct (Endpoint_Write_Control_Stream _ _ _); injection E as <-; eexists; exact eq_refl
          | injection E as <-; by destruct Hr ].
Qed.

(** The packets of the transfer as a host makes them. *)
Definition host_data (rq : vusb_request) (ps : list (list Z)) (lens : list Z) (reply : usb_reply) : Prop :=
  (rq_type rq = HOSTTODEVICE -> Z.of_nat (length (concat ps)) = rq_length rq) /\
  (rq_type rq = DEVICETOHOST -> asked lens = rq_length rq) /\
  usb_lengths lens /\ (reply = Received -> usb_packets ps) /\ Forall is_u8 (concat ps).

Lemma requests_alike rq ps lens reply k' (v : vusb) :
  transferable (v_keyboard v) -> steps_from macros_storage -> transfer_callback v = false -> host_data rq ps lens reply ->
  reply <> Stalled -> reply <> NotForUs ->
  lufa (lufa_form rq) (concat ps) (v_keyboard v) = Some (reply, k') ->
  (rq_type rq = DEVICETOHOST \/
   rq_type rq = HOSTTODEVICE /\ (reply = Received /\ (setup rq v).1 = NoMsg \/ reply = Acked /\ (setup rq v).1 = Message [])) /\
  exists v', vusb_control rq ps lens v = Some (bytes_of rq reply, v') /\ same_keyboard (v_keyboard v') (after_write rq k').
Proof.
  intros Hk Hsf Hc (Hw & Hrd & Hl & Hps & Hu) Hr Hf. unfold EVENT_USB_Device_ControlRequest. cbn [bmRequestType lufa_form].
  destruct (Z.eqb_spec (rq_type rq) DEVICETOHOST) as [Et|_]; [|destruct (Z.eqb_spec (rq_type rq) HOSTTODEVICE) as [Et|_]].
  - intros E. split; [by left|]. destruct (lufa_read_reply _ _ _ _ E Hr) as [bs ->].
    unfold after_write. rewrite Et. cbn [Z.eqb Pos.eqb andb]. apply reads_alike; auto. by apply usb_lengths_all.
  - intros E. destruct (writes_alike rq ps lens k' reply v) as [H1 H2]; auto.
  - by intros [= <- <-].
Qed.

(** A request with the data of a host. *)
Lemma vendor_transfer addr cfg packet ps lens reply k' (d : driver (A:=vusb)) pqs :
  let rq := request_of packet in
  let v := drv_app d in
  length packet = 8%nat -> 0 <= rq_length rq < USB_NO_MSG -> rests d -> standing addr addr cfg d ->
  transferable (v_keyboard v) -> steps_from macros_storage -> transfer_callback v = false ->
  host_data rq ps lens reply -> reply <> Stalled -> reply <> NotForUs -> (reply = Acked -> rq_length rq = 0) ->
  lufa (lufa_form rq) (concat ps) (v_keyboard v) = Some (reply, k') ->
  Forall (fun pq => 1 <= pq.1 /\ 1 <= pq.2)%nat pqs -> (Z.to_nat (rq_length rq / 8) + length ps + 3 <= length pqs)%nat ->
  exists d', rounds (F:=functions) addr packet ps pqs (HSetup, d) = Some (HDone (bytes_of rq reply), d') /\
    rests d' /\ standing addr addr cfg d' /\ same_keyboard (v_keyboard (drv_app d')) (after_write rq k').
Proof.
  intros rq v Hlen HN Hrest Hst Hk Hsf Hc Hd Hr Hf Hcmd E Hpq Hle.
  destruct (requests_alike rq ps lens reply k' v Hk Hsf Hc Hd Hr Hf E) as (Ht & v' & E' & Hsame).
  assert (Hs : standard rq = false) by (unfold standard; destruct Ht as [Ht|[Ht _]]; by rewrite Ht).
  assert (Hreply : reply_to (F:=functions) rq d = setup rq v) by (unfold reply_to; by rewrite Hs).
  assert (Hnew : new_address rq addr = addr /\ new_configuration rq cfg = cfg)
    by (unfold new_address, new_configuration; by rewrite Hs).
  destruct Hnew as [Hnew Hcfg]. destruct Hd as (Hw & Hrd & Hl & Hps & _).
  assert (Hfit : data_fits (F:=functions) packet ps lens d).
  { unfold data_fits. fold rq. rewrite Hreply. unfold receives. destruct Ht as [Ht|[Ht Hsetup]].
    - rewrite Ht. change (negb (Z.land DEVICETOHOST USBRQ_DIR_MASK =? 0)) with true.
      destruct (setup rq v).1; [by left|]. split; [done|]. by apply Hrd.
    - destruct Hsetup as [[Er Es]|[Er Es]]; rewrite Es; [|right; by apply Hcmd]. rewrite Ht.
      change (negb (Z.land HOSTTODEVICE USBRQ_DIR_MASK =? 0)) with false. specialize (Hps Er). split; [done|].
      rewrite <- (Hw Ht). pose proof (usb_packets_nonempty ps Hps). destruct (concat ps); [done|cbn; lia]. }
  destruct (transfer_completes (F:=functions) addr addr cfg packet ps lens d (bytes_of rq reply) v' Hlen HN eq_refl) with (pqs := pqs)
    as (h' & d' & E2 & _ & H2 & H3); [by right|done|done|done|fold rq; by rewrite Hreply|].
  fold rq in H2, H3. specialize (H3 Hpq Hle). subst h'. destruct (H2 _ eq_refl) as (_ & H4 & H5 & H6).
  exists d'. rewrite Hnew, Hcfg in H5. rewrite H6. by split_and!.
Qed.

(** The requests with which the host writes an array. *)
Definition writes_array (rq : vusb_request) : Prop :=
  rq_type rq = HOSTTODEVICE /\ rq_request rq ∈ [WRITE_PROGRAMS; WRITE_MACRO_INDEX; WRITE_MACRO_STORAGE; WRITE_MAPPING].

Lemma array_write_nothing l : array_write [] l = Some l.
Proof. done. Qed.

(** Without data the LUFA build acknowledges such a request, and the V-USB build waits for data. *)
Lemma empty_write_lufa rq (k : keyboard) :
  writes_array rq -> 0 <= MACROS_SIZE -> exists k', lufa (lufa_form rq) [] k = Some (Received, k').
Proof.
  intros [Ht Hr] Hm. unfold EVENT_USB_Device_ControlRequest, lufa_form. cbn [bmRequestType]. rewrite Ht.
  change (HOSTTODEVICE =? DEVICETOHOST) with false. change (HOSTTODEVICE =? HOSTTODEVICE) with true. cbv iota.
  unfold UsbMain.write_request. cbn [bRequest].
  rewrite !elem_of_cons, elem_of_nil in Hr.
  destruct Hr as [-> |[-> |[-> |[-> |[]]]]]; cbn [Z.eqb Pos.eqb];
    unfold write_programs, write_macro_index, write_macro_storage, write_mapping; rewrite ?array_write_nothing;
    cbn [mbind option_bind length Z.of_nat]; [by eexists..| |by eexists].
  rewrite (proj2 (Z.leb_le _ _)) by lia. by eexists.
Qed.

Lemma empty_write_setup rq (v : vusb) : writes_array rq -> (setup rq v).1 = NoMsg.
Proof.
  intros [Ht Hr]. unfold usbFunctionSetup. rewrite Ht.
  change (Z.land HOSTTODEVICE USBRQ_TYPE_MASK =? USBRQ_TYPE_CLASS) with false. cbv iota. unfold vendor_request.
  rewrite !elem_of_cons, elem_of_nil in Hr. by destruct Hr as [-> |[-> |[-> |[-> |[]]]]].
Qed.

(** C16: The two USB builds are one keyboard to the host, but for writes without data. Whatever vendor
    request the LUFA build answers (reads of all areas and sizes; writes of at least a byte to programs,
    macro index, macros and key map; the flags, the resets), the V-USB build answers alike, through its
    driver and whatever the timing: however the host's attempts and the polls of the main loop are
    interleaved, after as many rounds as there are packets plus three the host has the bytes that LUFA
    sends, cut to the length it asked for, and the keyboard is the one LUFA leaves, the cells of the
    macros' medium included, although the data have come in packets of eight bytes; but the V-USB build
    restarts the programs the host has written, which the LUFA build lets run on. The driver is ready
    for the next request. (No callback is set at the beginning: a transfer of programs that failed
    leaves one behind, vusb_main.c:265.) A write without data, however, which the LUFA build
    acknowledges, is never answered by the V-USB build: as often as the firmware polls and the host
    asks, the host does not get the status (usbdrv.c:590). *)
Theorem builds_answer_alike addr cfg packet (d : driver (A:=vusb)) :
  let rq := request_of packet in
  let v := drv_app d in
  length packet = 8%nat -> rests d -> standing addr addr cfg d ->
  transferable (v_keyboard v) -> steps_from macros_storage -> transfer_callback v = false ->
  (forall ps lens reply k' pqs,
     0 <= rq_length rq < USB_NO_MSG ->
     host_data rq ps lens reply -> reply <> Stalled -> reply <> NotForUs -> (reply = Acked -> rq_length rq = 0) ->
     lufa (lufa_form rq) (concat ps) (v_keyboard v) = Some (reply, k') ->
     Forall (fun pq => 1 <= pq.1 /\ 1 <= pq.2)%nat pqs -> (Z.to_nat (rq_length rq / 8) + length ps + 3 <= length pqs)%nat ->
     exists d', rounds (F:=functions) addr packet ps pqs (HSetup, d) = Some (HDone (bytes_of rq reply), d') /\
       rests d' /\ standing addr addr cfg d' /\ same_keyboard (v_keyboard (drv_app d')) (after_write rq k')) /\
  (writes_array rq -> rq_length rq = 0 -> 0 <= MACROS_SIZE ->
     (exists k', lufa (lufa_form rq) [] (v_keyboard v) = Some (Received, k')) /\
     forall pqs, exists h' d', rounds (F:=functions) addr packet [] pqs (HSetup, d) = Some (h', d') /\
       (h' = HSetup \/ h' = HStatusIn)).
Proof.
  intros rq v Hlen Hrest Hst Hk Hsf Hc. split.
  - intros ps lens reply k' pqs HN Hd Hr Hf Hcmd E Hpq Hle. by eapply vendor_transfer.
  - intros Hw HN Hms. split; [by apply empty_write_lufa|]. intros pqs.
    apply (empty_transfer_unanswered (F:=functions) addr addr cfg packet [] d pqs Hlen HN); try done.
    + unfold receives. fold rq. by rewrite (proj1 Hw).
    + unfold standard. fold rq. by rewrite (proj1 Hw).
    + by apply empty_write_setup.
Qed.
End Control.
End Transfers.

(** ** The host's copy of the keyboard report *)

Section Reports.
Context {H : Hardware} {K : HotKeys} {L : Leds} {M : Type} {St : Storage M}.
Context (outside : Z -> Z) (sram_read_byte avr_pgm_read_byte : Z -> Z).

Abbreviation vusb := (vusb (M:=M)).
Abbreviation fill := (Fill_KeyboardReport (M:=M) outside sram_read_byte avr_pgm_read_byte empty_keyboard_report).
Abbreviation send_keyboard := (send_keyboard (M:=M) outside sram_read_byte avr_pgm_read_byte).
Abbreviation class_request := (class_request (M:=M) outside sram_read_byte avr_pgm_read_byte).

(** What the LUFA build does when the host polls: the next report is filled in and remembered. *)
Definition polled (k : keyboard (M:=M)) : keyboard (M:=M) := set_prev_report (fill k).2 (fill k).1.

(** The host has been given [h]: the last report that was filled in, unless that one still waits. (It does not say
    that the reports before that one have reached the host; [heard_all] does.) *)
Definition in_step (h : KeyboardReport_Data_t) (v : vusb) : Prop :=
  if sending_keyboard v then KeyboardReportData v = prev_report (v_keyboard v) else h = prev_report (v_keyboard v).

Lemma set_own_report (k : keyboard (M:=M)) : set_prev_report (prev_report k) k = k.
Proof. by destruct k. Qed.

(** A report that is new is due; one that is not was the last one already. *)
Lemma update_and_compare_spec (v : vusb) :
  let '(changed, v1) := update_and_compare_keyboard outside sram_read_byte avr_pgm_read_byte v in
  v_keyboard v1 = polled (v_keyboard v) /\ KeyboardReportData v1 = prev_report (v_keyboard v1) /\
  (changed = false -> prev_report (v_keyboard v1) = prev_report (v_keyboard v)) /\
  sending_keyboard v1 = sending_keyboard v /\ kbd_idleRate v1 = kbd_idleRate v /\ keyboard_idle_ms v1 = keyboard_idle_ms v.
Proof.
  unfold update_and_compare_keyboard, polled. pose proof (Fill_prev_report outside sram_read_byte avr_pgm_read_byte empty_keyboard_report (v_keyboard v)) as Hp.
  destruct (fill (v_keyboard v)) as [k r]. cbn [fst snd] in *. case_bool_decide as E; split_and!; try done.
  - cbn. by rewrite E, set_own_report.
Qed.

Lemma send_keyboard_spec ready h (v : vusb) :
  in_step h v ->
  let '(sent, v') := send_keyboard ready v in
  let h' := default h sent in
  in_step h' v' /\
  v_keyboard v' = (if sending_keyboard v then v_keyboard v else polled (v_keyboard v)) /\
  (ready = true -> sending_keyboard v' = false /\ h' = prev_report (v_keyboard v')) /\
  (ready = true -> sending_keyboard v = true \/ repeat_idle (kbd_idleRate v) (keyboard_idle_ms v) = true -> is_Some sent) /\
  (ready = false -> sent = None).
Proof.
  intros Hh. unfold VusbMain.send_keyboard. destruct (sending_keyboard v) eqn:Es; cbn [negb].
  - unfold in_step in Hh. rewrite Es in Hh. rewrite Es. cbn [andb negb]. rewrite Es. destruct ready; cbn [andb default].
    + by split_and!.
    + split_and!; try done. unfold in_step. by rewrite Es.
  - unfold in_step in Hh. rewrite Es in Hh. pose proof (update_and_compare_spec v) as Hu.
    destruct (update_and_compare_keyboard _ _ _ v) as [changed v1]. destruct Hu as (H1 & H2 & H3 & H4 & H5 & H6).
    cbn [sending_keyboard set_sending kbd_idleRate keyboard_idle_ms]. rewrite H5, H6.
    destruct changed; cbn [negb andb].
    + cbn [sending_keyboard set_sending]. destruct ready; cbn [andb default]; split_and!; try done.
    + specialize (H3 eq_refl). destruct (repeat_idle _ _) eqn:Ei; cbn [sending_keyboard set_sending set_keyboard_data].
      * destruct ready; cbn [andb default]; split_and!; try done.
      * cbn [andb default]. split_and!; try done.
        -- unfold in_step. cbn. congruence.
        -- intros _. split; [done|]. cbn. congruence.
        -- intros _ [?|?]; done.
Qed.

(** A request either leaves the host's copy alone or, if it asks for the report, makes it the last one. *)
Lemma class_request_in_step rq h (v : vusb) :
  in_step h v ->
  let '(reply, v') := class_request rq v in
  in_step (if (rq_request rq =? USBRQ_HID_GET_REPORT) && (rq_index rq =? 1) then KeyboardReportData v' else h) v' /\
  ((rq_request rq =? USBRQ_HID_GET_REPORT) && (rq_index rq =? 1) = true ->
   reply = Message (Modifier (KeyboardReportData v') :: Reserved (KeyboardReportData v') :: KeyCode (KeyboardReportData v'))).
Proof.
  intros Hh. unfold VusbMain.class_request. cbv zeta.
  destruct (rq_request rq =? USBRQ_HID_GET_REPORT); cbn [andb]; [destruct (rq_index rq =? 1)|].
  - destruct (Fill_KeyboardReport _ _ _ _ _) as [k r]. split; [|done]. unfold in_step. cbn. by destruct (sending_keyboard v).
  - pose proof (Fill_MouseReport_prev outside (MouseReportData v) (v_keyboard v)) as Hp.
    destruct (Fill_MouseReport _ _ _) as [k r]. split; [|done]. unfold in_step in *. cbn in *. by rewrite Hp.
  - repeat match goal with |- context [if ?b then _ else _] => destruct b end; by split.
Qed.

(** *** What the host hears *)

(** A look of [USB_Perform_Update] at the keyboard's endpoint, a class request, and whatever else happens. *)
Inductive vusb_event :=
  | Looks (ready : bool)
  | Asks (rq : vusb_request)
  | Meanwhile (f : vusb -> vusb).

Definition asks_keyboard (rq : vusb_request) : bool := (rq_request rq =? USBRQ_HID_GET_REPORT) && (rq_index rq =? 1).

(** Everything else leaves the buffer, the flag and the last report alone ([ticks_leave], [mouse_leaves]). *)
Definition leaves_report (f : vusb -> vusb) : Prop := forall v,
  KeyboardReportData (f v) = KeyboardReportData v /\ sending_keyboard (f v) = sending_keyboard v /\
  prev_report (v_keyboard (f v)) = prev_report (v_keyboard v).

Lemma ticks_leave ticks : leaves_report (update_uptimems ticks).
Proof. intros v. unfold update_uptimems. by destruct (_ >? 0). Qed.

Lemma mouse_leaves Wheel ready : leaves_report (fun v => (send_mouse outside Wheel ready v).2).
Proof.
  assert (Hm : leaves_report (fun v => (update_and_compare_mouse outside v).2)).
  { intros v. unfold update_and_compare_mouse.
    pose proof (Fill_MouseReport_prev outside empty_mouse_report (v_keyboard v)) as Hp.
    destruct (Fill_MouseReport _ _ _) as [k r]. by case_bool_decide. }
  intros v. unfold send_mouse. specialize (Hm v). cbv beta in Hm.
  destruct (update_and_compare_mouse outside v) as [changed v1].
  cbn [snd] in Hm. set (v2 := if negb (sending_mouse v) then _ else v).
  assert (H2 : KeyboardReportData v2 = KeyboardReportData v /\ sending_keyboard v2 = sending_keyboard v /\
    prev_report (v_keyboard v2) = prev_report (v_keyboard v)) by (subst v2; destruct (negb _); [exact Hm|done]).
  set (v3 := if negb (sending_mouse v2) && _ then _ else v2).
  assert (H3 : KeyboardReportData v3 = KeyboardReportData v /\ sending_keyboard v3 = sending_keyboard v /\
    prev_report (v_keyboard v3) = prev_report (v_keyboard v)) by (subst v3; destruct (negb _ && _); exact H2).
  destruct (sending_mouse v3 && ready); exact H3.
Qed.

(** A request for the keyboard's report is left out. *)
Definition ordinary_event (e : vusb_event) : Prop :=
  match e with
  | Looks _ => True
  | Asks rq => asks_keyboard rq = false
  | Meanwhile f => leaves_report f
  end.

(** The reports given to the library, those filled in, and the state. *)
Definition event_step (e : vusb_event) (v : vusb) : list KeyboardReport_Data_t * list KeyboardReport_Data_t * vusb :=
  match e with
  | Looks ready =>
      let '(sent, v') := send_keyboard ready v in
      (option_list sent, if sending_keyboard v then [] else [(fill (v_keyboard v)).2], v')
  | Asks rq => ([], [], (class_request rq v).2)
  | Meanwhile f => ([], [], f v)
  end.

Fixpoint event_run (es : list vusb_event) (v : vusb) : list KeyboardReport_Data_t * list KeyboardReport_Data_t * vusb :=
  match es with
  | [] => ([], [], v)
  | e :: es =>
      let '(heard, filled, v) := event_step e v in
      let '(heard', filled', v) := event_run es v in
      (heard ++ heard', filled ++ filled', v)
  end.

(** The reports that differ from the one before; the first one from [h]. *)
Fixpoint changes (h : KeyboardReport_Data_t) (rs : list KeyboardReport_Data_t) : list KeyboardReport_Data_t :=
  match rs with
  | [] => []
  | r :: rs => if bool_decide (r = h) then changes h rs else r :: changes r rs
  end.

Definition waiting (v : vusb) : list KeyboardReport_Data_t := if sending_keyboard v then [KeyboardReportData v] else [].

Lemma class_request_waiting rq (v : vusb) :
  asks_keyboard rq = false -> waiting (class_request rq v).2 = waiting v.
Proof.
  unfold asks_keyboard, VusbMain.class_request. cbv zeta. intros He.
  destruct (rq_request rq =? USBRQ_HID_GET_REPORT); cbn [andb] in He; [rewrite He; by destruct (Fill_MouseReport _ _ _)|].
  by repeat match goal with |- context [if ?b then _ else _] => destruct b end.
Qed.

Lemma changes_repeat h rs : changes h (h :: rs) = changes h rs.
Proof. cbn. by rewrite bool_decide_true. Qed.

Lemma last_of_app {A} (l l' : list A) d : List.last (l ++ l') d = List.last l' (List.last l d).
Proof. revert d. induction l as [|x l IH]; intros d; [done|]. cbn [app]. by rewrite !last_shift. Qed.

Lemma changes_app h l rs : changes h (l ++ rs) = changes h l ++ changes (List.last l h) rs.
Proof.
  revert h. induction l as [|r l IH]; intros h; [done|]. cbn [app changes]. rewrite last_shift.
  case_bool_decide as E; [subst r; apply IH|]. cbn [app]. by rewrite IH.
Qed.

(** A look: what it gives to the library and what then waits, against what waited and what it fills in. *)
Lemma send_keyboard_hears ready h (v : vusb) :
  in_step h v ->
  let '(sent, v') := send_keyboard ready v in
  if sending_keyboard v then option_list sent ++ waiting v' = waiting v
  else let r := (fill (v_keyboard v)).2 in
       option_list sent ++ waiting v' = [r] \/ r = h /\ (option_list sent ++ waiting v' = [] \/ option_list sent ++ waiting v' = [h]).
Proof.
  intros Hh. unfold in_step in Hh. unfold VusbMain.send_keyboard, waiting. destruct (sending_keyboard v) eqn:Es; cbn [negb andb].
  - rewrite Es. cbn [andb negb]. rewrite Es. destruct ready; cbn [andb]; [done|]. by rewrite Es.
  - unfold update_and_compare_keyboard.
    pose proof (Fill_prev_report outside sram_read_byte avr_pgm_read_byte empty_keyboard_report (v_keyboard v)) as Hp.
    destruct (fill (v_keyboard v)) as [k r]. cbn [fst snd] in *.
    assert (Ek : prev_report k = h) by congruence.
    case_bool_decide as E; cbn [sending_keyboard set_sending negb andb].
    + destruct (repeat_idle _ _); cbn [sending_keyboard set_sending set_keyboard_data andb].
      * destruct ready; cbn; right; (split; [congruence|right]); by rewrite Ek.
      * right. split; [congruence|by left].
    + destruct ready; cbn; by left.
Qed.

(** One event: what the host hears and what then waits is what waited and what has been filled in. *)
Lemma event_step_spec e h (v : vusb) :
  in_step h v -> ordinary_event e ->
  let '(heard, filled, v') := event_step e v in
  in_step (List.last heard h) v' /\
  forall rs, changes h (heard ++ waiting v' ++ rs) = changes h (waiting v ++ filled ++ rs).
Proof.
  intros Hh He. destruct e as [ready|rq|f]; cbn [event_step ordinary_event] in *.
  - pose proof (send_keyboard_spec ready h v Hh) as Hs. pose proof (send_keyboard_hears ready h v Hh) as Hw.
    destruct (send_keyboard ready v) as [sent v']. destruct Hs as [Hs _]. split; [by destruct sent|].
    intros rs. rewrite (app_assoc (option_list sent)). unfold waiting at 2. destruct (sending_keyboard v) eqn:Es.
    + rewrite Hw. unfold waiting. by rewrite Es.
    + destruct Hw as [-> |[-> [-> | ->]]]; cbn [app]; [done|by rewrite changes_repeat|done].
  - pose proof (class_request_in_step rq h v Hh) as Hc. pose proof (class_request_waiting rq v He) as Hw.
    destruct (class_request rq v) as [reply v']. unfold asks_keyboard in He. rewrite He in Hc. cbn [snd] in *.
    split; [by destruct Hc|]. intros rs. by rewrite Hw.
  - destruct (He v) as (E1 & E2 & E3). unfold in_step, waiting in *. rewrite E1, E2, E3. by split.
Qed.

Lemma event_run_spec es h (v : vusb) :
  in_step h v -> Forall ordinary_event es ->
  let '(heard, filled, v') := event_run es v in
  in_step (List.last heard h) v' /\ changes h (heard ++ waiting v') = changes h (waiting v ++ filled).
Proof.
  intros Hh Hes.
  enough (Hall : let '(heard, filled, v') := event_run es v in
    in_step (List.last heard h) v' /\ forall rs, changes h (heard ++ waiting v' ++ rs) = changes h (waiting v ++ filled ++ rs)).
  { destruct (event_run es v) as [[heard filled] v']. destruct Hall as [H1 H2]. split; [done|].
    specialize (H2 []). by rewrite !app_nil_r in H2. }
  revert h v Hh. induction Hes as [|e es He Hes IH]; intros h v Hh; cbn [event_run]; [done|].
  pose proof (event_step_spec e h v Hh He) as H1. destruct (event_step e v) as [[heard filled] v1]. destruct H1 as [Hh1 H1].
  specialize (IH _ v1 Hh1). destruct (event_run es v1) as [[heard' filled'] v2]. destruct IH as [Hh2 H2].
  split; [by rewrite last_of_app|]. intros rs. rewrite <- !app_assoc, changes_app, H2, <- changes_app. apply H1.
Qed.

(** C30: In the V-USB build the host hears every report of the keyboard, in order. Take any sequence of looks of
    [USB_Perform_Update], with the endpoint ready or busy, of class requests other than one for the
    keyboard's report, and of whatever else happens (time, the mouse's endpoint, the main loop). The reports given to the library,
    and the one that then waits, are the one that waited before and all that have been filled in since,
    up to repetitions: none is dropped and none is put in another's place. At the end the host's copy is
    the last report filled in, unless that one waits; the next look does to the keyboard what the LUFA
    build does when the host polls, or nothing while a report waits; with the endpoint ready the host
    gets what waits or has changed, or the last report again when the idle time has passed, and then has
    the last report. A request for the keyboard's report (vusb_main.c:88), however, fills it in over the one
    in the buffer: a report that waits is replaced and not heard ([get_report_replaces]), and the keys of
    the old one may stay ([get_report_stale]); the answer is then the host's copy. *)
Theorem vusb_host_has_last_report h (es : list vusb_event) (v : vusb) :
  in_step h v -> Forall ordinary_event es ->
  let '(heard, filled, v1) := event_run es v in
  changes h (heard ++ waiting v1) = changes h (waiting v ++ filled) /\
  in_step (List.last heard h) v1 /\
  (forall ready, let '(sent, v2) := send_keyboard ready v1 in
     v_keyboard v2 = (if sending_keyboard v1 then v_keyboard v1 else polled (v_keyboard v1)) /\
     (ready = true -> sending_keyboard v2 = false /\ default (List.last heard h) sent = prev_report (v_keyboard v2)) /\
     (ready = true -> sending_keyboard v1 = true \/ repeat_idle (kbd_idleRate v1) (keyboard_idle_ms v1) = true -> is_Some sent)) /\
  (forall rq, asks_keyboard rq = true -> let '(reply, v2) := class_request rq v1 in
     let r := KeyboardReportData v2 in
     reply = Message (Modifier r :: Reserved r :: KeyCode r) /\
     r = (Fill_KeyboardReport outside sram_read_byte avr_pgm_read_byte (KeyboardReportData v1) (v_keyboard v1)).2 /\
     sending_keyboard v2 = sending_keyboard v1 /\ in_step r v2).
Proof.
  intros Hh Hes. pose proof (event_run_spec es h v Hh Hes) as Hrun.
  destruct (event_run es v) as [[heard filled] v1]. destruct Hrun as [Hh1 Hc]. split; [exact Hc|]. split; [exact Hh1|].
  split.
  - intros ready. pose proof (send_keyboard_spec ready _ v1 Hh1) as Hs. destruct (send_keyboard ready v1) as [sent v2].
    destruct Hs as (_ & Hs1 & Hs2 & Hs3 & _). exact (conj Hs1 (conj Hs2 Hs3)).
  - intros rq Hrq. pose proof (class_request_in_step rq _ v1 Hh1) as Hs. unfold asks_keyboard in Hrq. rewrite Hrq in Hs.
    apply andb_true_iff in Hrq as [H1 H2]. unfold VusbMain.class_request in *. cbv zeta in *. rewrite H1, H2 in *.
    destruct (Fill_KeyboardReport _ _ _ _ _) as [k r]. by destruct Hs.
Qed.
End Reports.

(** ** The clock *)

(** No time is lost when the timer is read often enough: what has not been counted stays in [remainder]. *)
Lemma update_uptimems_exact {M} ticks (v : vusb (M:=M)) :
  0 <= ticks -> 0 <= remainder v < 250 -> ticks + remainder v < 64000 -> 0 <= _uptimems (v_keyboard v) < 4294967296 ->
  let v' := update_uptimems ticks v in
  exists ms, 250 * ms + remainder v' = ticks + remainder v /\ 0 <= remainder v' < 250 /\
    _uptimems (v_keyboard v') = u32 (_uptimems (v_keyboard v) + ms).
Proof.
  intros Ht Hr Hs Hu v'. exists ((ticks + remainder v) / 250). subst v'. unfold update_uptimems.
  rewrite u16_small by (unfold is_u16; lia). cbn [remainder set_clocks]. split; [dlia|]. split; [dlia|].
  destruct (_ >? 0) eqn:E.
  - cbn. unfold Update_Millis. cbn. rewrite (u8_small (_ / 250)) by (unfold is_u8; dlia). done.
  - replace ((ticks + remainder v) / 250) with 0 by dlia. cbn. rewrite Z.add_0_r. unfold u32. by rewrite Z.mod_small.
Qed.

(** But [Update_Millis] takes a byte: of a fourth of a second and 6 ms, 6 ms are counted. *)
Example update_uptimems_loses :
  _uptimems (v_keyboard (update_uptimems (262 * 250) (vusb_start (k84_board keystate_start ui_start)))) = 6.
Proof. reflexivity. Qed.

(** The keyboard of the witnesses, with its arrays in the eeprom of the processor. *)
Lemma k84_transferable :
  transferable 0 avr_pgm avr_eeprom avr_eeprom avr_eeprom avr_eeprom (k84_board keystate_start ui_start).
Proof.
  split.
  - reflexivity.
  - intros [] Ha; first [by left | by destruct Ha].
  - exact k84_entries_ok.
  - vm_compute. reflexivity.
  - rewrite (index_bytes_length _ k84_entries_ok). vm_compute. reflexivity.
  - vm_compute. reflexivity.
  - vm_compute. reflexivity.
  - exact I.
  - exact I.
Qed.

(** The driver after the start, and a schedule: one poll, two attempts, again and again. *)
Definition driver_start {M} (k : keyboard (M:=M)) : driver (A:=vusb (M:=M)) :=
  usbInit (mkDriver 0 0 [] 0 (mkTx USBPID_NAK 0 []) [] USB_NO_MSG 0 0 0 0 (mkTx 0 0 []) (mkTx 0 0 []) (vusb_start k)).
Definition witness_rounds : list (nat * nat) := replicate 6 (1, 2)%nat.

(** WRITE_MAPPING with a key map of two keys more than a packet holds, and with none. *)
Lemma builds_answer_alike_witness :
  let k := k84_board keystate_start ui_start in
  let packet := [0x40; 2; 0; 0; 0; 0; 10; 0] in
  let ps := [[4; 5; 6; 7; 8; 9; 10; 11]; [12; 13]] in
  let nothing := [0x40; 2; 0; 0; 0; 0; 0; 0] in
  (exists d' k',
    EVENT_USB_Device_ControlRequest 0 macro_def_infos k84_msg avr_pgm 4 (lufa_form (request_of packet)) (concat ps) k
      = Some (Received, k') /\
    rounds (F := vusb_functions (I := K84cs_ids) k84_outside 0 macro_def_infos 0 0 k84_msg (memory_of k84_message) (memory_of k84_message) 4
      avr_pgm avr_eeprom avr_eeprom avr_eeprom avr_eeprom) 0 packet ps witness_rounds (HSetup, driver_start k) = Some (HDone [], d') /\
    same_keyboard (v_keyboard (drv_app d')) k') /\
  (forall pqs, exists h' d', rounds (F := vusb_functions (I := K84cs_ids) k84_outside 0 macro_def_infos 0 0 k84_msg (memory_of k84_message) (memory_of k84_message) 4
      avr_pgm avr_eeprom avr_eeprom avr_eeprom avr_eeprom) 0 nothing [] pqs (HSetup, driver_start k) = Some (h', d') /\
    (h' = HSetup \/ h' = HStatusIn)).
Proof.
  cbv zeta. set (k := k84_board _ _). set (packet := [0x40; 2; 0; 0; 0; 0; 10; 0]). set (ps := [_; _]).
  assert (Hrest : rests (driver_start k)) by (split; [reflexivity|right; reflexivity]).
  assert (Hst : standing 0 0 0 (driver_start k)) by (split_and!; reflexivity).
  split.
  2: { destruct (builds_answer_alike (I := K84cs_ids) (StepStorageOk0 := avr_eeprom_steps_ok) k84_outside 0 macro_def_infos 0 0 k84_msg
    (memory_of k84_message) (memory_of k84_message) 4 avr_pgm avr_eeprom avr_eeprom avr_eeprom avr_eeprom
    0 0 [0x40; 2; 0; 0; 0; 0; 0; 0] (driver_start k) eq_refl Hrest Hst k84_transferable I eq_refl) as [_ Hnothing].
    apply Hnothing; [split; [reflexivity|]|reflexivity|vm_compute; discriminate].
    do 3 apply list_elem_of_further. apply list_elem_of_here. }
  destruct (EVENT_USB_Device_ControlRequest 0 macro_def_infos k84_msg avr_pgm 4 (lufa_form (request_of packet)) (concat ps) k)
    as [[reply k']|] eqn:E.
  2: { exfalso. assert (Hs : match EVENT_USB_Device_ControlRequest 0 macro_def_infos k84_msg avr_pgm 4 (lufa_form (request_of packet))
         (concat ps) k with Some _ => true | None => false end = true) by (vm_compute; reflexivity). rewrite E in Hs. discriminate. }
  assert (Hreply : reply = Received).
  { assert (Hs : fst <$> EVENT_USB_Device_ControlRequest 0 macro_def_infos k84_msg avr_pgm 4 (lufa_form (request_of packet)) (concat ps) k
      = Some Received) by (vm_compute; reflexivity). rewrite E in Hs. by injection Hs. }
  subst reply.
  assert (Hu : Forall is_u8 (concat ps)) by (repeat (apply Forall_cons; split; [vm_compute; split; congruence|]); by apply Forall_nil).
  assert (Hd : host_data (request_of packet) ps [] Received).
  { split; [intros _; reflexivity|]. split; [discriminate|]. split; [exact I|]. split; [intros _; vm_compute; lia|exact Hu]. }
  assert (Hpq : Forall (fun pq => 1 <= pq.1 /\ 1 <= pq.2)%nat witness_rounds)
    by (repeat (apply Forall_cons; split; [cbn; lia|]); by apply Forall_nil).
  destruct (builds_answer_alike (I := K84cs_ids) (StepStorageOk0 := avr_eeprom_steps_ok) k84_outside 0 macro_def_infos 0 0 k84_msg
    (memory_of k84_message) (memory_of k84_message) 4 avr_pgm avr_eeprom avr_eeprom avr_eeprom avr_eeprom
    0 0 packet (driver_start k) eq_refl Hrest Hst k84_transferable I eq_refl) as [Hdata _].
  destruct (Hdata ps [] Received k' witness_rounds) as (d' & E1 & _ & _ & E2); try assumption.
  - vm_compute. split; congruence.
  - discriminate.
  - discriminate.
  - discriminate.
  - vm_compute. lia.
  - exists d', k'. split; [reflexivity|]. split; [exact E1|exact E2].
Defined.

(** The device descriptor at address 0. *)
Lemma driver_enumerates_witness :
  let F := vusb_functions (M:=mem) (I := K84cs_ids) k84_outside 0 macro_def_infos 0 0 k84_msg (memory_of k84_message) (memory_of k84_message) 4
    avr_pgm avr_eeprom avr_eeprom avr_eeprom avr_eeprom in
  let packet := [0x80; 6; 0; 1; 0; 0; 18; 0] in
  exists d', rounds (F := F) 0 packet [] witness_rounds (HSetup, driver_start (k84_board keystate_start ui_start))
    = Some (HDone (DeviceDescriptor (I := K84cs_ids)), d') /\ rests d'.
Proof.
  cbv zeta. set (F := vusb_functions _ _ _ _ _ _ _ _ _ _ _ _ _ _). set (d := driver_start _). set (packet := [0x80; _; _; _; _; _; _; _]).
  assert (Hpq : Forall (fun pq => 1 <= pq.1 /\ 1 <= pq.2)%nat witness_rounds)
    by (repeat (apply Forall_cons; split; [cbn; lia|]); by apply Forall_nil).
  destruct (driver_enumerates (F := F) 0 0 packet d witness_rounds eq_refl) as [H1 _].
  - vm_compute. split; congruence.
  - split; [reflexivity|right; reflexivity].
  - split_and!; reflexivity.
  - destruct (H1 Hpq) as (H2 & _); [vm_compute; lia|].
    destruct H2 as (d' & E & Hd' & _); [by left|reflexivity|exact (list_elem_of_here 1 [2; 3; 0x21; 0x22])|].
    exists d'. split; [exact E|exact Hd'].
Defined.

(** A request for the report does not clear the buffer it is filled into (vusb_main.c:88): no key is
    down, and the host is told that A still is. *)
Example get_report_stale :
  let v := set_keyboard_data (mkKeyboardReport 0 0 [4; 0; 0; 0; 0; 0]) (vusb_start (k84_board keystate_start ui_start)) in
  (class_request k84_outside (memory_of k84_message) (memory_of k84_message) (mkVusb 0xA1 USBRQ_HID_GET_REPORT 0x100 1 8) v).1
  = Message [0; 0; 4; 0; 0; 0; 0; 0].
Proof. vm_compute. reflexivity. Qed.

(** And it fills it in over a report that waits: the host is never told that A went down. *)
Example get_report_replaces :
  let pressed := mkKeyboardReport 0 0 [4; 0; 0; 0; 0; 0] in
  let k := set_prev_report pressed (k84_board (KeystateProofs.k84_run (replicate 8 [9])) ui_start) in
  let v := set_sending true false (set_keyboard_data pressed (vusb_start k)) in
  let v' := (class_request k84_outside (memory_of k84_message) (memory_of k84_message) (mkVusb 0xA1 USBRQ_HID_GET_REPORT 0x100 1 8) v).2 in
  waiting v = [pressed] /\ waiting v' = [mkKeyboardReport 0 0 [5; 0; 0; 0; 0; 0]].
Proof. split; vm_compute; reflexivity. Qed.

(** A key goes down while the endpoint is busy: the report waits for it, and the host hears it then. *)
Lemma vusb_host_has_last_report_witness :
  let v := vusb_start (k84_board (KeystateProofs.k84_run (replicate 8 [8])) ui_start) in
  let es := [Looks false; Asks (mkVusb 0x21 USBRQ_HID_SET_IDLE 0 1 0); Meanwhile (update_uptimems 300); Looks true; Looks true] in
  let '(heard, filled, v') := event_run k84_outside (memory_of k84_message) (memory_of k84_message) es v in
  map KeyCode heard = [[4; 0; 0; 0; 0; 0]] /\ length filled = 2%nat /\
  changes empty_keyboard_report (heard ++ waiting v') = changes empty_keyboard_report (waiting v ++ filled).
Proof.
  cbv zeta. set (v := vusb_start _). set (es := [_; _; _; _; _]).
  assert (H0 : in_step empty_keyboard_report v) by reflexivity.
  assert (Hes : Forall ordinary_event es) by (do 5 (apply Forall_cons; split; [first [exact I|reflexivity|apply ticks_leave]|]); apply Forall_nil; exact I).
  assert (Hs : (map KeyCode (event_run k84_outside (memory_of k84_message) (memory_of k84_message) es v).1.1,
    length (event_run k84_outside (memory_of k84_message) (memory_of k84_message) es v).1.2)
    = ([[4; 0; 0; 0; 0; 0]], 2%nat)) by (vm_compute; reflexivity).
  pose proof (vusb_host_has_last_report k84_outside (memory_of k84_message) (memory_of k84_message)
    empty_keyboard_report es v H0 Hes) as H1.
  destruct (event_run _ _ _ es v) as [[heard filled] v']. cbn [fst snd] in Hs. injection Hs as Hs1 Hs2.
  split; [exact Hs1|]. split; [exact Hs2|exact (proj1 H1)].
Defined.
